(* ===== verification/_CoqProject ===== *)
-Q . S2P
Prelude.v
GoStrings.v
GoSort.v
Database.v
Event.v
BitsEncoding.v
ActorContext.v
Redis.v
Locks.v
LocksSpec.v
LocksSystem.v
LedgerEntity.v
LedgerAccount.v
LedgerAccountInv.v
LedgerAccountSpec.v
LedgerRepo.v
LedgerStore.v
LedgerStoreInv.v
LedgerStoreSpec.v
LedgerStoreRefine.v
LedgerStoreTheorems.v
LedgerService.v
LedgerServiceInv.v
LedgerServiceSpec.v
LedgerServiceTheorems.v
PaymentEvents.v
PaymentIntent.v
PaymentAggregate.v
PaymentAggregateInv.v
PaymentAggregateSpec.v
PaymentAggregateTheorems.v
PaymentLedger.v
PaymentLedgerSpec.v
PaymentLedgerTheorems.v
LedgerMessaging.v
LedgerTransport.v
LedgerMessagingSpec.v
LedgerMessagingTheorems.v
RelationshipEntity.v
RelationshipPair.v
RelationshipPairSpec.v
RelationshipStore.v
RelationshipStoreSpec.v
RelationshipTheorems.v
RoomEntity.v
RoomEntitySpec.v
RoomAggregate.v
RoomSpec.v
RoomProjection.v
RoomStore.v
RoomTables.v
RoomStoreSpec.v
RoomSaveSpec.v
RoomFrame.v
RoomHandlers.v
RoomSystem.v
RoomCalls.v
RoomTheorems.v
VideoCall.v
VideoCallSpec.v
AccountEntity.v
AccountAggregate.v
AccountAuth.v
AccountStore.v
AccountHandlers.v
AccountSpec.v
AccountStoreSpec.v
AccountSessionSpec.v
AccountMemory.v
AccountRoundtrip.v
AccountTheorems.v
PaymentStore.v
PaymentProviders.v
PaymentService.v
StripeProvider.v
PaymentStoreSpec.v
PaymentSystem.v
PaymentMemory.v
PaymentServiceTheorems.v
StripeTheorems.v
