(* ===== verification/Prelude.v ===== *)
(** * Verification of the wechat-clone backend

    A model of the parts of the backend that decide things - money, payments,
    relations between users, chat rooms, accounts and their sessions - and the
    theorems that make them correct. Code is translated from [core/]; the file and function names
    below are those of the source, and a definition has the name of the
    function, method or type it translates.

    ** How the code is modelled

    A Go value is a value: strings are byte strings ([String.string]),
    [int64] and [int] are [Z] with their wrap-around written out ([wrap64],
    [add64], ...), a [time.Time] is an instant in nanoseconds, a struct is a
    [Record], a map a [gmap], a slice a [list], a pointer that may be nil an
    [option]. A call that can fail gives a [result]: a value, an error or a
    panic. A method with a receiver is a [method]: a state monad over
    [result] that keeps the state an error leaves, because Go does not undo a
    mutation when it returns an error. Errors are sentinels, or values that
    wrap others ([errors_Is]). Where objects are shared, the store that shares
    them is in the state: the accounts a ledger transaction has loaded, the
    two sides of a relationship pair.

    Code that is not of the repository is a parameter with laws: the
    statements a store sends to the database ([LedgerSQL], [RelationSQL],
    [RoomSQL], [AccountSQL], [PaymentSQL]), the client of Stripe
    ([Stripe.StripeAPI]), the commands of Redis ([Redis]), the clock and
    the random source ([Runtime]), argon2 and base64 ([Crypto]), the signatures
    of PASETO ([PasetoV2]), [mail.ParseAddress] ([MailAddress]),
    [encoding/json] ([JSON], for strings that are valid UTF-8), the Unicode
    tables that case mapping uses beyond ASCII ([UnicodeCase]), fresh ids and
    [time.Now()] (arguments). Every such interface has an instance on which the
    theorems are evaluated by their witnesses.

    ** Files

    Shared: [Prelude] (results, methods, [int64], times, tactics), [GoStrings]
    (package [strings]), [Database] (the driver's errors, effects of
    statements), [Event] (shared/pkg/event: aggregate roots, [ApplyChange],
    replay, the publisher, the registry of event types),
    [BitsEncoding] (an encoding for the instances in memory), [ActorContext]
    (shared/pkg/actorctx).
    [Redis]: the client, the cache and the idempotency manager
    (shared/infra/cache, shared/infra/idempotency). [Locks] with [LocksSpec]:
    the lock in Redis, [WithLocks] and their contract (shared/infra/lock);
    [LocksSystem]: many calls of [WithLocks] as steps that interleave.

    Ledger (modules/ledger). [LedgerEntity]: double-entry transactions and
    bookings. [LedgerAccount]: the account aggregate, its events and commands;
    [LedgerAccountInv], [LedgerAccountSpec]: its invariant, and its
    specification as a journal of postings. [LedgerRepo]: the repository
    interface of the module, a class with its contract and a small instance.
    [LedgerStore]: the event store behind it (events, versions, snapshots,
    posted transactions, outbox); [LedgerStoreInv], [LedgerStoreSpec],
    [LedgerStoreRefine] prove that it satisfies that contract,
    [LedgerStoreTheorems] has a database for it and the results. [LedgerService], with [LedgerServiceInv], [LedgerServiceSpec] and
    [LedgerServiceTheorems]: transfers and recording of events over any
    repository with the contract. [PaymentLedger], [PaymentLedgerSpec],
    [PaymentLedgerTheorems]: what the ledger does with payment events.
    [LedgerMessaging]: the consumer of the payment outbox, with its own copies
    of the event builders; [LedgerTransport]: the gRPC server, the transfer
    command and the fee policy; [LedgerMessagingSpec] shows that the copies
    agree, [LedgerMessagingTheorems] has the results.

    Payment (modules/payment). [PaymentEvents]: the payloads. [PaymentIntent]:
    the intent and its state machine. [PaymentAggregate]: the aggregate, with
    its own copies of the entity's functions; [PaymentAggregateInv] and
    [PaymentAggregateSpec] give what a provider's outcome means,
    [PaymentAggregateTheorems] the results. [PaymentStore]: the repository
    (infra/persistent), its tables and their laws; [PaymentStoreSpec]: what a
    save writes and a load reads. [PaymentProviders]: the providers' interface,
    registry and adapter, and the mock provider; [StripeProvider]: what is sent
    to Stripe and how its webhooks are read. [PaymentService]: the commands of
    application/service, the consumer of the ledger outbox and the error codes
    of the gRPC server. [PaymentSystem]: loads, creations, outcomes and saves of
    many requests as steps that interleave, on aggregates in memory that may be
    stale and without locks; every command of the service is a run of them, in
    which other requests may work during the calls of the provider.
    [PaymentMemory]: an instance, with the mock provider;
    [PaymentServiceTheorems] and [StripeTheorems]: the results.

    Relationship (modules/relationship). [RelationshipEntity]: requests,
    friendships, follows, blocks and the policy. [RelationshipPair]: the
    aggregates; [RelationshipPairSpec]: commands as steps of the bond of two
    users. [RelationshipStore]: repository and handlers,
    the tables and their laws; [RelationshipStoreSpec]: their invariant,
    loading and saving; [RelationshipTheorems]: the results.

    Room (modules/room). [RoomEntity], [RoomEntitySpec]: rooms, members,
    messages and reactions with their rules ([GoSort] has what [sort.Slice]
    determines). [RoomAggregate] with [RoomSpec]: the room aggregate, and its
    commands as effects ([commandSpec]); [RoomAggregate] also has the aggregate
    of a message that was loaded. [RoomProjection]: the projection events.
    [RoomStore]: the repositories, the cache and the transaction over
    [RoomSQL]; [RoomTables]: tables, laws, their invariant and an
    instance; [RoomStoreSpec], [RoomSaveSpec]: what a load gives and a save
    writes; [RoomFrame]: what every run keeps. [RoomHandlers]: the command
    handlers; [RoomSystem]: their halves as steps that interleave, with the
    aggregates in flight; [RoomCalls]: a call is a run of steps, and what a
    request does; [RoomTheorems]: the results. [VideoCall] with
    [VideoCallSpec]: sessions of video calls and their service.

    Account (modules/account, shared/pkg/hasher, shared/infra/xpaseto).
    [AccountEntity]: value objects, accounts, sessions and devices.
    [AccountAggregate] with [AccountSpec]: the account aggregate, its commands
    as events, and what completes a replay. [AccountAuth]: passwords and
    tokens. [AccountStore]: the repositories, their caches and the transaction
    with its hooks, over [AccountSQL], with the tables and the laws;
    [AccountStoreSpec]: what the repositories read and write.
    [AccountHandlers]: the command handlers; [AccountSessionSpec]: what they do
    to sessions; [AccountMemory]: an instance; [AccountRoundtrip] and
    [AccountTheorems]: the results.

    ** What the theorems show

    Money. An account's balance is the sum of its postings, its commands
    implement a journal, its history rebuilds it, and commands outside the
    exempt payment kinds never overdraw it. A transfer moves the amount and
    the fee or nothing, once per transaction id; recording events is all or
    nothing. The event store loads the replay of the full history, refuses
    stale accounts and double postings, and satisfies the contract the service
    is proved against, so that the service's theorems hold over it.

    Payments. An intent moves along the machine of its status; a payment
    announces at most one settlement and one reversal; an outcome does what
    its specification says and is rebuilt from its events. However requests
    interleave, each settlement is announced to the ledger at most once; a
    saved payment is loaded as it was; a webhook stores what the outcome of its
    result is, in one transaction; a refund asks for money only once the payment
    has succeeded. What the service does not keep is stated as well: a creation
    that waits for its provider overwrites a settlement
    ([create_overwrites_settlement]), for good
    ([overwritten_payment_is_stuck]); withdrawals for unknown providers stop
    the payouts ([unknown_providers_starve_withdrawals]); a declined attempt
    loses the payment that follows it ([declined_payment_is_lost]), and a partial
    refund is refused ([partial_refund_is_rejected]). In the ledger each
    payment event moves the principal and the fee once, a withdrawal is
    covered by the balance, and its failure restores every balance. A refund
    does not: [refund_takes_reported_amount] states the discrepancy. The two
    ways in which a payment event reaches the ledger agree: a message of the
    outbox moves what the service moves, once, and the gRPC server locks every
    account that changes.

    Relations. Whatever handlers run, stored counters are the counts of the
    tables, a command takes one step of the bond or leaves no trace, and a
    block keeps two users apart until it is lifted.

    Rooms. A handler on a room saves exactly the effect that the
    specification computes from the stored room and members, or leaves the
    tables as they were. However loads, commands and saves interleave, a room
    keeps its owner and kind, a conversation that is no group its members, and
    a message the text of its sender. Reactions are a set that toggling changes
    by one. The sender of a message never reaches the projection:
    [sent_message_loses_its_sender]. The session of a video call stays well
    formed and ends when its participants have left; but no call can start
    while locks and cache are one Redis: [video_call_never_starts].

    Accounts. The events of an account tell its state, and an account that
    was saved is loaded as it was ([onRecord]). A refresh needs a live session
    that holds the hash of its token, rotates it, and uses the token up;
    changing the password ends every session of the account and no other. A
    device can log in only once, and the session of a login with Google never
    refreshes: [known_device_cannot_log_in], [google_session_cannot_refresh].

    Locks. [WithLocks] holds its keys exactly while its function runs,
    whatever happens; calls that interleave exclude each other and do not
    deadlock, because keys are normalized to one order; the loop of
    [AcquireLock] ends. A busy lock is refused at once, and the idempotency
    manager never refuses: [busy_lock_is_refused], [Begin_never_refuses].

    ** Bounds

    Loops of the source range over slices and maps, which is structural; only
    [AcquireLock] needs fuel, of one round more than the waits that fit its
    timeout, and [AcquireLock_returns] shows that this is enough.
    Sums and versions wrap at 64 bits; theorems that need room for the version
    counter say so ([version_room]).

    ** Not modelled

    I/O over clients of other systems (HTTP, gRPC and websocket transports,
    Kafka, Redis, Cassandra, Elasticsearch, Stripe, object storage, SMTP), the
    read models and their projections (of rooms, relations, accounts and
    notifications), the notification module, which writes an inbox from the
    events of the others and sends mail and push messages, the HTTP handlers and
    the cron job of payments, wiring and configuration, and generated mocks. The
    bodies of SQL statements: only what they rely on of the tables.
    Concurrency is modelled by the order in which transactions run, each of
    them as one step, and for rooms by the order in which handlers load and
    save; for payments by the order of loads, outcomes and saves. Locations of
    times, and row ids and metadata that nothing reads. Locks that expire
    while they are held, and replies of Redis that are lost. *)

From stdpp Require Import prelude strings gmap.
From Stdlib Require Import ZArith Lia.

Declare Scope go_scope.
Delimit Scope go_scope with go.

#[global] Open Scope Z_scope.
#[global] Open Scope string_scope.
#[global] Open Scope list_scope.

(** Lemmas that close the common side goals of the library. *)
Create HintDb go discriminated.

(** ** Errors

    A Go [error] is either a package-level sentinel, identified by the name
    of the variable that holds it, or a value built by [fmt.Errorf] /
    [errors.New] from a format and the errors its [%w] verbs wrap.
    [stackErr.Error] only attaches a stack trace, which [errors.Is] looks
    through: it is the identity here. *)
Inductive error : Type :=
  | Sentinel (name : string)
  | Errorf (format : string) (wrapped : list error).

(** [errors.Is err target] for a sentinel target. *)
Fixpoint errors_Is (err : error) (target : string) : bool :=
  match err with
  | Sentinel n => String.eqb n target
  | Errorf _ ws => existsb (fun e => errors_Is e target) ws
  end.

(** The outcome of a Go call: a value, a non-nil error, or a panic. *)
Inductive result (A : Type) : Type :=
  | Ok (a : A)
  | Err (e : error)
  | Panic (why : string).
Arguments Ok {A} a.
Arguments Err {A} e.
Arguments Panic {A} why.

#[export] Instance result_ret : MRet result := fun A a => Ok a.
#[export] Instance result_bind : MBind result := fun A B f m =>
  match m with Ok a => f a | Err e => Err e | Panic w => Panic w end.

Definition is_ok {A} (r : result A) : bool :=
  match r with Ok _ => true | _ => false end.

(** A call that wraps the error of another call ([fmt.Errorf("...%w", err)]). *)
Definition map_err {A} (f : error -> error) (r : result A) : result A :=
  match r with Err e => Err (f e) | _ => r end.

(** ** Methods

    A method of a Go object of type [S] takes the object, and leaves it in
    some state whether it returns a value, an error or panics: mutations made
    before an error is returned are not undone. *)
Definition method (S A : Type) : Type := S -> result A * S.

#[export] Instance method_ret {S} : MRet (method S) := fun A a s => (Ok a, s).
#[export] Instance method_bind {S} : MBind (method S) := fun A B f m s =>
  match m s with
  | (Ok a, s') => f a s'
  | (Err e, s') => (Err e, s')
  | (Panic w, s') => (Panic w, s')
  end.

Definition get {S} : method S S := fun s => (Ok s, s).
Definition put {S} (s : S) : method S unit := fun _ => (Ok tt, s).
Definition modify {S} (f : S -> S) : method S unit := fun s => (Ok tt, f s).
Definition raise {S A} (e : error) : method S A := fun s => (Err e, s).
Definition lift {S A} (r : result A) : method S A := fun s => (r, s).

(** A method call whose error is wrapped by its caller. *)
Definition wrap_err {S A} (f : error -> error) (m : method S A) : method S A :=
  fun s => let '(r, s') := m s in (map_err f r, s').

(** A method of an object that is held by value: its result, and the object as
    it leaves it. *)
Definition after {S A} (m : method S A) (s : S) : result (A * S) :=
  match m s with
  | (Ok a, s) => Ok (a, s)
  | (Err e, _) => Err e
  | (Panic why, _) => Panic why
  end.

(** [for _, x := range l { body }] where the body may return early with an
    error. *)
Fixpoint range {S A} (l : list A) (body : A -> method S unit) : method S unit :=
  match l with
  | [] => mret tt
  | x :: l' => body x ≫= fun _ => range l' body
  end.

(** ** int64 *)

Definition int64_min : Z := - 2 ^ 63.
Definition int64_max : Z := 2 ^ 63 - 1.

(** Two's-complement wrap-around of an integer to 64 bits: the value of a Go
    [int64] (and [int]) expression whose mathematical value is [z]. *)
Definition wrap64 (z : Z) : Z := (z + 2 ^ 63) `mod` 2 ^ 64 - 2 ^ 63.

Definition in64 (z : Z) : Prop := int64_min <= z <= int64_max.

Definition add64 (x y : Z) : Z := wrap64 (x + y).
Definition sub64 (x y : Z) : Z := wrap64 (x - y).
Definition mul64 (x y : Z) : Z := wrap64 (x * y).
Definition neg64 (x : Z) : Z := wrap64 (- x).

(** ** time.Time

    An instant, as the number of nanoseconds since the zero [time.Time]
    (1 January of year 1, UTC). The location of a [Time] is presentation only
    and is not kept: [t.UTC()] is the same instant. *)
Definition Time : Type := Z.
Definition Time_zero : Time := 0.
Definition IsZero (t : Time) : bool := bool_decide (t = 0).
Definition UTC (t : Time) : Time := t.

(** Seconds from the zero time to the Unix epoch. *)
Definition unix_epoch_seconds : Z := 62135596800.
Definition Unix (t : Time) : Z := t `div` 1000000000 - unix_epoch_seconds.

(** ** Inversion of monadic code *)

Section result_lemmas.
Context {A B : Type}.
Implicit Types (m : result A) (f : A -> result B).

Lemma result_bind_Ok m f b :
  m ≫= f = Ok b <-> exists a, m = Ok a /\ f a = Ok b.
Proof. destruct m; cbn; naive_solver. Qed.

Lemma Ok_inj (a b : A) : Ok a = Ok b -> a = b.
Proof. by intros [= ->]. Qed.

Lemma map_err_Ok (g : error -> error) m a : map_err g m = Ok a <-> m = Ok a.
Proof. destruct m; cbn; naive_solver. Qed.

Lemma is_ok_true m : is_ok m = true <-> exists a, m = Ok a.
Proof. destruct m; cbn; naive_solver. Qed.
End result_lemmas.

Section method_lemmas.
Context {S A B : Type}.
Implicit Types (m : method S A) (f : A -> method S B) (s : S).

Lemma method_bind_Ok m f s b s' :
  (m ≫= f) s = (Ok b, s') <->
  exists a s1, m s = (Ok a, s1) /\ f a s1 = (Ok b, s').
Proof.
  unfold mbind, method_bind. destruct (m s) as [[a|e|w] s1]; naive_solver.
Qed.

(** Running a bind one step at a time. *)
Lemma bind_run m f s :
  (m ≫= f) s = match m s with
               | (Ok a, s') => f a s'
               | (Err e, s') => (Err e, s')
               | (Panic w, s') => (Panic w, s')
               end.
Proof. done. Qed.

Lemma lift_bind_run (r : result A) f s :
  (lift r ≫= f) s = match r with
                    | Ok a => f a s
                    | Err e => (Err e, s)
                    | Panic w => (Panic w, s)
                    end.
Proof. by destruct r. Qed.

Lemma wrap_err_Ok (g : error -> error) m s a s' :
  wrap_err g m s = (Ok a, s') <-> m s = (Ok a, s').
Proof.
  unfold wrap_err. destruct (m s) as [r s1].
  split; intros H; injection H as H1 ->.
  - apply map_err_Ok in H1. by subst.
  - by subst.
Qed.

Lemma method_ret_Ok (a b : A) s s' :
  (mret a : method S A) s = (Ok b, s') <-> a = b /\ s = s'.
Proof. unfold mret, method_ret. naive_solver. Qed.

Lemma lift_bind_Ok (r : result A) f s b s' :
  (lift r ≫= f) s = (Ok b, s') <-> exists a, r = Ok a /\ f a s = (Ok b, s').
Proof. unfold mbind, method_bind, lift. destruct r; naive_solver. Qed.
End method_lemmas.

Lemma get_bind_run {S B} (f : S -> method S B) (s : S) : (get ≫= f) s = f s s.
Proof. done. Qed.
Lemma modify_bind_run {S B} (g : S -> S) (f : unit -> method S B) (s : S) :
  (modify g ≫= f) s = f tt (g s).
Proof. done. Qed.

Lemma range_app {S A} (l k : list A) (body : A -> method S unit) s :
  range (l ++ k) body s = (range l body ≫= fun _ => range k body) s.
Proof.
  revert s. induction l as [|x l IH]; intros s; cbn; [done|].
  unfold mbind, method_bind in *. destruct (body x s) as [[u|e|w] s1]; [|done..]. apply IH.
Qed.

Lemma range_cons_Ok {S A} (x : A) l (body : A -> method S unit) s s' :
  range (x :: l) body s = (Ok tt, s') <->
  exists s1, body x s = (Ok tt, s1) /\ range l body s1 = (Ok tt, s').
Proof.
  cbn [range]. rewrite method_bind_Ok. split.
  - intros ([] & s1 & H). eauto.
  - intros (s1 & H). eauto.
Qed.

Lemma range_snoc_Ok {S A} (x : A) l (body : A -> method S unit) s s' :
  range (l ++ [x]) body s = (Ok tt, s') <->
  exists s1, range l body s = (Ok tt, s1) /\ body x s1 = (Ok tt, s').
Proof.
  rewrite range_app, method_bind_Ok. split.
  - intros ([] & s1 & H1 & H2). exists s1. split; [done|].
    apply range_cons_Ok in H2 as (s2 & H2 & H3).
    injection H3 as ->. done.
  - intros (s1 & H1 & H2). exists tt, s1. split; [done|].
    apply range_cons_Ok. by exists s'.
Qed.

(** ** Atomic methods

    A method is atomic when anything but a normal return leaves the state as
    it was. *)
Definition atomic {S A} (m : method S A) : Prop :=
  forall s, is_ok (m s).1 = false -> (m s).2 = s.

Section atomic.
Context {S A B : Type}.

Lemma atomic_ret (a : A) : atomic (mret a : method S A).
Proof. by intros s. Qed.

Lemma atomic_raise e : atomic (raise e : method S A).
Proof. by intros s. Qed.

Lemma atomic_lift_bind (r : result A) (f : A -> method S B) :
  (forall a, atomic (f a)) -> atomic (lift r ≫= f).
Proof. intros H s. unfold mbind, method_bind, lift. destruct r; [apply H|done..]. Qed.

Lemma atomic_bind_ret (m : method S A) (g : A -> B) :
  atomic m -> atomic (m ≫= fun a => mret (g a)).
Proof.
  intros H s. specialize (H s). unfold mbind, method_bind in *.
  destruct (m s) as [[a|e|w] s']; [done|exact H..].
Qed.

Lemma atomic_wrap_err f (m : method S A) : atomic m -> atomic (wrap_err f m).
Proof.
  intros H s. specialize (H s). unfold wrap_err. destruct (m s) as [[a|e|w] s']; exact H.
Qed.

Lemma atomic_run (m : method S A) s r s' :
  atomic m -> m s = (r, s') -> is_ok r = false -> s' = s.
Proof. intros H Hm Hr. specialize (H s). rewrite Hm in H. by apply H. Qed.
End atomic.

#[export] Hint Resolve atomic_ret atomic_raise atomic_lift_bind atomic_bind_ret
  atomic_wrap_err : go.

(** Proves that a method made of computations and atomic calls is atomic. *)
Ltac go_atomic :=
  repeat (intros; cbv zeta; first
    [ case_decide
    | solve [auto with go]
    | apply atomic_lift_bind
    | apply atomic_bind_ret
    | apply atomic_wrap_err ]).

(** [go_step] inverts one step of a hypothesis stating that a piece of
    translated Go code returned normally; [go_inv] iterates it. *)
Ltac go_step :=
  match goal with
  | H : Ok _ = Ok _ |- _ => injection H as H; try subst
  | H : (_, _) = (_, _) |- _ => injection H as H; try subst
  | H : mret _ = Ok _ |- _ => change (mret ?x) with (Ok x) in H
  | H : Err _ = Ok _ |- _ => discriminate H
  | H : Panic _ = Ok _ |- _ => discriminate H
  | H : _ ≫= _ = Ok _ |- _ =>
      apply result_bind_Ok in H;
      let a := fresh "a" in let H1 := fresh H in destruct H as (a & H1 & H)
  | H : map_err _ _ = Ok _ |- _ => apply map_err_Ok in H
  | H : (_ ≫= _) _ = (Ok _, _) |- _ =>
      apply method_bind_Ok in H;
      let a := fresh "a" in let s := fresh "s" in let H1 := fresh H in
      destruct H as (a & s & H1 & H)
  | H : wrap_err _ _ _ = (Ok _, _) |- _ => apply wrap_err_Ok in H
  | H : mret _ _ = (Ok _, _) |- _ => apply method_ret_Ok in H; destruct H as [? ?]; try subst
  | H : raise _ _ = (Ok _, _) |- _ => discriminate H
  | H : lift _ _ = (Ok _, _) |- _ => unfold lift in H
  | H : get _ = (Ok _, _) |- _ => unfold get in H
  | H : put _ _ = (Ok _, _) |- _ => unfold put in H
  | H : modify _ _ = (Ok _, _) |- _ => unfold modify in H
  | H : (if decide ?P then _ else _) = Ok _ |- _ => destruct (decide P); try discriminate H
  | H : (if decide ?P then _ else _) _ = (Ok _, _) |- _ => destruct (decide P); try discriminate H
  | H : (if ?b then _ else _) = Ok _ |- _ => let E := fresh "E" in destruct b eqn:E; try discriminate H
  | H : (if ?b then _ else _) _ = (Ok _, _) |- _ => let E := fresh "E" in destruct b eqn:E; try discriminate H
  end.
Ltac go_inv := repeat go_step.

(** Evaluates the tests of the goal that the hypotheses decide. *)
Ltac decided := solve [tauto | intuition congruence].
Ltac simplify_decide :=
  repeat match goal with
  | |- context [decide ?P] =>
      first [rewrite (decide_True (P := P)) by decided
            |rewrite (decide_False (P := P)) by decided]
  | |- context [bool_decide ?P] =>
      first [rewrite (bool_decide_true P) by decided
            |rewrite (bool_decide_false P) by decided]
  end.

(** Evaluates the tests that compare string constants. *)
Ltac string_decide :=
  repeat match goal with
  | |- context [decide (?s = ?t :> string)] =>
      first [rewrite (decide_True (P := s = t)) by reflexivity
            |rewrite (decide_False (P := s = t)) by discriminate]
  | |- context [decide (true = true /\ ?s = ?t)] =>
      first [rewrite (decide_True (P := true = true /\ s = t)) by (split; reflexivity)
            |rewrite (decide_False (P := true = true /\ s = t))
               by (let H := fresh in intros [_ H]; discriminate H)]
  end.

(** Closes a goal about closed terms by evaluating it. *)
Ltac eval_closed :=
  clear; vm_compute;
  repeat match goal with |- _ /\ _ => split end; first [reflexivity | discriminate].

Lemma pair_fst_eq {A B} (p : A * B) (a : A) : p.1 = a -> p = (a, p.2).
Proof. by intros <-; destruct p. Qed.

Lemma is_Some_bool {A} (o : option A) :
  match o with Some _ => true | None => false end = true -> is_Some o.
Proof. destruct o; [by eexists|done]. Qed.

(** ** int64 lemmas *)

Lemma wrap64_in64 z : in64 (wrap64 z).
Proof.
  unfold in64, int64_min, int64_max, wrap64.
  pose proof (Z.mod_pos_bound (z + 2 ^ 63) (2 ^ 64) eq_refl). lia.
Qed.

Lemma wrap64_id z : in64 z -> wrap64 z = z.
Proof.
  unfold in64, int64_min, int64_max, wrap64. intros H.
  rewrite Z.mod_small; lia.
Qed.

Lemma wrap64_wrap64 z : wrap64 (wrap64 z) = wrap64 z.
Proof. apply wrap64_id, wrap64_in64. Qed.

Lemma wrap64_eq_mod x y : wrap64 x = wrap64 y <-> x `mod` 2 ^ 64 = y `mod` 2 ^ 64.
Proof.
  unfold wrap64. split; intros H.
  - assert ((x + 2 ^ 63) `mod` 2 ^ 64 = (y + 2 ^ 63) `mod` 2 ^ 64) as E by lia.
    replace x with (x + 2 ^ 63 - 2 ^ 63) by lia.
    replace y with (y + 2 ^ 63 - 2 ^ 63) by lia.
    by rewrite (Zminus_mod (x + _)), E, <- Zminus_mod.
  - by rewrite (Zplus_mod x), H, <- Zplus_mod.
Qed.

Lemma wrap64_mod z : wrap64 z `mod` 2 ^ 64 = z `mod` 2 ^ 64.
Proof. apply wrap64_eq_mod, wrap64_wrap64. Qed.

Lemma wrap64_add_l x y : wrap64 (wrap64 x + y) = wrap64 (x + y).
Proof. apply wrap64_eq_mod. by rewrite Zplus_mod, wrap64_mod, <- Zplus_mod. Qed.

Lemma wrap64_add_r x y : wrap64 (x + wrap64 y) = wrap64 (x + y).
Proof. by rewrite Z.add_comm, wrap64_add_l, Z.add_comm. Qed.

Lemma wrap64_opp x : wrap64 (- wrap64 x) = wrap64 (- x).
Proof.
  apply wrap64_eq_mod.
  rewrite <- (Z.sub_0_l (wrap64 x)), <- (Z.sub_0_l x).
  by rewrite Zminus_mod, wrap64_mod, <- Zminus_mod.
Qed.

Lemma wrap64_neg_iff z : in64 z -> neg64 z = 0 <-> z = 0.
Proof.
  intros Hz. unfold neg64. split; [|by intros ->].
  intros H. assert (wrap64 (- z) = wrap64 0) as E by (rewrite H; reflexivity).
  apply wrap64_eq_mod in E. unfold in64, int64_min, int64_max in Hz.
  destruct (decide (z <= 0)).
  - rewrite !Z.mod_small in E; lia.
  - replace (- z) with (2 ^ 64 - z + (-1) * 2 ^ 64) in E by lia.
    rewrite Z_mod_plus_full, !Z.mod_small in E; lia.
Qed.

Lemma neg64_small z : - int64_max <= z <= int64_max -> neg64 z = - z.
Proof. intros H. apply wrap64_id. unfold in64, int64_min, int64_max in *. lia. Qed.

Lemma add64_small x y : in64 (x + y) -> add64 x y = x + y.
Proof. apply wrap64_id. Qed.

#[export] Hint Resolve wrap64_in64 : go.
#[export] Hint Rewrite wrap64_wrap64 wrap64_add_l wrap64_add_r wrap64_opp : go.

(** Adding the two halves of a sum that wrapped around loses nothing: the
    sum of two non-negative int64 wraps to a negative number exactly when it
    overflows. *)
Lemma add64_overflow x y :
  0 <= x <= int64_max -> 0 <= y <= int64_max ->
  (0 <= add64 x y -> add64 x y = x + y) /\ (add64 x y < 0 <-> int64_max < x + y).
Proof.
  unfold add64, wrap64, int64_max. intros Hx Hy.
  destruct (decide (x + y < 2 ^ 63)).
  - rewrite Z.mod_small by lia. lia.
  - replace (x + y + 2 ^ 63) with (x + y - 2 ^ 63 + 1 * 2 ^ 64) by lia.
    rewrite Z_mod_plus_full, Z.mod_small by lia. lia.
Qed.
