(* ===== verification/GoStrings.v ===== *)
(** * Go strings: the operations of package [strings] the program uses

    A Go string is its sequence of bytes ([String.string]). [TrimSpace] is
    exact on every byte string: the white space runes of [unicode.IsSpace] are
    recognised by their UTF-8 encodings at both ends. [ToUpper], [ToLower] and
    [EqualFold] are exact on ASCII strings; the tables of package [unicode]
    that decide the other strings are the operations of the class
    [UnicodeCase], with the facts the program relies on as its laws. *)

From stdpp Require Import prelude strings.
From Stdlib Require Import Ascii.
From S2P Require Import Prelude.

(** ** Bytes *)

Definition byte_is (n : nat) (a : ascii) : bool := Nat.eqb (nat_of_ascii a) n.
Definition byte_in (lo hi : nat) (a : ascii) : bool :=
  Nat.leb lo (nat_of_ascii a) && Nat.leb (nat_of_ascii a) hi.

(** [unicode.IsSpace] on runes of one, two and three bytes: tab, newline,
    vertical tab, form feed, carriage return and space; U+0085 and U+00A0;
    U+1680, U+2000 to U+200A, U+2028, U+2029, U+202F, U+205F and U+3000. *)
Definition space1 (a : ascii) : bool := byte_in 9 13 a || byte_is 32 a.
Definition space2 (a b : ascii) : bool :=
  byte_is 194 a && (byte_is 133 b || byte_is 160 b).
Definition space3 (a b c : ascii) : bool :=
  (byte_is 225 a && byte_is 154 b && byte_is 128 c)
  || (byte_is 226 a && byte_is 128 b
      && (byte_in 128 138 c || byte_is 168 c || byte_is 169 c || byte_is 175 c))
  || (byte_is 226 a && byte_is 129 b && byte_is 159 c)
  || (byte_is 227 a && byte_is 128 b && byte_is 128 c).

(** ** TrimSpace *)

Section trim.
Context (sp1 : ascii -> bool) (sp2 : ascii -> ascii -> bool)
  (sp3 : ascii -> ascii -> ascii -> bool).

(** Number of leading bytes that encode a white space rune. *)
Definition space_width (l : list ascii) : nat :=
  match l with
  | a :: l1 =>
      if sp1 a then 1%nat else
      match l1 with
      | b :: l2 =>
          if sp2 a b then 2%nat else
          match l2 with
          | c :: _ => if sp3 a b c then 3%nat else 0%nat
          | [] => 0%nat
          end
      | [] => 0%nat
      end
  | [] => 0%nat
  end.

Fixpoint trim_front (l : list ascii) : list ascii :=
  match l with
  | [] => []
  | a :: l1 =>
      if sp1 a then trim_front l1 else
      match l1 with
      | [] => l
      | b :: l2 =>
          if sp2 a b then trim_front l2 else
          match l2 with
          | [] => l
          | c :: l3 => if sp3 a b c then trim_front l3 else l
          end
      end
  end.

Lemma trim_front_spec l :
  space_width (trim_front l) = 0%nat /\ exists p, l = p ++ trim_front l.
Proof.
  assert (forall n l, (length l <= n)%nat ->
    space_width (trim_front l) = 0%nat /\ exists p, l = p ++ trim_front l) as H;
    [|by apply (H (length l))].
  clear l. induction n as [|n IH]; intros l Hl.
  { destruct l; cbn in *; [|lia]. split; [done|]. by exists []. }
  assert (forall p l', l = p ++ l' -> p <> [] -> trim_front l = trim_front l' ->
    space_width (trim_front l) = 0%nat /\ exists p, l = p ++ trim_front l) as Hstep.
  { intros p l' -> Hp ->. rewrite length_app in Hl.
    assert (length p <> 0)%nat by (by destruct p).
    destruct (IH l' ltac:(lia)) as [? [q Hq]]. split; [done|].
    exists (p ++ q). by rewrite <- app_assoc, <- Hq. }
  assert (trim_front l = l -> space_width l = 0%nat ->
    space_width (trim_front l) = 0%nat /\ exists p, l = p ++ trim_front l) as Hstop.
  { intros -> ?. split; [done|]. by exists []. }
  destruct l as [|a l1]; [by apply Hstop|]. cbn in Hstep, Hstop |- *.
  destruct (sp1 a); [by apply (Hstep [a] l1)|].
  destruct l1 as [|b l2]; [by apply Hstop|].
  destruct (sp2 a b); [by apply (Hstep [a; b] l2)|].
  destruct l2 as [|c l3]; [by apply Hstop|].
  destruct (sp3 a b c); [by apply (Hstep [a; b; c] l3)|by apply Hstop].
Qed.

Lemma trim_front_id l : space_width l = 0%nat -> trim_front l = l.
Proof.
  destruct l as [|a [|b [|c l]]]; cbn; [done| | |].
  - by destruct (sp1 a).
  - destruct (sp1 a); [done|]. by destruct (sp2 a b).
  - destruct (sp1 a); [done|]. destruct (sp2 a b); [done|]. by destruct (sp3 a b c).
Qed.

Lemma space_width_prefix l l' :
  space_width (l ++ l') = 0%nat -> space_width l = 0%nat.
Proof.
  destruct l as [|a [|b [|c l]]]; cbn; [done| | |done].
  - by destruct (sp1 a).
  - destruct (sp1 a); [done|]. by destruct (sp2 a b).
Qed.
End trim.

Definition trim_left (l : list ascii) : list ascii := trim_front space1 space2 space3 l.
Definition trim_right (l : list ascii) : list ascii :=
  rev (trim_front space1 (fun b a => space2 a b) (fun c b a => space3 a b c) (rev l)).

(** [strings.TrimSpace]. *)
Definition TrimSpace (s : string) : string :=
  String.string_of_list_ascii (trim_right (trim_left (String.list_ascii_of_string s))).

#[global] Arguments TrimSpace _ : simpl never.

(** A string with no white space at either end. *)
Definition trimmed (s : string) : Prop := TrimSpace s = s.

Lemma trimmed_width s :
  trimmed s <->
  space_width space1 space2 space3 (String.list_ascii_of_string s) = 0%nat /\
  space_width space1 (fun b a => space2 a b) (fun c b a => space3 a b c)
    (rev (String.list_ascii_of_string s)) = 0%nat.
Proof.
  unfold trimmed, TrimSpace, trim_right, trim_left.
  set (l := String.list_ascii_of_string s). split.
  - intros H. apply (f_equal String.list_ascii_of_string) in H.
    rewrite String.list_ascii_of_string_of_list_ascii in H. fold l in H.
    destruct (trim_front_spec space1 space2 space3 l) as [Hl [p Hp]].
    set (l1 := trim_front _ _ _ l) in *.
    destruct (trim_front_spec space1 (fun b a => space2 a b)
                (fun c b a => space3 a b c) (rev l1)) as [Hr [q Hq]].
    set (l2 := trim_front _ _ _ (rev l1)) in *.
    assert (l1 = rev l2 ++ rev q) as Hl1.
    { rewrite <- (rev_involutive l1), Hq. by rewrite rev_app_distr. }
    assert (p = [] /\ q = []) as [-> ->].
    { apply (f_equal length) in Hp, Hl1. rewrite length_app in Hp, Hl1.
      rewrite !length_rev in Hl1. apply (f_equal length) in H. rewrite length_rev in H.
      split; apply nil_length_inv; lia. }
    cbn in *. subst. rewrite app_nil_r in Hl1. split; [by rewrite Hp|].
    by rewrite <- H, rev_involutive.
  - intros [Hl Hr]. rewrite (trim_front_id _ _ _ l) by done.
    rewrite trim_front_id by done. rewrite rev_involutive. apply String.string_of_list_ascii_of_string.
Qed.

Lemma TrimSpace_trimmed s : trimmed (TrimSpace s).
Proof.
  apply trimmed_width. unfold TrimSpace, trim_right, trim_left.
  rewrite String.list_ascii_of_string_of_list_ascii, rev_involutive.
  set (l := String.list_ascii_of_string s).
  destruct (trim_front_spec space1 space2 space3 l) as [Hl _].
  set (l1 := trim_front _ _ _ l) in *.
  destruct (trim_front_spec space1 (fun b a => space2 a b)
              (fun c b a => space3 a b c) (rev l1)) as [Hr [q Hq]].
  split; [|done].
  apply (space_width_prefix _ _ _ _ (rev q)). rewrite <- rev_app_distr, <- Hq.
  by rewrite rev_involutive.
Qed.

Lemma TrimSpace_idem s : TrimSpace (TrimSpace s) = TrimSpace s.
Proof. apply TrimSpace_trimmed. Qed.

Lemma trimmed_empty : trimmed "".
Proof. reflexivity. Qed.

(** A text that ends in a byte of no white space is not blank. *)
Lemma trim_front_end (sp1 : ascii -> bool) sp2 sp3 l c :
  sp1 c = false -> (forall a, sp2 a c = false) -> (forall a b, sp3 a b c = false) ->
  exists l', trim_front sp1 sp2 sp3 (l ++ [c]) = l' ++ [c].
Proof.
  intros H1 H2 H3.
  assert (forall n l, (length l <= n)%nat -> exists l', trim_front sp1 sp2 sp3 (l ++ [c]) = l' ++ [c]) as H;
    [|by apply (H (length l))].
  clear l. induction n as [|n IH]; intros l Hl.
  { destruct l; cbn in *; [|lia]. rewrite H1. by exists []. }
  destruct l as [|a l1]; cbn in *; [rewrite H1; by exists []|].
  destruct (sp1 a); [apply IH; lia|]. destruct l1 as [|b l2]; cbn in *.
  { rewrite H2. by exists [a]. }
  destruct (sp2 a b); [apply IH; lia|]. destruct l2 as [|d l3]; cbn in *.
  { rewrite H3. by exists [a; b]. }
  destruct (sp3 a b d); [apply IH; lia|]. by exists (a :: b :: d :: l3).
Qed.

Lemma printable_no_space c :
  byte_in 33 126 c = true ->
  space1 c = false /\ (forall a, space2 a c = false) /\ (forall a b, space3 a b c = false).
Proof.
  intros H. unfold space1, space2, space3.
  destruct c as [[] [] [] [] [] [] [] []]; try discriminate H; cbn;
    (split; [done|]); split; intros; by rewrite ?andb_false_r.
Qed.

Lemma TrimSpace_end s t c :
  String.list_ascii_of_string t = [c] -> byte_in 33 126 c = true -> TrimSpace (s +:+ t) <> "".
Proof.
  intros Ht (H1 & H2 & H3)%printable_no_space H. apply (f_equal String.list_ascii_of_string) in H.
  unfold TrimSpace, trim_right, trim_left in H. rewrite String.list_ascii_of_string_of_list_ascii in H.
  assert (String.list_ascii_of_string (s +:+ t) = String.list_ascii_of_string s ++ [c]) as E.
  { rewrite <- Ht. clear. induction s as [|a s IH]; [done|]. exact (f_equal (cons a) IH). }
  rewrite E in H. destruct (trim_front_end space1 space2 space3 (String.list_ascii_of_string s) c H1 H2 H3) as [l' Hl].
  rewrite Hl, rev_app_distr in H. cbn in H. rewrite H1 in H.
  destruct (rev l') as [|b [|a l2]]; cbn in H; try rewrite H2 in H; try rewrite H3 in H; try done;
    apply (f_equal length) in H; rewrite length_rev in H; done.
Qed.

Lemma string_app_assoc (s t u : string) : (s +:+ t) +:+ u = s +:+ (t +:+ u).
Proof. 
  induction s as [|a s IH]; [done|].
  change (String a ((s +:+ t) +:+ u) = String a (s +:+ (t +:+ u))). by rewrite IH.
Qed.

#[export] Hint Resolve TrimSpace_trimmed trimmed_empty : go.
#[export] Hint Rewrite TrimSpace_idem : go.

(** ** Case mapping *)

Definition ascii_byte (a : ascii) : bool := Nat.ltb (nat_of_ascii a) 128.
Definition is_ascii (s : string) : bool :=
  forallb ascii_byte (String.list_ascii_of_string s).

Definition upper_byte (a : ascii) : ascii :=
  if byte_in 97 122 a then ascii_of_nat (nat_of_ascii a - 32) else a.
Definition lower_byte (a : ascii) : ascii :=
  if byte_in 65 90 a then ascii_of_nat (nat_of_ascii a + 32) else a.

Definition map_bytes (f : ascii -> ascii) (s : string) : string :=
  String.string_of_list_ascii (map f (String.list_ascii_of_string s)).

(** A case mapping that is [f] on ASCII strings and [g] on the others. *)
Definition case_map (f : ascii -> ascii) (g : string -> string) (s : string) : string :=
  if is_ascii s then map_bytes f s else g s.

(** The simple case mappings of package [unicode] on strings that hold a
    non-ASCII byte. The laws: mapping twice is mapping once, and a mapping
    neither makes nor removes white space. *)
Class UnicodeCase := {
  uc_upper : string -> string;
  uc_lower : string -> string;
  uc_fold : string -> string -> bool;
  uc_upper_idem s : is_ascii s = false ->
    case_map upper_byte uc_upper (uc_upper s) = uc_upper s;
  uc_lower_idem s : is_ascii s = false ->
    case_map lower_byte uc_lower (uc_lower s) = uc_lower s;
  uc_upper_trimmed s : is_ascii s = false -> trimmed s -> trimmed (uc_upper s);
  uc_lower_trimmed s : is_ascii s = false -> trimmed s -> trimmed (uc_lower s);
  uc_fold_refl s : is_ascii s = false -> uc_fold s s = true
}.

Section case.
Context `{UC : UnicodeCase}.

(** [strings.ToUpper] and [strings.ToLower]. *)
Definition ToUpper (s : string) : string := case_map upper_byte uc_upper s.
Definition ToLower (s : string) : string := case_map lower_byte uc_lower s.

(** [strings.EqualFold]. *)
Definition EqualFold (s t : string) : bool :=
  if is_ascii s && is_ascii t
  then String.eqb (map_bytes lower_byte s) (map_bytes lower_byte t)
  else uc_fold s t.
End case.

#[global] Arguments ToUpper {UC} _ : simpl never.
#[global] Arguments ToLower {UC} _ : simpl never.

(** Facts about all bytes are checked on each of them. *)
Ltac every_byte :=
  let a := fresh in intros a; destruct a as [[] [] [] [] [] [] [] []]; vm_compute; reflexivity.

Record byte_map_ok (f : ascii -> ascii) : Prop := {
  bm_ascii : forall a, ascii_byte (f a) = ascii_byte a;
  bm_space : forall a, space1 (f a) = space1 a;
  bm_idem : forall a, f (f a) = f a
}.

Lemma upper_byte_ok : byte_map_ok upper_byte.
Proof. split; every_byte. Qed.
Lemma lower_byte_ok : byte_map_ok lower_byte.
Proof. split; every_byte. Qed.

Lemma ascii_not_wide a :
  implb (ascii_byte a) (negb (byte_is 194 a) && negb (byte_is 225 a)
    && negb (byte_is 226 a) && negb (byte_is 227 a)
    && negb (byte_is 133 a) && negb (byte_is 160 a)
    && negb (byte_in 128 138 a) && negb (byte_is 128 a) && negb (byte_is 159 a)
    && negb (byte_is 129 a) && negb (byte_is 154 a)
    && negb (byte_is 168 a) && negb (byte_is 169 a) && negb (byte_is 175 a)) = true.
Proof. revert a. every_byte. Qed.

Ltac rewrite_false :=
  repeat match goal with E : _ = false |- _ => try rewrite E; clear E end.

Lemma ascii_space2 a b : ascii_byte a = true -> space2 a b = false /\ space2 b a = false.
Proof.
  intros Ha. pose proof (ascii_not_wide a) as H. rewrite Ha in H. cbn [implb] in H.
  unfold space2. rewrite !andb_true_iff, !negb_true_iff in H. destruct_and! H.
  rewrite_false. by rewrite andb_false_r.
Qed.

Lemma ascii_space3 a b c : ascii_byte a = true ->
  space3 a b c = false /\ space3 b a c = false /\ space3 b c a = false.
Proof.
  intros Ha. pose proof (ascii_not_wide a) as H. rewrite Ha in H. cbn [implb] in H.
  unfold space3. rewrite !andb_true_iff, !negb_true_iff in H. destruct_and! H.
  rewrite_false. by rewrite ?andb_false_r.
Qed.

Lemma space2_l a b : ascii_byte a = true -> space2 a b = false.
Proof. intros Ha. by destruct (ascii_space2 a b Ha). Qed.
Lemma space2_r a b : ascii_byte b = true -> space2 a b = false.
Proof. intros Hb. by destruct (ascii_space2 b a Hb). Qed.
Lemma space3_l a b c : ascii_byte a = true -> space3 a b c = false.
Proof. intros Ha. by destruct (ascii_space3 a b c Ha) as (? & ? & ?). Qed.
Lemma space3_m a b c : ascii_byte b = true -> space3 a b c = false.
Proof. intros Hb. by destruct (ascii_space3 b a c Hb) as (? & ? & ?). Qed.
Lemma space3_r a b c : ascii_byte c = true -> space3 a b c = false.
Proof. intros Hc. by destruct (ascii_space3 c a b Hc) as (? & ? & ?). Qed.

(** An ASCII byte is no part of a wide white space rune. *)
Ltac ascii_narrow :=
  intros; first [ by apply space2_l | by apply space2_r | by apply space3_l
                | by apply space3_m | by apply space3_r ].

Lemma space_width_ascii sp2 sp3 l :
  (forall a b, ascii_byte a = true -> sp2 a b = false) ->
  (forall a b c, ascii_byte a = true -> sp3 a b c = false) ->
  forallb ascii_byte l = true ->
  space_width space1 sp2 sp3 l =
    match l with a :: _ => if space1 a then 1%nat else 0%nat | [] => 0%nat end.
Proof.
  intros H2 H3 Hl. destruct l as [|a l]; [done|].
  cbn [forallb] in Hl. apply andb_prop in Hl as [Ha _].
  destruct l as [|b [|c l]]; cbn [space_width]; by rewrite ?H2, ?H3 by done.
Qed.

(** A byte string whose first byte is an ASCII non-space byte starts with no
    white space, and ASCII bytes appended to a string make none at its start. *)
Lemma space_width_head sp2 sp3 a l :
  (forall a b, ascii_byte a = true -> sp2 a b = false) ->
  (forall a b c, ascii_byte a = true -> sp3 a b c = false) ->
  ascii_byte a = true -> space1 a = false -> space_width space1 sp2 sp3 (a :: l) = 0%nat.
Proof.
  intros H2 H3 Ha Hs. cbn [space_width]. rewrite Hs.
  destruct l as [|b [|c l]]; by rewrite ?H2, ?H3 by done.
Qed.

(** Whatever comes after an ASCII byte. *)
Lemma space_width_guard sp2 sp3 l e q :
  (forall a b, ascii_byte b = true -> sp2 a b = false) ->
  (forall a b c, ascii_byte c = true -> sp3 a b c = false) ->
  (forall a b c, ascii_byte b = true -> sp3 a b c = false) ->
  ascii_byte e = true -> l <> [] ->
  space_width space1 sp2 sp3 l = 0%nat -> space_width space1 sp2 sp3 (l ++ e :: q) = 0%nat.
Proof.
  intros H2 H3 H3' He Hl Hw. destruct l as [|a [|b [|c l]]]; [done|..];
    cbn [space_width app] in *; destruct (space1 a); try done.
  - destruct q as [|c q]; by rewrite H2, ?H3' by done.
  - destruct (sp2 a b); [done|]. by rewrite H3.
Qed.

Lemma space_width_app sp2 sp3 l q :
  (forall a b, ascii_byte b = true -> sp2 a b = false) ->
  (forall a b c, ascii_byte c = true -> sp3 a b c = false) ->
  (forall a b c, ascii_byte b = true -> sp3 a b c = false) ->
  forallb ascii_byte q = true -> l <> [] ->
  space_width space1 sp2 sp3 l = 0%nat -> space_width space1 sp2 sp3 (l ++ q) = 0%nat.
Proof.
  intros H2 H3 H3' Hq Hl Hw. destruct q as [|e q]; [by rewrite app_nil_r|].
  cbn [forallb] in Hq. apply andb_prop in Hq as [He _]. by apply space_width_guard.
Qed.

Lemma list_ascii_app s t :
  String.list_ascii_of_string (s +:+ t) =
  String.list_ascii_of_string s ++ String.list_ascii_of_string t.
Proof.
  induction s as [|a s IH]; [done|].
  change (String a s +:+ t) with (String a (s +:+ t)).
  cbn [String.list_ascii_of_string app]. by rewrite IH.
Qed.

Lemma list_ascii_nil s : String.list_ascii_of_string s = [] -> s = "".
Proof. by destruct s. Qed.

Lemma forallb_rev_true (l : list ascii) :
  forallb ascii_byte l = true -> forallb ascii_byte (rev l) = true.
Proof. rewrite !forallb_forall. intros H x Hx. apply H. by apply in_rev. Qed.

Lemma rev_not_nil {A} (l : list A) : l <> [] -> rev l <> [].
Proof. destruct l; [done|]. intros _ H. by apply app_nil in H as [_ ?]. Qed.

(** Wrapping a trimmed string in ASCII text that has no white space at its
    outer end gives a trimmed string. *)
Lemma trimmed_prefix p k :
  is_ascii p = true -> p <> "" -> trimmed p -> trimmed k -> trimmed (p +:+ k).
Proof.
  unfold is_ascii. rewrite !trimmed_width, list_ascii_app, rev_app_distr.
  intros Ha Hp [Hpl Hpr] [Hkl Hkr]. split.
  - destruct p as [|a p]; [done|]. cbn [String.list_ascii_of_string forallb] in Ha.
    apply andb_prop in Ha as [Ha _]. cbn [String.list_ascii_of_string app].
    apply space_width_head; [ascii_narrow..|done|].
    cbn [String.list_ascii_of_string space_width] in Hpl. by destruct (space1 a).
  - destruct (decide (k = "")) as [->|Hk]; [done|].
    apply space_width_app; [ascii_narrow..| | |done].
    + by apply forallb_rev_true.
    + apply rev_not_nil. intros Hn. by apply list_ascii_nil in Hn.
Qed.

(** Between ASCII text and a character there may be anything. *)
Lemma trimmed_around p m c k :
  is_ascii p = true -> p <> "" -> trimmed p ->
  ascii_byte c = true -> space1 c = false -> trimmed k ->
  trimmed (p +:+ m +:+ String c k).
Proof.
  unfold is_ascii. rewrite !trimmed_width, !list_ascii_app, !rev_app_distr.
  intros Ha Hp [Hpl _] Hc Hs [_ Hkr]. split.
  - destruct p as [|a p]; [done|]. cbn [String.list_ascii_of_string forallb] in Ha.
    apply andb_prop in Ha as [Ha _]. cbn [String.list_ascii_of_string app].
    apply space_width_head; [ascii_narrow..|done|].
    cbn [String.list_ascii_of_string space_width] in Hpl. by destruct (space1 a).
  - cbn [String.list_ascii_of_string rev]. rewrite <- !app_assoc. cbn [app].
    destruct (decide (k = "")) as [->|Hk].
    + apply space_width_head; [ascii_narrow..|done|done].
    + apply space_width_guard; [ascii_narrow..|done| |done].
      apply rev_not_nil. intros Hn. by apply list_ascii_nil in Hn.
Qed.

Lemma trimmed_suffix k p :
  is_ascii p = true -> p <> "" -> trimmed p -> trimmed k -> trimmed (k +:+ p).
Proof.
  unfold is_ascii. rewrite !trimmed_width, list_ascii_app, rev_app_distr.
  intros Ha Hp [Hpl Hpr] [Hkl Hkr]. split.
  - destruct (decide (k = "")) as [->|Hk]; [done|].
    apply space_width_app; [ascii_narrow..|done| |done].
    + intros Hn. by apply list_ascii_nil in Hn.
  - apply forallb_rev_true in Ha.
    destruct (rev (String.list_ascii_of_string p)) as [|a q] eqn:E.
    { apply (f_equal (@rev _)) in E. rewrite rev_involutive in E. by apply list_ascii_nil in E. }
    cbn [forallb] in Ha. apply andb_prop in Ha as [Ha _]. cbn [app].
    apply space_width_head; [ascii_narrow..|done|].
    cbn [space_width] in Hpr. by destruct (space1 a).
Qed.

Lemma map_bytes_list f s :
  String.list_ascii_of_string (map_bytes f s) = map f (String.list_ascii_of_string s).
Proof. apply String.list_ascii_of_string_of_list_ascii. Qed.

Section byte_map.
Context (f : ascii -> ascii) (Hf : byte_map_ok f).

Lemma map_ascii l : forallb ascii_byte (map f l) = forallb ascii_byte l.
Proof. induction l as [|a l IH]; cbn [map forallb]; [done|].
  by rewrite (bm_ascii f Hf), IH. Qed.

Lemma map_bytes_ascii s : is_ascii (map_bytes f s) = is_ascii s.
Proof. unfold is_ascii. by rewrite map_bytes_list, map_ascii. Qed.

Lemma map_bytes_idem s : map_bytes f (map_bytes f s) = map_bytes f s.
Proof.
  unfold map_bytes at 1. rewrite map_bytes_list, map_map. unfold map_bytes.
  f_equal. apply map_ext. apply (bm_idem f Hf).
Qed.

Lemma space_width_map sp2 sp3 l :
  (forall a b, ascii_byte a = true -> sp2 a b = false) ->
  (forall a b c, ascii_byte a = true -> sp3 a b c = false) ->
  forallb ascii_byte l = true ->
  space_width space1 sp2 sp3 (map f l) = space_width space1 sp2 sp3 l.
Proof.
  intros. rewrite !space_width_ascii by (rewrite ?map_ascii; done).
  destruct l; cbn [map]; by rewrite ?(bm_space f Hf).
Qed.

Lemma map_bytes_trimmed s : is_ascii s = true -> trimmed s -> trimmed (map_bytes f s).
Proof.
  unfold is_ascii. rewrite !trimmed_width, map_bytes_list, <- map_rev.
  intros Ha [Hl Hr]. split.
  - rewrite space_width_map; [done|ascii_narrow..|done].
  - rewrite space_width_map; [done|ascii_narrow..|by apply forallb_rev_true].
Qed.
End byte_map.

Section case_lemmas.
Context `{UC : UnicodeCase}.

Lemma ToUpper_idem s : ToUpper (ToUpper s) = ToUpper s.
Proof.
  unfold ToUpper. unfold case_map at 2 3. destruct (is_ascii s) eqn:E.
  - unfold case_map. rewrite (map_bytes_ascii _ upper_byte_ok), E.
    apply (map_bytes_idem _ upper_byte_ok).
  - by apply uc_upper_idem.
Qed.

Lemma ToLower_idem s : ToLower (ToLower s) = ToLower s.
Proof.
  unfold ToLower. unfold case_map at 2 3. destruct (is_ascii s) eqn:E.
  - unfold case_map. rewrite (map_bytes_ascii _ lower_byte_ok), E.
    apply (map_bytes_idem _ lower_byte_ok).
  - by apply uc_lower_idem.
Qed.

Lemma ToUpper_trimmed s : trimmed s -> trimmed (ToUpper s).
Proof.
  unfold ToUpper, case_map. destruct (is_ascii s) eqn:E; intros H.
  - by apply (map_bytes_trimmed _ upper_byte_ok).
  - by apply uc_upper_trimmed.
Qed.

Lemma ToLower_trimmed s : trimmed s -> trimmed (ToLower s).
Proof.
  unfold ToLower, case_map. destruct (is_ascii s) eqn:E; intros H.
  - by apply (map_bytes_trimmed _ lower_byte_ok).
  - by apply uc_lower_trimmed.
Qed.

Lemma EqualFold_refl s : EqualFold s s = true.
Proof.
  unfold EqualFold. destruct (is_ascii s) eqn:E; cbn.
  - apply String.eqb_refl.
  - by apply uc_fold_refl.
Qed.

(** The normalisation of currencies and of provider names:
    [strings.ToUpper(strings.TrimSpace(s))]. *)
Definition UpperTrim (s : string) : string := ToUpper (TrimSpace s).
Definition LowerTrim (s : string) : string := ToLower (TrimSpace s).

Lemma UpperTrim_trimmed s : trimmed (UpperTrim s).
Proof. apply ToUpper_trimmed, TrimSpace_trimmed. Qed.
Lemma LowerTrim_trimmed s : trimmed (LowerTrim s).
Proof. apply ToLower_trimmed, TrimSpace_trimmed. Qed.

Lemma UpperTrim_idem s : UpperTrim (UpperTrim s) = UpperTrim s.
Proof.
  unfold UpperTrim at 1. rewrite (UpperTrim_trimmed s). apply ToUpper_idem.
Qed.
Lemma LowerTrim_idem s : LowerTrim (LowerTrim s) = LowerTrim s.
Proof.
  unfold LowerTrim at 1. rewrite (LowerTrim_trimmed s). apply ToLower_idem.
Qed.

Lemma TrimSpace_UpperTrim s : TrimSpace (UpperTrim s) = UpperTrim s.
Proof. apply UpperTrim_trimmed. Qed.
Lemma TrimSpace_LowerTrim s : TrimSpace (LowerTrim s) = LowerTrim s.
Proof. apply LowerTrim_trimmed. Qed.
End case_lemmas.

#[export] Hint Resolve UpperTrim_trimmed LowerTrim_trimmed EqualFold_refl : go.
#[export] Hint Rewrite @UpperTrim_idem @LowerTrim_idem @TrimSpace_UpperTrim
  @TrimSpace_LowerTrim : go.

(** A concrete [UnicodeCase] for evaluation: non-ASCII strings have no case. *)
Program Definition caseless_unicode : UnicodeCase := {|
  uc_upper s := s; uc_lower s := s; uc_fold s t := String.eqb s t
|}.
Next Obligation. intros s H. unfold case_map. by rewrite H. Qed.
Next Obligation. intros s H. unfold case_map. by rewrite H. Qed.
Next Obligation. done. Qed.
Next Obligation. done. Qed.
Next Obligation. intros s _. apply String.eqb_refl. Qed.

Example TrimSpace_example :
  TrimSpace (String (ascii_of_nat 194) (String (ascii_of_nat 160) " usd ")) = "usd".
Proof. vm_compute. reflexivity. Qed.
Example UpperTrim_example : @UpperTrim caseless_unicode " usd " = "USD".
Proof. vm_compute. reflexivity. Qed.
