(* ===== verification/GoSort.v ===== *)
(** * Sorting (package [sort])

    [sort.Slice] as a sort by a boolean order, and the order of strings. *)

From Stdlib Require Import OrderedTypeEx.
From stdpp Require Import prelude strings sorting.
From S2P Require Import Prelude.

(** [y] may stand after [x]. *)
Definition notAfter {A} (less : A -> A -> bool) (x y : A) : Prop := less y x = false.
#[export] Instance notAfter_dec {A} (less : A -> A -> bool) : RelDecision (notAfter less).
Proof. intros x y. unfold notAfter. apply _. Defined.

(** [sort.Slice]: some arrangement of the slice in which no element is [less]
    than an earlier one; where [less] tells all elements apart it is the only
    one ([sort_Slice_unique]). *)
Definition sort_Slice {A} (less : A -> A -> bool) (l : list A) : list A :=
  merge_sort (notAfter less) l.

(** A strict weak order, as [sort.Slice] asks for. *)
Class WeakOrder {A} (less : A -> A -> bool) := {
  less_asym x y : less x y = true -> less y x = false;
  less_negtrans x y z : less x y = false -> less y z = false -> less x z = false
}.

Section sort.
Context {A : Type} (less : A -> A -> bool) `{WO : !WeakOrder less}.
Implicit Types (l k : list A).

Lemma sort_Slice_Permutation l : sort_Slice less l ≡ₚ l.
Proof using Type. apply merge_sort_Permutation. Qed.

#[local] Instance notAfter_total : Total (notAfter less).
Proof.
  intros x y. unfold notAfter. destruct (less y x) eqn:E; [right|by left]. by apply less_asym.
Qed.
#[local] Instance notAfter_trans : Transitive (notAfter less).
Proof. intros x y z Hxy Hyz. unfold notAfter in *. by apply (less_negtrans z y x). Qed.

Lemma sort_Slice_sorted l : StronglySorted (notAfter less) (sort_Slice less l).
Proof. unfold sort_Slice. apply StronglySorted_merge_sort; apply _. Qed.

(** Elements that [less] does not tell apart are equal. *)
Definition separates l : Prop :=
  forall x y, x ∈ l -> y ∈ l -> less x y = false -> less y x = false -> x = y.

Lemma sort_Slice_unique l k :
  separates l -> k ≡ₚ l -> StronglySorted (notAfter less) k -> k = sort_Slice less l.
Proof.
  intros Hsep Hp Hk. apply (StronglySorted_unique_strong (notAfter less)); [|done|apply sort_Slice_sorted|].
  - intros x y Hx Hy H1 H2. apply Hsep; [by rewrite <- Hp| |done..].
    by rewrite sort_Slice_Permutation in Hy.
  - by rewrite sort_Slice_Permutation.
Qed.

Lemma sort_Slice_id l : separates l -> StronglySorted (notAfter less) l -> sort_Slice less l = l.
Proof. intros Hs Hl. symmetry. by apply sort_Slice_unique. Qed.

Lemma sort_Slice_perm l k : separates l -> k ≡ₚ l -> sort_Slice less k = sort_Slice less l.
Proof.
  intros Hs Hp. apply sort_Slice_unique; [done|by rewrite sort_Slice_Permutation|].
  apply sort_Slice_sorted.
Qed.
End sort.

(** ** The order of strings *)

Lemma ltb_lt (s t : string) : String.ltb s t = true <-> String_as_OT.lt s t.
Proof.
  rewrite <- String_as_OT.cmp_lt. unfold String.ltb, String_as_OT.cmp.
  by destruct (String.compare s t).
Qed.

Lemma ltb_irrefl (s : string) : String.ltb s s = false.
Proof.
  destruct (String.ltb s s) eqn:E; [|done]. apply ltb_lt in E.
  by destruct (String_as_OT.lt_not_eq _ _ E).
Qed.

Lemma ltb_trans (s t u : string) : String.ltb s t = true -> String.ltb t u = true -> String.ltb s u = true.
Proof. rewrite !ltb_lt. apply String_as_OT.lt_trans. Qed.

Lemma ltb_total (s t : string) : String.ltb s t = false -> String.ltb t s = false -> s = t.
Proof.
  unfold String.ltb. rewrite (String.compare_antisym t s). intros H1 H2.
  apply String.compare_eq_iff. by destruct (String.compare s t).
Qed.

Lemma ltb_asym (s t : string) : String.ltb s t = true -> String.ltb t s = false.
Proof.
  intros H. destruct (String.ltb t s) eqn:E; [|done].
  by rewrite <- (ltb_irrefl s), (ltb_trans s t s).
Qed.

#[export] Instance ltb_weak : WeakOrder String.ltb.
Proof.
  split; [apply ltb_asym|]. intros x y z H1 H2. destruct (String.ltb x z) eqn:E; [|done].
  destruct (String.ltb y x) eqn:E1.
  - by rewrite <- H2, (ltb_trans y x z).
  - rewrite (ltb_total x y) in E by done. by rewrite <- H2.
Qed.

(** An order on keys. *)
Lemma key_weak {A B} (f : A -> B) (less : B -> B -> bool) :
  WeakOrder less -> WeakOrder (fun x y => less (f x) (f y)).
Proof. intros H. split; intros *; [apply less_asym|apply less_negtrans]. Qed.
