(* ===== verification/Database.v ===== *)
(** * The database (core/shared/infra/db)

    The errors of the driver, and the shape of what the stores rely on of a
    statement: [effect]. *)

From stdpp Require Import prelude strings.
From S2P Require Import Prelude GoStrings.

(** [strings.Contains]. *)
Definition Contains (s sub : string) : bool := bool_decide (is_Some (String.index 0 sub s)).

(** [IsUniqueConstraintError], on the text [err.Error()] of a non-nil error. *)
Definition IsUniqueConstraintError `{UC : UnicodeCase} (errText : string) : bool :=
  let msg := ToUpper errText in
  Contains msg "SQLSTATE 23505" || Contains msg "DUPLICATE KEY VALUE".

(** [gorm.ErrRecordNotFound], which [First] returns where there is no row. *)
Definition ErrRecordNotFound := Sentinel "gorm.ErrRecordNotFound".

(** [First], on a query of at most one row. *)
Definition First {DB A} (m : method DB (option A)) : method DB A :=
  o ← m;
  match o with Some row => mret row | None => raise ErrRecordNotFound end.

(** A row, or nil where [First] does not find one. *)
Definition nilIfNotFound {DB A} (m : method DB A) : method DB (option A) := fun db =>
  match m db with
  | (Ok a, db) => (Ok (Some a), db)
  | (Err e, db) => if errors_Is e "gorm.ErrRecordNotFound" then (Ok None, db) else (Err e, db)
  | (Panic w, db) => (Panic w, db)
  end.

(** [_ = m]: the error of the call is dropped. *)
Definition ignoreError {DB A} (m : method DB A) : method DB unit := fun db =>
  match m db with
  | (Panic w, db) => (Panic w, db)
  | (_, db) => (Ok tt, db)
  end.

(** An error of a library wraps none of the errors of the program. *)
Definition foreign (e : error) : Prop := forall name, errors_Is e name = false.

Section effect.
Context {DB T : Type} (tables : DB -> T).

(** A statement that fails changes nothing, and fails with an error of the
    database; one that succeeds satisfies [Q]. *)
Definition effect {A} (m : method DB A) (db : DB) (Q : A -> DB -> Prop) : Prop :=
  match m db with
  | (Ok a, db') => Q a db'
  | (Err e, db') => foreign e /\ tables db' = tables db
  | (Panic _, db') => tables db' = tables db
  end.

Lemma effect_Ok {A} (m : method DB A) db Q a db' : effect m db Q -> m db = (Ok a, db') -> Q a db'.
Proof. unfold effect. intros H Hm. by rewrite Hm in H. Qed.

Lemma First_Ok {A} (m : method DB (option A)) db Q a db' :
  effect m db Q -> First m db = (Ok a, db') -> Q (Some a) db'.
Proof.
  unfold effect, First, mbind, method_bind. destruct (m db) as [[[row|]|e|w] db1]; cbn; try done.
  by intros H [= <- <-].
Qed.

Lemma First_not_Ok {A} (m : method DB (option A)) db Q db' r :
  (forall a db', Q a db' -> tables db' = tables db) ->
  effect m db Q -> First m db = (r, db') -> tables db' = tables db.
Proof.
  intros HQ. unfold effect, First, mbind, method_bind.
  destruct (m db) as [[[row|]|e|w] db1]; cbn; intros H [= _ <-]; try by eapply HQ.
  - by destruct H.
  - done.
Qed.

Lemma nilFirst_Ok {A} (m : method DB (option A)) db Q o db' :
  effect m db Q -> nilIfNotFound (First m) db = (Ok o, db') -> Q o db'.
Proof.
  unfold effect, nilIfNotFound, First, mbind, method_bind.
  destruct (m db) as [[[row|]|e|w] db1]; cbn.
  - by intros H [= <- <-].
  - by intros H [= <- <-].
  - intros [He _]. by rewrite (He "gorm.ErrRecordNotFound").
  - done.
Qed.

Lemma nilFirst_Err {A} (m : method DB (option A)) db Q e db' :
  effect m db Q -> nilIfNotFound (First m) db = (Err e, db') ->
  errors_Is e "gorm.ErrRecordNotFound" = false.
Proof.
  unfold effect, nilIfNotFound, First, mbind, method_bind.
  destruct (m db) as [[[row|]|e'|w] db1]; cbn; try done.
  intros [He _]. rewrite (He "gorm.ErrRecordNotFound"). intros [= <- _]. apply He.
Qed.
End effect.

(** ** What every run of a method keeps

    [keeps R m]: whatever [m] returns, the state it leaves is related by [R] to
    the one it was run on. *)

Definition keeps {S A} (R : relation S) (m : method S A) : Prop := forall s, R s (m s).2.

Section keeps.
Context {S : Type} (R : relation S) `{!PreOrder R}.

Lemma keeps_run {A} (m : method S A) s r s' : keeps R m -> m s = (r, s') -> R s s'.
Proof using Type. intros H Hm. specialize (H s). by rewrite Hm in H. Qed.

Lemma keeps_ret {A} (a : A) : keeps R (mret a).
Proof. by intros s. Qed.
Lemma keeps_raise {A} e : keeps R (raise e : method S A).
Proof. by intros s. Qed.
Lemma keeps_lift {A} (r : result A) : keeps R (lift r).
Proof. by intros s. Qed.

Lemma keeps_bind {A B} (m : method S A) (f : A -> method S B) :
  keeps R m -> (forall a, keeps R (f a)) -> keeps R (m ≫= f).
Proof.
  intros Hm Hf s. specialize (Hm s). unfold mbind, method_bind.
  destruct (m s) as [[a|e|w] s']; cbn in *; [|done..]. etrans; [exact Hm|apply Hf].
Qed.

Lemma keeps_range {A} (l : list A) (body : A -> method S unit) :
  (forall x, x ∈ l -> keeps R (body x)) -> keeps R (range l body).
Proof.
  induction l as [|x l IH]; intros H; cbn; [apply keeps_ret|].
  apply keeps_bind; [apply H; by left|]. intros _. apply IH. intros y Hy. apply H. by right.
Qed.

Lemma keeps_First {A} (m : method S (option A)) : keeps R m -> keeps R (First m).
Proof. intros H. apply keeps_bind; [done|]. intros [a|]; [apply keeps_ret|apply keeps_raise]. Qed.

Lemma keeps_nilIfNotFound {A} (m : method S A) : keeps R m -> keeps R (nilIfNotFound m).
Proof.
  intros H s. specialize (H s). unfold nilIfNotFound.
  destruct (m s) as [[a|e|w] s']; [done| |done]. by destruct (errors_Is e _).
Qed.

Lemma keeps_ignoreError {A} (m : method S A) : keeps R m -> keeps R (ignoreError m).
Proof. intros H s. specialize (H s). unfold ignoreError. by destruct (m s) as [[a|e|w] s']. Qed.

Lemma keeps_wrap_err {A} f (m : method S A) : keeps R m -> keeps R (wrap_err f m).
Proof. intros H s. specialize (H s). unfold wrap_err. by destruct (m s) as [r s']. Qed.
End keeps.

(** A loop whose body changes what is seen of the state by [f]. *)
Lemma range_fold {S T A} (view : S -> T) (f : T -> A -> T) (body : A -> method S unit) l s s' :
  (forall x s s', x ∈ l -> body x s = (Ok tt, s') -> view s' = f (view s) x) ->
  range l body s = (Ok tt, s') -> view s' = foldl f (view s) l.
Proof.
  revert s. induction l as [|x l IH]; intros s Hb H.
  - by injection H as <-.
  - apply range_cons_Ok in H as (s1 & H1 & H). cbn.
    rewrite <- (Hb x s s1) by (done || by left). apply IH; [|done].
    intros y t t' Hy. apply Hb. by right.
Qed.

(** Takes a method apart, down to the statements that the hints know. *)
Create HintDb keeps.
Ltac go_keeps :=
  repeat first
    [ apply keeps_ret | apply keeps_raise | apply keeps_lift
    | solve [eauto with keeps]
    | match goal with |- PreOrder _ => apply _ end
    | apply keeps_bind; [apply _| |intros ?]
    | apply keeps_bind; [|intros ?]
    | apply keeps_range; intros ? ?
    | apply keeps_First | apply keeps_nilIfNotFound | apply keeps_ignoreError | apply keeps_wrap_err
    | case_decide
    | match goal with |- keeps _ (match ?x with _ => _ end) => destruct x end ].
