(* ===== verification/Event.v ===== *)
(** * Event-sourced aggregates (core/shared/pkg/event)

    [AggregateRoot] is the embedded root of every aggregate: identity,
    version and the events recorded since the aggregate was loaded. An
    aggregate is an instance of the class [Aggregate], the interface of the
    same name of the source: it gives access to its root and interprets one
    event ([Transition]). *)

From stdpp Require Import prelude strings gmap.
From S2P Require Import Prelude GoStrings Database.

(** ** Events *)

Record Event (E : Type) := mkEvent {
  ID : Z;
  AggregateID : string;
  AggregateType : string;
  Version : Z;
  EventName : string;
  EventData : E;
  CreatedAt : Z
}.
Arguments mkEvent {E}.
Arguments ID {E}. Arguments AggregateID {E}. Arguments AggregateType {E}.
Arguments Version {E}. Arguments EventName {E}. Arguments EventData {E}.
Arguments CreatedAt {E}.

Definition set_CreatedAt {E} (t : Z) (e : Event E) : Event E :=
  mkEvent (ID e) (AggregateID e) (AggregateType e) (Version e) (EventName e)
    (EventData e) t.

(** Event data travels as [interface{}]: it may be the nil interface, and
    [EventName] is the name of its dynamic type ("" for the nil interface). *)
Class EventPayload (E : Type) := {
  payload_nil : E -> bool;
  event_name : E -> string
}.

(** ** Aggregate root *)

Record AggregateRoot (E : Type) := mkRoot {
  aggregateID : string;
  aggregateType : string;
  version : Z;
  baseVersion : Z;
  events : list (Event E)
}.
Arguments mkRoot {E}.
Arguments aggregateID {E}. Arguments aggregateType {E}. Arguments version {E}.
Arguments baseVersion {E}. Arguments events {E}.

Definition ErrAggExisted := Sentinel "ErrAggExisted".
Definition ErrIDEmpty := Sentinel "ErrIDEmpty".
Definition ErrAggregateTypeEmpty := Sentinel "ErrAggregateTypeEmpty".
Definition ErrEventNameEmpty := Sentinel "ErrEventNameEmpty".
Definition ErrUnsupportedEventType := Sentinel "ErrUnsupportedEventType".
Definition ErrEventStoreNil := Sentinel "ErrEventStoreNil".

Section root.
Context {E : Type}.
Implicit Types (r : AggregateRoot E).

(** The zero value of the struct. *)
Definition zeroRoot : AggregateRoot E := mkRoot "" "" 0 0 [].

Definition SetID (id : string) : method (AggregateRoot E) unit := fun r =>
  if decide (id = "") then (Err ErrIDEmpty, r)
  else if decide (aggregateID r <> "" /\ aggregateID r <> id) then (Err ErrAggExisted, r)
  else (Ok tt, mkRoot id (aggregateType r) (version r) (baseVersion r) (events r)).

Definition SetAggregateType (typ : string) r : AggregateRoot E :=
  mkRoot (aggregateID r) typ (version r) (baseVersion r) (events r).

(** The current version: that of the last recorded event, if any. *)
Definition CurrentVersion r : Z :=
  match last (events r) with
  | Some e => Version e
  | None => version r
  end.

Definition nextVersion r : Z := add64 (CurrentVersion r) 1.

Definition CloneEvents r : list (Event E) := events r.

Definition IsUnsaved r : bool := bool_decide (events r <> []).

Definition MarkPersisted r : AggregateRoot E :=
  match last (events r) with
  | Some e => mkRoot (aggregateID r) (aggregateType r) (Version e) (Version e) []
  | None => r
  end.

Definition SetInternal (id : string) (base ver : Z) r : AggregateRoot E :=
  mkRoot id (aggregateType r) ver base [].

Definition appendEvent (e : Event E) r : AggregateRoot E :=
  mkRoot (aggregateID r) (aggregateType r) (version r) (baseVersion r) (events r ++ [e]).

(** The root after the event [e] of the history has been replayed. *)
Definition loadedEvent (e : Event E) r : AggregateRoot E :=
  mkRoot (AggregateID e) (aggregateType r) (Version e) (Version e) (events r).

(** [InitAggregate] on a non-nil root; the type name is the one reflection
    finds. *)
Definition InitAggregate (typeName id : string) : method (AggregateRoot E) unit :=
  if decide (typeName = "") then raise ErrAggregateTypeEmpty
  else modify (SetAggregateType typeName) ≫= fun _ => SetID (TrimSpace id).
End root.

(** ** Aggregates *)

Class Aggregate (A E : Type) := {
  Root : A -> AggregateRoot E;
  setRoot : AggregateRoot E -> A -> A;
  Transition : Event E -> method A unit;
  Root_setRoot r a : Root (setRoot r a) = r;
  setRoot_Root a : setRoot (Root a) a = a;
  setRoot_setRoot r r' a : setRoot r (setRoot r' a) = setRoot r a
}.

(** Interpreting an event neither reads nor writes the embedded root, as in
    most aggregates. *)
Class RootFree (A E : Type) `{Aggregate A E} := {
  Transition_setRoot e r a :
    is_ok (Transition e (setRoot r a)).1 = is_ok (Transition e a).1 /\
    (Transition e (setRoot r a)).2 = setRoot r (Transition e a).2
}.

Section aggregate.
Context {A E : Type} `{EP : EventPayload E} `{Agg : Aggregate A E}.
Implicit Types (a : A).

Definition updRoot (f : AggregateRoot E -> AggregateRoot E) a : A :=
  setRoot (f (Root a)) a.

(** [ApplyChangeWithMetadata] / [ApplyChange]: the event is recorded before
    it is interpreted, and stays recorded when its interpretation fails. *)
Definition ApplyChange (data : E) : method A unit := fun a =>
  let ar := Root a in
  if decide (aggregateID ar = "") then (Err (Errorf "missing aggregate_id" []), a)
  else if payload_nil data then (Err (Errorf "event data can not be nil" []), a)
  else if decide (event_name data = "") then (Err ErrEventNameEmpty, a)
  else
    let evt := mkEvent 0 (aggregateID ar) (aggregateType ar) (nextVersion ar)
                 (event_name data) data 0 in
    Transition evt (updRoot (appendEvent evt) a).

Definition LoadEvent (e : Event E) : method A unit :=
  Transition e ≫= fun _ => modify (updRoot (loadedEvent e)).

Definition LoadFromHistory (es : list (Event E)) : method A unit := range es LoadEvent.
End aggregate.

(** ** Publisher *)

Section publisher.
Context {St E : Type} `{EP : EventPayload E}.

(** A [Store] is its [Append] operation over the state of the store. *)
Definition Store : Type := Event E -> method St unit.

Definition publishOne (append : Store) (now : Time) (ev : Event E) : method St unit :=
  if decide (AggregateID ev = "") then raise ErrIDEmpty
  else if decide (EventName ev = "") then raise ErrEventNameEmpty
  else
    let ev := if decide (CreatedAt ev <= 0) then set_CreatedAt (Unix now) ev else ev in
    wrap_err (fun e => Errorf "append event=%s failed: %w" [e]) (append ev).

Definition Publish (store : option Store) (now : Time) (evs : list (Event E)) :
    method St unit :=
  match store with
  | None => raise ErrEventStoreNil
  | Some append => range evs (publishOne append now)
  end.

(** [PublishAggregate] on a non-nil aggregate: its pending events are
    appended in order, and only then is it marked persisted. The receiver's
    state is the store paired with the aggregate. *)
Definition PublishAggregate {A} `{Agg : Aggregate A E} (store : option Store)
    (now : Time) : method (St * A) unit := fun '(st, a) =>
  match CloneEvents (Root a) with
  | [] => (Ok tt, (st, a))
  | evs =>
      match Publish store now evs st with
      | (Ok _, st') => (Ok tt, (st', updRoot MarkPersisted a))
      | (r, st') => (r, (st', a))
      end
  end.
End publisher.
Arguments Store : clear implicits.

(** ** Versions *)

Section root_lemmas.
Context {E : Type}.
Implicit Types (r : AggregateRoot E) (es : list (Event E)).

(** The events of [es] carry the versions that follow [base], in order. *)
Definition consecutive (base : Z) es : Prop :=
  forall i e, es !! i = Some e -> Version e = base + Z.of_nat (S i).

(** The invariant of a root: pending events continue the persisted version
    without gaps and belong to the aggregate. *)
Definition root_wf r : Prop :=
  version r = baseVersion r /\ 0 <= baseVersion r /\
  consecutive (baseVersion r) (events r) /\
  Forall (fun e => AggregateID e = aggregateID r) (events r).

(** The version counter has room for [n] more events. *)
Definition version_room (n : nat) r : Prop :=
  baseVersion r + Z.of_nat (length (events r)) + Z.of_nat n <= int64_max.

Lemma consecutive_snoc base es e :
  consecutive base es -> Version e = base + Z.of_nat (S (length es)) ->
  consecutive base (es ++ [e]).
Proof.
  intros H He i e' Hi. apply lookup_app_Some in Hi as [Hi|[Hle Hi]]; [by apply H|].
  apply list_lookup_singleton_Some in Hi as [Hi <-].
  replace i with (length es) by lia. done.
Qed.

Lemma consecutive_app base es es' :
  consecutive base es -> consecutive (base + Z.of_nat (length es)) es' -> consecutive base (es ++ es').
Proof.
  intros H H' i e [Hi|[Hle Hi]]%lookup_app_Some; [by apply H|]. rewrite (H' _ _ Hi). lia.
Qed.

Lemma CurrentVersion_wf r :
  root_wf r -> CurrentVersion r = baseVersion r + Z.of_nat (length (events r)).
Proof.
  intros (Hv & _ & Hc & _). unfold CurrentVersion.
  destruct (last (events r)) as [e|] eqn:Hl.
  - rewrite last_lookup in Hl. rewrite (Hc _ _ Hl).
    assert (length (events r) <> 0)%nat by (intros Hz; by rewrite (nil_length_inv _ Hz) in Hl).
    lia.
  - apply last_None in Hl. rewrite Hl. cbn. lia.
Qed.

Lemma nextVersion_wf r :
  root_wf r -> version_room 1 r ->
  nextVersion r = baseVersion r + Z.of_nat (S (length (events r))).
Proof.
  intros Hw Hr. unfold nextVersion. rewrite CurrentVersion_wf by done.
  unfold version_room in Hr. destruct Hw as (_ & ? & _).
  rewrite add64_small; [lia|]. unfold in64, int64_min, int64_max in *. lia.
Qed.

Lemma appendEvent_wf r e :
  root_wf r -> AggregateID e = aggregateID r ->
  Version e = baseVersion r + Z.of_nat (S (length (events r))) ->
  root_wf (appendEvent e r).
Proof.
  intros (? & ? & ? & ?) Ha Hv. repeat split; cbn; auto using consecutive_snoc.
  apply Forall_app. auto.
Qed.

Lemma version_room_append n e r : version_room (S n) r -> version_room n (appendEvent e r).
Proof. unfold version_room. cbn. rewrite length_app. cbn. lia. Qed.

Lemma version_room_le n m r : (m <= n)%nat -> version_room n r -> version_room m r.
Proof. unfold version_room. lia. Qed.

Lemma MarkPersisted_wf r :
  root_wf r -> root_wf (MarkPersisted r) /\ events (MarkPersisted r) = [] /\
    CurrentVersion (MarkPersisted r) = CurrentVersion r.
Proof.
  intros Hw. pose proof (CurrentVersion_wf r Hw) as Hc.
  unfold MarkPersisted, CurrentVersion in *. destruct (last (events r)) eqn:Hl.
  - destruct Hw as (? & ? & ? & ?). split; [|done]. split; cbn; [done|].
    split; [lia|]. by split; [intros i x Hx|constructor].
  - apply last_None in Hl. rewrite Hl. auto.
Qed.

Lemma version_room_MarkPersisted n r :
  root_wf r -> version_room n r -> version_room n (MarkPersisted r).
Proof.
  intros Hw Hr. destruct (MarkPersisted_wf r Hw) as (Hw' & He & Hc).
  rewrite !CurrentVersion_wf in Hc by done. unfold version_room in *. lia.
Qed.
End root_lemmas.

Section aggregate_lemmas.
Context {A E : Type} `{EP : EventPayload E} `{Agg : Aggregate A E} `{RF : !RootFree A E}.
Implicit Types (a : A).

(** What a call of [ApplyChange] that passes its guards does. *)
Lemma ApplyChange_Ok data a a' :
  ApplyChange data a = (Ok tt, a') ->
  exists evt,
    evt = mkEvent 0 (aggregateID (Root a)) (aggregateType (Root a))
            (nextVersion (Root a)) (event_name data) data 0 /\
    aggregateID (Root a) <> "" /\
    is_ok (Transition evt a).1 = true /\
    a' = setRoot (appendEvent evt (Root a)) (Transition evt a).2.
Proof.
  unfold ApplyChange. intros Hrun. case_decide; [discriminate|].
  destruct (payload_nil data); [discriminate|]. case_decide; [discriminate|].
  set (evt := mkEvent _ _ _ _ _ _ _) in *. exists evt. split; [done|].
  destruct (Transition_setRoot evt (appendEvent evt (Root a)) a) as [Ho Hs].
  unfold updRoot in Hrun. rewrite Hrun in Ho, Hs. cbn in *. by rewrite <- Ho, <- Hs.
Qed.

Lemma Root_Transition e a : Root (Transition e a).2 = Root a.
Proof.
  destruct (Transition_setRoot e (Root a) a) as [_ Hs].
  rewrite setRoot_Root in Hs. rewrite Hs at 1. apply Root_setRoot.
Qed.

Lemma ApplyChange_root data a :
  Root (ApplyChange data a).2 = Root a \/
  exists e, Root (ApplyChange data a).2 = appendEvent e (Root a) /\
    AggregateID e = aggregateID (Root a) /\ Version e = nextVersion (Root a) /\
    EventData e = data.
Proof.
  unfold ApplyChange. case_decide; [auto|]. destruct (payload_nil data); [auto|].
  case_decide; [auto|]. right. set (evt := mkEvent _ _ _ _ _ _ _). exists evt. split; [|done].
  rewrite (Root_Transition evt). unfold updRoot. by rewrite Root_setRoot.
Qed.

Lemma ApplyChange_wf data a :
  root_wf (Root a) -> version_room 1 (Root a) ->
  root_wf (Root (ApplyChange data a).2).
Proof.
  intros Hw Hr. destruct (ApplyChange_root data a) as [->|(e & -> & Hi & Hv & _)]; [done|].
  apply appendEvent_wf; [done..|]. rewrite Hv. by apply nextVersion_wf.
Qed.

(** Marking an aggregate with nothing pending persisted changes nothing. *)
Lemma updRoot_MarkPersisted_nil a : events (Root a) = [] -> updRoot MarkPersisted a = a.
Proof. intros H. unfold updRoot, MarkPersisted. rewrite H. apply setRoot_Root. Qed.

Lemma LoadEvent_MarkPersisted evt a :
  AggregateID evt = aggregateID (Root a) ->
  is_ok (Transition evt a).1 = true ->
  LoadEvent evt (updRoot MarkPersisted a) =
    (Ok tt, updRoot MarkPersisted (setRoot (appendEvent evt (Root a)) (Transition evt a).2)).
Proof.
  intros Hid Hok. unfold LoadEvent, mbind, method_bind, updRoot.
  destruct (Transition_setRoot evt (MarkPersisted (Root a)) a) as [Ho Hs].
  destruct (Transition evt (setRoot _ a)) as [[[]|e|w] a1] eqn:Ht; cbn in *;
    rewrite Hok in Ho; try discriminate. subst a1. unfold modify.
  rewrite !Root_setRoot, !setRoot_setRoot. do 2 f_equal.
  unfold MarkPersisted at 2, loadedEvent. cbn. rewrite last_snoc.
  unfold MarkPersisted. destruct (last (events (Root a))) eqn:Hl; cbn; rewrite Hid; [done|].
  apply last_None in Hl. by rewrite Hl.
Qed.

Lemma range_ApplyChange_replay ds a a' :
  range ds ApplyChange a = (Ok tt, a') ->
  exists es, events (Root a') = events (Root a) ++ es /\
    length es = length ds /\
    LoadFromHistory es (updRoot MarkPersisted a) = (Ok tt, updRoot MarkPersisted a').
Proof.
  revert a. induction ds as [|d ds IH]; intros a H; cbn in H.
  - go_inv. exists []. by rewrite app_nil_r.
  - apply method_bind_Ok in H as ([] & a1 & H1 & H2).
    apply ApplyChange_Ok in H1 as (evt & Hevt & _ & Hok & ->).
    destruct (IH _ H2) as (es & Hes & Hlen & Hload).
    rewrite Root_setRoot in Hes. cbn in Hes. rewrite <- app_assoc in Hes.
    exists (evt :: es). split; [done|]. split; [cbn; lia|].
    apply range_cons_Ok. eexists. split; [|exact Hload].
    apply LoadEvent_MarkPersisted; [by subst|done].
Qed.
End aggregate_lemmas.

(** * The event serializer (core/shared/pkg/event/serializer.go)

    A registry from aggregate type and event name to a prototype of the
    event, and the JSON encoding of payloads. [encoding/json] is a parameter:
    the class [JSON] is what the stores use of it, and [JSONLaws] what they
    rely on. *)

(** A registered prototype stands for its type, which is known by name. *)
Definition eventRegister : Type := gmap string string.

Definition NewSerializer : eventRegister := ∅.

(** [RegisterAggregate], on the prototypes that [RegisterEvents] of the
    aggregate lists. *)
Definition RegisterAggregate (typ : string) (prototypes : list string) :
    method eventRegister unit :=
  if decide (typ = "") then raise (Errorf "not found aggregate" []) else
  range prototypes (fun eName =>
    if decide (eName = "") then raise (Errorf "name of event is missing" [])
    else modify (fun reg => <[typ +:+ "_" +:+ eName := eName]> reg)).

(** [Register] and [RegisterTypes]. *)
Definition Register (typ : string) (prototypes : list string) : method eventRegister unit :=
  if decide (typ = "") then raise (Errorf "not found aggregate" []) else
  range prototypes (fun eName =>
    if decide (eName = "") then raise (Errorf "event name is missing" [])
    else modify (fun reg => <[typ +:+ "_" +:+ eName := eName]> reg)).

(** [Type]. *)
Definition TypeOf (reg : eventRegister) (typ name : string) : option string :=
  reg !! (typ +:+ "_" +:+ name).

(** [Marshal] and [Unmarshal] of values of [E]: decoding is into a value of
    the named type. *)
Class JSON (E : Type) := {
  Marshal : E -> result string;
  Unmarshal : string -> string -> result E
}.

(** A value that was encoded is read back, where it has a type that [name]
    gives: the strings of the values are valid UTF-8, which JSON keeps. *)
Class JSONLaws (E : Type) `{JSON E} (name : E -> option string) := {
  Unmarshal_Marshal d n s : name d = Some n -> Marshal d = Ok s -> Unmarshal n s = Ok d;
  Marshal_error d e : Marshal d = Err e -> foreign e;
  Unmarshal_error n s e : Unmarshal n s = Err e -> foreign e
}.

(** Registering gives every prototype under its aggregate. *)
Lemma RegisterAggregate_Type typ names reg reg' :
  RegisterAggregate typ names reg = (Ok tt, reg') ->
  (forall n, n ∈ names -> TypeOf reg' typ n = Some n) /\
  (forall k, (forall n, n ∈ names -> k <> typ +:+ "_" +:+ n) -> reg' !! k = reg !! k).
Proof.
  unfold RegisterAggregate. case_decide; [done|]. revert reg.
  induction names as [|n names IH]; intros reg Hrun.
  - injection Hrun as <-. split; [by intros n ?%not_elem_of_nil|done].
  - apply range_cons_Ok in Hrun as (reg1 & H1 & H2).
    case_decide; [done|]. injection H1 as <-.
    destruct (IH _ H2) as [Hin Hout]. split.
    + intros m [->|Hm]%elem_of_cons; [|by apply Hin].
      destruct (decide (n ∈ names)) as [Hn|Hn]; [by apply Hin|].
      unfold TypeOf. rewrite Hout; [apply lookup_insert_eq|].
      intros m Hm Heq%(inj (String.append typ))%(inj (String.append "_")). by subst.
    + intros k Hk. rewrite Hout by (intros m Hm; apply Hk; by right).
      apply lookup_insert_ne. intros <-. eapply Hk; [by left|done].
Qed.
