(* ===== verification/BitsEncoding.v ===== *)
(** * An encoding of values as strings

    For the instances in memory: an instance of [JSON], with its laws, for any
    countable type, which writes a value as the digits of a number in base 2. *)

From Stdlib Require Import Ascii.
From stdpp Require Import prelude strings countable.
From S2P Require Import Prelude Event.

Fixpoint bits (p : positive) : string :=
  match p with
  | xH => ""
  | xO p => String "0"%char (bits p)
  | xI p => String "1"%char (bits p)
  end.

Fixpoint unbits (s : string) : positive :=
  match s with
  | EmptyString => xH
  | String c s => if Ascii.eqb c "1"%char then xI (unbits s) else xO (unbits s)
  end.

Lemma unbits_bits p : unbits (bits p) = p.
Proof. induction p as [p IH|p IH|]; cbn; by rewrite ?IH. Qed.

(** Reads back the values of the prototype [n] only. *)
Definition decodeAs {E} `{Countable E} (name : E -> option string) (n s : string) : result E :=
  match decode (unbits s) with
  | Some d =>
      if decide (name d = Some n) then Ok d
      else Err (Errorf "json: cannot unmarshal value of another type" [])
  | None => Err (Errorf "json: syntax error" [])
  end.

Definition BitsJSON {E} `{Countable E} (name : E -> option string) : JSON E := {|
  Marshal d := Ok (bits (encode d));
  Unmarshal := decodeAs name
|}.

Lemma BitsJSONLaws {E} `{Countable E} (name : E -> option string) :
  JSONLaws E (H := BitsJSON name) name.
Proof.
  split.
  - intros d n s Hn [= <-]. cbn. unfold decodeAs. rewrite unbits_bits, decode_encode.
    by rewrite decide_True.
  - intros d e [=].
  - intros n s e. cbn. unfold decodeAs. intros He name'.
    destruct (decode _) as [d|]; [case_decide; [done|]|]; injection He as <-; done.
Qed.
