(* ===== verification/ActorContext.v ===== *)
(** * The actor of a request (core/shared/pkg/actorctx)

    The context of a request carries the actor that the transport found, or
    none. *)

From stdpp Require Import prelude strings.
From S2P Require Import Prelude GoStrings.

Record Actor := mkActor { ActorAccountID : string; ActorEmail : string; ActorRole : string }.

(** What [WithActor] puts in the context; [FromContext] finds it unless its id
    is empty. *)
Definition WithActor (actor : Actor) : Actor :=
  mkActor (TrimSpace (ActorAccountID actor)) (TrimSpace (ActorEmail actor))
    (TrimSpace (ActorRole actor)).

Definition FromContext (ctx : option Actor) : option Actor :=
  match ctx with
  | Some actor => if decide (ActorAccountID actor = "") then None else Some actor
  | None => None
  end.

Definition AccountIDFromCtx (ctx : option Actor) : result string :=
  match FromContext ctx with
  | Some actor => Ok (ActorAccountID actor)
  | None => Err (Errorf "unauthorized" [])
  end.
