(* ===== verification/Redis.v ===== *)
(** * Redis, the cache and idempotency (core/shared/infra/cache, core/shared/infra/idempotency)

    The client of Redis is a parameter: its commands, and what they do to the
    keys that are live ([rdb]). The methods of the cache are written over the
    commands, the idempotency store over the cache, and the manager over a
    store. [now] and [elapse] are the clock: waiting lets other processes
    work, and keys expire. *)

From stdpp Require Import prelude strings gmap.
From S2P Require Import Prelude GoStrings Database Event.

(** Durations, in nanoseconds. *)
Definition Millisecond : Z := 1000000.
Definition Second : Z := 1000000000.
Definition Hour : Z := 3600 * Second.

(** [Duration.Seconds()], truncated to an integer. *)
Definition durationSeconds (d : Z) : Z := Z.quot d Second.

(** ** The clock and the random source *)

Class Runtime (W : Type) := {
  now : W -> Time;
  elapse : Z -> W -> W;
  Int63n_draw : Z -> W -> Z
}.

Class RuntimeLaws (W : Type) `{Runtime W} := {
  elapse_now d w : now w + d <= now (elapse d w);
  Int63n_range n w : 0 < n -> 0 <= Int63n_draw n w < n
}.

(** [rand.Int63n], which panics where there is nothing to draw from. *)
Definition Int63n {W} `{Runtime W} (n : Z) : method W Z := fun w =>
  if decide (n <= 0) then (Panic "invalid argument to Int63n", w) else (Ok (Int63n_draw n w), w).

(** ** The client

    [Set], [SetArgs] with [Mode: "NX"], [Get], [Del] and [Exists] of go-redis, and the
    run of a script, which the server executes as one step on its keys. *)

Definition redisKeys : Type := gmap string string.

Class Redis (W : Type) := {
  rdb : W -> redisKeys;
  redisSet : string -> string -> Z -> method W string;
  redisSetNX : string -> string -> Z -> method W string;
  redisGet : string -> method W string;
  redisDel : string -> method W Z;
  redisExists : string -> method W Z;
  redisRun : (redisKeys -> Z * redisKeys) -> method W Z
}.

(** [redis.Nil], the error of a reply that is nil. *)
Definition redisNil := Sentinel "redis.Nil".

(** A command: it replies and satisfies [Q], or it fails with an error of the
    client and is not executed. *)
Definition replies {W A} `{Redis W} (m : method W A) (w : W) (Q : A -> W -> Prop) : Prop :=
  match m w with
  | (Ok a, w') => Q a w'
  | (Err e, w') => foreign e /\ rdb w' = rdb w
  | (Panic _, _) => False
  end.

(** A command whose reply is nil, when it does not fail otherwise. *)
Definition replies_nil {W A} `{Redis W} (m : method W A) (w : W) : Prop :=
  match m w with
  | (Err e, w') => (e = redisNil \/ foreign e) /\ rdb w' = rdb w
  | _ => False
  end.

(** What the commands do. The reply to [SET] with [NX] on a key that is there,
    and to [GET] on one that is not, is nil, which the client returns as the
    error [redis.Nil]. *)
Class RedisLaws (W : Type) `{Runtime W, Redis W} := {
  redisSet_replies k v ttl w :
    replies (redisSet k v ttl) w (fun res w' => res = "OK" /\ rdb w' = <[k := v]> (rdb w));
  redisSetNX_replies k v ttl w : rdb w !! k = None ->
    replies (redisSetNX k v ttl) w (fun res w' => res = "OK" /\ rdb w' = <[k := v]> (rdb w));
  redisSetNX_busy k v ttl w : is_Some (rdb w !! k) -> replies_nil (redisSetNX k v ttl) w;
  redisGet_replies k v w : rdb w !! k = Some v ->
    replies (redisGet k) w (fun res w' => res = v /\ rdb w' = rdb w);
  redisGet_missing k w : rdb w !! k = None -> replies_nil (redisGet k) w;
  redisDel_replies k w :
    replies (redisDel k) w (fun _ w' => rdb w' = delete k (rdb w));
  redisExists_replies k w :
    replies (redisExists k) w (fun n w' =>
      n = (if decide (is_Some (rdb w !! k)) then 1 else 0) /\ rdb w' = rdb w);
  redisRun_replies f w :
    replies (redisRun f) w (fun res w' => (res, rdb w') = f (rdb w));
  redisSetNX_now k v ttl w : now w <= now (redisSetNX k v ttl w).2
}.

(** ** The cache

    [Set] and its variants differ in how long the key lives, which is an
    argument of the command. *)

Section cache.
Context {W : Type} `{Redis W}.

Definition CacheGet (key : string) : method W string :=
  wrap_err (fun err => Errorf "get key=%s failed err=%w" [err]) (redisGet key).

Definition SetWithDuration (key value : string) (duration : Z) : method W unit :=
  wrap_err (fun err => Errorf "set value=%v with key=%s and duration=%d to redis failed err=%w" [err])
    (redisSet key value duration ≫= fun _ => mret tt).

Definition SetObject {A} `{JSON A} (key : string) (val : A) (duration : Z) : method W unit :=
  dataBytes ← lift (Marshal val);
  redisSet key dataBytes duration ≫= fun _ => mret tt.

Definition CacheDelete (key : string) : method W unit :=
  wrap_err (fun err => Errorf "delete with key=%s to redis failed err=%w" [err])
    (redisDel key ≫= fun _ => mret tt).

(** [Exists(...).Val()]: 0 where the command fails. *)
Definition CacheExists (key : string) : method W Z := fun w =>
  match redisExists key w with
  | (Err _, w) => (Ok 0, w)
  | r => r
  end.

Definition SetValWithExp (key value : string) (seconds : Z) : method W unit :=
  wrap_err (fun err => Errorf "set value=%v with key=%s to redis failed, err=%w" [err])
    (redisSet key value (mul64 seconds Second) ≫= fun _ => mret tt).

Definition GetVal (key : string) : method W string := redisGet key.

(** The command is [Set], without the mode [NX]. *)
Definition SetNX (key : string) (seconds : Z) (data : string) : method W bool :=
  res ← redisSet key data (mul64 Second seconds);
  mret (bool_decide (res = "OK")).
End cache.

(** ** Idempotency *)

(** [idempotency.Store]. *)
Record IdempotencyStore (W : Type) := mkIdempotencyStore {
  TryLock : string -> Z -> method W bool;
  MarkDone : string -> Z -> method W unit;
  StoreRelease : string -> method W unit
}.
Arguments mkIdempotencyStore {W} _ _ _.
Arguments TryLock {W} _ _ _.
Arguments MarkDone {W} _ _ _.
Arguments StoreRelease {W} _ _.

Definition keyPrefix : string := "idempotency:".

Definition ttlSeconds (ttl : Z) : Z :=
  let seconds := durationSeconds ttl in
  if decide (seconds <= 0) then 1 else seconds.

(** [RedisStore] with a cache. *)
Definition RedisStore {W} `{Redis W} : IdempotencyStore W := mkIdempotencyStore
  (fun key ttl => SetNX (keyPrefix +:+ key) (ttlSeconds ttl) "locked")
  (fun key ttl => SetValWithExp (keyPrefix +:+ key) "done" (ttlSeconds ttl))
  (fun key => CacheDelete (keyPrefix +:+ key)).

Module Manager.
Record t (W : Type) := mk {
  store : option (IdempotencyStore W);
  lockTTL : Z;
  doneTTL : Z
}.
Arguments mk {W} _ _ _.
Arguments store {W} _.
Arguments lockTTL {W} _.
Arguments doneTTL {W} _.

Definition Begin {W} (m : option (t W)) (key : string) : method W bool :=
  match m with
  | Some (mk (Some store) lockTTL _) => TryLock store key lockTTL
  | _ => mret true
  end.

Definition End_ {W} (m : option (t W)) (key : string) (success : bool) : method W unit :=
  match m with
  | Some (mk (Some store) _ doneTTL) =>
      if success then MarkDone store key doneTTL else StoreRelease store key
  | _ => mret tt
  end.
End Manager.

(** A manager over Redis. *)
Definition redisManager {W} `{Redis W} (lockTTL doneTTL : Z) : option (Manager.t W) :=
  Some (Manager.mk (Some RedisStore) lockTTL doneTTL).

(** ** A server in memory

    Keys with their time of expiry, and a clock that only waiting moves. *)

Record MemoryRedis := mkMemoryRedis {
  memoryClock : Time;
  memoryKeys : gmap string (string * option Time)
}.

Definition memorySet (k v : string) (ttl : Z) (w : MemoryRedis) : MemoryRedis :=
  mkMemoryRedis (memoryClock w)
    (<[k := (v, if decide (0 < ttl) then Some (memoryClock w + ttl) else None)]> (memoryKeys w)).

(** The keys that a script leaves keep their expiry. *)
Definition memoryRun (f : redisKeys -> Z * redisKeys) (w : MemoryRedis) : Z * MemoryRedis :=
  let '(res, keys) := f (fst <$> memoryKeys w) in
  (res, mkMemoryRedis (memoryClock w)
          (map_imap (fun k v => Some (v, memoryKeys w !! k ≫= snd)) keys)).

#[export] Instance memory_redis : Redis MemoryRedis := {
  rdb w := fst <$> memoryKeys w;
  redisSet k v ttl w := (Ok "OK", memorySet k v ttl w);
  redisSetNX k v ttl w :=
    match memoryKeys w !! k with
    | Some _ => (Err redisNil, w)
    | None => (Ok "OK", memorySet k v ttl w)
    end;
  redisGet k w := match memoryKeys w !! k with Some (v, _) => (Ok v, w) | None => (Err redisNil, w) end;
  redisDel k w := (Ok (if decide (is_Some (memoryKeys w !! k)) then 1 else 0),
                   mkMemoryRedis (memoryClock w) (delete k (memoryKeys w)));
  redisExists k w := (Ok (if decide (is_Some (memoryKeys w !! k)) then 1 else 0), w);
  redisRun f w := let '(res, w) := memoryRun f w in (Ok res, w)
}.

#[export] Instance memory_runtime : Runtime MemoryRedis := {
  now := memoryClock;
  elapse d w :=
    let clock := memoryClock w + d in
    mkMemoryRedis clock (filter (fun key => bool_decide (key.2.2 = None) ||
                                            from_option (Z.ltb clock) true key.2.2)
                           (memoryKeys w));
  Int63n_draw n w := memoryClock w `mod` n
}.

#[export] Instance memory_runtime_laws : RuntimeLaws MemoryRedis.
Proof. split; cbn; intros; [lia|]. by apply Z.mod_pos_bound. Qed.

Lemma memory_lookup (w : MemoryRedis) k : rdb w !! k = fst <$> memoryKeys w !! k.
Proof. apply lookup_fmap. Qed.

Lemma memorySet_rdb k v ttl w : rdb (memorySet k v ttl w) = <[k := v]> (rdb w).
Proof. apply (fmap_insert fst). Qed.

#[export] Instance memory_redis_laws : RedisLaws MemoryRedis.
Proof.
  split; unfold replies, replies_nil.
  - intros. split; [done|]. apply memorySet_rdb.
  - intros k v ttl w H. rewrite memory_lookup in H. unfold redisSetNX, memory_redis.
    destruct (memoryKeys w !! k); [done|]. split; [done|]. apply memorySet_rdb.
  - intros k v ttl w H. rewrite memory_lookup in H. unfold redisSetNX, memory_redis.
    destruct (memoryKeys w !! k); [auto|]. by destruct H.
  - intros k v w H. rewrite memory_lookup in H. unfold redisGet, memory_redis.
    destruct (memoryKeys w !! k) as [[]|]; [|done]. by injection H.
  - intros k w H. rewrite memory_lookup in H. unfold redisGet, memory_redis.
    destruct (memoryKeys w !! k); [done|auto].
  - intros. apply (fmap_delete fst).
  - intros k w. rewrite memory_lookup. cbn. split; [|done].
    destruct (memoryKeys w !! k) as [[]|]; cbn; simplify_decide; try done;
      repeat case_decide; try done; exfalso; naive_solver.
  - intros f w. unfold redisRun, memory_redis, memoryRun, rdb.
    destruct (f (fst <$> memoryKeys w)) as [res keys]. cbn [memoryKeys]. f_equal.
    unfold redisKeys in keys. apply map_eq. intros k. rewrite lookup_fmap, map_lookup_imap. destruct (keys !! k); reflexivity.
  - intros. unfold redisSetNX, memory_redis. by destruct (memoryKeys w !! k).
Qed.
