(* ===== verification/Locks.v ===== *)
(** * Distributed locks (core/shared/infra/lock)

    The interface [Lock], its implementation over Redis, and [WithLocks],
    which runs a function while it holds a set of keys. *)

From stdpp Require Import prelude strings gmap.
From S2P Require Import Prelude GoStrings GoSort Database Redis.

(** ** The interface *)

Record Lock (W : Type) := mkLock {
  AcquireLock : string -> string -> Z -> Z -> Z -> method W bool;
  ReleaseLock : string -> string -> method W bool
}.
Arguments mkLock {W} _ _.
Arguments AcquireLock {W} _ _ _ _ _ _.
Arguments ReleaseLock {W} _ _ _.

(** ** The lock in Redis *)

Section redis.
Context {W : Type} `{Runtime W, Redis W}.

(** The script of a release: the key is removed when it still holds [value]. *)
Definition releaseLockScript (key value : string) (keys : redisKeys) : Z * redisKeys :=
  if decide (keys !! key = Some value) then (1, delete key keys) else (0, keys).

(** The loop of [AcquireLock], for [attempts] rounds: [None] when it is not
    done then. A round asks for the key; when the reply is not [OK], it draws
    a jitter and waits, for the delay or for the deadline of the context,
    whichever comes first. *)
Fixpoint acquireLoop (attempts : nat) (deadline : Time) (key value : string)
    (expiration retryDelay : Z) (w : W) : option (result bool * W) :=
  match attempts with
  | O => None
  | S attempts =>
      match redisSetNX key value expiration w with
      | (Err e, w) => Some (Err e, w)
      | (Panic why, w) => Some (Panic why, w)
      | (Ok res, w) =>
          if decide (res = "OK") then Some (Ok true, w)
          else
            match Int63n (Z.quot retryDelay 2) w with
            | (Err e, w) => Some (Err e, w)
            | (Panic why, w) => Some (Panic why, w)
            | (Ok jitter, w) =>
                let wait := add64 retryDelay jitter in
                if decide (now w + wait <= deadline)
                then acquireLoop attempts deadline key value expiration retryDelay (elapse wait w)
                else Some (Err (Errorf "timeout acquiring lock" []), elapse (deadline - now w) w)
            end
      end
  end.

(** How often [AcquireLock] can ask before its deadline. *)
Definition acquireAttempts (retryDelay timeout : Z) : nat := S (Z.to_nat (timeout `div` retryDelay)).

Definition redisAcquireLock (key value : string) (expiration retryDelay timeout : Z) :
    method W bool := fun w =>
  match acquireLoop (acquireAttempts retryDelay timeout) (now w + timeout) key value expiration
          retryDelay w with
  | Some run => run
  | None => (Panic "AcquireLock does not return", w)
  end.

Definition redisReleaseLock (key value : string) : method W bool :=
  hit ← redisRun (releaseLockScript key value);
  mret (bool_decide (hit <> 0)).

Definition NewLock : Lock W := mkLock redisAcquireLock redisReleaseLock.
End redis.

(** ** Several keys *)

Module MultiLockOptions.
Record t := mk {
  Expiration : Z;
  RetryDelay : Z;
  Timeout : Z;
  KeyPrefix : string
}.
End MultiLockOptions.

Definition DefaultMultiLockOptions : MultiLockOptions.t :=
  MultiLockOptions.mk (30 * Second) (100 * Millisecond) (3 * Second) "".

(** [opts.KeyPrefix = prefix]. *)
Definition withKeyPrefix (opts : MultiLockOptions.t) (prefix : string) : MultiLockOptions.t :=
  MultiLockOptions.mk (MultiLockOptions.Expiration opts) (MultiLockOptions.RetryDelay opts)
    (MultiLockOptions.Timeout opts) prefix.

Definition prefixed (prefix k : string) : string :=
  if decide (prefix <> "") then prefix +:+ ":" +:+ k else k.

(** The loop of [normalizeKeys], after the keys [seen]. *)
Fixpoint normalizeFrom (seen : gset string) (keys : list string) (prefix : string) : list string :=
  match keys with
  | [] => []
  | k :: keys =>
      if decide (k = "") then normalizeFrom seen keys prefix
      else
        let k := prefixed prefix k in
        if decide (k ∈ seen) then normalizeFrom seen keys prefix
        else k :: normalizeFrom ({[k]} ∪ seen) keys prefix
  end.

Definition normalizeKeys (keys : list string) (prefix : string) : list string :=
  sort_Slice String.ltb (normalizeFrom ∅ keys prefix).

(** [defer d()], where [d] returns nothing. *)
Definition defer {W A} (d : method W unit) (body : method W A) : method W A := fun w =>
  let '(r, w) := body w in
  match d w with
  | (Panic why, w) => (Panic why, w)
  | (_, w) => (r, w)
  end.

Section withLocks.
Context {W : Type} (locker : Lock W).

(** [release], on the keys in the order of their release. *)
Definition releaseKeys (keys : list string) (lockValue : string) : method W unit :=
  range keys (fun key => ignoreError (ReleaseLock locker key lockValue)).

(** The loop that acquires, after the keys [held]. *)
Fixpoint acquireKeys (opts : MultiLockOptions.t) (lockValue : string) (held keys : list string) :
    method W unit :=
  match keys with
  | [] => mret tt
  | key :: keys => fun w =>
      match AcquireLock locker key lockValue (MultiLockOptions.Expiration opts)
              (MultiLockOptions.RetryDelay opts) (MultiLockOptions.Timeout opts) w with
      | (Ok true, w) => acquireKeys opts lockValue (held ++ [key]) keys w
      | (Ok false, w) =>
          (releaseKeys (rev held) lockValue;;
           raise (Errorf "acquire lock failed: %s" [])) w
      | (Err e, w) => (releaseKeys (rev held) lockValue;; raise e) w
      | (Panic why, w) => (Panic why, w)
      end
  end.

(** The part of [WithLocks] with keys to lock. *)
Definition holdingKeys {T} (opts : MultiLockOptions.t) (lockValue : string) (lockKeys : list string)
    (fn : method W T) : method W T :=
  acquireKeys opts lockValue [] lockKeys;;
  defer (releaseKeys (rev lockKeys) lockValue) fn.
End withLocks.

(** [locker] is nil without locks; [lockValue] is a fresh id. *)
Definition WithLocks {W T} (locker : option (Lock W)) (lockValue : string) (keys : list string)
    (opts : MultiLockOptions.t) (fn : method W T) : method W T :=
  match locker with
  | None => fn
  | Some locker =>
      if decide (length keys = 0%nat) then fn
      else
        let lockKeys := normalizeKeys keys (MultiLockOptions.KeyPrefix opts) in
        if decide (length lockKeys = 0%nat) then fn
        else holdingKeys locker opts lockValue lockKeys fn
  end.

(** A lock that works on one part of a larger state. *)
Definition onFirst {W V A} (m : method W A) : method (W * V) A := fun '(w, v) =>
  let '(r, w) := m w in (r, (w, v)).
Definition onSecond {W V A} (m : method V A) : method (W * V) A := fun '(w, v) =>
  let '(r, v) := m v in (r, (w, v)).

Definition lockFirst {W V} (locker : Lock W) : Lock (W * V) := mkLock
  (fun key value expiration retryDelay timeout =>
     onFirst (AcquireLock locker key value expiration retryDelay timeout))
  (fun key value => onFirst (ReleaseLock locker key value)).
