(* ===== verification/LocksSpec.v ===== *)
(** * What the locks promise

    [LockLaws] is the contract of the interface [Lock] on a table of held
    keys. The lock in Redis satisfies it, and returns after a bounded number of
    rounds; [WithLocks] runs its function while all its keys are held, and
    leaves the table as it found it. *)

From stdpp Require Import prelude strings gmap sorting.
From S2P Require Import Prelude GoStrings GoSort Database Redis Locks.

(** ** Normalized keys *)

Section normalize.
Implicit Types (keys : list string) (prefix : string).

Lemma normalizeFrom_elem seen keys prefix k :
  k ∈ normalizeFrom seen keys prefix <->
  k ∉ seen /\ exists k0, k0 ∈ keys /\ k0 <> "" /\ k = prefixed prefix k0.
Proof.
  revert seen. induction keys as [|x keys IH]; intros seen; cbn; [set_solver|].
  repeat case_decide; rewrite ?elem_of_cons, ?IH; clear IH; [set_solver..|].
  split.
  - intros [->|[Hs Hk]]; [|set_solver]. split; [done|]. exists x. set_solver.
  - intros [Hs (k0 & [->|Hk]%elem_of_cons & Hne & ->)]; [by left|].
    destruct (decide (prefixed prefix k0 = prefixed prefix x)) as [->|?]; [by left|right]. set_solver.
Qed.

Lemma normalizeFrom_NoDup seen keys prefix : NoDup (normalizeFrom seen keys prefix).
Proof.
  revert seen. induction keys as [|x keys IH]; intros seen; cbn; [constructor|].
  repeat case_decide; [done..|]. constructor; [|done]. rewrite normalizeFrom_elem. set_solver.
Qed.

Lemma normalizeKeys_elem keys prefix k :
  k ∈ normalizeKeys keys prefix <-> exists k0, k0 ∈ keys /\ k0 <> "" /\ k = prefixed prefix k0.
Proof.
  unfold normalizeKeys. rewrite sort_Slice_Permutation, normalizeFrom_elem. set_solver.
Qed.

Lemma normalizeKeys_NoDup keys prefix : NoDup (normalizeKeys keys prefix).
Proof. unfold normalizeKeys. rewrite sort_Slice_Permutation. apply normalizeFrom_NoDup. Qed.

(** The keys are strictly ascending. *)
Definition ascending (keys : list string) : Prop :=
  StronglySorted (fun j k => String.ltb j k = true) keys.

Lemma normalizeKeys_ascending keys prefix : ascending (normalizeKeys keys prefix).
Proof.
  unfold ascending. pose proof (normalizeKeys_NoDup keys prefix) as Hd.
  pose proof (sort_Slice_sorted String.ltb (normalizeFrom ∅ keys prefix)) as Hs.
  fold (normalizeKeys keys prefix) in Hs. induction Hs as [|k ks Hs IH Hk]; [constructor|].
  apply NoDup_cons in Hd as [Hin Hd]. constructor; [by apply IH|].
  rewrite Forall_forall in *. intros j Hj. specialize (Hk j Hj). unfold notAfter in Hk.
  destruct (String.ltb k j) eqn:E; [done|]. by rewrite (ltb_total k j) in Hin by done.
Qed.
End normalize.

(** ** The loop of [AcquireLock] ends *)

Section rounds.
Context {W : Type} `{RuntimeLaws W, !Redis W}.
Context (redisSetNX_clock : forall k v ttl (w : W), now w <= now (redisSetNX k v ttl w).2).

Lemma acquireLoop_done attempts deadline key value expiration retryDelay (w : W) :
  (0 < attempts)%nat -> 0 < retryDelay <= 2 ^ 61 ->
  deadline - now w < Z.of_nat attempts * retryDelay ->
  is_Some (acquireLoop attempts deadline key value expiration retryDelay w).
Proof using All.
  intros Hpos Hd. revert w. induction attempts as [|n IH]; [lia|]. intros w Hw. cbn.
  pose proof (redisSetNX_clock key value expiration w) as Hnow.
  destruct (redisSetNX key value expiration w) as [[res|e|why] w1]; cbn in Hnow; [|by eauto..].
  case_decide; [by eauto|]. unfold Int63n. case_decide as Hj; [by eauto|].
  pose proof (Int63n_range (Z.quot retryDelay 2) w1 ltac:(lia)) as Hr.
  assert (Z.quot retryDelay 2 <= retryDelay) as Hq
    by (rewrite Z.quot_div_nonneg by lia; apply Z.div_le_upper_bound; lia).
  assert (add64 retryDelay (Int63n_draw (Z.quot retryDelay 2) w1)
          = retryDelay + Int63n_draw (Z.quot retryDelay 2) w1) as ->
    by (apply add64_small; unfold in64, int64_min, int64_max; lia).
  case_decide as Hwait; [|by eauto].
  set (wait := retryDelay + _) in *. pose proof (elapse_now wait w1) as He.
  destruct n as [|n]; [lia|]. apply IH; lia.
Qed.

(** More rounds change nothing. *)
Lemma acquireLoop_more attempts more deadline key value expiration retryDelay (w : W) run :
  acquireLoop attempts deadline key value expiration retryDelay w = Some run ->
  acquireLoop (attempts + more) deadline key value expiration retryDelay w = Some run.
Proof using Type.
  revert w. induction attempts as [|n IH]; [done|]. intros w. cbn.
  destruct (redisSetNX key value expiration w) as [[res|e|why] w1]; [|done..].
  case_decide; [done|]. destruct (Int63n (Z.quot retryDelay 2) w1) as [[j|e|why] w2]; [|done..].
  case_decide; [apply IH|done].
Qed.
End rounds.

(** C39: [AcquireLock] returns: whatever the keys and the replies are, the loop
    that asks, waits and asks again ends after at most [timeout / retryDelay]
    waits, and its outcome does not depend on how many more it could make. *)
Theorem AcquireLock_returns {W} `{RuntimeLaws W, !Redis W} key value expiration retryDelay timeout (w : W) more :
  (forall k v ttl (w : W), now w <= now (redisSetNX k v ttl w).2) ->
  0 < retryDelay <= 2 ^ 61 ->
  acquireLoop (acquireAttempts retryDelay timeout + more) (now w + timeout) key value expiration
    retryDelay w = Some (redisAcquireLock key value expiration retryDelay timeout w).
Proof.
  intros Hclock Hd. unfold redisAcquireLock.
  destruct (acquireLoop_done Hclock (acquireAttempts retryDelay timeout) (now w + timeout) key value
              expiration retryDelay w) as [run Hrun].
  - unfold acquireAttempts. lia.
  - done.
  - unfold acquireAttempts. pose proof (Z.div_mod timeout retryDelay ltac:(lia)).
    pose proof (Z.mod_pos_bound timeout retryDelay ltac:(lia)). nia.
  - rewrite Hrun. by apply acquireLoop_more.
Qed.

(** ** The contract *)

(** A release of [key] by the holder of [value]. *)
Definition unlock (key value : string) (m : gmap string string) : gmap string string :=
  if decide (m !! key = Some value) then delete key m else m.

Class LockLaws {W} (locker : Lock W) (held : W -> gmap string string) := {
  acquire_spec key value expiration retryDelay timeout w :
    match AcquireLock locker key value expiration retryDelay timeout w with
    | (Ok true, w') => held w !! key = None /\ held w' = <[key := value]> (held w)
    | (Panic _, _) => False
    | (_, w') => held w' = held w
    end;
  release_spec key value w :
    match ReleaseLock locker key value w with
    | (Ok _, w') => held w' = unlock key value (held w)
    | (Err _, w') => held w' = held w
    | (Panic _, _) => False
    end
}.

Section redis.
Context {W : Type} `{RedisLaws W}.

Lemma acquireLoop_free attempts deadline key value expiration retryDelay (w : W) :
  rdb w !! key = None ->
  replies (redisSetNX key value expiration) w (fun res w' => res = "OK" /\ rdb w' = <[key := value]> (rdb w)) ->
  match acquireLoop (S attempts) deadline key value expiration retryDelay w with
  | Some (Ok true, w') => rdb w' = <[key := value]> (rdb w)
  | Some (Err e, w') => foreign e /\ rdb w' = rdb w
  | _ => False
  end.
Proof.
  intros Hfree Hr. cbn. unfold replies in Hr.
  destruct (redisSetNX key value expiration w) as [[res|e|why] w1]; [|done..].
  destruct Hr as [-> Hw]. done.
Qed.

Lemma redisAcquireLock_free key value expiration retryDelay timeout (w : W) :
  rdb w !! key = None ->
  match redisAcquireLock key value expiration retryDelay timeout w with
  | (Ok true, w') => rdb w' = <[key := value]> (rdb w)
  | (Err e, w') => foreign e /\ rdb w' = rdb w
  | _ => False
  end.
Proof.
  intros Hfree. unfold redisAcquireLock, acquireAttempts.
  pose proof (acquireLoop_free (Z.to_nat (timeout `div` retryDelay)) (now w + timeout) key value
                expiration retryDelay w Hfree (redisSetNX_replies _ _ _ _ Hfree)) as Hl.
  by destruct (acquireLoop _ _ _ _ _ _ w) as [[[[]|e|why] w1]|].
Qed.

Lemma redisAcquireLock_busy key value expiration retryDelay timeout (w : W) :
  is_Some (rdb w !! key) ->
  exists e, redisAcquireLock key value expiration retryDelay timeout w
            = (Err e, (redisSetNX key value expiration w).2) /\
    (e = redisNil \/ foreign e) /\ rdb (redisSetNX key value expiration w).2 = rdb w.
Proof.
  intros Hbusy. pose proof (redisSetNX_busy key value expiration w Hbusy) as Hr.
  unfold redisAcquireLock, acquireAttempts, replies_nil in *. cbn [acquireLoop].
  destruct (redisSetNX key value expiration w) as [[res|e|why] w1]; [done| |done].
  cbn. by exists e.
Qed.

#[export] Instance redis_lock_laws : LockLaws (NewLock (W := W)) rdb.
Proof.
  split.
  - intros key value expiration retryDelay timeout w. cbn.
    destruct (rdb w !! key) eqn:Hk.
    + destruct (redisAcquireLock_busy key value expiration retryDelay timeout w) as (e & -> & _ & Hw);
        [by eauto|]. done.
    + pose proof (redisAcquireLock_free key value expiration retryDelay timeout w Hk) as Hf.
      destruct (redisAcquireLock _ _ _ _ _ w) as [[[]|e|why] w']; [done..| |done]. by destruct Hf.
  - intros key value w. cbn. unfold redisReleaseLock. rewrite bind_run.
    pose proof (redisRun_replies (releaseLockScript key value) w) as Hr. unfold replies in Hr.
    destruct (redisRun _ w) as [[hit|e|why] w']; [|by destruct Hr|done].
    cbn. unfold releaseLockScript in Hr. unfold unlock. destruct (decide _); by injection Hr.
Qed.
End redis.

(** A busy lock is refused at once. Redis answers [SET] with [NX] on a key
    that is there with a nil reply, which the client returns as an error, so
    that [AcquireLock] fails after its first command, and never waits for the
    key to be released, whatever [retryDelay] and [timeout] are. *)
Theorem busy_lock_is_refused {W} `{RedisLaws W} key value expiration retryDelay timeout (w : W) :
  is_Some (rdb w !! key) ->
  exists e, redisAcquireLock key value expiration retryDelay timeout w
            = (Err e, (redisSetNX key value expiration w).2) /\
    rdb (redisAcquireLock key value expiration retryDelay timeout w).2 = rdb w.
Proof.
  intros Hb. destruct (redisAcquireLock_busy key value expiration retryDelay timeout w Hb)
    as (e & He & _ & Hw).
  exists e. by rewrite He.
Qed.

(** ** [WithLocks] *)

Section holding.
Implicit Types (keys : list string) (m : gmap string string).

(** [m'] is [m] with [keys], which were free, held under [value]. *)
Definition holding (value : string) keys m m' : Prop :=
  (forall k, k ∈ keys -> m !! k = None) /\
  (forall k, m' !! k = if decide (k ∈ keys) then Some value else m !! k).

Lemma holding_nil value m : holding value [] m m.
Proof. split; [set_solver|]. intros k. by rewrite decide_False by set_solver. Qed.

Lemma holding_nil_inv value m m' : holding value [] m m' -> m' = m.
Proof. intros [_ H]. apply map_eq. intros k. by rewrite H, decide_False by set_solver. Qed.

Lemma holding_insert value key keys m m' :
  holding value keys m m' -> m' !! key = None ->
  holding value (key :: keys) m (<[key := value]> m').
Proof.
  intros [Hf Hm] Hk. rewrite Hm in Hk. case_decide as Hin; [done|]. split; [set_solver|].
  intros k. rewrite lookup_insert. case_decide as Hkk; [subst; by rewrite decide_True by set_solver|].
  rewrite Hm. repeat case_decide; set_solver.
Qed.

Lemma holding_delete value key keys m m' :
  key ∉ keys -> holding value (key :: keys) m m' -> holding value keys m (delete key m').
Proof.
  intros Hin [Hf Hm]. split; [set_solver|]. intros k. rewrite lookup_delete.
  case_decide as Hk; [subst; rewrite decide_False by done; symmetry; apply Hf; by left|].
  rewrite Hm. repeat case_decide; set_solver.
Qed.

Lemma holding_perm value keys keys' m m' :
  (forall k, k ∈ keys <-> k ∈ keys') -> holding value keys m m' -> holding value keys' m m'.
Proof.
  intros Hp [Hf Hm]. split; [set_solver|]. intros k. rewrite Hm. repeat case_decide; set_solver.
Qed.

End holding.

Section withLocks.
Context {W : Type} (locker : Lock W) (held : W -> gmap string string) `{!LockLaws locker held}.
Implicit Types (keys : list string) (m : gmap string string).

(** A release that succeeds: the locks of [keys] are gone. *)
Context (releases : forall key value w, is_ok (ReleaseLock locker key value w).1 = true).

Lemma releaseKeys_run value keys m w :
  NoDup keys -> holding value keys m (held w) ->
  exists w', releaseKeys locker keys value w = (Ok tt, w') /\ held w' = m.
Proof using All.
  revert w. induction keys as [|key keys IH]; intros w Hd Hh.
  - exists w. split; [done|]. by apply holding_nil_inv in Hh.
  - apply NoDup_cons in Hd as [Hin Hd]. unfold releaseKeys. cbn [range].
    rewrite bind_run. unfold ignoreError.
    pose proof (releases key value w) as Hr. pose proof (release_spec key value w) as Hs.
    destruct (ReleaseLock locker key value w) as [[b|e|why] w1]; [|done..].
    apply IH; [done|]. unfold unlock in Hs. rewrite Hs, decide_True; [by apply holding_delete|].
    destruct Hh as [_ ->]. apply decide_True. by left.
Qed.

Lemma releaseKeys_rev value keys m w :
  NoDup keys -> holding value keys m (held w) ->
  exists w', releaseKeys locker (rev keys) value w = (Ok tt, w') /\ held w' = m.
Proof using All.
  intros Hd Hh. apply releaseKeys_run.
  - by rewrite <- Permutation_rev.
  - eapply holding_perm; [|exact Hh]. intros k. by rewrite <- Permutation_rev.
Qed.

Lemma acquireKeys_run opts value got keys m w r w' :
  NoDup (got ++ keys) -> holding value got m (held w) ->
  acquireKeys locker opts value got keys w = (r, w') ->
  match r with
  | Ok _ => holding value (got ++ keys) m (held w')
  | Err _ => held w' = m
  | Panic _ => False
  end.
Proof using All.
  revert got w. induction keys as [|key keys IH]; intros got w Hd Hh Hrun; cbn in Hrun.
  - injection Hrun as <- <-. by rewrite app_nil_r.
  - assert (NoDup got) as Hg by (apply NoDup_app in Hd; tauto).
    pose proof (acquire_spec key value (MultiLockOptions.Expiration opts)
      (MultiLockOptions.RetryDelay opts) (MultiLockOptions.Timeout opts) w) as Ha.
    destruct (AcquireLock locker key value _ _ _ w) as [[[]|e|why] w1]; [| | |done].
    + destruct Ha as [Hf Ha]. rewrite (cons_middle key got keys), app_assoc in *.
      eapply IH; [done| |exact Hrun].
      rewrite Ha. eapply holding_perm; [|by apply holding_insert]. set_solver.
    + rewrite <- Ha in Hh. destruct (releaseKeys_rev value got m w1 Hg Hh) as (w2 & Hr & Hw2).
      rewrite bind_run, Hr in Hrun. injection Hrun as <- <-. done.
    + rewrite <- Ha in Hh. destruct (releaseKeys_rev value got m w1 Hg Hh) as (w2 & Hr & Hw2).
      rewrite bind_run, Hr in Hrun. injection Hrun as <- <-. done.
Qed.

(** What the requests to the locks keep of the state. *)
Context (R : relation W) `{!PreOrder R}.
Context (acquire_keeps : forall k v e d t, keeps R (AcquireLock locker k v e d t)).
Context (release_keeps : forall k v, keeps R (ReleaseLock locker k v)).

Lemma releaseKeys_keeps keys value : keeps R (releaseKeys locker keys value).
Proof using PreOrder0 release_keeps.
  apply keeps_range; [done|]. intros k _. by apply keeps_ignoreError.
Qed.

Lemma acquireKeys_keeps opts value got keys : keeps R (acquireKeys locker opts value got keys).
Proof using PreOrder0 release_keeps acquire_keeps.
  revert got. induction keys as [|k keys IH]; intros got; [by apply keeps_ret|]. cbn. intros w.
  pose proof (acquire_keeps k value (MultiLockOptions.Expiration opts)
    (MultiLockOptions.RetryDelay opts) (MultiLockOptions.Timeout opts) w) as Ha.
  assert (forall e, keeps R (releaseKeys locker (rev got) value;; raise e : method W unit)) as Hb.
  { intros e. apply keeps_bind; [done|apply releaseKeys_keeps|]. intros _. by apply keeps_raise. }
  destruct (AcquireLock locker k value _ _ _ w) as [[[]|e|why] w1]; cbn in Ha |- *.
  - etrans; [exact Ha|apply IH].
  - etrans; [exact Ha|apply Hb].
  - etrans; [exact Ha|apply Hb].
  - done.
Qed.

Lemma holdingKeys_run {T} opts value keys (fn : method W T) w r w' :
  NoDup keys -> (forall w, held (fn w).2 = held w) ->
  holdingKeys locker opts value keys fn w = (r, w') ->
  held w' = held w /\
  ((exists w1 w2, holding value keys (held w) (held w1) /\ fn w1 = (r, w2) /\ R w w1 /\ R w2 w') \/
   exists e, r = Err e /\ R w w').
Proof using All.
  intros Hd Hfn. unfold holdingKeys. rewrite bind_run.
  pose proof (acquireKeys_keeps opts value [] keys w) as HR.
  destruct (acquireKeys locker opts value [] keys w) as [ra w1] eqn:Ha. cbn in HR.
  apply (acquireKeys_run _ _ _ _ (held w)) in Ha; [|done|apply holding_nil].
  destruct ra as [[]|e|why]; [|intros [= <- <-]; eauto|done]. unfold defer. cbn in Ha.
  specialize (Hfn w1). destruct (fn w1) as [rb w2] eqn:Hf. cbn in Hfn. rewrite <- Hfn in Ha.
  pose proof (releaseKeys_keeps (rev keys) value w2) as HR'.
  destruct (releaseKeys_rev value keys (held w) w2 Hd Ha) as (w3 & Hrel & Hw3).
  rewrite Hrel in HR' |- *. intros [= <- <-]. split; [done|]. left. exists w1, w2. by rewrite <- Hfn.
Qed.

Lemma WithLocks_run {T} value keys opts (fn : method W T) w r w' :
  (forall w, held (fn w).2 = held w) ->
  WithLocks (Some locker) value keys opts fn w = (r, w') ->
  held w' = held w /\
  ((exists w1 w2, fn w1 = (r, w2) /\ R w w1 /\ R w2 w' /\
      forall k, k ∈ keys -> k <> "" ->
        held w !! prefixed (MultiLockOptions.KeyPrefix opts) k = None /\
        held w1 !! prefixed (MultiLockOptions.KeyPrefix opts) k = Some value) \/
   exists e, r = Err e /\ R w w').
Proof using All.
  intros Hfn. unfold WithLocks. set (prefix := MultiLockOptions.KeyPrefix opts).
  pose proof (normalizeKeys_elem keys prefix) as Helem. repeat case_decide.
  - destruct keys; [|done]. specialize (Hfn w). intros Hf. rewrite Hf in Hfn. split; [done|].
    left. exists w, w'. repeat split; [done..| |]; set_solver.
  - destruct (normalizeKeys keys prefix); [|done]. specialize (Hfn w). intros Hf. rewrite Hf in Hfn.
    split; [done|]. left. exists w, w'. split; [done|]. split; [done|]. split; [done|].
    intros k Hk Hne. assert (prefixed prefix k ∈ []) as []%not_elem_of_nil by (apply Helem; eauto).
  - intros Hrun. apply holdingKeys_run in Hrun as [Hw Hrun]; [|apply normalizeKeys_NoDup|done].
    split; [done|]. destruct Hrun as [(w1 & w2 & [Hf Hh] & Hr & HR)|?]; [left|by right].
    exists w1, w2. split; [done|]. split; [apply HR|]. split; [apply HR|]. intros k Hk Hne.
    assert (prefixed prefix k ∈ normalizeKeys keys prefix) as Hin by (apply Helem; eauto).
    split; [by apply Hf|]. rewrite Hh. by apply decide_True.
Qed.
End withLocks.


(** A lock on the first part of the state is one on the whole. *)
#[export] Instance lockFirst_laws {L V} (locker : Lock L) held `{!LockLaws locker held} :
  LockLaws (lockFirst (V := V) locker) (held ∘ fst).
Proof.
  split.
  - intros k v e d t [l x]. cbn. pose proof (acquire_spec k v e d t l) as Ha.
    by destruct (AcquireLock locker k v e d t l) as [[[]|err|why] l'].
  - intros k v [l x]. cbn. pose proof (release_spec k v l) as Hr.
    by destruct (ReleaseLock locker k v l) as [[b|err|why] l'].
Qed.

Lemma onFirst_keeps {W V A} (m : method W A) : keeps (fun s s' => s'.2 = s.2) (onFirst (V := V) m).
Proof. intros [w v]. unfold onFirst. by destruct (m w). Qed.

(** ** Idempotency *)

(** The idempotency manager over Redis never refuses a key: [SetNX] of the
    cache sends [SET] without [NX], so [Begin] answers that the caller may
    proceed also when the key is locked or done. Two calls of [Begin], with no
    [End] between them, both succeed. *)
Theorem Begin_never_refuses {W} `{RedisLaws W} lockTTL doneTTL key (w w1 w2 : W) b1 b2 :
  Manager.Begin (redisManager lockTTL doneTTL) key w = (Ok b1, w1) ->
  Manager.Begin (redisManager lockTTL doneTTL) key w1 = (Ok b2, w2) ->
  b1 = true /\ b2 = true /\ rdb w1 !! (keyPrefix +:+ key) = Some "locked".
Proof.
  assert (forall (w : W) b w',
    Manager.Begin (redisManager lockTTL doneTTL) key w = (Ok b, w') ->
    b = true /\ rdb w' !! (keyPrefix +:+ key) = Some "locked") as Hone.
  { intros w0 b w'. cbn. unfold SetNX. rewrite bind_run.
    pose proof (redisSet_replies (keyPrefix +:+ key) "locked"
      (mul64 Second (ttlSeconds lockTTL)) w0) as Hr.
    unfold replies in Hr. destruct (redisSet _ _ _ w0) as [[res|e|why] w3]; [|done..].
    destruct Hr as [-> Hw]. intros [= <- <-]. split; [done|]. rewrite Hw. apply lookup_insert_eq. }
  intros [-> Hk]%Hone [-> _]%Hone. done.
Qed.

(** ** Witnesses *)

Section witnesses.

(** A server on which key [a] is taken for a second. *)
Definition takenRedis : MemoryRedis := memorySet "a" "other" Second (mkMemoryRedis 0 ∅).

Lemma AcquireLock_returns_witness :
  acquireLoop (acquireAttempts 100 250 + 4) (now takenRedis + 250) "b" "v" Second 100 takenRedis
    = Some (redisAcquireLock "b" "v" Second 100 250 takenRedis) /\
  (redisAcquireLock "b" "v" Second 100 250 takenRedis).1 = Ok true.
Proof.
  split; [|by vm_compute]. apply (AcquireLock_returns "b" "v" Second 100 250 takenRedis 4); [|lia].
  intros. apply redisSetNX_now.
Defined.

Lemma busy_lock_is_refused_witness :
  exists e, redisAcquireLock "a" "v" Second (100 * Millisecond) (3 * Second) takenRedis
            = (Err e, (redisSetNX "a" "v" Second takenRedis).2) /\
    rdb (redisAcquireLock "a" "v" Second (100 * Millisecond) (3 * Second) takenRedis).2 = rdb takenRedis.
Proof.
  apply (busy_lock_is_refused "a" "v" Second (100 * Millisecond) (3 * Second) takenRedis).
  rewrite memory_lookup. by eexists.
Defined.

Definition heldKeys : method MemoryRedis (list bool) := fun w =>
  (Ok ((fun k => bool_decide (is_Some (memoryKeys w !! k))) <$> ["p:b"; "p:c"; "p:a"]), w).


Definition begin (w : MemoryRedis) : result bool * MemoryRedis :=
  Manager.Begin (redisManager Second Hour) "job" w.

Lemma Begin_never_refuses_witness :
  exists b1 b2, begin takenRedis = (Ok b1, (begin takenRedis).2) /\
    begin (begin takenRedis).2 = (Ok b2, (begin (begin takenRedis).2).2) /\ b1 = true /\ b2 = true.
Proof.
  exists true, true. split; [by vm_compute|]. split; [by vm_compute|].
  destruct (Begin_never_refuses Second Hour "job" takenRedis (begin takenRedis).2
    (begin (begin takenRedis).2).2 true true) as [? []]; [by vm_compute..|]. done.
Defined.
End witnesses.
