(* ===== verification/LocksSystem.v ===== *)
(** * Calls of [WithLocks] at the same time

    A call of [WithLocks] as a process on the table of locks: it acquires its
    keys in order, runs its function, and releases them in reverse. [callStep]
    is one request to the table, [systemStep] lets any of the calls take its
    next step, and [holdingKeys_steps] shows that the code takes these steps.
    Expiry of a lock that is held is not modelled. *)

From stdpp Require Import prelude strings gmap sorting relations.
From S2P Require Import Prelude GoStrings GoSort Database Redis Locks LocksSpec.

Notation lockTable := (gmap string string).

Record lockCall := mkLockCall { callValue : string; callKeys : list string }.

(** Where a call is: the keys it holds and those that are left to acquire; the
    function running; the keys left to release, and whether it ran. *)
Inductive phase :=
  | Acquiring (got todo : list string)
  | Inside (got : list string)
  | Releasing (todo : list string) (ran : bool)
  | Returned (ran : bool).

(** [callStep c gaveUp]: [gaveUp] when the lock was refused, or its request
    failed. *)
Inductive callStep (c : lockCall) : bool -> lockTable * phase -> lockTable * phase -> Prop :=
  | step_acquire t got k todo : t !! k = None ->
      callStep c false (t, Acquiring got (k :: todo))
                       (<[k := callValue c]> t, Acquiring (got ++ [k]) todo)
  | step_give_up t got k todo :
      callStep c true (t, Acquiring got (k :: todo)) (t, Releasing (rev got) false)
  | step_enter t got : callStep c false (t, Acquiring got []) (t, Inside got)
  | step_leave t got : callStep c false (t, Inside got) (t, Releasing (rev got) true)
  | step_release t k todo ran :
      callStep c false (t, Releasing (k :: todo) ran)
        (unlock k (callValue c) t, Releasing todo ran)
  | step_return t ran : callStep c false (t, Releasing [] ran) (t, Returned ran).

Definition callSteps (c : lockCall) : relation (lockTable * phase) :=
  rtc (fun s s' => exists gaveUp, callStep c gaveUp s s').

(** ** The code takes these steps *)

Section code.
Context {W : Type} (locker : Lock W) (held : W -> lockTable) `{!LockLaws locker held}.
Context (releases : forall key value w, is_ok (ReleaseLock locker key value w).1 = true).

Lemma releaseKeys_steps value keys todo ran w w' :
  releaseKeys locker todo value w = (Ok tt, w') ->
  callSteps (mkLockCall value keys) (held w, Releasing todo ran) (held w', Returned ran).
Proof using All.
  revert w. induction todo as [|k todo IH]; intros w Hrun.
  - injection Hrun as <-. apply rtc_once. eexists. apply step_return.
  - unfold releaseKeys in Hrun. cbn [range] in Hrun. rewrite bind_run in Hrun.
    unfold ignoreError in Hrun at 1.
    pose proof (releases k value w) as Hr. pose proof (release_spec k value w) as Hs.
    destruct (ReleaseLock locker k value w) as [[b|e|why] w1]; [|done..].
    eapply rtc_l; [eexists; apply step_release|]. cbn [callValue]. rewrite <- Hs. by apply IH.
Qed.

Lemma acquireKeys_steps opts value keys got todo m w r w' :
  NoDup (got ++ todo) -> holding value got m (held w) ->
  acquireKeys locker opts value got todo w = (r, w') ->
  callSteps (mkLockCall value keys) (held w, Acquiring got todo)
    (held w', match r with Ok _ => Acquiring (got ++ todo) [] | _ => Returned false end).
Proof using All.
  revert got w. induction todo as [|k todo IH]; intros got w Hd Hh Hrun; cbn in Hrun.
  - injection Hrun as <- <-. by rewrite app_nil_r.
  - assert (NoDup got) as Hg by (apply NoDup_app in Hd; tauto).
    assert (forall w1 e, held w1 = held w ->
      (releaseKeys locker (rev got) value;; raise e) w1 = (r, w') ->
      callSteps (mkLockCall value keys) (held w, Acquiring got (k :: todo))
        (held w', match r with Ok _ => Acquiring (got ++ k :: todo) [] | _ => Returned false end)) as Hback.
    { intros w1 e Hw Hrun1. rewrite <- Hw in Hh.
      destruct (releaseKeys_rev locker held releases value got m w1 Hg Hh) as (w2 & Hr & Hw2).
      rewrite bind_run, Hr in Hrun1. injection Hrun1 as <- <-.
      eapply rtc_l; [eexists; apply step_give_up|]. rewrite <- Hw. by apply releaseKeys_steps. }
    pose proof (acquire_spec k value (MultiLockOptions.Expiration opts)
      (MultiLockOptions.RetryDelay opts) (MultiLockOptions.Timeout opts) w) as Ha.
    destruct (AcquireLock locker k value _ _ _ w) as [[[]|e|why] w1];
      [|by eapply Hback|by eapply Hback|done].
    destruct Ha as [Hf Ha]. eapply rtc_l; [eexists; by apply step_acquire|]. cbn [callValue].
    rewrite <- Ha. rewrite (cons_middle k got todo), app_assoc in *. eapply IH; [done| |exact Hrun].
    rewrite Ha. eapply holding_perm; [|by apply holding_insert]. set_solver.
Qed.

Lemma holdingKeys_steps {T} opts value keys (fn : method W T) w r w' :
  NoDup keys -> (forall w, held (fn w).2 = held w) ->
  holdingKeys locker opts value keys fn w = (r, w') ->
  exists ran, callSteps (mkLockCall value keys) (held w, Acquiring [] keys) (held w', Returned ran) /\
    (ran = false -> is_ok r = false).
Proof using All.
  intros Hd Hfn. unfold holdingKeys. rewrite bind_run.
  destruct (acquireKeys locker opts value [] keys w) as [ra w1] eqn:Ha.
  pose proof Ha as Hs. apply (acquireKeys_steps _ _ keys _ _ (held w)) in Hs;
    [|done|apply holding_nil].
  apply (acquireKeys_run _ _ releases _ _ _ _ (held w)) in Ha; [|done|apply holding_nil].
  destruct ra as [[]|e|why]; [|intros [= <- <-]; by exists false|done]. unfold defer. cbn in Ha, Hs.
  specialize (Hfn w1). destruct (fn w1) as [rb w2] eqn:Hf. cbn in Hfn. rewrite <- Hfn in Ha, Hs.
  destruct (releaseKeys_rev _ _ releases value keys (held w) w2 Hd Ha) as (w3 & Hr & Hw3).
  rewrite Hr. intros [= <- <-]. exists true. split; [|done].
  etrans; [exact Hs|]. eapply rtc_l; [eexists; apply step_enter|].
  eapply rtc_l; [eexists; apply step_leave|]. by apply releaseKeys_steps.
Qed.
End code.

(** ** The system *)

Section system.
Context (calls : list lockCall).

Record system := mkSystem { table : lockTable; phases : list phase }.

(** A step of call [i]. *)
Inductive systemStep (gaveUp : bool) (s : system) : system -> Prop :=
  | system_step i c p t' p' :
      calls !! i = Some c -> phases s !! i = Some p ->
      callStep c gaveUp (table s, p) (t', p') ->
      systemStep gaveUp s (mkSystem t' (<[i := p']> (phases s))).

Definition anyStep (s s' : system) : Prop := exists gaveUp, systemStep gaveUp s s'.

(** All calls before their first request. *)
Definition started : system := mkSystem ∅ ((fun c => Acquiring [] (callKeys c)) <$> calls).

Definition finished (s : system) : Prop := Forall (fun p => exists ran, p = Returned ran) (phases s).

(** The keys that a call has locked. *)
Definition locked (p : phase) : list string :=
  match p with Acquiring got _ => got | Inside got => got | Releasing todo _ => todo | Returned _ => [] end.

Definition phase_ok (c : lockCall) (p : phase) : Prop :=
  match p with
  | Acquiring got todo => got ++ todo = callKeys c
  | Inside got => got = callKeys c
  | Releasing todo _ => NoDup todo
  | Returned _ => True
  end.

(** The table holds the keys of the calls and nothing else. *)
Record system_ok (s : system) : Prop := {
  ok_length : length (phases s) = length calls;
  ok_phase i c p : calls !! i = Some c -> phases s !! i = Some p -> phase_ok c p;
  ok_table k v : table s !! k = Some v <->
    exists i c p, calls !! i = Some c /\ phases s !! i = Some p /\ callValue c = v /\ k ∈ locked p
}.

(** How many steps are left at most. *)
Definition phaseWork (p : phase) : nat :=
  match p with
  | Acquiring got todo => length got + 2 * length todo + 3
  | Inside got => length got + 2
  | Releasing todo _ => length todo + 1
  | Returned _ => 0
  end.

Definition work (s : system) : nat := sum_list_with phaseWork (phases s).

Lemma callStep_work c gaveUp t p t' p' : callStep c gaveUp (t, p) (t', p') -> (phaseWork p' < phaseWork p)%nat.
Proof using Type. inversion 1; subst; cbn; rewrite ?length_app, ?length_rev; cbn; lia. Qed.

Lemma sum_insert (l : list phase) i p p' : l !! i = Some p ->
  (sum_list_with phaseWork (<[i := p']> l) + phaseWork p = sum_list_with phaseWork l + phaseWork p')%nat.
Proof using Type.
  revert i. induction l as [|x l IH]; intros [|i] H; [done..| |].
  - injection H as ->. cbn. lia.
  - specialize (IH i H). change (<[S i := p']> (x :: l)) with (x :: <[i := p']> l). cbn in *. lia.
Qed.

Lemma systemStep_work gaveUp s s' : systemStep gaveUp s s' -> (work s' < work s)%nat.
Proof using Type.
  intros [i c p t' p' Hc Hp Hs]. unfold work. cbn. apply callStep_work in Hs.
  pose proof (sum_insert _ _ _ p' Hp). lia.
Qed.

Context (values_distinct : NoDup (callValue <$> calls)).
Context (keys_ascending : Forall (fun c => ascending (callKeys c)) calls).

Lemma ascending_NoDup keys : ascending keys -> NoDup keys.
Proof using Type.
  induction 1 as [|k ks Hs IH Hk]; constructor; [|done]. intros Hin.
  rewrite Forall_forall in Hk. specialize (Hk _ Hin). by rewrite ltb_irrefl in Hk.
Qed.

Lemma keys_NoDup i c : calls !! i = Some c -> NoDup (callKeys c).
Proof using keys_ascending. intros H. apply ascending_NoDup. by eapply Forall_lookup_1 in keys_ascending. Qed.

Lemma same_value i j c d : calls !! i = Some c -> calls !! j = Some d -> callValue c = callValue d -> i = j.
Proof using values_distinct.
  intros Hi Hj Hv. eapply NoDup_lookup; [exact values_distinct| |].
  - rewrite list_lookup_fmap, Hi. cbn. by rewrite Hv.
  - by rewrite list_lookup_fmap, Hj.
Qed.

Lemma started_ok : system_ok started.
Proof using Type.
  split; cbn.
  - by rewrite length_fmap.
  - intros i c p Hc. rewrite list_lookup_fmap, Hc. by intros [= <-].
  - intros k v. rewrite lookup_empty. split; [done|]. intros (i & c & p & Hc & Hp & _ & Hk).
    rewrite list_lookup_fmap, Hc in Hp. injection Hp as <-. by apply not_elem_of_nil in Hk.
Qed.

(** A step of call [i] that leaves the table to the others as it is. *)
Lemma update_ok s i c p t' p' :
  system_ok s -> calls !! i = Some c -> phases s !! i = Some p -> phase_ok c p' ->
  (forall k v, t' !! k = Some v <->
    (v = callValue c /\ k ∈ locked p') \/ (table s !! k = Some v /\ v <> callValue c)) ->
  system_ok (mkSystem t' (<[i := p']> (phases s))).
Proof using values_distinct.
  intros Hok Hc Hp Hpo Ht. pose proof (lookup_lt_Some _ _ _ Hp) as Hlt. split; cbn.
  - rewrite length_insert. apply Hok.
  - intros j d q Hd. rewrite list_lookup_insert. case_decide as Hij.
    + destruct Hij as [-> _]. rewrite Hc in Hd. injection Hd as <-. by intros [= <-].
    + by apply (ok_phase _ Hok).
  - intros k v. rewrite Ht, (ok_table _ Hok). setoid_rewrite list_lookup_insert. split.
    + intros [[-> Hk]|[(j & d & q & Hd & Hq & <- & Hk) Hv]].
      * exists i, c, p'. by rewrite decide_True.
      * exists j, d, q. split; [done|]. rewrite decide_False; [done|].
        intros [<- _]. rewrite Hc in Hd. by injection Hd as <-.
    + intros (j & d & q & Hd & Hq & <- & Hk). case_decide as Hij.
      * destruct Hij as [<- _]. rewrite Hc in Hd. injection Hd as <-. injection Hq as <-. by left.
      * right. split; [by exists j, d, q|]. intros Hv. apply Hij. split; [|done].
        symmetry. by eapply same_value.
Qed.

Lemma systemStep_ok gaveUp s s' : system_ok s -> systemStep gaveUp s s' -> system_ok s'.
Proof using values_distinct keys_ascending.
  intros Hok [i c p t' p' Hc Hp Hs]. pose proof (ok_phase _ Hok _ _ _ Hc Hp) as Hpo.
  pose proof (keys_NoDup _ _ Hc) as Hnd.
  assert (forall k, k ∈ locked p -> table s !! k = Some (callValue c)) as Hin
    by (intros k Hk; apply (ok_table _ Hok); by exists i, c, p).
  assert (forall k, table s !! k = Some (callValue c) -> k ∈ locked p) as Hout.
  { intros k (j & d & q & Hd & Hq & Hv & Hk)%(ok_table _ Hok).
    assert (j = i) as -> by by eapply same_value. by rewrite Hp in Hq; injection Hq as ->. }
  eapply update_ok; [done|exact Hc|exact Hp|..];
    inversion Hs; subst; cbn [locked phase_ok] in *.
  - by rewrite <- Hpo, (cons_middle k got todo), app_assoc.
  - rewrite <- Hpo in Hnd. apply NoDup_app in Hnd as [Hnd _]. by rewrite <- Permutation_rev.
  - by rewrite app_nil_r in Hpo.
  - subst. by rewrite <- Permutation_rev.
  - apply NoDup_cons in Hpo. tauto.
  - done.
  - intros k' v. rewrite lookup_insert. case_decide as Hk; [subst|].
    + split; [intros [= <-]; left; set_solver|]. intros [[-> _]|[? _]]; [done|congruence].
    + destruct (decide (v = callValue c)) as [->|?]; [|naive_solver]. split.
      * intros Hk'%Hout. left. set_solver.
      * intros [[_ Hk']|[_ []]]; [|done]. apply Hin. set_solver.
  - intros k' v. rewrite <- Permutation_rev.
    destruct (decide (v = callValue c)) as [->|?]; naive_solver.
  - intros k' v. destruct (decide (v = callValue c)) as [->|?]; naive_solver.
  - intros k' v. rewrite <- Permutation_rev.
    destruct (decide (v = callValue c)) as [->|?]; naive_solver.
  - apply NoDup_cons in Hpo as [Hk _]. unfold unlock. rewrite decide_True by (apply Hin; by left).
    intros k' v. rewrite lookup_delete. case_decide as Hkk; [subst|].
    + split; [done|]. intros [[_ ?]|[Hv Hne]]; [done|].
      rewrite Hin in Hv by (by left). by injection Hv as <-.
    + destruct (decide (v = callValue c)) as [->|?]; [|naive_solver]. split.
      * intros Hk'%Hout. left. set_solver.
      * intros [[_ Hk']|[_ []]]; [|done]. apply Hin. by right.
  - intros k' v. destruct (decide (v = callValue c)) as [->|?]; [|naive_solver]. split.
    + by intros ?%Hout%not_elem_of_nil.
    + by intros [[_ ?%not_elem_of_nil]|[_ []]].
Qed.

Lemma reachable_ok s : rtc anyStep started s -> system_ok s.
Proof using values_distinct keys_ascending.
  intros H. assert (forall a b, system_ok a -> rtc anyStep a b -> system_ok b) as Hr.
  { intros a b Ha Hab. induction Hab as [|a b d [g Hs] Hbd IH]; [done|]. apply IH.
    by eapply systemStep_ok. }
  eapply Hr; [apply started_ok|done].
Qed.

(** ** Progress *)

(** The next step of the call needs no lock, or a lock that is free. *)
Definition canStep (t : lockTable) (p : phase) : Prop :=
  match p with
  | Acquiring _ (k :: _) => t !! k = None
  | Returned _ => False
  | _ => True
  end.

#[local] Instance canStep_dec t p : Decision (canStep t p).
Proof. destruct p as [got [|k todo]| | |]; cbn; apply _. Defined.

Lemma canStep_step c t p : canStep t p -> exists t' p', callStep c false (t, p) (t', p').
Proof using Type.
  destruct p as [got [|k todo]|got|[|k todo] ran|ran]; cbn; intros H; [..|done];
    do 2 eexists; by constructor.
Qed.

(** A list of strings that is not empty has a greatest element. *)
Lemma greatest (l : list string) : l <> [] -> exists m, m ∈ l /\ forall x, x ∈ l -> String.ltb m x = false.
Proof using Type.
  induction l as [|x l IH]; [done|]. intros _. destruct l as [|y l].
  - exists x. split; [by left|]. intros z ->%list_elem_of_singleton. apply ltb_irrefl.
  - destruct IH as (m & Hm & Hmax); [done|]. destruct (String.ltb m x) eqn:E.
    + exists x. split; [by left|]. intros z [->|Hz]%elem_of_cons; [apply ltb_irrefl|].
      destruct (String.ltb x z) eqn:E1; [|done]. by rewrite <- (Hmax z Hz), (ltb_trans m x z).
    + exists m. split; [by right|]. intros z [->|Hz]%elem_of_cons; [done|by apply Hmax].
Qed.

(** The key that a call waits for. *)
Definition awaited (p : phase) : option string :=
  match p with Acquiring _ (k :: _) => Some k | _ => None end.

Lemma awaited_greater c p k j :
  phase_ok c p -> ascending (callKeys c) -> awaited p = Some k -> j ∈ locked p -> String.ltb j k = true.
Proof using Type.
  destruct p as [got [|k' todo]| | |]; cbn; intros Hp Ha Hk Hj; try done. injection Hk as ->.
  rewrite <- Hp in Ha. apply StronglySorted_app in Ha as (Ha & _ & _).
  apply (Ha j k); [done|by left].
Qed.

Lemma not_blocked s : system_ok s -> ~ finished s -> Exists (canStep (table s)) (phases s).
Proof using keys_ascending.
  intros Hok Hnf. destruct (decide (Exists (canStep (table s)) (phases s))) as [|Hno]; [done|].
  exfalso. apply Hnf. unfold finished. apply not_Exists_Forall in Hno; [|apply _].
  assert (omap awaited (phases s) = []) as Hnone.
  { destruct (omap awaited (phases s)) as [|k0 l0] eqn:El; [done|]. exfalso.
    destruct (greatest (omap awaited (phases s))) as (k & Hk & Hmax); [by rewrite El|].
    apply list_elem_of_omap in Hk as (p & Hp & Hk).
    assert (is_Some (table s !! k)) as [v Hv].
    { rewrite Forall_forall in Hno. specialize (Hno p Hp).
      destruct p as [got [|k' todo]| | |]; try done. injection Hk as ->. cbn in Hno.
      by apply not_eq_None_Some. }
    apply (ok_table _ Hok) in Hv as (i & c & q & Hc & Hq & _ & Hin).
    assert (q ∈ phases s) as Hqi by by eapply list_elem_of_lookup_2.
    rewrite Forall_forall in Hno. specialize (Hno q Hqi).
    assert (exists k', awaited q = Some k') as [k' Hk'].
    { destruct q as [got [|k' todo]|got|todo ran|ran]; cbn in *;
        [by destruct Hno|by eexists|by destruct Hno..|by apply not_elem_of_nil in Hin]. }
    pose proof (awaited_greater c q k' k (ok_phase _ Hok _ _ _ Hc Hq)) as Hlt.
    rewrite Forall_forall in keys_ascending.
    rewrite Hmax in Hlt; [|apply list_elem_of_omap; by exists q].
    by discriminate Hlt; [apply keys_ascending; eapply list_elem_of_lookup_2| |]. }
  rewrite Forall_forall in Hno |- *. intros p Hp. specialize (Hno p Hp).
  destruct p as [got [|k todo]|got|todo ran|ran]; cbn in Hno; try by destruct Hno.
  - exfalso. assert (k ∈ omap awaited (phases s)) as Hin
      by (apply list_elem_of_omap; by exists (Acquiring got (k :: todo))).
    rewrite Hnone in Hin. by apply not_elem_of_nil in Hin.
  - by eexists.
Qed.

Lemma progress s : system_ok s -> ~ finished s -> exists s', systemStep false s s'.
Proof using keys_ascending.
  intros Hok Hnf. apply not_blocked in Hnf as (p & Hp & Hcan)%Exists_exists; [|done].
  apply list_elem_of_lookup in Hp as [i Hp].
  destruct (lookup_lt_is_Some_2 calls i) as [c Hc].
  { rewrite <- (ok_length _ Hok). by eapply lookup_lt_Some. }
  destruct (canStep_step c _ _ Hcan) as (t' & p' & Hs). eexists. by econstructor.
Qed.

#[local] Instance finished_dec s : Decision (finished s).
Proof.
  apply Forall_dec. intros [got todo|got|todo ran|ran]; [right; by intros []..|left; by eexists].
Defined.

Lemma all_return n s : (work s < n)%nat -> system_ok s ->
  exists s', rtc (systemStep false) s s' /\ finished s'.
Proof using values_distinct keys_ascending.
  revert s. induction n as [|n IH]; [lia|]. intros s Hn Hok.
  destruct (decide (finished s)) as [|Hnf]; [by exists s|].
  destruct (progress s Hok Hnf) as [s1 Hs]. destruct (IH s1) as (s2 & Hr & Hf).
  - apply systemStep_work in Hs. lia.
  - by eapply systemStep_ok.
  - exists s2. split; [|done]. by eapply rtc_l.
Qed.
End system.

(** ** Results *)

(** A call of [WithLocks]: its fresh value, its keys and the prefix. *)
Record lockRequest := mkLockRequest {
  requestValue : string;
  requestKeys : list string;
  requestPrefix : string
}.

Definition callOf (q : lockRequest) : lockCall :=
  mkLockCall (requestValue q) (normalizeKeys (requestKeys q) (requestPrefix q)).

Lemma callOf_ascending qs : Forall (fun c => ascending (callKeys c)) (callOf <$> qs).
Proof. apply Forall_fmap, Forall_forall. intros q _. apply normalizeKeys_ascending. Qed.

Lemma callOf_values qs : NoDup (requestValue <$> qs) -> NoDup (callValue <$> (callOf <$> qs)).
Proof. by rewrite <- list_fmap_compose. Qed.



(** ** Witnesses *)

Section witnesses.

(** Two transfers between the same accounts, in opposite directions. *)
Definition twoTransfers : list lockRequest :=
  [mkLockRequest "v1" ["alice"; "bob"] "ledger-account";
   mkLockRequest "v2" ["bob"; "alice"] "ledger-account"].

Definition transferCalls : list lockCall := callOf <$> twoTransfers.

Definition transferKeys : list string := ["ledger-account:alice"; "ledger-account:bob"].

(** The first holds its first lock. *)
Definition oneLocked : system :=
  mkSystem {["ledger-account:alice" := "v1"]}
    [Acquiring ["ledger-account:alice"] ["ledger-account:bob"]; Acquiring [] transferKeys].

(** The first is inside. *)
Definition oneInside : system :=
  mkSystem {["ledger-account:bob" := "v1"; "ledger-account:alice" := "v1"]}
    [Inside transferKeys; Acquiring [] transferKeys].

Lemma oneLocked_reachable : rtc (anyStep transferCalls) (started transferCalls) oneLocked.
Proof.
  apply rtc_once. exists false.
  refine (system_step transferCalls false (started transferCalls) 0 (mkLockCall "v1" transferKeys)
    (Acquiring [] transferKeys) _ (Acquiring ["ledger-account:alice"] ["ledger-account:bob"])
    eq_refl eq_refl _).
  by apply (step_acquire (mkLockCall "v1" transferKeys) ∅ []).
Qed.

Lemma oneInside_reachable : rtc (anyStep transferCalls) (started transferCalls) oneInside.
Proof.
  eapply rtc_r; [eapply rtc_r; [exact oneLocked_reachable|]|]; exists false.
  - refine (system_step transferCalls false oneLocked 0 (mkLockCall "v1" transferKeys)
      (Acquiring ["ledger-account:alice"] ["ledger-account:bob"]) _ (Acquiring transferKeys [])
      eq_refl eq_refl _).
    by apply (step_acquire (mkLockCall "v1" transferKeys) _ ["ledger-account:alice"]).
  - refine (system_step transferCalls false (mkSystem (table oneInside) [Acquiring transferKeys []; Acquiring [] transferKeys])
      0 (mkLockCall "v1" transferKeys)
      (Acquiring transferKeys []) _ (Inside transferKeys) eq_refl eq_refl _).
    apply (step_enter (mkLockCall "v1" transferKeys)).
Qed.


End witnesses.
