(* ===== verification/LedgerEntity.v ===== *)
(** * Ledger entities (core/modules/ledger/domain/entity)

    Double-entry transactions ([ledger.go]), the bookings that produce them
    ([payment_booking.go], [transfer_booking.go]) and the posting recorded on
    an account ([account_posting.go]). *)

From stdpp Require Import prelude strings gmap.
From S2P Require Import Prelude GoStrings.

(** Names of the payment events (core/shared/contracts/events): the names of
    their Go types. *)
Definition EventPaymentCreated : string := "PaymentCreatedEvent".
Definition EventPaymentWithdrawalRequested : string := "PaymentWithdrawalRequestedEvent".
Definition EventPaymentCheckoutSessionCreated : string := "PaymentCheckoutSessionCreatedEvent".
Definition EventPaymentSucceeded : string := "PaymentSucceededEvent".
Definition EventPaymentFailed : string := "PaymentFailedEvent".
Definition EventPaymentRefunded : string := "PaymentRefundedEvent".
Definition EventPaymentChargeback : string := "PaymentChargebackEvent".

Definition LedgerReferenceInternalTransfer : string := "ledger.transfer.internal".

Lemma internal_transfer_trimmed : trimmed LedgerReferenceInternalTransfer.
Proof. by vm_compute. Qed.
Lemma payment_refunded_trimmed : trimmed EventPaymentRefunded.
Proof. by vm_compute. Qed.
Lemma payment_chargeback_trimmed : trimmed EventPaymentChargeback.
Proof. by vm_compute. Qed.

(** ** Postings *)

Module Posting.
Record t := mk {
  TransactionID : string;
  ReferenceType : string;
  ReferenceID : string;
  CounterpartyAccountID : string;
  Currency : string;
  AmountDelta : Z;
  BookedAt : Time
}.
End Posting.
Notation LedgerAccountPosting := Posting.t.

#[export] Instance LedgerAccountPosting_eq_dec : EqDecision LedgerAccountPosting.
Proof. solve_decision. Defined.

(** ** Transactions *)

Definition ErrLedgerTransactionIDRequired := Sentinel "ErrLedgerTransactionIDRequired".
Definition ErrLedgerEntriesRequired := Sentinel "ErrLedgerEntriesRequired".
Definition ErrLedgerEntriesUnbalanced := Sentinel "ErrLedgerEntriesUnbalanced".
Definition ErrLedgerEntriesCurrencyMixed := Sentinel "ErrLedgerEntriesCurrencyMixed".

Module LedgerEntry.
Record t := mk {
  ID : Z;
  TransactionID : string;
  AccountID : string;
  Currency : string;
  Amount : Z;
  CreatedAt : Time
}.
End LedgerEntry.
Notation LedgerEntry := LedgerEntry.t.

Module LedgerEntryInput.
Record t := mk { AccountID : string; Currency : string; Amount : Z }.
End LedgerEntryInput.
Notation LedgerEntryInput := LedgerEntryInput.t.

Module LedgerTransaction.
Record t := mk {
  TransactionID : string;
  Currency : string;
  CreatedAt : Time;
  Entries : list LedgerEntry
}.
End LedgerTransaction.
Notation LedgerTransaction := LedgerTransaction.t.

Section ledger.
Context `{UC : UnicodeCase}.

(** The loop of [NewLedgerTransaction]: [currency], [sum] and [acc] are its
    variables [transactionCurrency], [sum] and [transaction.Entries]. *)
Fixpoint ledgerEntries (transactionID : string) (now : Time)
    (entries : list LedgerEntryInput) (currency : string) (sum : Z)
    (acc : list LedgerEntry) : result (string * Z * list LedgerEntry) :=
  match entries with
  | [] => Ok (currency, sum, acc)
  | entry :: rest =>
      let accountID := TrimSpace (LedgerEntryInput.AccountID entry) in
      let cur := ToUpper (TrimSpace (LedgerEntryInput.Currency entry)) in
      let amount := LedgerEntryInput.Amount entry in
      if decide (accountID = "") then
        Err (Errorf "entries[%d].account_id is required" [])
      else if decide (cur = "") then
        Err (Errorf "entries[%d].currency is required" [])
      else if decide (amount = 0) then
        Err (Errorf "entries[%d].amount must be non-zero" [])
      else if decide (currency <> "" /\ currency <> cur) then
        Err ErrLedgerEntriesCurrencyMixed
      else
        ledgerEntries transactionID now rest cur (add64 sum amount)
          (acc ++ [LedgerEntry.mk 0 transactionID accountID cur amount now])
  end.

Definition NewLedgerTransaction (now : Time) (transactionID : string)
    (entries : list LedgerEntryInput) : result LedgerTransaction :=
  let transactionID := TrimSpace transactionID in
  if decide (transactionID = "") then Err ErrLedgerTransactionIDRequired
  else if decide (length entries < 2)%nat then Err ErrLedgerEntriesRequired
  else
    let now := UTC now in
    '(currency, sum, es) ← ledgerEntries transactionID now entries "" 0 [];
    if decide (sum <> 0) then Err ErrLedgerEntriesUnbalanced
    else Ok (LedgerTransaction.mk transactionID currency now es).
End ledger.

(** ** Payment bookings *)

Definition ErrPaymentBookingIDRequired := Sentinel "ErrPaymentBookingIDRequired".
Definition ErrPaymentBookingClearingKeyRequired := Sentinel "ErrPaymentBookingClearingKeyRequired".
Definition ErrPaymentBookingCreditAccountRequired := Sentinel "ErrPaymentBookingCreditAccountRequired".
Definition ErrPaymentBookingCurrencyRequired := Sentinel "ErrPaymentBookingCurrencyRequired".
Definition ErrPaymentBookingAccountsMustDiffer := Sentinel "ErrPaymentBookingAccountsMustDiffer".
Definition ErrPaymentBookingAmountInvalid := Sentinel "ErrPaymentBookingAmountInvalid".
Definition ErrPaymentBookingTypeInvalid := Sentinel "ErrPaymentBookingTypeInvalid".

Module PaymentSucceededBooking.
Record t := mk {
  PaymentID : string;
  ClearingAccountKey : string;
  DebitAccountID : string;
  CreditAccountID : string;
  Currency : string;
  Amount : Z
}.
End PaymentSucceededBooking.
Notation PaymentSucceededBooking := PaymentSucceededBooking.t.

Module PaymentSucceededBookingInput.
Record t := mk {
  PaymentID : string;
  TransactionID : string;
  ClearingAccountKey : string;
  CreditAccountID : string;
  Currency : string;
  Amount : Z
}.
End PaymentSucceededBookingInput.
Notation PaymentSucceededBookingInput := PaymentSucceededBookingInput.t.

Module PaymentReversalBooking.
Record t := mk {
  PaymentID : string;
  ClearingAccountKey : string;
  ReversalType : string;
  DebitAccountID : string;
  CreditAccountID : string;
  Currency : string;
  Amount : Z
}.
End PaymentReversalBooking.
Notation PaymentReversalBooking := PaymentReversalBooking.t.

Module PaymentReversalBookingInput.
Record t := mk {
  PaymentID : string;
  TransactionID : string;
  ClearingAccountKey : string;
  CreditAccountID : string;
  Currency : string;
  Amount : Z;
  ReversalType : string
}.
End PaymentReversalBookingInput.
Notation PaymentReversalBookingInput := PaymentReversalBookingInput.t.

(** The two balanced legs every booking posts. *)
Definition bookingEntries (debit credit currency : string) (amount : Z) :
    list LedgerEntryInput :=
  [LedgerEntryInput.mk debit currency (neg64 amount);
   LedgerEntryInput.mk credit currency amount].

Definition paymentTransactionID (paymentID suffix : string) : string :=
  "payment:" +:+ paymentID +:+ ":" +:+ suffix.

Section bookings.
Context `{UC : UnicodeCase}.

Definition ledgerClearingAccountID (clearingAccountKey : string) : string :=
  "ledger:clearing:" +:+ ToLower (TrimSpace clearingAccountKey).

Definition normalizePaymentBookingType (value : string) : string :=
  let value := TrimSpace value in
  if decide (value = EventPaymentRefunded) then EventPaymentRefunded
  else if decide (value = EventPaymentChargeback) then EventPaymentChargeback
  else "".

(** The payment id of a booking: the transaction id stands in for it. *)
Definition bookingPaymentID (paymentID transactionID : string) : string :=
  let paymentID := TrimSpace paymentID in
  if decide (paymentID = "") then TrimSpace transactionID else paymentID.

Definition NewPaymentSucceededBooking (input : PaymentSucceededBookingInput) :
    result PaymentSucceededBooking :=
  let paymentID := bookingPaymentID (PaymentSucceededBookingInput.PaymentID input)
                     (PaymentSucceededBookingInput.TransactionID input) in
  if decide (paymentID = "") then Err ErrPaymentBookingIDRequired else
  let clearingAccountKey :=
    ToLower (TrimSpace (PaymentSucceededBookingInput.ClearingAccountKey input)) in
  if decide (clearingAccountKey = "") then Err ErrPaymentBookingClearingKeyRequired else
  let creditAccountID := TrimSpace (PaymentSucceededBookingInput.CreditAccountID input) in
  if decide (creditAccountID = "") then Err ErrPaymentBookingCreditAccountRequired else
  let currency := ToUpper (TrimSpace (PaymentSucceededBookingInput.Currency input)) in
  if decide (currency = "") then Err ErrPaymentBookingCurrencyRequired else
  if decide (PaymentSucceededBookingInput.Amount input <= 0) then
    Err ErrPaymentBookingAmountInvalid else
  let debitAccountID := ledgerClearingAccountID clearingAccountKey in
  if decide (debitAccountID = creditAccountID) then
    Err ErrPaymentBookingAccountsMustDiffer else
  Ok (PaymentSucceededBooking.mk paymentID clearingAccountKey debitAccountID
        creditAccountID currency (PaymentSucceededBookingInput.Amount input)).

Definition PaymentSucceededBooking_LedgerTransactionID (b : PaymentSucceededBooking) : string :=
  paymentTransactionID (TrimSpace (PaymentSucceededBooking.PaymentID b)) "succeeded".

Definition PaymentSucceededBooking_LedgerEntries (b : PaymentSucceededBooking) :
    list LedgerEntryInput :=
  bookingEntries (PaymentSucceededBooking.DebitAccountID b)
    (PaymentSucceededBooking.CreditAccountID b)
    (PaymentSucceededBooking.Currency b) (PaymentSucceededBooking.Amount b).

Definition NewPaymentReversalBooking (input : PaymentReversalBookingInput) :
    result PaymentReversalBooking :=
  let paymentID := bookingPaymentID (PaymentReversalBookingInput.PaymentID input)
                     (PaymentReversalBookingInput.TransactionID input) in
  if decide (paymentID = "") then Err ErrPaymentBookingIDRequired else
  let reversalType :=
    normalizePaymentBookingType (PaymentReversalBookingInput.ReversalType input) in
  if decide (reversalType = "") then Err ErrPaymentBookingTypeInvalid else
  let clearingAccountKey :=
    ToLower (TrimSpace (PaymentReversalBookingInput.ClearingAccountKey input)) in
  if decide (clearingAccountKey = "") then Err ErrPaymentBookingClearingKeyRequired else
  let debitAccountID := TrimSpace (PaymentReversalBookingInput.CreditAccountID input) in
  if decide (debitAccountID = "") then Err ErrPaymentBookingCreditAccountRequired else
  let currency := ToUpper (TrimSpace (PaymentReversalBookingInput.Currency input)) in
  if decide (currency = "") then Err ErrPaymentBookingCurrencyRequired else
  if decide (PaymentReversalBookingInput.Amount input <= 0) then
    Err ErrPaymentBookingAmountInvalid else
  let creditAccountID := ledgerClearingAccountID clearingAccountKey in
  if decide (debitAccountID = creditAccountID) then
    Err ErrPaymentBookingAccountsMustDiffer else
  Ok (PaymentReversalBooking.mk paymentID clearingAccountKey reversalType debitAccountID
        creditAccountID currency (PaymentReversalBookingInput.Amount input)).

Definition PaymentReversalBooking_LedgerTransactionID (b : PaymentReversalBooking) : string :=
  let suffix :=
    if decide (PaymentReversalBooking.ReversalType b = EventPaymentRefunded) then "refunded"
    else if decide (PaymentReversalBooking.ReversalType b = EventPaymentChargeback)
    then "chargeback" else "reversed" in
  paymentTransactionID (TrimSpace (PaymentReversalBooking.PaymentID b)) suffix.

Definition PaymentReversalBooking_LedgerEntries (b : PaymentReversalBooking) :
    list LedgerEntryInput :=
  bookingEntries (PaymentReversalBooking.DebitAccountID b)
    (PaymentReversalBooking.CreditAccountID b)
    (PaymentReversalBooking.Currency b) (PaymentReversalBooking.Amount b).
End bookings.

(** ** Transfer bookings *)

Definition ErrTransferFromAccountRequired := Sentinel "ErrTransferFromAccountRequired".
Definition ErrTransferToAccountRequired := Sentinel "ErrTransferToAccountRequired".
Definition ErrTransferAccountsMustDiffer := Sentinel "ErrTransferAccountsMustDiffer".
Definition ErrTransferCurrencyRequired := Sentinel "ErrTransferCurrencyRequired".
Definition ErrTransferAmountInvalid := Sentinel "ErrTransferAmountInvalid".

Module TransferBooking.
Record t := mk {
  FromAccountID : string;
  ToAccountID : string;
  Currency : string;
  Amount : Z
}.
End TransferBooking.
Notation TransferBooking := TransferBooking.t.

Section transfer.
Context `{UC : UnicodeCase}.

(** The input struct has the fields of the booking. *)
Definition NewTransferBooking (input : TransferBooking) : result TransferBooking :=
  let fromAccountID := TrimSpace (TransferBooking.FromAccountID input) in
  if decide (fromAccountID = "") then Err ErrTransferFromAccountRequired else
  let toAccountID := TrimSpace (TransferBooking.ToAccountID input) in
  if decide (toAccountID = "") then Err ErrTransferToAccountRequired else
  if decide (fromAccountID = toAccountID) then Err ErrTransferAccountsMustDiffer else
  let currency := ToUpper (TrimSpace (TransferBooking.Currency input)) in
  if decide (currency = "") then Err ErrTransferCurrencyRequired else
  if decide (TransferBooking.Amount input <= 0) then Err ErrTransferAmountInvalid else
  Ok (TransferBooking.mk fromAccountID toAccountID currency (TransferBooking.Amount input)).

Definition TransferBooking_LedgerEntries (b : TransferBooking) : list LedgerEntryInput :=
  bookingEntries (TransferBooking.FromAccountID b) (TransferBooking.ToAccountID b)
    (TransferBooking.Currency b) (TransferBooking.Amount b).
End transfer.

(** ** Properties *)

(** The mathematical sum of the amounts of a transaction. *)
Definition entriesTotal (es : list LedgerEntry) : Z :=
  foldr (fun e s => LedgerEntry.Amount e + s) 0 es.

Lemma entriesTotal_cons e es :
  entriesTotal (e :: es) = LedgerEntry.Amount e + entriesTotal es.
Proof. reflexivity. Qed.

Section ledger_lemmas.
Context `{UC : UnicodeCase}.

(** How an accepted entry of the input is recorded. *)
Definition records_entry (transactionID currency : string) (now : Time)
    (i : LedgerEntryInput) (e : LedgerEntry) : Prop :=
  e = LedgerEntry.mk 0 transactionID (TrimSpace (LedgerEntryInput.AccountID i))
        currency (LedgerEntryInput.Amount i) now /\
  TrimSpace (LedgerEntryInput.AccountID i) <> "" /\
  UpperTrim (LedgerEntryInput.Currency i) = currency /\
  currency <> "" /\ LedgerEntryInput.Amount i <> 0.

Lemma ledgerEntries_Ok tid now es cur sum acc cur' sum' acc' :
  in64 sum ->
  ledgerEntries tid now es cur sum acc = Ok (cur', sum', acc') ->
  exists new, acc' = acc ++ new /\ sum' = wrap64 (sum + entriesTotal new) /\
    Forall2 (records_entry tid cur' now) es new /\ (cur <> "" -> cur' = cur).
Proof.
  revert cur sum acc. induction es as [|i es IH]; intros cur sum acc Hs H;
    cbn [ledgerEntries] in H; cbv zeta in H; go_inv.
  - exists []. cbn. rewrite app_nil_r, Z.add_0_r, wrap64_id by done. auto.
  - destruct (IH _ _ _ (wrap64_in64 _) H) as (new & -> & -> & Hf & Hc).
    assert (cur' = ToUpper (TrimSpace (LedgerEntryInput.Currency i))) as -> by auto.
    eexists (_ :: new). rewrite <- app_assoc. split; [done|]. split.
    { rewrite entriesTotal_cons. unfold add64. rewrite wrap64_add_l. cbn [LedgerEntry.Amount].
      f_equal. lia. }
    split; [constructor; [|done]|].
    + by repeat split.
    + intros Hne. destruct (decide (cur = ToUpper (TrimSpace (LedgerEntryInput.Currency i)))); auto.
      exfalso. auto.
Qed.

Lemma NewLedgerTransaction_Ok now tid es t :
  NewLedgerTransaction now tid es = Ok t ->
  LedgerTransaction.TransactionID t = TrimSpace tid /\ TrimSpace tid <> "" /\
  (2 <= length es)%nat /\
  Forall2 (records_entry (TrimSpace tid) (LedgerTransaction.Currency t) (UTC now)) es
    (LedgerTransaction.Entries t) /\
  wrap64 (entriesTotal (LedgerTransaction.Entries t)) = 0.
Proof.
  unfold NewLedgerTransaction. intros H. go_inv. destruct a as [[cur sum] es'].
  apply ledgerEntries_Ok in H0 as (new & -> & -> & Hf & _); [|by vm_compute].
  rewrite Z.add_0_l in *. cbn in H. go_inv. cbn.
  repeat split; auto; [lia|]. by destruct (decide (wrap64 (entriesTotal new) = 0)).
Qed.

(** The two legs of a booking make a balanced transaction. *)
Lemma bookingEntries_transaction now tid debit credit currency amount :
  TrimSpace tid <> "" -> trimmed debit -> debit <> "" -> trimmed credit -> credit <> "" ->
  UpperTrim currency = currency -> currency <> "" -> 0 < amount <= int64_max ->
  NewLedgerTransaction now tid (bookingEntries debit credit currency amount) =
    Ok (LedgerTransaction.mk (TrimSpace tid) currency now
          [LedgerEntry.mk 0 (TrimSpace tid) debit currency (- amount) now;
           LedgerEntry.mk 0 (TrimSpace tid) credit currency amount now]).
Proof.
  intros Ht Hd Hd' Hc Hc' Hcur Hcur' Ha. unfold NewLedgerTransaction, bookingEntries.
  rewrite neg64_small by lia. rewrite decide_False by done.
  rewrite decide_False by (cbn; lia). cbn [ledgerEntries LedgerEntryInput.AccountID
    LedgerEntryInput.Currency LedgerEntryInput.Amount]. cbv zeta.
  fold (UpperTrim currency). rewrite Hcur. unfold trimmed in *. rewrite Hd, Hc.
  repeat first [rewrite decide_False by (lia || naive_solver) | rewrite (decide_False (P := _ /\ _)) by naive_solver].
  cbn. unfold UTC.
  rewrite (add64_small 0) by (unfold in64, int64_min, int64_max in *; lia).
  rewrite add64_small by (unfold in64, int64_min, int64_max in *; lia).
  rewrite decide_False by lia. done.
Qed.

Lemma ledgerClearingAccountID_trimmed key : trimmed (ledgerClearingAccountID key).
Proof. apply trimmed_prefix; [done..|]. apply LowerTrim_trimmed. Qed.

Lemma ledgerClearingAccountID_nonempty key : ledgerClearingAccountID key <> "".
Proof. done. Qed.

Lemma ledgerClearingAccountID_lower key :
  ledgerClearingAccountID (ToLower (TrimSpace key)) = ledgerClearingAccountID key.
Proof.
  unfold ledgerClearingAccountID. fold (LowerTrim key).
  change (ToLower (TrimSpace (LowerTrim key))) with (LowerTrim (LowerTrim key)).
  by rewrite LowerTrim_idem.
Qed.

Lemma paymentTransactionID_trimmed p suffix :
  trimmed p -> is_ascii (":" +:+ suffix) = true -> trimmed (":" +:+ suffix) ->
  trimmed (paymentTransactionID p suffix).
Proof.
  intros Hp Ha Hs. apply (trimmed_prefix "payment:"); [done..|].
  by apply trimmed_suffix.
Qed.

Lemma paymentTransactionID_nonempty p suffix : paymentTransactionID p suffix <> "".
Proof. done. Qed.

Lemma bookingPaymentID_trimmed p t : trimmed (bookingPaymentID p t).
Proof. unfold bookingPaymentID. case_decide; apply TrimSpace_trimmed. Qed.

(** The fields of an accepted booking are normalised. *)
Lemma NewTransferBooking_Ok i b :
  NewTransferBooking i = Ok b ->
  b = TransferBooking.mk (TrimSpace (TransferBooking.FromAccountID i))
        (TrimSpace (TransferBooking.ToAccountID i))
        (UpperTrim (TransferBooking.Currency i)) (TransferBooking.Amount i) /\
  TransferBooking.FromAccountID b <> "" /\ TransferBooking.ToAccountID b <> "" /\
  TransferBooking.FromAccountID b <> TransferBooking.ToAccountID b /\
  TransferBooking.Currency b <> "" /\ 0 < TransferBooking.Amount b.
Proof. unfold NewTransferBooking. intros H. go_inv. cbn. repeat split; auto; lia. Qed.

Lemma NewPaymentSucceededBooking_Ok i b :
  NewPaymentSucceededBooking i = Ok b ->
  PaymentSucceededBooking.PaymentID b =
    bookingPaymentID (PaymentSucceededBookingInput.PaymentID i)
      (PaymentSucceededBookingInput.TransactionID i) /\
  PaymentSucceededBooking.PaymentID b <> "" /\
  PaymentSucceededBooking.DebitAccountID b =
    ledgerClearingAccountID (PaymentSucceededBookingInput.ClearingAccountKey i) /\
  PaymentSucceededBooking.CreditAccountID b =
    TrimSpace (PaymentSucceededBookingInput.CreditAccountID i) /\
  PaymentSucceededBooking.CreditAccountID b <> "" /\
  PaymentSucceededBooking.DebitAccountID b <> PaymentSucceededBooking.CreditAccountID b /\
  PaymentSucceededBooking.Currency b = UpperTrim (PaymentSucceededBookingInput.Currency i) /\
  PaymentSucceededBooking.Currency b <> "" /\
  PaymentSucceededBooking.Amount b = PaymentSucceededBookingInput.Amount i /\
  0 < PaymentSucceededBooking.Amount b.
Proof.
  unfold NewPaymentSucceededBooking. intros H. go_inv. cbn.
  rewrite ledgerClearingAccountID_lower in *. repeat split; auto; lia.
Qed.

Lemma NewPaymentReversalBooking_Ok i b :
  NewPaymentReversalBooking i = Ok b ->
  PaymentReversalBooking.PaymentID b =
    bookingPaymentID (PaymentReversalBookingInput.PaymentID i)
      (PaymentReversalBookingInput.TransactionID i) /\
  PaymentReversalBooking.PaymentID b <> "" /\
  (PaymentReversalBooking.ReversalType b = EventPaymentRefunded \/
   PaymentReversalBooking.ReversalType b = EventPaymentChargeback) /\
  PaymentReversalBooking.ReversalType b =
    normalizePaymentBookingType (PaymentReversalBookingInput.ReversalType i) /\
  PaymentReversalBooking.CreditAccountID b =
    ledgerClearingAccountID (PaymentReversalBookingInput.ClearingAccountKey i) /\
  PaymentReversalBooking.DebitAccountID b =
    TrimSpace (PaymentReversalBookingInput.CreditAccountID i) /\
  PaymentReversalBooking.DebitAccountID b <> "" /\
  PaymentReversalBooking.DebitAccountID b <> PaymentReversalBooking.CreditAccountID b /\
  PaymentReversalBooking.Currency b = UpperTrim (PaymentReversalBookingInput.Currency i) /\
  PaymentReversalBooking.Currency b <> "" /\
  PaymentReversalBooking.Amount b = PaymentReversalBookingInput.Amount i /\
  0 < PaymentReversalBooking.Amount b.
Proof.
  unfold NewPaymentReversalBooking. intros H. go_inv. cbn.
  rewrite ledgerClearingAccountID_lower in *. repeat split; auto; [|lia].
  unfold normalizePaymentBookingType in *. repeat case_decide; auto; done.
Qed.
End ledger_lemmas.

(** What it means for a transaction to be a well-formed double entry. *)
Definition double_entry (t : LedgerTransaction) : Prop :=
  entriesTotal (LedgerTransaction.Entries t) = 0 /\
  (2 <= length (LedgerTransaction.Entries t))%nat /\
  Forall (fun e =>
    LedgerEntry.TransactionID e = LedgerTransaction.TransactionID t /\
    LedgerEntry.Currency e = LedgerTransaction.Currency t /\
    LedgerEntry.AccountID e <> "" /\ LedgerEntry.Amount e <> 0)
    (LedgerTransaction.Entries t).

Section claims.
Context `{UC : UnicodeCase}.

(** [NewLedgerTransaction] only accepts double entries: at least two
    entries with a normalised account, the currency and id of the
    transaction and a non-zero amount, whose int64 sum is zero. The sum is
    computed with wrap-around, so this is the mathematical sum as soon as
    that sum is representable. *)
Theorem NewLedgerTransaction_double_entry now tid entries t :
  NewLedgerTransaction now tid entries = Ok t ->
  in64 (entriesTotal (LedgerTransaction.Entries t)) ->
  double_entry t.
Proof.
  intros (Htid & _ & Hlen & Hf & Hsum)%NewLedgerTransaction_Ok Hin.
  split; [by rewrite wrap64_id in Hsum|]. split; [by rewrite <- (Forall2_length _ _ _ Hf)|].
  apply Forall_forall. intros e He. apply list_elem_of_lookup in He as [i Hi].
  destruct (Forall2_lookup_r _ _ _ _ _ Hf Hi) as (x & _ & -> & ? & ? & ? & ?).
  by rewrite Htid.
Qed.

(** An accepted payment booking (success or reversal) always yields an
    accepted ledger transaction, whatever the clock: the two legs carry the
    opposite amounts, so money only moves from the debit to the credit
    account. *)
Theorem payment_booking_transaction now :
  (forall i b, NewPaymentSucceededBooking i = Ok b ->
    PaymentSucceededBookingInput.Amount i <= int64_max ->
    exists t, NewLedgerTransaction now (PaymentSucceededBooking_LedgerTransactionID b)
                (PaymentSucceededBooking_LedgerEntries b) = Ok t /\
      double_entry t /\
      LedgerTransaction.TransactionID t = PaymentSucceededBooking_LedgerTransactionID b /\
      map LedgerEntry.AccountID (LedgerTransaction.Entries t) =
        [PaymentSucceededBooking.DebitAccountID b; PaymentSucceededBooking.CreditAccountID b] /\
      map LedgerEntry.Amount (LedgerTransaction.Entries t) =
        [- PaymentSucceededBooking.Amount b; PaymentSucceededBooking.Amount b]) /\
  (forall i b, NewPaymentReversalBooking i = Ok b ->
    PaymentReversalBookingInput.Amount i <= int64_max ->
    exists t, NewLedgerTransaction now (PaymentReversalBooking_LedgerTransactionID b)
                (PaymentReversalBooking_LedgerEntries b) = Ok t /\
      double_entry t /\
      LedgerTransaction.TransactionID t = PaymentReversalBooking_LedgerTransactionID b /\
      map LedgerEntry.AccountID (LedgerTransaction.Entries t) =
        [PaymentReversalBooking.DebitAccountID b; PaymentReversalBooking.CreditAccountID b] /\
      map LedgerEntry.Amount (LedgerTransaction.Entries t) =
        [- PaymentReversalBooking.Amount b; PaymentReversalBooking.Amount b]).
Proof.
  assert (forall tid debit credit cur amount, trimmed tid -> tid <> "" ->
    trimmed debit -> debit <> "" -> trimmed credit -> credit <> "" ->
    UpperTrim cur = cur -> cur <> "" -> 0 < amount <= int64_max ->
    exists t, NewLedgerTransaction now tid (bookingEntries debit credit cur amount) = Ok t /\
      double_entry t /\ LedgerTransaction.TransactionID t = tid /\
      map LedgerEntry.AccountID (LedgerTransaction.Entries t) = [debit; credit] /\
      map LedgerEntry.Amount (LedgerTransaction.Entries t) = [- amount; amount]) as Hb.
  { intros * Ht Ht' ???????. rewrite bookingEntries_transaction by (rewrite ?Ht; done).
    rewrite Ht. eexists. split; [done|]. split; [|done]. split; [cbn; lia|].
    split; [done|]. repeat constructor; cbn; auto; lia. }
  split; intros i b Hok Hmax.
  - apply NewPaymentSucceededBooking_Ok in Hok
      as (Hp & _ & Hd & Hc & Hc0 & _ & Hcur & Hcur0 & Ha & Ha0).
    apply Hb; auto; rewrite ?Hp, ?Hd, ?Hc, ?Hcur, ?Ha; auto with go.
    + apply paymentTransactionID_trimmed; [apply TrimSpace_trimmed|done..].
    + apply ledgerClearingAccountID_trimmed.
    + apply UpperTrim_idem.
    + lia.
  - apply NewPaymentReversalBooking_Ok in Hok
      as (Hp & _ & _ & _ & Hc & Hd & Hd0 & _ & Hcur & Hcur0 & Ha & Ha0).
    apply Hb; auto; rewrite ?Hp, ?Hd, ?Hc, ?Hcur, ?Ha; auto with go.
    + unfold PaymentReversalBooking_LedgerTransactionID.
      repeat case_decide; apply paymentTransactionID_trimmed;
        solve [apply TrimSpace_trimmed | done].
    + apply ledgerClearingAccountID_trimmed.
    + apply UpperTrim_idem.
    + lia.
Qed.
End claims.

Section witnesses.
#[local] Existing Instance caseless_unicode.

(** A payment of 5.00 USD booked as a double entry. *)
Definition exampleEntries : list LedgerEntryInput :=
  [LedgerEntryInput.mk " ledger:clearing:stripe" "usd" (-500);
   LedgerEntryInput.mk "alice" "USD " 500].

Lemma NewLedgerTransaction_double_entry_witness :
  exists t, NewLedgerTransaction 7 "tx1" exampleEntries = Ok t /\ double_entry t.
Proof.
  eexists. assert (forall t, NewLedgerTransaction 7 "tx1" exampleEntries = Ok t ->
    in64 (entriesTotal (LedgerTransaction.Entries t)) -> double_entry t) as H
    by apply (NewLedgerTransaction_double_entry 7 "tx1" exampleEntries).
  split; [vm_compute; reflexivity|]. apply H; eval_closed.
Defined.
End witnesses.
