(* ===== verification/LedgerAccount.v ===== *)
(** * The ledger account aggregate (core/modules/ledger/domain/aggregate)

    An account holds a balance per currency and the postings it has applied,
    indexed by transaction id. Its events are the ledger events of
    [ledger_account_event.go]; a command previews the posting of its event,
    rejects it when the transaction is already posted differently or would
    overdraw the account, and otherwise records the event. *)

From stdpp Require Import prelude strings gmap.
From S2P Require Import Prelude GoStrings Event LedgerEntity.

(** ** Events *)

(** The fields of the ten payment events, whose structs are the same. *)
Record ledgerPaymentEventData := mkPaymentEventData {
  transactionID : string;
  paymentID : string;
  counterpartyAccountID : string;
  currency : string;
  amount : Z;
  bookedAt : Time
}.

(** The fields of the two transfer events; [otherAccountID] is [ToAccountID]
    on the way out and [FromAccountID] on the way in. *)
Record ledgerTransferEventData := mkTransferEventData {
  transferTransactionID : string;
  otherAccountID : string;
  transferCurrency : string;
  transferAmount : Z;
  transferBookedAt : Time
}.

(** The types of payment events. *)
Inductive PaymentEventKind : Type :=
  | DepositFromIntent | WithdrawFromIntent
  | DepositFromRefund | WithdrawFromRefund
  | DepositFromChargeback | WithdrawFromChargeback
  | ReserveWithdrawal | ReceiveWithdrawalHold
  | ReleaseWithdrawal | WithdrawReleasedHold.

#[export] Instance PaymentEventKind_eq_dec : EqDecision PaymentEventKind.
Proof. solve_decision. Defined.

(** Event data is an [interface{}] holding a pointer to one of the event
    structs ([None] is a nil pointer), nil, or a value of another type. *)
Inductive LedgerEventData : Type :=
  | LedgerPayment (k : PaymentEventKind) (p : option ledgerPaymentEventData)
  | EventLedgerAccountTransferredToAccount (p : option ledgerTransferEventData)
  | EventLedgerAccountReceivedTransfer (p : option ledgerTransferEventData)
  | NilEventData
  | OtherEventData (typeName : string).

Definition kindName (k : PaymentEventKind) : string :=
  match k with
  | DepositFromIntent => "EventLedgerAccountDepositFromIntent"
  | WithdrawFromIntent => "EventLedgerAccountWithdrawFromIntent"
  | DepositFromRefund => "EventLedgerAccountDepositFromRefund"
  | WithdrawFromRefund => "EventLedgerAccountWithdrawFromRefund"
  | DepositFromChargeback => "EventLedgerAccountDepositFromChargeback"
  | WithdrawFromChargeback => "EventLedgerAccountWithdrawFromChargeback"
  | ReserveWithdrawal => "EventLedgerAccountReserveWithdrawal"
  | ReceiveWithdrawalHold => "EventLedgerAccountReceiveWithdrawalHold"
  | ReleaseWithdrawal => "EventLedgerAccountReleaseWithdrawal"
  | WithdrawReleasedHold => "EventLedgerAccountWithdrawReleasedHold"
  end.

Definition allKinds : list PaymentEventKind :=
  [DepositFromIntent; WithdrawFromIntent; DepositFromRefund; WithdrawFromRefund;
   DepositFromChargeback; WithdrawFromChargeback; ReserveWithdrawal;
   ReceiveWithdrawalHold; ReleaseWithdrawal; WithdrawReleasedHold].

(** The [case] labels that name payment events. *)
Definition kindOfName (name : string) : option PaymentEventKind :=
  List.find (fun k => String.eqb (kindName k) name) allKinds.

#[export] Instance LedgerEventPayload : EventPayload LedgerEventData := {|
  payload_nil d := match d with NilEventData => true | _ => false end;
  event_name d :=
    match d with
    | LedgerPayment k _ => kindName k
    | EventLedgerAccountTransferredToAccount _ => "EventLedgerAccountTransferredToAccount"
    | EventLedgerAccountReceivedTransfer _ => "EventLedgerAccountReceivedTransfer"
    | NilEventData => ""
    | OtherEventData n => n
    end
|}.

(** ** Errors *)

Definition ErrLedgerAccountIDRequired := Sentinel "ErrLedgerAccountIDRequired".
Definition ErrLedgerAccountIDMismatch := Sentinel "ErrLedgerAccountIDMismatch".
Definition ErrLedgerAccountTransactionRequired := Sentinel "ErrLedgerAccountTransactionRequired".
Definition ErrLedgerAccountReferenceTypeInvalid := Sentinel "ErrLedgerAccountReferenceTypeInvalid".
Definition ErrLedgerAccountReferenceIDRequired := Sentinel "ErrLedgerAccountReferenceIDRequired".
Definition ErrLedgerAccountCounterpartyRequired := Sentinel "ErrLedgerAccountCounterpartyRequired".
Definition ErrLedgerAccountAccountsMustDiffer := Sentinel "ErrLedgerAccountAccountsMustDiffer".
Definition ErrLedgerAccountCurrencyRequired := Sentinel "ErrLedgerAccountCurrencyRequired".
Definition ErrLedgerAccountAmountInvalid := Sentinel "ErrLedgerAccountAmountInvalid".
Definition ErrLedgerAccountBookedAtRequired := Sentinel "ErrLedgerAccountBookedAtRequired".
Definition ErrLedgerAccountAggregateRequired := Sentinel "ErrLedgerAccountAggregateRequired".
Definition ErrLedgerAccountInsufficientFunds := Sentinel "ErrLedgerAccountInsufficientFunds".

(** ** Postings *)

Module LedgerAccountPostingInput.
Record t := mk {
  AccountID : string;
  TransactionID : string;
  ReferenceType : string;
  ReferenceID : string;
  CounterpartyAccountID : string;
  Currency : string;
  AmountDelta : Z;
  BookedAt : Time
}.
End LedgerAccountPostingInput.
Notation LedgerAccountPostingInput := LedgerAccountPostingInput.t.

Module LedgerAccountTransferPostingInput.
Record t := mk {
  AccountID : string;
  TransactionID : string;
  CounterpartyAccountID : string;
  Currency : string;
  Amount : Z;
  BookedAt : Time
}.
End LedgerAccountTransferPostingInput.
Notation LedgerAccountTransferPostingInput := LedgerAccountTransferPostingInput.t.

Definition requiresNonNegativeBalance (referenceType : string) : bool :=
  match kindOfName (TrimSpace referenceType) with
  | Some ReserveWithdrawal | Some ReleaseWithdrawal | None => true
  | Some _ => false
  end.

(** The reference types a posting may carry. *)
Definition knownReferenceType (referenceType : string) : bool :=
  match kindOfName referenceType with
  | Some _ => true
  | None => String.eqb referenceType LedgerReferenceInternalTransfer
  end.

Definition absInt64 (value : Z) : Z :=
  if decide (value < 0) then neg64 value else value.

Definition ledgerPaymentReferenceTypeForSucceededAmount (amountDelta : Z) : string :=
  if decide (0 <= amountDelta) then kindName DepositFromIntent else kindName WithdrawFromIntent.

Definition ledgerPaymentReferenceTypeForReversal (paymentEventName : string)
    (amountDelta : Z) : string :=
  let name := TrimSpace paymentEventName in
  if decide (name = EventPaymentRefunded) then
    if decide (0 <= amountDelta) then kindName DepositFromRefund else kindName WithdrawFromRefund
  else if decide (name = EventPaymentChargeback) then
    if decide (0 <= amountDelta) then kindName DepositFromChargeback
    else kindName WithdrawFromChargeback
  else "".

(** Equality of postings up to the booking time. *)
Definition SameLedgerAccountPosting (left right : LedgerAccountPosting) : bool :=
  bool_decide (
    Posting.TransactionID left = Posting.TransactionID right /\
    Posting.ReferenceType left = Posting.ReferenceType right /\
    Posting.ReferenceID left = Posting.ReferenceID right /\
    Posting.CounterpartyAccountID left
      = Posting.CounterpartyAccountID right /\
    Posting.Currency left = Posting.Currency right /\
    Posting.AmountDelta left = Posting.AmountDelta right).

(** [newLedgerPaymentEvent]: the event that records a payment posting. *)
Definition newLedgerPaymentEvent (posting : LedgerAccountPosting) : LedgerEventData :=
  match kindOfName (Posting.ReferenceType posting) with
  | Some k =>
      LedgerPayment k (Some (mkPaymentEventData
        (Posting.TransactionID posting)
        (Posting.ReferenceID posting)
        (Posting.CounterpartyAccountID posting)
        (Posting.Currency posting)
        (absInt64 (Posting.AmountDelta posting))
        (Posting.BookedAt posting)))
  | None => NilEventData
  end.

(** The sign of the balance change each payment event makes. *)
Definition kindDirection (k : PaymentEventKind) : Z :=
  match k with
  | DepositFromIntent | DepositFromRefund | DepositFromChargeback
  | ReceiveWithdrawalHold | ReleaseWithdrawal => 1
  | WithdrawFromIntent | WithdrawFromRefund | WithdrawFromChargeback
  | ReserveWithdrawal | WithdrawReleasedHold => -1
  end.

Section posting.
Context `{UC : UnicodeCase}.

Definition newLedgerPosting (transactionID referenceType referenceID
    counterpartyAccountID currency : string) (amountDelta : Z) (bookedAt : Time) :
    result LedgerAccountPosting :=
  let transactionID := TrimSpace transactionID in
  if decide (transactionID = "") then Err ErrLedgerAccountTransactionRequired else
  let currency := ToUpper (TrimSpace currency) in
  if decide (currency = "") then Err ErrLedgerAccountCurrencyRequired else
  if decide (amountDelta = 0) then Err ErrLedgerAccountAmountInvalid else
  if IsZero bookedAt then Err ErrLedgerAccountBookedAtRequired else
  Ok (Posting.mk transactionID (TrimSpace referenceType)
        (TrimSpace referenceID) (TrimSpace counterpartyAccountID) currency
        amountDelta (UTC bookedAt)).

Definition normalizeLedgerAccountPosting (accountID : string)
    (posting : LedgerAccountPosting) : result (string * LedgerAccountPosting) :=
  let accountID := TrimSpace accountID in
  if decide (accountID = "") then Err ErrLedgerAccountIDRequired else
  let referenceType := TrimSpace (Posting.ReferenceType posting) in
  if negb (knownReferenceType referenceType) then
    Err ErrLedgerAccountReferenceTypeInvalid else
  let transactionID := TrimSpace (Posting.TransactionID posting) in
  if decide (transactionID = "") then Err ErrLedgerAccountTransactionRequired else
  let referenceID := TrimSpace (Posting.ReferenceID posting) in
  if decide (referenceID = "") then Err ErrLedgerAccountReferenceIDRequired else
  let counterparty := TrimSpace (Posting.CounterpartyAccountID posting) in
  if decide (counterparty = "") then Err ErrLedgerAccountCounterpartyRequired else
  if decide (counterparty = accountID) then Err ErrLedgerAccountAccountsMustDiffer else
  let currency := ToUpper (TrimSpace (Posting.Currency posting)) in
  if decide (currency = "") then Err ErrLedgerAccountCurrencyRequired else
  if decide (Posting.AmountDelta posting = 0) then
    Err ErrLedgerAccountAmountInvalid else
  if IsZero (Posting.BookedAt posting) then
    Err ErrLedgerAccountBookedAtRequired else
  Ok (accountID,
      Posting.mk transactionID referenceType referenceID counterparty
        currency (Posting.AmountDelta posting)
        (UTC (Posting.BookedAt posting))).

Definition NewLedgerAccountPaymentPosting (input : LedgerAccountPostingInput) :
    result LedgerAccountPosting :=
  posting ← newLedgerPosting (LedgerAccountPostingInput.TransactionID input)
              (LedgerAccountPostingInput.ReferenceType input)
              (LedgerAccountPostingInput.ReferenceID input)
              (LedgerAccountPostingInput.CounterpartyAccountID input)
              (LedgerAccountPostingInput.Currency input)
              (LedgerAccountPostingInput.AmountDelta input)
              (LedgerAccountPostingInput.BookedAt input);
  '(_, normalized) ←
    normalizeLedgerAccountPosting (LedgerAccountPostingInput.AccountID input) posting;
  Ok normalized.

(** A transfer posting: the amount is the delta, with the given sign. *)
Definition transferPosting (input : LedgerAccountTransferPostingInput) (delta : Z) :
    result LedgerAccountPosting :=
  NewLedgerAccountPaymentPosting (LedgerAccountPostingInput.mk
    (LedgerAccountTransferPostingInput.AccountID input)
    (LedgerAccountTransferPostingInput.TransactionID input)
    LedgerReferenceInternalTransfer
    (LedgerAccountTransferPostingInput.TransactionID input)
    (LedgerAccountTransferPostingInput.CounterpartyAccountID input)
    (LedgerAccountTransferPostingInput.Currency input)
    delta
    (LedgerAccountTransferPostingInput.BookedAt input)).

Definition NewLedgerAccountTransferOutPosting (input : LedgerAccountTransferPostingInput) :
    result LedgerAccountPosting :=
  transferPosting input (neg64 (LedgerAccountTransferPostingInput.Amount input)).

Definition NewLedgerAccountTransferInPosting (input : LedgerAccountTransferPostingInput) :
    result LedgerAccountPosting :=
  transferPosting input (LedgerAccountTransferPostingInput.Amount input).

(** The interface value [data] is never nil here: it holds a pointer, and
    reading the fields of a nil one panics. *)
Definition newLedgerPostingFromPaymentEvent (accountID : string)
    (data : option ledgerPaymentEventData) (referenceType : string) (direction : Z) :
    result (LedgerAccountPosting * bool) :=
  match data with
  | None => Panic "nil pointer dereference"
  | Some payload =>
      posting ← NewLedgerAccountPaymentPosting (LedgerAccountPostingInput.mk
        accountID (transactionID payload) referenceType (paymentID payload)
        (counterpartyAccountID payload) (currency payload)
        (mul64 direction (amount payload)) (bookedAt payload));
      Ok (posting, true)
  end.

Definition transferInput (accountID : string) (data : ledgerTransferEventData) :
    LedgerAccountTransferPostingInput :=
  LedgerAccountTransferPostingInput.mk accountID (transferTransactionID data)
    (otherAccountID data) (transferCurrency data) (transferAmount data)
    (transferBookedAt data).

(** [previewLedgerPostingFromEvent]: the posting an event stands for, and
    whether the event is a ledger event at all. The value that accompanies
    [false] is the zero posting. *)
Definition zeroPosting : LedgerAccountPosting :=
  Posting.mk "" "" "" "" "" 0 Time_zero.

Definition previewLedgerPostingFromEvent (accountID : string) (eventData : LedgerEventData) :
    result (LedgerAccountPosting * bool) :=
  match eventData with
  | LedgerPayment k data =>
      newLedgerPostingFromPaymentEvent accountID data (kindName k) (kindDirection k)
  | EventLedgerAccountTransferredToAccount None =>
      Err (Errorf "ledger transfer to account event is nil" [])
  | EventLedgerAccountTransferredToAccount (Some data) =>
      posting ← NewLedgerAccountTransferOutPosting (transferInput accountID data);
      Ok (posting, true)
  | EventLedgerAccountReceivedTransfer None =>
      Err (Errorf "ledger received transfer event is nil" [])
  | EventLedgerAccountReceivedTransfer (Some data) =>
      posting ← NewLedgerAccountTransferInPosting (transferInput accountID data);
      Ok (posting, true)
  | NilEventData | OtherEventData _ => Ok (zeroPosting, false)
  end.
End posting.

(** ** The aggregate *)

Module LedgerAccountAggregate.
Record t := mk {
  root : AggregateRoot LedgerEventData;
  AccountID : string;
  Balances : gmap string Z;
  PostedTransactions : gmap string LedgerAccountPosting
}.
End LedgerAccountAggregate.
Notation LedgerAccountAggregate := LedgerAccountAggregate.t.
Notation Balances := LedgerAccountAggregate.Balances.
Notation PostedTransactions := LedgerAccountAggregate.PostedTransactions.

Definition ledgerSetRoot (r : AggregateRoot LedgerEventData) (a : LedgerAccountAggregate) :
    LedgerAccountAggregate :=
  LedgerAccountAggregate.mk r (LedgerAccountAggregate.AccountID a) (Balances a)
    (PostedTransactions a).

Definition ledgerAggregateType : string := "LedgerAccountAggregate".

Section account.
Context `{UC : UnicodeCase}.

Definition NewLedgerAccountAggregate (accountID : string) : result LedgerAccountAggregate :=
  match InitAggregate ledgerAggregateType accountID zeroRoot with
  | (Ok _, r) => Ok (LedgerAccountAggregate.mk r "" ∅ ∅)
  | (Err e, _) => Err e
  | (Panic w, _) => Panic w
  end.

Definition BalanceOf (a : LedgerAccountAggregate) (cur : string) : Z :=
  default 0 (Balances a !! cur).

Definition Balance (a : LedgerAccountAggregate) (currency : string) : Z :=
  BalanceOf a (ToUpper (TrimSpace currency)).

Definition PostedTransaction (a : LedgerAccountAggregate) (transactionID : string) :
    option LedgerAccountPosting :=
  let transactionID := TrimSpace transactionID in
  if decide (transactionID = "") then None else PostedTransactions a !! transactionID.

Definition lookupPendingPosting := PostedTransaction.

Definition ensurePostingAllowed (a : LedgerAccountAggregate)
    (posting : LedgerAccountPosting) : result unit :=
  let delta := Posting.AmountDelta posting in
  if decide (0 <= delta) then Ok tt
  else if negb (requiresNonNegativeBalance (Posting.ReferenceType posting))
  then Ok tt
  else if decide (add64 (Balance a (Posting.Currency posting)) delta < 0)
  then Err (Errorf "%w: account_id=%s currency=%s balance=%d amount=%d"
              [ErrLedgerAccountInsufficientFunds])
  else Ok tt.

Definition applyPosting (accountID : string) (posting : LedgerAccountPosting) :
    method LedgerAccountAggregate unit := fun a =>
  match normalizeLedgerAccountPosting accountID posting with
  | Err e => (Err e, a)
  | Panic w => (Panic w, a)
  | Ok (normalizedAccountID, p) =>
      match ensurePostingAllowed a p with
      | Err e => (Err e, a)
      | Panic w => (Panic w, a)
      | Ok _ =>
          if decide (LedgerAccountAggregate.AccountID a <> "" /\
                     LedgerAccountAggregate.AccountID a <> normalizedAccountID)
          then (Err (Errorf "%w: aggregate=%s event=%s" [ErrLedgerAccountIDMismatch]), a)
          else
            let cur := Posting.Currency p in
            (Ok tt,
             LedgerAccountAggregate.mk (LedgerAccountAggregate.root a) normalizedAccountID
               (<[cur := add64 (BalanceOf a cur) (Posting.AmountDelta p)]>
                  (Balances a))
               (<[Posting.TransactionID p := p]> (PostedTransactions a)))
      end
  end.

Definition applyEventPosting (accountID : string) (eventData : LedgerEventData) :
    method LedgerAccountAggregate unit :=
  '(posting, ok) ← lift (previewLedgerPostingFromEvent accountID eventData);
  if ok : bool then applyPosting accountID posting
  else raise (Errorf "ledger event is unsupported" []).

Definition applyTransferredToAccount (accountID : string)
    (data : option ledgerTransferEventData) : method LedgerAccountAggregate unit :=
  match data with
  | None => raise (Errorf "ledger transfer to account event is nil" [])
  | Some data =>
      posting ← lift (NewLedgerAccountTransferOutPosting (transferInput accountID data));
      applyPosting accountID posting
  end.

Definition applyReceivedTransfer (accountID : string)
    (data : option ledgerTransferEventData) : method LedgerAccountAggregate unit :=
  match data with
  | None => raise (Errorf "ledger received transfer event is nil" [])
  | Some data =>
      posting ← lift (NewLedgerAccountTransferInPosting (transferInput accountID data));
      applyPosting accountID posting
  end.

Definition ledgerTransition (evt : Event LedgerEventData) :
    method LedgerAccountAggregate unit :=
  match EventData evt with
  | LedgerPayment _ _ => applyEventPosting (AggregateID evt) (EventData evt)
  | EventLedgerAccountTransferredToAccount data =>
      applyTransferredToAccount (AggregateID evt) data
  | EventLedgerAccountReceivedTransfer data => applyReceivedTransfer (AggregateID evt) data
  | NilEventData | OtherEventData _ => raise ErrUnsupportedEventType
  end.
End account.

Section account_aggregate.
Context `{UC : UnicodeCase}.

Lemma applyPosting_setRoot accountID p r a :
  applyPosting accountID p (ledgerSetRoot r a) =
    ((applyPosting accountID p a).1, ledgerSetRoot r (applyPosting accountID p a).2).
Proof.
  unfold applyPosting.
  destruct (normalizeLedgerAccountPosting accountID p) as [[acc q]|e|w]; [|done..].
  change (ensurePostingAllowed (ledgerSetRoot r a) q) with (ensurePostingAllowed a q).
  destruct (ensurePostingAllowed a q); [|done..]. cbn. by case_decide.
Qed.

Lemma ledgerTransition_setRoot e r a :
  ledgerTransition e (ledgerSetRoot r a) =
    ((ledgerTransition e a).1, ledgerSetRoot r (ledgerTransition e a).2).
Proof.
  unfold ledgerTransition, applyEventPosting, applyTransferredToAccount,
    applyReceivedTransfer, mbind, method_bind, lift.
  destruct (EventData e) as [k p|[p|]|[p|]| |n]; try done.
  - destruct (previewLedgerPostingFromEvent _ _) as [[q []]|e'|w]; try done.
    apply applyPosting_setRoot.
  - destruct (NewLedgerAccountTransferOutPosting _); try done. apply applyPosting_setRoot.
  - destruct (NewLedgerAccountTransferInPosting _); try done. apply applyPosting_setRoot.
Qed.

#[export, program] Instance LedgerAccountAggregate_Aggregate :
    Aggregate LedgerAccountAggregate LedgerEventData := {|
  Root := LedgerAccountAggregate.root;
  setRoot := ledgerSetRoot;
  Transition := ledgerTransition
|}.
Next Obligation. done. Qed.
Next Obligation. by intros []. Qed.
Next Obligation. done. Qed.

#[export] Instance LedgerAccountAggregate_RootFree :
    RootFree LedgerAccountAggregate LedgerEventData.
Proof. split. intros e r a. cbn. by rewrite ledgerTransition_setRoot. Qed.

Definition accountIDOf (a : LedgerAccountAggregate) : string := aggregateID (Root a).

(** The common tail of the commands: reject a transaction already posted
    differently, ignore one already posted, otherwise record the event. *)
Definition postEvent (mismatch : string) (posting : LedgerAccountPosting)
    (eventData : LedgerEventData) : method LedgerAccountAggregate bool := fun a =>
  match lookupPendingPosting a (Posting.TransactionID posting) with
  | Some existing =>
      if SameLedgerAccountPosting existing posting then (Ok false, a)
      else (Err (Errorf mismatch []), a)
  | None =>
      match ensurePostingAllowed a posting with
      | Err e => (Err e, a)
      | Panic w => (Panic w, a)
      | Ok _ => (ApplyChange eventData ≫= fun _ => mret true) a
      end
  end.

Definition ApplyPostingEvent (eventData : LedgerEventData) :
    method LedgerAccountAggregate bool := fun a =>
  match previewLedgerPostingFromEvent (accountIDOf a) eventData with
  | Err e => (Err e, a)
  | Panic w => (Panic w, a)
  | Ok (posting, ok) =>
      if negb ok then (Err ErrUnsupportedEventType, a)
      else postEvent "ledger posting mismatch for transaction_id=%s" posting eventData a
  end.

Definition bookPaymentPosting (transactionID referenceType referenceID
    counterpartyAccountID currency : string) (amountDelta : Z) (bookedAt : Time) :
    method LedgerAccountAggregate bool := fun a =>
  match NewLedgerAccountPaymentPosting (LedgerAccountPostingInput.mk (accountIDOf a)
          transactionID referenceType referenceID counterpartyAccountID currency
          amountDelta bookedAt) with
  | Err e => (Err e, a)
  | Panic w => (Panic w, a)
  | Ok posting =>
      postEvent "ledger payment booking mismatch for transaction_id=%s" posting
        (newLedgerPaymentEvent posting) a
  end.

Definition BookPayment (transactionID paymentID counterpartyAccountID currency : string)
    (amountDelta : Z) (bookedAt : Time) : method LedgerAccountAggregate bool :=
  bookPaymentPosting transactionID
    (ledgerPaymentReferenceTypeForSucceededAmount amountDelta) paymentID
    counterpartyAccountID currency amountDelta bookedAt.

Definition ReversePayment (transactionID referenceType paymentID counterpartyAccountID
    currency : string) (amountDelta : Z) (bookedAt : Time) :
    method LedgerAccountAggregate bool :=
  let referenceType := TrimSpace referenceType in
  if decide (referenceType <> EventPaymentRefunded /\ referenceType <> EventPaymentChargeback)
  then raise (Errorf "%w: %s" [ErrLedgerAccountReferenceTypeInvalid])
  else bookPaymentPosting transactionID
         (ledgerPaymentReferenceTypeForReversal referenceType amountDelta) paymentID
         counterpartyAccountID currency amountDelta bookedAt.

Definition TransferToAccount (transactionID toAccountID currency : string) (amount : Z)
    (bookedAt : Time) : method LedgerAccountAggregate bool := fun a =>
  match NewLedgerAccountTransferOutPosting (LedgerAccountTransferPostingInput.mk
          (accountIDOf a) transactionID toAccountID currency amount bookedAt) with
  | Err e => (Err e, a)
  | Panic w => (Panic w, a)
  | Ok posting =>
      postEvent "ledger transfer mismatch for transaction_id=%s" posting
        (EventLedgerAccountTransferredToAccount (Some (mkTransferEventData
           (Posting.TransactionID posting)
           (Posting.CounterpartyAccountID posting)
           (Posting.Currency posting) amount
           (Posting.BookedAt posting)))) a
  end.

Definition ReceiveTransfer (transactionID fromAccountID currency : string) (amount : Z)
    (bookedAt : Time) : method LedgerAccountAggregate bool := fun a =>
  match NewLedgerAccountTransferInPosting (LedgerAccountTransferPostingInput.mk
          (accountIDOf a) transactionID fromAccountID currency amount bookedAt) with
  | Err e => (Err e, a)
  | Panic w => (Panic w, a)
  | Ok posting =>
      postEvent "ledger transfer receive mismatch for transaction_id=%s" posting
        (EventLedgerAccountReceivedTransfer (Some (mkTransferEventData
           (Posting.TransactionID posting)
           (Posting.CounterpartyAccountID posting)
           (Posting.Currency posting) amount
           (Posting.BookedAt posting)))) a
  end.

(** [NewLedgerAccountEvent] and [NewLedgerAccountEventFromPosting]. *)
Definition NewLedgerAccountEvent (aggregateID aggregateType : string)
    (data : LedgerEventData) : result (Event LedgerEventData) :=
  if payload_nil data then Err ErrLedgerAccountAggregateRequired
  else Ok (mkEvent 0 aggregateID aggregateType 0 (event_name data) data 0).

Definition NewLedgerAccountEventFromPosting (accountID : string)
    (posting : LedgerAccountPosting) : result (option (Event LedgerEventData)) :=
  let eventData := newLedgerPaymentEvent posting in
  if payload_nil eventData then Ok None
  else evt ← NewLedgerAccountEvent accountID ledgerAggregateType eventData; Ok (Some evt).
End account_aggregate.

(** ** Normal postings *)

Section posting_lemmas.
Context `{UC : UnicodeCase}.

(** A posting in normal form for the account [acc]: what
    [normalizeLedgerAccountPosting] returns. *)
Record posting_ok (acc : string) (p : LedgerAccountPosting) : Prop := {
  po_account : trimmed acc /\ acc <> "";
  po_transaction : trimmed (Posting.TransactionID p) /\ Posting.TransactionID p <> "";
  po_type : trimmed (Posting.ReferenceType p) /\ knownReferenceType (Posting.ReferenceType p) = true;
  po_reference : trimmed (Posting.ReferenceID p) /\ Posting.ReferenceID p <> "";
  po_counterparty : trimmed (Posting.CounterpartyAccountID p) /\ Posting.CounterpartyAccountID p <> "" /\
    Posting.CounterpartyAccountID p <> acc;
  po_currency : UpperTrim (Posting.Currency p) = Posting.Currency p /\ Posting.Currency p <> "";
  po_amount : Posting.AmountDelta p <> 0;
  po_booked : IsZero (Posting.BookedAt p) = false
}.

Lemma normalize_Ok acc p acc' p' :
  normalizeLedgerAccountPosting acc p = Ok (acc', p') ->
  acc' = TrimSpace acc /\ posting_ok acc' p' /\
  p' = Posting.mk (TrimSpace (Posting.TransactionID p)) (TrimSpace (Posting.ReferenceType p))
         (TrimSpace (Posting.ReferenceID p)) (TrimSpace (Posting.CounterpartyAccountID p))
         (UpperTrim (Posting.Currency p)) (Posting.AmountDelta p) (Posting.BookedAt p).
Proof.
  unfold normalizeLedgerAccountPosting. intros H. go_inv.
  split; [done|]. split; [|done].
  split; cbn; auto using TrimSpace_trimmed.
  - split; [apply TrimSpace_trimmed|]. by apply negb_false_iff.
  - split; [|done]. apply UpperTrim_idem.
Qed.

Lemma normalize_fix acc p :
  posting_ok (TrimSpace acc) p ->
  normalizeLedgerAccountPosting acc p = Ok (TrimSpace acc, p).
Proof.
  intros [[Ha Ha'] [Ht Ht'] [Hy Hy'] [Hr Hr'] (Hc & Hc' & Hd) [Hu Hu'] Hm Hb].
  unfold normalizeLedgerAccountPosting, trimmed in *. cbv zeta.
  fold (UpperTrim (Posting.Currency p)). rewrite Ht, Hy, Hr, Hc, Hu, Hy', Hb. cbn [negb].
  rewrite !decide_False by done. by destruct p.
Qed.

Lemma newLedgerPosting_fix acc p :
  posting_ok acc p ->
  newLedgerPosting (Posting.TransactionID p) (Posting.ReferenceType p) (Posting.ReferenceID p)
    (Posting.CounterpartyAccountID p) (Posting.Currency p) (Posting.AmountDelta p) (Posting.BookedAt p) = Ok p.
Proof.
  intros [[Ha Ha'] [Ht Ht'] [Hy Hy'] [Hr Hr'] (Hc & Hc' & Hd) [Hu Hu'] Hm Hb].
  unfold newLedgerPosting, trimmed in *. cbv zeta. fold (UpperTrim (Posting.Currency p)).
  rewrite Ht, Hy, Hr, Hc, Hu, Hb, !decide_False by done. by destruct p.
Qed.

Lemma NewLedgerAccountPaymentPosting_Ok i p :
  NewLedgerAccountPaymentPosting i = Ok p ->
  posting_ok (TrimSpace (LedgerAccountPostingInput.AccountID i)) p /\
  p = Posting.mk (TrimSpace (LedgerAccountPostingInput.TransactionID i))
        (TrimSpace (LedgerAccountPostingInput.ReferenceType i))
        (TrimSpace (LedgerAccountPostingInput.ReferenceID i))
        (TrimSpace (LedgerAccountPostingInput.CounterpartyAccountID i))
        (UpperTrim (LedgerAccountPostingInput.Currency i))
        (LedgerAccountPostingInput.AmountDelta i)
        (LedgerAccountPostingInput.BookedAt i).
Proof.
  unfold NewLedgerAccountPaymentPosting, newLedgerPosting. intros H. go_inv.
  destruct a0 as [acc q]. go_inv. apply normalize_Ok in H1 as (-> & Hok & ->).
  cbn [Posting.TransactionID Posting.ReferenceType Posting.ReferenceID
    Posting.CounterpartyAccountID Posting.Currency Posting.AmountDelta Posting.BookedAt] in *.
  fold (UpperTrim (LedgerAccountPostingInput.Currency i)) in *. unfold UTC in *.
  rewrite !TrimSpace_idem, UpperTrim_idem in Hok |- *. done.
Qed.

(** Building the posting of a normal posting's own fields gives it back. *)
Lemma NewLedgerAccountPaymentPosting_fix acc p :
  posting_ok (TrimSpace acc) p ->
  NewLedgerAccountPaymentPosting (LedgerAccountPostingInput.mk acc (Posting.TransactionID p)
    (Posting.ReferenceType p) (Posting.ReferenceID p) (Posting.CounterpartyAccountID p) (Posting.Currency p)
    (Posting.AmountDelta p) (Posting.BookedAt p)) = Ok p.
Proof.
  intros H. unfold NewLedgerAccountPaymentPosting. cbn -[newLedgerPosting
    normalizeLedgerAccountPosting].
  rewrite (newLedgerPosting_fix _ _ H). cbn -[normalizeLedgerAccountPosting].
  by rewrite normalize_fix.
Qed.

Lemma preview_Ok acc ev p :
  previewLedgerPostingFromEvent acc ev = Ok (p, true) ->
  posting_ok (TrimSpace acc) p /\ payload_nil ev = false /\ event_name ev <> "".
Proof.
  destruct ev as [k [d|]|[d|]|[d|]| |n]; cbn -[NewLedgerAccountPaymentPosting]; intros H;
    try discriminate; unfold NewLedgerAccountTransferOutPosting,
      NewLedgerAccountTransferInPosting, transferPosting in *; go_inv;
    match goal with H : NewLedgerAccountPaymentPosting _ = Ok _ |- _ =>
      apply NewLedgerAccountPaymentPosting_Ok in H as [? _] end;
    (split; [done|]; split; [done|]); by destruct k || done.
Qed.

(** Interpreting an event applies the posting it previews. *)
Lemma ledgerTransition_preview evt p :
  previewLedgerPostingFromEvent (AggregateID evt) (EventData evt) = Ok (p, true) ->
  ledgerTransition evt = applyPosting (AggregateID evt) p.
Proof.
  intros H. unfold ledgerTransition, applyEventPosting, mbind, method_bind, lift.
  destruct (EventData evt) as [k d|[d|]|[d|]| |n]; try discriminate.
  - by rewrite H.
  - cbn -[NewLedgerAccountTransferOutPosting] in H. go_inv.
    unfold applyTransferredToAccount, mbind, method_bind, lift. by rewrite H0.
  - cbn -[NewLedgerAccountTransferInPosting] in H. go_inv.
    unfold applyReceivedTransfer, mbind, method_bind, lift. by rewrite H0.
Qed.

(** Interpreting an event that stands for no posting fails. *)
Lemma ledgerTransition_Ok evt a a' :
  ledgerTransition evt a = (Ok tt, a') ->
  exists p, previewLedgerPostingFromEvent (AggregateID evt) (EventData evt) = Ok (p, true) /\
    applyPosting (AggregateID evt) p a = (Ok tt, a').
Proof.
  unfold ledgerTransition, applyEventPosting. intros H.
  destruct (EventData evt) as [k d|[d|]|[d|]| |n]; try discriminate H.
  - apply method_bind_Ok in H as ([p ok] & s & H1 & H2). unfold lift in H1.
    injection H1 as H1 <-. destruct ok; [|discriminate H2]. by exists p.
  - cbn -[NewLedgerAccountTransferOutPosting] in *. go_inv.
    match goal with H : _ = Ok ?q |- _ => exists q; by rewrite H end.
  - cbn -[NewLedgerAccountTransferInPosting] in *. go_inv.
    match goal with H : _ = Ok ?q |- _ => exists q; by rewrite H end.
Qed.

Lemma kindName_trimmed k : trimmed (kindName k).
Proof. by destruct k; vm_compute. Qed.

Lemma kindOfName_kindName k : kindOfName (kindName k) = Some k.
Proof. by destruct k. Qed.

Lemma kindOfName_Some n k : kindOfName n = Some k -> n = kindName k.
Proof.
  unfold kindOfName. intros [_ H]%List.find_some. by apply String.eqb_eq in H.
Qed.

Lemma direction_abs k z :
  in64 z -> 0 <= kindDirection k * z -> mul64 (kindDirection k) (absInt64 z) = z.
Proof.
  intros Hz Hs. unfold absInt64, mul64, neg64. case_decide.
  - assert (kindDirection k = -1) as -> by (destruct k; cbn in *; lia).
    replace (-1 * wrap64 (- z)) with (- wrap64 (- z)) by lia.
    rewrite wrap64_opp, Z.opp_involutive. by apply wrap64_id.
  - destruct (decide (z = 0)) as [->|]; [by destruct k|].
    assert (kindDirection k = 1) as -> by (destruct k; cbn in *; lia).
    rewrite Z.mul_1_l. by apply wrap64_id.
Qed.

(** The event that records a payment posting previews as that posting. *)
Lemma newLedgerPaymentEvent_preview acc p k :
  posting_ok (TrimSpace acc) p -> kindOfName (Posting.ReferenceType p) = Some k ->
  in64 (Posting.AmountDelta p) -> 0 <= kindDirection k * Posting.AmountDelta p ->
  previewLedgerPostingFromEvent acc (newLedgerPaymentEvent p) = Ok (p, true).
Proof.
  intros Hok Hk Hin Hs. unfold newLedgerPaymentEvent. rewrite Hk.
  cbn -[NewLedgerAccountPaymentPosting]. rewrite direction_abs by done.
  rewrite <- (kindOfName_Some _ _ Hk). by rewrite NewLedgerAccountPaymentPosting_fix.
Qed.

Lemma transfer_preview acc p amt :
  posting_ok (TrimSpace acc) p ->
  Posting.ReferenceType p = LedgerReferenceInternalTransfer -> Posting.ReferenceID p = Posting.TransactionID p ->
  let ev := mkTransferEventData (Posting.TransactionID p) (Posting.CounterpartyAccountID p)
              (Posting.Currency p) amt (Posting.BookedAt p) in
  (Posting.AmountDelta p = neg64 amt ->
    previewLedgerPostingFromEvent acc (EventLedgerAccountTransferredToAccount (Some ev))
      = Ok (p, true)) /\
  (Posting.AmountDelta p = amt ->
    previewLedgerPostingFromEvent acc (EventLedgerAccountReceivedTransfer (Some ev))
      = Ok (p, true)).
Proof.
  intros Hok Hty Href ev.
  pose proof (NewLedgerAccountPaymentPosting_fix acc p Hok) as Hfix.
  rewrite Hty, Href in Hfix.
  split; intros Ha; rewrite Ha in Hfix; cbn -[NewLedgerAccountPaymentPosting];
    unfold NewLedgerAccountTransferOutPosting, NewLedgerAccountTransferInPosting,
      transferPosting; cbn -[NewLedgerAccountPaymentPosting]; by rewrite Hfix.
Qed.
End posting_lemmas.
