(* ===== verification/LedgerAccountInv.v ===== *)
(** * The ledger account aggregate: invariant and properties

    The invariant [ledger_wf] of an account, the functional behaviour of the
    commands on every branch, and the properties of the account as a ledger:
    conservation, idempotence, overdraft protection, replay of its events. *)

From stdpp Require Import prelude strings gmap.
From S2P Require Import Prelude GoStrings Event LedgerEntity LedgerAccount.

(** ** Invariant *)

(** The sum of the amounts posted in one currency. *)
Definition postedIn (cur : string) (p : LedgerAccountPosting) : Z :=
  if decide (Posting.Currency p = cur) then Posting.AmountDelta p else 0.

Definition postedTotal (cur : string) (m : gmap string LedgerAccountPosting) : Z :=
  map_fold (fun _ p s => postedIn cur p + s) 0 m.

Lemma postedTotal_empty cur : postedTotal cur ∅ = 0.
Proof. apply map_fold_empty. Qed.

Lemma postedTotal_insert cur m tid p :
  m !! tid = None -> postedTotal cur (<[tid := p]> m) = postedIn cur p + postedTotal cur m.
Proof.
  intros H. unfold postedTotal. rewrite map_fold_insert_L; [done| |done]. intros. lia.
Qed.

Section inv.
Context `{UC : UnicodeCase}.
Implicit Types (a : LedgerAccountAggregate) (p : LedgerAccountPosting).

(** The account has an id; every posting is in normal form and filed under
    its transaction; each balance is the int64 sum of its postings. *)
Record ledger_wf a : Prop := {
  lw_id : trimmed (accountIDOf a) /\ accountIDOf a <> "";
  lw_account : LedgerAccountAggregate.AccountID a = "" \/
    LedgerAccountAggregate.AccountID a = accountIDOf a;
  lw_posted tid p : PostedTransactions a !! tid = Some p ->
    tid = Posting.TransactionID p /\ posting_ok (accountIDOf a) p;
  lw_balance cur : BalanceOf a cur = wrap64 (postedTotal cur (PostedTransactions a));
  lw_root : root_wf (Root a)
}.

(** The state after an event that stands for [p] has been interpreted. *)
Definition post (p : LedgerAccountPosting) a : LedgerAccountAggregate :=
  LedgerAccountAggregate.mk (LedgerAccountAggregate.root a) (accountIDOf a)
    (<[Posting.Currency p := add64 (BalanceOf a (Posting.Currency p))
                               (Posting.AmountDelta p)]> (Balances a))
    (<[Posting.TransactionID p := p]> (PostedTransactions a)).

Definition ledgerEvent (ev : LedgerEventData) a : Event LedgerEventData :=
  mkEvent 0 (accountIDOf a) (aggregateType (Root a)) (nextVersion (Root a))
    (event_name ev) ev 0.

(** The state after a command has recorded its event. *)
Definition recorded (ev : LedgerEventData) p a : LedgerAccountAggregate :=
  setRoot (appendEvent (ledgerEvent ev a) (Root a)) (post p a).

Lemma BalanceOf_post p a cur :
  BalanceOf (post p a) cur =
    if decide (cur = Posting.Currency p)
    then add64 (BalanceOf a cur) (Posting.AmountDelta p) else BalanceOf a cur.
Proof.
  unfold BalanceOf, post. cbn. rewrite lookup_insert.
  case_decide as E1; case_decide as E2; subst; done.
Qed.

Lemma BalanceOf_recorded ev p a cur :
  BalanceOf (recorded ev p a) cur = BalanceOf (post p a) cur.
Proof. done. Qed.

Lemma BalanceOf_in64 a cur : ledger_wf a -> in64 (BalanceOf a cur).
Proof. intros H. rewrite (lw_balance _ H). apply wrap64_in64. Qed.

Lemma Balance_normal a p acc :
  posting_ok acc p -> Balance a (Posting.Currency p) = BalanceOf a (Posting.Currency p).
Proof. intros H. unfold Balance. fold (UpperTrim (Posting.Currency p)).
  destruct (po_currency _ _ H) as [Hc _]. by rewrite Hc. Qed.

Lemma PostedTransaction_normal a p acc :
  posting_ok acc p ->
  lookupPendingPosting a (Posting.TransactionID p) =
    PostedTransactions a !! Posting.TransactionID p.
Proof.
  intros H. destruct (po_transaction _ _ H) as [Ht Hn].
  unfold lookupPendingPosting, PostedTransaction. rewrite Ht. by rewrite decide_False.
Qed.

Lemma applyPosting_ok p a :
  ledger_wf a -> posting_ok (accountIDOf a) p -> ensurePostingAllowed a p = Ok tt ->
  applyPosting (accountIDOf a) p a = (Ok tt, post p a).
Proof.
  intros Hw Hp He. destruct (lw_id _ Hw) as [Ht _]. unfold applyPosting.
  rewrite normalize_fix by (by rewrite Ht). rewrite He, Ht.
  rewrite decide_False; [done|]. destruct (lw_account _ Hw); naive_solver.
Qed.

Lemma post_wf p a :
  ledger_wf a -> posting_ok (accountIDOf a) p ->
  PostedTransactions a !! Posting.TransactionID p = None ->
  ledger_wf (post p a).
Proof.
  intros Hw Hp Hn. split; cbn.
  - apply (lw_id _ Hw).
  - by right.
  - intros tid q [[<- <-]|[? Hq]]%lookup_insert_Some; [done|]. by apply (lw_posted _ Hw).
  - intros cur. rewrite postedTotal_insert, BalanceOf_post, (lw_balance _ Hw) by done.
    unfold postedIn. case_decide as E1; case_decide as E2; subst; try done.
    unfold add64. rewrite wrap64_add_l. f_equal. lia.
  - apply (lw_root _ Hw).
Qed.

Lemma setRoot_ledger_wf r a :
  ledger_wf a -> root_wf r -> aggregateID r = accountIDOf a -> ledger_wf (setRoot r a).
Proof.
  intros Hw Hr Hid. destruct Hw as [H1 H2 H3 H4 H5]. split; cbn in *; unfold accountIDOf in *;
    cbn in *; rewrite ?Hid; auto.
Qed.

Lemma recorded_wf ev p a :
  ledger_wf a -> posting_ok (accountIDOf a) p ->
  PostedTransactions a !! Posting.TransactionID p = None -> version_room 1 (Root a) ->
  ledger_wf (recorded ev p a).
Proof.
  intros Hw Hp Hn Hr. apply setRoot_ledger_wf; [by apply post_wf| |done].
  apply appendEvent_wf; [apply (lw_root _ Hw)|done|].
  cbn. by apply nextVersion_wf; [apply (lw_root _ Hw)|].
Qed.

(** ** The commands *)

Lemma ApplyChange_recorded ev p a :
  ledger_wf a -> previewLedgerPostingFromEvent (accountIDOf a) ev = Ok (p, true) ->
  ensurePostingAllowed a p = Ok tt ->
  ApplyChange ev a = (Ok tt, recorded ev p a).
Proof.
  intros Hw Hp He. destruct (preview_Ok _ _ _ Hp) as (Hok & Hnil & Hname).
  destruct (lw_id _ Hw) as [Ht Hne]. rewrite Ht in Hok. unfold ApplyChange.
  change (aggregateID (Root a)) with (accountIDOf a).
  rewrite decide_False by done. rewrite Hnil. rewrite decide_False by done.
  fold (ledgerEvent ev a). change (Transition ?e) with (ledgerTransition e).
  unfold updRoot. change (setRoot ?r a) with (ledgerSetRoot r a).
  rewrite ledgerTransition_setRoot. rewrite (ledgerTransition_preview _ p) by done.
  change (AggregateID (ledgerEvent ev a)) with (accountIDOf a).
  by rewrite applyPosting_ok.
Qed.

(** Every command previews a posting and ends in [postEvent]; this is its
    behaviour on each branch. A rejected posting leaves no trace. *)
Lemma postEvent_spec m p ev a :
  ledger_wf a -> previewLedgerPostingFromEvent (accountIDOf a) ev = Ok (p, true) ->
  postEvent m p ev a =
    match PostedTransactions a !! Posting.TransactionID p with
    | Some q => if SameLedgerAccountPosting q p then (Ok false, a) else (Err (Errorf m []), a)
    | None =>
        match ensurePostingAllowed a p with
        | Ok _ => (Ok true, recorded ev p a)
        | Err e => (Err e, a)
        | Panic w => (Panic w, a)
        end
    end.
Proof.
  intros Hw Hp. destruct (preview_Ok _ _ _ Hp) as (Hok & _).
  destruct (lw_id _ Hw) as [Ht _]. rewrite Ht in Hok.
  unfold postEvent. rewrite (PostedTransaction_normal _ _ _ Hok).
  destruct (PostedTransactions a !! _); [done|].
  destruct (ensurePostingAllowed a p) as [[]|e|w] eqn:He; [|done..].
  unfold mbind, method_bind. by rewrite (ApplyChange_recorded _ p).
Qed.

Lemma SameLedgerAccountPosting_refl p : SameLedgerAccountPosting p p = true.
Proof. by apply bool_decide_eq_true. Qed.

(** A command, with the arguments of its method. *)
Inductive LedgerCommand : Type :=
  | CmdApplyPostingEvent (eventData : LedgerEventData)
  | CmdBookPayment (transactionID paymentID counterparty currency : string) (delta : Z)
      (bookedAt : Time)
  | CmdReversePayment (transactionID referenceType paymentID counterparty currency : string)
      (delta : Z) (bookedAt : Time)
  | CmdTransferToAccount (transactionID toAccountID currency : string) (amount : Z)
      (bookedAt : Time)
  | CmdReceiveTransfer (transactionID fromAccountID currency : string) (amount : Z)
      (bookedAt : Time).

Definition runCommand (c : LedgerCommand) : method LedgerAccountAggregate bool :=
  match c with
  | CmdApplyPostingEvent ev => ApplyPostingEvent ev
  | CmdBookPayment t p c cur d at_ => BookPayment t p c cur d at_
  | CmdReversePayment t r p c cur d at_ => ReversePayment t r p c cur d at_
  | CmdTransferToAccount t o cur amt at_ => TransferToAccount t o cur amt at_
  | CmdReceiveTransfer t o cur amt at_ => ReceiveTransfer t o cur amt at_
  end.

(** Amounts are int64. *)
Definition command_in64 (c : LedgerCommand) : Prop :=
  match c with
  | CmdBookPayment _ _ _ _ d _ | CmdReversePayment _ _ _ _ _ d _ => in64 d
  | _ => True
  end.

Lemma succeeded_type_preview k acc p :
  posting_ok (TrimSpace acc) p -> in64 (Posting.AmountDelta p) ->
  Posting.ReferenceType p = kindName k -> 0 <= kindDirection k * Posting.AmountDelta p ->
  previewLedgerPostingFromEvent acc (newLedgerPaymentEvent p) = Ok (p, true).
Proof.
  intros Hok Hin Hk Hs. apply (newLedgerPaymentEvent_preview _ _ k); [done| |done..].
  rewrite Hk. apply kindOfName_kindName.
Qed.

Lemma NewLedgerAccountPaymentPosting_no_panic i w :
  ~ NewLedgerAccountPaymentPosting i = Panic w.
Proof.
  unfold NewLedgerAccountPaymentPosting, mbind, result_bind.
  destruct (newLedgerPosting _ _ _ _ _ _ _) as [p|e|w'] eqn:E; [|done|].
  - destruct (normalizeLedgerAccountPosting _ p) as [[]|e|w'] eqn:E'; [done..|].
    intros _. revert E'. unfold normalizeLedgerAccountPosting. cbv zeta.
    repeat (case_decide; [done|]). by repeat case_match.
  - intros _. revert E. unfold newLedgerPosting. cbv zeta. by repeat case_match.
Qed.

Lemma kindName_succeeded d :
  exists k, ledgerPaymentReferenceTypeForSucceededAmount d = kindName k /\
    0 <= kindDirection k * d.
Proof.
  unfold ledgerPaymentReferenceTypeForSucceededAmount. case_decide.
  - exists DepositFromIntent. cbn. split; [done|lia].
  - exists WithdrawFromIntent. cbn. split; [done|lia].
Qed.

Lemma kindName_reversal n d :
  n = EventPaymentRefunded \/ n = EventPaymentChargeback ->
  exists k, ledgerPaymentReferenceTypeForReversal n d = kindName k /\
    0 <= kindDirection k * d.
Proof.
  pose proof payment_refunded_trimmed as H1. pose proof payment_chargeback_trimmed as H2.
  unfold trimmed in H1, H2.
  unfold ledgerPaymentReferenceTypeForReversal. intros [-> | ->]; rewrite ?H1, ?H2;
    [rewrite decide_True by done|rewrite decide_False, decide_True by done]; case_decide.
  - exists DepositFromRefund. cbn. split; [done|lia].
  - exists WithdrawFromRefund. cbn. split; [done|lia].
  - exists DepositFromChargeback. cbn. split; [done|lia].
  - exists WithdrawFromChargeback. cbn. split; [done|lia].
Qed.

(** A command either fails without effect before it has a posting, or is
    [postEvent] on an event and the posting that event previews as; which
    of the two depends on the identity of the account only. *)
Lemma runCommand_cases c acc :
  command_in64 c ->
  (forall a, accountIDOf a = acc -> exists e, runCommand c a = (Err e, a)) \/
  (forall a, accountIDOf a = acc -> exists w, runCommand c a = (Panic w, a)) \/
  (exists m ev p, previewLedgerPostingFromEvent acc ev = Ok (p, true) /\
     forall a, accountIDOf a = acc -> runCommand c a = postEvent m p ev a).
Proof.
  assert (forall t k r cp cur d at_, in64 d -> 0 <= kindDirection k * d ->
    (forall a, accountIDOf a = acc ->
       exists e, bookPaymentPosting t (kindName k) r cp cur d at_ a = (Err e, a)) \/
    (forall a, accountIDOf a = acc ->
       exists w, bookPaymentPosting t (kindName k) r cp cur d at_ a = (Panic w, a)) \/
    (exists m ev p, previewLedgerPostingFromEvent acc ev = Ok (p, true) /\
       forall a, accountIDOf a = acc ->
         bookPaymentPosting t (kindName k) r cp cur d at_ a = postEvent m p ev a)) as Hbook.
  { intros * Hin Hs. unfold bookPaymentPosting.
    destruct (NewLedgerAccountPaymentPosting (LedgerAccountPostingInput.mk acc t (kindName k)
      r cp cur d at_)) as [p|e|w] eqn:E.
    - right; right. eexists _, (newLedgerPaymentEvent p), p.
      split; [|by intros a ->; rewrite E].
      apply NewLedgerAccountPaymentPosting_Ok in E as [Hok Hp]. cbn in Hok, Hp.
      apply (succeeded_type_preview k); rewrite ?Hp; [by rewrite <- Hp|done| |done].
      apply kindName_trimmed.
    - left. intros a ->. rewrite E. eauto.
    - by apply NewLedgerAccountPaymentPosting_no_panic in E. }
  destruct c as [ev|t p c cur d at_|t r p c cur d at_|t o cur amt at_|t o cur amt at_];
    cbn [runCommand command_in64]; intros Hin.
  - unfold ApplyPostingEvent.
    destruct (previewLedgerPostingFromEvent acc ev) as [[p []]|e|w] eqn:E.
    + right; right. eexists _, ev, p. split; [done|]. intros a ->. by rewrite E.
    + left. intros a ->. rewrite E. cbn. eauto.
    + left. intros a ->. rewrite E. eauto.
    + right; left. intros a ->. rewrite E. eauto.
  - destruct (kindName_succeeded d) as (k & Hk & Hs). unfold BookPayment. rewrite Hk.
    by apply Hbook.
  - unfold ReversePayment. case_decide as Hty.
    { left. intros a _. eexists. done. }
    destruct (kindName_reversal (TrimSpace r) d) as (k & Hk & Hs).
    { destruct (decide (TrimSpace r = EventPaymentRefunded)); [by left|].
      destruct (decide (TrimSpace r = EventPaymentChargeback)); [by right|]. tauto. }
    rewrite Hk. by apply Hbook.
  - unfold TransferToAccount.
    destruct (NewLedgerAccountTransferOutPosting (LedgerAccountTransferPostingInput.mk acc t o
      cur amt at_)) as [p|e|w] eqn:E.
    + right; right. eexists _, _, p. split; [|by intros a ->; rewrite E].
      apply NewLedgerAccountPaymentPosting_Ok in E as [Hok Hp]. cbn in Hok, Hp.
      apply (transfer_preview acc p amt); [done|rewrite Hp; apply internal_transfer_trimmed|by rewrite Hp..].
    + left. intros a ->. rewrite E. eauto.
    + by apply NewLedgerAccountPaymentPosting_no_panic in E.
  - unfold ReceiveTransfer.
    destruct (NewLedgerAccountTransferInPosting (LedgerAccountTransferPostingInput.mk acc t o
      cur amt at_)) as [p|e|w] eqn:E.
    + right; right. eexists _, _, p. split; [|by intros a ->; rewrite E].
      apply NewLedgerAccountPaymentPosting_Ok in E as [Hok Hp]. cbn in Hok, Hp.
      apply (transfer_preview acc p amt); [done|rewrite Hp; apply internal_transfer_trimmed|by rewrite Hp..].
    + left. intros a ->. rewrite E. eauto.
    + by apply NewLedgerAccountPaymentPosting_no_panic in E.
Qed.

(** What a command does, on every branch. *)
Lemma runCommand_outcome c a r a' :
  ledger_wf a -> command_in64 c -> runCommand c a = (r, a') ->
  match r with
  | Ok true => exists ev p,
      previewLedgerPostingFromEvent (accountIDOf a) ev = Ok (p, true) /\
      PostedTransactions a !! Posting.TransactionID p = None /\
      ensurePostingAllowed a p = Ok tt /\ a' = recorded ev p a
  | Ok false => a' = a /\ exists ev p q,
      previewLedgerPostingFromEvent (accountIDOf a) ev = Ok (p, true) /\
      PostedTransactions a !! Posting.TransactionID p = Some q /\
      SameLedgerAccountPosting q p = true
  | Err _ | Panic _ => a' = a
  end.
Proof.
  intros Hw Hin Hrun.
  destruct (runCommand_cases c (accountIDOf a) Hin) as [H|[H|(m & ev & p & Hp & H)]].
  - destruct (H a eq_refl) as [e He]. rewrite He in Hrun. by simplify_eq.
  - destruct (H a eq_refl) as [e He]. rewrite He in Hrun. by simplify_eq.
  - rewrite (H a eq_refl), postEvent_spec in Hrun by done. clear H.
    destruct (PostedTransactions a !! _) as [q|] eqn:Hq.
    + destruct (SameLedgerAccountPosting q p) eqn:Hs; simplify_eq; [|done].
      split; [done|]. eauto 10.
    + destruct (ensurePostingAllowed a p) as [[]|e|w] eqn:He; simplify_eq; [|done..]. eauto 10.
Qed.

Lemma runCommand_wf c a :
  ledger_wf a -> command_in64 c -> version_room 1 (Root a) -> ledger_wf (runCommand c a).2.
Proof.
  intros Hw Hin Hr. destruct (runCommand c a) as [r a'] eqn:Hrun.
  pose proof (runCommand_outcome _ _ _ _ Hw Hin Hrun) as H.
  destruct r as [[]|e|w]; cbn; [|by destruct H as [-> _]|by subst..].
  destruct H as (ev & p & Hp & Hn & _ & ->). apply recorded_wf; [done| |done..].
  destruct (preview_Ok _ _ _ Hp) as [Hok _]. by destruct (lw_id _ Hw) as [<- _].
Qed.

Lemma MarkPersisted_ledger_wf a : ledger_wf a -> ledger_wf (updRoot MarkPersisted a).
Proof.
  intros Hw. pose proof (lw_root _ Hw) as Hr.
  apply setRoot_ledger_wf; [done|by apply MarkPersisted_wf|].
  unfold MarkPersisted. by destruct (last _).
Qed.

Lemma NewLedgerAccountAggregate_Ok id a :
  NewLedgerAccountAggregate id = Ok a ->
  a = LedgerAccountAggregate.mk (mkRoot (TrimSpace id) ledgerAggregateType 0 0 []) "" ∅ ∅ /\
  TrimSpace id <> "".
Proof.
  unfold NewLedgerAccountAggregate, InitAggregate. rewrite decide_False by done.
  unfold mbind, method_bind, modify, SetID. cbn.
  case_decide; [done|]. rewrite decide_False by naive_solver. intros H0. by simplify_eq.
Qed.

Lemma NewLedgerAccountAggregate_wf id a : NewLedgerAccountAggregate id = Ok a -> ledger_wf a.
Proof.
  intros [-> Hid]%NewLedgerAccountAggregate_Ok. split; cbn.
  - split; [apply TrimSpace_trimmed|done].
  - by left.
  - intros tid p Hp. by rewrite lookup_empty in Hp.
  - intros cur. rewrite postedTotal_empty. unfold BalanceOf. cbn. by rewrite lookup_empty.
  - split; [done|]. split; [cbn; lia|]. split; [|constructor]. intros i e Hi. done.
Qed.

(** The accounts the program can hold: created, changed by commands, saved. *)
Inductive ledger_reachable : LedgerAccountAggregate -> Prop :=
  | reach_new id a : NewLedgerAccountAggregate id = Ok a -> ledger_reachable a
  | reach_command c a : ledger_reachable a -> command_in64 c ->
      version_room 1 (Root a) -> ledger_reachable (runCommand c a).2
  | reach_saved a : ledger_reachable a -> ledger_reachable (updRoot MarkPersisted a).

Lemma ledger_reachable_wf a : ledger_reachable a -> ledger_wf a.
Proof.
  induction 1; eauto using NewLedgerAccountAggregate_wf, runCommand_wf,
    MarkPersisted_ledger_wf.
Qed.

(** Runs of commands whose results the caller ignores. *)
Fixpoint runCommands (cs : list LedgerCommand) a : LedgerAccountAggregate :=
  match cs with
  | [] => a
  | c :: cs' => runCommands cs' (runCommand c a).2
  end.

(** A run of commands is a run of [ApplyChange] on the events it recorded. *)
Lemma runCommands_ApplyChange cs a :
  ledger_wf a -> Forall command_in64 cs -> version_room (length cs) (Root a) ->
  exists evs, range evs ApplyChange a = (Ok tt, runCommands cs a) /\
    (length evs <= length cs)%nat.
Proof.
  revert a. induction cs as [|c cs IH]; intros a Hw Hin Hr.
  { by exists []. }
  apply Forall_cons in Hin as [Hc Hin]. cbn [runCommands length] in *.
  assert (version_room 1 (Root a)) as Hr1 by (apply (version_room_le (S (length cs))); [lia|done]).
  pose proof (runCommand_wf c a Hw Hc Hr1) as Hw'.
  destruct (runCommand c a) as [r a'] eqn:Hrun. cbn [snd] in *.
  pose proof (runCommand_outcome _ _ _ _ Hw Hc Hrun) as H.
  assert (a' = a \/ exists ev p, r = Ok true /\ a' = recorded ev p a /\
            ApplyChange ev a = (Ok tt, a')) as [->|(ev & p & _ & Ha & Hap)].
  { destruct r as [[]|e|w]; [|by left; destruct H as [-> _]|by left..].
    destruct H as (ev & p & Hp & Hn & He & ->). right. exists ev, p.
    by rewrite (ApplyChange_recorded ev p). }
  - destruct (IH a Hw' Hin) as (evs & Hevs & Hlen).
    { apply (version_room_le (S (length cs))); [lia|done]. }
    exists evs. split; [done|lia].
  - destruct (IH a' Hw' Hin) as (evs & Hevs & Hlen).
    { rewrite Ha. by apply version_room_append. }
    exists (ev :: evs). split; [|cbn; lia]. apply range_cons_Ok. eauto.
Qed.
End inv.
