(* ===== verification/LedgerAccountSpec.v ===== *)
(** * The ledger account as a journal: specification and theorems

    The abstract account is a journal of postings indexed by transaction id;
    its balances are not stored but summed. The detailed aggregate refines
    it. The theorems about accounts are stated for every account the program
    can hold ([ledger_reachable]). *)

From stdpp Require Import prelude strings gmap.
From S2P Require Import Prelude GoStrings Event LedgerEntity LedgerAccount LedgerAccountInv.

(** ** Abstract specification *)

Record Journal := mkJournal {
  journalAccount : string;
  journalPostings : gmap string LedgerAccountPosting
}.

Definition journalBalance (j : Journal) (cur : string) : Z :=
  wrap64 (postedTotal cur (journalPostings j)).

(** Posting to a journal: [Some (true, j')] when the posting is added,
    [Some (false, j)] when it was there already, [None] when it is refused. *)
Definition journalPost (p : LedgerAccountPosting) (j : Journal) : option (bool * Journal) :=
  match journalPostings j !! Posting.TransactionID p with
  | Some q => if SameLedgerAccountPosting q p then Some (false, j) else None
  | None =>
      if decide (Posting.AmountDelta p < 0 /\
                 requiresNonNegativeBalance (Posting.ReferenceType p) = true /\
                 add64 (journalBalance j (Posting.Currency p)) (Posting.AmountDelta p) < 0)
      then None
      else Some (true, mkJournal (journalAccount j)
                         (<[Posting.TransactionID p := p]> (journalPostings j)))
  end.

Definition journalOf (a : LedgerAccountAggregate) : Journal :=
  mkJournal (aggregateID (LedgerAccountAggregate.root a)) (PostedTransactions a).

Section spec.
Context `{UC : UnicodeCase}.
Implicit Types (a : LedgerAccountAggregate) (p : LedgerAccountPosting).

Lemma ensurePostingAllowed_spec a p :
  ledger_wf a -> posting_ok (accountIDOf a) p ->
  ensurePostingAllowed a p = Ok tt /\
    ~ (Posting.AmountDelta p < 0 /\
       requiresNonNegativeBalance (Posting.ReferenceType p) = true /\
       add64 (BalanceOf a (Posting.Currency p)) (Posting.AmountDelta p) < 0) \/
  (exists e, ensurePostingAllowed a p = Err e /\
     errors_Is e "ErrLedgerAccountInsufficientFunds" = true) /\
    Posting.AmountDelta p < 0 /\
    requiresNonNegativeBalance (Posting.ReferenceType p) = true /\
    add64 (BalanceOf a (Posting.Currency p)) (Posting.AmountDelta p) < 0.
Proof.
  intros Hw Hp. unfold ensurePostingAllowed. rewrite (Balance_normal _ _ _ Hp).
  case_decide as H1; [left; split; [done|lia]|].
  destruct (requiresNonNegativeBalance (Posting.ReferenceType p)); cbn [negb];
    [|left; naive_solver].
  case_decide as H2; [right|left; naive_solver].
  split; [eexists; split; [done|by vm_compute]|]. naive_solver lia.
Qed.

Lemma preview_posting_ok a ev p :
  ledger_wf a -> previewLedgerPostingFromEvent (accountIDOf a) ev = Ok (p, true) ->
  posting_ok (accountIDOf a) p.
Proof.
  intros Hw [Hok _]%preview_Ok. by destruct (lw_id _ Hw) as [<- _].
Qed.

(** [journalPost] is what [postEvent] does to the journal of the account. *)
Lemma postEvent_journal m p ev a r a' :
  ledger_wf a -> previewLedgerPostingFromEvent (accountIDOf a) ev = Ok (p, true) ->
  postEvent m p ev a = (r, a') ->
  journalPost p (journalOf a) =
    match r with Ok b => Some (b, journalOf a') | _ => None end.
Proof.
  intros Hw Hp. rewrite postEvent_spec by done. unfold journalPost. cbn.
  destruct (PostedTransactions a !! _) as [q|] eqn:Hq.
  - destruct (SameLedgerAccountPosting q p); intros; by simplify_eq.
  - unfold journalBalance. cbn. rewrite <- (lw_balance _ Hw).
    destruct (ensurePostingAllowed_spec a p Hw (preview_posting_ok _ _ _ Hw Hp))
      as [[-> Hn]|[(e & -> & _) Hy]].
    + rewrite decide_False by done. intros. by simplify_eq.
    + rewrite decide_True by done. intros. by simplify_eq.
Qed.

Lemma NewLedgerAccountPaymentPosting_complete acc tid ty ref cp cur d at_ :
  TrimSpace acc <> "" -> TrimSpace tid <> "" -> knownReferenceType (TrimSpace ty) = true ->
  TrimSpace ref <> "" -> TrimSpace cp <> "" -> TrimSpace cp <> TrimSpace acc ->
  UpperTrim cur <> "" -> d <> 0 -> IsZero at_ = false ->
  NewLedgerAccountPaymentPosting (LedgerAccountPostingInput.mk acc tid ty ref cp cur d at_) =
    Ok (Posting.mk (TrimSpace tid) (TrimSpace ty) (TrimSpace ref) (TrimSpace cp)
          (UpperTrim cur) d at_).
Proof.
  intros Ha Ht Hy Hr Hc Hca Hu Hd Hb.
  unfold NewLedgerAccountPaymentPosting, newLedgerPosting.
  cbn [LedgerAccountPostingInput.AccountID LedgerAccountPostingInput.TransactionID
    LedgerAccountPostingInput.ReferenceType LedgerAccountPostingInput.ReferenceID
    LedgerAccountPostingInput.CounterpartyAccountID LedgerAccountPostingInput.Currency
    LedgerAccountPostingInput.AmountDelta LedgerAccountPostingInput.BookedAt].
  cbv zeta. fold (UpperTrim cur). rewrite !decide_False by done. rewrite Hb.
  unfold mbind, result_bind, UTC.
  set (p := Posting.mk _ _ _ _ _ _ _).
  rewrite normalize_fix; [done|]. split; cbn; auto using TrimSpace_trimmed.
  split; [|done]. apply UpperTrim_idem.
Qed.

Lemma TransferToAccount_cases a tid to_ cur amt at_ :
  ledger_wf a -> 0 < amt <= int64_max -> 0 <= BalanceOf a (UpperTrim cur) ->
  TrimSpace tid <> "" -> TrimSpace to_ <> "" -> TrimSpace to_ <> accountIDOf a ->
  UpperTrim cur <> "" -> IsZero at_ = false ->
  PostedTransactions a !! TrimSpace tid = None ->
  exists p ev, p = Posting.mk (TrimSpace tid) LedgerReferenceInternalTransfer (TrimSpace tid)
                  (TrimSpace to_) (UpperTrim cur) (- amt) at_ /\
    (amt <= BalanceOf a (UpperTrim cur) ->
      TransferToAccount tid to_ cur amt at_ a = (Ok true, recorded ev p a)) /\
    (BalanceOf a (UpperTrim cur) < amt -> exists e,
      TransferToAccount tid to_ cur amt at_ a = (Err e, a) /\
      errors_Is e "ErrLedgerAccountInsufficientFunds" = true).
Proof.
  intros Hw Ha Hbal Ht Hto Hne Hcur Hat Hn.
  destruct (lw_id _ Hw) as [Hid Hid'].
  unfold TransferToAccount, NewLedgerAccountTransferOutPosting, transferPosting.
  cbn [LedgerAccountTransferPostingInput.AccountID LedgerAccountTransferPostingInput.TransactionID
    LedgerAccountTransferPostingInput.CounterpartyAccountID
    LedgerAccountTransferPostingInput.Currency LedgerAccountTransferPostingInput.Amount
    LedgerAccountTransferPostingInput.BookedAt].
  rewrite NewLedgerAccountPaymentPosting_complete, internal_transfer_trimmed, neg64_small
    by (rewrite ?internal_transfer_trimmed, ?Hid, ?neg64_small by lia; done || lia).
  set (p := Posting.mk _ _ _ _ _ _ _).
  set (ev := EventLedgerAccountTransferredToAccount _).
  assert (posting_ok (accountIDOf a) p) as Hok.
  { split; cbn; auto using TrimSpace_trimmed, internal_transfer_trimmed; [|lia].
    split; [apply UpperTrim_idem|done]. }
  assert (previewLedgerPostingFromEvent (accountIDOf a) ev = Ok (p, true)) as Hp.
  { apply (transfer_preview (accountIDOf a) p amt); [by rewrite Hid|done|done|].
    cbn. by rewrite neg64_small by lia. }
  exists p, ev. split; [done|]. rewrite postEvent_spec by done.
  change (Posting.TransactionID p) with (TrimSpace tid). rewrite Hn.
  assert (add64 (BalanceOf a (UpperTrim cur)) (- amt) = BalanceOf a (UpperTrim cur) - amt)
    as Hadd.
  { rewrite add64_small; [lia|]. pose proof (BalanceOf_in64 a (UpperTrim cur) Hw).
    unfold in64, int64_min, int64_max in *. lia. }
  destruct (ensurePostingAllowed_spec a p Hw Hok) as [[-> Hno]|[(e & -> & He) (_ & _ & Hlt)]];
    cbn [Posting.Currency Posting.AmountDelta p] in *; rewrite Hadd in *.
  - split; [done|]. intros Hlt. exfalso. apply Hno. split; [cbn; lia|].
    split; [by vm_compute|cbn; lia].
  - split; [lia|]. intros _. by exists e.
Qed.
End spec.

(** ** Example accounts, used to evaluate the theorems *)

Section examples.
#[local] Existing Instance caseless_unicode.

(** Alice's account, new, and after a payment of 5.00 USD. *)
Definition alice0 : LedgerAccountAggregate :=
  LedgerAccountAggregate.mk (mkRoot "alice" ledgerAggregateType 0 0 []) "" ∅ ∅.
Definition aliceDeposit : LedgerCommand :=
  CmdBookPayment "tx1" "pay1" "ledger:clearing:provider:stripe" "usd" 500 1.
Definition alice1 : LedgerAccountAggregate := (runCommand aliceDeposit alice0).2.

Lemma alice0_reachable : ledger_reachable alice0.
Proof. apply (reach_new "alice"). by vm_compute. Qed.

Lemma alice1_reachable : ledger_reachable alice1.
Proof. apply reach_command; [apply alice0_reachable|by vm_compute..]. Qed.
End examples.

(** ** Theorems *)

Section theorems.
Context `{UC : UnicodeCase}.
Implicit Types (a : LedgerAccountAggregate) (p : LedgerAccountPosting).

(** C27: in every account the program can hold, each balance is the sum of
    the amounts of the postings of that currency, computed in int64 (and
    therefore exactly that sum whenever it is representable); every posting
    is filed under its own transaction id, names a counterparty other than
    the account, and has a non-zero amount. *)
Theorem ledger_account_invariant a :
  ledger_reachable a ->
  (forall cur, BalanceOf a cur = wrap64 (postedTotal cur (PostedTransactions a))) /\
  (forall cur, in64 (postedTotal cur (PostedTransactions a)) ->
     BalanceOf a cur = postedTotal cur (PostedTransactions a)) /\
  (forall tid p, PostedTransactions a !! tid = Some p ->
     tid = Posting.TransactionID p /\ Posting.AmountDelta p <> 0 /\
     Posting.CounterpartyAccountID p <> accountIDOf a).
Proof.
  intros Hw%ledger_reachable_wf. split; [apply (lw_balance _ Hw)|].
  split; [intros cur Hin; by rewrite (lw_balance _ Hw), wrap64_id|].
  intros tid p [-> Hok]%(lw_posted _ Hw). split; [done|].
  split; [apply (po_amount _ _ Hok)|]. by destruct (po_counterparty _ _ Hok) as (_ & _ & ?).
Qed.


(** A command that does not answer "applied" (a duplicate, an error, a
    panic) leaves the account untouched: no balance, no posting and no
    pending event changes. *)
Theorem ledger_command_no_effect c a r a' :
  ledger_reachable a -> command_in64 c -> runCommand c a = (r, a') ->
  r <> Ok true -> a' = a.
Proof.
  intros Hw%ledger_reachable_wf Hin Hrun Hr.
  pose proof (runCommand_outcome _ _ _ _ Hw Hin Hrun) as H.
  destruct r as [[]|e|w]; [done|by destruct H as [-> _]|done..].
Qed.

(** Commands are idempotent. Once a command has been applied, applying
    it again answers "not applied" and changes nothing. *)
Theorem ledger_command_idempotent c a a' :
  ledger_reachable a -> command_in64 c -> version_room 1 (Root a) ->
  runCommand c a = (Ok true, a') -> runCommand c a' = (Ok false, a').
Proof.
  intros Hw%ledger_reachable_wf Hin Hroom Hrun.
  pose proof (runCommand_wf c a Hw Hin Hroom) as Hw'. rewrite Hrun in Hw'. cbn in Hw'.
  destruct (runCommand_cases c (accountIDOf a) Hin) as [H|[H|(m & ev & p & Hp & H)]].
  - destruct (H a eq_refl) as [e He]. by rewrite He in Hrun.
  - destruct (H a eq_refl) as [w He]. by rewrite He in Hrun.
  - pose proof Hrun as Hrun'. rewrite (H a eq_refl), postEvent_spec in Hrun by done.
    destruct (PostedTransactions a !! _) as [q|] eqn:Hq.
    { by destruct (SameLedgerAccountPosting q p). }
    destruct (ensurePostingAllowed a p) as [[]|e|w]; simplify_eq.
    rewrite (H (recorded ev p a)), postEvent_spec by done.
    change (PostedTransactions (recorded ev p a)) with (PostedTransactions (post p a)).
    cbn. rewrite lookup_insert_eq. by rewrite SameLedgerAccountPosting_refl.
Qed.

(** [TransferToAccount] moves money if and only if the balance covers
    it. With enough funds the balance drops by exactly the amount, no other
    currency changes and the posting is filed; otherwise it fails with
    insufficient funds and the account is unchanged. *)
Theorem TransferToAccount_funds a tid to_ cur amt at_ :
  ledger_reachable a -> 0 < amt <= int64_max -> 0 <= BalanceOf a (UpperTrim cur) ->
  TrimSpace tid <> "" -> TrimSpace to_ <> "" -> TrimSpace to_ <> accountIDOf a ->
  UpperTrim cur <> "" -> IsZero at_ = false ->
  PostedTransactions a !! TrimSpace tid = None ->
  (amt <= BalanceOf a (UpperTrim cur) <->
     exists a', TransferToAccount tid to_ cur amt at_ a = (Ok true, a')) /\
  (forall a', TransferToAccount tid to_ cur amt at_ a = (Ok true, a') ->
     BalanceOf a' (UpperTrim cur) = BalanceOf a (UpperTrim cur) - amt /\
     (forall cur', cur' <> UpperTrim cur -> BalanceOf a' cur' = BalanceOf a cur') /\
     PostedTransactions a' !! TrimSpace tid =
       Some (Posting.mk (TrimSpace tid) LedgerReferenceInternalTransfer (TrimSpace tid)
               (TrimSpace to_) (UpperTrim cur) (- amt) at_)) /\
  (BalanceOf a (UpperTrim cur) < amt -> exists e,
     TransferToAccount tid to_ cur amt at_ a = (Err e, a) /\
     errors_Is e "ErrLedgerAccountInsufficientFunds" = true).
Proof.
  intros Hw%ledger_reachable_wf Ha Hb Ht Hto Hne Hcur Hat Hn.
  destruct (TransferToAccount_cases a tid to_ cur amt at_) as (p & ev & Hp & Hok & Hko); auto.
  split; [|split; [|done]].
  - split; [intros Hle; eexists; by apply Hok|]. intros [a' Ha'].
    destruct (Z.le_gt_cases amt (BalanceOf a (UpperTrim cur))) as [|Hlt]; [done|].
    destruct (Hko Hlt) as (e & He & _). by rewrite He in Ha'.
  - intros a' Ha'. destruct (Z.le_gt_cases amt (BalanceOf a (UpperTrim cur))) as [Hle|Hlt].
    + rewrite (Hok Hle) in Ha'. simplify_eq. rewrite !BalanceOf_recorded.
      split; [|split].
      * rewrite BalanceOf_post, decide_True by done. rewrite add64_small; [cbn; lia|].
        pose proof (BalanceOf_in64 a (UpperTrim cur) Hw). cbn.
        unfold in64, int64_min, int64_max in *. lia.
      * intros cur' Hc'. by rewrite BalanceOf_recorded, BalanceOf_post, decide_False.
      * cbn. by rewrite lookup_insert_eq.
    + destruct (Hko Hlt) as (e & He & _). by rewrite He in Ha'.
Qed.

(** A command that takes a balance below zero either posts a payment
    event of the kinds exempt from the check (payments, refunds and
    chargebacks, holds of the clearing accounts), or credits the account
    beyond the range of int64. Transfers, reserved withdrawals and releases
    never overdraw an account. *)
Theorem ledger_overdraft_guard c a a' cur :
  ledger_reachable a -> command_in64 c -> runCommand c a = (Ok true, a') ->
  0 <= BalanceOf a cur -> BalanceOf a' cur < 0 ->
  exists tid p, PostedTransactions a !! tid = None /\ PostedTransactions a' !! tid = Some p /\
    (requiresNonNegativeBalance (Posting.ReferenceType p) = false \/
     int64_max < BalanceOf a cur + Posting.AmountDelta p).
Proof.
  intros Hw%ledger_reachable_wf Hin Hrun H0 Hneg.
  pose proof (runCommand_outcome _ _ _ _ Hw Hin Hrun) as (ev & p & Hp & Hn & He & ->).
  pose proof (preview_posting_ok _ _ _ Hw Hp) as Hok.
  exists (Posting.TransactionID p), p. split; [done|].
  split; [cbn; by rewrite lookup_insert_eq|].
  rewrite BalanceOf_recorded, BalanceOf_post in Hneg.
  destruct (decide (cur = Posting.Currency p)) as [->|]; [|lia].
  destruct (requiresNonNegativeBalance (Posting.ReferenceType p)) eqn:Hreq; [right|by left].
  destruct (ensurePostingAllowed_spec a p Hw Hok) as [[_ Hno]|[(e & He' & _) _]];
    [|by rewrite He' in He].
  destruct (Z.le_gt_cases (BalanceOf a (Posting.Currency p) + Posting.AmountDelta p) int64_max)
    as [Hle|]; [exfalso|done].
  destruct (Z.le_gt_cases 0 (Posting.AmountDelta p)).
  - rewrite add64_small in Hneg; [lia|]. unfold in64, int64_min in *. lia.
  - apply Hno. split; [lia|]. split; [done|]. lia.
Qed.

(** Event sourcing. Whatever commands an account has run since it was
    saved, replaying the events they recorded onto the saved account
    succeeds and rebuilds the very same account: balances, postings, id and
    version. *)
Theorem ledger_replay cs a :
  ledger_reachable a -> events (Root a) = [] -> Forall command_in64 cs ->
  version_room (length cs) (Root a) ->
  LoadFromHistory (events (Root (runCommands cs a))) a =
    (Ok tt, updRoot MarkPersisted (runCommands cs a)).
Proof.
  intros Hw%ledger_reachable_wf Hev Hin Hroom.
  destruct (runCommands_ApplyChange cs a Hw Hin Hroom) as (evs & Hrun & _).
  destruct (range_ApplyChange_replay _ _ _ Hrun) as (es & Hes & _ & Hload).
  rewrite Hes, Hev. cbn [app].
  assert (updRoot MarkPersisted a = a) as Hmp.
  { unfold updRoot, MarkPersisted. rewrite Hev. cbn. by destruct a. }
  by rewrite Hmp in Hload.
Qed.

(** Round trip between payment postings and events. The event built
    from a normal posting whose sign fits its reference type is accepted,
    and reads back as the same posting. *)
Theorem ledger_posting_event_roundtrip acc p k :
  posting_ok (TrimSpace acc) p -> Posting.ReferenceType p = kindName k ->
  in64 (Posting.AmountDelta p) -> 0 <= kindDirection k * Posting.AmountDelta p ->
  exists evt, NewLedgerAccountEventFromPosting acc p = Ok (Some evt) /\
    AggregateID evt = acc /\ EventName evt = kindName k /\
    previewLedgerPostingFromEvent (AggregateID evt) (EventData evt) = Ok (p, true).
Proof.
  intros Hok Hk Hin Hs. pose proof (succeeded_type_preview k acc p Hok Hin Hk Hs) as Hp.
  destruct (preview_Ok _ _ _ Hp) as (_ & Hnil & _).
  unfold NewLedgerAccountEventFromPosting, NewLedgerAccountEvent. rewrite Hnil.
  eexists. split; [done|]. split; [done|]. split; [|done]. cbn.
  unfold newLedgerPaymentEvent. by rewrite Hk, kindOfName_kindName.
Qed.
End theorems.

(** ** The theorems at concrete inputs *)

Section witnesses.
#[local] Existing Instance caseless_unicode.

Definition bobTransfer : LedgerCommand := CmdTransferToAccount "tx2" "bob" "usd" 200 5.

Lemma ledger_account_invariant_witness :
  BalanceOf alice1 "USD" = 500 /\
  BalanceOf alice1 "USD" = wrap64 (postedTotal "USD" (PostedTransactions alice1)).
Proof.
  split; [eval_closed|].
  exact (proj1 (ledger_account_invariant alice1 alice1_reachable) "USD").
Defined.


Lemma ledger_command_no_effect_witness :
  (runCommand aliceDeposit alice1).1 = Ok false /\
  (runCommand aliceDeposit alice1).2 = alice1.
Proof.
  assert ((runCommand aliceDeposit alice1).1 = Ok false) as H by eval_closed.
  split; [done|].
  apply (ledger_command_no_effect aliceDeposit alice1 (runCommand aliceDeposit alice1).1 _
           alice1_reachable).
  - eval_closed.
  - apply surjective_pairing.
  - by rewrite H.
Defined.

Lemma ledger_command_idempotent_witness :
  runCommand bobTransfer alice1 = (Ok true, (runCommand bobTransfer alice1).2) /\
  runCommand bobTransfer (runCommand bobTransfer alice1).2 =
    (Ok false, (runCommand bobTransfer alice1).2).
Proof.
  assert (runCommand bobTransfer alice1 = (Ok true, (runCommand bobTransfer alice1).2)) as H.
  { assert ((runCommand bobTransfer alice1).1 = Ok true) as H by eval_closed.
    rewrite <- H. apply surjective_pairing. }
  split; [done|].
  apply (ledger_command_idempotent bobTransfer alice1 _ alice1_reachable I); [|done].
  eval_closed.
Defined.

Lemma TransferToAccount_funds_witness :
  200 <= BalanceOf alice1 (UpperTrim "usd") /\
  exists a', TransferToAccount "tx2" "bob" "usd" 200 5 alice1 = (Ok true, a').
Proof.
  assert (200 <= BalanceOf alice1 (UpperTrim "usd")) as H by eval_closed.
  split; [done|].
  refine (proj1 (proj1 (TransferToAccount_funds alice1 "tx2" "bob" "usd" 200 5
    alice1_reachable _ _ _ _ _ _ _ _)) H); eval_closed.
Defined.

Lemma ledger_overdraft_guard_witness :
  let c := CmdBookPayment "tx9" "pay9" "bob" "usd" (-700) 5 in
  BalanceOf (runCommand c alice1).2 "USD" = -200 /\
  exists tid p, PostedTransactions alice1 !! tid = None /\
    PostedTransactions (runCommand c alice1).2 !! tid = Some p /\
    (requiresNonNegativeBalance (Posting.ReferenceType p) = false \/
     int64_max < BalanceOf alice1 "USD" + Posting.AmountDelta p).
Proof.
  intros c. split; [eval_closed|].
  apply (ledger_overdraft_guard c alice1 _ "USD" alice1_reachable).
  - eval_closed.
  - assert ((runCommand c alice1).1 = Ok true) as H by eval_closed.
    rewrite <- H. apply surjective_pairing.
  - eval_closed.
  - eval_closed.
Defined.

Lemma ledger_replay_witness :
  LoadFromHistory (events (Root (runCommands [aliceDeposit; bobTransfer] alice0))) alice0 =
    (Ok tt, updRoot MarkPersisted (runCommands [aliceDeposit; bobTransfer] alice0)).
Proof.
  apply (ledger_replay [aliceDeposit; bobTransfer] alice0 alice0_reachable).
  - done.
  - repeat constructor; eval_closed.
  - eval_closed.
Defined.

Definition depositPosting : LedgerAccountPosting :=
  Posting.mk "tx1" (kindName DepositFromIntent) "pay1" "bob" "USD" 500 1.

Lemma ledger_posting_event_roundtrip_witness :
  exists evt, NewLedgerAccountEventFromPosting "alice" depositPosting = Ok (Some evt) /\
    AggregateID evt = "alice" /\ EventName evt = kindName DepositFromIntent /\
    previewLedgerPostingFromEvent (AggregateID evt) (EventData evt) =
      Ok (depositPosting, true).
Proof.
  apply (ledger_posting_event_roundtrip "alice" depositPosting DepositFromIntent);
    [split; eval_closed|eval_closed..].
Defined.
End witnesses.
