(* ===== verification/LedgerRepo.v ===== *)
(** * The ledger repository interface (ledger/domain/repos, repos_impl.go)

    The ledger service reads and writes accounts through
    [LedgerAccountAggregateRepository] inside [WithTransaction]. The class
    [LedgerRepo] is that interface over an abstract database; the class
    [LedgerRepoLaws] is its contract, stated on the accounts that are stored.
    [MemoryRepo] is a small instance, on which the theorems about the service
    are evaluated. *)

From stdpp Require Import prelude strings gmap.
From S2P Require Import Prelude GoStrings Event LedgerEntity LedgerAccount LedgerAccountInv.

Definition ErrAlreadyApplied := Sentinel "ErrAlreadyApplied".

(** ** Operations *)

Class LedgerRepo (DB : Type) := {
  (** [Load]: the account, or nil when there is none. *)
  Load : string -> method DB (option LedgerAccountAggregate);
  (** [Save]: gives the aggregate as the call leaves it, pending events
      cleared. *)
  Save : LedgerAccountAggregate -> method DB LedgerAccountAggregate;
  (** The errors of [Begin] and [Commit] of the database, if any. *)
  beginError : DB -> option error;
  commitError : DB -> option error
}.

Section transaction.
Context {DB : Type} `{Repo : LedgerRepo DB}.

(** [repoImpl.WithTransaction]: the changes of [fn] are kept when it returns
    no error and the commit succeeds; an error or a panic rolls them back. *)
Definition WithTransaction {A} (fn : method DB A) : method DB A := fun db =>
  match beginError db with
  | Some e => (Err e, db)
  | None =>
      match fn db with
      | (Ok a, db') =>
          match commitError db' with
          | Some e => (Err e, db)
          | None => (Ok a, db')
          end
      | (Err e, _) => (Err e, db)
      | (Panic w, _) => (Panic w, db)
      end
  end.

(** Nothing but a normal return leaves a trace. *)
Lemma WithTransaction_Ok {A} (fn : method DB A) db a db' :
  WithTransaction fn db = (Ok a, db') -> fn db = (Ok a, db').
Proof.
  unfold WithTransaction. destruct (beginError db); [done|].
  destruct (fn db) as [[x|e|w] db1]; [|done..].
  destruct (commitError db1); intros H; by simplify_eq.
Qed.

Lemma WithTransaction_atomic {A} (fn : method DB A) : atomic (WithTransaction fn).
Proof.
  intros db. unfold WithTransaction. destruct (beginError db); [done|].
  destruct (fn db) as [[x|e|w] db1]; [|done..]. by destruct (commitError db1).
Qed.
End transaction.

#[export] Hint Resolve WithTransaction_atomic : go.

(** ** Contract *)

Section derived.
Context `{UC : UnicodeCase}.

(** [a] is the account [id] of the accounts [acc], or a new account when
    there is none, to which events have been applied. *)
Definition derived (acc : string -> option LedgerAccountAggregate)
    (a : LedgerAccountAggregate) : Prop :=
  exists base evs,
    match acc (accountIDOf a) with
    | Some b => base = b
    | None => NewLedgerAccountAggregate (accountIDOf a) = Ok base
    end /\ range evs ApplyChange base = (Ok tt, a).

(** A stored account: well formed, under its id, with nothing pending. *)
Definition stored_ok (id : string) (a : LedgerAccountAggregate) : Prop :=
  ledger_wf a /\ accountIDOf a = id /\ events (Root a) = [].
End derived.

Class LedgerRepoLaws (DB : Type) `{UC : UnicodeCase} `{Repo : LedgerRepo DB} := {
  (** The accounts of a database, and the states a database can be in. *)
  stored : DB -> string -> option LedgerAccountAggregate;
  repo_ok : DB -> Prop;
  stored_stored_ok db id a : repo_ok db -> stored db id = Some a -> stored_ok id a;
  Load_Ok db id o db' : repo_ok db -> Load id db = (Ok o, db') ->
    db' = db /\ o = stored db (TrimSpace id) /\ TrimSpace id <> "";
  Save_Ok db a a' db' : repo_ok db -> ledger_wf a -> derived (stored db) a ->
    Save a db = (Ok a', db') -> repo_ok db' /\
    (events (Root a) = [] -> a' = a /\ forall id, stored db' id = stored db id) /\
    (events (Root a) <> [] -> a' = updRoot MarkPersisted a /\
       stored db' (accountIDOf a) = Some a' /\
       forall id, id <> accountIDOf a -> stored db' id = stored db id);
  (** Answering that the postings were there already changes no account. *)
  Save_AlreadyApplied db a e db' : repo_ok db -> ledger_wf a -> derived (stored db) a ->
    Save a db = (Err e, db') -> errors_Is e "ErrAlreadyApplied" = true ->
    repo_ok db' /\ forall id, stored db' id = stored db id
}.

(** A repository whose calls do not fail. *)
Class LedgerRepoReliable (DB : Type) `{Laws : LedgerRepoLaws DB} := {
  Load_total db id : repo_ok db -> TrimSpace id <> "" -> exists o, Load id db = (Ok o, db);
  Save_total db a : repo_ok db -> ledger_wf a -> derived (stored db) a ->
    exists a' db', Save a db = (Ok a', db');
  begin_total db : beginError db = None;
  commit_total db : commitError db = None
}.

(** ** Views of a database *)

Section view.
Context {DB : Type} `{Laws : LedgerRepoLaws DB}.

(** The postings of an account, and its balance. *)
Definition postingsOf (db : DB) (id : string) : gmap string LedgerAccountPosting :=
  match stored db id with Some a => PostedTransactions a | None => ∅ end.

Definition storedBalance (db : DB) (id cur : string) : Z :=
  match stored db id with Some a => BalanceOf a cur | None => 0 end.

Lemma storedBalance_postings db id cur :
  repo_ok db -> storedBalance db id cur = wrap64 (postedTotal cur (postingsOf db id)).
Proof.
  intros Hok. unfold storedBalance, postingsOf.
  destruct (stored db id) as [a|] eqn:Ha.
  - destruct (stored_stored_ok _ _ _ Hok Ha) as (Hw & _). apply (lw_balance _ Hw).
  - by rewrite postedTotal_empty.
Qed.

(** Every account, a new one too, has room for [n] more events. *)
Definition repo_room (n : nat) (db : DB) : Prop :=
  Z.of_nat n <= int64_max /\
  forall id a, stored db id = Some a -> version_room n (Root a).
End view.

(** ** An instance: accounts in memory *)

Notation MemoryDB := (gmap string LedgerAccountAggregate).

Section memory.
Context `{UC : UnicodeCase}.

#[export] Instance MemoryRepo : LedgerRepo MemoryDB := {|
  Load id db :=
    let id := TrimSpace id in
    if decide (id = "") then (Err (Errorf "account id is required" []), db)
    else (Ok (db !! id), db);
  Save a db :=
    if decide (events (Root a) = []) then (Ok a, db)
    else let a' := updRoot MarkPersisted a in (Ok a', <[accountIDOf a := a']> db);
  beginError _ := None;
  commitError _ := None
|}.

Lemma accountIDOf_MarkPersisted a : accountIDOf (updRoot MarkPersisted a) = accountIDOf a.
Proof.
  unfold accountIDOf, updRoot, MarkPersisted. rewrite Root_setRoot. by destruct (last _).
Qed.

Lemma MarkPersisted_stored_ok a :
  ledger_wf a -> stored_ok (accountIDOf a) (updRoot MarkPersisted a).
Proof.
  intros Hw. split; [by apply MarkPersisted_ledger_wf|].
  split; [apply accountIDOf_MarkPersisted|].
  by destruct (MarkPersisted_wf _ (lw_root _ Hw)) as (_ & He & _).
Qed.

#[export, program] Instance MemoryRepoLaws : LedgerRepoLaws MemoryDB := {|
  stored db id := db !! id;
  repo_ok db := map_Forall stored_ok db
|}.
Next Obligation. intros db id a Hok Ha. by apply Hok. Qed.
Next Obligation.
  intros db id o db' _ H. cbn in H. case_decide; [done|]. by simplify_eq.
Qed.
Next Obligation.
  intros db a a' db' Hok Hw _ H. cbn in *. case_decide as He; simplify_eq.
  - done.
  - split; [|split; [done|]].
    + apply map_Forall_insert_2; [by apply MarkPersisted_stored_ok|done].
    + intros _. split; [done|]. split; [apply lookup_insert_eq|].
      intros id Hid. by apply lookup_insert_ne.
Qed.
Next Obligation.
  intros db a e db' _ _ _ H. cbn in H. by case_decide.
Qed.

#[export, program] Instance MemoryRepoReliable : LedgerRepoReliable MemoryDB.
Next Obligation.
  intros db id _ Hid. cbn. rewrite decide_False by done. by eexists.
Qed.
Next Obligation. intros db a _ _ _. cbn. case_decide; eauto. Qed.
Next Obligation. done. Qed.
Next Obligation. done. Qed.

Lemma MemoryDB_empty_ok : repo_ok (∅ : MemoryDB).
Proof. apply map_Forall_empty. Qed.
End memory.
