(* ===== verification/LedgerStore.v ===== *)
(** * The ledger event store (ledger/infra/persistent/repository)

    The accounts of the ledger are kept as events: a row per aggregate with
    its version, the events, a row per posted transaction, snapshots, and an
    outbox. [LedgerSQL] is what the store uses of the database; the statements
    it runs, their order and their errors are those of
    [ledger_aggregate_event_store.go], [ledger_aggregate_store.go] and
    [ledger_account_aggregate_repo_impl.go]. Generated row ids and row
    timestamps that nothing reads are left out. *)

From stdpp Require Import prelude strings gmap pretty.
From S2P Require Import Prelude GoStrings Database Event LedgerEntity LedgerAccount LedgerRepo.

Definition ErrNotFound := Sentinel "ErrNotFound".
Definition ErrDuplicate := Sentinel "ErrDuplicate".

(** ** Rows *)

Module LedgerEventModel.
Record t := mk {
  AggregateID : string;
  AggregateType : string;
  Version : Z;
  EventName : string;
  EventData : string;
  CreatedAt : Z
}.
End LedgerEventModel.
Notation LedgerEventModel := LedgerEventModel.t.

Module LedgerPostedTransactionModel.
Record t := mk {
  AggregateID : string;
  AggregateType : string;
  TransactionID : string;
  EventName : string;
  EventData : string
}.
End LedgerPostedTransactionModel.
Notation LedgerPostedTransactionModel := LedgerPostedTransactionModel.t.

Module LedgerSnapshotModel.
Record t := mk {
  ID : string;
  AggregateID : string;
  AggregateType : string;
  Version : Z;
  SnapshotData : string
}.
End LedgerSnapshotModel.
Notation LedgerSnapshotModel := LedgerSnapshotModel.t.

(** An aggregate: its id and its type. *)
Notation aggregateKey := (string * string)%type.

(** The statements of the store. *)
Class LedgerSQL (DB : Type) := {
  (** [err.Error()]. *)
  errorText : error -> string;
  (** INSERT INTO ledger_aggregates at version 0, ON CONFLICT DO NOTHING. *)
  insertAggregate : aggregateKey -> method DB unit;
  (** UPDATE ledger_aggregates SET version WHERE version: rows affected. *)
  updateVersion : aggregateKey -> Z -> Z -> method DB Z;
  (** SELECT FROM ledger_posted_transactions WHERE transaction_id LIMIT 1. *)
  selectPosted : aggregateKey -> string -> method DB (list LedgerPostedTransactionModel);
  insertPosted : LedgerPostedTransactionModel -> method DB unit;
  (** SELECT FROM ledger_events [WHERE version > v] ORDER BY version. *)
  selectEvents : aggregateKey -> option Z -> method DB (list LedgerEventModel);
  insertEvent : LedgerEventModel -> method DB unit;
  (** SELECT FROM ledger_snapshots ORDER BY version DESC LIMIT 1. *)
  selectSnapshot : aggregateKey -> method DB (list LedgerSnapshotModel);
  insertSnapshot : LedgerSnapshotModel -> method DB unit;
  insertOutbox : LedgerEventModel -> method DB unit;
  (** The errors of [Begin] and [Commit]. *)
  sqlBeginError : DB -> option error;
  sqlCommitError : DB -> option error
}.

(** The exported fields of an account, which a snapshot holds. *)
Notation snapshotState := (string * gmap string Z * gmap string LedgerAccountPosting)%type.

Definition snapshotOf (a : LedgerAccountAggregate) : snapshotState :=
  (LedgerAccountAggregate.AccountID a, Balances a, PostedTransactions a).

(** Decoding a snapshot into an aggregate adds to the maps it has. *)
Definition withSnapshot (s : snapshotState) (a : LedgerAccountAggregate) : LedgerAccountAggregate :=
  LedgerAccountAggregate.mk (LedgerAccountAggregate.root a) s.1.1 (s.1.2 ∪ Balances a) (s.2 ∪ PostedTransactions a).

(** The events that [RegisterEvents] lists. *)
Definition ledgerEventNames : list string :=
  (kindName <$> allKinds) ++
  ["EventLedgerAccountTransferredToAccount"; "EventLedgerAccountReceivedTransfer"].

Definition IsLedgerTransactionProjectionEvent (name : string) : bool :=
  bool_decide (name ∈ ledgerEventNames).

(** [ledgerProjectionOutboxEvent]. *)
Definition ledgerProjectionOutboxEvent (evt : Event LedgerEventData) :
    option (Event LedgerEventData) :=
  if IsLedgerTransactionProjectionEvent (EventName evt) then Some evt else None.

Section store.
Context `{UC : UnicodeCase} {DB : Type} `{SQL : LedgerSQL DB}.
Context `{EJ : JSON LedgerEventData} `{SJ : JSON snapshotState}.
(** [time.Now()], for the rows that are stamped, and the event registry. *)
Context (now : Time) (reg : eventRegister).

(** *** Errors *)

Definition mapError (err : error) : error :=
  if errors_Is err "gorm.ErrRecordNotFound" then ErrNotFound
  else if IsUniqueConstraintError (errorText err) then ErrDuplicate
  else err.

(** *** Events *)

Definition CreateIfNotExist (k : aggregateKey) : method DB unit :=
  wrap_err mapError (insertAggregate k).

Definition CheckAndUpdateVersion (k : aggregateKey) (baseVersion newVersion : Z) :
    method DB bool :=
  rows ← wrap_err mapError (updateVersion k baseVersion newVersion);
  mret (bool_decide (rows = 1)).

Definition rowCreatedAt (evt : Event LedgerEventData) : Z :=
  if decide (0 < CreatedAt evt) then CreatedAt evt else Unix now.

(** The row of an event. *)
Definition eventRow (evt : Event LedgerEventData) (data : string) : LedgerEventModel :=
  LedgerEventModel.mk (AggregateID evt) (AggregateType evt) (Version evt) (EventName evt) data
    (rowCreatedAt evt).

Definition Append (evt : Event LedgerEventData) : method DB unit :=
  data ← lift (map_err (fun e => Errorf "marshal ledger event data failed: %w" [e])
                 (Marshal (EventData evt)));
  wrap_err mapError (insertEvent (eventRow evt data)).

(** [Append] of the outbox store. *)
Definition AppendOutbox (evt : Event LedgerEventData) : method DB unit :=
  data ← lift (map_err (fun e => Errorf "marshal ledger outbox event failed: %w" [e])
                 (Marshal (EventData evt)));
  wrap_err mapError (insertOutbox (eventRow evt data)).

Definition toDomainEvent (row : LedgerEventModel) : result (Event LedgerEventData) :=
  match TypeOf reg (LedgerEventModel.AggregateType row) (LedgerEventModel.EventName row) with
  | None => Err (Errorf "unsupported ledger event: aggregate_type=%s event_name=%s" [])
  | Some prototype =>
      payload ← Unmarshal prototype (LedgerEventModel.EventData row);
      Ok (mkEvent 0 (LedgerEventModel.AggregateID row) (LedgerEventModel.AggregateType row)
            (LedgerEventModel.Version row) (LedgerEventModel.EventName row) payload
            (LedgerEventModel.CreatedAt row))
  end.

Fixpoint toDomainEvents (rows : list LedgerEventModel) : result (list (Event LedgerEventData)) :=
  match rows with
  | [] => Ok []
  | row :: rest => evt ← toDomainEvent row; evts ← toDomainEvents rest; Ok (evt :: evts)
  end.

(** [Get] of the event store: gives the aggregate as the call leaves it. *)
Definition GetEvents (k : aggregateKey) (afterVersion : Z) (agg : LedgerAccountAggregate) :
    method DB LedgerAccountAggregate :=
  rows ← wrap_err mapError
           (selectEvents k (if decide (0 < afterVersion) then Some afterVersion else None));
  if decide (length rows = 0%nat) then
    if decide (afterVersion = 0) then raise ErrNotFound else mret agg
  else
    evts ← lift (toDomainEvents rows);
    match LoadFromHistory evts agg with
    | (Ok _, agg) => mret agg
    | (Err e, _) => raise e
    | (Panic w, _) => lift (Panic w)
    end.

(** *** Posted transactions *)

Definition postingFromRawEvent (row : LedgerPostedTransactionModel) :
    result LedgerAccountPosting :=
  match TypeOf reg (LedgerPostedTransactionModel.AggregateType row)
               (LedgerPostedTransactionModel.EventName row) with
  | None => Err (Errorf "unsupported ledger posted transaction event: aggregate_type=%s event_name=%s" [])
  | Some prototype =>
      payload ← map_err (fun e =>
                  Errorf "unmarshal ledger posted transaction event data failed: %w" [e])
                  (Unmarshal prototype (LedgerPostedTransactionModel.EventData row));
      '(posting, ok) ← previewLedgerPostingFromEvent
                         (LedgerPostedTransactionModel.AggregateID row) payload;
      if ok : bool then Ok posting
      else Err (Errorf "ledger posted transaction event cannot be converted aggregate_id=%s event_name=%s" [])
  end.

Definition findPostedTransaction (k : aggregateKey) (transactionID : string) :
    method DB (option LedgerAccountPosting) :=
  rows ← wrap_err mapError (selectPosted k transactionID);
  match rows with
  | [] => mret None
  | row :: _ => posting ← lift (postingFromRawEvent row); mret (Some posting)
  end.

(** What to answer when the posting of [evt] is there already. *)
Definition alreadyPosted (evt : Event LedgerEventData) (posting : LedgerAccountPosting) :
    method DB unit :=
  existing ← findPostedTransaction (AggregateID evt, AggregateType evt)
               (Posting.TransactionID posting);
  if match existing with Some q => SameLedgerAccountPosting q posting | None => false end
  then raise ErrAlreadyApplied
  else raise (Errorf "existing ledger posting mismatch aggregate_id=%s aggregate_type=%s transaction_id=%s" []).

Definition insertPosting (evt : Event LedgerEventData) (posting : LedgerAccountPosting)
    (data : string) : method DB unit := fun db =>
  match wrap_err mapError (insertPosted (LedgerPostedTransactionModel.mk (AggregateID evt)
          (AggregateType evt) (Posting.TransactionID posting) (EventName evt) data)) db with
  | (Err e, db) =>
      if negb (errors_Is e "ErrDuplicate") then (Err e, db) else alreadyPosted evt posting db
  | r => r
  end.

Definition ReservePostedTransaction (evt : Event LedgerEventData) : method DB unit :=
  '(posting, ok) ← lift (previewLedgerPostingFromEvent (AggregateID evt) (EventData evt));
  if negb ok then mret tt else
  data ← lift (map_err (fun e => Errorf "marshal ledger posted transaction event data failed: %w" [e])
                 (Marshal (EventData evt)));
  insertPosting evt posting data.

(** *** Snapshots *)

Definition CreateSnapshot (agg : LedgerAccountAggregate) : method DB unit :=
  data ← lift (map_err (fun e => Errorf "marshal ledger snapshot failed: %w" [e])
                 (Marshal (snapshotOf agg)));
  let root := Root agg in
  wrap_err mapError (insertSnapshot (LedgerSnapshotModel.mk
    (aggregateType root +:+ ":" +:+ aggregateID root +:+ ":" +:+ pretty (CurrentVersion root))
    (aggregateID root) (aggregateType root) (CurrentVersion root) data)).

(** Whether there is a snapshot, and the aggregate with it. *)
Definition ReadSnapshot (k : aggregateKey) (agg : LedgerAccountAggregate) :
    method DB (bool * LedgerAccountAggregate) :=
  rows ← wrap_err mapError (selectSnapshot k);
  match rows with
  | [] => mret (false, agg)
  | snapshot :: _ =>
      state ← lift (Unmarshal ledgerAggregateType (LedgerSnapshotModel.SnapshotData snapshot));
      let v := LedgerSnapshotModel.Version snapshot in
      mret (true, updRoot (SetInternal k.1 v v) (withSnapshot state agg))
  end.

(** *** The aggregate store *)

Definition StoreGet (aggregateID : string) (agg : LedgerAccountAggregate) :
    method DB LedgerAccountAggregate :=
  let agg := updRoot (SetAggregateType ledgerAggregateType) agg in
  let k := (aggregateID, ledgerAggregateType) in
  '(hasSnapshot, agg) ← ReadSnapshot k agg;
  if negb hasSnapshot then GetEvents k 0 agg
  else GetEvents k (baseVersion (Root agg)) agg.

(** The error of reserving the posting of the event number [idx] of [n]. *)
Definition reserveError (n idx : nat) (err : error) : error :=
  if errors_Is err "ErrAlreadyApplied" then
    if decide (n = 1%nat /\ idx = 0%nat) then err
    else Errorf "ledger idempotency collision on event #%d: %w" [err]
  else Errorf "reserve ledger posting #%d failed: %w" [err].

(** What saving an event appends. *)
Definition appendSaved (agg : LedgerAccountAggregate) (evt : Event LedgerEventData) :
    method DB unit :=
  _ ← wrap_err (fun e => Errorf "append ledger event #%d failed: %w" [e]) (Append evt);
  _ ← match ledgerProjectionOutboxEvent evt with
      | Some projectionEvent =>
          wrap_err (fun e => Errorf "append ledger projection outbox event #%d failed: %w" [e])
            (AppendOutbox projectionEvent)
      | None => mret tt
      end;
  if decide (Z.rem (Version evt) 100 = 0) then
    wrap_err (fun e => Errorf "create ledger snapshot failed: %w" [e]) (CreateSnapshot agg)
  else mret tt.

Definition StoreSave (agg : LedgerAccountAggregate) : method DB LedgerAccountAggregate :=
  let agg := updRoot (SetAggregateType ledgerAggregateType) agg in
  let evts := CloneEvents (Root agg) in
  if decide (length evts = 0%nat) then mret agg else
  let k := (aggregateID (Root agg), ledgerAggregateType) in
  _ ← CreateIfNotExist k;
  _ ← range (zip (seq 0 (length evts)) evts) (fun '(idx, evt) =>
        wrap_err (reserveError (length evts) idx) (ReservePostedTransaction evt));
  ok ← CheckAndUpdateVersion k (baseVersion (Root agg)) (CurrentVersion (Root agg));
  if negb ok then
    raise (Errorf "optimistic concurrency control failed id=%s expectedVersion=%d newVersion=%d" [])
  else
  _ ← range evts (appendSaved agg);
  mret (updRoot MarkPersisted agg).

(** *** The repository *)

(** Nothing, when the call does not find the account. *)
Definition orNotFound (m : method DB LedgerAccountAggregate) :
    method DB (option LedgerAccountAggregate) := fun db =>
  match m db with
  | (Ok agg, db) => (Ok (Some agg), db)
  | (Err e, db) => if errors_Is e "ErrNotFound" then (Ok None, db) else (Err e, db)
  | (Panic w, db) => (Panic w, db)
  end.

Definition LoadAccount (accountID : string) : method DB (option LedgerAccountAggregate) :=
  let accountID := TrimSpace accountID in
  if decide (accountID = "") then raise (Errorf "account id is required" []) else
  agg ← lift (NewLedgerAccountAggregate accountID);
  orNotFound (StoreGet accountID agg).
End store.

(** The registry that [newLedgerAccountAggregateRepoImpl] builds. *)
Definition ledgerRegister : eventRegister :=
  (RegisterAggregate ledgerAggregateType ledgerEventNames NewSerializer).2.

(** The repository over the event store. *)
Section repository.
Context `{UC : UnicodeCase} {DB : Type} `{SQL : LedgerSQL DB}.
Context `{EJ : JSON LedgerEventData} `{SJ : JSON snapshotState}.
Context (now : Time).

Definition EventStoreRepo : LedgerRepo DB := {|
  Load := LoadAccount ledgerRegister;
  Save := StoreSave now ledgerRegister;
  beginError := sqlBeginError;
  commitError := sqlCommitError
|}.
End repository.
