(* ===== verification/LedgerStoreInv.v ===== *)
(** * The tables of the ledger event store

    What the store relies on of the database ([LedgerSQLLaws], over the
    contents [LedgerTables]), and the invariant of the tables: the events of
    an account are numbered from 1 without gaps and replay to a well-formed
    account, its row holds their number, and a snapshot is the replay of a
    prefix of them. *)

From stdpp Require Import prelude strings gmap.
From S2P Require Import Prelude GoStrings Database Event LedgerEntity LedgerAccount LedgerAccountInv.
From S2P Require Import LedgerRepo LedgerStore.

(** ** Contents *)

Record LedgerTables := mkTables {
  aggregates : gmap aggregateKey Z;
  posted : gmap (aggregateKey * string) LedgerPostedTransactionModel;
  eventTable : gmap aggregateKey (list LedgerEventModel);
  snapshotTable : gmap aggregateKey (list LedgerSnapshotModel)
}.

(** The rows of an aggregate, in the order of their versions; and its
    snapshots. *)
Definition rowsAt (t : LedgerTables) (k : aggregateKey) : list LedgerEventModel :=
  default [] (eventTable t !! k).
Definition snapsAt (t : LedgerTables) (k : aggregateKey) : list LedgerSnapshotModel :=
  default [] (snapshotTable t !! k).

Definition createRow (k : aggregateKey) (t : LedgerTables) : LedgerTables :=
  mkTables (<[k := default 0 (aggregates t !! k)]> (aggregates t)) (posted t) (eventTable t)
    (snapshotTable t).

Definition setVersion (k : aggregateKey) (v : Z) (t : LedgerTables) : LedgerTables :=
  mkTables (<[k := v]> (aggregates t)) (posted t) (eventTable t) (snapshotTable t).

Definition postedKey (row : LedgerPostedTransactionModel) : aggregateKey * string :=
  (LedgerPostedTransactionModel.AggregateID row, LedgerPostedTransactionModel.AggregateType row,
   LedgerPostedTransactionModel.TransactionID row).

Definition addPosted (row : LedgerPostedTransactionModel) (t : LedgerTables) : LedgerTables :=
  mkTables (aggregates t) (<[postedKey row := row]> (posted t)) (eventTable t) (snapshotTable t).

Definition eventKey (row : LedgerEventModel) : aggregateKey :=
  (LedgerEventModel.AggregateID row, LedgerEventModel.AggregateType row).

Fixpoint insertByVersion (row : LedgerEventModel) (rows : list LedgerEventModel) :
    list LedgerEventModel :=
  match rows with
  | [] => [row]
  | r :: rest =>
      if decide (LedgerEventModel.Version row < LedgerEventModel.Version r) then row :: r :: rest
      else r :: insertByVersion row rest
  end.

Definition addEvent (row : LedgerEventModel) (t : LedgerTables) : LedgerTables :=
  mkTables (aggregates t) (posted t)
    (<[eventKey row := insertByVersion row (rowsAt t (eventKey row))]> (eventTable t))
    (snapshotTable t).

Definition snapshotKey (s : LedgerSnapshotModel) : aggregateKey :=
  (LedgerSnapshotModel.AggregateID s, LedgerSnapshotModel.AggregateType s).

Definition addSnapshot (s : LedgerSnapshotModel) (t : LedgerTables) : LedgerTables :=
  mkTables (aggregates t) (posted t) (eventTable t)
    (<[snapshotKey s := s :: snapsAt t (snapshotKey s)]> (snapshotTable t)).

Definition after (v : option Z) (row : LedgerEventModel) : Prop :=
  match v with Some v => v < LedgerEventModel.Version row | None => True end.

#[export] Instance after_dec v row : Decision (after v row).
Proof. destruct v; cbn; apply _. Defined.

(** ** What the store relies on *)

Class LedgerSQLLaws (DB : Type) `{SQL : LedgerSQL DB} := {
  tables : DB -> LedgerTables;
  insertAggregate_law k db : effect tables (insertAggregate k) db (fun _ db' =>
    tables db' = createRow k (tables db));
  updateVersion_law k v v' db : effect tables (updateVersion k v v') db (fun n db' =>
    if decide (aggregates (tables db) !! k = Some v)
    then n = 1 /\ tables db' = setVersion k v' (tables db)
    else n = 0 /\ tables db' = tables db);
  selectPosted_law k tid db : effect tables (selectPosted k tid) db (fun rows db' =>
    db' = db /\ rows = option_list (posted (tables db) !! (k, tid)));
  insertPosted_law row db : effect tables (insertPosted row) db (fun _ db' =>
    posted (tables db) !! postedKey row = None /\ tables db' = addPosted row (tables db));
  selectEvents_law k v db : effect tables (selectEvents k v) db (fun rows db' =>
    db' = db /\ rows = filter (after v) (rowsAt (tables db) k));
  insertEvent_law row db : effect tables (insertEvent row) db (fun _ db' =>
    Forall (fun r => LedgerEventModel.Version r <> LedgerEventModel.Version row)
      (rowsAt (tables db) (eventKey row)) /\
    tables db' = addEvent row (tables db));
  selectSnapshot_law k db : effect tables (selectSnapshot k) db (fun rows db' =>
    db' = db /\
    match rows with
    | [] => snapsAt (tables db) k = []
    | s :: _ => s ∈ snapsAt (tables db) k /\
        Forall (fun s' => LedgerSnapshotModel.Version s' <= LedgerSnapshotModel.Version s)
          (snapsAt (tables db) k)
    end);
  insertSnapshot_law s db : effect tables (insertSnapshot s) db (fun _ db' =>
    tables db' = addSnapshot s (tables db));
  insertOutbox_law row db : effect tables (insertOutbox row) db (fun _ db' =>
    tables db' = tables db)
}.

(** The prototype of an event that holds a payload. *)
Definition ledgerPrototype (d : LedgerEventData) : option string :=
  match d with
  | LedgerPayment k (Some _) => Some (kindName k)
  | EventLedgerAccountTransferredToAccount (Some _) => Some "EventLedgerAccountTransferredToAccount"
  | EventLedgerAccountReceivedTransfer (Some _) => Some "EventLedgerAccountReceivedTransfer"
  | _ => None
  end.

Lemma ledgerRegister_run :
  RegisterAggregate ledgerAggregateType ledgerEventNames NewSerializer = (Ok tt, ledgerRegister).
Proof.
  unfold ledgerRegister.
  rewrite (surjective_pairing (RegisterAggregate _ _ _)) at 1. reflexivity.
Qed.

Lemma ledgerPrototype_registered d n :
  ledgerPrototype d = Some n -> event_name d = n /\ TypeOf ledgerRegister ledgerAggregateType n = Some n.
Proof.
  intros H. assert (Hn : event_name d = n /\ n ∈ ledgerEventNames).
  { unfold ledgerEventNames, allKinds. destruct d as [[] [|]|[]|[]| |]; try discriminate H;
      injection H as <-; (split; [reflexivity|]); apply (bool_decide_unpack _); vm_compute; exact I. }
  destruct Hn as [Hn Hin]. split; [done|].
  apply (proj1 (RegisterAggregate_Type _ _ _ _ ledgerRegister_run) n Hin).
Qed.

(** ** The history of an account *)

Section history.
Context `{UC : UnicodeCase} `{EJ : JSON LedgerEventData} `{SJ : JSON snapshotState}.
Implicit Types (t : LedgerTables) (a b : LedgerAccountAggregate).
Implicit Types (e : Event LedgerEventData) (es : list (Event LedgerEventData)).

Definition ledgerKey (id : string) : aggregateKey := (id, ledgerAggregateType).

(** The account that replaying the rows gives. *)
Definition replayRows (id : string) (rows : list LedgerEventModel) :
    option LedgerAccountAggregate :=
  match NewLedgerAccountAggregate id, toDomainEvents ledgerRegister rows with
  | Ok base, Ok evts =>
      match LoadFromHistory evts base with (Ok _, a) => Some a | _ => None end
  | _, _ => None
  end.

Definition storedAccount t (id : string) : option LedgerAccountAggregate :=
  match rowsAt t (ledgerKey id) with
  | [] => None
  | rows => replayRows id rows
  end.

(** A snapshot is the replay of a non-empty prefix of the events. *)
Definition snapshot_ok (base : LedgerAccountAggregate) es (s : LedgerSnapshotModel) : Prop :=
  exists n b, (0 < n <= length es)%nat /\ LedgerSnapshotModel.Version s = Z.of_nat n /\
    LoadFromHistory (take n es) base = (Ok tt, b) /\
    Unmarshal ledgerAggregateType (LedgerSnapshotModel.SnapshotData s) = Ok (snapshotOf b).

Definition has_history t id base es a : Prop :=
  NewLedgerAccountAggregate id = Ok base /\
  toDomainEvents ledgerRegister (rowsAt t (ledgerKey id)) = Ok es /\ es <> [] /\
  Forall (fun e => AggregateID e = id) es /\ consecutive 0 es /\
  LoadFromHistory es base = (Ok tt, a) /\ stored_ok id a /\
  aggregates t !! ledgerKey id = Some (Z.of_nat (length es)) /\
  Forall (snapshot_ok base es) (snapsAt t (ledgerKey id)).

(** No event yet: there may be a row, left by a transaction that saved
    nothing more. *)
Definition no_history t id : Prop :=
  rowsAt t (ledgerKey id) = [] /\ default 0 (aggregates t !! ledgerKey id) = 0 /\
  snapsAt t (ledgerKey id) = [].

Definition account_ok t id : Prop :=
  no_history t id \/ exists base es a, has_history t id base es a.

(** *** Rows and events *)

(** Two events that differ at most in their row id and time. *)
Definition same_event e e' : Prop :=
  AggregateID e = AggregateID e' /\ AggregateType e = AggregateType e' /\
  Version e = Version e' /\ EventName e = EventName e' /\ EventData e = EventData e'.

Lemma LoadEvent_same e e' a : same_event e e' -> LoadEvent e a = LoadEvent e' a.
Proof.
  intros (Hid & _ & Hv & _ & Hd). unfold LoadEvent, mbind, method_bind.
  assert (Ht : Transition e a = Transition e' a).
  { change (ledgerTransition e a = ledgerTransition e' a). unfold ledgerTransition.
    by rewrite Hid, Hd. }
  rewrite Ht. destruct (Transition e' a) as [[[]|err|w] a']; [|done..].
  unfold modify, updRoot, loadedEvent. by rewrite Hid, Hv.
Qed.

Lemma LoadFromHistory_same es es' a :
  Forall2 same_event es es' -> LoadFromHistory es a = LoadFromHistory es' a.
Proof.
  intros H. revert a. unfold LoadFromHistory. induction H as [|e e' es es' He _ IH]; intros a; [done|].
  cbn [range]. unfold mbind, method_bind. rewrite (LoadEvent_same _ _ _ He).
  destruct (LoadEvent e' a) as [[]]; [apply IH|done..].
Qed.

Lemma toDomainEvents_app reg rows rows' :
  toDomainEvents reg (rows ++ rows') =
    (es ← toDomainEvents reg rows; es' ← toDomainEvents reg rows'; Ok (es ++ es')).
Proof.
  induction rows as [|r rows IH]; cbn.
  - by destruct (toDomainEvents reg rows').
  - destruct (toDomainEvent reg r); [|done..]. cbn. rewrite IH.
    destruct (toDomainEvents reg rows); [|done..]. cbn. by destruct (toDomainEvents reg rows').
Qed.

Lemma toDomainEvents_rows reg rows es :
  toDomainEvents reg rows = Ok es ->
  Forall2 (fun r e => toDomainEvent reg r = Ok e) rows es.
Proof.
  revert es. induction rows as [|r rows IH]; intros es H; cbn in H.
  - injection H as <-. constructor.
  - apply result_bind_Ok in H as (e & He & H). apply result_bind_Ok in H as (es' & Hes & H).
    injection H as <-. constructor; auto.
Qed.

Lemma toDomainEvents_intro reg rows es :
  Forall2 (fun r e => toDomainEvent reg r = Ok e) rows es -> toDomainEvents reg rows = Ok es.
Proof. induction 1 as [|r e rows es He _ IH]; cbn; [done|]. by rewrite He, IH. Qed.

Lemma toDomainEvents_drop reg rows es n :
  toDomainEvents reg rows = Ok es -> toDomainEvents reg (drop n rows) = Ok (drop n es).
Proof.
  intros H. apply toDomainEvents_intro, Forall2_drop. by apply toDomainEvents_rows.
Qed.

Lemma toDomainEvent_version reg r e :
  toDomainEvent reg r = Ok e -> LedgerEventModel.Version r = Version e.
Proof.
  unfold toDomainEvent. destruct (TypeOf _ _ _); [|done]. cbn.
  destruct (Unmarshal _ _); [|done..]. cbn. by intros [= <-].
Qed.

Lemma filter_all {A} (P : A -> Prop) `{!forall x, Decision (P x)} l : Forall P l -> filter P l = l.
Proof. induction 1 as [|x l Hx _ IH]; [done|]. rewrite filter_cons_True by done. by rewrite IH. Qed.

Lemma filter_none {A} (P : A -> Prop) `{!forall x, Decision (P x)} l :
  Forall (fun x => ~ P x) l -> filter P l = [].
Proof. induction 1 as [|x l Hx _ IH]; [done|]. by rewrite filter_cons_False. Qed.

(** The rows after version [n] are the rows from position [n]. *)
Lemma filter_after reg rows es n :
  toDomainEvents reg rows = Ok es -> consecutive 0 es ->
  filter (after (Some (Z.of_nat n))) rows = drop n rows.
Proof.
  intros Hes Hc. pose proof (toDomainEvents_rows _ _ _ Hes) as Hf.
  assert (Hv : forall i r, rows !! i = Some r -> LedgerEventModel.Version r = Z.of_nat (S i)).
  { intros i r Hr. destruct (Forall2_lookup_l _ _ _ _ _ Hf Hr) as (e & He & Hre).
    rewrite (toDomainEvent_version _ _ _ Hre), (Hc _ _ He). lia. }
  clear Hf Hes Hc. rewrite <- (take_drop n rows) at 1. rewrite filter_app.
  rewrite filter_none, filter_all; [done|..]; apply Forall_lookup; intros i r Hr; cbn.
  - rewrite lookup_drop in Hr. rewrite (Hv _ _ Hr). lia.
  - apply lookup_take_Some in Hr as [Hr Hi]. rewrite (Hv _ _ Hr). lia.
Qed.
End history.
