(* ===== verification/LedgerStoreSpec.v ===== *)
(** * Loading and saving in the ledger event store

    Loading an account gives the replay of all its events, whether it starts
    from a snapshot or not; saving appends the pending events, and what is
    loaded afterwards is the account that was saved. *)

From stdpp Require Import prelude strings gmap.
From S2P Require Import Prelude GoStrings Database Event LedgerEntity LedgerAccount LedgerAccountInv.
From S2P Require Import LedgerRepo LedgerStore LedgerStoreInv.

(** ** Replay *)

Section replay.
Context `{UC : UnicodeCase}.
Implicit Types (a b : LedgerAccountAggregate).
Implicit Types (e : Event LedgerEventData) (es : list (Event LedgerEventData)).

Lemma LoadFromHistory_app es es' a :
  LoadFromHistory (es ++ es') a = (LoadFromHistory es ≫= fun _ => LoadFromHistory es') a.
Proof. apply range_app. Qed.

Lemma LoadEvent_Ok e a a' :
  LoadEvent e a = (Ok tt, a') ->
  is_ok (Transition e a).1 = true /\ Root a' = loadedEvent e (Root a).
Proof.
  unfold LoadEvent, mbind, method_bind, modify. intros H.
  pose proof (Root_Transition e a) as Hr.
  destruct (Transition e a) as [[[]|err|w] a1]; try discriminate H. cbn in Hr.
  injection H as <-. split; [done|]. unfold updRoot. cbn. by rewrite Hr.
Qed.

(** The root of an account that was rebuilt from events. *)
Lemma LoadFromHistory_root base es a a' :
  LoadFromHistory es a = (Ok tt, a') -> consecutive base es ->
  Forall (fun e => AggregateID e = aggregateID (Root a)) es ->
  version (Root a) = base -> baseVersion (Root a) = base ->
  let v := base + Z.of_nat (length es) in
  Root a' = mkRoot (aggregateID (Root a)) (aggregateType (Root a)) v v (events (Root a)).
Proof.
  revert a'. induction es as [|e es IH] using rev_ind; intros a' H Hc Hid Hv Hb.
  - injection H as <-. rewrite Z.add_0_r. destruct (Root a); cbn in *. congruence.
  - apply range_snoc_Ok in H as (a1 & H1 & H2). apply Forall_app in Hid as [Hid He].
    assert (Hc1 : consecutive base es)
      by (intros i x Hx; apply Hc; by apply lookup_app_l_Some).
    specialize (IH a1 H1 Hc1 Hid Hv Hb). cbv zeta in IH.
    apply LoadEvent_Ok in H2 as [_ H2]. rewrite H2, IH. unfold loadedEvent.
    apply Forall_cons in He as [He _]. rewrite He.
    assert (Hl : Version e = base + Z.of_nat (length (es ++ [e]))).
    { rewrite length_app, Nat.add_comm. apply Hc. by apply list_lookup_middle. }
    by rewrite Hl.
Qed.

Lemma LoadFromHistory_postings es a a' :
  LoadFromHistory es a = (Ok tt, a') ->
  Forall (fun e => exists p,
    previewLedgerPostingFromEvent (AggregateID e) (EventData e) = Ok (p, true)) es.
Proof.
  revert a. induction es as [|e es IH]; intros a H; [constructor|].
  apply range_cons_Ok in H as (a1 & H1 & H2). constructor; [|by eapply IH].
  apply LoadEvent_Ok in H1 as [Ht _].
  destruct (Transition e a) as [[[]|err|w] a2] eqn:E; try discriminate Ht.
  apply ledgerTransition_Ok in E as (p & Hp & _). eauto.
Qed.

Lemma preview_prototype acc d p :
  previewLedgerPostingFromEvent acc d = Ok (p, true) -> exists n, ledgerPrototype d = Some n.
Proof. destruct d as [k [|]|[|]|[|]| |]; try discriminate; intros _; eauto. Qed.

(** The account before any event. *)
Lemma NewLedgerAccountAggregate_trimmed id base :
  NewLedgerAccountAggregate id = Ok base -> trimmed id ->
  base = LedgerAccountAggregate.mk (mkRoot id ledgerAggregateType 0 0 []) "" ∅ ∅ /\ id <> "".
Proof. intros [-> Hid]%NewLedgerAccountAggregate_Ok Ht. by rewrite Ht in *. Qed.
End replay.

(** ** Pending events *)

Section pending.
Context {A E : Type} `{EP : EventPayload E} `{Agg : Aggregate A E} `{RF : !RootFree A E}.

(** An event carries the type of its aggregate and the name of its data. *)
Definition stamped (typ : string) (e : Event E) : Prop :=
  AggregateType e = typ /\ EventName e = event_name (EventData e).

Lemma range_ApplyChange_root ds (a a' : A) :
  range ds ApplyChange a = (Ok tt, a') ->
  exists es, Forall (stamped (aggregateType (Root a))) es /\
    Root a' = mkRoot (aggregateID (Root a)) (aggregateType (Root a)) (version (Root a))
                (baseVersion (Root a)) (events (Root a) ++ es).
Proof.
  revert a. induction ds as [|d ds IH]; intros a H.
  - injection H as <-. exists []. split; [constructor|]. rewrite app_nil_r. by destruct (Root a).
  - apply range_cons_Ok in H as (a1 & H1 & H). apply ApplyChange_Ok in H1 as (evt & Hevt & _ & _ & ->).
    destruct (IH _ H) as (es & Hes & Hr). rewrite Root_setRoot in Hes, Hr. cbn in Hes, Hr.
    exists (evt :: es). split; [constructor; [by rewrite Hevt|done]|].
    by rewrite Hr, <- app_assoc.
Qed.
End pending.

Section load.
Context `{UC : UnicodeCase} {DB : Type} `{SQLL : LedgerSQLLaws DB}.
Context `{EJ : JSON LedgerEventData} `{EL : !JSONLaws LedgerEventData ledgerPrototype}.
Context `{SJ : JSON snapshotState}
  `{SL : !JSONLaws snapshotState (fun _ => Some ledgerAggregateType)}.
Implicit Types (db : DB) (a b : LedgerAccountAggregate) (t : LedgerTables).
Implicit Types (es : list (Event LedgerEventData)).

(** *** Errors of the database *)

Lemma mapError_foreign e n :
  foreign e -> n <> "ErrDuplicate" -> errors_Is (mapError e) n = false.
Proof.
  intros He Hn. unfold mapError. rewrite He. destruct (IsUniqueConstraintError (errorText e)); [|apply He].
  cbn [errors_Is ErrDuplicate]. apply String.eqb_neq. congruence.
Qed.

Lemma read_effect {A} (m : method DB A) db Q r db' :
  effect tables m db Q -> wrap_err mapError m db = (r, db') ->
  match r with
  | Ok x => Q x db'
  | Err e => forall n, n <> "ErrDuplicate" -> errors_Is e n = false
  | Panic _ => True
  end.
Proof.
  unfold effect, wrap_err. destruct (m db) as [[x|e|w] db1]; cbn; intros H Hr; simplify_eq; [done| |done].
  intros n Hn. apply mapError_foreign; [apply H|done].
Qed.

(** *** Loading *)

Lemma ReadSnapshot_spec k a db r db' :
  ReadSnapshot k a db = (r, db') ->
  match r with
  | Ok (h, a') => db' = db /\
      (h = false /\ a' = a /\ snapsAt (tables db) k = [] \/
       h = true /\ exists s state, s ∈ snapsAt (tables db) k /\
         Unmarshal ledgerAggregateType (LedgerSnapshotModel.SnapshotData s) = Ok state /\
         let v := LedgerSnapshotModel.Version s in
         a' = updRoot (SetInternal k.1 v v) (withSnapshot state a))
  | Err e => errors_Is e "ErrNotFound" = false
  | Panic _ => True
  end.
Proof.
  unfold ReadSnapshot, mbind, method_bind. intros H.
  destruct (wrap_err mapError (selectSnapshot k) db) as [[rows|e|w] db1] eqn:E;
    pose proof (read_effect _ _ _ _ _ (selectSnapshot_law k db) E) as Hs.
  - destruct Hs as [-> Hs]. destruct rows as [|s rows].
    + injection H as <- <-. split; [done|]. by left.
    + unfold lift in H.
      destruct (Unmarshal _ _) as [state|e|w] eqn:Hu; injection H as <- <-.
      * split; [done|]. right. split; [done|]. exists s, state. by destruct Hs.
      * by eapply Unmarshal_error.
      * done.
  - injection H as <- <-. by apply Hs.
  - by injection H as <- <-.
Qed.

Lemma GetEvents_none k a db r db' :
  rowsAt (tables db) k = [] -> GetEvents ledgerRegister k 0 a db = (r, db') ->
  match r with
  | Ok _ => False
  | Err e => errors_Is e "ErrNotFound" = true -> db' = db
  | Panic _ => True
  end.
Proof.
  unfold GetEvents, mbind, method_bind. intros Hrows H.
  destruct (wrap_err mapError (selectEvents k _) db) as [[rows|e|w] db1] eqn:E;
    pose proof (read_effect _ _ _ _ _ (selectEvents_law k _ db) E) as Hs.
  - destruct Hs as [-> ->]. rewrite Hrows in H. by injection H as <- <-.
  - injection H as <- <-. rewrite Hs by done. done.
  - by injection H as <- <-.
Qed.

(** What the event store gives, where the rows are readable and replay. *)
Lemma GetEvents_spec k v a db r db' evts a' :
  GetEvents ledgerRegister k v a db = (r, db') ->
  toDomainEvents ledgerRegister
    (filter (after (if decide (0 < v) then Some v else None)) (rowsAt (tables db) k)) = Ok evts ->
  LoadFromHistory evts a = (Ok tt, a') -> (evts = [] -> v <> 0) ->
  match r with
  | Ok x => db' = db /\ x = a'
  | Err e => errors_Is e "ErrNotFound" = false
  | Panic _ => True
  end.
Proof.
  unfold GetEvents, mbind, method_bind. intros H He Hl Hv.
  destruct (wrap_err mapError (selectEvents k _) db) as [[rows|e|w] db1] eqn:E;
    pose proof (read_effect _ _ _ _ _ (selectEvents_law k _ db) E) as Hs.
  - destruct Hs as [-> ->].
    pose proof (Forall2_length _ _ _ (toDomainEvents_rows _ _ _ He)) as Hlen.
    destruct (decide (length _ = 0%nat)) as [H0|H0].
    + assert (evts = []) as -> by (apply nil_length_inv; congruence).
      rewrite decide_False in H by auto. injection H as <- <-. by injection Hl as <-.
    + unfold lift in H. rewrite He, Hl in H. by injection H as <- <-.
  - injection H as <- <-. by apply Hs.
  - by injection H as <- <-.
Qed.

Lemma withSnapshot_state id v b :
  Root b = mkRoot id ledgerAggregateType v v [] ->
  updRoot (SetInternal id v v) (withSnapshot (snapshotOf b)
    (LedgerAccountAggregate.mk (mkRoot id ledgerAggregateType 0 0 []) "" ∅ ∅)) = b.
Proof.
  destruct b as [r acc bal pos]. cbn. intros ->. unfold withSnapshot, snapshotOf, updRoot, SetInternal.
  cbn. by rewrite !map_union_empty.
Qed.

Lemma take_consecutive n es : consecutive 0 es -> consecutive 0 (take n es).
Proof. intros H i e [He _]%lookup_take_Some. by apply H. Qed.

(** A snapshot of the history, and what remains of the history after it. *)
Lemma snapshot_split id base es a s :
  NewLedgerAccountAggregate id = Ok base -> trimmed id ->
  Forall (fun e => AggregateID e = id) es -> consecutive 0 es ->
  LoadFromHistory es base = (Ok tt, a) -> snapshot_ok base es s ->
  exists n b, (0 < n <= length es)%nat /\ LedgerSnapshotModel.Version s = Z.of_nat n /\
    Unmarshal ledgerAggregateType (LedgerSnapshotModel.SnapshotData s) = Ok (snapshotOf b) /\
    LoadFromHistory (drop n es) b = (Ok tt, a) /\
    baseVersion (Root b) = Z.of_nat n /\
    updRoot (SetInternal id (Z.of_nat n) (Z.of_nat n)) (withSnapshot (snapshotOf b) base) = b.
Proof.
  intros Hnew Ht Hid Hc Hl (n & b & Hn & Hv & Hb & Hu).
  destruct (NewLedgerAccountAggregate_trimmed _ _ Hnew Ht) as [Hbase _].
  rewrite <- (take_drop n es) in Hl. rewrite LoadFromHistory_app in Hl.
  apply method_bind_Ok in Hl as ([] & b' & Hb' & Hl). rewrite Hb in Hb'.
  injection Hb' as <-.
  assert (Hroot : Root b = mkRoot id ledgerAggregateType (Z.of_nat n) (Z.of_nat n) []).
  { rewrite (LoadFromHistory_root 0 _ _ _ Hb); [|by apply take_consecutive| |by rewrite Hbase..].
    - rewrite Hbase, length_take. replace (0 + Z.of_nat (n `min` length es)) with (Z.of_nat n) by lia.
      done.
    - rewrite Hbase. by apply Forall_take. }
  exists n, b. split_and!; try done; try lia.
  - by rewrite Hroot.
  - rewrite Hbase. by apply withSnapshot_state.
Qed.

Lemma storedAccount_history t id base es a :
  has_history t id base es a -> storedAccount t id = Some a.
Proof.
  intros (Hnew & Hrows & Hne & _ & _ & Hl & _). unfold storedAccount, replayRows.
  destruct (rowsAt t (ledgerKey id)) as [|r rows] eqn:E.
  - injection Hrows as <-. done.
  - by rewrite Hnew, Hrows, Hl.
Qed.

Lemma storedAccount_none t id : no_history t id -> storedAccount t id = None.
Proof. intros (H & _). unfold storedAccount. by rewrite H. Qed.

Lemma account_trimmed id base a : NewLedgerAccountAggregate id = Ok base ->
  stored_ok id a -> trimmed id.
Proof. intros _ (Hw & <- & _). apply (lw_id _ Hw). Qed.

(** Loading gives the account that its events replay to. *)
Lemma StoreGet_spec id base db r db' :
  account_ok (tables db) id -> NewLedgerAccountAggregate id = Ok base -> trimmed id ->
  orNotFound (StoreGet ledgerRegister id base) db = (r, db') ->
  match r with
  | Ok o => db' = db /\ o = storedAccount (tables db) id
  | _ => True
  end.
Proof.
  intros Hok Hnew Ht H. unfold orNotFound in H.
  destruct (StoreGet ledgerRegister id base db) as [x db1] eqn:Hx. unfold StoreGet in Hx.
  assert (Hbase : updRoot (SetAggregateType ledgerAggregateType) base = base)
    by (by destruct (NewLedgerAccountAggregate_trimmed _ _ Hnew Ht) as [-> _]).
  rewrite Hbase in Hx. unfold mbind at 1, method_bind at 1 in Hx.
  fold (ledgerKey id) in Hx.
  destruct (ReadSnapshot (ledgerKey id) base db) as [[[h a1]|e|w] db2] eqn:Hr;
    apply ReadSnapshot_spec in Hr.
  2: { injection Hx as <- <-. rewrite Hr in H. by injection H as <- <-. }
  2: { injection Hx as <- <-. by injection H as <- <-. }
  destruct Hr as [-> Hs].
  destruct Hok as [Hno|(base' & es & a & Hh)].
  - rewrite (storedAccount_none _ _ Hno). destruct Hno as (Hrows & _ & Hsn).
    destruct Hs as [(-> & -> & _)|(_ & s & state & Hin & _)];
      [|by rewrite Hsn in Hin; apply not_elem_of_nil in Hin].
    pose proof (GetEvents_none _ _ _ _ _ Hrows Hx) as Hg.
    destruct x as [a1|e|w]; [done| |by injection H as <- <-].
    destruct (errors_Is e "ErrNotFound"); injection H as <- <-; [|done]. by split; [apply Hg|].
  - rewrite (storedAccount_history _ _ _ _ _ Hh).
    destruct Hh as (Hnew' & Hrows & Hne & Hid & Hc & Hl & Hst & _ & Hsn).
    rewrite Hnew in Hnew'. apply Ok_inj in Hnew' as <-.
    assert (Hg : match x with
      | Ok a2 => db1 = db /\ a2 = a
      | Err e => errors_Is e "ErrNotFound" = false
      | Panic _ => True end).
    { destruct Hs as [(-> & -> & _)|(-> & s & state & Hin & Hu & Ha1)]; cbn [negb] in Hx.
      - eapply GetEvents_spec; [exact Hx| |exact Hl|done].
        rewrite decide_False by lia. by rewrite filter_all by (by apply Forall_true).
      - rewrite Forall_forall in Hsn.
        destruct (snapshot_split _ _ _ _ _ Hnew Ht Hid Hc Hl (Hsn _ Hin))
          as (n & b & Hn & Hv & Hu' & Hl' & Hbv & Hb).
        rewrite Hu in Hu'. apply Ok_inj in Hu' as ->.
        cbn [fst ledgerKey] in Ha1. rewrite Hv, Hb in Ha1. subst a1. rewrite Hbv in Hx.
        eapply GetEvents_spec; [exact Hx| |exact Hl'|lia].
        rewrite decide_True by lia. rewrite (filter_after _ _ _ _ Hrows Hc).
        by apply toDomainEvents_drop. }
    destruct x as [a2|e|w]; [|rewrite Hg in H|]; injection H as <- <-; [|done..].
    by destruct Hg as [-> ->].
Qed.

(** *** Saving, statement by statement *)

Lemma write_effect {A} (m : method DB A) f db Q x db' :
  effect tables m db Q -> wrap_err f m db = (Ok x, db') -> Q x db'.
Proof. unfold effect. intros H Hr%wrap_err_Ok. by rewrite Hr in H. Qed.

(** The tables but for the posted transactions. *)
Definition same_but_posted t t' : Prop :=
  aggregates t' = aggregates t /\ eventTable t' = eventTable t /\ snapshotTable t' = snapshotTable t.

Lemma same_but_posted_refl t : same_but_posted t t.
Proof. done. Qed.
Lemma same_but_posted_trans t t' t'' :
  same_but_posted t t' -> same_but_posted t' t'' -> same_but_posted t t''.
Proof. unfold same_but_posted. naive_solver congruence. Qed.

Definition postedRow (evt : Event LedgerEventData) (p : LedgerAccountPosting) (data : string) :
    LedgerPostedTransactionModel :=
  LedgerPostedTransactionModel.mk (AggregateID evt) (AggregateType evt) (Posting.TransactionID p)
    (EventName evt) data.

(** What reserving the posting of an event does, when it succeeds. *)
Definition reserved (evt : Event LedgerEventData) t t' : Prop :=
  exists p ok, previewLedgerPostingFromEvent (AggregateID evt) (EventData evt) = Ok (p, ok) /\
    if ok : bool then exists data,
      posted t !! postedKey (postedRow evt p data) = None /\ t' = addPosted (postedRow evt p data) t
    else t' = t.

Lemma read_same {A} (m : method DB A) f db Q r db' :
  effect tables m db Q -> (forall x d, Q x d -> tables d = tables db) ->
  wrap_err f m db = (r, db') -> tables db' = tables db.
Proof.
  unfold effect, wrap_err. intros H HQ Hr.
  destruct (m db) as [[x|e|w] db1]; injection Hr as <- <-; [by eapply HQ|apply H|done].
Qed.

Lemma findPosted_same k tid db r db' :
  findPostedTransaction ledgerRegister k tid db = (r, db') -> tables db' = tables db.
Proof.
  unfold findPostedTransaction, mbind, method_bind. intros H.
  destruct (wrap_err mapError (selectPosted k tid) db) as [r1 db1] eqn:E.
  apply (read_same _ _ _ _ _ _ (selectPosted_law k tid db)) in E; [|by intros x d [-> _]].
  destruct r1 as [[|row rows]|e|w]; [by injection H as <- <-| |by injection H as <- <-..].
  unfold lift in H. destruct (postingFromRawEvent _ row); by injection H as <- <-.
Qed.

Lemma Reserve_spec evt db r db' :
  ReservePostedTransaction ledgerRegister evt db = (r, db') ->
  match r with
  | Ok _ => reserved evt (tables db) (tables db')
  | _ => tables db' = tables db
  end.
Proof.
  unfold ReservePostedTransaction, mbind, method_bind, lift. intros H.
  destruct (previewLedgerPostingFromEvent _ _) as [[p ok]|e|w] eqn:Hp; [|by injection H as <- <-..].
  destruct ok; cbn [negb] in H; [|injection H as <- <-; by exists p, false].
  destruct (Marshal (EventData evt)) as [data|e|w] eqn:Hm; cbn in H; [|by injection H as <- <-..].
  unfold insertPosting in H. fold (postedRow evt p data) in H.
  destruct (wrap_err mapError (insertPosted _) db) as [[x|e|w] db1] eqn:E.
  - injection H as <- <-. exists p, true. split; [done|]. exists data.
    apply (write_effect _ _ _ _ _ _ (insertPosted_law _ db) E).
  - assert (Hs : tables db1 = tables db).
    { pose proof (insertPosted_law (postedRow evt p data) db) as Hl. unfold effect in Hl.
      unfold wrap_err in E. destruct (insertPosted _ db) as [[]]; simplify_eq/=; apply Hl. }
    destruct (negb (errors_Is e "ErrDuplicate")); [by injection H as <- <-|].
    unfold alreadyPosted, mbind, method_bind in H.
    destruct (findPostedTransaction _ _ _ db1) as [r2 db2] eqn:Hf.
    apply findPosted_same in Hf. rewrite Hs in Hf.
    destruct r2 as [o|e2|w2]; [|by injection H as <- <-..].
    destruct (match o with Some _ => _ | None => _ end); by injection H as <- <-.
  - pose proof (insertPosted_law (postedRow evt p data) db) as Hl. unfold effect in Hl.
    unfold wrap_err in E. injection H as <- <-.
    destruct (insertPosted _ db) as [[]]; by simplify_eq/=.
Qed.

Lemma reserved_same evt t t' : reserved evt t t' -> same_but_posted t t'.
Proof. intros (p & [] & _ & H); [by destruct H as (data & _ & ->)|by subst]. Qed.

Fixpoint reservedAll (es : list (Event LedgerEventData)) t t' : Prop :=
  match es with
  | [] => t' = t
  | evt :: es => exists t1, reserved evt t t1 /\ reservedAll es t1 t'
  end.

(** The loop that reserves, with its numbering. *)
Lemma reserveLoop_spec n i es db r db' :
  range (zip (seq i (length es)) es) (fun '(idx, evt) =>
    wrap_err (reserveError n idx) (ReservePostedTransaction ledgerRegister evt)) db = (r, db') ->
  same_but_posted (tables db) (tables db') /\
  (r = Ok tt -> reservedAll es (tables db) (tables db')).
Proof.
  revert i db. induction es as [|evt es IH]; intros i db H; cbn [length seq zip range] in H.
  - by injection H as <- <-.
  - unfold mbind, method_bind in H. unfold wrap_err at 1 in H.
    destruct (ReservePostedTransaction _ evt db) as [r1 db1] eqn:E. apply Reserve_spec in E.
    destruct r1 as [x|e|w]; cbn [map_err] in H.
    + destruct (IH _ _ H) as [Hs Hr]. split.
      * eapply same_but_posted_trans; [|exact Hs]. by eapply reserved_same.
      * intros Hr'. exists (tables db1). split; [done|by apply Hr].
    + injection H as <- <-. rewrite E. by split.
    + injection H as <- <-. rewrite E. by split.
Qed.

Lemma CheckAndUpdateVersion_spec k v v' db ok db' :
  CheckAndUpdateVersion k v v' db = (Ok ok, db') ->
  if decide (aggregates (tables db) !! k = Some v)
  then ok = true /\ tables db' = setVersion k v' (tables db)
  else ok = false /\ tables db' = tables db.
Proof.
  unfold CheckAndUpdateVersion. intros H. apply method_bind_Ok in H as (n & db1 & H1 & H2).
  pose proof (write_effect _ _ _ _ _ _ (updateVersion_law k v v' db) H1) as Hu.
  apply method_ret_Ok in H2 as [<- <-]. case_decide; destruct Hu as [-> ->]; by split.
Qed.

Lemma CheckAndUpdateVersion_fails k v v' db r db' :
  CheckAndUpdateVersion k v v' db = (r, db') -> is_ok r = false -> tables db' = tables db.
Proof.
  unfold CheckAndUpdateVersion, mbind, method_bind, wrap_err. intros H Hr.
  pose proof (updateVersion_law k v v' db) as Hl. unfold effect in Hl.
  destruct (updateVersion k v v' db) as [[n|e|w] db1]; injection H as <- <-; [done|apply Hl|done].
Qed.

(** The row that an event is saved as. *)
Definition savedRow now (evt : Event LedgerEventData) (row : LedgerEventModel) : Prop :=
  exists data, Marshal (EventData evt) = Ok data /\ row = eventRow now evt data.

(** The snapshot that an account is saved as. *)
Definition savedSnapshot a (s : LedgerSnapshotModel) : Prop :=
  snapshotKey s = (aggregateID (Root a), aggregateType (Root a)) /\
  LedgerSnapshotModel.Version s = CurrentVersion (Root a) /\
  Marshal (snapshotOf a) = Ok (LedgerSnapshotModel.SnapshotData s).

Lemma appendSaved_spec now a evt db u db' :
  appendSaved now a evt db = (Ok u, db') ->
  exists row extra, savedRow now evt row /\ Forall (savedSnapshot a) extra /\
    tables db' = foldr addSnapshot (addEvent row (tables db)) extra.
Proof.
  unfold appendSaved. intros H. apply method_bind_Ok in H as (x1 & db1 & H1 & H).
  apply wrap_err_Ok in H1. unfold Append in H1. apply lift_bind_Ok in H1 as (data & Hm & H1).
  apply map_err_Ok in Hm. set (row := eventRow now evt data) in *.
  pose proof (write_effect _ _ _ _ _ _ (insertEvent_law row db) H1) as [_ Ht1].
  apply method_bind_Ok in H as (x2 & db2 & H2 & H).
  assert (Ht2 : tables db2 = tables db1).
  { destruct (ledgerProjectionOutboxEvent evt) as [pe|]; [|by injection H2 as <- <-].
    apply wrap_err_Ok in H2. unfold AppendOutbox in H2. apply lift_bind_Ok in H2 as (d & _ & H2).
    apply (write_effect _ _ _ _ _ _ (insertOutbox_law _ db1) H2). }
  rewrite Ht1 in Ht2. exists row. case_decide as H100.
  - apply wrap_err_Ok in H. unfold CreateSnapshot in H. apply lift_bind_Ok in H as (d & Hd & H).
    apply map_err_Ok in Hd. pose proof (write_effect _ _ _ _ _ _ (insertSnapshot_law _ db2) H) as Ht3.
    eexists [_]. split; [by exists data|]. split; [|by rewrite Ht3, Ht2].
    constructor; [|constructor]. by split_and!.
  - injection H as _ <-. exists []. split; [by exists data|]. split; [constructor|done].
Qed.

Lemma insertByVersion_last row rows :
  Forall (fun r => LedgerEventModel.Version r < LedgerEventModel.Version row) rows ->
  insertByVersion row rows = rows ++ [row].
Proof.
  induction 1 as [|r rows Hr _ IH]; cbn; [done|]. rewrite decide_False by lia. by rewrite IH.
Qed.

(** What saving the events [es] of the account [a] adds to the tables. *)
Definition appended now a es t t' : Prop :=
  let k := (aggregateID (Root a), aggregateType (Root a)) in
  aggregates t' = aggregates t /\ posted t' = posted t /\
  (exists rows, Forall2 (savedRow now) es rows /\ rowsAt t' k = rowsAt t k ++ rows) /\
  (exists extra, Forall (savedSnapshot a) extra /\ snapsAt t' k = extra ++ snapsAt t k) /\
  (forall k', k' <> k -> rowsAt t' k' = rowsAt t k' /\ snapsAt t' k' = snapsAt t k').

Lemma addSnapshots_spec a extra t :
  Forall (savedSnapshot a) extra ->
  let k := (aggregateID (Root a), aggregateType (Root a)) in
  let t' := foldr addSnapshot t extra in
  aggregates t' = aggregates t /\ posted t' = posted t /\ eventTable t' = eventTable t /\
  snapsAt t' k = extra ++ snapsAt t k /\
  (forall k', k' <> k -> snapsAt t' k' = snapsAt t k').
Proof.
  intros H k. induction H as [|s extra (Hk & _) _ (IH1 & IH2 & IH3 & IH4 & IH5)]; [done|].
  cbn [foldr app]. fold k in Hk. set (t1 := foldr addSnapshot t extra) in *.
  split_and!; [done..| |].
  - unfold snapsAt at 1. cbn. rewrite Hk, lookup_insert_eq. cbn. by rewrite IH4.
  - intros k' Hk'. rewrite <- IH5 by done. unfold snapsAt at 1. cbn. rewrite Hk.
    by rewrite lookup_insert_ne.
Qed.

Lemma appendLoop_spec now a es base db u db' :
  let k := (aggregateID (Root a), aggregateType (Root a)) in
  range es (appendSaved now a) db = (Ok u, db') ->
  Forall (fun e => (AggregateID e, AggregateType e) = k) es -> consecutive base es ->
  Forall (fun r => LedgerEventModel.Version r <= base) (rowsAt (tables db) k) ->
  appended now a es (tables db) (tables db').
Proof.
  intros k. revert base db. induction es as [|evt es IH]; intros base db H Hk Hc Hle.
  - injection H as _ <-. split_and!; [done|done|exists []|exists []|done].
    + by rewrite app_nil_r.
    + by split.
  - destruct u. apply range_cons_Ok in H as (db1 & H1 & H). apply Forall_cons in Hk as [Hk1 Hk].
    apply appendSaved_spec in H1 as (row & extra & Hrow & Hex & Ht1).
    assert (Hv : LedgerEventModel.Version row = base + 1).
    { destruct Hrow as (d & _ & ->). cbn. rewrite (Hc 0%nat evt eq_refl). lia. }
    assert (Hkr : eventKey row = k) by (by destruct Hrow as (d & _ & ->)).
    assert (Hadd : rowsAt (addEvent row (tables db)) k = rowsAt (tables db) k ++ [row]).
    { unfold rowsAt at 1. cbn. rewrite Hkr, lookup_insert_eq. cbn. apply insertByVersion_last.
      eapply Forall_impl; [exact Hle|]. cbn. lia. }
    destruct (addSnapshots_spec a extra (addEvent row (tables db)) Hex) as (S1 & S2 & S3 & S4 & S5).
    rewrite <- Ht1 in S1, S2, S3, S4, S5. fold k in S4, S5.
    assert (Hrows1 : rowsAt (tables db1) k = rowsAt (tables db) k ++ [row])
      by (unfold rowsAt at 1; rewrite S3; exact Hadd).
    destruct (IH (base + 1) db1 H Hk) as (A1 & A2 & (rows & Hrows & A3) & (ex & Hex' & A4) & A5).
    { intros i e He. rewrite (Hc (S i) e He). lia. }
    { rewrite Hrows1. apply Forall_app. split; [|by repeat constructor; lia].
      eapply Forall_impl; [exact Hle|]. cbn. lia. }
    fold k in A3, A4, A5. split_and!.
    + by rewrite A1, S1.
    + by rewrite A2, S2.
    + exists (row :: rows). split; [by constructor|]. fold k. by rewrite A3, Hrows1, <- app_assoc.
    + exists (ex ++ extra). split; [by apply Forall_app|]. fold k. by rewrite A4, S4, <- app_assoc.
    + intros k' Hk'. destruct (A5 k' Hk') as [-> ->]. split; [|by rewrite S5].
      unfold rowsAt. rewrite S3. cbn. rewrite Hkr. by rewrite lookup_insert_ne.
Qed.

Lemma updRoot_same_type a :
  aggregateType (Root a) = ledgerAggregateType ->
  updRoot (SetAggregateType ledgerAggregateType) a = a.
Proof. destruct a as [[] ? ? ?]. cbn. by intros ->. Qed.

(** Saving pending events, step by step: the row is created, the postings are
    reserved, the version is moved on from the one the account was loaded at,
    and only then the events are appended. *)
Lemma StoreSave_steps now a db r db' :
  let k := ledgerKey (aggregateID (Root a)) in
  aggregateType (Root a) = ledgerAggregateType -> events (Root a) <> [] ->
  StoreSave now ledgerRegister a db = (r, db') ->
  (is_ok r = false /\ eventTable (tables db') = eventTable (tables db) /\
     snapshotTable (tables db') = snapshotTable (tables db) /\
     (aggregates (tables db') = aggregates (tables db) \/
      aggregates (tables db') = aggregates (createRow k (tables db)))) \/
  default 0 (aggregates (tables db) !! k) = baseVersion (Root a) /\
  exists t1 db3, same_but_posted (createRow k (tables db)) t1 /\
    reservedAll (events (Root a)) (createRow k (tables db)) t1 /\
    tables db3 = setVersion k (CurrentVersion (Root a)) t1 /\
    (range (events (Root a)) (appendSaved now a) ≫= fun _ => mret (updRoot MarkPersisted a)) db3
      = (r, db').
Proof.
  intros k Hty Hev H. unfold StoreSave in H. rewrite updRoot_same_type in H by done.
  cbv zeta in H. unfold CloneEvents in H. fold (ledgerKey (aggregateID (Root a))) in H. fold k in H.
  rewrite decide_False in H by (by intros ?%nil_length_inv).
  unfold mbind at 1, method_bind at 1 in H. unfold CreateIfNotExist, wrap_err at 1 in H.
  pose proof (insertAggregate_law k db) as Hl. unfold effect in Hl.
  destruct (insertAggregate k db) as [[x|e|w] db1]; cbn [map_err] in H.
  2: { injection H as <- <-. left. destruct Hl as [_ ->]. split_and!; [done..|by left]. }
  2: { injection H as <- <-. left. rewrite Hl. split_and!; [done..|by left]. }
  unfold mbind at 1, method_bind at 1 in H.
  destruct (range (zip _ _) _ db1) as [rr db2] eqn:Hloop.
  apply reserveLoop_spec in Hloop as [Hsame Hres]. rewrite Hl in Hsame, Hres.
  destruct rr as [[]|e|w].
  2: { injection H as <- <-. left. destruct Hsame as (-> & -> & ->). split_and!; [done..|by right]. }
  2: { injection H as <- <-. left. destruct Hsame as (-> & -> & ->). split_and!; [done..|by right]. }
  specialize (Hres eq_refl). unfold mbind at 1, method_bind at 1 in H.
  destruct (CheckAndUpdateVersion k _ _ db2) as [[ok|e|w] db3] eqn:Hc.
  - apply CheckAndUpdateVersion_spec in Hc.
    destruct Hsame as (Ha & He & Hs).
    destruct (decide (aggregates (tables db2) !! k = Some (baseVersion (Root a)))) as [Hv|Hv];
      destruct Hc as [-> Hc]; cbn [negb] in H.
    + right. split.
      * rewrite Ha in Hv. cbn in Hv. rewrite lookup_insert_eq in Hv. by injection Hv.
      * exists (tables db2), db3. split_and!; done.
    + injection H as <- <-. left. rewrite Hc, Ha, He, Hs. split_and!; [done..|by right].
  - apply CheckAndUpdateVersion_fails in Hc; [|done].
    injection H as <- <-. left. destruct Hsame as (Ha & He & Hs). rewrite Hc, Ha, He, Hs.
    split_and!; [done..|by right].
  - apply CheckAndUpdateVersion_fails in Hc; [|done].
    injection H as <- <-. left. destruct Hsame as (Ha & He & Hs). rewrite Hc, Ha, He, Hs.
    split_and!; [done..|by right].
Qed.

(** *** Errors of saving *)

(** The call never reports that a posting was already applied. *)
Definition quiet {A} (m : method DB A) : Prop :=
  forall db e db', m db = (Err e, db') -> errors_Is e "ErrAlreadyApplied" = false.

Lemma quiet_ret {A} (x : A) : quiet (mret x).
Proof. by intros db e db'. Qed.

Lemma quiet_bind {A B} (m : method DB A) (f : A -> method DB B) :
  quiet m -> (forall x, quiet (f x)) -> quiet (m ≫= f).
Proof.
  unfold mbind, method_bind. intros Hm Hf db e db' H.
  destruct (m db) as [[x|e1|w] db1] eqn:E; [by eapply Hf|injection H as <- <-; by eapply Hm|done].
Qed.

Lemma quiet_wrap {A} fmt (m : method DB A) : quiet m -> quiet (wrap_err (fun e => Errorf fmt [e]) m).
Proof.
  unfold wrap_err. intros Hm db e db' H.
  destruct (m db) as [[x|e1|w] db1] eqn:E; try discriminate H. injection H as <- <-.
  cbn. rewrite (Hm _ _ _ E). done.
Qed.

Lemma quiet_statement {A} (m : method DB A) Q :
  (forall db, effect tables m db (Q db)) -> quiet (wrap_err mapError m).
Proof.
  intros H db e db' E. specialize (H db). unfold effect in H. unfold wrap_err in E.
  destruct (m db) as [[x|e1|w] db1]; try discriminate E. injection E as <- <-.
  by apply mapError_foreign; [apply H|].
Qed.

Lemma quiet_marshal {E} `{J : JSON E} (name : E -> option string) {L : JSONLaws E name} fmt (x : E) :
  quiet (lift (map_err (fun e => Errorf fmt [e]) (Marshal x)) : method DB string).
Proof.
  unfold lift. intros db e db' H. destruct (Marshal x) as [s|e1|w] eqn:Hm; try discriminate H.
  injection H as <- <-. cbn. by rewrite (Marshal_error _ _ Hm).
Qed.

Lemma quiet_range {A} (l : list A) (body : A -> method DB unit) :
  (forall x, quiet (body x)) -> quiet (range l body).
Proof. intros H. induction l; cbn [range]; [apply quiet_ret|by apply quiet_bind]. Qed.

Lemma appendSaved_quiet now a evt : quiet (appendSaved now a evt).
Proof.
  unfold appendSaved, Append, AppendOutbox, CreateSnapshot.
  apply quiet_bind; [apply quiet_wrap, quiet_bind|intros _; apply quiet_bind].
  - by eapply quiet_marshal.
  - intros d. by eapply quiet_statement, insertEvent_law.
  - destruct (ledgerProjectionOutboxEvent evt); [|apply quiet_ret].
    apply quiet_wrap, quiet_bind; [by eapply quiet_marshal|].
    intros d. by eapply quiet_statement, insertOutbox_law.
  - intros _. case_decide; [|apply quiet_ret].
    apply quiet_wrap, quiet_bind; [by eapply quiet_marshal|].
    intros d. by eapply quiet_statement, insertSnapshot_law.
Qed.
End load.
