(* ===== verification/LedgerStoreRefine.v ===== *)
(** * The event store implements the repository of the ledger

    Saving an account derived from the stored one extends its history by the
    pending events, so that the store satisfies the contract [LedgerRepoLaws]
    on which the theorems about the ledger service rest. *)

From stdpp Require Import prelude strings gmap.
From S2P Require Import Prelude GoStrings Database Event LedgerEntity LedgerAccount LedgerAccountInv.
From S2P Require Import LedgerRepo LedgerStore LedgerStoreInv LedgerStoreSpec.

Section refine.
Context `{UC : UnicodeCase} {DB : Type} `{SQLL : LedgerSQLLaws DB}.
Context `{EJ : JSON LedgerEventData} `{EL : !JSONLaws LedgerEventData ledgerPrototype}.
Context `{SJ : JSON snapshotState}
  `{SL : !JSONLaws snapshotState (fun _ => Some ledgerAggregateType)}.
Context (now : Time).
Implicit Types (db : DB) (a b : LedgerAccountAggregate) (t : LedgerTables).
Implicit Types (es : list (Event LedgerEventData)).

(** *** Rows of saved events *)

Lemma savedRow_event evt row :
  savedRow now evt row -> stamped ledgerAggregateType evt ->
  (exists n, ledgerPrototype (EventData evt) = Some n) ->
  exists evt', toDomainEvent ledgerRegister row = Ok evt' /\ same_event evt' evt.
Proof.
  intros (data & Hm & ->) [Hty Hname] [n Hn]. destruct (ledgerPrototype_registered _ _ Hn) as [Hen Hreg].
  unfold toDomainEvent, eventRow. cbn [LedgerEventModel.AggregateType LedgerEventModel.EventName].
  rewrite Hty, Hname, Hen, Hreg. cbn [LedgerEventModel.EventData].
  rewrite (Unmarshal_Marshal _ _ _ Hn Hm). cbn. eexists. split; [reflexivity|].
  split_and!; [reflexivity|by rewrite Hty|reflexivity|by rewrite Hname, Hen|reflexivity].
Qed.

Lemma savedRows_events es rows :
  Forall2 (savedRow now) es rows -> Forall (stamped ledgerAggregateType) es ->
  Forall (fun e => exists n, ledgerPrototype (EventData e) = Some n) es ->
  exists es', toDomainEvents ledgerRegister rows = Ok es' /\ Forall2 same_event es' es.
Proof.
  intros H Hs Hn. induction H as [|e row es rows Hr _ IH].
  - exists []. by split; [|constructor].
  - apply Forall_cons in Hs as [Hs1 Hs]. apply Forall_cons in Hn as [Hn1 Hn].
    destruct (savedRow_event _ _ Hr Hs1 Hn1) as (e' & He & Hsame).
    destruct (IH Hs Hn) as (es' & Hes & Hall).
    exists (e' :: es'). cbn. rewrite He, Hes. split; [done|by constructor].
Qed.

(** *** Histories *)

(** The history of an account, which may be empty. *)
Definition history t id base es b : Prop :=
  NewLedgerAccountAggregate id = Ok base /\
  toDomainEvents ledgerRegister (rowsAt t (ledgerKey id)) = Ok es /\
  Forall (fun e => AggregateID e = id) es /\ consecutive 0 es /\
  LoadFromHistory es base = (Ok tt, b) /\
  default 0 (aggregates t !! ledgerKey id) = Z.of_nat (length es) /\
  Forall (snapshot_ok base es) (snapsAt t (ledgerKey id)).

Lemma has_history_history t id base es a : has_history t id base es a -> history t id base es a.
Proof.
  intros (H1 & H2 & _ & H4 & H5 & H6 & _ & H8 & H9). split_and!; try done. by rewrite H8.
Qed.

Lemma no_history_history t id base :
  no_history t id -> NewLedgerAccountAggregate id = Ok base -> history t id base [] base.
Proof.
  intros (H1 & H2 & H3) Hn. split_and!; try done; [by rewrite H1|rewrite H3; constructor].
Qed.

Lemma stored_history t id a :
  account_ok t id -> storedAccount t id = Some a -> exists base es, has_history t id base es a.
Proof.
  intros [Hno|(base & es & a0 & Hh)] H; [by rewrite storedAccount_none in H|].
  rewrite (storedAccount_history _ _ _ _ _ Hh) in H. injection H as <-. eauto.
Qed.

(** An account that was derived from the stored one: the events it waits to
    save continue the history. *)
Record continues t a base es b : Prop := {
  co_history : history t (accountIDOf a) base es b;
  co_type : aggregateType (Root a) = ledgerAggregateType;
  co_base : baseVersion (Root a) = Z.of_nat (length es);
  co_stamped : Forall (stamped ledgerAggregateType) (events (Root a));
  co_replay : LoadFromHistory (events (Root a)) b = (Ok tt, updRoot MarkPersisted a)
}.

Lemma derived_continues db a :
  (forall id, account_ok (tables db) id) -> ledger_wf a ->
  derived (storedAccount (tables db)) a ->
  exists base es b, continues (tables db) a base es b.
Proof.
  intros Hok Hw (b & ds & Hb & Hrun). destruct (range_ApplyChange_root _ _ _ Hrun) as (pend & Hst & Hroot).
  destruct (range_ApplyChange_replay _ _ _ Hrun) as (pend' & Hev & _ & Hload).
  assert (Hstart : exists base es, history (tables db) (accountIDOf a) base es b /\
    events (Root b) = [] /\ aggregateType (Root b) = ledgerAggregateType /\
    baseVersion (Root b) = Z.of_nat (length es)).
  { destruct (storedAccount (tables db) (accountIDOf a)) as [b0|] eqn:Hs.
    - subst b0. destruct (stored_history _ _ _ (Hok _) Hs) as (base & es & Hh).
      exists base, es. split; [by apply has_history_history|].
      destruct Hh as (Hnew & _ & _ & Hid & Hc & Hl & Hsto & _).
      destruct (NewLedgerAccountAggregate_trimmed _ _ Hnew) as [Hbase _];
        [by apply (account_trimmed _ base b)|].
      pose proof (LoadFromHistory_root 0 _ _ _ Hl Hc) as Hr. rewrite Hbase in Hr.
      specialize (Hr Hid eq_refl eq_refl). rewrite Hr. by split_and!.
    - exists b, []. destruct (Hok (accountIDOf a)) as [Hno|(? & ? & ? & Hh)];
        [|by rewrite (storedAccount_history _ _ _ _ _ Hh) in Hs].
      split; [by apply no_history_history|].
      destruct (NewLedgerAccountAggregate_trimmed _ _ Hb) as [-> _]; [apply (lw_id _ Hw)|]. done. }
  destruct Hstart as (base & es & Hh & Hevb & Htb & Hbb).
  rewrite Hevb in Hroot, Hev. cbn [app] in Hroot, Hev.
  exists base, es, b. constructor; [done|by rewrite Hroot|by rewrite Hroot| |].
  - rewrite Htb in Hst. rewrite Hroot. exact Hst.
  - rewrite Hev. by rewrite (updRoot_MarkPersisted_nil b) in Hload.
Qed.

(** *** Saving extends the history *)

Lemma same_consecutive n es es' :
  Forall2 same_event es' es -> consecutive n es -> consecutive n es'.
Proof.
  intros Hs Hc i e' He'. destruct (Forall2_lookup_l _ _ _ _ _ Hs He') as (e & He & (_ & _ & Hv & _)).
  rewrite Hv. by apply Hc.
Qed.

Lemma snapshot_ok_app base es es' s : snapshot_ok base es s -> snapshot_ok base (es ++ es') s.
Proof.
  intros (n & b & Hn & Hv & Hl & Hu). exists n, b. rewrite length_app, take_app_le by lia.
  split_and!; [lia..|done|done|done].
Qed.

Lemma save_history t t1 t' a base es b :
  let k := ledgerKey (accountIDOf a) in
  ledger_wf a -> continues t a base es b -> events (Root a) <> [] ->
  appended now a (events (Root a)) t1 t' ->
  rowsAt t1 k = rowsAt t k -> snapsAt t1 k = snapsAt t k ->
  aggregates t1 !! k = Some (CurrentVersion (Root a)) ->
  exists es', has_history t' (accountIDOf a) base (es ++ es') (updRoot MarkPersisted a).
Proof.
  intros k Hw [(Hnew & Hrows & Hid & Hc & Hl & Hag & Hsn) Hty Hb Hst Hrep] Hev
    (A1 & _ & (rows & Hsaved & A3) & (extra & Hex & A4) & _) Hr1 Hs1 Hv1.
  rewrite Hty in A3, A4. fold (accountIDOf a) (ledgerKey (accountIDOf a)) in A3, A4. fold k in A3, A4.
  pose proof (lw_root _ Hw) as (_ & _ & Hcons & Haid). rewrite Hb in Hcons.
  assert (Hproto : Forall (fun e => exists n, ledgerPrototype (EventData e) = Some n) (events (Root a))).
  { eapply Forall_impl; [eapply LoadFromHistory_postings; exact Hrep|].
    intros e (p & Hp). by eapply preview_prototype. }
  destruct (savedRows_events _ _ Hsaved Hst Hproto) as (es' & Hes' & Hsame).
  assert (Hlen : length es' = length (events (Root a))) by (by eapply Forall2_length).
  assert (Hload : LoadFromHistory (es ++ es') base = (Ok tt, updRoot MarkPersisted a)).
  { rewrite LoadFromHistory_app. apply method_bind_Ok. exists tt, b. split; [done|].
    by rewrite (LoadFromHistory_same _ _ _ Hsame). }
  assert (Hcur : CurrentVersion (Root a) = Z.of_nat (length (es ++ es')))
    by (rewrite CurrentVersion_wf, Hb, length_app by apply (lw_root _ Hw); lia).
  exists es'. split_and!; try done.
  - fold k. rewrite A3, Hr1, toDomainEvents_app. fold k in Hrows. by rewrite Hrows, Hes'.
  - intros [_ ->]%app_eq_nil. by destruct (events (Root a)).
  - apply Forall_app. split; [done|]. eapply Forall_impl; [|exact (fun e H => H)].
    apply Forall_lookup. intros i e He. destruct (Forall2_lookup_l _ _ _ _ _ Hsame He) as (e0 & He0 & (-> & _)).
    rewrite Forall_lookup in Haid. by apply (Haid i).
  - apply consecutive_app; [done|]. by eapply same_consecutive.
  - by apply MarkPersisted_stored_ok.
  - fold k. rewrite A1, Hv1. by f_equal.
  - fold k. rewrite A4. apply Forall_app. split.
    + eapply Forall_impl; [exact Hex|]. intros s (_ & Hsv & Hsm).
      exists (length (es ++ es')), (updRoot MarkPersisted a). split_and!.
      * rewrite length_app, Hlen. destruct (events (Root a)); [done|cbn; lia].
      * done.
      * by rewrite Hsv.
      * by rewrite firstn_all.
      * rewrite (Unmarshal_Marshal _ _ _ eq_refl Hsm). done.
    + rewrite Hs1. eapply Forall_impl; [exact Hsn|]. intros s. apply snapshot_ok_app.
Qed.

(** Accounts whose rows are untouched. *)
Definition same_at (k : aggregateKey) t t' : Prop :=
  rowsAt t' k = rowsAt t k /\ snapsAt t' k = snapsAt t k /\ aggregates t' !! k = aggregates t !! k.

Lemma account_ok_same t t' id :
  same_at (ledgerKey id) t t' -> account_ok t id -> account_ok t' id.
Proof.
  intros (H1 & H2 & H3). unfold account_ok, no_history, has_history. by rewrite H1, H2, H3.
Qed.

Lemma storedAccount_same t t' id :
  rowsAt t' (ledgerKey id) = rowsAt t (ledgerKey id) -> storedAccount t' id = storedAccount t id.
Proof. intros H. unfold storedAccount. by rewrite H. Qed.

(** A row at version 0 may appear where there is none. *)
Lemma account_ok_created t t' k id :
  eventTable t' = eventTable t -> snapshotTable t' = snapshotTable t ->
  aggregates t' = aggregates t \/ aggregates t' = aggregates (createRow k t) ->
  account_ok t id -> account_ok t' id.
Proof.
  intros H1 H2 H3. assert (Hr : rowsAt t' (ledgerKey id) = rowsAt t (ledgerKey id))
    by (unfold rowsAt; by rewrite H1).
  assert (Hs : snapsAt t' (ledgerKey id) = snapsAt t (ledgerKey id)) by (unfold snapsAt; by rewrite H2).
  assert (Hd : default 0 (aggregates t' !! ledgerKey id) = default 0 (aggregates t !! ledgerKey id) /\
    (is_Some (aggregates t !! ledgerKey id) ->
       aggregates t' !! ledgerKey id = aggregates t !! ledgerKey id)).
  { destruct H3 as [->| ->]; [done|]. cbn. destruct (decide (ledgerKey id = k)) as [->|Hk].
    - rewrite lookup_insert_eq. split; [done|]. intros [v Hv]. by rewrite Hv.
    - by rewrite lookup_insert_ne. }
  destruct Hd as [Hd Hsome]. intros [(N1 & N2 & N3)|(base & es & a & Hh)]; [left|right].
  - split_and!; [by rewrite Hr|by rewrite Hd|by rewrite Hs].
  - exists base, es, a. destruct Hh as (? & ? & ? & ? & ? & ? & ? & Hag & ?).
    split_and!; try done; [by rewrite Hr|by rewrite Hsome|by rewrite Hs].
Qed.

(** *** The calls of the repository *)

Definition tables_ok db : Prop := forall id, account_ok (tables db) id.

Lemma StoreSave_nothing a db r db' :
  aggregateType (Root a) = ledgerAggregateType -> events (Root a) = [] ->
  StoreSave now ledgerRegister a db = (r, db') -> r = Ok a /\ db' = db.
Proof.
  intros Hty Hev H. unfold StoreSave in H. rewrite updRoot_same_type in H by done.
  cbv zeta in H. unfold CloneEvents in H. rewrite Hev in H. by injection H as <- <-.
Qed.

Lemma StoreSave_appended a db db3 r db' t1 :
  let k := ledgerKey (accountIDOf a) in
  ledger_wf a -> aggregateType (Root a) = ledgerAggregateType ->
  Forall (stamped ledgerAggregateType) (events (Root a)) ->
  tables db3 = setVersion k (CurrentVersion (Root a)) t1 ->
  Forall (fun r => LedgerEventModel.Version r <= baseVersion (Root a)) (rowsAt t1 k) ->
  (range (events (Root a)) (appendSaved now a) ≫= fun _ => mret (updRoot MarkPersisted a)) db3
    = (Ok r, db') ->
  r = updRoot MarkPersisted a /\ appended now a (events (Root a)) (tables db3) (tables db').
Proof.
  intros k Hw Hty Hst Ht Hrows H. apply method_bind_Ok in H as ([] & db4 & H1 & H2).
  apply method_ret_Ok in H2 as [<- <-]. split; [done|].
  pose proof (lw_root _ Hw) as (_ & _ & Hcons & Haid).
  eapply appendLoop_spec; [exact H1| |exact Hcons|].
  - apply Forall_lookup. intros i e He. rewrite Forall_lookup in Haid, Hst.
    rewrite (Haid _ _ He). by destruct (Hst _ _ He) as [-> _]; rewrite Hty.
  - rewrite Hty. fold (ledgerKey (accountIDOf a)). fold k. by rewrite Ht.
Qed.

Lemma history_versions t id base es b n :
  history t id base es b -> n = Z.of_nat (length es) ->
  Forall (fun r => LedgerEventModel.Version r <= n) (rowsAt t (ledgerKey id)).
Proof.
  intros (_ & Hrows & _ & Hc & _) ->. pose proof (toDomainEvents_rows _ _ _ Hrows) as Hf.
  apply Forall_lookup. intros i r Hr. destruct (Forall2_lookup_l _ _ _ _ _ Hf Hr) as (e & He & Hre).
  rewrite (toDomainEvent_version _ _ _ Hre), (Hc _ _ He). apply lookup_lt_Some in He. lia.
Qed.

Lemma StoreSave_spec a db r db' :
  tables_ok db -> ledger_wf a -> derived (storedAccount (tables db)) a ->
  StoreSave now ledgerRegister a db = (r, db') ->
  match r with
  | Ok a' => tables_ok db' /\
      (events (Root a) = [] -> a' = a /\ db' = db) /\
      (events (Root a) <> [] -> a' = updRoot MarkPersisted a /\
         storedAccount (tables db') (accountIDOf a) = Some a' /\
         forall id, id <> accountIDOf a ->
           storedAccount (tables db') id = storedAccount (tables db) id)
  | Err e => errors_Is e "ErrAlreadyApplied" = true ->
      tables_ok db' /\ forall id, storedAccount (tables db') id = storedAccount (tables db) id
  | Panic _ => True
  end.
Proof.
  intros Hok Hw Hder H. destruct (derived_continues _ _ Hok Hw Hder) as (base & es & b & Hco).
  pose proof (co_type _ _ _ _ _ Hco) as Hty.
  destruct (decide (length (events (Root a)) = 0%nat)) as [Hev%nil_length_inv|Hev].
  { destruct (StoreSave_nothing _ _ _ _ Hty Hev H) as [-> ->]. by split_and!. }
  assert (Hne : events (Root a) <> []) by (intros E; by rewrite E in Hev).
  destruct (StoreSave_steps _ _ _ _ _ Hty Hne H)
    as [(Hr & H1 & H2 & H3)|(Hbase & t1 & db3 & (S1 & S2 & S3) & _ & Ht3 & Hrun)].
  - destruct r as [?|e|w]; [done| |done]. intros _. split.
    + intros id. eapply account_ok_created; [exact H1|exact H2|exact H3|apply Hok].
    + intros id. apply storedAccount_same. unfold rowsAt. by rewrite H1.
  - destruct r as [a'|e|w]; [| |done].
    + pose proof (history_versions _ _ _ _ _ _ (co_history _ _ _ _ _ Hco) (co_base _ _ _ _ _ Hco)) as Hvs.
      set (k := ledgerKey (accountIDOf a)) in *.
      assert (Hrows1 : rowsAt t1 k = rowsAt (tables db) k) by (unfold rowsAt; by rewrite S2).
      destruct (StoreSave_appended a db db3 a' db' t1 Hw Hty (co_stamped _ _ _ _ _ Hco) Ht3)
        as [-> Happ]; [by fold k; rewrite Hrows1|done|].
      destruct (save_history (tables db) (tables db3) (tables db') a base es b Hw Hco Hne Happ)
        as (es' & Hh).
      { fold k. rewrite Ht3. exact Hrows1. }
      { fold k. rewrite Ht3. unfold snapsAt. cbn. by rewrite S3. }
      { fold k. rewrite Ht3. cbn. by rewrite lookup_insert_eq. }
      destruct Happ as (A1 & _ & _ & _ & A5). rewrite Hty in A5.
      fold (accountIDOf a) (ledgerKey (accountIDOf a)) in A5. fold k in A5.
      assert (Hother : forall id, id <> accountIDOf a ->
        same_at (ledgerKey id) (tables db) (tables db')).
      { intros id Hid. assert (Hk : ledgerKey id <> k) by (intros E; by injection E).
        destruct (A5 _ Hk) as [R1 R2]. split_and!.
        - rewrite R1, Ht3. unfold rowsAt. cbn. by rewrite S2.
        - rewrite R2, Ht3. unfold snapsAt. cbn. by rewrite S3.
        - rewrite A1, Ht3. cbn. rewrite lookup_insert_ne by done. rewrite S1. cbn.
          by rewrite lookup_insert_ne. }
      split_and!; [|done|].
      * intros id. destruct (decide (id = accountIDOf a)) as [->|Hid]; [right; eauto|].
        eapply account_ok_same; [by apply Hother|apply Hok].
      * intros _. split; [done|]. split; [by eapply storedAccount_history|].
        intros id Hid. apply storedAccount_same. by apply Hother.
    + intros He. assert (Hq : quiet (range (events (Root a)) (appendSaved now a) ≫=
        fun _ => mret (updRoot MarkPersisted a))).
      { apply quiet_bind; [apply quiet_range; intros evt; apply appendSaved_quiet|intros; apply quiet_ret]. }
      by rewrite (Hq _ _ _ Hrun) in He.
Qed.

Lemma LoadAccount_spec id db r db' :
  tables_ok db -> LoadAccount ledgerRegister id db = (r, db') ->
  match r with
  | Ok o => db' = db /\ o = storedAccount (tables db) (TrimSpace id) /\ TrimSpace id <> ""
  | _ => True
  end.
Proof.
  intros Hok H. unfold LoadAccount in H. destruct r as [o|e|w]; [|done..]. cbv zeta in H.
  case_decide as Hid; [done|]. apply lift_bind_Ok in H as (base & Hbase & H).
  pose proof (StoreGet_spec (TrimSpace id) base db _ _ (Hok _) Hbase (TrimSpace_idem id) H) as [-> ->].
  done.
Qed.

(** ** The event store satisfies the contract of the repository *)

Program Definition EventStoreLaws : LedgerRepoLaws DB (Repo := EventStoreRepo now) := {|
  stored db id := storedAccount (tables db) id;
  repo_ok := tables_ok
|}.
Next Obligation.
  intros db id a Hok Ha. destruct (stored_history _ _ _ (Hok id) Ha) as (base & es & Hh). apply Hh.
Qed.
Next Obligation. intros db id o db' Hok H. by apply (LoadAccount_spec _ _ _ _ Hok H). Qed.
Next Obligation.
  intros db a a' db' Hok Hw Hd H. pose proof (StoreSave_spec _ _ _ _ Hok Hw Hd H) as (H1 & H2 & H3).
  split; [done|]. split; [|done]. intros He. destruct (H2 He) as [-> ->]. done.
Qed.
Next Obligation.
  intros db a e db' Hok Hw Hd H He. by apply (StoreSave_spec _ _ _ _ Hok Hw Hd H).
Qed.
End refine.
