(* ===== verification/LedgerStoreTheorems.v ===== *)
(** * Correctness of the ledger event store

    Loading is the replay of the whole history, saving and loading are inverse,
    a stale account is refused, and a transaction is posted once on an account
    whoever saves it. *)

From Stdlib Require Import Ascii.
From stdpp Require Import prelude strings gmap countable.
From S2P Require Import Prelude GoStrings Database Event BitsEncoding LedgerEntity LedgerAccount.
From S2P Require Import LedgerAccountInv LedgerAccountSpec LedgerRepo LedgerStore LedgerStoreInv.
From S2P Require Import LedgerStoreSpec LedgerStoreRefine.

(** * A database in memory for the ledger event store

    An instance of [LedgerSQL] over the contents alone, which shows that
    [LedgerSQLLaws] can hold, and on which the theorems are evaluated; and an
    encoding of events and snapshots that shows the same of [JSONLaws]. *)

(** ** An encoding *)

#[export] Instance ledgerPaymentEventData_eq_dec : EqDecision ledgerPaymentEventData.
Proof. solve_decision. Defined.
#[export] Instance ledgerTransferEventData_eq_dec : EqDecision ledgerTransferEventData.
Proof. solve_decision. Defined.
#[export] Instance LedgerEventData_eq_dec : EqDecision LedgerEventData.
Proof. solve_decision. Defined.

#[export] Program Instance PaymentEventKind_countable : Countable PaymentEventKind :=
  inj_countable (fun k => kindName k) kindOfName _.
Next Obligation. by intros []. Qed.

#[export] Program Instance ledgerPaymentEventData_countable : Countable ledgerPaymentEventData :=
  inj_countable' (fun d => (transactionID d, paymentID d, counterpartyAccountID d, currency d,
                           amount d, bookedAt d))
    (fun '(t, p, c, cur, am, at_) => mkPaymentEventData t p c cur am at_) _.
Next Obligation. by intros []. Qed.

#[export] Program Instance ledgerTransferEventData_countable : Countable ledgerTransferEventData :=
  inj_countable' (fun d => (transferTransactionID d, otherAccountID d, transferCurrency d,
                           transferAmount d, transferBookedAt d))
    (fun '(t, o, cur, am, at_) => mkTransferEventData t o cur am at_) _.
Next Obligation. by intros []. Qed.

#[export] Program Instance LedgerEventData_countable : Countable LedgerEventData :=
  inj_countable' (fun d => match d with
    | LedgerPayment k p => inl (inl (k, p))
    | EventLedgerAccountTransferredToAccount p => inl (inr (true, p))
    | EventLedgerAccountReceivedTransfer p => inl (inr (false, p))
    | NilEventData => inr None
    | OtherEventData n => inr (Some n)
    end) (fun c => match c with
    | inl (inl (k, p)) => LedgerPayment k p
    | inl (inr (true, p)) => EventLedgerAccountTransferredToAccount p
    | inl (inr (false, p)) => EventLedgerAccountReceivedTransfer p
    | inr None => NilEventData
    | inr (Some n) => OtherEventData n
    end) _.
Next Obligation. by intros []. Qed.

#[export] Program Instance Posting_countable : Countable LedgerAccountPosting :=
  inj_countable' (fun p => (Posting.TransactionID p, Posting.ReferenceType p, Posting.ReferenceID p,
                           Posting.CounterpartyAccountID p, Posting.Currency p,
                           Posting.AmountDelta p, Posting.BookedAt p))
    (fun '(t, rt, r, c, cur, d, at_) => Posting.mk t rt r c cur d at_) _.
Next Obligation. by intros []. Qed.

#[export] Instance EventBits : JSON LedgerEventData := BitsJSON ledgerPrototype.
#[export] Instance EventBitsLaws : JSONLaws LedgerEventData ledgerPrototype :=
  BitsJSONLaws ledgerPrototype.
#[export] Instance SnapshotBits : JSON snapshotState :=
  BitsJSON (fun _ => Some ledgerAggregateType).
#[export] Instance SnapshotBitsLaws :
  JSONLaws snapshotState (fun _ => Some ledgerAggregateType) := BitsJSONLaws _.

(** ** The statements, on the contents *)

Definition newest (snaps : list LedgerSnapshotModel) : list LedgerSnapshotModel :=
  match snaps with
  | [] => []
  | s :: rest =>
      [foldr (fun s m => if decide (LedgerSnapshotModel.Version m < LedgerSnapshotModel.Version s)
                         then s else m) s rest]
  end.

Definition duplicateKey : error :=
  Errorf "ERROR: duplicate key value violates unique constraint (SQLSTATE 23505)" [].

#[export] Instance MemorySQL : LedgerSQL LedgerTables := {|
  errorText e := match e with Sentinel n => n | Errorf f _ => f end;
  insertAggregate k := modify (createRow k);
  updateVersion k v v' t :=
    if decide (aggregates t !! k = Some v) then (Ok 1, setVersion k v' t) else (Ok 0, t);
  selectPosted k tid t := (Ok (option_list (posted t !! (k, tid))), t);
  insertPosted row t :=
    match posted t !! postedKey row with
    | Some _ => (Err duplicateKey, t)
    | None => (Ok tt, addPosted row t)
    end;
  selectEvents k v t := (Ok (filter (after v) (rowsAt t k)), t);
  insertEvent row t :=
    if decide (Forall (fun r => LedgerEventModel.Version r <> LedgerEventModel.Version row)
                 (rowsAt t (eventKey row)))
    then (Ok tt, addEvent row t) else (Err duplicateKey, t);
  selectSnapshot k t := (Ok (newest (snapsAt t k)), t);
  insertSnapshot s := modify (addSnapshot s);
  insertOutbox _ t := (Ok tt, t);
  sqlBeginError _ := None;
  sqlCommitError _ := None
|}.

Lemma newest_spec snaps :
  match newest snaps with
  | [] => snaps = []
  | s :: _ => s ∈ snaps /\
      Forall (fun s' => LedgerSnapshotModel.Version s' <= LedgerSnapshotModel.Version s) snaps
  end.
Proof.
  destruct snaps as [|s0 rest]; cbn; [done|].
  induction rest as [|s rest [IH1 IH2]]; cbn.
  - split; [by left|]. repeat constructor. lia.
  - apply Forall_cons_1 in IH2 as [IH2 IH3].
    set (m := foldr _ s0 rest) in *. case_decide as Hlt.
    + split; [by right; left|]. constructor; [lia|]. constructor; [lia|].
      eapply Forall_impl; [|exact IH3]. cbn. lia.
    + split; [apply elem_of_cons in IH1 as [->|IH1]; [by left|by right; right]|].
      constructor; [done|]. constructor; [lia|done].
Qed.

#[export] Program Instance MemorySQLLaws : LedgerSQLLaws LedgerTables := {| tables t := t |}.
Next Obligation. done. Qed.
Next Obligation. intros k v v' t. unfold effect. cbn. by case_decide. Qed.
Next Obligation. done. Qed.
Next Obligation.
  intros row t. unfold effect. cbn. destruct (posted t !! postedKey row); by split.
Qed.
Next Obligation. done. Qed.
Next Obligation. intros row t. unfold effect. cbn. by case_decide. Qed.
Next Obligation. intros k t. split; [done|]. apply newest_spec. Qed.
Next Obligation. done. Qed.
Next Obligation. done. Qed.

Definition emptyTables : LedgerTables := mkTables ∅ ∅ ∅ ∅.

(** ** Results *)

Section theorems.
Context `{UC : UnicodeCase} {DB : Type} `{SQLL : LedgerSQLLaws DB}.
Context `{EJ : JSON LedgerEventData} `{EL : !JSONLaws LedgerEventData ledgerPrototype}.
Context `{SJ : JSON snapshotState}
  `{SL : !JSONLaws snapshotState (fun _ => Some ledgerAggregateType)}.
Context (now : Time).
Implicit Types (db : DB) (a b : LedgerAccountAggregate) (t : LedgerTables).
Implicit Types (es : list (Event LedgerEventData)).

(** C23: loading an account that has a snapshot gives the same account as
    replaying all of its events from the start; where there are no events
    there is no account; and reading changes nothing. *)
Theorem load_is_full_replay id db o db' :
  tables_ok db -> LoadAccount ledgerRegister id db = (Ok o, db') ->
  db' = db /\
  o = match rowsAt (tables db) (ledgerKey (TrimSpace id)) with
      | [] => None
      | rows => replayRows (TrimSpace id) rows
      end.
Proof. intros Hok H. destruct (LoadAccount_spec id db _ _ Hok H) as (-> & -> & _). done. Qed.

(** C26: what is saved is what is loaded. When an account that was loaded or
    created, and changed by events, is saved, the tables remain in order, and
    loading its id answers with that account and nothing pending, while every
    other account is loaded as before. *)
Theorem save_then_load a db a' db1 id o db2 :
  tables_ok db -> ledger_wf a -> derived (storedAccount (tables db)) a -> events (Root a) <> [] ->
  StoreSave now ledgerRegister a db = (Ok a', db1) ->
  LoadAccount ledgerRegister id db1 = (Ok o, db2) ->
  tables_ok db2 /\ a' = updRoot MarkPersisted a /\
  o = if decide (TrimSpace id = accountIDOf a) then Some (updRoot MarkPersisted a)
      else storedAccount (tables db) (TrimSpace id).
Proof.
  intros Hok Hw Hd Hev Hs Hl. destruct (StoreSave_spec _ _ _ _ _ Hok Hw Hd Hs) as (Hok1 & _ & H).
  destruct (H Hev) as (-> & Hst & Hother).
  destruct (LoadAccount_spec id db1 _ _ Hok1 Hl) as (-> & -> & _). split_and!; [done..|].
  case_decide as Hid; [by rewrite Hid|]. by apply Hother.
Qed.

(** Optimistic locking. An account that was loaded at another version than
    the one that is stored is not saved: the call fails, and no event and no
    snapshot of any account has been added or removed. *)
Theorem stale_save_is_rejected a db r db' :
  aggregateType (Root a) = ledgerAggregateType -> events (Root a) <> [] ->
  default 0 (aggregates (tables db) !! ledgerKey (accountIDOf a)) <> baseVersion (Root a) ->
  StoreSave now ledgerRegister a db = (r, db') ->
  is_ok r = false /\ eventTable (tables db') = eventTable (tables db) /\
  snapshotTable (tables db') = snapshotTable (tables db).
Proof.
  intros Hty Hev Hv H.
  destruct (StoreSave_steps _ _ _ _ _ Hty Hev H) as [(H1 & H2 & H3 & _)|(Hb & _)]; [done|].
  by destruct Hv.
Qed.

(** *** Posted transactions *)

(** The unique key of the posting of an event. *)
Definition postingKey (evt : Event LedgerEventData) : option (aggregateKey * string) :=
  match previewLedgerPostingFromEvent (AggregateID evt) (EventData evt) with
  | Ok (p, true) => Some (AggregateID evt, AggregateType evt, Posting.TransactionID p)
  | _ => None
  end.

Lemma reserved_posted evt t t' :
  reserved evt t t' ->
  posted t ⊆ posted t' /\
  forall k, postingKey evt = Some k -> posted t !! k = None /\ is_Some (posted t' !! k).
Proof.
  intros (p & ok & Hp & H). unfold postingKey. rewrite Hp. destruct ok.
  - destruct H as (data & Hn & ->). split; [by apply insert_subseteq|].
    intros k [= <-]. split; [exact Hn|]. cbn. rewrite lookup_insert_eq. by eexists.
  - subst. split; [done|]. by intros k Hk.
Qed.

Lemma reservedAll_posted es t t' :
  reservedAll es t t' ->
  posted t ⊆ posted t' /\
  forall evt k, evt ∈ es -> postingKey evt = Some k ->
    posted t !! k = None /\ is_Some (posted t' !! k).
Proof.
  revert t. induction es as [|evt es IH]; intros t H; cbn in H.
  - subst. split; [done|]. by intros evt k ?%not_elem_of_nil.
  - destruct H as (t1 & H1 & H). destruct (reserved_posted _ _ _ H1) as [Hs1 Hk1].
    destruct (IH _ H) as [Hs Hk]. split; [by etrans|].
    intros e k [->|He]%elem_of_cons Hek.
    + destruct (Hk1 _ Hek) as [Hn [row Hrow]]. split; [done|]. exists row.
      by eapply lookup_weaken.
    + destruct (Hk _ _ He Hek) as [Hn Hsome]. split; [|done].
      destruct (posted t !! k) as [row|] eqn:E; [|done].
      by rewrite (lookup_weaken _ _ _ _ E Hs1) in Hn.
Qed.

Lemma appendLoop_posted a es db u db' :
  range es (appendSaved now a) db = (Ok u, db') -> posted (tables db') = posted (tables db).
Proof.
  revert db. induction es as [|e es IH]; intros db H; [by injection H as _ <-|].
  destruct u. apply range_cons_Ok in H as (db1 & H1 & H). rewrite (IH _ H).
  apply appendSaved_spec in H1 as (row & extra & _ & Hex & ->).
  by destruct (addSnapshots_spec a extra (addEvent row (tables db)) Hex) as (_ & -> & _).
Qed.

Lemma StoreSave_posted a db a' db' :
  aggregateType (Root a) = ledgerAggregateType ->
  StoreSave now ledgerRegister a db = (Ok a', db') ->
  posted (tables db) ⊆ posted (tables db') /\
  forall evt k, evt ∈ events (Root a) -> postingKey evt = Some k ->
    posted (tables db) !! k = None /\ is_Some (posted (tables db') !! k).
Proof.
  intros Hty H. destruct (decide (length (events (Root a)) = 0%nat)) as [Hev%nil_length_inv|Hev].
  { destruct (StoreSave_nothing _ _ _ _ _ Hty Hev H) as [_ ->]. split; [done|].
    rewrite Hev. by intros evt k ?%not_elem_of_nil. }
  assert (Hne : events (Root a) <> []) by (intros E; by rewrite E in Hev).
  destruct (StoreSave_steps _ _ _ _ _ Hty Hne H)
    as [(Hr & _)|(_ & t1 & db3 & _ & Hres & Ht3 & Hrun)]; [done|].
  apply method_bind_Ok in Hrun as (u & db4 & Hloop & Hret). apply method_ret_Ok in Hret as [_ <-].
  rewrite (appendLoop_posted _ _ _ _ _ Hloop), Ht3. exact (reservedAll_posted _ _ _ Hres).
Qed.

(** A sequence of saves, of any accounts by anyone, each of which returned. *)
Definition saved_step db db' : Prop :=
  exists b b', aggregateType (Root b) = ledgerAggregateType /\
    StoreSave now ledgerRegister b db = (Ok b', db').

Lemma saved_steps_posted db db' : rtc saved_step db db' -> posted (tables db) ⊆ posted (tables db').
Proof.
  induction 1 as [db|db db1 db' (b & b' & Hb & Hs) _ IH]; [done|].
  etrans; [|exact IH]. by eapply StoreSave_posted.
Qed.

(** C25: a transaction is posted once on an account, whatever the writers have
    in memory. When an account has been saved with a posting, and after any
    further saves an account is saved again, under the same id but perhaps
    loaded before the first, then no event saved by the second posts a
    transaction that an event of the first has posted. *)
Theorem transaction_is_posted_once a db a' db1 db2 b b' db3 evt evt' k :
  aggregateType (Root a) = ledgerAggregateType -> aggregateType (Root b) = ledgerAggregateType ->
  StoreSave now ledgerRegister a db = (Ok a', db1) -> rtc saved_step db1 db2 ->
  StoreSave now ledgerRegister b db2 = (Ok b', db3) ->
  evt ∈ events (Root a) -> postingKey evt = Some k ->
  evt' ∈ events (Root b) -> postingKey evt' <> Some k.
Proof.
  intros Ha Hb Hs1 Hsteps Hs2 Hevt Hk Hevt' Hk'.
  destruct (StoreSave_posted _ _ _ _ Ha Hs1) as [_ H1]. destruct (H1 _ _ Hevt Hk) as [_ [row Hrow]].
  destruct (StoreSave_posted _ _ _ _ Hb Hs2) as [_ H2]. destruct (H2 _ _ Hevt' Hk') as [Hn _].
  by rewrite (lookup_weaken _ _ _ _ Hrow (saved_steps_posted _ _ Hsteps)) in Hn.
Qed.
End theorems.

(** ** The theorems at concrete inputs *)

Section witnesses.
#[local] Existing Instance caseless_unicode.

Lemma is_ok_run {A S} (p : result A * S) : is_ok p.1 = true -> exists a, p = (Ok a, p.2).
Proof. destruct p as [[a|e|w] s]; cbn; intros [=]. by exists a. Qed.

(** Alice's account, with 5.00 USD, saved in an empty database. *)
Definition saveAlice : result LedgerAccountAggregate * LedgerTables :=
  StoreSave 7 ledgerRegister alice1 emptyTables.

Lemma emptyTables_ok : tables_ok emptyTables.
Proof. intros id. left. repeat split. Qed.

Lemma alice1_derived : derived (storedAccount (tables emptyTables)) alice1.
Proof.
  exists alice0, (EventData <$> events (Root alice1)). split; [eval_closed|].
  apply pair_fst_eq. eval_closed.
Qed.

Lemma saveAlice_Ok :
  saveAlice = (Ok (updRoot MarkPersisted alice1), saveAlice.2) /\ tables_ok saveAlice.2.
Proof.
  assert (is_ok saveAlice.1 = true) as Hok by eval_closed.
  assert (events (Root alice1) <> []) as Hev by eval_closed.
  destruct (is_ok_run _ Hok) as [a' Hs].
  pose proof (StoreSave_spec 7 alice1 emptyTables (Ok a') saveAlice.2 emptyTables_ok
    (ledger_reachable_wf _ alice1_reachable) alice1_derived Hs) as (Ht & _ & H).
  destruct (H Hev) as [-> _]. by split.
Qed.

Lemma save_then_load_witness :
  events (Root alice1) <> [] /\
  (LoadAccount ledgerRegister " alice" saveAlice.2).1 = Ok (Some (updRoot MarkPersisted alice1)) /\
  tables_ok saveAlice.2.
Proof.
  assert (events (Root alice1) <> []) as Hev by eval_closed.
  assert (is_ok (LoadAccount ledgerRegister " alice" saveAlice.2).1 = true) as Hok by eval_closed.
  destruct (is_ok_run _ Hok) as [o Ho].
  destruct (save_then_load 7 alice1 emptyTables _ saveAlice.2 " alice" o
    (LoadAccount ledgerRegister " alice" saveAlice.2).2 emptyTables_ok
    (ledger_reachable_wf _ alice1_reachable) alice1_derived Hev (proj1 saveAlice_Ok) Ho)
    as (H1 & _ & H3).
  split; [exact Hev|]. split; [|exact H1]. rewrite Ho. cbn [fst]. f_equal. exact H3.
Defined.

Lemma load_is_full_replay_witness :
  tables_ok saveAlice.2 /\
  exists o, LoadAccount ledgerRegister "alice" saveAlice.2 = (Ok o, saveAlice.2) /\
    o = match rowsAt saveAlice.2 (ledgerKey "alice") with
        | [] => None
        | rows => replayRows "alice" rows
        end.
Proof.
  split; [exact (proj2 saveAlice_Ok)|].
  assert (is_ok (LoadAccount ledgerRegister "alice" saveAlice.2).1 = true) as Hok by eval_closed.
  destruct (is_ok_run _ Hok) as [o Ho].
  destruct (load_is_full_replay "alice" saveAlice.2 o _ (proj2 saveAlice_Ok) Ho) as [H1 H2].
  exists o. split; [rewrite Ho; by rewrite H1|exact H2].
Defined.

(** Another payment to Alice, on a copy of the account from before the save. *)
Definition aliceStale : LedgerAccountAggregate :=
  (runCommand (CmdBookPayment "tx9" "pay9" "ledger:clearing:provider:stripe" "usd" 300 1) alice0).2.
Definition saveStale : result LedgerAccountAggregate * LedgerTables :=
  StoreSave 8 ledgerRegister aliceStale saveAlice.2.

Lemma stale_save_is_rejected_witness :
  default 0 (aggregates saveAlice.2 !! ledgerKey "alice") = 1 /\ baseVersion (Root aliceStale) = 0 /\
  is_ok saveStale.1 = false /\ eventTable saveStale.2 = eventTable saveAlice.2.
Proof.
  split; [eval_closed|]. split; [eval_closed|].
  destruct (stale_save_is_rejected 8 aliceStale saveAlice.2 saveStale.1 saveStale.2) as (H1 & H2 & _);
    [eval_closed|eval_closed|eval_closed|apply surjective_pairing|].
  split; [exact H1|exact H2].
Defined.

(** The same payment again, on the account as it was saved. *)
Definition aliceAgain : LedgerAccountAggregate :=
  (runCommand (CmdBookPayment "tx9" "pay9" "ledger:clearing:provider:stripe" "usd" 300 1)
     (updRoot MarkPersisted alice1)).2.
Definition saveAgain : result LedgerAccountAggregate * LedgerTables :=
  StoreSave 9 ledgerRegister aliceAgain saveAlice.2.

Lemma transaction_is_posted_once_witness :
  is_ok saveAlice.1 = true /\ is_ok saveAgain.1 = true /\
  match events (Root alice1), events (Root aliceAgain) with
  | e :: _, e' :: _ => exists k, postingKey e = Some k /\ postingKey e' <> Some k
  | _, _ => False
  end.
Proof.
  assert (is_ok saveAgain.1 = true) as Hok by eval_closed.
  destruct (is_ok_run _ Hok) as [b' Hs'].
  split; [by rewrite (proj1 saveAlice_Ok)|]. split; [exact Hok|].
  assert (bool_decide (is_Some (events (Root alice1) !! 0%nat ≫= postingKey)) = true) as Hk by eval_closed.
  assert (length (events (Root aliceAgain)) = 1%nat) as Hl by eval_closed.
  pose proof (fun e e' k => transaction_is_posted_once 7 alice1 emptyTables _ saveAlice.2 saveAlice.2
    aliceAgain b' saveAgain.2 e e' k ltac:(eval_closed) ltac:(eval_closed) (proj1 saveAlice_Ok)
    (rtc_refl _ _) Hs') as H.
  destruct (events (Root alice1)) as [|e l]; [discriminate Hk|].
  destruct (events (Root aliceAgain)) as [|e' l']; [discriminate Hl|].
  apply bool_decide_eq_true in Hk as [k Hk]. exists k. split; [exact Hk|].
  apply (H e e' k); [by left|exact Hk|by left].
Defined.
End witnesses.
