(* ===== verification/LedgerService.v ===== *)
(** * The ledger service (ledger/application/service/ledger_service.go)

    Transfers between accounts and the recording of ledger events, each in
    one transaction of the repository. The accounts a transaction has loaded
    are the shared store of the code: a map from account id to aggregate
    whose entries the calls mutate, so that two names of one account (the
    receiver of a transfer that is also the fee account) are one aggregate. *)

From stdpp Require Import prelude strings gmap.
From S2P Require Import Prelude GoStrings Event LedgerEntity LedgerAccount LedgerRepo.

Definition ErrValidation := Sentinel "ErrValidation".
Definition ErrInsufficientFunds := Sentinel "ErrInsufficientFunds".

(** [fmt.Errorf("%w: %w", outer, err)]. *)
Definition wrap2 (outer err : error) : error := Errorf "%w: %w" [outer; err].

Module TransferToAccountCommand.
Record t := mk {
  TransactionID : string;
  FromAccountID : string;
  ToAccountID : string;
  Currency : string;
  Amount : Z;
  FeeAmount : Z;
  FeeAccountID : string
}.
End TransferToAccountCommand.
Notation TransferToAccountCommand := TransferToAccountCommand.t.

Module RecordPaymentCommand.
(** [RecordPaymentSucceededCommand]; [RecordPaymentReversedCommand] has one
    more field, [ReversalType]. *)
Record t := mk {
  PaymentID : string;
  TransactionID : string;
  ClearingAccountKey : string;
  CreditAccountID : string;
  Currency : string;
  Amount : Z
}.
End RecordPaymentCommand.
Notation RecordPaymentCommand := RecordPaymentCommand.t.

(** [RecordPaymentReconciliationFailedCommand]; the event
    [LedgerPaymentReconciliationFailedEvent] has the same fields. *)
Module ReconciliationFailure.
Record t := mk {
  PaymentID : string;
  TransactionID : string;
  Provider : string;
  ClearingAccountKey : string;
  CreditAccountID : string;
  Currency : string;
  Amount : Z;
  FeeAmount : Z;
  ProviderAmount : Z;
  Reason : string;
  FailedAt : Time
}.
End ReconciliationFailure.
Notation ReconciliationFailure := ReconciliationFailure.t.

Definition LedgerEvents : Type := list (Event LedgerEventData).

(** An account id with the posting expected on it. *)
Definition expectedLedgerPosting : Type := string * LedgerAccountPosting.

Notation loadedLedgerAccounts := (gmap string LedgerAccountAggregate).

Definition debitLedgerEventNameForPaymentReversal (paymentEventName : string) : string :=
  let name := TrimSpace paymentEventName in
  if decide (name = EventPaymentRefunded) then kindName WithdrawFromRefund
  else if decide (name = EventPaymentChargeback) then kindName WithdrawFromChargeback
  else "".

Definition creditLedgerEventNameForPaymentReversal (paymentEventName : string) : string :=
  let name := TrimSpace paymentEventName in
  if decide (name = EventPaymentRefunded) then kindName DepositFromRefund
  else if decide (name = EventPaymentChargeback) then kindName DepositFromChargeback
  else "".

Section service.
Context `{UC : UnicodeCase} {DB : Type} `{Repo : LedgerRepo DB}.

(** The state of a transaction: the database and the loaded accounts. *)
Definition TxState : Type := DB * loadedLedgerAccounts.

(** A call of the repository, and a call on a loaded account. Calling a
    method on a nil account gives [ErrLedgerAccountAggregateRequired]. *)
Definition onDB {A} (m : method DB A) : method TxState A := fun '(db, accounts) =>
  let '(r, db') := m db in (r, (db', accounts)).

Definition account (accounts : loadedLedgerAccounts) (accountID : string) :
    option LedgerAccountAggregate :=
  accounts !! TrimSpace accountID.

Definition onAccount {A} (accountID : string) (m : method LedgerAccountAggregate A) :
    method TxState A := fun '(db, accounts) =>
  match account accounts accountID with
  | None => (Err ErrLedgerAccountAggregateRequired, (db, accounts))
  | Some a => let '(r, a') := m a in (r, (db, <[TrimSpace accountID := a']> accounts))
  end.

Definition loadLedgerAccount (accountID : string) : method DB LedgerAccountAggregate :=
  account ← Load accountID;
  match account with
  | Some a => mret a
  | None => lift (NewLedgerAccountAggregate accountID)
  end.

Definition loadLedgerAccounts (accountIDs : list string) : method TxState unit :=
  range accountIDs (fun accountID =>
    let accountID := TrimSpace accountID in
    if decide (accountID = "") then mret tt else
    '(_, accounts) ← get;
    match (accounts : loadedLedgerAccounts) !! accountID with
    | Some _ => mret tt
    | None =>
        a ← onDB (loadLedgerAccount accountID);
        modify (fun '(db, accounts) => (db, <[accountID := a]> accounts))
    end).

(** The number of expected postings that are already there, unless one of
    them differs. *)
Fixpoint matchedPostings (accounts : loadedLedgerAccounts)
    (expected : list expectedLedgerPosting) : result nat :=
  match expected with
  | [] => Ok 0%nat
  | (accountID, posting) :: rest =>
      match account accounts accountID with
      | None => matchedPostings accounts rest
      | Some a =>
          match PostedTransaction a (Posting.TransactionID posting) with
          | None => matchedPostings accounts rest
          | Some existing =>
              if SameLedgerAccountPosting existing posting
              then n ← matchedPostings accounts rest; Ok (S n)
              else Err (Errorf "existing ledger posting mismatch for account_id=%s transaction_id=%s" [])
          end
      end
  end.

Definition ensureLedgerPostingsState (accounts : loadedLedgerAccounts)
    (expected : list expectedLedgerPosting) : result bool :=
  matchedCount ← matchedPostings accounts expected;
  if decide (matchedCount = 0%nat) then Ok false
  else if decide (matchedCount <> length expected) then
    Err (Errorf "ledger posting state became inconsistent for transaction_id=%s" [])
  else Ok true.

(** Saves a loaded account; [true] when its postings were already applied. *)
Definition saveLedgerAccount (accountID : string) : method TxState bool :=
  fun '(db, accounts) =>
  match account accounts accountID with
  | None => (Err (Errorf "ledger account aggregate is nil" []), (db, accounts))
  | Some a =>
      match Save a db with
      | (Ok a', db') => (Ok false, (db', <[TrimSpace accountID := a']> accounts))
      | (Err e, db') =>
          if errors_Is e "ErrAlreadyApplied" then (Ok true, (db', accounts))
          else (Err e, (db', accounts))
      | (Panic w, db') => (Panic w, (db', accounts))
      end
  end.

(** Runs the body of a transaction, which starts with no account loaded. *)
Definition inTransaction (body : method TxState unit) : method DB unit :=
  WithTransaction (fun db => let '(r, (db', _)) := body (db, ∅) in (r, db')).

(** An insufficient balance is reported as [ErrInsufficientFunds]. *)
Definition insufficientFunds (err : error) : error :=
  if errors_Is err "ErrLedgerAccountInsufficientFunds"
  then wrap2 ErrInsufficientFunds err else err.

(** ** Transfers *)

Definition transferBookingInput (command : TransferToAccountCommand) : TransferBooking :=
  TransferBooking.mk (TransferToAccountCommand.FromAccountID command)
    (TransferToAccountCommand.ToAccountID command)
    (TransferToAccountCommand.Currency command)
    (TransferToAccountCommand.Amount command).

Definition feeBookingInput (command : TransferToAccountCommand) : TransferBooking :=
  TransferBooking.mk (TransferToAccountCommand.FromAccountID command)
    (TrimSpace (TransferToAccountCommand.FeeAccountID command))
    (TransferToAccountCommand.Currency command)
    (TransferToAccountCommand.FeeAmount command).

(** The booking and the transaction of the fee, when there is one. *)
Definition feeTransactionOf (now : Time) (command : TransferToAccountCommand) :
    result (option LedgerTransaction) :=
  if decide (0 < TransferToAccountCommand.FeeAmount command) then
    feeBooking ← map_err (wrap2 ErrValidation) (NewTransferBooking (feeBookingInput command));
    feeTransaction ← map_err (wrap2 ErrValidation)
      (NewLedgerTransaction now
         (TrimSpace (TransferToAccountCommand.TransactionID command) +:+ ":fee")
         (TransferBooking_LedgerEntries feeBooking));
    Ok (Some feeTransaction)
  else Ok None.

(** The two postings of a transfer of [amount] under [transaction]. *)
Definition transferPostings (transaction : LedgerTransaction) (fromID toID : string)
    (amount : Z) : result (list expectedLedgerPosting) :=
  fromPosting ← NewLedgerAccountTransferOutPosting (LedgerAccountTransferPostingInput.mk
    fromID (LedgerTransaction.TransactionID transaction) toID
    (LedgerTransaction.Currency transaction) amount (LedgerTransaction.CreatedAt transaction));
  toPosting ← NewLedgerAccountTransferInPosting (LedgerAccountTransferPostingInput.mk
    toID (LedgerTransaction.TransactionID transaction) fromID
    (LedgerTransaction.Currency transaction) amount (LedgerTransaction.CreatedAt transaction));
  Ok [(fromID, fromPosting); (toID, toPosting)].

Definition transferOut (transaction : LedgerTransaction) (fromID toID : string) (amount : Z) :
    method TxState bool :=
  wrap_err insufficientFunds (onAccount fromID (LedgerAccount.TransferToAccount
    (LedgerTransaction.TransactionID transaction) toID
    (LedgerTransaction.Currency transaction) amount (LedgerTransaction.CreatedAt transaction))).

Definition transferIn (transaction : LedgerTransaction) (toID fromID : string) (amount : Z) :
    method TxState bool :=
  onAccount toID (ReceiveTransfer (LedgerTransaction.TransactionID transaction) fromID
    (LedgerTransaction.Currency transaction) amount (LedgerTransaction.CreatedAt transaction)).

(** The transaction of [TransferToAccount]. *)
Definition transferBody (command : TransferToAccountCommand) (booking : TransferBooking)
    (transaction : LedgerTransaction) (feeTransaction : option LedgerTransaction)
    (expectedPostings : list expectedLedgerPosting) : method TxState unit :=
  let fromID := TransferBooking.FromAccountID booking in
  let toID := TransferBooking.ToAccountID booking in
  let amount := TransferBooking.Amount booking in
  let feeAccountID := TrimSpace (TransferToAccountCommand.FeeAccountID command) in
  let feeAmount := TransferToAccountCommand.FeeAmount command in
  _ ← loadLedgerAccounts
        ([fromID; toID] ++ match feeTransaction with Some _ => [feeAccountID] | None => [] end);
  '(_, accounts) ← get;
  alreadyApplied ← lift (ensureLedgerPostingsState accounts expectedPostings);
  if alreadyApplied : bool then mret tt else
  fromApplied ← transferOut transaction fromID toID amount;
  toApplied ← transferIn transaction toID fromID amount;
  feeApplied ←
    match feeTransaction with
    | None => mret false
    | Some feeTransaction =>
        feeApplied ← transferOut feeTransaction fromID feeAccountID feeAmount;
        feeReceived ← transferIn feeTransaction feeAccountID
          (TransferToAccountCommand.FromAccountID command) feeAmount;
        if decide (feeApplied <> feeReceived) then
          raise (Errorf "ledger fee transfer became inconsistent for transaction_id=%s" [])
        else mret feeApplied
    end;
  if decide (fromApplied <> toApplied) then
    raise (Errorf "ledger transfer posting became inconsistent for transaction_id=%s" [])
  else if negb fromApplied && negb feeApplied then mret tt else
  alreadyApplied ← saveLedgerAccount fromID;
  if alreadyApplied : bool then mret tt else
  alreadyApplied ← saveLedgerAccount toID;
  if alreadyApplied : bool then
    raise (Errorf "ledger transfer duplicate state became inconsistent for transaction_id=%s" [])
  else
  match feeTransaction with
  | None => mret tt
  | Some _ =>
      alreadyApplied ← saveLedgerAccount feeAccountID;
      if alreadyApplied : bool then
        raise (Errorf "ledger fee duplicate state became inconsistent for transaction_id=%s" [])
      else mret tt
  end.
End service.

Module LedgerService.
Section ledger_service.
Context `{UC : UnicodeCase} {DB : Type} `{Repo : LedgerRepo DB}.

(** [TransferToAccount]. [now] and [nowFee] are the instants at which the
    transaction and the fee transaction are created. *)
Definition TransferToAccount (now nowFee : Time) (command : TransferToAccountCommand) :
    method DB LedgerTransaction :=
  booking ← lift (map_err (wrap2 ErrValidation)
              (NewTransferBooking (transferBookingInput command)));
  let feeAccountID := TrimSpace (TransferToAccountCommand.FeeAccountID command) in
  let feeAmount := TransferToAccountCommand.FeeAmount command in
  if decide (feeAmount < 0) then
    raise (Errorf "%w: fee_amount must be greater than or equal to 0" [ErrValidation])
  else if decide (0 < feeAmount /\ feeAccountID = "") then
    raise (Errorf "%w: fee_account_id is required when fee_amount > 0" [ErrValidation])
  else
  transaction ← lift (map_err (wrap2 ErrValidation)
    (NewLedgerTransaction now (TrimSpace (TransferToAccountCommand.TransactionID command))
       (TransferBooking_LedgerEntries booking)));
  feeTransaction ← lift (feeTransactionOf nowFee command);
  postings ← lift (transferPostings transaction (TransferBooking.FromAccountID booking)
                     (TransferBooking.ToAccountID booking) (TransferBooking.Amount booking));
  feePostings ← lift
    match feeTransaction with
    | None => Ok []
    | Some feeTransaction =>
        transferPostings feeTransaction (TransferToAccountCommand.FromAccountID command)
          feeAccountID feeAmount
    end;
  _ ← inTransaction (transferBody command booking transaction feeTransaction
                       (postings ++ feePostings));
  mret match feeTransaction with
  | None => transaction
  | Some fee =>
      LedgerTransaction.mk (LedgerTransaction.TransactionID transaction)
        (LedgerTransaction.Currency transaction) (LedgerTransaction.CreatedAt transaction)
        (LedgerTransaction.Entries transaction ++ LedgerTransaction.Entries fee)
  end.

(** ** Recording ledger events *)

(** The distinct account ids of the events, in order of first occurrence. *)
Fixpoint eventAccountIDs (evts : LedgerEvents) (seen : gset string) :
    result (list string) :=
  match evts with
  | [] => Ok []
  | evt :: rest =>
      let accountID := TrimSpace (AggregateID evt) in
      if decide (accountID = "") then Err (Errorf "ledger event aggregate_id is required" [])
      else if decide (accountID ∈ seen) then eventAccountIDs rest seen
      else ids ← eventAccountIDs rest ({[accountID]} ∪ seen); Ok (accountID :: ids)
  end.

(** The loop that applies the events: [seen] holds the accounts that are not
    in the save order yet. Gives the number of applied events and the save
    order. *)
Fixpoint applyEvents (evts : LedgerEvents) (seen : gset string) :
    method (TxState (DB := DB)) (nat * list string) :=
  match evts with
  | [] => mret (0%nat, [])
  | evt :: rest =>
      let accountID := TrimSpace (AggregateID evt) in
      '(_, accounts) ← get;
      match account accounts accountID with
      | None => raise (Errorf "ledger aggregate not loaded: %s" [])
      | Some _ =>
          applied ← onAccount accountID (ApplyPostingEvent (EventData evt));
          '(n, order) ← applyEvents rest (seen ∖ {[accountID]});
          mret (if applied : bool then S n else n,
                if decide (accountID ∈ seen) then accountID :: order else order)
      end
  end.

Definition recordBody (evts : LedgerEvents) : method TxState unit :=
  accountIDs ← lift (eventAccountIDs evts ∅);
  _ ← loadLedgerAccounts accountIDs;
  '(appliedCount, saveOrder) ← applyEvents evts (list_to_set accountIDs);
  if decide (appliedCount = 0%nat) then mret tt
  else if decide (appliedCount <> length evts) then
    raise (Errorf "ledger event application became inconsistent" [])
  else
  range saveOrder (fun accountID =>
    alreadyApplied ← saveLedgerAccount accountID;
    if alreadyApplied : bool then
      raise (Errorf "ledger duplicate state became inconsistent for aggregate_id=%s" [])
    else mret tt).

Definition RecordLedgerEvents (evts : LedgerEvents) : method DB unit :=
  if decide (length evts = 0%nat) then mret tt else inTransaction (recordBody evts).

Fixpoint ledgerPaymentEventsFromPostings (inputs : list expectedLedgerPosting) :
    result LedgerEvents :=
  match inputs with
  | [] => Ok []
  | (accountID, posting) :: rest =>
      evt ← NewLedgerAccountEventFromPosting accountID posting;
      match evt with
      | None => Err (Errorf "unsupported ledger posting reference_type=%s" [])
      | Some evt => evts ← ledgerPaymentEventsFromPostings rest; Ok (evt :: evts)
      end
  end.

(** The events of the two legs of a payment booking. *)
Definition bookingEvents (transaction : LedgerTransaction)
    (paymentID debitID creditID debitType creditType : string) (amount : Z) :
    result LedgerEvents :=
  debitPosting ← NewLedgerAccountPaymentPosting (LedgerAccountPostingInput.mk
    debitID (LedgerTransaction.TransactionID transaction) debitType paymentID creditID
    (LedgerTransaction.Currency transaction) (neg64 amount)
    (LedgerTransaction.CreatedAt transaction));
  creditPosting ← NewLedgerAccountPaymentPosting (LedgerAccountPostingInput.mk
    creditID (LedgerTransaction.TransactionID transaction) creditType paymentID debitID
    (LedgerTransaction.Currency transaction) amount
    (LedgerTransaction.CreatedAt transaction));
  ledgerPaymentEventsFromPostings [(debitID, debitPosting); (creditID, creditPosting)].

Definition RecordPaymentSucceeded (now : Time) (command : RecordPaymentCommand) :
    method DB unit :=
  booking ← lift (map_err (wrap2 ErrValidation) (NewPaymentSucceededBooking
    (PaymentSucceededBookingInput.mk (RecordPaymentCommand.PaymentID command)
       (RecordPaymentCommand.TransactionID command)
       (RecordPaymentCommand.ClearingAccountKey command)
       (RecordPaymentCommand.CreditAccountID command)
       (RecordPaymentCommand.Currency command) (RecordPaymentCommand.Amount command))));
  transaction ← lift (map_err (wrap2 ErrValidation)
    (NewLedgerTransaction now (PaymentSucceededBooking_LedgerTransactionID booking)
       (PaymentSucceededBooking_LedgerEntries booking)));
  evts ← lift (bookingEvents transaction (PaymentSucceededBooking.PaymentID booking)
    (PaymentSucceededBooking.DebitAccountID booking)
    (PaymentSucceededBooking.CreditAccountID booking)
    (kindName WithdrawFromIntent) (kindName DepositFromIntent)
    (PaymentSucceededBooking.Amount booking));
  RecordLedgerEvents evts.

Definition RecordPaymentReversed (now : Time) (command : RecordPaymentCommand)
    (reversalType : string) : method DB unit :=
  booking ← lift (map_err (wrap2 ErrValidation) (NewPaymentReversalBooking
    (PaymentReversalBookingInput.mk (RecordPaymentCommand.PaymentID command)
       (RecordPaymentCommand.TransactionID command)
       (RecordPaymentCommand.ClearingAccountKey command)
       (RecordPaymentCommand.CreditAccountID command)
       (RecordPaymentCommand.Currency command) (RecordPaymentCommand.Amount command)
       reversalType)));
  transaction ← lift (map_err (wrap2 ErrValidation)
    (NewLedgerTransaction now (PaymentReversalBooking_LedgerTransactionID booking)
       (PaymentReversalBooking_LedgerEntries booking)));
  evts ← lift (bookingEvents transaction (PaymentReversalBooking.PaymentID booking)
    (PaymentReversalBooking.DebitAccountID booking)
    (PaymentReversalBooking.CreditAccountID booking)
    (debitLedgerEventNameForPaymentReversal (PaymentReversalBooking.ReversalType booking))
    (creditLedgerEventNameForPaymentReversal (PaymentReversalBooking.ReversalType booking))
    (PaymentReversalBooking.Amount booking));
  RecordLedgerEvents evts.

(** ** Reconciliation failures *)

(** [RecordPaymentReconciliationFailed]: an event is appended to the outbox
    store of the repository, if it has one. *)
Definition RecordPaymentReconciliationFailed (now : Time)
    (outbox : option (Store DB ReconciliationFailure)) (command : ReconciliationFailure) :
    method DB unit :=
  let paymentID := TrimSpace (ReconciliationFailure.PaymentID command) in
  let paymentID :=
    if decide (paymentID = "") then TrimSpace (ReconciliationFailure.TransactionID command)
    else paymentID in
  if decide (paymentID = "") then
    raise (Errorf "%w: payment_id is required" [ErrValidation])
  else
  let failedAt := UTC (ReconciliationFailure.FailedAt command) in
  let failedAt := if IsZero failedAt then UTC now else failedAt in
  let reason := TrimSpace (ReconciliationFailure.Reason command) in
  let reason :=
    if decide (reason = "") then "ledger payment reconciliation failed" else reason in
  match outbox with
  | None => raise (Errorf "ledger reconciliation failure publisher is not configured" [])
  | Some append =>
      append (mkEvent 0 paymentID "LedgerPaymentReconciliation" 0
        "EventLedgerPaymentReconciliationFailed"
        (ReconciliationFailure.mk paymentID
           (TrimSpace (ReconciliationFailure.TransactionID command))
           (TrimSpace (ReconciliationFailure.Provider command))
           (TrimSpace (ReconciliationFailure.ClearingAccountKey command))
           (TrimSpace (ReconciliationFailure.CreditAccountID command))
           (TrimSpace (ReconciliationFailure.Currency command))
           (ReconciliationFailure.Amount command) (ReconciliationFailure.FeeAmount command)
           (ReconciliationFailure.ProviderAmount command) reason failedAt)
        (Unix failedAt))
  end.
End ledger_service.
End LedgerService.
