(* ===== verification/LedgerServiceInv.v ===== *)
(** * Transactions of the ledger service: views and invariant

    A transaction of the service is followed on the postings of every account
    ([postingsIn]: those of the loaded aggregate, or the stored ones). Loading
    changes nothing, applying a posting adds it to one account, and saving an
    account makes the database agree with the loaded aggregate. *)

From stdpp Require Import prelude strings gmap.
From S2P Require Import Prelude GoStrings Event LedgerEntity LedgerAccount LedgerAccountInv LedgerAccountSpec LedgerRepo LedgerService.

(** ** Posting batches *)

(** The postings of every account. *)
Definition LedgerView : Type := string -> gmap string LedgerAccountPosting.

Definition viewPost (ip : expectedLedgerPosting) (v : LedgerView) : LedgerView := fun id =>
  if decide (id = ip.1) then <[Posting.TransactionID ip.2 := ip.2]> (v id) else v id.

Definition viewPosts (ips : list expectedLedgerPosting) (v : LedgerView) : LedgerView :=
  foldl (fun v ip => viewPost ip v) v ips.

(** The posting is new on its account and does not overdraw it. *)
Definition postable (v : LedgerView) (ip : expectedLedgerPosting) : Prop :=
  v ip.1 !! Posting.TransactionID ip.2 = None /\
  ~ (Posting.AmountDelta ip.2 < 0 /\
     requiresNonNegativeBalance (Posting.ReferenceType ip.2) = true /\
     add64 (wrap64 (postedTotal (Posting.Currency ip.2) (v ip.1))) (Posting.AmountDelta ip.2) < 0).

(** Each posting can be posted when its turn comes. *)
Fixpoint freshPosts (ips : list expectedLedgerPosting) (v : LedgerView) : Prop :=
  match ips with
  | [] => True
  | ip :: rest => postable v ip /\ freshPosts rest (viewPost ip v)
  end.

(** What a batch adds to the balance of an account in a currency. *)
Fixpoint batchDelta (ips : list expectedLedgerPosting) (id cur : string) : Z :=
  match ips with
  | [] => 0
  | ip :: rest =>
      (if decide (id = ip.1) then postedIn cur ip.2 else 0) + batchDelta rest id cur
  end.

(** The posting is there already, up to its booking time. *)
Definition alreadyPosted (v : LedgerView) (ip : expectedLedgerPosting) : Prop :=
  exists q, v ip.1 !! Posting.TransactionID ip.2 = Some q /\
    SameLedgerAccountPosting q ip.2 = true.

Lemma viewPost_ext ip v v' :
  (forall id, v id = v' id) -> forall id, viewPost ip v id = viewPost ip v' id.
Proof. intros H id. unfold viewPost. by rewrite H. Qed.

Lemma viewPosts_ext ips v v' :
  (forall id, v id = v' id) -> forall id, viewPosts ips v id = viewPosts ips v' id.
Proof.
  revert v v'. induction ips as [|ip ips IH]; intros v v' H; [done|].
  apply IH. by apply viewPost_ext.
Qed.

Lemma freshPosts_ext ips v v' :
  (forall id, v id = v' id) -> freshPosts ips v -> freshPosts ips v'.
Proof.
  revert v v'. induction ips as [|ip ips IH]; intros v v' H; [done|].
  intros [H1 H2]. split; [unfold postable in *; by rewrite <- !H|]. eapply IH; [|exact H2]. by apply viewPost_ext.
Qed.

Lemma postedTotal_viewPosts ips v id cur :
  freshPosts ips v ->
  postedTotal cur (viewPosts ips v id) = postedTotal cur (v id) + batchDelta ips id cur.
Proof.
  revert v. induction ips as [|ip ips IH]; intros v Hf; cbn [batchDelta]; [cbn; lia|].
  destruct Hf as [[Hn _] Hf]. change (viewPosts (ip :: ips) v) with (viewPosts ips (viewPost ip v)).
  rewrite IH by done. unfold viewPost. case_decide; subst; [|lia].
  rewrite postedTotal_insert by done. lia.
Qed.

(** A posting of a batch that was fresh is there afterwards. *)
Lemma freshPosts_lookup ips v id tid p :
  freshPosts ips v -> v id !! tid = Some p -> viewPosts ips v id !! tid = Some p.
Proof.
  revert v. induction ips as [|ip ips IH]; intros v Hf Hp; [done|].
  destruct Hf as [[Hn _] Hf]. apply IH; [done|]. unfold viewPost. case_decide; [subst|done].
  rewrite lookup_insert_ne; [done|]. intros He. by rewrite He, Hp in Hn.
Qed.

Lemma freshPosts_posted ips v ip :
  freshPosts ips v -> ip ∈ ips ->
  viewPosts ips v ip.1 !! Posting.TransactionID ip.2 = Some ip.2.
Proof.
  revert v. induction ips as [|ip' ips IH]; intros v Hf Hin; [by apply elem_of_nil in Hin|].
  destruct Hf as [[Hn _] Hf]. apply elem_of_cons in Hin as [->|Hin]; [|by apply IH].
  apply (freshPosts_lookup ips); [done|]. unfold viewPost. rewrite decide_True by done.
  apply lookup_insert_eq.
Qed.

Lemma SameLedgerAccountPosting_refl' p : SameLedgerAccountPosting p p = true.
Proof. by apply bool_decide_eq_true. Qed.

Lemma freshPosts_already ips v :
  freshPosts ips v -> Forall (alreadyPosted (viewPosts ips v)) ips.
Proof.
  intros Hf. apply Forall_forall. intros ip Hin. exists ip.2.
  split; [by apply freshPosts_posted|apply SameLedgerAccountPosting_refl'].
Qed.

(** ** The invariant of a transaction *)

Section tx.
Context {DB : Type} `{Laws : LedgerRepoLaws DB}.
Implicit Types (db : DB) (accts : loadedLedgerAccounts) (a : LedgerAccountAggregate).

Definition postingsIn db accts : LedgerView := fun id =>
  match accts !! id with Some a => PostedTransactions a | None => postingsOf db id end.

(** The database already shows what is loaded of the account. *)
Definition synced db accts (id : string) : Prop := postingsIn db accts id = postingsOf db id.

Definition account_ok (n : nat) db (id : string) a : Prop :=
  accountIDOf a = id /\ ledger_wf a /\ derived (stored db) a /\ version_room n (Root a).

Definition tx_ok (n : nat) (st : TxState) : Prop :=
  repo_ok st.1 /\ forall id a, st.2 !! id = Some a -> account_ok n st.1 id a.

(** [m] is a command that posts [p] on the account [id]. *)
Definition posts (m : method LedgerAccountAggregate bool) (id : string)
    (p : LedgerAccountPosting) : Prop :=
  exists ev, previewLedgerPostingFromEvent id ev = Ok (p, true) /\
    forall a, accountIDOf a = id -> exists msg, m a = postEvent msg p ev a.

Lemma version_room_NewLedgerAccount n id a :
  NewLedgerAccountAggregate id = Ok a -> Z.of_nat n <= int64_max -> version_room n (Root a).
Proof. intros [-> _]%NewLedgerAccountAggregate_Ok Hn. unfold version_room. cbn. lia. Qed.

Lemma derived_base db a base :
  match stored db (accountIDOf base) with
  | Some b => a = b | None => NewLedgerAccountAggregate (accountIDOf base) = Ok a end ->
  accountIDOf a = accountIDOf base -> derived (stored db) a.
Proof. intros H Hid. exists a, []. rewrite Hid. done. Qed.

Lemma derived_step acc a ev a' :
  derived acc a -> ApplyChange ev a = (Ok tt, a') -> accountIDOf a' = accountIDOf a ->
  derived acc a'.
Proof.
  intros (base & evs & Hb & Hr) Hap Hid. exists base, (evs ++ [ev]). rewrite Hid.
  split; [done|]. apply range_snoc_Ok. eauto.
Qed.

(** An account with no pending event is the one that was derived from. *)
Lemma derived_unsaved acc a :
  derived acc a -> events (Root a) = [] ->
  match acc (accountIDOf a) with
  | Some b => events (Root b) = [] -> a = b
  | None => NewLedgerAccountAggregate (accountIDOf a) = Ok a
  end.
Proof.
  intros (base & evs & Hb & Hr) He. apply range_ApplyChange_replay in Hr as (es & Hes & Hlen & Hload).
  rewrite He in Hes. symmetry in Hes. apply app_nil in Hes as [Hbe ->].
  destruct evs; [|done].
  unfold LoadFromHistory in Hload. cbn [range] in Hload.
  rewrite !updRoot_MarkPersisted_nil in Hload by done.
  apply method_ret_Ok in Hload as [_ ->]. destruct (acc _); by subst.
Qed.

(** *** Loading *)

Lemma loadLedgerAccount_Ok n db id a db' :
  repo_ok db -> repo_room n db -> trimmed id -> loadLedgerAccount id db = (Ok a, db') ->
  db' = db /\ account_ok n db id a /\ PostedTransactions a = postingsOf db id.
Proof.
  intros Hok [Hn Hroom] Ht H. unfold loadLedgerAccount in H. go_step.
  destruct (Load_Ok _ _ _ _ Hok H0) as (-> & -> & _). rewrite Ht in H. clear H0.
  unfold postingsOf. destruct (stored db id) as [b|] eqn:Hb.
  - go_inv. destruct (stored_stored_ok _ _ _ Hok Hb) as (Hw & Hid & _).
    split; [done|]. split; [|done]. split; [done|]. split; [done|].
    split; [|by eapply Hroom]. apply (derived_base _ _ a); [by rewrite Hid, Hb|done].
  - unfold lift in H. destruct (NewLedgerAccountAggregate id) as [b| |] eqn:Hnew; [|done..].
    go_inv. pose proof (NewLedgerAccountAggregate_wf _ _ Hnew) as Hw.
    assert (accountIDOf a = id) as Hid.
    { apply NewLedgerAccountAggregate_Ok in Hnew as [-> _]. exact Ht. }
    split; [done|]. split.
    + split; [done|]. split; [done|].
      split; [|by eapply version_room_NewLedgerAccount].
      apply (derived_base _ _ a); [by rewrite Hid, Hb|done].
    + by apply NewLedgerAccountAggregate_Ok in Hnew as [-> _].
Qed.

Lemma loadLedgerAccounts_Ok n ids st u st' :
  tx_ok n st -> repo_room n st.1 -> (forall id, synced st.1 st.2 id) ->
  loadLedgerAccounts ids st = (Ok u, st') ->
  st'.1 = st.1 /\ tx_ok n st' /\ (forall id, synced st'.1 st'.2 id) /\
  (forall id, is_Some (st.2 !! id) -> is_Some (st'.2 !! id)) /\
  (forall id, id ∈ ids -> TrimSpace id <> "" -> is_Some (st'.2 !! TrimSpace id)).
Proof.
  revert st. induction ids as [|id ids IH]; intros [db accts] Hok Hroom Hs H.
  { unfold loadLedgerAccounts in H. cbn in H. go_inv.
    do 4 (split; [done|]). intros id Hid. by apply elem_of_nil in Hid. }
  unfold loadLedgerAccounts in H. cbn [range] in H. go_step.
  assert (s.1 = db /\ tx_ok n s /\ (forall id, synced s.1 s.2 id) /\
    (forall id, is_Some (accts !! id) -> is_Some (s.2 !! id)) /\
    (TrimSpace id <> "" -> is_Some (s.2 !! TrimSpace id))) as (Hdb & Hok' & Hs' & Hmono & Hin).
  { clear IH H. revert H0. cbv zeta. case_decide as Hid; [intros; by go_inv|].
    intros H. unfold get in H. go_step. go_step. destruct (accts !! TrimSpace id) eqn:Ha.
    { go_inv. do 4 (split; [done|]). intros _. by eexists. }
    go_step. unfold onDB in H0. destruct (loadLedgerAccount (TrimSpace id) db) as [[b| |] db1] eqn:Hb;
      simplify_eq. unfold modify in H. go_step.
    destruct Hok as [Hr Hl].
    destruct (loadLedgerAccount_Ok _ _ _ _ _ Hr Hroom (TrimSpace_trimmed id) Hb) as (-> & Hac & Hp).
    split; [done|]. split; [split; [done|]|split; [|split]].
    - cbn [snd]. intros id' a' [[<- <-]|[_ H']]%lookup_insert_Some; [done|by apply Hl].
    - intros id'. specialize (Hs id'). unfold synced, postingsIn in *. cbn [fst snd] in *.
      rewrite lookup_insert. case_decide; [by subst|exact Hs].
    - cbn [snd]. intros id' Hid'. rewrite lookup_insert. by case_decide.
    - cbn [snd]. intros _. rewrite lookup_insert_eq. by eexists. }
  destruct s as [db1 accts1]. cbn in Hdb. subst db1. apply IH in H as (? & ? & ? & Hm & Hi); [|done..].
  split; [done|]. split; [done|]. split; [done|]. split; [by auto|].
  intros id' [->|Hid']%elem_of_cons Hne; auto.
Qed.

(** *** Posting *)

Lemma recorded_account_ok n db id ev p a :
  account_ok (S n) db id a -> previewLedgerPostingFromEvent id ev = Ok (p, true) ->
  PostedTransactions a !! Posting.TransactionID p = None -> ensurePostingAllowed a p = Ok tt ->
  account_ok n db id (recorded ev p a).
Proof.
  intros (<- & Hw & Hd & Hr) Hp Hn He.
  destruct (preview_Ok _ _ _ Hp) as (Hok & _). destruct (lw_id _ Hw) as [Ht _].
  rewrite Ht in Hok. pose proof (version_room_le (S n) 1 _ ltac:(lia) Hr) as Hr1.
  split; [done|]. split; [by apply recorded_wf|].
  split; [|by apply version_room_append].
  eapply derived_step; [done|by apply (ApplyChange_recorded _ p)|done].
Qed.

(** What a command that posts [p] does to a loaded account. *)
Lemma onAccount_posts n id p m db accts :
  tx_ok (S n) (db, accts) -> posts m (TrimSpace id) p ->
  onAccount id m (db, accts) =
    match accts !! TrimSpace id with
    | None => (Err ErrLedgerAccountAggregateRequired, (db, accts))
    | Some a =>
        match PostedTransactions a !! Posting.TransactionID p with
        | Some q =>
            ((m a).1, (db, accts))
        | None =>
            match ensurePostingAllowed a p with
            | Ok _ => (Ok true, (db, <[TrimSpace id := (m a).2]> accts))
            | Err e => (Err e, (db, accts))
            | Panic w => (Panic w, (db, accts))
            end
        end
    end.
Proof.
  intros [_ Hl] (ev & Hp & Hm). unfold onAccount, account.
  destruct (accts !! TrimSpace id) as [a|] eqn:Ha; [|done].
  destruct (Hl _ _ Ha) as (Hid & Hw & _). destruct (Hm a Hid) as [msg ->].
  rewrite <- Hid in Hp. rewrite postEvent_spec by done.
  destruct (PostedTransactions a !! _) as [q|].
  - destruct (SameLedgerAccountPosting q p); cbn; by rewrite insert_id.
  - destruct (ensurePostingAllowed a p); cbn; first [done | by rewrite insert_id].
Qed.

Lemma onAccount_posts_Ok n id p m db accts b st' :
  tx_ok (S n) (db, accts) -> posts m (TrimSpace id) p ->
  onAccount id m (db, accts) = (Ok b, st') ->
  let v := postingsIn db accts in
  st'.1 = db /\ tx_ok n st' /\
  if b : bool
  then postable v (TrimSpace id, p) /\
       forall id', postingsIn db st'.2 id' = viewPost (TrimSpace id, p) v id'
  else st'.2 = accts /\ alreadyPosted v (TrimSpace id, p).
Proof.
  intros Htx Hposts H. pose proof Htx as [Hr Hl]. destruct Hposts as (ev & Hp & Hm).
  unfold onAccount, account in H. destruct (accts !! TrimSpace id) as [a|] eqn:Ha; [|done].
  destruct (Hl _ _ Ha) as (Hid & Hw & Hd & Hroom). destruct (Hm a Hid) as [msg Hma].
  rewrite Hma in H. pose proof Hp as Hp'. rewrite <- Hid in Hp. rewrite postEvent_spec in H by done.
  assert (postingsIn db accts (TrimSpace id) = PostedTransactions a) as Hv
    by (unfold postingsIn; by rewrite Ha).
  assert (forall k id a, account_ok (S k) db id a -> account_ok k db id a) as Hle.
  { intros k i x (? & ? & ? & Hx). split; [done|]. split; [done|]. split; [done|].
    eapply version_room_le; [|done]. lia. }
  cbv zeta. unfold alreadyPosted, postable. cbn [fst snd]. rewrite Hv.
  destruct (PostedTransactions a !! _) as [q|] eqn:Hq.
  - destruct (SameLedgerAccountPosting q p) eqn:Hsame; [|done]. simplify_eq. cbn.
    rewrite insert_id by done. split; [done|]. split; [|eauto].
    split; [done|]. intros i x Hx. apply Hle. by apply Hl.
  - destruct (ensurePostingAllowed a p) as [[]|e|w] eqn:He; [|done..]. simplify_eq. cbn [fst snd].
    split; [done|]. split.
    + split; [done|]. cbn. intros i x [[<- <-]|[_ Hx]]%lookup_insert_Some.
      * by apply recorded_account_ok.
      * apply Hle. by apply Hl.
    + split; [split; [done|]|].
      { rewrite <- (lw_balance _ Hw). destruct (preview_Ok _ _ _ Hp) as (Hok & _).
        destruct (lw_id _ Hw) as [Ht _]. rewrite Ht in Hok.
        destruct (ensurePostingAllowed_spec a p Hw Hok) as [[_ Hno]|[(e & He' & _) _]];
          [done|by rewrite He' in He]. }
      intros id'. unfold postingsIn, viewPost. cbn [fst snd].
      rewrite lookup_insert. case_decide as E1; case_decide as E2; subst; try done.
      rewrite Ha. done.
Qed.

(** The commands the service runs post the posting of their arguments. *)
Lemma posts_ApplyPostingEvent id ev p :
  previewLedgerPostingFromEvent id ev = Ok (p, true) -> posts (ApplyPostingEvent ev) id p.
Proof.
  intros Hp. exists ev. split; [done|]. intros a <-. eexists. unfold ApplyPostingEvent.
  by rewrite Hp.
Qed.

Lemma ApplyPostingEvent_Ok id ev a b a' :
  accountIDOf a = id -> ApplyPostingEvent ev a = (Ok b, a') ->
  exists p, previewLedgerPostingFromEvent id ev = Ok (p, true).
Proof.
  intros <-. unfold ApplyPostingEvent.
  destruct (previewLedgerPostingFromEvent _ ev) as [[p []]|e|w]; [|done..]. eauto.
Qed.

Lemma posts_TransferToAccount id tid to_ cur amt at_ p :
  TrimSpace id = id ->
  NewLedgerAccountTransferOutPosting
    (LedgerAccountTransferPostingInput.mk id tid to_ cur amt at_) = Ok p ->
  posts (LedgerAccount.TransferToAccount tid to_ cur amt at_) id p.
Proof.
  intros Hid E. pose proof E as E'.
  apply NewLedgerAccountPaymentPosting_Ok in E as [Hok Hp]. cbn in Hok, Hp.
  eexists. split; [|intros a <-; eexists; unfold LedgerAccount.TransferToAccount; by rewrite E'].
  apply (transfer_preview id p amt); [done|rewrite Hp; apply internal_transfer_trimmed|by rewrite Hp..].
Qed.

Lemma posts_ReceiveTransfer id tid from_ cur amt at_ p :
  TrimSpace id = id ->
  NewLedgerAccountTransferInPosting
    (LedgerAccountTransferPostingInput.mk id tid from_ cur amt at_) = Ok p ->
  posts (ReceiveTransfer tid from_ cur amt at_) id p.
Proof.
  intros Hid E. pose proof E as E'.
  apply NewLedgerAccountPaymentPosting_Ok in E as [Hok Hp]. cbn in Hok, Hp.
  eexists. split; [|intros a <-; eexists; unfold ReceiveTransfer; by rewrite E'].
  apply (transfer_preview id p amt); [done|rewrite Hp; apply internal_transfer_trimmed|by rewrite Hp..].
Qed.

(** *** Saving *)

Lemma unsaved_synced n db accts id a :
  tx_ok n (db, accts) -> accts !! id = Some a -> events (Root a) = [] -> synced db accts id.
Proof.
  intros [Hr Hl] Ha He. destruct (Hl _ _ Ha) as (Hid & _ & Hd & _).
  pose proof (derived_unsaved _ _ Hd He) as H. rewrite Hid in H. cbn [fst] in H.
  unfold synced, postingsIn, postingsOf. rewrite Ha. destruct (stored db id) as [b|] eqn:Hb.
  - destruct (stored_stored_ok _ _ _ Hr Hb) as (_ & _ & Hbe). by rewrite (H Hbe).
  - by apply NewLedgerAccountAggregate_Ok in H as [-> _].
Qed.

Lemma account_ok_ext n db db' id a :
  (stored db' id = stored db id) -> account_ok n db id a -> account_ok n db' id a.
Proof.
  intros Hs (Hid & Hw & (base & evs & Hb & Hr) & Hroom). split; [done|]. split; [done|].
  split; [|done]. exists base, evs. rewrite Hid in *. by rewrite Hs.
Qed.

Lemma postingsOf_ext db db' id : stored db' id = stored db id -> postingsOf db' id = postingsOf db id.
Proof. unfold postingsOf. by intros ->. Qed.

Lemma saveLedgerAccount_Ok n id db accts b st' :
  tx_ok n (db, accts) -> saveLedgerAccount id (db, accts) = (Ok b, st') ->
  if b : bool
  then repo_ok st'.1 /\ forall id', stored st'.1 id' = stored db id'
  else tx_ok n st' /\ synced st'.1 st'.2 (TrimSpace id) /\
       (forall id', postingsIn st'.1 st'.2 id' = postingsIn db accts id') /\
       (forall id', synced db accts id' -> synced st'.1 st'.2 id').
Proof.
  intros Htx H. pose proof Htx as [Hr Hl]. unfold saveLedgerAccount, account in H.
  destruct (accts !! TrimSpace id) as [a|] eqn:Ha; [|done].
  destruct (Hl _ _ Ha) as (Hid & Hw & Hd & Hroom).
  destruct (Save a db) as [[a'|e|w] db'] eqn:Hs; [| |done].
  2:{ destruct (errors_Is e "ErrAlreadyApplied") eqn:He; [|done]. simplify_eq.
      by apply (Save_AlreadyApplied db a e db'). }
  simplify_eq. cbn [fst snd].
  destruct (Save_Ok _ _ _ _ Hr Hw Hd Hs) as (Hr' & Hno & Hyes).
  destruct (decide (events (Root a) = [])) as [He|He].
  - destruct (Hno He) as [-> Hst]. rewrite insert_id by done.
    assert (forall id', postingsIn db' accts id' = postingsIn db accts id') as Hin.
    { intros id'. unfold postingsIn. rewrite (postingsOf_ext db db') by done. done. }
    assert (forall id', synced db accts id' -> synced db' accts id') as Hsy.
    { intros id' Hx. unfold synced. by rewrite Hin, (postingsOf_ext db db'). }
    split; [|split; [|done]].
    + split; [done|]. intros i x Hx. eapply account_ok_ext; [apply Hst|by apply Hl].
    + apply Hsy. by eapply unsaved_synced.
  - destruct (Hyes He) as (-> & Hst & Hother). rewrite Hid in *.
    set (a' := updRoot MarkPersisted a) in *.
    assert (forall id', postingsIn db' (<[TrimSpace id := a']> accts) id' =
              postingsIn db accts id') as Hin.
    { intros id'. unfold postingsIn. rewrite lookup_insert. case_decide as E; [by rewrite <- E, Ha|].
      rewrite (postingsOf_ext db db') by auto. done. }
    split; [split; [done|]|split; [|split; [done|]]]; cbn [fst snd].
    + intros i x [[<- <-]|[Hne Hx]]%lookup_insert_Some.
      * split; [rewrite <- Hid; apply accountIDOf_MarkPersisted|].
        split; [by apply MarkPersisted_ledger_wf|]. split.
        { apply (derived_base _ _ a'); [|done].
          unfold a'. rewrite accountIDOf_MarkPersisted, Hid, Hst. done. }
        unfold a', updRoot. rewrite Root_setRoot.
        apply version_room_MarkPersisted; [apply (lw_root _ Hw)|done].
      * eapply account_ok_ext; [by apply Hother|by apply Hl].
    + unfold synced. rewrite Hin. unfold postingsIn, postingsOf. by rewrite Ha, Hst.
    + intros id' Hx. unfold synced. rewrite Hin. destruct (decide (id' = TrimSpace id)) as [->|Hne].
      * unfold postingsIn, postingsOf. by rewrite Ha, Hst.
      * rewrite (postingsOf_ext db db') by auto. exact Hx.
Qed.

(** ** Transfers *)

Lemma PaymentPosting_account_trim acc tid ty ref cp cur d at_ :
  NewLedgerAccountPaymentPosting (LedgerAccountPostingInput.mk (TrimSpace acc) tid ty ref cp cur d at_) =
  NewLedgerAccountPaymentPosting (LedgerAccountPostingInput.mk acc tid ty ref cp cur d at_).
Proof.
  unfold NewLedgerAccountPaymentPosting. cbn. unfold mbind, result_bind.
  destruct (newLedgerPosting _ _ _ _ _ _ _) as [p| |]; [|done..].
  unfold normalizeLedgerAccountPosting. by rewrite TrimSpace_idem.
Qed.

(** One leg of the transfer [t], against the account [cp]. *)
Definition transferLeg (t : LedgerTransaction) (cp : string) (delta : Z) : LedgerAccountPosting :=
  let tid := TrimSpace (LedgerTransaction.TransactionID t) in
  Posting.mk tid LedgerReferenceInternalTransfer tid (TrimSpace cp)
    (UpperTrim (LedgerTransaction.Currency t)) delta (LedgerTransaction.CreatedAt t).

Lemma transferPostings_Ok t from to_ amt ps :
  transferPostings t from to_ amt = Ok ps ->
  exists pf pt, ps = [(from, pf); (to_, pt)] /\
    posts (LedgerAccount.TransferToAccount (LedgerTransaction.TransactionID t) to_
             (LedgerTransaction.Currency t) amt (LedgerTransaction.CreatedAt t))
      (TrimSpace from) pf /\
    posts (ReceiveTransfer (LedgerTransaction.TransactionID t) from
             (LedgerTransaction.Currency t) amt (LedgerTransaction.CreatedAt t))
      (TrimSpace to_) pt /\
    Posting.TransactionID pf = TrimSpace (LedgerTransaction.TransactionID t) /\
    Posting.TransactionID pt = TrimSpace (LedgerTransaction.TransactionID t) /\
    Posting.TransactionID pt <> "" /\
    Posting.Currency pf = UpperTrim (LedgerTransaction.Currency t) /\
    Posting.Currency pt = UpperTrim (LedgerTransaction.Currency t) /\
    Posting.AmountDelta pf = neg64 amt /\ Posting.AmountDelta pt = amt /\
    pf = transferLeg t to_ (neg64 amt) /\ pt = transferLeg t from amt.
Proof.
  unfold transferPostings. intros H. go_inv. exists a, a0. split; [done|].
  split; [|split].
  - apply posts_TransferToAccount; [apply TrimSpace_idem|].
    unfold NewLedgerAccountTransferOutPosting, transferPosting in *. cbn in *.
    by rewrite PaymentPosting_account_trim.
  - apply posts_ReceiveTransfer; [apply TrimSpace_idem|].
    unfold NewLedgerAccountTransferInPosting, transferPosting in *. cbn in *.
    by rewrite PaymentPosting_account_trim.
  - apply NewLedgerAccountPaymentPosting_Ok in H0 as [_ ->].
    apply NewLedgerAccountPaymentPosting_Ok in H1 as [Hok ->]. cbn.
    do 2 (split; [done|]). split; [apply (po_transaction _ _ Hok)|].
    unfold transferLeg. rewrite internal_transfer_trimmed. done.
Qed.

Lemma onAccount_fresh n id p m db accts b st' :
  tx_ok (S n) (db, accts) -> posts m (TrimSpace id) p ->
  postingsIn db accts (TrimSpace id) !! Posting.TransactionID p = None ->
  onAccount id m (db, accts) = (Ok b, st') ->
  b = true /\ st'.1 = db /\ tx_ok n st' /\ postable (postingsIn db accts) (TrimSpace id, p) /\
  forall id', postingsIn db st'.2 id' = viewPost (TrimSpace id, p) (postingsIn db accts) id'.
Proof.
  intros Htx Hp Hn H. destruct (onAccount_posts_Ok _ _ _ _ _ _ _ _ Htx Hp H) as (Hdb & Htx' & Hb).
  destruct b.
  - by destruct Hb.
  - destruct Hb as (_ & q & Hq & _). cbn [fst snd] in Hq. by rewrite Hn in Hq.
Qed.

(** Both legs of a transfer whose postings are new. *)
Lemma transferLegs_Ok n t from from' to_ amt pf pt db accts b1 b2 st1 st2 :
  tx_ok (S (S n)) (db, accts) -> TrimSpace from' = TrimSpace from ->
  transferPostings t from to_ amt = Ok [(from, pf); (to_, pt)] ->
  transferOut t from' to_ amt (db, accts) = (Ok b1, st1) ->
  transferIn t to_ from amt st1 = (Ok b2, st2) ->
  TrimSpace from <> TrimSpace to_ ->
  postingsIn db accts (TrimSpace from) !! Posting.TransactionID pf = None ->
  postingsIn db accts (TrimSpace to_) !! Posting.TransactionID pt = None ->
  b1 = true /\ b2 = true /\ st2.1 = db /\ tx_ok n st2 /\
  freshPosts [(TrimSpace from, pf); (TrimSpace to_, pt)] (postingsIn db accts) /\
  forall id, postingsIn db st2.2 id =
    viewPosts [(TrimSpace from, pf); (TrimSpace to_, pt)] (postingsIn db accts) id.
Proof.
  intros Htx Hfrom Hps H1%wrap_err_Ok H2 Hne Hn1 Hn2. destruct st1 as [db1 accts1].
  apply transferPostings_Ok in Hps as (pf' & pt' & Heq & Hp1 & Hp2 & _). injection Heq as <- <-.
  rewrite <- Hfrom in Hp1, Hn1.
  destruct (onAccount_fresh _ _ _ _ _ _ _ _ Htx Hp1 Hn1 H1) as (-> & Hdb & Htx1 & Ha1 & Hv1).
  cbn [fst snd] in Hdb, Hv1. subst db1.
  assert (postingsIn db accts1 (TrimSpace to_) !! Posting.TransactionID pt = None) as Hn2'.
  { rewrite Hv1. unfold viewPost. by rewrite decide_False by (cbn; congruence). }
  destruct (onAccount_fresh _ _ _ _ _ _ _ _ Htx1 Hp2 Hn2' H2) as (-> & Hdb & Htx2 & Ha2 & Hv2).
  cbn [fst snd] in *. rewrite <- Hfrom. do 4 (split; [done|]). split.
  { split; [done|]. split; [|done]. unfold postable in *. by rewrite <- !Hv1. }
  intros id. rewrite Hv2.
  apply (viewPosts_ext [_]). exact Hv1.
Qed.
End tx.
