(* ===== verification/LedgerServiceSpec.v ===== *)
(** * The ledger service: theorems

    Recording events and transferring money are atomic and idempotent; a
    transfer moves exactly the amount and the fee, out of a balance that
    covers both. All theorems are proved for every repository that satisfies
    the contract [LedgerRepoLaws]. *)

From stdpp Require Import prelude strings gmap.
From S2P Require Import Prelude GoStrings Event LedgerEntity LedgerAccount LedgerAccountInv LedgerAccountSpec LedgerRepo LedgerService LedgerServiceInv.

Import LedgerService.

(** ** Recording events *)

Section record.
Context {DB : Type} `{Laws : LedgerRepoLaws DB}.
Implicit Types (db : DB) (accts : loadedLedgerAccounts) (ips : list expectedLedgerPosting).

(** The account and the posting an event stands for. *)
Definition event_posting (evt : Event LedgerEventData) (ip : expectedLedgerPosting) : Prop :=
  ip.1 = TrimSpace (AggregateID evt) /\
  previewLedgerPostingFromEvent ip.1 (EventData evt) = Ok (ip.2, true).

Lemma event_posting_unique evts ips ips' :
  Forall2 event_posting evts ips -> Forall2 event_posting evts ips' -> ips = ips'.
Proof.
  intros H. revert ips'. induction H as [|evt ip evts ips [H1 H2] _ IH]; intros ips' H';
    apply Forall2_cons_inv_l in H' || apply Forall2_nil_inv_l in H'; [done|].
  destruct H' as (ip' & k' & [H1' H2'] & Hk & ->). f_equal; [|by apply IH].
  rewrite H1', <- H1 in H2'. destruct ip, ip'. cbn in *. rewrite H2 in H2'. by simplify_eq.
Qed.

Lemma viewPosts_other ips v id :
  (forall ip, ip ∈ ips -> ip.1 <> id) -> viewPosts ips v id = v id.
Proof.
  revert v. induction ips as [|ip ips IH]; intros v H; [done|].
  change (viewPosts (ip :: ips) v) with (viewPosts ips (viewPost ip v)).
  rewrite IH by (intros; apply H; by apply elem_of_cons; right).
  unfold viewPost. rewrite decide_False; [done|]. intros ->. by eapply (H ip); [left|].
Qed.

Lemma eventAccountIDs_Ok evts seen ids evt :
  eventAccountIDs evts seen = Ok ids -> evt ∈ evts ->
  TrimSpace (AggregateID evt) ∈ seen \/ TrimSpace (AggregateID evt) ∈ ids.
Proof.
  revert seen ids. induction evts as [|e evts IH]; intros seen ids H Hin;
    [by apply elem_of_nil in Hin|].
  cbn [eventAccountIDs] in H. cbv zeta in H. case_decide as Hne; [done|].
  apply elem_of_cons in Hin as [->|Hin].
  - case_decide; [by left|]. right. go_inv. by left.
  - case_decide as Hs; [by eapply IH|]. apply result_bind_Ok in H as (r & H0 & H). go_inv.
    destruct (IH _ _ H0 Hin) as [Hx|Hx].
    + apply elem_of_union in Hx as [Hx%elem_of_singleton|Hx]; [right; rewrite Hx; left|by left].
    + right. by right.
Qed.

(** What the applying loop gives: all the events are new, or none is, or the
    count shows a mixture. *)
Lemma applyEvents_Ok evts seen db accts k order st' :
  tx_ok (length evts) (db, accts) ->
  applyEvents evts seen (db, accts) = (Ok (k, order), st') ->
  let v := postingsIn db accts in
  exists ips, Forall2 event_posting evts ips /\ st'.1 = db /\ tx_ok 0 st' /\
    (k <= length evts)%nat /\
    (k = length evts -> freshPosts ips v /\ forall id, postingsIn db st'.2 id = viewPosts ips v id) /\
    (k = 0%nat -> st'.2 = accts /\ Forall (alreadyPosted v) ips) /\
    (forall ip, ip ∈ ips -> ip.1 ∈ seen -> ip.1 ∈ order).
Proof.
  cbv zeta. revert seen accts k order. induction evts as [|evt evts IH];
    intros seen accts k order Htx H; cbn [applyEvents] in H; cbv zeta in H.
  { apply method_ret_Ok in H as [Heq <-]. simplify_eq. exists []. split; [constructor|].
    split; [done|]. split; [exact Htx|]. split; [done|]. split; [done|].
    split; [done|]. intros ip Hip. by apply elem_of_nil in Hip. }
  apply method_bind_Ok in H as ([db0 accts0] & s & H1 & H). unfold get in H1. simplify_eq.
  destruct (account accts0 (TrimSpace (AggregateID evt))) as [a|] eqn:Ha; [|done].
  apply method_bind_Ok in H as (applied & [db1 accts1] & H1 & H).
  apply method_bind_Ok in H as ([n order'] & s2 & H2 & H). apply method_ret_Ok in H as [Heq <-].
  set (id := TrimSpace (AggregateID evt)) in *.
  assert (exists p, previewLedgerPostingFromEvent id (EventData evt) = Ok (p, true)) as [p Hp].
  { unfold onAccount in H1. rewrite Ha in H1.
    destruct (ApplyPostingEvent (EventData evt) a) as [r a'] eqn:Hap. simplify_eq.
    eapply ApplyPostingEvent_Ok; [|exact Hap]. unfold account in Ha.
    destruct (proj2 Htx _ _ Ha) as [-> _]. unfold id. by rewrite TrimSpace_idem. }
  assert (TrimSpace id = id) as Hid by apply TrimSpace_idem.
  destruct (onAccount_posts_Ok _ id p _ _ _ _ _ Htx
    ltac:(rewrite Hid; by apply posts_ApplyPostingEvent) H1) as (Hdb & Htx1 & Hb).
  cbn [fst snd] in Hdb, Hb. subst db1. rewrite Hid in Hb.
  destruct (IH _ _ _ _ Htx1 H2) as (ips & Hf & Hdb2 & Htx2 & Hle & Hall & Hnone & Hord).
  exists ((id, p) :: ips). split; [by constructor|]. split; [done|]. split; [done|].
  injection Heq as <- <-. split; [by destruct applied; cbn [length]; lia|].
  split; [|split].
  - destruct applied; cbn [length]; [|lia]. intros Hk. destruct Hb as [Hn Hv].
    destruct (Hall ltac:(lia)) as [Hfr Hv2]. split.
    + split; [done|]. eapply freshPosts_ext; [exact Hv|done].
    + intros id'. rewrite Hv2. by apply (viewPosts_ext ips).
  - destruct applied; [done|]. intros Hk. destruct Hb as [-> Hal].
    destruct (Hnone Hk) as [Hacc Hals]. split; [done|]. by constructor.
  - intros ip Hip Hseen. apply elem_of_cons in Hip as [->|Hip]; cbn [fst] in *.
    + rewrite decide_True by done. left.
    + destruct (decide (ip.1 = id)) as [He|He].
      { rewrite He in *. rewrite decide_True by done. left. }
      assert (ip.1 ∈ order') by (apply Hord; [done|]; set_solver).
      case_decide; [by right|done].
Qed.

(** Saving every account of the save order. *)
Lemma saveAll_Ok order st u st' :
  tx_ok 0 st ->
  range order (fun accountID =>
    alreadyApplied ← saveLedgerAccount accountID;
    if alreadyApplied : bool then
      raise (Errorf "ledger duplicate state became inconsistent for aggregate_id=%s" [])
    else mret tt) st = (Ok u, st') ->
  tx_ok 0 st' /\
  (forall id, postingsIn st'.1 st'.2 id = postingsIn st.1 st.2 id) /\
  (forall id, synced st.1 st.2 id -> synced st'.1 st'.2 id) /\
  (forall id, id ∈ order -> synced st'.1 st'.2 (TrimSpace id)).
Proof.
  revert st. induction order as [|id order IH]; intros [db accts] Htx H.
  { cbn [range] in H. apply method_ret_Ok in H as [_ <-].
    split; [done|]. split; [done|]. split; [done|].
    intros id Hid. by apply elem_of_nil in Hid. }
  destruct u. apply range_cons_Ok in H as (st1 & H1 & H).
  apply method_bind_Ok in H1 as (b & st2 & H1 & H2).
  pose proof (saveLedgerAccount_Ok _ _ _ _ _ _ Htx H1) as Hs.
  destruct b; [done|]. apply method_ret_Ok in H2 as [_ <-].
  destruct Hs as (Htx2 & Hsy & Hv & Hkeep).
  destruct (IH _ Htx2 H) as (Htx' & Hv' & Hkeep' & Hord).
  split; [done|]. split; [intros i; by rewrite Hv', Hv|].
  split; [intros i Hi; apply Hkeep', Hkeep; done|].
  intros i [->|Hi]%elem_of_cons; [by apply Hkeep'|by apply Hord].
Qed.

Lemma inTransaction_Ok body db u db' :
  inTransaction body db = (Ok u, db') -> exists accts, body (db, ∅) = (Ok u, (db', accts)).
Proof.
  unfold inTransaction. intros H%WithTransaction_Ok.
  destruct (body (db, ∅)) as [r [db1 accts]] eqn:E. simplify_eq. eauto.
Qed.

Lemma inTransaction_atomic (body : method (TxState (DB := DB)) unit) : atomic (inTransaction body).
Proof. apply WithTransaction_atomic. Qed.

Lemma tx_start n db : repo_ok db -> tx_ok n (db, ∅) /\ forall id, synced db ∅ id.
Proof.
  intros H. split; [split; [done|]|].
  - intros id a Ha. cbn in Ha. by rewrite lookup_empty in Ha.
  - intros id. unfold synced, postingsIn. by rewrite lookup_empty.
Qed.

Lemma postingsIn_synced db accts :
  (forall id, synced db accts id) -> forall id, postingsIn db accts id = postingsOf db id.
Proof. done. Qed.

(** The effect of a batch of postings on a database. *)
Definition batchApplied ips db db' : Prop :=
  freshPosts ips (postingsOf db) /\
  forall id, postingsOf db' id = viewPosts ips (postingsOf db) id.

Lemma batchApplied_balance ips db db' id cur :
  repo_ok db -> repo_ok db' -> batchApplied ips db db' ->
  storedBalance db' id cur = wrap64 (storedBalance db id cur + batchDelta ips id cur).
Proof.
  intros Hok Hok' [Hf Hv]. rewrite !storedBalance_postings by done.
  rewrite Hv, postedTotal_viewPosts by done. by rewrite wrap64_add_l.
Qed.

Lemma recordBody_Ok evts db u st' :
  repo_ok db -> repo_room (length evts) db -> recordBody evts (db, ∅) = (Ok u, st') ->
  exists ips, Forall2 event_posting evts ips /\ repo_ok st'.1 /\
    (st'.1 = db /\ Forall (alreadyPosted (postingsOf db)) ips \/
     batchApplied ips db st'.1).
Proof.
  intros Hok Hroom H. unfold recordBody in H.
  apply lift_bind_Ok in H as (ids & H0 & H).
  apply method_bind_Ok in H as (u1 & [db1 accts1] & H1 & H).
  destruct (tx_start (length evts) db Hok) as [Htx Hsy].
  destruct (loadLedgerAccounts_Ok _ _ _ _ _ Htx Hroom Hsy H1) as (Hdb & Htx1 & Hsy1 & _).
  cbn [fst snd] in *. subst db1.
  apply method_bind_Ok in H as ([k order] & [db2 accts2] & H2 & H).
  destruct (applyEvents_Ok _ _ _ _ _ _ _ Htx1 H2) as (ips & Hf & Hdb & Htx2 & Hle & Hall & Hnone & Hord).
  cbn [fst snd] in *. subst db2. exists ips. split; [done|].
  assert (forall id, postingsIn db accts1 id = postingsOf db id) as Hv1 by done.
  case_decide as Hk0.
  { apply method_ret_Ok in H as [_ <-]. split; [done|]. left. split; [done|].
    destruct (Hnone Hk0) as [_ Hal]. eapply Forall_impl; [exact Hal|].
    intros ip (q & Hq & ?). exists q. by rewrite <- Hv1. }
  case_decide as Hk; [done|]. destruct (Hall ltac:(destruct (decide (k = length evts)); tauto)) as [Hfr Hv2].
  destruct (saveAll_Ok _ _ _ _ Htx2 H) as (Htx3 & Hv3 & Hkeep & Hsaved). cbn [fst snd] in *.
  split; [apply Htx3|]. right. split; [by eapply freshPosts_ext|].
  assert (forall id, synced st'.1 st'.2 id) as Hsync.
  { intros id. destruct (decide (Exists (fun ip => ip.1 = id) ips)) as [Hin|Hout].
    - apply Exists_exists in Hin as (ip & Hip & <-).
      destruct (list_elem_of_lookup_1 _ _ Hip) as [i Hi].
      destruct (Forall2_lookup_r _ _ _ _ _ Hf Hi) as (evt & Hevt & [Hid _]).
      assert (TrimSpace ip.1 = ip.1) as <- by (rewrite Hid; apply TrimSpace_idem).
      apply Hsaved, Hord; [done|]. apply elem_of_list_to_set. rewrite Hid.
      destruct (eventAccountIDs_Ok _ _ _ evt H0) as [Hx|Hx]; [|set_solver|done].
      by eapply list_elem_of_lookup_2.
    - apply Hkeep. unfold synced. rewrite Hv2, viewPosts_other; [done|].
      intros ip Hip He. apply Hout. apply Exists_exists. eauto. }
  intros id. rewrite <- (Hsync id), Hv3, Hv2. apply viewPosts_ext. done.
Qed.
End record.

#[export] Hint Resolve inTransaction_atomic : go.

(** ** Transfers *)

Section transfer.
Context {DB : Type} `{Laws : LedgerRepoLaws DB}.
Implicit Types (db : DB) (accts : loadedLedgerAccounts) (ips : list expectedLedgerPosting).

Definition normIDs ips : list expectedLedgerPosting :=
  map (fun ip => (TrimSpace ip.1, ip.2)) ips.

Lemma normIDs_app ips ips' : normIDs (ips ++ ips') = normIDs ips ++ normIDs ips'.
Proof. apply map_app. Qed.

(** An expected posting with a normal transaction id on a loaded account. *)
Definition expectable accts (ip : expectedLedgerPosting) : Prop :=
  trimmed (Posting.TransactionID ip.2) /\ Posting.TransactionID ip.2 <> "" /\
  is_Some (accts !! TrimSpace ip.1).

Definition newPosting (v : LedgerView) (ip : expectedLedgerPosting) : Prop :=
  v ip.1 !! Posting.TransactionID ip.2 = None.

Lemma newPosting_ext v v' ip : (forall id, v id = v' id) -> newPosting v ip -> newPosting v' ip.
Proof. unfold newPosting. intros H. by rewrite H. Qed.

Lemma matchedPostings_Ok db accts ips k :
  Forall (expectable accts) ips -> matchedPostings accts ips = Ok k ->
  (k <= length ips)%nat /\
  (k = 0%nat -> Forall (newPosting (postingsIn db accts)) (normIDs ips)) /\
  (k = length ips -> Forall (alreadyPosted (postingsIn db accts)) (normIDs ips)).
Proof.
  revert k. induction ips as [|[id p] ips IH]; intros k He H; cbn [matchedPostings] in H.
  { go_inv. split; [done|]. split; constructor. }
  apply Forall_cons in He as [(Ht & Hne & [a Ha]) He]. cbn [fst snd] in *. unfold account in H.
  rewrite Ha in H. unfold PostedTransaction in H. cbv zeta in H. unfold trimmed in Ht.
  rewrite Ht, decide_False in H by done.
  assert (postingsIn db accts (TrimSpace id) = PostedTransactions a) as Hv
    by (unfold postingsIn; by rewrite Ha).
  destruct (PostedTransactions a !! Posting.TransactionID p) as [q|] eqn:Hq.
  - destruct (SameLedgerAccountPosting q p) eqn:Hs; [|done]. go_inv.
    destruct (IH _ He H0) as (Hle & _ & Hall). cbn [length]. split; [lia|]. split; [lia|].
    intros Hk. constructor; [|apply Hall; lia]. exists q. cbn. by rewrite Hv.
  - destruct (IH _ He H) as (Hle & Hnone & _). cbn [length]. split; [lia|]. split; [|lia].
    intros Hk. constructor; [|by apply Hnone]. unfold newPosting. cbn. by rewrite Hv.
Qed.

Lemma ensureLedgerPostingsState_Ok db accts ips b :
  Forall (expectable accts) ips -> ensureLedgerPostingsState accts ips = Ok b ->
  Forall (if b : bool then alreadyPosted (postingsIn db accts)
          else newPosting (postingsIn db accts)) (normIDs ips).
Proof.
  intros He H. unfold ensureLedgerPostingsState in H.
  apply result_bind_Ok in H as (k & Hm & H).
  destruct (matchedPostings_Ok db _ _ _ He Hm) as (_ & Hnone & Hall).
  case_decide as Hk; [injection H as <-; by apply Hnone|]. case_decide as Hk'; [done|].
  injection H as <-. apply Hall. destruct (decide (k = length ips)); tauto.
Qed.

(** Saving the accounts of a transfer, when no save answers that the
    postings were there. *)
Lemma save_step n db accts0 id st b st' :
  tx_ok n st -> (forall i, postingsIn st.1 st.2 i = postingsIn db accts0 i) ->
  saveLedgerAccount id st = (Ok b, st') ->
  if b : bool then repo_ok st'.1 /\ forall i, stored st'.1 i = stored st.1 i
  else tx_ok n st' /\ (forall i, postingsIn st'.1 st'.2 i = postingsIn db accts0 i) /\
    synced st'.1 st'.2 (TrimSpace id) /\
    (forall i, synced st.1 st.2 i -> synced st'.1 st'.2 i).
Proof.
  intros Htx Hv H. destruct st as [db1 accts1].
  pose proof (saveLedgerAccount_Ok _ _ _ _ _ _ Htx H) as Hs. destruct b; [done|].
  destruct Hs as (Htx' & Hsy & Hv' & Hkeep). cbn [fst snd] in *.
  split; [done|]. split; [intros i; by rewrite Hv', Hv|done].
Qed.

(** What one transaction of the transfer can do to the accounts. *)
Definition transferOutcome ips db db' : Prop :=
  repo_ok db' /\
  (db' = db /\ Forall (alreadyPosted (postingsOf db)) ips \/
   (forall id, stored db' id = stored db id) /\ Forall (newPosting (postingsOf db)) ips \/
   batchApplied ips db db').

Lemma transferPostings_expectable t from to_ amt ps accts :
  transferPostings t from to_ amt = Ok ps ->
  is_Some (accts !! TrimSpace from) -> is_Some (accts !! TrimSpace to_) ->
  Forall (expectable accts) ps.
Proof.
  intros (pf & pt & -> & _ & _ & Hf & Ht & Hne & _)%transferPostings_Ok H1 H2.
  repeat constructor; cbn; rewrite ?Hf, ?Ht; auto with go; by rewrite <- Ht.
Qed.

(** The saves at the end of the transaction: [ids] are the accounts saved
    after the first one. *)
Lemma transferSaves_Ok n ips db st fromID toID (fee : option string) u st' :
  tx_ok n st -> st.1 = db -> freshPosts ips (postingsOf db) ->
  Forall (newPosting (postingsOf db)) ips ->
  (forall id, postingsIn db st.2 id = viewPosts ips (postingsOf db) id) ->
  (forall ip, ip ∈ ips -> ip.1 = TrimSpace fromID \/ ip.1 = TrimSpace toID \/
     exists f, fee = Some f /\ ip.1 = TrimSpace f) ->
  (alreadyApplied ← saveLedgerAccount fromID;
   if alreadyApplied : bool then mret tt else
   alreadyApplied ← saveLedgerAccount toID;
   if alreadyApplied : bool then
     raise (Errorf "ledger transfer duplicate state became inconsistent for transaction_id=%s" [])
   else
   match fee with
   | None => mret tt
   | Some f =>
       alreadyApplied ← saveLedgerAccount f;
       if alreadyApplied : bool then
         raise (Errorf "ledger fee duplicate state became inconsistent for transaction_id=%s" [])
       else mret tt
   end) st = (Ok u, st') ->
  transferOutcome ips db st'.1.
Proof.
  intros Htx Hdb Hfr Hnew Hv Hids H. destruct st as [db0 accts0]. cbn in Hdb, Hv. subst db0.
  apply method_bind_Ok in H as (b1 & st1 & H1 & H).
  pose proof (save_step n db accts0 _ _ _ _ Htx ltac:(done) H1) as Hs1. destruct b1.
  { apply method_ret_Ok in H as [_ <-]. destruct Hs1 as [? ?]. split; [done|]. right. left. done. }
  destruct Hs1 as (Htx1 & Hv1 & Hsy1 & Hk1).
  apply method_bind_Ok in H as (b2 & st2 & H2 & H).
  pose proof (save_step n db accts0 _ _ _ _ Htx1 Hv1 H2) as Hs2. destruct b2; [done|].
  destruct Hs2 as (Htx2 & Hv2 & Hsy2 & Hk2).
  assert (exists stf, st' = stf /\ tx_ok n stf /\
    (forall i, postingsIn stf.1 stf.2 i = postingsIn db accts0 i) /\
    (forall i, synced st2.1 st2.2 i -> synced stf.1 stf.2 i) /\
    (forall f, fee = Some f -> synced stf.1 stf.2 (TrimSpace f))) as (stf & -> & Htxf & Hvf & Hkf & Hsyf).
  { destruct fee as [f|].
    - apply method_bind_Ok in H as (b3 & st3 & H3 & H).
      pose proof (save_step n db accts0 _ _ _ _ Htx2 Hv2 H3) as Hs3. destruct b3; [done|].
      apply method_ret_Ok in H as [_ <-]. destruct Hs3 as (? & ? & ? & ?).
      exists st3. do 4 (split; [done|]).
      intros f' Hf'. injection Hf' as <-. done.
    - apply method_ret_Ok in H as [_ <-]. exists st2. do 4 (split; [done|]). done. }
  split; [apply Htxf|]. right. right. split; [done|]. intros id.
  rewrite <- Hv, <- Hvf. symmetry. change (synced stf.1 stf.2 id).
  destruct (decide (Exists (fun ip => ip.1 = id) ips)) as [Hin|Hout].
  - apply Exists_exists in Hin as (ip & Hip & <-).
    destruct (Hids _ Hip) as [->|[->|(f & Hf & ->)]]; auto.
  - apply Hkf, Hk2, Hk1. unfold synced. cbn [fst snd]. rewrite Hv. apply viewPosts_other.
    intros ip Hip He. apply Hout. apply Exists_exists. eauto.
Qed.

(** The transaction up to the postings: the accounts are loaded and none of
    the postings is there, or all are and nothing is done. *)
Lemma transfer_start db n ids ps u b st0 st1 :
  repo_ok db -> repo_room n db -> loadLedgerAccounts ids (db, ∅) = (Ok u, st0) ->
  lift (ensureLedgerPostingsState st0.2 ps) st0 = (Ok b, st1) ->
  (forall accts, (forall id, id ∈ ids -> TrimSpace id <> "" -> is_Some (accts !! TrimSpace id)) ->
     Forall (expectable accts) ps) ->
  st1 = st0 /\ st0.1 = db /\ tx_ok n st0 /\
    (forall id, postingsIn db st0.2 id = postingsOf db id) /\
    Forall (if b : bool then alreadyPosted (postingsOf db) else newPosting (postingsOf db))
      (normIDs ps).
Proof.
  intros Hok Hroom Hload Hens Hexp. destruct (tx_start n db Hok) as [Htx Hsy].
  destruct (loadLedgerAccounts_Ok _ _ _ _ _ Htx Hroom Hsy Hload) as (Hdb & Htx0 & Hsy0 & _ & Hin).
  destruct st0 as [db0 accts]. cbn [fst snd] in *. subst db0. unfold lift in Hens.
  injection Hens as Hens <-. do 3 (split; [done|]). split; [done|].
  pose proof (ensureLedgerPostingsState_Ok db _ _ _ (Hexp _ Hin) Hens) as H.
  destruct b; (eapply Forall_impl; [exact H|]); intros ip.
  - intros (q & Hq & ?). exists q. by rewrite <- (Hsy0 ip.1).
  - unfold newPosting. by rewrite (Hsy0 ip.1).
Qed.

Lemma freshPosts_app ips ips' v :
  freshPosts (ips ++ ips') v <-> freshPosts ips v /\ freshPosts ips' (viewPosts ips v).
Proof.
  revert v. induction ips as [|ip ips IH]; intros v; cbn [app freshPosts]; [tauto|].
  rewrite IH. tauto.
Qed.

Lemma viewPosts_app ips ips' v id :
  viewPosts (ips ++ ips') v id = viewPosts ips' (viewPosts ips v) id.
Proof. unfold viewPosts. by rewrite foldl_app. Qed.

Lemma viewPosts_newPosting ips v ip :
  (forall ip', ip' ∈ ips -> Posting.TransactionID ip'.2 <> Posting.TransactionID ip.2) ->
  newPosting v ip -> newPosting (viewPosts ips v) ip.
Proof.
  revert v. induction ips as [|ip' ips IH]; intros v H Hn; [done|].
  apply (IH (viewPost ip' v)); [intros; apply H; by right|].
  unfold newPosting, viewPost. case_decide; [|done].
  rewrite lookup_insert_ne; [done|]. apply H. left.
Qed.

(** The legs of the fee, if any, are expected, and can be told from those of
    the transfer. *)
Definition feeLegs (command : TransferToAccountCommand) (fromID tid : string)
    (feeTransaction : option LedgerTransaction) (feePs : list expectedLedgerPosting) : Prop :=
  let feeID := TrimSpace (TransferToAccountCommand.FeeAccountID command) in
  match feeTransaction with
  | None => feePs = []
  | Some ft =>
      transferPostings ft (TransferToAccountCommand.FromAccountID command) feeID
        (TransferToAccountCommand.FeeAmount command) = Ok feePs /\
      feeID <> "" /\ feeID <> fromID /\ TrimSpace (LedgerTransaction.TransactionID ft) <> tid
  end.

(** The legs of the fee post. *)
Lemma transferFee_Ok db n command fromID tid ft feePs accts feeApplied st3 :
  tx_ok (2 + n) (db, accts) ->
  fromID = TrimSpace (TransferToAccountCommand.FromAccountID command) ->
  feeLegs command fromID tid ft feePs ->
  Forall (newPosting (postingsIn db accts)) (normIDs feePs) ->
  match ft with
  | None => mret false
  | Some feeTransaction =>
      feeApplied ← transferOut feeTransaction fromID
        (TrimSpace (TransferToAccountCommand.FeeAccountID command))
        (TransferToAccountCommand.FeeAmount command);
      feeReceived ← transferIn feeTransaction
        (TrimSpace (TransferToAccountCommand.FeeAccountID command))
        (TransferToAccountCommand.FromAccountID command)
        (TransferToAccountCommand.FeeAmount command);
      if decide (feeApplied <> feeReceived) then
        raise (Errorf "ledger fee transfer became inconsistent for transaction_id=%s" [])
      else mret feeApplied
  end (db, accts) = (Ok feeApplied, st3) ->
  st3.1 = db /\ tx_ok n st3 /\ freshPosts (normIDs feePs) (postingsIn db accts) /\
  forall id, postingsIn db st3.2 id = viewPosts (normIDs feePs) (postingsIn db accts) id.
Proof.
  intros Htx Hfrom Hfee Hnew H. destruct ft as [ft|]; unfold feeLegs in Hfee.
  - destruct Hfee as (Hfps & Hfee0 & Hfeene & Htid). pose proof Hfps as Hfps0.
    apply transferPostings_Ok in Hfps0 as (ff & fr & -> & _).
    unfold normIDs in *. cbn [map fst snd] in *. rewrite <- Hfrom, TrimSpace_idem in *.
    apply Forall_cons in Hnew as [Hnff [Hnfr _]%Forall_cons].
    apply method_bind_Ok in H as (c1 & stf & H3 & H).
    apply method_bind_Ok in H as (c2 & stg & H4 & H).
    destruct (transferLegs_Ok n ft (TransferToAccountCommand.FromAccountID command) fromID
      _ _ _ _ _ _ _ _ _ _ Htx ltac:(by rewrite Hfrom, TrimSpace_idem) Hfps H3 H4)
      as (-> & -> & Hdb & Htx3 & Hfr3 & Hv3); rewrite ?TrimSpace_idem, <- ?Hfrom; [by auto|done..|].
    rewrite TrimSpace_idem, <- Hfrom in Hv3, Hfr3.
    rewrite decide_False in H by tauto. apply method_ret_Ok in H as [_ <-].
    done.
  - apply method_ret_Ok in H as [_ <-]. rewrite Hfee. split; [done|].
    split; [|done]. destruct Htx as [Hr Hl]. split; [done|]. intros id a Ha.
    destruct (Hl _ _ Ha) as (? & ? & ? & Hroom). do 3 (split; [done|]).
    eapply version_room_le; [|exact Hroom]. lia.
Qed.

Lemma feeLegs_newPosting command fromID t ft feePs v pf pt fromID' toID :
  feeLegs command fromID (TrimSpace (LedgerTransaction.TransactionID t)) ft feePs ->
  Posting.TransactionID pf = TrimSpace (LedgerTransaction.TransactionID t) ->
  Posting.TransactionID pt = TrimSpace (LedgerTransaction.TransactionID t) ->
  Forall (newPosting v) (normIDs feePs) ->
  Forall (newPosting (viewPosts [(fromID', pf); (toID, pt)] v)) (normIDs feePs).
Proof.
  destruct ft as [ft|]; unfold feeLegs; cbv zeta; [|by intros ->; constructor].
  intros (Hps & _ & _ & Htid) Hpf Hpt Hnew.
  apply transferPostings_Ok in Hps as (ff & fr & -> & _ & _ & Hff & Hfr & _).
  apply Forall_cons in Hnew as [Hn1 [Hn2 _]%Forall_cons].
  assert (forall ip', ip' ∈ [(fromID', pf); (toID, pt)] -> Posting.TransactionID ip'.2 <>
      TrimSpace (LedgerTransaction.TransactionID ft)) as Hdiff.
  { intros ip [->|[->|Hin%elem_of_nil]%elem_of_cons]%elem_of_cons; [..|done]; cbn; congruence. }
  repeat constructor; (apply viewPosts_newPosting; [|done]); cbn [snd]; by rewrite ?Hff, ?Hfr.
Qed.

Lemma feeLegs_ids command fromID tid ft feePs ip :
  feeLegs command fromID tid ft feePs ->
  fromID = TrimSpace (TransferToAccountCommand.FromAccountID command) ->
  ip ∈ normIDs feePs -> ip.1 = TrimSpace fromID \/
  exists f, match ft with Some _ =>
    Some (TrimSpace (TransferToAccountCommand.FeeAccountID command)) | None => None end = Some f /\
    ip.1 = TrimSpace f.
Proof.
  destruct ft as [ft|]; unfold feeLegs; cbv zeta; [|by intros -> _ ?%elem_of_nil].
  intros (Hps & _) ->.
  apply transferPostings_Ok in Hps as (ff & fr & -> & _). cbn [normIDs map fst snd].
  rewrite !TrimSpace_idem.
  intros [->|[->|Hin%elem_of_nil]%elem_of_cons]%elem_of_cons; [by left| |done].
  right. eexists. split; [done|]. by rewrite TrimSpace_idem.
Qed.

Lemma feeLegs_expectable command fromID tid ft feePs accts :
  feeLegs command fromID tid ft feePs ->
  is_Some (accts !! TrimSpace (TransferToAccountCommand.FromAccountID command)) ->
  (ft <> None -> is_Some (accts !! TrimSpace (TransferToAccountCommand.FeeAccountID command))) ->
  Forall (expectable accts) feePs.
Proof.
  destruct ft as [ft|]; unfold feeLegs; cbv zeta; [|by intros -> _ _; constructor].
  intros (Hps & _) H1 H2. eapply transferPostings_expectable; [exact Hps|done|].
  rewrite TrimSpace_idem. by apply H2.
Qed.

Lemma transferBody_Ok db command booking t ft ps feePs u st' :
  repo_ok db -> repo_room 4 db -> NewTransferBooking (transferBookingInput command) = Ok booking ->
  transferPostings t (TransferBooking.FromAccountID booking)
    (TransferBooking.ToAccountID booking) (TransferBooking.Amount booking) = Ok ps ->
  feeLegs command (TransferBooking.FromAccountID booking)
    (TrimSpace (LedgerTransaction.TransactionID t)) ft feePs ->
  transferBody command booking t ft (ps ++ feePs) (db, ∅) = (Ok u, st') ->
  transferOutcome (normIDs (ps ++ feePs)) db st'.1.
Proof.
  intros Hok Hroom Hbk Hps Hfee H. pose proof Hps as Hps0.
  apply transferPostings_Ok in Hps0 as (pf & pt & -> & _ & _ & Htf & Htt & _).
  apply NewTransferBooking_Ok in Hbk as (Hbk & Hf & Ht & Hne & _).
  set (from := TransferBooking.FromAccountID booking) in *.
  set (to_ := TransferBooking.ToAccountID booking) in *.
  assert (from = TrimSpace (TransferToAccountCommand.FromAccountID command) /\
    TrimSpace from = from /\ TrimSpace to_ = to_) as (Hbf & Hfrom & Hto)
    by (unfold from, to_; rewrite Hbk; cbn; by rewrite !TrimSpace_idem).
  unfold transferBody in H. cbv zeta in H. fold from to_ in H.
  apply method_bind_Ok in H as (u0 & st0 & Hload & H).
  apply method_bind_Ok in H as ([db0 accts0] & s & Hget & H). unfold get in Hget. injection Hget as Hg <-.
  apply method_bind_Ok in H as (b & s1 & Hens & H).
  replace accts0 with st0.2 in Hens by (by rewrite Hg).
  destruct (transfer_start db 4 _ _ _ _ _ _ Hok Hroom Hload Hens)
    as (-> & Hdb & Htx & Hv0 & Hall).
  { intros a Hin. apply Forall_app. split.
    - eapply transferPostings_expectable; [exact Hps|apply Hin..]; rewrite ?Hfrom, ?Hto; set_solver.
    - eapply feeLegs_expectable; [exact Hfee|rewrite <- Hbf, <- Hfrom; apply Hin; [set_solver|congruence]|].
      intros Hft. rewrite <- TrimSpace_idem. destruct ft; [|done]. apply Hin; [set_solver|].
      rewrite TrimSpace_idem. apply Hfee. }
  destruct b.
  { apply method_ret_Ok in H as [_ <-]. split; [apply Htx|]. rewrite Hdb. by left. }
  rewrite normIDs_app in Hall |- *.
  change (normIDs [(from, pf); (to_, pt)]) with [(TrimSpace from, pf); (TrimSpace to_, pt)] in *.
  rewrite Hfrom, Hto in Hall |- *.
  pose proof Hall as Hall0.
  apply Forall_app in Hall as [[Hnf [Hnt _]%Forall_cons]%Forall_cons Hnfee].
  destruct st0 as [db1 accts]. cbn [fst snd] in *. subst db1.
  apply method_bind_Ok in H as (b1 & st1 & H1 & H).
  apply method_bind_Ok in H as (b2 & [db2 accts2] & H2 & H).
  destruct (transferLegs_Ok 2 t from from _ _ _ _ _ _ _ _ _ _ Htx eq_refl Hps H1 H2)
    as (-> & -> & Hdb & Htx2 & Hfr & Hv2); [by rewrite Hfrom, Hto|by rewrite ?Hfrom, ?Hto, Hv0..|].
  rewrite Hfrom, Hto in Hv2, Hfr. cbn [fst snd] in Hdb, Hv2. subst db2.
  apply method_bind_Ok in H as (feeApplied & st3 & H3 & H).
  assert (forall id, postingsIn db accts2 id =
    viewPosts [(from, pf); (to_, pt)] (postingsOf db) id) as Hv2'
    by (intros id; rewrite Hv2; by apply viewPosts_ext).
  assert (Forall (newPosting (postingsIn db accts2)) (normIDs feePs)) as Hnew2.
  { eapply Forall_impl; [by eapply (feeLegs_newPosting _ _ _ _ _ (postingsOf db) pf pt from to_)|].
    intros ip. apply newPosting_ext. intros id. by rewrite Hv2'. }
  destruct (transferFee_Ok db 0 command from _ _ _ _ _ _ Htx2 Hbf Hfee Hnew2 H3)
    as (Hdb & Htx3 & Hfr3 & Hv3).
  rewrite decide_False in H by tauto. cbn [negb andb] in H.
  eapply (transferSaves_Ok 0 _ db st3 from to_ (match ft with Some _ =>
    Some (TrimSpace (TransferToAccountCommand.FeeAccountID command)) | None => None end));
    [exact Htx3|exact Hdb| |exact Hall0| | |by destruct ft].
  - apply freshPosts_app. split; [by eapply freshPosts_ext|].
    eapply freshPosts_ext; [|exact Hfr3]. exact Hv2'.
  - intros id. rewrite viewPosts_app, Hv3. by apply viewPosts_ext.
  - intros ip [Hip|Hip]%elem_of_app.
    + rewrite Hfrom, Hto. set_solver.
    + destruct (feeLegs_ids _ _ _ _ _ _ Hfee Hbf Hip); auto.
Qed.

(** ** The whole of [TransferToAccount] *)

(** What a transfer adds to the balance of the account [id] in [cur]. *)
Definition transferDelta (command : TransferToAccountCommand) (id cur : string) : Z :=
  let amount := TransferToAccountCommand.Amount command in
  let fee := TransferToAccountCommand.FeeAmount command in
  if decide (cur = UpperTrim (TransferToAccountCommand.Currency command)) then
    (if decide (id = TrimSpace (TransferToAccountCommand.FromAccountID command))
     then - (amount + fee) else 0) +
    (if decide (id = TrimSpace (TransferToAccountCommand.ToAccountID command))
     then amount else 0) +
    (if decide (id = TrimSpace (TransferToAccountCommand.FeeAccountID command))
     then fee else 0)
  else 0.

Lemma NewLedgerTransaction_booking_currency now tid b t :
  NewLedgerTransaction now tid (TransferBooking_LedgerEntries b) = Ok t ->
  LedgerTransaction.TransactionID t = TrimSpace tid /\
  LedgerTransaction.Currency t = UpperTrim (TransferBooking.Currency b).
Proof.
  intros (Htid & _ & _ & Hf & _)%NewLedgerTransaction_Ok. split; [done|].
  unfold TransferBooking_LedgerEntries, bookingEntries in Hf.
  apply Forall2_cons_inv_l in Hf as (e & es & (_ & _ & Hc & _) & _). by rewrite <- Hc.
Qed.

Lemma fee_id_differs tid : TrimSpace (TrimSpace tid +:+ ":fee") <> TrimSpace tid.
Proof.
  assert (trimmed (TrimSpace tid +:+ ":fee")) as -> by (apply trimmed_suffix; auto with go; done).
  intros H. apply (f_equal String.length) in H. revert H. generalize (TrimSpace tid). clear.
  intros s. assert (String.length (s +:+ ":fee") = (String.length s + 4)%nat) as ->; [|lia].
  induction s as [|a s IH]; [done|]. change (String a s +:+ ":fee") with (String a (s +:+ ":fee")).
  cbn [String.length]. rewrite IH. lia.
Qed.

(** The parts of a successful call. *)
Lemma TransferToAccount_Ok now nowFee command db tx db' :
  repo_ok db -> repo_room 4 db ->
  LedgerService.TransferToAccount now nowFee command db = (Ok tx, db') ->
  exists booking t ft ps feePs,
    NewTransferBooking (transferBookingInput command) = Ok booking /\
    NewLedgerTransaction now (TrimSpace (TransferToAccountCommand.TransactionID command))
      (TransferBooking_LedgerEntries booking) = Ok t /\
    feeTransactionOf nowFee command = Ok ft /\
    transferPostings t (TransferBooking.FromAccountID booking)
      (TransferBooking.ToAccountID booking) (TransferBooking.Amount booking) = Ok ps /\
    0 <= TransferToAccountCommand.FeeAmount command /\
    (ft = None -> TransferToAccountCommand.FeeAmount command = 0) /\
    feeLegs command (TransferBooking.FromAccountID booking)
      (TrimSpace (LedgerTransaction.TransactionID t)) ft feePs /\
    transferOutcome (normIDs (ps ++ feePs)) db db'.
Proof.
  intros Hok Hroom H. unfold LedgerService.TransferToAccount in H.
  apply lift_bind_Ok in H as (booking & H1 & H).
  apply map_err_Ok in H1. cbv zeta in H. case_decide as Hfee0; [done|]. case_decide as Hfee1; [done|].
  apply lift_bind_Ok in H as (t & H2 & H).
  apply map_err_Ok in H2.
  apply lift_bind_Ok in H as (ft & H3 & H).
  apply lift_bind_Ok in H as (ps & H4 & H).
  apply lift_bind_Ok in H as (feePs & H5 & H).
  apply method_bind_Ok in H as (u & s6 & H6 & H). apply method_ret_Ok in H as [_ <-].
  apply inTransaction_Ok in H6 as (accts & H6).
  exists booking, t, ft, ps, feePs. do 4 (split; [done|]). split; [lia|].
  pose proof H1 as (Hbk & Hf & _)%NewTransferBooking_Ok.
  assert (feeLegs command (TransferBooking.FromAccountID booking)
    (TrimSpace (LedgerTransaction.TransactionID t)) ft feePs) as Hlegs.
  { unfold feeLegs, feeTransactionOf in *. destruct ft as [ft|]; cbv zeta; [|by simplify_eq].
    case_decide as Hpos; [|done]. apply result_bind_Ok in H3 as (fb & H3 & H7).
    apply result_bind_Ok in H7 as (ft' & H7 & H8). injection H8 as ->.
    apply map_err_Ok in H3, H7. apply NewTransferBooking_Ok in H3 as (Hfb & Hff & Hft & Hne & _).
    cbn in Hfb. rewrite Hfb in Hff, Hft, Hne. cbn in Hff, Hft, Hne. rewrite TrimSpace_idem in *.
    split; [done|]. split; [done|]. split; [rewrite Hbk; cbn; auto|].
    apply NewLedgerTransaction_booking_currency in H2 as [-> _], H7 as [-> _].
    rewrite !TrimSpace_idem. apply fee_id_differs. }
  split; [|split; [done|by apply (transferBody_Ok _ _ _ _ _ _ _ _ _ Hok Hroom H1 H4 Hlegs H6)]].
  intros ->. unfold feeTransactionOf in H3. case_decide; [|lia].
  apply result_bind_Ok in H3 as (? & _ & H3). by apply result_bind_Ok in H3 as (? & _ & H3).
Qed.

Lemma batchDelta_app ips ips' id cur :
  batchDelta (ips ++ ips') id cur = batchDelta ips id cur + batchDelta ips' id cur.
Proof. induction ips as [|ip ips IH]; cbn [app batchDelta]; lia. Qed.

(** What the two legs of a transfer add. *)
Lemma batchDelta_legs t from to_ amt ps id cur :
  transferPostings t from to_ amt = Ok ps -> 0 <= amt <= int64_max ->
  batchDelta (normIDs ps) id cur =
    if decide (cur = UpperTrim (LedgerTransaction.Currency t)) then
      (if decide (id = TrimSpace from) then - amt else 0) +
      (if decide (id = TrimSpace to_) then amt else 0)
    else 0.
Proof.
  intros (pf & pt & -> & _ & _ & _ & _ & _ & _ & _ & _ & _ & -> & ->)%transferPostings_Ok Ha.
  cbn [normIDs map fst snd batchDelta]. unfold postedIn, transferLeg.
  cbn [Posting.Currency Posting.AmountDelta].
  rewrite neg64_small by (unfold int64_max in *; lia).
  repeat case_decide; subst; try congruence; lia.
Qed.

Lemma transfer_batchDelta command now nowFee booking t ft ps feePs id cur :
  NewTransferBooking (transferBookingInput command) = Ok booking ->
  NewLedgerTransaction now (TrimSpace (TransferToAccountCommand.TransactionID command))
    (TransferBooking_LedgerEntries booking) = Ok t ->
  feeTransactionOf nowFee command = Ok ft ->
  transferPostings t (TransferBooking.FromAccountID booking)
    (TransferBooking.ToAccountID booking) (TransferBooking.Amount booking) = Ok ps ->
  0 <= TransferToAccountCommand.FeeAmount command <= int64_max ->
  TransferToAccountCommand.Amount command <= int64_max ->
  (ft = None -> TransferToAccountCommand.FeeAmount command = 0) ->
  feeLegs command (TransferBooking.FromAccountID booking)
    (TrimSpace (LedgerTransaction.TransactionID t)) ft feePs ->
  batchDelta (normIDs (ps ++ feePs)) id cur = transferDelta command id cur.
Proof.
  intros Hbk Ht Hft Hps Hfee Hamt Hnone Hlegs.
  apply NewTransferBooking_Ok in Hbk as (Hbk & _ & _ & _ & _ & Hpos).
  apply NewLedgerTransaction_booking_currency in Ht as [_ Hcur].
  rewrite normIDs_app, batchDelta_app.
  assert (TransferBooking.Amount booking = TransferToAccountCommand.Amount command /\
    TransferBooking.FromAccountID booking =
      TrimSpace (TransferToAccountCommand.FromAccountID command) /\
    TransferBooking.ToAccountID booking = TrimSpace (TransferToAccountCommand.ToAccountID command) /\
    TransferBooking.Currency booking = UpperTrim (TransferToAccountCommand.Currency command))
    as (Ha & Hf & Hto & Hc) by (by rewrite Hbk).
  rewrite (batchDelta_legs _ _ _ _ _ id cur Hps) by lia.
  rewrite Ha, Hf, Hto, Hcur, Hc, !TrimSpace_idem, !UpperTrim_idem. unfold transferDelta. cbv zeta.
  assert (batchDelta (normIDs feePs) id cur =
    if decide (cur = UpperTrim (TransferToAccountCommand.Currency command)) then
      (if decide (id = TrimSpace (TransferToAccountCommand.FromAccountID command))
       then - TransferToAccountCommand.FeeAmount command else 0) +
      (if decide (id = TrimSpace (TransferToAccountCommand.FeeAccountID command))
       then TransferToAccountCommand.FeeAmount command else 0)
    else 0) as ->; [|repeat case_decide; lia].
  destruct ft as [ft|]; unfold feeLegs in Hlegs; cbv zeta in Hlegs.
  - destruct Hlegs as (Hfps & _). rewrite (batchDelta_legs _ _ _ _ _ id cur Hfps) by lia.
    unfold feeTransactionOf in Hft. case_decide; [|done].
    apply result_bind_Ok in Hft as (fb & H1 & Hft). apply result_bind_Ok in Hft as (ft' & H2 & Hft).
    injection Hft as ->. apply map_err_Ok in H1, H2.

    apply NewTransferBooking_Ok in H1 as (-> & _).
    apply NewLedgerTransaction_booking_currency in H2 as [_ ->]. cbn [TransferBooking.Currency feeBookingInput].
    by rewrite !UpperTrim_idem, !TrimSpace_idem.
  - rewrite Hlegs, Hnone by done. cbn. repeat case_decide; lia.
Qed.

(** A posting that must not overdraw leaves a non-negative balance. *)
Lemma postable_funds v ip :
  postable v ip -> Posting.AmountDelta ip.2 < 0 -> - int64_max <= Posting.AmountDelta ip.2 ->
  requiresNonNegativeBalance (Posting.ReferenceType ip.2) = true ->
  0 <= wrap64 (postedTotal (Posting.Currency ip.2) (v ip.1)) ->
  - Posting.AmountDelta ip.2 <= wrap64 (postedTotal (Posting.Currency ip.2) (v ip.1)).
Proof.
  intros [_ Hno] Hneg Hmin Hreq Hbal.
  set (b := wrap64 _) in *. pose proof (wrap64_in64 (postedTotal (Posting.Currency ip.2) (v ip.1))) as Hb.
  fold b in Hb. destruct (Z.le_gt_cases (- Posting.AmountDelta ip.2) b) as [|Hlt]; [done|].
  exfalso. apply Hno. split; [done|]. split; [done|].
  rewrite add64_small; [lia|]. unfold in64, int64_min, int64_max in *. lia.
Qed.

(** The sender of a transfer covers the amount, and what is left of its
    balance is the difference. *)
Lemma transferLegs_covers t from to_ amt ps v :
  transferPostings t from to_ amt = Ok ps -> 0 < amt <= int64_max ->
  TrimSpace from <> TrimSpace to_ -> freshPosts (normIDs ps) v ->
  let cur := UpperTrim (LedgerTransaction.Currency t) in
  let bal := wrap64 (postedTotal cur (v (TrimSpace from))) in
  0 <= bal -> amt <= bal /\
  wrap64 (postedTotal cur (viewPosts (normIDs ps) v (TrimSpace from))) = bal - amt.
Proof.
  intros Hps Ha Hne Hfr cur bal Hbal.
  rewrite (postedTotal_viewPosts _ _ _ _ Hfr), (batchDelta_legs _ _ _ _ _ _ _ Hps) by lia.
  fold cur. rewrite !decide_True, decide_False by done. rewrite Z.add_0_r, <- wrap64_add_l.
  fold bal. pose proof (wrap64_in64 (postedTotal cur (v (TrimSpace from)))) as Hin. fold bal in Hin.
  assert (amt <= bal) as Hle.
  { apply transferPostings_Ok in Hps as (pf & pt & -> & _ & _ & _ & _ & _ & _ & _ & _ & _ & -> & ->).
    destruct Hfr as [Hp _]. pose proof (postable_funds _ _ Hp) as Hf.
    unfold transferLeg in Hf. cbn [normIDs map fst snd Posting.AmountDelta Posting.Currency
      Posting.ReferenceType] in Hf. rewrite neg64_small in Hf by (unfold int64_max in *; lia).
    fold cur bal in Hf. specialize (Hf ltac:(lia) ltac:(lia) ltac:(by vm_compute) Hbal). lia. }
  split; [done|]. rewrite wrap64_id; [lia|]. unfold in64, int64_min, int64_max in *. lia.
Qed.

(** The sender covers the amount and the fee. *)
Lemma transfer_covers command now nowFee booking t ft ps feePs v :
  NewTransferBooking (transferBookingInput command) = Ok booking ->
  NewLedgerTransaction now (TrimSpace (TransferToAccountCommand.TransactionID command))
    (TransferBooking_LedgerEntries booking) = Ok t ->
  feeTransactionOf nowFee command = Ok ft ->
  transferPostings t (TransferBooking.FromAccountID booking)
    (TransferBooking.ToAccountID booking) (TransferBooking.Amount booking) = Ok ps ->
  TransferToAccountCommand.FeeAmount command <= int64_max ->
  TransferToAccountCommand.Amount command <= int64_max ->
  (ft = None -> TransferToAccountCommand.FeeAmount command = 0) ->
  feeLegs command (TransferBooking.FromAccountID booking)
    (TrimSpace (LedgerTransaction.TransactionID t)) ft feePs ->
  freshPosts (normIDs (ps ++ feePs)) v ->
  let from := TrimSpace (TransferToAccountCommand.FromAccountID command) in
  let cur := UpperTrim (TransferToAccountCommand.Currency command) in
  let bal := wrap64 (postedTotal cur (v from)) in
  0 <= bal ->
  TransferToAccountCommand.Amount command + TransferToAccountCommand.FeeAmount command <= bal.
Proof.
  intros Hbk Ht Hft Hps Hfee Hamt Hnone Hlegs Hfr from cur bal Hbal.
  apply NewTransferBooking_Ok in Hbk as (-> & _ & _ & Hne & _ & Hpos). cbn in Hne, Hpos, Hps.
  apply NewLedgerTransaction_booking_currency in Ht as [_ Hcur]. cbn in Hcur.
  rewrite !UpperTrim_idem in Hcur. rewrite normIDs_app in Hfr. apply freshPosts_app in Hfr as [Hfr1 Hfr2].
  pose proof (transferLegs_covers _ _ _ _ _ _ Hps ltac:(lia) ltac:(by rewrite !TrimSpace_idem) Hfr1) as H1.
  rewrite Hcur, UpperTrim_idem, TrimSpace_idem in H1. fold from cur in H1. cbv zeta in H1.
  fold bal in H1. destruct (H1 Hbal) as [Hle Hrest]. clear H1.
  destruct ft as [ft|]; unfold feeLegs in Hlegs; cbv zeta in Hlegs; [|rewrite Hnone by done; lia].
  destruct Hlegs as (Hfps & _). unfold feeTransactionOf in Hft. case_decide; [|done].
  apply result_bind_Ok in Hft as (fb & H1 & Hft). apply result_bind_Ok in Hft as (ft' & H2 & Hft).
  injection Hft as ->. apply map_err_Ok in H1, H2.
  apply NewTransferBooking_Ok in H1 as (-> & _ & _ & Hne2 & _). cbn in Hne2.
  apply NewLedgerTransaction_booking_currency in H2 as [_ Hcur2]. cbn in Hcur2.
  rewrite !UpperTrim_idem in Hcur2.
  pose proof (transferLegs_covers _ _ _ _ _ _ Hfps ltac:(lia) ltac:(done) Hfr2) as H2.
  rewrite Hcur2, UpperTrim_idem in H2. fold from cur in H2. cbv zeta in H2. rewrite Hrest in H2. lia.
Qed.
End transfer.

(** ** Payment bookings *)

Section payments.
Context `{UC : UnicodeCase}.

(** One leg of a booking against the account [cp]. *)
Definition bookingLeg (tid pid ty cp cur : string) (delta : Z) (at_ : Time) : LedgerAccountPosting :=
  Posting.mk (TrimSpace tid) ty (TrimSpace pid) (TrimSpace cp) (UpperTrim cur) delta at_.

(** The event made from a payment posting stands for that posting. *)
Lemma paymentEvent_posting acc tid pid k cp cur delta at_ p evt :
  NewLedgerAccountPaymentPosting (LedgerAccountPostingInput.mk acc tid (kindName k) pid cp cur
    delta at_) = Ok p ->
  NewLedgerAccountEventFromPosting acc p = Ok (Some evt) ->
  in64 delta -> 0 <= kindDirection k * delta ->
  p = bookingLeg tid pid (kindName k) cp cur delta at_ /\ event_posting evt (TrimSpace acc, p) /\
  AggregateID evt = acc.
Proof.
  intros [Hok Hp]%NewLedgerAccountPaymentPosting_Ok Hev Hin Hs. cbn in Hok, Hp.
  rewrite (kindName_trimmed k) in Hp. split; [done|].
  unfold NewLedgerAccountEventFromPosting, NewLedgerAccountEvent in Hev.
  destruct (payload_nil (newLedgerPaymentEvent p)); [done|]. cbn in Hev. injection Hev as <-.
  split; [|done]. split; [done|]. cbn [fst snd EventData].
  apply (succeeded_type_preview k); rewrite ?TrimSpace_idem; [done|by rewrite Hp..].
Qed.

Lemma bookingEvents_Ok t pid debit credit kd kc amt evts :
  bookingEvents t pid debit credit (kindName kd) (kindName kc) amt = Ok evts ->
  kindDirection kd = -1 -> kindDirection kc = 1 -> 0 < amt <= int64_max ->
  Forall2 event_posting evts
    [(TrimSpace debit, bookingLeg (LedgerTransaction.TransactionID t) pid (kindName kd) credit
        (LedgerTransaction.Currency t) (- amt) (LedgerTransaction.CreatedAt t));
     (TrimSpace credit, bookingLeg (LedgerTransaction.TransactionID t) pid (kindName kc) debit
        (LedgerTransaction.Currency t) amt (LedgerTransaction.CreatedAt t))].
Proof.
  unfold bookingEvents. intros H Hd Hc Ha. rewrite neg64_small in H by lia.
  apply result_bind_Ok in H as (pd & H1 & H). apply result_bind_Ok in H as (pc & H2 & H).
  cbn [ledgerPaymentEventsFromPostings] in H.
  apply result_bind_Ok in H as ([ed|] & H3 & H); [|done].
  apply result_bind_Ok in H as (rest & H4 & H). apply result_bind_Ok in H4 as ([ec|] & H4 & H5); [|done].
  cbn in H5. injection H5 as <-. injection H as <-.
  destruct (paymentEvent_posting _ _ _ _ _ _ _ _ _ _ H1 H3) as (<- & He1 & _);
    [unfold in64, int64_min, int64_max in *; lia|lia|].
  destruct (paymentEvent_posting _ _ _ _ _ _ _ _ _ _ H2 H4) as (<- & He2 & _);
    [unfold in64, int64_min, int64_max in *; lia|lia|].
  constructor; [done|]. constructor; [done|]. constructor.
Qed.

(** What a booking of [amount] from [debit] to [credit] adds. *)
Definition bookingDelta (debit credit currency : string) (amount : Z) (id cur : string) : Z :=
  if decide (cur = currency) then
    (if decide (id = debit) then - amount else 0) + (if decide (id = credit) then amount else 0)
  else 0.

Lemma batchDelta_booking debit credit tid pid tyd tyc cpd cpc cur amt at_ at' id c :
  batchDelta [(debit, bookingLeg tid pid tyd cpd cur (- amt) at_);
              (credit, bookingLeg tid pid tyc cpc cur amt at')] id c =
    bookingDelta debit credit (UpperTrim cur) amt id c.
Proof.
  unfold bookingDelta, bookingLeg, postedIn. cbn [batchDelta fst snd].
  unfold postedIn. cbn [Posting.Currency Posting.AmountDelta].
  repeat case_decide; subst; try congruence; lia.
Qed.

Lemma reversalKind ty :
  (ty = EventPaymentRefunded \/ ty = EventPaymentChargeback) ->
  exists kd kc, debitLedgerEventNameForPaymentReversal ty = kindName kd /\
    creditLedgerEventNameForPaymentReversal ty = kindName kc /\
    kindDirection kd = -1 /\ kindDirection kc = 1.
Proof.
  pose proof payment_refunded_trimmed as H1. pose proof payment_chargeback_trimmed as H2.
  unfold trimmed in H1, H2.
  unfold debitLedgerEventNameForPaymentReversal, creditLedgerEventNameForPaymentReversal.
  intros [-> | ->]; rewrite ?H1, ?H2; cbv zeta.
  - exists WithdrawFromRefund, DepositFromRefund. by rewrite !decide_True.
  - exists WithdrawFromChargeback, DepositFromChargeback.
    by rewrite !decide_False, !decide_True by done.
Qed.
End payments.
