(* ===== verification/LedgerServiceTheorems.v ===== *)
(** * Theorems about the ledger service

    For every repository that satisfies the contract [LedgerRepoLaws]:
    transfers move exactly the amount and the fee out of a balance that
    covers both, recording events is all or nothing, a transaction id takes
    effect once, and payment bookings move the amount between the clearing
    account and the user. *)

From stdpp Require Import prelude strings gmap.
From S2P Require Import Prelude GoStrings Event LedgerEntity LedgerAccount LedgerAccountInv LedgerAccountSpec LedgerRepo LedgerService LedgerServiceInv LedgerServiceSpec.

Import LedgerService.

Section theorems.
Context {DB : Type} `{Laws : LedgerRepoLaws DB}.
Implicit Types (db : DB) (command : TransferToAccountCommand).

Lemma TransferToAccount_atomic now nowFee command :
  atomic (LedgerService.TransferToAccount now nowFee command : method DB _).
Proof. unfold LedgerService.TransferToAccount. go_atomic. Qed.

Lemma TransferToAccount_repo_ok now nowFee command db :
  repo_ok db -> repo_room 4 db -> repo_ok (LedgerService.TransferToAccount now nowFee command db).2.
Proof.
  intros Hok Hroom. destruct (LedgerService.TransferToAccount _ _ _ _) as [r db'] eqn:Hrun.
  destruct r as [tx|e|w];
    [|by rewrite (atomic_run _ _ _ _ (TransferToAccount_atomic _ _ _) Hrun)..].
  destruct (TransferToAccount_Ok _ _ _ _ _ _ Hok Hroom Hrun)
    as (? & ? & ? & ? & ? & _ & _ & _ & _ & _ & _ & _ & Hok' & _). exact Hok'.
Qed.

Lemma transferOutcome_stored ips db db' :
  transferOutcome ips db db' -> ~ Forall (newPosting (postingsOf db)) ips ->
  forall id, stored db' id = stored db id.
Proof.
  intros (_ & [[-> _]|[[Hs _]|[Hfr _]]]) Hno; [done|done|]. exfalso. apply Hno. clear Hno.
  revert Hfr. generalize (postingsOf db). induction ips as [|ip ips IH]; intros v Hfr; [done|].
  destruct Hfr as [[Hn _] Hfr]. constructor; [done|].
  eapply Forall_impl; [by apply IH|]. intros ip' Hn'. unfold newPosting, viewPost in *.
  destruct (decide (ip'.1 = ip.1)); [|done]. rewrite lookup_insert in Hn'. by case_decide.
Qed.


(** C34: a transaction id is spent once. If the sender already has a posting
    of that transaction, running the transfer again - with the same or other
    amounts, at any time - changes no account. *)
Theorem TransferToAccount_once now nowFee command db r db' :
  repo_ok db -> repo_room 4 db ->
  is_Some (postingsOf db (TrimSpace (TransferToAccountCommand.FromAccountID command)) !!
    TrimSpace (TransferToAccountCommand.TransactionID command)) ->
  LedgerService.TransferToAccount now nowFee command db = (r, db') ->
  forall id, stored db' id = stored db id.
Proof.
  intros Hok Hroom [q Hq] Hrun. destruct r as [tx|e|w];
    [|by rewrite (atomic_run _ _ _ _ (TransferToAccount_atomic _ _ _) Hrun)..].
  destruct (TransferToAccount_Ok _ _ _ _ _ _ Hok Hroom Hrun)
    as (bk & t & ft & ps & feePs & Hbk & Ht & Hft & Hps & Hf0 & Hnone & Hlegs & Hout).
  eapply transferOutcome_stored; [exact Hout|]. intros Hnew.
  apply transferPostings_Ok in Hps as (pf & pt & -> & _ & _ & Htid & _).
  apply NewTransferBooking_Ok in Hbk as (-> & _).
  apply NewLedgerTransaction_booking_currency in Ht as [Ht _].
  rewrite normIDs_app in Hnew. apply Forall_app in Hnew as [[Hn _]%Forall_cons _].
  unfold newPosting in Hn. cbn in Hn. rewrite Htid, Ht, !TrimSpace_idem in Hn. by rewrite Hq in Hn.
Qed.

(** ** Recording events *)

Lemma RecordLedgerEvents_is_atomic evts : atomic (RecordLedgerEvents evts : method DB unit).
Proof. unfold RecordLedgerEvents. go_atomic. Qed.

Lemma RecordLedgerEvents_Ok evts db u db' :
  repo_ok db -> repo_room (length evts) db -> RecordLedgerEvents evts db = (Ok u, db') ->
  repo_ok db' /\ exists ips, Forall2 event_posting evts ips /\
    (db' = db /\ Forall (alreadyPosted (postingsOf db)) ips \/ batchApplied ips db db').
Proof.
  intros Hok Hroom H. unfold RecordLedgerEvents in H. case_decide as Hlen.
  - apply method_ret_Ok in H as [_ <-]. split; [done|]. exists []. apply nil_length_inv in Hlen.
    subst. split; [constructor|]. left. split; [done|constructor].
  - apply inTransaction_Ok in H as (accts & H).
    destruct (recordBody_Ok _ _ _ _ Hok Hroom H) as (ips & Hf & Hok' & Hcase). eauto.
Qed.

(** C32: recording ledger events is all or nothing. When [RecordLedgerEvents]
    returns normally, every event stands for a posting, and either all the
    postings were there before and the database is the same, or all of them
    are new, none overdraws its account, the accounts hold exactly these
    postings more, and every balance has grown by the sum of its postings. An
    error or a panic leaves the database as it was. *)
Theorem RecordLedgerEvents_all_or_nothing evts db r db' :
  repo_ok db -> repo_room (length evts) db -> RecordLedgerEvents evts db = (r, db') ->
  match r with
  | Ok _ =>
      repo_ok db' /\ exists ips, Forall2 event_posting evts ips /\
      (db' = db /\ Forall (alreadyPosted (postingsOf db)) ips \/
       freshPosts ips (postingsOf db) /\
       (forall id, postingsOf db' id = viewPosts ips (postingsOf db) id) /\
       (forall id c, storedBalance db' id c =
          wrap64 (storedBalance db id c + batchDelta ips id c)))
  | _ => db' = db
  end.
Proof.
  intros Hok Hroom H. destruct r as [u|e|w];
    [|by eapply atomic_run; [apply RecordLedgerEvents_is_atomic|..]..].
  destruct (RecordLedgerEvents_Ok _ _ _ _ Hok Hroom H) as (Hok' & ips & Hf & Hcase).
  split; [done|]. exists ips. split; [done|]. destruct Hcase as [?|Hb]; [by left|right].
  destruct Hb as [Hfr Hv]. split; [done|]. split; [done|]. intros id c.
  by apply batchApplied_balance.
Qed.

(** An event takes effect once. If the posting of one of the events is
    already on its account, recording the events - that one again, or mixed
    with others - leaves the database as it was. *)
Theorem RecordLedgerEvents_once evts db r db' evt ip :
  repo_ok db -> repo_room (length evts) db -> evt ∈ evts -> event_posting evt ip ->
  is_Some (postingsOf db ip.1 !! Posting.TransactionID ip.2) ->
  RecordLedgerEvents evts db = (r, db') -> db' = db.
Proof.
  intros Hok Hroom Hin Hevt [q Hq] H. destruct r as [u|e|w];
    [|by eapply atomic_run; [apply RecordLedgerEvents_is_atomic|..]..].
  destruct (RecordLedgerEvents_Ok _ _ _ _ Hok Hroom H) as (_ & ips & Hf & [[? _]|[Hfr _]]); [done|].
  exfalso. revert Hfr. generalize (postingsOf db) Hq. clear -Hf Hin Hevt.
  induction Hf as [|evt' ip' evts ips Hev Hf IH]; intros v Hq Hfr;
    [by apply elem_of_nil in Hin|]. destruct Hfr as [[Hn _] Hfr].
  apply elem_of_cons in Hin as [<-|Hin].
  - assert (ip' = ip) as ->; [|by rewrite Hq in Hn].
    destruct Hev as [H1 H2], Hevt as [H1' H2'], ip, ip'. cbn in *. subst. rewrite H2 in H2'.
    by injection H2' as ->.
  - destruct (decide (ip.1 = ip'.1 /\ Posting.TransactionID ip.2 = Posting.TransactionID ip'.2))
      as [[He1 He2]|Hne].
    + rewrite He1, He2 in Hq. by rewrite Hn in Hq.
    + eapply IH; [done| |exact Hfr]. unfold viewPost. case_decide as He; [|done].
      rewrite lookup_insert_ne; [done|]. intros Ht. apply Hne. auto.
Qed.
End theorems.

(** ** Payment bookings *)

Section payments.
Context {DB : Type} `{Laws : LedgerRepoLaws DB}.
Implicit Types (db : DB) (command : RecordPaymentCommand).

Lemma RecordPaymentSucceeded_is_atomic now command :
  atomic (RecordPaymentSucceeded now command : method DB unit).
Proof. unfold RecordPaymentSucceeded. go_atomic. apply RecordLedgerEvents_is_atomic. Qed.

Lemma RecordPaymentReversed_is_atomic now command ty :
  atomic (RecordPaymentReversed now command ty : method DB unit).
Proof. unfold RecordPaymentReversed. go_atomic. apply RecordLedgerEvents_is_atomic. Qed.

(** Recording the two legs of a booking. *)
Lemma recordBooking_Ok t pid debit credit kd kc amt evts db u db' :
  repo_ok db -> repo_room 2 db -> 0 < amt <= int64_max ->
  kindDirection kd = -1 -> kindDirection kc = 1 ->
  bookingEvents t pid debit credit (kindName kd) (kindName kc) amt = Ok evts ->
  RecordLedgerEvents evts db = (Ok u, db') ->
  repo_ok db' /\
  (db' = db \/ forall id c, storedBalance db' id c = wrap64 (storedBalance db id c +
     bookingDelta (TrimSpace debit) (TrimSpace credit)
       (UpperTrim (LedgerTransaction.Currency t)) amt id c)).
Proof.
  intros Hok Hroom Ha Hd Hc Hb Hrun. pose proof (bookingEvents_Ok _ _ _ _ _ _ _ _ Hb Hd Hc Ha) as Hf.
  assert (length evts = 2%nat) as Hlen by (by rewrite (Forall2_length _ _ _ Hf)).
  destruct (RecordLedgerEvents_Ok _ _ _ _ Hok ltac:(by rewrite Hlen) Hrun)
    as (Hok' & ips & Hf' & Hcase).
  split; [done|]. destruct Hcase as [[? _]|Hba]; [by left|right]. intros id c.
  rewrite (event_posting_unique _ _ _ Hf' Hf) in Hba.
  rewrite (batchApplied_balance _ _ _ _ _ Hok Hok' Hba). by rewrite batchDelta_booking.
Qed.

Lemma bookingEntries_currency now tid debit credit cur amt t :
  NewLedgerTransaction now tid (bookingEntries debit credit cur amt) = Ok t ->
  LedgerTransaction.Currency t = UpperTrim cur.
Proof.
  intros (_ & _ & _ & Hf & _)%NewLedgerTransaction_Ok. unfold bookingEntries in Hf.
  apply Forall2_cons_inv_l in Hf as (e & es & (_ & _ & Hc & _) & _). by rewrite <- Hc.
Qed.

(** The accounts a payment booking moves money between. *)
Definition clearingOf (command : RecordPaymentCommand) : string :=
  ledgerClearingAccountID (RecordPaymentCommand.ClearingAccountKey command).
Definition payeeOf (command : RecordPaymentCommand) : string :=
  TrimSpace (RecordPaymentCommand.CreditAccountID command).
Definition currencyOf (command : RecordPaymentCommand) : string :=
  UpperTrim (RecordPaymentCommand.Currency command).

Lemma RecordPaymentSucceeded_Ok now (command : RecordPaymentCommand) db u db' :
  repo_ok db -> repo_room 2 db -> RecordPaymentCommand.Amount command <= int64_max ->
  RecordPaymentSucceeded now command db = (Ok u, db') ->
  repo_ok db' /\
  (db' = db \/ forall id c, storedBalance db' id c = wrap64 (storedBalance db id c +
     bookingDelta (clearingOf command) (payeeOf command) (currencyOf command)
       (RecordPaymentCommand.Amount command) id c)).
Proof.
  intros Hok Hroom Ha H. unfold RecordPaymentSucceeded in H.
  apply lift_bind_Ok in H as (b & H1 & H).
  apply lift_bind_Ok in H as (t & H2 & H).
  apply lift_bind_Ok in H as (evts & H3 & H).
  apply map_err_Ok in H1, H2.
  apply NewPaymentSucceededBooking_Ok in H1 as (_ & _ & Hd & Hc & _ & _ & Hcu & _ & Ham & Hpos).
  apply bookingEntries_currency in H2. cbn in Hd, Hc, Hcu, Ham.
  assert (0 < PaymentSucceededBooking.Amount b <= int64_max) as Hrange by lia.
  destruct (recordBooking_Ok _ _ _ _ WithdrawFromIntent DepositFromIntent _ _ _ _ _ Hok Hroom
    Hrange eq_refl eq_refl H3 H) as [Hok' Hcase]. split; [done|].
  rewrite H2, Hcu, Hd, Hc, Ham, !UpperTrim_idem, TrimSpace_idem in Hcase.
  by rewrite (ledgerClearingAccountID_trimmed _) in Hcase.
Qed.

Lemma RecordPaymentReversed_Ok now (command : RecordPaymentCommand) ty db u db' :
  repo_ok db -> repo_room 2 db -> RecordPaymentCommand.Amount command <= int64_max ->
  RecordPaymentReversed now command ty db = (Ok u, db') ->
  repo_ok db' /\
  (db' = db \/ forall id c, storedBalance db' id c = wrap64 (storedBalance db id c +
     bookingDelta (payeeOf command) (clearingOf command) (currencyOf command)
       (RecordPaymentCommand.Amount command) id c)).
Proof.
  intros Hok Hroom Ha H. unfold RecordPaymentReversed in H.
  apply lift_bind_Ok in H as (b & H1 & H).
  apply lift_bind_Ok in H as (t & H2 & H).
  apply lift_bind_Ok in H as (evts & H3 & H).
  apply map_err_Ok in H1, H2.
  apply NewPaymentReversalBooking_Ok in H1
    as (_ & _ & Hty & _ & Hc & Hd & _ & _ & Hcu & _ & Ham & Hpos).
  apply bookingEntries_currency in H2. cbn in Hd, Hc, Hcu, Ham.
  destruct (reversalKind _ Hty) as (kd & kc & Hkd & Hkc & Hdd & Hdc). rewrite Hkd, Hkc in H3.
  assert (0 < PaymentReversalBooking.Amount b <= int64_max) as Hrange by lia.
  destruct (recordBooking_Ok _ _ _ _ _ _ _ _ _ _ _ Hok Hroom Hrange Hdd Hdc H3 H)
    as [Hok' Hcase]. split; [done|].
  rewrite H2, Hcu, Hd, Hc, Ham, !UpperTrim_idem, TrimSpace_idem in Hcase.
  by rewrite (ledgerClearingAccountID_trimmed _) in Hcase.
Qed.

(** [RecordPaymentSucceeded] moves the amount from the clearing account
    of the provider to the payee, and [RecordPaymentReversed] moves it back,
    or they leave the database as it was: when the booking was recorded
    before, on an error and on a panic. *)
Theorem payment_bookings_move_amount now (command : RecordPaymentCommand) ty db r db' :
  repo_ok db -> repo_room 2 db -> RecordPaymentCommand.Amount command <= int64_max ->
  (RecordPaymentSucceeded now command db = (r, db') ->
     db' = db \/ is_ok r = true /\ forall id c, storedBalance db' id c =
       wrap64 (storedBalance db id c + bookingDelta (clearingOf command) (payeeOf command)
                 (currencyOf command) (RecordPaymentCommand.Amount command) id c)) /\
  (RecordPaymentReversed now command ty db = (r, db') ->
     db' = db \/ is_ok r = true /\ forall id c, storedBalance db' id c =
       wrap64 (storedBalance db id c + bookingDelta (payeeOf command) (clearingOf command)
                 (currencyOf command) (RecordPaymentCommand.Amount command) id c)).
Proof.
  intros Hok Hroom Ha. split; intros H.
  - destruct r as [u|e|w]; [|left; by eapply atomic_run; [apply RecordPaymentSucceeded_is_atomic|..]..].
    destruct (RecordPaymentSucceeded_Ok _ _ _ _ _ Hok Hroom Ha H) as [_ [?|?]]; auto.
  - destruct r as [u|e|w]; [|left; by eapply atomic_run; [apply RecordPaymentReversed_is_atomic|..]..].
    destruct (RecordPaymentReversed_Ok _ _ _ _ _ _ Hok Hroom Ha H) as [_ [?|?]]; auto.
Qed.

Lemma storedBalance_in64 db id c : repo_ok db -> in64 (storedBalance db id c).
Proof. intros Hok. rewrite storedBalance_postings by done. apply wrap64_in64. Qed.

(** A reversal of the whole payment restores every balance of every
    account exactly, even where the payment overflowed a balance. *)
Theorem payment_reversal_restores now now' (command : RecordPaymentCommand) ty db db1 db2 :
  repo_ok db -> repo_room 2 db -> repo_room 2 db1 ->
  RecordPaymentCommand.Amount command <= int64_max ->
  RecordPaymentSucceeded now command db = (Ok tt, db1) -> db1 <> db ->
  RecordPaymentReversed now' command ty db1 = (Ok tt, db2) -> db2 <> db1 ->
  forall id c, storedBalance db2 id c = storedBalance db id c.
Proof.
  intros Hok Hroom Hroom1 Ha H1 Hne1 H2 Hne2 id c.
  destruct (RecordPaymentSucceeded_Ok _ _ _ _ _ Hok Hroom Ha H1) as [Hok1 [?|Hb1]]; [done|].
  destruct (RecordPaymentReversed_Ok _ _ _ _ _ _ Hok1 Hroom1 Ha H2) as [_ [?|Hb2]]; [done|].
  rewrite Hb2, Hb1, wrap64_add_l, <- (wrap64_id (storedBalance db id c)) at 1
    by (by apply storedBalance_in64).
  rewrite <- (wrap64_id (storedBalance db id c)) at 2 by (by apply storedBalance_in64).
  f_equal. rewrite wrap64_id by (by apply storedBalance_in64).
  unfold bookingDelta. repeat case_decide; lia.
Qed.
End payments.

(** ** The theorems at concrete inputs *)

Section witnesses.
#[local] Existing Instance caseless_unicode.

(** A database that holds Alice's account, with 5.00 USD. *)
Definition aliceSaved : LedgerAccountAggregate := updRoot MarkPersisted alice1.
Definition aliceDB : MemoryDB := {["alice" := aliceSaved]}.

Lemma aliceDB_ok : repo_ok aliceDB.
Proof.
  apply map_Forall_singleton. split; [|split; eval_closed].
  apply ledger_reachable_wf, reach_saved, alice1_reachable.
Qed.

Lemma aliceDB_room n : Z.of_nat n <= 1000 -> repo_room n aliceDB.
Proof.
  intros Hn. split; [unfold int64_max; lia|]. intros id a Ha.
  change (aliceDB !! id = Some a) in Ha. unfold aliceDB in Ha. apply lookup_singleton_Some in Ha as [_ <-]. unfold version_room.
  assert (baseVersion (Root aliceSaved) = 1 /\ events (Root aliceSaved) = []) as [-> ->] by eval_closed.
  unfold int64_max. cbn. lia.
Qed.

(** Alice sends Bob 2.00 USD, and a fee of 0.05 to the house. *)
Definition aliceToBob : TransferToAccountCommand :=
  TransferToAccountCommand.mk " tx7" "alice" "bob " "usd" 200 5 "house".

Definition aliceToBobRun : result LedgerTransaction * MemoryDB :=
  LedgerService.TransferToAccount 7 8 aliceToBob aliceDB.


#[local] Instance version_room_dec n (r : AggregateRoot LedgerEventData) :
  Decision (version_room n r).
Proof. unfold version_room. apply _. Defined.

Lemma memory_room n (db : MemoryDB) :
  Z.of_nat n <= 1000 -> bool_decide (map_Forall (fun _ a => version_room n (Root a)) db) = true ->
  repo_room n db.
Proof.
  intros Hn H%bool_decide_eq_true. split; [unfold int64_max; lia|]. intros id a Ha. exact (H id a Ha).
Qed.

(** Alice sends the same transaction again, from where the first run left. *)
Lemma aliceDB_after_ok : repo_ok aliceToBobRun.2 /\ repo_room 4 aliceToBobRun.2.
Proof.
  split.
  - apply TransferToAccount_repo_ok; [apply aliceDB_ok|apply aliceDB_room; lia].
  - apply memory_room; [lia|eval_closed].
Qed.

Lemma TransferToAccount_once_witness :
  storedBalance aliceToBobRun.2 "alice" "USD" = 295 /\
  stored (LedgerService.TransferToAccount 9 9 aliceToBob aliceToBobRun.2).2 "alice" =
    stored aliceToBobRun.2 "alice".
Proof.
  split; [eval_closed|].
  apply (TransferToAccount_once 9 9 aliceToBob aliceToBobRun.2
    (LedgerService.TransferToAccount 9 9 aliceToBob aliceToBobRun.2).1
    _ (proj1 aliceDB_after_ok) (proj2 aliceDB_after_ok)).
  - apply is_Some_bool. eval_closed.
  - apply surjective_pairing.
Defined.

(** A payment of 3.00 USD to Alice through Stripe, and its refund. *)
Definition alicePayment : RecordPaymentCommand :=
  RecordPaymentCommand.mk "pay9" "tx9" "provider:stripe" "alice" "usd" 300.

Definition paidRun : result unit * MemoryDB := RecordPaymentSucceeded 11 alicePayment aliceDB.

Lemma payment_bookings_move_amount_witness :
  storedBalance paidRun.2 "alice" "USD" = 800 /\
  (paidRun.2 = aliceDB \/ is_ok paidRun.1 = true /\ forall id c, storedBalance paidRun.2 id c =
     wrap64 (storedBalance aliceDB id c + bookingDelta (clearingOf alicePayment)
       (payeeOf alicePayment) (currencyOf alicePayment) 300 id c)).
Proof.
  split; [eval_closed|].
  apply (payment_bookings_move_amount 11 alicePayment "" aliceDB paidRun.1 paidRun.2 aliceDB_ok
    (aliceDB_room 2 ltac:(lia)) ltac:(eval_closed)).
  apply surjective_pairing.
Defined.

Definition refundedRun : result unit * MemoryDB :=
  RecordPaymentReversed 12 alicePayment EventPaymentRefunded paidRun.2.

Lemma payment_reversal_restores_witness :
  storedBalance paidRun.2 "alice" "USD" = 800 /\
  forall id c, storedBalance refundedRun.2 id c = storedBalance aliceDB id c.
Proof.
  assert (storedBalance paidRun.2 "alice" "USD" = 800) as Hpaid by eval_closed.
  split; [done|].
  apply (payment_reversal_restores 11 12 alicePayment EventPaymentRefunded aliceDB paidRun.2
    refundedRun.2 aliceDB_ok (aliceDB_room 2 ltac:(lia))).
  - apply memory_room; [lia|eval_closed].
  - eval_closed.
  - apply pair_fst_eq. eval_closed.
  - intros H. rewrite H in Hpaid. revert Hpaid. eval_closed.
  - apply pair_fst_eq. eval_closed.
  - intros H. assert (storedBalance refundedRun.2 "alice" "USD" = 500) as Hre by eval_closed.
    rewrite H, Hpaid in Hre. discriminate Hre.
Defined.

(** The events of the payment, recorded again. *)
Definition depositEvent : Event LedgerEventData :=
  mkEvent 0 "alice" ledgerAggregateType 0 (kindName DepositFromIntent)
    (LedgerPayment DepositFromIntent (Some (mkPaymentEventData "payment:pay9:succeeded" "pay9"
       "ledger:clearing:provider:stripe" "USD" 300 13))) 0.

Definition depositLeg : expectedLedgerPosting :=
  ("alice", Posting.mk "payment:pay9:succeeded" (kindName DepositFromIntent) "pay9"
     "ledger:clearing:provider:stripe" "USD" 300 13).

Lemma paidRun_ok : repo_ok paidRun.2 /\ repo_room 1 paidRun.2.
Proof.
  split; [|apply memory_room; [lia|eval_closed]].
  refine (proj1 (RecordPaymentSucceeded_Ok 11 alicePayment aliceDB tt paidRun.2 aliceDB_ok
    (aliceDB_room 2 _) _ _)); [lia|eval_closed|].
  apply pair_fst_eq. eval_closed.
Qed.

Lemma RecordLedgerEvents_all_or_nothing_witness :
  storedBalance (RecordLedgerEvents [depositEvent] aliceDB).2 "alice" "USD" = 800 /\
  repo_ok (RecordLedgerEvents [depositEvent] aliceDB).2.
Proof.
  split; [eval_closed|].
  pose proof (RecordLedgerEvents_all_or_nothing [depositEvent] aliceDB
    (RecordLedgerEvents [depositEvent] aliceDB).1 _ aliceDB_ok (aliceDB_room 1 ltac:(lia))
    (surjective_pairing _)) as H.
  assert (is_ok (RecordLedgerEvents [depositEvent] aliceDB).1 = true) as Hok by eval_closed.
  destruct (RecordLedgerEvents [depositEvent] aliceDB).1; [exact (proj1 H)|discriminate Hok..].
Defined.

Lemma RecordLedgerEvents_once_witness :
  (RecordLedgerEvents [depositEvent] paidRun.2).2 = paidRun.2.
Proof.
  apply (RecordLedgerEvents_once [depositEvent] paidRun.2
    (RecordLedgerEvents [depositEvent] paidRun.2).1 _ depositEvent depositLeg
    (proj1 paidRun_ok) (proj2 paidRun_ok)).
  - left.
  - split; eval_closed.
  - apply is_Some_bool. eval_closed.
  - apply surjective_pairing.
Defined.
End witnesses.
