(* ===== verification/PaymentEvents.v ===== *)
(** * Payment events (core/shared/contracts/events/payment_events.go)

    The payloads of the payment events, which the payment module publishes
    and the ledger consumes. *)

From stdpp Require Import prelude strings gmap.
From S2P Require Import Prelude GoStrings LedgerEntity.

Module PaymentCreatedEvent.
Record t := mk {
  Workflow : string;
  PaymentID : string;
  TransactionID : string;
  Provider : string;
  ClearingAccountKey : string;
  DebitAccountID : string;
  Amount : Z;
  FeeAmount : Z;
  ProviderAmount : Z;
  Currency : string;
  CreditAccountID : string;
  Status : string;
  Metadata : gmap string string;
  CreatedAt : Time
}.
End PaymentCreatedEvent.
Notation PaymentCreatedEvent := PaymentCreatedEvent.t.

Module PaymentWithdrawalRequestedEvent.
Record t := mk {
  PaymentID : string;
  TransactionID : string;
  Provider : string;
  ClearingAccountKey : string;
  DebitAccountID : string;
  DestinationAccountID : string;
  Amount : Z;
  FeeAmount : Z;
  ProviderAmount : Z;
  Currency : string;
  Status : string;
  RequestedAt : Time
}.
End PaymentWithdrawalRequestedEvent.
Notation PaymentWithdrawalRequestedEvent := PaymentWithdrawalRequestedEvent.t.

Module PaymentCheckoutSessionCreatedEvent.
Record t := mk {
  Workflow : string;
  PaymentID : string;
  TransactionID : string;
  Provider : string;
  ProviderPaymentRef : string;
  CheckoutURL : string;
  Amount : Z;
  FeeAmount : Z;
  ProviderAmount : Z;
  Currency : string;
  Status : string;
  OccurredAt : Time
}.
End PaymentCheckoutSessionCreatedEvent.
Notation PaymentCheckoutSessionCreatedEvent := PaymentCheckoutSessionCreatedEvent.t.

(** [PaymentSucceededEvent], [PaymentRefundedEvent] and
    [PaymentChargebackEvent] have the same fields; [OccurredAt] is their
    [SucceededAt], [RefundedAt] and [ChargedBackAt]. *)
Module PaymentSettledEvent.
Record t := mk {
  Workflow : string;
  PaymentID : string;
  TransactionID : string;
  Provider : string;
  ClearingAccountKey : string;
  DebitAccountID : string;
  ProviderEventID : string;
  ProviderEventType : string;
  ProviderPaymentRef : string;
  Amount : Z;
  FeeAmount : Z;
  ProviderAmount : Z;
  Currency : string;
  CreditAccountID : string;
  IdempotencyKey : string;
  OccurredAt : Time
}.
End PaymentSettledEvent.
Notation PaymentSettledEvent := PaymentSettledEvent.t.

Module PaymentFailedEvent.
Record t := mk {
  Workflow : string;
  PaymentID : string;
  TransactionID : string;
  Provider : string;
  ClearingAccountKey : string;
  DebitAccountID : string;
  ProviderEventID : string;
  ProviderEventType : string;
  ProviderPaymentRef : string;
  Amount : Z;
  FeeAmount : Z;
  ProviderAmount : Z;
  Currency : string;
  CreditAccountID : string;
  Status : string;
  OccurredAt : Time
}.
End PaymentFailedEvent.
Notation PaymentFailedEvent := PaymentFailedEvent.t.
