(* ===== verification/PaymentIntent.v ===== *)
(** * The payment intent (payment/domain/entity)

    [payment_intent.go] and [payment_intent_behavior.go]: the constructors,
    the normalisation of a stored intent, the state machine of its status and
    the payloads of its events. [now] stands for [time.Now()], which is read
    only where a zero time has to be replaced. *)

From stdpp Require Import prelude strings gmap.
From S2P Require Import Prelude GoStrings LedgerEntity PaymentEvents.

(** ** Data *)

Definition PaymentStatusCreating : string := "CREATING".
Definition PaymentStatusPending : string := "PENDING".
Definition PaymentStatusSuccess : string := "SUCCESS".
Definition PaymentStatusFailed : string := "FAILED".
Definition PaymentStatusCancelled : string := "CANCELLED".
Definition PaymentStatusRefunded : string := "REFUNDED".
Definition PaymentStatusChargeback : string := "CHARGEBACK".

Definition ValidPaymentStatuses : list string :=
  [PaymentStatusCreating; PaymentStatusPending; PaymentStatusSuccess; PaymentStatusFailed;
   PaymentStatusCancelled; PaymentStatusRefunded; PaymentStatusChargeback].

Definition PaymentWorkflowTopUp : string := "TOP_UP".
Definition PaymentWorkflowWithdrawal : string := "WITHDRAWAL".

Inductive PaymentTransitionType : Type :=
  | PaymentTransitionNone
  | PaymentTransitionPending
  | PaymentTransitionSucceeded
  | PaymentTransitionFailed
  | PaymentTransitionCancelled
  | PaymentTransitionRefunded
  | PaymentTransitionChargeback.

#[export] Instance PaymentTransitionType_eq_dec : EqDecision PaymentTransitionType.
Proof. solve_decision. Defined.

Module PaymentTransition.
Record t := mk {
  PreviousStatus : string;
  CurrentStatus : string;
  Type_ : PaymentTransitionType;
  StateChanged : bool;
  ExternalRefChanged : bool;
  Ignored : bool
}.
End PaymentTransition.
Notation PaymentTransition := PaymentTransition.t.

Module PaymentIntent.
Record t := mk {
  Workflow : string;
  TransactionID : string;
  Provider : string;
  ExternalRef : string;
  DestinationAccountID : string;
  Amount : Z;
  FeeAmount : Z;
  ProviderAmount : Z;
  Currency : string;
  ClearingAccountKey : string;
  DebitAccountID : string;
  CreditAccountID : string;
  Status : string;
  CreatedAt : Time;
  UpdatedAt : Time
}.

Definition set_Status (s : string) (p : t) : t :=
  mk (Workflow p) (TransactionID p) (Provider p) (ExternalRef p) (DestinationAccountID p)
    (Amount p) (FeeAmount p) (ProviderAmount p) (Currency p) (ClearingAccountKey p)
    (DebitAccountID p) (CreditAccountID p) s (CreatedAt p) (UpdatedAt p).

Definition set_ExternalRef (r : string) (p : t) : t :=
  mk (Workflow p) (TransactionID p) (Provider p) r (DestinationAccountID p)
    (Amount p) (FeeAmount p) (ProviderAmount p) (Currency p) (ClearingAccountKey p)
    (DebitAccountID p) (CreditAccountID p) (Status p) (CreatedAt p) (UpdatedAt p).

Definition set_UpdatedAt (u : Time) (p : t) : t :=
  mk (Workflow p) (TransactionID p) (Provider p) (ExternalRef p) (DestinationAccountID p)
    (Amount p) (FeeAmount p) (ProviderAmount p) (Currency p) (ClearingAccountKey p)
    (DebitAccountID p) (CreditAccountID p) (Status p) (CreatedAt p) u.

Definition set_Times (c u : Time) (p : t) : t :=
  mk (Workflow p) (TransactionID p) (Provider p) (ExternalRef p) (DestinationAccountID p)
    (Amount p) (FeeAmount p) (ProviderAmount p) (Currency p) (ClearingAccountKey p)
    (DebitAccountID p) (CreditAccountID p) (Status p) c u.

Definition set_Accounts (dest debit : string) (p : t) : t :=
  mk (Workflow p) (TransactionID p) (Provider p) (ExternalRef p) dest
    (Amount p) (FeeAmount p) (ProviderAmount p) (Currency p) (ClearingAccountKey p)
    debit (CreditAccountID p) (Status p) (CreatedAt p) (UpdatedAt p).
End PaymentIntent.
Notation PaymentIntent := PaymentIntent.t.

Module PaymentProviderResult.
Record t := mk {
  TransactionID : string;
  EventID : string;
  EventType : string;
  Status : string;
  Amount : Z;
  Currency : string;
  ExternalRef : string
}.
End PaymentProviderResult.
Notation PaymentProviderResult := PaymentProviderResult.t.

Module ProcessedPaymentEvent.
Record t := mk {
  Provider : string;
  IdempotencyKey : string;
  TransactionID : string;
  CreatedAt : Time
}.
End ProcessedPaymentEvent.
Notation ProcessedPaymentEvent := ProcessedPaymentEvent.t.

Definition ErrPaymentProviderRequired := Sentinel "ErrPaymentProviderRequired".
Definition ErrPaymentTransactionIDRequired := Sentinel "ErrPaymentTransactionIDRequired".
Definition ErrPaymentWorkflowInvalid := Sentinel "ErrPaymentWorkflowInvalid".
Definition ErrPaymentAmountInvalid := Sentinel "ErrPaymentAmountInvalid".
Definition ErrPaymentFeeAmountInvalid := Sentinel "ErrPaymentFeeAmountInvalid".
Definition ErrPaymentProviderAmountInvalid := Sentinel "ErrPaymentProviderAmountInvalid".
Definition ErrPaymentCurrencyRequired := Sentinel "ErrPaymentCurrencyRequired".
Definition ErrPaymentClearingAccountKeyMissing := Sentinel "ErrPaymentClearingAccountKeyMissing".
Definition ErrPaymentDestinationAccountRequired := Sentinel "ErrPaymentDestinationAccountRequired".
Definition ErrPaymentDebitAccountRequired := Sentinel "ErrPaymentDebitAccountRequired".
Definition ErrPaymentCreditAccountRequired := Sentinel "ErrPaymentCreditAccountRequired".
Definition ErrPaymentAccountsConflict := Sentinel "ErrPaymentAccountsConflict".
Definition ErrPaymentStatusInvalid := Sentinel "ErrPaymentStatusInvalid".
Definition ErrPaymentProviderAmountMismatch := Sentinel "ErrPaymentProviderAmountMismatch".
Definition ErrPaymentProviderCurrencyMismatch := Sentinel "ErrPaymentProviderCurrencyMismatch".
Definition ErrPaymentProcessedProviderRequired := Sentinel "ErrPaymentProcessedProviderRequired".
Definition ErrPaymentProcessedKeyRequired := Sentinel "ErrPaymentProcessedKeyRequired".
Definition ErrPaymentProcessedTxnRequired := Sentinel "ErrPaymentProcessedTxnRequired".

(** ** Normalisation *)

Definition normalizePaymentTime (now value : Time) : Time :=
  if IsZero value then UTC now else UTC value.

Fixpoint coalescePaymentValue (values : list string) : string :=
  match values with
  | [] => ""
  | value :: rest =>
      let value := TrimSpace value in
      if decide (value <> "") then value else coalescePaymentValue rest
  end.

Definition paymentResultAmountOrDefault (amount fallback : Z) : Z :=
  if decide (amount <> 0) then amount else fallback.

Section normalize.
Context `{UC : UnicodeCase}.

Definition providerClearingAccountKey (provider : string) : string :=
  let provider := ToLower (TrimSpace provider) in
  if decide (provider = "") then "" else "provider:" +:+ provider.

Definition effectivePaymentClearingAccountKey (provider clearingAccountKey : string) : string :=
  let clearingAccountKey := TrimSpace clearingAccountKey in
  if decide (clearingAccountKey <> "") then clearingAccountKey
  else providerClearingAccountKey provider.

Definition NormalizePaymentWorkflow (workflow : string) : string :=
  let workflow := ToUpper (TrimSpace workflow) in
  if decide (workflow = PaymentWorkflowTopUp) then PaymentWorkflowTopUp
  else if decide (workflow = PaymentWorkflowWithdrawal) then PaymentWorkflowWithdrawal
  else "".

Definition NormalizePaymentStatus (status : string) : string :=
  let normalized := ToUpper (TrimSpace status) in
  if decide (normalized ∈ ValidPaymentStatuses) then normalized else "".

Definition NormalizePaymentStatusOrPending (status : string) : string :=
  let normalized := NormalizePaymentStatus status in
  if decide (normalized <> "") then normalized else PaymentStatusPending.

(** [ensureWorkflowDefaults] on a non-nil intent. *)
Definition ensureWorkflowDefaults (p : PaymentIntent) : PaymentIntent :=
  let workflow := NormalizePaymentWorkflow (PaymentIntent.Workflow p) in
  let workflow := if decide (workflow = "") then PaymentWorkflowTopUp else workflow in
  let provider := ToLower (TrimSpace (PaymentIntent.Provider p)) in
  let amount := PaymentIntent.Amount p in
  let fee := PaymentIntent.FeeAmount p in
  let providerAmount :=
    if decide (PaymentIntent.ProviderAmount p <= 0) then
      if decide (workflow = PaymentWorkflowWithdrawal) then amount else add64 amount fee
    else PaymentIntent.ProviderAmount p in
  let status := NormalizePaymentStatus (PaymentIntent.Status p) in
  let status := if decide (status = "") then PaymentStatusCreating else status in
  PaymentIntent.mk workflow (TrimSpace (PaymentIntent.TransactionID p)) provider
    (TrimSpace (PaymentIntent.ExternalRef p)) (TrimSpace (PaymentIntent.DestinationAccountID p))
    amount fee providerAmount (ToUpper (TrimSpace (PaymentIntent.Currency p)))
    (effectivePaymentClearingAccountKey provider (PaymentIntent.ClearingAccountKey p))
    (TrimSpace (PaymentIntent.DebitAccountID p)) (TrimSpace (PaymentIntent.CreditAccountID p))
    status (PaymentIntent.CreatedAt p) (PaymentIntent.UpdatedAt p).

(** ** Constructors *)

Definition newPaymentIntent (now : Time) (workflow transactionID provider : string)
    (amount feeAmount providerAmount : Z) (currency clearingAccountKey destinationAccountID
    debitAccountID creditAccountID : string) (at_ : Time) : result PaymentIntent :=
  let workflow := NormalizePaymentWorkflow workflow in
  let transactionID := TrimSpace transactionID in
  let provider := ToLower (TrimSpace provider) in
  let currency := ToUpper (TrimSpace currency) in
  let clearingAccountKey := effectivePaymentClearingAccountKey provider clearingAccountKey in
  let destinationAccountID := TrimSpace destinationAccountID in
  let debitAccountID := TrimSpace debitAccountID in
  let creditAccountID := TrimSpace creditAccountID in
  if decide (workflow = "") then Err ErrPaymentWorkflowInvalid
  else if decide (provider = "") then Err ErrPaymentProviderRequired
  else if decide (transactionID = "") then Err ErrPaymentTransactionIDRequired
  else if decide (amount <= 0) then Err ErrPaymentAmountInvalid
  else if decide (feeAmount < 0) then Err ErrPaymentFeeAmountInvalid
  else if decide (providerAmount <= 0) then Err ErrPaymentProviderAmountInvalid
  else if decide (currency = "") then Err ErrPaymentCurrencyRequired
  else if decide (clearingAccountKey = "") then Err ErrPaymentClearingAccountKeyMissing
  else if decide (workflow = PaymentWorkflowTopUp /\ creditAccountID = "") then
    Err ErrPaymentCreditAccountRequired
  else if decide (workflow = PaymentWorkflowWithdrawal /\ debitAccountID = "") then
    Err ErrPaymentDebitAccountRequired
  else if decide (workflow = PaymentWorkflowWithdrawal /\ destinationAccountID = "") then
    Err ErrPaymentDestinationAccountRequired
  else if decide (debitAccountID <> "" /\ creditAccountID <> "" /\
                  debitAccountID = creditAccountID) then Err ErrPaymentAccountsConflict
  else
    let at_ := normalizePaymentTime now at_ in
    Ok (PaymentIntent.mk workflow transactionID provider "" destinationAccountID amount
          feeAmount providerAmount currency clearingAccountKey debitAccountID creditAccountID
          PaymentStatusCreating at_ at_).

Definition NewProviderTopUpIntent (now : Time) (transactionID provider : string)
    (amount feeAmount : Z) (currency beneficiaryAccountID : string) (at_ : Time) :
    result PaymentIntent :=
  newPaymentIntent now PaymentWorkflowTopUp transactionID provider amount feeAmount
    (add64 amount feeAmount) currency (providerClearingAccountKey provider) "" ""
    beneficiaryAccountID at_.

Definition NewProviderWithdrawalIntent (now : Time) (transactionID provider : string)
    (amount feeAmount : Z) (currency destinationAccountID debitAccountID : string)
    (at_ : Time) : result PaymentIntent :=
  newPaymentIntent now PaymentWorkflowWithdrawal transactionID provider amount feeAmount
    amount currency (providerClearingAccountKey provider) destinationAccountID
    debitAccountID "" at_.
End normalize.

(** ** Provider transitions *)

Definition noTransition (current : string) : PaymentTransition :=
  PaymentTransition.mk current current PaymentTransitionNone false false false.

Definition ignoredTransition (current : string) : PaymentTransition :=
  PaymentTransition.mk current current PaymentTransitionNone false false true.

Definition changedTransition (current next : string) (type : PaymentTransitionType) :
    PaymentTransition :=
  PaymentTransition.mk current next type true false false.

Definition set_ExternalRefChanged (t : PaymentTransition) : PaymentTransition :=
  PaymentTransition.mk (PaymentTransition.PreviousStatus t) (PaymentTransition.CurrentStatus t)
    (PaymentTransition.Type_ t) (PaymentTransition.StateChanged t) true
    (PaymentTransition.Ignored t).

Section transition.
Context `{UC : UnicodeCase}.

Definition resolvePaymentTransition (previousStatus nextStatus : string) : PaymentTransition :=
  let current := NormalizePaymentStatusOrPending previousStatus in
  if decide (current = nextStatus) then noTransition current
  else if decide (current = PaymentStatusCreating) then
    if decide (nextStatus = PaymentStatusPending) then
      changedTransition current nextStatus PaymentTransitionPending
    else if decide (nextStatus = PaymentStatusSuccess) then
      changedTransition current nextStatus PaymentTransitionSucceeded
    else if decide (nextStatus = PaymentStatusFailed) then
      changedTransition current nextStatus PaymentTransitionFailed
    else if decide (nextStatus = PaymentStatusCancelled) then
      changedTransition current nextStatus PaymentTransitionCancelled
    else ignoredTransition current
  else if decide (current = PaymentStatusPending) then
    if decide (nextStatus = PaymentStatusSuccess) then
      changedTransition current nextStatus PaymentTransitionSucceeded
    else if decide (nextStatus = PaymentStatusFailed) then
      changedTransition current nextStatus PaymentTransitionFailed
    else if decide (nextStatus = PaymentStatusCancelled) then
      changedTransition current nextStatus PaymentTransitionCancelled
    else ignoredTransition current
  else if decide (current = PaymentStatusSuccess) then
    if decide (nextStatus = PaymentStatusRefunded) then
      changedTransition current nextStatus PaymentTransitionRefunded
    else if decide (nextStatus = PaymentStatusChargeback) then
      changedTransition current nextStatus PaymentTransitionChargeback
    else ignoredTransition current
  else ignoredTransition current.

Definition transitionProviderState (now : Time) (externalRef status : string)
    (updatedAt : Time) : method PaymentIntent PaymentTransition := fun p =>
  let p := ensureWorkflowDefaults p in
  let normalizedStatus := NormalizePaymentStatus status in
  if decide (normalizedStatus = "") then (Err ErrPaymentStatusInvalid, p) else
  let transition :=
    resolvePaymentTransition (NormalizePaymentStatusOrPending (PaymentIntent.Status p))
      normalizedStatus in
  let p :=
    if PaymentTransition.StateChanged transition
    then PaymentIntent.set_Status (PaymentTransition.CurrentStatus transition) p else p in
  let externalRef := TrimSpace externalRef in
  let '(p, transition) :=
    if decide (externalRef <> "" /\ externalRef <> PaymentIntent.ExternalRef p)
    then (PaymentIntent.set_ExternalRef externalRef p, set_ExternalRefChanged transition)
    else (p, transition) in
  let p :=
    if PaymentTransition.StateChanged transition || PaymentTransition.ExternalRefChanged transition
    then PaymentIntent.set_UpdatedAt (normalizePaymentTime now updatedAt) p else p in
  (Ok transition, p).

Definition SetProviderState (now : Time) (externalRef status : string) (updatedAt : Time) :
    method PaymentIntent unit :=
  transitionProviderState now externalRef status updatedAt ≫= fun _ => mret tt.

Definition ValidateProviderResultForStatus (p : PaymentIntent) (status : string)
    (amount : Z) (currency : string) : result unit :=
  let normalizedStatus := NormalizePaymentStatus status in
  let normalizedStatus :=
    if decide (normalizedStatus = "") then NormalizePaymentStatusOrPending status
    else normalizedStatus in
  let mismatch :=
    if decide (normalizedStatus = PaymentStatusRefunded \/
               normalizedStatus = PaymentStatusChargeback)
    then bool_decide (amount <> 0 /\ PaymentIntent.ProviderAmount p < amount)
    else bool_decide (amount <> 0 /\ amount <> PaymentIntent.ProviderAmount p) in
  if mismatch then Err ErrPaymentProviderAmountMismatch else
  let currency := TrimSpace currency in
  if decide (currency <> "" /\ EqualFold currency (PaymentIntent.Currency p) = false)
  then Err ErrPaymentProviderCurrencyMismatch
  else Ok tt.

Definition ValidateProviderResult (p : PaymentIntent) (amount : Z) (currency : string) :
    result unit :=
  ValidateProviderResultForStatus p (PaymentIntent.Status p) amount currency.

Definition TransitionProviderResult (now : Time) (res : PaymentProviderResult)
    (updatedAt : Time) : method PaymentIntent PaymentTransition :=
  _ ← modify ensureWorkflowDefaults;
  p ← get;
  let nextStatus := NormalizePaymentStatusOrPending (PaymentProviderResult.Status res) in
  _ ← lift (ValidateProviderResultForStatus p nextStatus
              (PaymentProviderResult.Amount res) (PaymentProviderResult.Currency res));
  transitionProviderState now (PaymentProviderResult.ExternalRef res) nextStatus updatedAt.

Definition ApplyProviderResult (now : Time) (res : PaymentProviderResult)
    (updatedAt : Time) : method PaymentIntent unit :=
  TransitionProviderResult now res updatedAt ≫= fun _ => mret tt.

Definition MarkCreateFailed (now updatedAt : Time) : method PaymentIntent PaymentTransition :=
  transitionProviderState now "" PaymentStatusFailed updatedAt.
End transition.

(** ** Predicates *)

Definition IsSucceeded (p : PaymentIntent) : bool :=
  bool_decide (PaymentIntent.Status p = PaymentStatusSuccess).
Definition IsTopUp (p : PaymentIntent) : bool :=
  bool_decide (PaymentIntent.Workflow p = PaymentWorkflowTopUp).
Definition IsWithdrawal (p : PaymentIntent) : bool :=
  bool_decide (PaymentIntent.Workflow p = PaymentWorkflowWithdrawal).
Definition IsFailed (p : PaymentIntent) : bool :=
  bool_decide (PaymentIntent.Status p = PaymentStatusFailed).
Definition IsCancelled (p : PaymentIntent) : bool :=
  bool_decide (PaymentIntent.Status p = PaymentStatusCancelled).
Definition IsRefunded (p : PaymentIntent) : bool :=
  bool_decide (PaymentIntent.Status p = PaymentStatusRefunded).
Definition IsChargeback (p : PaymentIntent) : bool :=
  bool_decide (PaymentIntent.Status p = PaymentStatusChargeback).

Definition IsTerminal (p : PaymentIntent) : bool :=
  bool_decide (PaymentIntent.Status p ∈
    [PaymentStatusSuccess; PaymentStatusFailed; PaymentStatusCancelled;
     PaymentStatusRefunded; PaymentStatusChargeback]).

Definition IsFinalized (p : PaymentIntent) : bool :=
  IsSucceeded p || IsRefunded p || IsChargeback p.

Definition ShouldEmitCheckoutSessionCreated (p : PaymentIntent) (checkoutURL : string) : bool :=
  if decide (PaymentIntent.Workflow p <> PaymentWorkflowTopUp) then false
  else bool_decide (TrimSpace checkoutURL <> "" \/ TrimSpace (PaymentIntent.ExternalRef p) <> "").

(** ** Keys *)

Definition PaymentIdempotencyKey (p : PaymentIntent) (eventID externalRef : string) : string :=
  let eventID := TrimSpace eventID in
  if decide (eventID <> "") then eventID else
  let externalRef := TrimSpace externalRef in
  if decide (externalRef <> "") then externalRef else
  let externalRef := TrimSpace (PaymentIntent.ExternalRef p) in
  if decide (externalRef <> "") then externalRef else
  TrimSpace (PaymentIntent.TransactionID p).

Definition TransitionIdempotencyKey (p : PaymentIntent) (eventName : string) : string :=
  TrimSpace eventName +:+ ":" +:+ TrimSpace (PaymentIntent.TransactionID p).

(** ** Event payloads

    The builders normalise the intent they are called on. *)

Section build.
Context `{UC : UnicodeCase}.
Context (now : Time).

(** A builder: what it makes of the normalised intent. *)
Definition building {A} (f : PaymentIntent -> A) : method PaymentIntent A :=
  modify ensureWorkflowDefaults ≫= fun _ => get ≫= fun p => mret (f p).

Definition CurrentProviderResult (p : PaymentIntent) (source : PaymentProviderResult) :
    PaymentProviderResult :=
  let amount := PaymentProviderResult.Amount source in
  let amount := if decide (amount = 0) then PaymentIntent.ProviderAmount p else amount in
  PaymentProviderResult.mk
    (coalescePaymentValue [PaymentProviderResult.TransactionID source; PaymentIntent.TransactionID p])
    (TrimSpace (PaymentProviderResult.EventID source))
    (TrimSpace (PaymentProviderResult.EventType source))
    (NormalizePaymentStatusOrPending
       (coalescePaymentValue [PaymentProviderResult.Status source; PaymentIntent.Status p]))
    amount
    (coalescePaymentValue [PaymentProviderResult.Currency source; PaymentIntent.Currency p])
    (coalescePaymentValue [PaymentProviderResult.ExternalRef source; PaymentIntent.ExternalRef p]).

Definition BuildCreatedEventData (metadata : gmap string string) (createdAt : Time) :
    method PaymentIntent PaymentCreatedEvent :=
  building (fun p => PaymentCreatedEvent.mk (PaymentIntent.Workflow p)
    (PaymentIntent.TransactionID p) (PaymentIntent.TransactionID p) (PaymentIntent.Provider p)
    (PaymentIntent.ClearingAccountKey p) (PaymentIntent.DebitAccountID p)
    (PaymentIntent.Amount p) (PaymentIntent.FeeAmount p) (PaymentIntent.ProviderAmount p)
    (PaymentIntent.Currency p) (PaymentIntent.CreditAccountID p) (PaymentIntent.Status p)
    metadata (normalizePaymentTime now createdAt)).

(** This one reads the intent as it is. *)
Definition BuildWithdrawalRequestedEventData (p : PaymentIntent) (occurredAt : Time) :
    PaymentWithdrawalRequestedEvent :=
  PaymentWithdrawalRequestedEvent.mk (PaymentIntent.TransactionID p)
    (PaymentIntent.TransactionID p) (PaymentIntent.Provider p)
    (PaymentIntent.ClearingAccountKey p) (PaymentIntent.DebitAccountID p)
    (PaymentIntent.DestinationAccountID p) (PaymentIntent.Amount p) (PaymentIntent.FeeAmount p)
    (PaymentIntent.ProviderAmount p) (PaymentIntent.Currency p) (PaymentIntent.Status p)
    (normalizePaymentTime now occurredAt).

Definition BuildCheckoutSessionCreatedEventData (checkoutURL : string) (occurredAt : Time) :
    method PaymentIntent PaymentCheckoutSessionCreatedEvent :=
  building (fun p => PaymentCheckoutSessionCreatedEvent.mk (PaymentIntent.Workflow p)
    (PaymentIntent.TransactionID p) (PaymentIntent.TransactionID p) (PaymentIntent.Provider p)
    (PaymentIntent.ExternalRef p) (TrimSpace checkoutURL)
    (PaymentIntent.Amount p) (PaymentIntent.FeeAmount p) (PaymentIntent.ProviderAmount p)
    (PaymentIntent.Currency p) (PaymentIntent.Status p) (normalizePaymentTime now occurredAt)).

Definition BuildSucceededEventData (res : PaymentProviderResult) (occurredAt : Time) :
    method PaymentIntent PaymentSettledEvent :=
  building (fun p => PaymentSettledEvent.mk (PaymentIntent.Workflow p)
    (PaymentIntent.TransactionID p) (PaymentIntent.TransactionID p) (PaymentIntent.Provider p)
    (PaymentIntent.ClearingAccountKey p) (PaymentIntent.DebitAccountID p)
    (TrimSpace (PaymentProviderResult.EventID res))
    (TrimSpace (PaymentProviderResult.EventType res))
    (coalescePaymentValue [PaymentProviderResult.ExternalRef res; PaymentIntent.ExternalRef p])
    (PaymentIntent.Amount p) (PaymentIntent.FeeAmount p) (PaymentIntent.ProviderAmount p)
    (PaymentIntent.Currency p) (PaymentIntent.CreditAccountID p)
    (TransitionIdempotencyKey p EventPaymentSucceeded) (normalizePaymentTime now occurredAt)).

Definition BuildFailedEventData (res : PaymentProviderResult) (occurredAt : Time) :
    method PaymentIntent PaymentFailedEvent :=
  building (fun p => PaymentFailedEvent.mk (PaymentIntent.Workflow p)
    (PaymentIntent.TransactionID p) (PaymentIntent.TransactionID p) (PaymentIntent.Provider p)
    (PaymentIntent.ClearingAccountKey p) (PaymentIntent.DebitAccountID p)
    (TrimSpace (PaymentProviderResult.EventID res))
    (TrimSpace (PaymentProviderResult.EventType res))
    (coalescePaymentValue [PaymentProviderResult.ExternalRef res; PaymentIntent.ExternalRef p])
    (PaymentIntent.Amount p) (PaymentIntent.FeeAmount p) (PaymentIntent.ProviderAmount p)
    (PaymentIntent.Currency p) (PaymentIntent.CreditAccountID p)
    (NormalizePaymentStatusOrPending (PaymentProviderResult.Status res))
    (normalizePaymentTime now occurredAt)).

(** The refund and the chargeback event carry the amount of the provider's
    result, which [CurrentProviderResult] has already defaulted. *)
Definition BuildRefundedEventData (res : PaymentProviderResult) (occurredAt : Time) :
    method PaymentIntent PaymentSettledEvent :=
  building (fun p =>
    let current := CurrentProviderResult p res in
    PaymentSettledEvent.mk (PaymentIntent.Workflow p)
      (PaymentIntent.TransactionID p) (PaymentIntent.TransactionID p) (PaymentIntent.Provider p)
      (PaymentIntent.ClearingAccountKey p) (PaymentIntent.DebitAccountID p)
      (TrimSpace (PaymentProviderResult.EventID current))
      (TrimSpace (PaymentProviderResult.EventType current))
      (coalescePaymentValue [PaymentProviderResult.ExternalRef current; PaymentIntent.ExternalRef p])
      (paymentResultAmountOrDefault (PaymentProviderResult.Amount current) (PaymentIntent.Amount p))
      (PaymentIntent.FeeAmount p) (PaymentIntent.ProviderAmount p)
      (PaymentIntent.Currency p) (PaymentIntent.CreditAccountID p)
      (TransitionIdempotencyKey p EventPaymentRefunded) (normalizePaymentTime now occurredAt)).

Definition BuildChargebackEventData (res : PaymentProviderResult) (occurredAt : Time) :
    method PaymentIntent PaymentSettledEvent :=
  building (fun p =>
    let current := CurrentProviderResult p res in
    PaymentSettledEvent.mk (PaymentIntent.Workflow p)
      (PaymentIntent.TransactionID p) (PaymentIntent.TransactionID p) (PaymentIntent.Provider p)
      (PaymentIntent.ClearingAccountKey p) (PaymentIntent.DebitAccountID p)
      (TrimSpace (PaymentProviderResult.EventID current))
      (TrimSpace (PaymentProviderResult.EventType current))
      (coalescePaymentValue [PaymentProviderResult.ExternalRef current; PaymentIntent.ExternalRef p])
      (paymentResultAmountOrDefault (PaymentProviderResult.Amount current) (PaymentIntent.Amount p))
      (PaymentIntent.FeeAmount p) (PaymentIntent.ProviderAmount p)
      (PaymentIntent.Currency p) (PaymentIntent.CreditAccountID p)
      (TransitionIdempotencyKey p EventPaymentChargeback) (normalizePaymentTime now occurredAt)).

(** ** Processed events *)

Definition NewProcessedPaymentEvent (provider idempotencyKey transactionID : string)
    (createdAt : Time) : result ProcessedPaymentEvent :=
  let provider := TrimSpace provider in
  let idempotencyKey := TrimSpace idempotencyKey in
  let transactionID := TrimSpace transactionID in
  if decide (provider = "") then Err ErrPaymentProcessedProviderRequired
  else if decide (idempotencyKey = "") then Err ErrPaymentProcessedKeyRequired
  else if decide (transactionID = "") then Err ErrPaymentProcessedTxnRequired
  else Ok (ProcessedPaymentEvent.mk provider idempotencyKey transactionID
             (normalizePaymentTime now createdAt)).

Definition NewProcessedEvent (p : PaymentIntent) (res : PaymentProviderResult)
    (createdAt : Time) : result ProcessedPaymentEvent :=
  NewProcessedPaymentEvent (PaymentIntent.Provider p)
    (PaymentIdempotencyKey p (PaymentProviderResult.EventID res)
       (PaymentProviderResult.ExternalRef res))
    (PaymentIntent.TransactionID p) createdAt.

Definition NewProcessedTransitionEvent (p : PaymentIntent) (eventName : string)
    (createdAt : Time) : result ProcessedPaymentEvent :=
  NewProcessedPaymentEvent (PaymentIntent.Provider p) (TransitionIdempotencyKey p eventName)
    (PaymentIntent.TransactionID p) createdAt.
End build.

(** ** The state machine of the status

    The specification the transitions refine: a payment is created, may become
    pending, is settled once, and a success may be reversed. *)

Inductive payment_step : string -> string -> Prop :=
  | payment_accepted : payment_step PaymentStatusCreating PaymentStatusPending
  | payment_settled s t :
      s ∈ [PaymentStatusCreating; PaymentStatusPending] ->
      t ∈ [PaymentStatusSuccess; PaymentStatusFailed; PaymentStatusCancelled] ->
      payment_step s t
  | payment_reversed t :
      t ∈ [PaymentStatusRefunded; PaymentStatusChargeback] ->
      payment_step PaymentStatusSuccess t.

Definition payment_edges : list (string * string) :=
  [(PaymentStatusCreating, PaymentStatusPending);
   (PaymentStatusCreating, PaymentStatusSuccess);
   (PaymentStatusCreating, PaymentStatusFailed);
   (PaymentStatusCreating, PaymentStatusCancelled);
   (PaymentStatusPending, PaymentStatusSuccess);
   (PaymentStatusPending, PaymentStatusFailed);
   (PaymentStatusPending, PaymentStatusCancelled);
   (PaymentStatusSuccess, PaymentStatusRefunded);
   (PaymentStatusSuccess, PaymentStatusChargeback)].

(** Case analysis on a string known to be in a closed list. *)
Ltac string_cases :=
  repeat match goal with
  | H : _ ∈ _ :: _ |- _ => apply elem_of_cons in H as [->|H]
  | H : _ ∈ [] |- _ => by apply not_elem_of_nil in H
  end.

Lemma payment_step_edges s t : payment_step s t <-> (s, t) ∈ payment_edges.
Proof.
  split.
  - intros []; string_cases; apply (bool_decide_unpack _); vm_compute; exact I.
  - intros H. unfold payment_edges in H.
    repeat (apply elem_of_cons in H as [[= -> ->]|H];
      [constructor; apply (bool_decide_unpack _); vm_compute; exact I|]).
    by apply not_elem_of_nil in H.
Qed.

#[export] Instance payment_step_dec s t : Decision (payment_step s t).
Proof.
  refine (cast_if (decide ((s, t) ∈ payment_edges))); by rewrite payment_step_edges.
Defined.

(** How far a payment has come: every step moves it forward. *)
Definition payment_rank (s : string) : nat :=
  if decide (s = PaymentStatusCreating) then 0
  else if decide (s = PaymentStatusPending) then 1
  else if decide (s ∈ [PaymentStatusRefunded; PaymentStatusChargeback]) then 3
  else 2.

Lemma payment_step_rank s t : payment_step s t -> (payment_rank s < payment_rank t)%nat.
Proof. intros []; string_cases; vm_compute; lia. Qed.

Lemma payment_steps_rank s t : rtc payment_step s t -> (payment_rank s <= payment_rank t)%nat.
Proof. induction 1 as [|s u t H _ IH]; [done|]. apply payment_step_rank in H. lia. Qed.

Lemma payment_step_valid s t :
  payment_step s t -> s ∈ ValidPaymentStatuses /\ t ∈ ValidPaymentStatuses.
Proof.
  intros H%payment_step_edges. unfold payment_edges in H.
  repeat (apply elem_of_cons in H as [[= -> ->]|H];
    [split; apply (bool_decide_unpack _); vm_compute; exact I|]).
  by apply not_elem_of_nil in H.
Qed.

(** The transition type that announces a move to a status. *)
Definition transitionTypeTo (status : string) : PaymentTransitionType :=
  if decide (status = PaymentStatusPending) then PaymentTransitionPending
  else if decide (status = PaymentStatusSuccess) then PaymentTransitionSucceeded
  else if decide (status = PaymentStatusFailed) then PaymentTransitionFailed
  else if decide (status = PaymentStatusCancelled) then PaymentTransitionCancelled
  else if decide (status = PaymentStatusRefunded) then PaymentTransitionRefunded
  else PaymentTransitionChargeback.

Section facts.
Context `{UC : UnicodeCase}.
Implicit Types (p : PaymentIntent).

Lemma NormalizePaymentStatus_valid s :
  s ∈ ValidPaymentStatuses -> NormalizePaymentStatus s = s.
Proof. intros H. unfold ValidPaymentStatuses in H. string_cases; vm_compute; reflexivity. Qed.

Lemma NormalizePaymentStatus_range s :
  NormalizePaymentStatus s = "" \/ NormalizePaymentStatus s ∈ ValidPaymentStatuses.
Proof. unfold NormalizePaymentStatus. case_decide; auto. Qed.

Lemma valid_status_nonempty s : s ∈ ValidPaymentStatuses -> s <> "".
Proof. intros H ->. revert H. apply (bool_decide_unpack _). vm_compute. exact I. Qed.

Lemma NormalizePaymentStatusOrPending_valid s :
  NormalizePaymentStatusOrPending s ∈ ValidPaymentStatuses.
Proof.
  unfold NormalizePaymentStatusOrPending. case_decide as H.
  - by destruct (NormalizePaymentStatus_range s).
  - apply (bool_decide_unpack _). vm_compute. exact I.
Qed.

Lemma NormalizePaymentStatusOrPending_id s :
  s ∈ ValidPaymentStatuses -> NormalizePaymentStatusOrPending s = s.
Proof.
  intros H. unfold NormalizePaymentStatusOrPending.
  rewrite NormalizePaymentStatus_valid by done. case_decide as Hn; [done|].
  by apply valid_status_nonempty in H.
Qed.

Lemma NormalizePaymentStatusOrPending_some s :
  NormalizePaymentStatus s <> "" ->
  NormalizePaymentStatusOrPending s = NormalizePaymentStatus s.
Proof. unfold NormalizePaymentStatusOrPending. intros. by rewrite decide_True. Qed.

(** The transition table implements the specification. *)
Lemma resolvePaymentTransition_spec s t :
  s ∈ ValidPaymentStatuses -> t ∈ ValidPaymentStatuses ->
  resolvePaymentTransition s t =
    if decide (payment_step s t) then changedTransition s t (transitionTypeTo t)
    else if decide (s = t) then noTransition s else ignoredTransition s.
Proof.
  intros Hs Ht. unfold ValidPaymentStatuses in *.
  string_cases; vm_compute; reflexivity.
Qed.

(** *** Normalisation *)

Lemma providerClearingAccountKey_trimmed provider :
  trimmed (providerClearingAccountKey provider).
Proof.
  unfold providerClearingAccountKey. case_decide; [apply trimmed_empty|].
  apply trimmed_prefix; [reflexivity|discriminate|reflexivity|].
  apply (LowerTrim_trimmed provider).
Qed.

Lemma providerClearingAccountKey_LowerTrim provider :
  providerClearingAccountKey (LowerTrim provider) = providerClearingAccountKey provider.
Proof.
  unfold providerClearingAccountKey. fold (LowerTrim (LowerTrim provider)) (LowerTrim provider).
  by rewrite LowerTrim_idem.
Qed.

Lemma effectivePaymentClearingAccountKey_trimmed provider key :
  trimmed (effectivePaymentClearingAccountKey provider key).
Proof.
  unfold effectivePaymentClearingAccountKey. case_decide; [apply TrimSpace_trimmed|].
  apply providerClearingAccountKey_trimmed.
Qed.

Lemma effectivePaymentClearingAccountKey_idem provider key :
  effectivePaymentClearingAccountKey provider (effectivePaymentClearingAccountKey provider key) =
  effectivePaymentClearingAccountKey provider key.
Proof.
  unfold effectivePaymentClearingAccountKey at 1.
  rewrite effectivePaymentClearingAccountKey_trimmed. case_decide as H; [done|].
  rewrite H. unfold effectivePaymentClearingAccountKey in H. by case_decide.
Qed.

Lemma NormalizePaymentWorkflow_idem w :
  NormalizePaymentWorkflow (NormalizePaymentWorkflow w) = NormalizePaymentWorkflow w.
Proof. unfold NormalizePaymentWorkflow at 2 3. repeat case_decide; vm_compute; reflexivity. Qed.

(** What [ensureWorkflowDefaults] establishes. *)
Record intent_normal (p : PaymentIntent) : Prop := {
  normal_workflow : PaymentIntent.Workflow p ∈ [PaymentWorkflowTopUp; PaymentWorkflowWithdrawal];
  normal_transactionID : trimmed (PaymentIntent.TransactionID p);
  normal_provider : LowerTrim (PaymentIntent.Provider p) = PaymentIntent.Provider p;
  normal_externalRef : trimmed (PaymentIntent.ExternalRef p);
  normal_destination : trimmed (PaymentIntent.DestinationAccountID p);
  normal_currency : UpperTrim (PaymentIntent.Currency p) = PaymentIntent.Currency p;
  normal_clearing :
    effectivePaymentClearingAccountKey (PaymentIntent.Provider p) (PaymentIntent.ClearingAccountKey p)
    = PaymentIntent.ClearingAccountKey p;
  normal_debit : trimmed (PaymentIntent.DebitAccountID p);
  normal_credit : trimmed (PaymentIntent.CreditAccountID p);
  normal_providerAmount :
    PaymentIntent.ProviderAmount p <= 0 ->
    PaymentIntent.ProviderAmount p =
      if decide (PaymentIntent.Workflow p = PaymentWorkflowWithdrawal)
      then PaymentIntent.Amount p
      else add64 (PaymentIntent.Amount p) (PaymentIntent.FeeAmount p);
  normal_status : PaymentIntent.Status p ∈ ValidPaymentStatuses
}.

Lemma ensureWorkflowDefaults_normal p : intent_normal (ensureWorkflowDefaults p).
Proof.
  constructor; cbn.
  - unfold NormalizePaymentWorkflow. repeat case_decide; set_solver.
  - apply TrimSpace_trimmed.
  - apply LowerTrim_idem.
  - apply TrimSpace_trimmed.
  - apply TrimSpace_trimmed.
  - apply UpperTrim_idem.
  - apply effectivePaymentClearingAccountKey_idem.
  - apply TrimSpace_trimmed.
  - apply TrimSpace_trimmed.
  - case_decide; [done|lia].
  - case_decide as H; [|by destruct (NormalizePaymentStatus_range (PaymentIntent.Status p))].
    apply (bool_decide_unpack _). vm_compute. exact I.
Qed.

Lemma ensureWorkflowDefaults_id p : intent_normal p -> ensureWorkflowDefaults p = p.
Proof.
  intros [Hw Ht Hp He Hd Hc Hk Hdb Hcr Ha Hs]. destruct p; unfold ensureWorkflowDefaults; cbn in *.
  unfold LowerTrim in Hp. unfold UpperTrim in Hc. unfold trimmed in *.
  rewrite Hp, Hc, Hk, Ht, He, Hd, Hdb, Hcr.
  replace (NormalizePaymentWorkflow Workflow) with Workflow
    by (string_cases; vm_compute; reflexivity).
  assert (Workflow <> "") by (by string_cases).
  rewrite NormalizePaymentStatus_valid by done.
  rewrite (decide_False (P := Status = "")) by exact (valid_status_nonempty _ Hs).
  rewrite (decide_False (P := Workflow = "")) by done.
  f_equal. destruct (decide (ProviderAmount <= 0)); [|done]. symmetry. by apply Ha.
Qed.

Lemma ensureWorkflowDefaults_idem p :
  ensureWorkflowDefaults (ensureWorkflowDefaults p) = ensureWorkflowDefaults p.
Proof. apply ensureWorkflowDefaults_id, ensureWorkflowDefaults_normal. Qed.

Lemma intent_normal_update p status ref u :
  intent_normal p -> status ∈ ValidPaymentStatuses -> trimmed ref ->
  intent_normal (PaymentIntent.set_UpdatedAt u
    (PaymentIntent.set_ExternalRef ref (PaymentIntent.set_Status status p))).
Proof. intros [] ??. constructor; cbn; auto. Qed.
End facts.

(** *** Transitions *)

Section runs.
Context `{UC : UnicodeCase}.
Implicit Types (p : PaymentIntent).

(** What a provider's status and reference make of a normalised intent, and
    the transition they are. *)
Definition afterProvider (now : Time) p (next externalRef : string) (updatedAt : Time) :
    PaymentIntent :=
  let status := if decide (payment_step (PaymentIntent.Status p) next) then next
                else PaymentIntent.Status p in
  let ref := if decide (TrimSpace externalRef = "") then PaymentIntent.ExternalRef p
             else TrimSpace externalRef in
  let u := if decide (status = PaymentIntent.Status p /\ ref = PaymentIntent.ExternalRef p)
           then PaymentIntent.UpdatedAt p else normalizePaymentTime now updatedAt in
  PaymentIntent.set_UpdatedAt u
    (PaymentIntent.set_ExternalRef ref (PaymentIntent.set_Status status p)).

Definition providerTransition p (next externalRef : string) : PaymentTransition :=
  let from := PaymentIntent.Status p in
  let moves := bool_decide (payment_step from next) in
  PaymentTransition.mk from (if moves then next else from)
    (if moves then transitionTypeTo next else PaymentTransitionNone) moves
    (bool_decide (TrimSpace externalRef <> "" /\ TrimSpace externalRef <> PaymentIntent.ExternalRef p))
    (bool_decide (~ payment_step from next /\ from <> next)).

Lemma payment_step_irrefl s : ~ payment_step s s.
Proof. intros H%payment_step_rank. lia. Qed.

Lemma transitionProviderState_run now externalRef status updatedAt p :
  transitionProviderState now externalRef status updatedAt p =
    if decide (NormalizePaymentStatus status = "")
    then (Err ErrPaymentStatusInvalid, ensureWorkflowDefaults p)
    else (Ok (providerTransition (ensureWorkflowDefaults p) (NormalizePaymentStatus status) externalRef),
          afterProvider now (ensureWorkflowDefaults p) (NormalizePaymentStatus status)
            externalRef updatedAt).
Proof.
  unfold transitionProviderState. pose proof (ensureWorkflowDefaults_normal p) as Hn.
  generalize dependent (ensureWorkflowDefaults p). clear p. intros p Hn. cbv zeta.
  destruct (decide (NormalizePaymentStatus status = "")) as [|Hne]; [done|].
  destruct (NormalizePaymentStatus_range status) as [|Ht]; [done|].
  rewrite NormalizePaymentStatusOrPending_id by apply (normal_status p Hn).
  rewrite resolvePaymentTransition_spec by (done || apply (normal_status p Hn)).
  generalize dependent (NormalizePaymentStatus status). intros next _ Ht.
  assert (payment_step (PaymentIntent.Status p) next -> next <> PaymentIntent.Status p) as Hne
    by (intros Hs E; rewrite E in Hs; by apply payment_step_irrefl in Hs).
  unfold afterProvider, providerTransition.
  destruct (decide (payment_step (PaymentIntent.Status p) next)) as [Hs|Hs];
    [specialize (Hne Hs)|destruct (decide (PaymentIntent.Status p = next))];
    destruct (decide (TrimSpace externalRef = ""));
    destruct (decide (TrimSpace externalRef = PaymentIntent.ExternalRef p));
    destruct p; cbn in *; simplify_decide; cbn; simplify_decide; first [reflexivity | subst; reflexivity | congruence].
Qed.
End runs.

(** ** Correctness *)

Section correct.
Context `{UC : UnicodeCase}.
Implicit Types (p : PaymentIntent).

(** A change of provider state follows the status machine and nothing
    else: from the normalised intent the status moves to the requested one
    exactly when the machine has that edge, the transition reports the move
    ([StateChanged], its type, [Ignored] when the edge does not exist), only
    the status, the external reference and the update time can change, and the
    update time changes only with one of the other two. *)
Theorem transitionProviderState_refines_machine now externalRef status updatedAt p t p' :
  transitionProviderState now externalRef status updatedAt p = (Ok t, p') ->
  let n := ensureWorkflowDefaults p in
  let from := PaymentIntent.Status n in
  let next := NormalizePaymentStatus status in
  next ∈ ValidPaymentStatuses /\
  PaymentIntent.Status p' = (if decide (payment_step from next) then next else from) /\
  (PaymentTransition.StateChanged t = true <-> payment_step from next) /\
  (payment_step from next -> PaymentTransition.Type_ t = transitionTypeTo next) /\
  (PaymentTransition.Ignored t = true <-> ~ payment_step from next /\ from <> next) /\
  (PaymentTransition.ExternalRefChanged t = true <->
     PaymentIntent.ExternalRef p' <> PaymentIntent.ExternalRef n) /\
  (PaymentIntent.Status p' = from -> PaymentIntent.ExternalRef p' = PaymentIntent.ExternalRef n ->
     p' = n) /\
  p' = PaymentIntent.set_UpdatedAt (PaymentIntent.UpdatedAt p')
         (PaymentIntent.set_ExternalRef (PaymentIntent.ExternalRef p')
            (PaymentIntent.set_Status (PaymentIntent.Status p') n)).
Proof.
  rewrite transitionProviderState_run. intros H. cbv zeta.
  case_decide as Hne; [discriminate|].
  destruct (NormalizePaymentStatus_range status) as [|Ht]; [done|].
  generalize dependent (NormalizePaymentStatus status). intros next _ H Ht.
  injection H as <- <-. generalize (ensureWorkflowDefaults p). clear p. intros p.
  unfold providerTransition, afterProvider; cbn. rewrite !bool_decide_eq_true.
  split_and!; try done.
  - intros Hs. by simplify_decide.
  - case_decide; intuition congruence.
  - intros -> ->. destruct p; cbn. by simplify_decide.
Qed.

(** The results a provider may report for an intent that expects the status
    [next]: no amount, the amount charged, or for a reversal any smaller
    amount; and no currency or that of the intent. *)
Definition acceptable_result p (next : string) (res : PaymentProviderResult) : Prop :=
  (PaymentProviderResult.Amount res = 0 \/
   PaymentProviderResult.Amount res = PaymentIntent.ProviderAmount p \/
   next ∈ [PaymentStatusRefunded; PaymentStatusChargeback] /\
     PaymentProviderResult.Amount res <= PaymentIntent.ProviderAmount p) /\
  (TrimSpace (PaymentProviderResult.Currency res) = "" \/
   EqualFold (TrimSpace (PaymentProviderResult.Currency res)) (PaymentIntent.Currency p) = true).

Lemma ValidateProviderResultForStatus_Ok p next res :
  next ∈ ValidPaymentStatuses ->
  ValidateProviderResultForStatus p next (PaymentProviderResult.Amount res)
    (PaymentProviderResult.Currency res) = Ok tt <-> acceptable_result p next res.
Proof.
  intros Hn. unfold ValidateProviderResultForStatus, acceptable_result. cbv zeta.
  rewrite NormalizePaymentStatus_valid by done.
  pose proof (valid_status_nonempty _ Hn).
  rewrite (decide_False (P := next = "")) by done.
  rewrite !elem_of_cons, elem_of_nil.
  destruct (EqualFold _ _), (decide (TrimSpace (PaymentProviderResult.Currency res) = ""));
    destruct (decide (PaymentProviderResult.Amount res = 0));
    destruct (decide (PaymentProviderResult.Amount res <= PaymentIntent.ProviderAmount p));
    case_decide; case_bool_decide; try case_decide;
    intuition (try (discriminate || lia || congruence)).
Qed.

(** A provider result is applied exactly when its amount and currency
    agree with the intent (the amount charged; for a refund or a chargeback
    at most that amount); a result that disagrees is an error that leaves the
    normalised intent as it was. *)
Theorem ApplyProviderResult_accepts now res updatedAt p :
  let n := ensureWorkflowDefaults p in
  let next := NormalizePaymentStatusOrPending (PaymentProviderResult.Status res) in
  (is_ok (ApplyProviderResult now res updatedAt p).1 = true <-> acceptable_result n next res) /\
  (is_ok (ApplyProviderResult now res updatedAt p).1 = false ->
     (ApplyProviderResult now res updatedAt p).2 = n).
Proof.
  cbv zeta. set (n := ensureWorkflowDefaults p).
  set (next := NormalizePaymentStatusOrPending _).
  assert (Hv : next ∈ ValidPaymentStatuses) by apply NormalizePaymentStatusOrPending_valid.
  pose proof (ValidateProviderResultForStatus_Ok n next res Hv) as Hok.
  unfold ApplyProviderResult, TransitionProviderResult, mbind, method_bind, modify, get, lift.
  fold n. fold next.
  destruct (ValidateProviderResultForStatus n next _ _) as [[]|e|w]; cbn.
  - rewrite transitionProviderState_run. rewrite NormalizePaymentStatus_valid by done.
    rewrite decide_False by by apply valid_status_nonempty. cbn.
    split; [|done]. split; [|done]. intros _. by apply Hok.
  - split; [|done]. split; [done|]. intros H%Hok. done.
  - split; [|done]. split; [done|]. intros H%Hok. done.
Qed.
End correct.

Lemma transitionProviderState_refines_machine_witness :
  exists (UC : UnicodeCase) now p t p',
    transitionProviderState now "pi_1" "success" 7 p = (Ok t, p') /\
    PaymentIntent.Status p' = PaymentStatusSuccess.
Proof.
  exists caseless_unicode, 9.
  pose (p := PaymentIntent.mk PaymentWorkflowTopUp "tx" "stripe" "" "" 100 5 105 "USD" "" "" "acc"
               PaymentStatusPending 1 1).
  exists p. eexists _, _.
  assert (H : transitionProviderState (UC := caseless_unicode) 9 "pi_1" "success" 7 p = (Ok _, _))
    by (vm_compute; reflexivity).
  split; [exact H|].
  destruct (transitionProviderState_refines_machine (UC := caseless_unicode) _ _ _ _ _ _ _ H)
    as (_ & _ & _ & _ & _ & _ & _ & ->).
  reflexivity.
Defined.

(** *** Constructors *)

Section constructors.
Context `{UC : UnicodeCase}.
Implicit Types (p : PaymentIntent).

(** The intents the constructors make. *)
Record fresh_intent (p : PaymentIntent) : Prop := {
  fresh_normal : intent_normal p;
  fresh_transactionID : PaymentIntent.TransactionID p <> "";
  fresh_provider : PaymentIntent.Provider p <> "";
  fresh_clearing : PaymentIntent.ClearingAccountKey p <> "";
  fresh_currency : PaymentIntent.Currency p <> "";
  fresh_amount : 0 < PaymentIntent.Amount p;
  fresh_fee : 0 <= PaymentIntent.FeeAmount p;
  fresh_providerAmount : 0 < PaymentIntent.ProviderAmount p;
  fresh_status : PaymentIntent.Status p = PaymentStatusCreating;
  fresh_externalRef : PaymentIntent.ExternalRef p = "";
  fresh_accounts :
    PaymentIntent.DebitAccountID p <> "" -> PaymentIntent.DebitAccountID p <> PaymentIntent.CreditAccountID p;
  fresh_beneficiary : PaymentIntent.Workflow p = PaymentWorkflowTopUp ->
    PaymentIntent.CreditAccountID p <> "";
  fresh_source : PaymentIntent.Workflow p = PaymentWorkflowWithdrawal ->
    PaymentIntent.DebitAccountID p <> "" /\ PaymentIntent.DestinationAccountID p <> "";
  fresh_times : PaymentIntent.UpdatedAt p = PaymentIntent.CreatedAt p
}.

Lemma NormalizePaymentWorkflow_range w :
  NormalizePaymentWorkflow w <> "" ->
  NormalizePaymentWorkflow w ∈ [PaymentWorkflowTopUp; PaymentWorkflowWithdrawal].
Proof. unfold NormalizePaymentWorkflow. repeat case_decide; set_solver. Qed.

Lemma newPaymentIntent_fresh now workflow transactionID provider amount fee providerAmount
    currency key destination debit credit at_ p :
  newPaymentIntent now workflow transactionID provider amount fee providerAmount currency key
    destination debit credit at_ = Ok p -> fresh_intent p.
Proof.
  unfold newPaymentIntent. cbv zeta. intros H. go_inv. 
  match goal with H : NormalizePaymentWorkflow _ <> "" |- _ =>
    apply NormalizePaymentWorkflow_range in H end.
  fold (LowerTrim provider) (UpperTrim currency) in *.
  generalize dependent (NormalizePaymentWorkflow workflow). intros w Hw Hc Hd Hs.
  constructor; cbn [PaymentIntent.Workflow PaymentIntent.TransactionID PaymentIntent.Provider
    PaymentIntent.ClearingAccountKey PaymentIntent.Currency PaymentIntent.Amount
    PaymentIntent.FeeAmount PaymentIntent.ProviderAmount PaymentIntent.Status
    PaymentIntent.ExternalRef PaymentIntent.DebitAccountID PaymentIntent.CreditAccountID
    PaymentIntent.DestinationAccountID PaymentIntent.UpdatedAt PaymentIntent.CreatedAt];
    try assumption; try reflexivity; try lia.
  - constructor; cbn; try assumption; try lia;
      auto using TrimSpace_trimmed, trimmed_empty, LowerTrim_idem, UpperTrim_idem,
        effectivePaymentClearingAccountKey_idem.
    apply (bool_decide_unpack _). vm_compute. exact I.
  - intros Hne E. rewrite E in *. tauto.
  - intros E Hne. by apply Hc.
  - intros E. split; intros Hne; [by apply Hd|by apply Hs].
Qed.

Lemma effectivePaymentClearingAccountKey_provider provider :
  effectivePaymentClearingAccountKey (LowerTrim provider) (providerClearingAccountKey provider) =
  providerClearingAccountKey provider.
Proof.
  unfold effectivePaymentClearingAccountKey. rewrite providerClearingAccountKey_trimmed.
  case_decide; [done|]. apply providerClearingAccountKey_LowerTrim.
Qed.

Lemma providerClearingAccountKey_nonempty provider :
  LowerTrim provider <> "" ->
  providerClearingAccountKey provider = "provider:" +:+ LowerTrim provider.
Proof.
  intros H. unfold providerClearingAccountKey. fold (LowerTrim provider).
  cbv zeta. by rewrite decide_False.
Qed.

Lemma newPaymentIntent_topup now transactionID provider amount fee providerAmount currency
    beneficiary at_ :
  newPaymentIntent now PaymentWorkflowTopUp transactionID provider amount fee providerAmount
    currency (providerClearingAccountKey provider) "" "" beneficiary at_ =
  (if decide (LowerTrim provider = "") then Err ErrPaymentProviderRequired
   else if decide (TrimSpace transactionID = "") then Err ErrPaymentTransactionIDRequired
   else if decide (amount <= 0) then Err ErrPaymentAmountInvalid
   else if decide (fee < 0) then Err ErrPaymentFeeAmountInvalid
   else if decide (providerAmount <= 0) then Err ErrPaymentProviderAmountInvalid
   else if decide (UpperTrim currency = "") then Err ErrPaymentCurrencyRequired
   else if decide (TrimSpace beneficiary = "") then Err ErrPaymentCreditAccountRequired
   else Ok (PaymentIntent.mk PaymentWorkflowTopUp (TrimSpace transactionID) (LowerTrim provider)
     "" "" amount fee providerAmount (UpperTrim currency) (providerClearingAccountKey provider)
     "" (TrimSpace beneficiary) PaymentStatusCreating (normalizePaymentTime now at_)
     (normalizePaymentTime now at_))).
Proof.
  unfold newPaymentIntent. fold (LowerTrim provider) (UpperTrim currency).
  rewrite effectivePaymentClearingAccountKey_provider.
  change (NormalizePaymentWorkflow PaymentWorkflowTopUp) with PaymentWorkflowTopUp.
  change (TrimSpace "") with "". cbv zeta.
  rewrite (decide_False (P := PaymentWorkflowTopUp = "")) by done.
  destruct (decide (LowerTrim provider = "")) as [|Hp]; [done|].
  rewrite providerClearingAccountKey_nonempty by done.
  repeat (case_decide; [done|]).
  destruct (decide (TrimSpace beneficiary = "")); simplify_decide; try done.
Qed.

(** A top-up intent is created exactly for a named provider, transaction
    and beneficiary, a positive amount, a non-negative fee and a sum of the
    two that fits 64 bits; it is then well formed, in status CREATING, and
    charges the provider the amount plus the fee against the provider's
    clearing account. *)
Theorem NewProviderTopUpIntent_accepts now transactionID provider amount fee currency
    beneficiary at_ :
  in64 amount -> in64 fee ->
  let run := NewProviderTopUpIntent now transactionID provider amount fee currency beneficiary at_ in
  (is_ok run = true <->
     LowerTrim provider <> "" /\ TrimSpace transactionID <> "" /\ 0 < amount /\ 0 <= fee /\
     amount + fee <= int64_max /\ UpperTrim currency <> "" /\ TrimSpace beneficiary <> "") /\
  (forall p, run = Ok p ->
     fresh_intent p /\ PaymentIntent.Workflow p = PaymentWorkflowTopUp /\
     PaymentIntent.TransactionID p = TrimSpace transactionID /\
     PaymentIntent.Amount p = amount /\ PaymentIntent.FeeAmount p = fee /\
     PaymentIntent.ProviderAmount p = amount + fee /\
     PaymentIntent.ClearingAccountKey p = "provider:" +:+ LowerTrim provider /\
     PaymentIntent.CreditAccountID p = TrimSpace beneficiary /\
     PaymentIntent.DebitAccountID p = "").
Proof.
  intros Ha Hf run. unfold in64 in *. split.
  - subst run. unfold NewProviderTopUpIntent. rewrite newPaymentIntent_topup.
    assert (Ho : 0 < amount -> 0 <= fee -> 0 < add64 amount fee <-> amount + fee <= int64_max).
    { intros. destruct (add64_overflow amount fee) as [? ?]; [lia..|].
      destruct (decide (add64 amount fee < 0)); lia. }
    repeat (case_decide; [split; [done|intuition (congruence || lia)]|]).
    split; [|done]. intros _. repeat split; try done; lia.
  - intros p Hp. pose proof (newPaymentIntent_fresh _ _ _ _ _ _ _ _ _ _ _ _ _ _ Hp) as Hfr.
    subst run. unfold NewProviderTopUpIntent in Hp. rewrite newPaymentIntent_topup in Hp.
    go_inv. destruct (add64_overflow amount fee) as [Hs ?]; [lia..|].
    rewrite <- providerClearingAccountKey_nonempty by done.
    cbn in *. rewrite Hs in * by lia. by split_and!.
Qed.
End constructors.

Lemma NewProviderTopUpIntent_accepts_witness :
  exists (UC : UnicodeCase) p,
    NewProviderTopUpIntent 9 " tx " "Stripe" 100 5 "usd" "acc" 1 = Ok p /\
    PaymentIntent.ProviderAmount p = 105.
Proof.
  exists caseless_unicode. eexists.
  assert (H : NewProviderTopUpIntent (UC := caseless_unicode) 9 " tx " "Stripe" 100 5 "usd" "acc" 1
              = Ok _) by (vm_compute; reflexivity).
  split; [exact H|].
  destruct (NewProviderTopUpIntent_accepts (UC := caseless_unicode) 9 " tx " "Stripe" 100 5 "usd"
              "acc" 1) as [_ Hp].
  { eval_closed. } { eval_closed. }
  apply (Hp _ H).
Defined.
