(* ===== verification/PaymentAggregate.v ===== *)
(** * The payment intent aggregate (payment/domain/aggregate)

    [payment_intent_aggregate.go]: the intent with the events it records, the
    interpretation of each event, the constructors, and the application of a
    provider's outcome, which moves the status and records what happened. The
    aggregate has copies of its own of the entity's normalisation and state
    machine; they are translated separately and proved equal to the entity's
    in [PaymentAggregateInv.v].

    [now] stands for [time.Now()], which is read only to replace a zero time;
    one operation reads the same instant each time. *)

From stdpp Require Import prelude strings gmap.
From S2P Require Import Prelude GoStrings Event LedgerEntity PaymentEvents PaymentIntent.

(** ** Events *)

Module PaymentProviderStateChangedEvent.
Record t := mk {
  TransactionID : string;
  Provider : string;
  ProviderPaymentRef : string;
  PreviousStatus : string;
  Status : string;
  ProviderEventID : string;
  ProviderEventType : string;
  Amount : Z;
  Currency : string;
  OccurredAt : Time;
  StateChanged : bool;
  ExternalRefChanged : bool
}.
End PaymentProviderStateChangedEvent.
Notation PaymentProviderStateChangedEvent := PaymentProviderStateChangedEvent.t.

(** Event data is an [interface{}] holding an event struct or a pointer to
    one, which are interpreted alike ([None] is a nil pointer), nil, or a value
    of another type. *)
Inductive PaymentEventData : Type :=
  | EvPaymentCreated (p : option PaymentCreatedEvent)
  | EvWithdrawalRequested (p : option PaymentWithdrawalRequestedEvent)
  | EvCheckoutSessionCreated (p : option PaymentCheckoutSessionCreatedEvent)
  | EvProviderStateChanged (p : option PaymentProviderStateChangedEvent)
  | EvPaymentSucceeded (p : option PaymentSettledEvent)
  | EvPaymentFailed (p : option PaymentFailedEvent)
  | EvPaymentRefunded (p : option PaymentSettledEvent)
  | EvPaymentChargeback (p : option PaymentSettledEvent)
  | EvNil
  | EvOther (typeName : string).

#[export] Instance PaymentEventPayload : EventPayload PaymentEventData := {|
  payload_nil d := match d with EvNil => true | _ => false end;
  event_name d :=
    match d with
    | EvPaymentCreated _ => EventPaymentCreated
    | EvWithdrawalRequested _ => EventPaymentWithdrawalRequested
    | EvCheckoutSessionCreated _ => EventPaymentCheckoutSessionCreated
    | EvProviderStateChanged _ => "PaymentProviderStateChangedEvent"
    | EvPaymentSucceeded _ => EventPaymentSucceeded
    | EvPaymentFailed _ => EventPaymentFailed
    | EvPaymentRefunded _ => EventPaymentRefunded
    | EvPaymentChargeback _ => EventPaymentChargeback
    | EvNil => ""
    | EvOther n => n
    end
|}.

Definition ErrPaymentIntentOccurredAtRequired := Sentinel "ErrPaymentIntentOccurredAtRequired".

Definition AggregateTypePaymentIntent : string := "PaymentIntentAggregate".

(** ** The aggregate *)

Module PaymentIntentMutation.
Record t := mk { Duplicate : bool; Persist : bool }.
End PaymentIntentMutation.
Notation PaymentIntentMutation := PaymentIntentMutation.t.

Module PaymentIntentAggregate.
Record t := mk {
  root : AggregateRoot PaymentEventData;
  intent : option PaymentIntent;
  processedEvents : list ProcessedPaymentEvent
}.

Definition set_root (r : AggregateRoot PaymentEventData) (a : t) : t :=
  mk r (intent a) (processedEvents a).
Definition set_intent (p : option PaymentIntent) (a : t) : t :=
  mk (root a) p (processedEvents a).
Definition add_processed (e : ProcessedPaymentEvent) (a : t) : t :=
  mk (root a) (intent a) (processedEvents a ++ [e]).
End PaymentIntentAggregate.
Notation PaymentIntentAggregate := PaymentIntentAggregate.t.
Notation intentOf := PaymentIntentAggregate.intent.

(** *** Normalisation: the aggregate's own copies *)

Definition normalizePaymentTime (now value : Time) : Time :=
  if IsZero value then UTC now else UTC value.

Fixpoint coalescePaymentValue (values : list string) : string :=
  match values with
  | [] => ""
  | value :: rest =>
      let value := TrimSpace value in
      if decide (value <> "") then value else coalescePaymentValue rest
  end.

Definition paymentResultAmountOrDefault (amount fallback : Z) : Z :=
  if decide (amount <> 0) then amount else fallback.

Definition normalizePaymentIntentOccurredAt (value : Time) : result Time :=
  if IsZero value then Err ErrPaymentIntentOccurredAtRequired else Ok (UTC value).

Section normalize.
Context `{UC : UnicodeCase}.

Definition providerClearingAccountKey (provider : string) : string :=
  let provider := ToLower (TrimSpace provider) in
  if decide (provider = "") then "" else "provider:" +:+ provider.

Definition effectivePaymentClearingAccountKey (provider clearingAccountKey : string) : string :=
  let clearingAccountKey := TrimSpace clearingAccountKey in
  if decide (clearingAccountKey <> "") then clearingAccountKey
  else providerClearingAccountKey provider.

Definition normalizePaymentIntentSnapshot (now : Time) (p : PaymentIntent) : PaymentIntent :=
  let workflow := NormalizePaymentWorkflow (PaymentIntent.Workflow p) in
  let workflow := if decide (workflow = "") then PaymentWorkflowTopUp else workflow in
  let provider := ToLower (TrimSpace (PaymentIntent.Provider p)) in
  let amount := PaymentIntent.Amount p in
  let fee := PaymentIntent.FeeAmount p in
  let providerAmount :=
    if decide (PaymentIntent.ProviderAmount p <= 0) then
      if decide (workflow = PaymentWorkflowWithdrawal) then amount else add64 amount fee
    else PaymentIntent.ProviderAmount p in
  let status := NormalizePaymentStatus (PaymentIntent.Status p) in
  let status := if decide (status = "") then PaymentStatusCreating else status in
  PaymentIntent.mk workflow (TrimSpace (PaymentIntent.TransactionID p)) provider
    (TrimSpace (PaymentIntent.ExternalRef p)) (TrimSpace (PaymentIntent.DestinationAccountID p))
    amount fee providerAmount (ToUpper (TrimSpace (PaymentIntent.Currency p)))
    (effectivePaymentClearingAccountKey provider (PaymentIntent.ClearingAccountKey p))
    (TrimSpace (PaymentIntent.DebitAccountID p)) (TrimSpace (PaymentIntent.CreditAccountID p))
    status (normalizePaymentTime now (PaymentIntent.CreatedAt p))
    (normalizePaymentTime now (PaymentIntent.UpdatedAt p)).

(** *** Interpretation of events *)

Definition withRef (ref : string) (p : PaymentIntent) : PaymentIntent :=
  let ref := TrimSpace ref in
  if decide (ref <> "") then PaymentIntent.set_ExternalRef ref p else p.

Definition applyPaymentCreated (now : Time) (data : option PaymentCreatedEvent)
    (i : option PaymentIntent) : option PaymentIntent :=
  match data with
  | None => i
  | Some d =>
      let workflow := NormalizePaymentWorkflow (PaymentCreatedEvent.Workflow d) in
      let workflow := if decide (workflow = "") then PaymentWorkflowTopUp else workflow in
      let transactionID := TrimSpace (PaymentCreatedEvent.TransactionID d) in
      let transactionID :=
        if decide (transactionID = "") then TrimSpace (PaymentCreatedEvent.PaymentID d)
        else transactionID in
      let provider := ToLower (TrimSpace (PaymentCreatedEvent.Provider d)) in
      let createdAt := normalizePaymentTime now (PaymentCreatedEvent.CreatedAt d) in
      Some (PaymentIntent.mk workflow transactionID provider
        (default "" (PaymentIntent.ExternalRef <$> i))
        (default "" (PaymentIntent.DestinationAccountID <$> i))
        (PaymentCreatedEvent.Amount d) (PaymentCreatedEvent.FeeAmount d)
        (PaymentCreatedEvent.ProviderAmount d)
        (ToUpper (TrimSpace (PaymentCreatedEvent.Currency d)))
        (effectivePaymentClearingAccountKey provider (PaymentCreatedEvent.ClearingAccountKey d))
        (TrimSpace (PaymentCreatedEvent.DebitAccountID d))
        (TrimSpace (PaymentCreatedEvent.CreditAccountID d))
        (NormalizePaymentStatusOrPending (PaymentCreatedEvent.Status d)) createdAt createdAt)
  end.

Definition applyWithdrawalRequested (now : Time) (data : option PaymentWithdrawalRequestedEvent)
    (i : option PaymentIntent) : option PaymentIntent :=
  match data, i with
  | Some d, Some p =>
      Some (PaymentIntent.set_UpdatedAt
        (normalizePaymentTime now (PaymentWithdrawalRequestedEvent.RequestedAt d))
        (PaymentIntent.set_Accounts
           (TrimSpace (PaymentWithdrawalRequestedEvent.DestinationAccountID d))
           (TrimSpace (PaymentWithdrawalRequestedEvent.DebitAccountID d)) p))
  | _, _ => i
  end.

Definition applyCheckoutSessionCreated (now : Time)
    (data : option PaymentCheckoutSessionCreatedEvent) (i : option PaymentIntent) :
    option PaymentIntent :=
  match data, i with
  | Some d, Some p =>
      Some (PaymentIntent.set_UpdatedAt
        (normalizePaymentTime now (PaymentCheckoutSessionCreatedEvent.OccurredAt d))
        (withRef (PaymentCheckoutSessionCreatedEvent.ProviderPaymentRef d) p))
  | _, _ => i
  end.

Definition applyProviderStateChanged (now : Time)
    (data : option PaymentProviderStateChangedEvent) (i : option PaymentIntent) :
    option PaymentIntent :=
  match data, i with
  | Some d, Some p =>
      let p := withRef (PaymentProviderStateChangedEvent.ProviderPaymentRef d) p in
      let status := NormalizePaymentStatus (PaymentProviderStateChangedEvent.Status d) in
      let p := if decide (status <> "") then PaymentIntent.set_Status status p else p in
      Some (PaymentIntent.set_UpdatedAt
        (normalizePaymentTime now (PaymentProviderStateChangedEvent.OccurredAt d)) p)
  | _, _ => i
  end.

Definition applyPaymentSucceeded (now : Time) (data : option PaymentSettledEvent)
    (i : option PaymentIntent) : option PaymentIntent :=
  match data, i with
  | Some d, Some p =>
      Some (PaymentIntent.set_UpdatedAt (normalizePaymentTime now (PaymentSettledEvent.OccurredAt d))
        (withRef (PaymentSettledEvent.ProviderPaymentRef d)
           (PaymentIntent.set_Status PaymentStatusSuccess p)))
  | _, _ => i
  end.

Definition applyPaymentFailed (now : Time) (data : option PaymentFailedEvent)
    (i : option PaymentIntent) : option PaymentIntent :=
  match data, i with
  | Some d, Some p =>
      Some (PaymentIntent.set_UpdatedAt (normalizePaymentTime now (PaymentFailedEvent.OccurredAt d))
        (withRef (PaymentFailedEvent.ProviderPaymentRef d)
           (PaymentIntent.set_Status PaymentStatusFailed p)))
  | _, _ => i
  end.

Definition applyPaymentRefunded (now : Time) (data : option PaymentSettledEvent)
    (i : option PaymentIntent) : option PaymentIntent :=
  match data, i with
  | Some d, Some p =>
      Some (PaymentIntent.set_UpdatedAt (normalizePaymentTime now (PaymentSettledEvent.OccurredAt d))
        (withRef (PaymentSettledEvent.ProviderPaymentRef d)
           (PaymentIntent.set_Status PaymentStatusRefunded p)))
  | _, _ => i
  end.

Definition applyPaymentChargeback (now : Time) (data : option PaymentSettledEvent)
    (i : option PaymentIntent) : option PaymentIntent :=
  match data, i with
  | Some d, Some p =>
      Some (PaymentIntent.set_UpdatedAt (normalizePaymentTime now (PaymentSettledEvent.OccurredAt d))
        (withRef (PaymentSettledEvent.ProviderPaymentRef d)
           (PaymentIntent.set_Status PaymentStatusChargeback p)))
  | _, _ => i
  end.

(** [Transition] on the intent: the handlers of a known event never fail. *)
Definition interpret (now : Time) (data : PaymentEventData) :
    option (option PaymentIntent -> option PaymentIntent) :=
  match data with
  | EvPaymentCreated d => Some (applyPaymentCreated now d)
  | EvWithdrawalRequested d => Some (applyWithdrawalRequested now d)
  | EvCheckoutSessionCreated d => Some (applyCheckoutSessionCreated now d)
  | EvProviderStateChanged d => Some (applyProviderStateChanged now d)
  | EvPaymentSucceeded d => Some (applyPaymentSucceeded now d)
  | EvPaymentFailed d => Some (applyPaymentFailed now d)
  | EvPaymentRefunded d => Some (applyPaymentRefunded now d)
  | EvPaymentChargeback d => Some (applyPaymentChargeback now d)
  | EvNil | EvOther _ => None
  end.

Definition paymentTransition (now : Time) (e : Event PaymentEventData) :
    method PaymentIntentAggregate unit := fun a =>
  match interpret now (EventData e) with
  | Some f => (Ok tt, PaymentIntentAggregate.set_intent (f (intentOf a)) a)
  | None => (Err ErrUnsupportedEventType, a)
  end.
End normalize.

(** ** The aggregate as an instance of the interface *)

Section aggregate.
Context `{UC : UnicodeCase} (now : Time).

Program Definition paymentAggregate : Aggregate PaymentIntentAggregate PaymentEventData := {|
  Root := PaymentIntentAggregate.root;
  setRoot := PaymentIntentAggregate.set_root;
  Transition := paymentTransition now
|}.
Next Obligation. done. Qed.
Next Obligation. by intros []. Qed.
Next Obligation. done. Qed.

#[local] Existing Instance paymentAggregate.

Lemma paymentRootFree : RootFree PaymentIntentAggregate PaymentEventData.
Proof. split. intros e r a. cbn. unfold paymentTransition. by destruct (interpret now _). Qed.

(** *** Accessors *)

Definition Snapshot (a : PaymentIntentAggregate) : option PaymentIntent := intentOf a.
Definition TransactionID (a : PaymentIntentAggregate) : string :=
  default "" (PaymentIntent.TransactionID <$> intentOf a).
Definition Provider (a : PaymentIntentAggregate) : string :=
  default "" (PaymentIntent.Provider <$> intentOf a).
Definition Workflow (a : PaymentIntentAggregate) : string :=
  default "" (PaymentIntent.Workflow <$> intentOf a).
Definition ExternalRef (a : PaymentIntentAggregate) : string :=
  default "" (PaymentIntent.ExternalRef <$> intentOf a).
Definition Status (a : PaymentIntentAggregate) : string :=
  default "" (PaymentIntent.Status <$> intentOf a).

Definition PendingProcessedEvents (a : PaymentIntentAggregate) : list ProcessedPaymentEvent :=
  PaymentIntentAggregate.processedEvents a.
Definition PendingOutboxEvents (a : PaymentIntentAggregate) : list (Event PaymentEventData) :=
  CloneEvents (PaymentIntentAggregate.root a).

Definition MarkPaymentPersisted (a : PaymentIntentAggregate) : PaymentIntentAggregate :=
  PaymentIntentAggregate.mk (MarkPersisted (PaymentIntentAggregate.root a)) (intentOf a) [].

(** *** Recording events *)

(** [events[len(events)-1].CreatedAt = t] through the shared slice. *)
Definition stampLast (t : Z) (r : AggregateRoot PaymentEventData) : AggregateRoot PaymentEventData :=
  match last (events r) with
  | None => r
  | Some e => mkRoot (aggregateID r) (aggregateType r) (version r) (baseVersion r)
                (removelast (events r) ++ [set_CreatedAt t e])
  end.

Definition applyChangeAt (data : PaymentEventData) (occurredAt : Time) :
    method PaymentIntentAggregate unit :=
  ApplyChange data ≫= fun _ => modify (updRoot (stampLast (Unix occurredAt))).

(** A field of [a.intent], which must not be nil. *)
Definition theIntent : method PaymentIntentAggregate PaymentIntent := fun a =>
  match intentOf a with
  | Some p => (Ok p, a)
  | None => (Panic "nil pointer dereference", a)
  end.

(** A method of the aggregate that works on [a.intent] once it is not nil. *)
Definition onIntent {A} (m : method PaymentIntent A) : method PaymentIntentAggregate A := fun a =>
  match intentOf a with
  | None => (Err ErrPaymentTransactionIDRequired, a)
  | Some p => let '(r, p') := m p in (r, PaymentIntentAggregate.set_intent (Some p') a)
  end.

Definition transitionIdempotencyKey (a : PaymentIntentAggregate) (eventName : string) : string :=
  match intentOf a with
  | None => TrimSpace eventName +:+ ":"
  | Some p => TrimSpace eventName +:+ ":" +:+ TrimSpace (PaymentIntent.TransactionID p)
  end.

Definition currentProviderResult (a : PaymentIntentAggregate) (source : PaymentProviderResult) :
    PaymentProviderResult :=
  match intentOf a with
  | None => PaymentProviderResult.mk "" "" "" "" 0 "" ""
  | Some p =>
      let amount := PaymentProviderResult.Amount source in
      let amount := if decide (amount = 0) then PaymentIntent.ProviderAmount p else amount in
      PaymentProviderResult.mk
        (coalescePaymentValue
           [PaymentProviderResult.TransactionID source; PaymentIntent.TransactionID p])
        (TrimSpace (PaymentProviderResult.EventID source))
        (TrimSpace (PaymentProviderResult.EventType source))
        (NormalizePaymentStatusOrPending
           (coalescePaymentValue [PaymentProviderResult.Status source; PaymentIntent.Status p]))
        amount
        (coalescePaymentValue [PaymentProviderResult.Currency source; PaymentIntent.Currency p])
        (coalescePaymentValue [PaymentProviderResult.ExternalRef source; PaymentIntent.ExternalRef p])
  end.

Definition shouldEmitCheckoutSessionCreated (a : PaymentIntentAggregate) (checkoutURL : string) :
    bool :=
  match intentOf a with
  | None => false
  | Some p =>
      if decide (PaymentIntent.Workflow p <> PaymentWorkflowTopUp) then false
      else bool_decide (TrimSpace checkoutURL <> "" \/ TrimSpace (PaymentIntent.ExternalRef p) <> "")
  end.

Definition recordPaymentCreated (metadata : gmap string string) (occurredAt : Time) :
    method PaymentIntentAggregate unit :=
  p ← theIntent;
  applyChangeAt (EvPaymentCreated (Some (PaymentCreatedEvent.mk (PaymentIntent.Workflow p)
    (PaymentIntent.TransactionID p) (PaymentIntent.TransactionID p) (PaymentIntent.Provider p)
    (PaymentIntent.ClearingAccountKey p) (PaymentIntent.DebitAccountID p)
    (PaymentIntent.Amount p) (PaymentIntent.FeeAmount p) (PaymentIntent.ProviderAmount p)
    (PaymentIntent.Currency p) (PaymentIntent.CreditAccountID p) (PaymentIntent.Status p)
    metadata occurredAt))) occurredAt.

Definition recordWithdrawalRequested (occurredAt : Time) : method PaymentIntentAggregate unit :=
  p ← theIntent;
  applyChangeAt (EvWithdrawalRequested (Some (PaymentWithdrawalRequestedEvent.mk
    (PaymentIntent.TransactionID p) (PaymentIntent.TransactionID p) (PaymentIntent.Provider p)
    (PaymentIntent.ClearingAccountKey p) (PaymentIntent.DebitAccountID p)
    (PaymentIntent.DestinationAccountID p) (PaymentIntent.Amount p) (PaymentIntent.FeeAmount p)
    (PaymentIntent.ProviderAmount p) (PaymentIntent.Currency p) (PaymentIntent.Status p)
    occurredAt))) occurredAt.

Definition recordProviderStateChanged (transition : PaymentTransition)
    (res : PaymentProviderResult) (occurredAt : Time) : method PaymentIntentAggregate unit :=
  a ← get;
  let current := currentProviderResult a res in
  p ← theIntent;
  applyChangeAt (EvProviderStateChanged (Some (PaymentProviderStateChangedEvent.mk
    (PaymentIntent.TransactionID p) (PaymentIntent.Provider p)
    (PaymentProviderResult.ExternalRef current) (PaymentTransition.PreviousStatus transition)
    (PaymentTransition.CurrentStatus transition)
    (TrimSpace (PaymentProviderResult.EventID current))
    (TrimSpace (PaymentProviderResult.EventType current))
    (PaymentProviderResult.Amount current) (PaymentProviderResult.Currency current) occurredAt
    (PaymentTransition.StateChanged transition)
    (PaymentTransition.ExternalRefChanged transition)))) occurredAt.

Definition recordCheckoutSessionEvent (checkoutURL : string) (emitCheckoutEvent : bool)
    (occurredAt : Time) : method PaymentIntentAggregate unit := fun a =>
  match intentOf a with
  | None => (Ok tt, a)
  | Some p =>
      if negb emitCheckoutEvent || negb (shouldEmitCheckoutSessionCreated a checkoutURL)
      then (Ok tt, a)
      else
        applyChangeAt (EvCheckoutSessionCreated (Some (PaymentCheckoutSessionCreatedEvent.mk
          (PaymentIntent.Workflow p) (PaymentIntent.TransactionID p)
          (PaymentIntent.TransactionID p) (PaymentIntent.Provider p)
          (PaymentIntent.ExternalRef p) (TrimSpace checkoutURL) (PaymentIntent.Amount p)
          (PaymentIntent.FeeAmount p) (PaymentIntent.ProviderAmount p)
          (PaymentIntent.Currency p) (PaymentIntent.Status p) occurredAt))) occurredAt a
  end.

Definition recordPaymentSucceeded (res : PaymentProviderResult) (occurredAt : Time) :
    method PaymentIntentAggregate unit :=
  a ← get;
  p ← theIntent;
  applyChangeAt (EvPaymentSucceeded (Some (PaymentSettledEvent.mk (PaymentIntent.Workflow p)
    (PaymentIntent.TransactionID p) (PaymentIntent.TransactionID p) (PaymentIntent.Provider p)
    (PaymentIntent.ClearingAccountKey p) (PaymentIntent.DebitAccountID p)
    (TrimSpace (PaymentProviderResult.EventID res))
    (TrimSpace (PaymentProviderResult.EventType res))
    (coalescePaymentValue [PaymentProviderResult.ExternalRef res; PaymentIntent.ExternalRef p])
    (PaymentIntent.Amount p) (PaymentIntent.FeeAmount p) (PaymentIntent.ProviderAmount p)
    (PaymentIntent.Currency p) (PaymentIntent.CreditAccountID p)
    (transitionIdempotencyKey a EventPaymentSucceeded) occurredAt))) occurredAt.

Definition recordPaymentFailed (res : PaymentProviderResult) (occurredAt : Time) :
    method PaymentIntentAggregate unit :=
  p ← theIntent;
  applyChangeAt (EvPaymentFailed (Some (PaymentFailedEvent.mk (PaymentIntent.Workflow p)
    (PaymentIntent.TransactionID p) (PaymentIntent.TransactionID p) (PaymentIntent.Provider p)
    (PaymentIntent.ClearingAccountKey p) (PaymentIntent.DebitAccountID p)
    (TrimSpace (PaymentProviderResult.EventID res))
    (TrimSpace (PaymentProviderResult.EventType res))
    (coalescePaymentValue [PaymentProviderResult.ExternalRef res; PaymentIntent.ExternalRef p])
    (PaymentIntent.Amount p) (PaymentIntent.FeeAmount p) (PaymentIntent.ProviderAmount p)
    (PaymentIntent.Currency p) (PaymentIntent.CreditAccountID p)
    (NormalizePaymentStatusOrPending (PaymentProviderResult.Status res)) occurredAt))) occurredAt.

Definition recordPaymentRefunded (res : PaymentProviderResult) (occurredAt : Time) :
    method PaymentIntentAggregate unit :=
  a ← get;
  p ← theIntent;
  applyChangeAt (EvPaymentRefunded (Some (PaymentSettledEvent.mk (PaymentIntent.Workflow p)
    (PaymentIntent.TransactionID p) (PaymentIntent.TransactionID p) (PaymentIntent.Provider p)
    (PaymentIntent.ClearingAccountKey p) (PaymentIntent.DebitAccountID p)
    (TrimSpace (PaymentProviderResult.EventID res))
    (TrimSpace (PaymentProviderResult.EventType res))
    (coalescePaymentValue [PaymentProviderResult.ExternalRef res; PaymentIntent.ExternalRef p])
    (paymentResultAmountOrDefault (PaymentProviderResult.Amount res) (PaymentIntent.Amount p))
    (PaymentIntent.FeeAmount p) (PaymentIntent.ProviderAmount p)
    (PaymentIntent.Currency p) (PaymentIntent.CreditAccountID p)
    (transitionIdempotencyKey a EventPaymentRefunded) occurredAt))) occurredAt.

Definition recordPaymentChargeback (res : PaymentProviderResult) (occurredAt : Time) :
    method PaymentIntentAggregate unit :=
  a ← get;
  p ← theIntent;
  applyChangeAt (EvPaymentChargeback (Some (PaymentSettledEvent.mk (PaymentIntent.Workflow p)
    (PaymentIntent.TransactionID p) (PaymentIntent.TransactionID p) (PaymentIntent.Provider p)
    (PaymentIntent.ClearingAccountKey p) (PaymentIntent.DebitAccountID p)
    (TrimSpace (PaymentProviderResult.EventID res))
    (TrimSpace (PaymentProviderResult.EventType res))
    (coalescePaymentValue [PaymentProviderResult.ExternalRef res; PaymentIntent.ExternalRef p])
    (paymentResultAmountOrDefault (PaymentProviderResult.Amount res) (PaymentIntent.Amount p))
    (PaymentIntent.FeeAmount p) (PaymentIntent.ProviderAmount p)
    (PaymentIntent.Currency p) (PaymentIntent.CreditAccountID p)
    (transitionIdempotencyKey a EventPaymentChargeback) occurredAt))) occurredAt.

(** *** The state machine: the aggregate's own copy *)

Definition resolvePaymentTransition (previousStatus nextStatus : string) : PaymentTransition :=
  let current := NormalizePaymentStatusOrPending previousStatus in
  if decide (current = nextStatus) then noTransition current
  else if decide (current = PaymentStatusCreating) then
    if decide (nextStatus = PaymentStatusPending) then
      changedTransition current nextStatus PaymentTransitionPending
    else if decide (nextStatus = PaymentStatusSuccess) then
      changedTransition current nextStatus PaymentTransitionSucceeded
    else if decide (nextStatus = PaymentStatusFailed) then
      changedTransition current nextStatus PaymentTransitionFailed
    else if decide (nextStatus = PaymentStatusCancelled) then
      changedTransition current nextStatus PaymentTransitionCancelled
    else ignoredTransition current
  else if decide (current = PaymentStatusPending) then
    if decide (nextStatus = PaymentStatusSuccess) then
      changedTransition current nextStatus PaymentTransitionSucceeded
    else if decide (nextStatus = PaymentStatusFailed) then
      changedTransition current nextStatus PaymentTransitionFailed
    else if decide (nextStatus = PaymentStatusCancelled) then
      changedTransition current nextStatus PaymentTransitionCancelled
    else ignoredTransition current
  else if decide (current = PaymentStatusSuccess) then
    if decide (nextStatus = PaymentStatusRefunded) then
      changedTransition current nextStatus PaymentTransitionRefunded
    else if decide (nextStatus = PaymentStatusChargeback) then
      changedTransition current nextStatus PaymentTransitionChargeback
    else ignoredTransition current
  else ignoredTransition current.

(** The body of [transitionProviderState] once [a.intent] is not nil. *)
Definition transitionIntentState (externalRef status : string) (updatedAt : Time) :
    method PaymentIntent PaymentTransition := fun p =>
  let p := normalizePaymentIntentSnapshot now p in
  let normalizedStatus := NormalizePaymentStatus status in
  if decide (normalizedStatus = "") then (Err ErrPaymentStatusInvalid, p) else
  let transition :=
    resolvePaymentTransition (NormalizePaymentStatusOrPending (PaymentIntent.Status p))
      normalizedStatus in
  let p :=
    if PaymentTransition.StateChanged transition
    then PaymentIntent.set_Status (PaymentTransition.CurrentStatus transition) p else p in
  let externalRef := TrimSpace externalRef in
  let '(p, transition) :=
    if decide (externalRef <> "" /\ externalRef <> PaymentIntent.ExternalRef p)
    then (PaymentIntent.set_ExternalRef externalRef p, set_ExternalRefChanged transition)
    else (p, transition) in
  let p :=
    if PaymentTransition.StateChanged transition || PaymentTransition.ExternalRefChanged transition
    then PaymentIntent.set_UpdatedAt (normalizePaymentTime now updatedAt) p else p in
  (Ok transition, p).

Definition transitionProviderState (externalRef status : string) (updatedAt : Time) :
    method PaymentIntentAggregate PaymentTransition :=
  onIntent (transitionIntentState externalRef status updatedAt).

Definition validateProviderResultForStatus (p : PaymentIntent) (status : string)
    (amount : Z) (currency : string) : result unit :=
  let normalizedStatus := NormalizePaymentStatus status in
  let normalizedStatus :=
    if decide (normalizedStatus = "") then NormalizePaymentStatusOrPending status
    else normalizedStatus in
  let mismatch :=
    if decide (normalizedStatus = PaymentStatusRefunded \/
               normalizedStatus = PaymentStatusChargeback)
    then bool_decide (amount <> 0 /\ PaymentIntent.ProviderAmount p < amount)
    else bool_decide (amount <> 0 /\ amount <> PaymentIntent.ProviderAmount p) in
  if mismatch then Err ErrPaymentProviderAmountMismatch else
  let currency := TrimSpace currency in
  if decide (currency <> "" /\ EqualFold currency (PaymentIntent.Currency p) = false)
  then Err ErrPaymentProviderCurrencyMismatch
  else Ok tt.

(** A nil [a.intent] fails in the validation, with the same error. *)
Definition transitionProviderResult (res : PaymentProviderResult) (updatedAt : Time) :
    method PaymentIntentAggregate PaymentTransition :=
  onIntent (
    _ ← modify (normalizePaymentIntentSnapshot now);
    p ← get;
    let nextStatus := NormalizePaymentStatusOrPending (PaymentProviderResult.Status res) in
    _ ← lift (validateProviderResultForStatus p nextStatus
                (PaymentProviderResult.Amount res) (PaymentProviderResult.Currency res));
    transitionIntentState (PaymentProviderResult.ExternalRef res) nextStatus updatedAt).

(** *** Outcomes *)

Definition newProcessedTransitionEvent (eventName : string) (createdAt : Time) :
    method PaymentIntentAggregate ProcessedPaymentEvent :=
  a ← get;
  p ← theIntent;
  lift (NewProcessedPaymentEvent now (PaymentIntent.Provider p)
          (transitionIdempotencyKey a eventName) (PaymentIntent.TransactionID p) createdAt).

Definition recordProcessedEvent (evt : ProcessedPaymentEvent) :
    method PaymentIntentAggregate unit :=
  modify (PaymentIntentAggregate.add_processed evt).

Definition duplicate : PaymentIntentMutation := PaymentIntentMutation.mk true false.
Definition persist : PaymentIntentMutation := PaymentIntentMutation.mk false true.
Definition duplicatePersist : PaymentIntentMutation := PaymentIntentMutation.mk true true.

Definition applyNonFinalOutcome (res : PaymentProviderResult) (checkoutURL : string)
    (emitCheckoutEvent : bool) (occurredAt : Time) :
    method PaymentIntentAggregate PaymentIntentMutation :=
  transition ← transitionProviderResult res occurredAt;
  if PaymentTransition.Ignored transition
     || (negb (PaymentTransition.StateChanged transition)
         && negb (PaymentTransition.ExternalRefChanged transition))
  then mret duplicate
  else
    _ ← recordProviderStateChanged transition res occurredAt;
    _ ← recordCheckoutSessionEvent checkoutURL emitCheckoutEvent occurredAt;
    _ ← (if decide (PaymentTransition.Type_ transition = PaymentTransitionFailed)
         then a ← get; recordPaymentFailed (currentProviderResult a res) occurredAt
         else mret tt);
    mret persist.

Definition applySuccessfulOutcome (res : PaymentProviderResult) (checkoutURL : string)
    (emitCheckoutEvent : bool) (occurredAt : Time) :
    method PaymentIntentAggregate PaymentIntentMutation :=
  transition ← transitionProviderResult res occurredAt;
  if PaymentTransition.Ignored transition
     || bool_decide (PaymentTransition.Type_ transition = PaymentTransitionNone)
  then
    if PaymentTransition.ExternalRefChanged transition then
      _ ← recordProviderStateChanged transition res occurredAt;
      _ ← recordCheckoutSessionEvent checkoutURL emitCheckoutEvent occurredAt;
      mret duplicatePersist
    else mret duplicate
  else if decide (PaymentTransition.Type_ transition <> PaymentTransitionSucceeded)
  then mret duplicate
  else
    processedEvent ← newProcessedTransitionEvent EventPaymentSucceeded occurredAt;
    _ ← recordProcessedEvent processedEvent;
    a ← get;
    _ ← recordPaymentSucceeded (currentProviderResult a res) occurredAt;
    _ ← recordCheckoutSessionEvent checkoutURL emitCheckoutEvent occurredAt;
    mret persist.

Definition applyReversedOutcome (res : PaymentProviderResult) (checkoutURL : string)
    (emitCheckoutEvent : bool) (occurredAt : Time) :
    method PaymentIntentAggregate PaymentIntentMutation :=
  transition ← transitionProviderResult res occurredAt;
  if PaymentTransition.Ignored transition
     || bool_decide (PaymentTransition.Type_ transition = PaymentTransitionNone)
  then mret duplicate
  else if decide (PaymentTransition.Type_ transition = PaymentTransitionRefunded) then
    processedEvent ← newProcessedTransitionEvent EventPaymentRefunded occurredAt;
    _ ← recordProcessedEvent processedEvent;
    a ← get;
    _ ← recordPaymentRefunded (currentProviderResult a res) occurredAt;
    _ ← recordCheckoutSessionEvent checkoutURL emitCheckoutEvent occurredAt;
    mret persist
  else if decide (PaymentTransition.Type_ transition = PaymentTransitionChargeback) then
    processedEvent ← newProcessedTransitionEvent EventPaymentChargeback occurredAt;
    _ ← recordProcessedEvent processedEvent;
    a ← get;
    _ ← recordPaymentChargeback (currentProviderResult a res) occurredAt;
    _ ← recordCheckoutSessionEvent checkoutURL emitCheckoutEvent occurredAt;
    mret persist
  else mret duplicate.

Definition ApplyProviderOutcome (res : PaymentProviderResult) (checkoutURL : string)
    (emitCheckoutEvent : bool) (occurredAt : Time) :
    method PaymentIntentAggregate PaymentIntentMutation := fun a =>
  if decide (intentOf a = None) then (Err ErrPaymentTransactionIDRequired, a) else
  (occurredAt ← lift (normalizePaymentIntentOccurredAt occurredAt);
   let status := NormalizePaymentStatus (PaymentProviderResult.Status res) in
   if decide (status = PaymentStatusSuccess) then
     applySuccessfulOutcome res checkoutURL emitCheckoutEvent occurredAt
   else if decide (status = PaymentStatusRefunded \/ status = PaymentStatusChargeback) then
     applyReversedOutcome res checkoutURL emitCheckoutEvent occurredAt
   else applyNonFinalOutcome res checkoutURL emitCheckoutEvent occurredAt) a.

(** The event is stamped with [a.intent.UpdatedAt], read after the transition. *)
Definition MarkCreateFailed (occurredAt : Time) :
    method PaymentIntentAggregate PaymentIntentMutation := fun a =>
  if decide (intentOf a = None) then (Err ErrPaymentTransactionIDRequired, a) else
  (occurredAt ← lift (normalizePaymentIntentOccurredAt occurredAt);
   transition ← transitionProviderState "" PaymentStatusFailed occurredAt;
   if PaymentTransition.Ignored transition || negb (PaymentTransition.StateChanged transition)
   then mret duplicate
   else
     a ← get;
     p ← theIntent;
     let failedResult := currentProviderResult a
       (PaymentProviderResult.mk "" "" "" PaymentStatusFailed 0 "" "") in
     _ ← recordPaymentFailed failedResult (PaymentIntent.UpdatedAt p);
     mret persist) a.

(** ** Constructors *)

Definition newPaymentIntentAggregate (intent : PaymentIntent) : result PaymentIntentAggregate :=
  match InitAggregate AggregateTypePaymentIntent (PaymentIntent.TransactionID intent) zeroRoot with
  | (Ok _, r) => Ok (PaymentIntentAggregate.mk r (Some intent) [])
  | (Err e, _) => Err e
  | (Panic w, _) => Panic w
  end.

(** A constructor that runs a method on the object it made and returns it. *)
Definition built {A} (m : method PaymentIntentAggregate A) (a : PaymentIntentAggregate) :
    result PaymentIntentAggregate :=
  match m a with
  | (Ok _, a') => Ok a'
  | (Err e, _) => Err e
  | (Panic w, _) => Panic w
  end.

Definition NewProviderTopUpAggregate (transactionID provider : string) (amount feeAmount : Z)
    (currency creditAccountID : string) (metadata : gmap string string) (at_ : Time) :
    result PaymentIntentAggregate :=
  at_ ← normalizePaymentIntentOccurredAt at_;
  intent ← NewProviderTopUpIntent now transactionID provider amount feeAmount currency
             creditAccountID at_;
  agg ← newPaymentIntentAggregate intent;
  built (recordPaymentCreated metadata at_) agg.

Definition NewProviderWithdrawalAggregate (transactionID provider : string)
    (amount feeAmount : Z) (currency destinationAccountID debitAccountID : string)
    (metadata : gmap string string) (at_ : Time) : result PaymentIntentAggregate :=
  at_ ← normalizePaymentIntentOccurredAt at_;
  intent ← NewProviderWithdrawalIntent now transactionID provider amount feeAmount currency
             destinationAccountID debitAccountID at_;
  agg ← newPaymentIntentAggregate intent;
  built (_ ← recordPaymentCreated metadata at_; recordWithdrawalRequested at_) agg.

Definition RestorePaymentIntentAggregateWithVersion (intent : option PaymentIntent)
    (version : Z) : result PaymentIntentAggregate :=
  match intent with
  | None => Err ErrPaymentTransactionIDRequired
  | Some p =>
      let clone := normalizePaymentIntentSnapshot now p in
      let version := if decide (version < 0) then 0 else version in
      Ok (PaymentIntentAggregate.mk
            (SetInternal (PaymentIntent.TransactionID clone) version version
               (SetAggregateType AggregateTypePaymentIntent zeroRoot))
            (Some clone) [])
  end.

Definition RestorePaymentIntentAggregate (intent : option PaymentIntent) :
    result PaymentIntentAggregate :=
  RestorePaymentIntentAggregateWithVersion intent 0.
End aggregate.
