(* ===== verification/PaymentAggregateInv.v ===== *)
(** * The payment aggregate: invariant and specification of its operations

    The aggregate's copies of the entity's functions are equal to the
    entity's; the invariant of a payment aggregate; recording an event that
    announces the state the intent is in; and [outcomeSpec], what a provider's
    outcome means, with the proof that [ApplyProviderOutcome] implements it. *)

From stdpp Require Import prelude strings gmap.
From S2P Require Import Prelude GoStrings Event LedgerEntity PaymentEvents PaymentIntent.
From S2P Require Import PaymentAggregate.

(** ** The copies are the entity's functions *)

Section copies.
Context `{UC : UnicodeCase}.

Lemma resolvePaymentTransition_copy s t :
  resolvePaymentTransition s t = PaymentIntent.resolvePaymentTransition s t.
Proof. unfold resolvePaymentTransition, PaymentIntent.resolvePaymentTransition. reflexivity. Qed.

Lemma validateProviderResultForStatus_copy p st amount cur :
  validateProviderResultForStatus p st amount cur = ValidateProviderResultForStatus p st amount cur.
Proof.
  unfold validateProviderResultForStatus, ValidateProviderResultForStatus. reflexivity.
Qed.

Lemma coalescePaymentValue_copy l :
  coalescePaymentValue l = PaymentIntent.coalescePaymentValue l.
Proof. reflexivity. Qed.

Lemma normalizePaymentIntentSnapshot_copy now p :
  normalizePaymentIntentSnapshot now p =
  PaymentIntent.set_Times (PaymentIntent.normalizePaymentTime now (PaymentIntent.CreatedAt p))
    (PaymentIntent.normalizePaymentTime now (PaymentIntent.UpdatedAt p)) (ensureWorkflowDefaults p).
Proof. reflexivity. Qed.

Lemma transitionIntentState_copy now externalRef status updatedAt p :
  transitionIntentState now externalRef status updatedAt p =
  PaymentIntent.transitionProviderState now externalRef status updatedAt
    (PaymentIntent.set_Times (PaymentIntent.normalizePaymentTime now (PaymentIntent.CreatedAt p))
       (PaymentIntent.normalizePaymentTime now (PaymentIntent.UpdatedAt p)) p).
Proof.
  unfold transitionIntentState, PaymentIntent.transitionProviderState.
  set (q := PaymentIntent.set_Times _ _ p).
  replace (normalizePaymentIntentSnapshot now p) with (ensureWorkflowDefaults q) by reflexivity.
  generalize (ensureWorkflowDefaults q). clear. intros p.
  by unfold normalizePaymentTime, PaymentIntent.normalizePaymentTime, resolvePaymentTransition,
    PaymentIntent.resolvePaymentTransition.
Qed.
End copies.

(** ** Strings *)

Lemma coalesce_kept ref own :
  trimmed own -> TrimSpace ref = "" \/ TrimSpace ref = own ->
  coalescePaymentValue [ref; own] = own.
Proof.
  intros Ho Hr. cbn. unfold trimmed in Ho. rewrite Ho.
  destruct (decide (own = "")) as [->|Hn]; destruct Hr as [E|E]; rewrite E; try done.
  - by rewrite (decide_False (P := "" <> "")), decide_True by auto.
  - by rewrite decide_True.
Qed.

(** ** Invariant *)

Record payment_wf (a : PaymentIntentAggregate) (p : PaymentIntent) `{UC : UnicodeCase} : Prop := {
  pwf_intent : intentOf a = Some p;
  pwf_normal : intent_normal p;
  pwf_id : aggregateID (PaymentIntentAggregate.root a) = PaymentIntent.TransactionID p;
  pwf_transactionID : PaymentIntent.TransactionID p <> "";
  pwf_provider : PaymentIntent.Provider p <> "";
  pwf_providerAmount : 0 < PaymentIntent.ProviderAmount p;
  pwf_createdAt : PaymentIntent.CreatedAt p <> 0;
  pwf_updatedAt : PaymentIntent.UpdatedAt p <> 0
}.

(** ** Recording events *)

Definition recordedEvent (r : AggregateRoot PaymentEventData) (data : PaymentEventData)
    (at_ : Time) : Event PaymentEventData :=
  mkEvent 0 (aggregateID r) (aggregateType r) (nextVersion r) (event_name data) data (Unix at_).

Definition recorded (at_ : Time) (a : PaymentIntentAggregate) (data : PaymentEventData) :
    PaymentIntentAggregate :=
  PaymentIntentAggregate.set_root
    (appendEvent (recordedEvent (PaymentIntentAggregate.root a) data at_)
       (PaymentIntentAggregate.root a)) a.

Definition recordAll (at_ : Time) (ds : list PaymentEventData) (a : PaymentIntentAggregate) :
    PaymentIntentAggregate := foldl (recorded at_) a ds.

Section record.
Context `{UC : UnicodeCase} (now : Time).

(** The event [data] can be recorded, and leaves the intent [p] as it is. *)
Definition records (data : PaymentEventData) (p : PaymentIntent) : Prop :=
  exists f, interpret now data = Some f /\ f (Some p) = Some p /\ event_name data <> "".

Lemma applyChangeAt_run data at_ a p :
  intentOf a = Some p -> aggregateID (PaymentIntentAggregate.root a) <> "" ->
  records data p ->
  applyChangeAt now data at_ a = (Ok tt, recorded at_ a data).
Proof.
  intros Hi Hid (f & Hf & Hp & Hname).
  unfold applyChangeAt, ApplyChange, mbind, method_bind. cbn.
  rewrite decide_False by done.
  replace (match data with EvNil => true | _ => false end) with false by by destruct data.
  rewrite decide_False by done. unfold paymentTransition. cbn. rewrite Hf.
  unfold modify, updRoot, stampLast, recorded, PaymentIntentAggregate.set_root,
    PaymentIntentAggregate.set_intent. cbn.
  rewrite Hi, Hp, last_snoc, removelast_last. reflexivity.
Qed.
End record.

Section recordAll.
Implicit Types (a : PaymentIntentAggregate) (ds : list PaymentEventData).

Lemma intentOf_recordAll at_ ds a : intentOf (recordAll at_ ds a) = intentOf a.
Proof. revert a. induction ds as [|d ds IH]; intros a; [done|]. apply (IH (recorded at_ a d)). Qed.

Lemma aggregateID_recordAll at_ ds a :
  aggregateID (PaymentIntentAggregate.root (recordAll at_ ds a)) =
  aggregateID (PaymentIntentAggregate.root a).
Proof. revert a. induction ds as [|d ds IH]; intros a; [done|]. apply (IH (recorded at_ a d)). Qed.

Lemma processed_recordAll at_ ds a :
  PaymentIntentAggregate.processedEvents (recordAll at_ ds a) =
  PaymentIntentAggregate.processedEvents a.
Proof. revert a. induction ds as [|d ds IH]; intros a; [done|]. apply (IH (recorded at_ a d)). Qed.

Lemma recordAll_app at_ ds es a : recordAll at_ (ds ++ es) a = recordAll at_ es (recordAll at_ ds a).
Proof. apply foldl_app. Qed.

Lemma root_wf_recordAll at_ ds a :
  root_wf (PaymentIntentAggregate.root a) ->
  version_room (length ds) (PaymentIntentAggregate.root a) ->
  root_wf (PaymentIntentAggregate.root (recordAll at_ ds a)).
Proof.
  revert a. induction ds as [|d ds IH]; intros a Hw Hr; [done|].
  apply (IH (recorded at_ a d)); cbn.
  - apply appendEvent_wf; [done..|]. cbn. apply nextVersion_wf; [done|].
    by eapply version_room_le; [|exact Hr]; cbn; lia.
  - by apply version_room_append.
Qed.

(** The payloads of the events [recordAll] appends, in order. *)
Lemma events_recordAll at_ ds a :
  exists es, events (PaymentIntentAggregate.root (recordAll at_ ds a)) =
               events (PaymentIntentAggregate.root a) ++ es /\
    EventData <$> es = ds /\ Forall (fun e => CreatedAt e = Unix at_ /\
      AggregateID e = aggregateID (PaymentIntentAggregate.root a) /\
      EventName e = event_name (EventData e)) es.
Proof.
  revert a. induction ds as [|d ds IH]; intros a.
  - exists []. by rewrite app_nil_r.
  - destruct (IH (recorded at_ a d)) as (es & He & Hd & Hf).
    eexists (_ :: es). split; [|split; [|constructor; [|exact Hf]]].
    + change (recordAll at_ (d :: ds) a) with (recordAll at_ ds (recorded at_ a d)).
      rewrite He. cbn. rewrite <- app_assoc. reflexivity.
    + cbn. by rewrite Hd.
    + done.
Qed.
End recordAll.

(** ** What the events say *)

(** The amount a reversal reports: the provider's, or all of the charge. *)
Definition reportedAmount (p : PaymentIntent) (res : PaymentProviderResult) : Z :=
  if decide (PaymentProviderResult.Amount res = 0) then PaymentIntent.ProviderAmount p
  else PaymentProviderResult.Amount res.

Definition settledData (name : string) (amount : Z) (p : PaymentIntent)
    (res : PaymentProviderResult) (at_ : Time) : PaymentSettledEvent :=
  PaymentSettledEvent.mk (PaymentIntent.Workflow p)
    (PaymentIntent.TransactionID p) (PaymentIntent.TransactionID p) (PaymentIntent.Provider p)
    (PaymentIntent.ClearingAccountKey p) (PaymentIntent.DebitAccountID p)
    (TrimSpace (PaymentProviderResult.EventID res))
    (TrimSpace (PaymentProviderResult.EventType res))
    (PaymentIntent.ExternalRef p) amount (PaymentIntent.FeeAmount p)
    (PaymentIntent.ProviderAmount p) (PaymentIntent.Currency p)
    (PaymentIntent.CreditAccountID p) (name +:+ ":" +:+ PaymentIntent.TransactionID p) at_.

Definition succeededData p res at_ : PaymentEventData :=
  EvPaymentSucceeded (Some (settledData EventPaymentSucceeded (PaymentIntent.Amount p) p res at_)).
Definition refundedData p res at_ : PaymentEventData :=
  EvPaymentRefunded (Some (settledData EventPaymentRefunded (reportedAmount p res) p res at_)).
Definition chargebackData p res at_ : PaymentEventData :=
  EvPaymentChargeback (Some (settledData EventPaymentChargeback (reportedAmount p res) p res at_)).

Definition failedData (p : PaymentIntent) (res : PaymentProviderResult) (at_ : Time) :
    PaymentEventData :=
  EvPaymentFailed (Some (PaymentFailedEvent.mk (PaymentIntent.Workflow p)
    (PaymentIntent.TransactionID p) (PaymentIntent.TransactionID p) (PaymentIntent.Provider p)
    (PaymentIntent.ClearingAccountKey p) (PaymentIntent.DebitAccountID p)
    (TrimSpace (PaymentProviderResult.EventID res))
    (TrimSpace (PaymentProviderResult.EventType res))
    (PaymentIntent.ExternalRef p) (PaymentIntent.Amount p) (PaymentIntent.FeeAmount p)
    (PaymentIntent.ProviderAmount p) (PaymentIntent.Currency p)
    (PaymentIntent.CreditAccountID p) PaymentStatusFailed at_)).

Definition stateChangedData (t : PaymentTransition) (p : PaymentIntent)
    (res : PaymentProviderResult) (at_ : Time) : PaymentEventData :=
  EvProviderStateChanged (Some (PaymentProviderStateChangedEvent.mk
    (PaymentIntent.TransactionID p) (PaymentIntent.Provider p) (PaymentIntent.ExternalRef p)
    (PaymentTransition.PreviousStatus t) (PaymentTransition.CurrentStatus t)
    (TrimSpace (PaymentProviderResult.EventID res))
    (TrimSpace (PaymentProviderResult.EventType res)) (reportedAmount p res)
    (coalescePaymentValue [PaymentProviderResult.Currency res; PaymentIntent.Currency p]) at_
    (PaymentTransition.StateChanged t) (PaymentTransition.ExternalRefChanged t))).

(** A checkout session is announced for a top-up with a URL or a reference. *)
Definition checkoutData (p : PaymentIntent) (checkoutURL : string) (emit : bool) (at_ : Time) :
    list PaymentEventData :=
  if decide (emit = true /\ PaymentIntent.Workflow p = PaymentWorkflowTopUp /\
             (TrimSpace checkoutURL <> "" \/ PaymentIntent.ExternalRef p <> ""))
  then [EvCheckoutSessionCreated (Some (PaymentCheckoutSessionCreatedEvent.mk
          (PaymentIntent.Workflow p) (PaymentIntent.TransactionID p)
          (PaymentIntent.TransactionID p) (PaymentIntent.Provider p)
          (PaymentIntent.ExternalRef p) (TrimSpace checkoutURL) (PaymentIntent.Amount p)
          (PaymentIntent.FeeAmount p) (PaymentIntent.ProviderAmount p)
          (PaymentIntent.Currency p) (PaymentIntent.Status p) at_))]
  else [].

Section interpretation.
Context `{UC : UnicodeCase} (now : Time).
Implicit Types (p q : PaymentIntent).

Lemma normalizePaymentTime_id at_ : at_ <> 0 -> normalizePaymentTime now at_ = at_.
Proof. intros H. unfold normalizePaymentTime, IsZero. by rewrite bool_decide_false. Qed.

(** [q] is [p] after a provider reported a status and a reference at [at_]. *)
Record advances (at_ : Time) p q : Prop := {
  adv_eq : q = PaymentIntent.set_UpdatedAt at_
                 (PaymentIntent.set_ExternalRef (PaymentIntent.ExternalRef q)
                    (PaymentIntent.set_Status (PaymentIntent.Status q) p));
  adv_ref : trimmed (PaymentIntent.ExternalRef q);
  adv_kept : PaymentIntent.ExternalRef q = "" -> PaymentIntent.ExternalRef p = "";
  adv_status : PaymentIntent.Status q ∈ ValidPaymentStatuses;
  adv_time : at_ <> 0
}.

Lemma advances_self at_ q :
  intent_normal q -> PaymentIntent.UpdatedAt q = at_ -> at_ <> 0 -> advances at_ q q.
Proof.
  intros [] Hu Ht. constructor; try done. destruct q; cbn in *. by subst.
Qed.

(** An event that carries the reference, status and time of [q] takes [p] to
    [q]. *)
Lemma advances_apply at_ p q :
  advances at_ p q ->
  PaymentIntent.set_UpdatedAt (normalizePaymentTime now at_)
    (withRef (PaymentIntent.ExternalRef q) (PaymentIntent.set_Status (PaymentIntent.Status q) p)) = q.
Proof.
  intros [Heq Hr Hk _ Ht]. rewrite normalizePaymentTime_id by done.
  unfold withRef. unfold trimmed in Hr. rewrite Hr.
  destruct (decide (PaymentIntent.ExternalRef q <> "")) as [|Hn]; [by rewrite <- Heq|].
  destruct (decide (PaymentIntent.ExternalRef q = "")) as [E|]; [|done].
  rewrite Heq at 2. rewrite E. specialize (Hk E). destruct p; cbn in *. by subst.
Qed.

(** The events that take every intent [p] that [q] advances to [q]. *)
Definition announces (at_ : Time) q (data : PaymentEventData) : Prop :=
  exists f, interpret now data = Some f /\ event_name data <> "" /\
    forall p, advances at_ p q -> f (Some p) = Some q.

Lemma announces_records at_ q data :
  announces at_ q data -> advances at_ q q -> records now data q.
Proof. intros (f & Hf & Hn & Ha) Hs. exists f. auto. Qed.

Lemma succeeded_announces at_ q res :
  PaymentIntent.Status q = PaymentStatusSuccess -> announces at_ q (succeededData q res at_).
Proof.
  intros Hs. eexists. split; [reflexivity|]. split; [done|]. intros p Ha. cbn. f_equal.
  rewrite <- Hs. by apply advances_apply.
Qed.

Lemma refunded_announces at_ q res :
  PaymentIntent.Status q = PaymentStatusRefunded -> announces at_ q (refundedData q res at_).
Proof.
  intros Hs. eexists. split; [reflexivity|]. split; [done|]. intros p Ha. cbn. f_equal.
  rewrite <- Hs. by apply advances_apply.
Qed.

Lemma chargeback_announces at_ q res :
  PaymentIntent.Status q = PaymentStatusChargeback -> announces at_ q (chargebackData q res at_).
Proof.
  intros Hs. eexists. split; [reflexivity|]. split; [done|]. intros p Ha. cbn. f_equal.
  rewrite <- Hs. by apply advances_apply.
Qed.

Lemma failed_announces at_ q res :
  PaymentIntent.Status q = PaymentStatusFailed -> announces at_ q (failedData q res at_).
Proof.
  intros Hs. eexists. split; [reflexivity|]. split; [done|]. intros p Ha. cbn. f_equal.
  rewrite <- Hs. by apply advances_apply.
Qed.

Lemma withRef_set_Status ref st p :
  PaymentIntent.set_Status st (withRef ref p) = withRef ref (PaymentIntent.set_Status st p).
Proof. unfold withRef. by case_decide. Qed.

Lemma stateChanged_announces at_ q t res :
  PaymentTransition.CurrentStatus t = PaymentIntent.Status q ->
  announces at_ q (stateChangedData t q res at_).
Proof.
  intros Hs. eexists. split; [reflexivity|]. split; [done|]. intros p Ha. cbn. f_equal.
  rewrite Hs. rewrite NormalizePaymentStatus_valid by apply (adv_status _ _ _ Ha).
  rewrite decide_True by apply (valid_status_nonempty _ (adv_status _ _ _ Ha)).
  rewrite withRef_set_Status. by apply advances_apply.
Qed.

Lemma checkout_records at_ q url emit data :
  data ∈ checkoutData q url emit at_ -> advances at_ q q -> records now data q.
Proof.
  unfold checkoutData. case_decide; intros Hd Ha; [|by apply not_elem_of_nil in Hd].
  apply list_elem_of_singleton in Hd as ->. eexists. split; [reflexivity|]. split; [|done].
  cbn. f_equal. pose proof (advances_apply _ _ _ Ha) as E.
  replace (PaymentIntent.set_Status (PaymentIntent.Status q) q) with q in E
    by by destruct q. exact E.
Qed.
End interpretation.

(** ** Recording what a provider reported *)

Section reporting.
Context `{UC : UnicodeCase} (now : Time).
Implicit Types (a : PaymentIntentAggregate) (p q : PaymentIntent).

(** The aggregate [a] holds the intent [q] that the result [res], received at
    [at_], has led to. *)
Record reporting (at_ : Time) a q (res : PaymentProviderResult) : Prop := {
  rep_intent : intentOf a = Some q;
  rep_normal : intent_normal q;
  rep_id : aggregateID (PaymentIntentAggregate.root a) <> "";
  rep_ref : TrimSpace (PaymentProviderResult.ExternalRef res) = "" \/
            TrimSpace (PaymentProviderResult.ExternalRef res) = PaymentIntent.ExternalRef q;
  rep_self : advances at_ q q;
  rep_amount : 0 < PaymentIntent.ProviderAmount q
}.

Lemma reporting_recorded at_ a q res d :
  reporting at_ a q res -> reporting at_ (recorded at_ a d) q res.
Proof. intros []. by constructor. Qed.

Lemma reporting_processed at_ a q res e :
  reporting at_ a q res -> reporting at_ (PaymentIntentAggregate.add_processed e a) q res.
Proof. intros []. by constructor. Qed.

Lemma currentProviderResult_run at_ a q res :
  reporting at_ a q res ->
  currentProviderResult a res = PaymentProviderResult.mk
    (coalescePaymentValue [PaymentProviderResult.TransactionID res; PaymentIntent.TransactionID q])
    (TrimSpace (PaymentProviderResult.EventID res))
    (TrimSpace (PaymentProviderResult.EventType res))
    (NormalizePaymentStatusOrPending
       (coalescePaymentValue [PaymentProviderResult.Status res; PaymentIntent.Status q]))
    (reportedAmount q res)
    (coalescePaymentValue [PaymentProviderResult.Currency res; PaymentIntent.Currency q])
    (PaymentIntent.ExternalRef q).
Proof.
  intros [Hi Hn _ Hr _ _]. unfold currentProviderResult. rewrite Hi.
  rewrite (coalesce_kept (PaymentProviderResult.ExternalRef res)) by (apply Hn || done).
  reflexivity.
Qed.

Lemma coalesce_same s : trimmed s -> coalescePaymentValue [s; s] = s.
Proof. intros H. apply coalesce_kept; auto. Qed.

Lemma transitionIdempotencyKey_run a q name :
  intentOf a = Some q -> intent_normal q -> trimmed name ->
  transitionIdempotencyKey a name = name +:+ ":" +:+ PaymentIntent.TransactionID q.
Proof.
  intros Hi Hn Ht. unfold transitionIdempotencyKey. rewrite Hi.
  by rewrite (normal_transactionID q Hn), Ht.
Qed.

Lemma paymentResultAmountOrDefault_reported q res fallback :
  0 < PaymentIntent.ProviderAmount q ->
  paymentResultAmountOrDefault (reportedAmount q res) fallback = reportedAmount q res.
Proof.
  intros H. unfold paymentResultAmountOrDefault. rewrite decide_True; [done|].
  unfold reportedAmount. case_decide; lia.
Qed.

(** Runs the methods that record an event: the intent is read, and the event
    recorded is the one of the specification. *)
Ltac run_record H :=
  let Hi := fresh in let Hn := fresh in
  pose proof (rep_intent _ _ _ _ H) as Hi; pose proof (rep_normal _ _ _ _ H) as Hn;
  cbv beta iota delta [mbind method_bind theIntent get]; rewrite ?Hi; cbv beta iota;
  rewrite ?(currentProviderResult_run _ _ _ _ H);
  cbn [PaymentProviderResult.EventID PaymentProviderResult.EventType
       PaymentProviderResult.ExternalRef PaymentProviderResult.Amount
       PaymentProviderResult.Status PaymentProviderResult.Currency];
  rewrite ?TrimSpace_idem, ?(coalesce_same _ (normal_externalRef _ Hn));
  rewrite ?(paymentResultAmountOrDefault_reported _ _ _ (rep_amount _ _ _ _ H));
  rewrite ?(transitionIdempotencyKey_run _ _ _ Hi Hn) by reflexivity.

Lemma recordPaymentSucceeded_run at_ a q res :
  reporting at_ a q res -> PaymentIntent.Status q = PaymentStatusSuccess ->
  recordPaymentSucceeded now (currentProviderResult a res) at_ a =
    (Ok tt, recorded at_ a (succeededData q res at_)).
Proof.
  intros H Hs. unfold recordPaymentSucceeded. run_record H.
  apply (applyChangeAt_run now _ _ _ q); [apply H..|].
  apply (announces_records _ at_); [by apply succeeded_announces|apply H].
Qed.

Lemma recordPaymentRefunded_run at_ a q res :
  reporting at_ a q res -> PaymentIntent.Status q = PaymentStatusRefunded ->
  recordPaymentRefunded now (currentProviderResult a res) at_ a =
    (Ok tt, recorded at_ a (refundedData q res at_)).
Proof.
  intros H Hs. unfold recordPaymentRefunded. run_record H.
  apply (applyChangeAt_run now _ _ _ q); [apply H..|].
  apply (announces_records _ at_); [by apply refunded_announces|apply H].
Qed.

Lemma recordPaymentChargeback_run at_ a q res :
  reporting at_ a q res -> PaymentIntent.Status q = PaymentStatusChargeback ->
  recordPaymentChargeback now (currentProviderResult a res) at_ a =
    (Ok tt, recorded at_ a (chargebackData q res at_)).
Proof.
  intros H Hs. unfold recordPaymentChargeback. run_record H.
  apply (applyChangeAt_run now _ _ _ q); [apply H..|].
  apply (announces_records _ at_); [by apply chargeback_announces|apply H].
Qed.

Lemma recordProviderStateChanged_run at_ a q t res :
  reporting at_ a q res -> PaymentTransition.CurrentStatus t = PaymentIntent.Status q ->
  recordProviderStateChanged now t res at_ a =
    (Ok tt, recorded at_ a (stateChangedData t q res at_)).
Proof.
  intros H Hs. unfold recordProviderStateChanged. run_record H.
  apply (applyChangeAt_run now _ _ _ q); [apply H..|].
  apply (announces_records _ at_); [by apply stateChanged_announces|apply H].
Qed.

(** The status of a result that normalises to FAILED survives the defaulting. *)
Lemma reported_failed_status res q :
  NormalizePaymentStatus (PaymentProviderResult.Status res) = PaymentStatusFailed ->
  NormalizePaymentStatusOrPending (NormalizePaymentStatusOrPending
    (coalescePaymentValue [PaymentProviderResult.Status res; PaymentIntent.Status q]))
  = PaymentStatusFailed.
Proof.
  intros H. cbn. rewrite decide_True.
  2: { intros E. unfold NormalizePaymentStatus in H. rewrite E in H. by vm_compute in H. }
  assert (E : NormalizePaymentStatus (TrimSpace (PaymentProviderResult.Status res))
              = PaymentStatusFailed)
    by (unfold NormalizePaymentStatus in *; by rewrite TrimSpace_idem).
  rewrite (NormalizePaymentStatusOrPending_some (TrimSpace _)) by by rewrite E.
  rewrite E. vm_compute. reflexivity.
Qed.

Lemma recordPaymentFailed_run at_ a q res :
  reporting at_ a q res -> PaymentIntent.Status q = PaymentStatusFailed ->
  NormalizePaymentStatus (PaymentProviderResult.Status res) = PaymentStatusFailed ->
  recordPaymentFailed now (currentProviderResult a res) at_ a =
    (Ok tt, recorded at_ a (failedData q res at_)).
Proof.
  intros H Hs Hf. unfold recordPaymentFailed. run_record H.
  rewrite (reported_failed_status res q Hf).
  apply (applyChangeAt_run now _ _ _ q); [apply H..|].
  apply (announces_records _ at_); [by apply failed_announces|apply H].
Qed.

Lemma recordCheckoutSessionEvent_run at_ a q res url emit :
  reporting at_ a q res ->
  recordCheckoutSessionEvent now url emit at_ a =
    (Ok tt, recordAll at_ (checkoutData q url emit at_) a).
Proof.
  intros H. pose proof (checkout_records now at_ q url emit) as Hc. revert Hc.
  unfold recordCheckoutSessionEvent, shouldEmitCheckoutSessionCreated, checkoutData.
  rewrite (rep_intent _ _ _ _ H).
  rewrite (normal_externalRef _ (rep_normal _ _ _ _ H)).
  destruct emit; cbn [negb orb]; [|intros _; rewrite decide_False; [done|by intros [? _]]].
  destruct (decide (PaymentIntent.Workflow q = PaymentWorkflowTopUp)) as [Hw|Hw].
  2: { intros _. rewrite decide_True by done. rewrite decide_False; [done|tauto]. }
  rewrite (decide_False (P := PaymentIntent.Workflow q <> _)) by tauto.
  destruct (decide (TrimSpace url <> "" \/ PaymentIntent.ExternalRef q <> "")) as [Hu|Hu].
  - rewrite bool_decide_true by done. cbn [negb].
    rewrite !decide_True by tauto. intros Hc.
    apply (applyChangeAt_run now _ _ _ q); [apply H..|].
    apply Hc; [by left|apply H].
  - rewrite bool_decide_false by done. cbn [negb]. by rewrite decide_False by tauto.
Qed.
End reporting.
