(* ===== verification/PaymentAggregateSpec.v ===== *)
(** * What a provider's outcome does to a payment aggregate

    [outcomeSpec] states, without the order of calls of the code, what
    [ApplyProviderOutcome] makes of an aggregate: the intent it leads to, the
    events it records, the idempotency record it leaves and the mutation it
    reports. [ApplyProviderOutcome_run] and [MarkCreateFailed_run] prove that
    the code does exactly that. *)

From stdpp Require Import prelude strings gmap.
From S2P Require Import Prelude GoStrings Event LedgerEntity PaymentEvents PaymentIntent.
From S2P Require Import PaymentAggregate PaymentAggregateInv.

(** ** The specification *)

Section spec.
Context `{UC : UnicodeCase} (now : Time).

Definition outcomeNext (res : PaymentProviderResult) : string :=
  NormalizePaymentStatusOrPending (PaymentProviderResult.Status res).

Definition outcomeIntent (p : PaymentIntent) (res : PaymentProviderResult) (at_ : Time) :
    PaymentIntent :=
  afterProvider now p (outcomeNext res) (PaymentProviderResult.ExternalRef res) at_.

Definition outcomeTransition (p : PaymentIntent) (res : PaymentProviderResult) :
    PaymentTransition :=
  providerTransition p (outcomeNext res) (PaymentProviderResult.ExternalRef res).

Definition transitionChanges (t : PaymentTransition) : bool :=
  PaymentTransition.StateChanged t || PaymentTransition.ExternalRefChanged t.

Definition outcomeEvents (p : PaymentIntent) (res : PaymentProviderResult) (url : string)
    (emit : bool) (at_ : Time) : list PaymentEventData :=
  let q := outcomeIntent p res at_ in
  let t := outcomeTransition p res in
  let checkout := checkoutData q url emit at_ in
  if decide (outcomeNext res = PaymentStatusSuccess) then
    if PaymentTransition.StateChanged t then succeededData q res at_ :: checkout
    else if PaymentTransition.ExternalRefChanged t then stateChangedData t q res at_ :: checkout
    else []
  else if decide (outcomeNext res = PaymentStatusRefunded) then
    if PaymentTransition.StateChanged t then refundedData q res at_ :: checkout else []
  else if decide (outcomeNext res = PaymentStatusChargeback) then
    if PaymentTransition.StateChanged t then chargebackData q res at_ :: checkout else []
  else if PaymentTransition.Ignored t || negb (transitionChanges t) then []
  else stateChangedData t q res at_ :: checkout ++
    (if decide (PaymentTransition.StateChanged t = true /\ outcomeNext res = PaymentStatusFailed)
     then [failedData q res at_] else []).

Definition outcomeMutation (p : PaymentIntent) (res : PaymentProviderResult) :
    PaymentIntentMutation :=
  let t := outcomeTransition p res in
  if decide (outcomeNext res = PaymentStatusSuccess) then
    if PaymentTransition.StateChanged t then persist
    else if PaymentTransition.ExternalRefChanged t then duplicatePersist else duplicate
  else if decide (outcomeNext res ∈ [PaymentStatusRefunded; PaymentStatusChargeback]) then
    if PaymentTransition.StateChanged t then persist else duplicate
  else if PaymentTransition.Ignored t || negb (transitionChanges t) then duplicate
  else persist.

(** The idempotency record of a payment event. *)
Definition processedRecord (p : PaymentIntent) (name : string) (at_ : Time) :
    ProcessedPaymentEvent :=
  ProcessedPaymentEvent.mk (PaymentIntent.Provider p)
    (name +:+ ":" +:+ PaymentIntent.TransactionID p) (PaymentIntent.TransactionID p) at_.

Definition outcomeProcessed (p : PaymentIntent) (res : PaymentProviderResult) (at_ : Time) :
    list ProcessedPaymentEvent :=
  if PaymentTransition.StateChanged (outcomeTransition p res) then
    if decide (outcomeNext res = PaymentStatusSuccess) then
      [processedRecord p EventPaymentSucceeded at_]
    else if decide (outcomeNext res = PaymentStatusRefunded) then
      [processedRecord p EventPaymentRefunded at_]
    else if decide (outcomeNext res = PaymentStatusChargeback) then
      [processedRecord p EventPaymentChargeback at_]
    else []
  else [].

Definition outcomeState (a : PaymentIntentAggregate) (p : PaymentIntent)
    (res : PaymentProviderResult) (url : string) (emit : bool) (at_ : Time) :
    PaymentIntentAggregate :=
  recordAll at_ (outcomeEvents p res url emit at_)
    (PaymentIntentAggregate.mk (PaymentIntentAggregate.root a)
       (Some (outcomeIntent p res at_))
       (PaymentIntentAggregate.processedEvents a ++ outcomeProcessed p res at_)).

Definition outcomeSpec (a : PaymentIntentAggregate) (p : PaymentIntent)
    (res : PaymentProviderResult) (url : string) (emit : bool) (at_ : Time) :
    result PaymentIntentMutation * PaymentIntentAggregate :=
  match ValidateProviderResultForStatus p (outcomeNext res)
          (PaymentProviderResult.Amount res) (PaymentProviderResult.Currency res) with
  | Ok _ => (Ok (outcomeMutation p res), outcomeState a p res url emit at_)
  | Err e => (Err e, a)
  | Panic w => (Panic w, a)
  end.

(** ** The transition *)

Implicit Types (a : PaymentIntentAggregate) (p q : PaymentIntent).

Lemma afterProvider_terms p next ref at_ :
  let q := afterProvider now p next ref at_ in
  PaymentIntent.TransactionID q = PaymentIntent.TransactionID p /\
  PaymentIntent.Provider q = PaymentIntent.Provider p /\
  PaymentIntent.ProviderAmount q = PaymentIntent.ProviderAmount p /\
  PaymentIntent.CreatedAt q = PaymentIntent.CreatedAt p /\
  PaymentIntent.Status q = PaymentTransition.CurrentStatus (providerTransition p next ref).
Proof.
  split_and!; try done. unfold afterProvider, providerTransition. cbn.
  case_decide; by simplify_decide.
Qed.

Lemma afterProvider_normal p next ref at_ :
  intent_normal p -> next ∈ ValidPaymentStatuses -> intent_normal (afterProvider now p next ref at_).
Proof.
  intros Hn Hv. unfold afterProvider. apply intent_normal_update; [done|..].
  - case_decide; [done|apply Hn].
  - case_decide; [apply Hn|apply TrimSpace_trimmed].
Qed.

Lemma afterProvider_unchanged p next ref at_ :
  transitionChanges (providerTransition p next ref) = false ->
  afterProvider now p next ref at_ = p.
Proof.
  unfold transitionChanges, providerTransition, afterProvider. cbn.
  rewrite orb_false_iff, !bool_decide_eq_false. intros [Hs Hr].
  destruct (decide (TrimSpace ref = "")) as [E|E];
    destruct p; cbn in *; simplify_decide; [done|].
  replace (TrimSpace ref) with ExternalRef by (symmetry; apply dec_stable; tauto).
  by simplify_decide.
Qed.

Lemma afterProvider_changed p next ref at_ :
  transitionChanges (providerTransition p next ref) = true -> at_ <> 0 ->
  PaymentIntent.UpdatedAt (afterProvider now p next ref at_) = at_.
Proof.
  unfold transitionChanges, providerTransition, afterProvider. cbn.
  rewrite orb_true_iff, !bool_decide_eq_true. intros Hc Ht.
  rewrite decide_False; [by apply normalizePaymentTime_id|].
  intros [E1 E2]. destruct Hc as [Hs|[Hr1 Hr2]].
  - rewrite decide_True in E1 by done. rewrite E1 in Hs. by apply payment_step_irrefl in Hs.
  - by rewrite decide_False in E2.
Qed.

Lemma afterProvider_ref p next ref at_ :
  TrimSpace ref = "" \/
  TrimSpace ref = PaymentIntent.ExternalRef (afterProvider now p next ref at_).
Proof. unfold afterProvider. cbn. case_decide; auto. Qed.

(** What a change leads to advances the intent. *)
Lemma afterProvider_advances p next ref at_ :
  intent_normal p -> next ∈ ValidPaymentStatuses -> at_ <> 0 ->
  transitionChanges (providerTransition p next ref) = true ->
  advances at_ p (afterProvider now p next ref at_).
Proof.
  intros Hn Hv Ht Hc. pose proof (afterProvider_normal p next ref at_ Hn Hv) as Hq.
  pose proof (afterProvider_changed p next ref at_ Hc Ht) as Hu.
  constructor; [|apply Hq| |apply Hq|done].
  - rewrite <- Hu at 2. reflexivity.
  - unfold afterProvider. cbn. by case_decide.
Qed.

Lemma normalizePaymentIntentSnapshot_wf a p :
  payment_wf a p -> normalizePaymentIntentSnapshot now p = p.
Proof.
  intros H. rewrite normalizePaymentIntentSnapshot_copy.
  rewrite (ensureWorkflowDefaults_id p) by apply H.
  change PaymentIntent.normalizePaymentTime with normalizePaymentTime.
  rewrite !normalizePaymentTime_id by apply H. by destruct p.
Qed.

Lemma transitionIntentState_run a p ref status at_ :
  payment_wf a p -> NormalizePaymentStatus status <> "" ->
  transitionIntentState now ref status at_ p =
    (Ok (providerTransition p (NormalizePaymentStatus status) ref),
     afterProvider now p (NormalizePaymentStatus status) ref at_).
Proof.
  intros H Hs. rewrite transitionIntentState_copy, transitionProviderState_run.
  rewrite decide_False by done.
  change PaymentIntent.normalizePaymentTime with normalizePaymentTime.
  rewrite !normalizePaymentTime_id by apply H.
  replace (PaymentIntent.set_Times _ _ p) with p by by destruct p.
  by rewrite (ensureWorkflowDefaults_id p) by apply H.
Qed.

Lemma outcomeNext_valid res : outcomeNext res ∈ ValidPaymentStatuses.
Proof. apply NormalizePaymentStatusOrPending_valid. Qed.

Lemma set_intent_same a p : intentOf a = Some p -> PaymentIntentAggregate.set_intent (Some p) a = a.
Proof. destruct a. cbn. by intros ->. Qed.

Lemma transitionProviderResult_run a p res at_ :
  payment_wf a p ->
  transitionProviderResult now res at_ a =
    match ValidateProviderResultForStatus p (outcomeNext res)
            (PaymentProviderResult.Amount res) (PaymentProviderResult.Currency res) with
    | Ok _ => (Ok (outcomeTransition p res),
               PaymentIntentAggregate.set_intent (Some (outcomeIntent p res at_)) a)
    | Err e => (Err e, a)
    | Panic w => (Panic w, a)
    end.
Proof.
  intros H. unfold transitionProviderResult, onIntent.
  rewrite (pwf_intent _ _ H). unfold mbind, method_bind, modify, get, lift.
  rewrite (normalizePaymentIntentSnapshot_wf a) by done. fold (outcomeNext res).
  rewrite validateProviderResultForStatus_copy.
  destruct (ValidateProviderResultForStatus _ _ _ _);
    [|by rewrite set_intent_same by apply H..].
  pose proof (outcomeNext_valid res) as Hv.
  pose proof (NormalizePaymentStatus_valid _ Hv) as Hs.
  rewrite (transitionIntentState_run a p); rewrite ?Hs; [done..|by apply valid_status_nonempty].
Qed.

Lemma outcome_reporting a p res at_ :
  payment_wf a p -> at_ <> 0 ->
  transitionChanges (outcomeTransition p res) = true ->
  reporting at_ (PaymentIntentAggregate.set_intent (Some (outcomeIntent p res at_)) a)
    (outcomeIntent p res at_) res.
Proof.
  intros H Ht Hc. pose proof (outcomeNext_valid res) as Hv.
  pose proof (afterProvider_normal p _ (PaymentProviderResult.ExternalRef res) at_
    (pwf_normal _ _ H) Hv) as Hn.
  constructor; [done|exact Hn| |apply afterProvider_ref| |].
  - cbn. rewrite (pwf_id _ _ H). apply H.
  - apply advances_self; [exact Hn| |done]. by apply afterProvider_changed.
  - apply H.
Qed.
End spec.

(** ** The code implements the specification *)

Section refine.
Context `{UC : UnicodeCase} (now : Time).
Implicit Types (a : PaymentIntentAggregate) (p q : PaymentIntent).

Lemma providerTransition_none p next ref :
  PaymentTransition.Ignored (providerTransition p next ref)
    || bool_decide (PaymentTransition.Type_ (providerTransition p next ref) = PaymentTransitionNone)
  = negb (PaymentTransition.StateChanged (providerTransition p next ref)).
Proof.
  unfold providerTransition. cbn. destruct (decide (payment_step (PaymentIntent.Status p) next)).
  - simplify_decide. rewrite bool_decide_false; [done|].
    unfold transitionTypeTo. by repeat case_decide.
  - simplify_decide. by rewrite orb_true_r.
Qed.

Lemma providerTransition_type p next ref :
  PaymentTransition.StateChanged (providerTransition p next ref) = true ->
  PaymentTransition.Type_ (providerTransition p next ref) = transitionTypeTo next.
Proof. unfold providerTransition. cbn. by intros ->. Qed.

Lemma providerTransition_failed p next ref :
  PaymentTransition.Type_ (providerTransition p next ref) = PaymentTransitionFailed <->
  PaymentTransition.StateChanged (providerTransition p next ref) = true /\
  next = PaymentStatusFailed.
Proof.
  unfold providerTransition. cbn. case_bool_decide; [|naive_solver].
  unfold transitionTypeTo. repeat case_decide; subst; naive_solver.
Qed.

Lemma outcome_status p res at_ :
  PaymentTransition.StateChanged (outcomeTransition p res) = true ->
  PaymentIntent.Status (outcomeIntent now p res at_) = outcomeNext res.
Proof.
  destruct (afterProvider_terms now p (outcomeNext res) (PaymentProviderResult.ExternalRef res) at_)
    as (_ & _ & _ & _ & Hs).
  unfold outcomeIntent. rewrite Hs. unfold outcomeTransition, providerTransition. cbn.
  by intros ->.
Qed.

Lemma newProcessedTransitionEvent_run a q name at_ :
  payment_wf a q -> at_ <> 0 -> name <> "" -> is_ascii (name +:+ ":") = true ->
  trimmed name -> trimmed (name +:+ ":") ->
  newProcessedTransitionEvent now name at_ a = (Ok (processedRecord q name at_), a).
Proof.
  intros H Ht Hne Ha Hn Hn'. unfold newProcessedTransitionEvent, mbind, method_bind, get, theIntent.
  rewrite (pwf_intent _ _ H). unfold lift.
  rewrite (transitionIdempotencyKey_run a q) by (apply H || done).
  pose proof (pwf_normal _ _ H) as Hq. unfold NewProcessedPaymentEvent, processedRecord.
  assert (Hp : TrimSpace (PaymentIntent.Provider q) = PaymentIntent.Provider q)
    by (rewrite <- (normal_provider q Hq); apply TrimSpace_LowerTrim).
  assert (Hx : TrimSpace (PaymentIntent.TransactionID q) = PaymentIntent.TransactionID q)
    by apply (normal_transactionID q Hq).
  assert (Hk : TrimSpace (name +:+ ":" +:+ PaymentIntent.TransactionID q)
               = name +:+ ":" +:+ PaymentIntent.TransactionID q).
  { rewrite <- string_app_assoc. apply trimmed_prefix; try done. by destruct name. }
  rewrite Hp, Hx, Hk. cbv zeta.
  rewrite decide_False by apply H. rewrite decide_False by by destruct name.
  rewrite decide_False by apply H.
  change (PaymentIntent.normalizePaymentTime now at_) with (normalizePaymentTime now at_).
  by rewrite normalizePaymentTime_id.
Qed.

(** The aggregate stays well formed when a provider reports. *)
Lemma payment_wf_outcome a p res at_ :
  payment_wf a p -> at_ <> 0 ->
  payment_wf (PaymentIntentAggregate.set_intent (Some (outcomeIntent now p res at_)) a)
    (outcomeIntent now p res at_).
Proof.
  intros H Ht. pose proof (outcomeNext_valid res) as Hv. constructor; try apply H; [done|..].
  - by apply afterProvider_normal; [apply H|].
  - destruct (transitionChanges (outcomeTransition p res)) eqn:Hc.
    + unfold outcomeIntent. by rewrite (afterProvider_changed now).
    + unfold outcomeIntent. rewrite (afterProvider_unchanged now) by done. apply H.
Qed.

Lemma bind_after {S A B} (m : method S A) (f : A -> method S B) s x s' :
  m s = (Ok x, s') -> (m ≫= f) s = f x s'.
Proof. intros H. unfold mbind, method_bind. by rewrite H. Qed.

(** An event that announces the new state, followed by the checkout event. *)
Lemma record_then_checkout (rec : method PaymentIntentAggregate unit) {A}
    (k : method PaymentIntentAggregate A) at_ a q res d url emit :
  reporting at_ a q res -> rec a = (Ok tt, recorded at_ a d) ->
  (rec ≫= fun _ => recordCheckoutSessionEvent now url emit at_ ≫= fun _ => k) a =
    k (recordAll at_ (d :: checkoutData q url emit at_) a).
Proof.
  intros H Hrec. rewrite (bind_after _ _ _ _ _ Hrec).
  rewrite (bind_after _ _ _ _ _ (recordCheckoutSessionEvent_run now at_ _ q res url emit
    (reporting_recorded _ _ _ _ d H))). reflexivity.
Qed.

(** The settling of an outcome: its idempotency record, its event and the
    checkout event. *)
Lemma settle_run (rec : PaymentProviderResult -> method PaymentIntentAggregate unit) name
    at_ a q res d url emit :
  payment_wf a q -> reporting at_ a q res -> at_ <> 0 ->
  name ∈ [EventPaymentSucceeded; EventPaymentRefunded; EventPaymentChargeback] ->
  (forall b, reporting at_ b q res ->
     rec (currentProviderResult b res) b = (Ok tt, recorded at_ b d)) ->
  (processedEvent ← newProcessedTransitionEvent now name at_;
   _ ← recordProcessedEvent processedEvent;
   b ← get;
   _ ← rec (currentProviderResult b res);
   _ ← recordCheckoutSessionEvent now url emit at_;
   mret persist) a =
  (Ok persist, recordAll at_ (d :: checkoutData q url emit at_)
     (PaymentIntentAggregate.add_processed (processedRecord q name at_) a)).
Proof.
  intros Hwf Hrep Ht Hname Hrec.
  assert (Hp : newProcessedTransitionEvent now name at_ a = (Ok (processedRecord q name at_), a))
    by (apply newProcessedTransitionEvent_run; string_cases; done).
  rewrite (bind_after _ _ _ _ _ Hp).
  set (b := PaymentIntentAggregate.add_processed (processedRecord q name at_) a).
  rewrite (bind_after _ _ _ tt b) by done. rewrite (bind_after _ _ _ b b) by done.
  pose proof (reporting_processed _ _ _ _ (processedRecord q name at_) Hrep) as Hb.
  by rewrite (record_then_checkout _ _ _ _ _ _ d _ _ Hb) by by apply Hrec.
Qed.

(** What the three branches of the outcome know of the transition. *)
Lemma outcome_cases a p res at_ :
  payment_wf a p -> at_ <> 0 ->
  let t := outcomeTransition p res in
  let b := PaymentIntentAggregate.set_intent (Some (outcomeIntent now p res at_)) a in
  PaymentTransition.Ignored t
    || bool_decide (PaymentTransition.Type_ t = PaymentTransitionNone)
  = negb (PaymentTransition.StateChanged t) /\
  (PaymentTransition.StateChanged t = true ->
     PaymentTransition.Type_ t = transitionTypeTo (outcomeNext res) /\
     PaymentIntent.Status (outcomeIntent now p res at_) = outcomeNext res /\
     reporting at_ b (outcomeIntent now p res at_) res) /\
  (PaymentTransition.ExternalRefChanged t = true ->
     reporting at_ b (outcomeIntent now p res at_) res) /\
  PaymentTransition.CurrentStatus t = PaymentIntent.Status (outcomeIntent now p res at_).
Proof.
  intros H Ht t b. pose proof (outcome_reporting now a p res at_ H Ht) as Hrep.
  unfold transitionChanges in Hrep. fold t in Hrep. split_and!.
  - apply providerTransition_none.
  - intros Hs. split_and!; [by apply providerTransition_type|by apply outcome_status|].
    apply Hrep. by rewrite Hs.
  - intros Hs. apply Hrep. by rewrite Hs, orb_true_r.
  - symmetry. apply afterProvider_terms.
Qed.

Lemma applySuccessfulOutcome_run a p res url emit at_ :
  payment_wf a p -> at_ <> 0 -> outcomeNext res = PaymentStatusSuccess ->
  applySuccessfulOutcome now res url emit at_ a = outcomeSpec now a p res url emit at_.
Proof.
  intros H Ht Hnext. unfold applySuccessfulOutcome, outcomeSpec, outcomeState, outcomeMutation,
    outcomeEvents, outcomeProcessed.
  pose proof (transitionProviderResult_run now a p res at_ H) as Hrun.
  destruct (ValidateProviderResultForStatus _ _ _ _);
    [|unfold mbind at 1, method_bind at 1; by rewrite Hrun..].
  rewrite (bind_after _ _ _ _ _ Hrun). clear Hrun. rewrite Hnext.
  rewrite !(decide_True (P := PaymentStatusSuccess = PaymentStatusSuccess)) by done.
  destruct (outcome_cases a p res at_ H Ht) as (E & Hs & Hr & Hst).
  rewrite E. destruct (PaymentTransition.StateChanged (outcomeTransition p res)) eqn:Hsc.
  - destruct (Hs eq_refl) as (Hty & Hq & Hrep). rewrite Hnext in Hty, Hq.
    cbn [negb]. rewrite Hty. rewrite decide_False by by vm_compute.
    apply (settle_run (fun r => recordPaymentSucceeded now r at_) EventPaymentSucceeded);
      [by apply payment_wf_outcome|exact Hrep|done|by left|].
    intros b Hb. by apply recordPaymentSucceeded_run.
  - cbn [negb]. rewrite (app_nil_r (PaymentIntentAggregate.processedEvents a)).
    destruct (PaymentTransition.ExternalRefChanged (outcomeTransition p res)) eqn:Her.
    + erewrite record_then_checkout; [reflexivity|by apply Hr|].
      by apply recordProviderStateChanged_run; [apply Hr|].
    + reflexivity.
Qed.

Lemma applyReversedOutcome_run a p res url emit at_ :
  payment_wf a p -> at_ <> 0 ->
  outcomeNext res ∈ [PaymentStatusRefunded; PaymentStatusChargeback] ->
  applyReversedOutcome now res url emit at_ a = outcomeSpec now a p res url emit at_.
Proof.
  intros H Ht Hnext. unfold applyReversedOutcome, outcomeSpec, outcomeState, outcomeMutation,
    outcomeEvents, outcomeProcessed.
  pose proof (transitionProviderResult_run now a p res at_ H) as Hrun.
  destruct (ValidateProviderResultForStatus _ _ _ _);
    [|unfold mbind at 1, method_bind at 1; by rewrite Hrun..].
  rewrite (bind_after _ _ _ _ _ Hrun). clear Hrun.
  rewrite (decide_True (P := outcomeNext res ∈ _)) by done.
  assert (outcomeNext res = PaymentStatusRefunded \/ outcomeNext res = PaymentStatusChargeback)
    as Hcase by set_solver. clear Hnext.
  destruct (outcome_cases a p res at_ H Ht) as (E & Hs & _ & _).
  pose proof (payment_wf_outcome a p res at_ H Ht) as Hwf.
  rewrite E. destruct (PaymentTransition.StateChanged (outcomeTransition p res)) eqn:Hsc.
  - destruct (Hs eq_refl) as (Hty & Hq & Hrep). cbn [negb].
    destruct Hcase as [Hn|Hn]; rewrite Hn in *; rewrite Hty; cbn -[recordAll settledData].
    + apply (settle_run (fun r => recordPaymentRefunded now r at_) EventPaymentRefunded);
        [done..|right; by left|]. intros b Hb. by apply recordPaymentRefunded_run.
    + apply (settle_run (fun r => recordPaymentChargeback now r at_) EventPaymentChargeback);
        [done..|right; right; by left|]. intros b Hb. by apply recordPaymentChargeback_run.
  - cbn [negb]. rewrite (app_nil_r (PaymentIntentAggregate.processedEvents a)).
    destruct Hcase as [Hn|Hn]; rewrite Hn; reflexivity.
Qed.

Lemma applyNonFinalOutcome_run a p res url emit at_ :
  payment_wf a p -> at_ <> 0 ->
  outcomeNext res ∉ [PaymentStatusSuccess; PaymentStatusRefunded; PaymentStatusChargeback] ->
  (outcomeNext res = PaymentStatusFailed ->
     NormalizePaymentStatus (PaymentProviderResult.Status res) = PaymentStatusFailed) ->
  applyNonFinalOutcome now res url emit at_ a = outcomeSpec now a p res url emit at_.
Proof.
  intros H Ht Hnext Hfail. unfold applyNonFinalOutcome, outcomeSpec, outcomeState, outcomeMutation,
    outcomeEvents, outcomeProcessed.
  pose proof (transitionProviderResult_run now a p res at_ H) as Hrun.
  destruct (ValidateProviderResultForStatus _ _ _ _);
    [|unfold mbind at 1, method_bind at 1; by rewrite Hrun..].
  rewrite (bind_after _ _ _ _ _ Hrun). clear Hrun.
  rewrite !not_elem_of_cons in Hnext. destruct Hnext as (Hn1 & Hn2 & Hn3 & _).
  rewrite !(decide_False (P := outcomeNext res = PaymentStatusSuccess)) by done.
  rewrite !(decide_False (P := outcomeNext res = PaymentStatusRefunded)) by done.
  rewrite !(decide_False (P := outcomeNext res = PaymentStatusChargeback)) by done.
  rewrite (decide_False (P := outcomeNext res ∈ _)) by set_solver.
  destruct (outcome_cases a p res at_ H Ht) as (_ & Hs & Hr & Hst).
  replace (if PaymentTransition.StateChanged _ then [] else []) with (@nil ProcessedPaymentEvent)
    by by destruct (PaymentTransition.StateChanged _).
  rewrite (app_nil_r (PaymentIntentAggregate.processedEvents a)).
  set (t := outcomeTransition p res) in *. unfold transitionChanges. rewrite negb_orb.
  destruct (PaymentTransition.Ignored t || _) eqn:Hig; [reflexivity|].
  set (b := PaymentIntentAggregate.set_intent _ a) in *.
  set (q := outcomeIntent now p res at_) in *.
  assert (Hrep : reporting at_ b q res).
  { apply orb_false_iff in Hig as [_ Hig]. apply andb_false_iff in Hig as [Hc|Hc];
      apply negb_false_iff in Hc; [by apply Hs|by apply Hr]. }
  rewrite (record_then_checkout _ _ _ _ _ _ (stateChangedData t q res at_) _ _ Hrep)
    by by apply recordProviderStateChanged_run.
  change (PaymentIntentAggregate.mk _ (Some q) _) with b.
  rewrite (app_comm_cons _ _ (stateChangedData t q res at_)), recordAll_app.
  pose proof (providerTransition_failed p (outcomeNext res) (PaymentProviderResult.ExternalRef res))
    as Hf. fold (outcomeTransition p res) in Hf. fold t in Hf.
  destruct (decide (PaymentTransition.Type_ t = PaymentTransitionFailed)) as [Hy|Hy].
  - apply Hf in Hy as [Hsc Hn]. rewrite decide_True by done.
    set (c := recordAll at_ (_ :: _) b).
    assert (Hc : reporting at_ c q res).
    { destruct Hrep. constructor; try done; unfold c;
        by rewrite ?intentOf_recordAll, ?aggregateID_recordAll. }
    unfold mbind, method_bind, get. cbv beta iota.
    rewrite (recordPaymentFailed_run now at_ c q res Hc); [reflexivity| |by apply Hfail].
    destruct (Hs Hsc) as (_ & Hq & _). by rewrite Hq.
  - rewrite decide_False by (rewrite <- Hf; done). reflexivity.
Qed.

(** [ApplyProviderOutcome] does what [outcomeSpec] says, for every result. *)
Lemma ApplyProviderOutcome_run a p res url emit at_ :
  payment_wf a p -> at_ <> 0 ->
  ApplyProviderOutcome now res url emit at_ a = outcomeSpec now a p res url emit at_.
Proof.
  intros H Ht. unfold ApplyProviderOutcome. rewrite (pwf_intent _ _ H).
  rewrite decide_False by done. unfold normalizePaymentIntentOccurredAt, IsZero.
  rewrite bool_decide_false by done. unfold mbind at 1, method_bind at 1, lift. cbv beta iota zeta.
  unfold UTC.
  assert (Hor : NormalizePaymentStatus (PaymentProviderResult.Status res) <> "" ->
    outcomeNext res = NormalizePaymentStatus (PaymentProviderResult.Status res))
    by apply NormalizePaymentStatusOrPending_some.
  assert (Hp : NormalizePaymentStatus (PaymentProviderResult.Status res) = "" ->
    outcomeNext res = PaymentStatusPending)
    by (unfold outcomeNext, NormalizePaymentStatusOrPending; intros ->; by rewrite decide_False by auto).
  set (s := NormalizePaymentStatus (PaymentProviderResult.Status res)) in *.
  destruct (decide (s = PaymentStatusSuccess)) as [E|E1].
  { apply applySuccessfulOutcome_run; [done..|]. rewrite Hor; by rewrite E. }
  case_decide as E2.
  { apply applyReversedOutcome_run; [done..|].
    rewrite Hor by (by destruct E2 as [->| ->]). rewrite !elem_of_cons. tauto. }
  apply applyNonFinalOutcome_run; [done..| |].
  - destruct (decide (s = "")) as [E|E]; [rewrite Hp by done|].
    + apply (bool_decide_unpack _). vm_compute. exact I.
    + rewrite Hor by done. rewrite !not_elem_of_cons. split_and!; try tauto.
      apply not_elem_of_nil.
  - intros Hf. destruct (decide (s = "")) as [E|E]; [by rewrite Hp in Hf|].
    rewrite Hor in Hf by done. exact Hf.
Qed.

Definition createFailedResult : PaymentProviderResult :=
  PaymentProviderResult.mk "" "" "" PaymentStatusFailed 0 "" "".

(** [MarkCreateFailed] fails a payment that is not settled, and nothing else. *)
Lemma MarkCreateFailed_run a p at_ :
  payment_wf a p -> at_ <> 0 ->
  let q := outcomeIntent now p createFailedResult at_ in
  MarkCreateFailed now at_ a =
    if decide (payment_step (PaymentIntent.Status p) PaymentStatusFailed)
    then (Ok persist, recordAll at_ [failedData q createFailedResult at_]
                        (PaymentIntentAggregate.set_intent (Some q) a))
    else (Ok duplicate, a).
Proof.
  intros H Ht q. unfold MarkCreateFailed. rewrite (pwf_intent _ _ H).
  rewrite decide_False by done. unfold normalizePaymentIntentOccurredAt, IsZero.
  rewrite bool_decide_false by done. unfold mbind at 1, method_bind at 1, lift. cbv beta iota zeta.
  unfold UTC.
  assert (Hnext : outcomeNext createFailedResult = PaymentStatusFailed) by (by vm_compute).
  set (b := PaymentIntentAggregate.set_intent (Some q) a).
  set (t := outcomeTransition p createFailedResult).
  assert (Hrun : transitionProviderState now "" PaymentStatusFailed at_ a = (Ok t, b)).
  { unfold transitionProviderState, onIntent. rewrite (pwf_intent _ _ H).
    by rewrite (transitionIntentState_run now a p) by (done || by vm_compute). }
  rewrite (bind_after _ _ _ _ _ Hrun).
  destruct (outcome_cases a p createFailedResult at_ H Ht) as (_ & Hs & _ & _).
  fold t q in Hs. fold b in Hs.
  assert (Hsc : PaymentTransition.StateChanged t =
    bool_decide (payment_step (PaymentIntent.Status p) PaymentStatusFailed))
    by (unfold t, outcomeTransition; by rewrite Hnext).
  destruct (decide (payment_step (PaymentIntent.Status p) PaymentStatusFailed)) as [Hst|Hst].
  - rewrite bool_decide_true in Hsc by done. destruct (Hs Hsc) as (_ & Hq & Hrep).
    assert (Hig : PaymentTransition.Ignored t = false).
    { unfold t, outcomeTransition, providerTransition. rewrite Hnext. cbn.
      rewrite bool_decide_false; [done|tauto]. }
    rewrite Hig, Hsc. cbn [orb negb].
    rewrite (bind_after _ _ _ b b) by done. rewrite (bind_after _ _ _ q b) by done.
    assert (Hu : PaymentIntent.UpdatedAt q = at_)
      by (apply afterProvider_changed; [|done]; unfold transitionChanges;
          change (PaymentTransition.StateChanged t || PaymentTransition.ExternalRefChanged t = true);
          by rewrite Hsc).
    rewrite Hu. rewrite (bind_after _ _ _ _ _ (recordPaymentFailed_run now at_ b q createFailedResult
      Hrep (eq_trans Hq Hnext) (eq_refl _))). reflexivity.
  - rewrite bool_decide_false in Hsc by done. rewrite Hsc. cbn [negb]. rewrite orb_true_r.
    unfold b, q, outcomeIntent. rewrite (afterProvider_unchanged now).
    + by rewrite set_intent_same by apply H.
    + unfold transitionChanges.
      change (PaymentTransition.StateChanged t || PaymentTransition.ExternalRefChanged t = false).
      by rewrite Hsc.
Qed.
End refine.
