(* ===== verification/PaymentAggregateTheorems.v ===== *)
(** * Correctness of the payment aggregate *)

From stdpp Require Import prelude strings gmap.
From S2P Require Import Prelude GoStrings Event LedgerEntity PaymentEvents PaymentIntent.
From S2P Require Import PaymentAggregate PaymentAggregateInv PaymentAggregateSpec.

(** ** Histories of operations *)

Inductive payment_op : Type :=
  | Outcome (res : PaymentProviderResult) (url : string) (emit : bool) (at_ : Time)
  | CreateFailed (at_ : Time)
  | Persisted.

(** The statuses that the events of a list announce to the rest of the
    system. *)
Definition settlementOf (d : PaymentEventData) : option string :=
  match d with
  | EvPaymentSucceeded _ => Some PaymentStatusSuccess
  | EvPaymentFailed _ => Some PaymentStatusFailed
  | EvPaymentRefunded _ => Some PaymentStatusRefunded
  | EvPaymentChargeback _ => Some PaymentStatusChargeback
  | _ => None
  end.

Definition settlements (ds : list PaymentEventData) : list string := omap settlementOf ds.

(** The statuses that are announced when the status moves to them. *)
Definition announced (s : string) : list string :=
  if decide (s ∈ [PaymentStatusSuccess; PaymentStatusFailed; PaymentStatusRefunded;
                  PaymentStatusChargeback]) then [s] else [].

Section history.
Context `{UC : UnicodeCase} (now : Time).
Implicit Types (a : PaymentIntentAggregate) (p q : PaymentIntent).

Definition run_op (op : payment_op) a : PaymentIntentAggregate :=
  match op with
  | Outcome res url emit at_ => (ApplyProviderOutcome now res url emit at_ a).2
  | CreateFailed at_ => (MarkCreateFailed now at_ a).2
  | Persisted => MarkPaymentPersisted a
  end.

(** The payloads of the events that an operation adds to those pending. *)
Definition emitted (op : payment_op) a : list PaymentEventData :=
  EventData <$> drop (length (PendingOutboxEvents a)) (PendingOutboxEvents (run_op op a)).

Fixpoint run_ops (ops : list payment_op) a : list PaymentEventData * PaymentIntentAggregate :=
  match ops with
  | [] => ([], a)
  | op :: ops =>
      let '(ds, a') := run_ops ops (run_op op a) in (emitted op a ++ ds, a')
  end.

(** ** One operation *)

(** The terms of a payment, which no operation changes. *)
Definition same_terms p q : Prop :=
  q = PaymentIntent.set_UpdatedAt (PaymentIntent.UpdatedAt q)
        (PaymentIntent.set_ExternalRef (PaymentIntent.ExternalRef q)
           (PaymentIntent.set_Status (PaymentIntent.Status q) p)).

Lemma same_terms_refl p : same_terms p p.
Proof. by destruct p. Qed.

Lemma same_terms_trans p q r : same_terms p q -> same_terms q r -> same_terms p r.
Proof. unfold same_terms. intros Hp Hq. rewrite Hp in Hq. destruct p, q, r; cbn in *. by simplify_eq. Qed.

Lemma same_terms_outcome p res at_ : same_terms p (outcomeIntent now p res at_).
Proof. reflexivity. Qed.

(** What an operation on the payment [p] may do: leave the status and announce
    nothing, or move along an edge of the machine and announce just that. *)
Definition op_effect p q (ds : list PaymentEventData) : Prop :=
  same_terms p q /\
  (PaymentIntent.Status q = PaymentIntent.Status p /\ settlements ds = [] \/
   payment_step (PaymentIntent.Status p) (PaymentIntent.Status q) /\
   settlements ds = announced (PaymentIntent.Status q)).

Lemma settlements_app ds es : settlements (ds ++ es) = settlements ds ++ settlements es.
Proof. apply omap_app. Qed.

Lemma settlements_checkout q url emit at_ : settlements (checkoutData q url emit at_) = [].
Proof. unfold checkoutData. by case_decide. Qed.

Lemma outcome_effect a p res url emit at_ :
  payment_wf a p -> at_ <> 0 ->
  op_effect p (outcomeIntent now p res at_) (outcomeEvents now p res url emit at_).
Proof.
  intros H Ht. split; [apply same_terms_outcome|].
  destruct (outcome_cases now a p res at_ H Ht) as (_ & Hs & _ & Hst).
  unfold outcomeEvents. set (q := outcomeIntent now p res at_) in *.
  pose proof (settlements_checkout q url emit at_) as Hc.
  set (t := outcomeTransition p res) in *.
  destruct (PaymentTransition.StateChanged t) eqn:Hsc.
  - right. destruct (Hs eq_refl) as (_ & Hq & _).
    assert (Hstep : payment_step (PaymentIntent.Status p) (outcomeNext res))
      by by apply bool_decide_eq_true in Hsc.
    rewrite Hq. split; [done|].
    assert (Hig : PaymentTransition.Ignored t = false)
      by (unfold t, outcomeTransition, providerTransition; cbn; apply bool_decide_false; tauto).
    unfold transitionChanges. rewrite Hig, Hsc. cbn [orb negb].
    pose proof (outcomeNext_valid res) as Hv. unfold ValidPaymentStatuses in Hv.
    assert (Hnc : outcomeNext res <> PaymentStatusCreating).
    { intros E. rewrite E in Hstep. apply payment_step_edges in Hstep. revert Hstep. clear.
      unfold payment_edges. rewrite !elem_of_cons, elem_of_nil. intros Hx.
      repeat destruct Hx as [Hx|Hx]; try discriminate Hx; done. }
    apply elem_of_cons in Hv as [Hv|Hv]; [done|].
    assert (Hcons : forall d ds, settlements (d :: ds) = option_list (settlementOf d) ++ settlements ds)
      by (intros d ds; unfold settlements; cbn; by destruct (settlementOf d)).
    repeat (apply elem_of_cons in Hv as [Hv|Hv];
      [rewrite Hv; string_decide; rewrite ?Hcons, ?settlements_app, ?Hc; by vm_compute|]).
    by apply not_elem_of_nil in Hv.
  - left. assert (Hq : PaymentIntent.Status q = PaymentIntent.Status p).
    { rewrite <- Hst. unfold t, outcomeTransition, providerTransition in *. cbn in *. by rewrite Hsc. }
    split; [done|].
    repeat case_decide; repeat case_match; rewrite ?app_nil_r; try done; unfold settlements; cbn;
      try exact Hc; naive_solver.
Qed.

Lemma payment_wf_recordAll at_ ds a q : payment_wf a q -> payment_wf (recordAll at_ ds a) q.
Proof.
  intros []. constructor; try done.
  - by rewrite intentOf_recordAll.
  - by rewrite aggregateID_recordAll.
Qed.

Lemma payment_wf_same_root a b p :
  payment_wf a p -> PaymentIntentAggregate.root b = PaymentIntentAggregate.root a ->
  intentOf b = intentOf a -> payment_wf b p.
Proof. intros [] Hr Hi. constructor; try done; by rewrite ?Hr, ?Hi. Qed.

(** The events pending after [recordAll], beyond those of [b]. *)
Lemma emitted_recordAll at_ ds a b :
  PaymentIntentAggregate.root a = PaymentIntentAggregate.root b ->
  EventData <$> drop (length (PendingOutboxEvents a)) (PendingOutboxEvents (recordAll at_ ds b)) = ds.
Proof.
  intros Hr. unfold PendingOutboxEvents, CloneEvents.
  destruct (events_recordAll at_ ds b) as (es & He & Hd & _).
  by rewrite He, Hr, drop_app_length.
Qed.

Lemma op_effect_none a p : payment_wf a p -> op_effect p p
  (EventData <$> drop (length (PendingOutboxEvents a)) (PendingOutboxEvents a)).
Proof. intros H. split; [apply same_terms_refl|]. left. by rewrite drop_all. Qed.

Lemma zero_time at_ (k : Time -> method PaymentIntentAggregate PaymentIntentMutation) a :
  at_ = 0 -> (lift (normalizePaymentIntentOccurredAt at_) ≫= k) a =
               (Err ErrPaymentIntentOccurredAtRequired, a).
Proof. by intros ->. Qed.

Lemma run_op_effect op a p :
  payment_wf a p -> exists q, payment_wf (run_op op a) q /\ op_effect p q (emitted op a).
Proof.
  intros H. destruct op as [res url emit at_|at_|]; unfold emitted, run_op.
  - destruct (decide (at_ = 0)) as [Hz|Ht].
    { exists p. unfold ApplyProviderOutcome. rewrite (pwf_intent _ _ H), decide_False by done.
      rewrite zero_time by done. split; [done|]. by apply op_effect_none. }
    rewrite (ApplyProviderOutcome_run now a p) by done. unfold outcomeSpec.
    destruct (ValidateProviderResultForStatus _ _ _ _); cbn [snd];
      [|exists p; split; [done|by apply op_effect_none]..].
    exists (outcomeIntent now p res at_). unfold outcomeState. split.
    + apply payment_wf_recordAll.
      by apply (payment_wf_same_root _ _ _ (payment_wf_outcome now a p res at_ H Ht)).
    + rewrite emitted_recordAll by done. by apply (outcome_effect a).
  - destruct (decide (at_ = 0)) as [Hz|Ht].
    { exists p. unfold MarkCreateFailed. rewrite (pwf_intent _ _ H), decide_False by done.
      rewrite zero_time by done. split; [done|]. by apply op_effect_none. }
    rewrite (MarkCreateFailed_run now a p) by done. case_decide as Hs; cbn [snd];
      [|exists p; split; [done|by apply op_effect_none]].
    exists (outcomeIntent now p createFailedResult at_). split.
    + apply payment_wf_recordAll. by apply payment_wf_outcome.
    + rewrite emitted_recordAll by done. split; [apply same_terms_outcome|]. right.
      rewrite outcome_status by (by apply bool_decide_eq_true). by split.
  - exists p. unfold MarkPaymentPersisted, PendingOutboxEvents, CloneEvents. split.
    + destruct H. constructor; try done. cbn. unfold MarkPersisted. by case_match.
    + split; [apply same_terms_refl|]. left. split; [done|]. cbn.
      unfold MarkPersisted. destruct (last _) eqn:Hl; cbn; [by rewrite drop_nil|].
      by rewrite drop_all.
Qed.

(** ** Histories *)

(** The announcements of a payment in a given status. *)
Definition settlement_traces (s : string) : list (list string) :=
  if decide (s ∈ [PaymentStatusCreating; PaymentStatusPending]) then
    [[]; [PaymentStatusSuccess]; [PaymentStatusFailed];
     [PaymentStatusSuccess; PaymentStatusRefunded];
     [PaymentStatusSuccess; PaymentStatusChargeback]]
  else if decide (s = PaymentStatusSuccess) then
    [[]; [PaymentStatusRefunded]; [PaymentStatusChargeback]]
  else [[]].

Lemma settlement_traces_nil s : [] ∈ settlement_traces s.
Proof. unfold settlement_traces. repeat case_decide; by left. Qed.

Lemma settlement_traces_step s t l :
  payment_step s t -> l ∈ settlement_traces t -> announced t ++ l ∈ settlement_traces s.
Proof.
  intros Hs%payment_step_edges Hl. unfold payment_edges in Hs.
  repeat (apply elem_of_cons in Hs as [[= -> ->]|Hs];
    [revert l Hl; apply Forall_forall; apply (bool_decide_unpack _); vm_compute; exact I|]).
  by apply not_elem_of_nil in Hs.
Qed.

Lemma run_ops_effect ops a p :
  payment_wf a p ->
  exists q, payment_wf (run_ops ops a).2 q /\ same_terms p q /\
    rtc payment_step (PaymentIntent.Status p) (PaymentIntent.Status q) /\
    settlements (run_ops ops a).1 ∈ settlement_traces (PaymentIntent.Status p).
Proof.
  revert a p. induction ops as [|op ops IH]; intros a p H; cbn.
  - exists p. split_and!; [done|apply same_terms_refl|done|apply settlement_traces_nil].
  - destruct (run_op_effect op a p H) as (q & Hq & Hterms & Heff).
    destruct (IH _ q Hq) as (r & Hr & Hterms' & Hrtc & Htr).
    destruct (run_ops ops (run_op op a)) as [ds a'] eqn:E. cbn in *.
    exists r. split_and!; [done|by eapply same_terms_trans| |].
    + destruct Heff as [[Hs _]|[Hs _]]; [by rewrite <- Hs|by eapply rtc_l].
    + rewrite settlements_app. destruct Heff as [[Hs ->]|[Hs ->]]; [by rewrite <- Hs|].
      by eapply settlement_traces_step.
Qed.

(** Whatever a provider reports, in any order and however often, and
    whatever is persisted in between, a payment that is not settled announces
    at most one settlement and after a success at most one reversal: the
    announcements of a history are none, a success, a failure, or a success
    followed by one refund or one chargeback. The status has moved along the
    edges of the machine, and the terms of the payment (parties, amounts,
    currency, keys) are those it was created with. *)
Theorem payment_settles_once ops a p :
  payment_wf a p ->
  PaymentIntent.Status p ∈ [PaymentStatusCreating; PaymentStatusPending] ->
  settlements (run_ops ops a).1 ∈
    [[]; [PaymentStatusSuccess]; [PaymentStatusFailed];
     [PaymentStatusSuccess; PaymentStatusRefunded];
     [PaymentStatusSuccess; PaymentStatusChargeback]] /\
  exists q, intentOf (run_ops ops a).2 = Some q /\ same_terms p q /\
    rtc payment_step (PaymentIntent.Status p) (PaymentIntent.Status q).
Proof.
  intros H Hs. destruct (run_ops_effect ops a p H) as (q & Hq & Ht & Hr & Hl).
  unfold settlement_traces in Hl. rewrite decide_True in Hl by done. split; [done|].
  exists q. split_and!; [apply Hq|done..].
Qed.
End history.

(** ** Refinement, replay and the content of events *)

Section replay.
Context `{UC : UnicodeCase} (now : Time).
Implicit Types (a b : PaymentIntentAggregate) (p q : PaymentIntent).
#[local] Instance payments : Aggregate PaymentIntentAggregate PaymentEventData :=
  paymentAggregate now.
#[local] Existing Instance paymentRootFree.

Fixpoint interpretAll (ds : list PaymentEventData) (i : option PaymentIntent) :
    option (option PaymentIntent) :=
  match ds with
  | [] => Some i
  | d :: ds =>
      match interpret now d with
      | Some f => interpretAll ds (f i)
      | None => None
      end
  end.

Lemma recordAll_set_intent at_ ds i a :
  recordAll at_ ds (PaymentIntentAggregate.set_intent i a) =
  PaymentIntentAggregate.set_intent i (recordAll at_ ds a).
Proof.
  revert a. induction ds as [|d ds IH]; intros a; [done|]. apply (IH (recorded at_ a d)).
Qed.

Lemma recordAll_processed at_ ds i l a :
  PaymentIntentAggregate.root (recordAll at_ ds
    (PaymentIntentAggregate.mk (PaymentIntentAggregate.root a) i l)) =
  PaymentIntentAggregate.root (recordAll at_ ds a).
Proof.
  revert a i l. induction ds as [|d ds IH]; intros a i l; [done|].
  apply (IH (recorded at_ a d) i l).
Qed.

(** Replaying recorded events over the aggregate that recorded them. *)
Lemma replay_recordAll at_ ds a i :
  interpretAll ds (intentOf a) = Some i ->
  exists es,
    events (PaymentIntentAggregate.root (recordAll at_ ds a)) =
      events (PaymentIntentAggregate.root a) ++ es /\
    LoadFromHistory es (updRoot MarkPersisted a) =
      (Ok tt, updRoot MarkPersisted (PaymentIntentAggregate.set_intent i (recordAll at_ ds a))).
Proof.
  revert a. induction ds as [|d ds IH]; intros a; cbn [interpretAll].
  - intros [= <-]. exists []. rewrite app_nil_r. split; [done|].
    by destruct a.
  - destruct (interpret now d) as [f|] eqn:Hf; [|done]. intros Hi.
    pose (a1 := recorded at_ (PaymentIntentAggregate.set_intent (f (intentOf a)) a) d).
    destruct (IH a1 Hi) as (es & He & Hload).
    set (evt := recordedEvent (PaymentIntentAggregate.root a) d at_).
    exists (evt :: es). split.
    + change (recordAll at_ (d :: ds) a) with (recordAll at_ ds (recorded at_ a d)).
      unfold a1 in He. change (recorded at_ (PaymentIntentAggregate.set_intent ?x a) d)
        with (PaymentIntentAggregate.set_intent x (recorded at_ a d)) in He.
      rewrite recordAll_set_intent in He. cbn in *. rewrite He. by rewrite <- app_assoc.
    + apply range_cons_Ok. exists (updRoot MarkPersisted a1). split.
      * rewrite (LoadEvent_MarkPersisted evt a); [|done|].
        -- cbn. unfold paymentTransition. cbn. by rewrite Hf.
        -- cbn. unfold paymentTransition. cbn. by rewrite Hf.
      * refine (eq_trans Hload _). do 2 f_equal. unfold a1.
        change (recorded at_ (PaymentIntentAggregate.set_intent ?x a) d)
          with (PaymentIntentAggregate.set_intent x (recorded at_ a d)).
        by rewrite recordAll_set_intent.
Qed.

Lemma interpretAll_records ds q :
  Forall (fun d => records now d q) ds -> interpretAll ds (Some q) = Some (Some q).
Proof.
  induction 1 as [|d ds (f & Hf & Hq & _) _ IH]; [done|]. cbn. by rewrite Hf, Hq.
Qed.

(** The events of an outcome: the first announces the new intent, the others
    confirm it. *)
Definition announcing at_ p q (ds : list PaymentEventData) : Prop :=
  exists d rest, ds = d :: rest /\ announces now at_ q d /\ advances at_ p q /\
    Forall (fun d => records now d q) rest.

Lemma outcomeEvents_shape a p res url emit at_ :
  payment_wf a p -> at_ <> 0 ->
  (outcomeEvents now p res url emit at_ = [] /\
   PaymentIntent.Status (outcomeIntent now p res at_) = PaymentIntent.Status p) \/
  announcing at_ p (outcomeIntent now p res at_) (outcomeEvents now p res url emit at_).
Proof.
  intros H Ht. destruct (outcome_cases now a p res at_ H Ht) as (_ & Hs & Hr & Hst).
  pose proof (afterProvider_advances now p _ (PaymentProviderResult.ExternalRef res) at_
    (pwf_normal _ _ H) (outcomeNext_valid res) Ht) as Hadv.
  fold (outcomeTransition p res) (outcomeIntent now p res at_) in Hadv.
  unfold outcomeEvents, transitionChanges in *. set (q := outcomeIntent now p res at_) in *.
  set (t := outcomeTransition p res) in *.
  assert (Hck : (exists r, reporting at_ r q res) ->
    Forall (fun d => records now d q) (checkoutData q url emit at_)).
  { intros [r Hrep]. apply Forall_forall. intros d Hd.
    eapply checkout_records; [exact Hd|apply Hrep]. }
  assert (Hchg : announcing at_ p q (stateChangedData t q res at_ :: checkoutData q url emit at_) \/
    PaymentTransition.StateChanged t = false /\ PaymentTransition.ExternalRefChanged t = false).
  { destruct (PaymentTransition.StateChanged t) eqn:Hsc, (PaymentTransition.ExternalRefChanged t) eqn:Her;
      auto; left; eexists _, _; (split; [done|]); (split; [by apply stateChanged_announces|]);
      (split; [by apply Hadv|]); apply Hck; eexists; first [by apply Hr | by apply Hs]. }
  destruct (PaymentTransition.StateChanged t) eqn:Hsc.
  - destruct (Hs eq_refl) as (_ & Hq & Hrep). specialize (Hadv eq_refl).
    specialize (Hck (ex_intro _ _ Hrep)). destruct Hchg as [Hchg|[? _]]; [|done].
    destruct (decide (outcomeNext res = PaymentStatusSuccess)) as [E|_].
    { right. eexists _, _. split; [done|]. split; [|done]. apply succeeded_announces. by rewrite Hq. }
    destruct (decide (outcomeNext res = PaymentStatusRefunded)) as [E|_].
    { right. eexists _, _. split; [done|]. split; [|done]. apply refunded_announces. by rewrite Hq. }
    destruct (decide (outcomeNext res = PaymentStatusChargeback)) as [E|_].
    { right. eexists _, _. split; [done|]. split; [|done]. apply chargeback_announces. by rewrite Hq. }
    assert (Hig : PaymentTransition.Ignored t = false).
    { unfold t, outcomeTransition, providerTransition in *. cbn in *.
      apply bool_decide_eq_true in Hsc. apply bool_decide_false. tauto. }
    rewrite Hig. cbn [orb negb]. right.
    destruct Hchg as (d & rest & Hd & Ha & Ha' & Hrest). injection Hd as <- <-.
    eexists _, _. split; [done|]. split; [done|]. split; [done|]. apply Forall_app. split; [done|].
    destruct (decide (true = true /\ outcomeNext res = PaymentStatusFailed)) as [[_ E]|_]; [|done].
    constructor; [|done]. apply (announces_records _ at_); [|apply Hrep].
    apply failed_announces. by rewrite Hq.
  - assert (Hsame : PaymentIntent.Status q = PaymentIntent.Status p).
    { rewrite <- Hst. unfold t, outcomeTransition, providerTransition in *. cbn in *.
      by rewrite Hsc. }
    repeat (destruct (decide (outcomeNext res = _)); try by left);
      [destruct (PaymentTransition.ExternalRefChanged t) eqn:Her; [|by left]|
       destruct (PaymentTransition.Ignored t || _) eqn:Hig; [by left|]];
      right; (destruct Hchg as [Hchg|[_ Hn]];
        [|by (rewrite Hn in *; rewrite ?orb_true_r in *)]).
    + exact Hchg.
    + rewrite decide_False by (intros [? _]; done). by rewrite app_nil_r.
Qed.

Lemma outcomeMutation_persist p res url emit at_ :
  PaymentIntentMutation.Persist (outcomeMutation p res) =
    bool_decide (outcomeEvents now p res url emit at_ <> []).
Proof.
  unfold outcomeMutation, outcomeEvents.
  destruct (decide (outcomeNext res = PaymentStatusSuccess)) as [E|E].
  { by repeat case_match. }
  destruct (decide (outcomeNext res = PaymentStatusRefunded)) as [E'|E'].
  { rewrite decide_True by (rewrite E'; by left). by repeat case_match. }
  destruct (decide (outcomeNext res = PaymentStatusChargeback)) as [E2|E2].
  { rewrite decide_True by (rewrite E2; right; by left). by repeat case_match. }
  rewrite decide_False by (rewrite !elem_of_cons, elem_of_nil; tauto).
  by destruct (PaymentTransition.Ignored _ || _).
Qed.

Lemma interpretAll_announcing at_ p q ds :
  announcing at_ p q ds -> interpretAll ds (Some p) = Some (Some q).
Proof.
  intros (d & rest & -> & (f & Hf & _ & Hp) & Ha & Hrest). cbn. rewrite Hf, (Hp p Ha).
  by apply interpretAll_records.
Qed.

Lemma outcomeSpec_Ok a p res url emit at_ m a' :
  outcomeSpec now a p res url emit at_ = (Ok m, a') ->
  ValidateProviderResultForStatus p (outcomeNext res) (PaymentProviderResult.Amount res)
    (PaymentProviderResult.Currency res) = Ok tt /\
  m = outcomeMutation p res /\ a' = outcomeState now a p res url emit at_.
Proof.
  unfold outcomeSpec. destruct (ValidateProviderResultForStatus _ _ _ _) as [[]|e|w]; [|done..].
  intros [Hm <-]%pair_equal_spec. by apply Ok_inj in Hm as <-.
Qed.

(** A successful outcome is the specified one. *)
Lemma ApplyProviderOutcome_Ok a p res url emit at_ m a' :
  payment_wf a p -> at_ <> 0 ->
  ApplyProviderOutcome now res url emit at_ a = (Ok m, a') ->
  acceptable_result p (outcomeNext res) res /\
  m = outcomeMutation p res /\ a' = outcomeState now a p res url emit at_.
Proof.
  intros H Ht. rewrite (ApplyProviderOutcome_run now a p) by done.
  intros (Hv & Hm & Ha)%outcomeSpec_Ok. split; [|done].
  by apply ValidateProviderResultForStatus_Ok; [apply outcomeNext_valid|].
Qed.

Lemma outcomeState_root a p res url emit at_ :
  PaymentIntentAggregate.root (outcomeState now a p res url emit at_) =
  PaymentIntentAggregate.root (recordAll at_ (outcomeEvents now p res url emit at_) a).
Proof. apply recordAll_processed. Qed.

Lemma outcomeState_intent a p res url emit at_ :
  intentOf (outcomeState now a p res url emit at_) = Some (outcomeIntent now p res at_).
Proof. unfold outcomeState. by rewrite intentOf_recordAll. Qed.

Lemma intentOf_updRoot f i a :
  intentOf (updRoot f (PaymentIntentAggregate.set_intent i a)) = i.
Proof. done. Qed.

Lemma root_updRoot f i a :
  PaymentIntentAggregate.root (updRoot f (PaymentIntentAggregate.set_intent i a)) =
  f (PaymentIntentAggregate.root a).
Proof. done. Qed.

(** The recorded events of an outcome are the outcome. When
    [ApplyProviderOutcome] asks for the payment to be persisted it has
    recorded events, and replaying just these over the payment as it was
    before rebuilds the intent it holds now, at the version of the last of
    them; when it does not, it has recorded nothing and the status is
    unchanged. *)
Theorem ApplyProviderOutcome_replay a p res url emit at_ m a' :
  payment_wf a p -> at_ <> 0 ->
  ApplyProviderOutcome now res url emit at_ a = (Ok m, a') ->
  exists es q,
    events (PaymentIntentAggregate.root a') = events (PaymentIntentAggregate.root a) ++ es /\
    intentOf a' = Some q /\
    (PaymentIntentMutation.Persist m = true <-> es <> []) /\
    (PaymentIntentMutation.Persist m = true ->
       exists b, LoadFromHistory es (updRoot MarkPersisted a) = (Ok tt, b) /\
         intentOf b = intentOf a' /\
         PaymentIntentAggregate.root b = MarkPersisted (PaymentIntentAggregate.root a')) /\
    (PaymentIntentMutation.Persist m = false ->
       PaymentIntent.Status q = PaymentIntent.Status p).
Proof.
  intros H Ht Hrun. apply (ApplyProviderOutcome_Ok a p) in Hrun as (_ & -> & ->); [|done..].
  pose proof (outcomeEvents_shape a p res url emit at_ H Ht) as Hshape.
  rewrite (outcomeMutation_persist p res url emit at_), outcomeState_root, outcomeState_intent.
  destruct Hshape as [[-> Hst]|Hshape].
  - exists [], (outcomeIntent now p res at_). rewrite app_nil_r. by split_and!.
  - pose proof (interpretAll_announcing _ _ _ _ Hshape) as Hi.
    rewrite <- (pwf_intent _ _ H) in Hi. destruct (replay_recordAll at_ _ _ _ Hi) as (es & He & Hload).
    exists es, (outcomeIntent now p res at_). split_and!; [done|done| | |].
    + destruct Hshape as (d & rest & E & _). rewrite bool_decide_true by by rewrite E.
      split; [|done]. intros _ ->. rewrite E in He.
      destruct (events_recordAll at_ (d :: rest) a) as (es & He' & Hd & _).
      rewrite He' in He. apply app_inv_head in He. by rewrite He in Hd.
    + intros _. eexists. split; [exact Hload|]. by rewrite intentOf_updRoot, root_updRoot.
    + destruct Hshape as (d & rest & E & _). by rewrite E.
Qed.

(** [ApplyProviderOutcome] implements [outcomeSpec] and keeps the payment
    well formed: it rejects a result whose amount or currency disagrees, moves
    the intent along the machine, records the specified events and idempotency
    record, and reports the specified mutation. *)
Theorem ApplyProviderOutcome_implements_spec a p res url emit at_ :
  payment_wf a p -> at_ <> 0 ->
  ApplyProviderOutcome now res url emit at_ a = outcomeSpec now a p res url emit at_ /\
  exists q, payment_wf (ApplyProviderOutcome now res url emit at_ a).2 q.
Proof.
  intros H Ht. split; [by apply ApplyProviderOutcome_run|].
  destruct (run_op_effect now (Outcome res url emit at_) a p H) as (q & Hq & _). by exists q.
Qed.

(** What the event of a settlement says of the payment [p]. *)
Definition settlement_terms p (name : string) (amount : Z) (x : PaymentSettledEvent) : Prop :=
  PaymentSettledEvent.TransactionID x = PaymentIntent.TransactionID p /\
  PaymentSettledEvent.Provider x = PaymentIntent.Provider p /\
  PaymentSettledEvent.ClearingAccountKey x = PaymentIntent.ClearingAccountKey p /\
  PaymentSettledEvent.DebitAccountID x = PaymentIntent.DebitAccountID p /\
  PaymentSettledEvent.CreditAccountID x = PaymentIntent.CreditAccountID p /\
  PaymentSettledEvent.Amount x = amount /\
  PaymentSettledEvent.FeeAmount x = PaymentIntent.FeeAmount p /\
  PaymentSettledEvent.Currency x = PaymentIntent.Currency p /\
  PaymentSettledEvent.IdempotencyKey x = name +:+ ":" +:+ PaymentIntent.TransactionID p.

Lemma settledData_terms p res at_ name amount :
  settlement_terms p name amount
    (settledData name amount (outcomeIntent now p res at_) res at_).
Proof. by split_and!. Qed.

(** The settlement events of an outcome. *)
Lemma settlement_outcome p res url emit at_ d :
  d ∈ outcomeEvents now p res url emit at_ ->
  let q := outcomeIntent now p res at_ in
  let settled next x d' :=
    PaymentTransition.StateChanged (outcomeTransition p res) = true /\
    outcomeNext res = next /\ x = d' in
  match d with
  | EvPaymentSucceeded x => settled PaymentStatusSuccess x
      (Some (settledData EventPaymentSucceeded (PaymentIntent.Amount p) q res at_))
  | EvPaymentRefunded x => settled PaymentStatusRefunded x
      (Some (settledData EventPaymentRefunded (reportedAmount p res) q res at_))
  | EvPaymentChargeback x => settled PaymentStatusChargeback x
      (Some (settledData EventPaymentChargeback (reportedAmount p res) q res at_))
  | _ => True
  end.
Proof.
  intros Hd q settled. unfold outcomeEvents in Hd. fold q in Hd. subst settled.
  assert (Hck : d ∈ checkoutData q url emit at_ -> exists x, d = EvCheckoutSessionCreated x).
  { clear Hd. unfold checkoutData. case_decide; intros Hc; [|by apply not_elem_of_nil in Hc].
    apply list_elem_of_singleton in Hc as ->. by eexists. }
  destruct (decide (outcomeNext res = PaymentStatusSuccess)) as [E|_];
    [|destruct (decide (outcomeNext res = PaymentStatusRefunded)) as [E|_];
      [|destruct (decide (outcomeNext res = PaymentStatusChargeback)) as [E|_]]].
  - destruct (PaymentTransition.StateChanged _) eqn:Hsc;
      [|destruct (PaymentTransition.ExternalRefChanged _); [|by apply not_elem_of_nil in Hd]];
      apply elem_of_cons in Hd as [->|Hd]; try done; by destruct (Hck Hd) as [x ->].
  - destruct (PaymentTransition.StateChanged _) eqn:Hsc; [|by apply not_elem_of_nil in Hd];
      apply elem_of_cons in Hd as [->|Hd]; try done; by destruct (Hck Hd) as [x ->].
  - destruct (PaymentTransition.StateChanged _) eqn:Hsc; [|by apply not_elem_of_nil in Hd];
      apply elem_of_cons in Hd as [->|Hd]; try done; by destruct (Hck Hd) as [x ->].
  - destruct (PaymentTransition.Ignored _ || _); [by apply not_elem_of_nil in Hd|].
    apply elem_of_cons in Hd as [->|Hd]; [done|].
    apply elem_of_app in Hd as [Hd|Hd]; [by destruct (Hck Hd) as [x ->]|].
    case_decide; [|by apply not_elem_of_nil in Hd].
    by apply list_elem_of_singleton in Hd as ->.
Qed.

(** A settlement event carries the terms the payment was created with. A
    success reports the payment's amount; a refund or a chargeback reports the
    amount of the provider's result, which is the whole charge when the
    provider names none and never more than the charge; and each is
    recorded together with the idempotency record of the same key. *)
Theorem settlement_event_terms a p res url emit at_ m a' d :
  payment_wf a p -> at_ <> 0 ->
  ApplyProviderOutcome now res url emit at_ a = (Ok m, a') ->
  d ∈ emitted now (Outcome res url emit at_) a ->
  match d with
  | EvPaymentSucceeded x => exists x', x = Some x' /\
      settlement_terms p EventPaymentSucceeded (PaymentIntent.Amount p) x' /\
      PendingProcessedEvents a' =
        PendingProcessedEvents a ++ [processedRecord p EventPaymentSucceeded at_]
  | EvPaymentRefunded x => exists x', x = Some x' /\
      settlement_terms p EventPaymentRefunded (reportedAmount p res) x' /\
      reportedAmount p res <= PaymentIntent.ProviderAmount p /\
      PendingProcessedEvents a' =
        PendingProcessedEvents a ++ [processedRecord p EventPaymentRefunded at_]
  | EvPaymentChargeback x => exists x', x = Some x' /\
      settlement_terms p EventPaymentChargeback (reportedAmount p res) x' /\
      reportedAmount p res <= PaymentIntent.ProviderAmount p /\
      PendingProcessedEvents a' =
        PendingProcessedEvents a ++ [processedRecord p EventPaymentChargeback at_]
  | _ => True
  end.
Proof.
  intros H Ht Hrun Hd. unfold emitted, run_op in Hd. rewrite Hrun in Hd. cbn [snd] in Hd.
  apply (ApplyProviderOutcome_Ok a p) in Hrun as ([Hamount _] & _ & ->); [|done..].
  unfold outcomeState, PendingProcessedEvents in *. rewrite emitted_recordAll in Hd by done.
  rewrite processed_recordAll. cbn [PaymentIntentAggregate.processedEvents].
  apply settlement_outcome in Hd as Hs. unfold outcomeProcessed.
  assert (Hle : reportedAmount p res <= PaymentIntent.ProviderAmount p).
  { unfold reportedAmount. case_decide; [done|]. destruct Hamount as [?|[Hx|[_ Hx]]]; lia. }
  destruct d; try done; destruct Hs as (Hsc & Hn & ->); rewrite Hsc, Hn; string_decide;
    (eexists; split; [reflexivity|]; split_and!; [apply settledData_terms|done..]).
Qed.
End replay.

(** ** Creation *)

Section creation.
Context `{UC : UnicodeCase} (now : Time).
Implicit Types (a b : PaymentIntentAggregate) (p q : PaymentIntent).
#[local] Instance payments' : Aggregate PaymentIntentAggregate PaymentEventData :=
  paymentAggregate now.

(** The aggregate before any event. *)
Definition emptyPayment : PaymentIntentAggregate :=
  PaymentIntentAggregate.mk (SetAggregateType AggregateTypePaymentIntent zeroRoot) None [].

Definition createdData p (metadata : gmap string string) (at_ : Time) : PaymentEventData :=
  EvPaymentCreated (Some (PaymentCreatedEvent.mk (PaymentIntent.Workflow p)
    (PaymentIntent.TransactionID p) (PaymentIntent.TransactionID p) (PaymentIntent.Provider p)
    (PaymentIntent.ClearingAccountKey p) (PaymentIntent.DebitAccountID p)
    (PaymentIntent.Amount p) (PaymentIntent.FeeAmount p) (PaymentIntent.ProviderAmount p)
    (PaymentIntent.Currency p) (PaymentIntent.CreditAccountID p) (PaymentIntent.Status p)
    metadata at_)).

Definition requestedData p (at_ : Time) : PaymentEventData :=
  EvWithdrawalRequested (Some (PaymentWithdrawalRequestedEvent.mk
    (PaymentIntent.TransactionID p) (PaymentIntent.TransactionID p) (PaymentIntent.Provider p)
    (PaymentIntent.ClearingAccountKey p) (PaymentIntent.DebitAccountID p)
    (PaymentIntent.DestinationAccountID p) (PaymentIntent.Amount p) (PaymentIntent.FeeAmount p)
    (PaymentIntent.ProviderAmount p) (PaymentIntent.Currency p) (PaymentIntent.Status p) at_)).

(** A payment just created at [at_]. *)
Definition created_at p (at_ : Time) : Prop :=
  fresh_intent p /\ PaymentIntent.CreatedAt p = at_ /\ at_ <> 0.

Lemma applyPaymentCreated_run p metadata at_ i :
  created_at p at_ -> default "" (PaymentIntent.ExternalRef <$> i) = "" ->
  exists f, interpret now (createdData p metadata at_) = Some f /\
    f i = Some (PaymentIntent.set_Accounts (default "" (PaymentIntent.DestinationAccountID <$> i))
                  (PaymentIntent.DebitAccountID p) p).
Proof.
  intros (Hf & Hc & Ht) Hr. eexists. split; [reflexivity|].
  pose proof (fresh_normal p Hf) as Hn. pose proof (ensureWorkflowDefaults_id p Hn) as He.
  pose proof (f_equal PaymentIntent.Workflow He) as Hw.
  cbn [createdData interpret applyPaymentCreated]. cbn.
  rewrite Hr, normalizePaymentTime_id by done.
  rewrite (normal_transactionID p Hn), (decide_False (P := PaymentIntent.TransactionID p = ""))
    by apply Hf.
  change (ToLower (TrimSpace ?x)) with (LowerTrim x). change (ToUpper (TrimSpace ?x)) with (UpperTrim x).
  rewrite (normal_provider p Hn), (normal_currency p Hn).
  change (effectivePaymentClearingAccountKey (PaymentIntent.Provider p) (PaymentIntent.ClearingAccountKey p))
    with (PaymentIntent.effectivePaymentClearingAccountKey (PaymentIntent.Provider p)
            (PaymentIntent.ClearingAccountKey p)).
  rewrite (normal_clearing p Hn), (normal_debit p Hn), (normal_credit p Hn).
  rewrite NormalizePaymentStatusOrPending_id by apply Hn.
  cbn in Hw. rewrite Hw.
  pose proof (fresh_externalRef p Hf) as Hx. pose proof (fresh_times p Hf) as Hu.
  destruct p; cbn in *. by subst.
Qed.

Lemma newPaymentIntentAggregate_run p :
  fresh_intent p ->
  newPaymentIntentAggregate p =
    Ok (PaymentIntentAggregate.mk
          (mkRoot (PaymentIntent.TransactionID p) AggregateTypePaymentIntent 0 0 []) (Some p) []).
Proof.
  intros Hf. unfold newPaymentIntentAggregate, InitAggregate, SetID, mbind, method_bind, modify.
  rewrite (decide_False (P := AggregateTypePaymentIntent = "")) by done.
  cbn. rewrite (normal_transactionID p (fresh_normal p Hf)).
  by rewrite (decide_False (P := PaymentIntent.TransactionID p = "")) by apply Hf.
Qed.

Lemma created_wf p at_ ds :
  created_at p at_ ->
  payment_wf (recordAll at_ ds (PaymentIntentAggregate.mk
    (mkRoot (PaymentIntent.TransactionID p) AggregateTypePaymentIntent 0 0 []) (Some p) [])) p.
Proof.
  intros (Hf & Hc & Ht). apply payment_wf_recordAll. destruct Hf. constructor; try done; congruence.
Qed.

Lemma recordPaymentCreated_run p metadata at_ a :
  created_at p at_ -> intentOf a = Some p ->
  aggregateID (PaymentIntentAggregate.root a) = PaymentIntent.TransactionID p ->
  recordPaymentCreated now metadata at_ a = (Ok tt, recorded at_ a (createdData p metadata at_)).
Proof.
  intros Hc Hi Hid. unfold recordPaymentCreated, mbind, method_bind, theIntent. rewrite Hi.
  pose proof Hc as (Hf & _). apply (applyChangeAt_run now _ _ _ p); [done|rewrite Hid; apply Hf|].
  destruct (applyPaymentCreated_run p metadata at_ (Some p) Hc) as (f & Hf' & Hp);
    [by apply fresh_externalRef|].
  exists f. split_and!; [done| |done]. rewrite Hp. by destruct p.
Qed.

Lemma recordWithdrawalRequested_run p at_ a :
  created_at p at_ -> intentOf a = Some p ->
  aggregateID (PaymentIntentAggregate.root a) = PaymentIntent.TransactionID p ->
  recordWithdrawalRequested now at_ a = (Ok tt, recorded at_ a (requestedData p at_)).
Proof.
  intros (Hf & Hc & Ht) Hi Hid. unfold recordWithdrawalRequested, mbind, method_bind, theIntent.
  rewrite Hi. apply (applyChangeAt_run now _ _ _ p); [done|rewrite Hid; apply Hf|].
  eexists. split_and!; [reflexivity| |done]. cbn.
  pose proof (fresh_normal p Hf) as Hn. rewrite (normal_destination p Hn), (normal_debit p Hn).
  rewrite normalizePaymentTime_id by done. pose proof (fresh_times p Hf) as Hu.
  destruct p; cbn in *. by subst.
Qed.

Lemma newPaymentIntent_created workflow transactionID provider amount fee providerAmount
    currency key destination debit credit at_ p :
  at_ <> 0 ->
  newPaymentIntent now workflow transactionID provider amount fee providerAmount currency key
    destination debit credit at_ = Ok p ->
  created_at p at_ /\ PaymentIntent.DestinationAccountID p = TrimSpace destination.
Proof.
  intros Ht Hp. pose proof (newPaymentIntent_fresh _ _ _ _ _ _ _ _ _ _ _ _ _ _ Hp) as Hf.
  unfold newPaymentIntent in Hp. cbv zeta in Hp. go_inv.
  split; [split; [exact Hf|]; split; [|done]|reflexivity].
  change (normalizePaymentTime now at_ = at_). by apply normalizePaymentTime_id.
Qed.

(** What a constructor promises: a well-formed payment in status CREATING that
    has recorded the given events, which rebuild it from nothing. *)
Definition starts_payment a p (ds : list PaymentEventData) : Prop :=
  payment_wf a p /\ fresh_intent p /\
  EventData <$> PendingOutboxEvents a = ds /\ PendingProcessedEvents a = [] /\
  baseVersion (PaymentIntentAggregate.root a) = 0 /\
  Forall (fun e => AggregateID e = PaymentIntent.TransactionID p /\
    EventName e = event_name (EventData e)) (PendingOutboxEvents a) /\
  exists b, LoadFromHistory (PendingOutboxEvents a) emptyPayment = (Ok tt, b) /\
    intentOf b = Some p /\
    PaymentIntentAggregate.root b = MarkPersisted (PaymentIntentAggregate.root a).

(** A top-up that is created has recorded one event, PaymentCreated with
    the terms of its intent, and that event alone rebuilds the intent. *)
Theorem NewProviderTopUpAggregate_starts transactionID provider amount fee currency credit
    metadata at_ a :
  NewProviderTopUpAggregate now transactionID provider amount fee currency credit metadata at_
    = Ok a ->
  exists p,
    NewProviderTopUpIntent now transactionID provider amount fee currency credit at_ = Ok p /\
    starts_payment a p [createdData p metadata at_].
Proof.
  unfold NewProviderTopUpAggregate, normalizePaymentIntentOccurredAt, IsZero.
  case_bool_decide as Ht; [done|]. unfold UTC. cbn [mbind result_bind]. intros H. go_step.
  rename H0 into Hp. apply newPaymentIntent_created in Hp as Hc; [|done].
  destruct Hc as [Hc Hd]. change (TrimSpace "") with "" in Hd. pose proof Hc as (Hf & _).
  rename a0 into p. rewrite newPaymentIntentAggregate_run in H by done. cbn [mbind result_bind] in H.
  unfold built in H. rewrite (recordPaymentCreated_run p) in H by done.
  apply Ok_inj in H as <-. exists p. split; [done|]. split_and!; try done.
  - by apply (created_wf p at_ [createdData p metadata at_]).
  - by repeat constructor.
  - destruct (applyPaymentCreated_run p metadata at_ None Hc eq_refl) as (f & Hf' & Hp').
    eexists. cbn. unfold LoadEvent, mbind, method_bind. cbn. unfold paymentTransition. cbn.
    split_and!; [reflexivity| |reflexivity]. cbn in Hf'. injection Hf' as <-.
    cbn. cbn in Hp'. rewrite Hp', <- Hd. by destruct p.
Qed.

Lemma requested_after_created p metadata at_ :
  created_at p at_ ->
  match interpret now (createdData p metadata at_), interpret now (requestedData p at_) with
  | Some f, Some g => g (f None) = Some p
  | _, _ => False
  end.
Proof.
  intros Hc. destruct (applyPaymentCreated_run p metadata at_ None Hc eq_refl) as (f & -> & Hp).
  destruct Hc as (Hf & Hca & Ht). cbn [requestedData interpret]. rewrite Hp. cbn.
  rewrite normalizePaymentTime_id by done. pose proof (fresh_normal p Hf) as Hn.
  rewrite (normal_destination p Hn), (normal_debit p Hn).
  pose proof (fresh_times p Hf) as Hu. destruct p; cbn in *. by subst.
Qed.

(** A withdrawal that is created has recorded two events, PaymentCreated
    and WithdrawalRequested with the destination, and these two rebuild its
    intent. *)
Theorem NewProviderWithdrawalAggregate_starts transactionID provider amount fee currency
    destination debit metadata at_ a :
  NewProviderWithdrawalAggregate now transactionID provider amount fee currency destination debit
    metadata at_ = Ok a ->
  exists p,
    NewProviderWithdrawalIntent now transactionID provider amount fee currency destination debit at_
      = Ok p /\
    starts_payment a p [createdData p metadata at_; requestedData p at_].
Proof.
  unfold NewProviderWithdrawalAggregate, normalizePaymentIntentOccurredAt, IsZero.
  case_bool_decide as Ht; [done|]. unfold UTC. cbn [mbind result_bind]. intros H. go_step.
  rename H0 into Hp. apply newPaymentIntent_created in Hp as Hc; [|done].
  destruct Hc as [Hc Hd]. pose proof Hc as (Hf & Hca & _).
  rename a0 into p. rewrite newPaymentIntentAggregate_run in H by done. cbn [mbind result_bind] in H.
  unfold built in H.
  set (a0 := PaymentIntentAggregate.mk _ _ _) in H.
  rewrite (bind_after _ _ _ _ _ (recordPaymentCreated_run p metadata at_ a0 Hc eq_refl eq_refl)) in H.
  rewrite (recordWithdrawalRequested_run p) in H by done.
  apply Ok_inj in H as <-. exists p. split; [done|]. split_and!; try done.
  - by apply (created_wf p at_ [createdData p metadata at_; requestedData p at_]).
  - by repeat constructor.
  - pose proof (requested_after_created p metadata at_ Hc) as Hi.
    eexists. cbn. unfold LoadEvent, mbind, method_bind. cbn. unfold paymentTransition. cbn.
    split_and!; [reflexivity|exact Hi|reflexivity].
Qed.

(** Restoring fills in the times that are missing. *)
Definition timed (p : PaymentIntent) : PaymentIntent :=
  PaymentIntent.set_Times (normalizePaymentTime now (PaymentIntent.CreatedAt p))
    (normalizePaymentTime now (PaymentIntent.UpdatedAt p)) p.

Lemma normalizePaymentTime_idem t :
  normalizePaymentTime now (normalizePaymentTime now t) = normalizePaymentTime now t.
Proof. unfold normalizePaymentTime, IsZero, UTC. repeat case_bool_decide; congruence. Qed.

(** The aggregate's copy of the state machine is the entity's: on every
    intent, normal or not, it accepts the same results, reports the same
    transition and leaves the same intent as [TransitionProviderResult] of the
    entity on the intent with its times filled in. *)
Theorem aggregate_copy_agrees_with_entity a p res at_ :
  intentOf a = Some p ->
  transitionProviderResult now res at_ a =
    let '(r, p') := TransitionProviderResult now res at_ (timed p) in
    (r, PaymentIntentAggregate.set_intent (Some p') a).
Proof.
  intros Hi. unfold transitionProviderResult, TransitionProviderResult, onIntent. rewrite Hi.
  unfold mbind, method_bind, modify, get, lift.
  replace (normalizePaymentIntentSnapshot now p) with (ensureWorkflowDefaults (timed p))
    by reflexivity.
  rewrite validateProviderResultForStatus_copy.
  destruct (ValidateProviderResultForStatus _ _ _ _); [|done..].
  rewrite transitionIntentState_copy.
  replace (PaymentIntent.set_Times _ _ (ensureWorkflowDefaults (timed p)))
    with (ensureWorkflowDefaults (timed p)).
  - by destruct (PaymentIntent.transitionProviderState _ _ _ _ _).
  - cbn. change PaymentIntent.normalizePaymentTime with normalizePaymentTime.
    by rewrite !normalizePaymentTime_idem.
Qed.
End creation.

(** ** Witnesses: a top-up of 100 with a fee of 5 *)

Module Sample.
#[local] Existing Instance caseless_unicode.

Definition intent : PaymentIntent :=
  PaymentIntent.mk PaymentWorkflowTopUp "tx-1" "stripe" "" "" 100 5 105 "USD" "provider:stripe"
    "" "acc-1" PaymentStatusPending 3 4.

Definition agg : PaymentIntentAggregate :=
  PaymentIntentAggregate.mk (mkRoot "tx-1" AggregateTypePaymentIntent 2 2 []) (Some intent) [].

Definition paid : PaymentProviderResult :=
  PaymentProviderResult.mk "tx-1" "evt-1" "checkout.completed" "success" 105 "usd" "pi-1".

Definition refunded : PaymentProviderResult :=
  PaymentProviderResult.mk "tx-1" "evt-2" "charge.refunded" "REFUNDED" 0 "" "".

Lemma wf : payment_wf agg intent.
Proof.
  constructor; try (by vm_compute).
  constructor; try (by vm_compute); apply (bool_decide_unpack _); by vm_compute.
Qed.

(** The same payment after its success. *)
Definition settled_agg : PaymentIntentAggregate := (ApplyProviderOutcome 9 paid "" false 7 agg).2.
Definition settled_intent : PaymentIntent :=
  PaymentIntent.mk PaymentWorkflowTopUp "tx-1" "stripe" "pi-1" "" 100 5 105 "USD" "provider:stripe"
    "" "acc-1" PaymentStatusSuccess 3 7.

Lemma settled_wf : payment_wf settled_agg settled_intent.
Proof.
  constructor; try (by vm_compute).
  constructor; try (by vm_compute); apply (bool_decide_unpack _); by vm_compute.
Qed.
End Sample.

Lemma payment_settles_once_witness :
  exists (UC : UnicodeCase) now ops a p,
    payment_wf a p /\
    settlements (run_ops now ops a).1 = [PaymentStatusSuccess; PaymentStatusRefunded] /\
    settlements (run_ops now ops a).1 ∈
      [[]; [PaymentStatusSuccess]; [PaymentStatusFailed];
       [PaymentStatusSuccess; PaymentStatusRefunded];
       [PaymentStatusSuccess; PaymentStatusChargeback]].
Proof.
  pose (ops := [Outcome Sample.paid "" false 7; Outcome Sample.paid "" false 8; Persisted;
     CreateFailed 9; Outcome Sample.refunded "" false 10; Outcome Sample.refunded "" false 11]).
  exists caseless_unicode, 9, ops, Sample.agg, Sample.intent.
  assert (Hs : PaymentIntent.Status Sample.intent ∈ [PaymentStatusCreating; PaymentStatusPending])
    by (right; left).
  destruct (payment_settles_once (UC := caseless_unicode) 9 ops _ _ Sample.wf Hs) as [Ht _].
  split; [exact Sample.wf|]. split; [vm_compute; reflexivity|exact Ht].
Defined.

Lemma ApplyProviderOutcome_replay_witness :
  exists (UC : UnicodeCase) now a p res m a',
    payment_wf a p /\ ApplyProviderOutcome now res "" false 7 a = (Ok m, a') /\
    PaymentIntentMutation.Persist m = true /\
    exists es q, events (PaymentIntentAggregate.root a') = es /\ intentOf a' = Some q /\ es <> [].
Proof.
  exists caseless_unicode, 9, Sample.agg, Sample.intent, Sample.paid, persist, Sample.settled_agg.
  assert (Hrun : ApplyProviderOutcome (UC := caseless_unicode) 9 Sample.paid "" false 7 Sample.agg
                 = (Ok persist, Sample.settled_agg)) by (vm_compute; reflexivity).
  split; [exact Sample.wf|]. split; [exact Hrun|]. split; [reflexivity|].
  assert (H7 : (7 : Z) <> 0) by discriminate.
  destruct (ApplyProviderOutcome_replay (UC := caseless_unicode) 9 Sample.agg Sample.intent
              Sample.paid "" false 7 persist Sample.settled_agg Sample.wf H7 Hrun) as (es & q & He & Hq & Hp & _).
  exists es, q. split; [exact He|]. split; [exact Hq|]. apply Hp. reflexivity.
Defined.

Lemma ApplyProviderOutcome_implements_spec_witness :
  exists (UC : UnicodeCase) now a p res,
    payment_wf a p /\
    ApplyProviderOutcome now res "" false 7 a = outcomeSpec now a p res "" false 7.
Proof.
  exists caseless_unicode, 9, Sample.agg, Sample.intent, Sample.paid. split; [exact Sample.wf|].
  apply (ApplyProviderOutcome_implements_spec (UC := caseless_unicode) 9 _ _ Sample.paid "" false 7
           Sample.wf). discriminate.
Defined.

Lemma settlement_event_terms_witness :
  exists (UC : UnicodeCase) now a p res d x,
    payment_wf a p /\ d ∈ emitted now (Outcome res "" false 8) a /\ d = EvPaymentRefunded x /\
    exists x', x = Some x' /\ PaymentSettledEvent.Amount x' = 105.
Proof.
  exists caseless_unicode, 9, Sample.settled_agg, Sample.settled_intent, Sample.refunded.
  pose (x := Some (settledData EventPaymentRefunded 105
    (outcomeIntent (UC := caseless_unicode) 9 Sample.settled_intent Sample.refunded 8)
    Sample.refunded 8)).
  exists (EvPaymentRefunded x), x.
  assert (Hd : EvPaymentRefunded x ∈
    emitted (UC := caseless_unicode) 9 (Outcome Sample.refunded "" false 8) Sample.settled_agg).
  { replace (emitted _ _ _) with [EvPaymentRefunded x] by (vm_compute; reflexivity). by left. }
  split; [exact Sample.settled_wf|]. split; [exact Hd|]. split; [reflexivity|].
  pose (a' := (ApplyProviderOutcome (UC := caseless_unicode) 9 Sample.refunded "" false 8
                 Sample.settled_agg).2).
  assert (Hrun : ApplyProviderOutcome (UC := caseless_unicode) 9 Sample.refunded "" false 8
    Sample.settled_agg = (Ok persist, a')) by (vm_compute; reflexivity).
  assert (H8 : (8 : Z) <> 0) by discriminate.
  destruct (settlement_event_terms (UC := caseless_unicode) 9 Sample.settled_agg
              Sample.settled_intent Sample.refunded "" false 8 persist a'
              (EvPaymentRefunded x) Sample.settled_wf H8 Hrun Hd) as (x' & Hx & (_ & _ & _ & _ & _ & Ha & _) & _).
  exists x'. split; [exact Hx|exact Ha].
Defined.

Lemma NewProviderTopUpAggregate_starts_witness :
  exists (UC : UnicodeCase) now a p,
    NewProviderTopUpAggregate now "tx-1" "Stripe" 100 5 "usd" "acc-1" ∅ 3 = Ok a /\
    intentOf a = Some p /\ PendingOutboxEvents a <> [].
Proof.
  exists caseless_unicode, 9. eexists.
  assert (H : NewProviderTopUpAggregate (UC := caseless_unicode) 9 "tx-1" "Stripe" 100 5 "usd" "acc-1"
              ∅ 3 = Ok _) by (vm_compute; reflexivity).
  destruct (NewProviderTopUpAggregate_starts (UC := caseless_unicode) _ _ _ _ _ _ _ _ _ _ H)
    as (p & _ & Hwf & _).
  exists p. split; [exact H|]. split; [apply Hwf|discriminate].
Defined.

Lemma NewProviderWithdrawalAggregate_starts_witness :
  exists (UC : UnicodeCase) now a p,
    NewProviderWithdrawalAggregate now "tx-1" "Stripe" 100 5 "usd" "bank-1" "acc-1" ∅ 3 = Ok a /\
    intentOf a = Some p /\ length (PendingOutboxEvents a) = 2%nat.
Proof.
  exists caseless_unicode, 9. eexists.
  assert (H : NewProviderWithdrawalAggregate (UC := caseless_unicode) 9 "tx-1" "Stripe" 100 5 "usd"
              "bank-1" "acc-1" ∅ 3 = Ok _) by (vm_compute; reflexivity).
  destruct (NewProviderWithdrawalAggregate_starts (UC := caseless_unicode) _ _ _ _ _ _ _ _ _ _ _ H)
    as (p & _ & Hwf & _).
  exists p. split; [exact H|]. split; [apply Hwf|reflexivity].
Defined.

Lemma aggregate_copy_agrees_with_entity_witness :
  exists (UC : UnicodeCase) now a p,
    intentOf a = Some p /\
    (transitionProviderResult now Sample.paid 7 a).1 =
    (TransitionProviderResult now Sample.paid 7 (timed now p)).1.
Proof.
  exists caseless_unicode, 9, Sample.agg, Sample.intent. split; [reflexivity|].
  rewrite (aggregate_copy_agrees_with_entity (UC := caseless_unicode) 9 Sample.agg Sample.intent
             Sample.paid 7 eq_refl).
  destruct (TransitionProviderResult (UC := caseless_unicode) _ _ _ _). reflexivity.
Defined.
