(* ===== verification/PaymentLedger.v ===== *)
(** * Payment events in the ledger (ledger/application/service/payment_event_service.go)

    The ledger's consumer of payment events: each event becomes the ledger
    events of balanced pairs of postings (the principal, and the fee when the
    service has a fee account), which are recorded in one transaction. [now]
    stands for [time.Now()], which replaces a zero booking time. *)

From stdpp Require Import prelude strings gmap.
From S2P Require Import Prelude GoStrings Event LedgerEntity LedgerAccount LedgerRepo LedgerService.
From S2P Require Import PaymentEvents PaymentIntent.

(** [utils.FirstNonEmpty]. *)
Fixpoint FirstNonEmpty (values : list string) : string :=
  match values with
  | [] => ""
  | value :: rest =>
      let value := TrimSpace value in
      if decide (value <> "") then value else FirstNonEmpty rest
  end.

Definition resolvePaymentEventID (paymentID transactionID : string) : string :=
  FirstNonEmpty [TrimSpace paymentID; TrimSpace transactionID].

Definition reversalSuffix (reversalType : string) : string :=
  let name := TrimSpace reversalType in
  if decide (name = EventPaymentRefunded) then "refunded"
  else if decide (name = EventPaymentChargeback) then "chargeback"
  else "reversed".

Definition debitLedgerEventNameForReversal (paymentEventName : string) : string :=
  let name := TrimSpace paymentEventName in
  if decide (name = EventPaymentRefunded) then kindName WithdrawFromRefund
  else if decide (name = EventPaymentChargeback) then kindName WithdrawFromChargeback
  else "".

Definition creditLedgerEventNameForReversal (paymentEventName : string) : string :=
  let name := TrimSpace paymentEventName in
  if decide (name = EventPaymentRefunded) then kindName DepositFromRefund
  else if decide (name = EventPaymentChargeback) then kindName DepositFromChargeback
  else "".

(** The ids of the ledger transactions of a withdrawal. *)
Definition withdrawalTransactionID (paymentID part : string) : string :=
  "payment:" +:+ paymentID +:+ ":withdrawal:" +:+ part.

Record paymentEventService := mkPaymentEventService { feeAccountID : string }.

Definition NewPaymentEventService (feeAccountID : string) : paymentEventService :=
  mkPaymentEventService (TrimSpace feeAccountID).

Module PaymentLedger.
Section events.
Context `{UC : UnicodeCase}.

Definition ledgerClearingAccountID (clearingAccountKey : string) : string :=
  "ledger:clearing:" +:+ ToLower (TrimSpace clearingAccountKey).

Definition providerClearingAccountKey (provider : string) : string :=
  let provider := ToLower (TrimSpace provider) in
  if decide (provider = "") then "" else "provider:" +:+ provider.

(** An invalid posting panics. *)
Definition newPaymentPosting (accountID transactionID referenceType referenceID
    counterpartyAccountID currency : string) (amountDelta : Z) (bookedAt : Time) :
    result LedgerAccountPosting :=
  match NewLedgerAccountPaymentPosting (LedgerAccountPostingInput.mk accountID transactionID
          referenceType referenceID counterpartyAccountID currency amountDelta bookedAt) with
  | Ok posting => Ok posting
  | Err _ => Panic "panic(err)"
  | Panic w => Panic w
  end.

Fixpoint paymentLedgerEventsFromPostings (inputs : list expectedLedgerPosting) :
    result LedgerEvents :=
  match inputs with
  | [] => Ok []
  | (accountID, posting) :: rest =>
      evt ← NewLedgerAccountEventFromPosting accountID posting;
      match evt with
      | None => Err (Errorf "unsupported ledger posting reference_type=%s" [])
      | Some evt => evts ← paymentLedgerEventsFromPostings rest; Ok (evt :: evts)
      end
  end.

(** The pair of postings that every step of a withdrawal makes: [amount] on
    [accountID] with the sign of the step, the opposite on [otherID]. *)
Definition withdrawalPair (transactionID paymentID accountID accountType : string)
    (delta : Z) (otherID otherType : string) (otherDelta : Z) (currency : string)
    (bookedAt : Time) : result LedgerEvents :=
  posting ← newPaymentPosting accountID transactionID accountType paymentID otherID currency
              delta bookedAt;
  other ← newPaymentPosting otherID transactionID otherType paymentID accountID currency
            otherDelta bookedAt;
  paymentLedgerEventsFromPostings [(accountID, posting); (otherID, other)].

Definition paymentLedgerEventsFromBooking (now : Time) (transactionID paymentID currency : string)
    (amount : Z) (debitAccountID creditAccountID debitEventName creditEventName : string)
    (bookedAt : Time) : result LedgerEvents :=
  let bookedAt := if IsZero bookedAt then UTC now else bookedAt in
  debitPosting ← NewLedgerAccountPaymentPosting (LedgerAccountPostingInput.mk debitAccountID
    transactionID debitEventName paymentID creditAccountID currency (neg64 amount) bookedAt);
  creditPosting ← NewLedgerAccountPaymentPosting (LedgerAccountPostingInput.mk creditAccountID
    transactionID creditEventName paymentID debitAccountID currency amount bookedAt);
  debitEvent ← NewLedgerAccountEventFromPosting debitAccountID debitPosting;
  match debitEvent with
  | None => Err (Errorf "unsupported debit ledger event reference_type=%s" [])
  | Some debitEvent =>
      creditEvent ← NewLedgerAccountEventFromPosting creditAccountID creditPosting;
      match creditEvent with
      | None => Err (Errorf "unsupported credit ledger event reference_type=%s" [])
      | Some creditEvent => Ok [debitEvent; creditEvent]
      end
  end.

Definition paymentWithdrawalRequestedLedgerEvents (s : paymentEventService)
    (payload : PaymentWithdrawalRequestedEvent) : result LedgerEvents :=
  let clearingAccountID := ledgerClearingAccountID (FirstNonEmpty
    [TrimSpace (PaymentWithdrawalRequestedEvent.ClearingAccountKey payload);
     providerClearingAccountKey (PaymentWithdrawalRequestedEvent.Provider payload)]) in
  let paymentID := resolvePaymentEventID (PaymentWithdrawalRequestedEvent.PaymentID payload)
                     (PaymentWithdrawalRequestedEvent.TransactionID payload) in
  let debitAccountID := TrimSpace (PaymentWithdrawalRequestedEvent.DebitAccountID payload) in
  let currency := PaymentWithdrawalRequestedEvent.Currency payload in
  let amount := PaymentWithdrawalRequestedEvent.Amount payload in
  let fee := PaymentWithdrawalRequestedEvent.FeeAmount payload in
  let at_ := PaymentWithdrawalRequestedEvent.RequestedAt payload in
  principalEvents ← withdrawalPair (withdrawalTransactionID paymentID "principal") paymentID
    debitAccountID (kindName ReserveWithdrawal) (neg64 amount)
    clearingAccountID (kindName ReceiveWithdrawalHold) amount currency at_;
  if decide (0 < fee /\ feeAccountID s <> "") then
    feeEvents ← withdrawalPair (withdrawalTransactionID paymentID "fee") paymentID
      debitAccountID (kindName ReserveWithdrawal) (neg64 fee)
      (feeAccountID s) (kindName ReceiveWithdrawalHold) fee currency at_;
    Ok (principalEvents ++ feeEvents)
  else Ok principalEvents.

Definition paymentSucceededLedgerEvents (now : Time) (s : paymentEventService)
    (payload : PaymentSettledEvent) : result LedgerEvents :=
  if decide (NormalizePaymentWorkflow (PaymentSettledEvent.Workflow payload) =
             PaymentWorkflowWithdrawal) then Ok []
  else
  booking ← NewPaymentSucceededBooking (PaymentSucceededBookingInput.mk
    (resolvePaymentEventID (PaymentSettledEvent.PaymentID payload)
       (PaymentSettledEvent.TransactionID payload))
    (PaymentSettledEvent.TransactionID payload) (PaymentSettledEvent.ClearingAccountKey payload)
    (PaymentSettledEvent.CreditAccountID payload) (PaymentSettledEvent.Currency payload)
    (PaymentSettledEvent.Amount payload));
  events ← paymentLedgerEventsFromBooking now (PaymentSucceededBooking_LedgerTransactionID booking)
    (PaymentSucceededBooking.PaymentID booking) (PaymentSucceededBooking.Currency booking)
    (PaymentSucceededBooking.Amount booking) (PaymentSucceededBooking.DebitAccountID booking)
    (PaymentSucceededBooking.CreditAccountID booking) (kindName WithdrawFromIntent)
    (kindName DepositFromIntent) (PaymentSettledEvent.OccurredAt payload);
  if decide (0 < PaymentSettledEvent.FeeAmount payload /\ feeAccountID s <> "") then
    feeEvents ← paymentLedgerEventsFromBooking now
      (paymentTransactionID (PaymentSucceededBooking.PaymentID booking) "succeeded:fee")
      (PaymentSucceededBooking.PaymentID booking) (PaymentSucceededBooking.Currency booking)
      (PaymentSettledEvent.FeeAmount payload)
      (ledgerClearingAccountID (PaymentSettledEvent.ClearingAccountKey payload)) (feeAccountID s)
      (kindName WithdrawFromIntent) (kindName DepositFromIntent)
      (PaymentSettledEvent.OccurredAt payload);
    Ok (events ++ feeEvents)
  else Ok events.

Definition paymentFailedLedgerEvents (s : paymentEventService) (payload : PaymentFailedEvent) :
    result LedgerEvents :=
  if decide (NormalizePaymentWorkflow (PaymentFailedEvent.Workflow payload) <>
             PaymentWorkflowWithdrawal) then Ok []
  else
  let paymentID := resolvePaymentEventID (PaymentFailedEvent.PaymentID payload)
                     (PaymentFailedEvent.TransactionID payload) in
  let debitAccountID := TrimSpace (PaymentFailedEvent.DebitAccountID payload) in
  let clearingAccountID :=
    ledgerClearingAccountID (PaymentFailedEvent.ClearingAccountKey payload) in
  let currency := PaymentFailedEvent.Currency payload in
  let amount := PaymentFailedEvent.Amount payload in
  let fee := PaymentFailedEvent.FeeAmount payload in
  let at_ := PaymentFailedEvent.OccurredAt payload in
  principalEvents ← withdrawalPair (withdrawalTransactionID paymentID "principal:failed") paymentID
    debitAccountID (kindName ReleaseWithdrawal) amount
    clearingAccountID (kindName WithdrawReleasedHold) (neg64 amount) currency at_;
  if decide (0 < fee /\ feeAccountID s <> "") then
    feeEvents ← withdrawalPair (withdrawalTransactionID paymentID "fee:failed") paymentID
      debitAccountID (kindName ReleaseWithdrawal) fee
      (feeAccountID s) (kindName WithdrawReleasedHold) (neg64 fee) currency at_;
    Ok (principalEvents ++ feeEvents)
  else Ok principalEvents.

Definition paymentReversedLedgerEvents (now : Time) (s : paymentEventService)
    (paymentID transactionID clearingAccountKey creditAccountID currency : string)
    (amount feeAmount : Z) (reversalType : string) (bookedAt : Time) : result LedgerEvents :=
  booking ← NewPaymentReversalBooking (PaymentReversalBookingInput.mk paymentID transactionID
    clearingAccountKey creditAccountID currency amount reversalType);
  events ← paymentLedgerEventsFromBooking now (PaymentReversalBooking_LedgerTransactionID booking)
    (PaymentReversalBooking.PaymentID booking) (PaymentReversalBooking.Currency booking)
    (PaymentReversalBooking.Amount booking) (PaymentReversalBooking.DebitAccountID booking)
    (PaymentReversalBooking.CreditAccountID booking)
    (debitLedgerEventNameForReversal (PaymentReversalBooking.ReversalType booking))
    (creditLedgerEventNameForReversal (PaymentReversalBooking.ReversalType booking)) bookedAt;
  if decide (0 < feeAmount /\ feeAccountID s <> "") then
    feeEvents ← paymentLedgerEventsFromBooking now
      (paymentTransactionID (PaymentReversalBooking.PaymentID booking)
         (reversalSuffix reversalType +:+ ":fee"))
      (PaymentReversalBooking.PaymentID booking) (PaymentReversalBooking.Currency booking)
      feeAmount (feeAccountID s) (ledgerClearingAccountID clearingAccountKey)
      (debitLedgerEventNameForReversal reversalType)
      (creditLedgerEventNameForReversal reversalType) bookedAt;
    Ok (events ++ feeEvents)
  else Ok events.
End events.

(** ** The handlers *)

Section handlers.
Context `{UC : UnicodeCase} {DB : Type} `{Repo : LedgerRepo DB}.

Definition HandleWithdrawalRequested (s : paymentEventService)
    (payload : PaymentWithdrawalRequestedEvent) : method DB unit :=
  events ← lift (paymentWithdrawalRequestedLedgerEvents s payload);
  LedgerService.RecordLedgerEvents events.

Definition HandleSucceeded (now : Time) (s : paymentEventService)
    (payload : PaymentSettledEvent) : method DB unit :=
  events ← lift (paymentSucceededLedgerEvents now s payload);
  if decide (length events = 0%nat) then mret tt else LedgerService.RecordLedgerEvents events.

Definition HandleFailed (s : paymentEventService) (payload : PaymentFailedEvent) :
    method DB unit :=
  events ← lift (paymentFailedLedgerEvents s payload);
  if decide (length events = 0%nat) then mret tt else LedgerService.RecordLedgerEvents events.

Definition handleReversed (now : Time) (s : paymentEventService) (payload : PaymentSettledEvent)
    (reversalType : string) : method DB unit :=
  events ← lift (paymentReversedLedgerEvents now s
    (resolvePaymentEventID (PaymentSettledEvent.PaymentID payload)
       (PaymentSettledEvent.TransactionID payload))
    (PaymentSettledEvent.TransactionID payload) (PaymentSettledEvent.ClearingAccountKey payload)
    (PaymentSettledEvent.CreditAccountID payload) (PaymentSettledEvent.Currency payload)
    (PaymentSettledEvent.Amount payload) (PaymentSettledEvent.FeeAmount payload) reversalType
    (PaymentSettledEvent.OccurredAt payload));
  LedgerService.RecordLedgerEvents events.

Definition HandleRefunded (now : Time) (s : paymentEventService) (payload : PaymentSettledEvent) :
    method DB unit := handleReversed now s payload EventPaymentRefunded.

Definition HandleChargeback (now : Time) (s : paymentEventService)
    (payload : PaymentSettledEvent) : method DB unit :=
  handleReversed now s payload EventPaymentChargeback.
End handlers.
End PaymentLedger.
