(* ===== verification/PaymentLedgerSpec.v ===== *)
(** * What the ledger does with payment events

    Each handler's events stand for balanced pairs of postings, so that
    recording them moves the principal between two accounts and the fee
    between two accounts, or changes nothing. *)

From stdpp Require Import prelude strings gmap.
From S2P Require Import Prelude GoStrings Event LedgerEntity LedgerAccount LedgerAccountInv LedgerAccountSpec.
From S2P Require Import LedgerRepo LedgerService LedgerServiceInv LedgerServiceSpec LedgerServiceTheorems.
From S2P Require Import PaymentEvents PaymentIntent PaymentLedger.
Import PaymentLedger.

(** ** The copies are the entity's functions *)

Section copies.
Context `{UC : UnicodeCase}.

Lemma ledgerClearingAccountID_copy key :
  PaymentLedger.ledgerClearingAccountID key = LedgerEntity.ledgerClearingAccountID key.
Proof. reflexivity. Qed.

Lemma eventNames_copy name :
  debitLedgerEventNameForReversal name = debitLedgerEventNameForPaymentReversal name /\
  creditLedgerEventNameForReversal name = creditLedgerEventNameForPaymentReversal name.
Proof. split; reflexivity. Qed.

Lemma eventsFromPostings_copy inputs :
  paymentLedgerEventsFromPostings inputs = LedgerService.ledgerPaymentEventsFromPostings inputs.
Proof.
  induction inputs as [|[id p] rest IH]; [done|]. cbn.
  destruct (NewLedgerAccountEventFromPosting id p) as [[e|]|e|w]; [|done..]. cbn. by rewrite IH.
Qed.
End copies.

(** ** Pairs of postings *)

Section pairs.
Context `{UC : UnicodeCase}.

(** A movement of [amount] from one account to another. *)
Definition movement (tid pid from fromType to_ toType cur : string) (amount : Z) (at_ : Time) :
    list expectedLedgerPosting :=
  [(TrimSpace from, bookingLeg tid pid fromType to_ cur (- amount) at_);
   (TrimSpace to_, bookingLeg tid pid toType from cur amount at_)].

Lemma newPaymentPosting_Ok acc tid ty pid cp cur delta at_ p :
  newPaymentPosting acc tid ty pid cp cur delta at_ = Ok p ->
  NewLedgerAccountPaymentPosting (LedgerAccountPostingInput.mk acc tid ty pid cp cur delta at_) = Ok p.
Proof. unfold newPaymentPosting. by destruct (NewLedgerAccountPaymentPosting _). Qed.

Lemma withdrawalPair_Ok tid pid acc k delta other k' delta' cur at_ evts :
  withdrawalPair tid pid acc (kindName k) delta other (kindName k') delta' cur at_ = Ok evts ->
  in64 delta -> in64 delta' -> 0 <= kindDirection k * delta -> 0 <= kindDirection k' * delta' ->
  Forall2 event_posting evts
    [(TrimSpace acc, bookingLeg tid pid (kindName k) other cur delta at_);
     (TrimSpace other, bookingLeg tid pid (kindName k') acc cur delta' at_)].
Proof.
  unfold withdrawalPair. intros H Hd Hd' Hk Hk'.
  apply result_bind_Ok in H as (p & H1 & H). apply result_bind_Ok in H as (p' & H2 & H).
  apply newPaymentPosting_Ok in H1, H2. cbn [paymentLedgerEventsFromPostings] in H.
  apply result_bind_Ok in H as ([e|] & H3 & H); [|done].
  apply result_bind_Ok in H as (rest & H4 & H). apply result_bind_Ok in H4 as ([e'|] & H4 & H5); [|done].
  cbn in H5. injection H5 as <-. injection H as <-.
  destruct (paymentEvent_posting _ _ _ _ _ _ _ _ _ _ H1 H3) as (<- & He1 & _); [done..|].
  destruct (paymentEvent_posting _ _ _ _ _ _ _ _ _ _ H2 H4) as (<- & He2 & _); [done..|].
  constructor; [done|]. constructor; [done|]. constructor.
Qed.

Lemma bookingPair_Ok now tid pid cur amt debit credit kd kc at_ evts :
  paymentLedgerEventsFromBooking now tid pid cur amt debit credit (kindName kd) (kindName kc) at_
    = Ok evts ->
  kindDirection kd = -1 -> kindDirection kc = 1 -> 0 < amt <= int64_max ->
  exists at', Forall2 event_posting evts
    (movement tid pid debit (kindName kd) credit (kindName kc) cur amt at').
Proof.
  unfold paymentLedgerEventsFromBooking, movement. intros H Hd Hc Ha. rewrite neg64_small in H by lia.
  set (at' := if IsZero at_ then UTC now else at_) in *. exists at'. cbv zeta in H.
  apply result_bind_Ok in H as (p & H1 & H). apply result_bind_Ok in H as (p' & H2 & H).
  apply result_bind_Ok in H as ([e|] & H3 & H); [|done].
  apply result_bind_Ok in H as ([e'|] & H4 & H); [|done]. injection H as <-.
  destruct (paymentEvent_posting _ _ _ _ _ _ _ _ _ _ H1 H3) as (<- & He1 & _);
    [unfold in64, int64_min, int64_max in *; lia|lia|].
  destruct (paymentEvent_posting _ _ _ _ _ _ _ _ _ _ H2 H4) as (<- & He2 & _);
    [unfold in64, int64_min, int64_max in *; lia|lia|].
  constructor; [done|]. constructor; [done|]. constructor.
Qed.

(** The events [evts] stand for [n] postings that together add [delta]. *)
Definition evts_move (n : nat) (evts : LedgerEvents) (delta : string -> string -> Z) : Prop :=
  exists ips, Forall2 event_posting evts ips /\ length ips = n /\
    forall id c, batchDelta ips id c = delta id c.

Lemma evts_move_nil : evts_move 0 [] (fun _ _ => 0).
Proof. by exists []. Qed.

Lemma evts_move_app n m evts evts' delta delta' :
  evts_move n evts delta -> evts_move m evts' delta' ->
  evts_move (n + m) (evts ++ evts') (fun id c => delta id c + delta' id c).
Proof.
  intros (ips & Hf & <- & Hd) (ips' & Hf' & <- & Hd'). exists (ips ++ ips').
  split; [by apply Forall2_app|]. split; [by rewrite length_app|]. intros id c.
  by rewrite batchDelta_app, Hd, Hd'.
Qed.

Lemma evts_move_ext n evts delta delta' :
  evts_move n evts delta -> (forall id c, delta id c = delta' id c) -> evts_move n evts delta'.
Proof. intros (ips & Hf & Hn & Hd) He. exists ips. split; [done|]. split; [done|]. intros. by rewrite Hd. Qed.

Lemma evts_move_length n evts delta : evts_move n evts delta -> length evts = n.
Proof. intros (ips & Hf & <- & _). by apply Forall2_length in Hf. Qed.

(** Reserving: the amount leaves the account and reaches the other. *)
Lemma reserve_moves tid pid acc k other k' amt cur at_ evts :
  withdrawalPair tid pid acc (kindName k) (neg64 amt) other (kindName k') amt cur at_ = Ok evts ->
  kindDirection k = -1 -> kindDirection k' = 1 -> 0 < amt <= int64_max ->
  evts_move 2 evts (bookingDelta (TrimSpace acc) (TrimSpace other) (UpperTrim cur) amt).
Proof.
  intros H Hk Hk' Ha. assert (in64 (- amt) /\ in64 amt) as [? ?]
    by (unfold in64, int64_min, int64_max in *; lia).
  rewrite neg64_small in H by lia. apply withdrawalPair_Ok in H; [|done || lia..].
  eexists. split; [exact H|]. split; [done|]. intros. apply batchDelta_booking.
Qed.

(** Releasing: the amount comes back from the other account. *)
Lemma release_moves tid pid acc k other k' amt cur at_ evts :
  withdrawalPair tid pid acc (kindName k) amt other (kindName k') (neg64 amt) cur at_ = Ok evts ->
  kindDirection k = 1 -> kindDirection k' = -1 -> 0 < amt <= int64_max ->
  evts_move 2 evts (bookingDelta (TrimSpace other) (TrimSpace acc) (UpperTrim cur) amt).
Proof.
  intros H Hk Hk' Ha. assert (in64 (- amt) /\ in64 amt) as [? ?]
    by (unfold in64, int64_min, int64_max in *; lia).
  rewrite neg64_small in H by lia. apply withdrawalPair_Ok in H; [|done || lia..].
  eexists. split; [exact H|]. split; [done|]. intros id c.
  etrans; [|by eapply (batchDelta_booking (TrimSpace other) (TrimSpace acc))].
  cbn [batchDelta]. rewrite !Z.add_0_r. apply Z.add_comm.
Qed.

Lemma booking_moves now tid pid cur amt debit credit kd kc at_ evts :
  paymentLedgerEventsFromBooking now tid pid cur amt debit credit (kindName kd) (kindName kc) at_
    = Ok evts ->
  kindDirection kd = -1 -> kindDirection kc = 1 -> 0 < amt <= int64_max ->
  evts_move 2 evts (bookingDelta (TrimSpace debit) (TrimSpace credit) (UpperTrim cur) amt).
Proof.
  intros H Hd Hc Ha. destruct (bookingPair_Ok _ _ _ _ _ _ _ _ _ _ _ H Hd Hc Ha) as [at' Hf].
  eexists. split; [exact Hf|]. split; [done|]. intros. apply batchDelta_booking.
Qed.

(** The fee part of an event: moved only for a positive fee of a service that
    has a fee account. *)
Definition feeDelta (s : paymentEventService) (fee : Z) (from to_ cur : string) (id c : string) : Z :=
  if decide (0 < fee /\ feeAccountID s <> "") then bookingDelta from to_ cur fee id c else 0.


(** The optional fee events after those of the principal. *)
Lemma with_fee_moves s fee from to_ cur (fees : result LedgerEvents) evts delta evts' :
  evts_move 2 evts delta ->
  (0 < fee -> forall fe, fees = Ok fe -> evts_move 2 fe (bookingDelta from to_ cur fee)) ->
  (if decide (0 < fee /\ feeAccountID s <> "") then fe ← fees; Ok (evts ++ fe) else Ok evts)
    = Ok evts' ->
  exists n, (n <= 4)%nat /\
    evts_move n evts' (fun id c => delta id c + feeDelta s fee from to_ cur id c).
Proof.
  intros Hp Hf H. unfold feeDelta. case_decide as Hfee.
  - apply result_bind_Ok in H as (fe & H1 & H). injection H as <-.
    exists 4%nat. split; [done|]. apply (evts_move_app 2 2); [done|]. apply Hf; [apply Hfee|done].
  - injection H as <-. exists 2%nat. split; [lia|]. eapply evts_move_ext; [done|]. intros. lia.
Qed.
End pairs.

(** ** The postings of each event *)

Section postings.
Context `{UC : UnicodeCase} (s : paymentEventService).

Definition withdrawalClearing (payload : PaymentWithdrawalRequestedEvent) : string :=
  LedgerEntity.ledgerClearingAccountID (FirstNonEmpty
    [TrimSpace (PaymentWithdrawalRequestedEvent.ClearingAccountKey payload);
     PaymentLedger.providerClearingAccountKey (PaymentWithdrawalRequestedEvent.Provider payload)]).

(** What a requested withdrawal moves: the principal from the account to the
    clearing account, the fee from the account to the fee account. *)
Definition withdrawalDelta (account clearing currency : string) (amount fee : Z) (id c : string) : Z :=
  bookingDelta account clearing currency amount id c +
  feeDelta s fee account (TrimSpace (feeAccountID s)) currency id c.

(** What a failed withdrawal moves back. *)
Definition releaseDelta (account clearing currency : string) (amount fee : Z) (id c : string) : Z :=
  bookingDelta clearing account currency amount id c +
  feeDelta s fee (TrimSpace (feeAccountID s)) account currency id c.

(** What a settled top-up moves: the amount and the fee out of the clearing
    account, to the payee and to the fee account. *)
Definition topUpDelta (clearing payee currency : string) (amount fee : Z) (id c : string) : Z :=
  bookingDelta clearing payee currency amount id c +
  feeDelta s fee clearing (TrimSpace (feeAccountID s)) currency id c.

(** What its reversal moves back. *)
Definition reversalDelta (clearing payee currency : string) (amount fee : Z) (id c : string) : Z :=
  bookingDelta payee clearing currency amount id c +
  feeDelta s fee (TrimSpace (feeAccountID s)) clearing currency id c.

Lemma withdrawalRequested_moves payload evts :
  0 < PaymentWithdrawalRequestedEvent.Amount payload <= int64_max ->
  PaymentWithdrawalRequestedEvent.FeeAmount payload <= int64_max ->
  paymentWithdrawalRequestedLedgerEvents s payload = Ok evts ->
  exists n, (n <= 4)%nat /\ evts_move n evts (withdrawalDelta
    (TrimSpace (PaymentWithdrawalRequestedEvent.DebitAccountID payload))
    (withdrawalClearing payload) (UpperTrim (PaymentWithdrawalRequestedEvent.Currency payload))
    (PaymentWithdrawalRequestedEvent.Amount payload)
    (PaymentWithdrawalRequestedEvent.FeeAmount payload)).
Proof.
  intros Ha Hf H. unfold paymentWithdrawalRequestedLedgerEvents in H. cbv zeta in H.
  apply result_bind_Ok in H as (e1 & H1 & H). apply reserve_moves in H1; [|done..].
  rewrite TrimSpace_idem, (ledgerClearingAccountID_trimmed _) in H1.
  eapply with_fee_moves; [exact H1| |exact H]. intros Hpos fe Hfe.
  apply reserve_moves in Hfe; [|done..]. by rewrite TrimSpace_idem in Hfe.
Qed.

Lemma withdrawalFailed_moves payload evts :
  NormalizePaymentWorkflow (PaymentFailedEvent.Workflow payload) = PaymentWorkflowWithdrawal ->
  0 < PaymentFailedEvent.Amount payload <= int64_max ->
  PaymentFailedEvent.FeeAmount payload <= int64_max ->
  paymentFailedLedgerEvents s payload = Ok evts ->
  exists n, (n <= 4)%nat /\ evts_move n evts (releaseDelta
    (TrimSpace (PaymentFailedEvent.DebitAccountID payload))
    (LedgerEntity.ledgerClearingAccountID (PaymentFailedEvent.ClearingAccountKey payload))
    (UpperTrim (PaymentFailedEvent.Currency payload))
    (PaymentFailedEvent.Amount payload) (PaymentFailedEvent.FeeAmount payload)).
Proof.
  intros Hw Ha Hf H. unfold paymentFailedLedgerEvents in H. cbv zeta in H.
  rewrite decide_False in H by auto.
  apply result_bind_Ok in H as (e1 & H1 & H). apply release_moves in H1; [|done..].
  rewrite TrimSpace_idem, (ledgerClearingAccountID_trimmed _) in H1.
  eapply with_fee_moves; [exact H1| |exact H]. intros Hpos fe Hfe.
  apply release_moves in Hfe; [|done..]. by rewrite TrimSpace_idem in Hfe.
Qed.

Lemma paymentSucceeded_moves now payload evts :
  NormalizePaymentWorkflow (PaymentSettledEvent.Workflow payload) <> PaymentWorkflowWithdrawal ->
  PaymentSettledEvent.Amount payload <= int64_max ->
  PaymentSettledEvent.FeeAmount payload <= int64_max ->
  paymentSucceededLedgerEvents now s payload = Ok evts ->
  0 < PaymentSettledEvent.Amount payload /\
  exists n, (n <= 4)%nat /\ evts_move n evts (topUpDelta
    (LedgerEntity.ledgerClearingAccountID (PaymentSettledEvent.ClearingAccountKey payload))
    (TrimSpace (PaymentSettledEvent.CreditAccountID payload))
    (UpperTrim (PaymentSettledEvent.Currency payload))
    (PaymentSettledEvent.Amount payload) (PaymentSettledEvent.FeeAmount payload)).
Proof.
  intros Hw Ha Hf H. unfold paymentSucceededLedgerEvents in H. rewrite decide_False in H by done.
  apply result_bind_Ok in H as (b & Hb & H).
  apply NewPaymentSucceededBooking_Ok in Hb as (_ & _ & Hd & Hc & _ & _ & Hcu & _ & Ham & Hpos).
  cbn in Hd, Hc, Hcu, Ham. rewrite Hd, Hc, Hcu, Ham in H. rewrite Ham in Hpos. split; [done|].
  apply result_bind_Ok in H as (e1 & H1 & H). apply booking_moves in H1; [|done..].
  rewrite TrimSpace_idem, UpperTrim_idem, (ledgerClearingAccountID_trimmed _) in H1.
  eapply with_fee_moves; [exact H1| |exact H]. intros Hfee fe Hfe.
  apply booking_moves in Hfe; [|done..].
  by rewrite UpperTrim_idem, (ledgerClearingAccountID_trimmed _) in Hfe.
Qed.

Lemma paymentReversed_moves now payload ty evts :
  PaymentSettledEvent.Amount payload <= int64_max ->
  PaymentSettledEvent.FeeAmount payload <= int64_max ->
  ty = EventPaymentRefunded \/ ty = EventPaymentChargeback ->
  paymentReversedLedgerEvents now s
    (resolvePaymentEventID (PaymentSettledEvent.PaymentID payload)
       (PaymentSettledEvent.TransactionID payload))
    (PaymentSettledEvent.TransactionID payload) (PaymentSettledEvent.ClearingAccountKey payload)
    (PaymentSettledEvent.CreditAccountID payload) (PaymentSettledEvent.Currency payload)
    (PaymentSettledEvent.Amount payload) (PaymentSettledEvent.FeeAmount payload) ty
    (PaymentSettledEvent.OccurredAt payload) = Ok evts ->
  0 < PaymentSettledEvent.Amount payload /\
  exists n, (n <= 4)%nat /\ evts_move n evts (reversalDelta
    (LedgerEntity.ledgerClearingAccountID (PaymentSettledEvent.ClearingAccountKey payload))
    (TrimSpace (PaymentSettledEvent.CreditAccountID payload))
    (UpperTrim (PaymentSettledEvent.Currency payload))
    (PaymentSettledEvent.Amount payload) (PaymentSettledEvent.FeeAmount payload)).
Proof.
  intros Ha Hf Hty H. unfold paymentReversedLedgerEvents in H.
  apply result_bind_Ok in H as (b & Hb & H).
  apply NewPaymentReversalBooking_Ok in Hb
    as (_ & _ & Hbt & _ & Hc & Hd & _ & _ & Hcu & _ & Ham & Hpos).
  cbn in Hd, Hc, Hcu, Ham. rewrite Hd, Hc, Hcu, Ham in H. rewrite Ham in Hpos. split; [done|].
  destruct (reversalKind _ Hbt) as (kd & kc & Hkd & Hkc & Hdd & Hdc).
  destruct (reversalKind _ Hty) as (kd' & kc' & Hkd' & Hkc' & Hdd' & Hdc').
  rewrite <- (proj1 (eventNames_copy _)) in Hkd. rewrite <- (proj1 (eventNames_copy _)) in Hkd'.
  rewrite <- (proj2 (eventNames_copy _)) in Hkc. rewrite <- (proj2 (eventNames_copy _)) in Hkc'.
  rewrite Hkd, Hkc, Hkd', Hkc' in H.
  apply result_bind_Ok in H as (e1 & H1 & H). apply booking_moves in H1; [|done..].
  rewrite TrimSpace_idem, UpperTrim_idem, (ledgerClearingAccountID_trimmed _) in H1.
  eapply with_fee_moves; [exact H1| |exact H]. intros Hfee fe Hfe.
  apply booking_moves in Hfe; [|done..].
  by rewrite UpperTrim_idem, (ledgerClearingAccountID_trimmed _) in Hfe.
Qed.
End postings.
