(* ===== verification/PaymentLedgerTheorems.v ===== *)
(** * Correctness of the ledger's payment handlers

    The five handlers under one name, what each moves, that an event takes
    effect once, that a withdrawal is covered and is undone by its failure, and
    how the events of a payment aggregate act on the ledger. *)

From stdpp Require Import prelude strings gmap.
From S2P Require Import Prelude GoStrings Event LedgerEntity LedgerAccount LedgerAccountInv LedgerAccountSpec.
From S2P Require Import LedgerRepo LedgerService LedgerServiceInv LedgerServiceSpec LedgerServiceTheorems.
From S2P Require Import PaymentEvents PaymentIntent PaymentAggregate PaymentAggregateInv PaymentAggregateSpec.
From S2P Require Import PaymentAggregateTheorems PaymentLedger PaymentLedgerSpec.
Import PaymentLedger LedgerService.

(** The payment events that the ledger consumes. *)
Inductive payment_event : Type :=
  | Requested (payload : PaymentWithdrawalRequestedEvent)
  | Succeeded (payload : PaymentSettledEvent)
  | Failed (payload : PaymentFailedEvent)
  | Refunded (payload : PaymentSettledEvent)
  | ChargedBack (payload : PaymentSettledEvent).

(** The amounts of an event: those of a withdrawal are positive, as the
    payment module makes them; the others are checked by the ledger. *)
Definition amounts_ok (ev : payment_event) : Prop :=
  match ev with
  | Requested p => 0 < PaymentWithdrawalRequestedEvent.Amount p <= int64_max /\
      PaymentWithdrawalRequestedEvent.FeeAmount p <= int64_max
  | Failed p => 0 < PaymentFailedEvent.Amount p <= int64_max /\
      PaymentFailedEvent.FeeAmount p <= int64_max
  | Succeeded p | Refunded p | ChargedBack p =>
      PaymentSettledEvent.Amount p <= int64_max /\ PaymentSettledEvent.FeeAmount p <= int64_max
  end.

Section theorems.
Context {DB : Type} `{Laws : LedgerRepoLaws DB}.
Implicit Types (db : DB) (s : paymentEventService).

(** The ledger events of a payment event. *)
Definition ledgerEventsOf (now : Time) s (ev : payment_event) : result LedgerEvents :=
  match ev with
  | Requested p => paymentWithdrawalRequestedLedgerEvents s p
  | Succeeded p => paymentSucceededLedgerEvents now s p
  | Failed p => paymentFailedLedgerEvents s p
  | Refunded p | ChargedBack p =>
      paymentReversedLedgerEvents now s
        (resolvePaymentEventID (PaymentSettledEvent.PaymentID p) (PaymentSettledEvent.TransactionID p))
        (PaymentSettledEvent.TransactionID p) (PaymentSettledEvent.ClearingAccountKey p)
        (PaymentSettledEvent.CreditAccountID p) (PaymentSettledEvent.Currency p)
        (PaymentSettledEvent.Amount p) (PaymentSettledEvent.FeeAmount p)
        (match ev with Refunded _ => EventPaymentRefunded | _ => EventPaymentChargeback end)
        (PaymentSettledEvent.OccurredAt p)
  end.

Definition handle (now : Time) s (ev : payment_event) : method DB unit :=
  match ev with
  | Requested p => HandleWithdrawalRequested s p
  | Succeeded p => HandleSucceeded now s p
  | Failed p => HandleFailed s p
  | Refunded p => HandleRefunded now s p
  | ChargedBack p => HandleChargeback now s p
  end.

Definition clearingAccountOf (p : PaymentSettledEvent) : string :=
  LedgerEntity.ledgerClearingAccountID (PaymentSettledEvent.ClearingAccountKey p).

(** What a payment event adds to the balance of an account in a currency. *)
Definition deltaOf s (ev : payment_event) : string -> string -> Z :=
  match ev with
  | Requested p => withdrawalDelta s (TrimSpace (PaymentWithdrawalRequestedEvent.DebitAccountID p))
      (withdrawalClearing p) (UpperTrim (PaymentWithdrawalRequestedEvent.Currency p))
      (PaymentWithdrawalRequestedEvent.Amount p) (PaymentWithdrawalRequestedEvent.FeeAmount p)
  | Succeeded p =>
      if decide (NormalizePaymentWorkflow (PaymentSettledEvent.Workflow p) = PaymentWorkflowWithdrawal)
      then fun _ _ => 0
      else topUpDelta s (clearingAccountOf p) (TrimSpace (PaymentSettledEvent.CreditAccountID p))
        (UpperTrim (PaymentSettledEvent.Currency p)) (PaymentSettledEvent.Amount p)
        (PaymentSettledEvent.FeeAmount p)
  | Failed p =>
      if decide (NormalizePaymentWorkflow (PaymentFailedEvent.Workflow p) = PaymentWorkflowWithdrawal)
      then releaseDelta s (TrimSpace (PaymentFailedEvent.DebitAccountID p))
        (LedgerEntity.ledgerClearingAccountID (PaymentFailedEvent.ClearingAccountKey p))
        (UpperTrim (PaymentFailedEvent.Currency p)) (PaymentFailedEvent.Amount p)
        (PaymentFailedEvent.FeeAmount p)
      else fun _ _ => 0
  | Refunded p | ChargedBack p =>
      reversalDelta s (clearingAccountOf p) (TrimSpace (PaymentSettledEvent.CreditAccountID p))
        (UpperTrim (PaymentSettledEvent.Currency p)) (PaymentSettledEvent.Amount p)
        (PaymentSettledEvent.FeeAmount p)
  end.

Lemma handle_run now s ev db :
  handle now s ev db =
    (lift (ledgerEventsOf now s ev) ≫= fun evts => RecordLedgerEvents evts) db.
Proof.
  assert (Hnil : forall r : result LedgerEvents,
    (events ← lift r; if decide (length events = 0%nat) then mret tt else RecordLedgerEvents events) db
    = (lift r ≫= fun evts => RecordLedgerEvents evts) db).
  { intros r. unfold mbind, method_bind, lift. destruct r as [evts|e|w]; [|done..].
    unfold RecordLedgerEvents. by destruct (decide (length evts = 0%nat)). }
  destruct ev; try reflexivity; apply Hnil.
Qed.

Lemma handle_atomic now s ev : atomic (handle now s ev : method DB unit).
Proof.
  intros db. rewrite handle_run. revert db. go_atomic. apply RecordLedgerEvents_is_atomic.
Qed.

Lemma ledgerEventsOf_moves now s ev evts :
  amounts_ok ev -> ledgerEventsOf now s ev = Ok evts ->
  exists n, (n <= 4)%nat /\ evts_move n evts (deltaOf s ev).
Proof.
  intros Ha H. destruct ev as [p|p|p|p|p]; cbn in Ha, H; destruct Ha as [Ha Hf].
  - by apply withdrawalRequested_moves.
  - cbn [deltaOf]. case_decide as Hw.
    + unfold paymentSucceededLedgerEvents in H. rewrite decide_True in H by done.
      apply Ok_inj in H as <-. exists 0%nat. split; [lia|apply evts_move_nil].
    + by eapply paymentSucceeded_moves.
  - cbn [deltaOf]. case_decide as Hw; [by apply withdrawalFailed_moves|].
    unfold paymentFailedLedgerEvents in H. rewrite decide_True in H by done.
    apply Ok_inj in H as <-. exists 0%nat. split; [lia|apply evts_move_nil].
  - eapply (paymentReversed_moves s now p EventPaymentRefunded); auto.
  - eapply (paymentReversed_moves s now p EventPaymentChargeback); auto.
Qed.

Lemma repo_room_le n m db : (m <= n)%nat -> repo_room n db -> repo_room m db.
Proof.
  intros Hle [Hn Hr]. split; [lia|]. intros id a Ha. eapply version_room_le; [exact Hle|]. by apply (Hr id).
Qed.

Lemma handle_Ok now s ev db u db' :
  repo_ok db -> repo_room 4 db -> amounts_ok ev -> handle now s ev db = (Ok u, db') ->
  repo_ok db' /\ exists evts ips, ledgerEventsOf now s ev = Ok evts /\
    Forall2 event_posting evts ips /\ (forall id c, batchDelta ips id c = deltaOf s ev id c) /\
    (db' = db /\ Forall (alreadyPosted (postingsOf db)) ips \/ batchApplied ips db db').
Proof.
  intros Hok Hroom Ha H. rewrite handle_run in H. apply lift_bind_Ok in H as (evts & Hev & H).
  destruct (ledgerEventsOf_moves _ _ _ _ Ha Hev) as (n & Hn & Hm).
  pose proof (evts_move_length _ _ _ Hm) as Hlen.
  destruct (RecordLedgerEvents_Ok _ _ _ _ Hok (repo_room_le 4 (length evts) db ltac:(lia) Hroom) H)
    as (Hok' & ips & Hf & Hcase).
  destruct Hm as (ips' & Hf' & _ & Hd). rewrite (event_posting_unique _ _ _ Hf Hf') in *. eauto 10.
Qed.

(** C17: what a payment event does to the ledger. Every handler is all or
    nothing: it leaves the database as it was (on an error, on a panic, when
    the event was handled before, and for the success of a withdrawal or the
    failure of a top-up), or every balance of every account changes by exactly
    what the event moves: a requested withdrawal moves the amount to the
    provider's clearing account and the fee to the fee account, its failure
    moves both back, a paid top-up moves the amount and the fee out of the
    clearing account to the payee and the fee account, and its refund or
    chargeback moves them back. *)
Theorem payment_events_move_money now s ev db r db' :
  repo_ok db -> repo_room 4 db -> amounts_ok ev -> handle now s ev db = (r, db') ->
  db' = db \/
  is_ok r = true /\ repo_ok db' /\
  forall id c, storedBalance db' id c = wrap64 (storedBalance db id c + deltaOf s ev id c).
Proof.
  intros Hok Hroom Ha H.
  destruct r as [u|e|w]; [|left; by eapply atomic_run; [apply handle_atomic|..]..].
  destruct (handle_Ok _ _ _ _ _ _ Hok Hroom Ha H)
    as (Hok' & evts & ips & _ & _ & Hd & [[? _]|Hb]); [by left|right].
  split; [done|]. split; [done|]. intros id c.
  by rewrite (batchApplied_balance _ _ _ _ _ Hok Hok' Hb), Hd.
Qed.


(** *** Once *)

Definition occurredAt (ev : payment_event) : Time :=
  match ev with
  | Requested p => PaymentWithdrawalRequestedEvent.RequestedAt p
  | Failed p => PaymentFailedEvent.OccurredAt p
  | Succeeded p | Refunded p | ChargedBack p => PaymentSettledEvent.OccurredAt p
  end.

Lemma bookingEvents_now now now' tid pid cur amt d c dn cn at_ :
  at_ <> 0 ->
  paymentLedgerEventsFromBooking now tid pid cur amt d c dn cn at_ =
  paymentLedgerEventsFromBooking now' tid pid cur amt d c dn cn at_.
Proof.
  intros H. unfold paymentLedgerEventsFromBooking, IsZero. by rewrite bool_decide_false.
Qed.

(** The clock is read only for events without a time. *)
Lemma ledgerEventsOf_now now now' s ev :
  occurredAt ev <> 0 -> ledgerEventsOf now s ev = ledgerEventsOf now' s ev.
Proof.
  intros H. destruct ev as [p|p|p|p|p]; try reflexivity; cbn [ledgerEventsOf occurredAt] in *;
    unfold paymentSucceededLedgerEvents, paymentReversedLedgerEvents.
  - destruct (decide (NormalizePaymentWorkflow _ = _)); [done|].
    destruct (NewPaymentSucceededBooking _); [|done..]. cbn.
    by rewrite !(bookingEvents_now now now') by done.
  - destruct (NewPaymentReversalBooking _); [|done..]. cbn.
    by rewrite !(bookingEvents_now now now') by done.
  - destruct (NewPaymentReversalBooking _); [|done..]. cbn.
    by rewrite !(bookingEvents_now now now') by done.
Qed.

(** A payment event takes effect once. Delivered again after it was
    handled, with whatever fee account it was handled and at any later time,
    it leaves the ledger as it is. *)
Theorem payment_event_once now now' s ev db db1 r db2 :
  repo_ok db -> repo_room 4 db -> repo_room 4 db1 -> amounts_ok ev -> occurredAt ev <> 0 ->
  handle now s ev db = (Ok tt, db1) -> handle now' s ev db1 = (r, db2) -> db2 = db1.
Proof.
  intros Hok Hroom Hroom1 Ha Ht H1 H2.
  destruct r as [u|e|w]; [|by eapply atomic_run; [apply handle_atomic|..]..].
  destruct (handle_Ok _ _ _ _ _ _ Hok Hroom Ha H1) as (Hok1 & e1 & ips & He1 & Hf1 & _ & Hcase).
  destruct (handle_Ok _ _ _ _ _ _ Hok1 Hroom1 Ha H2)
    as (_ & e2 & ips2 & He2 & Hf2 & _ & [[? _]|[Hfr _]]); [done|].
  rewrite (ledgerEventsOf_now now' now) in He2 by done. rewrite He1 in He2.
  apply Ok_inj in He2 as <-. rewrite (event_posting_unique _ _ _ Hf2 Hf1) in Hfr.
  destruct ips as [|ip ips].
  - apply Forall2_nil_inv_r in Hf1 as ->. rewrite handle_run in H2.
    rewrite (ledgerEventsOf_now now' now), He1 in H2 by done.
    unfold lift, mbind, method_bind, RecordLedgerEvents in H2. cbn in H2. by injection H2.
  - exfalso. destruct Hfr as [[Hn _] _].
    assert (Hin : is_Some (postingsOf db1 ip.1 !! Posting.TransactionID ip.2)).
    { destruct Hcase as [[-> Hal]|[Hfr1 Hv]].
      - apply Forall_cons in Hal as [(q & Hq & _) _]. by exists q.
      - rewrite Hv. exists ip.2. by apply freshPosts_posted; [|left]. }
    destruct Hin as [q Hq]. by rewrite Hn in Hq.
Qed.

(** *** Withdrawals *)

(** The fee that is charged: none without a fee account. *)
Definition chargedFee s (fee : Z) : Z :=
  if decide (0 < fee /\ feeAccountID s <> "") then fee else 0.

Lemma withdrawalDelta_account s account clearing cur amt fee :
  account <> clearing ->
  (0 < fee /\ feeAccountID s <> "" -> account <> TrimSpace (feeAccountID s)) ->
  withdrawalDelta s account clearing cur amt fee account cur = - (amt + chargedFee s fee).
Proof.
  intros Hc Hf. unfold withdrawalDelta, feeDelta, chargedFee, bookingDelta.
  rewrite (decide_True (P := cur = cur)) by done. rewrite (decide_True (P := account = account)) by done.
  rewrite (decide_False (P := account = clearing)) by done.
  destruct (decide (0 < fee /\ feeAccountID s <> "")); [|lia].
  rewrite (decide_False (P := account = TrimSpace (feeAccountID s))) by auto.
  rewrite !decide_True by done. lia.
Qed.

Lemma paymentPosting_differ tid pid acc ty other cur delta at_ p :
  newPaymentPosting acc tid ty pid other cur delta at_ = Ok p -> TrimSpace other <> TrimSpace acc.
Proof.
  intros (Hok & Hp)%newPaymentPosting_Ok%NewLedgerAccountPaymentPosting_Ok.
  destruct (po_counterparty _ _ Hok) as (_ & _ & Hne). by rewrite Hp in Hne.
Qed.

Lemma withdrawalPair_differ tid pid acc ty delta other ty' delta' cur at_ evts :
  withdrawalPair tid pid acc ty delta other ty' delta' cur at_ = Ok evts ->
  TrimSpace other <> TrimSpace acc.
Proof.
  unfold withdrawalPair. intros (p & H & _)%result_bind_Ok. by eapply paymentPosting_differ.
Qed.

(** The account covers each leg that is reserved on it. *)
Lemma reserved_leg_covered v acc tid pid other cur amt at_ :
  0 < amt <= int64_max ->
  postable v (acc, bookingLeg tid pid (kindName ReserveWithdrawal) other cur (- amt) at_) ->
  0 <= wrap64 (postedTotal (UpperTrim cur) (v acc)) ->
  amt <= wrap64 (postedTotal (UpperTrim cur) (v acc)).
Proof.
  intros Ha Hp Hb. pose proof (postable_funds _ _ Hp) as Hf. cbn in Hf.
  rewrite Z.opp_involutive in Hf. apply Hf; [lia|lia|by vm_compute|done].
Qed.

Lemma reservedPair_covers evts rest v acc tid pid other k cur amt at_ :
  0 < amt <= int64_max -> other <> acc ->
  freshPosts ([(acc, bookingLeg tid pid (kindName ReserveWithdrawal) evts cur (- amt) at_);
               (other, bookingLeg tid pid k acc cur amt at_)] ++ rest) v ->
  0 <= wrap64 (postedTotal (UpperTrim cur) (v acc)) ->
  amt <= wrap64 (postedTotal (UpperTrim cur) (v acc)) /\
  exists v', freshPosts rest v' /\
    wrap64 (postedTotal (UpperTrim cur) (v' acc)) =
      wrap64 (postedTotal (UpperTrim cur) (v acc)) - amt.
Proof.
  intros Ha Hne Hfr Hb. cbn [app freshPosts] in Hfr. destruct Hfr as (H1 & H2 & Hrest).
  pose proof (reserved_leg_covered _ _ _ _ _ _ _ _ Ha H1 Hb) as Hle. split; [done|].
  eexists. split; [exact Hrest|]. unfold viewPost. cbn [fst snd].
  rewrite (decide_False (P := acc = other)) by done. rewrite decide_True by done.
  destruct H1 as [Hn _]. cbn [fst snd] in Hn. rewrite postedTotal_insert by done.
  unfold postedIn, bookingLeg. cbn [Posting.Currency Posting.AmountDelta].
  rewrite decide_True by done.
  pose proof (wrap64_in64 (postedTotal (UpperTrim cur) (v acc))) as Hin.
  rewrite Z.add_comm, <- wrap64_add_l. rewrite wrap64_id; [lia|].
  unfold in64, int64_min, int64_max in *. lia.
Qed.

Lemma neg64_pos x : 0 < x <= int64_max -> neg64 x = - x /\ in64 (- x) /\ in64 x.
Proof.
  intros H. split; [apply neg64_small|unfold in64]; unfold int64_min, int64_max in *; lia.
Qed.

(** C30: a withdrawal is covered. When a requested withdrawal changes the
    ledger and the account was not overdrawn, the balance of the account
    covered the amount and the fee that is charged, and is the difference
    afterwards: reserving never overdraws the account. *)
Theorem withdrawal_is_covered now s p db u db' :
  repo_ok db -> repo_room 4 db -> amounts_ok (Requested p) ->
  handle now s (Requested p) db = (Ok u, db') -> db' <> db ->
  let account := TrimSpace (PaymentWithdrawalRequestedEvent.DebitAccountID p) in
  let currency := UpperTrim (PaymentWithdrawalRequestedEvent.Currency p) in
  let total := PaymentWithdrawalRequestedEvent.Amount p
               + chargedFee s (PaymentWithdrawalRequestedEvent.FeeAmount p) in
  0 <= storedBalance db account currency ->
  total <= storedBalance db account currency /\
  storedBalance db' account currency = storedBalance db account currency - total.
Proof.
  intros Hok Hroom Ha H Hne account currency total Hb. subst account currency.
  destruct (handle_Ok _ _ _ _ _ _ Hok Hroom Ha H)
    as (Hok' & evts & ips & Hev & Hf & Hd & [[? _]|Hba]); [done|].
  assert (Hcov : total <= storedBalance db
    (TrimSpace (PaymentWithdrawalRequestedEvent.DebitAccountID p))
    (UpperTrim (PaymentWithdrawalRequestedEvent.Currency p)) /\
    deltaOf s (Requested p) (TrimSpace (PaymentWithdrawalRequestedEvent.DebitAccountID p))
      (UpperTrim (PaymentWithdrawalRequestedEvent.Currency p)) = - total).
  { destruct Ha as [Ha Hfee]. destruct Hba as [Hfr _]. rewrite storedBalance_postings in Hb |- * by done.
    cbn [ledgerEventsOf] in Hev. unfold paymentWithdrawalRequestedLedgerEvents in Hev. cbv zeta in Hev.
    apply result_bind_Ok in Hev as (e1 & H1 & Hev).
    pose proof (withdrawalPair_differ _ _ _ _ _ _ _ _ _ _ _ H1) as Hne1. rewrite TrimSpace_idem in Hne1.
    destruct (neg64_pos _ Ha) as (En & I1 & I2). rewrite En in H1.
    apply withdrawalPair_Ok in H1; [|cbn; done || lia..]. rewrite TrimSpace_idem in H1.
    pose proof Hne1 as Hne2. rewrite (ledgerClearingAccountID_trimmed _) in Hne2.
    destruct (decide (0 < PaymentWithdrawalRequestedEvent.FeeAmount p /\ feeAccountID s <> "")) as [Hcf|Hcf].
    - assert (total = PaymentWithdrawalRequestedEvent.Amount p + PaymentWithdrawalRequestedEvent.FeeAmount p) as Ht
        by (unfold total, chargedFee; by rewrite decide_True).
      apply result_bind_Ok in Hev as (e2 & H2 & Hev).
      pose proof (withdrawalPair_differ _ _ _ _ _ _ _ _ _ _ _ H2) as Hne3. rewrite TrimSpace_idem in Hne3.
      split; [|by apply (withdrawalDelta_account s); auto]. apply Ok_inj in Hev as <-.
      assert (0 < PaymentWithdrawalRequestedEvent.FeeAmount p <= int64_max) as Hf' by lia.
      destruct (neg64_pos _ Hf') as (En' & I1' & I2'). rewrite En' in H2.
      apply withdrawalPair_Ok in H2; [|cbn; done || lia..]. rewrite TrimSpace_idem in H2.
      rewrite (event_posting_unique _ _ _ Hf (Forall2_app H1 H2)) in Hfr.
      destruct (reservedPair_covers _ _ _ _ _ _ _ _ _ _ _ Ha Hne1 Hfr Hb) as (Hle & v' & [Hp _] & Hv').
      apply reserved_leg_covered in Hp; rewrite ?Hv' in *; lia || done.
    - assert (total = PaymentWithdrawalRequestedEvent.Amount p) as Ht
        by (unfold total, chargedFee; rewrite decide_False by done; lia).
      apply Ok_inj in Hev as <-. rewrite (event_posting_unique _ _ _ Hf H1) in Hfr.
      split; [|by apply (withdrawalDelta_account s); auto; tauto].
      rewrite <- (app_nil_r [_; _]) in Hfr.
      destruct (reservedPair_covers _ _ _ _ _ _ _ _ _ _ _ Ha Hne1 Hfr Hb) as (Hle & _).
      lia. }
  destruct Hcov as [Hcov Hdelta]. split; [done|].
  rewrite (batchApplied_balance _ _ _ _ _ Hok Hok' Hba), Hd, Hdelta. apply wrap64_id.
  pose proof (storedBalance_in64 db (TrimSpace (PaymentWithdrawalRequestedEvent.DebitAccountID p))
    (UpperTrim (PaymentWithdrawalRequestedEvent.Currency p)) Hok) as Hin.
  assert (0 <= total) by (unfold total, chargedFee; destruct Ha as [Ha _]; case_decide; lia).
  unfold in64, int64_min, int64_max in *. lia.
Qed.


(** *** Payments of the payment module *)

Lemma handle_balances now s ev db u db' :
  repo_ok db -> repo_room 4 db -> amounts_ok ev -> handle now s ev db = (Ok u, db') -> db' <> db ->
  repo_ok db' /\
  forall id c, storedBalance db' id c = wrap64 (storedBalance db id c + deltaOf s ev id c).
Proof.
  intros Hok Hroom Ha H Hne.
  destruct (handle_Ok _ _ _ _ _ _ Hok Hroom Ha H)
    as (Hok' & evts & ips & _ & _ & Hd & [[? _]|Hb]); [done|].
  split; [done|]. intros id c. by rewrite (batchApplied_balance _ _ _ _ _ Hok Hok' Hb), Hd.
Qed.

(** Two events in a row. *)
Lemma handle_balances_twice now now' s ev ev' db u db1 u' db2 :
  repo_ok db -> repo_room 4 db -> repo_room 4 db1 -> amounts_ok ev -> amounts_ok ev' ->
  handle now s ev db = (Ok u, db1) -> db1 <> db ->
  handle now' s ev' db1 = (Ok u', db2) -> db2 <> db1 ->
  forall id c, storedBalance db2 id c =
    wrap64 (storedBalance db id c + (deltaOf s ev id c + deltaOf s ev' id c)).
Proof.
  intros Hok Hr Hr1 Ha Ha' H1 N1 H2 N2 id c.
  destruct (handle_balances _ _ _ _ _ _ Hok Hr Ha H1 N1) as [Hok1 E1].
  destruct (handle_balances _ _ _ _ _ _ Hok1 Hr1 Ha' H2 N2) as [_ E2].
  by rewrite E2, E1, wrap64_add_l, Z.add_assoc.
Qed.

(** The payment event that the ledger receives for an event of the payment
    aggregate. *)
Definition toLedger (d : PaymentEventData) : option payment_event :=
  match d with
  | EvWithdrawalRequested p => Requested <$> p
  | EvPaymentSucceeded p => Succeeded <$> p
  | EvPaymentFailed p => Failed <$> p
  | EvPaymentRefunded p => Refunded <$> p
  | EvPaymentChargeback p => ChargedBack <$> p
  | _ => None
  end.

(** The intent was created by this code, and its amounts are machine integers. *)
Definition created_payment (p : PaymentIntent) : Prop :=
  fresh_intent p /\ PaymentIntent.Amount p <= int64_max /\ PaymentIntent.FeeAmount p <= int64_max.

Lemma FirstNonEmpty_trimmed x xs : trimmed x -> x <> "" -> FirstNonEmpty (x :: xs) = x.
Proof. intros Ht Hx. cbn. rewrite Ht. by rewrite decide_True. Qed.

Lemma feeDelta_back s fee from to_ cur id c :
  feeDelta s fee from to_ cur id c + feeDelta s fee to_ from cur id c = 0.
Proof. unfold feeDelta, bookingDelta. repeat case_decide; lia. Qed.

Lemma bookingDelta_back from to_ cur amt amt' id c :
  bookingDelta from to_ cur amt id c + bookingDelta to_ from cur amt' id c =
  bookingDelta to_ from cur (amt' - amt) id c.
Proof. unfold bookingDelta. repeat case_decide; lia. Qed.

Lemma bookingDelta_0 from to_ cur id c : bookingDelta from to_ cur 0 id c = 0.
Proof. unfold bookingDelta. repeat case_decide; lia. Qed.

(** C31: a withdrawal that fails is undone. When the ledger handled the
    WithdrawalRequested event that a created withdrawal records, and later the
    PaymentFailed event that the same payment records, whatever the provider
    reported in between, every balance of every account is what it was: the
    amount and the fee have come back. *)
Theorem failed_withdrawal_restores now now' s p q res at_ at' ev ev' db u db1 u' db2 :
  created_payment p -> PaymentIntent.Workflow p = PaymentWorkflowWithdrawal -> same_terms p q ->
  toLedger (requestedData p at_) = Some ev -> toLedger (failedData q res at') = Some ev' ->
  repo_ok db -> repo_room 4 db -> repo_room 4 db1 ->
  handle now s ev db = (Ok u, db1) -> db1 <> db ->
  handle now' s ev' db1 = (Ok u', db2) -> db2 <> db1 ->
  forall id c, storedBalance db2 id c = storedBalance db id c.
Proof.
  intros (Hf & Ha & Hfee) Hw -> [= <-] [= <-] Hok Hr Hr1 H1 N1 H2 N2 id c.
  pose proof (fresh_amount p Hf) as Hpos. pose proof (fresh_normal p Hf) as Hn.
  rewrite (handle_balances_twice _ _ _ _ _ _ _ _ _ _ Hok Hr Hr1) with (3 := H1) (4 := N1) (5 := H2)
    by (done || split_and!; done).
  cbn. rewrite Hw. rewrite decide_True by done. unfold withdrawalClearing. cbn.
  pose proof (effectivePaymentClearingAccountKey_trimmed (PaymentIntent.Provider p)
    (PaymentIntent.ClearingAccountKey p)) as Hk.
  rewrite (normal_clearing p Hn) in Hk. unfold trimmed in Hk. rewrite !Hk.
  rewrite (decide_True (P := PaymentIntent.ClearingAccountKey p <> "")) by apply Hf.
  unfold withdrawalDelta, releaseDelta.
  match goal with |- wrap64 (?b + (?x + ?f + (?y + ?g))) = _ =>
    replace (x + f + (y + g)) with ((x + y) + (f + g)) by lia end.
  rewrite feeDelta_back, bookingDelta_back, Z.sub_diag, bookingDelta_0, !Z.add_0_r.
  apply wrap64_id. by apply storedBalance_in64.
Qed.

(** What a refund leaves behind. When the ledger handled the success and
    then the refund of a top-up, the fee is back where it came from, but the
    payee has returned the amount that the provider reported, while only the
    payment's amount had been paid: the difference stays in the clearing
    account. A refund of the whole charge reports the amount and the fee, so it
    takes the fee from the payee as well as from the fee account. *)
Theorem refund_takes_reported_amount now now' s p q q' res res' at_ at' ev ev' db u db1 u' db2 :
  created_payment p -> PaymentIntent.Workflow p = PaymentWorkflowTopUp ->
  same_terms p q -> same_terms p q' ->
  toLedger (succeededData q res at_) = Some ev -> toLedger (refundedData q' res' at') = Some ev' ->
  reportedAmount p res' <= int64_max ->
  repo_ok db -> repo_room 4 db -> repo_room 4 db1 ->
  handle now s ev db = (Ok u, db1) -> db1 <> db ->
  handle now' s ev' db1 = (Ok u', db2) -> db2 <> db1 ->
  forall id c, storedBalance db2 id c = wrap64 (storedBalance db id c +
    bookingDelta (TrimSpace (PaymentIntent.CreditAccountID p))
      (LedgerEntity.ledgerClearingAccountID (PaymentIntent.ClearingAccountKey p))
      (UpperTrim (PaymentIntent.Currency p)) (reportedAmount p res' - PaymentIntent.Amount p) id c).
Proof.
  intros (Hf & Ha & Hfee) Hw -> -> [= <-] [= <-] Hrep Hok Hr Hr1 H1 N1 H2 N2 id c.
  rewrite (handle_balances_twice _ _ _ _ _ _ _ _ _ _ Hok Hr Hr1) with (3 := H1) (4 := N1) (5 := H2)
    by (done || split_and!; done).
  cbn. rewrite Hw. rewrite decide_False by done. unfold clearingAccountOf. cbn.
  unfold topUpDelta, reversalDelta.
  match goal with |- wrap64 (?b + (?x + ?f + (?y + ?g))) = _ =>
    replace (x + f + (y + g)) with ((x + y) + (f + g)) by lia end.
  rewrite feeDelta_back, bookingDelta_back, Z.add_0_r. done.
Qed.


End theorems.

(** ** The theorems at concrete inputs *)

Section witnesses.
#[local] Existing Instance caseless_unicode.

Definition feeService : paymentEventService := NewPaymentEventService " house ".

(** Alice withdraws 1.00 USD, for a fee of 0.05. *)
Definition withdrawal : PaymentIntent :=
  PaymentIntent.mk PaymentWorkflowWithdrawal "tx-2" "stripe" "" "bank-1" 100 5 100 "USD"
    "provider:stripe" "alice" "" PaymentStatusCreating 3 3.

(** Alice tops up 1.00 USD, for a fee of 0.05. *)
Definition topUp : PaymentIntent :=
  PaymentIntent.mk PaymentWorkflowTopUp "tx-3" "stripe" "" "" 100 5 105 "USD"
    "provider:stripe" "" "alice" PaymentStatusCreating 3 3.

Lemma withdrawal_created : created_payment withdrawal.
Proof.
  split; [|by split]. constructor; try (by vm_compute).
  constructor; try (by vm_compute); apply (bool_decide_unpack _); by vm_compute.
Qed.

Lemma topUp_created : created_payment topUp.
Proof.
  split; [|by split]. constructor; try (by vm_compute).
  constructor; try (by vm_compute); apply (bool_decide_unpack _); by vm_compute.
Qed.

Definition withdrawalRequest : payment_event :=
  Requested (PaymentWithdrawalRequestedEvent.mk "tx-2" "tx-2" "stripe" "provider:stripe" "alice"
    "bank-1" 100 5 100 "USD" PaymentStatusCreating 3).

Definition requestedRun : result unit * MemoryDB := handle 9 feeService withdrawalRequest aliceDB.

Lemma requestedRun_Ok : handle 9 feeService withdrawalRequest aliceDB = (Ok tt, requestedRun.2).
Proof. apply pair_fst_eq. eval_closed. Qed.

Lemma requestedRun_room : repo_room 4 requestedRun.2.
Proof. apply memory_room; [lia|eval_closed]. Qed.

Lemma requestedRun_changed : requestedRun.2 <> aliceDB.
Proof.
  intros H. assert (storedBalance requestedRun.2 "alice" "USD" = 395) as Hb by eval_closed.
  rewrite H in Hb. revert Hb. eval_closed.
Qed.

Lemma payment_events_move_money_witness :
  storedBalance requestedRun.2 "alice" "USD" = 395 /\
  (requestedRun.2 = aliceDB \/
   is_ok requestedRun.1 = true /\ repo_ok requestedRun.2 /\
   forall id c, storedBalance requestedRun.2 id c =
     wrap64 (storedBalance aliceDB id c + deltaOf feeService withdrawalRequest id c)).
Proof.
  split; [eval_closed|].
  apply (payment_events_move_money 9 feeService withdrawalRequest aliceDB requestedRun.1
    requestedRun.2 aliceDB_ok (aliceDB_room 4 ltac:(lia))).
  - by vm_compute.
  - apply surjective_pairing.
Defined.

Lemma payment_event_once_witness :
  (handle 12 feeService withdrawalRequest requestedRun.2).2 = requestedRun.2.
Proof.
  apply (payment_event_once 9 12 feeService withdrawalRequest aliceDB requestedRun.2
    (handle 12 feeService withdrawalRequest requestedRun.2).1 _ aliceDB_ok
    (aliceDB_room 4 ltac:(lia)) requestedRun_room).
  - by vm_compute.
  - discriminate.
  - exact requestedRun_Ok.
  - apply surjective_pairing.
Defined.

Lemma withdrawal_is_covered_witness :
  105 <= storedBalance aliceDB "alice" "USD" /\
  storedBalance requestedRun.2 "alice" "USD" = storedBalance aliceDB "alice" "USD" - 105.
Proof.
  apply (withdrawal_is_covered 9 feeService
    (PaymentWithdrawalRequestedEvent.mk "tx-2" "tx-2" "stripe" "provider:stripe" "alice"
      "bank-1" 100 5 100 "USD" PaymentStatusCreating 3)
    aliceDB tt requestedRun.2 aliceDB_ok (aliceDB_room 4 ltac:(lia))).
  - by vm_compute.
  - exact requestedRun_Ok.
  - exact requestedRun_changed.
  - eval_closed.
Defined.

Definition failedResult : PaymentProviderResult :=
  PaymentProviderResult.mk "tx-2" "evt-3" "payout.failed" "FAILED" 0 "" "".

Definition withdrawalFailure : payment_event :=
  Failed (PaymentFailedEvent.mk PaymentWorkflowWithdrawal "tx-2" "tx-2" "stripe" "provider:stripe"
    "alice" "evt-3" "payout.failed" "" 100 5 100 "USD" "" PaymentStatusFailed 8).

Definition failedRun : result unit * MemoryDB :=
  handle 10 feeService withdrawalFailure requestedRun.2.

Lemma failed_withdrawal_restores_witness :
  storedBalance requestedRun.2 "alice" "USD" = 395 /\
  forall id c, storedBalance failedRun.2 id c = storedBalance aliceDB id c.
Proof.
  assert (storedBalance requestedRun.2 "alice" "USD" = 395) as Hb by eval_closed. split; [done|].
  apply (failed_withdrawal_restores 9 10 feeService withdrawal withdrawal failedResult 3 8
    withdrawalRequest withdrawalFailure aliceDB tt requestedRun.2 tt failedRun.2
    withdrawal_created eq_refl (same_terms_refl _)).
  - eval_closed.
  - eval_closed.
  - exact aliceDB_ok.
  - apply aliceDB_room. lia.
  - exact requestedRun_room.
  - exact requestedRun_Ok.
  - exact requestedRun_changed.
  - apply pair_fst_eq. eval_closed.
  - intros H. assert (storedBalance failedRun.2 "alice" "USD" = 500) as Hf by eval_closed.
    rewrite H, Hb in Hf. discriminate Hf.
Defined.

Definition paidResult : PaymentProviderResult :=
  PaymentProviderResult.mk "tx-3" "evt-1" "checkout.completed" "SUCCESS" 105 "USD" "".
Definition refundResult : PaymentProviderResult :=
  PaymentProviderResult.mk "tx-3" "evt-2" "charge.refunded" "REFUNDED" 105 "USD" "".

Definition topUpSuccess : payment_event :=
  Succeeded (settledData EventPaymentSucceeded 100 topUp paidResult 7).
Definition topUpRefund : payment_event :=
  Refunded (settledData EventPaymentRefunded 105 topUp refundResult 8).

Definition toppedUpRun : result unit * MemoryDB := handle 9 feeService topUpSuccess aliceDB.
Definition takenBackRun : result unit * MemoryDB := handle 10 feeService topUpRefund toppedUpRun.2.

Lemma refund_takes_reported_amount_witness :
  storedBalance toppedUpRun.2 "alice" "USD" = 600 /\
  storedBalance takenBackRun.2 "alice" "USD" = storedBalance aliceDB "alice" "USD" - 5 /\
  forall id c, storedBalance takenBackRun.2 id c = wrap64 (storedBalance aliceDB id c +
    bookingDelta "alice" "ledger:clearing:provider:stripe" "USD" 5 id c).
Proof.
  assert (storedBalance toppedUpRun.2 "alice" "USD" = 600) as Hb by eval_closed.
  split; [done|]. split; [eval_closed|].
  apply (refund_takes_reported_amount 9 10 feeService topUp topUp topUp paidResult refundResult 7 8
    topUpSuccess topUpRefund aliceDB tt toppedUpRun.2 tt takenBackRun.2
    topUp_created eq_refl (same_terms_refl _) (same_terms_refl _)).
  - eval_closed.
  - eval_closed.
  - by vm_compute.
  - exact aliceDB_ok.
  - apply aliceDB_room. lia.
  - apply memory_room; [lia|eval_closed].
  - apply pair_fst_eq. eval_closed.
  - intros H. rewrite H in Hb. revert Hb. eval_closed.
  - apply pair_fst_eq. eval_closed.
  - intros H. assert (storedBalance takenBackRun.2 "alice" "USD" = 495) as Hf by eval_closed.
    rewrite H, Hb in Hf. discriminate Hf.
Defined.
End witnesses.
