(* ===== verification/LedgerMessaging.v ===== *)
(** * The consumers of the ledger

    The Kafka consumer of payment events
    (ledger/application/messaging/message_handler_payment_intent.go), which has
    its own copies of the functions of [PaymentLedger], and the gRPC server
    (ledger/transport/grpc/server.go), which calls the service. Both hold the
    locks of the accounts while they record. The state is that of the locks
    with the database of the ledger. *)

From stdpp Require Import prelude strings gmap.
From S2P Require Import Prelude GoStrings Event Redis Locks LedgerEntity LedgerAccount LedgerRepo.
From S2P Require Import LedgerService PaymentEvents PaymentIntent PaymentLedger.
Import LedgerService.

(** ** Outbox messages (core/shared/contracts/outbox_structure.go)

    Raw JSON is the string that holds it. *)

Module OutboxMessage.
Record t := mk {
  ID : string;
  AggregateID : string;
  AggregateType : string;
  Version : Z;
  EventName : string;
  EventData : string;
  Metadata : string;
  CreatedAt : string
}.
End OutboxMessage.
Notation OutboxMessage := OutboxMessage.t.

(** [json.Unmarshal] into the types that are read here. An object decodes into
    its members, in the order in which a [range] over the map visits them;
    [DecodeMessage] reads a message by the tags of its fields. *)
Class PaymentJSON := {
  DecodeObject : string -> result (list (string * string));
  EncodeObject : gmap string string -> result string;
  DecodeMessage : string -> result OutboxMessage;
  DecodeString : string -> result string;
  DecodeWithdrawalRequested : string -> result PaymentWithdrawalRequestedEvent;
  DecodeFailed : string -> result PaymentFailedEvent;
  DecodeSettled : string -> string -> result PaymentSettledEvent
}.

Section outbox.
Context `{UC : UnicodeCase} `{Codec : PaymentJSON}.

(** The bodies of the two loops of [UnmarshalJSON]: members in lower case, then
    the others where their lower case is not taken. *)
Definition addExact (m : gmap string string) (member : string * string) : gmap string string :=
  let '(key, value) := member in
  if decide (key = ToLower key) then <[ToLower key := value]> m else m.

Definition addOther (m : gmap string string) (member : string * string) : gmap string string :=
  let '(key, value) := member in
  match m !! ToLower key with Some _ => m | None => <[ToLower key := value]> m end.

Definition normalizeMembers (raw : list (string * string)) : gmap string string :=
  foldl addOther (foldl addExact ∅ raw) raw.

Definition UnmarshalOutboxMessage (data : string) : result OutboxMessage :=
  raw ← DecodeObject data;
  normalizedData ← EncodeObject (normalizeMembers raw);
  DecodeMessage normalizedData.

(** [UnmarshalEventData], into a target that [decode] reads. *)
Definition UnmarshalEventData {A} (decode : string -> result A) (raw : string) : result A :=
  if decide (raw = "") then Err (Errorf "event_data is empty" [])
  else
    match decode raw with
    | Ok target => Ok target
    | Panic why => Panic why
    | Err _ =>
        encoded ← DecodeString raw;
        let encoded := TrimSpace encoded in
        if decide (encoded = "") then Err (Errorf "event_data is empty" [])
        else decode encoded
    end.
End outbox.

(** ** The consumer's own functions *)

Module LedgerMessaging.

Definition resolvePaymentID (aggregateID paymentID transactionID : string) : string :=
  FirstNonEmpty [TrimSpace paymentID; TrimSpace aggregateID; TrimSpace transactionID].

Definition reversalSuffix (reversalType : string) : string :=
  let name := TrimSpace reversalType in
  if decide (name = EventPaymentRefunded) then "refunded"
  else if decide (name = EventPaymentChargeback) then "chargeback"
  else "reversed".

Definition debitLedgerEventNameForReversal (paymentEventName : string) : string :=
  let name := TrimSpace paymentEventName in
  if decide (name = EventPaymentRefunded) then kindName WithdrawFromRefund
  else if decide (name = EventPaymentChargeback) then kindName WithdrawFromChargeback
  else "".

Definition creditLedgerEventNameForReversal (paymentEventName : string) : string :=
  let name := TrimSpace paymentEventName in
  if decide (name = EventPaymentRefunded) then kindName DepositFromRefund
  else if decide (name = EventPaymentChargeback) then kindName DepositFromChargeback
  else "".

(** The loop of [ledgerEventLockKeys], after the keys [seen]. *)
Fixpoint lockKeysFrom (seen : gset string) (events : LedgerEvents) : list string :=
  match events with
  | [] => []
  | evt :: events =>
      let key := TrimSpace (AggregateID evt) in
      if decide (key = "") then lockKeysFrom seen events
      else if decide (key ∈ seen) then lockKeysFrom seen events
      else key :: lockKeysFrom ({[key]} ∪ seen) events
  end.

Definition ledgerEventLockKeys (events : LedgerEvents) : list string := lockKeysFrom ∅ events.

Section events.
Context `{UC : UnicodeCase}.

Definition ledgerClearingAccountID (clearingAccountKey : string) : string :=
  "ledger:clearing:" +:+ ToLower (TrimSpace clearingAccountKey).

Definition providerClearingAccountKey (provider : string) : string :=
  let provider := ToLower (TrimSpace provider) in
  if decide (provider = "") then "" else "provider:" +:+ provider.

Definition newPaymentPosting (accountID transactionID referenceType referenceID
    counterpartyAccountID currency : string) (amountDelta : Z) (bookedAt : Time) :
    result LedgerAccountPosting :=
  match NewLedgerAccountPaymentPosting (LedgerAccountPostingInput.mk accountID transactionID
          referenceType referenceID counterpartyAccountID currency amountDelta bookedAt) with
  | Ok posting => Ok posting
  | Err _ => Panic "panic(err)"
  | Panic why => Panic why
  end.

Fixpoint paymentLedgerEventsFromPostings (inputs : list expectedLedgerPosting) :
    result LedgerEvents :=
  match inputs with
  | [] => Ok []
  | (accountID, posting) :: rest =>
      evt ← NewLedgerAccountEventFromPosting accountID posting;
      match evt with
      | None => Err (Errorf "unsupported ledger posting reference_type=%s" [])
      | Some evt => evts ← paymentLedgerEventsFromPostings rest; Ok (evt :: evts)
      end
  end.

Definition paymentLedgerEventsFromBooking (now : Time) (transactionID paymentID currency : string)
    (amount : Z) (debitAccountID creditAccountID debitEventName creditEventName : string)
    (bookedAt : Time) : result LedgerEvents :=
  let bookedAt := if IsZero bookedAt then UTC now else bookedAt in
  debitPosting ← NewLedgerAccountPaymentPosting (LedgerAccountPostingInput.mk debitAccountID
    transactionID debitEventName paymentID creditAccountID currency (neg64 amount) bookedAt);
  creditPosting ← NewLedgerAccountPaymentPosting (LedgerAccountPostingInput.mk creditAccountID
    transactionID creditEventName paymentID debitAccountID currency amount bookedAt);
  debitEvent ← NewLedgerAccountEventFromPosting debitAccountID debitPosting;
  match debitEvent with
  | None => Err (Errorf "unsupported debit ledger event reference_type=%s" [])
  | Some debitEvent =>
      creditEvent ← NewLedgerAccountEventFromPosting creditAccountID creditPosting;
      match creditEvent with
      | None => Err (Errorf "unsupported credit ledger event reference_type=%s" [])
      | Some creditEvent => Ok [debitEvent; creditEvent]
      end
  end.

(** [h.feeAccountID] is the argument [feeAccountID]. *)
Definition paymentWithdrawalRequestedLedgerEvents (feeAccountID : string)
    (payload : PaymentWithdrawalRequestedEvent) : result LedgerEvents :=
  let clearingAccountID := ledgerClearingAccountID (FirstNonEmpty
    [TrimSpace (PaymentWithdrawalRequestedEvent.ClearingAccountKey payload);
     providerClearingAccountKey (PaymentWithdrawalRequestedEvent.Provider payload)]) in
  let paymentID := TrimSpace (PaymentWithdrawalRequestedEvent.PaymentID payload) in
  let account := TrimSpace (PaymentWithdrawalRequestedEvent.DebitAccountID payload) in
  let feeAccount := TrimSpace feeAccountID in
  let currency := PaymentWithdrawalRequestedEvent.Currency payload in
  let amount := PaymentWithdrawalRequestedEvent.Amount payload in
  let fee := PaymentWithdrawalRequestedEvent.FeeAmount payload in
  let at_ := PaymentWithdrawalRequestedEvent.RequestedAt payload in
  let principalID := "payment:" +:+ paymentID +:+ ":withdrawal:principal" in
  let feeID := "payment:" +:+ paymentID +:+ ":withdrawal:fee" in
  debit ← newPaymentPosting account principalID (kindName ReserveWithdrawal) paymentID
            clearingAccountID currency (neg64 amount) at_;
  credit ← newPaymentPosting clearingAccountID principalID (kindName ReceiveWithdrawalHold)
             paymentID account currency amount at_;
  principalEvents ← paymentLedgerEventsFromPostings [(account, debit); (clearingAccountID, credit)];
  if decide (0 < fee /\ feeAccount <> "") then
    debit ← newPaymentPosting account feeID (kindName ReserveWithdrawal) paymentID feeAccount
              currency (neg64 fee) at_;
    credit ← newPaymentPosting feeAccount feeID (kindName ReceiveWithdrawalHold) paymentID account
               currency fee at_;
    feeEvents ← paymentLedgerEventsFromPostings [(account, debit); (feeAccount, credit)];
    Ok (principalEvents ++ feeEvents)
  else Ok principalEvents.

Definition paymentSucceededLedgerEvents (now : Time) (feeAccountID : string)
    (payload : PaymentSettledEvent) : result LedgerEvents :=
  if decide (NormalizePaymentWorkflow (PaymentSettledEvent.Workflow payload) =
             PaymentWorkflowWithdrawal) then Ok []
  else
  booking ← NewPaymentSucceededBooking (PaymentSucceededBookingInput.mk
    (PaymentSettledEvent.PaymentID payload)
    (PaymentSettledEvent.TransactionID payload) (PaymentSettledEvent.ClearingAccountKey payload)
    (PaymentSettledEvent.CreditAccountID payload) (PaymentSettledEvent.Currency payload)
    (PaymentSettledEvent.Amount payload));
  events ← paymentLedgerEventsFromBooking now (PaymentSucceededBooking_LedgerTransactionID booking)
    (PaymentSucceededBooking.PaymentID booking) (PaymentSucceededBooking.Currency booking)
    (PaymentSucceededBooking.Amount booking) (PaymentSucceededBooking.DebitAccountID booking)
    (PaymentSucceededBooking.CreditAccountID booking) (kindName WithdrawFromIntent)
    (kindName DepositFromIntent) (PaymentSettledEvent.OccurredAt payload);
  if decide (0 < PaymentSettledEvent.FeeAmount payload /\ TrimSpace feeAccountID <> "") then
    feeEvents ← paymentLedgerEventsFromBooking now
      ("payment:" +:+ TrimSpace (PaymentSucceededBooking.PaymentID booking) +:+ ":succeeded:fee")
      (PaymentSucceededBooking.PaymentID booking) (PaymentSucceededBooking.Currency booking)
      (PaymentSettledEvent.FeeAmount payload)
      (ledgerClearingAccountID (PaymentSettledEvent.ClearingAccountKey payload))
      (TrimSpace feeAccountID) (kindName WithdrawFromIntent) (kindName DepositFromIntent)
      (PaymentSettledEvent.OccurredAt payload);
    Ok (events ++ feeEvents)
  else Ok events.

Definition paymentFailedLedgerEvents (feeAccountID : string) (payload : PaymentFailedEvent) :
    result LedgerEvents :=
  if decide (NormalizePaymentWorkflow (PaymentFailedEvent.Workflow payload) <>
             PaymentWorkflowWithdrawal) then Ok []
  else
  let paymentID := TrimSpace (PaymentFailedEvent.PaymentID payload) in
  let account := TrimSpace (PaymentFailedEvent.DebitAccountID payload) in
  let clearingAccountID :=
    ledgerClearingAccountID (PaymentFailedEvent.ClearingAccountKey payload) in
  let feeAccount := TrimSpace feeAccountID in
  let currency := PaymentFailedEvent.Currency payload in
  let amount := PaymentFailedEvent.Amount payload in
  let fee := PaymentFailedEvent.FeeAmount payload in
  let at_ := PaymentFailedEvent.OccurredAt payload in
  let principalID := "payment:" +:+ paymentID +:+ ":withdrawal:principal:failed" in
  let feeID := "payment:" +:+ paymentID +:+ ":withdrawal:fee:failed" in
  credit ← newPaymentPosting account principalID (kindName ReleaseWithdrawal) paymentID
             clearingAccountID currency amount at_;
  debit ← newPaymentPosting clearingAccountID principalID (kindName WithdrawReleasedHold)
            paymentID account currency (neg64 amount) at_;
  principalEvents ← paymentLedgerEventsFromPostings [(account, credit); (clearingAccountID, debit)];
  if decide (0 < fee /\ feeAccount <> "") then
    credit ← newPaymentPosting account feeID (kindName ReleaseWithdrawal) paymentID feeAccount
               currency fee at_;
    debit ← newPaymentPosting feeAccount feeID (kindName WithdrawReleasedHold) paymentID account
              currency (neg64 fee) at_;
    feeEvents ← paymentLedgerEventsFromPostings [(account, credit); (feeAccount, debit)];
    Ok (principalEvents ++ feeEvents)
  else Ok principalEvents.

Definition paymentReversedLedgerEvents (now : Time)
    (feeAccountID paymentID transactionID clearingAccountKey creditAccountID currency : string)
    (amount feeAmount : Z) (reversalType : string) (bookedAt : Time) : result LedgerEvents :=
  booking ← NewPaymentReversalBooking (PaymentReversalBookingInput.mk paymentID transactionID
    clearingAccountKey creditAccountID currency amount reversalType);
  events ← paymentLedgerEventsFromBooking now (PaymentReversalBooking_LedgerTransactionID booking)
    (PaymentReversalBooking.PaymentID booking) (PaymentReversalBooking.Currency booking)
    (PaymentReversalBooking.Amount booking) (PaymentReversalBooking.DebitAccountID booking)
    (PaymentReversalBooking.CreditAccountID booking)
    (debitLedgerEventNameForReversal (PaymentReversalBooking.ReversalType booking))
    (creditLedgerEventNameForReversal (PaymentReversalBooking.ReversalType booking)) bookedAt;
  if decide (0 < feeAmount /\ TrimSpace feeAccountID <> "") then
    feeEvents ← paymentLedgerEventsFromBooking now
      ("payment:" +:+ TrimSpace (PaymentReversalBooking.PaymentID booking) +:+ ":" +:+
         reversalSuffix reversalType +:+ ":fee")
      (PaymentReversalBooking.PaymentID booking) (PaymentReversalBooking.Currency booking)
      feeAmount (TrimSpace feeAccountID) (ledgerClearingAccountID clearingAccountKey)
      (debitLedgerEventNameForReversal reversalType)
      (creditLedgerEventNameForReversal reversalType) bookedAt;
    Ok (events ++ feeEvents)
  else Ok events.
End events.

(** ** The handler *)

Definition withdrawalWithID (id : string) (p : PaymentWithdrawalRequestedEvent) :
    PaymentWithdrawalRequestedEvent :=
  let '(PaymentWithdrawalRequestedEvent.mk _ b c d e f g h i j k l) := p in
  PaymentWithdrawalRequestedEvent.mk id b c d e f g h i j k l.

Definition settledWithID (id : string) (p : PaymentSettledEvent) : PaymentSettledEvent :=
  let '(PaymentSettledEvent.mk a _ c d e f g h i j k l m n o q) := p in
  PaymentSettledEvent.mk a id c d e f g h i j k l m n o q.

Definition failedWithID (id : string) (p : PaymentFailedEvent) : PaymentFailedEvent :=
  let '(PaymentFailedEvent.mk a _ c d e f g h i j k l m n o q) := p in
  PaymentFailedEvent.mk a id c d e f g h i j k l m n o q.

Definition resolvePaymentWithdrawalRequestedID (aggregateID : string)
    (p : PaymentWithdrawalRequestedEvent) : string :=
  resolvePaymentID aggregateID (PaymentWithdrawalRequestedEvent.PaymentID p)
    (PaymentWithdrawalRequestedEvent.TransactionID p).

Definition resolvePaymentSettledID (aggregateID : string) (p : PaymentSettledEvent) : string :=
  resolvePaymentID aggregateID (PaymentSettledEvent.PaymentID p) (PaymentSettledEvent.TransactionID p).

Definition resolvePaymentFailedID (aggregateID : string) (p : PaymentFailedEvent) : string :=
  resolvePaymentID aggregateID (PaymentFailedEvent.PaymentID p) (PaymentFailedEvent.TransactionID p).

(** The handler, with the store of the outbox events of its service. *)
Record messageHandler (L DB : Type) := mkMessageHandler {
  locker : option (Lock L);
  handlerFeeAccountID : string;
  handlerOutbox : option (Store DB ReconciliationFailure)
}.
Arguments mkMessageHandler {L DB} _ _ _.
Arguments locker {L DB} _.
Arguments handlerFeeAccountID {L DB} _.
Arguments handlerOutbox {L DB} _.

Definition NewMessageHandler {L DB} (locker : option (Lock L)) (feeAccountID : string)
    (outbox : option (Store DB ReconciliationFailure)) : messageHandler L DB :=
  mkMessageHandler locker (TrimSpace feeAccountID) outbox.

Definition LedgerAccountLockKeyPrefix : string := "ledger-account".

(** The locks of the ledger's accounts around a call on the database. *)
Definition withAccountLocks {L DB A} (locker : option (Lock L)) (lockValue : string)
    (lockKeys : list string) (fn : method DB A) : method (L * DB) A :=
  WithLocks (lockFirst <$> locker) lockValue lockKeys
    (withKeyPrefix DefaultMultiLockOptions LedgerAccountLockKeyPrefix) (onSecond fn).

Section handler.
Context `{UC : UnicodeCase} `{Codec : PaymentJSON} {L DB : Type} `{Repo : LedgerRepo DB}.
Context (errorText : error -> string).
Implicit Types (h : messageHandler L DB).

Definition withLedgerAccountLocks h (lockValue : string) (lockKeys : list string)
    (fn : method DB unit) : method (L * DB) unit :=
  withAccountLocks (locker h) lockValue lockKeys fn.

(** [errorText] is [err.Error()]. *)
Definition emitPaymentReconciliationFailed (now : Time) h (payload : PaymentSettledEvent)
    (cause : error) : method DB unit :=
  RecordPaymentReconciliationFailed now (handlerOutbox h)
    (ReconciliationFailure.mk (resolvePaymentSettledID (PaymentSettledEvent.PaymentID payload) payload)
       (TrimSpace (PaymentSettledEvent.TransactionID payload))
       (TrimSpace (PaymentSettledEvent.Provider payload))
       (TrimSpace (PaymentSettledEvent.ClearingAccountKey payload))
       (TrimSpace (PaymentSettledEvent.CreditAccountID payload))
       (TrimSpace (PaymentSettledEvent.Currency payload))
       (PaymentSettledEvent.Amount payload) (PaymentSettledEvent.FeeAmount payload)
       (PaymentSettledEvent.ProviderAmount payload) (TrimSpace (errorText cause)) Time_zero).

Definition unmarshalPayload {A} (format : string) (decode : string -> result A) (data : string) :
    result A :=
  map_err (fun err => Errorf format [err]) (UnmarshalEventData decode data).

(** The end of [handlePaymentOutboxEvent]. *)
Definition recordUnderLocks h (lockValue : string) (events : LedgerEvents) : method (L * DB) unit :=
  if decide (length events = 0%nat) then mret tt
  else withLedgerAccountLocks h lockValue (ledgerEventLockKeys events) (RecordLedgerEvents events).

Definition reversed (now : Time) h (lockValue aggregateID name data format : string) :
    method (L * DB) unit :=
  payload ← lift (unmarshalPayload format (DecodeSettled name) data);
  let payload := settledWithID (resolvePaymentSettledID aggregateID payload) payload in
  events ← lift (paymentReversedLedgerEvents now (handlerFeeAccountID h)
    (PaymentSettledEvent.PaymentID payload) (PaymentSettledEvent.TransactionID payload)
    (PaymentSettledEvent.ClearingAccountKey payload) (PaymentSettledEvent.CreditAccountID payload)
    (PaymentSettledEvent.Currency payload) (PaymentSettledEvent.Amount payload)
    (PaymentSettledEvent.FeeAmount payload) name (PaymentSettledEvent.OccurredAt payload));
  recordUnderLocks h lockValue events.

Definition handlePaymentOutboxEvent (now : Time) h (lockValue value : string) :
    method (L * DB) unit :=
  event ← lift (map_err (fun err => Errorf "unmarshal payment outbox event failed: %w" [err])
    (UnmarshalOutboxMessage value));
  let name := OutboxMessage.EventName event in
  let aggregateID := OutboxMessage.AggregateID event in
  let data := OutboxMessage.EventData event in
  if decide (name = EventPaymentWithdrawalRequested) then
    payload ← lift (unmarshalPayload "unmarshal payment withdrawal requested payload failed: %w"
      DecodeWithdrawalRequested data);
    let payload :=
      withdrawalWithID (resolvePaymentWithdrawalRequestedID aggregateID payload) payload in
    events ← lift (paymentWithdrawalRequestedLedgerEvents (handlerFeeAccountID h) payload);
    recordUnderLocks h lockValue events
  else if decide (name = EventPaymentCreated) then mret tt
  else if decide (name = EventPaymentSucceeded) then
    payload ← lift (unmarshalPayload "unmarshal payment succeeded payload failed: %w"
      (DecodeSettled EventPaymentSucceeded) data);
    let payload := settledWithID (resolvePaymentSettledID aggregateID payload) payload in
    match paymentSucceededLedgerEvents now (handlerFeeAccountID h) payload with
    | Ok events => recordUnderLocks h lockValue events
    | Err cause => onSecond (emitPaymentReconciliationFailed now h payload cause)
    | Panic why => lift (Panic why)
    end
  else if decide (name = EventPaymentFailed) then
    payload ← lift (unmarshalPayload "unmarshal payment failed payload failed: %w" DecodeFailed data);
    let payload := failedWithID (resolvePaymentFailedID aggregateID payload) payload in
    events ← lift (paymentFailedLedgerEvents (handlerFeeAccountID h) payload);
    recordUnderLocks h lockValue events
  else if decide (name = EventPaymentRefunded) then
    reversed now h lockValue aggregateID EventPaymentRefunded data
      "unmarshal payment refunded payload failed: %w"
  else if decide (name = EventPaymentChargeback) then
    reversed now h lockValue aggregateID EventPaymentChargeback data
      "unmarshal payment chargeback payload failed: %w"
  else mret tt.
End handler.
End LedgerMessaging.
