(* ===== verification/LedgerTransport.v ===== *)
(** * Requests to the ledger

    The gRPC server that applies payment events
    (ledger/transport/grpc/server.go), the transfer command
    (ledger/application/command/transfer_transaction_handler.go) and the fee
    policy (shared/finance/stripe_fee.go). *)

From stdpp Require Import prelude strings gmap.
From S2P Require Import Prelude GoStrings Event Redis Locks LedgerEntity LedgerAccount LedgerRepo.
From S2P Require Import LedgerService PaymentEvents PaymentIntent PaymentLedger LedgerMessaging.
Import LedgerService.

(** ** Fees *)

Module StripeFeePolicy.
Record t := mk { RateBPS : Z; FlatAmount : Z }.
End StripeFeePolicy.
Notation StripeFeePolicy := StripeFeePolicy.t.

Definition Compute_ (p : StripeFeePolicy) (amount : Z) : result Z :=
  if decide (amount <= 0) then Err (Errorf "amount must be greater than 0" [])
  else if decide (StripeFeePolicy.RateBPS p < 0) then
    Err (Errorf "rate_bps must be greater than or equal to 0" [])
  else if decide (StripeFeePolicy.FlatAmount p < 0) then
    Err (Errorf "flat_amount must be greater than or equal to 0" [])
  else
  let rateFee :=
    if decide (0 < StripeFeePolicy.RateBPS p)
    then Z.quot (add64 (mul64 amount (StripeFeePolicy.RateBPS p)) 9999) 10000 else 0 in
  let totalFee := add64 rateFee (StripeFeePolicy.FlatAmount p) in
  if decide (totalFee < 0) then Err (Errorf "stripe fee overflow for amount=%d" [])
  else Ok totalFee.

(** ** The gRPC server *)

Module LedgerRPC.

(** [locker] and [service] may be nil. *)
Record server (L : Type) := mkServer {
  locker : option (Lock L);
  service : option paymentEventService;
  serverFeeAccountID : string
}.
Arguments mkServer {L} _ _ _.
Arguments locker {L} _.
Arguments service {L} _.
Arguments serverFeeAccountID {L} _.

Definition NewPaymentServer {L} (locker : option (Lock L)) (service : option paymentEventService)
    (feeAccountID : string) : server L :=
  mkServer locker service (TrimSpace feeAccountID).

(** The loop of [normalizeLockKeys], after the keys [seen]. *)
Fixpoint normalizeLockKeysFrom (seen : gset string) (keys : list string) : list string :=
  match keys with
  | [] => []
  | key :: keys =>
      let key := TrimSpace key in
      if decide (key = "") then normalizeLockKeysFrom seen keys
      else if decide (key ∈ seen) then normalizeLockKeysFrom seen keys
      else key :: normalizeLockKeysFrom ({[key]} ∪ seen) keys
  end.

Definition normalizeLockKeys (keys : list string) : list string := normalizeLockKeysFrom ∅ keys.

Fixpoint firstNonEmpty (values : list string) : string :=
  match values with
  | [] => ""
  | value :: values =>
      if decide (TrimSpace value <> "") then TrimSpace value else firstNonEmpty values
  end.

Section keys.
Context `{UC : UnicodeCase}.

Definition ledgerClearingAccountID (clearingAccountKey : string) : string :=
  let clearingAccountKey := ToLower (TrimSpace clearingAccountKey) in
  if decide (clearingAccountKey = "") then "" else "ledger:clearing:" +:+ clearingAccountKey.

Definition providerClearingAccountKey (provider : string) : string :=
  let provider := ToLower (TrimSpace provider) in
  if decide (provider = "") then "" else "provider:" +:+ provider.

Definition feeKey (feeAmount : Z) (feeAccountID : string) : list string :=
  if decide (0 < feeAmount) then [TrimSpace feeAccountID] else [].

Definition withdrawalRequestedLockKeys (payload : PaymentWithdrawalRequestedEvent)
    (feeAccountID : string) : list string :=
  normalizeLockKeys
    ([TrimSpace (PaymentWithdrawalRequestedEvent.DebitAccountID payload);
      ledgerClearingAccountID (firstNonEmpty
        [PaymentWithdrawalRequestedEvent.ClearingAccountKey payload;
         providerClearingAccountKey (PaymentWithdrawalRequestedEvent.Provider payload)])]
     ++ feeKey (PaymentWithdrawalRequestedEvent.FeeAmount payload) feeAccountID).

Definition succeededLockKeys (payload : PaymentSettledEvent) (feeAccountID : string) : list string :=
  normalizeLockKeys
    ([ledgerClearingAccountID (PaymentSettledEvent.ClearingAccountKey payload);
      TrimSpace (PaymentSettledEvent.CreditAccountID payload)]
     ++ feeKey (PaymentSettledEvent.FeeAmount payload) feeAccountID).

Definition failedLockKeys (payload : PaymentFailedEvent) (feeAccountID : string) : list string :=
  normalizeLockKeys
    ([TrimSpace (PaymentFailedEvent.DebitAccountID payload);
      ledgerClearingAccountID (PaymentFailedEvent.ClearingAccountKey payload)]
     ++ feeKey (PaymentFailedEvent.FeeAmount payload) feeAccountID).

Definition reversedLockKeys (clearingAccountKey creditAccountID : string) (feeAmount : Z)
    (feeAccountID : string) : list string :=
  normalizeLockKeys
    ([ledgerClearingAccountID clearingAccountKey; TrimSpace creditAccountID]
     ++ feeKey feeAmount feeAccountID).
End keys.

Section server.
Context `{UC : UnicodeCase} `{Codec : PaymentJSON} {L DB : Type} `{Repo : LedgerRepo DB}.
Implicit Types (s : server L).

Definition withLedgerLocks s (lockValue : string) (keys : list string)
    (fn : paymentEventService -> method DB unit) : method (L * DB) unit :=
  match service s with
  | None => mret tt
  | Some svc => LedgerMessaging.withAccountLocks (locker s) lockValue keys (fn svc)
  end.

Definition decodePayload {A} (format : string) (decode : string -> result A) (raw : string) :
    result A :=
  map_err (fun err => Errorf format [err]) (UnmarshalEventData decode raw).

Definition applyPaymentEvent (now : Time) s (lockValue eventName raw : string) :
    method (L * DB) bool :=
  let fee := serverFeeAccountID s in
  if decide (eventName = EventPaymentCreated \/ eventName = EventPaymentCheckoutSessionCreated) then
    mret false
  else if decide (eventName = EventPaymentWithdrawalRequested) then
    payload ← lift (decodePayload "decode payment withdrawal requested payload failed: %w"
                      DecodeWithdrawalRequested raw);
    _ ← withLedgerLocks s lockValue (withdrawalRequestedLockKeys payload fee)
          (fun svc => PaymentLedger.HandleWithdrawalRequested svc payload);
    mret true
  else if decide (eventName = EventPaymentSucceeded) then
    payload ← lift (decodePayload "decode payment succeeded payload failed: %w"
                      (DecodeSettled EventPaymentSucceeded) raw);
    if EqualFold (TrimSpace (PaymentSettledEvent.Workflow payload)) "WITHDRAWAL" then mret false
    else
    _ ← withLedgerLocks s lockValue (succeededLockKeys payload fee)
          (fun svc => PaymentLedger.HandleSucceeded now svc payload);
    mret true
  else if decide (eventName = EventPaymentFailed) then
    payload ← lift (decodePayload "decode payment failed payload failed: %w" DecodeFailed raw);
    if negb (EqualFold (TrimSpace (PaymentFailedEvent.Workflow payload)) "WITHDRAWAL") then mret false
    else
    _ ← withLedgerLocks s lockValue (failedLockKeys payload fee)
          (fun svc => PaymentLedger.HandleFailed svc payload);
    mret true
  else if decide (eventName = EventPaymentRefunded) then
    payload ← lift (decodePayload "decode payment refunded payload failed: %w"
                      (DecodeSettled EventPaymentRefunded) raw);
    _ ← withLedgerLocks s lockValue (reversedLockKeys (PaymentSettledEvent.ClearingAccountKey payload)
          (PaymentSettledEvent.CreditAccountID payload) (PaymentSettledEvent.FeeAmount payload) fee)
          (fun svc => PaymentLedger.HandleRefunded now svc payload);
    mret true
  else if decide (eventName = EventPaymentChargeback) then
    payload ← lift (decodePayload "decode payment chargeback payload failed: %w"
                      (DecodeSettled EventPaymentChargeback) raw);
    _ ← withLedgerLocks s lockValue (reversedLockKeys (PaymentSettledEvent.ClearingAccountKey payload)
          (PaymentSettledEvent.CreditAccountID payload) (PaymentSettledEvent.FeeAmount payload) fee)
          (fun svc => PaymentLedger.HandleChargeback now svc payload);
    mret true
  else mret false.

(** [mapGRPCError] keeps the text of the error and nothing else. *)
Definition ApplyPaymentEvent (now : Time) s (lockValue eventName eventDataJSON : string) :
    method (L * DB) bool :=
  wrap_err (fun err => Errorf "rpc error: code = Internal" [])
    (applyPaymentEvent now s lockValue (TrimSpace eventName) eventDataJSON).
End server.
End LedgerRPC.

(** ** The transfer command *)

Module TransferTransactionRequest.
Record t := mk { ToAccountID : string; Currency : string; Amount : Z }.
End TransferTransactionRequest.

Module TransferTransaction.
Record handler (L : Type) := mkHandler {
  locker : option (Lock L);
  feePolicy : StripeFeePolicy;
  transferFeeAccountID : string
}.
Arguments mkHandler {L} _ _ _.
Arguments locker {L} _.
Arguments feePolicy {L} _.
Arguments transferFeeAccountID {L} _.

Definition ErrUnauthorized := Sentinel "ErrUnauthorized".

Section handler.
Context `{UC : UnicodeCase} {L DB : Type} `{Repo : LedgerRepo DB}.
Implicit Types (u : handler L).

(** [transferFn]; [transactionID] is a fresh id. The response has the fields of
    the transaction. *)
Definition transferFn (now nowFee : Time) (transactionID : string) u (fromAccountID : string)
    (req : TransferTransactionRequest.t) : method DB LedgerTransaction :=
  feeAmount ← lift (map_err (fun err => Errorf "%w: %w" [ErrValidation; err])
                      (Compute_ (feePolicy u) (TransferTransactionRequest.Amount req)));
  TransferToAccount now nowFee (TransferToAccountCommand.mk transactionID fromAccountID
    (TransferTransactionRequest.ToAccountID req) (TransferTransactionRequest.Currency req)
    (TransferTransactionRequest.Amount req) feeAmount (transferFeeAccountID u)).

(** [actor] is the account id in the context, which is trimmed. *)
Definition Handle (now nowFee : Time) (transactionID lockValue : string) u (actor : string)
    (req : TransferTransactionRequest.t) : method (L * DB) LedgerTransaction :=
  if decide (actor = "") then
    raise (Errorf "%w: %w" [ErrUnauthorized; Errorf "unauthorized" []])
  else
  let lockKeys := [actor; TransferTransactionRequest.ToAccountID req] ++
    (if decide (transferFeeAccountID u <> "") then [transferFeeAccountID u] else []) in
  LedgerMessaging.withAccountLocks (locker u) lockValue lockKeys
    (transferFn now nowFee transactionID u actor req).
End handler.
End TransferTransaction.
