(* ===== verification/LedgerMessagingSpec.v ===== *)
(** * The consumer does what the service does

    The consumer's copies compute the same ledger events as the payment event
    service, so that a message moves what its payment event moves; its locks
    cover the accounts that change. *)

From stdpp Require Import prelude strings gmap.
From S2P Require Import Prelude GoStrings Event Redis Locks LocksSpec.
From S2P Require Import LedgerEntity LedgerAccount LedgerAccountInv LedgerAccountSpec LedgerRepo LedgerService.
From S2P Require Import LedgerServiceInv LedgerServiceSpec LedgerServiceTheorems.
From S2P Require Import PaymentEvents PaymentIntent PaymentLedger PaymentLedgerSpec PaymentLedgerTheorems.
From S2P Require Import LedgerMessaging.
Import LedgerMessaging LedgerService.

(** ** The members of a message *)

Section members.
Context `{UC : UnicodeCase}.

Lemma addExact_keeps raw m key v :
  key ∉ raw.*1 -> m !! key = Some v -> foldl addExact m raw !! key = Some v.
Proof.
  revert m. induction raw as [|[k' v'] raw IH]; intros m Hk Hm; [done|].
  apply not_elem_of_cons in Hk as [Hk Hk']. apply IH; [done|]. unfold addExact.
  case_decide as Hlow; [|done]. rewrite <- Hlow. by rewrite lookup_insert_ne.
Qed.

Lemma addOther_keeps raw m key v : m !! key = Some v -> foldl addOther m raw !! key = Some v.
Proof.
  revert m. induction raw as [|[k' v'] raw IH]; intros m Hm; [done|]. apply IH. unfold addOther.
  destruct (m !! ToLower k') eqn:E; [done|]. rewrite lookup_insert_ne; [done|]. congruence.
Qed.

(** A member whose name is in lower case is read, whatever other spellings of
    its name the message has, and in whatever order they are visited. *)
Lemma normalizeMembers_exact raw key value :
  NoDup raw.*1 -> (key, value) ∈ raw -> ToLower key = key -> normalizeMembers raw !! key = Some value.
Proof.
  intros Hd Hin Hl. unfold normalizeMembers. apply addOther_keeps.
  generalize (∅ : gmap string string).
  induction raw as [|[k v] raw IH]; intros m; [by apply not_elem_of_nil in Hin|].
  apply NoDup_cons in Hd as [Hk Hd]. cbn [foldl].
  apply elem_of_cons in Hin as [[= -> ->]|Hin]; [|by apply IH].
  apply addExact_keeps; [done|]. unfold addExact. rewrite decide_True by done.
  rewrite Hl. apply lookup_insert_eq.
Qed.
End members.

(** ** The copies *)

Section copies.
Context `{UC : UnicodeCase}.

Lemma FirstNonEmpty_is_trimmed l : trimmed (FirstNonEmpty l).
Proof.
  induction l as [|x l IH]; [apply trimmed_empty|]. cbn. case_decide; [apply TrimSpace_trimmed|done].
Qed.

Lemma FirstNonEmpty_empty l x : FirstNonEmpty l = "" -> x ∈ l -> TrimSpace x = "".
Proof.
  induction l as [|y l IH]; cbn; [by intros _ ?%not_elem_of_nil|]. case_decide as H; [done|].
  intros Hl [->|Hx]%elem_of_cons; [|by apply IH]. by destruct (decide (TrimSpace y = "")).
Qed.

(** An id that was resolved from the payload and the aggregate is the one that
    the service resolves. *)
Lemma resolved_again aggregateID paymentID transactionID :
  let id := resolvePaymentID aggregateID paymentID transactionID in
  resolvePaymentEventID id transactionID = id /\ TrimSpace id = id.
Proof.
  cbv zeta. set (id := resolvePaymentID _ _ _).
  assert (trimmed id) as Ht by apply FirstNonEmpty_is_trimmed. split; [|exact Ht].
  unfold resolvePaymentEventID. rewrite Ht. destruct (decide (id = "")) as [Hempty|Hne];
    [|by apply FirstNonEmpty_trimmed].
  rewrite Hempty. pose proof (FirstNonEmpty_empty _ (TrimSpace transactionID) Hempty) as Hx.
  rewrite TrimSpace_idem in Hx. rewrite Hx by (right; right; by left). done.
Qed.

Lemma fromPostings_copy inputs :
  LedgerMessaging.paymentLedgerEventsFromPostings inputs
  = PaymentLedger.paymentLedgerEventsFromPostings inputs.
Proof.
  induction inputs as [|[id p] rest IH]; [done|]. cbn.
  destruct (NewLedgerAccountEventFromPosting id p) as [[e|]|e|w]; [|done..]. cbn. by rewrite IH.
Qed.

Lemma withdrawalPair_copy {B} tid pid acc ty delta other ty' delta' cur at_ (k : LedgerEvents -> result B) :
  (p ← LedgerMessaging.newPaymentPosting acc tid ty pid other cur delta at_;
   q ← LedgerMessaging.newPaymentPosting other tid ty' pid acc cur delta' at_;
   evts ← LedgerMessaging.paymentLedgerEventsFromPostings [(acc, p); (other, q)]; k evts)
  = (PaymentLedger.withdrawalPair tid pid acc ty delta other ty' delta' cur at_ ≫= k).
Proof.
  unfold PaymentLedger.withdrawalPair, LedgerMessaging.newPaymentPosting, PaymentLedger.newPaymentPosting.
  destruct (NewLedgerAccountPaymentPosting (LedgerAccountPostingInput.mk acc _ _ _ _ _ _ _)); [|done..].
  cbn [mbind result_bind].
  destruct (NewLedgerAccountPaymentPosting (LedgerAccountPostingInput.mk other _ _ _ _ _ _ _)); [|done..].
  cbn [mbind result_bind]. by rewrite fromPostings_copy.
Qed.

(** The payload names the payment that the service would resolve. *)
Definition resolved (paymentID transactionID : string) : Prop :=
  resolvePaymentEventID paymentID transactionID = paymentID /\ TrimSpace paymentID = paymentID.

Lemma withdrawalRequested_copy fee p :
  resolved (PaymentWithdrawalRequestedEvent.PaymentID p) (PaymentWithdrawalRequestedEvent.TransactionID p) ->
  LedgerMessaging.paymentWithdrawalRequestedLedgerEvents fee p
  = PaymentLedger.paymentWithdrawalRequestedLedgerEvents (NewPaymentEventService fee) p.
Proof.
  intros [H1 H2]. unfold LedgerMessaging.paymentWithdrawalRequestedLedgerEvents,
    PaymentLedger.paymentWithdrawalRequestedLedgerEvents. cbv zeta. rewrite H1, H2, withdrawalPair_copy.
  cbn [feeAccountID NewPaymentEventService].
  destruct (PaymentLedger.withdrawalPair _ _ _ _ _ _ _ _ _ _) as [e1|e|w]; [|done..].
  cbn [mbind result_bind]. case_decide; [|done]. apply withdrawalPair_copy.
Qed.

Lemma failed_copy fee p :
  resolved (PaymentFailedEvent.PaymentID p) (PaymentFailedEvent.TransactionID p) ->
  LedgerMessaging.paymentFailedLedgerEvents fee p
  = PaymentLedger.paymentFailedLedgerEvents (NewPaymentEventService fee) p.
Proof.
  intros [H1 H2]. unfold LedgerMessaging.paymentFailedLedgerEvents,
    PaymentLedger.paymentFailedLedgerEvents. case_decide; [done|].
  cbv zeta. rewrite H1, H2, withdrawalPair_copy. cbn [feeAccountID NewPaymentEventService].
  destruct (PaymentLedger.withdrawalPair _ _ _ _ _ _ _ _ _ _) as [e1|e|w]; [|done..].
  cbn [mbind result_bind]. case_decide; [|done]. apply withdrawalPair_copy.
Qed.

Lemma fromBooking_copy now tid pid cur amt d c dn cn at_ :
  LedgerMessaging.paymentLedgerEventsFromBooking now tid pid cur amt d c dn cn at_
  = PaymentLedger.paymentLedgerEventsFromBooking now tid pid cur amt d c dn cn at_.
Proof. reflexivity. Qed.

Lemma succeeded_copy now fee p :
  resolved (PaymentSettledEvent.PaymentID p) (PaymentSettledEvent.TransactionID p) ->
  LedgerMessaging.paymentSucceededLedgerEvents now fee p
  = PaymentLedger.paymentSucceededLedgerEvents now (NewPaymentEventService fee) p.
Proof.
  intros [H1 _]. unfold LedgerMessaging.paymentSucceededLedgerEvents,
    PaymentLedger.paymentSucceededLedgerEvents. case_decide; [done|]. rewrite H1.
  destruct (NewPaymentSucceededBooking _) as [b|e|w] eqn:Hb; [|done..]. cbn [mbind result_bind].
  apply NewPaymentSucceededBooking_Ok in Hb as [Hid _].
  unfold paymentTransactionID. rewrite Hid, bookingPaymentID_trimmed. reflexivity.
Qed.

Lemma reversed_copy now fee pid tid key credit cur amt f ty at_ :
  LedgerMessaging.paymentReversedLedgerEvents now fee pid tid key credit cur amt f ty at_
  = PaymentLedger.paymentReversedLedgerEvents now (NewPaymentEventService fee) pid tid key credit cur
      amt f ty at_.
Proof.
  unfold LedgerMessaging.paymentReversedLedgerEvents, PaymentLedger.paymentReversedLedgerEvents.
  destruct (NewPaymentReversalBooking _) as [b|e|w] eqn:Hb; [|done..]. cbn [mbind result_bind].
  apply NewPaymentReversalBooking_Ok in Hb as [Hid _].
  unfold paymentTransactionID. rewrite Hid, bookingPaymentID_trimmed. reflexivity.
Qed.
End copies.

(** ** A message is its payment event *)

Section consumer.
Context `{UC : UnicodeCase} `{Codec : PaymentJSON}.

(** The payment event that a message stands for, with its payment resolved. *)
Definition paymentEventOf (event : OutboxMessage) : result (option payment_event) :=
  let name := OutboxMessage.EventName event in
  let aggregateID := OutboxMessage.AggregateID event in
  let data := OutboxMessage.EventData event in
  let settled name format (mk : PaymentSettledEvent -> payment_event) :=
    payload ← unmarshalPayload format (DecodeSettled name) data;
    Ok (Some (mk (settledWithID (resolvePaymentSettledID aggregateID payload) payload))) in
  if decide (name = EventPaymentWithdrawalRequested) then
    payload ← unmarshalPayload "unmarshal payment withdrawal requested payload failed: %w"
      DecodeWithdrawalRequested data;
    Ok (Some (Requested
      (withdrawalWithID (resolvePaymentWithdrawalRequestedID aggregateID payload) payload)))
  else if decide (name = EventPaymentCreated) then Ok None
  else if decide (name = EventPaymentSucceeded) then
    settled EventPaymentSucceeded "unmarshal payment succeeded payload failed: %w" Succeeded
  else if decide (name = EventPaymentFailed) then
    payload ← unmarshalPayload "unmarshal payment failed payload failed: %w" DecodeFailed data;
    Ok (Some (Failed (failedWithID (resolvePaymentFailedID aggregateID payload) payload)))
  else if decide (name = EventPaymentRefunded) then
    settled EventPaymentRefunded "unmarshal payment refunded payload failed: %w" Refunded
  else if decide (name = EventPaymentChargeback) then
    settled EventPaymentChargeback "unmarshal payment chargeback payload failed: %w" ChargedBack
  else Ok None.

(** The payment event of the bytes of a message. *)
Definition receivedEvent (value : string) : result (option payment_event) :=
  event ← map_err (fun err => Errorf "unmarshal payment outbox event failed: %w" [err])
    (UnmarshalOutboxMessage value);
  paymentEventOf event.

Context {L DB : Type} `{Repo : LedgerRepo DB} (errorText : error -> string).
Implicit Types (h : messageHandler L DB).

(** What the consumer does with a payment event. *)
Definition consume (now : Time) h (lockValue : string) (ev : payment_event) : method (L * DB) unit :=
  match ledgerEventsOf now (NewPaymentEventService (handlerFeeAccountID h)) ev, ev with
  | Ok events, _ => recordUnderLocks h lockValue events
  | Err cause, Succeeded payload => onSecond (emitPaymentReconciliationFailed errorText now h payload cause)
  | Err cause, _ => raise cause
  | Panic why, _ => lift (Panic why)
  end.

Lemma lift_match {S A B} (r : result A) (f : A -> method S B) (s : S) :
  (lift r ≫= f) s = match r with Ok a => f a | Err e => raise e | Panic w => lift (Panic w) end s.
Proof. by destruct r. Qed.

Lemma settled_resolved aggregateID p :
  let p' := settledWithID (resolvePaymentSettledID aggregateID p) p in
  resolved (PaymentSettledEvent.PaymentID p') (PaymentSettledEvent.TransactionID p').
Proof. destruct p. apply resolved_again. Qed.

Lemma reversed_run now h lockValue aggregateID name data format (mk : PaymentSettledEvent -> payment_event) st :
  (forall p, ledgerEventsOf now (NewPaymentEventService (handlerFeeAccountID h)) (mk p) =
    PaymentLedger.paymentReversedLedgerEvents now (NewPaymentEventService (handlerFeeAccountID h))
      (resolvePaymentEventID (PaymentSettledEvent.PaymentID p) (PaymentSettledEvent.TransactionID p))
      (PaymentSettledEvent.TransactionID p) (PaymentSettledEvent.ClearingAccountKey p)
      (PaymentSettledEvent.CreditAccountID p) (PaymentSettledEvent.Currency p)
      (PaymentSettledEvent.Amount p) (PaymentSettledEvent.FeeAmount p) name
      (PaymentSettledEvent.OccurredAt p)) ->
  (forall p q, mk p <> Succeeded q) ->
  reversed now h lockValue aggregateID name data format st =
  (ev ← lift (payload ← unmarshalPayload format (DecodeSettled name) data;
              Ok (Some (mk (settledWithID (resolvePaymentSettledID aggregateID payload) payload))));
   match ev with None => mret tt | Some ev => consume now h lockValue ev end) st.
Proof.
  intros Hof Hnot. unfold reversed. rewrite !lift_match.
  destruct (unmarshalPayload _ _ _) as [p|e|w]; [|done..]. cbn [mbind result_bind].
  set (p' := settledWithID _ p). destruct (settled_resolved aggregateID p) as [Hr _]. fold p' in Hr.
  rewrite lift_match, reversed_copy. unfold consume. rewrite Hof, Hr.
  destruct (PaymentLedger.paymentReversedLedgerEvents _ _ _ _ _ _ _ _ _ _ _) as [evts|e|w]; [done| |done].
  destruct (mk p') eqn:E; try done. by destruct (Hnot _ _ E).
Qed.

Lemma handlePaymentOutboxEvent_run now h lockValue value st :
  handlePaymentOutboxEvent errorText now h lockValue value st =
  (ev ← lift (receivedEvent value);
   match ev with None => mret tt | Some ev => consume now h lockValue ev end) st.
Proof.
  unfold handlePaymentOutboxEvent, receivedEvent. rewrite !lift_match.
  destruct (map_err _ (UnmarshalOutboxMessage value)) as [event|e|w]; [|done..].
  cbn [mbind result_bind]. unfold paymentEventOf. cbv zeta.
  set (aggregateID := OutboxMessage.AggregateID event). set (data := OutboxMessage.EventData event).
  rewrite <- lift_match. case_decide.
  { rewrite !lift_match. destruct (unmarshalPayload _ _ _) as [p|e|w]; [|done..].
    cbn [mbind result_bind]. rewrite lift_match, withdrawalRequested_copy
      by (destruct p; apply resolved_again). done. }
  case_decide; [done|]. case_decide.
  { rewrite !lift_match. destruct (unmarshalPayload _ _ _) as [p|e|w]; [|done..].
    cbn [mbind result_bind]. rewrite succeeded_copy by apply settled_resolved. done. }
  case_decide.
  { rewrite !lift_match. destruct (unmarshalPayload _ _ _) as [p|e|w]; [|done..].
    cbn [mbind result_bind]. rewrite lift_match, failed_copy by (destruct p; apply resolved_again). done. }
  case_decide; [by apply reversed_run|]. case_decide; [by apply reversed_run|done].
Qed.
End consumer.

(** ** The accounts of the events *)

Section accounts.
Context {DB : Type} `{Laws : LedgerRepoLaws DB}.
Implicit Types (db : DB).

Lemma lockKeysFrom_elem seen evts evt :
  evt ∈ evts -> TrimSpace (AggregateID evt) <> "" -> TrimSpace (AggregateID evt) ∉ seen ->
  TrimSpace (AggregateID evt) ∈ lockKeysFrom seen evts.
Proof using Type.
  revert seen. induction evts as [|e evts IH]; intros seen Hin Hne Hs; [by apply not_elem_of_nil in Hin|].
  cbn. apply elem_of_cons in Hin as [->|Hin].
  - rewrite decide_False, decide_False by done. by left.
  - repeat case_decide; [by apply IH..|].
    destruct (decide (TrimSpace (AggregateID evt) = TrimSpace (AggregateID e))) as [->|?]; [by left|].
    right. apply IH; [done..|]. set_solver.
Qed.

Lemma eventAccountIDs_named evts seen ids evt :
  eventAccountIDs evts seen = Ok ids -> evt ∈ evts -> TrimSpace (AggregateID evt) <> "".
Proof using Type.
  revert seen ids. induction evts as [|e evts IH]; intros seen ids H Hin; [by apply not_elem_of_nil in Hin|].
  cbn in H. case_decide as Hne; [done|]. apply elem_of_cons in Hin as [->|Hin]; [done|].
  case_decide; [by eapply IH|]. apply result_bind_Ok in H as (r & H & _). by eapply IH.
Qed.

Lemma RecordLedgerEvents_named evts db u db' evt :
  RecordLedgerEvents evts db = (Ok u, db') -> evt ∈ evts -> TrimSpace (AggregateID evt) <> "".
Proof using Laws.
  unfold RecordLedgerEvents. case_decide as Hn.
  - apply nil_length_inv in Hn as ->. by intros _ ?%not_elem_of_nil.
  - intros (accts & H)%inTransaction_Ok Hin. unfold recordBody in H.
    apply lift_bind_Ok in H as (ids & Hids & _). by eapply eventAccountIDs_named.
Qed.

Lemma batchDelta_other ips id c : (forall ip, ip ∈ ips -> id <> ip.1) -> batchDelta ips id c = 0.
Proof using Type.
  induction ips as [|ip ips IH]; intros H; [done|]. cbn. rewrite decide_False by (apply H; by left).
  apply IH. intros. apply H. by right.
Qed.

(** The accounts that recording changes are those of the events. *)
Lemma recorded_accounts evts db u db' id c :
  repo_ok db -> repo_room 4 db -> (length evts <= 4)%nat ->
  RecordLedgerEvents evts db = (Ok u, db') -> storedBalance db' id c <> storedBalance db id c ->
  id ∈ ledgerEventLockKeys evts /\ id <> "".
Proof using Laws.
  intros Hok Hroom Hlen H Hne.
  destruct (RecordLedgerEvents_Ok _ _ _ _ Hok (repo_room_le 4 (length evts) db Hlen Hroom) H)
    as (Hok' & ips & Hf & [[-> _]|Hb]); [done|].
  rewrite (batchApplied_balance _ _ _ _ _ Hok Hok' Hb) in Hne.
  destruct (decide (Exists (fun ip => id = ip.1) ips)) as [Hex|Hno].
  - apply Exists_exists in Hex as (ip & Hip & ->).
    apply list_elem_of_lookup in Hip as [i Hip].
    destruct (Forall2_lookup_r _ _ _ _ _ Hf Hip) as (evt & Hevt & Hid & _).
    assert (evt ∈ evts) as Hin by by eapply list_elem_of_lookup_2.
    pose proof (RecordLedgerEvents_named _ _ _ _ _ H Hin) as Hnamed. rewrite Hid.
    split; [|done]. apply lockKeysFrom_elem; [done..|]. set_solver.
  - destruct Hne. rewrite batchDelta_other, Z.add_0_r.
    + apply wrap64_id, (storedBalance_in64 _ _ _ Hok).
    + intros ip Hip ->. apply Hno, Exists_exists. by exists ip.
Qed.

End accounts.

(** ** Recording under the locks *)

Section recording.
Context {DB : Type} `{Laws : LedgerRepoLaws DB}.
Context {L : Type} (lk : Lock L) (held : L -> gmap string string) `{!LockLaws lk held}.
Context (releases : forall key value l, is_ok (ReleaseLock lk key value l).1 = true).
Implicit Types (db : DB) (l : L) (h : messageHandler L DB).

(** The key under which the account [id] is locked. *)
Definition accountLockKey (id : string) : string := prefixed LedgerAccountLockKeyPrefix id.

(** Around a call on the database: it runs once, while the accounts that are
    named are locked, or not at all. *)
Lemma withAccountLocks_run {A} lockValue keys (fn : method DB A) l db r l' db' :
  withAccountLocks (Some lk) lockValue keys fn (l, db) = (r, (l', db')) ->
  held l' = held l /\
  ((exists l1, fn db = (r, db') /\
      forall id, id ∈ keys -> id <> "" -> held l1 !! accountLockKey id = Some lockValue) \/
   (exists e, r = Err e) /\ db' = db).
Proof using All.
  intros Hrun.
  assert (PreOrder (fun s s' : L * DB => s'.2 = s.2)) by (split; [done|by intros ? ? ? -> ->]).
  apply (WithLocks_run (lockFirst lk) (held ∘ fst)) with (R := fun s s' : L * DB => s'.2 = s.2) in Hrun
    as [Hh Hrun].
  - split; [done|]. destruct Hrun as [([l1 db1] & [l2 db2] & Hf & H1 & H2 & Hk)|(e & He & Hd)].
    + left. cbn in *. subst. destruct (fn db) as [rf dbf]. injection Hf as <- _ <-.
      exists l1. split; [done|]. intros id Hin Hne. by destruct (Hk id Hin Hne).
    + right. split; [by exists e|done].
  - intros k v [l0 d0]. cbn. specialize (releases k v l0). by destruct (ReleaseLock lk k v l0).
  - done.
  - intros. apply onFirst_keeps.
  - intros. apply onFirst_keeps.
  - intros [l0 d0]. cbn. by destruct (fn d0).
Qed.

Lemma recordUnderLocks_run h lockValue events l db r l' db' :
  locker h = Some lk -> recordUnderLocks h lockValue events (l, db) = (r, (l', db')) ->
  held l' = held l /\
  ((exists l1, RecordLedgerEvents events db = (r, db') /\
      forall id, id ∈ ledgerEventLockKeys events -> id <> "" ->
        held l1 !! accountLockKey id = Some lockValue) \/
   (exists e, r = Err e) /\ db' = db).
Proof using All.
  intros Hlk. unfold recordUnderLocks, withLedgerAccountLocks, RecordLedgerEvents. case_decide as Hn.
  - intros [= <- <- <-]. split; [done|]. left. exists l. split; [done|].
    apply nil_length_inv in Hn as ->. by intros id ?%not_elem_of_nil.
  - rewrite Hlk. apply withAccountLocks_run.
Qed.
End recording.
