(* ===== verification/LedgerMessagingTheorems.v ===== *)
(** * Correctness of the ledger's consumers

    What a message of the payment outbox does to the ledger, and that the keys
    that the gRPC server locks cover the accounts that change. *)

From stdpp Require Import prelude strings gmap.
From S2P Require Import Prelude GoStrings Event Redis Locks LocksSpec.
From S2P Require Import LedgerEntity LedgerAccount LedgerAccountInv LedgerAccountSpec LedgerRepo LedgerService.
From S2P Require Import LedgerServiceInv LedgerServiceSpec LedgerServiceTheorems.
From S2P Require Import PaymentEvents PaymentIntent PaymentLedger PaymentLedgerSpec PaymentLedgerTheorems.
From S2P Require Import LedgerMessaging LedgerTransport LedgerMessagingSpec.
Import LedgerMessaging LedgerService.

Section theorems.
Context `{Codec : PaymentJSON} {DB : Type} `{Laws : LedgerRepoLaws DB}.
Context {L : Type} (lk : Lock L) (held : L -> gmap string string) `{!LockLaws lk held}.
Implicit Types (db : DB) (l : L) (h : messageHandler L DB).


Lemma RecordLedgerEvents_again evts db r db1 r' db2 :
  repo_ok db -> repo_room 4 db -> repo_room 4 db1 -> (length evts <= 4)%nat -> db1 <> db ->
  RecordLedgerEvents evts db = (r, db1) -> RecordLedgerEvents evts db1 = (r', db2) -> db2 = db1.
Proof using Laws.
  intros Hok Hroom Hroom1 Hlen Hne H1 H2.
  destruct r as [[]|e|w];
    [|destruct Hne; by eapply atomic_run; [apply RecordLedgerEvents_is_atomic|exact H1|]..].
  destruct r' as [[]|e|w]; [|by eapply atomic_run; [apply RecordLedgerEvents_is_atomic|exact H2|]..].
  destruct (RecordLedgerEvents_Ok _ _ _ _ Hok (repo_room_le 4 (length evts) db Hlen Hroom) H1)
    as (Hok1 & ips & Hf & [[? _]|[Hfr1 Hv]]); [done|].
  destruct (RecordLedgerEvents_Ok _ _ _ _ Hok1 (repo_room_le 4 (length evts) db1 Hlen Hroom1) H2)
    as (_ & ips' & Hf' & [[? _]|[Hfr _]]); [done|].
  rewrite (event_posting_unique _ _ _ Hf' Hf) in Hfr. destruct ips as [|ip ips].
  - apply Forall2_nil_inv_r in Hf as ->. by injection H2.
  - exfalso. destruct Hfr as [[Hn _] _]. rewrite Hv in Hn.
    rewrite (freshPosts_posted (ip :: ips)) in Hn; [done|done|by left].
Qed.

(** A message takes effect once: delivered again, at any later time and
    whatever the state of the locks is, it leaves the ledger as it is. *)
Theorem outbox_message_once errorText now now' h lockValue lockValue' value ev l l2 db r l1 db1 r' l3 db2 :
  locker h = Some lk ->
  (forall key value l, is_ok (ReleaseLock lk key value l).1 = true) ->
  repo_ok db -> repo_room 4 db -> repo_room 4 db1 ->
  receivedEvent value = Ok (Some ev) -> amounts_ok ev -> occurredAt ev <> 0 ->
  is_ok (ledgerEventsOf now (NewPaymentEventService (handlerFeeAccountID h)) ev) = true -> db1 <> db ->
  handlePaymentOutboxEvent errorText now h lockValue value (l, db) = (r, (l1, db1)) ->
  handlePaymentOutboxEvent errorText now' h lockValue' value (l2, db1) = (r', (l3, db2)) ->
  db2 = db1.
Proof.
  intros Hlk Hrel Hok Hroom Hroom1 Hev Ha Ht Hbuilt Hne.
  rewrite !handlePaymentOutboxEvent_run, !lift_match, Hev. unfold consume.
  rewrite (ledgerEventsOf_now now' now) by done.
  destruct (ledgerEventsOf now _ ev) as [evts|cause|why] eqn:Hevts; [|done..].
  intros H1 H2.
  apply (recordUnderLocks_run lk held Hrel) in H1 as [_ [(la & H1 & _)|[_ ->]]]; [|done..].
  apply (recordUnderLocks_run lk held Hrel) in H2 as [_ [(lb & H2 & _)|[_ ->]]]; [|done..].
  destruct (ledgerEventsOf_moves _ _ _ _ Ha Hevts) as (n & Hn & Hm%evts_move_length).
  eapply (RecordLedgerEvents_again evts db r db1); eauto with lia.
Qed.
End theorems.

(** ** The gRPC server *)

Section rpc.
Context `{UC : UnicodeCase}.
Implicit Types (s : paymentEventService).

Lemma normalizeLockKeysFrom_elem seen keys key :
  key ∈ keys -> TrimSpace key <> "" -> TrimSpace key ∉ seen ->
  TrimSpace key ∈ LedgerRPC.normalizeLockKeysFrom seen keys.
Proof.
  revert seen. induction keys as [|k keys IH]; intros seen Hin Hne Hs; [by apply not_elem_of_nil in Hin|].
  cbn. apply elem_of_cons in Hin as [->|Hin].
  - rewrite decide_False, decide_False by done. by left.
  - repeat case_decide; [by apply IH..|].
    destruct (decide (TrimSpace key = TrimSpace k)) as [->|?]; [by left|].
    right. apply IH; [done..|]. set_solver.
Qed.

Lemma normalizeLockKeys_elem keys key :
  key ∈ keys -> trimmed key -> key <> "" -> key ∈ LedgerRPC.normalizeLockKeys keys.
Proof.
  intros Hin Ht Hne. unfold LedgerRPC.normalizeLockKeys. rewrite <- Ht in Hne |- *.
  apply normalizeLockKeysFrom_elem; [done..|set_solver].
Qed.

(** The keys that the server locks for an event. *)
Definition rpcLockKeys (feeAccountID : string) (ev : payment_event) : list string :=
  match ev with
  | Requested p => LedgerRPC.withdrawalRequestedLockKeys p feeAccountID
  | Succeeded p => LedgerRPC.succeededLockKeys p feeAccountID
  | Failed p => LedgerRPC.failedLockKeys p feeAccountID
  | Refunded p | ChargedBack p =>
      LedgerRPC.reversedLockKeys (PaymentSettledEvent.ClearingAccountKey p)
        (PaymentSettledEvent.CreditAccountID p) (PaymentSettledEvent.FeeAmount p) feeAccountID
  end.

(** The key of the clearing account of an event. *)
Definition clearingKeyOf (ev : payment_event) : string :=
  match ev with
  | Requested p => FirstNonEmpty [TrimSpace (PaymentWithdrawalRequestedEvent.ClearingAccountKey p);
      PaymentLedger.providerClearingAccountKey (PaymentWithdrawalRequestedEvent.Provider p)]
  | Failed p => PaymentFailedEvent.ClearingAccountKey p
  | Succeeded p | Refunded p | ChargedBack p => PaymentSettledEvent.ClearingAccountKey p
  end.

Lemma clearing_copy key : ToLower (TrimSpace key) <> "" ->
  LedgerRPC.ledgerClearingAccountID key = LedgerEntity.ledgerClearingAccountID key.
Proof. intros H. unfold LedgerRPC.ledgerClearingAccountID. by rewrite decide_False. Qed.

Lemma firstNonEmpty_copy key provider :
  LedgerRPC.firstNonEmpty [key; LedgerRPC.providerClearingAccountKey provider]
  = FirstNonEmpty [TrimSpace key; PaymentLedger.providerClearingAccountKey provider].
Proof.
  cbn [LedgerRPC.firstNonEmpty FirstNonEmpty]. rewrite !TrimSpace_idem. repeat case_decide; done.
Qed.

Definition accountOf (ev : payment_event) : string :=
  match ev with
  | Requested p => TrimSpace (PaymentWithdrawalRequestedEvent.DebitAccountID p)
  | Failed p => TrimSpace (PaymentFailedEvent.DebitAccountID p)
  | Succeeded p | Refunded p | ChargedBack p => TrimSpace (PaymentSettledEvent.CreditAccountID p)
  end.

Definition feeOf (ev : payment_event) : Z :=
  match ev with
  | Requested p => PaymentWithdrawalRequestedEvent.FeeAmount p
  | Failed p => PaymentFailedEvent.FeeAmount p
  | Succeeded p | Refunded p | ChargedBack p => PaymentSettledEvent.FeeAmount p
  end.

Lemma bookingDelta_accounts from to_ cur amt id c :
  bookingDelta from to_ cur amt id c <> 0 -> id = from \/ id = to_.
Proof. unfold bookingDelta. repeat case_decide; auto; lia. Qed.

Lemma moved_accounts s from to_ fee from' to' cur amt cur' id c :
  bookingDelta from to_ cur amt id c + feeDelta s fee from' to' cur' id c <> 0 ->
  id = from \/ id = to_ \/ (0 < fee /\ (id = from' \/ id = to')).
Proof.
  intros H. destruct (decide (bookingDelta from to_ cur amt id c = 0)) as [Hz|Hz].
  - unfold feeDelta in H. case_decide as Hf; [|lia]. right. right. split; [apply Hf|].
    eapply (bookingDelta_accounts _ _ cur' fee id c). lia.
  - apply bookingDelta_accounts in Hz. tauto.
Qed.

(** The accounts that an event moves money on. *)
Lemma deltaOf_accounts s ev id c :
  deltaOf s ev id c <> 0 ->
  id = accountOf ev \/ id = LedgerEntity.ledgerClearingAccountID (clearingKeyOf ev) \/
  (0 < feeOf ev /\ id = TrimSpace (feeAccountID s)).
Proof.
  destruct ev as [p|p|p|p|p]; cbn [deltaOf accountOf clearingKeyOf feeOf];
    try case_decide; try done; intros Hm%moved_accounts; tauto.
Qed.

Lemma elem_pair (x y z : string) : x = y \/ x = z -> x ∈ [y; z].
Proof. intros [-> | ->]; [by left|right; by left]. Qed.

Lemma rpc_keys_cover fee ev id c :
  ToLower (TrimSpace (clearingKeyOf ev)) <> "" -> id <> "" ->
  deltaOf (NewPaymentEventService fee) ev id c <> 0 -> id ∈ rpcLockKeys (TrimSpace fee) ev.
Proof.
  intros Hkey Hne Hd%deltaOf_accounts. cbn [feeAccountID NewPaymentEventService] in Hd.
  assert (trimmed id) as Ht.
  { destruct Hd as [->|[->|[_ ->]]]; [|apply ledgerClearingAccountID_trimmed|apply TrimSpace_trimmed].
    destruct ev; apply TrimSpace_trimmed. }
  assert (forall account f, feeOf ev = f -> accountOf ev = account ->
    forall keys, account ∈ keys -> LedgerRPC.ledgerClearingAccountID (clearingKeyOf ev) ∈ keys ->
    id ∈ LedgerRPC.normalizeLockKeys (keys ++ LedgerRPC.feeKey f (TrimSpace fee))) as Hin.
  { intros account f <- <- keys Ha Hc. rewrite clearing_copy in Hc by done.
    apply normalizeLockKeys_elem; [|done..]. apply elem_of_app.
    destruct Hd as [->|[->|[Hf ->]]]; [by left..|right].
    unfold LedgerRPC.feeKey. rewrite decide_True by done. by left. }
  destruct ev as [p|p|p|p|p]; cbn [rpcLockKeys].
  - unfold LedgerRPC.withdrawalRequestedLockKeys. rewrite firstNonEmpty_copy.
    apply (Hin _ (PaymentWithdrawalRequestedEvent.FeeAmount p) eq_refl eq_refl [_; _]);
      apply elem_pair; [by left|by right].
  - unfold LedgerRPC.succeededLockKeys.
    apply (Hin _ (PaymentSettledEvent.FeeAmount p) eq_refl eq_refl [_; _]);
      apply elem_pair; [by right|by left].
  - unfold LedgerRPC.failedLockKeys.
    apply (Hin _ (PaymentFailedEvent.FeeAmount p) eq_refl eq_refl [_; _]);
      apply elem_pair; [by left|by right].
  - unfold LedgerRPC.reversedLockKeys.
    apply (Hin _ (PaymentSettledEvent.FeeAmount p) eq_refl eq_refl [_; _]);
      apply elem_pair; [by right|by left].
  - unfold LedgerRPC.reversedLockKeys.
    apply (Hin _ (PaymentSettledEvent.FeeAmount p) eq_refl eq_refl [_; _]);
      apply elem_pair; [by right|by left].
Qed.
End rpc.

Section rpc_theorems.
Context `{Codec : PaymentJSON} {DB : Type} `{Laws : LedgerRepoLaws DB}.
Context {L : Type} (lk : Lock L) (held : L -> gmap string string) `{!LockLaws lk held}.
Implicit Types (db : DB) (l : L).

(** The payment event of a request, or none when it is not for the ledger. *)
Definition rpcEventOf (eventName raw : string) : result (option payment_event) :=
  if decide (eventName = EventPaymentCreated \/ eventName = EventPaymentCheckoutSessionCreated) then Ok None
  else if decide (eventName = EventPaymentWithdrawalRequested) then
    payload ← LedgerRPC.decodePayload "decode payment withdrawal requested payload failed: %w"
                DecodeWithdrawalRequested raw;
    Ok (Some (Requested payload))
  else if decide (eventName = EventPaymentSucceeded) then
    payload ← LedgerRPC.decodePayload "decode payment succeeded payload failed: %w"
                (DecodeSettled EventPaymentSucceeded) raw;
    Ok (if EqualFold (TrimSpace (PaymentSettledEvent.Workflow payload)) "WITHDRAWAL" then None
        else Some (Succeeded payload))
  else if decide (eventName = EventPaymentFailed) then
    payload ← LedgerRPC.decodePayload "decode payment failed payload failed: %w" DecodeFailed raw;
    Ok (if negb (EqualFold (TrimSpace (PaymentFailedEvent.Workflow payload)) "WITHDRAWAL") then None
        else Some (Failed payload))
  else if decide (eventName = EventPaymentRefunded) then
    payload ← LedgerRPC.decodePayload "decode payment refunded payload failed: %w"
                (DecodeSettled EventPaymentRefunded) raw;
    Ok (Some (Refunded payload))
  else if decide (eventName = EventPaymentChargeback) then
    payload ← LedgerRPC.decodePayload "decode payment chargeback payload failed: %w"
                (DecodeSettled EventPaymentChargeback) raw;
    Ok (Some (ChargedBack payload))
  else Ok None.

Lemma applyPaymentEvent_run now (s : LedgerRPC.server L) lockValue name raw (st : L * DB) :
  LedgerRPC.applyPaymentEvent now s lockValue name raw st =
  (ev ← lift (rpcEventOf name raw);
   match ev with
   | None => mret false
   | Some ev =>
       LedgerRPC.withLedgerLocks s lockValue (rpcLockKeys (LedgerRPC.serverFeeAccountID s) ev)
         (fun svc => handle now svc ev) ≫= fun _ => mret true
   end) st.
Proof using Type.
  rewrite lift_match. unfold LedgerRPC.applyPaymentEvent, rpcEventOf. cbv zeta.
  case_decide; [done|]. case_decide.
  { rewrite lift_match. by destruct (LedgerRPC.decodePayload _ _ _). }
  case_decide.
  { rewrite lift_match. destruct (LedgerRPC.decodePayload _ _ _) as [p|e|w]; [|done..].
    cbn [mbind result_bind]. by destruct (EqualFold _ _). }
  case_decide.
  { rewrite lift_match. destruct (LedgerRPC.decodePayload _ _ _) as [p|e|w]; [|done..].
    cbn [mbind result_bind]. by destruct (EqualFold _ _). }
  case_decide.
  { rewrite lift_match. by destruct (LedgerRPC.decodePayload _ _ _). }
  case_decide; [|done]. rewrite lift_match. by destruct (LedgerRPC.decodePayload _ _ _).
Qed.

(** The keys that the gRPC server locks, which it computes from the
    payload and not from the ledger's events, cover the accounts that change.
    Applying an event whose clearing account has a key leaves the locks as they
    were, and either the ledger, or it does what the service's handler does,
    and every account whose balance changes was locked while it did. *)
Theorem rpc_event_is_locked now fee lockValue name raw ev l db r l' db' :
  (forall key value l, is_ok (ReleaseLock lk key value l).1 = true) ->
  repo_ok db -> repo_room 4 db -> rpcEventOf name raw = Ok (Some ev) -> amounts_ok ev ->
  ToLower (TrimSpace (clearingKeyOf ev)) <> "" ->
  LedgerRPC.applyPaymentEvent now
    (LedgerRPC.NewPaymentServer (Some lk) (Some (NewPaymentEventService fee)) fee)
    lockValue name raw (l, db) = (r, (l', db')) ->
  held l' = held l /\
  (db' = db \/
   handle now (NewPaymentEventService fee) ev db = (Ok tt, db') /\
   exists l1, forall id c, storedBalance db' id c <> storedBalance db id c ->
     held l1 !! accountLockKey id = Some lockValue).
Proof.
  intros Hrel Hok Hroom Hev Ha Hkey. rewrite applyPaymentEvent_run, lift_match, Hev.
  unfold LedgerRPC.withLedgerLocks. cbn [LedgerRPC.service LedgerRPC.NewPaymentServer LedgerRPC.locker
    LedgerRPC.serverFeeAccountID]. rewrite bind_run.
  destruct (withAccountLocks (Some lk) _ _ _ (l, db)) as [ru [l2 db2]] eqn:Hrun.
  apply (withAccountLocks_run lk held Hrel) in Hrun as [Hh Hrun].
  intros Hr. assert (l' = l2 /\ db' = db2) as [-> ->] by (by destruct ru; injection Hr as _ <- <-).
  split; [done|]. destruct Hrun as [(l1 & Hf & Hl1)|[_ ->]]; [|by left].
  destruct ru as [[]|e|w]; [|left; by eapply atomic_run; [apply handle_atomic|exact Hf|]..].
  destruct (handle_Ok _ _ _ _ _ _ Hok Hroom Ha Hf)
    as (Hok' & evts & ips & Hevts & _ & Hd & [[-> _]|Hb]); [by left|]. right. split; [done|].
  exists l1. intros id c Hne. rewrite (batchApplied_balance _ _ _ _ _ Hok Hok' Hb), Hd in Hne.
  assert (deltaOf (NewPaymentEventService fee) ev id c <> 0) as Hdelta.
  { intros Hz. apply Hne. rewrite Hz, Z.add_0_r. apply wrap64_id, (storedBalance_in64 _ _ _ Hok). }
  assert (id <> "") as Hid.
  { rewrite handle_run, lift_match, Hevts in Hf.
    destruct (ledgerEventsOf_moves _ _ _ _ Ha Hevts) as (n & Hn & Hm%evts_move_length).
    apply (recorded_accounts evts db tt db2 id c Hok Hroom ltac:(lia) Hf).
    by rewrite (batchApplied_balance _ _ _ _ _ Hok Hok' Hb), Hd. }
  apply Hl1; [|done]. by apply (rpc_keys_cover fee ev id c).
Qed.
End rpc_theorems.

(** ** Fees *)

(** C40: The fee of a transfer. Where [amount * rate] fits 64 bits, [Compute]
    gives the rate of the amount in basis points, rounded up, plus the flat
    amount, which is not negative and fits 64 bits; or, when the sum does not
    fit, it reports the overflow. *)
Theorem Compute_bounds rate flat amount :
  0 < amount -> 0 <= rate -> amount * rate + 9999 <= int64_max -> 0 <= flat <= int64_max ->
  match Compute_ (StripeFeePolicy.mk rate flat) amount with
  | Ok fee => amount * rate <= 10000 * (fee - flat) < amount * rate + 10000 /\ 0 <= fee <= int64_max
  | Err _ => int64_max < (amount * rate + 9999) / 10000 + flat
  | Panic _ => False
  end.
Proof.
  intros Ha Hr Hfit Hf. unfold Compute_. cbn [StripeFeePolicy.RateBPS StripeFeePolicy.FlatAmount].
  rewrite !decide_False by lia. cbv zeta.
  assert ((if decide (0 < rate) then Z.quot (add64 (mul64 amount rate) 9999) 10000 else 0)
          = (amount * rate + 9999) / 10000) as ->.
  { case_decide as Hpos.
    - unfold mul64. rewrite (wrap64_id (amount * rate)), add64_small
        by (unfold in64, int64_min, int64_max in *; nia).
      rewrite Z.quot_div_nonneg by nia. done.
    - assert (rate = 0) as -> by lia. by rewrite Z.mul_0_r. }
  pose proof (Z.div_mod (amount * rate + 9999) 10000 ltac:(lia)) as Hdiv.
  pose proof (Z.mod_pos_bound (amount * rate + 9999) 10000 ltac:(lia)) as Hmod.
  set (q := (amount * rate + 9999) / 10000) in *.
  assert (0 <= q <= int64_max) as Hq by (unfold int64_max in *; nia).
  destruct (decide (q + flat <= int64_max)) as [Hs|Hs].
  - rewrite add64_small by (unfold in64, int64_min in *; lia). rewrite decide_False by lia.
    split; lia.
  - assert (add64 q flat = q + flat - 2 ^ 64) as ->.
    { unfold add64, wrap64.
      replace (q + flat + 2 ^ 63) with (q + flat - 2 ^ 63 + 1 * 2 ^ 64) by lia.
      rewrite Z.mod_add by lia. rewrite Z.mod_small by (unfold int64_max in *; lia). lia. }
    rewrite decide_True by (unfold int64_max in *; lia). lia.
Qed.

(** Where the product does not fit, the overflow is not always noticed: the
    fee of 2^62 at 4 basis points is 0. *)
Lemma Compute_misses_overflow :
  Compute_ (StripeFeePolicy.mk 4 0) (2 ^ 62) = Ok 0.
Proof. by vm_compute. Qed.

(** ** Witnesses *)

Section witnesses.
#[local] Existing Instance caseless_unicode.

(** A codec for the messages of the examples. *)
Definition requestedPayload : PaymentWithdrawalRequestedEvent :=
  PaymentWithdrawalRequestedEvent.mk "" "tx-2" "stripe" "provider:stripe" "alice"
    "bank-1" 100 5 100 "USD" PaymentStatusCreating 3.

#[local] Instance exampleCodec : PaymentJSON := {
  DecodeObject s := Ok [("event_data", s)];
  EncodeObject m := Ok (default "" (m !! "event_data"));
  DecodeMessage s :=
    Ok (OutboxMessage.mk "" " tx-2 " "Payment" 1 EventPaymentWithdrawalRequested s "" "");
  DecodeString s := Ok s;
  DecodeWithdrawalRequested s :=
    if decide (s = "W") then Ok requestedPayload else Err (Errorf "invalid" []);
  DecodeFailed s := Err (Errorf "invalid" []);
  DecodeSettled name s := Err (Errorf "invalid" [])
}.

Lemma run_parts {A B C} (x : A * (B * C)) : x = (x.1, (x.2.1, x.2.2)).
Proof. by destruct x as [a [b c]]. Qed.

Definition freeLocks : MemoryRedis := mkMemoryRedis 0 ∅.

Definition exampleHandler : messageHandler MemoryRedis MemoryDB :=
  NewMessageHandler (Some NewLock) " house " None.

Definition delivered (value lockValue : string) (st : MemoryRedis * MemoryDB) :
    result unit * (MemoryRedis * MemoryDB) :=
  handlePaymentOutboxEvent (fun _ => "") 9 exampleHandler lockValue value st.

Definition firstDelivery := delivered "W" "v1" (freeLocks, aliceDB).

Lemma memory_releases key value (w : MemoryRedis) :
  is_ok (ReleaseLock NewLock key value w).1 = true.
Proof.
  cbn. unfold redisReleaseLock. rewrite bind_run. cbn. by destruct (memoryRun (releaseLockScript key value) w).
Qed.

Definition deliveredEvent : payment_event :=
  Requested (withdrawalWithID "tx-2" requestedPayload).

Lemma delivered_event : receivedEvent "W" = Ok (Some deliveredEvent).
Proof. by vm_compute. Qed.

Lemma firstDelivery_balance : storedBalance firstDelivery.2.2 "alice" "USD" = 395.
Proof. eval_closed. Qed.

Lemma aliceDB_balance : storedBalance aliceDB "alice" "USD" = 500.
Proof. eval_closed. Qed.


Definition secondDelivery := delivered "W" "v2" (freeLocks, firstDelivery.2.2).

Lemma outbox_message_once_witness :
  firstDelivery.2.2 <> aliceDB /\ secondDelivery.2.2 = firstDelivery.2.2.
Proof.
  assert (firstDelivery.2.2 <> aliceDB) as Hne.
  { intros H. pose proof firstDelivery_balance as Hb. rewrite H, aliceDB_balance in Hb. discriminate Hb. }
  split; [exact Hne|].
  apply (outbox_message_once NewLock rdb (fun _ => "") 9 9 exampleHandler "v1" "v2" "W" deliveredEvent
    freeLocks freeLocks aliceDB firstDelivery.1 firstDelivery.2.1 firstDelivery.2.2
    secondDelivery.1 secondDelivery.2.1 secondDelivery.2.2
    eq_refl memory_releases aliceDB_ok (aliceDB_room 4 ltac:(lia))).
  - apply memory_room; [lia|eval_closed].
  - exact delivered_event.
  - split; unfold int64_max; cbn; lia.
  - discriminate.
  - by vm_compute.
  - exact Hne.
  - exact (run_parts firstDelivery).
  - exact (run_parts secondDelivery).
Defined.

Definition rpcRun : result bool * (MemoryRedis * MemoryDB) :=
  LedgerRPC.applyPaymentEvent 9
    (LedgerRPC.NewPaymentServer (Some NewLock) (Some (NewPaymentEventService " house ")) " house ")
    "v3" EventPaymentWithdrawalRequested "W" (freeLocks, aliceDB).

Lemma rpc_event_is_locked_witness :
  rpcRun.1 = Ok true /\ storedBalance rpcRun.2.2 "alice" "USD" = 395 /\
  exists l1 : MemoryRedis, rdb l1 !! "ledger-account:alice" = Some "v3".
Proof.
  split; [eval_closed|]. assert (storedBalance rpcRun.2.2 "alice" "USD" = 395) as Hb by eval_closed.
  split; [exact Hb|].
  destruct (rpc_event_is_locked NewLock rdb 9 " house " "v3" EventPaymentWithdrawalRequested "W"
    (Requested requestedPayload) freeLocks aliceDB rpcRun.1 rpcRun.2.1 rpcRun.2.2
    memory_releases aliceDB_ok (aliceDB_room 4 ltac:(lia))) as [_ [Hsame|(_ & l1 & Hl1)]].
  - by vm_compute.
  - split; unfold int64_max; cbn; lia.
  - by vm_compute.
  - exact (run_parts rpcRun).
  - rewrite Hsame, aliceDB_balance in Hb. discriminate Hb.
  - exists l1. apply (Hl1 "alice" "USD"). rewrite Hb, aliceDB_balance. discriminate.
Defined.

Lemma Compute_bounds_witness :
  Compute_ (StripeFeePolicy.mk 290 30) 1001 = Ok 60 /\ 1001 * 290 <= 10000 * (60 - 30).
Proof.
  split; [by vm_compute|].
  pose proof (Compute_bounds 290 30 1001 ltac:(lia) ltac:(lia) ltac:(unfold int64_max; lia)
    ltac:(unfold int64_max; lia)) as H.
  assert (Compute_ (StripeFeePolicy.mk 290 30) 1001 = Ok 60) as He by (by vm_compute).
  rewrite He in H. destruct H as [[H _] _]. exact H.
Defined.
End witnesses.
