(* ===== verification/RelationshipEntity.v ===== *)
(** * Relationship entities and policy (relationship/domain/entity, domain/policy)

    Friend requests, friendships, follows and blocks between two users, the
    counter deltas that commands produce, and the policy that says which
    command a pair of users admits. *)

From stdpp Require Import prelude strings gmap.
From S2P Require Import Prelude GoStrings.

Module Relationship.
Definition ErrEmpty := Sentinel "ErrEmpty".
Definition ErrInvalidData := Sentinel "ErrInvalidData".
Definition ErrTargetAccountNotFound := Sentinel "ErrTargetAccountNotFound".
Definition ErrRelationshipBlocked := Sentinel "ErrRelationshipBlocked".
Definition ErrFriendRequestNotFound := Sentinel "ErrFriendRequestNotFound".
Definition ErrFriendRequestAlreadyOpen := Sentinel "ErrFriendRequestAlreadyOpen".
Definition ErrFriendshipAlreadyExists := Sentinel "ErrFriendshipAlreadyExists".
Definition ErrFriendshipNotFound := Sentinel "ErrFriendshipNotFound".
Definition ErrFollowAlreadyExists := Sentinel "ErrFollowAlreadyExists".
Definition ErrFollowNotFound := Sentinel "ErrFollowNotFound".
Definition ErrBlockAlreadyExists := Sentinel "ErrBlockAlreadyExists".
Definition ErrBlockNotFound := Sentinel "ErrBlockNotFound".
End Relationship.

(** ** Friend requests *)

Inductive FriendRequestStatus : Type :=
  | FriendRequestStatusPending
  | FriendRequestStatusAccepted
  | FriendRequestStatusRejected
  | FriendRequestStatusCancelled
  | FriendRequestStatusExpired.

#[export] Instance FriendRequestStatus_eq_dec : EqDecision FriendRequestStatus.
Proof. solve_decision. Defined.

Module FriendRequest.
Record t := mk {
  ID : string;
  RequesterID : string;
  AddresseeID : string;
  Status : FriendRequestStatus;
  Message : option string;
  CreatedAt : Time;
  RespondedAt : option Time;
  ExpiredAt : option Time;
  CancelledAt : option Time;
  RejectedReason : option string
}.

(** [NewFriendRequest] of the entity. *)
Definition New (id requesterID addresseeID : string) (message : option string) (now : Time) :
    result t :=
  if decide (id = "") then Err (Errorf "friend request id is required" [])
  else if decide (requesterID = "") then Err (Errorf "requester id is required" [])
  else if decide (addresseeID = "") then Err (Errorf "addressee id is required" [])
  else if decide (requesterID = addresseeID) then
    Err (Errorf "cannot send friend request to self" [])
  else Ok (mk id requesterID addresseeID FriendRequestStatusPending message now None None None None).

Definition IsPending (r : t) : bool := bool_decide (Status r = FriendRequestStatusPending).

(** The guard that the four answers to a request share. *)
Definition whenPending (f : t -> t) : method t unit :=
  r ← get;
  if decide (Status r = FriendRequestStatusPending) then modify f
  else raise (Errorf "friend request is not pending" []).

Definition Accept (now : Time) : method t unit := whenPending (fun r =>
  mk (ID r) (RequesterID r) (AddresseeID r) FriendRequestStatusAccepted (Message r) (CreatedAt r)
    (Some now) (ExpiredAt r) (CancelledAt r) (RejectedReason r)).

Definition Reject (reason : option string) (now : Time) : method t unit := whenPending (fun r =>
  mk (ID r) (RequesterID r) (AddresseeID r) FriendRequestStatusRejected (Message r) (CreatedAt r)
    (Some now) (ExpiredAt r) (CancelledAt r) reason).

Definition Cancel (now : Time) : method t unit := whenPending (fun r =>
  mk (ID r) (RequesterID r) (AddresseeID r) FriendRequestStatusCancelled (Message r) (CreatedAt r)
    (RespondedAt r) (ExpiredAt r) (Some now) (RejectedReason r)).

Definition Expire (now : Time) : method t unit := whenPending (fun r =>
  mk (ID r) (RequesterID r) (AddresseeID r) FriendRequestStatusExpired (Message r) (CreatedAt r)
    (RespondedAt r) (Some now) (CancelledAt r) (RejectedReason r)).

(** [agg.FriendRequest.ID = aggID]. *)
Definition setID (id : string) (r : t) : t :=
  mk id (RequesterID r) (AddresseeID r) (Status r) (Message r) (CreatedAt r) (RespondedAt r)
    (ExpiredAt r) (CancelledAt r) (RejectedReason r).
End FriendRequest.

(** ** Friendships, follows and blocks *)

(** [normalizePair]; Go compares strings byte by byte. *)
Definition normalizePair (a b : string) : string * string :=
  if String.ltb a b then (a, b) else (b, a).

Module Friendship.
Record t := mk {
  ID : string;
  UserLowID : string;
  UserHighID : string;
  CreatedAt : Time;
  CreatedFromRequestID : option string
}.
End Friendship.

Definition NewFriendship (id userA userB : string) (createdFromRequestID : option string)
    (now : Time) : result Friendship.t :=
  if decide (id = "") then Err (Errorf "friendship id is required" [])
  else if decide (userA = "" \/ userB = "") then Err (Errorf "friendship users are required" [])
  else if decide (userA = userB) then Err (Errorf "cannot create friendship with self" [])
  else let '(userLowID, userHighID) := normalizePair userA userB in
    Ok (Friendship.mk id userLowID userHighID now createdFromRequestID).

Definition HasUser (f : Friendship.t) (userID : string) : bool :=
  String.eqb (Friendship.UserLowID f) userID || String.eqb (Friendship.UserHighID f) userID.

Definition OtherUserID (f : Friendship.t) (userID : string) : result string :=
  if decide (userID = Friendship.UserLowID f) then Ok (Friendship.UserHighID f)
  else if decide (userID = Friendship.UserHighID f) then Ok (Friendship.UserLowID f)
  else Err (Errorf "user does not belong to this friendship" []).

Module FollowRelation.
Record t := mk {
  ID : string;
  FollowerID : string;
  FolloweeID : string;
  CreatedAt : Time
}.
End FollowRelation.

Definition NewFollowRelation (id followerID followeeID : string) (now : Time) :
    result FollowRelation.t :=
  if decide (id = "") then Err (Errorf "follow relation id is required" [])
  else if decide (followerID = "") then Err (Errorf "follower id is required" [])
  else if decide (followeeID = "") then Err (Errorf "followee id is required" [])
  else if decide (followerID = followeeID) then Err (Errorf "cannot follow self" [])
  else Ok (FollowRelation.mk id followerID followeeID now).

Module BlockRelation.
Record t := mk {
  ID : string;
  BlockerID : string;
  BlockedID : string;
  Reason : option string;
  CreatedAt : Time
}.
End BlockRelation.

Definition NewBlockRelation (id blockerID blockedID : string) (reason : option string)
    (now : Time) : result BlockRelation.t :=
  if decide (id = "") then Err (Errorf "block relation id is required" [])
  else if decide (blockerID = "") then Err (Errorf "blocker id is required" [])
  else if decide (blockedID = "") then Err (Errorf "blocked id is required" [])
  else if decide (blockerID = blockedID) then Err (Errorf "cannot block self" [])
  else Ok (BlockRelation.mk id blockerID blockedID reason now).

(** ** Counters *)

Module CounterDelta.
Record t := mk {
  FriendsCount : Z;
  FollowersCount : Z;
  FollowingCount : Z;
  BlockedCount : Z;
  PendingInCount : Z;
  PendingOutCount : Z
}.

Definition zero : t := mk 0 0 0 0 0 0.

Definition IsZero (d : t) : bool :=
  bool_decide (FriendsCount d = 0 /\ FollowersCount d = 0 /\ FollowingCount d = 0 /\
    BlockedCount d = 0 /\ PendingInCount d = 0 /\ PendingOutCount d = 0).

(** The field by field [+=] of [addCounterDelta]. *)
Definition add (c d : t) : t :=
  mk (add64 (FriendsCount c) (FriendsCount d)) (add64 (FollowersCount c) (FollowersCount d))
    (add64 (FollowingCount c) (FollowingCount d)) (add64 (BlockedCount c) (BlockedCount d))
    (add64 (PendingInCount c) (PendingInCount d)) (add64 (PendingOutCount c) (PendingOutCount d)).
End CounterDelta.

#[export] Instance CounterDelta_eq_dec : EqDecision CounterDelta.t.
Proof. solve_decision. Defined.

(** ** Policy *)

Record PairState := mkPairState {
  ActorID : string;
  TargetID : string;
  TargetExists : bool;
  IsFriend : bool;
  IsFollowing : bool;
  HasOutgoingRequest : bool;
  HasIncomingRequest : bool;
  HasBlockingRelation : bool;
  HasBlockedTarget : bool
}.

Section policy.
Import Relationship.
Implicit Types (s : PairState).

Definition require (b : bool) (e : error) : result unit := if b then Ok tt else Err e.

Definition ensureTargetExists s : result unit := require (TargetExists s) ErrTargetAccountNotFound.

Definition ensureNotSelf s : result unit :=
  require (negb (String.eqb (ActorID s) (TargetID s))) (Errorf "cannot %s self" []).

Definition ensureNotBlocked s : result unit :=
  require (negb (HasBlockingRelation s)) ErrRelationshipBlocked.

Definition EnsureCanSendFriendRequest s : result unit :=
  _ ← ensureTargetExists s;
  _ ← ensureNotSelf s;
  _ ← ensureNotBlocked s;
  _ ← require (negb (IsFriend s)) ErrFriendshipAlreadyExists;
  require (negb (HasOutgoingRequest s || HasIncomingRequest s)) ErrFriendRequestAlreadyOpen.

Definition EnsureCanCancelFriendRequest s : result unit :=
  _ ← ensureNotSelf s;
  require (HasOutgoingRequest s) ErrFriendRequestNotFound.

Definition EnsureCanAcceptFriendRequest s : result unit :=
  _ ← ensureNotSelf s;
  _ ← require (HasIncomingRequest s) ErrFriendRequestNotFound;
  _ ← ensureNotBlocked s;
  require (negb (IsFriend s)) ErrFriendshipAlreadyExists.

Definition EnsureCanRejectFriendRequest s : result unit :=
  _ ← ensureNotSelf s;
  require (HasIncomingRequest s) ErrFriendRequestNotFound.

Definition EnsureCanFollow s : result unit :=
  _ ← ensureTargetExists s;
  _ ← ensureNotSelf s;
  _ ← ensureNotBlocked s;
  require (negb (IsFollowing s)) ErrFollowAlreadyExists.

Definition EnsureCanUnfollow s : result unit :=
  _ ← ensureNotSelf s;
  require (IsFollowing s) ErrFollowNotFound.

Definition EnsureCanUnfriend s : result unit :=
  _ ← ensureNotSelf s;
  require (IsFriend s) ErrFriendshipNotFound.

Definition EnsureCanBlock s : result unit :=
  _ ← ensureTargetExists s;
  _ ← ensureNotSelf s;
  require (negb (HasBlockedTarget s)) ErrBlockAlreadyExists.

Definition EnsureCanUnblock s : result unit :=
  _ ← ensureNotSelf s;
  require (HasBlockedTarget s) ErrBlockNotFound.
End policy.

Lemma require_Ok b e : require b e = Ok tt <-> b = true.
Proof. by destruct b. Qed.
