(* ===== verification/RelationshipPair.v ===== *)
(** * The relationship pair aggregate (relationship/domain/aggregate)

    The friend request aggregate, and the aggregate of an actor and a target:
    what holds between them ([relationshipPairState]), and what a command has
    changed of it, for the repository to write ([RelationshipPairChanges]). *)

From stdpp Require Import prelude strings gmap.
From S2P Require Import Prelude GoStrings Event RelationshipEntity.

(** ** The friend request aggregate *)

Inductive FriendRequestEventData : Type :=
  | EventFriendRequestCreated (requesterID addresseeID message : string) (createdAt : Time)
  | EventFriendRequestAccept (acceptedAt : Time)
  | EventFriendRequestReject (reason : option string) (rejectedAt : Time)
  | EventFriendRequestCancel (cancelAt : Time)
  | OtherFriendRequestEvent (typeName : string).

#[export] Instance FriendRequestPayload : EventPayload FriendRequestEventData := {|
  payload_nil _ := false;
  event_name d :=
    match d with
    | EventFriendRequestCreated _ _ _ _ => "EventFriendRequestCreated"
    | EventFriendRequestAccept _ => "EventFriendRequestAccept"
    | EventFriendRequestReject _ _ => "EventFriendRequestReject"
    | EventFriendRequestCancel _ => "EventFriendRequestCancel"
    | OtherFriendRequestEvent n => n
    end
|}.

(** [utils.NullableString] and [utils.DerefString]. *)
Definition NullableString (value : string) : option string :=
  if decide (value = "") then None else Some value.
Definition DerefString (value : option string) : string := default "" value.

(** A call through the embedded pointer panics when it is nil. *)
Definition onRequest {A} (m : method FriendRequest.t A) : method (option FriendRequest.t) A :=
  fun r => match r with
  | Some fr => let '(res, fr) := m fr in (res, Some fr)
  | None => (Panic "nil pointer dereference", None)
  end.

Module FriendRequestAggregate.
Record t := mk {
  root : AggregateRoot FriendRequestEventData;
  request : option FriendRequest.t
}.
End FriendRequestAggregate.
Notation FriendRequestAggregate := FriendRequestAggregate.t.

Definition friendRequestTransition (e : Event FriendRequestEventData) :
    method (option FriendRequest.t) unit :=
  match EventData e with
  | EventFriendRequestCreated requesterID addresseeID message createdAt =>
      if decide (requesterID = "" \/ addresseeID = "") then raise Relationship.ErrInvalidData
      else put (Some (FriendRequest.mk (AggregateID e) requesterID addresseeID
             FriendRequestStatusPending (NullableString message) createdAt None None None None))
  | EventFriendRequestAccept acceptedAt => onRequest (FriendRequest.Accept acceptedAt)
  | EventFriendRequestReject reason rejectedAt => onRequest (FriendRequest.Reject reason rejectedAt)
  | EventFriendRequestCancel cancelAt => onRequest (FriendRequest.Cancel cancelAt)
  | OtherFriendRequestEvent _ => raise ErrUnsupportedEventType
  end.

#[export] Program Instance FriendRequest_Aggregate :
    Aggregate FriendRequestAggregate FriendRequestEventData := {|
  Root := FriendRequestAggregate.root;
  setRoot r a := FriendRequestAggregate.mk r (FriendRequestAggregate.request a);
  Transition e a :=
    let '(res, fr) := friendRequestTransition e (FriendRequestAggregate.request a) in
    (res, FriendRequestAggregate.mk (FriendRequestAggregate.root a) fr)
|}.
Next Obligation. done. Qed.
Next Obligation. by intros []. Qed.
Next Obligation. done. Qed.

#[export] Instance FriendRequest_RootFree : RootFree FriendRequestAggregate FriendRequestEventData.
Proof. split. intros e r [r0 fr]. cbn. by destruct (friendRequestTransition e fr). Qed.

Definition friendRequestAggregateType : string := "FriendRequestAggregate".

(** [NewFriendRequest] of the aggregate. *)
Definition NewFriendRequest (friendRequestID : string) : result FriendRequestAggregate :=
  if decide (friendRequestID = "") then Err Relationship.ErrEmpty else
  match InitAggregate friendRequestAggregateType friendRequestID zeroRoot with
  | (Ok _, root) => Ok (FriendRequestAggregate.mk root None)
  | (Err e, _) => Err e
  | (Panic w, _) => Panic w
  end.

Definition Create (requesterID addresseeID : string) (message : option string) (now : Time) :
    method FriendRequestAggregate unit :=
  ApplyChange (EventFriendRequestCreated requesterID addresseeID (DerefString message) now).

Definition requireEntity (m : method FriendRequestAggregate unit) :
    method FriendRequestAggregate unit :=
  a ← get;
  match FriendRequestAggregate.request a with
  | None => raise (Errorf "friend request entity is required" [])
  | Some _ => m
  end.

Definition AcceptRequest (now : Time) : method FriendRequestAggregate unit :=
  requireEntity (ApplyChange (EventFriendRequestAccept now)).
Definition RejectRequest (reason : option string) (now : Time) : method FriendRequestAggregate unit :=
  requireEntity (ApplyChange (EventFriendRequestReject reason now)).
Definition CancelRequest (now : Time) : method FriendRequestAggregate unit :=
  requireEntity (ApplyChange (EventFriendRequestCancel now)).

(** On a non-nil entity. *)
Definition SetFriendRequest (fr : FriendRequest.t) (a : FriendRequestAggregate) :
    FriendRequestAggregate :=
  FriendRequestAggregate.mk (FriendRequestAggregate.root a) (Some fr).

(** ** Snapshots, state and changes *)

Module PairSnapshot.
Record t := mk {
  ActorID : string;
  TargetID : string;
  TargetExists : bool;
  FriendRequest : option FriendRequestAggregate;
  Friendship : option Friendship.t;
  Following : option FollowRelation.t;
  FollowedBy : option FollowRelation.t;
  Blocking : option BlockRelation.t;
  BlockedBy : option BlockRelation.t;
  AggregateVersion : Z
}.
End PairSnapshot.
Notation RelationshipPairSnapshot := PairSnapshot.t.

Inductive RelationshipChangeKind : Type :=
  | RelationshipChangeNone | RelationshipChangeUpsert | RelationshipChangeDelete.

#[export] Instance RelationshipChangeKind_eq_dec : EqDecision RelationshipChangeKind.
Proof. solve_decision. Defined.

(** The intents: a kind and the value; those of follows and blocks also hold
    the ids of the two users, which are the ones of the value. *)
Record PersistenceIntent (A : Type) := mkIntent {
  Kind : RelationshipChangeKind;
  Value : option A
}.
Arguments mkIntent {A}. Arguments Kind {A}. Arguments Value {A}.

Definition noIntent {A} : PersistenceIntent A := mkIntent RelationshipChangeNone None.

Module PairChanges.
Record t := mk {
  FriendRequest : PersistenceIntent FriendRequestAggregate;
  Friendship : PersistenceIntent Friendship.t;
  Following : PersistenceIntent FollowRelation.t;
  FollowedBy : PersistenceIntent FollowRelation.t;
  Block : PersistenceIntent BlockRelation.t;
  CounterDeltas : gmap string CounterDelta.t
}.
End PairChanges.
Notation RelationshipPairChanges := PairChanges.t.

Definition newRelationshipPairChanges : RelationshipPairChanges :=
  PairChanges.mk noIntent noIntent noIntent noIntent noIntent ∅.

Module PairStateOf.
Record t := mk {
  actorID : string;
  targetID : string;
  targetExists : bool;
  friendRequest : option FriendRequestAggregate;
  friendship : option Friendship.t;
  following : option FollowRelation.t;
  followedBy : option FollowRelation.t;
  blocking : option BlockRelation.t;
  blockedBy : option BlockRelation.t
}.
End PairStateOf.
Notation relationshipPairState := PairStateOf.t.
Import PairStateOf.

Definition newRelationshipPairState (s : RelationshipPairSnapshot) : relationshipPairState :=
  PairStateOf.mk (PairSnapshot.ActorID s) (PairSnapshot.TargetID s) (PairSnapshot.TargetExists s)
    (PairSnapshot.FriendRequest s) (PairSnapshot.Friendship s) (PairSnapshot.Following s)
    (PairSnapshot.FollowedBy s) (PairSnapshot.Blocking s) (PairSnapshot.BlockedBy s).

(** The pending request of the pair from one user to the other. *)
Definition pendingFromTo (s : relationshipPairState) (from to : string) : bool :=
  match friendRequest s ≫= FriendRequestAggregate.request with
  | Some fr => FriendRequest.IsPending fr && String.eqb (FriendRequest.RequesterID fr) from &&
               String.eqb (FriendRequest.AddresseeID fr) to
  | None => false
  end.

Definition hasPendingOutgoingRequest (s : relationshipPairState) : bool :=
  pendingFromTo s (actorID s) (targetID s).
Definition hasPendingIncomingRequest (s : relationshipPairState) : bool :=
  pendingFromTo s (targetID s) (actorID s).

Definition is_some {A} (o : option A) : bool := match o with Some _ => true | None => false end.

Definition toPolicyState (s : relationshipPairState) : PairState :=
  mkPairState (actorID s) (targetID s) (targetExists s) (is_some (friendship s))
    (is_some (following s)) (hasPendingOutgoingRequest s) (hasPendingIncomingRequest s)
    (is_some (blocking s) || is_some (blockedBy s)) (is_some (blocking s)).

(** *** The changes *)

Implicit Types (c : RelationshipPairChanges).

Definition trackFriendRequest (agg : option FriendRequestAggregate) c : RelationshipPairChanges :=
  match agg with
  | None => c
  | Some _ => PairChanges.mk (mkIntent RelationshipChangeUpsert agg) (PairChanges.Friendship c)
      (PairChanges.Following c) (PairChanges.FollowedBy c) (PairChanges.Block c)
      (PairChanges.CounterDeltas c)
  end.

(** [createFriendship] and [deleteFriendship]; then likewise. *)
Definition intendFriendship (k : RelationshipChangeKind) (f : option Friendship.t) c :
    RelationshipPairChanges :=
  match f with
  | None => c
  | Some _ => PairChanges.mk (PairChanges.FriendRequest c) (mkIntent k f) (PairChanges.Following c)
      (PairChanges.FollowedBy c) (PairChanges.Block c) (PairChanges.CounterDeltas c)
  end.
Definition createFriendship (f : Friendship.t) := intendFriendship RelationshipChangeUpsert (Some f).
Definition deleteFriendship (f : option Friendship.t) := intendFriendship RelationshipChangeDelete f.

Definition intendFollowing (k : RelationshipChangeKind) (r : option FollowRelation.t) c :
    RelationshipPairChanges :=
  match r with
  | None => c
  | Some _ => PairChanges.mk (PairChanges.FriendRequest c) (PairChanges.Friendship c) (mkIntent k r)
      (PairChanges.FollowedBy c) (PairChanges.Block c) (PairChanges.CounterDeltas c)
  end.
Definition createFollowing (r : FollowRelation.t) := intendFollowing RelationshipChangeUpsert (Some r).
Definition deleteFollowing (r : option FollowRelation.t) := intendFollowing RelationshipChangeDelete r.

Definition deleteFollowedBy (r : option FollowRelation.t) c : RelationshipPairChanges :=
  match r with
  | None => c
  | Some _ => PairChanges.mk (PairChanges.FriendRequest c) (PairChanges.Friendship c)
      (PairChanges.Following c) (mkIntent RelationshipChangeDelete r) (PairChanges.Block c)
      (PairChanges.CounterDeltas c)
  end.

Definition intendBlock (k : RelationshipChangeKind) (r : option BlockRelation.t) c :
    RelationshipPairChanges :=
  match r with
  | None => c
  | Some _ => PairChanges.mk (PairChanges.FriendRequest c) (PairChanges.Friendship c)
      (PairChanges.Following c) (PairChanges.FollowedBy c) (mkIntent k r)
      (PairChanges.CounterDeltas c)
  end.
Definition createBlock (r : BlockRelation.t) := intendBlock RelationshipChangeUpsert (Some r).
Definition deleteBlock (r : option BlockRelation.t) := intendBlock RelationshipChangeDelete r.

Definition addCounterDelta (userID : string) (delta : CounterDelta.t) c : RelationshipPairChanges :=
  if decide (TrimSpace userID = "" \/ CounterDelta.IsZero delta = true) then c
  else PairChanges.mk (PairChanges.FriendRequest c) (PairChanges.Friendship c)
    (PairChanges.Following c) (PairChanges.FollowedBy c) (PairChanges.Block c)
    (<[userID := CounterDelta.add (default CounterDelta.zero (PairChanges.CounterDeltas c !! userID))
                   delta]> (PairChanges.CounterDeltas c)).

(** ** The pair aggregate *)

Inductive RelationshipPairEventData : Type :=
  | EventRelationshipPairFriendRequestSent (requestID requesterID addresseeID : string)
      (createdAt : Time)
  | EventRelationshipPairFriendRequestCancelled (requestID requesterID addresseeID : string)
      (createdAt cancelledAt : Time)
  | EventRelationshipPairFriendRequestAccepted (requestID requesterID addresseeID : string)
      (createdAt : Time) (friendshipID : string) (acceptedAt : Time)
  | EventRelationshipPairFriendRequestRejected (requestID requesterID addresseeID : string)
      (createdAt : Time) (reason : option string) (rejectedAt : Time)
  | EventRelationshipPairFollowed (followID followerID followeeID : string) (createdAt : Time)
  | EventRelationshipPairUnfollowed (followerID followeeID : string)
  | EventRelationshipPairUnfriended (userID friendID : string)
  | EventRelationshipPairBlocked (blockID blockerID blockedID : string) (reason : option string)
      (createdAt : Time)
  | EventRelationshipPairUnblocked (blockerID blockedID : string)
  | OtherRelationshipPairEvent (typeName : string).

#[export] Instance RelationshipPairPayload : EventPayload RelationshipPairEventData := {|
  payload_nil _ := false;
  event_name d :=
    match d with
    | EventRelationshipPairFriendRequestSent _ _ _ _ => "EventRelationshipPairFriendRequestSent"
    | EventRelationshipPairFriendRequestCancelled _ _ _ _ _ =>
        "EventRelationshipPairFriendRequestCancelled"
    | EventRelationshipPairFriendRequestAccepted _ _ _ _ _ _ =>
        "EventRelationshipPairFriendRequestAccepted"
    | EventRelationshipPairFriendRequestRejected _ _ _ _ _ _ =>
        "EventRelationshipPairFriendRequestRejected"
    | EventRelationshipPairFollowed _ _ _ _ => "EventRelationshipPairFollowed"
    | EventRelationshipPairUnfollowed _ _ => "EventRelationshipPairUnfollowed"
    | EventRelationshipPairUnfriended _ _ => "EventRelationshipPairUnfriended"
    | EventRelationshipPairBlocked _ _ _ _ _ => "EventRelationshipPairBlocked"
    | EventRelationshipPairUnblocked _ _ => "EventRelationshipPairUnblocked"
    | OtherRelationshipPairEvent n => n
    end
|}.

(** What a transition works on. *)
Record PairBody := mkBody { state : relationshipPairState; changes : RelationshipPairChanges }.

Module PairAggregate.
Record t := mk { root : AggregateRoot RelationshipPairEventData; body : PairBody }.
End PairAggregate.
Notation RelationshipPairAggregate := PairAggregate.t.

(** *** Assignments *)

Definition setRequest (fr : option FriendRequestAggregate) (s : relationshipPairState) :=
  PairStateOf.mk (actorID s) (targetID s) (targetExists s) fr (friendship s) (following s)
    (followedBy s) (blocking s) (blockedBy s).
Definition setFriendship (f : option Friendship.t) (s : relationshipPairState) :=
  PairStateOf.mk (actorID s) (targetID s) (targetExists s) (friendRequest s) f (following s)
    (followedBy s) (blocking s) (blockedBy s).
Definition setFollowing (r : option FollowRelation.t) (s : relationshipPairState) :=
  PairStateOf.mk (actorID s) (targetID s) (targetExists s) (friendRequest s) (friendship s) r
    (followedBy s) (blocking s) (blockedBy s).
Definition setFollowedBy (r : option FollowRelation.t) (s : relationshipPairState) :=
  PairStateOf.mk (actorID s) (targetID s) (targetExists s) (friendRequest s) (friendship s)
    (following s) r (blocking s) (blockedBy s).
Definition setBlocking (r : option BlockRelation.t) (s : relationshipPairState) :=
  PairStateOf.mk (actorID s) (targetID s) (targetExists s) (friendRequest s) (friendship s)
    (following s) (followedBy s) r (blockedBy s).

Definition onState (f : relationshipPairState -> relationshipPairState) : method PairBody unit :=
  modify (fun b => mkBody (f (state b)) (changes b)).
Definition onChanges (f : RelationshipPairChanges -> RelationshipPairChanges) :
    method PairBody unit :=
  modify (fun b => mkBody (state b) (f (changes b))).

(** Two counter deltas, for the actor and for the target. *)
Definition countActor (d : CounterDelta.t) : method PairBody unit :=
  b ← get; onChanges (addCounterDelta (actorID (state b)) d).
Definition countTarget (d : CounterDelta.t) : method PairBody unit :=
  b ← get; onChanges (addCounterDelta (targetID (state b)) d).

Definition friends (n : Z) := CounterDelta.mk n 0 0 0 0 0.
Definition followers (n : Z) := CounterDelta.mk 0 n 0 0 0 0.
Definition followings (n : Z) := CounterDelta.mk 0 0 n 0 0 0.
Definition blocked (n : Z) := CounterDelta.mk 0 0 0 n 0 0.
Definition pendingIn (n : Z) := CounterDelta.mk 0 0 0 0 n 0.
Definition pendingOut (n : Z) := CounterDelta.mk 0 0 0 0 0 n.

(** *** Transitions *)

(** [buildFriendRequestAggregate]. *)
Definition buildFriendRequestAggregate (requestID requesterID addresseeID : string)
    (status : FriendRequestStatus) (createdAt : Time) (respondedAt cancelledAt : option Time)
    (rejectedReason : option string) : result FriendRequestAggregate :=
  fr ← NewFriendRequest requestID;
  Ok (SetFriendRequest (FriendRequest.mk requestID requesterID addresseeID status None createdAt
        respondedAt None cancelledAt rejectedReason) fr).

Definition ensureFriendRequestAggregate (requestID requesterID addresseeID : string)
    (status : FriendRequestStatus) (createdAt : Time) (respondedAt cancelledAt : option Time)
    (rejectedReason : option string) : method PairBody FriendRequestAggregate :=
  b ← get;
  match friendRequest (state b) with
  | Some fr => mret fr
  | None => lift (buildFriendRequestAggregate requestID requesterID addresseeID status createdAt
                    respondedAt cancelledAt rejectedReason)
  end.

Definition applyFriendRequestSent (requestID requesterID addresseeID : string) (createdAt : Time) :
    method PairBody unit :=
  b ← get;
  _ ← (if match friendRequest (state b) with
          | None => true
          | Some fr => negb (String.eqb (aggregateID (Root fr)) requestID)
          end
       then
         fr ← lift (buildFriendRequestAggregate requestID requesterID addresseeID
                      FriendRequestStatusPending createdAt None None None);
         onState (setRequest (Some fr))
       else mret tt);
  b ← get;
  _ ← onChanges (trackFriendRequest (friendRequest (state b)));
  _ ← countActor (pendingOut 1);
  countTarget (pendingIn 1).

Definition applyFriendRequestCancelled (requestID requesterID addresseeID : string)
    (createdAt cancelledAt : Time) : method PairBody unit :=
  fr ← ensureFriendRequestAggregate requestID requesterID addresseeID
         FriendRequestStatusCancelled createdAt None (Some cancelledAt) None;
  _ ← onState (setRequest (Some fr));
  _ ← onChanges (trackFriendRequest (Some fr));
  _ ← countActor (pendingOut (-1));
  countTarget (pendingIn (-1)).

Definition applyFriendRequestAccepted (requestID requesterID addresseeID : string)
    (createdAt : Time) (friendshipID : string) (acceptedAt : Time) : method PairBody unit :=
  fr ← ensureFriendRequestAggregate requestID requesterID addresseeID
         FriendRequestStatusAccepted createdAt (Some acceptedAt) None None;
  b ← get;
  friendship ← lift (NewFriendship friendshipID (actorID (state b)) (targetID (state b))
                       (Some requestID) acceptedAt);
  _ ← onState (setRequest (Some fr));
  _ ← onState (setFriendship (Some friendship));
  _ ← onChanges (trackFriendRequest (Some fr));
  _ ← onChanges (createFriendship friendship);
  _ ← countTarget (CounterDelta.mk 1 0 0 0 0 (-1));
  countActor (CounterDelta.mk 1 0 0 0 (-1) 0).

Definition applyFriendRequestRejected (requestID requesterID addresseeID : string)
    (createdAt : Time) (reason : option string) (rejectedAt : Time) : method PairBody unit :=
  fr ← ensureFriendRequestAggregate requestID requesterID addresseeID
         FriendRequestStatusRejected createdAt (Some rejectedAt) None reason;
  _ ← onState (setRequest (Some fr));
  _ ← onChanges (trackFriendRequest (Some fr));
  _ ← countTarget (pendingOut (-1));
  countActor (pendingIn (-1)).

Definition applyFollowed (followID followerID followeeID : string) (createdAt : Time) :
    method PairBody unit :=
  relation ← lift (NewFollowRelation followID followerID followeeID createdAt);
  _ ← onState (setFollowing (Some relation));
  _ ← onChanges (createFollowing relation);
  _ ← countActor (followings 1);
  countTarget (followers 1).

Definition applyUnfollowed : method PairBody unit :=
  b ← get;
  _ ← onChanges (deleteFollowing (following (state b)));
  _ ← onState (setFollowing None);
  _ ← countActor (followings (-1));
  countTarget (followers (-1)).

Definition applyUnfriended : method PairBody unit :=
  b ← get;
  _ ← onChanges (deleteFriendship (friendship (state b)));
  _ ← onState (setFriendship None);
  _ ← countActor (friends (-1));
  countTarget (friends (-1)).

Definition applyBlockRelation (blockID blockerID blockedID : string) (reason : option string)
    (createdAt : Time) : method PairBody unit :=
  relation ← lift (NewBlockRelation blockID blockerID blockedID reason createdAt);
  _ ← onState (setBlocking (Some relation));
  _ ← onChanges (createBlock relation);
  countActor (blocked 1).

(** Runs [m] on the friend request, in place, and says whether it returned
    without an error. *)
Definition answerRequest (m : method FriendRequestAggregate unit) : method PairBody bool := fun b =>
  match friendRequest (state b) with
  | None => (Panic "nil pointer dereference", b)
  | Some fr =>
      let '(res, fr) := m fr in
      (match res with Ok _ => Ok true | Err _ => Ok false | Panic w => Panic w end,
       mkBody (setRequest (Some fr) (state b)) (changes b))
  end.

Definition resolvePendingRequestForBlock (now : Time) : method PairBody unit :=
  b ← get;
  _ ← (if hasPendingOutgoingRequest (state b) then
         ok ← answerRequest (CancelRequest now);
         if ok : bool then
           b ← get;
           _ ← onChanges (trackFriendRequest (friendRequest (state b)));
           _ ← countActor (pendingOut (-1));
           countTarget (pendingIn (-1))
         else mret tt
       else mret tt);
  b ← get;
  if hasPendingIncomingRequest (state b) then
    ok ← answerRequest (RejectRequest (Some "blocked by user") now);
    if ok : bool then
      b ← get;
      _ ← onChanges (trackFriendRequest (friendRequest (state b)));
      _ ← countTarget (pendingOut (-1));
      countActor (pendingIn (-1))
    else mret tt
  else mret tt.

Definition removeFriendshipForBlock : method PairBody unit :=
  b ← get;
  match friendship (state b) with
  | None => mret tt
  | Some f =>
      _ ← onChanges (deleteFriendship (Some f));
      _ ← onState (setFriendship None);
      _ ← countActor (friends (-1));
      countTarget (friends (-1))
  end.

Definition removeOutgoingFollowForBlock : method PairBody unit :=
  b ← get;
  match following (state b) with
  | None => mret tt
  | Some r =>
      _ ← onChanges (deleteFollowing (Some r));
      _ ← onState (setFollowing None);
      _ ← countActor (followings (-1));
      countTarget (followers (-1))
  end.

Definition removeIncomingFollowForBlock : method PairBody unit :=
  b ← get;
  match followedBy (state b) with
  | None => mret tt
  | Some r =>
      _ ← onChanges (deleteFollowedBy (Some r));
      _ ← onState (setFollowedBy None);
      _ ← countTarget (followings (-1));
      countActor (followers (-1))
  end.

Definition applyBlocked (blockID blockerID blockedID : string) (reason : option string)
    (createdAt : Time) : method PairBody unit :=
  _ ← applyBlockRelation blockID blockerID blockedID reason createdAt;
  _ ← resolvePendingRequestForBlock createdAt;
  _ ← removeFriendshipForBlock;
  _ ← removeOutgoingFollowForBlock;
  removeIncomingFollowForBlock.

Definition applyUnblocked : method PairBody unit :=
  b ← get;
  _ ← onChanges (deleteBlock (blocking (state b)));
  _ ← onState (setBlocking None);
  countActor (blocked (-1)).

Definition pairTransition (e : Event RelationshipPairEventData) : method PairBody unit :=
  match EventData e with
  | EventRelationshipPairFriendRequestSent rid req addr at_ => applyFriendRequestSent rid req addr at_
  | EventRelationshipPairFriendRequestCancelled rid req addr at_ cat =>
      applyFriendRequestCancelled rid req addr at_ cat
  | EventRelationshipPairFriendRequestAccepted rid req addr at_ fid aat =>
      applyFriendRequestAccepted rid req addr at_ fid aat
  | EventRelationshipPairFriendRequestRejected rid req addr at_ reason rat =>
      applyFriendRequestRejected rid req addr at_ reason rat
  | EventRelationshipPairFollowed fid a b at_ => applyFollowed fid a b at_
  | EventRelationshipPairUnfollowed _ _ => applyUnfollowed
  | EventRelationshipPairUnfriended _ _ => applyUnfriended
  | EventRelationshipPairBlocked bid a b reason at_ => applyBlocked bid a b reason at_
  | EventRelationshipPairUnblocked _ _ => applyUnblocked
  | OtherRelationshipPairEvent _ => raise ErrUnsupportedEventType
  end.

#[export] Program Instance RelationshipPair_Aggregate :
    Aggregate RelationshipPairAggregate RelationshipPairEventData := {|
  Root := PairAggregate.root;
  setRoot r a := PairAggregate.mk r (PairAggregate.body a);
  Transition e a :=
    let '(res, b) := pairTransition e (PairAggregate.body a) in
    (res, PairAggregate.mk (PairAggregate.root a) b)
|}.
Next Obligation. done. Qed.
Next Obligation. by intros []. Qed.
Next Obligation. done. Qed.

#[export] Instance RelationshipPair_RootFree :
    RootFree RelationshipPairAggregate RelationshipPairEventData.
Proof.
  split. intros e r [r0 b]. cbn [Transition setRoot RelationshipPair_Aggregate PairAggregate.body PairAggregate.root].
  by destruct (pairTransition e b).
Qed.

(** *** Construction *)

Definition relationshipPairAggregateType : string := "RelationshipPairAggregate".

(** [normalizePair] of the aggregate package ([<=]). *)
Definition normalizePairLe (a b : string) : string * string :=
  if String.leb a b then (a, b) else (b, a).

Definition CanonicalRelationshipPairAggregateID (actorID targetID : string) : string :=
  let '(low, high) := normalizePairLe actorID targetID in low +:+ ":" +:+ high.

Definition NewRelationshipPair (s : RelationshipPairSnapshot) : result RelationshipPairAggregate :=
  if decide (PairSnapshot.ActorID s = "" \/ PairSnapshot.TargetID s = "") then
    Err Relationship.ErrEmpty else
  let aggregateID := CanonicalRelationshipPairAggregateID (PairSnapshot.ActorID s)
                       (PairSnapshot.TargetID s) in
  match InitAggregate relationshipPairAggregateType aggregateID zeroRoot with
  | (Ok _, root) =>
      Ok (PairAggregate.mk
            (SetInternal aggregateID (PairSnapshot.AggregateVersion s)
               (PairSnapshot.AggregateVersion s) root)
            (mkBody (newRelationshipPairState s) newRelationshipPairChanges))
  | (Err e, _) => Err e
  | (Panic w, _) => Panic w
  end.

(** *** Commands *)

Definition pairState (a : RelationshipPairAggregate) : relationshipPairState :=
  state (PairAggregate.body a).
Definition Changes (a : RelationshipPairAggregate) : RelationshipPairChanges :=
  changes (PairAggregate.body a).
Definition updBody (f : PairBody -> PairBody) (a : RelationshipPairAggregate) :
    RelationshipPairAggregate :=
  PairAggregate.mk (PairAggregate.root a) (f (PairAggregate.body a)).

(** The guard of a command. *)
Definition ensure (check : PairState -> result unit) : method RelationshipPairAggregate unit :=
  fun a => (check (toPolicyState (pairState a)), a).

(** Runs [m] on the friend request, in place. The request is the object that
    the changes track, if they track it: each call is followed by one that
    tracks it again. *)
Definition onFriendRequest (m : method FriendRequestAggregate unit) :
    method RelationshipPairAggregate unit := fun a =>
  match friendRequest (pairState a) with
  | None => (Err (Errorf "friend request aggregate is required" []), a)
  | Some fr =>
      let '(res, fr) := m fr in
      (res, updBody (fun b => mkBody (setRequest (Some fr) (state b)) (changes b)) a)
  end.

(** The request and its entity, which the commands read after the answer. *)
Definition currentRequest : method RelationshipPairAggregate (string * FriendRequest.t) :=
  a ← get;
  match friendRequest (pairState a) with
  | Some fr =>
      match FriendRequestAggregate.request fr with
      | Some e => mret (aggregateID (Root fr), e)
      | None => lift (Panic "nil pointer dereference")
      end
  | None => lift (Panic "nil pointer dereference")
  end.

Definition SendFriendRequest (requestID : string) (now : Time) :
    method RelationshipPairAggregate unit :=
  _ ← ensure EnsureCanSendFriendRequest;
  a ← get;
  fr ← lift (NewFriendRequest requestID);
  fr ← lift (match Create (actorID (pairState a)) (targetID (pairState a)) None now fr with
             | (Ok _, fr) => Ok fr
             | (Err e, _) => Err e
             | (Panic w, _) => Panic w
             end);
  _ ← modify (updBody (fun b => mkBody (setRequest (Some fr) (state b)) (changes b)));
  ApplyChange (EventRelationshipPairFriendRequestSent requestID (actorID (pairState a))
    (targetID (pairState a)) now).

Definition CancelFriendRequest (now : Time) : method RelationshipPairAggregate unit :=
  _ ← ensure EnsureCanCancelFriendRequest;
  _ ← onFriendRequest (CancelRequest now);
  '(id, fr) ← currentRequest;
  ApplyChange (EventRelationshipPairFriendRequestCancelled id (FriendRequest.RequesterID fr)
    (FriendRequest.AddresseeID fr) (FriendRequest.CreatedAt fr) now).

Definition AcceptFriendRequest (friendshipID : string) (now : Time) :
    method RelationshipPairAggregate unit :=
  _ ← ensure EnsureCanAcceptFriendRequest;
  _ ← onFriendRequest (AcceptRequest now);
  '(id, fr) ← currentRequest;
  ApplyChange (EventRelationshipPairFriendRequestAccepted id (FriendRequest.RequesterID fr)
    (FriendRequest.AddresseeID fr) (FriendRequest.CreatedAt fr) friendshipID now).

Definition RejectFriendRequest (reason : option string) (now : Time) :
    method RelationshipPairAggregate unit :=
  _ ← ensure EnsureCanRejectFriendRequest;
  _ ← onFriendRequest (RejectRequest reason now);
  '(id, fr) ← currentRequest;
  ApplyChange (EventRelationshipPairFriendRequestRejected id (FriendRequest.RequesterID fr)
    (FriendRequest.AddresseeID fr) (FriendRequest.CreatedAt fr) reason now).

Definition Follow (followID : string) (now : Time) : method RelationshipPairAggregate unit :=
  _ ← ensure EnsureCanFollow;
  a ← get;
  ApplyChange (EventRelationshipPairFollowed followID (actorID (pairState a))
    (targetID (pairState a)) now).

Definition Unfollow : method RelationshipPairAggregate unit :=
  _ ← ensure EnsureCanUnfollow;
  a ← get;
  ApplyChange (EventRelationshipPairUnfollowed (actorID (pairState a)) (targetID (pairState a))).

Definition Unfriend : method RelationshipPairAggregate unit :=
  _ ← ensure EnsureCanUnfriend;
  a ← get;
  ApplyChange (EventRelationshipPairUnfriended (actorID (pairState a)) (targetID (pairState a))).

Definition Block (blockID : string) (reason : option string) (now : Time) :
    method RelationshipPairAggregate unit :=
  _ ← ensure EnsureCanBlock;
  a ← get;
  ApplyChange (EventRelationshipPairBlocked blockID (actorID (pairState a))
    (targetID (pairState a)) reason now).

Definition Unblock : method RelationshipPairAggregate unit :=
  _ ← ensure EnsureCanUnblock;
  a ← get;
  ApplyChange (EventRelationshipPairUnblocked (actorID (pairState a)) (targetID (pairState a))).

(** *** Reading *)

(** The value of an intent to insert. *)
Definition upserted {A} (i : PersistenceIntent A) : option A :=
  if decide (Kind i = RelationshipChangeUpsert) then Value i else None.

Definition FriendshipCreated (a : RelationshipPairAggregate) := upserted (PairChanges.Friendship (Changes a)).
Definition FollowCreated (a : RelationshipPairAggregate) := upserted (PairChanges.Following (Changes a)).
Definition BlockCreated (a : RelationshipPairAggregate) := upserted (PairChanges.Block (Changes a)).

Definition PairMarkPersisted (a : RelationshipPairAggregate) : RelationshipPairAggregate :=
  let a := updRoot MarkPersisted a in
  updBody (fun b => mkBody (state b) newRelationshipPairChanges) a.
