(* ===== verification/RelationshipPairSpec.v ===== *)
(** * What a relationship command does

    The bond of two users is what holds between them, as a few flags. Every
    command of the pair aggregate either is rejected and changes nothing, or
    takes one step of [bondStep]; the counter deltas it leaves are what the
    step changes in the counts of the two users, and the changes it leaves are
    the difference between the states, for the repository to write. *)

From stdpp Require Import prelude strings gmap.
From S2P Require Import Prelude GoStrings Event RelationshipEntity RelationshipPair.
Import PairStateOf.

(** ** Commands *)

Inductive PairCommand : Type :=
  | CmdSendFriendRequest (requestID : string) (now : Time)
  | CmdCancelFriendRequest (now : Time)
  | CmdAcceptFriendRequest (friendshipID : string) (now : Time)
  | CmdRejectFriendRequest (reason : option string) (now : Time)
  | CmdFollow (followID : string) (now : Time)
  | CmdUnfollow
  | CmdUnfriend
  | CmdBlock (blockID : string) (reason : option string) (now : Time)
  | CmdUnblock.

Definition runPairCommand (c : PairCommand) : method RelationshipPairAggregate unit :=
  match c with
  | CmdSendFriendRequest id now => SendFriendRequest id now
  | CmdCancelFriendRequest now => CancelFriendRequest now
  | CmdAcceptFriendRequest id now => AcceptFriendRequest id now
  | CmdRejectFriendRequest reason now => RejectFriendRequest reason now
  | CmdFollow id now => Follow id now
  | CmdUnfollow => Unfollow
  | CmdUnfriend => Unfriend
  | CmdBlock id reason now => Block id reason now
  | CmdUnblock => Unblock
  end.

(** The id that the caller generates for what the command creates. *)
Definition newID (c : PairCommand) : option string :=
  match c with
  | CmdSendFriendRequest id _ | CmdAcceptFriendRequest id _ | CmdFollow id _ | CmdBlock id _ _ => Some id
  | _ => None
  end.

Definition generated (id : string) : Prop := id <> "" /\ TrimSpace id = id.
Definition command_ok (c : PairCommand) : Prop :=
  match newID c with Some id => generated id | None => True end.

(** ** Bonds *)

Inductive Direction : Type := Outgoing | Incoming.

#[export] Instance Direction_eq_dec : EqDecision Direction.
Proof. solve_decision. Defined.

Record Bond := mkBond {
  befriended : bool;
  follows : bool;
  followed : bool;
  blocks : bool;
  blockedBack : bool;
  openRequest : option Direction
}.

Definition bondOf (s : relationshipPairState) : Bond :=
  mkBond (is_some (friendship s)) (is_some (following s)) (is_some (followedBy s))
    (is_some (blocking s)) (is_some (blockedBy s))
    (if hasPendingOutgoingRequest s then Some Outgoing
     else if hasPendingIncomingRequest s then Some Incoming else None).

(** The step of a command; [None] when it is rejected. *)
Definition bondStep (targetExists : bool) (c : PairCommand) (b : Bond) : option Bond :=
  match c, b with
  | CmdSendFriendRequest _ _, mkBond false fo fb false false None =>
      if targetExists then Some (mkBond false fo fb false false (Some Outgoing)) else None
  | CmdCancelFriendRequest _, mkBond fr fo fb bl bb (Some Outgoing) =>
      Some (mkBond fr fo fb bl bb None)
  | CmdAcceptFriendRequest _ _, mkBond false fo fb false false (Some Incoming) =>
      Some (mkBond true fo fb false false None)
  | CmdRejectFriendRequest _ _, mkBond fr fo fb bl bb (Some Incoming) =>
      Some (mkBond fr fo fb bl bb None)
  | CmdFollow _ _, mkBond fr false fb false false q =>
      if targetExists then Some (mkBond fr true fb false false q) else None
  | CmdUnfollow, mkBond fr true fb bl bb q => Some (mkBond fr false fb bl bb q)
  | CmdUnfriend, mkBond true fo fb bl bb q => Some (mkBond false fo fb bl bb q)
  | CmdBlock _ _ _, mkBond _ _ _ false bb _ =>
      if targetExists then Some (mkBond false false false true bb None) else None
  | CmdUnblock, mkBond fr fo fb true bb q => Some (mkBond fr fo fb false bb q)
  | _, _ => None
  end.

(** Blocked users have no other bond, and friends no open request. *)
Definition bond_ok (b : Bond) : Prop :=
  (blocks b || blockedBack b = true ->
     befriended b = false /\ follows b = false /\ followed b = false /\ openRequest b = None) /\
  (befriended b = true -> openRequest b = None).

Lemma bondStep_ok ex c b b' : bond_ok b -> bondStep ex c b = Some b' -> bond_ok b'.
Proof.
  destruct b as [[] [] [] [] [] [[]|]]; unfold bond_ok; cbn; intros [H1 H2];
    destruct c; cbn; try done; destruct ex; intros [= <-]; cbn; intuition congruence.
Qed.

(** ** Counts *)

Definition b2z (b : bool) : Z := if b then 1 else 0.
Definition dir2z (d : Direction) (q : option Direction) : Z :=
  match d, q with Outgoing, Some Outgoing | Incoming, Some Incoming => 1 | _, _ => 0 end.

(** What the bond contributes to the counters of the actor, and of the target. *)
Definition actorCounts (b : Bond) : CounterDelta.t :=
  CounterDelta.mk (b2z (befriended b)) (b2z (followed b)) (b2z (follows b)) (b2z (blocks b))
    (dir2z Incoming (openRequest b)) (dir2z Outgoing (openRequest b)).
Definition targetCounts (b : Bond) : CounterDelta.t :=
  CounterDelta.mk (b2z (befriended b)) (b2z (follows b)) (b2z (followed b)) (b2z (blockedBack b))
    (dir2z Outgoing (openRequest b)) (dir2z Incoming (openRequest b)).

Definition minus (c d : CounterDelta.t) : CounterDelta.t :=
  CounterDelta.mk (CounterDelta.FriendsCount c - CounterDelta.FriendsCount d)
    (CounterDelta.FollowersCount c - CounterDelta.FollowersCount d)
    (CounterDelta.FollowingCount c - CounterDelta.FollowingCount d)
    (CounterDelta.BlockedCount c - CounterDelta.BlockedCount d)
    (CounterDelta.PendingInCount c - CounterDelta.PendingInCount d)
    (CounterDelta.PendingOutCount c - CounterDelta.PendingOutCount d).

Definition deltaOf (c : RelationshipPairChanges) (u : string) : CounterDelta.t :=
  default CounterDelta.zero (PairChanges.CounterDeltas c !! u).

(** ** Well-formed states *)

Definition between (from to : string) (fr : FriendRequest.t) : Prop :=
  FriendRequest.RequesterID fr = from /\ FriendRequest.AddresseeID fr = to.

Definition request_ok (actor target : string) (fr : FriendRequestAggregate) : Prop :=
  exists e, FriendRequestAggregate.request fr = Some e /\
    aggregateID (Root fr) <> "" /\ FriendRequest.ID e = aggregateID (Root fr) /\
    (between actor target e \/ between target actor e).

Record pair_wf (s : relationshipPairState) : Prop := {
  pw_actor : TrimSpace (actorID s) <> "";
  pw_target : TrimSpace (targetID s) <> "";
  pw_distinct : actorID s <> targetID s;
  pw_request fr : friendRequest s = Some fr -> request_ok (actorID s) (targetID s) fr;
  pw_friendship f : friendship s = Some f ->
    (Friendship.UserLowID f, Friendship.UserHighID f) = normalizePair (actorID s) (targetID s);
  pw_following r : following s = Some r ->
    FollowRelation.FollowerID r = actorID s /\ FollowRelation.FolloweeID r = targetID s;
  pw_followedBy r : followedBy s = Some r ->
    FollowRelation.FollowerID r = targetID s /\ FollowRelation.FolloweeID r = actorID s;
  pw_blocking r : blocking s = Some r ->
    BlockRelation.BlockerID r = actorID s /\ BlockRelation.BlockedID r = targetID s
}.

(** ** Changes *)

(** The request with another status and other times. *)
Definition answered (e e' : FriendRequest.t) : Prop :=
  FriendRequest.ID e' = FriendRequest.ID e /\
  FriendRequest.RequesterID e' = FriendRequest.RequesterID e /\
  FriendRequest.AddresseeID e' = FriendRequest.AddresseeID e /\
  FriendRequest.IsPending e' = false.

Definition request_answered (before after : option FriendRequestAggregate) : Prop :=
  exists fr e fr' e', before = Some fr /\ FriendRequestAggregate.request fr = Some e /\
    after = Some fr' /\ FriendRequestAggregate.request fr' = Some e' /\
    aggregateID (Root fr') = aggregateID (Root fr) /\ answered e e'.

Definition sentRequest (id from to : string) (now : Time) : FriendRequest.t :=
  FriendRequest.mk id from to FriendRequestStatusPending None now None None None None.

(** What the intent says of the request: it is as it was, or it has been
    answered, or the command has sent it. *)
Definition request_step (c : PairCommand) (i : PersistenceIntent FriendRequestAggregate)
    (s s' : relationshipPairState) : Prop :=
  (Kind i = RelationshipChangeNone /\ friendRequest s' = friendRequest s) \/
  (i = mkIntent RelationshipChangeUpsert (friendRequest s') /\
    (request_answered (friendRequest s) (friendRequest s') \/
     exists fr id now, c = CmdSendFriendRequest id now /\ friendRequest s' = Some fr /\
       FriendRequestAggregate.request fr = Some (sentRequest id (actorID s) (targetID s) now) /\
       aggregateID (Root fr) = id)).

(** What an intent says of a value that was [before] and is [after]. *)
Definition intends {A} (i : PersistenceIntent A) (before after : option A) : Prop :=
  match Kind i with
  | RelationshipChangeNone => after = before
  | RelationshipChangeUpsert => before = None /\ Value i = after /\ is_Some after
  | RelationshipChangeDelete => after = None /\ Value i = before /\ is_Some before
  end.

(** The changes lead from the state [s0] to the state [s]. *)
Record describes (c : RelationshipPairChanges) (s0 s : relationshipPairState) : Prop := {
  de_friendship : intends (PairChanges.Friendship c) (friendship s0) (friendship s);
  de_following : intends (PairChanges.Following c) (following s0) (following s);
  de_followedBy : intends (PairChanges.FollowedBy c) (followedBy s0) (followedBy s);
  de_block : intends (PairChanges.Block c) (blocking s0) (blocking s);
  de_blockedBy : blockedBy s = blockedBy s0;
  de_ids : actorID s = actorID s0 /\ targetID s = targetID s0 /\ targetExists s = targetExists s0
}.

(** The deltas are what the counts have changed by. *)
Definition counted (c : RelationshipPairChanges) (s0 s : relationshipPairState) : Prop :=
  deltaOf c (actorID s0) = minus (actorCounts (bondOf s)) (actorCounts (bondOf s0)) /\
  deltaOf c (targetID s0) = minus (targetCounts (bondOf s)) (targetCounts (bondOf s0)) /\
  forall u, u <> actorID s0 -> u <> targetID s0 -> PairChanges.CounterDeltas c !! u = None.

(** ** Deltas *)

Lemma deltaOf_add u d c v :
  TrimSpace u <> "" -> CounterDelta.IsZero d = false ->
  deltaOf (addCounterDelta u d c) v =
    if decide (v = u) then CounterDelta.add (deltaOf c u) d else deltaOf c v.
Proof.
  intros Hu Hd. unfold addCounterDelta. rewrite decide_False by (rewrite Hd; naive_solver).
  unfold deltaOf. cbn. case_decide as Hv; [subst; by rewrite lookup_insert_eq|].
  by rewrite lookup_insert_ne.
Qed.

Lemma addCounterDelta_other u d c v :
  v <> u -> PairChanges.CounterDeltas (addCounterDelta u d c) !! v = PairChanges.CounterDeltas c !! v.
Proof.
  intros Hv. unfold addCounterDelta. case_decide; [done|]. cbn. by rewrite lookup_insert_ne.
Qed.

(** The parts of the changes that are not counters. *)
Lemma addCounterDelta_rest u d c :
  PairChanges.FriendRequest (addCounterDelta u d c) = PairChanges.FriendRequest c /\
  PairChanges.Friendship (addCounterDelta u d c) = PairChanges.Friendship c /\
  PairChanges.Following (addCounterDelta u d c) = PairChanges.Following c /\
  PairChanges.FollowedBy (addCounterDelta u d c) = PairChanges.FollowedBy c /\
  PairChanges.Block (addCounterDelta u d c) = PairChanges.Block c.
Proof. unfold addCounterDelta. by case_decide. Qed.

Lemma TrimSpace_nonempty s : TrimSpace s <> "" -> s <> "".
Proof. by intros H ->. Qed.

(** ** Guards *)

Definition guardOf (c : PairCommand) : PairState -> result unit :=
  match c with
  | CmdSendFriendRequest _ _ => EnsureCanSendFriendRequest
  | CmdCancelFriendRequest _ => EnsureCanCancelFriendRequest
  | CmdAcceptFriendRequest _ _ => EnsureCanAcceptFriendRequest
  | CmdRejectFriendRequest _ _ => EnsureCanRejectFriendRequest
  | CmdFollow _ _ => EnsureCanFollow
  | CmdUnfollow => EnsureCanUnfollow
  | CmdUnfriend => EnsureCanUnfriend
  | CmdBlock _ _ _ => EnsureCanBlock
  | CmdUnblock => EnsureCanUnblock
  end.

(** The three cases of the request. *)
Lemma request_cases s :
  pair_wf s ->
  let out := hasPendingOutgoingRequest s in let inc := hasPendingIncomingRequest s in
  (out = false /\ inc = false \/ out = true /\ inc = false \/ out = false /\ inc = true) /\
  (out || inc = true -> exists fr e, friendRequest s = Some fr /\
     FriendRequestAggregate.request fr = Some e /\ FriendRequest.IsPending e = true /\
     aggregateID (Root fr) <> "" /\ FriendRequest.ID e = aggregateID (Root fr) /\
     if out then between (actorID s) (targetID s) e else between (targetID s) (actorID s) e).
Proof.
  intros Hw. cbv zeta. unfold hasPendingOutgoingRequest, hasPendingIncomingRequest, pendingFromTo.
  destruct (friendRequest s) as [fr|] eqn:Hfr; cbn [mbind option_bind]; [|split; [auto|done]].
  destruct (pw_request _ Hw _ Hfr) as (e & He & Hid & Heid & Hb). rewrite He.
  pose proof (pw_distinct _ Hw) as Hne.
  destruct (FriendRequest.IsPending e) eqn:Hp; cbn; [|split; [auto|done]].
  destruct Hb as [[H1 H2]|[H1 H2]]; rewrite H1, H2, !String.eqb_refl;
    rewrite ?(proj2 (String.eqb_neq (targetID s) (actorID s))) by congruence;
    rewrite ?(proj2 (String.eqb_neq (actorID s) (targetID s))) by congruence; cbn;
    (split; [auto|]); intros _; exists fr, e; repeat split; auto.
Qed.

Lemma guard_spec c s :
  pair_wf s ->
  (bondStep (targetExists s) c (bondOf s) = None /\ exists e, guardOf c (toPolicyState s) = Err e) \/
  (is_Some (bondStep (targetExists s) c (bondOf s)) /\ guardOf c (toPolicyState s) = Ok tt).
Proof.
  intros Hw. destruct (request_cases s Hw) as [Hreq _].
  assert (Hself : String.eqb (actorID s) (targetID s) = false)
    by (apply String.eqb_neq, Hw).
  unfold toPolicyState, bondOf.
  destruct (hasPendingOutgoingRequest s), (hasPendingIncomingRequest s);
    try (exfalso; naive_solver);
  destruct (is_some (friendship s)), (is_some (following s)), (is_some (followedBy s)),
    (is_some (blocking s)), (is_some (blockedBy s)), (targetExists s); destruct c; cbn;
    unfold EnsureCanSendFriendRequest, EnsureCanCancelFriendRequest, EnsureCanAcceptFriendRequest,
      EnsureCanRejectFriendRequest, EnsureCanFollow, EnsureCanUnfollow, EnsureCanUnfriend,
      EnsureCanBlock, EnsureCanUnblock, ensureTargetExists, ensureNotSelf, ensureNotBlocked; cbn;
    rewrite ?Hself; cbn; eauto.
Qed.

(** ** Running *)

Lemma pair_apply d a b' :
  aggregateID (Root a) <> "" -> event_name d <> "" ->
  (forall e, EventData e = d -> pairTransition e (PairAggregate.body a) = (Ok tt, b')) ->
  exists evt, ApplyChange d a = (Ok tt, PairAggregate.mk (appendEvent evt (Root a)) b').
Proof.
  intros Hid Hn Ht. unfold ApplyChange. rewrite decide_False by done. cbn [payload_nil RelationshipPairPayload].
  rewrite decide_False by done. set (evt := mkEvent _ _ _ _ _ _ _). exists evt.
  cbn [Transition RelationshipPair_Aggregate updRoot]. cbn [setRoot Root RelationshipPair_Aggregate PairAggregate.root PairAggregate.body updRoot].
  unfold updRoot. cbn [setRoot Root RelationshipPair_Aggregate PairAggregate.root PairAggregate.body].
  by rewrite (Ht evt).
Qed.

(** Answering a pending request. *)
Lemma answer_run d fr e e' m :
  FriendRequestAggregate.request fr = Some e -> aggregateID (Root fr) <> "" -> event_name d <> "" ->
  (forall evt, EventData evt = d -> friendRequestTransition evt (Some e) = (Ok tt, Some e')) ->
  m = requireEntity (ApplyChange d) ->
  exists fr', m fr = (Ok tt, fr') /\ FriendRequestAggregate.request fr' = Some e' /\
    aggregateID (Root fr') = aggregateID (Root fr).
Proof.
  intros He Hid Hn Ht ->. unfold requireEntity, mbind, method_bind, get. rewrite He.
  unfold ApplyChange. rewrite decide_False by done. cbn [payload_nil FriendRequestPayload].
  rewrite decide_False by done. set (evt := mkEvent _ _ _ _ _ _ _).
  cbn [Transition FriendRequest_Aggregate]. unfold updRoot.
  cbn [setRoot Root FriendRequest_Aggregate FriendRequestAggregate.root FriendRequestAggregate.request].
  rewrite He, (Ht evt) by done. eexists. split; [done|]. by split.
Qed.

(** ** The effect of a command *)

Record effected (c : PairCommand) (a a' : RelationshipPairAggregate) : Prop := {
  ef_bond : bondStep (targetExists (pairState a)) c (bondOf (pairState a)) =
              Some (bondOf (pairState a'));
  ef_wf : pair_wf (pairState a');
  ef_request : request_step c (PairChanges.FriendRequest (Changes a')) (pairState a) (pairState a');
  ef_changes : describes (Changes a') (pairState a) (pairState a');
  ef_counts : counted (Changes a') (pairState a) (pairState a');
  ef_root : exists evt, Root a' = appendEvent evt (Root a)
}.

(** A loaded pair: nothing has been changed yet. *)
Record loaded_ok (a : RelationshipPairAggregate) : Prop := {
  lo_wf : pair_wf (pairState a);
  lo_bond : bond_ok (bondOf (pairState a));
  lo_root : aggregateID (Root a) <> "";
  lo_changes : Changes a = newRelationshipPairChanges
}.

(** A list of counter deltas, each for the actor ([true]) or the target. *)
Fixpoint tally (s : relationshipPairState) (l : list (bool * CounterDelta.t))
    (c : RelationshipPairChanges) : RelationshipPairChanges :=
  match l with
  | [] => c
  | (side, d) :: l => tally s l (addCounterDelta (if side : bool then actorID s else targetID s) d c)
  end.

Fixpoint total (side : bool) (l : list (bool * CounterDelta.t)) (acc : CounterDelta.t) :
    CounterDelta.t :=
  match l with
  | [] => acc
  | (b, d) :: l => total side l (if Bool.eqb b side then CounterDelta.add acc d else acc)
  end.

Lemma tally_rest s l c :
  PairChanges.FriendRequest (tally s l c) = PairChanges.FriendRequest c /\
  PairChanges.Friendship (tally s l c) = PairChanges.Friendship c /\
  PairChanges.Following (tally s l c) = PairChanges.Following c /\
  PairChanges.FollowedBy (tally s l c) = PairChanges.FollowedBy c /\
  PairChanges.Block (tally s l c) = PairChanges.Block c.
Proof.
  revert c. induction l as [|[b d] l IH]; intros c; cbn; [done|].
  destruct (IH (addCounterDelta (if b then actorID s else targetID s) d c)) as (-> & -> & -> & -> & ->).
  apply addCounterDelta_rest.
Qed.

Lemma tally_deltaOf s l c side :
  pair_wf s -> Forall (fun p => CounterDelta.IsZero p.2 = false) l ->
  deltaOf (tally s l c) (if side : bool then actorID s else targetID s) =
    total side l (deltaOf c (if side then actorID s else targetID s)).
Proof.
  intros Hw Hl. revert c. induction Hl as [|[b d] l Hd _ IH]; intros c; cbn [tally total]; [done|].
  rewrite IH. f_equal. pose proof (pw_distinct _ Hw).
  rewrite deltaOf_add; [|by destruct b; apply Hw|done].
  destruct b, side; cbn [Bool.eqb]; by rewrite ?decide_True, ?decide_False by done.
Qed.

Lemma tally_other s l c u :
  u <> actorID s -> u <> targetID s ->
  PairChanges.CounterDeltas (tally s l c) !! u = PairChanges.CounterDeltas c !! u.
Proof.
  intros Ha Ht. revert c. induction l as [|[b d] l IH]; intros c; cbn [tally]; [done|].
  rewrite IH. apply addCounterDelta_other. by destruct b.
Qed.

Lemma counted_tally s0 s l c :
  pair_wf s0 -> PairChanges.CounterDeltas c = ∅ ->
  Forall (fun p => CounterDelta.IsZero p.2 = false) l ->
  total true l CounterDelta.zero = minus (actorCounts (bondOf s)) (actorCounts (bondOf s0)) ->
  total false l CounterDelta.zero = minus (targetCounts (bondOf s)) (targetCounts (bondOf s0)) ->
  counted (tally s0 l c) s0 s.
Proof.
  intros Hw Hc Hl Ha Ht.
  assert (Hz : forall u, deltaOf c u = CounterDelta.zero) by (intros u; unfold deltaOf; by rewrite Hc).
  split_and!.
  - by rewrite (tally_deltaOf s0 l c true Hw Hl), Hz.
  - by rewrite (tally_deltaOf s0 l c false Hw Hl), Hz.
  - intros u Hua Hut. by rewrite tally_other, Hc.
Qed.

Lemma describes_tally sx l c s0 s : describes c s0 s -> describes (tally sx l c) s0 s.
Proof.
  destruct (tally_rest sx l c) as (E1 & E2 & E3 & E4 & E5). intros [].
  split; by rewrite ?E1, ?E2, ?E3, ?E4, ?E5.
Qed.

(** The intents do not depend on the counters. *)
Lemma addCounterDelta_comm u d c :
  (forall fr, trackFriendRequest fr (addCounterDelta u d c) = addCounterDelta u d (trackFriendRequest fr c)) /\
  (forall k f, intendFriendship k f (addCounterDelta u d c) = addCounterDelta u d (intendFriendship k f c)) /\
  (forall k r, intendFollowing k r (addCounterDelta u d c) = addCounterDelta u d (intendFollowing k r c)) /\
  (forall r, deleteFollowedBy r (addCounterDelta u d c) = addCounterDelta u d (deleteFollowedBy r c)).
Proof.
  unfold addCounterDelta. split_and!; [intros o|intros k o|intros k o|intros o];
    (case_decide; [done|]); by destruct o.
Qed.

Lemma effect_intro cmd root s s' l c evt :
  pair_wf s -> pair_wf s' -> PairChanges.CounterDeltas c = ∅ ->
  Forall (fun p => CounterDelta.IsZero p.2 = false) l ->
  request_step cmd (PairChanges.FriendRequest c) s s' -> describes c s s' ->
  bondStep (targetExists s) cmd (bondOf s) = Some (bondOf s') ->
  total true l CounterDelta.zero = minus (actorCounts (bondOf s')) (actorCounts (bondOf s)) ->
  total false l CounterDelta.zero = minus (targetCounts (bondOf s')) (targetCounts (bondOf s)) ->
  effected cmd (PairAggregate.mk root (mkBody s newRelationshipPairChanges))
    (PairAggregate.mk (appendEvent evt root) (mkBody s' (tally s l c))).
Proof.
  intros. split; [done..| |by apply describes_tally|by apply counted_tally|by exists evt].
  unfold Changes. cbn [PairAggregate.body changes]. by destruct (tally_rest s l c) as (-> & _).
Qed.

Lemma bondOf_setFollowing r s : bondOf (setFollowing r s) =
  let b := bondOf s in
  mkBond (befriended b) (is_some r) (followed b) (blocks b) (blockedBack b) (openRequest b).
Proof. reflexivity. Qed.
Lemma bondOf_setFollowedBy r s : bondOf (setFollowedBy r s) =
  let b := bondOf s in
  mkBond (befriended b) (follows b) (is_some r) (blocks b) (blockedBack b) (openRequest b).
Proof. reflexivity. Qed.
Lemma bondOf_setFriendship f s : bondOf (setFriendship f s) =
  let b := bondOf s in
  mkBond (is_some f) (follows b) (followed b) (blocks b) (blockedBack b) (openRequest b).
Proof. reflexivity. Qed.
Lemma bondOf_setBlocking r s : bondOf (setBlocking r s) =
  let b := bondOf s in
  mkBond (befriended b) (follows b) (followed b) (is_some r) (blockedBack b) (openRequest b).
Proof. reflexivity. Qed.
#[export] Hint Rewrite bondOf_setFollowing bondOf_setFollowedBy bondOf_setFriendship
  bondOf_setBlocking : bond.

(** A flag of the bond tells whether the value is there. *)
Lemma bond_flags s fr fo fb bl bb q :
  bondOf s = mkBond fr fo fb bl bb q ->
  is_some (friendship s) = fr /\ is_some (following s) = fo /\ is_some (followedBy s) = fb /\
  is_some (blocking s) = bl /\ is_some (blockedBy s) = bb.
Proof. by intros [= -> -> -> -> -> _]. Qed.

Lemma is_some_true {A} (o : option A) : is_some o = true -> exists x, o = Some x.
Proof. destruct o; [eauto|done]. Qed.
Lemma is_some_false {A} (o : option A) : is_some o = false -> o = None.
Proof. by destruct o. Qed.

(** The guard of a command passes where the bond admits it. *)
Ltac guard_passes cmd Hw Hs :=
  let Hn := fresh in let Hg := fresh "Hg" in
  destruct (guard_spec cmd _ Hw) as [[Hn _]|[_ Hg]]; [by rewrite Hn in Hs; destruct Hs|];
  cbn [guardOf] in Hg.

Ltac wf_assigned Hw :=
  destruct Hw; split; cbn; try assumption; try done; intros ? [= <-]; done.

(** The counts, where the bonds are known. *)
Ltac counts Hbond :=
  match goal with |- total ?b ?l ?z = _ =>
    let t := eval vm_compute in (total b l z) in change (total b l z) with t end;
  autorewrite with bond; rewrite Hbond; cbv zeta; unfold minus, actorCounts, targetCounts;
  cbn [befriended follows followed blocks blockedBack openRequest b2z dir2z is_some
    CounterDelta.FriendsCount CounterDelta.FollowersCount CounterDelta.FollowingCount
    CounterDelta.BlockedCount CounterDelta.PendingInCount CounterDelta.PendingOutCount];
  f_equal; lia.

Ltac nonzero := repeat constructor.

Lemma Follow_effect id now a :
  generated id -> loaded_ok a ->
  is_Some (bondStep (targetExists (pairState a)) (CmdFollow id now) (bondOf (pairState a))) ->
  exists a', Follow id now a = (Ok tt, a') /\ effected (CmdFollow id now) a a'.
Proof.
  intros [Hid _] [Hw Hb Hroot Hch] Hs. guard_passes (CmdFollow id now) Hw Hs.
  unfold Follow, ensure, mbind, method_bind, get. rewrite Hg.
  destruct a as [root [s c]]. unfold pairState, Changes in *. cbn [PairAggregate.body state changes] in *.
  subst c. set (r := FollowRelation.mk id (actorID s) (targetID s) now).
  pose proof (TrimSpace_nonempty _ (pw_actor _ Hw)). pose proof (TrimSpace_nonempty _ (pw_target _ Hw)).
  pose proof (pw_distinct _ Hw).
  destruct (pair_apply (EventRelationshipPairFollowed id (actorID s) (targetID s) now)
    (PairAggregate.mk root (mkBody s newRelationshipPairChanges))
    (mkBody (setFollowing (Some r) s) (tally s [(true, followings 1); (false, followers 1)]
       (createFollowing r newRelationshipPairChanges)))) as [evt Hrun]; [done..| |].
  { intros e He. unfold pairTransition. rewrite He. unfold applyFollowed, NewFollowRelation.
    by rewrite !decide_False by done. }
  eexists. split; [exact Hrun|].
  destruct (bondOf s) as [fr fo fb bl bb q] eqn:Hbond.
  destruct (bond_flags _ _ _ _ _ _ _ Hbond) as (_ & Hf & _).
  cbn in Hs. destruct fo, bl, bb; try (by destruct Hs). destruct (targetExists s) eqn:Hte; [|by destruct Hs].
  apply is_some_false in Hf. apply effect_intro; [done|by wf_assigned Hw|done|by nonzero|..].
  - by left.
  - split; cbn; unfold intends; cbn; eauto.
  - autorewrite with bond. by rewrite Hbond, Hte.
  - counts Hbond.
  - counts Hbond.
Qed.

(** *** Follows, friendships and blocks *)

Lemma Unfollow_effect a :
  loaded_ok a -> is_Some (bondStep (targetExists (pairState a)) CmdUnfollow (bondOf (pairState a))) ->
  exists a', Unfollow a = (Ok tt, a') /\ effected CmdUnfollow a a'.
Proof.
  intros [Hw Hb Hroot Hch] Hs. guard_passes CmdUnfollow Hw Hs.
  unfold Unfollow, ensure, mbind, method_bind, get. rewrite Hg.
  destruct a as [root [s c]]. unfold pairState, Changes in *. cbn [PairAggregate.body state changes] in *.
  subst c.
  destruct (pair_apply (EventRelationshipPairUnfollowed (actorID s) (targetID s))
    (PairAggregate.mk root (mkBody s newRelationshipPairChanges))
    (mkBody (setFollowing None s) (tally s [(true, followings (-1)); (false, followers (-1))]
       (deleteFollowing (following s) newRelationshipPairChanges)))) as [evt Hrun]; [done..| |].
  { intros e He. unfold pairTransition. by rewrite He. }
  eexists. split; [exact Hrun|].
  destruct (bondOf s) as [fr fo fb bl bb q] eqn:Hbond.
  destruct (bond_flags _ _ _ _ _ _ _ Hbond) as (_ & Hf & _).
  cbn in Hs. destruct fo; [|by destruct fr, bl, bb, Hs]. apply is_some_true in Hf as [r Hf]. rewrite Hf.
  apply effect_intro; [done|by wf_assigned Hw|done|by nonzero|..].
  - by left.
  - split; cbn; unfold intends; cbn; eauto.
  - autorewrite with bond. by rewrite Hbond.
  - counts Hbond.
  - counts Hbond.
Qed.

Lemma Unfriend_effect a :
  loaded_ok a -> is_Some (bondStep (targetExists (pairState a)) CmdUnfriend (bondOf (pairState a))) ->
  exists a', Unfriend a = (Ok tt, a') /\ effected CmdUnfriend a a'.
Proof.
  intros [Hw Hb Hroot Hch] Hs. guard_passes CmdUnfriend Hw Hs.
  unfold Unfriend, ensure, mbind, method_bind, get. rewrite Hg.
  destruct a as [root [s c]]. unfold pairState, Changes in *. cbn [PairAggregate.body state changes] in *.
  subst c.
  destruct (pair_apply (EventRelationshipPairUnfriended (actorID s) (targetID s))
    (PairAggregate.mk root (mkBody s newRelationshipPairChanges))
    (mkBody (setFriendship None s) (tally s [(true, friends (-1)); (false, friends (-1))]
       (deleteFriendship (friendship s) newRelationshipPairChanges)))) as [evt Hrun]; [done..| |].
  { intros e He. unfold pairTransition. by rewrite He. }
  eexists. split; [exact Hrun|].
  destruct (bondOf s) as [fr fo fb bl bb q] eqn:Hbond.
  destruct (bond_flags _ _ _ _ _ _ _ Hbond) as (Hf & _).
  cbn in Hs. destruct fr; [|by destruct Hs]. apply is_some_true in Hf as [f Hf]. rewrite Hf.
  apply effect_intro; [done|by wf_assigned Hw|done|by nonzero|..].
  - by left.
  - split; cbn; unfold intends; cbn; eauto.
  - autorewrite with bond. by rewrite Hbond.
  - counts Hbond.
  - counts Hbond.
Qed.

Lemma Unblock_effect a :
  loaded_ok a -> is_Some (bondStep (targetExists (pairState a)) CmdUnblock (bondOf (pairState a))) ->
  exists a', Unblock a = (Ok tt, a') /\ effected CmdUnblock a a'.
Proof.
  intros [Hw Hb Hroot Hch] Hs. guard_passes CmdUnblock Hw Hs.
  unfold Unblock, ensure, mbind, method_bind, get. rewrite Hg.
  destruct a as [root [s c]]. unfold pairState, Changes in *. cbn [PairAggregate.body state changes] in *.
  subst c.
  destruct (pair_apply (EventRelationshipPairUnblocked (actorID s) (targetID s))
    (PairAggregate.mk root (mkBody s newRelationshipPairChanges))
    (mkBody (setBlocking None s) (tally s [(true, blocked (-1))]
       (deleteBlock (blocking s) newRelationshipPairChanges)))) as [evt Hrun]; [done..| |].
  { intros e He. unfold pairTransition. by rewrite He. }
  eexists. split; [exact Hrun|].
  destruct (bondOf s) as [fr fo fb bl bb q] eqn:Hbond.
  destruct (bond_flags _ _ _ _ _ _ _ Hbond) as (_ & _ & _ & Hf & _).
  cbn in Hs. destruct bl; [|by destruct fr, fo, bb, Hs]. apply is_some_true in Hf as [r Hf]. rewrite Hf.
  apply effect_intro; [done|by wf_assigned Hw|done|by nonzero|..].
  - by left.
  - split; cbn; unfold intends; cbn; eauto.
  - autorewrite with bond. by rewrite Hbond.
  - counts Hbond.
  - counts Hbond.
Qed.

(** *** Friend requests *)

Definition closed (fr : FriendRequestAggregate) : Prop :=
  exists e, FriendRequestAggregate.request fr = Some e /\ FriendRequest.IsPending e = false.

Lemma bondOf_closed fr s : closed fr -> bondOf (setRequest (Some fr) s) =
  let b := bondOf s in
  mkBond (befriended b) (follows b) (followed b) (blocks b) (blockedBack b) None.
Proof.
  intros (e & He & Hp). unfold bondOf, hasPendingOutgoingRequest, hasPendingIncomingRequest,
    pendingFromTo. cbn. by rewrite He, Hp.
Qed.

Lemma setRequest_wf s fr e fr' e' :
  pair_wf s -> friendRequest s = Some fr -> FriendRequestAggregate.request fr = Some e ->
  FriendRequestAggregate.request fr' = Some e' -> aggregateID (Root fr') = aggregateID (Root fr) ->
  answered e e' -> pair_wf (setRequest (Some fr') s).
Proof.
  intros Hw Hfr He He' Hid (Hi & H1 & H2 & _).
  destruct (pw_request _ Hw _ Hfr) as (e0 & He0 & Ha & Hb & Hc).
  rewrite He in He0. injection He0 as <-.
  destruct Hw; split; cbn; try assumption. intros ? [= <-]. exists e'.
  unfold between in *. rewrite Hid, Hi, H1, H2. by split_and!.
Qed.

Lemma answer_pair root s fr e e' d m :
  friendRequest s = Some fr -> FriendRequestAggregate.request fr = Some e ->
  aggregateID (Root fr) <> "" -> event_name d <> "" ->
  (forall evt, EventData evt = d -> friendRequestTransition evt (Some e) = (Ok tt, Some e')) ->
  m = requireEntity (ApplyChange d) ->
  exists fr', let a1 := PairAggregate.mk root (mkBody (setRequest (Some fr') s) newRelationshipPairChanges) in
    onFriendRequest m (PairAggregate.mk root (mkBody s newRelationshipPairChanges)) = (Ok tt, a1) /\
    currentRequest a1 = (Ok (aggregateID (Root fr), e'), a1) /\
    FriendRequestAggregate.request fr' = Some e' /\ aggregateID (Root fr') = aggregateID (Root fr).
Proof.
  intros Hs He Hid Hn Ht Hm. destruct (answer_run d fr e e' m He Hid Hn Ht Hm) as (fr' & H1 & H2 & H3).
  exists fr'. cbv zeta. split_and!; [| |done|done].
  - unfold onFriendRequest, pairState. cbn [PairAggregate.body state]. by rewrite Hs, H1.
  - unfold currentRequest, mbind, method_bind, get, pairState. cbn. rewrite H2.
    unfold mret, method_ret. do 3 f_equal. exact H3.
Qed.

Lemma IsPending_status e :
  FriendRequest.IsPending e = true -> FriendRequest.Status e = FriendRequestStatusPending.
Proof. apply bool_decide_eq_true. Qed.

Ltac answer_transition He Hp :=
  let evt := fresh in let Hd := fresh in
  intros evt Hd; unfold friendRequestTransition; rewrite Hd; unfold onRequest,
    FriendRequest.Cancel, FriendRequest.Accept, FriendRequest.Reject, FriendRequest.whenPending,
    mbind, method_bind, get; rewrite (IsPending_status _ Hp); rewrite decide_True by done; reflexivity.

Lemma CancelFriendRequest_effect now a :
  loaded_ok a ->
  is_Some (bondStep (targetExists (pairState a)) (CmdCancelFriendRequest now) (bondOf (pairState a))) ->
  exists a', CancelFriendRequest now a = (Ok tt, a') /\ effected (CmdCancelFriendRequest now) a a'.
Proof.
  intros [Hw Hb Hroot Hch] Hs. guard_passes (CmdCancelFriendRequest now) Hw Hs.
  unfold CancelFriendRequest, ensure, mbind, method_bind, get. rewrite Hg.
  destruct a as [root [s c]]. unfold pairState, Changes in *. cbn [PairAggregate.body state changes] in *.
  subst c. destruct (request_cases s Hw) as [Hq Hreq].
  assert (Hout : hasPendingOutgoingRequest s = true).
  { unfold bondOf in Hs. cbn in Hs. destruct (hasPendingOutgoingRequest s), (hasPendingIncomingRequest s);
      try done; by destruct Hs. }
  rewrite Hout in Hreq. destruct (Hreq eq_refl) as (fr & e & Hfr & He & Hp & Hid & Hei & Hbt).
  destruct (answer_pair root s fr e _ (EventFriendRequestCancel now) (CancelRequest now) Hfr He Hid
    ltac:(done) ltac:(answer_transition He Hp) eq_refl) as (fr' & H1 & H2 & H3 & H4).
  rewrite H1, H2.
  match type of H3 with _ = Some ?e' => set (e1 := e') in * end.
  destruct (pair_apply (EventRelationshipPairFriendRequestCancelled (aggregateID (Root fr))
    (FriendRequest.RequesterID e1) (FriendRequest.AddresseeID e1) (FriendRequest.CreatedAt e1) now)
    (PairAggregate.mk root (mkBody (setRequest (Some fr') s) newRelationshipPairChanges))
    (mkBody (setRequest (Some fr') s) (tally s [(true, pendingOut (-1)); (false, pendingIn (-1))]
       (trackFriendRequest (Some fr') newRelationshipPairChanges)))) as [evt Hrun]; [done..| |].
  { intros ev Hev. unfold pairTransition. by rewrite Hev. }
  eexists. split; [exact Hrun|].
  assert (Hcl : closed fr') by (by exists e1).
  destruct (bondOf s) as [fd fo fb bl bb q] eqn:Hbond.
  assert (q = Some Outgoing) as -> by (unfold bondOf in Hbond; rewrite Hout in Hbond; congruence).
  apply effect_intro; [done| |done|by nonzero|..].
  - by eapply (setRequest_wf s fr e fr' e1).
  - right. split; [done|]. left. by exists fr, e, fr', e1.
  - split; cbn; unfold intends; cbn; eauto.
  - rewrite bondOf_closed, Hbond by done. by destruct fd, bl, bb.
  - rewrite (bondOf_closed _ _ Hcl). counts Hbond.
  - rewrite (bondOf_closed _ _ Hcl). counts Hbond.
Qed.

Lemma incoming_request s :
  pair_wf s -> openRequest (bondOf s) = Some Incoming ->
  exists fr e, friendRequest s = Some fr /\ FriendRequestAggregate.request fr = Some e /\
    FriendRequest.IsPending e = true /\ aggregateID (Root fr) <> "" /\
    FriendRequest.ID e = aggregateID (Root fr) /\ between (targetID s) (actorID s) e.
Proof.
  intros Hw Hq. destruct (request_cases s Hw) as [_ Hreq]. unfold bondOf in Hq. cbn in Hq.
  destruct (hasPendingOutgoingRequest s); [done|]. destruct (hasPendingIncomingRequest s); [|done].
  exact (Hreq eq_refl).
Qed.

Lemma RejectFriendRequest_effect reason now a :
  loaded_ok a ->
  is_Some (bondStep (targetExists (pairState a)) (CmdRejectFriendRequest reason now)
    (bondOf (pairState a))) ->
  exists a', RejectFriendRequest reason now a = (Ok tt, a') /\
    effected (CmdRejectFriendRequest reason now) a a'.
Proof.
  intros [Hw Hb Hroot Hch] Hs. guard_passes (CmdRejectFriendRequest reason now) Hw Hs.
  unfold RejectFriendRequest, ensure, mbind, method_bind, get. rewrite Hg.
  destruct a as [root [s c]]. unfold pairState, Changes in *. cbn [PairAggregate.body state changes] in *.
  subst c. destruct (bondOf s) as [fd fo fb bl bb q] eqn:Hbond.
  assert (q = Some Incoming) as -> by (cbn in Hs; by destruct fd, bl, bb, q as [[]|], Hs).
  destruct (incoming_request s Hw) as (fr & e & Hfr & He & Hp & Hid & Hei & Hbt); [by rewrite Hbond|].
  destruct (answer_pair root s fr e _ (EventFriendRequestReject reason now) (RejectRequest reason now)
    Hfr He Hid ltac:(done) ltac:(answer_transition He Hp) eq_refl) as (fr' & H1 & H2 & H3 & H4).
  rewrite H1, H2.
  match type of H3 with _ = Some ?e' => set (e1 := e') in * end.
  destruct (pair_apply (EventRelationshipPairFriendRequestRejected (aggregateID (Root fr))
    (FriendRequest.RequesterID e1) (FriendRequest.AddresseeID e1) (FriendRequest.CreatedAt e1) reason now)
    (PairAggregate.mk root (mkBody (setRequest (Some fr') s) newRelationshipPairChanges))
    (mkBody (setRequest (Some fr') s) (tally s [(false, pendingOut (-1)); (true, pendingIn (-1))]
       (trackFriendRequest (Some fr') newRelationshipPairChanges)))) as [evt Hrun]; [done..| |].
  { intros ev Hev. unfold pairTransition. by rewrite Hev. }
  eexists. split; [exact Hrun|]. assert (Hcl : closed fr') by (by exists e1).
  apply effect_intro; [done| |done|by nonzero|..].
  - by eapply (setRequest_wf s fr e fr' e1).
  - right. split; [done|]. left. by exists fr, e, fr', e1.
  - split; cbn; unfold intends; cbn; eauto.
  - rewrite bondOf_closed, Hbond by done. by destruct fd, bl, bb.
  - rewrite (bondOf_closed _ _ Hcl). counts Hbond.
  - rewrite (bondOf_closed _ _ Hcl). counts Hbond.
Qed.

Lemma NewFriendship_run id a b from now :
  id <> "" -> a <> "" -> b <> "" -> a <> b ->
  exists f, NewFriendship id a b from now = Ok f /\
    (Friendship.UserLowID f, Friendship.UserHighID f) = normalizePair a b.
Proof.
  intros Hi Ha Hb Hne. unfold NewFriendship. rewrite !decide_False by naive_solver.
  destruct (normalizePair a b) as [lo hi]. eexists. by split.
Qed.

Lemma AcceptFriendRequest_effect id now a :
  generated id -> loaded_ok a ->
  is_Some (bondStep (targetExists (pairState a)) (CmdAcceptFriendRequest id now)
    (bondOf (pairState a))) ->
  exists a', AcceptFriendRequest id now a = (Ok tt, a') /\
    effected (CmdAcceptFriendRequest id now) a a'.
Proof.
  intros [Hi _] [Hw Hb Hroot Hch] Hs. guard_passes (CmdAcceptFriendRequest id now) Hw Hs.
  unfold AcceptFriendRequest, ensure, mbind, method_bind, get. rewrite Hg.
  destruct a as [root [s c]]. unfold pairState, Changes in *. cbn [PairAggregate.body state changes] in *.
  subst c. destruct (bondOf s) as [fd fo fb bl bb q] eqn:Hbond.
  assert (q = Some Incoming /\ fd = false /\ bl = false /\ bb = false) as (-> & -> & -> & ->)
    by (cbn in Hs; by destruct fd, bl, bb, q as [[]|], Hs).
  destruct (incoming_request s Hw) as (fr & e & Hfr & He & Hp & Hid & Hei & Hbt); [by rewrite Hbond|].
  destruct (answer_pair root s fr e _ (EventFriendRequestAccept now) (AcceptRequest now)
    Hfr He Hid ltac:(done) ltac:(answer_transition He Hp) eq_refl) as (fr' & H1 & H2 & H3 & H4).
  rewrite H1, H2.
  match type of H3 with _ = Some ?e' => set (e1 := e') in * end.
  destruct (NewFriendship_run id (actorID s) (targetID s) (Some (aggregateID (Root fr))) now) as (f & Hf & Hn);
    [done|apply TrimSpace_nonempty, Hw|apply TrimSpace_nonempty, Hw|apply Hw|].
  destruct (pair_apply (EventRelationshipPairFriendRequestAccepted (aggregateID (Root fr))
    (FriendRequest.RequesterID e1) (FriendRequest.AddresseeID e1) (FriendRequest.CreatedAt e1) id now)
    (PairAggregate.mk root (mkBody (setRequest (Some fr') s) newRelationshipPairChanges))
    (mkBody (setFriendship (Some f) (setRequest (Some fr') s))
       (tally s [(false, CounterDelta.mk 1 0 0 0 0 (-1)); (true, CounterDelta.mk 1 0 0 0 (-1) 0)]
       (createFriendship f (trackFriendRequest (Some fr') newRelationshipPairChanges)))))
    as [evt Hrun]; [done..| |].
  { intros ev Hev. unfold pairTransition. rewrite Hev. unfold applyFriendRequestAccepted,
      ensureFriendRequestAggregate, mbind, method_bind, get. cbn [state friendRequest setRequest mret method_ret].
    unfold mret, method_ret, lift. cbn [PairAggregate.body state actorID targetID setRequest friendRequest]. by rewrite Hf. }
  eexists. split; [exact Hrun|]. assert (Hcl : closed fr') by (by exists e1).
  destruct (bond_flags _ _ _ _ _ _ _ Hbond) as (Hf0%is_some_false & _).
  assert (Hw' : pair_wf (setRequest (Some fr') s)) by (by eapply (setRequest_wf s fr e fr' e1)).
  apply effect_intro; [done|by wf_assigned Hw'|done|by nonzero|..].
  - right. split; [done|]. left. by exists fr, e, fr', e1.
  - split; cbn; unfold intends; cbn; eauto.
  - autorewrite with bond. rewrite bondOf_closed, Hbond by done. done.
  - autorewrite with bond. rewrite (bondOf_closed _ _ Hcl). counts Hbond.
  - autorewrite with bond. rewrite (bondOf_closed _ _ Hcl). counts Hbond.
Qed.

(** *** Sending *)

Lemma NewFriendRequest_run id :
  generated id -> NewFriendRequest id =
    Ok (FriendRequestAggregate.mk (mkRoot id friendRequestAggregateType 0 0 []) None).
Proof.
  intros [Hi Ht]. unfold NewFriendRequest. rewrite decide_False by done.
  unfold InitAggregate, SetID, modify, mbind, method_bind. rewrite decide_False by done.
  cbn [SetAggregateType zeroRoot aggregateID aggregateType version baseVersion events].
  rewrite Ht, decide_False by done. by rewrite decide_False by (cbn; naive_solver).
Qed.

Lemma Create_run id from to now :
  id <> "" -> from <> "" -> to <> "" ->
  exists fr, Create from to None now
    (FriendRequestAggregate.mk (mkRoot id friendRequestAggregateType 0 0 []) None) = (Ok tt, fr) /\
    FriendRequestAggregate.request fr = Some (sentRequest id from to now) /\
    aggregateID (Root fr) = id.
Proof.
  intros Hi Hf Ht. unfold Create, ApplyChange. cbn [Root FriendRequest_Aggregate FriendRequestAggregate.root aggregateID].
  rewrite decide_False by done. cbn [payload_nil event_name FriendRequestPayload].
  rewrite decide_False by done. set (evt := mkEvent _ _ _ _ _ _ _).
  cbn [Transition FriendRequest_Aggregate]. unfold friendRequestTransition. cbn [EventData evt].
  rewrite decide_False by naive_solver. eexists. split; [reflexivity|]. by split.
Qed.

Lemma SendFriendRequest_effect id now a :
  generated id -> loaded_ok a ->
  is_Some (bondStep (targetExists (pairState a)) (CmdSendFriendRequest id now)
    (bondOf (pairState a))) ->
  exists a', SendFriendRequest id now a = (Ok tt, a') /\
    effected (CmdSendFriendRequest id now) a a'.
Proof.
  intros Hi [Hw Hb Hroot Hch] Hs. guard_passes (CmdSendFriendRequest id now) Hw Hs.
  unfold SendFriendRequest, ensure, mbind, method_bind, get. rewrite Hg.
  destruct a as [root [s c]]. unfold pairState, Changes in *. cbn [PairAggregate.body state changes] in *.
  subst c. pose proof (TrimSpace_nonempty _ (pw_actor _ Hw)). pose proof (TrimSpace_nonempty _ (pw_target _ Hw)).
  rewrite NewFriendRequest_run by done. unfold lift.
  destruct (Create_run id (actorID s) (targetID s) now (proj1 Hi)) as (fr & -> & Hfr & Hid); [done..|].
  unfold modify. cbn [updBody PairAggregate.root PairAggregate.body state changes].
  destruct (pair_apply (EventRelationshipPairFriendRequestSent id (actorID s) (targetID s) now)
    (PairAggregate.mk root (mkBody (setRequest (Some fr) s) newRelationshipPairChanges))
    (mkBody (setRequest (Some fr) s) (tally s [(true, pendingOut 1); (false, pendingIn 1)]
       (trackFriendRequest (Some fr) newRelationshipPairChanges)))) as [evt Hrun]; [done..| |].
  { intros e He. unfold pairTransition. rewrite He. unfold applyFriendRequestSent, mbind, method_bind, get.
    cbn [PairAggregate.body state friendRequest setRequest]. rewrite Hid, String.eqb_refl. reflexivity. }
  eexists. split; [exact Hrun|].
  destruct (bondOf s) as [fd fo fb bl bb q] eqn:Hbond.
  cbn in Hs. destruct fd, bl, bb, q; try (by destruct Hs). destruct (targetExists s) eqn:Hte; [|by destruct Hs].
  assert (Hsent : bondOf (setRequest (Some fr) s) = mkBond false fo fb false false (Some Outgoing)).
  { unfold bondOf in *. cbn. injection Hbond as <- <- <- <- <- _. f_equal.
    unfold hasPendingOutgoingRequest, pendingFromTo. cbn. rewrite Hfr. cbn. by rewrite !String.eqb_refl. }
  apply effect_intro; [done| |done|by nonzero|..].
  - destruct Hw; split; cbn; try assumption. intros ? [= <-]. eexists. split; [exact Hfr|]. cbn.
    change (aggregateID (FriendRequestAggregate.root fr)) with (aggregateID (Root fr)).
    rewrite Hid. split; [apply Hi|]. split; [done|]. left. by split.
  - right. split; [done|]. right. by exists fr, id, now.
  - split; cbn; unfold intends; cbn; eauto.
  - by rewrite Hbond, Hsent, Hte.
  - rewrite Hsent. counts Hbond.
  - rewrite Hsent. counts Hbond.
Qed.

(** *** Blocking *)

Definition dropRequest (q : option Direction) : list (bool * CounterDelta.t) :=
  match q with
  | None => []
  | Some Outgoing => [(true, pendingOut (-1)); (false, pendingIn (-1))]
  | Some Incoming => [(false, pendingOut (-1)); (true, pendingIn (-1))]
  end.

Lemma answerRequest_run s c fr e e' d m :
  friendRequest s = Some fr -> FriendRequestAggregate.request fr = Some e ->
  aggregateID (Root fr) <> "" -> event_name d <> "" ->
  (forall evt, EventData evt = d -> friendRequestTransition evt (Some e) = (Ok tt, Some e')) ->
  m = requireEntity (ApplyChange d) ->
  exists fr', answerRequest m (mkBody s c) = (Ok true, mkBody (setRequest (Some fr') s) c) /\
    FriendRequestAggregate.request fr' = Some e' /\ aggregateID (Root fr') = aggregateID (Root fr).
Proof.
  intros Hs He Hid Hn Ht Hm. destruct (answer_run d fr e e' m He Hid Hn Ht Hm) as (fr' & H1 & H2 & H3).
  exists fr'. split_and!; [|done|done]. unfold answerRequest. cbn [state]. by rewrite Hs, H1.
Qed.

Lemma resolvePending_run now s c :
  pair_wf s -> let q := openRequest (bondOf s) in
  exists fr', resolvePendingRequestForBlock now (mkBody s c) =
      (Ok tt, mkBody (setRequest fr' s)
         (tally s (dropRequest q) (match q with Some _ => trackFriendRequest fr' c | None => c end))) /\
    pair_wf (setRequest fr' s) /\ openRequest (bondOf (setRequest fr' s)) = None /\
    match q with
    | Some _ => request_answered (friendRequest s) fr'
    | None => fr' = friendRequest s
    end.
Proof.
  intros Hw. cbv zeta. destruct (request_cases s Hw) as [Hq Hreq].
  assert (Hopen : openRequest (bondOf s) = if hasPendingOutgoingRequest s then Some Outgoing
    else if hasPendingIncomingRequest s then Some Incoming else None) by done.
  unfold resolvePendingRequestForBlock, mbind, method_bind, get. cbn [state].
  destruct Hq as [[Ho Hi]|[[Ho Hi]|[Ho Hi]]]; rewrite Ho, Hi in *; rewrite Hopen.
  - exists (friendRequest s). assert (setRequest (friendRequest s) s = s) as -> by (by destruct s).
    split_and!; [|done..]. unfold mret, method_ret. cbn [state]. by rewrite Hi.
  - destruct (Hreq eq_refl) as (fr & e & Hfr & He & Hp & Hid & Hei & Hbt).
    destruct (answerRequest_run s c fr e _ (EventFriendRequestCancel now) (CancelRequest now) Hfr He Hid
      ltac:(done) ltac:(answer_transition He Hp) eq_refl) as (fr' & H1 & H2 & H3).
    match type of H2 with _ = Some ?e' => set (e1 := e') in * end.
    rewrite H1. exists (Some fr'). assert (Hcl : closed fr') by (by exists e1).
    split_and!; [|by eapply (setRequest_wf s fr e fr' e1)|by rewrite bondOf_closed|by exists fr, e, fr', e1].
    assert (Hnone : hasPendingIncomingRequest (setRequest (Some fr') s) = false).
    { unfold hasPendingIncomingRequest, pendingFromTo. cbn. by rewrite H2. }
    cbn [dropRequest tally].
    unfold countTarget, countActor, onChanges, modify, mbind, method_bind, get. cbn [state changes].
    match goal with |- context [hasPendingIncomingRequest ?x] =>
      change x with (setRequest (Some fr') s) end.
    by rewrite Hnone.
  - destruct (Hreq eq_refl) as (fr & e & Hfr & He & Hp & Hid & Hei & Hbt).
    destruct (answerRequest_run s c fr e _ (EventFriendRequestReject (Some "blocked by user") now)
      (RejectRequest (Some "blocked by user") now) Hfr He Hid
      ltac:(done) ltac:(answer_transition He Hp) eq_refl) as (fr' & H1 & H2 & H3).
    match type of H2 with _ = Some ?e' => set (e1 := e') in * end.
    exists (Some fr'). assert (Hcl : closed fr') by (by exists e1).
    split_and!; [|by eapply (setRequest_wf s fr e fr' e1)|by rewrite bondOf_closed|by exists fr, e, fr', e1].
    unfold mret, method_ret. cbn [state]. by rewrite Hi, H1.
Qed.

Lemma tally_app s l k c : tally s k (tally s l c) = tally s (l ++ k) c.
Proof. revert c. induction l as [|[b d] l IH]; intros c; cbn; [done|apply IH]. Qed.

Lemma tally_ids s s' l c :
  actorID s = actorID s' -> targetID s = targetID s' -> tally s l c = tally s' l c.
Proof.
  intros Ha Ht. revert c. induction l as [|[b d] l IH]; intros c; cbn; [done|]. by rewrite IH, Ha, Ht.
Qed.

Lemma tally_comm s l c :
  (forall k f, intendFriendship k f (tally s l c) = tally s l (intendFriendship k f c)) /\
  (forall k r, intendFollowing k r (tally s l c) = tally s l (intendFollowing k r c)) /\
  (forall r, deleteFollowedBy r (tally s l c) = tally s l (deleteFollowedBy r c)).
Proof.
  revert c. induction l as [|[b d] l IH]; intros c; cbn; [done|].
  destruct (addCounterDelta_comm (if b then actorID s else targetID s) d c) as (_ & A2 & A3 & A4).
  destruct (IH (addCounterDelta (if b then actorID s else targetID s) d c)) as (B2 & B3 & B4).
  split_and!; intros; by rewrite ?B2, ?B3, ?B4, ?A2, ?A3, ?A4.
Qed.

Definition drop {A} (o : option A) (l : list (bool * CounterDelta.t)) : list (bool * CounterDelta.t) :=
  if is_some o then l else [].

(** The three removals, whether there is something to remove or not. *)
Lemma removeAll_run s c :
  (_ ← removeFriendshipForBlock; _ ← removeOutgoingFollowForBlock; removeIncomingFollowForBlock)
    (mkBody s c) =
  (Ok tt, mkBody (setFollowedBy None (setFollowing None (setFriendship None s)))
     (tally s (drop (friendship s) [(true, friends (-1)); (false, friends (-1))] ++
               drop (following s) [(true, followings (-1)); (false, followers (-1))] ++
               drop (followedBy s) [(false, followings (-1)); (true, followers (-1))])
        (deleteFollowedBy (followedBy s) (deleteFollowing (following s)
           (deleteFriendship (friendship s) c))))).
Proof.
  rewrite <- !tally_app. unfold deleteFollowing, deleteFriendship.
  rewrite <- (proj2 (proj2 (tally_comm s _ _))), <- (proj1 (proj2 (tally_comm s _ _))).
  rewrite <- (proj2 (proj2 (tally_comm s _ _))).
  destruct s as [act tgt te fr f fo fb bl bb]. cbn [friendship following followedBy].
  by destruct f, fo, fb.
Qed.

(** What blocking leaves: the counters it moves and the intents. *)
Definition blockTally (s : relationshipPairState) : list (bool * CounterDelta.t) :=
  (true, blocked 1) :: dropRequest (openRequest (bondOf s)) ++
  drop (friendship s) [(true, friends (-1)); (false, friends (-1))] ++
  drop (following s) [(true, followings (-1)); (false, followers (-1))] ++
  drop (followedBy s) [(false, followings (-1)); (true, followers (-1))].

Definition blockIntents (s : relationshipPairState) (fr : option FriendRequestAggregate)
    (c : RelationshipPairChanges) : RelationshipPairChanges :=
  deleteFollowedBy (followedBy s) (deleteFollowing (following s) (deleteFriendship (friendship s)
    (match openRequest (bondOf s) with Some _ => trackFriendRequest fr c | None => c end))).

Definition blockedState (s : relationshipPairState) (fr : option FriendRequestAggregate)
    (r : BlockRelation.t) : relationshipPairState :=
  setFollowedBy None (setFollowing None (setFriendship None (setRequest fr (setBlocking (Some r) s)))).

Lemma applyBlocked_run s c id reason now :
  pair_wf s -> id <> "" ->
  let r := BlockRelation.mk id (actorID s) (targetID s) reason now in
  exists fr', applyBlocked id (actorID s) (targetID s) reason now (mkBody s c) =
      (Ok tt, mkBody (blockedState s fr' r)
         (tally s (blockTally s) (blockIntents s fr' (createBlock r c)))) /\
    pair_wf (setRequest fr' s) /\ openRequest (bondOf (setRequest fr' s)) = None /\
    match openRequest (bondOf s) with
    | Some _ => request_answered (friendRequest s) fr'
    | None => fr' = friendRequest s
    end.
Proof.
  intros Hw Hi r. pose proof (TrimSpace_nonempty _ (pw_actor _ Hw)).
  pose proof (TrimSpace_nonempty _ (pw_target _ Hw)). pose proof (pw_distinct _ Hw).
  assert (Hw1 : pair_wf (setBlocking (Some r) s)) by (by wf_assigned Hw).
  destruct (resolvePending_run now _ (addCounterDelta (actorID s) (blocked 1) (createBlock r c)) Hw1)
    as (fr' & Hres & Hw2 & Hq2 & Hfr').
  rewrite bondOf_setBlocking in Hres, Hfr'. cbv zeta in Hres, Hfr'. cbn [openRequest] in Hres, Hfr'.
  exists fr'. split_and!; [|destruct Hw, Hw2; by split|exact Hq2|exact Hfr'].
  unfold applyBlocked. apply method_bind_Ok. do 2 eexists. split.
  { unfold applyBlockRelation, NewBlockRelation. rewrite !decide_False by done. reflexivity. }
  apply method_bind_Ok. do 2 eexists. split; [exact Hres|].
  rewrite removeAll_run. f_equal. f_equal.
  assert (Hone : match openRequest (bondOf s) with
      | Some _ => trackFriendRequest fr' (addCounterDelta (actorID s) (blocked 1) (createBlock r c))
      | None => addCounterDelta (actorID s) (blocked 1) (createBlock r c)
      end = addCounterDelta (actorID s) (blocked 1) (match openRequest (bondOf s) with
        | Some _ => trackFriendRequest fr' (createBlock r c) | None => createBlock r c end)).
  { destruct (openRequest _); [|done]. apply addCounterDelta_comm. }
  rewrite Hone, (tally_ids _ s), (tally_ids (setBlocking (Some r) s) s) by done.
  unfold blockTally, blockIntents, deleteFollowing, deleteFriendship.
  rewrite (proj1 (tally_comm s _ _)), (proj1 (proj2 (tally_comm s _ _))),
    (proj2 (proj2 (tally_comm s _ _))), tally_app.
  cbn [app tally friendship following followedBy setRequest setBlocking]. f_equal.
  destruct (addCounterDelta_comm (actorID s) (blocked 1) (match openRequest (bondOf s) with
        | Some _ => trackFriendRequest fr' (createBlock r c) | None => createBlock r c end)) as (_ & -> & _).
  destruct (addCounterDelta_comm (actorID s) (blocked 1) (intendFriendship RelationshipChangeDelete (friendship s) (match openRequest (bondOf s) with
        | Some _ => trackFriendRequest fr' (createBlock r c) | None => createBlock r c end))) as (_ & _ & -> & _).
  apply addCounterDelta_comm.
Qed.

Lemma Block_effect id reason now a :
  generated id -> loaded_ok a ->
  is_Some (bondStep (targetExists (pairState a)) (CmdBlock id reason now) (bondOf (pairState a))) ->
  exists a', Block id reason now a = (Ok tt, a') /\ effected (CmdBlock id reason now) a a'.
Proof.
  intros [Hi _] [Hw Hb Hroot Hch] Hs. guard_passes (CmdBlock id reason now) Hw Hs.
  unfold Block, ensure, mbind, method_bind, get. rewrite Hg.
  destruct a as [root [s c]]. unfold pairState, Changes in *. cbn [PairAggregate.body state changes] in *.
  subst c. destruct (applyBlocked_run s newRelationshipPairChanges id reason now Hw Hi)
    as (fr' & Hbl & Hw2 & Hq2 & Hfr').
  set (r := BlockRelation.mk id (actorID s) (targetID s) reason now) in *.
  destruct (pair_apply (EventRelationshipPairBlocked id (actorID s) (targetID s) reason now)
    (PairAggregate.mk root (mkBody s newRelationshipPairChanges))
    (mkBody (blockedState s fr' r) (tally s (blockTally s)
       (blockIntents s fr' (createBlock r newRelationshipPairChanges))))) as [evt Hrun];
    [done|done|intros e He; unfold pairTransition; rewrite He; exact Hbl|].
  eexists. split; [exact Hrun|].
  assert (Hbond' : bondOf (blockedState s fr' r) =
    mkBond false false false true (blockedBack (bondOf s)) None).
  { unfold blockedState. autorewrite with bond. f_equal. exact Hq2. }
  destruct (bondOf s) as [fd fo fb bl bb q] eqn:Hbond.
  destruct (bond_flags _ _ _ _ _ _ _ Hbond) as (Hfd & Hfo & Hfb & Hbl0 & Hbb).
  assert (bl = false /\ targetExists s = true) as [-> Hte]
    by (cbn in Hs; by destruct fd, fo, fb, bl, (targetExists s), Hs).
  apply is_some_false in Hbl0. unfold blockTally, blockIntents. rewrite Hbond.
  unfold drop. rewrite Hfd, Hfo, Hfb. cbn [openRequest blockedBack] in *.
  assert (Hreq : match q with
    | Some _ => exists f, fr' = Some f /\ request_answered (friendRequest s) fr'
    | None => fr' = friendRequest s end).
  { destruct q; [|done]. pose proof Hfr' as (x & e & f & e' & _ & _ & Hf & _). by exists f. }
  apply effect_intro; [done|by wf_assigned Hw2| | | | |by rewrite Hbond', Hbond, Hte;
    destruct fd, fo, fb, bb, q as [[]|]| |].
  - by destruct q, fr', (followedBy s), (following s), (friendship s).
  - destruct q as [[]|], fd, fo, fb; nonzero.
  - destruct q; [destruct Hreq as (f & -> & Hans); right; split; [|by left]|subst fr'; left];
      by destruct (followedBy s), (following s), (friendship s).
  - destruct s as [act tgt te fr f fo0 fb0 bl0 bb0]. cbn in *. subst bl0 te.
    destruct f, fo0, fb0, q; try (destruct Hreq as (? & -> & _)); try subst fr';
      split; cbn; unfold intends; cbn; eauto.
  - rewrite Hbond', Hbond. destruct fd, fo, fb, q as [[]|]; vm_compute; reflexivity.
  - rewrite Hbond', Hbond. destruct fd, fo, fb, bb, q as [[]|]; vm_compute; reflexivity.
Qed.

(** ** Every command *)

Lemma command_effect c a :
  command_ok c -> loaded_ok a ->
  is_Some (bondStep (targetExists (pairState a)) c (bondOf (pairState a))) ->
  exists a', runPairCommand c a = (Ok tt, a') /\ effected c a a'.
Proof.
  intros Hc Ha Hs. destruct c; cbn [runPairCommand].
  - by apply SendFriendRequest_effect.
  - by apply CancelFriendRequest_effect.
  - by apply AcceptFriendRequest_effect.
  - by apply RejectFriendRequest_effect.
  - by apply Follow_effect.
  - by apply Unfollow_effect.
  - by apply Unfriend_effect.
  - by apply Block_effect.
  - by apply Unblock_effect.
Qed.

Lemma command_rejected c a :
  pair_wf (pairState a) -> bondStep (targetExists (pairState a)) c (bondOf (pairState a)) = None ->
  exists e, runPairCommand c a = (Err e, a).
Proof.
  intros Hw Hn. destruct (guard_spec c (pairState a) Hw) as [[_ [e Hg]]|[[b Hb] _]]; [|congruence].
  exists e. destruct c; cbn [guardOf runPairCommand] in *;
    unfold SendFriendRequest, CancelFriendRequest, AcceptFriendRequest, RejectFriendRequest,
      Follow, Unfollow, Unfriend, Block, Unblock, ensure, mbind, method_bind; by rewrite Hg.
Qed.
