(* ===== verification/RelationshipStore.v ===== *)
(** * The relationship repository and handlers (relationship/infra, relationship/application/command)

    A command loads the pair of the actor and the target under a lock, runs on
    the aggregate, and saves its changes, in one transaction.
    [RelationSQL] is what the stores use of the database: the statements they
    run, in their order. *)

From stdpp Require Import prelude strings gmap.
From S2P Require Import Prelude GoStrings Database Event RelationshipEntity RelationshipPair.
From S2P Require Import RelationshipPairSpec.

(** ** The statements *)

Module RelationOutboxEvent.
Record t := mk {
  AggregateID : string;
  AggregateType : string;
  Version : Z;
  EventName : string;
  EventData : string
}.
End RelationOutboxEvent.

Class RelationSQL (DB : Type) := {
  (** INSERT INTO relationship_pair_guards ON CONFLICT DO NOTHING. *)
  insertGuard : string -> string -> method DB unit;
  (** SELECT FROM relationship_pair_guards FOR UPDATE. *)
  lockGuard : string -> string -> method DB unit;
  (** SELECT count FROM relationship_accounts WHERE account_id. *)
  countAccount : string -> method DB Z;
  (** SELECT FROM relationship_outbox_events ORDER BY version DESC, id DESC. *)
  selectLatestOutbox : (string * string) -> method DB (option RelationOutboxEvent.t);
  (** SELECT FROM relationship_friend_requests WHERE status = PENDING between
      the two users, ORDER BY created_at DESC. *)
  selectPendingBetween : string -> string -> method DB (option FriendRequest.t);
  selectFriendship : string * string -> method DB (option Friendship.t);
  selectFollow : string * string -> method DB (option FollowRelation.t);
  selectBlock : string * string -> method DB (option BlockRelation.t);
  (** [db.Save]: the row is updated, or inserted. *)
  upsertRequest : FriendRequest.t -> method DB unit;
  insertFriendship : Friendship.t -> method DB unit;
  (** Deletions give the number of rows. *)
  deleteFriendshipRows : string * string -> method DB Z;
  insertFollow : FollowRelation.t -> method DB unit;
  deleteFollowRows : string * string -> method DB Z;
  insertBlock : BlockRelation.t -> method DB unit;
  deleteBlockRows : string * string -> method DB Z;
  (** INSERT INTO relationship_user_relationship_counters ON CONFLICT DO NOTHING. *)
  insertCounters : list string -> method DB unit;
  (** UPDATE ... SET friends_count = friends_count + ? ... WHERE user_id. *)
  addToCounters : string -> CounterDelta.t -> method DB unit;
  insertRelationOutbox : RelationOutboxEvent.t -> method DB unit;
  (** A Go map is ranged over in any order. *)
  rangeDeltas : gmap string CounterDelta.t -> list (string * CounterDelta.t);
  (** [err.Error()]. *)
  relationErrorText : error -> string;
  relationBeginError : DB -> option error;
  relationCommitError : DB -> option error
}.

Section repository.
Context `{UC : UnicodeCase} {DB : Type} `{SQL : RelationSQL DB}.
Context `{FJ : JSON FriendRequestEventData} `{PJ : JSON RelationshipPairEventData}.
(** [time.Now()], for the events that are published. *)
Context (now : Time).

(** *** Stores *)

Definition LockPair (userA userB : string) : method DB unit :=
  if decide (userA = "" \/ userB = "") then raise (Errorf "pair users are required" []) else
  let '(userLowID, userHighID) := normalizePair userA userB in
  _ ← insertGuard userLowID userHighID;
  lockGuard userLowID userHighID.

(** [Exists] of the account store. *)
Definition AccountExists (accountID : string) : method DB bool :=
  count ← countAccount accountID;
  mret (bool_decide (0 < count)).

Definition loadRelationOutboxAggregateVersion (k : (string * string)) : method DB Z :=
  latest ← nilIfNotFound (First (selectLatestOutbox k));
  mret (match latest with Some ev => RelationOutboxEvent.Version ev | None => 0 end).

(** [DeleteBetween] of friendships; [Delete] of follows and blocks. *)
Definition DeleteBetween (userA userB : string) : method DB bool :=
  rows ← deleteFriendshipRows (normalizePair userA userB);
  mret (bool_decide (0 < rows)).
Definition DeleteFollow (followerID followeeID : string) : method DB bool :=
  rows ← deleteFollowRows (followerID, followeeID);
  mret (bool_decide (0 < rows)).
Definition DeleteBlock (blockerID blockedID : string) : method DB bool :=
  rows ← deleteBlockRows (blockerID, blockedID);
  mret (bool_decide (0 < rows)).

Definition ApplyDeltas (deltas : gmap string CounterDelta.t) : method DB unit :=
  if decide (deltas = ∅) then mret tt else
  let stubs := filter (fun userID => userID <> "") (rangeDeltas deltas).*1 in
  if decide (length stubs = 0%nat) then mret tt else
  _ ← insertCounters stubs;
  range (rangeDeltas deltas) (fun '(userID, delta) =>
    if decide (userID = "" \/ CounterDelta.IsZero delta = true) then mret tt
    else addToCounters userID delta).

(** [Append] of the outbox store; the data is none of the types that are
    stored as they are. *)
Definition AppendRelationOutbox {E} `{JSON E} (ev : Event E) : method DB unit :=
  eventData ← lift (Marshal (EventData ev));
  insertRelationOutbox (RelationOutboxEvent.mk (AggregateID ev) (AggregateType ev) (Version ev)
    (EventName ev) eventData).

(** [PublishAggregate] over the outbox, on an aggregate of its own. *)
Definition publishPending {E A} `{JSON E} `{EventPayload E} `{Aggregate A E} (agg : A) :
    method DB A := fun db =>
  match PublishAggregate (Some AppendRelationOutbox) now (db, agg) with
  | (Ok _, (db, agg)) => (Ok agg, db)
  | (Err e, (db, _)) => (Err e, db)
  | (Panic w, (db, _)) => (Panic w, db)
  end.

(** *** Friend requests *)

Definition loadAggregateFromModel (row : FriendRequest.t) : method DB FriendRequestAggregate :=
  agg ← lift (NewFriendRequest (FriendRequest.ID row));
  let agg := SetFriendRequest row agg in
  v ← loadRelationOutboxAggregateVersion (FriendRequest.ID row, friendRequestAggregateType);
  mret (updRoot (SetInternal (FriendRequest.ID row) v v) agg).

Definition LoadPendingBetween (userA userB : string) : method DB FriendRequestAggregate :=
  row ← First (selectPendingBetween userA userB);
  loadAggregateFromModel row.

(** [Save] of the friend request repository. *)
Definition SaveFriendRequest (agg : FriendRequestAggregate) : method DB FriendRequestAggregate :=
  match FriendRequestAggregate.request agg with
  | None => raise (Errorf "friend request entity is required" [])
  | Some fr =>
      let aggID := aggregateID (Root agg) in
      if decide (aggID = "") then raise (Errorf "friend request aggregate id is required" []) else
      let agg := SetFriendRequest (FriendRequest.setID aggID fr) agg in
      _ ← upsertRequest (FriendRequest.setID aggID fr);
      if decide (length (events (Root agg)) = 0%nat) then mret agg else publishPending agg
  end.

(** *** Pairs *)

Definition LoadForUpdate (actorID targetID : string) : method DB RelationshipPairAggregate :=
  _ ← LockPair actorID targetID;
  targetExists ← AccountExists targetID;
  aggregateVersion ← loadRelationOutboxAggregateVersion
    (CanonicalRelationshipPairAggregateID actorID targetID, relationshipPairAggregateType);
  friendRequest ← nilIfNotFound (LoadPendingBetween actorID targetID);
  friendship ← nilIfNotFound (First (selectFriendship (normalizePair actorID targetID)));
  following ← nilIfNotFound (First (selectFollow (actorID, targetID)));
  followedBy ← nilIfNotFound (First (selectFollow (targetID, actorID)));
  blocking ← nilIfNotFound (First (selectBlock (actorID, targetID)));
  blockedBy ← nilIfNotFound (First (selectBlock (targetID, actorID)));
  lift (NewRelationshipPair (PairSnapshot.mk actorID targetID targetExists friendRequest friendship
    following followedBy blocking blockedBy aggregateVersion)).

Definition uniqueAs (e : error) (err : error) : error :=
  if IsUniqueConstraintError (relationErrorText err) then e else err.

Definition persistFriendRequest (intent : PersistenceIntent FriendRequestAggregate) : method DB unit :=
  match Kind intent, Value intent with
  | RelationshipChangeUpsert, Some agg => _ ← SaveFriendRequest agg; mret tt
  | _, _ => mret tt
  end.

Definition persistFriendship (agg : RelationshipPairAggregate)
    (intent : PersistenceIntent Friendship.t) : method DB unit :=
  match Kind intent, Value intent with
  | RelationshipChangeUpsert, Some f =>
      wrap_err (uniqueAs Relationship.ErrFriendshipAlreadyExists) (insertFriendship f)
  | RelationshipChangeDelete, _ =>
      deleted ← DeleteBetween (PairStateOf.actorID (pairState agg)) (PairStateOf.targetID (pairState agg));
      if deleted : bool then mret tt else raise Relationship.ErrFriendshipNotFound
  | _, _ => mret tt
  end.

(** A deletion intent holds the relation whose users it names. *)
Definition persistFollow (intent : PersistenceIntent FollowRelation.t) : method DB unit :=
  match Kind intent, Value intent with
  | RelationshipChangeUpsert, Some r =>
      wrap_err (uniqueAs Relationship.ErrFollowAlreadyExists) (insertFollow r)
  | RelationshipChangeDelete, Some r =>
      deleted ← DeleteFollow (FollowRelation.FollowerID r) (FollowRelation.FolloweeID r);
      if deleted : bool then mret tt else raise Relationship.ErrFollowNotFound
  | _, _ => mret tt
  end.

Definition persistBlock (intent : PersistenceIntent BlockRelation.t) : method DB unit :=
  match Kind intent, Value intent with
  | RelationshipChangeUpsert, Some r =>
      wrap_err (uniqueAs Relationship.ErrBlockAlreadyExists) (insertBlock r)
  | RelationshipChangeDelete, Some r =>
      deleted ← DeleteBlock (BlockRelation.BlockerID r) (BlockRelation.BlockedID r);
      if deleted : bool then mret tt else raise Relationship.ErrBlockNotFound
  | _, _ => mret tt
  end.

Definition publishOutboxEvents (agg : RelationshipPairAggregate) :
    method DB RelationshipPairAggregate :=
  if decide (length (events (Root agg)) = 0%nat) then mret agg else
  agg ← publishPending agg;
  mret (PairMarkPersisted agg).

(** [Save] of the pair repository. *)
Definition SavePair (agg : RelationshipPairAggregate) : method DB RelationshipPairAggregate :=
  let changes := Changes agg in
  _ ← persistFriendRequest (PairChanges.FriendRequest changes);
  _ ← persistFriendship agg (PairChanges.Friendship changes);
  _ ← persistFollow (PairChanges.Following changes);
  _ ← persistFollow (PairChanges.FollowedBy changes);
  _ ← persistBlock (PairChanges.Block changes);
  _ ← (if decide (PairChanges.CounterDeltas changes = ∅) then mret tt
       else ApplyDeltas (PairChanges.CounterDeltas changes));
  publishOutboxEvents agg.

(** *** Transactions *)

(** [repoImpl.WithTransaction] of the module. *)
Definition WithRelationTransaction {A} (fn : method DB A) : method DB A := fun db =>
  match relationBeginError db with
  | Some e => (Err e, db)
  | None =>
      match fn db with
      | (Ok a, db') =>
          match relationCommitError db' with
          | Some e => (Err e, db)
          | None => (Ok a, db')
          end
      | (Err e, _) => (Err e, db)
      | (Panic w, _) => (Panic w, db)
      end
  end.

(** ** Handlers *)

(** [currentAccountID]: the context carries an actor, with a trimmed id that
    is not empty, or none. *)
Definition currentAccountID (actor : option string) : result string :=
  match actor with
  | Some id => if decide (TrimSpace id = "") then Err (Errorf "unauthorized" []) else Ok (TrimSpace id)
  | None => Err (Errorf "unauthorized" [])
  end.

(** What the handlers share: the transaction, the pair, the command, and what
    the response reads of the aggregate. *)
Definition onPair {R} (actor : option string) (targetUserID : string)
    (command : method RelationshipPairAggregate unit)
    (response : RelationshipPairAggregate -> result R) : method DB R :=
  accountID ← lift (currentAccountID actor);
  WithRelationTransaction (
    pairAgg ← LoadForUpdate accountID targetUserID;
    pairAgg ← lift (match command pairAgg with
                    | (Ok _, a) => Ok a
                    | (Err e, _) => Err e
                    | (Panic w, _) => Panic w
                    end);
    r ← lift (response pairAgg);
    _ ← SavePair pairAgg;
    mret r).

Definition nilPanic {A} (o : option A) : result A :=
  match o with Some a => Ok a | None => Panic "nil pointer dereference" end.

Definition HandleSendFriendRequest (actor : option string) (target requestID : string)
    (at_ : Time) : method DB (string * string * string * FriendRequestStatus) :=
  onPair actor target (SendFriendRequest requestID at_) (fun a =>
    fr ← nilPanic (PairStateOf.friendRequest (pairState a));
    e ← nilPanic (FriendRequestAggregate.request fr);
    Ok (aggregateID (Root fr), FriendRequest.RequesterID e, FriendRequest.AddresseeID e,
        FriendRequest.Status e)).

Definition HandleCancelFriendRequest (actor : option string) (target : string) (at_ : Time) :
    method DB bool :=
  onPair actor target (CancelFriendRequest at_) (fun _ => Ok true).

(** Gives the friendship's id, its other user and its time. *)
Definition HandleAcceptFriendRequest (actor : option string) (requester friendshipID : string)
    (at_ : Time) : method DB (string * string * Z) :=
  onPair actor requester (AcceptFriendRequest friendshipID at_) (fun a =>
    f ← nilPanic (FriendshipCreated a);
    accountID ← currentAccountID actor;
    friendID ← OtherUserID f accountID;
    Ok (Friendship.ID f, friendID, Unix (Friendship.CreatedAt f))).

Definition HandleRejectFriendRequest (actor : option string) (requester : string) (at_ : Time) :
    method DB bool :=
  onPair actor requester (RejectFriendRequest None at_) (fun _ => Ok true).

Definition HandleFollow (actor : option string) (target followID : string) (at_ : Time) :
    method DB (string * string * Z) :=
  onPair actor target (Follow followID at_) (fun a =>
    r ← nilPanic (FollowCreated a);
    Ok (FollowRelation.FollowerID r, FollowRelation.FolloweeID r, Unix (FollowRelation.CreatedAt r))).

Definition HandleUnfollow (actor : option string) (target : string) : method DB bool :=
  onPair actor target Unfollow (fun _ => Ok true).

Definition HandleUnfriend (actor : option string) (target : string) : method DB bool :=
  onPair actor target Unfriend (fun _ => Ok true).

Definition HandleBlock (actor : option string) (target blockID : string) (at_ : Time) :
    method DB (string * string * Z) :=
  onPair actor target (Block blockID None at_) (fun a =>
    r ← nilPanic (BlockCreated a);
    Ok (BlockRelation.BlockerID r, BlockRelation.BlockedID r, Unix (BlockRelation.CreatedAt r))).

Definition HandleUnblock (actor : option string) (target : string) : method DB bool :=
  onPair actor target Unblock (fun _ => Ok true).
End repository.

(** * The relationship tables

    What the repository relies on of the database ([RelationSQLLaws], over the
    contents [RelTables]), the bond of two users and the counts of a user as
    the tables have them, and the invariant [relations_ok]: rows are under
    their keys, at most one request is open between two users, every bond is
    well formed, and the stored counters are the counts. *)

(** ** Contents *)

Notation pairKey := (string * string)%type.

Record RelTables := mkRel {
  accounts : gset string;
  requestTable : gmap string FriendRequest.t;
  friendshipTable : gmap pairKey Friendship.t;
  followTable : gmap pairKey FollowRelation.t;
  blockTable : gmap pairKey BlockRelation.t;
  counterTable : gmap string CounterDelta.t
}.

(** [o] at the key [k]: a row, or none. *)
Definition assign {K V} `{Countable K} (k : K) (o : option V) (m : gmap K V) : gmap K V :=
  partial_alter (fun _ => o) k m.
#[global] Arguments assign : simpl never.

Definition friendshipKey (f : Friendship.t) : pairKey := (Friendship.UserLowID f, Friendship.UserHighID f).
Definition followKey (r : FollowRelation.t) : pairKey :=
  (FollowRelation.FollowerID r, FollowRelation.FolloweeID r).
Definition blockKey (r : BlockRelation.t) : pairKey := (BlockRelation.BlockerID r, BlockRelation.BlockedID r).

Definition assignRequest (id : string) (o : option FriendRequest.t) (t : RelTables) : RelTables :=
  mkRel (accounts t) (assign id o (requestTable t)) (friendshipTable t) (followTable t) (blockTable t)
    (counterTable t).
Definition assignFriendship (k : pairKey) (o : option Friendship.t) (t : RelTables) : RelTables :=
  mkRel (accounts t) (requestTable t) (assign k o (friendshipTable t)) (followTable t) (blockTable t)
    (counterTable t).
Definition assignFollow (k : pairKey) (o : option FollowRelation.t) (t : RelTables) : RelTables :=
  mkRel (accounts t) (requestTable t) (friendshipTable t) (assign k o (followTable t)) (blockTable t)
    (counterTable t).
Definition assignBlock (k : pairKey) (o : option BlockRelation.t) (t : RelTables) : RelTables :=
  mkRel (accounts t) (requestTable t) (friendshipTable t) (followTable t) (assign k o (blockTable t))
    (counterTable t).
Definition setCounters (c : gmap string CounterDelta.t) (t : RelTables) : RelTables :=
  mkRel (accounts t) (requestTable t) (friendshipTable t) (followTable t) (blockTable t) c.

(** Addition of counters, as the database does it: it fails on overflow. *)
Definition plus (c d : CounterDelta.t) : CounterDelta.t :=
  CounterDelta.mk (CounterDelta.FriendsCount c + CounterDelta.FriendsCount d)
    (CounterDelta.FollowersCount c + CounterDelta.FollowersCount d)
    (CounterDelta.FollowingCount c + CounterDelta.FollowingCount d)
    (CounterDelta.BlockedCount c + CounterDelta.BlockedCount d)
    (CounterDelta.PendingInCount c + CounterDelta.PendingInCount d)
    (CounterDelta.PendingOutCount c + CounterDelta.PendingOutCount d).

Definition addStub (m : gmap string CounterDelta.t) (id : string) : gmap string CounterDelta.t :=
  <[id := default CounterDelta.zero (m !! id)]> m.
Definition addTo (id : string) (d : CounterDelta.t) (m : gmap string CounterDelta.t) :
    gmap string CounterDelta.t :=
  match m !! id with Some c => <[id := plus c d]> m | None => m end.

Definition pendingBetween (a b : string) (r : FriendRequest.t) : Prop :=
  FriendRequest.IsPending r = true /\ (between a b r \/ between b a r).

(** ** What the repository relies on *)

Class RelationSQLLaws (DB : Type) `{SQL : RelationSQL DB} := {
  relTables : DB -> RelTables;
  insertGuard_law lo hi db : effect relTables (insertGuard lo hi) db (fun _ db' =>
    relTables db' = relTables db /\ lo <> hi);
  lockGuard_law lo hi db : effect relTables (lockGuard lo hi) db (fun _ db' =>
    relTables db' = relTables db);
  countAccount_law id db : effect relTables (countAccount id) db (fun n db' =>
    relTables db' = relTables db /\ (0 < n <-> id ∈ accounts (relTables db)));
  selectLatestOutbox_law k db : effect relTables (selectLatestOutbox k) db (fun _ db' =>
    relTables db' = relTables db);
  selectPendingBetween_law a b db : effect relTables (selectPendingBetween a b) db (fun o db' =>
    relTables db' = relTables db /\
    match o with
    | Some r => pendingBetween a b r /\ exists id, requestTable (relTables db) !! id = Some r
    | None => forall id r, requestTable (relTables db) !! id = Some r -> ~ pendingBetween a b r
    end);
  selectFriendship_law k db : effect relTables (selectFriendship k) db (fun o db' =>
    relTables db' = relTables db /\ o = friendshipTable (relTables db) !! k);
  selectFollow_law k db : effect relTables (selectFollow k) db (fun o db' =>
    relTables db' = relTables db /\ o = followTable (relTables db) !! k);
  selectBlock_law k db : effect relTables (selectBlock k) db (fun o db' =>
    relTables db' = relTables db /\ o = blockTable (relTables db) !! k);
  upsertRequest_law r db : effect relTables (upsertRequest r) db (fun _ db' =>
    relTables db' = assignRequest (FriendRequest.ID r) (Some r) (relTables db));
  insertFriendship_law f db : effect relTables (insertFriendship f) db (fun _ db' =>
    friendshipTable (relTables db) !! friendshipKey f = None /\
    relTables db' = assignFriendship (friendshipKey f) (Some f) (relTables db));
  deleteFriendshipRows_law k db : effect relTables (deleteFriendshipRows k) db (fun n db' =>
    (0 < n <-> is_Some (friendshipTable (relTables db) !! k)) /\
    relTables db' = assignFriendship k None (relTables db));
  insertFollow_law r db : effect relTables (insertFollow r) db (fun _ db' =>
    followTable (relTables db) !! followKey r = None /\
    relTables db' = assignFollow (followKey r) (Some r) (relTables db));
  deleteFollowRows_law k db : effect relTables (deleteFollowRows k) db (fun n db' =>
    (0 < n <-> is_Some (followTable (relTables db) !! k)) /\
    relTables db' = assignFollow k None (relTables db));
  insertBlock_law r db : effect relTables (insertBlock r) db (fun _ db' =>
    blockTable (relTables db) !! blockKey r = None /\
    relTables db' = assignBlock (blockKey r) (Some r) (relTables db));
  deleteBlockRows_law k db : effect relTables (deleteBlockRows k) db (fun n db' =>
    (0 < n <-> is_Some (blockTable (relTables db) !! k)) /\
    relTables db' = assignBlock k None (relTables db));
  insertCounters_law ids db : effect relTables (insertCounters ids) db (fun _ db' =>
    relTables db' = setCounters (foldl addStub (counterTable (relTables db)) ids) (relTables db));
  addToCounters_law id d db : effect relTables (addToCounters id d) db (fun _ db' =>
    relTables db' = setCounters (addTo id d (counterTable (relTables db))) (relTables db));
  insertRelationOutbox_law ev db : effect relTables (insertRelationOutbox ev) db (fun _ db' =>
    relTables db' = relTables db);
  rangeDeltas_law m : rangeDeltas m ≡ₚ map_to_list m
}.

(** ** Bonds and counts of the tables *)

Definition pendingFrom (t : RelTables) (a b : string) : bool :=
  bool_decide (map_Exists (fun _ r => FriendRequest.IsPending r = true /\
    FriendRequest.RequesterID r = a /\ FriendRequest.AddresseeID r = b) (requestTable t)).

Definition bondAt (t : RelTables) (a b : string) : Bond :=
  mkBond (is_some (friendshipTable t !! normalizePair a b)) (is_some (followTable t !! (a, b)))
    (is_some (followTable t !! (b, a))) (is_some (blockTable t !! (a, b)))
    (is_some (blockTable t !! (b, a)))
    (if pendingFrom t a b then Some Outgoing else if pendingFrom t b a then Some Incoming else None).

(** The number of rows that satisfy [P]. *)
Definition cnt {K V} `{Countable K} (P : K * V -> Prop) `{!forall x, Decision (P x)} (m : gmap K V) : Z :=
  Z.of_nat (size (filter P m)).

Definition involves (u : string) {V} (x : pairKey * V) : Prop := x.1.1 = u \/ x.1.2 = u.
Definition byFirst (u : string) {V} (x : pairKey * V) : Prop := x.1.1 = u.
Definition bySecond (u : string) {V} (x : pairKey * V) : Prop := x.1.2 = u.
Definition asksOf (u : string) (x : string * FriendRequest.t) : Prop :=
  FriendRequest.IsPending x.2 = true /\ FriendRequest.AddresseeID x.2 = u.
Definition asksBy (u : string) (x : string * FriendRequest.t) : Prop :=
  FriendRequest.IsPending x.2 = true /\ FriendRequest.RequesterID x.2 = u.

#[export] Instance involves_dec u {V} (x : pairKey * V) : Decision (involves u x).
Proof. unfold involves. apply _. Defined.
#[export] Instance byFirst_dec u {V} (x : pairKey * V) : Decision (byFirst u x).
Proof. unfold byFirst. apply _. Defined.
#[export] Instance bySecond_dec u {V} (x : pairKey * V) : Decision (bySecond u x).
Proof. unfold bySecond. apply _. Defined.
#[export] Instance asksOf_dec u x : Decision (asksOf u x).
Proof. unfold asksOf. apply _. Defined.
#[export] Instance asksBy_dec u x : Decision (asksBy u x).
Proof. unfold asksBy. apply _. Defined.

(** How many friends, followers, follows, blocks and open requests a user has. *)
Definition countsOf (t : RelTables) (u : string) : CounterDelta.t :=
  CounterDelta.mk (cnt (involves u) (friendshipTable t)) (cnt (bySecond u) (followTable t))
    (cnt (byFirst u) (followTable t)) (cnt (byFirst u) (blockTable t))
    (cnt (asksOf u) (requestTable t)) (cnt (asksBy u) (requestTable t)).

(** ** The invariant *)

Definition named (u : string) : Prop := TrimSpace u <> "".

Record relations_ok (t : RelTables) : Prop := {
  ro_accounts : forall u, u ∈ accounts t -> named u;
  ro_requests : forall id r, requestTable t !! id = Some r ->
    FriendRequest.ID r = id /\ named id /\ named (FriendRequest.RequesterID r) /\
    named (FriendRequest.AddresseeID r) /\ FriendRequest.RequesterID r <> FriendRequest.AddresseeID r;
  ro_one_request : forall id id' r r' a b, requestTable t !! id = Some r ->
    requestTable t !! id' = Some r' -> pendingBetween a b r -> pendingBetween a b r' -> id = id';
  ro_friendships : forall k f, friendshipTable t !! k = Some f ->
    friendshipKey f = k /\ normalizePair k.1 k.2 = k /\ named k.1 /\ named k.2;
  ro_follows : forall k r, followTable t !! k = Some r -> followKey r = k /\ named k.1 /\ named k.2;
  ro_blocks : forall k r, blockTable t !! k = Some r -> blockKey r = k /\ named k.1 /\ named k.2;
  ro_bonds : forall a b, a <> b -> bond_ok (bondAt t a b);
  ro_counters : forall u, default CounterDelta.zero (counterTable t !! u) = countsOf t u
}.

(** ** Lemmas on pairs *)

Lemma normalizePair_cases a b : normalizePair a b = (a, b) \/ normalizePair a b = (b, a).
Proof. unfold normalizePair. destruct (String.ltb a b); auto. Qed.

Lemma ltb_irrefl_asym a b : String.ltb a b = true -> String.ltb b a = false.
Proof.
  unfold String.ltb. rewrite (String.compare_antisym b a). by destruct (String.compare a b).
Qed.

Lemma normalizePair_comm a b : a <> b -> normalizePair a b = normalizePair b a.
Proof.
  intros Hne. unfold normalizePair. destruct (String.ltb a b) eqn:E.
  - by rewrite (ltb_irrefl_asym _ _ E).
  - destruct (String.ltb b a) eqn:E'; [done|]. exfalso. apply Hne. apply String.compare_eq_iff.
    unfold String.ltb in *. rewrite (String.compare_antisym b a) in *.
    by destruct (String.compare a b).
Qed.

Lemma normalizePair_inj a b x y :
  normalizePair a b = normalizePair x y -> (x = a /\ y = b) \/ (x = b /\ y = a).
Proof.
  destruct (normalizePair_cases a b) as [->| ->], (normalizePair_cases x y) as [->| ->];
    intros [= -> ->]; auto.
Qed.

(** ** Lemmas on counts *)

Section cnt.
Context {K V : Type} `{Countable K} (P : K * V -> Prop) `{!forall x, Decision (P x)}.
Implicit Types (m : gmap K V) (o : option V).

Definition at_key (k : K) o : Z :=
  match o with Some v => b2z (bool_decide (P (k, v))) | None => 0 end.

Lemma cnt_delete k m : cnt P m = cnt P (delete k m) + at_key k (m !! k).
Proof.
  unfold cnt, at_key. destruct (m !! k) as [v|] eqn:E.
  - rewrite <- (insert_delete_id m k v E) at 1. case_bool_decide as HP; cbn [b2z].
    + rewrite map_filter_insert_True by done. rewrite map_size_insert_None.
      * lia.
      * apply map_lookup_filter_None. left. by rewrite lookup_delete_eq.
    + rewrite map_filter_insert_not' by (try done; intros ? Hl; by rewrite lookup_delete_eq in Hl). lia.
  - rewrite delete_id by done. lia.
Qed.

Lemma cnt_assign k o m : cnt P (assign k o m) = cnt P m - at_key k (m !! k) + at_key k o.
Proof.
  rewrite (cnt_delete k (assign k o m)), (cnt_delete k m). unfold assign.
  rewrite lookup_partial_alter_eq.
  assert (delete k (partial_alter (fun _ => o) k m) = delete k m) as ->; [|lia].
  apply map_eq. intros i. destruct (decide (i = k)) as [->|Hi]; [by rewrite !lookup_delete_eq|].
  rewrite !lookup_delete_ne by done. by rewrite lookup_partial_alter_ne.
Qed.

Lemma assign_eq k o m : assign k o m !! k = o.
Proof. apply lookup_partial_alter_eq. Qed.
Lemma assign_ne k k' o m : k <> k' -> assign k o m !! k' = m !! k'.
Proof. apply lookup_partial_alter_ne. Qed.
Lemma assign_same k o m : m !! k = o -> assign k o m = m.
Proof.
  intros <-. apply map_eq. intros i. destruct (decide (k = i)) as [->|Hi]; [by rewrite assign_eq|].
  by rewrite assign_ne.
Qed.
End cnt.
