(* ===== verification/RelationshipStoreSpec.v ===== *)
(** * Loading and saving a pair

    What [LoadForUpdate] gives is what the tables hold of the two users; what
    [SavePair] writes of a command's changes is the state the command left. *)

From stdpp Require Import prelude strings gmap.
From S2P Require Import Prelude GoStrings Database Event RelationshipEntity.
From S2P Require Import RelationshipPair RelationshipPairSpec RelationshipStore.
Import PairStateOf.

Section spec.
Context `{UC : UnicodeCase} {DB : Type} `{SQLL : RelationSQLLaws DB}.
Context `{FJ : JSON FriendRequestEventData} `{PJ : JSON RelationshipPairEventData}.
Context (now : Time).
Implicit Types (db : DB) (t : RelTables) (s : relationshipPairState).

(** ** Loading *)

(** What the pair holds is what the tables hold of it. *)
Record holds t (a b : string) s : Prop := {
  ho_actor : actorID s = a;
  ho_target : targetID s = b;
  ho_exists : targetExists s = bool_decide (b ∈ accounts t);
  ho_request : match friendRequest s with
    | Some fr => exists e, FriendRequestAggregate.request fr = Some e /\
        requestTable t !! aggregateID (Root fr) = Some e /\ pendingBetween a b e
    | None => forall id r, requestTable t !! id = Some r -> ~ pendingBetween a b r
    end;
  ho_friendship : friendship s = friendshipTable t !! normalizePair a b;
  ho_following : following s = followTable t !! (a, b);
  ho_followedBy : followedBy s = followTable t !! (b, a);
  ho_blocking : blocking s = blockTable t !! (a, b);
  ho_blockedBy : blockedBy s = blockTable t !! (b, a)
}.

Lemma LockPair_Ok a b db db' :
  LockPair a b db = (Ok tt, db') -> relTables db' = relTables db /\ a <> b.
Proof.
  unfold LockPair. case_decide; [done|]. destruct (normalizePair a b) as [lo hi] eqn:Hn. intros H1.
  apply method_bind_Ok in H1 as ([] & db1 & H1 & H2).
  apply (effect_Ok _ _ _ _ _ _ (insertGuard_law lo hi db)) in H1 as [Ht1 Hne].
  apply (effect_Ok _ _ _ _ _ _ (lockGuard_law lo hi db1)) in H2. split; [congruence|].
  intros ->. unfold normalizePair in Hn. destruct (String.ltb b b); by injection Hn as <- <-.
Qed.

Lemma AccountExists_Ok b db ex db' :
  AccountExists b db = (Ok ex, db') ->
  relTables db' = relTables db /\ ex = bool_decide (b ∈ accounts (relTables db)).
Proof.
  intros H. apply method_bind_Ok in H as (n & db1 & H1 & H2). apply method_ret_Ok in H2 as [<- <-].
  apply (effect_Ok _ _ _ _ _ _ (countAccount_law b db)) in H1 as [Ht Hn]. split; [done|].
  by apply bool_decide_ext.
Qed.

Lemma loadVersion_spec k db r db' :
  loadRelationOutboxAggregateVersion k db = (r, db') ->
  match r with
  | Ok _ => relTables db' = relTables db
  | Err e => errors_Is e "gorm.ErrRecordNotFound" = false
  | Panic _ => True
  end.
Proof.
  unfold loadRelationOutboxAggregateVersion, mbind, method_bind.
  destruct (nilIfNotFound _ db) as [[o|e|w] db1] eqn:E; intros [= <- <-]; [| |done].
  - exact (nilFirst_Ok relTables _ _ _ _ _ (selectLatestOutbox_law k db) E).
  - exact (nilFirst_Err relTables _ _ _ _ _ (selectLatestOutbox_law k db) E).
Qed.

Lemma NewFriendRequest_named id :
  named id -> exists fr, NewFriendRequest id = Ok fr.
Proof.
  intros Hid. unfold NewFriendRequest. rewrite decide_False by (by apply TrimSpace_nonempty).
  unfold InitAggregate, SetID, modify, mbind, method_bind. rewrite decide_False by done.
  rewrite decide_False by done. cbn. rewrite decide_False by naive_solver. eauto.
Qed.

Lemma loadPending_spec a b db o db' :
  relations_ok (relTables db) ->
  nilIfNotFound (LoadPendingBetween a b) db = (Ok o, db') ->
  relTables db' = relTables db /\
  match o with
  | Some fr => exists e, FriendRequestAggregate.request fr = Some e /\
      requestTable (relTables db) !! aggregateID (Root fr) = Some e /\ pendingBetween a b e
  | None => forall id r, requestTable (relTables db) !! id = Some r -> ~ pendingBetween a b r
  end.
Proof.
  intros Hok. unfold nilIfNotFound, LoadPendingBetween, First.
  pose proof (selectPendingBetween_law a b db) as Hl. unfold effect in Hl.
  unfold mbind at 1 2, method_bind at 1 2.
  destruct (selectPendingBetween a b db) as [[[row|]|e|w] db1]; cbn [mret method_ret].
  - destruct Hl as (Ht & Hp & id & Hrow). unfold mret, method_ret.
    destruct (ro_requests _ Hok _ _ Hrow) as (Hid & Hn & _).
    unfold loadAggregateFromModel, mbind, method_bind, lift. rewrite Hid.
    destruct (NewFriendRequest_named id Hn) as [fr ->].
    destruct (loadRelationOutboxAggregateVersion _ db1) as [r db2] eqn:Hv.
    apply loadVersion_spec in Hv. destruct r as [v|e|w]; [|by rewrite Hv|done].
    unfold mret, method_ret. intros [= <- <-]. split; [congruence|]. exists row. by split_and!.
  - destruct Hl as [Ht Hno]. unfold raise. cbn. intros [= <- <-]. by split.
  - destruct Hl as [He _]. by rewrite (He "gorm.ErrRecordNotFound").
  - done.
Qed.

Lemma NewRelationshipPair_Ok sn agg :
  NewRelationshipPair sn = Ok agg ->
  pairState agg = newRelationshipPairState sn /\ Changes agg = newRelationshipPairChanges /\
  aggregateID (Root agg) <> "" /\ events (Root agg) = [].
Proof.
  unfold NewRelationshipPair. case_decide; [done|].
  destruct (InitAggregate _ _ _) as [[[]|e|w] root]; [|done..]. intros [= <-].
  split_and!; try done. cbn. unfold CanonicalRelationshipPairAggregateID.
  destruct (normalizePairLe _ _) as [lo hi]. by destruct lo.
Qed.

Lemma LoadForUpdate_spec a b db agg db' :
  relations_ok (relTables db) -> LoadForUpdate a b db = (Ok agg, db') ->
  relTables db' = relTables db /\ a <> b /\ holds (relTables db) a b (pairState agg) /\
  Changes agg = newRelationshipPairChanges /\ aggregateID (Root agg) <> "" /\ events (Root agg) = [].
Proof.
  intros Hok H. unfold LoadForUpdate in H.
  apply method_bind_Ok in H as ([] & db1 & H1 & H). apply LockPair_Ok in H1 as [T1 Hne].
  apply method_bind_Ok in H as (ex & db2 & H2 & H). apply AccountExists_Ok in H2 as [T2 ->].
  apply method_bind_Ok in H as (v & db3 & H3 & H). apply loadVersion_spec in H3.
  apply method_bind_Ok in H as (fr & db4 & H4 & H).
  assert (T3 : relTables db3 = relTables db) by congruence.
  apply loadPending_spec in H4 as [T4 Hreq]; [|by rewrite T3].
  rewrite T3 in T4, Hreq.
  apply method_bind_Ok in H as (f & db5 & H5 & H).
  apply (nilFirst_Ok relTables _ _ _ _ _ (selectFriendship_law _ _)) in H5 as [T5 ->]. rewrite T4 in T5. rewrite T4 in H.
  apply method_bind_Ok in H as (fo & db6 & H6 & H).
  apply (nilFirst_Ok relTables _ _ _ _ _ (selectFollow_law _ _)) in H6 as [T6 ->]. rewrite T5 in T6. rewrite T5 in H.
  apply method_bind_Ok in H as (fb & db7 & H7 & H).
  apply (nilFirst_Ok relTables _ _ _ _ _ (selectFollow_law _ _)) in H7 as [T7 ->]. rewrite T6 in T7. rewrite T6 in H.
  apply method_bind_Ok in H as (bl & db8 & H8 & H).
  apply (nilFirst_Ok relTables _ _ _ _ _ (selectBlock_law _ _)) in H8 as [T8 ->]. rewrite T7 in T8. rewrite T7 in H.
  apply method_bind_Ok in H as (bb & db9 & H9 & H).
  apply (nilFirst_Ok relTables _ _ _ _ _ (selectBlock_law _ _)) in H9 as [T9 ->]. rewrite T8 in T9. rewrite T8 in H.
  unfold lift in H. injection H as H <-. apply NewRelationshipPair_Ok in H as (Hs & Hc & Hid & Hev).
  split; [done|]. split; [done|]. split; [|done]. rewrite Hs. split; cbn; try done. by rewrite T1.
Qed.

Lemma pendingFrom_true t a b :
  pendingFrom t a b = true <->
  exists id r, requestTable t !! id = Some r /\ FriendRequest.IsPending r = true /\ between a b r.
Proof.
  unfold pendingFrom, between. rewrite bool_decide_eq_true, map_Exists_lookup. naive_solver.
Qed.

Lemma pendingFrom_false t a b :
  pendingFrom t a b = false <->
  forall id r, requestTable t !! id = Some r -> FriendRequest.IsPending r = true -> ~ between a b r.
Proof.
  rewrite <- not_true_iff_false, pendingFrom_true. naive_solver.
Qed.

(** Requests are open in one direction at most. *)
Lemma pendingFrom_one t a b :
  relations_ok t -> a <> b -> pendingFrom t a b = true -> pendingFrom t b a = false.
Proof.
  intros Hok Hne (id & r & Hr & Hp & Hb)%pendingFrom_true. apply pendingFrom_false.
  intros id' r' Hr' Hp' Hb'.
  assert (id = id') as <- by (eapply (ro_one_request _ Hok id id' r r' a b); [done..|by split; auto|by split; auto]).
  rewrite Hr in Hr'. injection Hr' as <-. unfold between in *. destruct Hb as [H1 _], Hb' as [H2 _]. congruence.
Qed.

Lemma holds_wf t a b s :
  relations_ok t -> named a -> named b -> a <> b -> holds t a b s -> pair_wf s.
Proof.
  intros Hok Ha Hb Hne Hh. pose proof (ho_actor _ _ _ _ Hh) as Hact.
  pose proof (ho_target _ _ _ _ Hh) as Htgt. split; rewrite ?Hact, ?Htgt; try done.
  - intros fr Hfr. pose proof (ho_request _ _ _ _ Hh) as Hr. rewrite Hfr in Hr.
    destruct Hr as (e & He & Hrow & _ & Hbt). destruct (ro_requests _ Hok _ _ Hrow) as (Hid & Hn & _).
    exists e. split_and!; [done|by apply TrimSpace_nonempty|done|done].
  - intros f Hf. rewrite (ho_friendship _ _ _ _ Hh) in Hf.
    by destruct (ro_friendships _ Hok _ _ Hf) as (Hk & _).
  - intros r Hr. rewrite (ho_following _ _ _ _ Hh) in Hr.
    destruct (ro_follows _ Hok _ _ Hr) as (Hk & _). by injection Hk.
  - intros r Hr. rewrite (ho_followedBy _ _ _ _ Hh) in Hr.
    destruct (ro_follows _ Hok _ _ Hr) as (Hk & _). by injection Hk.
  - intros r Hr. rewrite (ho_blocking _ _ _ _ Hh) in Hr.
    destruct (ro_blocks _ Hok _ _ Hr) as (Hk & _). by injection Hk.
Qed.

Lemma holds_pending t a b s :
  relations_ok t -> a <> b -> holds t a b s ->
  hasPendingOutgoingRequest s = pendingFrom t a b /\ hasPendingIncomingRequest s = pendingFrom t b a.
Proof.
  intros Hok Hne Hh. unfold hasPendingOutgoingRequest, hasPendingIncomingRequest, pendingFromTo.
  rewrite (ho_actor _ _ _ _ Hh), (ho_target _ _ _ _ Hh).
  pose proof (ho_request _ _ _ _ Hh) as Hr. destruct (friendRequest s) as [fr|]; cbn [mbind option_bind].
  - destruct Hr as (e & -> & Hrow & Hp & Hbt). rewrite Hp. cbn.
    destruct Hbt as [Hbt|Hbt]; pose proof Hbt as [-> ->].
    + assert (pendingFrom t a b = true) as Hab by (apply pendingFrom_true; eauto).
      rewrite Hab, (pendingFrom_one _ _ _ Hok Hne Hab), !String.eqb_refl.
      by rewrite (proj2 (String.eqb_neq a b)) by done.
    + assert (pendingFrom t b a = true) as Hba by (apply pendingFrom_true; eauto).
      rewrite Hba, (pendingFrom_one _ _ _ Hok (not_eq_sym Hne) Hba), !String.eqb_refl.
      by rewrite (proj2 (String.eqb_neq b a)) by done.
  - split; symmetry; apply pendingFrom_false; intros id r Hrow Hp Hbt;
      apply (Hr _ _ Hrow); split; auto.
Qed.

Lemma holds_bond t a b s :
  relations_ok t -> a <> b -> holds t a b s -> bondOf s = bondAt t a b.
Proof.
  intros Hok Hne Hh. destruct (holds_pending _ _ _ _ Hok Hne Hh) as [Ho Hi].
  unfold bondOf, bondAt. by rewrite Ho, Hi, (ho_friendship _ _ _ _ Hh), (ho_following _ _ _ _ Hh),
    (ho_followedBy _ _ _ _ Hh), (ho_blocking _ _ _ _ Hh), (ho_blockedBy _ _ _ _ Hh).
Qed.

Lemma LoadForUpdate_loaded a b db agg db' :
  relations_ok (relTables db) -> named a -> named b -> LoadForUpdate a b db = (Ok agg, db') ->
  relTables db' = relTables db /\ a <> b /\ holds (relTables db) a b (pairState agg) /\
  loaded_ok agg /\ bondOf (pairState agg) = bondAt (relTables db) a b.
Proof.
  intros Hok Ha Hb H. destruct (LoadForUpdate_spec _ _ _ _ _ Hok H) as (Ht & Hne & Hh & Hc & Hid & _).
  pose proof (holds_bond _ _ _ _ Hok Hne Hh) as Hbond.
  split_and!; try done. split; [exact (holds_wf _ _ _ _ Hok Ha Hb Hne Hh)| |done|done].
  rewrite Hbond. by apply (ro_bonds _ Hok).
Qed.

(** ** Saving *)

Lemma wrap_intro {A} (m : method DB A) f db a db' : wrap_err f m db = (Ok a, db') -> m db = (Ok a, db').
Proof. apply wrap_err_Ok. Qed.

Lemma AppendRelationOutbox_Ok {E} {JE : JSON E} (ev : Event E) db db' :
  AppendRelationOutbox ev db = (Ok tt, db') -> relTables db' = relTables db.
Proof.
  intros H. apply lift_bind_Ok in H as (data & _ & H).
  exact (effect_Ok _ _ _ _ _ _ (insertRelationOutbox_law _ _) H).
Qed.

Lemma Publish_Ok {E} {JE : JSON E} {EP : EventPayload E} evs db db' :
  Publish (Some AppendRelationOutbox) now evs db = (Ok tt, db') -> relTables db' = relTables db.
Proof.
  unfold Publish. revert db. induction evs as [|ev evs IH]; intros db H.
  - by injection H as <-.
  - apply range_cons_Ok in H as (db1 & H1 & H2). rewrite (IH _ H2).
    unfold publishOne in H1. destruct (decide (AggregateID ev = "")); [done|].
    destruct (decide (EventName ev = "")); [done|].
    apply wrap_err_Ok in H1. by eapply AppendRelationOutbox_Ok.
Qed.

Lemma publishPending_Ok {E A} {JE : JSON E} {EP : EventPayload E} {AG : Aggregate A E} (agg : A)
    db agg' db' :
  publishPending now agg db = (Ok agg', db') -> relTables db' = relTables db.
Proof.
  unfold publishPending, PublishAggregate. destruct (CloneEvents (Root agg)) as [|ev evs]; [by intros [= _ <-]|].
  destruct (Publish _ now (ev :: evs) db) as [[[]|e|w] db1] eqn:Hp; intros H; try done.
  injection H as _ <-. by eapply Publish_Ok.
Qed.

Lemma SaveFriendRequest_Ok agg e db agg' db' :
  FriendRequestAggregate.request agg = Some e -> FriendRequest.ID e = aggregateID (Root agg) ->
  SaveFriendRequest now agg db = (Ok agg', db') ->
  relTables db' = assignRequest (FriendRequest.ID e) (Some e) (relTables db).
Proof.
  intros He Hid H. unfold SaveFriendRequest in H. rewrite He in H. cbv zeta in H.
  case_decide; [done|]. rewrite <- Hid in H.
  assert (FriendRequest.setID (FriendRequest.ID e) e = e) as Hset by (by destruct e).
  rewrite Hset in H. apply method_bind_Ok in H as ([] & db1 & H1 & H2).
  apply (effect_Ok _ _ _ _ _ _ (upsertRequest_law e db)) in H1. rewrite <- H1. clear H1.
  destruct (decide _) in H2; [by injection H2 as _ <-|exact (publishPending_Ok _ _ _ _ H2)].
Qed.

Lemma persistFriendship_Ok agg i before after db db' :
  let k := normalizePair (actorID (pairState agg)) (targetID (pairState agg)) in
  intends i before after -> friendshipTable (relTables db) !! k = before ->
  (forall f, after = Some f -> friendshipKey f = k) ->
  persistFriendship agg i db = (Ok tt, db') ->
  relTables db' = assignFriendship k after (relTables db).
Proof.
  intros k Hi Hb Hk H. unfold persistFriendship, intends in *.
  destruct i as [[] [v|]]; cbn in *; try destruct Hi as (? & ? & Hsome); subst;
    try (by destruct Hsome).
  1, 2: apply method_ret_Ok in H as [_ <-]; unfold assignFriendship; rewrite assign_same by done;
    by destruct (relTables db).
  - apply wrap_err_Ok in H. apply (effect_Ok _ _ _ _ _ _ (insertFriendship_law _ _)) in H as [_ ->].
    by rewrite (Hk v).
  - apply method_bind_Ok in H as (del & db1 & H1 & H2). apply method_bind_Ok in H1 as (n & db2 & H1 & H3).
    apply method_ret_Ok in H3 as [<- <-].
    apply (effect_Ok _ _ _ _ _ _ (deleteFriendshipRows_law _ _)) in H1 as [_ Ht].
    case_bool_decide; [apply method_ret_Ok in H2 as [_ <-]; exact Ht|done].
Qed.

Lemma persistFollow_Ok i k before after db db' :
  intends i before after -> followTable (relTables db) !! k = before ->
  (forall r, before = Some r \/ after = Some r -> followKey r = k) ->
  persistFollow i db = (Ok tt, db') -> relTables db' = assignFollow k after (relTables db).
Proof.
  intros Hi Hb Hk H. unfold persistFollow, intends in *.
  destruct i as [[] [v|]]; cbn in *; try destruct Hi as (? & ? & Hsome); subst;
    try (by destruct Hsome).
  1, 2: apply method_ret_Ok in H as [_ <-]; unfold assignFollow; rewrite assign_same by done;
    by destruct (relTables db).
  - apply wrap_err_Ok in H. apply (effect_Ok _ _ _ _ _ _ (insertFollow_law _ _)) in H as [_ ->].
    by rewrite (Hk v) by auto.
  - apply method_bind_Ok in H as (del & db1 & H1 & H2). apply method_bind_Ok in H1 as (n & db2 & H1 & H3).
    apply method_ret_Ok in H3 as [<- <-].
    apply (effect_Ok _ _ _ _ _ _ (deleteFollowRows_law _ _)) in H1 as [_ Ht].
    change (relTables db2 = assignFollow (followKey v) None (relTables db)) in Ht. rewrite (Hk v) in Ht by auto.
    case_bool_decide; [apply method_ret_Ok in H2 as [_ <-]; exact Ht|done].
Qed.

Lemma persistBlock_Ok i k before after db db' :
  intends i before after -> blockTable (relTables db) !! k = before ->
  (forall r, before = Some r \/ after = Some r -> blockKey r = k) ->
  persistBlock i db = (Ok tt, db') -> relTables db' = assignBlock k after (relTables db).
Proof.
  intros Hi Hb Hk H. unfold persistBlock, intends in *.
  destruct i as [[] [v|]]; cbn in *; try destruct Hi as (? & ? & Hsome); subst;
    try (by destruct Hsome).
  1, 2: apply method_ret_Ok in H as [_ <-]; unfold assignBlock; rewrite assign_same by done;
    by destruct (relTables db).
  - apply wrap_err_Ok in H. apply (effect_Ok _ _ _ _ _ _ (insertBlock_law _ _)) in H as [_ ->].
    by rewrite (Hk v) by auto.
  - apply method_bind_Ok in H as (del & db1 & H1 & H2). apply method_bind_Ok in H1 as (n & db2 & H1 & H3).
    apply method_ret_Ok in H3 as [<- <-].
    apply (effect_Ok _ _ _ _ _ _ (deleteBlockRows_law _ _)) in H1 as [_ Ht].
    change (relTables db2 = assignBlock (blockKey v) None (relTables db)) in Ht. rewrite (Hk v) in Ht by auto.
    case_bool_decide; [apply method_ret_Ok in H2 as [_ <-]; exact Ht|done].
Qed.

(** *** Counters *)

Lemma plus_zero c : plus c CounterDelta.zero = c.
Proof. destruct c. unfold plus. cbn. f_equal; lia. Qed.

Lemma setCounters_set c c' t : setCounters c (setCounters c' t) = setCounters c t.
Proof. done. Qed.
Lemma setCounters_id t : setCounters (counterTable t) t = t.
Proof. by destruct t. Qed.

Lemma addStub_default m id u :
  default CounterDelta.zero (addStub m id !! u) = default CounterDelta.zero (m !! u).
Proof.
  unfold addStub. destruct (decide (u = id)) as [->|Hu]; [by rewrite lookup_insert_eq|].
  by rewrite lookup_insert_ne.
Qed.

Lemma addStubs_spec ids m :
  (forall u, default CounterDelta.zero (foldl addStub m ids !! u) = default CounterDelta.zero (m !! u)) /\
  (forall u, u ∈ ids \/ is_Some (m !! u) -> is_Some (foldl addStub m ids !! u)).
Proof.
  revert m. induction ids as [|id ids IH]; intros m; cbn.
  - split; [done|]. by intros u [?%not_elem_of_nil|].
  - destruct (IH (addStub m id)) as [H1 H2]. split.
    + intros u. by rewrite H1, addStub_default.
    + intros u Hu. apply H2. unfold addStub. destruct (decide (u = id)) as [->|Hne].
      * right. rewrite lookup_insert_eq. by eexists.
      * rewrite lookup_insert_ne by done. destruct Hu as [[->|Hu]%elem_of_cons|Hu]; auto. done.
Qed.

Definition addDelta (userID : string) (delta : CounterDelta.t) : method DB unit :=
  if decide (userID = "" \/ CounterDelta.IsZero delta = true) then mret tt
  else addToCounters userID delta.

Lemma addDelta_Ok u d db db' :
  u <> "" -> is_Some (counterTable (relTables db) !! u) -> addDelta u d db = (Ok tt, db') ->
  relTables db' = setCounters
    (<[u := plus (default CounterDelta.zero (counterTable (relTables db) !! u)) d]>
       (counterTable (relTables db))) (relTables db).
Proof.
  intros Hu [c Hc] H. unfold addDelta in H. rewrite Hc. cbn [default].
  destruct (decide (u = "" \/ CounterDelta.IsZero d = true)) as [[?|Hz]|Hn]; [done| |].
  - apply method_ret_Ok in H as [_ <-]. apply bool_decide_eq_true in Hz.
    assert (d = CounterDelta.zero) as -> by (destruct d; cbn in *; unfold CounterDelta.zero; intuition congruence).
    cbn. rewrite plus_zero, insert_id by done. by rewrite setCounters_id.
  - apply (effect_Ok _ _ _ _ _ _ (addToCounters_law _ _ _)) in H as ->. unfold addTo. by rewrite Hc.
Qed.

Lemma addDeltas_Ok (l : list (string * CounterDelta.t)) db db' :
  NoDup l.*1 ->
  Forall (fun p => p.1 <> "" /\ is_Some (counterTable (relTables db) !! p.1)) l ->
  range l (fun '(u, d) => addDelta u d) db = (Ok tt, db') ->
  exists c', relTables db' = setCounters c' (relTables db) /\
    forall u, default CounterDelta.zero (c' !! u) =
      plus (default CounterDelta.zero (counterTable (relTables db) !! u))
        (default CounterDelta.zero ((list_to_map l : gmap string CounterDelta.t) !! u)).
Proof.
  revert db. induction l as [|[u d] l IH]; intros db Hnd Hl H.
  - injection H as <-. exists (counterTable (relTables db)). split; [by rewrite setCounters_id|].
    intros v. cbn. by rewrite lookup_empty, plus_zero.
  - apply range_cons_Ok in H as (db1 & H1 & H2). cbn in Hnd. apply NoDup_cons in Hnd as [Hu Hnd].
    apply Forall_cons in Hl as [[Hne Hsome] Hl]. cbn [fst] in *.
    pose proof (addDelta_Ok _ _ _ _ Hne Hsome H1) as Ht.
    destruct (IH db1 Hnd) as (c' & Hc' & Hd); [|done|].
    { eapply Forall_impl; [exact Hl|]. intros p [Hp1 Hp2]. split; [done|]. rewrite Ht. cbn.
      destruct (decide (p.1 = u)) as [->|Hp]; [rewrite lookup_insert_eq; by eexists|].
      by rewrite lookup_insert_ne. }
    exists c'. split; [by rewrite Hc', Ht|]. intros v. rewrite Hd, Ht. cbn.
    destruct (decide (v = u)) as [->|Hv].
    + rewrite !lookup_insert_eq. rewrite (not_elem_of_list_to_map_1 l) by done. cbn. by rewrite plus_zero.
    + by rewrite !lookup_insert_ne.
Qed.

Lemma ApplyDeltas_Ok deltas db db' :
  deltas !! "" = None -> ApplyDeltas deltas db = (Ok tt, db') ->
  exists c', relTables db' = setCounters c' (relTables db) /\
    forall u, default CounterDelta.zero (c' !! u) =
      plus (default CounterDelta.zero (counterTable (relTables db) !! u))
        (default CounterDelta.zero (deltas !! u)).
Proof.
  intros Hnone H. unfold ApplyDeltas in H. case_decide as Hempty.
  { apply method_ret_Ok in H as [_ <-]. exists (counterTable (relTables db)).
    split; [by rewrite setCounters_id|]. intros u. by rewrite Hempty, lookup_empty, plus_zero. }
  pose proof (rangeDeltas_law deltas) as Hperm. set (l := rangeDeltas deltas) in *.
  assert (Hnd : NoDup l.*1) by (rewrite Hperm; apply NoDup_fst_map_to_list).
  assert (Hmap : (list_to_map l : gmap string CounterDelta.t) = deltas).
  { rewrite (list_to_map_proper l (map_to_list deltas)) by done. apply list_to_map_to_list. }
  assert (Hne : Forall (fun p => p.1 <> "") l).
  { apply Forall_forall. intros [u d] Hin Hu. cbn in Hu. subst u.
    apply (elem_of_list_to_map_1 l) in Hin; [|done]. rewrite Hmap in Hin. congruence. }
  cbv zeta in H. destruct (decide (length _ = 0%nat)) as [Hlen|_] in H.
  { exfalso. apply nil_length_inv in Hlen. apply Hempty. rewrite <- Hmap.
    destruct l as [|p l]; [done|]. apply Forall_cons in Hne as [Hp _].
    by rewrite fmap_cons, filter_cons_True in Hlen by done. }
  apply method_bind_Ok in H as ([] & db1 & H1 & H2).
  apply (effect_Ok _ _ _ _ _ _ (insertCounters_law _ _)) in H1.
  destruct (addStubs_spec (filter (fun userID => userID <> "") l.*1) (counterTable (relTables db)))
    as [Hd Hs].
  destruct (addDeltas_Ok l db1 db' Hnd) as (c' & Hc' & Hfin); [|exact H2|].
  { apply Forall_forall. intros p Hp. rewrite Forall_forall in Hne. split; [by apply Hne|].
    rewrite H1. cbn. apply Hs. left. apply list_elem_of_filter. split; [by apply Hne|].
    by apply list_elem_of_fmap_2. }
  exists c'. split; [by rewrite Hc', H1|]. intros u. rewrite Hfin, H1, Hmap. cbn. by rewrite Hd.
Qed.

(** *** The tables after a save *)

(** The row of the request, before and after. *)
Definition request_saved (c : PairCommand) (a b : string) t t' s s' : Prop :=
  (requestTable t' = requestTable t /\ friendRequest s' = friendRequest s) \/
  exists fr' e', friendRequest s' = Some fr' /\ FriendRequestAggregate.request fr' = Some e' /\
    requestTable t' = assign (FriendRequest.ID e') (Some e') (requestTable t) /\
    ((exists fr e, friendRequest s = Some fr /\ FriendRequestAggregate.request fr = Some e /\
        requestTable t !! FriendRequest.ID e' = Some e /\ answered e e') \/
     (exists id at_, c = CmdSendFriendRequest id at_ /\ e' = sentRequest id a b at_)).

Record saved (c : PairCommand) (a b : string) t t' s s' (deltas : RelationshipPairChanges) : Prop := {
  sv_accounts : accounts t' = accounts t;
  sv_request : request_saved c a b t t' s s';
  sv_friendship : friendshipTable t' = assign (normalizePair a b) (friendship s') (friendshipTable t);
  sv_follow : followTable t' =
    assign (b, a) (followedBy s') (assign (a, b) (following s') (followTable t));
  sv_block : blockTable t' = assign (a, b) (blocking s') (blockTable t);
  sv_counters u : default CounterDelta.zero (counterTable t' !! u) =
    plus (default CounterDelta.zero (counterTable t !! u)) (deltaOf deltas u)
}.

Lemma persistFriendRequest_Ok c a b i s s' db db' :
  relations_ok (relTables db) -> holds (relTables db) a b s -> pair_wf s' ->
  request_step c i s s' -> persistFriendRequest now i db = (Ok tt, db') ->
  request_saved c a b (relTables db) (relTables db') s s' /\
  exists rq, relTables db' = mkRel (accounts (relTables db)) rq (friendshipTable (relTables db))
    (followTable (relTables db)) (blockTable (relTables db)) (counterTable (relTables db)).
Proof.
  intros Hok Hh Hw Hi H. unfold persistFriendRequest in H. destruct Hi as [[Hk Hfr]|[-> Hi]].
  - rewrite Hk in H. apply method_ret_Ok in H as [_ <-]. split; [by left|].
    exists (requestTable (relTables db)). by destruct (relTables db).
  - cbn [Kind Value] in H.
    assert (Hcase : exists fr' e', friendRequest s' = Some fr' /\
      FriendRequestAggregate.request fr' = Some e' /\ FriendRequest.ID e' = aggregateID (Root fr') /\
      ((exists fr e, friendRequest s = Some fr /\ FriendRequestAggregate.request fr = Some e /\
         requestTable (relTables db) !! FriendRequest.ID e' = Some e /\ answered e e') \/
       (exists id at_, c = CmdSendFriendRequest id at_ /\ e' = sentRequest id a b at_))).
    { destruct Hi as [(fr & e & fr' & e' & H1 & H2 & H3 & H4 & H5 & H6)|(fr' & id & at_ & H1 & H2 & H3 & H4)].
      - exists fr', e'. pose proof (ho_request _ _ _ _ Hh) as Hr. rewrite H1 in Hr.
        destruct Hr as (e0 & He0 & Hrow & _). rewrite H2 in He0. injection He0 as <-.
        destruct (pw_request _ Hw _ H3) as (e1 & He1 & _ & Hid & _).
        rewrite H4 in He1. injection He1 as <-. split_and!; [done..|]. left. exists fr, e.
        rewrite Hid, H5. by split_and!.
      - rewrite (ho_actor _ _ _ _ Hh), (ho_target _ _ _ _ Hh) in H3.
        exists fr', (sentRequest id a b at_). split_and!; [done..| |]; [by cbn; rewrite <- H4|].
        right. by exists id, at_. }
    destruct Hcase as (fr' & e' & Hfr' & He' & Hid & Hrest). rewrite Hfr' in H.
    apply method_bind_Ok in H as (agg & db1 & H1 & H2). apply method_ret_Ok in H2 as [_ <-].
    apply (SaveFriendRequest_Ok _ _ _ _ _ He' Hid) in H1. rewrite H1. split; [|by eexists].
    right. exists fr', e'. by split_and!.
Qed.

Lemma SavePair_Ok c a b agg0 agg db agg' db' :
  relations_ok (relTables db) -> named a -> named b -> holds (relTables db) a b (pairState agg0) ->
  effected c agg0 agg -> SavePair now agg db = (Ok agg', db') ->
  saved c a b (relTables db) (relTables db') (pairState agg0) (pairState agg) (Changes agg).
Proof.
  intros Hok Ha Hb Hh [_ Hw Hreq Hch Hcnt _] H. unfold SavePair in H. cbv zeta in H.
  set (s := pairState agg0) in *. set (s' := pairState agg) in *.
  destruct Hch as [Df Dfo Dfb Db _ (Ia & It & _)].
  rewrite (ho_actor _ _ _ _ Hh) in Ia. rewrite (ho_target _ _ _ _ Hh) in It.
  apply method_bind_Ok in H as ([] & db1 & H1 & H).
  destruct (persistFriendRequest_Ok c a b _ _ _ _ _ Hok Hh Hw Hreq H1) as [Hrq [rq Ht1]].
  assert (Hrq' : requestTable (relTables db1) = rq) by (by rewrite Ht1).
  apply method_bind_Ok in H as ([] & db2 & H2 & H).
  apply (persistFriendship_Ok agg _ _ _ _ _ Df) in H2; fold s' in H2 |- *; rewrite ?Ia, ?It in *;
    [|by rewrite Ht1; cbn; rewrite (ho_friendship _ _ _ _ Hh)|intros f Hf; pose proof (pw_friendship _ Hw f Hf) as Hk; by rewrite Ia, It in Hk].
  apply method_bind_Ok in H as ([] & db3 & H3 & H).
  apply (persistFollow_Ok _ (a, b) _ _ _ _ Dfo) in H3.
  2: { rewrite H2, Ht1. cbn. by rewrite (ho_following _ _ _ _ Hh). }
  2: { intros r [Hr|Hr]; unfold followKey.
       - rewrite (ho_following _ _ _ _ Hh) in Hr. by destruct (ro_follows _ Hok _ _ Hr).
       - destruct (pw_following _ Hw _ Hr) as [-> ->]. by rewrite Ia, It. }
  apply method_bind_Ok in H as ([] & db4 & H4 & H).
  apply (persistFollow_Ok _ (b, a) _ _ _ _ Dfb) in H4.
  2: { rewrite H3, H2, Ht1. cbn. rewrite assign_ne; [by rewrite (ho_followedBy _ _ _ _ Hh)|].
       intros [= Hba _]. pose proof (pw_distinct _ Hw) as Hne. rewrite Ia, It in Hne. done. }
  2: { intros r [Hr|Hr]; unfold followKey.
       - rewrite (ho_followedBy _ _ _ _ Hh) in Hr. by destruct (ro_follows _ Hok _ _ Hr).
       - destruct (pw_followedBy _ Hw _ Hr) as [-> ->]. by rewrite Ia, It. }
  apply method_bind_Ok in H as ([] & db5 & H5 & H).
  apply (persistBlock_Ok _ (a, b) _ _ _ _ Db) in H5.
  2: { rewrite H4, H3, H2, Ht1. cbn. by rewrite (ho_blocking _ _ _ _ Hh). }
  2: { intros r [Hr|Hr]; unfold blockKey.
       - rewrite (ho_blocking _ _ _ _ Hh) in Hr. by destruct (ro_blocks _ Hok _ _ Hr).
       - destruct (pw_blocking _ Hw _ Hr) as [-> ->]. by rewrite Ia, It. }
  apply method_bind_Ok in H as ([] & db6 & H6 & H).
  assert (Hctr : exists c', relTables db6 = setCounters c' (relTables db5) /\
    forall u, default CounterDelta.zero (c' !! u) =
      plus (default CounterDelta.zero (counterTable (relTables db5) !! u)) (deltaOf (Changes agg) u)).
  { case_decide as He.
    - apply method_ret_Ok in H6 as [_ <-]. exists (counterTable (relTables db5)).
      split; [by rewrite setCounters_id|]. intros u. unfold deltaOf. by rewrite He, lookup_empty, plus_zero.
    - apply ApplyDeltas_Ok; [|done]. destruct Hcnt as (_ & _ & Hoth).
      rewrite (ho_actor _ _ _ _ Hh), (ho_target _ _ _ _ Hh) in Hoth.
      apply Hoth; intros <-; by apply TrimSpace_nonempty in Ha, Hb. }
  destruct Hctr as (c' & Ht6 & Hc').
  assert (Ht' : relTables db' = relTables db6).
  { unfold publishOutboxEvents in H. destruct (decide _) in H; [by injection H as _ <-|].
    apply method_bind_Ok in H as (x & db7 & H7 & H8). apply method_ret_Ok in H8 as [_ <-].
    exact (publishPending_Ok _ _ _ _ H7). }
  split; rewrite Ht', Ht6, ?H5, ?H4, ?H3, ?H2, ?Ht1; cbn; try done.
  - unfold request_saved in *. cbn. by rewrite Hrq' in Hrq.
  - intros u. rewrite Hc', H5, H4, H3, H2, Ht1. done.
Qed.
End spec.

(** ** Requests and their counts *)

Section requests.
Implicit Types (t : RelTables) (a b u x y : string) (e r : FriendRequest.t).

Definition ofPair a b e : Prop := between a b e \/ between b a e.

(** The direction, seen from [a], in which a request is open. *)
Definition dirOf a e : option Direction :=
  if FriendRequest.IsPending e then
    if decide (FriendRequest.RequesterID e = a) then Some Outgoing else Some Incoming
  else None.

Lemma open_dir s fr e :
  pair_wf s -> friendRequest s = Some fr -> FriendRequestAggregate.request fr = Some e ->
  openRequest (bondOf s) = dirOf (actorID s) e.
Proof.
  intros Hw Hfr He. destruct (pw_request _ Hw _ Hfr) as (e0 & He0 & _ & _ & Hb).
  rewrite He in He0. injection He0 as <-. pose proof (pw_distinct _ Hw) as Hne.
  unfold bondOf, hasPendingOutgoingRequest, hasPendingIncomingRequest, pendingFromTo, dirOf.
  rewrite Hfr. cbn. rewrite He. destruct (FriendRequest.IsPending e); cbn; [|done].
  destruct Hb as [[H1 H2]|[H1 H2]]; rewrite H1, H2, !String.eqb_refl.
  - by rewrite decide_True.
  - rewrite decide_False by done. by rewrite (proj2 (String.eqb_neq (targetID s) (actorID s))) by done.
Qed.

Definition share (d d' : Direction) (q : option Direction) a b u : Z :=
  if decide (u = a) then dir2z d q else if decide (u = b) then dir2z d' q else 0.

Lemma at_asksBy a b u id e :
  a <> b -> ofPair a b e ->
  at_key (asksBy u) id (Some e) = share Outgoing Incoming (dirOf a e) a b u.
Proof.
  intros Hne Hb. unfold at_key. case_bool_decide as HP; unfold asksBy in HP; cbn [snd] in HP;
    unfold share, dirOf, ofPair, between in *; destruct (FriendRequest.IsPending e);
    repeat case_decide; cbn; subst; intuition congruence.
Qed.

Lemma at_asksOf a b u id e :
  a <> b -> ofPair a b e ->
  at_key (asksOf u) id (Some e) = share Incoming Outgoing (dirOf a e) a b u.
Proof.
  intros Hne Hb. unfold at_key. case_bool_decide as HP; unfold asksOf in HP; cbn [snd] in HP;
    unfold share, dirOf, ofPair, between in *; destruct (FriendRequest.IsPending e);
    repeat case_decide; cbn; subst; intuition congruence.
Qed.

(** A row written for the pair: the request that was open between the two
    users, or a new row. *)
Record rowWritten t t' a b (q q' : option Direction) (e' : FriendRequest.t) : Prop := {
  rw_table : requestTable t' = assign (FriendRequest.ID e') (Some e') (requestTable t);
  rw_pair : ofPair a b e';
  rw_new : q' = dirOf a e';
  rw_old : match requestTable t !! FriendRequest.ID e' with
    | Some e => ofPair a b e /\ FriendRequest.IsPending e = true /\ q = dirOf a e
    | None => q = None
    end;
  rw_open : requestTable t !! FriendRequest.ID e' = None ->
    forall id r, requestTable t !! id = Some r -> ~ pendingBetween a b r
}.

Lemma share_diff d d' q q' a b u :
  share d d' q' a b u - share d d' q a b u =
    if decide (u = a) then dir2z d q' - dir2z d q
    else if decide (u = b) then dir2z d' q' - dir2z d' q else 0.
Proof. unfold share. by repeat case_decide. Qed.

Lemma share_none d d' a b u : share d d' None a b u = 0.
Proof. unfold share. destruct d, d'; by repeat case_decide. Qed.

Lemma rowWritten_counts t t' a b q q' e' u :
  a <> b -> rowWritten t t' a b q q' e' ->
  cnt (asksBy u) (requestTable t') = cnt (asksBy u) (requestTable t) +
    (share Outgoing Incoming q' a b u - share Outgoing Incoming q a b u) /\
  cnt (asksOf u) (requestTable t') = cnt (asksOf u) (requestTable t) +
    (share Incoming Outgoing q' a b u - share Incoming Outgoing q a b u).
Proof.
  intros Hne [-> Hp -> Hold _]. rewrite !cnt_assign, (at_asksBy a b), (at_asksOf a b) by done.
  destruct (requestTable t !! FriendRequest.ID e') as [e|].
  - destruct Hold as (He & _ & ->). rewrite (at_asksBy a b), (at_asksOf a b) by done. lia.
  - subst q. rewrite !share_none. cbn [at_key]. lia.
Qed.

Lemma ofPair_pending a b x y r : ofPair a b r -> pendingBetween x y r -> (x = a /\ y = b) \/ (x = b /\ y = a).
Proof. intros [[H1 H2]|[H1 H2]] [_ [[H3 H4]|[H3 H4]]]; intuition congruence. Qed.

(** Other pairs have the requests they had. *)
Lemma rowWritten_other t t' a b q q' e' x y :
  rowWritten t t' a b q q' e' -> ~ ((x = a /\ y = b) \/ (x = b /\ y = a)) ->
  pendingFrom t' x y = pendingFrom t x y.
Proof.
  intros [Ht Hp _ Hold _] Hxy. apply eq_true_iff_eq. rewrite !pendingFrom_true, Ht.
  split; intros (id & r & Hr & Hpr & Hbr); exists id, r; split_and!; try done;
    destruct (decide (FriendRequest.ID e' = id)) as [<-|Hid]; try by rewrite ?assign_ne in * by done.
  - rewrite assign_eq in Hr. injection Hr as <-. exfalso. apply Hxy.
    apply (ofPair_pending a b x y e' Hp). split; auto.
  - rewrite Hr in Hold. destruct Hold as (He & _). exfalso. apply Hxy.
    apply (ofPair_pending a b x y r He). split; auto.
Qed.
End requests.

(** ** The bond from the other side *)

Definition flip (q : option Direction) : option Direction :=
  match q with Some Outgoing => Some Incoming | Some Incoming => Some Outgoing | None => None end.
Definition mirror (b : Bond) : Bond :=
  mkBond (befriended b) (followed b) (follows b) (blockedBack b) (blocks b) (flip (openRequest b)).

Lemma mirror_ok b : bond_ok b -> bond_ok (mirror b).
Proof. destruct b as [[] [] [] [] [] [[]|]]; unfold bond_ok; cbn; intuition congruence. Qed.

Lemma mirror_at t a b :
  a <> b ->
  (forall id id' r r' x y, requestTable t !! id = Some r -> requestTable t !! id' = Some r' ->
    pendingBetween x y r -> pendingBetween x y r' -> id = id') ->
  bondAt t b a = mirror (bondAt t a b).
Proof.
  intros Hne Hone. unfold bondAt, mirror. cbn. rewrite (normalizePair_comm b a) by done. f_equal.
  destruct (pendingFrom t a b) eqn:E1, (pendingFrom t b a) eqn:E2; try done.
  apply pendingFrom_true in E1 as (id & r & Hr & Hp & Hb), E2 as (id' & r' & Hr' & Hp' & Hb').
  assert (id = id') as <- by (eapply (Hone id id' r r' a b); [done..|split; auto|split; auto]).
  rewrite Hr in Hr'. injection Hr' as <-. destruct Hb as [H1 _], Hb' as [H2 _]. congruence.
Qed.

(** ** What a save keeps *)

Section keeps.
Context (c : PairCommand) (a b : string) (t t' : RelTables) (s s' : relationshipPairState).
Context (Hok : relations_ok t) (Ha : named a) (Hb : named b) (Hne : a <> b).
Context (Hh : holds t a b s) (Hw' : pair_wf s') (Ha' : actorID s' = a) (Hb' : targetID s' = b).
Context (Hbb : blockedBy s' = blockedBy s).
Context (ex : bool) (Hstep : bondStep ex c (bondOf s) = Some (bondOf s')).
(** The id of a request that is sent is new. *)
Context (Hfresh : forall id at_, c = CmdSendFriendRequest id at_ -> generated id /\ requestTable t !! id = None).
Implicit Types (u x y id : string) (e r : FriendRequest.t).

Lemma saved_request :
  request_saved c a b t t' s s' ->
  (requestTable t' = requestTable t /\ openRequest (bondOf s') = openRequest (bondOf s)) \/
  exists e', rowWritten t t' a b (openRequest (bondOf s)) (openRequest (bondOf s')) e' /\
    named (FriendRequest.ID e').
Proof.
  pose proof (holds_wf _ _ _ _ Hok Ha Hb Hne Hh) as Hw.
  intros [[Hr Hfr]|(fr' & e' & Hfr' & He' & Ht & Hcase)].
  - left. split; [done|]. unfold bondOf, hasPendingOutgoingRequest, hasPendingIncomingRequest, pendingFromTo.
    cbn. by rewrite Hfr, Ha', Hb', (ho_actor _ _ _ _ Hh), (ho_target _ _ _ _ Hh).
  - right. exists e'. pose proof (open_dir _ _ _ Hw' Hfr' He') as Hq'. rewrite Ha' in Hq'.
    destruct (pw_request _ Hw' _ Hfr') as (e0 & He0 & _ & _ & Hp').
    rewrite He' in He0. injection He0 as <-. rewrite Ha', Hb' in Hp'.
    destruct Hcase as [(fr & e & Hfr & He & Hrow & Hans)|(id & at_ & Hc & ->)].
    + pose proof (open_dir _ _ _ Hw Hfr He) as Hq. rewrite (ho_actor _ _ _ _ Hh) in Hq.
      pose proof (ho_request _ _ _ _ Hh) as Hr. rewrite Hfr in Hr. destruct Hr as (e0 & He0 & _ & Hpend & Hbt).
      rewrite He in He0. injection He0 as <-.
      split; [|by destruct (ro_requests _ Hok _ _ Hrow) as (_ & ? & _)].
      split; [done..| |]; rewrite Hrow; [by split_and!|done].
    + destruct (Hfresh _ _ Hc) as [[Hid Htrim] Hnone]. cbn [FriendRequest.ID sentRequest] in *.
      assert (Hopen : openRequest (bondOf s) = None).
      { clear -Hstep Hc. subst c. destruct (bondOf s) as [[] ? ? [] [] [[]|]]; done. }
      split; [|by unfold named; cbn; rewrite Htrim].
      split; cbn [FriendRequest.ID sentRequest]; rewrite ?Hnone; try done.
      intros _ id' r Hr Hpr. destruct (holds_pending _ _ _ _ Hok Hne Hh) as [Ho Hi].
      unfold bondOf in Hopen. cbn in Hopen. rewrite Ho, Hi in Hopen.
      destruct (pendingFrom t a b) eqn:E1; [done|]. destruct (pendingFrom t b a) eqn:E2; [done|].
      rewrite pendingFrom_false in E1, E2. destruct Hpr as [Hp [Hx|Hx]]; [by eapply E1|by eapply E2].
Qed.

Lemma rowWritten_open q q' e' :
  rowWritten t t' a b q q' e' ->
  pendingFrom t' a b = bool_decide (q' = Some Outgoing) /\
  pendingFrom t' b a = bool_decide (q' = Some Incoming).
Proof.
  intros [Ht Hp -> Hold Hopen].
  assert (Hno : forall id r, FriendRequest.ID e' <> id -> requestTable t !! id = Some r -> ~ pendingBetween a b r).
  { intros id r Hid Hr Hpr. destruct (requestTable t !! FriendRequest.ID e') as [e|] eqn:E.
    - destruct Hold as (He & Hpe & _). apply Hid.
      by eapply (ro_one_request _ Hok _ _ e r a b E Hr).
    - exact (Hopen eq_refl _ _ Hr Hpr). }
  assert (Hiff : forall x y, pendingBetween x y e' \/ True ->
    pendingFrom t' x y = true <-> FriendRequest.IsPending e' = true /\ between x y e' \/
      exists id r, FriendRequest.ID e' <> id /\ requestTable t !! id = Some r /\
        FriendRequest.IsPending r = true /\ between x y r).
  { intros x y _. rewrite pendingFrom_true, Ht. split.
    - intros (id & r & Hr & Hpr & Hbr). destruct (decide (FriendRequest.ID e' = id)) as [<-|Hid].
      + rewrite assign_eq in Hr. injection Hr as <-. by left.
      + rewrite assign_ne in Hr by done. right. eauto 10.
    - intros [[H1 H2]|(id & r & H1 & H2 & H3)]; [exists (FriendRequest.ID e'), e'|exists id, r];
        rewrite ?assign_eq, ?assign_ne by done; auto. }
  unfold dirOf, ofPair, between in *. split; apply eq_true_iff_eq; rewrite Hiff by auto;
    rewrite bool_decide_eq_true; destruct (FriendRequest.IsPending e') eqn:Hpe; repeat case_decide;
    (split; [intros [[? ?]|(id & r & H1 & H2 & H3 & H4)];
      [try done; intuition congruence|exfalso; apply (Hno _ _ H1 H2); split; auto]|]); try done;
    intros _; left; intuition congruence.
Qed.

Lemma saved_bond deltas :
  saved c a b t t' s s' deltas -> bondAt t' a b = bondOf s'.
Proof.
  intros [_ Hreq Hf Hfo Hbl _].
  assert (Hq : (if pendingFrom t' a b then Some Outgoing else if pendingFrom t' b a then Some Incoming else None)
    = openRequest (bondOf s')).
  { destruct (saved_request Hreq) as [[Ht Hq]|(e' & Hrw & _)].
    - rewrite Hq. destruct (holds_pending _ _ _ _ Hok Hne Hh) as [Ho Hi]. unfold bondOf. cbn.
      rewrite Ho, Hi. unfold pendingFrom. by rewrite Ht.
    - destruct (rowWritten_open _ _ _ Hrw) as [-> ->].
      destruct (openRequest (bondOf s')) as [[]|]; done. }
  unfold bondAt. rewrite Hq, Hf, Hfo, Hbl. 
  rewrite assign_eq, (assign_ne (b, a) (a, b)), assign_eq, assign_eq, assign_eq, (assign_ne (a, b) (b, a)) by congruence.
  rewrite <- (ho_blockedBy _ _ _ _ Hh), <- Hbb. done.
Qed.

Lemma saved_other deltas x y :
  saved c a b t t' s s' deltas -> ~ ((x = a /\ y = b) \/ (x = b /\ y = a)) ->
  bondAt t' x y = bondAt t x y.
Proof.
  intros [_ Hreq Hf Hfo Hbl _] Hxy.
  assert (Hp : forall v w, ~ ((v = a /\ w = b) \/ (v = b /\ w = a)) -> pendingFrom t' v w = pendingFrom t v w).
  { intros v w Hvw. destruct (saved_request Hreq) as [[Ht _]|(e' & Hrw & _)].
    - unfold pendingFrom. by rewrite Ht.
    - by eapply rowWritten_other. }
  unfold bondAt. rewrite !Hp by tauto. rewrite Hf, Hfo, Hbl.
  assert (normalizePair a b <> normalizePair x y) by (intros E%normalizePair_inj; tauto).
  rewrite !assign_ne by (first [done | intros [= ? ?]; subst; tauto]). done.
Qed.

Lemma at_involves {V} u k (o : option V) :
  at_key (involves u) k o = if decide (k.1 = u \/ k.2 = u) then b2z (is_some o) else 0.
Proof.
  unfold at_key, involves. destruct o; [|by case_decide]. case_bool_decide as H; cbn in H;
    [by rewrite decide_True|by rewrite decide_False].
Qed.
Lemma at_byFirst {V} u k (o : option V) :
  at_key (byFirst u) k o = if decide (k.1 = u) then b2z (is_some o) else 0.
Proof.
  unfold at_key, byFirst. destruct o; [|by case_decide]. case_bool_decide as H; cbn in H;
    [by rewrite decide_True|by rewrite decide_False].
Qed.
Lemma at_bySecond {V} u k (o : option V) :
  at_key (bySecond u) k o = if decide (k.2 = u) then b2z (is_some o) else 0.
Proof.
  unfold at_key, bySecond. destruct o; [|by case_decide]. case_bool_decide as H; cbn in H;
    [by rewrite decide_True|by rewrite decide_False].
Qed.

Lemma saved_request_counts u :
  request_saved c a b t t' s s' ->
  cnt (asksBy u) (requestTable t') = cnt (asksBy u) (requestTable t) +
    (share Outgoing Incoming (openRequest (bondOf s')) a b u -
     share Outgoing Incoming (openRequest (bondOf s)) a b u) /\
  cnt (asksOf u) (requestTable t') = cnt (asksOf u) (requestTable t) +
    (share Incoming Outgoing (openRequest (bondOf s')) a b u -
     share Incoming Outgoing (openRequest (bondOf s)) a b u).
Proof.
  intros Hreq. destruct (saved_request Hreq) as [[-> ->]|(e' & Hrw & _)].
  - split; lia.
  - by apply (rowWritten_counts t t' a b _ _ e' u).
Qed.

Lemma saved_counts deltas u :
  saved c a b t t' s s' deltas -> counted deltas s s' ->
  countsOf t' u = plus (countsOf t u) (deltaOf deltas u).
Proof.
  intros [_ Hreq Hf Hfo Hbl _] (Hda & Hdb & Hdo).
  rewrite (ho_actor _ _ _ _ Hh) in Hda, Hdo. rewrite (ho_target _ _ _ _ Hh) in Hdb, Hdo.
  destruct (saved_request_counts u Hreq) as [Hby Hof].
  unfold countsOf. rewrite Hby, Hof, Hf, Hfo, Hbl, !cnt_assign.
  rewrite !at_involves, !at_byFirst, !at_bySecond, (assign_ne (a, b) (b, a)) by congruence.
  rewrite <- (ho_friendship _ _ _ _ Hh), <- (ho_following _ _ _ _ Hh), <- (ho_followedBy _ _ _ _ Hh),
    <- (ho_blocking _ _ _ _ Hh). cbn [fst snd].
  assert (Hk : (normalizePair a b).1 = u \/ (normalizePair a b).2 = u <-> u = a \/ u = b).
  { destruct (normalizePair_cases a b) as [-> | ->]; cbn; intuition congruence. }
  rewrite !(decide_ext _ _ _ _ Hk).
  assert (Hbk : blockedBack (bondOf s') = blockedBack (bondOf s)) by (unfold bondOf; cbn; by rewrite Hbb).
  unfold share. destruct (decide (u = a)) as [->|Hua]; [|destruct (decide (u = b)) as [->|Hub]].
  - rewrite Hda, !(decide_True (P := a = a \/ a = b)), !(decide_False (P := b = a)), !(decide_True (P := a = a)) by auto.
    unfold plus, minus, actorCounts. cbn. f_equal; lia.
  - rewrite Hdb, !(decide_True (P := b = a \/ b = b)), !(decide_False (P := a = b)), !(decide_True (P := b = b)) by auto.
    unfold plus, minus, targetCounts. rewrite Hbk. cbn. f_equal; lia.
  - unfold deltaOf. rewrite Hdo by done. cbn [default]. rewrite plus_zero.
    rewrite !(decide_False (P := u = a \/ u = b)), !(decide_False (P := a = u)), !(decide_False (P := b = u)) by intuition congruence.
    f_equal; lia.
Qed.

Lemma saved_requests_ok :
  request_saved c a b t t' s s' ->
  (forall id r, requestTable t' !! id = Some r ->
    FriendRequest.ID r = id /\ named id /\ named (FriendRequest.RequesterID r) /\
    named (FriendRequest.AddresseeID r) /\ FriendRequest.RequesterID r <> FriendRequest.AddresseeID r) /\
  (forall id id' r r' x y, requestTable t' !! id = Some r -> requestTable t' !! id' = Some r' ->
    pendingBetween x y r -> pendingBetween x y r' -> id = id').
Proof.
  intros Hreq. destruct (saved_request Hreq) as [[-> _]|(e' & [Ht Hp _ Hold Hopen] & Hid)].
  { split; [apply (ro_requests _ Hok)|apply (ro_one_request _ Hok)]. }
  assert (Hone : forall id r x y, FriendRequest.ID e' <> id -> requestTable t !! id = Some r ->
    pendingBetween x y e' -> pendingBetween x y r -> False).
  { intros id r x y Hi Hr Hpe Hpr.
    assert (Hab : pendingBetween a b r).
    { destruct (ofPair_pending _ _ _ _ _ Hp Hpe) as [[-> ->]|[-> ->]]; [done|]. destruct Hpr. split; tauto. }
    destruct (requestTable t !! FriendRequest.ID e') as [e|] eqn:E.
    - destruct Hold as (He & Hpend & _). apply Hi. by eapply (ro_one_request _ Hok _ _ e r a b E Hr).
    - exact (Hopen eq_refl _ _ Hr Hab). }
  rewrite Ht. split.
  - intros id r. destruct (decide (FriendRequest.ID e' = id)) as [<-|Hi].
    + rewrite assign_eq. intros [= <-]. split_and!; [done..| | |];
        destruct Hp as [[E1 E2]|[E1 E2]]; rewrite ?E1, ?E2; auto.
    + rewrite assign_ne by done. apply (ro_requests _ Hok).
  - intros id id' r r' x y.
    destruct (decide (FriendRequest.ID e' = id)) as [<-|Hi], (decide (FriendRequest.ID e' = id')) as [<-|Hi'];
      rewrite ?assign_eq, ?assign_ne by done.
    + done.
    + intros [= <-] Hr' Hpe Hpr. exfalso. by eapply Hone.
    + intros Hr [= <-] Hpr Hpe. exfalso. by eapply Hone.
    + apply (ro_one_request _ Hok).
Qed.

Lemma saved_ok deltas :
  bond_ok (bondOf s) -> saved c a b t t' s s' deltas -> counted deltas s s' -> relations_ok t'.
Proof.
  intros Hbond Hs Hcnt. pose proof (saved_bond _ Hs) as Hab. pose proof Hs as [Hacc Hreq Hf Hfo Hbl Hctr].
  destruct (saved_requests_ok Hreq) as [R1 R2]. split; [|exact R1|exact R2|..].
  - rewrite Hacc. apply (ro_accounts _ Hok).
  - intros k f. rewrite Hf. destruct (decide (normalizePair a b = k)) as [<-|Hk].
    + rewrite assign_eq. intros Hf'. pose proof (pw_friendship _ Hw' _ Hf') as Hkey. rewrite Ha', Hb' in Hkey.
      split; [done|]. destruct (normalizePair_cases a b) as [E|E]; rewrite E; cbn.
      * by rewrite E.
      * by rewrite normalizePair_comm, E by done.
    + rewrite assign_ne by done. apply (ro_friendships _ Hok).
  - intros k r. rewrite Hfo. destruct (decide ((b, a) = k)) as [<-|Hk1].
    + rewrite assign_eq. intros Hr. destruct (pw_followedBy _ Hw' _ Hr) as [E1 E2].
      unfold followKey. by rewrite E1, E2, Ha', Hb'.
    + rewrite assign_ne by done. destruct (decide ((a, b) = k)) as [<-|Hk2].
      * rewrite assign_eq. intros Hr. destruct (pw_following _ Hw' _ Hr) as [E1 E2].
        unfold followKey. by rewrite E1, E2, Ha', Hb'.
      * rewrite assign_ne by done. apply (ro_follows _ Hok).
  - intros k r. rewrite Hbl. destruct (decide ((a, b) = k)) as [<-|Hk].
    + rewrite assign_eq. intros Hr. destruct (pw_blocking _ Hw' _ Hr) as [E1 E2].
      unfold blockKey. by rewrite E1, E2, Ha', Hb'.
    + rewrite assign_ne by done. apply (ro_blocks _ Hok).
  - intros x y Hxy. pose proof (bondStep_ok _ _ _ _ Hbond Hstep) as Hbond'.
    destruct (decide (x = a /\ y = b)) as [[-> ->]|H1]; [by rewrite Hab|].
    destruct (decide (x = b /\ y = a)) as [[-> ->]|H2].
    + assert (Hm : bondAt t' b a = mirror (bondAt t' a b)) by (apply mirror_at; [done|exact R2]).
      rewrite Hm, Hab. by apply mirror_ok.
    + rewrite (saved_other _ _ _ Hs) by tauto. by apply (ro_bonds _ Hok).
  - intros u. rewrite Hctr, (ro_counters _ Hok). symmetry. by apply saved_counts.
Qed.
End keeps.
