(* ===== verification/RelationshipTheorems.v ===== *)
(** * Correctness of the relationship module

    Over the repository and the handlers: the tables stay consistent, a
    handler takes one step of the bond of its two users or leaves no trace,
    and a block lasts until it is lifted. *)

From stdpp Require Import prelude strings gmap.
From S2P Require Import Prelude GoStrings Database Event RelationshipEntity.
From S2P Require Import RelationshipPair RelationshipPairSpec RelationshipStore.
From S2P Require Import RelationshipStoreSpec.

Section theorems.
Context `{UC : UnicodeCase} {DB : Type} `{SQLL : RelationSQLLaws DB}.
Context `{FJ : JSON FriendRequestEventData} `{PJ : JSON RelationshipPairEventData}.
Context (now : Time).
Implicit Types (db : DB) (t : RelTables) (c : PairCommand) (a b : string).

(** ** A call *)

(** The ids a call uses are new: they come from [uuid.NewString]. *)
Definition call_ok t c : Prop :=
  command_ok c /\
  forall id at_, c = CmdSendFriendRequest id at_ -> requestTable t !! id = None.

Lemma onPair_outcome {R} actor target c (resp : RelationshipPairAggregate -> result R) db r db' :
  onPair now actor target (runPairCommand c) resp db = (r, db') ->
  match r with
  | Ok _ => exists a db1 agg0 agg db2 agg2, currentAccountID actor = Ok a /\
      LoadForUpdate a target db = (Ok agg0, db1) /\ runPairCommand c agg0 = (Ok tt, agg) /\
      SavePair now agg db1 = (Ok agg2, db2) /\ db' = db2
  | _ => db' = db
  end.
Proof.
  unfold onPair. unfold mbind at 1, method_bind at 1, lift at 1.
  destruct (currentAccountID actor) as [a|e|w]; [|by intros [= <- <-]..].
  unfold WithRelationTransaction. destruct (relationBeginError db); [by intros [= <- <-]|].
  match goal with |- context [mbind ?f ?m db] => destruct (mbind f m db) as [[x|e|w] db2] eqn:Hrun end;
    [|by intros [= <- <-]..].
  destruct (relationCommitError db2); [by intros [= <- <-]|]. intros [= <- <-].
  apply method_bind_Ok in Hrun as (agg0 & db1 & Hload & Hrun).
  apply method_bind_Ok in Hrun as (agg & db3 & Hcmd & Hrun). unfold lift in Hcmd.
  destruct (runPairCommand c agg0) as [[[]|e|w] agg1] eqn:Hc; try done. injection Hcmd as <- <-.
  apply method_bind_Ok in Hrun as (y & db4 & Hresp & Hrun). injection Hresp as _ <-.
  apply method_bind_Ok in Hrun as (agg2 & db5 & Hsave & Hret). apply method_ret_Ok in Hret as [_ <-].
  by exists a, db1, agg0, agg1, db5, agg2.
Qed.

Lemma currentAccountID_named actor a : currentAccountID actor = Ok a -> named a.
Proof.
  unfold currentAccountID. destruct actor as [id|]; [|done]. case_decide as Hid; [done|].
  intros [= <-]. unfold named. by rewrite TrimSpace_idem.
Qed.

(** What a call that returns has done. *)
Lemma onPair_Ok {R} actor target c (resp : RelationshipPairAggregate -> result R) db x db' :
  relations_ok (relTables db) -> named target -> call_ok (relTables db) c ->
  onPair now actor target (runPairCommand c) resp db = (Ok x, db') ->
  exists a, currentAccountID actor = Ok a /\ a <> target /\
    relations_ok (relTables db') /\
    bondStep (bool_decide (target ∈ accounts (relTables db))) c (bondAt (relTables db) a target) =
      Some (bondAt (relTables db') a target) /\
    forall u v, ~ ((u = a /\ v = target) \/ (u = target /\ v = a)) ->
      bondAt (relTables db') u v = bondAt (relTables db) u v.
Proof.
  intros Hok Hb [Hc Hfresh] H.
  destruct (onPair_outcome _ _ _ _ _ _ _ H) as (a & db1 & agg0 & agg & db2 & agg2 & Hact & Hload & Hrun & Hsave & ->).
  pose proof (currentAccountID_named _ _ Hact) as Ha. exists a. split; [done|].
  destruct (LoadForUpdate_loaded _ _ _ _ _ Hok Ha Hb Hload) as (Ht & Hne & Hh & Hlo & Hbond).
  split; [done|]. rewrite <- Ht in Hok, Hh, Hbond.
  destruct (bondStep (PairStateOf.targetExists (pairState agg0)) c (bondOf (pairState agg0))) as [b'|] eqn:Hstep.
  2: { destruct (command_rejected c agg0 (lo_wf _ Hlo) Hstep) as [e He]. congruence. }
  destruct (command_effect c agg0 Hc Hlo) as (agg' & Hrun' & Heff); [by rewrite Hstep|].
  rewrite Hrun in Hrun'. injection Hrun' as <-.
  pose proof (SavePair_Ok now _ _ _ _ _ _ _ _ Hok Ha Hb Hh Heff Hsave) as Hs.
  pose proof Heff as [Heb Hw' _ [_ _ _ _ Hbb (Ia & It & _)] Hcnt _].
  rewrite (ho_actor _ _ _ _ Hh) in Ia. rewrite (ho_target _ _ _ _ Hh) in It.
  assert (Hfr : forall id at_, c = CmdSendFriendRequest id at_ ->
    generated id /\ requestTable (relTables db1) !! id = None).
  { intros id at_ ->. rewrite Ht. split; [exact Hc|by eapply Hfresh]. }
  assert (Hob : bondAt (relTables db2) a target = bondOf (pairState agg))
    by (eapply (saved_bond c a target _ _ _ _ Hok Ha Hb Hne Hh Hw' Ia It Hbb _ Heb Hfr); exact Hs).
  split; [|split].
  - eapply (saved_ok c a target _ _ _ _ Hok Ha Hb Hne Hh Hw' Ia It Hbb _ Heb Hfr);
      [exact (lo_bond _ Hlo)|exact Hs|exact Hcnt].
  - rewrite Hob, <- Ht, <- Hbond, <- (ho_exists _ _ _ _ Hh). exact Heb.
  - intros u v Huv. rewrite <- Ht.
    eapply (saved_other c a target _ _ _ _ Hok Ha Hb Hne Hh Hw' Ia It _ Heb Hfr); [exact Hs|exact Huv].
Qed.

(** A call by a handler, whatever it returns. *)
Definition relation_call a b c db db' : Prop :=
  exists R (resp : RelationshipPairAggregate -> result R) actor, currentAccountID actor = Ok a /\
    named b /\ call_ok (relTables db) c /\
    (onPair now actor b (runPairCommand c) resp db).2 = db'.

Definition relation_step db db' : Prop := exists a b c, relation_call a b c db db'.

Lemma relation_call_cases a b c db db' :
  relations_ok (relTables db) -> relation_call a b c db db' ->
  db' = db \/
  (a <> b /\ relations_ok (relTables db') /\
   bondStep (bool_decide (b ∈ accounts (relTables db))) c (bondAt (relTables db) a b) =
     Some (bondAt (relTables db') a b) /\
   forall u v, ~ ((u = a /\ v = b) \/ (u = b /\ v = a)) ->
     bondAt (relTables db') u v = bondAt (relTables db) u v).
Proof.
  intros Hok (R & resp & actor & Hact & Hb & Hc & Hrun).
  destruct (onPair now actor b (runPairCommand c) resp db) as [r db1] eqn:H. cbn in Hrun. subst db1.
  destruct r as [x|e|w].
  - right. destruct (onPair_Ok _ _ _ _ _ _ _ Hok Hb Hc H) as (a' & Ha' & Hrest).
    rewrite Hact in Ha'. injection Ha' as <-. exact Hrest.
  - left. exact (onPair_outcome _ _ _ _ _ _ _ H).
  - left. exact (onPair_outcome _ _ _ _ _ _ _ H).
Qed.

Lemma relation_step_ok db db' :
  relations_ok (relTables db) -> relation_step db db' -> relations_ok (relTables db').
Proof.
  intros Hok (a & b & c & H). by destruct (relation_call_cases _ _ _ _ _ Hok H) as [->|(_ & ? & _)].
Qed.

Lemma relation_steps_ok db db' :
  relations_ok (relTables db) -> rtc relation_step db db' -> relations_ok (relTables db').
Proof. intros Hok H. induction H; [done|]. eauto using relation_step_ok. Qed.

(** ** Claims *)

(** C33: however many handlers run, by whomever, the stored counters of every
    user are the numbers of friends, followers, follows, blocks and open
    requests that the tables have; two users have at most one open request;
    and two users one of whom has blocked the other have no friendship, no
    follow and no open request. *)
Theorem counters_count_relations db db' u a b :
  relations_ok (relTables db) -> rtc relation_step db db' -> a <> b ->
  default CounterDelta.zero (counterTable (relTables db') !! u) = countsOf (relTables db') u /\
  (pendingFrom (relTables db') a b = true -> pendingFrom (relTables db') b a = false) /\
  (is_Some (blockTable (relTables db') !! (a, b)) ->
     friendshipTable (relTables db') !! normalizePair a b = None /\
     followTable (relTables db') !! (a, b) = None /\ followTable (relTables db') !! (b, a) = None /\
     pendingFrom (relTables db') a b = false /\ pendingFrom (relTables db') b a = false).
Proof.
  intros Hok Hsteps Hne. pose proof (relation_steps_ok _ _ Hok Hsteps) as Hok'.
  split; [apply (ro_counters _ Hok')|]. split; [by apply pendingFrom_one|].
  intros [r Hr]. destruct (ro_bonds _ Hok' a b Hne) as [Hbl _]. unfold bondAt in Hbl. cbn in Hbl.
  rewrite Hr in Hbl. destruct (Hbl eq_refl) as (H1%is_some_false & H2%is_some_false & H3%is_some_false & H4).
  split_and!; try done;
    by destruct (pendingFrom (relTables db') a b), (pendingFrom (relTables db') b a).
Qed.

(** On a loaded pair, a command succeeds exactly where the bond of the two
    users admits it. Then the bond takes the step of the command, the changes
    lead from the old state to the new one, and the counter deltas of the two
    users are the differences of their counts; otherwise the command fails and
    leaves the aggregate as it was. It never panics. *)
Theorem pair_command_spec c (p : RelationshipPairAggregate) :
  command_ok c -> loaded_ok p ->
  match bondStep (PairStateOf.targetExists (pairState p)) c (bondOf (pairState p)) with
  | Some q => exists p', runPairCommand c p = (Ok tt, p') /\ bondOf (pairState p') = q /\
      bond_ok q /\ describes (Changes p') (pairState p) (pairState p') /\
      counted (Changes p') (pairState p) (pairState p')
  | None => exists e, runPairCommand c p = (Err e, p)
  end.
Proof.
  intros Hc Hp. destruct (bondStep _ _ _) as [q|] eqn:Hstep.
  - destruct (command_effect c p Hc Hp) as (p' & Hrun & [Hq _ _ Hd Hn _]); [by rewrite Hstep|].
    exists p'. rewrite Hstep in Hq. injection Hq as ->. split_and!; try done.
    eapply bondStep_ok; [exact (lo_bond _ Hp)|exact Hstep].
  - by apply command_rejected; [apply Hp|].
Qed.

(** C35: a call of a handler is a step of the bond of its two users: when it
    returns, the bond has taken the step of the command, which it can only
    take where the policy admits it, and no other bond has changed; when it
    does not return, nothing has changed. *)
Theorem handler_steps_bond {R} actor b c (resp : RelationshipPairAggregate -> result R) db r db' :
  relations_ok (relTables db) -> named b -> call_ok (relTables db) c ->
  onPair now actor b (runPairCommand c) resp db = (r, db') ->
  match r with
  | Ok _ => exists a, currentAccountID actor = Ok a /\
      bondStep (bool_decide (b ∈ accounts (relTables db))) c (bondAt (relTables db) a b) =
        Some (bondAt (relTables db') a b) /\
      forall u v, ~ ((u = a /\ v = b) \/ (u = b /\ v = a)) ->
        bondAt (relTables db') u v = bondAt (relTables db) u v
  | _ => db' = db
  end.
Proof.
  intros Hok Hb Hc H. destruct r as [x|e|w].
  - destruct (onPair_Ok _ _ _ _ _ _ _ Hok Hb Hc H) as (a & Ha & _ & _ & Hrest). by exists a.
  - exact (onPair_outcome _ _ _ _ _ _ _ H).
  - exact (onPair_outcome _ _ _ _ _ _ _ H).
Qed.

Lemma bondStep_blocked ex c (q q' : Bond) :
  bondStep ex c q = Some q' -> blockedBack q' = blockedBack q /\
  (c <> CmdUnblock -> blocks q = true -> blocks q' = true).
Proof. by destruct c, q as [[] [] [] [] [] [[]|]], ex; intros [= <-]. Qed.

(** C36: a block lasts. Once a user has blocked another, then until they
    unblock them, and whatever anyone else does, neither is a friend of the
    other, follows the other, or has an open request with the other. *)
Theorem block_lasts a b db db' :
  relations_ok (relTables db) -> a <> b -> is_Some (blockTable (relTables db) !! (a, b)) ->
  rtc (fun db db' => exists x y c, relation_call x y c db db' /\
         ~ (x = a /\ y = b /\ c = CmdUnblock)) db db' ->
  bondAt (relTables db') a b =
    mkBond false false false true (blockedBack (bondAt (relTables db') a b)) None.
Proof.
  intros Hok Hne Hbl Hsteps.
  assert (Hb : blocks (bondAt (relTables db) a b) = true) by (unfold bondAt; cbn; by destruct Hbl as [? ->]).
  clear Hbl. revert Hok Hb. induction Hsteps as [db|db db1 db' (x & y & c & Hcall & Hnot) _ IH]; intros Hok Hb.
  - destruct (ro_bonds _ Hok a b Hne) as [H _]. rewrite Hb in H.
    destruct (H eq_refl) as (H1 & H2 & H3 & H4). destruct (bondAt (relTables db) a b). cbn in *. by subst.
  - destruct (relation_call_cases _ _ _ _ _ Hok Hcall) as [->|(Hxy & Hok1 & Hstep & Hother)]; [by apply IH|].
    apply IH; [done|]. destruct (bondStep_blocked _ _ _ _ Hstep) as [Hback Hkeep].
    destruct (decide (x = a /\ y = b)) as [[-> ->]|H1]; [apply Hkeep; [|done]; intros ->; by apply Hnot|].
    destruct (decide (x = b /\ y = a)) as [[-> ->]|H2].
    2: { rewrite Hother; [done|]. intros [[? ?]|[? ?]]; [apply H1|apply H2]; by subst. }
    rewrite (mirror_at _ b a (not_eq_sym Hne) (ro_one_request _ Hok)) in Hb.
    rewrite (mirror_at _ b a (not_eq_sym Hne) (ro_one_request _ Hok1)). cbn in *. by rewrite Hback.
Qed.
End theorems.

(** ** A database in memory *)

Definition findPending (a b : string) (m : gmap string FriendRequest.t) : option FriendRequest.t :=
  snd <$> List.find (fun x => FriendRequest.IsPending x.2 && bool_decide (between a b x.2 \/ between b a x.2))
    (map_to_list m).

#[export] Instance between_dec a b r : Decision (between a b r).
Proof. unfold between. apply _. Defined.

Lemma findPending_spec a b m :
  match findPending a b m with
  | Some r => pendingBetween a b r /\ exists id, m !! id = Some r
  | None => forall id r, m !! id = Some r -> ~ pendingBetween a b r
  end.
Proof.
  unfold findPending. destruct (List.find _ (map_to_list m)) as [[id r]|] eqn:E; cbn.
  - apply List.find_some in E as [Hin H]. apply andb_true_iff in H as [Hp Hb%bool_decide_eq_true].
    split; [by split|]. exists id. apply elem_of_map_to_list. by apply list_elem_of_In.
  - intros id r Hr [Hp Hb]. pose proof (List.find_none _ _ E (id, r)) as Hn. cbn in Hn.
    rewrite Hp, bool_decide_true in Hn by done. discriminate Hn.
    by apply list_elem_of_In, elem_of_map_to_list.
Qed.

#[export] Instance MemoryRelations : RelationSQL RelTables := {|
  insertGuard lo hi t :=
    if decide (lo = hi) then (Err (Errorf "violates check constraint" []), t) else (Ok tt, t);
  lockGuard _ _ t := (Ok tt, t);
  countAccount id t := (Ok (if decide (id ∈ accounts t) then 1 else 0), t);
  selectLatestOutbox _ t := (Ok None, t);
  selectPendingBetween a b t := (Ok (findPending a b (requestTable t)), t);
  selectFriendship k t := (Ok (friendshipTable t !! k), t);
  selectFollow k t := (Ok (followTable t !! k), t);
  selectBlock k t := (Ok (blockTable t !! k), t);
  upsertRequest r := modify (assignRequest (FriendRequest.ID r) (Some r));
  insertFriendship f t :=
    match friendshipTable t !! friendshipKey f with
    | Some _ => (Err (Errorf "duplicate key value" []), t)
    | None => (Ok tt, assignFriendship (friendshipKey f) (Some f) t)
    end;
  deleteFriendshipRows k t :=
    (Ok (b2z (is_some (friendshipTable t !! k))), assignFriendship k None t);
  insertFollow r t :=
    match followTable t !! followKey r with
    | Some _ => (Err (Errorf "duplicate key value" []), t)
    | None => (Ok tt, assignFollow (followKey r) (Some r) t)
    end;
  deleteFollowRows k t := (Ok (b2z (is_some (followTable t !! k))), assignFollow k None t);
  insertBlock r t :=
    match blockTable t !! blockKey r with
    | Some _ => (Err (Errorf "duplicate key value" []), t)
    | None => (Ok tt, assignBlock (blockKey r) (Some r) t)
    end;
  deleteBlockRows k t := (Ok (b2z (is_some (blockTable t !! k))), assignBlock k None t);
  insertCounters ids t := (Ok tt, setCounters (foldl addStub (counterTable t) ids) t);
  addToCounters id d t := (Ok tt, setCounters (addTo id d (counterTable t)) t);
  insertRelationOutbox _ t := (Ok tt, t);
  rangeDeltas m := map_to_list m;
  relationErrorText e := match e with Sentinel n => n | Errorf f _ => f end;
  relationBeginError _ := None;
  relationCommitError _ := None
|}.

Lemma b2z_is_some {A} (o : option A) : 0 < b2z (is_some o) <-> is_Some o.
Proof. destruct o; cbn; split; try done. Qed.

#[export] Program Instance MemoryRelationsLaws : RelationSQLLaws RelTables := {| relTables t := t |}.
Next Obligation. intros lo hi t. unfold effect. cbn. by case_decide. Qed.
Next Obligation. done. Qed.
Next Obligation. intros id t. unfold effect. cbn. by case_decide. Qed.
Next Obligation. done. Qed.
Next Obligation. intros a b t. split; [done|]. apply findPending_spec. Qed.
Next Obligation. done. Qed.
Next Obligation. done. Qed.
Next Obligation. done. Qed.
Next Obligation. done. Qed.
Next Obligation. intros f t. unfold effect. cbn. by destruct (friendshipTable t !! friendshipKey f). Qed.
Next Obligation. intros k t. split; [apply b2z_is_some|done]. Qed.
Next Obligation. intros r t. unfold effect. cbn. by destruct (followTable t !! followKey r). Qed.
Next Obligation. intros k t. split; [apply b2z_is_some|done]. Qed.
Next Obligation. intros r t. unfold effect. cbn. by destruct (blockTable t !! blockKey r). Qed.
Next Obligation. intros k t. split; [apply b2z_is_some|done]. Qed.
Next Obligation. done. Qed.
Next Obligation. done. Qed.
Next Obligation. done. Qed.
Next Obligation. done. Qed.

(** ** The theorems at concrete inputs *)

Section witnesses.
#[local] Existing Instance caseless_unicode.

(** The outbox holds the name of the event. *)
#[local] Instance FriendRequestNames : JSON FriendRequestEventData := {|
  Marshal d := Ok (event_name d);
  Unmarshal _ _ := Err (Errorf "not read back" [])
|}.
#[local] Instance PairNames : JSON RelationshipPairEventData := {|
  Marshal d := Ok (event_name d);
  Unmarshal _ _ := Err (Errorf "not read back" [])
|}.

(** Alice and Bob, who have nothing to do with each other. *)
Definition strangers : RelTables := mkRel {["alice"; "bob"]} ∅ ∅ ∅ ∅ ∅.

Lemma strangers_ok : relations_ok (relTables strangers).
Proof.
  split; cbn; try (intros; by rewrite lookup_empty in *).
  - intros u [->%elem_of_singleton | ->%elem_of_singleton]%elem_of_union; discriminate.
  - intros a b _. unfold bondAt, pendingFrom. cbn. rewrite !lookup_empty. cbn.
    unfold bond_ok. cbn. by rewrite !bool_decide_false by (intros (? & ? & H & _)%map_Exists_lookup; by rewrite lookup_empty in H).
Qed.

Lemma call_ok_plain t c :
  command_ok c -> (forall id at_, c <> CmdSendFriendRequest id at_) -> call_ok t c.
Proof. intros Hc Hn. split; [done|]. intros id at_ H. by destruct (Hn id at_). Qed.

(** Bob, who follows Alice and whom she follows, blocks her. *)
Definition mutual : RelationshipPairAggregate :=
  PairAggregate.mk (mkRoot "alice:bob" relationshipPairAggregateType 0 0 [])
    (mkBody (PairStateOf.mk "bob" "alice" true None None (Some (FollowRelation.mk "f1" "bob" "alice" 1))
       (Some (FollowRelation.mk "f2" "alice" "bob" 2)) None None) newRelationshipPairChanges).

Lemma mutual_ok : loaded_ok mutual.
Proof.
  split; [split; cbn; try done; by intros ? [= <-]| |done|done]. by split.
Qed.

Lemma pair_command_spec_witness :
  bondOf (pairState mutual) = mkBond false true true false false None /\
  exists p', runPairCommand (CmdBlock "b1" None 3) mutual = (Ok tt, p') /\
    bondOf (pairState p') = mkBond false false false true false None /\
    deltaOf (Changes p') "alice" = CounterDelta.mk 0 (-1) (-1) 0 0 0 /\
    deltaOf (Changes p') "bob" = CounterDelta.mk 0 (-1) (-1) 1 0 0.
Proof.
  split; [reflexivity|].
  assert (command_ok (CmdBlock "b1" None 3)) as Hc by (by split).
  destruct (pair_command_spec (CmdBlock "b1" None 3) mutual Hc mutual_ok)
    as (p' & Hrun & Hq & _ & _ & Hb & Ha & _).
  exists p'. split; [exact Hrun|]. split; [exact Hq|]. rewrite Hq in Ha, Hb.
  split; [exact Ha|exact Hb].
Defined.

(** Alice follows Bob; then Bob blocks Alice. *)
Definition followRun : result bool * RelTables :=
  onPair 9 (Some "alice") "bob" (runPairCommand (CmdFollow "f1" 5)) (fun _ => Ok true) strangers.
Definition blockRun : result bool * RelTables :=
  onPair 9 (Some "bob") "alice" (runPairCommand (CmdBlock "b1" None 6)) (fun _ => Ok true) followRun.2.

Lemma named_users : named "alice" /\ named "bob".
Proof. by split. Qed.

Lemma follow_call : relation_call 9 "alice" "bob" (CmdFollow "f1" 5) strangers followRun.2.
Proof.
  exists bool, (fun _ => Ok true), (Some "alice"). split; [reflexivity|]. split; [apply named_users|].
  split; [|reflexivity]. by apply call_ok_plain.
Qed.

Lemma block_call : relation_call 9 "bob" "alice" (CmdBlock "b1" None 6) followRun.2 blockRun.2.
Proof.
  exists bool, (fun _ => Ok true), (Some "bob"). split; [reflexivity|]. split; [apply named_users|].
  split; [|reflexivity]. by apply call_ok_plain.
Qed.

Lemma counters_count_relations_witness :
  default CounterDelta.zero (counterTable followRun.2 !! "alice") = CounterDelta.mk 0 0 1 0 0 0 /\
  default CounterDelta.zero (counterTable blockRun.2 !! "alice") = CounterDelta.zero /\
  countsOf blockRun.2 "bob" = CounterDelta.mk 0 0 0 1 0 0 /\
  followTable blockRun.2 !! ("alice", "bob") = None.
Proof.
  split; [eval_closed|]. split; [eval_closed|].
  assert (default CounterDelta.zero (counterTable blockRun.2 !! "bob") = CounterDelta.mk 0 0 0 1 0 0)
    as Hb by eval_closed.
  assert (is_some (blockTable blockRun.2 !! ("bob", "alice")) = true) as Hbl by eval_closed.
  destruct (counters_count_relations 9 strangers blockRun.2 "bob" "bob" "alice" strangers_ok) as (H1 & _ & H3).
  - eapply rtc_l; [by eexists _, _, _; apply follow_call|].
    eapply rtc_l; [by eexists _, _, _; apply block_call|]. apply rtc_refl.
  - discriminate.
  - split; [rewrite <- Hb; symmetry; exact H1|].
    apply is_some_true in Hbl as [r Hr]. by destruct (H3 (ex_intro _ r Hr)) as (_ & _ & H & _).
Defined.

Lemma followRun_eq :
  onPair 9 (Some "alice") "bob" (runPairCommand (CmdFollow "f1" 5)) (fun _ => Ok true) strangers =
    (followRun.1, followRun.2).
Proof. exact (surjective_pairing followRun). Qed.

Lemma follow_ok : call_ok (relTables strangers) (CmdFollow "f1" 5).
Proof. by apply call_ok_plain. Qed.

Lemma handler_steps_bond_witness :
  is_ok followRun.1 = true /\
  bondStep true (CmdFollow "f1" 5) (bondAt strangers "alice" "bob") =
    Some (bondAt followRun.2 "alice" "bob").
Proof.
  assert (is_ok followRun.1 = true) as Hok by eval_closed.
  pose proof (handler_steps_bond 9 (Some "alice") "bob" (CmdFollow "f1" 5) (fun _ => Ok true) strangers
    followRun.1 followRun.2 strangers_ok (proj2 named_users) follow_ok followRun_eq) as H.
  split; [exact Hok|]. destruct followRun.1; [|discriminate Hok..].
  destruct H as (who & Ha & Hstep & _).
  assert (currentAccountID (Some "alice") = Ok "alice") as Ha' by reflexivity.
  rewrite Ha' in Ha. injection Ha as <-.
  assert (bool_decide ("bob" ∈ accounts (relTables strangers)) = true) as Hex by eval_closed.
  rewrite Hex in Hstep. exact Hstep.
Defined.

(** Alice tries to follow Bob again. *)
Definition retryRun : result bool * RelTables :=
  onPair 9 (Some "alice") "bob" (runPairCommand (CmdFollow "f2" 7)) (fun _ => Ok true) blockRun.2.

Lemma blocked_ok : relations_ok (relTables blockRun.2).
Proof.
  apply (relation_steps_ok 9 strangers); [exact strangers_ok|].
  eapply rtc_l; [by eexists _, _, _; apply follow_call|].
  eapply rtc_l; [by eexists _, _, _; apply block_call|]. apply rtc_refl.
Qed.

Lemma retry_call : relation_call 9 "alice" "bob" (CmdFollow "f2" 7) blockRun.2 retryRun.2.
Proof.
  exists bool, (fun _ => Ok true), (Some "alice"). split; [reflexivity|]. split; [apply named_users|].
  split; [|reflexivity]. by apply call_ok_plain.
Qed.

Lemma block_lasts_witness :
  is_some (blockTable (relTables blockRun.2) !! ("bob", "alice")) = true /\ is_ok retryRun.1 = false /\
  bondAt (relTables retryRun.2) "bob" "alice" =
    mkBond false false false true (blockedBack (bondAt (relTables retryRun.2) "bob" "alice")) None.
Proof.
  assert (is_some (blockTable (relTables blockRun.2) !! ("bob", "alice")) = true) as Hbl by eval_closed.
  split; [exact Hbl|]. split; [eval_closed|].
  apply is_some_true in Hbl as [r Hr].
  refine (block_lasts 9 "bob" "alice" blockRun.2 retryRun.2 blocked_ok _ (ex_intro _ r Hr) _).
  - discriminate.
  - apply rtc_once. exists "alice", "bob", (CmdFollow "f2" 7).
    split; [exact retry_call|by intros [? _]].
Defined.
End witnesses.
