(* ===== verification/RoomEntity.v ===== *)
(** * Room entities (room/types, room/domain/entity)

    Rooms and their members, messages with their mentions and reactions, and
    video calls. [clock] stands for [time.Now()], which replaces a zero time. *)

From stdpp Require Import prelude strings gmap.
From S2P Require Import Prelude GoStrings GoSort.

(** ** Errors *)

Module RoomError.
Definition ErrRoomIDRequired := Sentinel "ErrRoomIDRequired".
Definition ErrRoomNameRequired := Sentinel "ErrRoomNameRequired".
Definition ErrRoomOwnerRequired := Sentinel "ErrRoomOwnerRequired".
Definition ErrRoomTypeInvalid := Sentinel "ErrRoomTypeInvalid".
Definition ErrRoomPeerAccountRequired := Sentinel "ErrRoomPeerAccountRequired".
Definition ErrRoomDirectSelfNotAllowed := Sentinel "ErrRoomDirectSelfNotAllowed".
Definition ErrRoomNotGroup := Sentinel "ErrRoomNotGroup".
Definition ErrRoomInsufficientPermission := Sentinel "ErrRoomInsufficientPermission".
Definition ErrRoomOwnerCannotLeave := Sentinel "ErrRoomOwnerCannotLeave".
Definition ErrRoomMessageIDRequired := Sentinel "ErrRoomMessageIDRequired".
Definition ErrRoomMemberRequired := Sentinel "ErrRoomMemberRequired".
Definition ErrRoomMentionsRequireGroup := Sentinel "ErrRoomMentionsRequireGroup".
Definition ErrRoomMentionTargetNotMember := Sentinel "ErrRoomMentionTargetNotMember".
Definition ErrRoomMemberIDRequired := Sentinel "ErrRoomMemberIDRequired".
Definition ErrRoomMemberAccountRequired := Sentinel "ErrRoomMemberAccountRequired".
Definition ErrRoomMemberRoomRequired := Sentinel "ErrRoomMemberRoomRequired".
Definition ErrRoomMemberRoleInvalid := Sentinel "ErrRoomMemberRoleInvalid".
Definition ErrRoomReceiptStatusInvalid := Sentinel "ErrRoomReceiptStatusInvalid".
Definition ErrMessageIDRequired := Sentinel "ErrMessageIDRequired".
Definition ErrMessageRoomRequired := Sentinel "ErrMessageRoomRequired".
Definition ErrMessageSenderRequired := Sentinel "ErrMessageSenderRequired".
Definition ErrMessageBodyRequired := Sentinel "ErrMessageBodyRequired".
Definition ErrMessageTypeInvalid := Sentinel "ErrMessageTypeInvalid".
Definition ErrMessageObjectKeyRequired := Sentinel "ErrMessageObjectKeyRequired".
Definition ErrMessageCannotEditOther := Sentinel "ErrMessageCannotEditOther".
Definition ErrMessageCannotEditSystem := Sentinel "ErrMessageCannotEditSystem".
Definition ErrMessageCannotDeleteEveryone := Sentinel "ErrMessageCannotDeleteEveryone".
Definition ErrMessageMentionAccountRequired := Sentinel "ErrMessageMentionAccountRequired".
Definition ErrMessageReactionEmojiRequired := Sentinel "ErrMessageReactionEmojiRequired".
Definition ErrMessageReactionAccountIDRequired := Sentinel "ErrMessageReactionAccountIDRequired".
Definition ErrVideoCallSessionIDRequired := Sentinel "ErrVideoCallSessionIDRequired".
Definition ErrVideoCallRoomRequired := Sentinel "ErrVideoCallRoomRequired".
Definition ErrVideoCallActorRequired := Sentinel "ErrVideoCallActorRequired".
Definition ErrVideoCallAlreadyEnded := Sentinel "ErrVideoCallAlreadyEnded".
Definition ErrVideoCallParticipantNotFound := Sentinel "ErrVideoCallParticipantNotFound".
Definition ErrVideoCallSignalTypeRequired := Sentinel "ErrVideoCallSignalTypeRequired".
Definition ErrVideoCallTargetAccountRequired := Sentinel "ErrVideoCallTargetAccountRequired".
End RoomError.
Import RoomError.

(** ** Room types and roles, which are strings *)

Definition RoomTypePublic : string := "public".
Definition RoomTypePrivate : string := "private".
Definition RoomTypeDirect : string := "direct".
Definition RoomTypeGroup : string := "group".
Definition RoomRoleOwner : string := "owner".
Definition RoomRoleAdmin : string := "admin".
Definition RoomRoleMember : string := "member".

Module Room.
Record t := mk {
  ID : string;
  Name : string;
  Description : string;
  OwnerID : string;
  RoomType : string;
  DirectKey : string;
  PinnedMessageID : string;
  CreatedAt : Time;
  UpdatedAt : Time
}.

Definition setOwner (owner : string) (at_ : Time) (r : t) : t :=
  mk (ID r) (Name r) (Description r) owner (RoomType r) (DirectKey r) (PinnedMessageID r)
    (CreatedAt r) at_.
Definition setName (name : string) (r : t) : t :=
  mk (ID r) name (Description r) (OwnerID r) (RoomType r) (DirectKey r) (PinnedMessageID r)
    (CreatedAt r) (UpdatedAt r).
Definition setDescription (description : string) (r : t) : t :=
  mk (ID r) (Name r) description (OwnerID r) (RoomType r) (DirectKey r) (PinnedMessageID r)
    (CreatedAt r) (UpdatedAt r).
Definition setType (typ : string) (r : t) : t :=
  mk (ID r) (Name r) (Description r) (OwnerID r) typ (DirectKey r) (PinnedMessageID r)
    (CreatedAt r) (UpdatedAt r).
Definition setPinned (messageID : string) (at_ : Time) (r : t) : t :=
  mk (ID r) (Name r) (Description r) (OwnerID r) (RoomType r) (DirectKey r) messageID
    (CreatedAt r) at_.
Definition setUpdatedAt (at_ : Time) (r : t) : t :=
  mk (ID r) (Name r) (Description r) (OwnerID r) (RoomType r) (DirectKey r) (PinnedMessageID r)
    (CreatedAt r) at_.
Definition setID (id : string) (r : t) : t :=
  mk id (Name r) (Description r) (OwnerID r) (RoomType r) (DirectKey r) (PinnedMessageID r)
    (CreatedAt r) (UpdatedAt r).
End Room.

Module RoomMember.
Record t := mk {
  ID : string;
  RoomID : string;
  AccountID : string;
  DisplayName : string;
  Username : string;
  AvatarObjectKey : string;
  Role : string;
  LastDeliveredAt : option Time;
  LastReadAt : option Time;
  CreatedAt : Time;
  UpdatedAt : Time
}.

(** The marks that a receipt leaves on its member. *)
Definition setReceipt (delivered read : option Time) (at_ : Time) (m : t) : t :=
  mk (ID m) (RoomID m) (AccountID m) (DisplayName m) (Username m) (AvatarObjectKey m) (Role m)
    delivered read (CreatedAt m) at_.
Definition setNames (displayName username avatar : string) (m : t) : t :=
  mk (ID m) (RoomID m) (AccountID m) displayName username avatar (Role m)
    (LastDeliveredAt m) (LastReadAt m) (CreatedAt m) (UpdatedAt m).
End RoomMember.

Module MessageMention.
Record t := mk {
  AccountID : string;
  DisplayName : string;
  Username : string
}.
End MessageMention.

Module MessageReaction.
Record t := mk {
  AccountID : string;
  Emoji : string;
  ReactedAt : Time
}.
End MessageReaction.

Module Message.
Record t := mk {
  ID : string;
  RoomID : string;
  SenderID : string;
  Message : string;
  MessageType : string;
  Mentions : list MessageMention.t;
  Reactions : list MessageReaction.t;
  MentionAll : bool;
  ReplyToMessageID : string;
  ForwardedFromMessageID : string;
  FileName : string;
  FileSize : Z;
  MimeType : string;
  ObjectKey : string;
  EditedAt : option Time;
  DeletedForEveryoneAt : option Time;
  CreatedAt : Time
}.

Definition setBody (body : string) (edited deleted : option Time) (m : t) : t :=
  mk (ID m) (RoomID m) (SenderID m) body (MessageType m) (Mentions m) (Reactions m) (MentionAll m)
    (ReplyToMessageID m) (ForwardedFromMessageID m) (FileName m) (FileSize m) (MimeType m)
    (ObjectKey m) edited deleted (CreatedAt m).
Definition setReactions (reactions : list MessageReaction.t) (m : t) : t :=
  mk (ID m) (RoomID m) (SenderID m) (Message m) (MessageType m) (Mentions m) reactions (MentionAll m)
    (ReplyToMessageID m) (ForwardedFromMessageID m) (FileName m) (FileSize m) (MimeType m)
    (ObjectKey m) (EditedAt m) (DeletedForEveryoneAt m) (CreatedAt m).
End Message.

Module MessageParams.
Record t := mk {
  Message : string;
  MessageType : string;
  Mentions : list MessageMention.t;
  MentionAll : bool;
  ReplyToMessageID : string;
  ForwardedFromMessageID : string;
  FileName : string;
  FileSize : Z;
  MimeType : string;
  ObjectKey : string
}.
End MessageParams.

#[export] Instance MessageReaction_eq_dec : EqDecision MessageReaction.t.
Proof. solve_decision. Defined.
#[export] Instance MessageMention_eq_dec : EqDecision MessageMention.t.
Proof. solve_decision. Defined.
#[export] Instance RoomMember_eq_dec : EqDecision RoomMember.t.
Proof. solve_decision. Defined.
#[export] Instance Room_eq_dec : EqDecision Room.t.
Proof. solve_decision. Defined.

Section entities.
Context `{UC : UnicodeCase} (clock : Time).

(** [Normalize] and [IsValid] of both string types. *)
Definition NormalizeRoomType (t : string) : string := LowerTrim t.
Definition RoomTypeIsValid (t : string) : bool :=
  bool_decide (LowerTrim t ∈ [RoomTypePublic; RoomTypePrivate; RoomTypeDirect; RoomTypeGroup]).
Definition NormalizeRoomRole (r : string) : string := LowerTrim r.
Definition RoomRoleIsValid (r : string) : bool :=
  bool_decide (LowerTrim r ∈ [RoomRoleOwner; RoomRoleAdmin; RoomRoleMember]).

Definition normalizeRoomTime (value : Time) : Time :=
  if IsZero value then UTC clock else UTC value.

(** ** Rooms *)

Definition NewRoom (id name description ownerID roomType directKey : string) (now : Time) :
    result Room.t :=
  let id := TrimSpace id in
  let name := TrimSpace name in
  let ownerID := TrimSpace ownerID in
  let roomType := NormalizeRoomType roomType in
  let directKey := TrimSpace directKey in
  if decide (id = "") then Err ErrRoomIDRequired
  else if decide (name = "") then Err ErrRoomNameRequired
  else if decide (ownerID = "") then Err ErrRoomOwnerRequired
  else if negb (RoomTypeIsValid roomType) then Err ErrRoomTypeInvalid
  else
    let now := normalizeRoomTime now in
    Ok (Room.mk id name (TrimSpace description) ownerID roomType directKey "" now now).

(** Go compares strings byte by byte. *)
Definition CanonicalDirectKey (a b : string) : string :=
  let '(x, y) := (TrimSpace a, TrimSpace b) in
  let '(x, y) := if String.ltb y x then (y, x) else (x, y) in
  x +:+ ":" +:+ y.

Definition NewDirectConversationRoom (id ownerID peerID : string) (now : Time) : result Room.t :=
  let ownerID := TrimSpace ownerID in
  let peerID := TrimSpace peerID in
  if decide (ownerID = "") then Err ErrRoomOwnerRequired
  else if decide (peerID = "") then Err ErrRoomPeerAccountRequired
  else if decide (ownerID = peerID) then Err ErrRoomDirectSelfNotAllowed
  else NewRoom id "Direct chat" "" ownerID RoomTypeDirect (CanonicalDirectKey ownerID peerID) now.

(** The receiver may be nil. *)
Definition IsGroup (r : option Room.t) : bool :=
  match r with
  | Some r => bool_decide (NormalizeRoomType (Room.RoomType r) = RoomTypeGroup)
  | None => false
  end.
Definition IsDirect (r : option Room.t) : bool :=
  match r with
  | Some r => bool_decide (NormalizeRoomType (Room.RoomType r) = RoomTypeDirect)
  | None => false
  end.

(** The name is taken before the type is checked. *)
Definition UpdateDetails (name description roomType : string) (updatedAt : Time) :
    method Room.t bool := fun r =>
  let name := TrimSpace name in
  let '(r, updated) :=
    if decide (name <> "" /\ name <> Room.Name r) then (Room.setName name r, true) else (r, false) in
  let description := TrimSpace description in
  let '(r, updated) :=
    if decide (description <> Room.Description r) then (Room.setDescription description r, true)
    else (r, updated) in
  let roomType := NormalizeRoomType roomType in
  if decide (roomType <> "" /\ RoomTypeIsValid roomType = false) then (Err ErrRoomTypeInvalid, r) else
  let '(r, updated) :=
    if decide (roomType <> "" /\ roomType <> Room.RoomType r) then (Room.setType roomType r, true)
    else (r, updated) in
  (Ok updated, if updated then Room.setUpdatedAt (normalizeRoomTime updatedAt) r else r).

(** [Room.ChangeOwner]. *)
Definition ChangeRoomOwner (ownerID : string) (updatedAt : Time) : method Room.t bool := fun r =>
  let ownerID := TrimSpace ownerID in
  if decide (ownerID = "") then (Err ErrRoomOwnerRequired, r)
  else if decide (ownerID = Room.OwnerID r) then (Ok false, r)
  else (Ok true, Room.setOwner ownerID (normalizeRoomTime updatedAt) r).

Definition RequireGroup (r : option Room.t) : result unit :=
  if IsGroup r then Ok tt else Err ErrRoomNotGroup.

(** [Room.PinMessage]. *)
Definition PinRoomMessage (messageID : string) (updatedAt : Time) : method Room.t unit := fun r =>
  if decide (TrimSpace messageID = "") then (Err ErrRoomMessageIDRequired, r)
  else (Ok tt, Room.setPinned (TrimSpace messageID) (normalizeRoomTime updatedAt) r).

Definition Touch (updatedAt : Time) (r : Room.t) : Room.t :=
  Room.setUpdatedAt (normalizeRoomTime updatedAt) r.

(** ** Members *)

Definition normalizeRoomRole (role : string) : string :=
  if decide (NormalizeRoomRole role <> "") then NormalizeRoomRole role else RoomRoleMember.

Definition NewRoomMember (id roomID accountID role : string) (now : Time) : result RoomMember.t :=
  let id := TrimSpace id in
  let roomID := TrimSpace roomID in
  let accountID := TrimSpace accountID in
  let role := normalizeRoomRole role in
  if decide (id = "") then Err ErrRoomMemberIDRequired
  else if decide (roomID = "") then Err ErrRoomMemberRoomRequired
  else if decide (accountID = "") then Err ErrRoomMemberAccountRequired
  else if negb (RoomRoleIsValid role) then Err ErrRoomMemberRoleInvalid
  else
    let now := normalizeRoomTime now in
    Ok (RoomMember.mk id roomID accountID "" "" "" role None None now now).

Definition addGroupMember (memberSet : gmap string string) (memberID : string) : gmap string string :=
  let memberID := TrimSpace memberID in
  if decide (memberID = "") then memberSet
  else match memberSet !! memberID with
       | Some _ => memberSet
       | None => <[memberID := RoomRoleMember]> memberSet
       end.

Definition BuildGroupMemberRoles (ownerID : string) (memberIDs : list string) :
    result (gmap string string) :=
  let ownerID := TrimSpace ownerID in
  if decide (ownerID = "") then Err ErrRoomOwnerRequired
  else Ok (foldl addGroupMember {[ownerID := RoomRoleOwner]} memberIDs).

Definition IsManager (m : RoomMember.t) : bool :=
  let role := normalizeRoomRole (RoomMember.Role m) in
  bool_decide (role = RoomRoleOwner \/ role = RoomRoleAdmin).

Definition CanManageGroup (m : RoomMember.t) (room : option Room.t) : result unit :=
  _ ← RequireGroup room;
  if negb (IsManager m) then Err ErrRoomInsufficientPermission else Ok tt.

Definition CanRemoveFrom (m : RoomMember.t) (room : option Room.t) (targetAccountID : string) :
    result unit :=
  _ ← RequireGroup room;
  let targetAccountID := TrimSpace targetAccountID in
  if decide (targetAccountID = "") then Err ErrRoomMemberAccountRequired
  else if decide (RoomMember.AccountID m <> targetAccountID /\ IsManager m = false) then
    Err ErrRoomInsufficientPermission
  else if decide (RoomMember.AccountID m = targetAccountID /\
                  normalizeRoomRole (RoomMember.Role m) = RoomRoleOwner) then
    Err ErrRoomOwnerCannotLeave
  else Ok tt.

Definition NormalizeReceiptStatus (status : string) : result string :=
  let s := LowerTrim status in
  if decide (s = "delivered") then Ok "delivered"
  else if decide (s = "seen") then Ok "seen"
  else Err ErrRoomReceiptStatusInvalid.

(** Gives the status and the times at which the message was delivered and seen. *)
Definition ApplyReceiptStatus (status : string) (updatedAt : Time) :
    method RoomMember.t (string * option Time * option Time) := fun m =>
  match NormalizeReceiptStatus status with
  | Ok normalizedStatus =>
      let now := normalizeRoomTime updatedAt in
      let seenAt := if decide (normalizedStatus = "seen") then Some now else None in
      (Ok (normalizedStatus, Some now, seenAt),
       RoomMember.setReceipt (Some now)
         (if decide (normalizedStatus = "seen") then Some now else RoomMember.LastReadAt m) now m)
  | Err e => (Err e, m)
  | Panic w => (Panic w, m)
  end.

(** ** Mentions and reactions *)

(** The loop of [NormalizeMessageMentions], over the ids already seen. *)
Fixpoint normalizeMentionsFrom (seen : gset string) (mentions : list MessageMention.t) :
    result (list MessageMention.t) :=
  match mentions with
  | [] => Ok []
  | mention :: mentions =>
      let accountID := TrimSpace (MessageMention.AccountID mention) in
      if decide (accountID = "") then Err ErrMessageMentionAccountRequired
      else if decide (accountID ∈ seen) then normalizeMentionsFrom seen mentions
      else
        rest ← normalizeMentionsFrom ({[accountID]} ∪ seen) mentions;
        Ok (MessageMention.mk accountID (TrimSpace (MessageMention.DisplayName mention))
              (TrimSpace (MessageMention.Username mention)) :: rest)
  end.

Definition NormalizeMessageMentions (mentions : list MessageMention.t) :
    result (list MessageMention.t) := normalizeMentionsFrom ∅ mentions.

(** The separator of the key of a reaction, a zero byte. *)
Definition zeroByte : string := String (Ascii.ascii_of_nat 0) EmptyString.
Definition reactionKey (r : MessageReaction.t) : string :=
  MessageReaction.AccountID r +:+ zeroByte +:+ MessageReaction.Emoji r.

(** The loop of [NormalizeMessageReactions], over the keys already seen. *)
Fixpoint dedupReactions (seen : gset string) (items : list MessageReaction.t) :
    result (list MessageReaction.t) :=
  match items with
  | [] => Ok []
  | item :: items =>
      let accountID := TrimSpace (MessageReaction.AccountID item) in
      let emoji := TrimSpace (MessageReaction.Emoji item) in
      if decide (accountID = "") then Err ErrMessageReactionAccountIDRequired
      else if decide (emoji = "") then Err ErrMessageReactionEmojiRequired
      else
        let r := MessageReaction.mk accountID emoji (UTC (MessageReaction.ReactedAt item)) in
        if decide (reactionKey r ∈ seen) then dedupReactions seen items
        else
          rest ← dedupReactions ({[reactionKey r]} ∪ seen) items;
          Ok (r :: rest)
  end.

(** The order of reactions: by emoji, then by time, then by account. *)
Definition reactionLess (x y : MessageReaction.t) : bool :=
  if decide (MessageReaction.Emoji x <> MessageReaction.Emoji y) then
    String.ltb (MessageReaction.Emoji x) (MessageReaction.Emoji y)
  else if decide (MessageReaction.ReactedAt x = MessageReaction.ReactedAt y) then
    String.ltb (MessageReaction.AccountID x) (MessageReaction.AccountID y)
  else bool_decide (MessageReaction.ReactedAt x < MessageReaction.ReactedAt y).

Definition NormalizeMessageReactions (items : list MessageReaction.t) :
    result (list MessageReaction.t) :=
  results ← dedupReactions ∅ items;
  Ok (sort_Slice reactionLess results).

(** ** Messages *)

Definition MessageTypeText : string := "text".
Definition MessageTypeSystem : string := "system".
Definition MessageTypeImage : string := "image".
Definition MessageTypeFile : string := "file".
Definition MessageTypeSticker : string := "sticker".
Definition MessageTypeTransfer : string := "transfer".

Definition NormalizeMessageType (value : string) : string :=
  let v := LowerTrim value in
  if decide (v = "" \/ v = MessageTypeText) then MessageTypeText
  else if decide (v ∈ [MessageTypeSystem; MessageTypeImage; MessageTypeFile; MessageTypeSticker;
                       MessageTypeTransfer]) then v
  else "".

Definition NewMessage (id roomID senderID : string) (params : MessageParams.t) (now : Time) :
    result Message.t :=
  let id := TrimSpace id in
  let roomID := TrimSpace roomID in
  let senderID := TrimSpace senderID in
  let messageType := NormalizeMessageType (MessageParams.MessageType params) in
  let content := TrimSpace (MessageParams.Message params) in
  let objectKey := TrimSpace (MessageParams.ObjectKey params) in
  mentions ← NormalizeMessageMentions (MessageParams.Mentions params);
  if decide (id = "") then Err ErrMessageIDRequired
  else if decide (roomID = "") then Err ErrMessageRoomRequired
  else if decide (senderID = "") then Err ErrMessageSenderRequired
  else if decide (messageType = "") then Err ErrMessageTypeInvalid
  else if decide (messageType = MessageTypeText /\ content = "") then Err ErrMessageBodyRequired
  else if decide (messageType ∈ [MessageTypeImage; MessageTypeFile; MessageTypeSticker] /\
                  objectKey = "") then Err ErrMessageObjectKeyRequired
  else Ok (Message.mk id roomID senderID content messageType mentions []
             (MessageParams.MentionAll params) (TrimSpace (MessageParams.ReplyToMessageID params))
             (TrimSpace (MessageParams.ForwardedFromMessageID params))
             (TrimSpace (MessageParams.FileName params)) (MessageParams.FileSize params)
             (TrimSpace (MessageParams.MimeType params)) objectKey None None
             (normalizeRoomTime now)).

(** [MessageEntity.Edit]. *)
Definition EditMessage (actorID content : string) (editedAt : Time) : method Message.t unit := fun m =>
  if decide (TrimSpace actorID <> TrimSpace (Message.SenderID m)) then
    (Err ErrMessageCannotEditOther, m)
  else if decide (NormalizeMessageType (Message.MessageType m) = MessageTypeSystem) then
    (Err ErrMessageCannotEditSystem, m)
  else if decide (TrimSpace content = "") then (Err ErrMessageBodyRequired, m)
  else (Ok tt, Message.setBody (TrimSpace content) (Some (normalizeRoomTime editedAt))
                 (Message.DeletedForEveryoneAt m) m).

Definition DeleteForEveryone (actorID : string) (deletedAt : Time) : method Message.t unit := fun m =>
  if decide (TrimSpace actorID <> TrimSpace (Message.SenderID m)) then
    (Err ErrMessageCannotDeleteEveryone, m)
  else (Ok tt, Message.setBody "" (Message.EditedAt m) (Some (normalizeRoomTime deletedAt)) m).

(** Whether the reaction is the one of the account with the emoji. *)
Definition isReaction (accountID emoji : string) (r : MessageReaction.t) : bool :=
  bool_decide (MessageReaction.AccountID r = accountID /\ MessageReaction.Emoji r = emoji).

(** [MessageEntity.ToggleReaction]. *)
Definition ToggleMessageReaction (accountID emoji : string) (reactedAt : Time) :
    method Message.t bool := fun m =>
  let accountID := TrimSpace accountID in
  let emoji := TrimSpace emoji in
  if decide (accountID = "") then (Err ErrMessageReactionAccountIDRequired, m)
  else if decide (emoji = "") then (Err ErrMessageReactionEmojiRequired, m)
  else
    let toggled :=
      current ← NormalizeMessageReactions (Message.Reactions m);
      let removed := existsb (isReaction accountID emoji) current in
      let next := List.filter (fun r => negb (isReaction accountID emoji r)) current in
      let next := if removed then next
                  else next ++ [MessageReaction.mk accountID emoji (normalizeRoomTime reactedAt)] in
      NormalizeMessageReactions next in
    match toggled with
    | Ok next => (Ok true, Message.setReactions next m)
    | Err e => (Err e, m)
    | Panic w => (Panic w, m)
    end.
End entities.
