(* ===== verification/RoomEntitySpec.v ===== *)
(** * Rooms and messages: lemmas on the entities

    Lists of reactions have one normal form, toggling a reaction is its own
    inverse, the key of a direct conversation is that of its two accounts, and
    a new group has one owner. *)

From stdpp Require Import prelude strings gmap sorting.
From S2P Require Import Prelude GoStrings GoSort RoomEntity.
Import RoomError.

(** ** Strings with a separator *)

(** The byte [c] does not occur in [s]. *)
Definition lacks (c : Ascii.ascii) (s : string) : Prop := c ∉ String.list_ascii_of_string s.
#[export] Instance lacks_dec c s : Decision (lacks c s).
Proof. unfold lacks. apply _. Defined.

Lemma app_sep_inj {A} (c : A) l1 l2 k1 k2 :
  c ∉ l1 -> c ∉ l2 -> l1 ++ c :: k1 = l2 ++ c :: k2 -> l1 = l2 /\ k1 = k2.
Proof.
  revert l2. induction l1 as [|x l1 IH]; intros [|y l2] H1 H2 Heq; cbn in Heq; simplify_eq.
  - done.
  - exfalso. apply H2. by left.
  - exfalso. apply H1. by left.
  - apply not_elem_of_cons in H1 as [_ H1]. apply not_elem_of_cons in H2 as [_ H2].
    edestruct IH as [-> ->]; [exact H1|exact H2|eassumption|done].
Qed.

Lemma string_bytes_inj s t : String.list_ascii_of_string s = String.list_ascii_of_string t -> s = t.
Proof.
  intros H. rewrite <- (String.string_of_list_ascii_of_string s), H.
  apply String.string_of_list_ascii_of_string.
Qed.

Lemma sep_inj (c : Ascii.ascii) s1 s2 t1 t2 :
  lacks c s1 -> lacks c s2 ->
  s1 +:+ String c EmptyString +:+ t1 = s2 +:+ String c EmptyString +:+ t2 -> s1 = s2 /\ t1 = t2.
Proof.
  intros H1 H2 Heq. apply (f_equal String.list_ascii_of_string) in Heq.
  rewrite !list_ascii_app in Heq. cbn in Heq.
  apply app_sep_inj in Heq as [Hs Ht]; [|done..]. by split; apply string_bytes_inj.
Qed.

(** ** Reactions *)

Section reactions.
Implicit Types (r x y : MessageReaction.t) (l : list MessageReaction.t).

Lemma reactionLess_cases x y :
  reactionLess x y = true <->
  String.ltb (MessageReaction.Emoji x) (MessageReaction.Emoji y) = true \/
  (MessageReaction.Emoji x = MessageReaction.Emoji y /\
   (MessageReaction.ReactedAt x < MessageReaction.ReactedAt y \/
    (MessageReaction.ReactedAt x = MessageReaction.ReactedAt y /\
     String.ltb (MessageReaction.AccountID x) (MessageReaction.AccountID y) = true))).
Proof.
  unfold reactionLess. case_decide as He.
  - split; [by left|]. intros [H|[H _]]; [done|by destruct He].
  - rewrite He, ltb_irrefl. case_decide as Ht.
    + rewrite Ht. split; [by right; split; [|right]|]. intros [H|(_ & [H|[_ H]])]; [done|lia|done].
    + rewrite bool_decide_eq_true. split; [by right; split; [|left]|].
      intros [H|(_ & [H|[H _]])]; [done..|by destruct Ht].
Qed.

#[export] Instance reactionLess_weak : WeakOrder reactionLess.
Proof.
  assert (forall x y, reactionLess x y = true -> reactionLess y x = false) as Hasym.
  { intros x y Hxy. destruct (reactionLess y x) eqn:Hyx; [exfalso|done].
    apply reactionLess_cases in Hxy as [H|(He & [H|[Ht H]])], Hyx as [H'|(He' & [H'|[Ht' H']])];
      try lia; try (rewrite (ltb_asym _ _ H) in H'; done).
    all: try (rewrite He' in H; by rewrite ltb_irrefl in H).
    all: try (rewrite He in H'; by rewrite ltb_irrefl in H'). }
  split; [done|]. intros x y z Hxy Hyz. destruct (reactionLess x z) eqn:Hxz; [exfalso|done].
  assert (forall a b, reactionLess a b = false -> ~
    (String.ltb (MessageReaction.Emoji a) (MessageReaction.Emoji b) = true \/
    (MessageReaction.Emoji a = MessageReaction.Emoji b /\
     (MessageReaction.ReactedAt a < MessageReaction.ReactedAt b \/
      (MessageReaction.ReactedAt a = MessageReaction.ReactedAt b /\
       String.ltb (MessageReaction.AccountID a) (MessageReaction.AccountID b) = true))))) as Hneg.
  { intros a b Hab Hc. apply reactionLess_cases in Hc. congruence. }
  apply Hneg in Hxy, Hyz. apply reactionLess_cases in Hxz.
  assert (forall s t u : string, String.ltb s u = true ->
    String.ltb s t = true \/ String.ltb t u = true) as Hsplit.
  { intros s t u Hsu. destruct (String.ltb s t) eqn:E; [by left|].
    destruct (String.ltb t u) eqn:E'; [by right|].
    by rewrite (less_negtrans s t u E E') in Hsu. }
  destruct Hxz as [H|(He & H)].
  - destruct (Hsplit _ (MessageReaction.Emoji y) _ H); tauto.
  - destruct (decide (MessageReaction.Emoji y = MessageReaction.Emoji x)) as [Hy|Hy].
    + rewrite Hy in *. rewrite He in *. destruct H as [H|[Ht H]].
      * destruct (decide (MessageReaction.ReactedAt x < MessageReaction.ReactedAt y)); [tauto|].
        apply Hyz. right. split; [done|]. left. lia.
      * destruct (decide (MessageReaction.ReactedAt x = MessageReaction.ReactedAt y)) as [E|E].
        -- destruct (Hsplit _ (MessageReaction.AccountID y) _ H); [tauto|].
           apply Hyz. right. split; [done|]. right. split; [congruence|done].
        -- destruct (decide (MessageReaction.ReactedAt x < MessageReaction.ReactedAt y)); [tauto|].
           apply Hyz. right. split; [done|]. left. lia.
    + destruct (String.ltb (MessageReaction.Emoji x) (MessageReaction.Emoji y)) eqn:E; [tauto|].
      destruct (String.ltb (MessageReaction.Emoji y) (MessageReaction.Emoji x)) eqn:E'.
      * rewrite He in E'. tauto.
      * by destruct Hy; apply ltb_total.
Qed.

Lemma reactionLess_separates l : separates reactionLess l.
Proof.
  intros [a e t] [a' e' t'] _ _ Hxy Hyx. unfold reactionLess in *. cbn in *.
  repeat case_decide; subst; try congruence.
  all: try (rewrite bool_decide_eq_false in Hxy, Hyx; lia).
  - by rewrite (ltb_total e e') in H by done.
  - f_equal. by apply ltb_total.
Qed.

(** The normal form of a list of reactions. *)
Record reactions_normal l : Prop := {
  rn_named : Forall (fun r => trimmed (MessageReaction.AccountID r) /\
    MessageReaction.AccountID r <> "" /\ trimmed (MessageReaction.Emoji r) /\
    MessageReaction.Emoji r <> "") l;
  rn_once : NoDup (reactionKey <$> l);
  rn_sorted : StronglySorted (notAfter reactionLess) l
}.

Lemma dedupReactions_Ok seen items l :
  dedupReactions seen items = Ok l ->
  Forall (fun r => trimmed (MessageReaction.AccountID r) /\ MessageReaction.AccountID r <> "" /\
    trimmed (MessageReaction.Emoji r) /\ MessageReaction.Emoji r <> "") l /\
  NoDup (reactionKey <$> l) /\ Forall (fun r => reactionKey r ∉ seen) l.
Proof.
  revert seen l. induction items as [|item items IH]; intros seen l; cbn; intros H.
  - injection H as <-. repeat split; constructor.
  - repeat case_decide; try discriminate; [by apply IH|].
    apply result_bind_Ok in H as (rest & Hr & [= <-]). apply IH in Hr as (Hn & Hd & Hs).
    split; [|split].
    + constructor; [|done]. cbn. auto with go.
    + cbn. constructor; [|done]. intros Hin. apply list_elem_of_fmap in Hin as (r & Hk & Hin).
      rewrite Forall_forall in Hs. apply (Hs _ Hin). rewrite <- Hk. set_solver.
    + constructor; [done|]. eapply Forall_impl; [exact Hs|]. cbn. set_solver.
Qed.

Lemma dedupReactions_id seen l :
  Forall (fun r => trimmed (MessageReaction.AccountID r) /\ MessageReaction.AccountID r <> "" /\
    trimmed (MessageReaction.Emoji r) /\ MessageReaction.Emoji r <> "") l ->
  NoDup (reactionKey <$> l) -> Forall (fun r => reactionKey r ∉ seen) l ->
  dedupReactions seen l = Ok l.
Proof.
  revert seen. induction l as [|[a e t] l IH]; intros seen Hn Hd Hs; cbn; [done|].
  apply Forall_cons_1 in Hn as [(Ha & Ha' & He & He') Hn]. apply Forall_cons_1 in Hs as [Hs Hs'].
  apply NoDup_cons in Hd as [Hk Hd]. cbn in *. unfold trimmed in *. rewrite Ha, He.
  rewrite !decide_False by done. rewrite IH; [done|done|done|].
  apply Forall_forall. intros r Hr. rewrite Forall_forall in Hs'. specialize (Hs' _ Hr).
  apply not_elem_of_union. split; [|done]. intros E%elem_of_singleton. apply Hk.
  rewrite <- E. by apply list_elem_of_fmap_2.
Qed.

Lemma Normalize_normal items l : NormalizeMessageReactions items = Ok l -> reactions_normal l.
Proof.
  intros H. apply result_bind_Ok in H as (k & Hk & [= <-]).
  apply dedupReactions_Ok in Hk as (Hn & Hd & _). split.
  - by rewrite sort_Slice_Permutation.
  - by rewrite sort_Slice_Permutation.
  - apply sort_Slice_sorted, _.
Qed.

(** Any arrangement of a normal list has it as its normal form. *)
Lemma Normalize_perm l k : reactions_normal l -> k ≡ₚ l -> NormalizeMessageReactions k = Ok l.
Proof.
  intros [Hn Hd Hs] Hp. unfold NormalizeMessageReactions.
  rewrite dedupReactions_id; [|by rewrite Hp|by rewrite Hp|].
  - cbn. f_equal. rewrite (sort_Slice_perm reactionLess l) by (done || apply reactionLess_separates).
    by apply sort_Slice_id; [apply _|apply reactionLess_separates|].
  - apply Forall_forall. intros. apply not_elem_of_empty.
Qed.

Lemma Normalize_id l : reactions_normal l -> NormalizeMessageReactions l = Ok l.
Proof. intros H. by apply Normalize_perm. Qed.

Lemma reactions_normal_nil : reactions_normal [].
Proof. split; constructor. Qed.

Lemma reactions_normal_sublist (f : MessageReaction.t -> bool) l :
  reactions_normal l -> reactions_normal (List.filter f l).
Proof.
  intros [Hn Hd Hs]. induction l as [|r l IH]; [done|].
  apply Forall_cons_1 in Hn as [Hr Hn]. apply NoDup_cons in Hd as [Hk Hd].
  apply StronglySorted_cons in Hs as [Hr' Hs].
  destruct (IH Hn Hd Hs) as [Hn' Hd' Hs']. cbn. destruct (f r); [|done].
  assert (forall x, x ∈ List.filter f l -> x ∈ l) as Hsub.
  { intros x Hx. apply list_elem_of_In, filter_In in Hx as [Hx _]. by apply list_elem_of_In. }
  split; [by constructor| |].
  - constructor; [|done]. intros (x & E & Hx)%list_elem_of_fmap. apply Hk. rewrite E.
    by apply list_elem_of_fmap_2, Hsub.
  - apply StronglySorted_cons. split; [|done]. rewrite Forall_forall in *. eauto.
Qed.

Lemma reaction_key_inj x y :
  lacks Ascii.zero (MessageReaction.AccountID x) -> lacks Ascii.zero (MessageReaction.AccountID y) ->
  reactionKey x = reactionKey y ->
  MessageReaction.AccountID x = MessageReaction.AccountID y /\
  MessageReaction.Emoji x = MessageReaction.Emoji y.
Proof. apply sep_inj. Qed.
End reactions.

(** ** Toggling a reaction *)

Section toggle.
Context (clock : Time).
Implicit Types (m : Message.t) (l cur : list MessageReaction.t).

Lemma isReaction_true acc emoji r :
  isReaction acc emoji r = true <->
  MessageReaction.AccountID r = acc /\ MessageReaction.Emoji r = emoji.
Proof. unfold isReaction. apply bool_decide_eq_true. Qed.

Lemma existsb_false_filter {A} (f : A -> bool) (l : list A) :
  existsb f l = false -> List.filter (fun x => negb (f x)) l = l.
Proof.
  induction l as [|x l IH]; cbn; [done|]. intros [-> H]%orb_false_elim. cbn. by rewrite IH.
Qed.

(** The reaction is not there: it is added. *)
Lemma toggle_adds acc emoji at_ m cur :
  NormalizeMessageReactions (Message.Reactions m) = Ok cur ->
  TrimSpace acc <> "" -> TrimSpace emoji <> "" ->
  Forall (fun r => lacks Ascii.zero (MessageReaction.AccountID r)) cur ->
  lacks Ascii.zero (TrimSpace acc) ->
  existsb (isReaction (TrimSpace acc) (TrimSpace emoji)) cur = false ->
  let r := MessageReaction.mk (TrimSpace acc) (TrimSpace emoji) (normalizeRoomTime clock at_) in
  exists next, ToggleMessageReaction clock acc emoji at_ m = (Ok true, Message.setReactions next m) /\
    reactions_normal next /\ next ≡ₚ r :: cur.
Proof.
  intros Hcur Ha He Hl Hla Hex r. unfold ToggleMessageReaction.
  rewrite !decide_False by done. rewrite Hcur. cbn [mbind result_bind]. rewrite Hex.
  rewrite existsb_false_filter by done. fold r. apply Normalize_normal in Hcur.
  destruct Hcur as [Hn Hd Hs].
  assert (NormalizeMessageReactions (cur ++ [r]) = Ok (sort_Slice reactionLess (cur ++ [r]))) as Hnext.
  { unfold NormalizeMessageReactions. rewrite dedupReactions_id; [done|..].
    - apply Forall_app. split; [done|]. repeat constructor; cbn; auto with go.
    - rewrite fmap_app. apply NoDup_app. split; [done|]. split; [|apply NoDup_singleton].
      intros k Hk Hr. apply list_elem_of_singleton in Hr as ->.
      apply list_elem_of_fmap in Hk as (x & Hk & Hx). rewrite Forall_forall in Hl.
      apply reaction_key_inj in Hk as [Hk1 Hk2]; [|done|by apply Hl].
      assert (existsb (isReaction (TrimSpace acc) (TrimSpace emoji)) cur = true) as E; [|congruence].
      apply existsb_exists. exists x. split; [by apply list_elem_of_In|]. by apply isReaction_true.
    - apply Forall_forall. intros. apply not_elem_of_empty. }
  rewrite Hnext. eexists. split; [done|]. split; [by eapply Normalize_normal|].
  rewrite sort_Slice_Permutation. by rewrite Permutation_app_comm.
Qed.

(** The reaction is there: it is removed. *)
Lemma toggle_removes acc emoji at_ m cur :
  NormalizeMessageReactions (Message.Reactions m) = Ok cur ->
  TrimSpace acc <> "" -> TrimSpace emoji <> "" ->
  existsb (isReaction (TrimSpace acc) (TrimSpace emoji)) cur = true ->
  let next := List.filter (fun r => negb (isReaction (TrimSpace acc) (TrimSpace emoji) r)) cur in
  ToggleMessageReaction clock acc emoji at_ m = (Ok true, Message.setReactions next m) /\
  reactions_normal next.
Proof.
  intros Hcur Ha He Hex next. unfold ToggleMessageReaction.
  rewrite !decide_False by done. rewrite Hcur. cbn [mbind result_bind]. rewrite Hex. fold next.
  apply Normalize_normal, (reactions_normal_sublist (fun r => negb (isReaction (TrimSpace acc) (TrimSpace emoji) r)))
    in Hcur. by rewrite Normalize_id.
Qed.

Lemma setReactions_setReactions l l' m :
  Message.setReactions l (Message.setReactions l' m) = Message.setReactions l m.
Proof. done. Qed.

Lemma filter_perm_out {A} (f : A -> bool) (x : A) (l k : list A) :
  l ≡ₚ x :: k -> f x = false -> (forall y, y ∈ k -> f y = true) -> List.filter f l ≡ₚ k.
Proof.
  intros Hp Hx Hk.
  assert (forall l1 l2 : list A, l1 ≡ₚ l2 -> List.filter f l1 ≡ₚ List.filter f l2) as Hf.
  { intros l1 l2. induction 1 as [|y l1 l2 _ IH|y z l1|l1 l2 l3 _ IH1 _ IH2]; cbn.
    - done.
    - destruct (f y); [by rewrite IH|done].
    - destruct (f y), (f z); try done. by rewrite Permutation_swap.
    - by rewrite IH1. }
  rewrite (Hf _ _ Hp). cbn. rewrite Hx.
  assert (List.filter f k = k) as ->; [|done].
  clear Hp. induction k as [|y k IH]; cbn; [done|]. rewrite Hk by (by left). rewrite IH; [done|].
  intros z Hz. apply Hk. by right.
Qed.
End toggle.

(** ** Direct conversations *)

Lemma CanonicalDirectKey_comm a b : CanonicalDirectKey a b = CanonicalDirectKey b a.
Proof.
  unfold CanonicalDirectKey. destruct (String.ltb (TrimSpace b) (TrimSpace a)) eqn:E.
  - by rewrite (ltb_asym _ _ E).
  - destruct (String.ltb (TrimSpace a) (TrimSpace b)) eqn:E'; [done|].
    by rewrite (ltb_total _ _ E E').
Qed.

(** Ids without a colon: the key names the two accounts. *)
Lemma CanonicalDirectKey_inj a b c d :
  let colon := Ascii.ascii_of_nat 58 in
  lacks colon (TrimSpace a) -> lacks colon (TrimSpace b) ->
  lacks colon (TrimSpace c) -> lacks colon (TrimSpace d) ->
  CanonicalDirectKey a b = CanonicalDirectKey c d ->
  (TrimSpace a = TrimSpace c /\ TrimSpace b = TrimSpace d) \/
  (TrimSpace a = TrimSpace d /\ TrimSpace b = TrimSpace c).
Proof.
  intros colon Ha Hb Hc Hd. unfold CanonicalDirectKey.
  destruct (String.ltb (TrimSpace b) (TrimSpace a)), (String.ltb (TrimSpace d) (TrimSpace c));
    intros Heq; apply (sep_inj colon) in Heq as [-> ->]; auto.
Qed.

(** ** The roles of a new group *)

Lemma addGroupMember_owner owner ms memberIDs :
  ms !! owner = Some RoomRoleOwner ->
  (forall k role, ms !! k = Some role -> role = RoomRoleOwner <-> k = owner) ->
  let roles := foldl addGroupMember ms memberIDs in
  roles !! owner = Some RoomRoleOwner /\
  (forall k role, roles !! k = Some role -> role = RoomRoleOwner <-> k = owner) /\
  (forall k, is_Some (roles !! k) <->
     is_Some (ms !! k) \/ (k <> "" /\ k ∈ map TrimSpace memberIDs)).
Proof.
  revert ms. induction memberIDs as [|id memberIDs IH]; intros ms Ho Hr; cbn.
  - split; [done|]. split; [done|]. intros k. split; [by left|]. intros [H|[_ H]]; [done|].
    by apply not_elem_of_nil in H.
  - assert (forall ms', addGroupMember ms id = ms' ->
      ms' !! owner = Some RoomRoleOwner /\
      (forall k role, ms' !! k = Some role -> role = RoomRoleOwner <-> k = owner) /\
      (forall k, is_Some (ms' !! k) <-> is_Some (ms !! k) \/ (k <> "" /\ k = TrimSpace id))) as Hstep.
    { intros ms' <-. unfold addGroupMember. case_decide as Hid.
      { split; [done|]. split; [done|]. intros k. split; [by left|]. intros [H|[H1 H2]]; [done|congruence]. }
      destruct (ms !! TrimSpace id) as [role|] eqn:E.
      { split; [done|]. split; [done|]. intros k. split; [by left|].
        intros [H|[_ H]]; [done|]. rewrite H, E. by eexists. }
      split; [rewrite lookup_insert_ne; [done|congruence]|]. split.
      - intros k role. destruct (decide (k = TrimSpace id)) as [->|Hk].
        + rewrite lookup_insert_eq. intros [= <-]. split; [done|]. intros Hid'. rewrite Hid' in E. congruence.
        + rewrite lookup_insert_ne by done. apply Hr.
      - intros k. destruct (decide (k = TrimSpace id)) as [->|Hk].
        + rewrite lookup_insert_eq. split; [by right|by eauto].
        + rewrite lookup_insert_ne by done. split; [by left|]. by intros [H|[_ H]]. }
    destruct (Hstep _ eq_refl) as (Ho' & Hr' & Hk').
    destruct (IH _ Ho' Hr') as (Ho'' & Hr'' & Hk''). split; [done|]. split; [done|].
    intros k. rewrite Hk'', Hk', elem_of_cons. tauto.
Qed.
