(* ===== verification/RoomAggregate.v ===== *)
(** * The room aggregate (room/domain/aggregate)

    [room_aggregate.go], [room_aggregate_commands.go] and
    [room_aggregate_event.go]: a room with its members, and what a command has
    done to it for the repository to write - the row of the room, members
    added and removed, messages with their receipts, events. A member is not
    changed once it is attached, so that the maps that share it hold its
    value. [clock] stands for [time.Now()], and the ids that [newUUID()] makes
    are arguments. *)

From stdpp Require Import prelude strings gmap.
From S2P Require Import Prelude GoStrings Event RoomEntity.
Import RoomError.

(** ** Events *)

Module RoomMemberEvent.
(** The fields of [EventRoomMemberAdded] and [EventRoomMemberRemoved] that are
    set; [At] is [MemberStateUpdatedAt] of the first and [RemovedAt] of the
    second, which has no avatar key. *)
Record t := mk {
  RoomID : string;
  MemberID : string;
  RoomMemberID : string;
  MemberName : string;
  MemberUsername : string;
  MemberAvatarKey : string;
  MemberRole : string;
  MemberJoinedAt : Time;
  At : Time
}.
End RoomMemberEvent.

Module RoomMessageEvent.
(** The fields of [EventRoomMessageCreated] and of the shared
    [RoomMessageCreatedEvent], which are the same. *)
Record t := mk {
  RoomID : string;
  RoomName : string;
  RoomType : string;
  MessageID : string;
  MessageContent : string;
  MessageType : string;
  ReplyToMessageID : string;
  ForwardedFromMessageID : string;
  FileName : string;
  FileSize : Z;
  MimeType : string;
  ObjectKey : string;
  MessageSenderID : string;
  MessageSenderName : string;
  MessageSenderEmail : string;
  MessageSentAt : Time;
  Mentions : list MessageMention.t;
  MentionAll : bool;
  MentionedAccountIDs : list string
}.
End RoomMessageEvent.

(** [OtherRoomEvent] stands for a payload of any other type. The fields of
    [EventRoomCreated] about the last message are never set. *)
Inductive RoomEventData : Type :=
  | EventRoomCreated (RoomID RoomType : string) (MemberCount : Z)
  | EventRoomOwnerChanged (RoomID PreviousOwnerID OwnerID : string) (ChangedAt : Time)
  | EventRoomDetailsUpdated (RoomID Name Description RoomType : string) (UpdatedAt : Time)
  | EventRoomMessagePinned (RoomID PinnedMessageID : string) (PinnedAt : Time)
  | EventRoomMemberAdded (m : RoomMemberEvent.t)
  | EventRoomMemberRemoved (m : RoomMemberEvent.t)
  | EventRoomMessageCreated (m : RoomMessageEvent.t)
  | RoomMessageCreatedEvent (m : RoomMessageEvent.t)
  | OtherRoomEvent (typeName : string).

#[export] Instance RoomEventPayload : EventPayload RoomEventData := {|
  payload_nil d := false;
  event_name d :=
    match d with
    | EventRoomCreated _ _ _ => "EventRoomCreated"
    | EventRoomOwnerChanged _ _ _ _ => "EventRoomOwnerChanged"
    | EventRoomDetailsUpdated _ _ _ _ _ => "EventRoomDetailsUpdated"
    | EventRoomMessagePinned _ _ _ => "EventRoomMessagePinned"
    | EventRoomMemberAdded _ => "EventRoomMemberAdded"
    | EventRoomMemberRemoved _ => "EventRoomMemberRemoved"
    | EventRoomMessageCreated _ => "EventRoomMessageCreated"
    | RoomMessageCreatedEvent _ => "RoomMessageCreatedEvent"
    | OtherRoomEvent n => n
    end
|}.

Definition ErrRoomAggregateIDMismatch := Sentinel "ErrRoomAggregateIDMismatch".
Definition ErrRoomEventOccurredAtRequired := Sentinel "ErrRoomEventOccurredAtRequired".
Definition ErrRoomAggregateNil := Sentinel "ErrRoomAggregateNil".

(** ** State *)

Module PendingMessageReceipt.
Record t := mk {
  MessageID : string;
  AccountID : string;
  Status : string;
  DeliveredAt : option Time;
  SeenAt : option Time;
  CreatedAt : Time;
  UpdatedAt : Time
}.
End PendingMessageReceipt.

Module PendingRoomOutboxEvent.
Record t := mk {
  EventName : string;
  Payload : RoomEventData;
  CreatedAt : Time
}.
End PendingRoomOutboxEvent.

Module FileAttachment.
Record t := mk { FileName : string; MimeType : string; ObjectKey : string; FileSize : Z }.
End FileAttachment.

Record MessageSenderIdentity := mkSender { senderName : string; senderEmail : string }.

Record MessageOutboxPayload := mkOutboxPayload {
  outboxMentions : list MessageMention.t;
  outboxMentionAll : bool;
  outboxMentionedAccountIDs : list string
}.

Module RoomAggregate.
Record t := mk {
  root : AggregateRoot RoomEventData;
  room : option Room.t;
  members : gmap string RoomMember.t;
  memberOrder : list string;
  isNew : bool;
  roomDirty : bool;
  roomDeleted : bool;
  pendingMessages : list Message.t;
  pendingReceipts : list PendingMessageReceipt.t;
  memberUpserts : gmap string RoomMember.t;
  removedMemberIDs : list string
}.

Definition setRoot (r : AggregateRoot RoomEventData) (a : t) : t :=
  mk r (room a) (members a) (memberOrder a) (isNew a) (roomDirty a) (roomDeleted a)
    (pendingMessages a) (pendingReceipts a) (memberUpserts a) (removedMemberIDs a).
Definition setRoom (r : option Room.t) (a : t) : t :=
  mk (root a) r (members a) (memberOrder a) (isNew a) (roomDirty a) (roomDeleted a)
    (pendingMessages a) (pendingReceipts a) (memberUpserts a) (removedMemberIDs a).
Definition setMembers (m : gmap string RoomMember.t) (order : list string) (a : t) : t :=
  mk (root a) (room a) m order (isNew a) (roomDirty a) (roomDeleted a)
    (pendingMessages a) (pendingReceipts a) (memberUpserts a) (removedMemberIDs a).
Definition setFlags (new dirty : bool) (a : t) : t :=
  mk (root a) (room a) (members a) (memberOrder a) new dirty (roomDeleted a)
    (pendingMessages a) (pendingReceipts a) (memberUpserts a) (removedMemberIDs a).
Definition setPending (ms : list Message.t) (rs : list PendingMessageReceipt.t) (a : t) : t :=
  mk (root a) (room a) (members a) (memberOrder a) (isNew a) (roomDirty a) (roomDeleted a)
    ms rs (memberUpserts a) (removedMemberIDs a).
Definition setMemberWrites (ups : gmap string RoomMember.t) (removed : list string) (a : t) : t :=
  mk (root a) (room a) (members a) (memberOrder a) (isNew a) (roomDirty a) (roomDeleted a)
    (pendingMessages a) (pendingReceipts a) ups removed.
End RoomAggregate.
Notation RoomAggregate := RoomAggregate.t.

Module UpdateGroupDetailsParams.
Record t := mk {
  ActorID : string;
  Name : string;
  Description : string;
  Now : Time;
  SystemActorID : string
}.
End UpdateGroupDetailsParams.

Definition roomAggregateType : string := "RoomAggregate".

(** [t.UnixMilli()], and [time.UnixMilli]. *)
Definition UnixMilli (t : Time) : Z := t `div` 1000000 - unix_epoch_seconds * 1000.
Definition ofUnixMilli (ms : Z) : Time := (ms + unix_epoch_seconds * 1000) * 1000000.

Section aggregate.
Context `{UC : UnicodeCase} (clock : Time).
Implicit Types (a : RoomAggregate).

(** ** Interpretation of events *)

Definition ensureRoomID (roomID : string) : method RoomAggregate unit := fun a =>
  let roomID := TrimSpace roomID in
  let ar := RoomAggregate.root a in
  if decide (roomID = "") then (Err ErrRoomIDRequired, a)
  else if decide (aggregateID ar = "") then
    let '(res, ar) := SetID roomID ar in (res, RoomAggregate.setRoot ar a)
  else if decide (aggregateID ar <> roomID) then (Err ErrRoomAggregateIDMismatch, a)
  else (Ok tt, a).

(** The zero room with an id. *)
Definition zeroRoom (id : string) : Room.t :=
  Room.mk id "" "" "" "" "" "" Time_zero Time_zero.

Definition applyRoomCreated (aggregateID roomType : string) : method RoomAggregate unit :=
  modify (fun a =>
    let r := default (zeroRoom aggregateID) (RoomAggregate.room a) in
    RoomAggregate.setRoom (Some (Room.setType roomType (Room.setID aggregateID r))) a).

(** [applyRoomMemberAdded], [applyRoomMemberRemoved] and
    [applyRoomMessageCreated] only check the room. *)
Definition roomTransition (e : Event RoomEventData) : method RoomAggregate unit :=
  match EventData e with
  | EventRoomCreated _ roomType _ => applyRoomCreated (AggregateID e) roomType
  | EventRoomOwnerChanged roomID _ _ _ => ensureRoomID roomID
  | EventRoomDetailsUpdated roomID _ _ _ _ => ensureRoomID roomID
  | EventRoomMessagePinned roomID _ _ => ensureRoomID roomID
  | EventRoomMemberAdded m => ensureRoomID (RoomMemberEvent.RoomID m)
  | EventRoomMemberRemoved m => ensureRoomID (RoomMemberEvent.RoomID m)
  | EventRoomMessageCreated m => ensureRoomID (RoomMessageEvent.RoomID m)
  | RoomMessageCreatedEvent m => ensureRoomID (RoomMessageEvent.RoomID m)
  | OtherRoomEvent _ => raise ErrUnsupportedEventType
  end.

#[export] Program Instance RoomAggregate_Aggregate : Aggregate RoomAggregate RoomEventData := {|
  Root := RoomAggregate.root;
  setRoot := RoomAggregate.setRoot;
  Transition := roomTransition
|}.
Next Obligation. done. Qed.
Next Obligation. by intros []. Qed.
Next Obligation. done. Qed.

(** [stampLast]: the time of the event that was recorded last. *)
Definition stampLast (ms : Z) (r : AggregateRoot RoomEventData) : AggregateRoot RoomEventData :=
  mkRoot (aggregateID r) (aggregateType r) (version r) (baseVersion r)
    (alter (set_CreatedAt ms) (pred (length (events r))) (events r)).

Definition recordEvent (payload : RoomEventData) (createdAt : Time) : method RoomAggregate unit :=
  _ ← ApplyChange payload;
  modify (updRoot (stampLast (UnixMilli createdAt))).

(** ** Loading *)

(** A member may be nil. *)
Definition attachRestoredMember (member : option RoomMember.t) : method RoomAggregate unit :=
  match member with
  | None => raise ErrRoomMemberRequired
  | Some member =>
      let accountID := TrimSpace (RoomMember.AccountID member) in
      if decide (accountID = "") then raise ErrRoomMemberAccountRequired else
      modify (fun a =>
        let order := match RoomAggregate.members a !! accountID with
                     | Some _ => RoomAggregate.memberOrder a
                     | None => RoomAggregate.memberOrder a ++ [accountID]
                     end in
        RoomAggregate.setMembers (<[accountID := member]> (RoomAggregate.members a)) order a)
  end.

Definition attachMember (member : option RoomMember.t) : method RoomAggregate unit :=
  _ ← attachRestoredMember member;
  match member with
  | None => mret tt
  | Some m =>
      modify (fun a => RoomAggregate.setMemberWrites
        (<[TrimSpace (RoomMember.AccountID m) := m]> (RoomAggregate.memberUpserts a))
        (RoomAggregate.removedMemberIDs a) a)
  end.

(** The value of a call, with the object it was made on. *)
Definition runOn {S A} (m : method S A) (s : S) : result (A * S) :=
  match m s with
  | (Ok a, s') => Ok (a, s')
  | (Err e, _) => Err e
  | (Panic w, _) => Panic w
  end.
Definition exec {S A} (m : method S A) (s : S) : result S :=
  p ← runOn m s;
  Ok p.2.

Definition zeroAggregate : RoomAggregate :=
  RoomAggregate.mk zeroRoot None ∅ [] false false false [] [] ∅ [].

Definition initRoom (id : string) : method RoomAggregate unit := fun a =>
  let '(res, ar) := InitAggregate roomAggregateType id (RoomAggregate.root a) in
  (res, RoomAggregate.setRoot ar a).

Definition RestoreRoomAggregate (room : option Room.t) (members : list (option RoomMember.t))
    (baseVersion : Z) : result RoomAggregate :=
  match room with
  | None => Err ErrRoomAggregateNil
  | Some r =>
      exec (
        _ ← initRoom (Room.ID r);
        _ ← modify (updRoot (SetInternal (Room.ID r) baseVersion baseVersion));
        range members attachRestoredMember)
      (RoomAggregate.setRoom room zeroAggregate)
  end.

Definition NewRoomAggregate (roomID : string) : result RoomAggregate :=
  exec (initRoom roomID) zeroAggregate.

(** ** Reading *)

(** In the order in which they were attached. *)
Definition Members a : list RoomMember.t :=
  omap (fun accountID => RoomAggregate.members a !! accountID) (RoomAggregate.memberOrder a).

Definition PendingOutboxEvents a : list PendingRoomOutboxEvent.t :=
  map (fun evt =>
    let createdAt := if decide (0 < CreatedAt evt) then ofUnixMilli (CreatedAt evt) else UTC clock in
    PendingRoomOutboxEvent.mk (EventName evt) (EventData evt) createdAt)
  (CloneEvents (RoomAggregate.root a)).

(** A Go map is ranged over in any order; the repository sorts the members. *)
Definition PendingMemberUpserts a : list RoomMember.t := (map_to_list (RoomAggregate.memberUpserts a)).*2.

Definition HasPendingRoomWrite a : bool :=
  RoomAggregate.roomDeleted a || RoomAggregate.roomDirty a
  || bool_decide (RoomAggregate.memberUpserts a <> ∅)
  || bool_decide (RoomAggregate.removedMemberIDs a <> [])
  || bool_decide (RoomAggregate.pendingMessages a <> [])
  || bool_decide (RoomAggregate.pendingReceipts a <> [])
  || bool_decide (events (RoomAggregate.root a) <> []).

(** Panics where the room is nil. *)
Definition theRoom : method RoomAggregate Room.t := fun a =>
  match RoomAggregate.room a with
  | Some r => (Ok r, a)
  | None => (Panic "nil pointer dereference", a)
  end.

Definition onRoom {A} (m : method Room.t A) : method RoomAggregate A := fun a =>
  match RoomAggregate.room a with
  | Some r => let '(res, r) := m r in (res, RoomAggregate.setRoom (Some r) a)
  | None => (Panic "nil pointer dereference", a)
  end.

(** [MarkPersisted] of the room. *)
Definition MarkRoomPersisted (base : Z) : method RoomAggregate unit :=
  r ← theRoom;
  modify (fun a =>
    let a := updRoot (SetInternal (Room.ID r) base base) a in
    let a := updRoot MarkPersisted a in
    RoomAggregate.mk (RoomAggregate.root a) (RoomAggregate.room a) (RoomAggregate.members a)
      (RoomAggregate.memberOrder a) false false (RoomAggregate.roomDeleted a) [] [] ∅ []).

(** ** Commands *)

Definition requireMember a (accountID : string) : result RoomMember.t :=
  match RoomAggregate.room a with
  | None => Err ErrRoomAggregateNil
  | Some _ =>
      match RoomAggregate.members a !! TrimSpace accountID with
      | Some member => Ok member
      | None => Err ErrRoomMemberRequired
      end
  end.

(** [a.room.Touch(now)] and [a.roomDirty = true]. *)
Definition dirty : method RoomAggregate unit :=
  modify (fun a => RoomAggregate.setFlags (RoomAggregate.isNew a) true a).
Definition touch (now : Time) : method RoomAggregate unit :=
  onRoom (modify (Touch clock now)).

Definition recordMessageCreated (message : Message.t) (sender : MessageSenderIdentity)
    (outbox : MessageOutboxPayload) (now : Time) : method RoomAggregate unit :=
  r ← theRoom;
  recordEvent (RoomMessageCreatedEvent (RoomMessageEvent.mk
    (Room.ID r) (Room.Name r) (Room.RoomType r) (Message.ID message) (Message.Message message)
    (Message.MessageType message) (Message.ReplyToMessageID message)
    (Message.ForwardedFromMessageID message) (Message.FileName message) (Message.FileSize message)
    (Message.MimeType message) (Message.ObjectKey message) (Message.SenderID message)
    (TrimSpace (senderName sender)) (TrimSpace (senderEmail sender)) (Message.CreatedAt message)
    (outboxMentions outbox) (outboxMentionAll outbox) (outboxMentionedAccountIDs outbox))) now.

Definition queueMessage (message : Message.t) : method RoomAggregate unit :=
  modify (fun a => RoomAggregate.setPending (RoomAggregate.pendingMessages a ++ [message])
                     (RoomAggregate.pendingReceipts a) a).

Definition appendSystemMessage (uuid actorID body : string) (now : Time) :
    method RoomAggregate Message.t :=
  r ← theRoom;
  message ← lift (NewMessage clock uuid (Room.ID r) actorID
    (MessageParams.mk body MessageTypeSystem [] false "" "" "" 0 "" "") now);
  _ ← queueMessage message;
  _ ← touch now;
  _ ← dirty;
  _ ← recordMessageCreated message (mkSender actorID "") (mkOutboxPayload [] false []) now;
  mret message.

Definition recordRoomDetailsUpdated (updatedAt : Time) : method RoomAggregate unit :=
  r ← theRoom;
  recordEvent (EventRoomDetailsUpdated (Room.ID r) (Room.Name r) (Room.Description r)
    (Room.RoomType r) updatedAt) updatedAt.

(** The first guard of [RecordCreated], [ChangeOwner] and [UpdateRoomDetails]. *)
Definition withRoom {A} (m : method RoomAggregate A) : method RoomAggregate A := fun a =>
  match RoomAggregate.room a with
  | None => (Err ErrRoomAggregateNil, a)
  | Some _ => m a
  end.

Definition RecordCreated (memberCount : Z) (now : Time) : method RoomAggregate unit := withRoom (
  r ← theRoom;
  recordEvent (EventRoomCreated (Room.ID r) (Room.RoomType r) memberCount) now).

Definition ChangeOwner (ownerID : string) (updatedAt : Time) : method RoomAggregate bool := withRoom (
  before ← theRoom;
  changed ← onRoom (ChangeRoomOwner clock ownerID updatedAt);
  if negb changed then mret false else
  _ ← dirty;
  r ← theRoom;
  _ ← recordEvent (EventRoomOwnerChanged (Room.ID r) (Room.OwnerID before) (Room.OwnerID r)
        (Room.UpdatedAt r)) (Room.UpdatedAt r);
  mret true).

Definition UpdateRoomDetails (name description roomType : string) (updatedAt : Time) :
    method RoomAggregate bool := withRoom (
  updated ← onRoom (UpdateDetails clock name description roomType updatedAt);
  if negb updated then mret false else
  _ ← dirty;
  r ← theRoom;
  _ ← recordRoomDetailsUpdated (Room.UpdatedAt r);
  mret true).

Definition UpdateGroupDetails (uuid : string) (params : UpdateGroupDetailsParams.t) :
    method RoomAggregate bool :=
  a ← get;
  actor ← lift (requireMember a (UpdateGroupDetailsParams.ActorID params));
  _ ← lift (CanManageGroup actor (RoomAggregate.room a));
  updated ← onRoom (UpdateDetails clock (UpdateGroupDetailsParams.Name params)
    (UpdateGroupDetailsParams.Description params) "" (UpdateGroupDetailsParams.Now params));
  if negb updated then mret false else
  _ ← dirty;
  r ← theRoom;
  _ ← recordRoomDetailsUpdated (Room.UpdatedAt r);
  r ← theRoom;
  _ ← appendSystemMessage uuid (UpdateGroupDetailsParams.SystemActorID params)
        ("group renamed to " +:+ Room.Name r) (UpdateGroupDetailsParams.Now params);
  mret true.

Definition AddMember (uuid actorID : string) (member : option RoomMember.t) (now : Time)
    (systemActorID : string) : method RoomAggregate bool :=
  a ← get;
  actor ← lift (requireMember a actorID);
  _ ← lift (CanManageGroup actor (RoomAggregate.room a));
  match member with
  | None => raise ErrRoomMemberRequired
  | Some m =>
      if decide (is_Some (RoomAggregate.members a !! TrimSpace (RoomMember.AccountID m))) then
        mret false
      else
        _ ← attachMember member;
        _ ← touch now;
        _ ← dirty;
        r ← theRoom;
        _ ← recordEvent (EventRoomMemberAdded (RoomMemberEvent.mk (Room.ID r)
              (RoomMember.AccountID m) (RoomMember.ID m) (RoomMember.DisplayName m)
              (RoomMember.Username m) (RoomMember.AvatarObjectKey m) (RoomMember.Role m)
              (RoomMember.CreatedAt m) (RoomMember.UpdatedAt m))) now;
        _ ← appendSystemMessage uuid systemActorID (RoomMember.AccountID m +:+ " joined") now;
        mret true
  end.

(** The order of the members keeps the id of a member that is removed. *)
Definition RemoveMember (uuid actorID targetAccountID : string) (now : Time)
    (systemActorID : string) : method RoomAggregate bool :=
  a ← get;
  actor ← lift (requireMember a actorID);
  _ ← lift (CanRemoveFrom actor (RoomAggregate.room a) targetAccountID);
  let targetAccountID := TrimSpace targetAccountID in
  match RoomAggregate.members a !! targetAccountID with
  | None => raise ErrRoomMemberRequired
  | Some removedMember =>
      _ ← modify (fun a => RoomAggregate.setMembers (delete targetAccountID (RoomAggregate.members a))
                             (RoomAggregate.memberOrder a) a);
      _ ← modify (fun a => RoomAggregate.setMemberWrites
                             (delete targetAccountID (RoomAggregate.memberUpserts a))
                             (RoomAggregate.removedMemberIDs a ++ [targetAccountID]) a);
      r ← theRoom;
      _ ← recordEvent (EventRoomMemberRemoved (RoomMemberEvent.mk (Room.ID r)
            (RoomMember.AccountID removedMember) (RoomMember.ID removedMember)
            (RoomMember.DisplayName removedMember) (RoomMember.Username removedMember) ""
            (RoomMember.Role removedMember) (RoomMember.CreatedAt removedMember) (UTC now))) now;
      _ ← touch now;
      _ ← dirty;
      _ ← appendSystemMessage uuid systemActorID (targetAccountID +:+ " left") now;
      mret true
  end.

Definition PinMessage (uuid actorID messageID : string) (now : Time) (systemActorID : string) :
    method RoomAggregate unit :=
  a ← get;
  actor ← lift (requireMember a actorID);
  _ ← lift (CanManageGroup actor (RoomAggregate.room a));
  _ ← onRoom (PinRoomMessage clock messageID now);
  _ ← dirty;
  r ← theRoom;
  _ ← recordEvent (EventRoomMessagePinned (Room.ID r) (Room.PinnedMessageID r) (Room.UpdatedAt r)) now;
  _ ← appendSystemMessage uuid systemActorID
        ("message " +:+ Room.PinnedMessageID r +:+ " pinned") now;
  mret tt.

(** The receipts of a message: one per member other than the sender. *)
Definition receiptsFor (message : Message.t) (senderID : string) (now : Time)
    (ms : list RoomMember.t) : list PendingMessageReceipt.t :=
  map (fun m => PendingMessageReceipt.mk (Message.ID message) (RoomMember.AccountID m) "sent"
                  None None (UTC now) (UTC now))
    (filter (fun m => TrimSpace (RoomMember.AccountID m) <> TrimSpace senderID) ms).

Definition SendMessage (messageID senderID : string) (params : MessageParams.t)
    (sender : MessageSenderIdentity) (outbox : MessageOutboxPayload) (now : Time) :
    method RoomAggregate Message.t :=
  a ← get;
  _ ← lift (requireMember a senderID);
  r ← theRoom;
  message ← lift (NewMessage clock messageID (Room.ID r) senderID params now);
  _ ← queueMessage message;
  _ ← modify (fun a => RoomAggregate.setPending (RoomAggregate.pendingMessages a)
        (RoomAggregate.pendingReceipts a ++ receiptsFor message senderID now (Members a)) a);
  _ ← touch now;
  _ ← dirty;
  _ ← recordMessageCreated message sender outbox now;
  mret message.

(** ** Creation *)

Definition NewConversationRoomAggregate (uuid : string) (room : Room.t)
    (members : list (option RoomMember.t)) (systemActorID systemMessage : string) (now : Time) :
    result RoomAggregate :=
  agg ← RestoreRoomAggregate (Some room) members 0;
  exec (
    _ ← modify (fun a => RoomAggregate.setFlags true true a);
    _ ← modify (fun a => RoomAggregate.setMemberWrites
          (foldl (fun ups m => <[TrimSpace (RoomMember.AccountID m) := m]> ups)
             (RoomAggregate.memberUpserts a) (Members a))
          (RoomAggregate.removedMemberIDs a) a);
    a ← get;
    _ ← RecordCreated (Z.of_nat (length (Members a))) (Room.CreatedAt room);
    if decide (TrimSpace systemMessage <> "") then
      _ ← appendSystemMessage uuid systemActorID systemMessage now; mret tt
    else mret tt) agg.

(** ** Recording on an aggregate without a room ([room_aggregate_commands.go]) *)

Definition normalizeRoomEventOccurredAt (value : Time) : result Time :=
  if IsZero value then Err ErrRoomEventOccurredAtRequired else Ok (UTC value).

Definition RecordRoomCreated (roomType : string) (memberCount : Z) : method RoomAggregate unit :=
  a ← get;
  recordEvent (EventRoomCreated (aggregateID (RoomAggregate.root a)) roomType memberCount) (UTC clock).

Definition RecordMemberAdded (memberID memberRole : string) (joinedAt : Time) :
    method RoomAggregate unit :=
  joinedAt ← lift (normalizeRoomEventOccurredAt joinedAt);
  a ← get;
  recordEvent (EventRoomMemberAdded (RoomMemberEvent.mk (aggregateID (RoomAggregate.root a))
    memberID "" "" "" "" memberRole joinedAt Time_zero)) joinedAt.

Definition RecordMemberRemoved (memberID memberRole : string) (removedAt : Time) :
    method RoomAggregate unit :=
  removedAt ← lift (normalizeRoomEventOccurredAt removedAt);
  a ← get;
  recordEvent (EventRoomMemberRemoved (RoomMemberEvent.mk (aggregateID (RoomAggregate.root a))
    memberID "" "" "" "" memberRole removedAt Time_zero)) removedAt.

(** The sender is its id, name and email, the reference the messages replied to
    and forwarded. *)
Definition RecordMessageCreated (messageID content messageType : string) (sentAt : Time)
    (sender : string * string * string) (reference : string * string)
    (mentions : MessageOutboxPayload) (attachment : option FileAttachment.t) :
    method RoomAggregate unit :=
  sentAt ← lift (normalizeRoomEventOccurredAt sentAt);
  a ← get;
  let normalizedAttachment := default (FileAttachment.mk "" "" "" 0) attachment in
  let roomName := default "" (Room.Name <$> RoomAggregate.room a) in
  let roomType := default "" (Room.RoomType <$> RoomAggregate.room a) in
  let '(senderID, name, email) := sender in
  recordEvent (EventRoomMessageCreated (RoomMessageEvent.mk
    (aggregateID (RoomAggregate.root a)) roomName roomType messageID content messageType
    reference.1 reference.2 (FileAttachment.FileName normalizedAttachment)
    (FileAttachment.FileSize normalizedAttachment) (FileAttachment.MimeType normalizedAttachment)
    (FileAttachment.ObjectKey normalizedAttachment) senderID name email sentAt
    (outboxMentions mentions) (outboxMentionAll mentions) (outboxMentionedAccountIDs mentions))) sentAt.
End aggregate.

(** * The message state aggregate (room/domain/aggregate/message_state_aggregate.go)

    A message as a recipient or its sender acts on it after it was sent:
    edits, reactions, deletions and receipts. *)

Definition ErrMessageAggregateNil := Sentinel "ErrMessageAggregateNil".

Module PendingMessageDeletion.
Record t := mk {
  MessageID : string;
  AccountID : string;
  CreatedAt : Time
}.
End PendingMessageDeletion.

(** The constructors refuse a nil message. *)
Module MessageState.
Record t := mk {
  message : Message.t;
  recipientMember : option RoomMember.t;
  messageDirty : bool;
  memberDirty : bool;
  pendingDeletion : option PendingMessageDeletion.t;
  pendingReceipt : option PendingMessageReceipt.t
}.

Definition setMessage (m : Message.t) (a : t) : t :=
  mk m (recipientMember a) (messageDirty a) (memberDirty a) (pendingDeletion a) (pendingReceipt a).
Definition setMessageDirty (a : t) : t :=
  mk (message a) (recipientMember a) true (memberDirty a) (pendingDeletion a) (pendingReceipt a).
Definition setMember (m : option RoomMember.t) (dirty : bool) (a : t) : t :=
  mk (message a) m (messageDirty a) dirty (pendingDeletion a) (pendingReceipt a).
Definition setDeletion (d : option PendingMessageDeletion.t) (a : t) : t :=
  mk (message a) (recipientMember a) (messageDirty a) (memberDirty a) d (pendingReceipt a).
Definition setReceipt (r : option PendingMessageReceipt.t) (a : t) : t :=
  mk (message a) (recipientMember a) (messageDirty a) (memberDirty a) (pendingDeletion a) r.
End MessageState.
Notation MessageStateAggregate := MessageState.t.

Section message.
Context `{UC : UnicodeCase} (clock : Time).
Implicit Types (a : MessageStateAggregate).

(** [NewMessageStateAggregate] is the case without a recipient. *)
Definition NewMessageStateAggregateForRecipient (message : option Message.t)
    (recipientMember : option RoomMember.t) : result MessageStateAggregate :=
  match message with
  | None => Err ErrMessageAggregateNil
  | Some m => Ok (MessageState.mk m recipientMember false false None None)
  end.

Definition NewMessageStateAggregate (message : option Message.t) : result MessageStateAggregate :=
  NewMessageStateAggregateForRecipient message None.

Definition MarkMessagePersisted a : MessageStateAggregate :=
  MessageState.mk (MessageState.message a) (MessageState.recipientMember a) false false None None.

(** Runs a method of the message in place. *)
Definition onMessage {A} (m : method Message.t A) : method MessageStateAggregate A := fun a =>
  let '(res, msg) := m (MessageState.message a) in (res, MessageState.setMessage msg a).

Definition Edit (actorID content : string) (editedAt : Time) : method MessageStateAggregate unit :=
  _ ← onMessage (EditMessage clock actorID content editedAt);
  modify MessageState.setMessageDirty.

Definition ToggleReaction (accountID emoji : string) (reactedAt : Time) :
    method MessageStateAggregate unit :=
  changed ← onMessage (ToggleMessageReaction clock accountID emoji reactedAt);
  if changed : bool then modify MessageState.setMessageDirty else mret tt.

Definition Delete (actorID accountID scope : string) (now : Time) :
    method MessageStateAggregate unit :=
  let s := LowerTrim scope in
  if decide (s = "" \/ s = "me") then
    modify (fun a => MessageState.setDeletion
      (Some (PendingMessageDeletion.mk (Message.ID (MessageState.message a)) (TrimSpace accountID)
               (UTC now))) a)
  else if decide (s = "everyone") then
    _ ← onMessage (DeleteForEveryone clock actorID now);
    modify MessageState.setMessageDirty
  else raise (Errorf "scope must be one of: me, everyone" []).

Definition MarkStatus (accountID status : string) (member : option RoomMember.t) (now : Time) :
    method MessageStateAggregate bool := fun a =>
  let accountID := TrimSpace accountID in
  if decide (accountID = "" \/ accountID = TrimSpace (Message.SenderID (MessageState.message a))) then
    (Ok false, a)
  else
  match NormalizeReceiptStatus status with
  | Err e => (Err e, a)
  | Panic w => (Panic w, a)
  | Ok normalizedStatus =>
      let member := match member with Some m => Some m | None => MessageState.recipientMember a end in
      let receipt (s : string) (d r : option Time) :=
        Some (PendingMessageReceipt.mk (Message.ID (MessageState.message a)) accountID s d r
                (UTC now) (UTC now)) in
      match member with
      | Some m =>
          match ApplyReceiptStatus clock normalizedStatus now m with
          | (Ok (s, d, r), m) =>
              (Ok true, MessageState.setReceipt (receipt s d r) (MessageState.setMember (Some m) true a))
          | (Err e, m) => (Err e, MessageState.setMember (Some m) (MessageState.memberDirty a) a)
          | (Panic w, m) => (Panic w, MessageState.setMember (Some m) (MessageState.memberDirty a) a)
          end
      | None =>
          let d := Some (UTC now) in
          let r := if decide (normalizedStatus = "seen") then d else None in
          (Ok true, MessageState.setReceipt (receipt normalizedStatus d r)
                      (MessageState.setMember None (MessageState.memberDirty a) a))
      end
  end.
End message.
