(* ===== verification/RoomSpec.v ===== *)
(** * What a room command does

    [commandSpec] says, from the room and its members alone, what a command of
    an actor does: nothing, an error, or an effect - the room it leaves, a
    member who joins or leaves, messages, receipts and events.
    [runCommand_spec] proves that the aggregate does exactly that. *)

From stdpp Require Import prelude strings gmap.
From S2P Require Import Prelude GoStrings GoSort Event RoomEntity RoomEntitySpec RoomAggregate.
Import RoomError.

(** ** Effects *)

Inductive MemberChange : Type :=
  | NoMemberChange
  | MemberJoins (m : RoomMember.t)
  | MemberLeaves (accountID : string).

Record RoomEffect := mkEffect {
  effRoom : Room.t;
  effChange : MemberChange;
  effMessages : list Message.t;
  effReceipts : list PendingMessageReceipt.t;
  effEvents : list (RoomEventData * Time)
}.

Inductive RoomCommand : Type :=
  | CmdUpdateGroup (name description : string)
  | CmdAdd (member : RoomMember.t)
  | CmdRemove (target : string)
  | CmdPin (messageID : string)
  | CmdSend (params : MessageParams.t) (sender : MessageSenderIdentity) (outbox : MessageOutboxPayload).

(** The root after an event was recorded at a time. *)
Definition pushEvent (r : AggregateRoot RoomEventData) (ev : RoomEventData * Time) :
    AggregateRoot RoomEventData :=
  stampLast (UnixMilli ev.2)
    (appendEvent (mkEvent 0 (aggregateID r) (aggregateType r) (nextVersion r) (event_name ev.1) ev.1 0) r).

Section spec.
Context `{UC : UnicodeCase} (clock : Time).
Implicit Types (a : RoomAggregate) (r : Room.t) (ms : gmap string RoomMember.t).

Definition accountKey (m : RoomMember.t) : string := TrimSpace (RoomMember.AccountID m).

Definition changeMembers (c : MemberChange) ms : gmap string RoomMember.t :=
  match c with
  | NoMemberChange => ms
  | MemberJoins m => <[accountKey m := m]> ms
  | MemberLeaves k => delete k ms
  end.

(** The aggregate after the effect. *)
Definition performed (e : RoomEffect) a : RoomAggregate :=
  RoomAggregate.mk (foldl pushEvent (RoomAggregate.root a) (effEvents e)) (Some (effRoom e))
    (changeMembers (effChange e) (RoomAggregate.members a))
    (match effChange e with
     | MemberJoins m => RoomAggregate.memberOrder a ++ [accountKey m]
     | _ => RoomAggregate.memberOrder a
     end)
    (RoomAggregate.isNew a) true (RoomAggregate.roomDeleted a)
    (RoomAggregate.pendingMessages a ++ effMessages e)
    (RoomAggregate.pendingReceipts a ++ effReceipts e)
    (changeMembers (effChange e) (RoomAggregate.memberUpserts a))
    (match effChange e with
     | MemberLeaves k => RoomAggregate.removedMemberIDs a ++ [k]
     | _ => RoomAggregate.removedMemberIDs a
     end).

(** ** The specification *)

Definition messageEvent r (m : Message.t) (sender : MessageSenderIdentity)
    (outbox : MessageOutboxPayload) : RoomEventData :=
  RoomMessageCreatedEvent (RoomMessageEvent.mk
    (Room.ID r) (Room.Name r) (Room.RoomType r) (Message.ID m) (Message.Message m)
    (Message.MessageType m) (Message.ReplyToMessageID m) (Message.ForwardedFromMessageID m)
    (Message.FileName m) (Message.FileSize m) (Message.MimeType m) (Message.ObjectKey m)
    (Message.SenderID m) (TrimSpace (senderName sender)) (TrimSpace (senderEmail sender))
    (Message.CreatedAt m) (outboxMentions outbox) (outboxMentionAll outbox)
    (outboxMentionedAccountIDs outbox)).

Definition systemMessage r (uuid actor body : string) (now : Time) : Message.t :=
  Message.mk (TrimSpace uuid) (TrimSpace (Room.ID r)) (TrimSpace actor) (TrimSpace body)
    MessageTypeSystem [] [] false "" "" "" 0 "" "" None None (normalizeRoomTime clock now).

(** An effect that is announced by a system message of the actor. *)
Definition announced r (change : MemberChange) (ev : RoomEventData * Time) (uuid actor body : string)
    (now : Time) : RoomEffect :=
  let m := systemMessage r uuid actor body now in
  mkEffect r change [m] []
    [ev; (messageEvent r m (mkSender actor "") (mkOutboxPayload [] false []), now)].

Definition touched (now : Time) r : Room.t := Room.setUpdatedAt (normalizeRoomTime clock now) r.

(** A name that is not blank, and the description. *)
Definition renamed (name description : string) r : Room.t :=
  Room.setDescription (TrimSpace description)
    (Room.setName (if decide (TrimSpace name <> "") then TrimSpace name else Room.Name r) r).

(** [everyone] are the members in their order. *)
Definition commandSpec (uuid actor : string) (now : Time) r ms (everyone : list RoomMember.t)
    (c : RoomCommand) : result (option RoomEffect) :=
  match ms !! TrimSpace actor with
  | None => Err ErrRoomMemberRequired
  | Some actorMember =>
      match c with
      | CmdSend params sender outbox =>
          m ← NewMessage clock uuid (Room.ID r) actor params now;
          Ok (Some (mkEffect (touched now r) NoMemberChange [m] (receiptsFor m actor now everyone)
                      [(messageEvent r m sender outbox, now)]))
      | CmdUpdateGroup name description =>
          _ ← CanManageGroup actorMember (Some r);
          if decide (renamed name description r = r) then Ok None else
          let r' := touched now (renamed name description r) in
          Ok (Some (announced r' NoMemberChange
            (EventRoomDetailsUpdated (Room.ID r) (Room.Name r') (Room.Description r')
               (Room.RoomType r) (Room.UpdatedAt r'), Room.UpdatedAt r')
            uuid actor ("group renamed to " +:+ Room.Name r') now))
      | CmdAdd m =>
          _ ← CanManageGroup actorMember (Some r);
          if decide (is_Some (ms !! accountKey m)) then Ok None
          else if decide (accountKey m = "") then Err ErrRoomMemberAccountRequired else
          Ok (Some (announced (touched now r) (MemberJoins m)
            (EventRoomMemberAdded (RoomMemberEvent.mk (Room.ID r) (RoomMember.AccountID m)
               (RoomMember.ID m) (RoomMember.DisplayName m) (RoomMember.Username m)
               (RoomMember.AvatarObjectKey m) (RoomMember.Role m) (RoomMember.CreatedAt m)
               (RoomMember.UpdatedAt m)), now)
            uuid actor (RoomMember.AccountID m +:+ " joined") now))
      | CmdRemove target =>
          _ ← CanRemoveFrom actorMember (Some r) target;
          match ms !! TrimSpace target with
          | None => Err ErrRoomMemberRequired
          | Some m =>
              Ok (Some (announced (touched now r) (MemberLeaves (TrimSpace target))
                (EventRoomMemberRemoved (RoomMemberEvent.mk (Room.ID r) (RoomMember.AccountID m)
                   (RoomMember.ID m) (RoomMember.DisplayName m) (RoomMember.Username m) ""
                   (RoomMember.Role m) (RoomMember.CreatedAt m) (UTC now)), now)
                uuid actor (TrimSpace target +:+ " left") now))
          end
      | CmdPin messageID =>
          _ ← CanManageGroup actorMember (Some r);
          if decide (TrimSpace messageID = "") then Err ErrRoomMessageIDRequired else
          let r' := Room.setPinned (TrimSpace messageID) (normalizeRoomTime clock now) r in
          Ok (Some (announced r' NoMemberChange
            (EventRoomMessagePinned (Room.ID r) (TrimSpace messageID) (Room.UpdatedAt r'), now)
            uuid actor ("message " +:+ TrimSpace messageID +:+ " pinned") now))
      end
  end.

(** The command as the handlers call it: the actor is the author of the system
    message. *)
Definition runCommand (uuid actor : string) (now : Time) (c : RoomCommand) :
    method RoomAggregate bool :=
  match c with
  | CmdUpdateGroup name description =>
      UpdateGroupDetails clock uuid (UpdateGroupDetailsParams.mk actor name description now actor)
  | CmdAdd m => AddMember clock uuid actor (Some m) now actor
  | CmdRemove target => RemoveMember clock uuid actor target now actor
  | CmdPin messageID => _ ← PinMessage clock uuid actor messageID now actor; mret true
  | CmdSend params sender outbox => _ ← SendMessage clock uuid actor params sender outbox now; mret true
  end.

(** ** The invariant of an aggregate *)

Definition room_ok r : Prop := Room.ID r <> "" /\ trimmed (Room.ID r).

Definition members_ok ms : Prop :=
  forall k m, ms !! k = Some m -> k = accountKey m /\ k <> "".

Record room_wf a r : Prop := {
  rw_room : RoomAggregate.room a = Some r;
  rw_ok : room_ok r;
  rw_id : aggregateID (RoomAggregate.root a) = Room.ID r;
  rw_members : members_ok (RoomAggregate.members a)
}.

(** ** Recording *)

Definition eventRoomID (d : RoomEventData) : option string :=
  match d with
  | EventRoomCreated _ _ _ | OtherRoomEvent _ => None
  | EventRoomOwnerChanged id _ _ _ | EventRoomDetailsUpdated id _ _ _ _
  | EventRoomMessagePinned id _ _ => Some id
  | EventRoomMemberAdded m | EventRoomMemberRemoved m => Some (RoomMemberEvent.RoomID m)
  | EventRoomMessageCreated m | RoomMessageCreatedEvent m => Some (RoomMessageEvent.RoomID m)
  end.

Lemma recordEvent_run a d id (at_ : Time) :
  aggregateID (RoomAggregate.root a) = id -> id <> "" -> trimmed id -> eventRoomID d = Some id ->
  recordEvent d at_ a = (Ok tt, RoomAggregate.setRoot (pushEvent (RoomAggregate.root a) (d, at_)) a).
Proof.
  intros Hid Hne Ht Hd. unfold recordEvent, ApplyChange, mbind, method_bind. cbn [Root RoomAggregate_Aggregate].
  rewrite decide_False by congruence. cbn [payload_nil RoomEventPayload].
  rewrite (decide_False (P := event_name d = "")) by (by destruct d; cbn in Hd).
  assert (forall e a', EventData e = d -> aggregateID (RoomAggregate.root a') = id ->
    Transition e a' = (Ok tt, a')) as Htr.
  { intros e a' He Ha'. cbn. unfold roomTransition. rewrite He.
    assert (ensureRoomID id a' = (Ok tt, a')) as Hens.
    { unfold ensureRoomID. unfold trimmed in Ht. rewrite Ht, Ha'.
      rewrite !decide_False by (done || congruence). done. }
    destruct d; cbn in Hd; try discriminate Hd; injection Hd as Hd; by rewrite Hd. }
  rewrite Htr by done. done.
Qed.

Lemma foldl_pushEvent_id evs (ar : AggregateRoot RoomEventData) :
  aggregateID (foldl pushEvent ar evs) = aggregateID ar /\
  baseVersion (foldl pushEvent ar evs) = baseVersion ar.
Proof. revert ar. induction evs as [|ev evs IH]; intros ar; cbn; [done|]. exact (IH (pushEvent ar ev)). Qed.

Lemma NewMessage_system r uuid actor body (now : Time) :
  room_ok r -> TrimSpace uuid <> "" -> TrimSpace actor <> "" ->
  NewMessage clock uuid (Room.ID r) actor
    (MessageParams.mk body MessageTypeSystem [] false "" "" "" 0 "" "") now
  = Ok (systemMessage r uuid actor body now).
Proof.
  intros [Hne Ht] Hu Ha. unfold NewMessage, systemMessage. cbn [MessageParams.Mentions MessageParams.MessageType].
  assert (NormalizeMessageType MessageTypeSystem = MessageTypeSystem) as -> by reflexivity.
  cbn [NormalizeMessageMentions normalizeMentionsFrom mbind result_bind].
  rewrite (decide_False (P := TrimSpace uuid = "")) by done.
  rewrite decide_False by (unfold trimmed in Ht; congruence).
  rewrite (decide_False (P := TrimSpace actor = "")) by done.
  rewrite decide_False by done. rewrite decide_False by (by intros [? _]).
  rewrite decide_False; [done|]. intros [H _]. set_solver.
Qed.

(** Where the room of [a] is [r], already touched or not. *)
Lemma appendSystemMessage_run a r uuid actor body (now : Time) :
  room_wf a r -> TrimSpace uuid <> "" -> TrimSpace actor <> "" ->
  let r' := touched now r in
  let m := systemMessage r' uuid actor body now in
  appendSystemMessage clock uuid actor body now a =
    (Ok m, RoomAggregate.mk
       (pushEvent (RoomAggregate.root a)
          (messageEvent r' m (mkSender actor "") (mkOutboxPayload [] false []), now))
       (Some r') (RoomAggregate.members a) (RoomAggregate.memberOrder a) (RoomAggregate.isNew a) true
       (RoomAggregate.roomDeleted a) (RoomAggregate.pendingMessages a ++ [m])
       (RoomAggregate.pendingReceipts a) (RoomAggregate.memberUpserts a)
       (RoomAggregate.removedMemberIDs a)).
Proof.
  intros [Hr [Hne Ht] Hid _] Hu Ha r' m. destruct a as [ar room ms order new dty del pm pr ups rem].
  cbn in Hr, Hid. subst room. subst m.
  unfold appendSystemMessage, recordMessageCreated, mbind, method_bind.
  cbn -[NewMessage recordEvent systemMessage]. rewrite NewMessage_system by done.
  cbn -[NewMessage recordEvent systemMessage].
  rewrite (recordEvent_run _ _ (Room.ID r)); done.
Qed.

(** ** The commands *)

(** The last step of the commands that announce themselves: the system message,
    after their event. *)
Lemma announce_run a r d (at_ : Time) uuid actor body (now : Time) :
  room_wf a r -> TrimSpace uuid <> "" -> TrimSpace actor <> "" ->
  touched now r = r -> RoomAggregate.roomDirty a = true ->
  appendSystemMessage clock uuid actor body now
    (RoomAggregate.setRoot (pushEvent (RoomAggregate.root a) (d, at_)) a) =
  (Ok (systemMessage r uuid actor body now),
   performed (announced r NoMemberChange (d, at_) uuid actor body now) a).
Proof.
  intros [Hr [Hne Ht] Hid Hms] Hu Ha Htouch Hd.
  rewrite (appendSystemMessage_run _ r) by (done || by split).
  rewrite Htouch. destruct a as [ar room ms order new dty del pm pr ups rem]. cbn in *. subst.
  unfold performed, announced. cbn. by rewrite app_nil_r.
Qed.

Lemma theRoom_run a r : RoomAggregate.room a = Some r -> theRoom a = (Ok r, a).
Proof. unfold theRoom. by intros ->. Qed.

Lemma touch_run a r (now : Time) :
  RoomAggregate.room a = Some r ->
  touch clock now a = (Ok tt, RoomAggregate.setRoom (Some (touched now r)) a).
Proof. unfold touch, onRoom. by intros ->. Qed.

Lemma touched_idem (now : Time) r : touched now (touched now r) = touched now r.
Proof. done. Qed.

Lemma renamed_same name description r :
  renamed name description r = r <->
  ~ (TrimSpace name <> "" /\ TrimSpace name <> Room.Name r) /\
  TrimSpace description = Room.Description r.
Proof.
  destruct r as [id n d o ty dk pin c u]. unfold renamed, Room.setDescription, Room.setName. cbn.
  split.
  - intros [= Hn Hd]. case_decide; split; tauto || congruence.
  - intros [Hn ->]. f_equal. case_decide; [|done]. destruct (decide (TrimSpace name = n)); tauto.
Qed.

Lemma UpdateDetails_run name description (now : Time) r :
  UpdateDetails clock name description "" now r =
    (if decide (renamed name description r = r) then (Ok false, r)
     else (Ok true, touched now (renamed name description r))).
Proof.
  unfold UpdateDetails. assert (NormalizeRoomType "" = "") as -> by reflexivity.
  destruct (decide (TrimSpace name <> "" /\ TrimSpace name <> Room.Name r)) as [Hn|Hn],
    (decide (TrimSpace description <> Room.Description r)) as [Hd|Hd].
  all: destruct (decide (renamed name description r = r)) as [Hs|Hs];
    rewrite renamed_same in Hs; try tauto.
  all: unfold renamed, touched; destruct r as [id n d o ty dk pin c u]; cbn in *.
  3: assert ((if decide (TrimSpace name <> "") then TrimSpace name else n) = n) as ->
    by (case_decide; [destruct (decide (TrimSpace name = n)); tauto|done]).
  all: repeat first [rewrite decide_True by tauto
                    |rewrite decide_False by (tauto || (intros [? _]; done))]; try reflexivity.
  apply dec_stable in Hd. by rewrite Hd.
Qed.

Ltac room_cases a :=
  destruct a as [ar room ms order new dty del pm pr ups rem].

Section commands.
Context (uuid actor : string) (now : Time) (a : RoomAggregate) (r : Room.t).
Hypothesis Hwf : room_wf a r.
Hypothesis Huuid : TrimSpace uuid <> "".

Definition outcome (c : RoomCommand) : result (option RoomEffect) :=
  commandSpec uuid actor now r (RoomAggregate.members a) (Members a) c.

(** What the code must do for what the specification says. *)
Definition obeys (m : method RoomAggregate bool) (o : result (option RoomEffect)) : Prop :=
  m a = match o with
        | Ok (Some e) => (Ok true, performed e a)
        | Ok None => (Ok false, a)
        | Err e => (Err e, a)
        | Panic w => (Panic w, a)
        end.

Lemma requireMember_run :
  requireMember a actor =
    match RoomAggregate.members a !! TrimSpace actor with
    | Some m => Ok m
    | None => Err ErrRoomMemberRequired
    end.
Proof. unfold requireMember. by rewrite (rw_room _ _ Hwf). Qed.

Lemma member_actor m : RoomAggregate.members a !! TrimSpace actor = Some m -> TrimSpace actor <> "".
Proof. intros H. by apply (rw_members _ _ Hwf) in H as [_ H]. Qed.

Lemma UpdateGroup_obeys name description :
  obeys (runCommand uuid actor now (CmdUpdateGroup name description))
    (outcome (CmdUpdateGroup name description)).
Proof.
  unfold obeys, outcome, commandSpec. cbn [runCommand]. unfold UpdateGroupDetails.
  rewrite get_bind_run, lift_bind_run. cbn [UpdateGroupDetailsParams.ActorID
    UpdateGroupDetailsParams.Name UpdateGroupDetailsParams.Description
    UpdateGroupDetailsParams.Now UpdateGroupDetailsParams.SystemActorID].
  rewrite requireMember_run. destruct (RoomAggregate.members a !! TrimSpace actor) as [m|] eqn:Hm; [|done].
  apply member_actor in Hm. rewrite lift_bind_run, (rw_room _ _ Hwf).
  destruct (CanManageGroup m (Some r)) as [[]|e|w]; [|done|done]. cbn [mbind result_bind].
  rewrite bind_run. unfold onRoom. rewrite (rw_room _ _ Hwf), UpdateDetails_run.
  destruct Hwf as [Hr Hok Hid Hms]. destruct (decide (renamed name description r = r)) as [Hsame|Hsame].
  { room_cases a. cbn in Hr. by subst. }
  cbn [negb]. set (r' := touched now (renamed name description r)).
  set (d := EventRoomDetailsUpdated (Room.ID r) (Room.Name r') (Room.Description r') (Room.RoomType r)
              (Room.UpdatedAt r')).
  unfold dirty. rewrite modify_bind_run. set (a' := RoomAggregate.setFlags _ true _).
  assert (room_wf a' r') as Hwf' by (by split).
  rewrite bind_run, (theRoom_run _ r') by done. rewrite bind_run.
  unfold recordRoomDetailsUpdated at 1. rewrite bind_run, (theRoom_run _ r') by done.
  rewrite (recordEvent_run _ d (Room.ID r)) by (done || apply Hok).
  rewrite bind_run, (theRoom_run _ r') by done.
  by rewrite bind_run, (announce_run a' r' d _ uuid actor _ now Hwf' Huuid Hm eq_refl eq_refl).
Qed.

Lemma Add_obeys m :
  obeys (runCommand uuid actor now (CmdAdd m)) (outcome (CmdAdd m)).
Proof.
  unfold obeys, outcome, commandSpec. cbn [runCommand]. unfold AddMember.
  rewrite get_bind_run, lift_bind_run, requireMember_run.
  destruct (RoomAggregate.members a !! TrimSpace actor) as [am|] eqn:Hm; [|done].
  apply member_actor in Hm. rewrite lift_bind_run, (rw_room _ _ Hwf).
  destruct (CanManageGroup am (Some r)) as [[]|e|w]; [|done|done]. cbn [mbind result_bind].
  fold (accountKey m).
  destruct (decide (is_Some (RoomAggregate.members a !! accountKey m))) as [Hin|Hout]; [done|].
  destruct Hwf as [Hr Hok Hid Hms]. rewrite bind_run. unfold attachMember. rewrite bind_run.
  unfold attachRestoredMember. fold (accountKey m). destruct (decide (accountKey m = "")) as [Hk|Hk]; [done|].
  cbn [modify]. apply eq_None_not_Some in Hout. rewrite Hout.
  set (r' := touched now r).
  set (d := EventRoomMemberAdded (RoomMemberEvent.mk (Room.ID r) (RoomMember.AccountID m)
       (RoomMember.ID m) (RoomMember.DisplayName m) (RoomMember.Username m)
       (RoomMember.AvatarObjectKey m) (RoomMember.Role m) (RoomMember.CreatedAt m)
       (RoomMember.UpdatedAt m))).
  set (a1 := RoomAggregate.setMemberWrites _ _ _).
  rewrite bind_run, (touch_run _ r) by done. unfold dirty. rewrite modify_bind_run.
  set (a' := RoomAggregate.setFlags _ true _). assert (room_wf a' r') as Hwf'.
  { split; [done..|]. intros k x. cbn. destruct (decide (k = accountKey m)) as [->|Hne].
    - rewrite lookup_insert_eq. by intros [= <-].
    - rewrite lookup_insert_ne by done. apply Hms. }
  rewrite bind_run, (theRoom_run _ r') by done. rewrite bind_run.
  rewrite (recordEvent_run _ d (Room.ID r)) by (done || apply Hok).
  by rewrite bind_run, (announce_run a' r' d _ uuid actor _ now Hwf' Huuid Hm eq_refl eq_refl).
Qed.

Lemma Remove_obeys target :
  obeys (runCommand uuid actor now (CmdRemove target)) (outcome (CmdRemove target)).
Proof.
  unfold obeys, outcome, commandSpec. cbn [runCommand]. unfold RemoveMember.
  rewrite get_bind_run, lift_bind_run, requireMember_run.
  destruct (RoomAggregate.members a !! TrimSpace actor) as [am|] eqn:Hm; [|done].
  apply member_actor in Hm. rewrite lift_bind_run, (rw_room _ _ Hwf).
  destruct (CanRemoveFrom am (Some r) target) as [[]|e|w]; [|done|done]. cbn [mbind result_bind].
  destruct (RoomAggregate.members a !! TrimSpace target) as [m|] eqn:Ht; [|done].
  destruct Hwf as [Hr Hok Hid Hms]. rewrite !modify_bind_run, bind_run.
  set (k := TrimSpace target) in *. set (r' := touched now r).
  assert (members_ok (delete k (RoomAggregate.members a))) as Hms'.
  { intros k' x [_ H]%lookup_delete_Some. by apply Hms. }
  set (d := EventRoomMemberRemoved (RoomMemberEvent.mk (Room.ID r) (RoomMember.AccountID m)
       (RoomMember.ID m) (RoomMember.DisplayName m) (RoomMember.Username m) ""
       (RoomMember.Role m) (RoomMember.CreatedAt m) (UTC now))).
  set (a1 := RoomAggregate.setMemberWrites _ _ _).
  rewrite (theRoom_run _ r) by done. rewrite bind_run.
  rewrite (recordEvent_run _ d (Room.ID r)) by (done || apply Hok).
  rewrite bind_run, (touch_run _ r) by done. unfold dirty. rewrite modify_bind_run.
  change (RoomAggregate.setFlags _ true _) with
    (RoomAggregate.setRoot (pushEvent (RoomAggregate.root a1) (d, now))
       (RoomAggregate.setFlags (RoomAggregate.isNew a) true (RoomAggregate.setRoom (Some r') a1))).
  set (a' := RoomAggregate.setFlags _ true _). assert (room_wf a' r') as Hwf' by (by split).
  change (RoomAggregate.root a1) with (RoomAggregate.root a').
  by rewrite bind_run, (announce_run a' r' d _ uuid actor _ now Hwf' Huuid Hm eq_refl eq_refl).
Qed.

Lemma Pin_obeys messageID :
  obeys (runCommand uuid actor now (CmdPin messageID)) (outcome (CmdPin messageID)).
Proof.
  unfold obeys, outcome, commandSpec. cbn [runCommand]. rewrite bind_run. unfold PinMessage.
  rewrite get_bind_run, lift_bind_run, requireMember_run.
  destruct (RoomAggregate.members a !! TrimSpace actor) as [am|] eqn:Hm; [|done].
  apply member_actor in Hm. rewrite lift_bind_run, (rw_room _ _ Hwf).
  destruct (CanManageGroup am (Some r)) as [[]|e|w]; [|done|done]. cbn [mbind result_bind].
  rewrite bind_run. unfold onRoom, PinRoomMessage. rewrite (rw_room _ _ Hwf).
  destruct Hwf as [Hr Hok Hid Hms]. destruct (decide (TrimSpace messageID = "")) as [He|He].
  { room_cases a. cbn in Hr. by subst. }
  set (r' := Room.setPinned (TrimSpace messageID) (normalizeRoomTime clock now) r).
  set (d := EventRoomMessagePinned (Room.ID r) (TrimSpace messageID) (Room.UpdatedAt r')).
  unfold dirty. rewrite modify_bind_run. set (a' := RoomAggregate.setFlags _ true _).
  assert (room_wf a' r') as Hwf' by (by split).
  rewrite bind_run, (theRoom_run _ r') by done. rewrite bind_run.
  rewrite (recordEvent_run _ d (Room.ID r)) by (done || apply Hok).
  by rewrite bind_run, (announce_run a' r' d _ uuid actor _ now Hwf' Huuid Hm eq_refl eq_refl).
Qed.

Lemma Send_obeys params sender outbox :
  obeys (runCommand uuid actor now (CmdSend params sender outbox)) (outcome (CmdSend params sender outbox)).
Proof.
  unfold obeys, outcome, commandSpec. cbn [runCommand]. rewrite bind_run. unfold SendMessage.
  rewrite get_bind_run, lift_bind_run, requireMember_run.
  destruct (RoomAggregate.members a !! TrimSpace actor) as [am|] eqn:Hm; [|done].
  destruct Hwf as [Hr Hok Hid Hms].
  rewrite bind_run, (theRoom_run _ r) by done. rewrite lift_bind_run.
  destruct (NewMessage clock uuid (Room.ID r) actor params now) as [m|e|w]; [|done|done].
  cbn [mbind result_bind]. unfold queueMessage, dirty. rewrite !modify_bind_run.
  rewrite bind_run, (touch_run _ r) by done. rewrite modify_bind_run, bind_run.
  unfold recordMessageCreated. rewrite bind_run, (theRoom_run _ (touched now r)) by done.
  rewrite (recordEvent_run _ _ (Room.ID r)) by (done || apply Hok).
  done.
Qed.

(** The aggregate does what the specification says. *)
Lemma runCommand_spec c : obeys (runCommand uuid actor now c) (outcome c).
Proof.
  destruct c; [apply UpdateGroup_obeys|apply Add_obeys|apply Remove_obeys|apply Pin_obeys|apply Send_obeys].
Qed.
End commands.

(** ** Loading and creating *)

(** The members by their account. *)
Definition memberMapOf (l : list RoomMember.t) : gmap string RoomMember.t :=
  foldl (fun ms m => <[accountKey m := m]> ms) ∅ l.

(** A room as it is loaded, with its members in their order. *)
Definition restored r (l : list RoomMember.t) (base : Z) : RoomAggregate :=
  RoomAggregate.mk (mkRoot (Room.ID r) roomAggregateType base base []) (Some r) (memberMapOf l)
    (accountKey <$> l) false false false [] [] ∅ [].

Definition named_members (l : list RoomMember.t) : Prop :=
  Forall (fun m => accountKey m <> "") l /\ NoDup (accountKey <$> l).

Lemma foldl_memberMap_lookup l ms k :
  NoDup (accountKey <$> l) ->
  foldl (fun ms m => <[accountKey m := m]> ms) ms l !! k =
    match List.find (fun m => bool_decide (accountKey m = k)) l with
    | Some m => Some m
    | None => ms !! k
    end.
Proof.
  revert ms. induction l as [|m l IH]; intros ms; cbn; [done|]. intros [Hm Hd]%NoDup_cons.
  rewrite IH by done. case_bool_decide as Hk.
  - subst k. destruct (List.find _ l) as [x|] eqn:E; [|by rewrite lookup_insert_eq].
    apply find_some in E as [Hin Hx]. apply bool_decide_eq_true in Hx. exfalso. apply Hm.
    rewrite <- Hx. by apply list_elem_of_fmap_2, list_elem_of_In.
  - by rewrite lookup_insert_ne.
Qed.

Lemma memberMapOf_Some l k m :
  NoDup (accountKey <$> l) -> memberMapOf l !! k = Some m <-> m ∈ l /\ accountKey m = k.
Proof.
  intros Hd. unfold memberMapOf. rewrite foldl_memberMap_lookup, lookup_empty by done. split.
  - destruct (List.find _ l) as [x|] eqn:E; [|done]. intros [= <-].
    apply find_some in E as [Hin Hx]. apply bool_decide_eq_true in Hx.
    by rewrite list_elem_of_In.
  - intros [Hin Hk]. destruct (List.find _ l) as [x|] eqn:E.
    + apply find_some in E as [Hx Hxk]. apply bool_decide_eq_true in Hxk. f_equal.
      apply list_elem_of_In in Hx.
      apply list_elem_of_lookup in Hin as [i Hi], Hx as [j Hj].
      assert (i = j) as ->; [|congruence].
      eapply NoDup_lookup; [exact Hd| |]; rewrite list_lookup_fmap.
      * by rewrite Hi.
      * rewrite Hj. cbn. congruence.
    + apply list_elem_of_In in Hin. eapply find_none in E; [|exact Hin].
      apply bool_decide_eq_false in E. done.
Qed.

Lemma memberMapOf_ok l : named_members l -> members_ok (memberMapOf l).
Proof.
  intros [Hn Hd] k m [Hin <-]%memberMapOf_Some; [|done]. split; [done|].
  rewrite Forall_forall in Hn. by apply Hn.
Qed.

Lemma attach_run a m :
  accountKey m <> "" ->
  attachRestoredMember (Some m) a =
    (Ok tt, RoomAggregate.setMembers (<[accountKey m := m]> (RoomAggregate.members a))
       (match RoomAggregate.members a !! accountKey m with
        | Some _ => RoomAggregate.memberOrder a
        | None => RoomAggregate.memberOrder a ++ [accountKey m]
        end) a).
Proof. intros H. unfold attachRestoredMember. fold (accountKey m). by rewrite decide_False. Qed.

Lemma attachAll_run a l :
  Forall (fun m => accountKey m <> "") l -> NoDup (accountKey <$> l) ->
  (forall m, m ∈ l -> RoomAggregate.members a !! accountKey m = None) ->
  range (map Some l) attachRestoredMember a =
    (Ok tt, RoomAggregate.setMembers
       (foldl (fun ms m => <[accountKey m := m]> ms) (RoomAggregate.members a) l)
       (RoomAggregate.memberOrder a ++ (accountKey <$> l)) a).
Proof.
  revert a. induction l as [|m l IH]; intros a Hn Hd Hout; cbn [map range].
  - rewrite app_nil_r. by destruct a.
  - apply Forall_cons_1 in Hn as [Hm Hn]. apply NoDup_cons in Hd as [Hx Hd].
    rewrite bind_run, attach_run by done. rewrite Hout by (by left). rewrite IH; [|done|done|].
    + cbn. by rewrite <- app_assoc.
    + intros x Hxin. cbn. rewrite lookup_insert_ne.
      * apply Hout. by right.
      * intros Heq. apply Hx. rewrite Heq. by apply list_elem_of_fmap_2.
Qed.

Lemma RestoreRoomAggregate_run r l base :
  room_ok r -> named_members l ->
  RestoreRoomAggregate (Some r) (map Some l) base = Ok (restored r l base).
Proof.
  intros [Hne Ht] [Hn Hd]. unfold RestoreRoomAggregate, exec, runOn.
  assert (initRoom (Room.ID r) (RoomAggregate.setRoom (Some r) zeroAggregate) =
    (Ok tt, RoomAggregate.setRoot (mkRoot (Room.ID r) roomAggregateType 0 0 [])
              (RoomAggregate.setRoom (Some r) zeroAggregate))) as Hi.
  { unfold initRoom, InitAggregate. rewrite decide_False by done. rewrite modify_bind_run.
    unfold trimmed in Ht. rewrite Ht. unfold SetID. rewrite decide_False by done.
    rewrite decide_False by (by intros [? _]). done. }
  rewrite bind_run, Hi, modify_bind_run.
  rewrite attachAll_run by (done || intros; apply lookup_empty). done.
Qed.

Lemma Members_restored r l base : named_members l -> Members (restored r l base) = l.
Proof.
  intros [Hn Hd]. unfold Members. cbn [restored RoomAggregate.members RoomAggregate.memberOrder].
  assert (forall k, k ⊆ l -> omap (fun id => memberMapOf l !! id) (accountKey <$> k) = k) as H; [|by apply H].
  induction k as [|m k IH]; intros Hsub; [done|]. cbn.
  assert (memberMapOf l !! accountKey m = Some m) as ->.
  { apply memberMapOf_Some; [done|]. split; [|done]. apply Hsub. by left. }
  f_equal. apply IH. intros x Hx. apply Hsub. by right.
Qed.

Lemma restored_wf r l base : room_ok r -> named_members l -> room_wf (restored r l base) r.
Proof. intros Hr Hl. split; [done..|]. by apply memberMapOf_ok. Qed.

(** A conversation that was just created. *)
Definition created (uuid : string) r (l : list RoomMember.t) (actor body : string) (now : Time) :
    RoomAggregate :=
  let m := systemMessage r uuid actor body now in
  RoomAggregate.mk
    (foldl pushEvent (mkRoot (Room.ID r) roomAggregateType 0 0 [])
       [(EventRoomCreated (Room.ID r) (Room.RoomType r) (Z.of_nat (length l)), Room.CreatedAt r);
        (messageEvent (touched now r) m (mkSender actor "") (mkOutboxPayload [] false []), now)])
    (Some (touched now r)) (memberMapOf l) (accountKey <$> l) true true false [m] [] (memberMapOf l) [].

Lemma NewConversationRoomAggregate_run uuid r l actor body (now : Time) :
  room_ok r -> named_members l -> TrimSpace uuid <> "" -> TrimSpace actor <> "" ->
  TrimSpace body <> "" ->
  NewConversationRoomAggregate clock uuid r (map Some l) actor body now =
    Ok (created uuid r l actor body now).
Proof.
  intros Hok Hl Hu Ha Hb. unfold NewConversationRoomAggregate.
  rewrite RestoreRoomAggregate_run by done. cbn [mbind result_bind].
  unfold exec, runOn. rewrite !modify_bind_run, get_bind_run.
  assert (Members (RoomAggregate.setFlags true true (restored r l 0)) = l) as ->
    by exact (Members_restored r l 0 Hl).
  set (a1 := RoomAggregate.setMemberWrites _ _ _).
  assert (Members a1 = l) as -> by exact (Members_restored r l 0 Hl).
  set (d := EventRoomCreated (Room.ID r) (Room.RoomType r) (Z.of_nat (length l))).
  set (a2 := RoomAggregate.setRoot (pushEvent (RoomAggregate.root a1) (d, Room.CreatedAt r)) a1).
  assert (RecordCreated (Z.of_nat (length l)) (Room.CreatedAt r) a1 = (Ok tt, a2)) as Hrec.
  { unfold RecordCreated, withRoom. cbn [a1 RoomAggregate.room RoomAggregate.setMemberWrites
      RoomAggregate.setFlags restored]. rewrite bind_run, (theRoom_run _ r) by done.
    unfold recordEvent, ApplyChange. rewrite bind_run. cbn [Root RoomAggregate_Aggregate].
    destruct Hok as [Hne Ht]. rewrite decide_False by (exact Hne).
    subst a2. destruct r. reflexivity. }
  rewrite bind_run, Hrec, decide_True by done. rewrite bind_run.
  rewrite (appendSystemMessage_run _ r); [done| |done|done].
  split; [done..|]. by apply memberMapOf_ok.
Qed.
End spec.
