(* ===== verification/RoomProjection.v ===== *)
(** * Projection events of rooms (room/infra/persistent/repository/room_outbox_projection_helpers.go)

    The payloads of the projection events, and how a room, its members and a
    message with its receipts and deletions become them. *)

From stdpp Require Import prelude strings gmap.
From S2P Require Import Prelude GoStrings GoSort Event RoomEntity RoomAggregate.

(** ** Payloads (core/shared/contracts/events/room_projection_events.go) *)

Module RoomLastMessageProjection.
Record t := mk {
  MessageID : string;
  MessageSentAt : option Time;
  MessageContent : string;
  MessageSenderID : string
}.
End RoomLastMessageProjection.

Module RoomProjection.
Record t := mk {
  RoomID : string;
  Name : string;
  Description : string;
  RoomType : string;
  OwnerID : string;
  PinnedMessageID : string;
  MemberCount : Z;
  LastMessage : option RoomLastMessageProjection.t;
  CreatedAt : Time;
  UpdatedAt : Time
}.
End RoomProjection.

Module RoomMemberProjection.
Record t := mk {
  RoomID : string;
  MemberID : string;
  AccountID : string;
  DisplayName : string;
  Username : string;
  AvatarObjectKey : string;
  Role : string;
  LastDeliveredAt : option Time;
  LastReadAt : option Time;
  CreatedAt : Time;
  UpdatedAt : Time
}.
End RoomMemberProjection.

Module MessageProjection.
Record t := mk {
  RoomID : string;
  RoomName : string;
  RoomType : string;
  MessageID : string;
  MessageContent : string;
  MessageType : string;
  ReplyToMessageID : string;
  ForwardedFromMessageID : string;
  FileName : string;
  FileSize : Z;
  MimeType : string;
  ObjectKey : string;
  MessageSenderID : string;
  MessageSenderName : string;
  MessageSenderEmail : string;
  MessageSentAt : Time;
  Mentions : list MessageMention.t;
  Reactions : list MessageReaction.t;
  MentionAll : bool;
  MentionedAccountIDs : list string;
  EditedAt : option Time;
  DeletedForEveryoneAt : option Time
}.
End MessageProjection.

Module MessageReceiptProjection.
Record t := mk {
  RoomID : string;
  MessageID : string;
  AccountID : string;
  Status : string;
  DeliveredAt : option Time;
  SeenAt : option Time;
  CreatedAt : Time;
  UpdatedAt : Time
}.
End MessageReceiptProjection.

Module MessageDeletionProjection.
Record t := mk {
  RoomID : string;
  MessageID : string;
  AccountID : string;
  MessageSentAt : Time;
  CreatedAt : Time
}.
End MessageDeletionProjection.

(** What the outbox of the module carries: an event of the room aggregate, or
    a projection event. *)
Inductive RoomOutboxPayload : Type :=
  | DomainPayload (d : RoomEventData)
  | RoomAggregateSync (room : RoomProjection.t) (members : list RoomMemberProjection.t)
  | MessageAggregateSync (message : option MessageProjection.t)
      (members : list RoomMemberProjection.t) (receipts : list MessageReceiptProjection.t)
      (deletions : list MessageDeletionProjection.t)
  | RoomAggregateDeleted (roomID : string).

Definition EventRoomAggregateProjectionSynced : string := "EventRoomAggregateProjectionSynced".
Definition EventRoomAggregateProjectionDeleted : string := "EventRoomAggregateProjectionDeleted".
Definition EventMessageAggregateProjectionSynced : string := "EventMessageAggregateProjectionSynced".
(** The name under which consumers expect [RoomMessageCreatedEvent]. *)
Definition sharedEventRoomMessageCreated : string := "EventRoomMessageCreated".

Module PendingOutbox.
Record t := mk {
  EventName : string;
  Payload : RoomOutboxPayload;
  CreatedAt : Time
}.
End PendingOutbox.

Record projectionSenderIdentity := mkProjectionSender {
  projectionName : string;
  projectionEmail : string
}.

(** [lo.Uniq] keeps the first of equal values. *)
Fixpoint loUniq (seen : list string) (l : list string) : list string :=
  match l with
  | [] => []
  | x :: l => if decide (x ∈ seen) then loUniq seen l else x :: loUniq (x :: seen) l
  end.

(** ** Builders *)

Definition buildRoomLastMessageProjection (message : option Message.t) :
    option RoomLastMessageProjection.t :=
  m ← message;
  Some (RoomLastMessageProjection.mk (Message.ID m) (Some (UTC (Message.CreatedAt m)))
          (Message.Message m) (Message.SenderID m)).

Definition mapRoomMemberProjections (members : list RoomMember.t) : list RoomMemberProjection.t :=
  map (fun m => RoomMemberProjection.mk (RoomMember.RoomID m) (RoomMember.ID m)
    (RoomMember.AccountID m) (TrimSpace (RoomMember.DisplayName m))
    (TrimSpace (RoomMember.Username m)) (TrimSpace (RoomMember.AvatarObjectKey m))
    (RoomMember.Role m) (UTC <$> RoomMember.LastDeliveredAt m) (UTC <$> RoomMember.LastReadAt m)
    (UTC (RoomMember.CreatedAt m)) (UTC (RoomMember.UpdatedAt m))) members.

Definition buildRoomAggregateProjectionSyncEvent (room : Room.t) (members : list RoomMember.t)
    (lastMessage : option Message.t) : PendingOutbox.t :=
  PendingOutbox.mk EventRoomAggregateProjectionSynced
    (RoomAggregateSync
      (RoomProjection.mk (Room.ID room) (Room.Name room) (Room.Description room)
        (Room.RoomType room) (Room.OwnerID room) (Room.PinnedMessageID room)
        (Z.of_nat (length members)) (buildRoomLastMessageProjection lastMessage)
        (UTC (Room.CreatedAt room)) (UTC (Room.UpdatedAt room)))
      (mapRoomMemberProjections members))
    (UTC (Room.UpdatedAt room)).

Definition buildRoomAggregateProjectionDeleteEvent (roomID : string) (createdAt : Time) :
    PendingOutbox.t :=
  PendingOutbox.mk EventRoomAggregateProjectionDeleted (RoomAggregateDeleted (TrimSpace roomID))
    (UTC createdAt).

Definition mapProjectionReactions (items : list MessageReaction.t) : list MessageReaction.t :=
  map (fun r => MessageReaction.mk (TrimSpace (MessageReaction.AccountID r))
    (TrimSpace (MessageReaction.Emoji r)) (UTC (MessageReaction.ReactedAt r))) items.

Definition mapMentionedAccountIDs (mentions : list MessageMention.t) : list string :=
  loUniq [] (filter (fun accountID => accountID <> "")
    (map (fun m => TrimSpace (MessageMention.AccountID m)) mentions)).

(** Of a message and a room that are not nil; mentions are copied as they are. *)
Definition buildMessageProjection (message : Message.t) (room : Room.t)
    (sender : projectionSenderIdentity) : MessageProjection.t :=
  MessageProjection.mk (Room.ID room) (Room.Name room) (Room.RoomType room) (Message.ID message)
    (Message.Message message) (Message.MessageType message) (Message.ReplyToMessageID message)
    (Message.ForwardedFromMessageID message) (Message.FileName message) (Message.FileSize message)
    (Message.MimeType message) (Message.ObjectKey message) (Message.SenderID message)
    (TrimSpace (projectionName sender)) (TrimSpace (projectionEmail sender))
    (UTC (Message.CreatedAt message)) (Message.Mentions message)
    (mapProjectionReactions (Message.Reactions message)) (Message.MentionAll message)
    (mapMentionedAccountIDs (Message.Mentions message)) (UTC <$> Message.EditedAt message)
    (UTC <$> Message.DeletedForEveryoneAt message).

Definition mapMessageReceiptProjections (roomID : string)
    (receipts : list PendingMessageReceipt.t) : list MessageReceiptProjection.t :=
  map (fun r => MessageReceiptProjection.mk roomID (PendingMessageReceipt.MessageID r)
    (PendingMessageReceipt.AccountID r) (PendingMessageReceipt.Status r)
    (UTC <$> PendingMessageReceipt.DeliveredAt r) (UTC <$> PendingMessageReceipt.SeenAt r)
    (UTC (PendingMessageReceipt.CreatedAt r)) (UTC (PendingMessageReceipt.UpdatedAt r))) receipts.

Definition mapMessageDeletionProjections (roomID : string) (message : Message.t)
    (deletions : list PendingMessageDeletion.t) : list MessageDeletionProjection.t :=
  map (fun d => MessageDeletionProjection.mk roomID (PendingMessageDeletion.MessageID d)
    (PendingMessageDeletion.AccountID d) (UTC (Message.CreatedAt message))
    (UTC (PendingMessageDeletion.CreatedAt d))) deletions.

(** The later of two times. *)
Definition later (createdAt t : Time) : Time := if decide (createdAt < t) then t else createdAt.
Definition laterOf (createdAt : Time) (t : option Time) : Time :=
  match t with Some t => later createdAt (UTC t) | None => createdAt end.

Definition resolveMessageProjectionCreatedAt (message : Message.t) (members : list RoomMember.t)
    (receipts : list PendingMessageReceipt.t) (deletions : list PendingMessageDeletion.t) : Time :=
  let createdAt := UTC (Message.CreatedAt message) in
  let createdAt := laterOf createdAt (Message.EditedAt message) in
  let createdAt := laterOf createdAt (Message.DeletedForEveryoneAt message) in
  let createdAt := foldl (fun c m => later c (UTC (RoomMember.UpdatedAt m))) createdAt members in
  let createdAt := foldl (fun c r => later c (UTC (PendingMessageReceipt.UpdatedAt r))) createdAt receipts in
  foldl (fun c d => later c (UTC (PendingMessageDeletion.CreatedAt d))) createdAt deletions.

Definition buildMessageAggregateProjectionSyncEvent (message : Message.t) (room : Room.t)
    (sender : projectionSenderIdentity) (members : list RoomMember.t)
    (receipts : list PendingMessageReceipt.t) (deletions : list PendingMessageDeletion.t) :
    PendingOutbox.t :=
  let roomID := TrimSpace (Room.ID room) in
  PendingOutbox.mk EventMessageAggregateProjectionSynced
    (MessageAggregateSync (Some (buildMessageProjection message room sender))
      (mapRoomMemberProjections members) (mapMessageReceiptProjections roomID receipts)
      (mapMessageDeletionProjections roomID message deletions))
    (resolveMessageProjectionCreatedAt message members receipts deletions).

(** The slice is copied before it is sorted. *)
Definition sortRoomMembersByAccount (members : list RoomMember.t) : list RoomMember.t :=
  sort_Slice (fun x y => String.ltb (TrimSpace (RoomMember.AccountID x))
                                    (TrimSpace (RoomMember.AccountID y))) members.

Definition latestRoomProjectionMessage (messages : list Message.t) : option Message.t :=
  last messages.

Definition filterPendingReceiptsByMessage (messageID : string)
    (receipts : list PendingMessageReceipt.t) : list PendingMessageReceipt.t :=
  filter (fun r => PendingMessageReceipt.MessageID r = messageID) receipts.

(** The event is looked for under [sharedEventRoomMessageCreated]. *)
Definition senderIdentityFromPendingEvents (messageID : string)
    (pendingEvents : list PendingRoomOutboxEvent.t) : projectionSenderIdentity :=
  let matches (ev : PendingRoomOutboxEvent.t) :=
    if decide (PendingRoomOutboxEvent.EventName ev <> sharedEventRoomMessageCreated) then None
    else match PendingRoomOutboxEvent.Payload ev with
         | RoomMessageCreatedEvent m =>
             if decide (TrimSpace (RoomMessageEvent.MessageID m) = TrimSpace messageID)
             then Some m else None
         | _ => None
         end in
  match head (omap matches pendingEvents) with
  | Some m => mkProjectionSender (TrimSpace (RoomMessageEvent.MessageSenderName m))
                (TrimSpace (RoomMessageEvent.MessageSenderEmail m))
  | None => mkProjectionSender "" ""
  end.
