(* ===== verification/RoomStore.v ===== *)
(** * The repositories of rooms and messages (room/infra/persistent/repository)

    A room is kept as a row, with a row per member, and cached; its messages
    are rows of their own, and every save appends events to an outbox.
    [RoomSQL] is what the stores use of the database and the cache: the
    statements they run, in their order. A transaction that is rolled back
    undoes the statements, and not what was written to the cache. Row ids and
    timestamps that nothing reads are left out. *)

From stdpp Require Import prelude strings gmap.
From S2P Require Import Prelude GoStrings GoSort Database Event.
From S2P Require Import RoomEntity RoomAggregate RoomProjection.
Import RoomError.

(** ** Rows *)

Module RoomAccount.
Record t := mk {
  AccountID : string;
  DisplayName : string;
  Username : string;
  AvatarObjectKey : string
}.
End RoomAccount.

Module MessageModel.
Record t := mk {
  ID : string;
  RoomID : string;
  SenderID : string;
  Message : string;
  MessageType : string;
  MentionsJSON : string;
  MentionAll : Z;
  ReactionsJSON : string;
  ReplyToMessageID : option string;
  ForwardedFromMessageID : option string;
  FileName : option string;
  FileSize : option Z;
  MimeType : option string;
  ObjectKey : option string;
  EditedAt : option Time;
  DeletedForEveryoneAt : option Time;
  CreatedAt : Time
}.
End MessageModel.
Notation MessageModel := MessageModel.t.

Module RoomOutboxRow.
Record t := mk {
  AggregateID : string;
  AggregateType : string;
  Version : Z;
  EventName : string;
  EventData : string
}.
End RoomOutboxRow.

(** A row of [rooms] has nil for an empty direct key or pinned message, which
    is read back as empty: rows are rooms. A row of [room_members] is a member
    without the names, which are of another table. *)
Class RoomSQL (DB : Type) := {
  roomCacheGet : string -> method DB (option Room.t);
  roomCacheSet : Room.t -> method DB unit;
  roomCacheDelete : string -> method DB unit;
  selectRoom : string -> method DB (option Room.t);
  selectRoomByDirectKey : string -> method DB (option Room.t);
  insertRoom : Room.t -> method DB unit;
  (** [db.Save] stamps [updated_at], and gives the row it wrote. *)
  saveRoomRow : Room.t -> method DB Room.t;
  deleteRoomRow : string -> method DB unit;
  insertMember : RoomMember.t -> method DB unit;
  (** DELETE FROM room_members WHERE room_id AND account_id. *)
  deleteMemberRow : string -> string -> method DB unit;
  selectMember : string -> string -> method DB (option RoomMember.t);
  (** SELECT FROM room_members WHERE room_id ORDER BY created_at. *)
  selectMembers : string -> method DB (list RoomMember.t);
  (** UPDATE room_members SET role, last_delivered_at, last_read_at, updated_at
      WHERE id. *)
  updateMemberRow : RoomMember.t -> method DB unit;
  insertMessage : MessageModel -> method DB unit;
  (** UPDATE messages WHERE id. *)
  updateMessageRow : MessageModel -> method DB unit;
  selectMessage : string -> method DB (option MessageModel);
  (** SELECT FROM messages WHERE room_id ORDER BY created_at DESC, id DESC. *)
  selectLastMessage : string -> method DB (option MessageModel);
  (** SELECT FROM room_accounts WHERE account_id IN. *)
  selectAccounts : list string -> method DB (list RoomAccount.t);
  (** SELECT COALESCE(MAX(version), 0) FROM room_outbox_events WHERE aggregate_id. *)
  maxRoomOutboxVersion : string -> method DB Z;
  insertRoomOutbox : RoomOutboxRow.t -> method DB unit;
  (** A Go map is ranged over in any order. *)
  rangeRoles : gmap string string -> list (string * string);
  (** The database of [before] with the cache of [after]. *)
  roomRollback : DB -> DB -> DB;
  roomBeginError : DB -> option error;
  roomCommitError : DB -> option error
}.

Section repository.
Context `{UC : UnicodeCase} {DB : Type} `{SQL : RoomSQL DB}.
Context `{MJ : JSON (list MessageMention.t)} `{RJ : JSON (list MessageReaction.t)}.
Context `{PJ : JSON RoomOutboxPayload}.
(** [time.Now()], for the events that are published. *)
Context (now : Time).

(** ** Rooms (room_repo_impl.go) *)

Definition CreateRoom (room : Room.t) : method DB unit :=
  _ ← insertRoom room;
  ignoreError (roomCacheSet room).

(** The cache is asked first; an error of the cache is a miss. *)
Definition GetRoomByID (id : string) : method DB Room.t := fun db =>
  let fromDatabase : method DB Room.t :=
    m ← First (selectRoom id);
    _ ← ignoreError (roomCacheSet m);
    mret m in
  match roomCacheGet id db with
  | (Ok (Some cached), db) => (Ok cached, db)
  | (Panic w, db) => (Panic w, db)
  | (_, db) => fromDatabase db
  end.

Definition GetRoomByDirectKey (directKey : string) : method DB Room.t :=
  m ← First (selectRoomByDirectKey directKey);
  _ ← ignoreError (roomCacheSet m);
  mret m.

Definition UpdateRoom (room : Room.t) : method DB unit :=
  m ← saveRoomRow room;
  ignoreError (roomCacheSet m).

Definition DeleteRoom (id : string) : method DB unit :=
  _ ← deleteRoomRow id;
  roomCacheDelete id.

(** ** Accounts (room_account_repo_impl.go) *)

Definition ListByAccountIDs (accountIDs : list string) : method DB (list RoomAccount.t) :=
  if decide (accountIDs = []) then mret [] else selectAccounts accountIDs.

(** The accounts by id; the last of two with an id is kept. *)
Definition accountsBy (key : RoomAccount.t -> string) (l : list RoomAccount.t) :
    gmap string RoomAccount.t :=
  foldl (fun m acc => <[key acc := acc]> m) ∅ l.

Definition nonBlank (fallback s : string) : string :=
  if decide (TrimSpace s <> "") then TrimSpace s else fallback.

Definition enrichMember (accountMap : gmap string RoomAccount.t) (m : RoomMember.t) : RoomMember.t :=
  match accountMap !! TrimSpace (RoomMember.AccountID m) with
  | None => m
  | Some account =>
      RoomMember.setNames (nonBlank (RoomMember.DisplayName m) (RoomAccount.DisplayName account))
        (nonBlank (RoomMember.Username m) (RoomAccount.Username account))
        (nonBlank (RoomMember.AvatarObjectKey m) (RoomAccount.AvatarObjectKey account)) m
  end.

(** Works on copies of the members. *)
Definition enrichRoomMembersWithAccountProjections (members : list RoomMember.t) :
    method DB (list RoomMember.t) :=
  let accountIDs := loUniq [] (filter (fun id => id <> "")
                      (map (fun m => TrimSpace (RoomMember.AccountID m)) members)) in
  if decide (accountIDs = []) then mret members else
  accounts ← ListByAccountIDs accountIDs;
  mret (map (enrichMember (accountsBy (fun a => TrimSpace (RoomAccount.AccountID a)) accounts)) members).

(** ** Messages (message_repo_impl.go, mapper.go) *)

(** [utils.NullableString] and [utils.StringValue]. *)
Definition NullableString (value : string) : option string :=
  if decide (value = "") then None else Some value.
Definition StringValue (value : option string) : string := default "" value.

Definition marshalMessageMentions (mentions : list MessageMention.t) : result string :=
  match mentions with [] => Ok "[]" | _ => Marshal mentions end.
Definition marshalMessageReactions (items : list MessageReaction.t) : result string :=
  match items with [] => Ok "[]" | _ => Marshal items end.

Definition unmarshalMessageMentions (raw : string) : result (list MessageMention.t) :=
  let raw := TrimSpace raw in
  if decide (raw = "") then Ok [] else
  mentions ← Unmarshal "[]MessageMention" raw;
  NormalizeMessageMentions mentions.
Definition unmarshalMessageReactions (raw : string) : result (list MessageReaction.t) :=
  let raw := TrimSpace raw in
  if decide (raw = "") then Ok [] else
  items ← Unmarshal "[]MessageReaction" raw;
  NormalizeMessageReactions items.

(** [toModel] and [toEntity] of the message store. *)
Definition toMessageModel (e : Message.t) : result MessageModel :=
  mentionsJSON ← marshalMessageMentions (Message.Mentions e);
  reactionsJSON ← marshalMessageReactions (Message.Reactions e);
  Ok (MessageModel.mk (Message.ID e) (Message.RoomID e) (Message.SenderID e) (Message.Message e)
        (Message.MessageType e) mentionsJSON (if Message.MentionAll e then 1 else 0) reactionsJSON
        (NullableString (Message.ReplyToMessageID e))
        (NullableString (Message.ForwardedFromMessageID e)) (NullableString (Message.FileName e))
        (Some (Message.FileSize e)) (NullableString (Message.MimeType e))
        (NullableString (Message.ObjectKey e)) (Message.EditedAt e)
        (Message.DeletedForEveryoneAt e) (Message.CreatedAt e)).

Definition toMessageEntity (m : MessageModel) : result Message.t :=
  mentions ← unmarshalMessageMentions (MessageModel.MentionsJSON m);
  reactions ← unmarshalMessageReactions (MessageModel.ReactionsJSON m);
  Ok (Message.mk (MessageModel.ID m) (MessageModel.RoomID m) (MessageModel.SenderID m)
        (MessageModel.Message m) (MessageModel.MessageType m) mentions reactions
        (bool_decide (MessageModel.MentionAll m = 1)) (StringValue (MessageModel.ReplyToMessageID m))
        (StringValue (MessageModel.ForwardedFromMessageID m)) (StringValue (MessageModel.FileName m))
        (default 0 (MessageModel.FileSize m)) (StringValue (MessageModel.MimeType m))
        (StringValue (MessageModel.ObjectKey m)) (MessageModel.EditedAt m)
        (MessageModel.DeletedForEveryoneAt m) (MessageModel.CreatedAt m)).

Definition CreateMessage (message : Message.t) : method DB unit :=
  m ← lift (toMessageModel message);
  insertMessage m.

Definition UpdateMessage (message : Message.t) : method DB unit :=
  m ← lift (toMessageModel message);
  updateMessageRow m.

(** A message that is not found is nil. *)
Definition messageOrNil (row : method DB (option MessageModel)) : method DB (option Message.t) :=
  o ← nilIfNotFound (First row);
  match o with
  | None => mret None
  | Some m => e ← lift (toMessageEntity m); mret (Some e)
  end.

Definition GetMessageByID (id : string) : method DB (option Message.t) :=
  messageOrNil (selectMessage id).
Definition GetLastMessageByRoomID (roomID : string) : method DB (option Message.t) :=
  messageOrNil (selectLastMessage roomID).

(** ** The outbox (room_outbox_events_repo_impl.go, room_outbox_projection_helpers.go) *)

Definition AppendRoomOutbox (evt : Event RoomOutboxPayload) : method DB unit :=
  data ← lift (map_err (fun e => Errorf "marshal event data failed: %w" [e]) (Marshal (EventData evt)));
  insertRoomOutbox (RoomOutboxRow.mk (AggregateID evt) (AggregateType evt) (Version evt)
    (EventName evt) data).

(** The batch of [appendRoomOutboxEvents], and the version of its last event. *)
Fixpoint outboxBatch (roomID : string) (version : Z) (evs : list PendingOutbox.t) :
    list (Event RoomOutboxPayload) * Z :=
  match evs with
  | [] => ([], version)
  | ev :: evs =>
      let version := add64 version 1 in
      let '(batch, final) := outboxBatch roomID version evs in
      (mkEvent 0 roomID roomAggregateType version (PendingOutbox.EventName ev)
         (PendingOutbox.Payload ev) (Unix (PendingOutbox.CreatedAt ev)) :: batch, final)
  end.

Definition appendRoomOutboxEvents (roomID : string) (baseVersion : Z) (evs : list PendingOutbox.t) :
    method DB Z :=
  if decide (evs = []) then mret baseVersion else
  let '(batch, nextVersion) := outboxBatch roomID baseVersion evs in
  _ ← Publish (Some AppendRoomOutbox) now batch;
  mret nextVersion.

(** ** The room repository (room_aggregate_repo_impl.go) *)

Definition nameMember (accountMap : gmap string RoomAccount.t) (m : RoomMember.t) : RoomMember.t :=
  match accountMap !! RoomMember.AccountID m with
  | None => m
  | Some acc => RoomMember.setNames (RoomAccount.DisplayName acc) (RoomAccount.Username acc)
                  (RoomAccount.AvatarObjectKey acc) m
  end.

Definition LoadRoom (roomID : string) : method DB RoomAggregate :=
  room ← GetRoomByID roomID;
  members ← selectMembers roomID;
  accountProjections ← ListByAccountIDs (map RoomMember.AccountID members);
  let accountMap := accountsBy RoomAccount.AccountID accountProjections in
  let members := map (nameMember accountMap) members in
  version ← maxRoomOutboxVersion roomID;
  lift (RestoreRoomAggregate (Some room) (map Some members) version).

Definition LoadByDirectKey (directKey : string) : method DB RoomAggregate :=
  room ← GetRoomByDirectKey directKey;
  LoadRoom (Room.ID room).

(** A member of an existing room is inserted, or its row is updated. *)
Definition upsertMember (isNew : bool) (member : RoomMember.t) : method DB unit :=
  if isNew then insertMember member else
  existing ← nilIfNotFound (First (selectMember (RoomMember.RoomID member) (RoomMember.AccountID member)));
  match existing with
  | None => insertMember member
  | Some _ => updateMemberRow member
  end.

(** The rows of a save: the room, its members, its messages. *)
Definition saveRoomRows (agg : RoomAggregate) (room : Room.t) : method DB unit :=
  _ ← (if RoomAggregate.isNew agg then CreateRoom room else UpdateRoom room);
  _ ← range (RoomAggregate.removedMemberIDs agg) (fun memberID => deleteMemberRow (Room.ID room) memberID);
  let pendingMemberUpserts :=
    sort_Slice (fun x y => String.ltb (RoomMember.AccountID x) (RoomMember.AccountID y))
      (PendingMemberUpserts agg) in
  _ ← range pendingMemberUpserts (upsertMember (RoomAggregate.isNew agg));
  range (RoomAggregate.pendingMessages agg) CreateMessage.

(** The event of one message of a save. *)
Definition messageSyncEvent (agg : RoomAggregate) (room : Room.t)
    (domainPendingEvents : list PendingRoomOutboxEvent.t) (message : Message.t) : PendingOutbox.t :=
  let sender := senderIdentityFromPendingEvents (Message.ID message) domainPendingEvents in
  let senderName := if decide (projectionName sender = "") then Message.SenderID message
                    else projectionName sender in
  buildMessageAggregateProjectionSyncEvent message room
    (mkProjectionSender senderName (projectionEmail sender)) []
    (filterPendingReceiptsByMessage (Message.ID message) (RoomAggregate.pendingReceipts agg)) [].

(** The events of a save. *)
Definition roomOutboxEvents (agg : RoomAggregate) (room : Room.t) (currentMembers : list RoomMember.t)
    (lastMessage : option Message.t) : list PendingOutbox.t :=
  let domainPendingEvents := PendingOutboxEvents now agg in
  buildRoomAggregateProjectionSyncEvent room currentMembers lastMessage
    :: map (messageSyncEvent agg room domainPendingEvents) (RoomAggregate.pendingMessages agg)
    ++ map (fun ev => PendingOutbox.mk (PendingRoomOutboxEvent.EventName ev)
                        (DomainPayload (PendingRoomOutboxEvent.Payload ev))
                        (PendingRoomOutboxEvent.CreatedAt ev)) domainPendingEvents.

(** [Save] of the room repository. *)
Definition SaveRoom (agg : RoomAggregate) : method DB RoomAggregate :=
  if RoomAggregate.roomDeleted agg then
    raise (Errorf "deleted room aggregate must be removed via Delete" [])
  else if negb (HasPendingRoomWrite agg) then mret agg else
  match RoomAggregate.room agg with
  | None => raise ErrRoomAggregateNil
  | Some room =>
      _ ← saveRoomRows agg room;
      let currentMembers := sortRoomMembersByAccount (Members agg) in
      currentMembers ←
        (if decide (RoomAggregate.isNew agg = true \/ RoomAggregate.memberUpserts agg <> ∅ \/
                    RoomAggregate.removedMemberIDs agg <> [])
         then enrichRoomMembersWithAccountProjections currentMembers
         else mret currentMembers);
      lastMessage ← (match latestRoomProjectionMessage (RoomAggregate.pendingMessages agg) with
                     | Some m => mret (Some m)
                     | None => GetLastMessageByRoomID (Room.ID room)
                     end);
      nextVersion ← appendRoomOutboxEvents (Room.ID room) (baseVersion (RoomAggregate.root agg))
                      (roomOutboxEvents agg room currentMembers lastMessage);
      lift (exec (MarkRoomPersisted nextVersion) agg)
  end.

(** [Delete] of the room repository. *)
Definition DeleteRoomAggregate (roomID : string) : method DB unit :=
  _ ← DeleteRoom roomID;
  baseVersion ← maxRoomOutboxVersion roomID;
  _ ← appendRoomOutboxEvents roomID baseVersion [buildRoomAggregateProjectionDeleteEvent roomID (UTC now)];
  mret tt.

(** ** The message repository (message_aggregate_repo_impl.go) *)

Definition LoadMessage (messageID : string) : method DB MessageStateAggregate :=
  message ← GetMessageByID messageID;
  lift (NewMessageStateAggregate message).

(** The room of a message that is not found is read through a nil pointer. *)
Definition LoadForRecipient (messageID recipientAccountID : string) :
    method DB MessageStateAggregate :=
  message ← GetMessageByID messageID;
  match message with
  | None => lift (Panic "nil pointer dereference")
  | Some m =>
      member ← nilIfNotFound (First (selectMember (Message.RoomID m) recipientAccountID));
      lift (NewMessageStateAggregateForRecipient message member)
  end.

Definition senderIdentityFromProjection (account : option RoomAccount.t) (fallback : string) :
    projectionSenderIdentity :=
  let fallback := TrimSpace fallback in
  match account with
  | None => mkProjectionSender fallback ""
  | Some a =>
      if decide (TrimSpace (RoomAccount.DisplayName a) <> "") then
        mkProjectionSender (TrimSpace (RoomAccount.DisplayName a)) ""
      else if decide (TrimSpace (RoomAccount.Username a) <> "") then
        mkProjectionSender (TrimSpace (RoomAccount.Username a)) ""
      else mkProjectionSender fallback ""
  end.

(** The events of a save: the message, and the room when the message changed. *)
Definition messageOutboxEvents (agg : MessageStateAggregate) (updatedMembers : list RoomMember.t) :
    method DB (list PendingOutbox.t) :=
  let message := MessageState.message agg in
  let roomID := Message.RoomID message in
  room ← GetRoomByID roomID;
  updatedMembers ← enrichRoomMembersWithAccountProjections updatedMembers;
  accountProjections ← ListByAccountIDs [Message.SenderID message];
  let sender := senderIdentityFromProjection (head accountProjections) (Message.SenderID message) in
  let messageEvent := buildMessageAggregateProjectionSyncEvent message room sender updatedMembers
    (option_list (MessageState.pendingReceipt agg)) (option_list (MessageState.pendingDeletion agg)) in
  if negb (MessageState.messageDirty agg) then mret [messageEvent] else
  members ← selectMembers roomID;
  members ← enrichRoomMembersWithAccountProjections members;
  lastMessage ← GetLastMessageByRoomID roomID;
  mret [messageEvent;
        buildRoomAggregateProjectionSyncEvent room (sortRoomMembersByAccount members) lastMessage].

(** [Save] of the message repository. *)
Definition SaveMessage (agg : MessageStateAggregate) : method DB MessageStateAggregate :=
  let roomID := Message.RoomID (MessageState.message agg) in
  _ ← (if MessageState.messageDirty agg then UpdateMessage (MessageState.message agg) else mret tt);
  updatedMembers ← (match MessageState.recipientMember agg with
                    | Some m => if MessageState.memberDirty agg
                                then _ ← updateMemberRow m; mret [m] else mret []
                    | None => mret []
                    end);
  let hasProjectionChange := MessageState.messageDirty agg || bool_decide (updatedMembers <> [])
    || bool_decide (is_Some (MessageState.pendingReceipt agg))
    || bool_decide (is_Some (MessageState.pendingDeletion agg)) in
  _ ← (if hasProjectionChange then
         evs ← messageOutboxEvents agg updatedMembers;
         baseVersion ← maxRoomOutboxVersion roomID;
         _ ← appendRoomOutboxEvents roomID baseVersion evs;
         mret tt
       else mret tt);
  mret (MarkMessagePersisted agg).

(** ** Transactions (repo_impl.go) *)

Definition WithRoomTransaction {A} (fn : method DB A) : method DB A := fun db =>
  match roomBeginError db with
  | Some e => (Err e, db)
  | None =>
      match fn db with
      | (Ok a, db') =>
          match roomCommitError db' with
          | Some e => (Err e, roomRollback db db')
          | None => (Ok a, db')
          end
      | (Err e, db') => (Err e, roomRollback db db')
      | (Panic w, db') => (Panic w, roomRollback db db')
      end
  end.
End repository.
