(* ===== verification/RoomTables.v ===== *)
(** * The tables of rooms

    What the repositories rely on of the database and the cache
    ([RoomSQLLaws], over the contents [RoomTables] and the cached rooms), and
    the invariant [rooms_ok]: rows are under their keys, and a cached room may
    be out of date only in what a group can change. *)

From stdpp Require Import prelude strings gmap.
From S2P Require Import Prelude GoStrings GoSort Database Event RoomEntity RoomAggregate RoomSpec.
From S2P Require Import RoomProjection RoomStore.

(** ** Contents *)

Record RoomTables := mkRoomTables {
  roomRows : gmap string Room.t;
  memberRows : gmap (string * string) RoomMember.t;
  messageRows : gmap string MessageModel;
  roomOutbox : list RoomOutboxRow.t
}.

Definition setRoomRow (r : Room.t) (t : RoomTables) : RoomTables :=
  mkRoomTables (<[Room.ID r := r]> (roomRows t)) (memberRows t) (messageRows t) (roomOutbox t).
Definition setMemberRows (m : gmap (string * string) RoomMember.t) (t : RoomTables) : RoomTables :=
  mkRoomTables (roomRows t) m (messageRows t) (roomOutbox t).
Definition setMessageRow (m : MessageModel) (t : RoomTables) : RoomTables :=
  mkRoomTables (roomRows t) (memberRows t) (<[MessageModel.ID m := m]> (messageRows t)) (roomOutbox t).
Definition addRoomOutbox (row : RoomOutboxRow.t) (t : RoomTables) : RoomTables :=
  mkRoomTables (roomRows t) (memberRows t) (messageRows t) (roomOutbox t ++ [row]).

Definition memberKey (m : RoomMember.t) : string * string := (RoomMember.RoomID m, RoomMember.AccountID m).

(** A row of [room_members] has no names. *)
Definition memberRow (m : RoomMember.t) : RoomMember.t := RoomMember.setNames "" "" "" m.

(** What [updateMemberRow] makes of a row. *)
Definition writeMember (m row : RoomMember.t) : RoomMember.t :=
  if decide (RoomMember.ID row = RoomMember.ID m) then
    RoomMember.mk (RoomMember.ID row) (RoomMember.RoomID row) (RoomMember.AccountID row)
      (RoomMember.DisplayName row) (RoomMember.Username row) (RoomMember.AvatarObjectKey row)
      (RoomMember.Role m) (RoomMember.LastDeliveredAt m) (RoomMember.LastReadAt m)
      (RoomMember.CreatedAt row) (RoomMember.UpdatedAt m)
  else row.

Definition inRoom (roomID : string) (x : (string * string) * RoomMember.t) : Prop := x.1.1 = roomID.
#[export] Instance inRoom_dec roomID x : Decision (inRoom roomID x).
Proof. unfold inRoom. apply _. Defined.

Definition membersOf (t : RoomTables) (roomID : string) : list RoomMember.t :=
  (map_to_list (filter (inRoom roomID) (memberRows t))).*2.

(** The tables and the cached rooms. *)
Notation RoomView := (RoomTables * gmap string Room.t)%type.

(** ** What the repositories rely on *)

Class RoomSQLLaws (DB : Type) `{SQL : RoomSQL DB} := {
  roomView : DB -> RoomView;
  (** An entry of the cache may be gone at any time. *)
  roomCacheGet_law id db :
    (roomView (roomCacheGet id db).2).1 = (roomView db).1 /\
    (roomView (roomCacheGet id db).2).2 ⊆ (roomView db).2 /\
    forall r, (roomCacheGet id db).1 = Ok (Some r) -> (roomView db).2 !! id = Some r;
  (** A write to the cache may fail, and leave what was cached. *)
  roomCacheSet_law r db :
    (roomView (roomCacheSet r db).2).1 = (roomView db).1 /\
    (forall k x, (roomView (roomCacheSet r db).2).2 !! k = Some x ->
      (roomView db).2 !! k = Some x \/ (k = Room.ID r /\ x = r)) /\
    ((roomCacheSet r db).1 = Ok tt ->
      forall x, (roomView (roomCacheSet r db).2).2 !! Room.ID r = Some x -> x = r);
  selectRoom_law id db : effect roomView (selectRoom id) db (fun o db' =>
    roomView db' = roomView db /\ o = roomRows (roomView db).1 !! id);
  selectRoomByDirectKey_law k db : effect roomView (selectRoomByDirectKey k) db (fun o db' =>
    roomView db' = roomView db /\
    match o with
    | Some r => Room.DirectKey r = k /\ exists id, roomRows (roomView db).1 !! id = Some r
    | None => forall id r, roomRows (roomView db).1 !! id = Some r -> Room.DirectKey r <> k
    end);
  insertRoom_law r db : effect roomView (insertRoom r) db (fun _ db' =>
    roomRows (roomView db).1 !! Room.ID r = None /\
    (forall id r', roomRows (roomView db).1 !! id = Some r' -> Room.DirectKey r <> "" ->
       Room.DirectKey r' <> Room.DirectKey r) /\
    roomView db' = (setRoomRow r (roomView db).1, (roomView db).2));
  saveRoomRow_law r db : effect roomView (saveRoomRow r) db (fun r' db' =>
    (exists t, r' = Room.setUpdatedAt t r) /\
    roomView db' = (setRoomRow r' (roomView db).1, (roomView db).2));
  insertMember_law m db : effect roomView (insertMember m) db (fun _ db' =>
    memberRows (roomView db).1 !! memberKey m = None /\
    roomView db' = (setMemberRows (<[memberKey m := memberRow m]> (memberRows (roomView db).1))
                      (roomView db).1, (roomView db).2));
  deleteMemberRow_law room acc db : effect roomView (deleteMemberRow room acc) db (fun _ db' =>
    roomView db' = (setMemberRows (delete (room, acc) (memberRows (roomView db).1)) (roomView db).1,
                    (roomView db).2));
  selectMember_law room acc db : effect roomView (selectMember room acc) db (fun o db' =>
    roomView db' = roomView db /\ o = memberRows (roomView db).1 !! (room, acc));
  selectMembers_law room db : effect roomView (selectMembers room) db (fun l db' =>
    roomView db' = roomView db /\ l ≡ₚ membersOf (roomView db).1 room);
  updateMemberRow_law m db : effect roomView (updateMemberRow m) db (fun _ db' =>
    roomView db' = (setMemberRows (writeMember m <$> memberRows (roomView db).1) (roomView db).1,
                    (roomView db).2));
  insertMessage_law m db : effect roomView (insertMessage m) db (fun _ db' =>
    messageRows (roomView db).1 !! MessageModel.ID m = None /\
    roomView db' = (setMessageRow m (roomView db).1, (roomView db).2));
  updateMessageRow_law m db : effect roomView (updateMessageRow m) db (fun _ db' =>
    roomView db' = (match messageRows (roomView db).1 !! MessageModel.ID m with
                    | Some _ => setMessageRow m (roomView db).1
                    | None => (roomView db).1
                    end, (roomView db).2));
  selectMessage_law id db : effect roomView (selectMessage id) db (fun o db' =>
    roomView db' = roomView db /\ o = messageRows (roomView db).1 !! id);
  selectLastMessage_law room db : effect roomView (selectLastMessage room) db (fun o db' =>
    roomView db' = roomView db /\
    (forall m, o = Some m -> MessageModel.RoomID m = room /\
       exists id, messageRows (roomView db).1 !! id = Some m));
  selectAccounts_law ids db : effect roomView (selectAccounts ids) db (fun _ db' =>
    roomView db' = roomView db);
  maxRoomOutboxVersion_law room db : effect roomView (maxRoomOutboxVersion room) db (fun _ db' =>
    roomView db' = roomView db);
  insertRoomOutbox_law row db : effect roomView (insertRoomOutbox row) db (fun _ db' =>
    roomView db' = (addRoomOutbox row (roomView db).1, (roomView db).2));
  rangeRoles_law m : rangeRoles (DB := DB) m ≡ₚ map_to_list m;
  roomRollback_law before after :
    roomView (roomRollback before after) = ((roomView before).1, (roomView after).2)
}.

Section laws.
Context {DB : Type} `{Laws : RoomSQLLaws DB}.

Definition roomTables (db : DB) : RoomTables := (roomView db).1.
Definition roomCached (db : DB) : gmap string Room.t := (roomView db).2.
End laws.

(** ** The invariant *)

Section invariant.
Context `{UC : UnicodeCase}.

(** What a room keeps for good: a group may change its name, its description
    and its pinned message, any room the time of its last update. *)
Definition sameRoom (r r' : Room.t) : Prop :=
  r' = Room.mk (Room.ID r) (Room.Name r') (Room.Description r') (Room.OwnerID r) (Room.RoomType r)
         (Room.DirectKey r) (Room.PinnedMessageID r') (Room.CreatedAt r) (Room.UpdatedAt r') /\
  (IsGroup (Some r) = false ->
     Room.Name r' = Room.Name r /\ Room.Description r' = Room.Description r /\
     Room.PinnedMessageID r' = Room.PinnedMessageID r).

Record rooms_ok (t : RoomTables) (cache : gmap string Room.t) : Prop := {
  rk_rooms : forall id r, roomRows t !! id = Some r -> Room.ID r = id /\ room_ok r;
  rk_members : forall k m, memberRows t !! k = Some m ->
    memberKey m = k /\ trimmed k.2 /\ k.2 <> "" /\ memberRow m = m /\ is_Some (roomRows t !! k.1);
  rk_messages : forall id m, messageRows t !! id = Some m -> MessageModel.ID m = id;
  rk_cache : forall id r, cache !! id = Some r -> Room.ID r = id /\ room_ok r /\
    forall r0, roomRows t !! id = Some r0 -> sameRoom r0 r
}.

Lemma IsGroup_type r r' : Room.RoomType r' = Room.RoomType r -> IsGroup (Some r') = IsGroup (Some r).
Proof. unfold IsGroup. by intros ->. Qed.

Lemma sameRoom_fields r r' :
  sameRoom r r' <->
  Room.ID r' = Room.ID r /\ Room.OwnerID r' = Room.OwnerID r /\ Room.RoomType r' = Room.RoomType r /\
  Room.DirectKey r' = Room.DirectKey r /\ Room.CreatedAt r' = Room.CreatedAt r /\
  (IsGroup (Some r) = false ->
     Room.Name r' = Room.Name r /\ Room.Description r' = Room.Description r /\
     Room.PinnedMessageID r' = Room.PinnedMessageID r).
Proof.
  unfold sameRoom. destruct r, r'; cbn. split.
  - intros [[= -> -> -> -> ->] H]. auto 10.
  - intros (-> & -> & -> & -> & -> & H). auto.
Qed.

#[export] Instance sameRoom_preorder : PreOrder sameRoom.
Proof.
  split.
  - intros r. apply sameRoom_fields. auto 10.
  - intros r1 r2 r3. rewrite !sameRoom_fields.
    intros (H1 & H2 & H3 & H4 & H5 & H6) (K1 & K2 & K3 & K4 & K5 & K6).
    repeat (split; [congruence|]). intros Hg. destruct (H6 Hg) as (? & ? & ?).
    rewrite (IsGroup_type r1 r2) in K6 by done. destruct (K6 Hg) as (? & ? & ?).
    split; [congruence|]. split; congruence.
Qed.

Lemma sameRoom_sym r r' : sameRoom r r' -> sameRoom r' r.
Proof.
  rewrite !sameRoom_fields. intros (H1 & H2 & H3 & H4 & H5 & H6). repeat (split; [done|]).
  rewrite (IsGroup_type r r') by done. intros Hg. destruct (H6 Hg) as (-> & -> & ->). done.
Qed.

Lemma sameRoom_setUpdatedAt r (t : Time) : sameRoom r (Room.setUpdatedAt t r).
Proof. apply sameRoom_fields. auto 10. Qed.

Lemma room_ok_same r r' : sameRoom r r' -> room_ok r -> room_ok r'.
Proof. intros (H & _)%sameRoom_fields. unfold room_ok. by rewrite H. Qed.
End invariant.

(** ** What runs keep *)

Section frames.
Context `{UC : UnicodeCase} {DB : Type} `{Laws : RoomSQLLaws DB}.

Definition roomsOK (db : DB) : Prop := rooms_ok (roomTables db) (roomCached db).

(** Where the invariant and [P] hold, they still do, and [F] relates the
    tables. *)
Definition within (P : RoomTables -> Prop) (F : relation RoomTables) : relation DB := fun db db' =>
  roomsOK db -> P (roomTables db) ->
  roomsOK db' /\ P (roomTables db') /\ F (roomTables db) (roomTables db').

#[export] Instance within_preorder P F : PreOrder F -> PreOrder (within P F).
Proof.
  intros HF. split.
  - intros db H1 H2. by split_and!.
  - intros db1 db2 db3 H12 H23 H1 HP. destruct (H12 H1 HP) as (H2 & HP2 & F12).
    destruct (H23 H2 HP2) as (H3 & HP3 & F23). split; [done|]. split; [done|]. by etrans.
Qed.

(** An id that no room has, and that is not cached. *)
Definition fresh (db : DB) (id : string) : Prop :=
  roomRows (roomTables db) !! id = None /\ roomCached db !! id = None.

(** Only the cache changes, and holds no room that is not stored. *)
Definition quiet : relation DB := fun db db' =>
  roomsOK db ->
  roomsOK db' /\ roomTables db' = roomTables db /\ forall id, fresh db id -> fresh db' id.

#[export] Instance quiet_preorder : PreOrder quiet.
Proof.
  split.
  - intros db H. by split_and!.
  - intros db1 db2 db3 H12 H23 H1. destruct (H12 H1) as (H2 & T2 & F2).
    destruct (H23 H2) as (H3 & T3 & F3). split; [done|]. split; [congruence|]. eauto.
Qed.

Lemma quiet_within P F `{!Reflexive F} {A} (m : method DB A) :
  keeps quiet m -> keeps (within P F) m.
Proof.
  intros H db Hok HP. destruct (H db Hok) as (Hok' & Heq & _). rewrite Heq.
  by split_and!.
Qed.

(** A statement: what it does where it succeeds is enough. *)
Lemma effect_within P F `{!Reflexive F} {A} (m : method DB A) (Q : DB -> A -> DB -> Prop) :
  (forall db, effect roomView m db (Q db)) ->
  (forall db a db', roomsOK db -> P (roomTables db) -> Q db a db' ->
     roomsOK db' /\ P (roomTables db') /\ F (roomTables db) (roomTables db')) ->
  keeps (within P F) m.
Proof.
  intros Heff HQ db Hok HP. specialize (Heff db). unfold effect in Heff.
  assert (forall db', roomView db' = roomView db ->
    roomsOK db' /\ P (roomTables db') /\ F (roomTables db) (roomTables db')) as Hsame.
  { intros db' H. unfold roomsOK, roomTables, roomCached in *. rewrite H. by split_and!. }
  destruct (m db) as [[a|e|w] db']; cbn.
  - by eapply HQ.
  - apply Hsame, Heff.
  - by apply Hsame.
Qed.

(** Nothing changes. *)
Definition sameView : relation DB := fun db db' => roomView db' = roomView db.

#[export] Instance sameView_preorder : PreOrder sameView.
Proof. split; [by intros db|]. unfold sameView. intros db1 db2 db3 H12 H23. congruence. Qed.

Lemma effect_same {A} (m : method DB A) (Q : DB -> A -> DB -> Prop) :
  (forall db, effect roomView m db (Q db)) ->
  (forall db a db', Q db a db' -> roomView db' = roomView db) -> keeps sameView m.
Proof.
  intros Heff HQ db. specialize (Heff db). unfold effect in Heff. unfold sameView.
  destruct (m db) as [[a|e|w] db']; cbn; [by eapply HQ|by apply Heff|done].
Qed.

Lemma same_quiet {A} (m : method DB A) : keeps sameView m -> keeps quiet m.
Proof.
  intros H db Hok. specialize (H db). unfold fresh, roomsOK, roomTables, roomCached in *. rewrite H.
  by split_and!.
Qed.

Lemma rooms_ok_cache t c c' :
  rooms_ok t c ->
  (forall k x, c' !! k = Some x -> c !! k = Some x \/
     (k = Room.ID x /\ room_ok x /\ forall r0, roomRows t !! k = Some r0 -> sameRoom r0 x)) ->
  rooms_ok t c'.
Proof.
  intros [H1 H2 H3 H4] Hc. split; [done..|]. intros id r Hr.
  destruct (Hc _ _ Hr) as [?|(-> & ? & ?)]; [by apply H4|by split_and!].
Qed.

(** What is written to the cache is as good as a stored room. *)
Lemma roomCacheSet_quiet r db :
  roomsOK db -> room_ok r ->
  (forall r0, roomRows (roomTables db) !! Room.ID r = Some r0 -> sameRoom r0 r) ->
  let db' := (ignoreError (roomCacheSet r) db).2 in
  roomsOK db' /\ roomTables db' = roomTables db /\ forall id, id <> Room.ID r -> fresh db id -> fresh db' id.
Proof.
  intros Hok Hr Hsame. destruct (roomCacheSet_law r db) as (Ht & Hc & _).
  assert ((ignoreError (roomCacheSet r) db).2 = (roomCacheSet r db).2) as ->.
  { unfold ignoreError. by destruct (roomCacheSet r db) as [[?|?|?] ?]. }
  split_and!; [|exact Ht|].
  - unfold roomsOK, roomTables, roomCached. rewrite Ht. eapply rooms_ok_cache; [exact Hok|].
    intros k x Hx. destruct (Hc _ _ Hx) as [?|[-> ->]]; [by left|right]. by split_and!.
  - intros id Hne [H1 H2]. unfold fresh, roomTables, roomCached in *. rewrite Ht. split; [done|].
    apply eq_None_not_Some. intros [x Hx]. destruct (Hc _ _ Hx) as [?|[? _]]; congruence.
Qed.
End frames.

(** * Rooms in memory

    An instance of [RoomSQL], with its laws: the tables and the cache are the
    state, and the last message of a room is any of its messages. *)

Definition duplicateKey : error := Errorf "duplicate key value" [].

(** The value of a map that satisfies a test. *)
Definition findValue {K A} `{Countable K} (f : A -> bool) (m : gmap K A) : option A :=
  snd <$> List.find (fun x => f x.2) (map_to_list m).

Lemma findValue_spec {K A} `{Countable K} (f : A -> bool) (m : gmap K A) :
  match findValue f m with
  | Some x => f x = true /\ exists k, m !! k = Some x
  | None => forall k x, m !! k = Some x -> f x = false
  end.
Proof.
  unfold findValue. destruct (List.find _ _) as [[k x]|] eqn:E; cbn.
  - apply List.find_some in E as [Hin Hf]. split; [done|]. exists k.
    by apply elem_of_map_to_list, list_elem_of_In.
  - intros k x Hx. apply (List.find_none _ _ E (k, x)). by apply list_elem_of_In, elem_of_map_to_list.
Qed.

Definition directKeyTaken (r : Room.t) (t : RoomTables) : bool :=
  bool_decide (Room.DirectKey r <> "") &&
  match findValue (fun x => bool_decide (Room.DirectKey x = Room.DirectKey r)) (roomRows t) with
  | Some _ => true
  | None => false
  end.

#[export] Instance MemoryRooms : RoomSQL RoomView := {|
  roomCacheGet id db := (Ok (db.2 !! id), db);
  roomCacheSet r db := (Ok tt, (db.1, <[Room.ID r := r]> db.2));
  roomCacheDelete id db := (Ok tt, (db.1, delete id db.2));
  selectRoom id db := (Ok (roomRows db.1 !! id), db);
  selectRoomByDirectKey k db :=
    (Ok (findValue (fun r => bool_decide (Room.DirectKey r = k)) (roomRows db.1)), db);
  insertRoom r db :=
    match roomRows db.1 !! Room.ID r with
    | Some _ => (Err duplicateKey, db)
    | None => if directKeyTaken r db.1 then (Err duplicateKey, db) else (Ok tt, (setRoomRow r db.1, db.2))
    end;
  saveRoomRow r db := (Ok (Room.setUpdatedAt (Room.UpdatedAt r) r),
    (setRoomRow (Room.setUpdatedAt (Room.UpdatedAt r) r) db.1, db.2));
  deleteRoomRow id db := (Ok tt, db);
  insertMember m db :=
    match memberRows db.1 !! memberKey m with
    | Some _ => (Err duplicateKey, db)
    | None => (Ok tt, (setMemberRows (<[memberKey m := memberRow m]> (memberRows db.1)) db.1, db.2))
    end;
  deleteMemberRow room acc db := (Ok tt, (setMemberRows (delete (room, acc) (memberRows db.1)) db.1, db.2));
  selectMember room acc db := (Ok (memberRows db.1 !! (room, acc)), db);
  selectMembers room db := (Ok (membersOf db.1 room), db);
  updateMemberRow m db := (Ok tt, (setMemberRows (writeMember m <$> memberRows db.1) db.1, db.2));
  insertMessage m db :=
    match messageRows db.1 !! MessageModel.ID m with
    | Some _ => (Err duplicateKey, db)
    | None => (Ok tt, (setMessageRow m db.1, db.2))
    end;
  updateMessageRow m db :=
    (Ok tt, (match messageRows db.1 !! MessageModel.ID m with
             | Some _ => setMessageRow m db.1
             | None => db.1
             end, db.2));
  selectMessage id db := (Ok (messageRows db.1 !! id), db);
  selectLastMessage room db :=
    (Ok (findValue (fun m => bool_decide (MessageModel.RoomID m = room)) (messageRows db.1)), db);
  selectAccounts ids db := (Ok [], db);
  maxRoomOutboxVersion room db := (Ok (Z.of_nat (length (roomOutbox db.1))), db);
  insertRoomOutbox row db := (Ok tt, (addRoomOutbox row db.1, db.2));
  rangeRoles m := map_to_list m;
  roomRollback before after := (before.1, after.2);
  roomBeginError _ := None;
  roomCommitError _ := None
|}.

Lemma duplicateKey_foreign : foreign duplicateKey.
Proof. by intros name. Qed.

#[export] Program Instance MemoryRoomsLaws : RoomSQLLaws RoomView := {| roomView db := db |}.
Next Obligation. intros id [t c]. cbn. split_and!; [done|done|]. by intros r [= ->]. Qed.
Next Obligation.
  intros r [t c]. cbn. split_and!; [done| |].
  - intros k x. destruct (decide (k = Room.ID r)) as [->|Hne].
    + rewrite lookup_insert_eq. intros [= <-]. by right.
    + rewrite lookup_insert_ne by done. by left.
  - intros _ x. rewrite lookup_insert_eq. by intros [= <-].
Qed.
Next Obligation. done. Qed.
Next Obligation.
  intros k db. split; [done|].
  pose proof (findValue_spec (fun r => bool_decide (Room.DirectKey r = k)) (roomRows db.1)) as H.
  destruct (findValue _ _) as [r|].
  - destruct H as [H%bool_decide_eq_true Hr]. by split.
  - intros id r Hr. by apply H, bool_decide_eq_false in Hr.
Qed.
Next Obligation.
  intros r [t c]. unfold effect. cbn. destruct (roomRows t !! Room.ID r) as [x|] eqn:E;
    [by split; [apply duplicateKey_foreign|]|].
  pose proof (findValue_spec (fun x => bool_decide (Room.DirectKey x = Room.DirectKey r)) (roomRows t)) as H.
  unfold directKeyTaken. destruct (bool_decide (Room.DirectKey r <> "")) eqn:Hk; cbn.
  - destruct (findValue _ _); [by split; [apply duplicateKey_foreign|]|]. split_and!; [done| |done].
    intros id r' Hr' _. by apply H, bool_decide_eq_false in Hr'.
  - split_and!; [done| |done]. intros id r' _ Hne. by apply bool_decide_eq_false in Hk.
Qed.
Next Obligation. intros r [t c]. split; [by eexists|done]. Qed.
Next Obligation.
  intros m [t c]. unfold effect. cbn. destruct (memberRows t !! memberKey m); [|done].
  split; [apply duplicateKey_foreign|done].
Qed.
Next Obligation. done. Qed.
Next Obligation. done. Qed.
Next Obligation. done. Qed.
Next Obligation. done. Qed.
Next Obligation.
  intros m [t c]. unfold effect. cbn. destruct (messageRows t !! MessageModel.ID m); [|done].
  split; [apply duplicateKey_foreign|done].
Qed.
Next Obligation. done. Qed.
Next Obligation. done. Qed.
Next Obligation.
  intros room [t c]. split; [done|]. cbn. intros m Hm.
  pose proof (findValue_spec (fun m => bool_decide (MessageModel.RoomID m = room)) (messageRows t)) as H.
  rewrite Hm in H. destruct H as [H%bool_decide_eq_true Hx]. by split.
Qed.
Next Obligation. done. Qed.
Next Obligation. done. Qed.
Next Obligation. done. Qed.
Next Obligation. done. Qed.
Next Obligation. done. Qed.
