(* ===== verification/RoomStoreSpec.v ===== *)
(** * Loading and saving rooms and messages

    Loading changes no table, and gives the room and the members that are
    stored, but for what a stale cache may hold of a group. What a save writes
    is what its aggregate holds; a save that fails leaves the tables as they
    were. *)

From stdpp Require Import prelude strings gmap.
From S2P Require Import Prelude GoStrings GoSort Database Event.
From S2P Require Import RoomEntity RoomAggregate RoomSpec RoomProjection RoomStore RoomTables.
Import RoomError.

Section spec.
Context `{UC : UnicodeCase} {DB : Type} `{Laws : RoomSQLLaws DB}.
Context `{MJ : JSON (list MessageMention.t)} `{RJ : JSON (list MessageReaction.t)}.
Context `{PJ : JSON RoomOutboxPayload}.
Context (now : Time).
Implicit Types (db : DB) (t : RoomTables).

(** ** Reading *)

Lemma rooms_row db id r : roomsOK db -> roomRows (roomTables db) !! id = Some r -> Room.ID r = id /\ room_ok r.
Proof. intros H. apply (rk_rooms _ _ H). Qed.

Lemma cacheRow_spec r db (m := _ ← ignoreError (roomCacheSet r); mret r) res db' :
  roomsOK db -> roomRows (roomTables db) !! Room.ID r = Some r ->
  m db = (res, db') ->
  roomsOK db' /\ roomTables db' = roomTables db /\ (forall id, fresh db id -> fresh db' id) /\
  (forall x, res = Ok x -> x = r).
Proof.
  intros Hok Hr Hm. destruct (rooms_row _ _ _ Hok Hr) as [_ Hrok].
  destruct (roomCacheSet_quiet r db Hok Hrok) as (Hok' & Ht & Hf).
  { intros r0 Hr0. rewrite Hr in Hr0. by injection Hr0 as <-. }
  assert (forall id, fresh db id -> fresh (ignoreError (roomCacheSet r) db).2 id) as Hf'.
  { intros id Hid. apply Hf; [|done]. intros ->. destruct Hid. congruence. }
  clear Hf.
  subst m. unfold mbind, method_bind in Hm.
  destruct (ignoreError (roomCacheSet r) db) as [[[]|e|w] db1] eqn:E; cbn in Hok', Ht, Hf';
    injection Hm as <- <-; split_and!; try done. by intros x [= <-].
Qed.

(** A room that was read: up to date, or cached. *)
Record seenRoom db (r : Room.t) : Prop := {
  sr_ok : room_ok r;
  sr_same : forall r0, roomRows (roomTables db) !! Room.ID r = Some r0 -> sameRoom r0 r
}.

Lemma seenRoom_row db id r : roomsOK db -> roomRows (roomTables db) !! id = Some r -> seenRoom db r.
Proof.
  intros Hok Hr. destruct (rooms_row _ _ _ Hok Hr) as [<- Hrok]. split; [done|].
  intros r0 Hr0. rewrite Hr in Hr0. by injection Hr0 as <-.
Qed.

Lemma same_view db db' :
  roomView db' = roomView db -> roomsOK db ->
  roomsOK db' /\ roomTables db' = roomTables db /\ (forall id, fresh db id -> fresh db' id).
Proof.
  intros H Hok. unfold fresh, roomsOK, roomTables, roomCached in *. rewrite H. by split_and!.
Qed.

Lemma roomFromDatabase_spec id db res db' :
  roomsOK db -> (m ← First (selectRoom id); _ ← ignoreError (roomCacheSet m); mret m) db = (res, db') ->
  roomsOK db' /\ roomTables db' = roomTables db /\ (forall id, fresh db id -> fresh db' id) /\
  (forall r, res = Ok r -> Room.ID r = id /\ seenRoom db r).
Proof.
  intros Hok Hm. rewrite bind_run in Hm.
  destruct (First (selectRoom id) db) as [o db1] eqn:E1.
  assert (roomView db1 = roomView db) as Hv.
  { destruct o as [r|e|w].
    - by apply (First_Ok roomView _ _ _ _ _ (selectRoom_law id db)) in E1 as [? _].
    - eapply First_not_Ok; [|apply selectRoom_law|exact E1]. by intros a db'' [? _].
    - eapply First_not_Ok; [|apply selectRoom_law|exact E1]. by intros a db'' [? _]. }
  destruct (same_view db db1 Hv Hok) as (Hok1 & Ht1 & Hf1).
  destruct o as [r|e|w]; [|injection Hm as <- <-; by split_and!..].
  apply (First_Ok roomView _ _ _ _ _ (selectRoom_law id db)) in E1 as [_ Hr]. symmetry in Hr.
  destruct (rooms_row _ _ _ Hok Hr) as [Hid _].
  destruct (cacheRow_spec r db1 res db' Hok1) as (Hok' & Ht' & Hf' & Hx); [by rewrite Ht1, Hid|exact Hm|].
  split; [done|]. split; [congruence|]. split; [by auto|]. intros x ->. rewrite (Hx x) by done.
  split; [done|]. by eapply seenRoom_row.
Qed.

Lemma GetRoomByID_spec id db res db' :
  roomsOK db -> GetRoomByID id db = (res, db') ->
  roomsOK db' /\ roomTables db' = roomTables db /\ (forall id, fresh db id -> fresh db' id) /\
  (forall r, res = Ok r -> Room.ID r = id /\ seenRoom db r).
Proof.
  intros Hok Hm. unfold GetRoomByID in Hm.
  destruct (roomCacheGet_law id db) as (Ht & Hsub & Hhit).
  destruct (roomCacheGet id db) as [o db1]. cbn in Ht, Hsub, Hhit.
  assert (roomsOK db1 /\ roomTables db1 = roomTables db /\ forall id, fresh db id -> fresh db1 id)
    as (Hok1 & Ht1 & Hf1).
  { unfold fresh, roomsOK, roomTables, roomCached in *. rewrite Ht. split_and!; [|done|].
    - eapply rooms_ok_cache; [exact Hok|]. intros k x Hx. left. by eapply lookup_weaken.
    - intros id' [H1 H2]. split; [done|]. by eapply lookup_weaken_None. }
  assert (forall res db', (m ← First (selectRoom id); _ ← ignoreError (roomCacheSet m); mret m) db1 = (res, db') ->
    roomsOK db' /\ roomTables db' = roomTables db /\ (forall id, fresh db id -> fresh db' id) /\
    (forall r, res = Ok r -> Room.ID r = id /\ seenRoom db r)) as Hdb.
  { clear Hm. intros res' db'' Hm.
    destruct (roomFromDatabase_spec _ _ _ _ Hok1 Hm) as (H1 & H2 & H3 & H4).
    split_and!; [done|congruence|by auto|]. intros r Hr. destruct (H4 r Hr) as [Hid [S1 S2]].
    split; [done|]. split; [done|]. by rewrite <- Ht1. }
  destruct o as [[r|]|e|w]; [|by apply Hdb..|].
  - injection Hm as <- <-. split_and!; [done..|]. intros x [= <-].
    destruct (rk_cache _ _ Hok _ _ (Hhit r eq_refl)) as (Hid & Hr & Hsame). split; [done|].
    split; [done|]. by rewrite Hid.
  - injection Hm as <- <-. by split_and!.
Qed.

Lemma GetRoomByID_quiet id : keeps (quiet (DB := DB)) (GetRoomByID id).
Proof.
  intros db Hok. destruct (GetRoomByID id db) as [res db'] eqn:E.
  destruct (GetRoomByID_spec _ _ _ _ Hok E) as (H1 & H2 & H3 & _). by split_and!.
Qed.

Lemma GetRoomByDirectKey_quiet k : keeps (quiet (DB := DB)) (GetRoomByDirectKey k).
Proof.
  intros db Hok. unfold GetRoomByDirectKey. rewrite bind_run.
  destruct (First (selectRoomByDirectKey k) db) as [[r|e|w] db2] eqn:E1.
  2-3: destruct (same_view db db2) as (? & ? & ?); [|done|by split_and!];
       eapply First_not_Ok; [|apply selectRoomByDirectKey_law|exact E1]; by intros a db'' [? _].
  apply (First_Ok roomView _ _ _ _ _ (selectRoomByDirectKey_law k db)) in E1 as (Hv & _ & id & Hr).
  destruct (rooms_row _ _ _ Hok Hr) as [<- _].
  destruct (same_view db db2 Hv Hok) as (Hok2 & Ht2 & Hf2).
  destruct ((_ ← ignoreError (roomCacheSet r); mret r) db2) as [res db3] eqn:E.
  destruct (cacheRow_spec r db2 res db3 Hok2) as (Hok' & Ht' & Hf' & _); [by rewrite Ht2|exact E|].
  cbn. split_and!; [done|congruence|by auto].
Qed.

Lemma selectMember_same room acc : keeps (sameView (DB := DB)) (selectMember room acc).
Proof. eapply effect_same; [apply selectMember_law|]. by intros db a db' [? _]. Qed.
Lemma selectMembers_same room : keeps (sameView (DB := DB)) (selectMembers room).
Proof. eapply effect_same; [apply selectMembers_law|]. by intros db a db' [? _]. Qed.
Lemma selectMessage_same id : keeps (sameView (DB := DB)) (selectMessage id).
Proof. eapply effect_same; [apply selectMessage_law|]. by intros db a db' [? _]. Qed.
Lemma selectLastMessage_same room : keeps (sameView (DB := DB)) (selectLastMessage room).
Proof. eapply effect_same; [apply selectLastMessage_law|]. by intros db a db' [? _]. Qed.
Lemma selectAccounts_same ids : keeps (sameView (DB := DB)) (selectAccounts ids).
Proof. eapply effect_same; [apply selectAccounts_law|]. by intros db a db' ?. Qed.
Lemma maxRoomOutboxVersion_same room : keeps (sameView (DB := DB)) (maxRoomOutboxVersion room).
Proof. eapply effect_same; [apply maxRoomOutboxVersion_law|]. by intros db a db' ?. Qed.

#[local] Hint Resolve selectMember_same selectMembers_same
  selectMessage_same selectLastMessage_same selectAccounts_same maxRoomOutboxVersion_same : keeps.

Lemma ListByAccountIDs_same ids : keeps (sameView (DB := DB)) (ListByAccountIDs ids).
Proof. unfold ListByAccountIDs. go_keeps. Qed.
#[local] Hint Resolve ListByAccountIDs_same : keeps.

Lemma enrich_same l : keeps (sameView (DB := DB)) (enrichRoomMembersWithAccountProjections l).
Proof. unfold enrichRoomMembersWithAccountProjections. go_keeps. Qed.
Lemma GetMessageByID_same id : keeps (sameView (DB := DB)) (GetMessageByID id).
Proof. unfold GetMessageByID, messageOrNil. go_keeps. Qed.
Lemma GetLastMessage_same room : keeps (sameView (DB := DB)) (GetLastMessageByRoomID room).
Proof. unfold GetLastMessageByRoomID, messageOrNil. go_keeps. Qed.
#[local] Hint Resolve GetRoomByID_quiet GetRoomByDirectKey_quiet enrich_same GetMessageByID_same GetLastMessage_same same_quiet : keeps.

Lemma LoadRoom_quiet id : keeps (quiet (DB := DB)) (LoadRoom id).
Proof. unfold LoadRoom. go_keeps. Qed.
#[local] Hint Resolve LoadRoom_quiet : keeps.
Lemma LoadByDirectKey_quiet k : keeps (quiet (DB := DB)) (LoadByDirectKey k).
Proof. unfold LoadByDirectKey. go_keeps. Qed.
Lemma LoadMessage_quiet id : keeps (quiet (DB := DB)) (LoadMessage id).
Proof. unfold LoadMessage. go_keeps. Qed.
Lemma LoadForRecipient_quiet id acc : keeps (quiet (DB := DB)) (LoadForRecipient id acc).
Proof. unfold LoadForRecipient. go_keeps. Qed.

(** ** Loading a room *)

Lemma membersOf_Some t id m :
  m ∈ membersOf t id <-> exists acc, memberRows t !! (id, acc) = Some m.
Proof.
  unfold membersOf. rewrite list_elem_of_fmap. split.
  - intros ([[id' acc] m'] & -> & Hx). apply elem_of_map_to_list, map_lookup_filter_Some in Hx as [Hx Hin].
    unfold inRoom in Hin. cbn in Hin. subst. by exists acc.
  - intros [acc Hm]. exists ((id, acc), m). split; [done|].
    apply elem_of_map_to_list, map_lookup_filter_Some. by split.
Qed.

Lemma accountKey_memberRow m : accountKey (memberRow m) = accountKey m.
Proof. done. Qed.

Lemma member_key_account t c k m :
  rooms_ok t c -> memberRows t !! k = Some m -> accountKey m = k.2.
Proof.
  intros Hok Hm. destruct (rk_members _ _ Hok _ _ Hm) as (<- & Htr & _). exact Htr.
Qed.

Lemma membersOf_named t c id : rooms_ok t c -> named_members (membersOf t id).
Proof.
  intros Hok. split.
  - apply Forall_forall. intros m [acc Hm]%membersOf_Some. rewrite (member_key_account _ _ _ _ Hok Hm).
    by apply (rk_members _ _ Hok) in Hm as (_ & _ & ? & _).
  - unfold membersOf. rewrite <- list_fmap_compose.
    assert (NoDup (map_to_list (filter (inRoom id) (memberRows t))).*1) as Hnd by apply NoDup_fst_map_to_list.
    assert (forall x, x ∈ map_to_list (filter (inRoom id) (memberRows t)) ->
      x.1.1 = id /\ accountKey x.2 = x.1.2) as Hx.
    { intros [[id' acc] m] H. apply elem_of_map_to_list, map_lookup_filter_Some in H as [H Hin].
      split; [exact Hin|]. exact (member_key_account _ _ _ _ Hok H). }
    revert Hnd Hx. generalize (map_to_list (filter (inRoom id) (memberRows t))) as l.
    induction l as [|x l IH]; intros Hnd Hx; cbn; [constructor|].
    apply NoDup_cons in Hnd as [Hnin Hnd]. constructor; [|apply IH; [done|]; intros y Hy; apply Hx; by right].
    intros (y & Heq & Hy)%list_elem_of_fmap. apply Hnin. cbn in Heq.
    destruct (Hx x) as [Hx1 Hx2]; [by left|]. destruct (Hx y) as [Hy1 Hy2]; [by right|].
    apply list_elem_of_fmap. exists y. split; [|done].
    destruct x as [[? ?] ?], y as [[? ?] ?]. cbn in *. congruence.
Qed.

Lemma nameMember_row acc m : memberRow (nameMember acc m) = memberRow m.
Proof. unfold nameMember. by destruct (acc !! _). Qed.

(** Members as they are stored, but for their names. *)
Definition seenMembers t (id : string) (l : list RoomMember.t) : Prop :=
  memberRow <$> l ≡ₚ membersOf t id.

Lemma seenMembers_named t c id l : rooms_ok t c -> seenMembers t id l -> named_members l.
Proof.
  intros Hok Hl. destruct (membersOf_named _ _ id Hok) as [Hn Hd].
  assert (accountKey <$> l = accountKey <$> (memberRow <$> l)) as Heq.
  { rewrite <- list_fmap_compose. by apply list_fmap_ext. }
  split.
  - assert (Forall (fun m => accountKey m <> "") (memberRow <$> l)) as H by (by rewrite Hl).
    rewrite Forall_forall in H |- *. intros m Hm. rewrite <- accountKey_memberRow. apply H.
    by apply list_elem_of_fmap_2.
  - rewrite Heq. by rewrite Hl.
Qed.

(** Whether an account is one of the members. *)
Lemma seenMembers_lookup t c id l acc :
  rooms_ok t c -> seenMembers t id l ->
  memberRow <$> (memberMapOf l !! acc) = memberRows t !! (id, acc).
Proof.
  intros Hok Hl. pose proof (seenMembers_named _ _ _ _ Hok Hl) as [_ Hd].
  destruct (memberMapOf l !! acc) as [m|] eqn:Hm; cbn.
  - apply memberMapOf_Some in Hm as [Hin Hk]; [|done].
    assert (memberRow m ∈ membersOf t id) as [acc' Hrow]%membersOf_Some by (rewrite <- Hl; by apply list_elem_of_fmap_2).
    pose proof (member_key_account _ _ _ _ Hok Hrow) as Hk'. rewrite accountKey_memberRow in Hk'.
    cbn in Hk'. by rewrite <- Hk, Hk'.
  - destruct (memberRows t !! (id, acc)) as [row|] eqn:Hrow; [|done]. exfalso.
    assert (row ∈ memberRow <$> l) as (m & -> & Hin)%list_elem_of_fmap
      by (rewrite Hl; apply membersOf_Some; by exists acc).
    pose proof (member_key_account _ _ _ _ Hok Hrow) as Hk. rewrite accountKey_memberRow in Hk. cbn in Hk.
    assert (memberMapOf l !! acc = Some m); [|congruence]. by apply memberMapOf_Some.
Qed.

Lemma LoadRoom_spec id db agg db' :
  roomsOK db -> LoadRoom id db = (Ok agg, db') ->
  exists r l base, agg = restored r l base /\ Room.ID r = id /\ seenRoom db r /\
    seenMembers (roomTables db) id l.
Proof.
  intros Hok H. unfold LoadRoom in H.
  apply method_bind_Ok in H as (r & db1 & H1 & H).
  destruct (GetRoomByID_spec _ _ _ _ Hok H1) as (Hok1 & Ht1 & _ & Hr). destruct (Hr r eq_refl) as [Hid Hseen].
  apply method_bind_Ok in H as (rows & db2 & H2 & H).
  apply (effect_Ok _ _ _ _ _ _ (selectMembers_law id db1)) in H2 as [_ Hrows].
  apply method_bind_Ok in H as (accs & db3 & H3 & H).
  apply method_bind_Ok in H as (base & db4 & H4 & H). apply pair_equal_spec in H as [H _].
  set (l := map (nameMember _) rows) in H.
  assert (seenMembers (roomTables db) id l) as Hl.
  { unfold seenMembers. rewrite <- Ht1. etrans; [|exact Hrows]. subst l.
    rewrite <- list_fmap_compose.
    assert (Forall (fun m => memberRow m = m) rows) as Hn.
    { rewrite Hrows. apply Forall_forall. intros m [acc Hm]%membersOf_Some.
      by apply (rk_members _ _ Hok1) in Hm as (_ & _ & _ & ? & _). }
    clear -Hn. induction Hn as [|m rows Hm _ IH]; [done|]. cbn. rewrite nameMember_row, Hm.
    by constructor. }
  exists r, l, base. split; [|done].
  rewrite RestoreRoomAggregate_run in H; [by injection H|apply Hseen|].
  eapply seenMembers_named; [exact Hok|exact Hl].
Qed.
End spec.

#[export] Hint Resolve selectMember_same selectMembers_same selectMessage_same selectLastMessage_same
  selectAccounts_same maxRoomOutboxVersion_same ListByAccountIDs_same enrich_same GetMessageByID_same
  GetLastMessage_same same_quiet GetRoomByID_quiet GetRoomByDirectKey_quiet LoadRoom_quiet
  LoadByDirectKey_quiet LoadMessage_quiet LoadForRecipient_quiet : keeps.
