(* ===== verification/RoomSaveSpec.v ===== *)
(** * What a save of a room writes

    A save that succeeds writes the room, the member who joined or left, the
    messages, and one event of the outbox for the room, each message and each
    event of the aggregate. *)

From stdpp Require Import prelude strings gmap.
From S2P Require Import Prelude GoStrings GoSort Database Event.
From S2P Require Import RoomEntity RoomAggregate RoomSpec RoomProjection RoomStore RoomTables.
From S2P Require Import RoomStoreSpec.
Import RoomError.

(** ** The outbox *)

Definition outboxRow `{JSON RoomOutboxPayload} (evt : Event RoomOutboxPayload) (row : RoomOutboxRow.t) : Prop :=
  RoomOutboxRow.AggregateID row = AggregateID evt /\
  RoomOutboxRow.AggregateType row = AggregateType evt /\
  RoomOutboxRow.Version row = Version evt /\
  RoomOutboxRow.EventName row = EventName evt /\
  Marshal (EventData evt) = Ok (RoomOutboxRow.EventData row).

Definition addOutbox (rows : list RoomOutboxRow.t) (t : RoomTables) : RoomTables :=
  mkRoomTables (roomRows t) (memberRows t) (messageRows t) (roomOutbox t ++ rows).

(** The rows of the events of a save of room [roomID] that was at version [base]. *)
Definition outboxRows `{JSON RoomOutboxPayload} (roomID : string) (base : Z)
    (evs : list PendingOutbox.t) (rows : list RoomOutboxRow.t) : Prop :=
  Forall2 outboxRow (outboxBatch roomID base evs).1 rows.

(** ** Members and messages *)

Definition changeMemberRows (roomID : string) (c : MemberChange)
    (rows : gmap (string * string) RoomMember.t) : gmap (string * string) RoomMember.t :=
  match c with
  | NoMemberChange => rows
  | MemberJoins m => <[memberKey m := memberRow m]> rows
  | MemberLeaves k => delete (roomID, k) rows
  end.

Definition addMessages (models : list MessageModel) (t : RoomTables) : RoomTables :=
  foldl (fun t m => setMessageRow m t) t models.

Section save.
Context `{UC : UnicodeCase} {DB : Type} `{Laws : RoomSQLLaws DB}.
Context `{MJ : JSON (list MessageMention.t)} `{RJ : JSON (list MessageReaction.t)}.
Context `{PJ : JSON RoomOutboxPayload}.
Context (now : Time).
Implicit Types (db : DB) (t : RoomTables).

Lemma publish_Ok (batch : list (Event RoomOutboxPayload)) db db' :
  Publish (Some AppendRoomOutbox) now batch db = (Ok tt, db') ->
  exists rows, Forall2 outboxRow batch rows /\ roomTables db' = addOutbox rows (roomTables db).
Proof.
  unfold Publish. revert db. induction batch as [|ev batch IH]; intros db H.
  - injection H as <-. exists []. split; [constructor|]. unfold addOutbox. rewrite app_nil_r.
    by destruct (roomTables db).
  - apply range_cons_Ok in H as (db1 & H1 & H). destruct (IH _ H) as (rows & Hrows & Ht).
    unfold publishOne in H1. case_decide; [done|]. case_decide; [done|].
    apply wrap_err_Ok in H1. set (ev' := if decide _ then _ else _) in H1.
    unfold AppendRoomOutbox in H1. apply lift_bind_Ok in H1 as (data & Hdata & H1).
    apply map_err_Ok in Hdata.
    apply (effect_Ok _ _ _ _ _ _ (insertRoomOutbox_law _ db)) in H1.
    set (row := RoomOutboxRow.mk _ _ _ _ _) in H1. exists (row :: rows). split.
    + constructor; [|done]. subst row ev'. case_decide; by split_and!.
    + rewrite Ht. unfold roomTables at 1. rewrite H1. unfold addOutbox, addRoomOutbox, roomTables. cbn.
      by rewrite <- app_assoc.
Qed.

Lemma appendRoomOutboxEvents_Ok roomID base evs v db db' :
  appendRoomOutboxEvents now roomID base evs db = (Ok v, db') ->
  exists rows, outboxRows roomID base evs rows /\ roomTables db' = addOutbox rows (roomTables db).
Proof.
  unfold appendRoomOutboxEvents, outboxRows. case_decide as He.
  - subst evs. intros [= _ <-]. exists []. split; [constructor|]. unfold addOutbox.
    rewrite app_nil_r. by destruct (roomTables db).
  - destruct (outboxBatch roomID base evs) as [batch next]. cbn. intros H.
    apply method_bind_Ok in H as ([] & db1 & H1 & H). apply method_ret_Ok in H as [_ <-].
    by apply publish_Ok in H1.
Qed.

(** ** Rows *)

Lemma ignoreSet_tables r db (res : result unit) db' :
  ignoreError (roomCacheSet r) db = (res, db') -> roomTables db' = roomTables db.
Proof.
  unfold ignoreError. pose proof (roomCacheSet_law r db) as (Ht & _).
  destruct (roomCacheSet r db) as [[?|?|?] db1]; cbn in Ht; intros [= _ <-]; exact Ht.
Qed.

Lemma UpdateRoom_Ok r db db' :
  UpdateRoom r db = (Ok tt, db') ->
  exists stamp, roomTables db' = setRoomRow (Room.setUpdatedAt stamp r) (roomTables db).
Proof.
  intros H. apply method_bind_Ok in H as (r' & db1 & H1 & H).
  apply (effect_Ok _ _ _ _ _ _ (saveRoomRow_law r db)) in H1 as ([stamp ->] & Hv). exists stamp.
  rewrite (ignoreSet_tables _ _ _ _ H). unfold roomTables. by rewrite Hv.
Qed.

Lemma CreateRoom_Ok r db db' :
  CreateRoom r db = (Ok tt, db') ->
  roomRows (roomTables db) !! Room.ID r = None /\ roomTables db' = setRoomRow r (roomTables db).
Proof.
  intros H. apply method_bind_Ok in H as ([] & db1 & H1 & H).
  apply (effect_Ok _ _ _ _ _ _ (insertRoom_law r db)) in H1 as (Hnew & _ & Hv). split; [exact Hnew|].
  rewrite (ignoreSet_tables _ _ _ _ H). unfold roomTables. by rewrite Hv.
Qed.

(** A member whose account is not among the rows is inserted. *)
Lemma upsertMember_new isNew m db db' :
  memberRows (roomTables db) !! memberKey m = None ->
  upsertMember isNew m db = (Ok tt, db') ->
  roomTables db' = setMemberRows (<[memberKey m := memberRow m]> (memberRows (roomTables db))) (roomTables db).
Proof.
  intros Hnone H.
  assert (forall db1 db', roomTables db1 = roomTables db -> insertMember m db1 = (Ok tt, db') ->
    roomTables db' = setMemberRows (<[memberKey m := memberRow m]> (memberRows (roomTables db))) (roomTables db))
    as Hins.
  { intros db1 db2 Ht Hi. apply (effect_Ok _ _ _ _ _ _ (insertMember_law m db1)) in Hi as [_ Hv].
    rewrite <- Ht. unfold roomTables. by rewrite Hv. }
  unfold upsertMember in H. destruct isNew; [by eapply Hins|].
  apply method_bind_Ok in H as (o & db1 & H1 & H).
  apply (nilFirst_Ok roomView _ _ _ _ _ (selectMember_law _ _ db)) in H1 as [Hv Ho].
  assert (roomTables db1 = roomTables db) as Ht by (unfold roomTables; by rewrite Hv).
  unfold roomTables in Hnone. unfold memberKey in Hnone. rewrite Hnone in Ho. subst o. by eapply Hins.
Qed.

Lemma range_deleteMembers roomID l db db' :
  range l (fun memberID => deleteMemberRow roomID memberID) db = (Ok tt, db') ->
  roomTables db' = setMemberRows (foldl (fun rows k => delete (roomID, k) rows) (memberRows (roomTables db)) l)
                     (roomTables db).
Proof.
  revert db. induction l as [|k l IH]; intros db H.
  - injection H as <-. by destruct (roomTables db).
  - apply range_cons_Ok in H as (db1 & H1 & H). rewrite (IH _ H).
    apply (effect_Ok _ _ _ _ _ _ (deleteMemberRow_law roomID k db)) in H1.
    unfold roomTables. by rewrite H1.
Qed.

Lemma range_createMessages (l : list Message.t) db db' :
  range l CreateMessage db = (Ok tt, db') ->
  exists models, Forall2 (fun m model => toMessageModel m = Ok model) l models /\
    Forall (fun model => messageRows (roomTables db) !! MessageModel.ID model = None) models /\
    roomTables db' = addMessages models (roomTables db).
Proof.
  revert db. induction l as [|m l IH]; intros db H.
  - injection H as <-. exists []. by repeat constructor.
  - apply range_cons_Ok in H as (db1 & H1 & H). unfold CreateMessage in H1.
    apply lift_bind_Ok in H1 as (model & Hm & H1).
    apply (effect_Ok _ _ _ _ _ _ (insertMessage_law model db)) in H1 as [Hnew Hv].
    assert (roomTables db1 = setMessageRow model (roomTables db)) as Ht by (unfold roomTables; by rewrite Hv).
    destruct (IH _ H) as (models & Hms & Hfresh & Ht'). exists (model :: models). split_and!.
    + by constructor.
    + constructor; [exact Hnew|]. eapply Forall_impl; [exact Hfresh|]. intros x Hx. rewrite Ht in Hx.
      unfold setMessageRow in Hx. cbn [messageRows] in Hx. by apply lookup_insert_None in Hx as [? _].
    + cbn. by rewrite <- Ht.
Qed.

(** ** Saving the effect of a command *)

(** What a save leaves, of an effect on a room that was at version [base]. *)
Record roomSaved t (e : RoomEffect) (base : Z) t' : Prop := {
  rs_room : exists stamp,
    roomRows t' = <[Room.ID (effRoom e) := Room.setUpdatedAt stamp (effRoom e)]> (roomRows t);
  rs_members : memberRows t' = changeMemberRows (Room.ID (effRoom e)) (effChange e) (memberRows t);
  rs_messages : exists models,
    Forall2 (fun m model => toMessageModel m = Ok model) (effMessages e) models /\
    Forall (fun model => messageRows t !! MessageModel.ID model = None) models /\
    messageRows t' = messageRows (addMessages models t);
  rs_outbox : exists evs rows, outboxRows (Room.ID (effRoom e)) base evs rows /\
    PendingOutbox.EventName <$> evs =
      EventRoomAggregateProjectionSynced
        :: (const EventMessageAggregateProjectionSynced <$> effMessages e)
        ++ ((fun ev => event_name ev.1) <$> effEvents e) /\
    roomOutbox t' = roomOutbox t ++ rows
}.

Lemma addMessages_fields models t :
  roomRows (addMessages models t) = roomRows t /\ memberRows (addMessages models t) = memberRows t /\
  roomOutbox (addMessages models t) = roomOutbox t.
Proof.
  unfold addMessages. revert t. induction models as [|m models IH]; intros t; cbn; [done|].
  destruct (IH (setMessageRow m t)) as (-> & -> & ->). done.
Qed.

Lemma addMessages_rows models t t' :
  messageRows t = messageRows t' -> messageRows (addMessages models t) = messageRows (addMessages models t').
Proof.
  unfold addMessages. revert t t'. induction models as [|m models IH]; intros t t' H; cbn; [done|].
  apply IH. cbn. by rewrite H.
Qed.

(** The events of a save, by name. *)
Lemma roomOutboxEvents_names agg room everyone last :
  Forall (fun ev => EventName ev = event_name (EventData ev)) (events (RoomAggregate.root agg)) ->
  PendingOutbox.EventName <$> roomOutboxEvents now agg room everyone last =
    EventRoomAggregateProjectionSynced
      :: (const EventMessageAggregateProjectionSynced <$> RoomAggregate.pendingMessages agg)
      ++ ((fun ev => event_name (EventData ev)) <$> events (RoomAggregate.root agg)).
Proof.
  intros Hn. unfold roomOutboxEvents, PendingOutboxEvents, CloneEvents. cbn. f_equal.
  rewrite fmap_app. f_equal.
  - rewrite <- list_fmap_compose. by apply list_fmap_ext.
  - rewrite <- !list_fmap_compose. induction Hn as [|ev evs Hev _ IH]; [done|]. cbn. rewrite Hev.
    f_equal. exact IH.
Qed.

Lemma pushEvents_data evs (ar : AggregateRoot RoomEventData) :
  Forall (fun ev => EventName ev = event_name (EventData ev)) (events ar) ->
  Forall (fun ev => EventName ev = event_name (EventData ev)) (events (foldl pushEvent ar evs)) /\
  EventData <$> events (foldl pushEvent ar evs) = (EventData <$> events ar) ++ evs.*1.
Proof.
  revert ar. induction evs as [|ev evs IH]; intros ar Har; cbn [foldl]; [by rewrite app_nil_r|].
  destruct (IH (pushEvent ar ev)) as [Hn Hd].
  - apply Forall_alter; [|done]. apply Forall_app. split; [done|]. by repeat constructor.
  - split; [exact Hn|]. rewrite Hd. unfold pushEvent, stampLast, appendEvent. cbn.
    rewrite length_app. cbn. rewrite Nat.add_1_r. cbn [pred].
    rewrite alter_app_r_alt, Nat.sub_diag by done. cbn. rewrite fmap_app. cbn. by rewrite <- app_assoc.
Qed.

Lemma SaveRoom_Ok e r l base db agg db' :
  Room.ID (effRoom e) = Room.ID r ->
  (forall m, effChange e = MemberJoins m -> RoomMember.RoomID m = Room.ID r /\
     memberRows (roomTables db) !! memberKey m = None) ->
  SaveRoom now (performed e (restored r l base)) db = (Ok agg, db') ->
  roomSaved (roomTables db) e base (roomTables db').
Proof.
  intros Hid Hjoin H. unfold SaveRoom in H.
  set (a := performed e (restored r l base)) in *. change (RoomAggregate.roomDeleted a) with false in H.
  change (HasPendingRoomWrite a) with true in H. cbn [negb] in H.
  change (RoomAggregate.room a) with (Some (effRoom e)) in H.
  apply method_bind_Ok in H as ([] & db1 & H1 & H).
  apply method_bind_Ok in H as (everyone & db2 & H2 & H).
  apply method_bind_Ok in H as (last & db3 & H3 & H).
  apply method_bind_Ok in H as (v & db4 & H4 & H).
  apply pair_equal_spec in H as [_ <-].
  (* the rows *)
  apply method_bind_Ok in H1 as ([] & s1 & R1 & H1). change (RoomAggregate.isNew a) with false in R1, H1.
  apply UpdateRoom_Ok in R1 as [stamp R1].
  apply method_bind_Ok in H1 as ([] & s2 & R2 & H1). apply range_deleteMembers in R2.
  apply method_bind_Ok in H1 as ([] & s3 & R3 & H1).
  apply range_createMessages in H1 as (models & Hm & Hfresh & R4).
  assert (roomTables s3 = setMemberRows (changeMemberRows (Room.ID (effRoom e)) (effChange e)
            (memberRows (roomTables db))) (roomTables s1)) as Hs3.
  { destruct (effChange e) as [|m|k] eqn:Hc.
    - assert (PendingMemberUpserts a = []) as Hu.
      { unfold PendingMemberUpserts. subst a. cbn. rewrite Hc. cbn. by rewrite map_to_list_empty. }
      rewrite Hu in R3. injection R3 as <-. rewrite R2.
      subst a. cbn. rewrite Hc. by rewrite R1.
    - destruct (Hjoin m eq_refl) as [Hroom Hnone].
      assert (PendingMemberUpserts a = [m]) as Hu.
      { unfold PendingMemberUpserts. subst a. cbn. rewrite Hc. cbn.
        by rewrite insert_empty, map_to_list_singleton. }
      assert (RoomAggregate.removedMemberIDs a = []) as Hrem by (subst a; cbn; by rewrite Hc).
      rewrite Hrem in R2. cbn in R2. rewrite Hu in R3.
      apply range_cons_Ok in R3 as (s4 & R3 & R5). injection R5 as <-.
      assert (roomTables s2 = roomTables s1) as Ht2 by (rewrite R2; by destruct (roomTables s1)).
      apply upsertMember_new in R3; [|by rewrite Ht2, R1].
      rewrite R3, Ht2, R1. done.
    - assert (PendingMemberUpserts a = []) as Hu.
      { unfold PendingMemberUpserts. subst a. cbn. rewrite Hc. cbn. by rewrite delete_empty, map_to_list_empty. }
      assert (RoomAggregate.removedMemberIDs a = [k]) as Hrem by (subst a; cbn; by rewrite Hc).
      rewrite Hrem in R2. rewrite Hu in R3. injection R3 as <-. rewrite R2. cbn. by rewrite R1. }
  (* the events *)
  assert (roomTables db3 = roomTables db1) as Ht3.
  { transitivity (roomTables db2); unfold roomTables; f_equal.
    - eapply (keeps_run sameView); [|exact H3]. go_keeps.
    - eapply (keeps_run sameView); [|exact H2]. go_keeps. }
  apply appendRoomOutboxEvents_Ok in H4 as (rows & Hrows & Ht4).
  assert (baseVersion (RoomAggregate.root a) = base) as Hbase by apply foldl_pushEvent_id.
  rewrite Hbase in Hrows.
  rewrite Ht4, Ht3, R4, Hs3, R1. destruct (addMessages_fields models
    (setMemberRows (changeMemberRows (Room.ID (effRoom e)) (effChange e) (memberRows (roomTables db)))
       (setRoomRow (Room.setUpdatedAt stamp (effRoom e)) (roomTables db)))) as (Hf1 & Hf2 & Hf3).
  split; unfold addOutbox; cbn [roomRows memberRows messageRows roomOutbox].
  - exists stamp. by rewrite Hf1.
  - by rewrite Hf2.
  - exists models. split; [exact Hm|]. split; [by rewrite Hs3, R1 in Hfresh|]. by apply addMessages_rows.
  - eexists _, rows. split; [exact Hrows|]. rewrite Hf3. split; [|done].
    destruct (pushEvents_data (effEvents e) (RoomAggregate.root (restored r l base))) as [Hn Hd]; [constructor|].
    rewrite roomOutboxEvents_names by exact Hn. f_equal. f_equal.
    assert (forall k : list (Event RoomEventData), (fun ev => event_name (EventData ev)) <$> k
      = event_name <$> (EventData <$> k)) as Hk by (intros k; by rewrite <- list_fmap_compose).
    subst a. cbn [RoomAggregate.root performed]. rewrite Hk, Hd. cbn. by rewrite <- list_fmap_compose.
Qed.
End save.
