(* ===== verification/RoomFrame.v ===== *)
(** * What every run of the repositories keeps

    Whatever they return, saves and loads keep the invariant of the tables and
    change them only as [roomFrame] allows: rooms keep what [sameRoom] says,
    conversations that are not groups keep their members, and messages keep
    their room and sender and, unless the sender edits, their text. *)

From stdpp Require Import prelude strings gmap.
From S2P Require Import Prelude GoStrings GoSort Database Event.
From S2P Require Import RoomEntity RoomAggregate RoomSpec RoomProjection RoomStore RoomTables.
From S2P Require Import RoomStoreSpec RoomSaveSpec.
Import RoomError.

Section frame.
Context `{UC : UnicodeCase}.
(** The accounts that may edit and delete messages, and the rooms that may get
    members though they are no groups. *)
Context (editor exempt : string -> Prop).
Implicit Types (t : RoomTables).

(** What a row of a message keeps. *)
Record sameMessage (m m' : MessageModel) : Prop := {
  sm_room : MessageModel.RoomID m' = MessageModel.RoomID m;
  sm_sender : MessageModel.SenderID m' = MessageModel.SenderID m;
  sm_text : ~ editor (TrimSpace (MessageModel.SenderID m)) ->
    MessageModel.Message m' = MessageModel.Message m /\
    MessageModel.EditedAt m' = MessageModel.EditedAt m /\
    MessageModel.DeletedForEveryoneAt m' = MessageModel.DeletedForEveryoneAt m
}.

#[export] Instance sameMessage_preorder : PreOrder sameMessage.
Proof.
  split; [by intros m; split|]. intros m1 m2 m3 [A1 A2 A3] [B1 B2 B3].
  split; [congruence..|]. intros He. destruct (A3 He) as (? & ? & ?).
  rewrite A2 in B3. destruct (B3 He) as (? & ? & ?). split_and!; congruence.
Qed.

Record roomFrame t t' : Prop := {
  fr_rooms : forall id r, roomRows t !! id = Some r ->
    exists r', roomRows t' !! id = Some r' /\ sameRoom r r';
  fr_members : forall id r, roomRows t !! id = Some r -> IsGroup (Some r) = false -> ~ exempt id ->
    forall acc, is_Some (memberRows t' !! (id, acc)) <-> is_Some (memberRows t !! (id, acc));
  fr_messages : forall id m, messageRows t !! id = Some m ->
    exists m', messageRows t' !! id = Some m' /\ sameMessage m m'
}.

#[export] Instance roomFrame_preorder : PreOrder roomFrame.
Proof.
  split.
  - intros t. split; [by intros id r Hr; exists r|done|].
    intros id m Hm. exists m. by split.
  - intros t1 t2 t3 [A1 A2 A3] [B1 B2 B3]. split.
    + intros id r Hr. destruct (A1 _ _ Hr) as (r2 & Hr2 & S2). destruct (B1 _ _ Hr2) as (r3 & Hr3 & S3).
      exists r3. split; [done|]. by etrans.
    + intros id r Hr Hg Hx acc. rewrite <- (A2 _ _ Hr Hg Hx).
      destruct (A1 _ _ Hr) as (r2 & Hr2 & (_ & _ & Hty & _)%sameRoom_fields).
      apply (B2 _ _ Hr2); [|done]. by rewrite (IsGroup_type r r2).
    + intros id m Hm. destruct (A3 _ _ Hm) as (m2 & Hm2 & S2). destruct (B3 _ _ Hm2) as (m3 & Hm3 & S3).
      exists m3. split; [done|]. by etrans.
Qed.

(** ** The frames of the statements *)

Lemma frame_room t r :
  (forall r0, roomRows t !! Room.ID r = Some r0 -> sameRoom r0 r) -> roomFrame t (setRoomRow r t).
Proof.
  intros Hs. split; cbn; [|done|by intros id m Hm; exists m].
  intros id r0 Hr0. destruct (decide (id = Room.ID r)) as [->|Hne].
  - exists r. rewrite lookup_insert_eq. split; [done|]. by apply Hs.
  - exists r0. by rewrite lookup_insert_ne.
Qed.

Lemma frame_members t ms :
  (forall id r, roomRows t !! id = Some r -> IsGroup (Some r) = false -> ~ exempt id ->
     forall acc, is_Some (ms !! (id, acc)) <-> is_Some (memberRows t !! (id, acc))) ->
  roomFrame t (setMemberRows ms t).
Proof. intros H. split; cbn; [by intros id r Hr; exists r|done|by intros id m Hm; exists m]. Qed.

Lemma frame_message t m :
  (forall m0, messageRows t !! MessageModel.ID m = Some m0 -> sameMessage m0 m) ->
  roomFrame t (setMessageRow m t).
Proof.
  intros Hs. split; cbn; [by intros id r Hr; exists r|done|].
  intros id m0 Hm0. destruct (decide (id = MessageModel.ID m)) as [->|Hne].
  - exists m. rewrite lookup_insert_eq. split; [done|]. by apply Hs.
  - exists m0. by rewrite lookup_insert_ne.
Qed.

Lemma frame_outbox t row : roomFrame t (addRoomOutbox row t).
Proof. split; cbn; [by intros id r Hr; exists r|done|by intros id m Hm; exists m]. Qed.

(** ** The invariant after the statements *)

Lemma ok_room t c r :
  rooms_ok t c -> room_ok r ->
  (forall r0, roomRows t !! Room.ID r = Some r0 -> sameRoom r0 r) ->
  (roomRows t !! Room.ID r = None -> c !! Room.ID r = None) ->
  rooms_ok (setRoomRow r t) c.
Proof.
  intros [H1 H2 H3 H4] Hr Hs Hnew. split; cbn; [| |done|].
  - intros id r0. destruct (decide (id = Room.ID r)) as [->|Hne].
    + rewrite lookup_insert_eq. by intros [= <-].
    + rewrite lookup_insert_ne by done. apply H1.
  - intros k m Hm. destruct (H2 k m Hm) as (? & ? & ? & ? & Hrow). split_and!; try done.
    destruct (decide (k.1 = Room.ID r)) as [->|Hne]; [by rewrite lookup_insert_eq|].
    by rewrite lookup_insert_ne.
  - intros id x Hx. destruct (H4 id x Hx) as (Hid & Hok & Hsame). split_and!; [done..|].
    destruct (decide (id = Room.ID r)) as [->|Hne].
    + rewrite lookup_insert_eq. intros r0 [= <-].
      destruct (roomRows t !! Room.ID r) as [r1|] eqn:E; [|by rewrite (Hnew eq_refl) in Hx].
      etrans; [apply sameRoom_sym, (Hs r1 eq_refl)|by apply Hsame].
    + by rewrite lookup_insert_ne.
Qed.

Lemma ok_members t c ms :
  rooms_ok t c ->
  (forall k m, ms !! k = Some m ->
     memberKey m = k /\ trimmed k.2 /\ k.2 <> "" /\ memberRow m = m /\ is_Some (roomRows t !! k.1)) ->
  rooms_ok (setMemberRows ms t) c.
Proof. intros [H1 H2 H3 H4] H. by split. Qed.

Lemma ok_message t c m : rooms_ok t c -> rooms_ok (setMessageRow m t) c.
Proof.
  intros [H1 H2 H3 H4]. split; cbn; [done..| |done]. intros id x.
  destruct (decide (id = MessageModel.ID m)) as [->|Hne].
  - rewrite lookup_insert_eq. by intros [= <-].
  - rewrite lookup_insert_ne by done. apply H3.
Qed.

Lemma ok_outbox t c row : rooms_ok t c -> rooms_ok (addRoomOutbox row t) c.
Proof. by intros [H1 H2 H3 H4]. Qed.

(** ** Aggregates in flight *)

(** What a room aggregate, loaded at some time and not saved yet, may write. *)
Record flying t (a : RoomAggregate) (room : Room.t) : Prop := {
  fl_room : RoomAggregate.room a = Some room;
  fl_ok : room_ok room;
  fl_row : exists row, roomRows t !! Room.ID room = Some row /\ sameRoom row room;
  fl_upserts : forall m, m ∈ PendingMemberUpserts a ->
    RoomMember.RoomID m = Room.ID room /\ trimmed (RoomMember.AccountID m) /\ RoomMember.AccountID m <> "";
  fl_change : IsGroup (Some room) = true \/ exempt (Room.ID room) \/
    (PendingMemberUpserts a = [] /\ RoomAggregate.removedMemberIDs a = [])
}.

Lemma flying_stable t t' a room : roomFrame t t' -> flying t a room -> flying t' a room.
Proof.
  intros [F1 _ _] [H1 H2 (row & Hrow & Hs) H4 H5]. split; try done.
  destruct (F1 _ _ Hrow) as (row' & Hrow' & Hs'). exists row'. split; [done|].
  etrans; [by apply sameRoom_sym|done].
Qed.

(** What a message aggregate in flight may write. *)
Definition messageFlying t (a : MessageStateAggregate) : Prop :=
  let m := MessageState.message a in
  exists row, messageRows t !! Message.ID m = Some row /\
    Message.RoomID m = MessageModel.RoomID row /\ Message.SenderID m = MessageModel.SenderID row /\
    (~ editor (TrimSpace (MessageModel.SenderID row)) ->
       Message.Message m = MessageModel.Message row /\ Message.EditedAt m = MessageModel.EditedAt row /\
       Message.DeletedForEveryoneAt m = MessageModel.DeletedForEveryoneAt row).

Lemma messageFlying_stable t t' a : roomFrame t t' -> messageFlying t a -> messageFlying t' a.
Proof.
  intros [_ _ F3] (row & Hrow & Hr & Hs & Ht). destruct (F3 _ _ Hrow) as (row' & Hrow' & [S1 S2 S3]).
  exists row'. split; [done|]. split; [congruence|]. split; [congruence|]. rewrite S2. intros He.
  destruct (Ht He) as (? & ? & ?), (S3 He) as (? & ? & ?). split_and!; congruence.
Qed.
End frame.

(** ** Runs *)

Section runs.
Context `{UC : UnicodeCase} {DB : Type} `{Laws : RoomSQLLaws DB}.
Context `{MJ : JSON (list MessageMention.t)} `{RJ : JSON (list MessageReaction.t)}.
Context `{PJ : JSON RoomOutboxPayload}.
Context (now : Time) (editor exempt : string -> Prop).
Implicit Types (db : DB) (t : RoomTables).
Local Notation frame := (roomFrame editor exempt).

(** Under an assumption that the frame preserves. *)
Section statements.
Context (P : RoomTables -> Prop).
Hypothesis P_stable : forall t t', frame t t' -> P t -> P t'.

Lemma statement_frames {A} (m : method DB A) (Q : DB -> A -> DB -> Prop) :
  (forall db, effect roomView m db (Q db)) ->
  (forall db a db', roomsOK db -> P (roomTables db) -> Q db a db' ->
     roomsOK db' /\ frame (roomTables db) (roomTables db')) ->
  keeps (within P frame) m.
Proof.
  intros Heff HQ. eapply effect_within; [apply _|exact Heff|]. intros db a db' Hok HP Hq.
  destruct (HQ db a db' Hok HP Hq) as [Hok' HF]. split; [done|]. split; [by eapply P_stable|done].
Qed.

(** A statement that changes the tables by [f]. *)
Lemma update_frames {A} (m : method DB A) (f : RoomTables -> RoomTables) (Q : DB -> A -> DB -> Prop) :
  (forall db, effect roomView m db (Q db)) ->
  (forall db a db', Q db a db' -> roomView db' = (f (roomView db).1, (roomView db).2)) ->
  (forall t c, rooms_ok t c -> P t -> rooms_ok (f t) c /\ frame t (f t)) ->
  keeps (within P frame) m.
Proof.
  intros Heff HQ Hf. eapply statement_frames; [exact Heff|]. intros db a db' Hok HP H%HQ.
  unfold roomsOK, roomTables, roomCached in *. rewrite H. by apply Hf.
Qed.

Lemma insertOutbox_frames row : keeps (within P frame) (insertRoomOutbox row).
Proof.
  eapply (update_frames _ (addRoomOutbox row)); [apply insertRoomOutbox_law|done|].
  intros t c Hok _. split; [by apply ok_outbox|apply frame_outbox].
Qed.

Lemma appendRoomOutboxEvents_frames roomID base evs :
  keeps (within P frame) (appendRoomOutboxEvents now roomID base evs).
Proof using P_stable.
  unfold appendRoomOutboxEvents. case_decide; [go_keeps|].
  destruct (outboxBatch _ _ _) as [batch next]. apply keeps_bind; [apply _| |intros; go_keeps].
  unfold Publish. apply keeps_range; [apply _|]. intros ev _. unfold publishOne, AppendRoomOutbox.
  pose proof insertOutbox_frames. go_keeps.
Qed.

Lemma CreateMessage_frames m : keeps (within P frame) (CreateMessage m).
Proof using P_stable.
  unfold CreateMessage. apply keeps_bind; [apply _|go_keeps|]. intros model.
  eapply statement_frames; [apply insertMessage_law|]. intros db _ db' Hok _ [Hnew Hv].
  unfold roomsOK, roomTables, roomCached in *. rewrite Hv. cbn [fst snd]. split; [by apply ok_message|].
  apply frame_message. intros m0. by rewrite Hnew.
Qed.

Lemma updateMemberRow_frames m : keeps (within P frame) (updateMemberRow m).
Proof using P_stable.
  assert (forall row, memberKey (writeMember m row) = memberKey row /\
    (memberRow row = row -> memberRow (writeMember m row) = writeMember m row)) as Hw.
  { intros row. unfold writeMember. case_decide; [|done]. split; [done|].
    destruct row. unfold memberRow, RoomMember.setNames. cbn. by intros [= <- <- <-]. }
  eapply (update_frames _ (fun t => setMemberRows (writeMember m <$> memberRows t) t));
    [apply updateMemberRow_law|done|]. intros t c Hok _. split.
  - apply ok_members; [done|]. intros k row'. rewrite lookup_fmap. intros Hk.
    destruct (memberRows t !! k) as [row|] eqn:E; [|done]. injection Hk as <-.
    destruct (rk_members _ _ Hok _ _ E) as (Hkey & ? & ? & Hrow & ?). destruct (Hw row) as [-> Hw2].
    split_and!; auto.
  - apply frame_members. intros id r _ _ _ acc. by rewrite lookup_fmap, fmap_is_Some.
Qed.

Lemma deleteMemberRow_frames room k :
  (forall t r, P t -> roomRows t !! room = Some r -> IsGroup (Some r) = true \/ exempt room) ->
  keeps (within P frame) (deleteMemberRow room k).
Proof using P_stable.
  intros Hr. eapply (update_frames _ (fun t => setMemberRows (delete (room, k) (memberRows t)) t));
    [apply deleteMemberRow_law|done|]. intros t c Hok HP. split.
  - apply ok_members; [done|]. intros k' m [_ H]%lookup_delete_Some. by apply (rk_members _ _ Hok).
  - apply frame_members. intros id r Hid Hg Hx acc. rewrite lookup_delete_ne; [done|].
    intros [= <- _]. destruct (Hr t r HP Hid); [congruence|done].
Qed.

(** A member with a home. *)
Definition homed t (m : RoomMember.t) : Prop :=
  trimmed (RoomMember.AccountID m) /\ RoomMember.AccountID m <> "" /\
  exists r, roomRows t !! RoomMember.RoomID m = Some r /\
    (IsGroup (Some r) = true \/ exempt (RoomMember.RoomID m)).

Lemma insertMember_frames m :
  (forall t, P t -> homed t m) -> keeps (within P frame) (insertMember m).
Proof using P_stable.
  intros Hm. eapply (update_frames _ (fun t => setMemberRows (<[memberKey m := memberRow m]> (memberRows t)) t));
    [apply insertMember_law|intros db a db' [_ H]; exact H|]. intros t c Hok HP.
  destruct (Hm t HP) as (Ht & Hne & r0 & Hr0 & Hg0). split.
  - apply ok_members; [done|]. intros k x. destruct (decide (k = memberKey m)) as [->|Hk].
    + rewrite lookup_insert_eq. intros [= <-]. by split_and!.
    + rewrite lookup_insert_ne by done. apply (rk_members _ _ Hok).
  - apply frame_members. intros id r Hid Hg Hx acc. rewrite lookup_insert_ne; [done|].
    intros [= <- _]. rewrite Hr0 in Hid. injection Hid as <-. destruct Hg0; [congruence|done].
Qed.

Lemma upsertMember_frames isNew m :
  (forall t, P t -> homed t m) -> keeps (within P frame) (upsertMember isNew m).
Proof using P_stable.
  intros Hm. pose proof (insertMember_frames m Hm). pose proof (updateMemberRow_frames m).
  unfold upsertMember. destruct isNew; [done|].
  apply keeps_bind; [apply _| |intros [?|]; done].
  apply quiet_within; [apply _|]. apply same_quiet. go_keeps.
Qed.

(** The row of a room, and what is cached of it. *)
Lemma UpdateRoom_frames r :
  room_ok r -> (forall t, P t -> exists row, roomRows t !! Room.ID r = Some row /\ sameRoom row r) ->
  keeps (within P frame) (UpdateRoom r).
Proof using P_stable.
  intros Hr Hrow db Hok HP. unfold UpdateRoom. rewrite bind_run.
  pose proof (saveRoomRow_law r db) as Hl. unfold effect in Hl.
  assert (forall db', roomView db' = roomView db ->
    roomsOK db' /\ P (roomTables db') /\ frame (roomTables db) (roomTables db')) as Hsame.
  { intros db' Hv. destruct (same_view db db' Hv Hok) as (? & -> & _). by split_and!. }
  destruct (saveRoomRow r db) as [[r'|e|w] db1]; [|apply Hsame, Hl|by apply Hsame].
  destruct Hl as ([stamp ->] & Hv). set (r' := Room.setUpdatedAt stamp r) in *.
  destruct (Hrow _ HP) as (row & Hrow0 & Hs).
  assert (sameRoom row r') as Hs' by (etrans; [exact Hs|apply sameRoom_setUpdatedAt]).
  assert (forall r0, roomRows (roomTables db) !! Room.ID r' = Some r0 -> sameRoom r0 r') as Hall.
  { intros r0 Hr0. change (Room.ID r') with (Room.ID r) in Hr0. rewrite Hrow0 in Hr0. by injection Hr0 as <-. }
  assert (roomTables db1 = setRoomRow r' (roomTables db)) as Ht1 by (unfold roomTables; by rewrite Hv).
  assert (roomsOK db1) as Hok1.
  { unfold roomsOK. rewrite Ht1. unfold roomCached. rewrite Hv. apply ok_room; [exact Hok|done|done|].
    change (Room.ID r') with (Room.ID r). intros Hnone. congruence. }
  assert (frame (roomTables db) (roomTables db1)) as HF by (rewrite Ht1; by apply frame_room).
  destruct (roomCacheSet_quiet r' db1 Hok1) as (Hok2 & Ht2 & _); [done| |].
  { rewrite Ht1. unfold setRoomRow. cbn [roomRows]. rewrite lookup_insert_eq. by intros r0 [= <-]. }
  rewrite Ht2. split; [done|]. split; [by eapply P_stable|done].
Qed.

Lemma UpdateMessage_frames m :
  (forall t model, P t -> toMessageModel m = Ok model ->
     forall row, messageRows t !! Message.ID m = Some row -> sameMessage editor row model) ->
  keeps (within P frame) (UpdateMessage m).
Proof using P_stable.
  intros Hm db Hok HP. unfold UpdateMessage. rewrite lift_bind_run.
  destruct (toMessageModel m) as [model|e|w] eqn:E; [|by split_and!..].
  assert (MessageModel.ID model = Message.ID m) as Hid.
  { unfold toMessageModel in E. apply result_bind_Ok in E as (? & _ & E).
    apply result_bind_Ok in E as (? & _ & E). by injection E as <-. }
  revert db Hok HP. change (keeps (within P frame) (updateMessageRow model)).
  eapply (update_frames _ (fun t => match messageRows t !! MessageModel.ID model with
            | Some _ => setMessageRow model t | None => t end)); [apply updateMessageRow_law|done|].
  intros t c Hok HP. destruct (messageRows t !! MessageModel.ID model) as [row|] eqn:Er; [|done].
  split; [by apply ok_message|]. apply frame_message. intros m0 Hm0. rewrite Hid in Hm0. by eapply Hm.
Qed.
End statements.

(** ** Transactions *)

Lemma transaction_run {A} (m : method DB A) db :
  roomsOK db -> roomsOK (m db).2 -> frame (roomTables db) (roomTables (m db).2) ->
  roomsOK (WithRoomTransaction m db).2 /\
  (roomTables (WithRoomTransaction m db).2 = roomTables db \/
   roomTables (WithRoomTransaction m db).2 = roomTables (m db).2) /\
  frame (roomTables db) (roomTables (WithRoomTransaction m db).2).
Proof.
  intros Hok Hok1 HF. unfold WithRoomTransaction.
  destruct (roomBeginError db); [split_and!; [done|by left|done]|].
  destruct (m db) as [r db1]. cbn [snd] in *.
  assert (roomTables (roomRollback db db1) = roomTables db) as Ht
    by (unfold roomTables; by rewrite roomRollback_law).
  assert (roomsOK (roomRollback db db1)) as Hback.
  { unfold roomsOK. rewrite Ht. unfold roomCached.
    rewrite roomRollback_law. cbn [snd]. destruct Hok as [A1 A2 A3 _], Hok1 as [_ _ _ B4].
    split; [done..|]. intros id x Hx. destruct (B4 id x Hx) as (Hid & Hx' & Hs). split_and!; [done..|].
    intros r0 Hr0. destruct (fr_rooms _ _ _ _ HF _ _ Hr0) as (r1 & Hr1 & Hs1).
    etrans; [exact Hs1|by apply Hs]. }
  assert (frame (roomTables db) (roomTables (roomRollback db db1))) as HFb by by rewrite Ht.
  destruct r as [a|e|w]; [|split_and!; [done|by left|done]..].
  destruct (roomCommitError db1); split_and!; auto.
Qed.

Lemma transaction_frames P {A} (m : method DB A) :
  keeps (within P frame) m -> keeps (within P frame) (WithRoomTransaction m).
Proof.
  intros Hm db Hok HP. destruct (Hm db Hok HP) as (Hok1 & HP1 & HF).
  destruct (transaction_run m db Hok Hok1 HF) as (Hok' & Ht & HF'). split; [done|]. split; [|done].
  by destruct Ht as [-> | ->].
Qed.

(** ** Saves *)

(** The part of a save of a room that follows the row of the room. *)
Lemma saveRoomRest_frames a room base :
  keeps (within (fun t => flying exempt t a room) frame)
    (_ ← range (RoomAggregate.removedMemberIDs a) (fun memberID => deleteMemberRow (Room.ID room) memberID);
     _ ← range (sort_Slice (fun x y => String.ltb (RoomMember.AccountID x) (RoomMember.AccountID y))
                  (PendingMemberUpserts a)) (upsertMember base);
     range (RoomAggregate.pendingMessages a) CreateMessage).
Proof.
  assert (forall t t', frame t t' -> flying exempt t a room -> flying exempt t' a room) as Hst
    by (intros t t'; apply flying_stable).
  assert (forall m, m ∈ sort_Slice (fun x y => String.ltb (RoomMember.AccountID x) (RoomMember.AccountID y))
    (PendingMemberUpserts a) -> m ∈ PendingMemberUpserts a) as Hsort
    by (intros m; by rewrite sort_Slice_Permutation).
  apply keeps_bind; [apply _| |intros _; apply keeps_bind; [apply _| |intros _]];
    (apply keeps_range; [apply _|]); intros x Hx.
  - apply deleteMemberRow_frames; [done|]. intros t r [_ _ (row & Hrow & Hs) _ Hc] Hr.
    rewrite Hrow in Hr. injection Hr as <-. apply sameRoom_fields in Hs as (_ & _ & Hty & _).
    destruct Hc as [Hc|[Hc|[_ Hc]]]; [left|by right|].
    + by rewrite (IsGroup_type room row).
    + rewrite Hc in Hx. by apply not_elem_of_nil in Hx.
  - apply Hsort in Hx. apply upsertMember_frames; [done|].
    intros t [_ _ (row & Hrow & Hs) Hu Hc]. destruct (Hu x Hx) as (Hid & Htr & Hne).
    split; [done|]. split; [done|]. rewrite Hid. exists row. split; [done|].
    apply sameRoom_fields in Hs as (_ & _ & Hty & _).
    destruct Hc as [Hc|[Hc|[Hc _]]]; [left|by right|].
    + by rewrite (IsGroup_type room row).
    + rewrite Hc in Hx. by apply not_elem_of_nil in Hx.
  - by apply CreateMessage_frames.
Qed.

(** The part of a save that follows the rows. *)
Definition saveRoomEvents (agg : RoomAggregate) (room : Room.t) : method DB RoomAggregate :=
  let currentMembers := sortRoomMembersByAccount (Members agg) in
  currentMembers ←
    (if decide (RoomAggregate.isNew agg = true \/ RoomAggregate.memberUpserts agg <> ∅ \/
                RoomAggregate.removedMemberIDs agg <> [])
     then enrichRoomMembersWithAccountProjections currentMembers
     else mret currentMembers);
  lastMessage ← (match latestRoomProjectionMessage (RoomAggregate.pendingMessages agg) with
                 | Some m => mret (Some m)
                 | None => GetLastMessageByRoomID (Room.ID room)
                 end);
  nextVersion ← appendRoomOutboxEvents now (Room.ID room) (baseVersion (RoomAggregate.root agg))
                  (roomOutboxEvents now agg room currentMembers lastMessage);
  lift (exec (MarkRoomPersisted nextVersion) agg).

Lemma saveRoomEvents_frames P a room :
  (forall t t', frame t t' -> P t -> P t') -> keeps (within P frame) (saveRoomEvents a room).
Proof.
  intros HP. unfold saveRoomEvents.
  apply keeps_bind; [apply _| |intros everyone; apply keeps_bind; [apply _| |intros last]].
  - apply quiet_within; [apply _|]. go_keeps.
  - apply quiet_within; [apply _|]. go_keeps.
  - apply keeps_bind; [apply _|by apply appendRoomOutboxEvents_frames|intros; go_keeps].
Qed.

Lemma SaveRoom_flying a room :
  RoomAggregate.isNew a = false ->
  keeps (within (fun t => flying exempt t a room) frame) (SaveRoom now a).
Proof.
  intros Hnew.
  assert (forall t t', frame t t' -> flying exempt t a room -> flying exempt t' a room) as Hst
    by (intros t t'; apply flying_stable).
  intros db Hok HP. revert db Hok HP.
  assert (forall m : method DB RoomAggregate,
    (RoomAggregate.room a = Some room -> room_ok room -> keeps (within (fun t => flying exempt t a room) frame) m) ->
    keeps (within (fun t => flying exempt t a room) frame) m) as Hroom.
  { intros m Hm db Hok HP. apply Hm; try done; apply HP. }
  apply Hroom. intros Hr Hrok. unfold SaveRoom.
  destruct (RoomAggregate.roomDeleted a); [go_keeps|]. destruct (HasPendingRoomWrite a); [|go_keeps].
  cbn [negb]. rewrite Hr. apply keeps_bind; [apply _| |intros _; by apply saveRoomEvents_frames].
  unfold saveRoomRows. rewrite Hnew. apply keeps_bind; [apply _| |intros _; apply saveRoomRest_frames].
  apply UpdateRoom_frames; [done..|]. intros t Hf. apply Hf.
Qed.

(** ** Saves of messages *)

Lemma SaveMessage_frames a :
  keeps (within (fun t => messageFlying editor t a) frame) (SaveMessage now a).
Proof.
  assert (forall t t', frame t t' -> messageFlying editor t a -> messageFlying editor t' a) as Hst
    by (intros t t'; apply messageFlying_stable).
  unfold SaveMessage.
  apply keeps_bind; [apply _| |intros _; apply keeps_bind; [apply _| |intros updated;
    apply keeps_bind; [apply _| |intros; go_keeps]]].
  - destruct (MessageState.messageDirty a); [|go_keeps]. apply UpdateMessage_frames; [done|].
    intros t model (row0 & Hrow0 & Hr & Hs & Ht) Hm row Hrow. rewrite Hrow in Hrow0. injection Hrow0 as <-.
    unfold toMessageModel in Hm. apply result_bind_Ok in Hm as (? & _ & Hm).
    apply result_bind_Ok in Hm as (? & _ & Hm). injection Hm as <-. by split.
  - pose proof (fun m => updateMemberRow_frames (fun t => messageFlying editor t a) Hst m). go_keeps.
  - destruct (_ || _ || _ || _); [|go_keeps]. apply keeps_bind; [apply _| |intros evs].
    + apply quiet_within; [apply _|]. unfold messageOutboxEvents. go_keeps.
    + pose proof (appendRoomOutboxEvents_frames (fun t => messageFlying editor t a) Hst).
      apply keeps_bind; [apply _| |intros base; go_keeps].
      apply quiet_within; [apply _|]. go_keeps.
Qed.
End runs.

(** ** A new room *)

Section new_room.
Context `{UC : UnicodeCase} {DB : Type} `{Laws : RoomSQLLaws DB}.
Context `{MJ : JSON (list MessageMention.t)} `{RJ : JSON (list MessageReaction.t)}.
Context `{PJ : JSON RoomOutboxPayload}.
Context (now : Time) (editor : string -> Prop).
Implicit Types (db : DB) (t : RoomTables).

Definition noRoom : string -> Prop := fun _ => False.

Lemma CreateRoom_frames r db res db' :
  roomsOK db -> room_ok r -> fresh db (Room.ID r) -> CreateRoom r db = (res, db') ->
  roomsOK db' /\ roomFrame editor noRoom (roomTables db) (roomTables db') /\
  (res = Ok tt -> roomRows (roomTables db') !! Room.ID r = Some r).
Proof.
  intros Hok Hr [Hnone Hcnone] H. unfold CreateRoom in H. rewrite bind_run in H.
  pose proof (insertRoom_law r db) as Hl. unfold effect in Hl.
  destruct (insertRoom r db) as [[[]|e|w] db1].
  2: { injection H as <- <-. destruct (same_view db db1 (proj2 Hl) Hok) as (? & -> & _). by split_and!. }
  2: { injection H as <- <-. destruct (same_view db db1 Hl Hok) as (? & -> & _). by split_and!. }
  destruct Hl as (_ & _ & Hv).
  assert (roomTables db1 = setRoomRow r (roomTables db)) as Ht1 by (unfold roomTables; by rewrite Hv).
  assert (forall r0, roomRows (roomTables db) !! Room.ID r = Some r0 -> sameRoom r0 r) as Hno by congruence.
  assert (roomsOK db1) as Hok1.
  { unfold roomsOK. rewrite Ht1. unfold roomCached in *. rewrite Hv. by apply ok_room. }
  destruct (roomCacheSet_quiet r db1 Hok1) as (Hok2 & Ht2 & _); [done| |].
  { rewrite Ht1. unfold setRoomRow. cbn [roomRows]. rewrite lookup_insert_eq. by intros r0 [= <-]. }
  rewrite H in Hok2, Ht2. cbn in Hok2, Ht2. rewrite Ht2, Ht1. split; [done|]. split; [by apply frame_room|].
  intros _. unfold setRoomRow. cbn [roomRows]. apply lookup_insert_eq.
Qed.

(** What a save of a new room keeps of the others. *)
Lemma SaveRoom_new a room db :
  roomsOK db -> RoomAggregate.isNew a = true -> RoomAggregate.room a = Some room -> room_ok room ->
  fresh db (Room.ID room) ->
  (forall m, m ∈ PendingMemberUpserts a ->
    RoomMember.RoomID m = Room.ID room /\ trimmed (RoomMember.AccountID m) /\ RoomMember.AccountID m <> "") ->
  let db' := (WithRoomTransaction (SaveRoom now a) db).2 in
  roomsOK db' /\ roomFrame editor noRoom (roomTables db) (roomTables db').
Proof.
  intros Hok Hnew Hr Hrok Hf Hu.
  assert (roomsOK (SaveRoom now a db).2 /\
    roomFrame editor noRoom (roomTables db) (roomTables (SaveRoom now a db).2)) as [H1 H2].
  { unfold SaveRoom. destruct (RoomAggregate.roomDeleted a); [by split|].
    destruct (HasPendingRoomWrite a); [|by split]. cbn [negb]. rewrite Hr.
    fold (saveRoomEvents now a room). rewrite bind_run. unfold saveRoomRows. rewrite Hnew, bind_run.
    destruct (CreateRoom room db) as [res db1] eqn:Hc.
    destruct (CreateRoom_frames _ _ _ _ Hok Hrok Hf Hc) as (Hok1 & HF1 & Hrow).
    destruct res as [[]|e|w]; [|by split..]. specialize (Hrow eq_refl).
    set (ex := fun id => id = Room.ID room).
    assert (flying ex (roomTables db1) a room) as Hfl.
    { split; [done|done| |done|by right; left]. exists room. by split. }
    set (rest := _ ← range (RoomAggregate.removedMemberIDs a) _; _).
    pose proof (saveRoomRest_frames (DB := DB) editor ex a room true) as Hk. fold rest in Hk.
    destruct (Hk db1 Hok1 Hfl) as (Hok2 & Hfl2 & HF2). clear Hk.
    assert (forall db2, roomFrame editor ex (roomTables db1) (roomTables db2) ->
      roomFrame editor noRoom (roomTables db) (roomTables db2)) as Hlift.
    { intros db2 HF. assert (roomFrame editor ex (roomTables db) (roomTables db2)) as [B1 B2 B3].
      { etrans; [|exact HF]. destruct HF1 as [A1 A2 A3]. split; [done| |done].
        intros id r Hid Hg _. apply (A2 id r); [done..|by intros []]. }
      split; [done| |done]. intros id r Hid Hg _. apply (B2 id r); [done..|]. unfold ex. intros ->.
      destruct Hf. congruence. }
    destruct (rest db1) as [[[]|e|w] db2]; cbn [snd] in *; [|by split; auto..].
    assert (forall t t', roomFrame editor ex t t' -> flying ex t a room -> flying ex t' a room) as Hst
      by (intros t t'; apply flying_stable).
    destruct (saveRoomEvents_frames (DB := DB) now editor ex _ a room Hst db2 Hok2 Hfl2) as (Hok3 & _ & HF3).
    split; [done|]. apply Hlift. by etrans. }
  destruct (transaction_run editor noRoom (SaveRoom now a) db Hok H1 H2) as (H3 & _ & H4). by split.
Qed.
End new_room.
