(* ===== verification/RoomHandlers.v ===== *)
(** * The room handlers (room/application/command)

    A handler loads the aggregate, runs a command on it, and saves it in a
    transaction: the aggregate is loaded outside of the transaction. A request
    comes with the actor of the context; the ids that [uuid.NewString()] makes
    and the time [time.Now()] of the call are arguments. *)

From stdpp Require Import prelude strings gmap.
From Stdlib Require Import Ascii.
From S2P Require Import Prelude GoStrings Database Event ActorContext.
From S2P Require Import RoomEntity RoomAggregate RoomProjection RoomStore.
Import RoomError.

(** ** Mentions (helpers.go) *)

(** [[:space:]] or [[:punct:]]. *)
Definition mentionBoundary (c : ascii) : bool :=
  byte_in 9 13 c || byte_in 32 47 c || byte_in 58 64 c || byte_in 91 96 c || byte_in 123 126 c.

(** Whether the bytes start with [@all] before a boundary or the end. *)
Definition mentionAllHere (l : list ascii) : bool :=
  match l with
  | c1 :: c2 :: c3 :: c4 :: rest =>
      bool_decide (String.string_of_list_ascii [c1; c2; c3; c4] = "@all") &&
      match rest with [] => true | c :: _ => mentionBoundary c end
  | _ => false
  end.

(** A match of [mentionAllPattern]; [start] tells whether what precedes is the
    start of the text or a boundary. *)
Fixpoint matchMentionAll (start : bool) (l : list ascii) : bool :=
  match l with
  | [] => false
  | c :: rest => (start && mentionAllHere l) || matchMentionAll (mentionBoundary c) rest
  end.

Module SendMessageCommand.
Record t := mk {
  RoomID : string;
  Message : string;
  MessageType : string;
  Mentions : list string;
  MentionAll : bool;
  ReplyToMessageID : string;
  ForwardedFromMessageID : string;
  FileName : string;
  FileSize : Z;
  MimeType : string;
  ObjectKey : string
}.
End SendMessageCommand.

Record resolvedMessageMentions := mkMentions {
  resolvedMentions : list MessageMention.t;
  resolvedMentionAll : bool;
  resolvedAccountIDs : list string
}.

Section handlers.
Context `{UC : UnicodeCase} {DB : Type} `{SQL : RoomSQL DB}.
Context `{MJ : JSON (list MessageMention.t)} `{RJ : JSON (list MessageReaction.t)}.
Context `{PJ : JSON RoomOutboxPayload}.
Context (now : Time).

Definition hasMentionAllToken (message : string) : bool :=
  matchMentionAll true (String.list_ascii_of_string (LowerTrim message)).

Definition normalizeMentionSelection (mentions : list string) : list string :=
  loUniq [] (filter (fun id => id <> "") (map TrimSpace mentions)).

Definition resolveMemberDisplayName (member : option RoomMember.t) (fallback : string) : string :=
  match member with
  | None => TrimSpace fallback
  | Some m =>
      if decide (TrimSpace (RoomMember.DisplayName m) <> "") then TrimSpace (RoomMember.DisplayName m)
      else if decide (TrimSpace (RoomMember.Username m) <> "") then TrimSpace (RoomMember.Username m)
      else TrimSpace fallback
  end.

Definition appendUniqueString (values : list string) (value : string) : list string :=
  let value := TrimSpace value in
  if decide (value = "" \/ value ∈ values) then values else values ++ [value].

(** The explicit mentions, once the members are known: those of the sender
    are skipped, those of others must be members. *)
Fixpoint filterExplicit (senderID : string) (memberSet : gset string) (ids : list string) :
    result (list string) :=
  match ids with
  | [] => Ok []
  | id :: ids =>
      if decide (id = senderID) then filterExplicit senderID memberSet ids
      else if decide (id ∉ memberSet) then Err ErrRoomMentionTargetNotMember
      else rest ← filterExplicit senderID memberSet ids; Ok (id :: rest)
  end.

Definition memberMap (members : list RoomMember.t) : gmap string RoomMember.t :=
  foldl (fun m x => <[TrimSpace (RoomMember.AccountID x) := x]> m) ∅ members.

(** The mentions of the message and of its event are the same. *)
Definition resolveMessageMentions (room : option Room.t) (senderID : string)
    (command : SendMessageCommand.t) (members : list RoomMember.t) : result resolvedMessageMentions :=
  let mentionAll := SendMessageCommand.MentionAll command
                    || hasMentionAllToken (SendMessageCommand.Message command) in
  let explicitMentionIDs := normalizeMentionSelection (SendMessageCommand.Mentions command) in
  if negb (IsGroup room) then
    if decide (mentionAll = true \/ explicitMentionIDs <> []) then Err ErrRoomMentionsRequireGroup
    else Ok (mkMentions [] false [])
  else
    let memberSet : gset string := list_to_set (map RoomMember.AccountID members) in
    let everyone :=
      if mentionAll then
        foldl appendUniqueString [] (filter (fun id => id <> senderID) (map RoomMember.AccountID members))
      else [] in
    filteredExplicitIDs ← filterExplicit senderID memberSet explicitMentionIDs;
    let mentionedAccountIDs := foldl appendUniqueString everyone filteredExplicitIDs in
    let mentions := map (fun accountID =>
      let member := memberMap members !! accountID in
      MessageMention.mk accountID (resolveMemberDisplayName member accountID)
        (match member with Some m => TrimSpace (RoomMember.Username m) | None => "" end))
      filteredExplicitIDs in
    Ok (mkMentions mentions mentionAll mentionedAccountIDs).

(** The first member that is the sender gives the name. *)
Definition buildSenderIdentity (ctx : option Actor) (members : list RoomMember.t) (senderID : string) :
    MessageSenderIdentity :=
  let email := match FromContext ctx with Some actor => ActorEmail actor | None => "" end in
  match head (filter (fun m => TrimSpace (RoomMember.AccountID m) = TrimSpace senderID) members) with
  | Some member =>
      let displayName := resolveMemberDisplayName (Some member) senderID in
      mkSender (if decide (displayName <> "") then displayName else senderID) email
  | None => mkSender (if decide (email <> "") then email else senderID) email
  end.

(** ** Room handlers *)

(** The room and the status of the response. *)
Definition RoomResponse : Type := string * string.
Definition commandStatus (changed : bool) : string := if changed then "updated" else "noop".

Definition saveRoomInTransaction (agg : RoomAggregate) : method DB unit :=
  _ ← WithRoomTransaction (SaveRoom now agg); mret tt.

Definition roomIDOf (agg : RoomAggregate) : string :=
  default "" (Room.ID <$> RoomAggregate.room agg).

(** Loads a room, runs a command, and saves the room if it changed. *)
Definition onLoadedRoom (roomID : string) (command : method RoomAggregate bool) :
    method DB RoomResponse :=
  agg ← LoadRoom roomID;
  '(changed, agg) ← lift (runOn command agg);
  _ ← (if changed : bool then saveRoomInTransaction agg else mret tt);
  mret (roomIDOf agg, commandStatus changed).

(** The member is made after the room is loaded. *)
Definition HandleAddChatMember (ctx : option Actor) (roomID accountID role memberUUID messageUUID : string) :
    method DB RoomResponse :=
  actorID ← lift (AccountIDFromCtx ctx);
  onLoadedRoom roomID (
    member ← lift (NewRoomMember now memberUUID roomID accountID role now);
    AddMember now messageUUID actorID (Some member) now actorID).

Definition HandleRemoveChatMember (ctx : option Actor) (roomID accountID messageUUID : string) :
    method DB RoomResponse :=
  actorID ← lift (AccountIDFromCtx ctx);
  onLoadedRoom roomID (RemoveMember now messageUUID actorID accountID now actorID).

Definition HandleUpdateGroupChat (ctx : option Actor) (roomID name description messageUUID : string) :
    method DB RoomResponse :=
  actorID ← lift (AccountIDFromCtx ctx);
  onLoadedRoom roomID (UpdateGroupDetails now messageUUID
    (UpdateGroupDetailsParams.mk actorID name description now actorID)).

Definition HandlePinChatMessage (ctx : option Actor) (roomID messageID messageUUID : string) :
    method DB RoomResponse :=
  actorID ← lift (AccountIDFromCtx ctx);
  onLoadedRoom roomID (_ ← PinMessage now messageUUID actorID messageID now actorID; mret true).

(** The part of [executeSendMessage] between loading and saving. *)
Definition sendOn (ctx : option Actor) (actorID messageUUID : string)
    (command : SendMessageCommand.t) : method RoomAggregate Message.t :=
  roomAgg ← get;
  mentions ← lift (resolveMessageMentions (RoomAggregate.room roomAgg) actorID command (Members roomAgg));
  SendMessage now messageUUID actorID
    (MessageParams.mk (SendMessageCommand.Message command) (SendMessageCommand.MessageType command)
      (resolvedMentions mentions) (resolvedMentionAll mentions)
      (SendMessageCommand.ReplyToMessageID command) (SendMessageCommand.ForwardedFromMessageID command)
      (SendMessageCommand.FileName command) (SendMessageCommand.FileSize command)
      (SendMessageCommand.MimeType command) (SendMessageCommand.ObjectKey command))
    (buildSenderIdentity ctx (Members roomAgg) actorID)
    (mkOutboxPayload (resolvedMentions mentions) (resolvedMentionAll mentions)
      (resolvedAccountIDs mentions)) now.

(** Gives the ids of the message and of its room, which are what the handlers
    read of the result. *)
Definition executeSendMessage (ctx : option Actor) (actorID messageUUID : string)
    (command : SendMessageCommand.t) : method DB (string * string) :=
  roomAgg ← LoadRoom (TrimSpace (SendMessageCommand.RoomID command));
  '(message, roomAgg) ← lift (runOn (sendOn ctx actorID messageUUID command) roomAgg);
  _ ← saveRoomInTransaction roomAgg;
  mret (Message.ID message, Message.RoomID message).

Definition HandleSendChatMessage (ctx : option Actor) (messageUUID : string)
    (command : SendMessageCommand.t) : method DB (string * string) :=
  actorID ← lift (AccountIDFromCtx ctx);
  executeSendMessage ctx actorID messageUUID command.

Definition HandleForwardChatMessage (ctx : option Actor) (messageUUID messageID targetRoomID : string) :
    method DB (string * string) :=
  actorID ← lift (AccountIDFromCtx ctx);
  sourceMessage ← LoadMessage messageID;
  let source := MessageState.message sourceMessage in
  executeSendMessage ctx actorID messageUUID
    (SendMessageCommand.mk targetRoomID (Message.Message source) (Message.MessageType source) []
      false "" (Message.ID source) (Message.FileName source) (Message.FileSize source)
      (Message.MimeType source) (Message.ObjectKey source)).

Definition HandleCreateDirectConversation (ctx : option Actor)
    (peerAccountID roomUUID ownerUUID peerUUID messageUUID : string) : method DB RoomResponse :=
  actorID ← lift (AccountIDFromCtx ctx);
  room ← lift (NewDirectConversationRoom now roomUUID actorID peerAccountID now);
  existing ← nilIfNotFound (LoadByDirectKey (Room.DirectKey room));
  match existing with
  | Some agg => mret (roomIDOf agg, "already_exists")
  | None =>
      ownerMember ← lift (NewRoomMember now ownerUUID (Room.ID room) actorID RoomRoleOwner now);
      peerMember ← lift (NewRoomMember now peerUUID (Room.ID room) peerAccountID RoomRoleMember now);
      agg ← lift (NewConversationRoomAggregate now messageUUID room [Some ownerMember; Some peerMember]
                    actorID (RoomMember.DisplayName ownerMember +:+ " started a direct conversation") now);
      _ ← saveRoomInTransaction agg;
      mret (Room.ID room, "created")
  end.

(** The members of a new group, in the order in which the map is ranged over. *)
Fixpoint newMembers (roomID : string) (memberUUID : string -> string) (roles : list (string * string)) :
    result (list RoomMember.t) :=
  match roles with
  | [] => Ok []
  | (memberID, role) :: roles =>
      member ← NewRoomMember now (memberUUID memberID) roomID memberID role now;
      rest ← newMembers roomID memberUUID roles;
      Ok (member :: rest)
  end.

Definition HandleCreateGroupChat (ctx : option Actor) (name description : string)
    (memberIDs : list string) (roomUUID : string) (memberUUID : string -> string)
    (messageUUID : string) : method DB RoomResponse :=
  actorID ← lift (AccountIDFromCtx ctx);
  room ← lift (NewRoom now roomUUID name description actorID RoomTypeGroup "" now);
  memberSet ← lift (BuildGroupMemberRoles actorID memberIDs);
  members ← lift (newMembers (Room.ID room) memberUUID (rangeRoles memberSet));
  agg ← lift (NewConversationRoomAggregate now messageUUID room (map Some members) actorID
                (actorID +:+ " created the group") now);
  _ ← saveRoomInTransaction agg;
  mret (Room.ID room, "created").

Definition HandleJoinRoom (ctx : option Actor) : method DB unit :=
  _ ← lift (AccountIDFromCtx ctx);
  raise (Errorf "not implemented" []).

(** ** Message handlers *)

(** The message, its room and the status of the response. *)
Definition MessageResponse : Type := string * string * string.

Definition saveMessageInTransaction (agg : MessageStateAggregate) : method DB unit :=
  _ ← WithRoomTransaction (SaveMessage now agg); mret tt.

Definition messageResponse (agg : MessageStateAggregate) (status : string) : MessageResponse :=
  (Message.ID (MessageState.message agg), Message.RoomID (MessageState.message agg), status).

Definition onLoadedMessage (messageID : string) (command : method MessageStateAggregate unit)
    (status : string) : method DB MessageResponse :=
  agg ← LoadMessage messageID;
  agg ← lift (exec command agg);
  _ ← saveMessageInTransaction agg;
  mret (messageResponse agg status).

Definition HandleEditChatMessage (ctx : option Actor) (messageID message : string) :
    method DB MessageResponse :=
  accountID ← lift (AccountIDFromCtx ctx);
  onLoadedMessage messageID (Edit now accountID message now) "updated".

Definition HandleDeleteChatMessage (ctx : option Actor) (messageID scope : string) :
    method DB MessageResponse :=
  accountID ← lift (AccountIDFromCtx ctx);
  onLoadedMessage messageID (Delete now accountID accountID scope now) "deleted".

Definition HandleToggleChatMessageReaction (ctx : option Actor) (messageID emoji : string) :
    method DB MessageResponse :=
  accountID ← lift (AccountIDFromCtx ctx);
  onLoadedMessage messageID (ToggleReaction now accountID emoji now) "updated".

Definition HandleMarkChatMessageStatus (ctx : option Actor) (messageID status : string) :
    method DB MessageResponse :=
  accountID ← lift (AccountIDFromCtx ctx);
  agg ← LoadForRecipient messageID accountID;
  '(changed, agg) ← lift (runOn (MarkStatus now accountID status None now) agg);
  _ ← (if changed : bool then saveMessageInTransaction agg else mret tt);
  mret (messageResponse agg (commandStatus changed)).
End handlers.
