(* ===== verification/RoomSystem.v ===== *)
(** * Handlers of rooms that run at the same time

    A handler loads an aggregate, runs a command on it, and saves it in a
    transaction of its own: between the two, others may load and save.
    [roomStep] are these halves, over a [World] of the store and the aggregates
    that were changed and not saved yet; a call of a handler is a run of steps. *)

From stdpp Require Import prelude strings gmap.
From S2P Require Import Prelude GoStrings GoSort Database Event.
From S2P Require Import RoomEntity RoomAggregate RoomSpec RoomProjection RoomStore RoomTables.
From S2P Require Import RoomStoreSpec RoomSaveSpec RoomFrame RoomHandlers.
Import RoomError.

(** ** Commands *)

Inductive MessageCommand : Type :=
  | MsgEdit (content : string)
  | MsgDelete (scope : string)
  | MsgReact (emoji : string)
  | MsgMark (status : string).

Section commands.
Context `{UC : UnicodeCase} (clock : Time).

(** The member that joins is one of the room. *)
Definition memberOf (id : string) (m : RoomMember.t) : Prop :=
  RoomMember.RoomID m = id /\ trimmed (RoomMember.AccountID m) /\ RoomMember.AccountID m <> "".

Definition command_ok (id : string) (c : RoomCommand) : Prop :=
  match c with CmdAdd m => memberOf id m | _ => True end.

Definition runMessageCommand (actor : string) (now : Time) (c : MessageCommand) :
    method MessageStateAggregate bool :=
  match c with
  | MsgEdit content => _ ← Edit clock actor content now; mret true
  | MsgDelete scope => _ ← Delete clock actor actor scope now; mret true
  | MsgReact emoji => _ ← ToggleReaction clock actor emoji now; mret true
  | MsgMark status => MarkStatus clock actor status None now
  end.

(** Edits and deletions are for editors. *)
Definition allowed (editor : string -> Prop) (actor : string) (c : MessageCommand) : Prop :=
  match c with MsgEdit _ | MsgDelete _ => editor (TrimSpace actor) | _ => True end.

(** What an effect of a command may be. *)
Lemma commandSpec_effect uuid actor (now : Time) r ms everyone c e :
  commandSpec clock uuid actor now r ms everyone c = Ok (Some e) ->
  sameRoom r (effRoom e) /\ is_Some (ms !! TrimSpace actor) /\
  match effChange e with
  | NoMemberChange => True
  | MemberJoins m => IsGroup (Some r) = true /\ c = CmdAdd m /\ ms !! accountKey m = None
  | MemberLeaves k => IsGroup (Some r) = true /\ exists target, c = CmdRemove target /\ k = TrimSpace target
  end.
Proof.
  assert (forall am : RoomMember.t, CanManageGroup am (Some r) = Ok tt -> IsGroup (Some r) = true) as Hman.
  { intros am. unfold CanManageGroup, RequireGroup. by destruct (IsGroup _). }
  unfold commandSpec. destruct (ms !! TrimSpace actor) as [am|]; [|done].
  assert (forall r', Room.ID r' = Room.ID r -> Room.OwnerID r' = Room.OwnerID r -> Room.RoomType r' = Room.RoomType r ->
    Room.DirectKey r' = Room.DirectKey r -> Room.CreatedAt r' = Room.CreatedAt r ->
    IsGroup (Some r) = true -> sameRoom r r') as Hgroup.
  { intros r' ? ? ? ? ? Hg. apply sameRoom_fields. split_and!; try done. congruence. }
  destruct c as [name description|m|target|messageID|params sender outbox].
  - destruct (CanManageGroup am (Some r)) as [[]|?|?] eqn:Hc; [|done..]. apply Hman in Hc. cbn.
    case_decide; [done|]. intros [= <-]. split; [by apply Hgroup|]. by split.
  - destruct (CanManageGroup am (Some r)) as [[]|?|?] eqn:Hc; [|done..]. apply Hman in Hc. cbn.
    case_decide as Hm; [done|]. case_decide; [done|]. intros [= <-]. split; [by apply Hgroup|].
    split; [done|]. cbn. split_and!; [done..|]. by apply eq_None_not_Some.
  - destruct (CanRemoveFrom am (Some r) target) as [[]|?|?] eqn:Hc; [|done..]. cbn.
    destruct (ms !! TrimSpace target); [|done]. intros [= <-].
    assert (IsGroup (Some r) = true) as Hg.
    { unfold CanRemoveFrom, RequireGroup in Hc. by destruct (IsGroup (Some r)). }
    split; [by apply Hgroup|]. split; [done|]. cbn. eauto.
  - destruct (CanManageGroup am (Some r)) as [[]|?|?] eqn:Hc; [|done..]. apply Hman in Hc. cbn.
    case_decide; [done|]. intros [= <-]. split; [by apply Hgroup|]. by split.
  - destruct (NewMessage _ _ _ _ _ _) as [m|?|?]; [|done..]. cbn. intros [= <-].
    split; [apply sameRoom_setUpdatedAt|]. by split.
Qed.
End commands.

(** ** Steps *)

Section system.
Context `{UC : UnicodeCase} {DB : Type} `{Laws : RoomSQLLaws DB}.
Context `{MJ : JSON (list MessageMention.t)} `{RJ : JSON (list MessageReaction.t)}.
Context `{PJ : JSON RoomOutboxPayload}.
Context (editor : string -> Prop).
Implicit Types (db : DB) (t : RoomTables).

Record World := mkWorld {
  store : DB;
  rooms : list RoomAggregate;
  messages : list MessageStateAggregate
}.

Inductive roomStep : World -> World -> Prop :=
  (** A load, whatever it gives. *)
  | st_load_room id w :
      roomStep w (mkWorld (LoadRoom id (store w)).2 (rooms w) (messages w))
  | st_load_key k w :
      roomStep w (mkWorld (LoadByDirectKey k (store w)).2 (rooms w) (messages w))
  | st_load_message id w :
      roomStep w (mkWorld (LoadMessage id (store w)).2 (rooms w) (messages w))
  | st_load_recipient id account w :
      roomStep w (mkWorld (LoadForRecipient id account (store w)).2 (rooms w) (messages w))
  (** A load, and a command that changes what was loaded. *)
  | st_room now id uuid actor c w db a a' :
      LoadRoom id (store w) = (Ok a, db) -> TrimSpace uuid <> "" -> command_ok id c ->
      runOn (runCommand now uuid actor now c) a = Ok (true, a') ->
      roomStep w (mkWorld db (a' :: rooms w) (messages w))
  | st_message now id account actor c w db a a' :
      (LoadMessage id (store w) = (Ok a, db) \/ LoadForRecipient id account (store w) = (Ok a, db)) ->
      allowed editor actor c -> runOn (runMessageCommand now actor now c) a = Ok (true, a') ->
      roomStep w (mkWorld db (rooms w) (a' :: messages w))
  (** A save, in a transaction. *)
  | st_save_room now w before a after :
      rooms w = before ++ a :: after ->
      roomStep w (mkWorld (WithRoomTransaction (SaveRoom now a) (store w)).2 (before ++ after) (messages w))
  | st_save_message now w before a after :
      messages w = before ++ a :: after ->
      roomStep w (mkWorld (WithRoomTransaction (SaveMessage now a) (store w)).2 (rooms w) (before ++ after))
  (** A new conversation, under an id that is not in use. *)
  | st_create now uuid r l actor body w a :
      room_ok r -> named_members l -> Forall (memberOf (Room.ID r)) l -> fresh (store w) (Room.ID r) ->
      TrimSpace uuid <> "" -> TrimSpace actor <> "" -> TrimSpace body <> "" ->
      NewConversationRoomAggregate now uuid r (map Some l) actor body now = Ok a ->
      roomStep w (mkWorld (WithRoomTransaction (SaveRoom now a) (store w)).2 (rooms w) (messages w)).

(** ** The invariant *)

Definition roomFlying t (a : RoomAggregate) : Prop :=
  RoomAggregate.isNew a = false /\ exists room, flying noRoom t a room.

Record worldOK (w : World) : Prop := {
  wo_store : roomsOK (store w);
  wo_rooms : Forall (roomFlying (roomTables (store w))) (rooms w);
  wo_messages : Forall (messageFlying editor (roomTables (store w))) (messages w)
}.

(** A step of the store that keeps the frame keeps what is in flight. *)
Lemma flights_stable db' w :
  roomFrame editor noRoom (roomTables (store w)) (roomTables db') -> worldOK w ->
  Forall (roomFlying (roomTables db')) (rooms w) /\ Forall (messageFlying editor (roomTables db')) (messages w).
Proof.
  intros HF [_ Hr Hm]. split; (eapply Forall_impl; [eassumption|]).
  - intros a [Hnew [room Hfl]]. split; [done|]. exists room. by eapply flying_stable.
  - intros a. by eapply messageFlying_stable.
Qed.

Definition goesOn (w w' : World) : Prop :=
  worldOK w' /\ roomFrame editor noRoom (roomTables (store w)) (roomTables (store w')).

Lemma store_step db' w :
  worldOK w -> roomsOK db' -> roomFrame editor noRoom (roomTables (store w)) (roomTables db') ->
  goesOn w (mkWorld db' (rooms w) (messages w)).
Proof.
  intros Hw Hok HF. destruct (flights_stable db' w HF Hw). split; [by split|done].
Qed.

Lemma quiet_step {A} (m : method DB A) w :
  worldOK w -> keeps quiet m -> goesOn w (mkWorld (m (store w)).2 (rooms w) (messages w)).
Proof.
  intros Hw Hm. destruct (Hm (store w) (wo_store _ Hw)) as (Hok & Ht & _).
  apply store_step; [done..|]. by rewrite Ht.
Qed.

(** ** What is loaded and changed *)

(** What a run of a command on a room that was loaded gives. *)
Lemma loaded_command now id uuid actor c db a db' a' :
  roomsOK db -> LoadRoom id db = (Ok a, db') -> TrimSpace uuid <> "" ->
  runOn (runCommand now uuid actor now c) a = Ok (true, a') ->
  exists r l base e, a = restored r l base /\ Room.ID r = id /\ seenRoom db r /\
    seenMembers (roomTables db) id l /\
    commandSpec now uuid actor now r (memberMapOf l) l c = Ok (Some e) /\ a' = performed e a.
Proof.
  intros Hok Hload Hu Hrun. destruct (LoadRoom_spec _ _ _ _ Hok Hload) as (r & l & base & -> & Hid & Hseen & Hl).
  pose proof (seenMembers_named _ _ _ _ Hok Hl) as Hn.
  pose proof (runCommand_spec now uuid actor now _ _ (restored_wf _ _ base (sr_ok _ _ Hseen) Hn) Hu c) as Hs.
  unfold obeys, outcome in Hs. rewrite Members_restored in Hs by done. unfold runOn in Hrun.
  rewrite Hs in Hrun.
  change (RoomAggregate.members (restored r l base)) with (memberMapOf l) in Hrun.
  destruct (commandSpec _ _ _ _ _ _ _ _) as [[e|]|e|w] eqn:Hspec; try discriminate Hrun.
  injection Hrun as <-. exists r, l, base, e. by split_and!.
Qed.

Lemma performed_flying now id uuid actor c t cache r l base e :
  rooms_ok t cache -> (forall r0, roomRows t !! Room.ID r = Some r0 -> sameRoom r0 r) ->
  room_ok r -> Room.ID r = id -> seenMembers t id l -> command_ok id c ->
  commandSpec now uuid actor now r (memberMapOf l) l c = Ok (Some e) ->
  roomFlying t (performed e (restored r l base)).
Proof.
  intros Hok Hs Hr Hid Hl Hc Hspec. destruct (commandSpec_effect _ _ _ _ _ _ _ _ _ Hspec) as (Hsame & Hact & Hch).
  split; [done|]. exists (effRoom e).
  pose proof Hsame as (Hi & _ & Hty & _)%sameRoom_fields.
  assert (exists row, roomRows t !! Room.ID r = Some row /\ sameRoom row r) as (row & Hrow & Hrs).
  { destruct Hact as [m Hm]. pose proof (seenMembers_lookup _ _ _ _ (TrimSpace actor) Hok Hl) as Hrow.
    rewrite Hm in Hrow. symmetry in Hrow. cbn in Hrow.
    destruct (rk_members _ _ Hok _ _ Hrow) as (_ & _ & _ & _ & [row Hr0]). cbn in Hr0. subst id.
    exists row. split; [done|]. by apply Hs. }
  split.
  - done.
  - by eapply room_ok_same.
  - exists row. rewrite Hi. split; [done|]. by etrans.
  - unfold PendingMemberUpserts. cbn. destruct (effChange e) as [|m|k]; cbn.
    + rewrite map_to_list_empty. by intros m []%not_elem_of_nil.
    + rewrite insert_empty, map_to_list_singleton. intros m' ->%list_elem_of_singleton.
      destruct Hch as (_ & -> & _). rewrite Hi, Hid. exact Hc.
    + rewrite delete_empty, map_to_list_empty. by intros m []%not_elem_of_nil.
  - rewrite (IsGroup_type r (effRoom e)) by done. unfold PendingMemberUpserts. cbn.
    destruct (effChange e) as [|m|k]; cbn.
    + right; right. by rewrite map_to_list_empty.
    + left. apply Hch.
    + left. apply Hch.
Qed.

Lemma toMessageEntity_Ok row m :
  toMessageEntity row = Ok m ->
  Message.ID m = MessageModel.ID row /\ Message.RoomID m = MessageModel.RoomID row /\
  Message.SenderID m = MessageModel.SenderID row /\ Message.Message m = MessageModel.Message row /\
  Message.EditedAt m = MessageModel.EditedAt row /\
  Message.DeletedForEveryoneAt m = MessageModel.DeletedForEveryoneAt row.
Proof.
  unfold toMessageEntity. intros H. apply result_bind_Ok in H as (? & _ & H).
  apply result_bind_Ok in H as (? & _ & H). by injection H as <-.
Qed.

Lemma GetMessageByID_Ok id db o db' :
  GetMessageByID id db = (Ok o, db') ->
  match o with
  | Some m => exists row, messageRows (roomTables db) !! id = Some row /\ toMessageEntity row = Ok m
  | None => messageRows (roomTables db) !! id = None
  end.
Proof.
  intros H. unfold GetMessageByID, messageOrNil in H. apply method_bind_Ok in H as (row & db1 & H1 & H).
  apply (nilFirst_Ok roomView _ _ _ _ _ (selectMessage_law id db)) in H1 as [_ Hrow].
  destruct row as [row|].
  - apply lift_bind_Ok in H as (m & Hm & H). apply method_ret_Ok in H as [<- _]. eauto.
  - apply method_ret_Ok in H as [<- _]. done.
Qed.

(** A message that was loaded, and has no write pending. *)
Lemma loaded_message id account db a db' :
  roomsOK db -> LoadMessage id db = (Ok a, db') \/ LoadForRecipient id account db = (Ok a, db') ->
  messageFlying editor (roomTables db) a.
Proof.
  intros Hok H.
  assert (exists m, MessageState.message a = m /\
    exists row, messageRows (roomTables db) !! id = Some row /\ toMessageEntity row = Ok m)
    as (m & Hm & row & Hrow & He).
  { destruct H as [H|H].
    - apply method_bind_Ok in H as (o & db1 & H1 & H). apply GetMessageByID_Ok in H1.
      destruct o as [m|]; [|done]. injection H as <- _. by exists m.
    - apply method_bind_Ok in H as (o & db1 & H1 & H). apply GetMessageByID_Ok in H1.
      destruct o as [m|]; [|done]. apply method_bind_Ok in H as (mem & db2 & _ & H).
      injection H as <- _. by exists m. }
  destruct (toMessageEntity_Ok _ _ He) as (E1 & E2 & E3 & E4 & E5 & E6).
  exists row. rewrite Hm, E1, (rk_messages _ _ Hok _ _ Hrow). by split_and!.
Qed.

Lemma onMessage_Ok {A} (m : method Message.t A) a x a' :
  onMessage m a = (Ok x, a') ->
  exists msg, m (MessageState.message a) = (Ok x, msg) /\ a' = MessageState.setMessage msg a.
Proof. unfold onMessage. destruct (m _) as [[?|?|?] msg]; intros [= <- <-]. by exists msg. Qed.

(** The message changes as its row may. *)
Lemma messageFlying_change t a msg :
  messageFlying editor t a -> Message.ID msg = Message.ID (MessageState.message a) ->
  Message.RoomID msg = Message.RoomID (MessageState.message a) ->
  Message.SenderID msg = Message.SenderID (MessageState.message a) ->
  (~ editor (TrimSpace (Message.SenderID msg)) ->
     Message.Message msg = Message.Message (MessageState.message a) /\
     Message.EditedAt msg = Message.EditedAt (MessageState.message a) /\
     Message.DeletedForEveryoneAt msg = Message.DeletedForEveryoneAt (MessageState.message a)) ->
  forall a', MessageState.message a' = msg -> messageFlying editor t a'.
Proof.
  intros (row & Hrow & Hr & Hs & Ht) E1 E2 E3 Hkeep a' <-. exists row. rewrite E1, E2, E3.
  split_and!; [done..|]. intros He. rewrite E3, Hs in Hkeep. destruct (Hkeep He) as (-> & -> & ->). by apply Ht.
Qed.

Lemma messageFlying_same t a a' :
  messageFlying editor t a -> MessageState.message a' = MessageState.message a -> messageFlying editor t a'.
Proof. intros H E. unfold messageFlying in *. by rewrite E. Qed.

Lemma message_command_flying now actor c t a b a' :
  messageFlying editor t a -> allowed editor actor c ->
  runOn (runMessageCommand now actor now c) a = Ok (b, a') -> messageFlying editor t a'.
Proof.
  intros Hfl Hall. unfold runOn.
  destruct (runMessageCommand now actor now c a) as [[x|e|w] a1] eqn:Hrun; [|done..]. intros [= -> ->].
  destruct c as [content|scope|emoji|status]; cbn [runMessageCommand] in Hrun.
  - apply method_bind_Ok in Hrun as ([] & s1 & H1 & H). apply method_ret_Ok in H as [_ <-].
    apply method_bind_Ok in H1 as ([] & s2 & H1 & H). injection H as <-.
    apply onMessage_Ok in H1 as (msg & H1 & ->). unfold EditMessage in H1.
    repeat (case_decide; [done|]). injection H1 as Hmsg.
    eapply (messageFlying_change t a msg); [done|by rewrite <- Hmsg..| |reflexivity].
    intros He. rewrite <- Hmsg in He. exfalso. apply He. cbn.
    by match goal with E : TrimSpace actor = _ |- _ => rewrite <- E end.
  - apply method_bind_Ok in Hrun as ([] & s1 & H1 & H). apply method_ret_Ok in H as [_ <-].
    unfold Delete in H1. case_decide; [injection H1 as <-; by eapply messageFlying_same|].
    case_decide; [|done]. apply method_bind_Ok in H1 as ([] & s2 & H1 & E). injection E as <-.
    apply onMessage_Ok in H1 as (msg & H1 & ->). unfold DeleteForEveryone in H1.
    case_decide; [done|]. injection H1 as Hmsg.
    eapply (messageFlying_change t a msg); [done|by rewrite <- Hmsg..| |reflexivity].
    intros He. rewrite <- Hmsg in He. exfalso. apply He. cbn.
    by match goal with E : TrimSpace actor = _ |- _ => rewrite <- E end.
  - apply method_bind_Ok in Hrun as ([] & s1 & H1 & H). apply method_ret_Ok in H as [_ <-].
    apply method_bind_Ok in H1 as (changed & s2 & H1 & H).
    apply onMessage_Ok in H1 as (msg & H1 & ->).
    assert (messageFlying editor t (MessageState.setMessage msg a)) as Hs2.
    { unfold ToggleMessageReaction in H1. repeat (case_decide; [done|]).
      match type of H1 with context [match ?x with _ => _ end] => destruct x as [next|e|w] end; [|done..].
      injection H1 as _ Hmsg. by eapply (messageFlying_change t a msg); [done|rewrite <- Hmsg..|]. }
    destruct changed; [|by injection H as <-]. injection H as <-. by eapply messageFlying_same.
  - unfold MarkStatus in Hrun. case_decide; [by injection Hrun as _ <-|].
    destruct (NormalizeReceiptStatus status) as [n|e|w]; [|done..].
    destruct (MessageState.recipientMember a) as [m|].
    + destruct (ApplyReceiptStatus _ _ _ _) as [[[[s d] r]|e|w] m']; [|done..].
      injection Hrun as _ <-. by eapply messageFlying_same.
    + injection Hrun as _ <-. by eapply messageFlying_same.
Qed.

(** ** Steps keep the invariant *)

Lemma created_upserts now uuid r l actor body m :
  named_members l -> m ∈ PendingMemberUpserts (created now uuid r l actor body now) -> m ∈ l.
Proof.
  intros [_ Hd] Hm. apply list_elem_of_fmap in Hm as ([k x] & -> & Hx). apply elem_of_map_to_list in Hx.
  cbn in Hx. by apply memberMapOf_Some in Hx as [? _].
Qed.

Lemma roomStep_goesOn w w' : worldOK w -> roomStep w w' -> goesOn w w'.
Proof.
  intros Hw Hstep. pose proof Hw as [Hok Hr Hm]. destruct Hstep.
  - apply quiet_step; [done|]. auto with keeps.
  - apply quiet_step; [done|]. auto with keeps.
  - apply quiet_step; [done|]. auto with keeps.
  - apply quiet_step; [done|]. auto with keeps.
  - destruct (loaded_command _ _ _ _ _ _ _ _ _ Hok H H0 H2)
      as (r & l & base & e & -> & Hid & Hseen & Hl & Hspec & ->).
    pose proof (quiet_step (LoadRoom id) w Hw ltac:(auto with keeps)) as [[A1 A2 A3] HF].
    rewrite H in A1, A2, A3, HF. cbn in A1, A2, A3, HF. split; [|done]. split; [done| |done].
    constructor; [|done].
    destruct (LoadRoom_quiet id (store w) Hok) as (_ & Ht & _). rewrite H in Ht. cbn in Ht. cbn. rewrite Ht.
    eapply performed_flying; [exact Hok|apply Hseen|apply Hseen|exact Hid|exact Hl|exact H1|exact Hspec].
  - assert (keeps quiet (LoadMessage (DB := DB) id) /\ keeps quiet (LoadForRecipient (DB := DB) id account))
      as [K1 K2] by auto with keeps.
    pose proof (loaded_message _ _ _ _ _ Hok H) as Hfl.
    pose proof (message_command_flying _ _ _ _ _ _ _ Hfl H0 H1) as Hfl'.
    assert (goesOn w (mkWorld db (rooms w) (messages w)) /\ roomTables db = roomTables (store w))
      as [[[A1 A2 A3] HF] Ht].
    { destruct H as [H|H]; split.
      - pose proof (quiet_step _ w Hw K1) as Hq. by rewrite H in Hq.
      - destruct (K1 (store w) Hok) as (_ & Ht & _). by rewrite H in Ht.
      - pose proof (quiet_step _ w Hw K2) as Hq. by rewrite H in Hq.
      - destruct (K2 (store w) Hok) as (_ & Ht & _). by rewrite H in Ht. }
    split; [|done]. split; [done|done|]. constructor; [|done]. cbn. by rewrite Ht.
  - rewrite H in Hr. apply Forall_app in Hr as [Hr1 Hr2]. apply Forall_cons in Hr2 as [[Hnew [room Hfl]] Hr2].
    destruct (transaction_frames editor noRoom _ _ (SaveRoom_flying now editor noRoom a room Hnew)
                (store w) Hok Hfl) as (Hok' & _ & HF).
    destruct (flights_stable _ w HF Hw) as [Hr' Hm']. split; [|done]. split; [done| |done].
    rewrite H in Hr'. apply Forall_app in Hr' as [? [_ ?]%Forall_cons]. by apply Forall_app.
  - rewrite H in Hm. apply Forall_app in Hm as [Hm1 Hm2]. apply Forall_cons in Hm2 as [Hfl Hm2].
    destruct (transaction_frames editor noRoom _ _ (SaveMessage_frames now editor noRoom a)
                (store w) Hok Hfl) as (Hok' & _ & HF).
    destruct (flights_stable _ w HF Hw) as [Hr' Hm']. split; [|done]. split; [done|done|].
    rewrite H in Hm'. apply Forall_app in Hm' as [? [_ ?]%Forall_cons]. by apply Forall_app.
  - match goal with E : NewConversationRoomAggregate _ _ _ _ _ _ _ = _ |- _ =>
      rewrite NewConversationRoomAggregate_run in E by done; injection E as <- end.
    match goal with E : Forall (memberOf _) l |- _ => rename E into Hl end.
    destruct (SaveRoom_new now editor (created now uuid r l actor body now) (touched now now r) (store w))
      as [Hok' HF]; [done..| |by apply store_step].
    intros m Hmem. rewrite Forall_forall in Hl. apply Hl. by eapply created_upserts.
Qed.

Lemma roomSteps_goesOn w w' : worldOK w -> rtc roomStep w w' -> goesOn w w'.
Proof.
  intros Hw H. induction H as [w|w1 w2 w3 H12 _ IH]; [by split|].
  destruct (roomStep_goesOn _ _ Hw H12) as [Hw2 HF]. destruct (IH Hw2) as [Hw3 HF']. split; [done|by etrans].
Qed.
End system.
