(* ===== verification/RoomCalls.v ===== *)
(** * Calls of handlers are runs of steps

    Each handler of rooms and messages, whatever it returns, is a run of the
    steps of [roomStep]. *)

From stdpp Require Import prelude strings gmap.
From S2P Require Import Prelude GoStrings GoSort Database Event ActorContext.
From S2P Require Import RoomEntity RoomEntitySpec RoomAggregate RoomSpec RoomProjection RoomStore.
From S2P Require Import RoomTables RoomStoreSpec RoomSaveSpec RoomFrame RoomHandlers RoomSystem.
Import RoomError.

(** A request, with the ids that [uuid.NewString()] makes for it. *)
Inductive RoomRequest : Type :=
  | ReqAdd (roomID accountID role memberUUID messageUUID : string)
  | ReqRemove (roomID accountID messageUUID : string)
  | ReqUpdate (roomID name description messageUUID : string)
  | ReqPin (roomID messageID messageUUID : string)
  | ReqSend (messageUUID : string) (command : SendMessageCommand.t)
  | ReqForward (messageUUID messageID targetRoomID : string)
  | ReqDirect (peerAccountID roomUUID ownerUUID peerUUID messageUUID : string)
  | ReqGroup (name description : string) (memberIDs : list string) (roomUUID : string)
      (memberUUID : string -> string) (messageUUID : string)
  | ReqEdit (messageID content : string)
  | ReqDelete (messageID scope : string)
  | ReqReact (messageID emoji : string)
  | ReqMark (messageID status : string).

Section calls.
Context `{UC : UnicodeCase} {DB : Type} `{Laws : RoomSQLLaws DB}.
Context `{MJ : JSON (list MessageMention.t)} `{RJ : JSON (list MessageReaction.t)}.
Context `{PJ : JSON RoomOutboxPayload}.
Context (now : Time) (editor : string -> Prop).
Implicit Types (db : DB).

Definition done_ {A} (m : method DB A) : method DB unit := _ ← m; mret tt.

Definition handle (ctx : option Actor) (req : RoomRequest) : method DB unit :=
  match req with
  | ReqAdd roomID accountID role memberUUID messageUUID =>
      done_ (HandleAddChatMember now ctx roomID accountID role memberUUID messageUUID)
  | ReqRemove roomID accountID messageUUID =>
      done_ (HandleRemoveChatMember now ctx roomID accountID messageUUID)
  | ReqUpdate roomID name description messageUUID =>
      done_ (HandleUpdateGroupChat now ctx roomID name description messageUUID)
  | ReqPin roomID messageID messageUUID => done_ (HandlePinChatMessage now ctx roomID messageID messageUUID)
  | ReqSend messageUUID command => done_ (HandleSendChatMessage now ctx messageUUID command)
  | ReqForward messageUUID messageID targetRoomID =>
      done_ (HandleForwardChatMessage now ctx messageUUID messageID targetRoomID)
  | ReqDirect peerAccountID roomUUID ownerUUID peerUUID messageUUID =>
      done_ (HandleCreateDirectConversation now ctx peerAccountID roomUUID ownerUUID peerUUID messageUUID)
  | ReqGroup name description memberIDs roomUUID memberUUID messageUUID =>
      done_ (HandleCreateGroupChat now ctx name description memberIDs roomUUID memberUUID messageUUID)
  | ReqEdit messageID content => done_ (HandleEditChatMessage now ctx messageID content)
  | ReqDelete messageID scope => done_ (HandleDeleteChatMessage now ctx messageID scope)
  | ReqReact messageID emoji => done_ (HandleToggleChatMessageReaction now ctx messageID emoji)
  | ReqMark messageID status => done_ (HandleMarkChatMessageStatus now ctx messageID status)
  end.

(** Ids are new and not blank, and who edits or deletes is an editor. *)
Definition request_ok db (ctx : option Actor) (req : RoomRequest) : Prop :=
  match req with
  | ReqAdd _ _ _ _ u | ReqRemove _ _ u | ReqUpdate _ _ _ u | ReqPin _ _ u | ReqSend u _
  | ReqForward u _ _ => TrimSpace u <> ""
  | ReqDirect _ roomUUID _ _ u => TrimSpace u <> "" /\ fresh db (TrimSpace roomUUID)
  | ReqGroup _ _ _ roomUUID _ u => TrimSpace u <> "" /\ fresh db (TrimSpace roomUUID)
  | ReqEdit _ _ | ReqDelete _ _ =>
      forall id, AccountIDFromCtx ctx = Ok id -> editor (TrimSpace id)
  | ReqReact _ _ | ReqMark _ _ => True
  end.

(** The runs of steps from [db] that end with nothing in flight. *)
Definition stepsTo db db' : Prop :=
  rtc (roomStep editor) (mkWorld db [] []) (mkWorld db' [] []).

Lemma stepsTo_refl db : stepsTo db db.
Proof. apply rtc_refl. Qed.

Lemma stepsTo_trans db1 db2 db3 : stepsTo db1 db2 -> stepsTo db2 db3 -> stepsTo db1 db3.
Proof. unfold stepsTo. intros. by etrans. Qed.

Lemma stepsTo_load_room id db : stepsTo db (LoadRoom id db).2.
Proof. apply rtc_once. exact (st_load_room editor id (mkWorld db [] [])). Qed.
Lemma stepsTo_load_key k db : stepsTo db (LoadByDirectKey k db).2.
Proof. apply rtc_once. exact (st_load_key editor k (mkWorld db [] [])). Qed.
Lemma stepsTo_load_message id db : stepsTo db (LoadMessage id db).2.
Proof. apply rtc_once. exact (st_load_message editor id (mkWorld db [] [])). Qed.
Lemma stepsTo_load_recipient id acc db : stepsTo db (LoadForRecipient id acc db).2.
Proof. apply rtc_once. exact (st_load_recipient editor id acc (mkWorld db [] [])). Qed.

Lemma stepsTo_room id uuid actor c db a db1 a' :
  LoadRoom id db = (Ok a, db1) -> TrimSpace uuid <> "" -> command_ok id c ->
  runOn (runCommand now uuid actor now c) a = Ok (true, a') ->
  stepsTo db (WithRoomTransaction (SaveRoom now a') db1).2.
Proof.
  intros H1 H2 H3 H4. eapply rtc_l; [exact (st_room editor now id uuid actor c (mkWorld db [] []) db1 a a' H1 H2 H3 H4)|].
  apply rtc_once. exact (st_save_room editor now (mkWorld db1 [a'] []) [] a' [] eq_refl).
Qed.

Lemma stepsTo_message id account actor c db a db1 a' :
  (LoadMessage id db = (Ok a, db1) \/ LoadForRecipient id account db = (Ok a, db1)) ->
  allowed editor actor c -> runOn (runMessageCommand now actor now c) a = Ok (true, a') ->
  stepsTo db (WithRoomTransaction (SaveMessage now a') db1).2.
Proof.
  intros H1 H2 H3. eapply rtc_l; [exact (st_message editor now id account actor c (mkWorld db [] []) db1 a a' H1 H2 H3)|].
  apply rtc_once. exact (st_save_message editor now (mkWorld db1 [] [a']) [] a' [] eq_refl).
Qed.

Lemma done_run {A} (m : method DB A) db : (done_ m db).2 = (m db).2.
Proof. unfold done_. rewrite bind_run. by destruct (m db) as [[a|e|w] db']. Qed.

Lemma then_ret_run {A B} (m : method DB A) (b : B) db : ((_ ← m; mret b) db).2 = (m db).2.
Proof. rewrite bind_run. by destruct (m db) as [[a|e|w] db']. Qed.

Lemma save_run agg db : (saveRoomInTransaction now agg db).2 = (WithRoomTransaction (SaveRoom now agg) db).2.
Proof. apply then_ret_run. Qed.

Lemma saveMessage_run agg db :
  (saveMessageInTransaction now agg db).2 = (WithRoomTransaction (SaveMessage now agg) db).2.
Proof. apply then_ret_run. Qed.

(** ** The two shapes of handlers *)

(** A method that does what a command does, or nothing. *)
Definition isCommand (id : string) (m : method RoomAggregate bool) : Prop :=
  forall a a', runOn m a = Ok (true, a') -> exists uuid actor c,
    TrimSpace uuid <> "" /\ command_ok id c /\ runOn (runCommand now uuid actor now c) a = Ok (true, a').

Lemma isCommand_run id uuid actor c :
  TrimSpace uuid <> "" -> command_ok id c -> isCommand id (runCommand now uuid actor now c).
Proof. intros Hu Hc a a' H. by exists uuid, actor, c. Qed.

Lemma LoadRoom_trimmed id db a db' : roomsOK db -> LoadRoom id db = (Ok a, db') -> trimmed id.
Proof.
  intros Hok H. destruct (LoadRoom_spec _ _ _ _ Hok H) as (r & l & base & _ & <- & Hs & _). apply Hs.
Qed.

Lemma onLoadedRoom_steps id m db :
  roomsOK db -> (trimmed id -> isCommand id m) -> stepsTo db (onLoadedRoom now id m db).2.
Proof.
  intros Hok Hm. unfold onLoadedRoom. rewrite bind_run. pose proof (stepsTo_load_room id db) as Hl.
  destruct (LoadRoom id db) as [[a|e|w] db1] eqn:E; [|exact Hl..]. cbn [snd] in Hl. rewrite lift_bind_run.
  destruct (runOn m a) as [[[] a']|e|w] eqn:Hrun; [| |exact Hl..].
  - rewrite then_ret_run, save_run.
    destruct (Hm (LoadRoom_trimmed _ _ _ _ Hok E) _ _ Hrun) as (uuid & actor & c & Hu & Hc & Hrun').
    by eapply stepsTo_room.
  - rewrite then_ret_run. exact Hl.
Qed.

Lemma onLoadedMessage_steps id actor c (m : method MessageStateAggregate unit) status db :
  allowed editor actor c -> (forall a, runMessageCommand now actor now c a = (_ ← m; mret true) a) ->
  stepsTo db (onLoadedMessage now id m status db).2.
Proof.
  intros Hall Hm. unfold onLoadedMessage. rewrite bind_run. pose proof (stepsTo_load_message id db) as Hl.
  destruct (LoadMessage id db) as [[a|e|w] db1] eqn:E; [|exact Hl..]. cbn [snd] in Hl. rewrite lift_bind_run.
  destruct (exec m a) as [a'|e|w] eqn:Hrun; [|exact Hl..]. rewrite then_ret_run, saveMessage_run.
  eapply (stepsTo_message id ""); [by left|exact Hall|]. unfold runOn. rewrite Hm, bind_run.
  unfold exec, runOn in Hrun. destruct (m a) as [[[]|?|?] a1]; [|done..]. cbn in Hrun. by injection Hrun as ->.
Qed.

(** ** Members *)

Lemma NewRoomMember_memberOf uuid roomID accountID role m :
  NewRoomMember now uuid roomID accountID role now = Ok m ->
  memberOf (TrimSpace roomID) m /\ RoomMember.AccountID m = TrimSpace accountID.
Proof.
  unfold NewRoomMember. repeat (case_decide; [done|]). destruct (negb _); [done|]. intros [= <-].
  split; [|done]. split; [done|]. split; [|done]. apply TrimSpace_idem.
Qed.

Lemma newMembers_spec roomID memberUUID roles l :
  newMembers now roomID memberUUID roles = Ok l ->
  Forall (memberOf (TrimSpace roomID)) l /\ RoomMember.AccountID <$> l = TrimSpace <$> roles.*1.
Proof.
  revert l. induction roles as [|[id role] roles IH]; intros l; cbn; [by intros [= <-]|].
  intros (m & Hm & H)%result_bind_Ok. apply result_bind_Ok in H as (k & Hk & [= <-]).
  apply NewRoomMember_memberOf in Hm as [Hm Ha]. destruct (IH _ Hk) as [Hl Hacc]. split; [by constructor|].
  cbn. by rewrite Ha, Hacc.
Qed.

Lemma memberOf_named id l :
  Forall (memberOf id) l -> NoDup (RoomMember.AccountID <$> l) -> named_members l.
Proof.
  intros Hl Hd.
  assert (accountKey <$> l = RoomMember.AccountID <$> l) as Heq.
  { induction Hl as [|m l (_ & Ht & _) _ IH]; [done|]. cbn. apply NoDup_cons in Hd as [_ Hd].
    rewrite IH by done. f_equal. exact Ht. }
  split; [|by rewrite Heq]. eapply Forall_impl; [exact Hl|]. intros m (_ & Ht & Hne).
  unfold accountKey. unfold trimmed in Ht. by rewrite Ht.
Qed.

Lemma NewRoom_ok id name description owner typ key r :
  NewRoom now id name description owner typ key now = Ok r -> room_ok r /\ Room.ID r = TrimSpace id.
Proof.
  unfold NewRoom. case_decide as Hid; [done|]. repeat (case_decide; [done|]). destruct (negb _); [done|].
  intros [= <-]. split; [|done]. split; [done|]. apply TrimSpace_idem.
Qed.

(** A save of a new conversation. *)
Lemma stepsTo_create uuid r l actor body db :
  room_ok r -> named_members l -> Forall (memberOf (Room.ID r)) l -> fresh db (Room.ID r) ->
  TrimSpace uuid <> "" -> TrimSpace actor <> "" -> TrimSpace body <> "" ->
  forall a, NewConversationRoomAggregate now uuid r (map Some l) actor body now = Ok a ->
  stepsTo db (saveRoomInTransaction now a db).2.
Proof.
  intros Hr Hn Hl Hf Hu Ha Hb a H. rewrite save_run. apply rtc_once.
  exact (st_create editor now uuid r l actor body (mkWorld db [] []) a Hr Hn Hl Hf Hu Ha Hb H).
Qed.

(** ** The handlers *)

Lemma executeSend_steps ctx actorID messageUUID command db :
  roomsOK db -> TrimSpace messageUUID <> "" ->
  stepsTo db (executeSendMessage now ctx actorID messageUUID command db).2.
Proof.
  intros Hok Hu. unfold executeSendMessage. rewrite bind_run.
  pose proof (stepsTo_load_room (TrimSpace (SendMessageCommand.RoomID command)) db) as Hl.
  destruct (LoadRoom _ db) as [[a|e|w] db1] eqn:E; [|exact Hl..]. cbn [snd] in Hl. rewrite lift_bind_run.
  destruct (runOn (sendOn now ctx actorID messageUUID command) a) as [[msg a']|e|w] eqn:Hrun; [|exact Hl..].
  rewrite then_ret_run, save_run. unfold runOn in Hrun.
  destruct (sendOn now ctx actorID messageUUID command a) as [[x|e|w] a1] eqn:Hs; [|done..].
  injection Hrun as -> ->. unfold sendOn in Hs. rewrite get_bind_run, lift_bind_run in Hs.
  destruct (resolveMessageMentions _ _ _ _) as [mentions|e|w]; [|done..].
  match type of Hs with SendMessage _ _ _ ?params ?sender ?outbox _ _ = _ =>
    eapply (stepsTo_room _ messageUUID actorID (CmdSend params sender outbox)) end; [exact E|done|done|].
  unfold runOn. cbn [runCommand]. rewrite bind_run. cbn zeta in Hs. by rewrite Hs.
Qed.

Lemma HandleAdd_steps ctx roomID accountID role memberUUID messageUUID db :
  roomsOK db -> TrimSpace messageUUID <> "" ->
  stepsTo db (HandleAddChatMember now ctx roomID accountID role memberUUID messageUUID db).2.
Proof.
  intros Hok Hu. unfold HandleAddChatMember. rewrite lift_bind_run.
  destruct (AccountIDFromCtx ctx) as [actor|e|w]; [|apply stepsTo_refl..].
  apply onLoadedRoom_steps; [done|]. intros Htr a a' H. unfold runOn in H. rewrite lift_bind_run in H.
  destruct (NewRoomMember _ _ _ _ _ _) as [m|e|w] eqn:Hm; [|done..].
  exists messageUUID, actor, (CmdAdd m). split; [done|]. split; [|exact H].
  apply NewRoomMember_memberOf in Hm as [Hm _]. unfold trimmed in Htr. by rewrite Htr in Hm.
Qed.

Lemma onRoom_steps ctx roomID messageUUID (c : RoomCommand) db :
  roomsOK db -> TrimSpace messageUUID <> "" -> (forall m, c <> CmdAdd m) ->
  stepsTo db ((actorID ← lift (AccountIDFromCtx ctx);
               onLoadedRoom now roomID (runCommand now messageUUID actorID now c)) db).2.
Proof.
  intros Hok Hu Hc. rewrite lift_bind_run. destruct (AccountIDFromCtx ctx) as [actor|e|w]; [|apply stepsTo_refl..].
  apply onLoadedRoom_steps; [done|]. intros _. apply isCommand_run; [done|].
  destruct c as [| m | | |]; try done. by destruct (Hc m).
Qed.

Lemma HandleForward_steps ctx messageUUID messageID target db :
  roomsOK db -> TrimSpace messageUUID <> "" ->
  stepsTo db (HandleForwardChatMessage now ctx messageUUID messageID target db).2.
Proof.
  intros Hok Hu. unfold HandleForwardChatMessage. rewrite lift_bind_run.
  destruct (AccountIDFromCtx ctx) as [actor|e|w]; [|apply stepsTo_refl..]. rewrite bind_run.
  pose proof (stepsTo_load_message messageID db) as Hl.
  destruct (LoadMessage_quiet messageID db Hok) as (Hok1 & _).
  destruct (LoadMessage messageID db) as [[a|e|w] db1]; [|exact Hl..].
  eapply stepsTo_trans; [exact Hl|]. by apply executeSend_steps.
Qed.

Lemma HandleDirect_steps ctx peer roomUUID ownerUUID peerUUID messageUUID db :
  roomsOK db -> TrimSpace messageUUID <> "" -> fresh db (TrimSpace roomUUID) ->
  stepsTo db (HandleCreateDirectConversation now ctx peer roomUUID ownerUUID peerUUID messageUUID db).2.
Proof.
  intros Hok Hu Hf. unfold HandleCreateDirectConversation. rewrite lift_bind_run.
  destruct (AccountIDFromCtx ctx) as [actor|e|w]; [|apply stepsTo_refl..]. rewrite lift_bind_run.
  destruct (NewDirectConversationRoom _ _ _ _ _) as [r|e|w] eqn:Hroom; [|apply stepsTo_refl..].
  unfold NewDirectConversationRoom in Hroom. case_decide as Ha; [done|]. case_decide as Hp; [done|].
  case_decide as Hne; [done|]. apply NewRoom_ok in Hroom as [Hr Hid].
  rewrite bind_run. pose proof (stepsTo_load_key (Room.DirectKey r) db) as Hl.
  destruct (LoadByDirectKey_quiet (Room.DirectKey r) db Hok) as (Hok1 & _ & Hf1).
  unfold nilIfNotFound. destruct (LoadByDirectKey (Room.DirectKey r) db) as [o db1]. cbn [snd] in *.
  assert (stepsTo db1 ((ownerMember ← lift (NewRoomMember now ownerUUID (Room.ID r) actor RoomRoleOwner now);
      peerMember ← lift (NewRoomMember now peerUUID (Room.ID r) peer RoomRoleMember now);
      agg ← lift (NewConversationRoomAggregate now messageUUID r [Some ownerMember; Some peerMember]
                    actor (RoomMember.DisplayName ownerMember +:+ " started a direct conversation") now);
      _ ← saveRoomInTransaction now agg;
      mret (Room.ID r, "created")) db1).2) as Hnew.
  { rewrite lift_bind_run. destruct (NewRoomMember now ownerUUID _ _ _ _) as [m1|e|w] eqn:H1; [|apply stepsTo_refl..].
    rewrite lift_bind_run. destruct (NewRoomMember now peerUUID _ _ _ _) as [m2|e|w] eqn:H2; [|apply stepsTo_refl..].
    rewrite lift_bind_run.
    destruct (NewConversationRoomAggregate _ _ _ _ _ _ _) as [a|e|w] eqn:H3; [|apply stepsTo_refl..].
    rewrite then_ret_run.
    assert (RoomMember.DisplayName m1 = "") as Hname.
    { unfold NewRoomMember in H1. repeat (case_decide; [done|]). destruct (negb _); [done|]. by injection H1 as <-. }
    apply NewRoomMember_memberOf in H1 as [M1 A1], H2 as [M2 A2].
    assert (TrimSpace (Room.ID r) = Room.ID r) as Htr by apply Hr. rewrite Htr in M1, M2.
    assert (Forall (memberOf (Room.ID r)) [m1; m2]) as Hl2
      by (constructor; [done|]; constructor; [done|constructor]).
    eapply (stepsTo_create messageUUID r [m1; m2]); [done| |done| |done|exact Ha| |exact H3].
    - eapply memberOf_named; [exact Hl2|]. cbn. rewrite A1, A2. apply NoDup_cons. split; [|apply NoDup_singleton].
      intros E%list_elem_of_singleton. congruence.
    - rewrite Hid. by apply Hf1.
    - rewrite Hname. done. }
  destruct o as [agg|e|w]; [exact Hl| |exact Hl].
  destruct (errors_Is e _); [|exact Hl]. by eapply stepsTo_trans.
Qed.

Lemma HandleGroup_steps ctx name description memberIDs roomUUID memberUUID messageUUID db :
  TrimSpace messageUUID <> "" -> fresh db (TrimSpace roomUUID) ->
  stepsTo db (HandleCreateGroupChat now ctx name description memberIDs roomUUID memberUUID messageUUID db).2.
Proof.
  intros Hu Hf. unfold HandleCreateGroupChat. rewrite lift_bind_run.
  destruct (AccountIDFromCtx ctx) as [actor|e|w]; [|apply stepsTo_refl..]. rewrite lift_bind_run.
  destruct (NewRoom _ _ _ _ _ _ _ _) as [r|e|w] eqn:Hroom; [|apply stepsTo_refl..].
  apply NewRoom_ok in Hroom as [Hr Hid]. rewrite lift_bind_run.
  destruct (BuildGroupMemberRoles actor memberIDs) as [roles|e|w] eqn:Hb; [|apply stepsTo_refl..].
  rewrite lift_bind_run. destruct (newMembers _ _ _ _) as [l|e|w] eqn:Hl; [|apply stepsTo_refl..].
  rewrite lift_bind_run.
  destruct (NewConversationRoomAggregate _ _ _ _ _ _ _) as [a|e|w] eqn:H3; [|apply stepsTo_refl..].
  rewrite then_ret_run. apply newMembers_spec in Hl as [Hl Hacc].
  assert (TrimSpace (Room.ID r) = Room.ID r) as Htr by apply Hr. rewrite Htr in Hl.
  unfold BuildGroupMemberRoles in Hb. case_decide as Ha; [done|]. injection Hb as <-.
  set (roles := foldl addGroupMember {[TrimSpace actor := RoomRoleOwner]} memberIDs) in *.
  assert (forall k, is_Some (roles !! k) -> trimmed k) as Hkeys.
  { destruct (addGroupMember_owner (TrimSpace actor) {[TrimSpace actor := RoomRoleOwner]} memberIDs) as (_ & _ & Hk).
    - apply lookup_singleton_eq.
    - intros k role Hk. apply lookup_singleton_Some in Hk as [<- <-]. done.
    - intros k Hin. apply Hk in Hin as [[x Hx]|[_ Hin]].
      + apply lookup_singleton_Some in Hx as [<- _]. apply TrimSpace_idem.
      + apply list_elem_of_fmap in Hin as (id & -> & _). apply TrimSpace_idem. }
  eapply (stepsTo_create messageUUID r l); [done| |done| |done|exact Ha| |exact H3].
  - eapply memberOf_named; [exact Hl|]. rewrite Hacc.
    assert (TrimSpace <$> (rangeRoles (DB := DB) roles).*1 = (rangeRoles (DB := DB) roles).*1) as ->.
    { rewrite <- (list_fmap_id (rangeRoles (DB := DB) roles).*1) at 2.
      apply Forall_fmap_ext_1, Forall_forall. intros k Hk. apply Hkeys.
      apply list_elem_of_fmap in Hk as ([k' role] & -> & Hk). rewrite rangeRoles_law in Hk.
      apply elem_of_map_to_list in Hk. by exists role. }
    rewrite rangeRoles_law. apply NoDup_fst_map_to_list.
  - by rewrite Hid.
  - change " created the group" with (" created the grou" +:+ "p"). rewrite <- string_app_assoc.
    by eapply TrimSpace_end.
Qed.

(** A call of a handler, whatever it returns, is a run of steps. *)
Lemma handle_steps ctx req db :
  roomsOK db -> request_ok db ctx req -> stepsTo db (handle ctx req db).2.
Proof.
  intros Hok Hreq. destruct req; cbn [handle request_ok] in *; rewrite done_run.
  - by apply HandleAdd_steps.
  - by apply (onRoom_steps ctx roomID messageUUID (CmdRemove accountID)).
  - by apply (onRoom_steps ctx roomID messageUUID (CmdUpdateGroup name description)).
  - by apply (onRoom_steps ctx roomID messageUUID (CmdPin messageID)).
  - unfold HandleSendChatMessage. rewrite lift_bind_run.
    destruct (AccountIDFromCtx ctx) as [actor|e|w]; [|apply stepsTo_refl..]. by apply executeSend_steps.
  - by apply HandleForward_steps.
  - destruct Hreq. by apply HandleDirect_steps.
  - destruct Hreq. by apply HandleGroup_steps.
  - unfold HandleEditChatMessage. rewrite lift_bind_run.
    destruct (AccountIDFromCtx ctx) as [actor|e|w] eqn:E; [|apply stepsTo_refl..].
    apply (onLoadedMessage_steps _ actor (MsgEdit content)); [by apply Hreq|done].
  - unfold HandleDeleteChatMessage. rewrite lift_bind_run.
    destruct (AccountIDFromCtx ctx) as [actor|e|w] eqn:E; [|apply stepsTo_refl..].
    apply (onLoadedMessage_steps _ actor (MsgDelete scope)); [by apply Hreq|done].
  - unfold HandleToggleChatMessageReaction. rewrite lift_bind_run.
    destruct (AccountIDFromCtx ctx) as [actor|e|w] eqn:E; [|apply stepsTo_refl..].
    by apply (onLoadedMessage_steps _ actor (MsgReact emoji)).
  - unfold HandleMarkChatMessageStatus. rewrite lift_bind_run.
    destruct (AccountIDFromCtx ctx) as [actor|e|w] eqn:E; [|apply stepsTo_refl..]. rewrite bind_run.
    pose proof (stepsTo_load_recipient messageID actor db) as Hl.
    destruct (LoadForRecipient messageID actor db) as [[a|e|w] db1] eqn:El; [|exact Hl..].
    cbn [snd] in Hl. rewrite lift_bind_run.
    destruct (runOn (MarkStatus now actor status None now) a) as [[[] a']|e|w] eqn:Hrun; [| |exact Hl..].
    + rewrite then_ret_run, saveMessage_run.
      eapply (stepsTo_message _ actor actor (MsgMark status)); [by right|done|exact Hrun].
    + rewrite then_ret_run. exact Hl.
Qed.

(** ** What a request asks for *)

(** The room of a request, the id of its message, and its command on the room
    and the members that were loaded. *)
Definition commandOf (ctx : option Actor) (actor : string) (req : RoomRequest) :
    option (string * string * (Room.t -> list RoomMember.t -> result RoomCommand)) :=
  match req with
  | ReqAdd roomID accountID role memberUUID messageUUID =>
      Some (roomID, messageUUID, fun _ _ =>
        m ← NewRoomMember now memberUUID roomID accountID role now; Ok (CmdAdd m))
  | ReqRemove roomID accountID messageUUID =>
      Some (roomID, messageUUID, fun _ _ => Ok (CmdRemove accountID))
  | ReqUpdate roomID name description messageUUID =>
      Some (roomID, messageUUID, fun _ _ => Ok (CmdUpdateGroup name description))
  | ReqPin roomID messageID messageUUID => Some (roomID, messageUUID, fun _ _ => Ok (CmdPin messageID))
  | ReqSend messageUUID command =>
      Some (TrimSpace (SendMessageCommand.RoomID command), messageUUID, fun r l =>
        mentions ← resolveMessageMentions (Some r) actor command l;
        Ok (CmdSend
          (MessageParams.mk (SendMessageCommand.Message command) (SendMessageCommand.MessageType command)
            (resolvedMentions mentions) (resolvedMentionAll mentions)
            (SendMessageCommand.ReplyToMessageID command) (SendMessageCommand.ForwardedFromMessageID command)
            (SendMessageCommand.FileName command) (SendMessageCommand.FileSize command)
            (SendMessageCommand.MimeType command) (SendMessageCommand.ObjectKey command))
          (buildSenderIdentity ctx l actor)
          (mkOutboxPayload (resolvedMentions mentions) (resolvedMentionAll mentions)
            (resolvedAccountIDs mentions))))
  | _ => None
  end.

(** What a successful request has done: the effect that the specification
    computes from the stored room and members is saved, or there is none. *)
Definition requestDone db (id uuid actor : string)
    (cmd : Room.t -> list RoomMember.t -> result RoomCommand) db' : Prop :=
  exists r l base c, Room.ID r = id /\ seenRoom db r /\ seenMembers (roomTables db) id l /\ cmd r l = Ok c /\
    match commandSpec now uuid actor now r (memberMapOf l) l c with
    | Ok (Some e) => roomSaved (roomTables db) e base (roomTables db')
    | Ok None => roomTables db' = roomTables db
    | _ => False
    end.

Lemma transaction_cases {A} (m : method DB A) db res db' :
  WithRoomTransaction m db = (res, db') ->
  match res with
  | Ok a => m db = (Ok a, db')
  | _ => roomTables db' = roomTables db
  end.
Proof.
  unfold WithRoomTransaction, roomTables. destruct (roomBeginError db); [by intros [= <- <-]|].
  destruct (m db) as [[a|e|w] db1].
  - destruct (roomCommitError db1); intros [= <- <-]; [by rewrite roomRollback_law|done].
  - intros [= <- <-]. by rewrite roomRollback_law.
  - intros [= <- <-]. by rewrite roomRollback_law.
Qed.

(** A load, a command and a save. *)
Lemma load_run_save id uuid actor cmd (run : RoomAggregate -> result (option RoomAggregate))
    (call : method DB unit) db res db' :
  roomsOK db -> TrimSpace uuid <> "" ->
  (forall r l m, trimmed id -> cmd r l = Ok (CmdAdd m) -> memberOf id m) ->
  (forall r l base, named_members l -> room_ok r -> run (restored r l base) =
     (c ← cmd r l; x ← runOn (runCommand now uuid actor now c) (restored r l base);
      Ok (if x.1 : bool then Some x.2 else None))) ->
  (forall db, call db = (agg ← LoadRoom id; o ← lift (run agg);
     match o with Some agg => saveRoomInTransaction now agg | None => mret tt end) db) ->
  call db = (res, db') ->
  match res with
  | Ok _ => requestDone db id uuid actor cmd db'
  | _ => roomTables db' = roomTables db
  end.
Proof.
  intros Hok Hu Hmem Hrun Hcall H. rewrite Hcall, bind_run in H.
  destruct (LoadRoom_quiet id db Hok) as (Hok1 & Ht1 & _).
  destruct (LoadRoom id db) as [[a|e|w] db1] eqn:E; cbn [snd] in *; [|by injection H as <- <-..].
  destruct (LoadRoom_spec _ _ _ _ Hok E) as (r & l & base & -> & Hid & Hseen & Hl).
  pose proof (seenMembers_named _ _ _ _ Hok Hl) as Hn.
  rewrite lift_bind_run, Hrun in H by (done || apply Hseen).
  destruct (cmd r l) as [c|e|w] eqn:Hc; [|by injection H as <- <-..]. cbn [mbind result_bind] in H.
  pose proof (runCommand_spec now uuid actor now _ _ (restored_wf _ _ base (sr_ok _ _ Hseen) Hn) Hu c) as Hs.
  unfold obeys, outcome in Hs. rewrite Members_restored in Hs by done.
  change (RoomAggregate.members (restored r l base)) with (memberMapOf l) in Hs.
  unfold runOn in H. rewrite Hs in H.
  destruct (commandSpec _ _ _ _ _ _ _ _) as [[e|]|e|w] eqn:Hspec; cbn [mbind result_bind fst snd] in H.
  2: { injection H as <- <-. exists r, l, base, c. rewrite Hspec. by split_and!. }
  2-3: by injection H as <- <-.
  unfold saveRoomInTransaction in H. rewrite bind_run in H.
  destruct (WithRoomTransaction _ db1) as [[agg|e'|w] db2] eqn:Hsave; apply transaction_cases in Hsave;
    injection H as <- <-; [|congruence..].
  exists r, l, base, c. rewrite Hspec, <- Ht1. split_and!; [done| | |done|].
  { destruct Hseen as [S1 S2]. by split. }
  { by rewrite Ht1. }
  destruct (commandSpec_effect _ _ _ _ _ _ _ _ _ Hspec) as (Hsame & _ & Hch).
  apply sameRoom_fields in Hsame as (Hi & _). eapply SaveRoom_Ok; [exact Hi| |exact Hsave].
  intros m Hjoin. rewrite Hjoin in Hch. destruct Hch as (_ & -> & Hnone).
  pose proof (LoadRoom_trimmed _ _ _ _ Hok E) as Htr.
  destruct (Hmem r l m Htr Hc) as (Hroom & Hacc & _). split; [by rewrite Hid|].
  pose proof (seenMembers_lookup _ _ _ _ (accountKey m) Hok Hl) as Hrow. rewrite Hnone in Hrow.
  unfold memberKey. rewrite Hroom, Ht1. unfold accountKey in Hrow. unfold trimmed in Hacc. by rewrite Hacc in Hrow.
Qed.

Lemma onLoadedRoom_run id m db :
  done_ (onLoadedRoom now id m) db =
  (agg ← LoadRoom id; o ← lift (x ← runOn m agg; Ok (if x.1 : bool then Some x.2 else None));
   match o with Some agg => saveRoomInTransaction now agg | None => mret tt end) db.
Proof.
  unfold done_, onLoadedRoom. rewrite !bind_run. destruct (LoadRoom id db) as [[a|e|w] db1]; [|done..].
  rewrite !lift_bind_run. destruct (runOn m a) as [[[] a']|e|w]; [| |done..]; cbn [mbind result_bind fst snd].
  - rewrite bind_run. by destruct (saveRoomInTransaction now a' db1) as [[[]|e|w] db2].
  - done.
Qed.

(** The handlers that load a room do what their command is to do. *)
Lemma handle_refines ctx req db res db' actor id uuid cmd :
  roomsOK db -> AccountIDFromCtx ctx = Ok actor -> commandOf ctx actor req = Some (id, uuid, cmd) ->
  TrimSpace uuid <> "" -> handle ctx req db = (res, db') ->
  match res with
  | Ok _ => requestDone db id uuid actor cmd db'
  | _ => roomTables db' = roomTables db
  end.
Proof.
  intros Hok Hact Hcmd Hu H.
  assert (forall (f : string -> method DB RoomResponse) db,
    done_ (actorID ← lift (AccountIDFromCtx ctx); f actorID) db = done_ (f actor) db) as Hctx.
  { intros f d. unfold done_. rewrite bind_run, lift_bind_run, Hact. by rewrite bind_run. }
  set (changed := fun c a => x ← runOn (runCommand now uuid actor now c) a;
    Ok (if x.1 : bool then Some x.2 else None)).
  destruct req; try discriminate Hcmd; injection Hcmd as <- <- <-; cbn [handle] in H.
  - eapply (load_run_save roomID messageUUID actor _ (fun a => x ← runOn (member ← lift (NewRoomMember now
      memberUUID roomID accountID role now); AddMember now messageUUID actor (Some member) now actor) a;
      Ok (if x.1 : bool then Some x.2 else None)) (done_ (HandleAddChatMember now ctx roomID accountID role
      memberUUID messageUUID))); [exact Hok|exact Hu| | | |exact H].
    + intros _ _ m Htr Hm. apply result_bind_Ok in Hm as (x & Hm & [= ->]).
      apply NewRoomMember_memberOf in Hm as [Hm _]. unfold trimmed in Htr. by rewrite Htr in Hm.
    + intros r l base _ _. unfold runOn at 1. rewrite lift_bind_run.
      by destruct (NewRoomMember _ _ _ _ _ _).
    + intros d. unfold HandleAddChatMember. rewrite Hctx. apply onLoadedRoom_run.
  - eapply (load_run_save roomID messageUUID actor _ (changed (CmdRemove accountID)) (done_ (HandleRemoveChatMember now ctx roomID accountID
      messageUUID))); [exact Hok|exact Hu|by intros|by intros| |exact H].
    intros d. unfold HandleRemoveChatMember. rewrite Hctx. apply onLoadedRoom_run.
  - eapply (load_run_save roomID messageUUID actor _ (changed (CmdUpdateGroup name description)) (done_ (HandleUpdateGroupChat now ctx roomID name
      description messageUUID))); [exact Hok|exact Hu|by intros|by intros| |exact H].
    intros d. unfold HandleUpdateGroupChat. rewrite Hctx. apply onLoadedRoom_run.
  - eapply (load_run_save roomID messageUUID actor _ (changed (CmdPin messageID)) (done_ (HandlePinChatMessage now ctx roomID messageID
      messageUUID))); [exact Hok|exact Hu|by intros|by intros| |exact H].
    intros d. unfold HandlePinChatMessage. rewrite Hctx. apply onLoadedRoom_run.
  - eapply (load_run_save (TrimSpace (SendMessageCommand.RoomID command)) messageUUID actor _
      (fun a => x ← runOn (sendOn now ctx actor messageUUID command) a; Ok (Some x.2))
      (done_ (HandleSendChatMessage now ctx messageUUID command))); [exact Hok|exact Hu| | | |exact H].
    + intros r l m _ Hm. by apply result_bind_Ok in Hm as (x & _ & [= ]).
    + intros r l base Hn Hr. unfold runOn at 1, sendOn. rewrite get_bind_run, lift_bind_run.
      rewrite Members_restored by done. change (RoomAggregate.room (restored r l base)) with (Some r).
      destruct (resolveMessageMentions _ _ _ _) as [mentions|e|w]; [|done..].
      cbn [mbind result_bind]. unfold runOn. cbn [runCommand]. rewrite bind_run. cbn zeta.
      by destruct (SendMessage _ _ _ _ _ _ _ _) as [[x|e|w] a'].
    + intros d. unfold HandleSendChatMessage. unfold done_ at 1. rewrite bind_run, lift_bind_run, Hact.
      unfold executeSendMessage. rewrite !bind_run. destruct (LoadRoom _ d) as [[a|e|w] db1]; [|done..].
      rewrite !lift_bind_run. destruct (runOn _ a) as [[msg a']|e|w]; [|done..]. cbn [mbind result_bind fst snd].
      rewrite bind_run. by destruct (saveRoomInTransaction now a' db1) as [[[]|e|w] db2].
Qed.
End calls.
