(* ===== verification/RoomTheorems.v ===== *)
(** * Correctness of rooms

    A command on a room that was loaded does what [commandSpec] says of the
    stored room and members, and the handlers save exactly that; whatever
    handlers run at the same time, conversations that are no groups keep their
    members and messages their sender's text; a reaction that is toggled twice
    leaves no trace; the sender of a message is lost on its way to the
    projection. *)

From stdpp Require Import prelude strings gmap.
From S2P Require Import Prelude GoStrings GoSort Event RoomEntity RoomEntitySpec RoomAggregate RoomSpec ActorContext.
From S2P Require Import RoomProjection Database RoomStore RoomTables.
From S2P Require Import RoomStoreSpec RoomSaveSpec RoomFrame RoomHandlers RoomSystem RoomCalls.
Import RoomError.

(** ** Commands *)

Section commands.
Context `{UC : UnicodeCase} (clock : Time).

(** C37: a command of an actor on a room, loaded with its members, changes the
    loaded aggregate by exactly the effect that [commandSpec] computes from the
    stored room and members alone - the room it leaves, who joins or leaves,
    messages, receipts and events, in their order - or leaves it as it was,
    with the error of the first condition that does not hold. *)
Theorem room_command_spec uuid actor (now : Time) (r : Room.t) (l : list RoomMember.t) base a c :
  room_ok r -> named_members l -> TrimSpace uuid <> "" ->
  RestoreRoomAggregate (Some r) (map Some l) base = Ok a ->
  runCommand clock uuid actor now c a =
    match commandSpec clock uuid actor now r (memberMapOf l) l c with
    | Ok (Some e) => (Ok true, performed e a)
    | Ok None => (Ok false, a)
    | Err e => (Err e, a)
    | Panic w => (Panic w, a)
    end.
Proof.
  intros Hr Hl Hu Ha. rewrite RestoreRoomAggregate_run in Ha by done. injection Ha as <-.
  pose proof (runCommand_spec clock uuid actor now _ _ (restored_wf _ _ base Hr Hl) Hu c) as H.
  unfold obeys, outcome in H. rewrite Members_restored in H by done. exact H.
Qed.

(** ** Reactions *)

(** A reaction that an account does not have on a message and toggles twice
    leaves the message as it was, at whatever times; toggled once, it is there
    besides the others, and the list is sorted and without duplicates whatever
    the order in which reactions came. *)
Theorem reaction_toggled_twice acc emoji (at1 at2 : Time) (m : Message.t) :
  reactions_normal (Message.Reactions m) ->
  TrimSpace acc <> "" -> TrimSpace emoji <> "" ->
  Forall (fun r => lacks Ascii.zero (MessageReaction.AccountID r)) (Message.Reactions m) ->
  lacks Ascii.zero (TrimSpace acc) ->
  existsb (isReaction (TrimSpace acc) (TrimSpace emoji)) (Message.Reactions m) = false ->
  exists m', ToggleMessageReaction clock acc emoji at1 m = (Ok true, m') /\
    Message.Reactions m' ≡ₚ
      MessageReaction.mk (TrimSpace acc) (TrimSpace emoji) (normalizeRoomTime clock at1)
        :: Message.Reactions m /\
    reactions_normal (Message.Reactions m') /\
    (forall l, l ≡ₚ Message.Reactions m' -> NormalizeMessageReactions l = Ok (Message.Reactions m')) /\
    ToggleMessageReaction clock acc emoji at2 m' = (Ok true, m).
Proof.
  intros Hn Ha He Hl Hla Hex. pose proof (Normalize_id _ Hn) as Hcur.
  destruct (toggle_adds clock acc emoji at1 m _ Hcur Ha He Hl Hla Hex) as (next & Hrun & Hnext & Hp).
  set (r := MessageReaction.mk _ _ _) in Hp. exists (Message.setReactions next m).
  assert (existsb (isReaction (TrimSpace acc) (TrimSpace emoji)) next = true) as Hin.
  { apply existsb_exists. exists r. split; [|by apply isReaction_true].
    apply list_elem_of_In. rewrite Hp. by left. }
  assert (Message.Reactions (Message.setReactions next m) = next) as Hr by (by destruct m).
  destruct (toggle_removes clock acc emoji at2 (Message.setReactions next m) next) as [Hrun' Hn'];
    [by rewrite Hr, Normalize_id|done..|].
  rewrite Hr. split_and!; [done..| |].
  - intros l. by apply Normalize_perm.
  - rewrite Hrun'. f_equal. rewrite setReactions_setReactions.
    assert (List.filter (fun x => negb (isReaction (TrimSpace acc) (TrimSpace emoji) x)) next
            = Message.Reactions m) as ->; [|by destruct m].
    apply (f_equal (fun x => match x with Ok l => l | _ => [] end)
             (x := Ok _) (y := Ok _)).
    rewrite <- (Normalize_id _ Hn'). apply Normalize_perm; [done|].
    apply (filter_perm_out _ r); [done| |].
    + by rewrite (proj2 (isReaction_true _ _ r)).
    + intros y Hy. destruct (isReaction _ _ y) eqn:E; [|done].
      assert (existsb (isReaction (TrimSpace acc) (TrimSpace emoji)) (Message.Reactions m) = true);
        [|congruence].
      apply existsb_exists. exists y. split; [by apply list_elem_of_In|done].
Qed.
End commands.

(** ** The sender of a message *)

Section sender.
Context `{UC : UnicodeCase} (clock : Time).

Lemma pushEvents_named evs (ar : AggregateRoot RoomEventData) :
  Forall (fun ev => EventName ev = event_name (EventData ev)) (events ar) ->
  Forall (fun ev => EventName ev = event_name (EventData ev)) (events (foldl pushEvent ar evs)).
Proof.
  revert ar. induction evs as [|ev evs IH]; intros ar Har; cbn [foldl]; [done|]. apply IH.
  apply Forall_alter; [|done]. apply Forall_app. split; [done|]. by repeat constructor.
Qed.

(** No event has both the name and the payload that are looked for. *)
Lemma sender_not_found a id :
  Forall (fun ev => EventName ev = event_name (EventData ev)) (events (RoomAggregate.root a)) ->
  senderIdentityFromPendingEvents id (PendingOutboxEvents clock a) = mkProjectionSender "" "".
Proof.
  intros Hn. unfold senderIdentityFromPendingEvents.
  set (f := fun ev : PendingRoomOutboxEvent.t => _).
  assert (omap f (PendingOutboxEvents clock a) = []) as ->; [|done].
  unfold PendingOutboxEvents, CloneEvents. induction Hn as [|ev evs Hev _ IH]; [done|].
  cbn [map omap list_omap]. rewrite IH. unfold f. cbn.
  rewrite Hev. destruct (EventData ev); cbn; try case_decide; done.
Qed.

(** The projection event of a message names its sender by the account id,
    and has no address, whatever identity [SendMessage] was given: the
    repository looks for the event of the message under a name under which it
    is never published. *)
Theorem sent_message_loses_its_sender `{JSON (list MessageMention.t)} `{JSON (list MessageReaction.t)}
    `{JSON RoomOutboxPayload} uuid actor (now : Time) (r : Room.t) (l : list RoomMember.t) base a
    params sender outbox a' room everyone last m members receipts deletions at_ :
  room_ok r -> named_members l -> TrimSpace uuid <> "" ->
  RestoreRoomAggregate (Some r) (map Some l) base = Ok a ->
  runCommand clock uuid actor now (CmdSend params sender outbox) a = (Ok true, a') ->
  PendingOutbox.mk EventMessageAggregateProjectionSynced
    (MessageAggregateSync (Some m) members receipts deletions) at_
    ∈ roomOutboxEvents clock a' room everyone last ->
  MessageProjection.MessageSenderName m = TrimSpace (MessageProjection.MessageSenderID m) /\
  MessageProjection.MessageSenderEmail m = "".
Proof.
  intros Hr Hl Hu Ha Hrun Hin. rewrite RestoreRoomAggregate_run in Ha by done. injection Ha as <-.
  pose proof (runCommand_spec clock uuid actor now _ _ (restored_wf _ _ base Hr Hl) Hu
                (CmdSend params sender outbox)) as Hspec.
  unfold obeys in Hspec. rewrite Hrun in Hspec.
  destruct (outcome _ _ _ _ _ _ _) as [[e|]|e|w]; try discriminate Hspec. injection Hspec as ->.
  unfold roomOutboxEvents in Hin. apply elem_of_cons in Hin as [Hin|Hin]; [discriminate Hin|].
  apply elem_of_app in Hin as [Hin|Hin].
  - apply list_elem_of_fmap in Hin as (msg & Heq & _). unfold messageSyncEvent in Heq.
    rewrite sender_not_found in Heq by (by apply pushEvents_named). cbn in Heq.
    injection Heq as -> _ _ _ _. done.
  - by apply list_elem_of_fmap in Hin as (ev & Heq & _).
Qed.
End sender.

(** ** Handlers *)

Section handlers.
Context `{UC : UnicodeCase} {DB : Type} `{Laws : RoomSQLLaws DB}.
Context `{MJ : JSON (list MessageMention.t)} `{RJ : JSON (list MessageReaction.t)}.
Context `{PJ : JSON RoomOutboxPayload}.
Context (now : Time) (editor : string -> Prop).
Implicit Types (db : DB).


(** C38: whatever a handler of rooms or messages returns, its call is a run of
    steps, each of which is a load, a command on what was loaded, or a save in
    a transaction; and the invariant of the tables and the cache is kept. *)
Theorem room_calls_are_steps ctx req db :
  roomsOK db -> request_ok editor db ctx req ->
  rtc (roomStep editor) (mkWorld db [] []) (mkWorld (handle now ctx req db).2 [] []) /\
  roomsOK (handle now ctx req db).2.
Proof.
  intros Hok Hreq. pose proof (handle_steps now editor ctx req db Hok Hreq) as Hsteps.
  split; [exact Hsteps|].
  assert (worldOK editor (mkWorld db [] [])) as Hw by by split.
  apply (roomSteps_goesOn editor _ _ Hw Hsteps).
Qed.

(** C29: however the loads, commands and saves of handlers interleave, a stored
    room keeps its owner, its type, its direct key and the time of its
    creation, and unless it is a group, its name, its description, its pinned
    message and its members: nobody joins or leaves a direct conversation. *)
Theorem conversations_keep_members db w id r :
  roomsOK db -> rtc (roomStep editor) (mkWorld db [] []) w ->
  roomRows (roomTables db) !! id = Some r ->
  exists r', roomRows (roomTables (store w)) !! id = Some r' /\
    Room.OwnerID r' = Room.OwnerID r /\ Room.RoomType r' = Room.RoomType r /\
    Room.DirectKey r' = Room.DirectKey r /\ Room.CreatedAt r' = Room.CreatedAt r /\
    (IsGroup (Some r) = false ->
       Room.Name r' = Room.Name r /\ Room.Description r' = Room.Description r /\
       Room.PinnedMessageID r' = Room.PinnedMessageID r /\
       forall account, is_Some (memberRows (roomTables (store w)) !! (id, account)) <->
                       is_Some (memberRows (roomTables db) !! (id, account))).
Proof.
  intros Hok Hsteps Hr. assert (worldOK editor (mkWorld db [] [])) as Hw by by split.
  destruct (roomSteps_goesOn editor _ _ Hw Hsteps) as [_ [F1 F2 _]]. cbn [store] in F1, F2.
  destruct (F1 _ _ Hr) as (r' & Hr' & Hs). exists r'. split; [done|].
  apply sameRoom_fields in Hs as (_ & H1 & H2 & H3 & H4 & H5). split_and!; [done..|].
  intros Hg. destruct (H5 Hg) as (? & ? & ?). split_and!; [done..|]. apply (F2 id r); [done..|by intros []].
Qed.

(** A stored message keeps its room and its sender, and where its sender
    does not edit or delete it, its text, whatever other accounts do and
    however their handlers interleave: nobody edits or deletes the message of
    another, and no save of a copy that was loaded before brings back an old
    text. [editor] are the accounts that edit or delete. *)
Theorem only_sender_edits db w id m :
  roomsOK db -> rtc (roomStep editor) (mkWorld db [] []) w ->
  messageRows (roomTables db) !! id = Some m ->
  exists m', messageRows (roomTables (store w)) !! id = Some m' /\
    MessageModel.RoomID m' = MessageModel.RoomID m /\ MessageModel.SenderID m' = MessageModel.SenderID m /\
    (~ editor (TrimSpace (MessageModel.SenderID m)) ->
       MessageModel.Message m' = MessageModel.Message m /\
       MessageModel.EditedAt m' = MessageModel.EditedAt m /\
       MessageModel.DeletedForEveryoneAt m' = MessageModel.DeletedForEveryoneAt m).
Proof.
  intros Hok Hsteps Hm. assert (worldOK editor (mkWorld db [] [])) as Hw by by split.
  destruct (roomSteps_goesOn editor _ _ Hw Hsteps) as [_ [_ _ F3]]. cbn [store] in F3.
  destruct (F3 _ _ Hm) as (m' & Hm' & [S1 S2 S3]). by exists m'.
Qed.
End handlers.

(** ** The theorems at concrete inputs *)

Section witnesses.
#[local] Existing Instance caseless_unicode.

(** The outbox holds the kind of a payload, messages no lists. *)
#[local] Instance MentionNames : JSON (list MessageMention.t) := {|
  Marshal _ := Ok "[]"; Unmarshal _ _ := Ok []
|}.
#[local] Instance ReactionNames : JSON (list MessageReaction.t) := {|
  Marshal _ := Ok "[]"; Unmarshal _ _ := Ok []
|}.
#[local] Instance PayloadNames : JSON RoomOutboxPayload := {|
  Marshal d := Ok (match d with DomainPayload d => event_name d | _ => "projection" end);
  Unmarshal _ _ := Err (Errorf "not read back" [])
|}.

(** A group of Alice, who owns it, and Bob; and a message of Bob. *)
Definition team : Room.t := Room.mk "r1" "Team" "" "alice" RoomTypeGroup "" "" 7 7.
Definition alice : RoomMember.t := RoomMember.mk "a1" "r1" "alice" "" "" "" RoomRoleOwner None None 7 7.
Definition bob : RoomMember.t := RoomMember.mk "b1" "r1" "bob" "" "" "" RoomRoleMember None None 7 7.
Definition hello : MessageModel :=
  MessageModel.mk "m1" "r1" "bob" "hello" MessageTypeText "[]" 0 "[]" None None None None None None None None 8.

Definition teamView : RoomView :=
  (mkRoomTables {["r1" := team]} (<[("r1", "alice") := alice]> {[("r1", "bob") := bob]}) {["m1" := hello]} [], ∅).

(** The same people in a direct conversation. *)
Definition direct : Room.t :=
  Room.mk "r1" "Direct chat" "" "alice" RoomTypeDirect "alice:bob" "" 7 7.
Definition directView : RoomView :=
  (mkRoomTables {["r1" := direct]} (<[("r1", "alice") := alice]> {[("r1", "bob") := bob]}) {["m1" := hello]} [], ∅).

Lemma view_ok (r : Room.t) :
  Room.ID r = "r1" ->
  roomsOK (DB := RoomView)
    (mkRoomTables {["r1" := r]} (<[("r1", "alice") := alice]> {[("r1", "bob") := bob]}) {["m1" := hello]} [], ∅).
Proof.
  intros Hr. split; cbn.
  - intros id x [<- <-]%lookup_singleton_Some. split; [done|]. unfold room_ok. rewrite Hr. by split.
  - intros k m [[<- <-]|[_ [<- <-]%lookup_singleton_Some]]%lookup_insert_Some;
      split_and!; try done; rewrite lookup_singleton_eq; eauto.
  - by intros id m [<- <-]%lookup_singleton_Some.
  - intros id x H. by rewrite lookup_empty in H.
Qed.

Lemma team_ok : room_ok team /\ named_members [alice; bob].
Proof.
  split; [by split|]. split; [repeat constructor; discriminate|].
  apply NoDup_cons. split; [by intros ?%list_elem_of_singleton|apply NoDup_singleton].
Qed.

(** Alice renames the group. *)
Lemma room_command_spec_witness :
  exists a e, RestoreRoomAggregate (Some team) (map Some [alice; bob]) 3 = Ok a /\
    commandSpec 9 "u1" "alice" 9 team (memberMapOf [alice; bob]) [alice; bob] (CmdUpdateGroup "Crew" "")
      = Ok (Some e) /\
    Room.Name (effRoom e) = "Crew" /\
    runCommand 9 "u1" "alice" 9 (CmdUpdateGroup "Crew" "") a = (Ok true, performed e a).
Proof.
  destruct team_ok as [Hr Hl].
  exists (restored team [alice; bob] 3). eexists. split; [by apply RestoreRoomAggregate_run|].
  split; [reflexivity|]. split; [reflexivity|].
  eapply (room_command_spec 9 "u1" "alice" 9 team [alice; bob] 3); [done|done|done|].
  by apply RestoreRoomAggregate_run.
Defined.

Lemma reaction_toggled_twice_witness :
  let m := Message.mk "m1" "r1" "bob" "hello" MessageTypeText [] [] false "" "" "" 0 "" "" None None 8 in
  exists m', ToggleMessageReaction 9 "alice" "+1" 5 m = (Ok true, m') /\
    ToggleMessageReaction 9 "alice" "+1" 6 m' = (Ok true, m).
Proof.
  intros m. destruct (reaction_toggled_twice 9 "alice" "+1" 5 6 m) as (m' & H1 & _ & _ & _ & H2).
  - apply reactions_normal_nil.
  - done.
  - done.
  - constructor.
  - refine (proj1 (bool_decide_eq_true _) _). reflexivity.
  - reflexivity.
  - by exists m'.
Defined.

(** Bob sends a message as "Bob". *)
Definition bobSays : RoomCommand :=
  CmdSend (MessageParams.mk "hi" "" [] false "" "" "" 0 "" "") (mkSender "Bob" "bob@example.com")
    (mkOutboxPayload [] false []).

Lemma sent_message_loses_its_sender_witness :
  exists a' m members receipts deletions at_,
    runCommand 9 "u1" "bob" 9 bobSays (restored team [alice; bob] 3) = (Ok true, a') /\
    PendingOutbox.mk EventMessageAggregateProjectionSynced
      (MessageAggregateSync (Some m) members receipts deletions) at_ ∈ roomOutboxEvents 9 a' team [alice; bob] None /\
    MessageProjection.MessageSenderName m = "bob" /\ MessageProjection.MessageSenderEmail m = "".
Proof.
  destruct team_ok as [Hr Hl].
  assert (RestoreRoomAggregate (Some team) (map Some [alice; bob]) 3 = Ok (restored team [alice; bob] 3)) as Ha
    by by apply RestoreRoomAggregate_run.
  destruct (runCommand 9 "u1" "bob" 9 bobSays (restored team [alice; bob] 3)) as [res a'] eqn:Hrun.
  assert (res = Ok true) as ->.
  { change ((res, a').1 = Ok true). rewrite <- Hrun. vm_compute. reflexivity. }
  assert (RoomAggregate.pendingMessages a' =
    [Message.mk "u1" "r1" "bob" "hi" MessageTypeText [] [] false "" "" "" 0 "" "" None None 9]) as Hp.
  { change (RoomAggregate.pendingMessages (@pair (result bool) _ (Ok true) a').2 =
      [Message.mk "u1" "r1" "bob" "hi" MessageTypeText [] [] false "" "" "" 0 "" "" None None 9]).
    rewrite <- Hrun. vm_compute. reflexivity. }
  assert (exists m members receipts deletions at_,
    PendingOutbox.mk EventMessageAggregateProjectionSynced
      (MessageAggregateSync (Some m) members receipts deletions) at_ ∈ roomOutboxEvents 9 a' team [alice; bob] None /\
    TrimSpace (MessageProjection.MessageSenderID m) = "bob") as (m & members & receipts & deletions & at_ & Hin & Hid).
  { unfold roomOutboxEvents. rewrite Hp. unfold messageSyncEvent, buildMessageAggregateProjectionSyncEvent.
    cbn [map app]. do 5 eexists. split; [right; left|]. reflexivity. }
  exists a', m, members, receipts, deletions, at_. split; [reflexivity|]. split; [exact Hin|].
  destruct (sent_message_loses_its_sender 9 "u1" "bob" 9 team [alice; bob] 3 _ _ _ _ _ team [alice; bob] None
    _ _ _ _ _ Hr Hl ltac:(done) Ha Hrun Hin) as [H1 H2].
  split; [by rewrite H1|exact H2].
Defined.

Definition asAlice : option Actor := Some (WithActor (mkActor "alice" "" "")).
Definition asBob : option Actor := Some (WithActor (mkActor "bob" "" "")).

(** Alice renames the group. *)
Definition rename : RoomRequest := ReqUpdate "r1" "Crew" "" "u1".


Lemma room_calls_are_steps_witness :
  rtc (roomStep (DB := RoomView) (fun _ => False)) (mkWorld teamView [] [])
    (mkWorld (handle (DB := RoomView) 9 asAlice rename teamView).2 [] []).
Proof.
  refine (proj1 (room_calls_are_steps (DB := RoomView) 9 (fun _ => False) asAlice rename teamView
    (view_ok team eq_refl) _)). cbn. discriminate.
Defined.

(** Alice tries to remove Bob from a direct conversation, and edits his message. *)
Definition expel : RoomRequest := ReqRemove "r1" "bob" "u1".
Definition forge : RoomRequest := ReqEdit "m1" "goodbye".
Definition onlyAlice : string -> Prop := fun id => id = "alice".

Lemma conversations_keep_members_witness :
  let db' := (handle (DB := RoomView) 9 asAlice expel directView).2 in
  exists r', roomRows (roomTables db') !! "r1" = Some r' /\ Room.OwnerID r' = "alice" /\
    is_Some (memberRows (roomTables db') !! ("r1", "bob")).
Proof.
  intros db'.
  assert (rtc (roomStep (DB := RoomView) onlyAlice) (mkWorld directView [] []) (mkWorld db' [] [])) as Hsteps.
  { apply (handle_steps 9 onlyAlice asAlice expel directView (view_ok direct eq_refl)). cbn. discriminate. }
  destruct (conversations_keep_members onlyAlice directView (mkWorld db' [] []) "r1" direct
    (view_ok direct eq_refl) Hsteps eq_refl) as (r' & Hr' & Ho & _ & _ & _ & Hk).
  exists r'. split; [exact Hr'|]. split; [exact Ho|].
  destruct Hk as (_ & _ & _ & Hm); [vm_compute; reflexivity|]. apply Hm. exists bob. reflexivity.
Defined.

Lemma only_sender_edits_witness :
  let db' := (handle (DB := RoomView) 9 asAlice forge teamView).2 in
  exists m', messageRows (roomTables db') !! "m1" = Some m' /\ MessageModel.Message m' = "hello".
Proof.
  intros db'.
  assert (rtc (roomStep (DB := RoomView) onlyAlice) (mkWorld teamView [] []) (mkWorld db' [] [])) as Hsteps.
  { apply (handle_steps 9 onlyAlice asAlice forge teamView (view_ok team eq_refl)). by intros id [= <-]. }
  destruct (only_sender_edits onlyAlice teamView (mkWorld db' [] []) "m1" hello
    (view_ok team eq_refl) Hsteps eq_refl) as (m' & Hm' & _ & _ & Hk).
  exists m'. split; [exact Hm'|]. apply Hk. by vm_compute.
Defined.
End witnesses.
