(* ===== verification/VideoCall.v ===== *)
(** * Video calls (modules/room)

    The session of a call (domain/entity/video_call_session.go) and the service
    that starts, joins, leaves and ends calls
    (application/service/video_call_service.go). The session of a room is one
    key of the cache; the service holds the lock of the room while it reads and
    writes it. The state is that of Redis with the database of the rooms. *)

From stdpp Require Import prelude strings gmap.
From S2P Require Import Prelude GoStrings GoSort Database Event Redis Locks.
From S2P Require Import RoomEntity RoomAggregate RoomProjection RoomStore.

(** ** The session *)

Definition VideoCallStatusActive : string := "active".
Definition VideoCallStatusEnded : string := "ended".

Module VideoCallSession.
Record t := mk {
  SessionID : string;
  RoomID : string;
  Status : string;
  StartedByAccountID : string;
  ParticipantAccountIDs : list string;
  StartedAt : Time;
  UpdatedAt : Time;
  EndedAt : option Time;
  EndedByAccountID : string
}.

Definition setParticipants (ids : list string) (at_ : Time) (s : t) : t :=
  mk (SessionID s) (RoomID s) (Status s) (StartedByAccountID s) ids (StartedAt s) at_ (EndedAt s)
    (EndedByAccountID s).

Definition setEnded (actorID : string) (at_ : Time) (s : t) : t :=
  mk (SessionID s) (RoomID s) VideoCallStatusEnded (StartedByAccountID s) (ParticipantAccountIDs s)
    (StartedAt s) at_ (Some at_) actorID.
End VideoCallSession.
Notation VideoCallSession := VideoCallSession.t.

Section session.
Context (clock : Time).
Implicit Types (s : VideoCallSession).

Definition NewVideoCallSession (sessionID roomID startedByAccountID : string) (now : Time) :
    result VideoCallSession :=
  let sessionID := TrimSpace sessionID in
  let roomID := TrimSpace roomID in
  let startedByAccountID := TrimSpace startedByAccountID in
  if decide (sessionID = "") then Err RoomError.ErrVideoCallSessionIDRequired
  else if decide (roomID = "") then Err RoomError.ErrVideoCallRoomRequired
  else if decide (startedByAccountID = "") then Err RoomError.ErrVideoCallActorRequired
  else
  let now := normalizeRoomTime clock now in
  Ok (VideoCallSession.mk sessionID roomID VideoCallStatusActive startedByAccountID
        [startedByAccountID] now now None "").

Definition IsActive s : bool :=
  bool_decide (VideoCallSession.Status s = VideoCallStatusActive) &&
  bool_decide (VideoCallSession.EndedAt s = None).

Definition HasParticipant s (accountID : string) : bool :=
  let accountID := TrimSpace accountID in
  if decide (accountID = "") then false
  else bool_decide (accountID ∈ VideoCallSession.ParticipantAccountIDs s).

Definition Join (accountID : string) (now : Time) : method VideoCallSession unit :=
  s ← get;
  if negb (IsActive s) then raise RoomError.ErrVideoCallAlreadyEnded
  else
  let accountID := TrimSpace accountID in
  if decide (accountID = "") then raise RoomError.ErrVideoCallActorRequired
  else
  put (VideoCallSession.setParticipants
         (if HasParticipant s accountID then VideoCallSession.ParticipantAccountIDs s
          else VideoCallSession.ParticipantAccountIDs s ++ [accountID])
         (normalizeRoomTime clock now) s).

Definition End_ (actorID : string) (now : Time) : method VideoCallSession unit :=
  s ← get;
  if negb (IsActive s) then raise RoomError.ErrVideoCallAlreadyEnded
  else
  let actorID := TrimSpace actorID in
  if decide (actorID = "") then raise RoomError.ErrVideoCallActorRequired
  else put (VideoCallSession.setEnded actorID (normalizeRoomTime clock now) s).

(** Gives whether the call has ended. *)
Definition Leave (accountID : string) (now : Time) : method VideoCallSession bool :=
  s ← get;
  if negb (IsActive s) then raise RoomError.ErrVideoCallAlreadyEnded
  else
  let accountID := TrimSpace accountID in
  if decide (accountID = "") then raise RoomError.ErrVideoCallActorRequired
  else if negb (HasParticipant s accountID) then raise RoomError.ErrVideoCallParticipantNotFound
  else
  let filtered := filter (fun id => id <> accountID) (VideoCallSession.ParticipantAccountIDs s) in
  put (VideoCallSession.setParticipants filtered (normalizeRoomTime clock now) s);;
  if decide (length filtered = 0%nat) then End_ accountID now;; mret true
  else mret false.
End session.

Definition ValidateVideoCallSignalTarget (targetAccountID : string) : result unit :=
  if decide (TrimSpace targetAccountID = "") then Err RoomError.ErrVideoCallTargetAccountRequired
  else Ok tt.

Definition ValidateVideoCallSignalType (signalType : string) : result unit :=
  if decide (TrimSpace signalType = "") then Err RoomError.ErrVideoCallSignalTypeRequired
  else Ok tt.

(** ** Results and commands *)

Module VideoCallSessionResult.
Record t := mk {
  SessionID : string;
  RoomID : string;
  Status : string;
  StartedByAccountID : string;
  ParticipantAccountIDs : list string;
  StartedAt : string;
  UpdatedAt : string;
  EndedAt : string;
  EndedByAccountID : string
}.
End VideoCallSessionResult.

(** [JoinVideoCallCommand], [LeaveVideoCallCommand] and [EndVideoCallCommand]. *)
Module VideoCallCommand.
Record t := mk { RoomID : string; SessionID : string; ActorID : string }.
End VideoCallCommand.

Module RelaySignalCommand.
Record t := mk {
  RoomID : string;
  SessionID : string;
  ActorID : string;
  TargetAccountID : string;
  SignalType : string;
  SignalPayloadRaw : string
}.
End RelaySignalCommand.

Module VideoCallSignalResult.
Record t := mk {
  SessionID : string;
  RoomID : string;
  SenderAccountID : string;
  TargetAccountID : string;
  SignalType : string;
  SignalPayload : string
}.
End VideoCallSignalResult.

(** ** The service *)

Definition DefaultVideoCallLockOptions : MultiLockOptions.t :=
  withKeyPrefix DefaultMultiLockOptions "room:video_call".

Definition VideoCallSessionTTL : Z := 4 * Hour.

Definition ErrVideoCallActiveSessionAlreadyExists := Sentinel "ErrVideoCallActiveSessionAlreadyExists".

Definition videoCallSessionCacheKey (roomID : string) : string :=
  "room:video_call:" +:+ TrimSpace roomID.

Section store.
Context {W : Type} `{Redis W} `{SJ : JSON VideoCallSession}.

(** The cache store: [Get] gives no session where the key is not there. *)
Definition SessionGet (roomID : string) : method W (option VideoCallSession) := fun w =>
  match CacheGet (videoCallSessionCacheKey roomID) w with
  | (Ok data, w) =>
      (map_err (fun err => Errorf "unmarshal video call session cache: %w" [err])
         (session ← Unmarshal "VideoCallSession" data; Ok (Some session)), w)
  | (Err e, w) => if errors_Is e "redis.Nil" then (Ok None, w) else (Err e, w)
  | (Panic why, w) => (Panic why, w)
  end.

Definition SessionSave (session : VideoCallSession) : method W unit :=
  SetObject (videoCallSessionCacheKey (VideoCallSession.RoomID session)) session VideoCallSessionTTL.

Definition SessionDelete (roomID : string) : method W unit :=
  CacheDelete (videoCallSessionCacheKey roomID).
End store.

Section service.
Context `{UC : UnicodeCase} {W DB : Type} `{Redis W} `{SQL : RoomSQL DB} `{SJ : JSON VideoCallSession}.
Context (locker : option (Lock W)) (formatRFC3339 : Time -> string).

Notation run := (method (W * DB)).

Definition buildVideoCallSessionResult (session : VideoCallSession) : VideoCallSessionResult.t :=
  VideoCallSessionResult.mk (VideoCallSession.SessionID session) (VideoCallSession.RoomID session)
    (VideoCallSession.Status session) (VideoCallSession.StartedByAccountID session)
    (VideoCallSession.ParticipantAccountIDs session)
    (formatRFC3339 (UTC (VideoCallSession.StartedAt session)))
    (formatRFC3339 (UTC (VideoCallSession.UpdatedAt session)))
    (from_option (fun at_ => formatRFC3339 (UTC at_)) "" (VideoCallSession.EndedAt session))
    (VideoCallSession.EndedByAccountID session).

(** The first member with the account of the actor. *)
Fixpoint memberOf (actorID : string) (members : list RoomMember.t) : result RoomMember.t :=
  match members with
  | [] => Err RoomError.ErrRoomMemberRequired
  | member :: members =>
      if decide (TrimSpace (RoomMember.AccountID member) = TrimSpace actorID) then Ok member
      else memberOf actorID members
  end.

Definition requireRoomMember (roomID actorID : string) : method DB RoomMember.t :=
  roomAgg ← LoadRoom (TrimSpace roomID);
  lift (memberOf actorID (Members roomAgg)).

Definition EnsureRoomMember (roomID actorID : string) : run unit :=
  onSecond (requireRoomMember roomID actorID);; mret tt.

Definition requireActiveSession (roomID sessionID : string) : method W VideoCallSession :=
  session ← SessionGet roomID;
  match session with
  | None => raise RoomError.ErrVideoCallAlreadyEnded
  | Some session =>
      if negb (IsActive session) then raise RoomError.ErrVideoCallAlreadyEnded
      else if decide (TrimSpace sessionID <> "" /\
                      TrimSpace (VideoCallSession.SessionID session) <> TrimSpace sessionID) then
        raise (Errorf "video call session mismatch: %s" [])
      else mret session
  end.

Definition withVideoCallRoomLock {A} (lockValue roomID : string) (fn : run A) : run A :=
  WithLocks (lockFirst <$> locker) lockValue [TrimSpace roomID] DefaultVideoCallLockOptions fn.

Definition GetActiveCall (roomID actorID : string) : run (option VideoCallSessionResult.t) :=
  onSecond (requireRoomMember roomID actorID);;
  session ← onFirst (SessionGet roomID);
  mret (session ≫= fun session =>
          if IsActive session then Some (buildVideoCallSessionResult session) else None).

(** [id] is a fresh id, [now] the clock. *)
Definition startCall (id : string) (now : Time) (roomID actorID : string) :
    run VideoCallSessionResult.t :=
  onSecond (requireRoomMember roomID actorID);;
  existing ← onFirst (SessionGet roomID);
  if from_option IsActive false existing then
    raise ErrVideoCallActiveSessionAlreadyExists
  else
  session ← lift (NewVideoCallSession now id (TrimSpace roomID) (TrimSpace actorID) now);
  onFirst (SessionSave session);;
  mret (buildVideoCallSessionResult session).

Definition StartCall (lockValue id : string) (now : Time) (roomID actorID : string) :
    run VideoCallSessionResult.t :=
  withVideoCallRoomLock lockValue roomID (startCall id now roomID actorID).

(** A call of a method of the session that was loaded. *)
Definition onSession {A} (m : method VideoCallSession A) (session : VideoCallSession) :
    run (A * VideoCallSession) :=
  match m session with
  | (Ok a, session) => mret (a, session)
  | (Err e, _) => raise e
  | (Panic why, _) => lift (Panic why)
  end.

Definition joinCall (now : Time) (command : VideoCallCommand.t) : run VideoCallSessionResult.t :=
  let '(VideoCallCommand.mk roomID sessionID actorID) := command in
  onSecond (requireRoomMember roomID actorID);;
  session ← onFirst (requireActiveSession roomID sessionID);
  '(_, session) ← onSession (Join now actorID now) session;
  onFirst (SessionSave session);;
  mret (buildVideoCallSessionResult session).

Definition JoinCall (lockValue : string) (now : Time) (command : VideoCallCommand.t) :
    run VideoCallSessionResult.t :=
  withVideoCallRoomLock lockValue (VideoCallCommand.RoomID command) (joinCall now command).

Definition leaveCall (now : Time) (command : VideoCallCommand.t) : run VideoCallSessionResult.t :=
  let '(VideoCallCommand.mk roomID sessionID actorID) := command in
  onSecond (requireRoomMember roomID actorID);;
  session ← onFirst (requireActiveSession roomID sessionID);
  '(ended, session) ← onSession (Leave now actorID now) session;
  onFirst (if ended : bool then SessionDelete roomID else SessionSave session);;
  mret (buildVideoCallSessionResult session).

Definition LeaveCall (lockValue : string) (now : Time) (command : VideoCallCommand.t) :
    run VideoCallSessionResult.t :=
  withVideoCallRoomLock lockValue (VideoCallCommand.RoomID command) (leaveCall now command).

Definition endCall (now : Time) (command : VideoCallCommand.t) : run VideoCallSessionResult.t :=
  let '(VideoCallCommand.mk roomID sessionID actorID) := command in
  onSecond (requireRoomMember roomID actorID);;
  session ← onFirst (requireActiveSession roomID sessionID);
  if decide (HasParticipant session actorID = false /\
             TrimSpace (VideoCallSession.StartedByAccountID session) <> TrimSpace actorID) then
    raise RoomError.ErrVideoCallParticipantNotFound
  else
  '(_, session) ← onSession (End_ now actorID now) session;
  onFirst (SessionDelete roomID);;
  mret (buildVideoCallSessionResult session).

Definition EndCall (lockValue : string) (now : Time) (command : VideoCallCommand.t) :
    run VideoCallSessionResult.t :=
  withVideoCallRoomLock lockValue (VideoCallCommand.RoomID command) (endCall now command).

(** [cloneRawJSON] copies the payload. *)
Definition RelaySignal (command : RelaySignalCommand.t) : run VideoCallSignalResult.t :=
  let '(RelaySignalCommand.mk roomID sessionID actorID targetID signalType payload) := command in
  onSecond (requireRoomMember roomID actorID);;
  lift (ValidateVideoCallSignalType signalType);;
  lift (ValidateVideoCallSignalTarget targetID);;
  session ← onFirst (requireActiveSession roomID sessionID);
  if negb (HasParticipant session actorID) then raise RoomError.ErrVideoCallParticipantNotFound
  else
  mret (VideoCallSignalResult.mk (VideoCallSession.SessionID session)
          (VideoCallSession.RoomID session) (TrimSpace actorID) (TrimSpace targetID)
          (TrimSpace signalType) payload).
End service.
