(* ===== verification/VideoCallSpec.v ===== *)
(** * Correctness of video calls

    Sessions stay well formed and an ended one stays as it is; a call ends when
    its participants have left; and what becomes of the service when the locks
    and the cache are one Redis. *)

From stdpp Require Import prelude strings gmap relations.
From S2P Require Import Prelude GoStrings GoSort Database Event Redis Locks LocksSpec.
From S2P Require Import RoomEntity RoomAggregate RoomProjection RoomStore RoomTables.
From S2P Require Import VideoCall.

(** ** Sessions *)

Section sessions.
Context (clock : Time).
Implicit Types (s : VideoCallSession).

(** A call on a session. *)
Inductive sessionCall := CallJoin (id : string) | CallLeave (id : string) | CallEnd (id : string).

Definition runCall (c : sessionCall) (now : Time) : method VideoCallSession bool :=
  match c with
  | CallJoin id => Join clock id now;; mret false
  | CallLeave id => Leave clock id now
  | CallEnd id => End_ clock id now;; mret true
  end.

Definition sessionStep s s' : Prop := exists c now, s' = (runCall c now s).2.

Definition active s : Prop :=
  VideoCallSession.Status s = VideoCallStatusActive /\ VideoCallSession.EndedAt s = None.

Definition ended s : Prop :=
  VideoCallSession.Status s = VideoCallStatusEnded /\ is_Some (VideoCallSession.EndedAt s) /\
  VideoCallSession.EndedByAccountID s <> "".

Record session_ok s : Prop := {
  ok_distinct : NoDup (VideoCallSession.ParticipantAccountIDs s);
  ok_named id : id ∈ VideoCallSession.ParticipantAccountIDs s -> trimmed id /\ id <> "";
  ok_status : active s /\ VideoCallSession.ParticipantAccountIDs s <> [] \/ ended s
}.

Lemma IsActive_spec s : IsActive s = true <-> active s.
Proof. unfold IsActive, active. by rewrite andb_true_iff, !bool_decide_eq_true. Qed.

Lemma ended_inactive s : ended s -> IsActive s = false.
Proof.
  intros (Hs & _). unfold IsActive. by rewrite Hs.
Qed.

Lemma HasParticipant_spec s id : TrimSpace id <> "" ->
  HasParticipant s id = bool_decide (TrimSpace id ∈ VideoCallSession.ParticipantAccountIDs s).
Proof. intros H. unfold HasParticipant. by rewrite decide_False. Qed.

Lemma NewVideoCallSession_ok id room starter now s :
  NewVideoCallSession clock id room starter now = Ok s -> session_ok s /\ active s.
Proof.
  unfold NewVideoCallSession. cbv zeta. do 3 (case_decide; [done|]). intros [= <-].
  split; [|done]. split; cbn.
  - by apply NoDup_singleton.
  - intros x ->%list_elem_of_singleton. split; [apply TrimSpace_trimmed|done].
  - by left.
Qed.

Lemma setEnded_ok actor at_ s :
  session_ok s -> actor <> "" -> session_ok (VideoCallSession.setEnded actor at_ s).
Proof.
  intros Hok Ha. split; cbn; [apply Hok|apply Hok|]. right. repeat split; cbn; [by eexists|done].
Qed.

Lemma Join_ok id now s : session_ok s -> session_ok (Join clock id now s).2.
Proof.
  intros Hok. unfold Join. rewrite get_bind_run. destruct (IsActive s) eqn:Ha; [|done]. cbn [negb].
  cbv zeta. case_decide as Hid; [done|]. apply IsActive_spec in Ha.
  rewrite HasParticipant_spec by (by rewrite TrimSpace_idem). rewrite TrimSpace_idem.
  case_bool_decide as Hin; cbn; split; cbn; try apply Hok.
  - apply NoDup_app. split; [apply Hok|]. split; [|apply NoDup_singleton].
    by intros x Hx ->%list_elem_of_singleton.
  - intros x [Hx|Hx]%elem_of_app; [by apply Hok|]. apply list_elem_of_singleton in Hx as ->.
    split; [apply TrimSpace_trimmed|done].
  - left. split; [exact Ha|]. by intros [_ ?]%app_nil.
Qed.

Lemma End_ok id now s : session_ok s -> session_ok (End_ clock id now s).2.
Proof.
  intros Hok. unfold End_. rewrite get_bind_run. destruct (IsActive s); [|done]. cbn [negb]. cbv zeta.
  case_decide; [done|]. by apply setEnded_ok.
Qed.

(** [Leave] by a participant. *)
Lemma Leave_run id now s :
  active s -> TrimSpace id <> "" -> TrimSpace id ∈ VideoCallSession.ParticipantAccountIDs s ->
  let left := filter (fun x => x <> TrimSpace id) (VideoCallSession.ParticipantAccountIDs s) in
  let s' := VideoCallSession.setParticipants left (normalizeRoomTime clock now) s in
  Leave clock id now s =
    if decide (left = []) then
      (Ok true, VideoCallSession.setEnded (TrimSpace id) (normalizeRoomTime clock now) s')
    else (Ok false, s').
Proof.
  intros Ha Hid Hin left s'. unfold Leave. rewrite get_bind_run.
  rewrite (proj2 (IsActive_spec s) Ha). cbn [negb]. cbv zeta. rewrite decide_False by done.
  rewrite HasParticipant_spec by (by rewrite TrimSpace_idem). rewrite TrimSpace_idem.
  rewrite bool_decide_true by done. cbn [negb]. rewrite bind_run. cbn [put]. fold left. fold s'.
  destruct (decide (left = [])) as [He|He].
  - rewrite decide_True by (by rewrite He). rewrite bind_run. unfold End_. rewrite get_bind_run.
    assert (IsActive s' = true) as -> by (by apply IsActive_spec). cbn [negb]. cbv zeta.
    rewrite TrimSpace_idem, decide_False by done. done.
  - rewrite decide_False by (by destruct left). done.
Qed.

Lemma Leave_refused id now s :
  ~ (active s /\ TrimSpace id <> "" /\ TrimSpace id ∈ VideoCallSession.ParticipantAccountIDs s) ->
  exists e, Leave clock id now s = (Err e, s).
Proof.
  intros Hno. unfold Leave. rewrite get_bind_run. destruct (IsActive s) eqn:Ha; [|by eexists].
  cbn [negb]. cbv zeta. case_decide as Hid; [by eexists|].
  rewrite HasParticipant_spec by (by rewrite TrimSpace_idem). rewrite TrimSpace_idem.
  case_bool_decide as Hin; [|by eexists]. destruct Hno. by apply IsActive_spec in Ha.
Qed.

Lemma Leave_ok id now s : session_ok s -> session_ok (Leave clock id now s).2.
Proof.
  intros Hok. destruct (decide (IsActive s = true /\ TrimSpace id <> "" /\
    TrimSpace id ∈ VideoCallSession.ParticipantAccountIDs s)) as [(Ha & Hid & Hin)|Hno].
  - apply IsActive_spec in Ha. rewrite Leave_run by done.
    set (left := filter _ _). assert (session_ok s -> NoDup left /\ forall x, x ∈ left -> trimmed x /\ x <> "") as Hleft.
    { intros Hs. split; [by apply NoDup_filter, Hs|]. intros x [_ Hx]%list_elem_of_filter. by apply Hs. }
    destruct (Hleft Hok) as [Hd Hn]. case_decide as He.
    + split; cbn; [done|done|]. right. repeat split; cbn; [by eexists|done].
    + split; cbn; [done|done|]. by left.
  - destruct (Leave_refused id now s) as [e ->]; [|done]. by rewrite <- IsActive_spec.
Qed.

Lemma runCall_ok c now s : session_ok s -> session_ok (runCall c now s).2.
Proof.
  intros Hok. destruct c as [id|id|id]; cbn [runCall].
  - pose proof (Join_ok id now s Hok). rewrite bind_run. by destruct (Join _ _ _ _) as [[[]|e|w] s'].
  - by apply Leave_ok.
  - pose proof (End_ok id now s Hok). rewrite bind_run. by destruct (End_ _ _ _ _) as [[[]|e|w] s'].
Qed.

(** An ended session refuses every call and stays as it is. *)
Lemma runCall_ended c now s :
  ended s -> runCall c now s = (Err RoomError.ErrVideoCallAlreadyEnded, s).
Proof.
  intros He%ended_inactive. destruct c; cbn [runCall]; unfold Join, Leave, End_;
    unfold mbind, method_bind, get; by rewrite He.
Qed.
End sessions.

(** C22: Sessions are well formed. Whatever calls of [Join], [Leave] and [End]
    are made on a new session, its participants are distinct, trimmed and not
    empty; it is active, has a participant and no end, or it has ended, at a
    time and by somebody. An ended session refuses every call, and stays as it
    is. *)
Theorem session_well_formed clock id room starter now s0 s :
  NewVideoCallSession clock id room starter now = Ok s0 -> rtc (sessionStep clock) s0 s ->
  session_ok s /\
  (ended s -> forall c now',
     runCall clock c now' s = (Err RoomError.ErrVideoCallAlreadyEnded, s)).
Proof.
  intros [Hok _]%NewVideoCallSession_ok Hr. split; [|intros He c now'; by apply runCall_ended].
  induction Hr as [|a b d (c & n & ->) _ IH]; [done|]. by apply IH, runCall_ok.
Qed.

(** ** A call ends when everybody has left *)

(** The outcomes of the participants leaving one after another. *)
Fixpoint leaveAll (clock now : Time) (ids : list string) (s : VideoCallSession) :
    list (result bool) * VideoCallSession :=
  match ids with
  | [] => ([], s)
  | id :: ids =>
      let '(r, s) := Leave clock id now s in
      let '(rs, s) := leaveAll clock now ids s in (r :: rs, s)
  end.

Lemma filter_others (id : string) ids l :
  NoDup (id :: ids) -> l ≡ₚ id :: ids -> filter (fun x => x <> id) l ≡ₚ ids.
Proof.
  intros [Hid Hd]%NoDup_cons Hp. rewrite Hp, filter_cons_False by (intros Hne; by apply Hne).
  clear Hp Hd. induction ids as [|x ids IH]; [done|].
  apply not_elem_of_cons in Hid as [Hne Hid]. rewrite filter_cons_True by done. by rewrite IH.
Qed.

(** A call ends when its participants have left, in whatever order: each of
    them can leave, only the last one is told that the call has ended, and it
    has ended by their account. *)
Theorem everyone_leaves clock now id ids s :
  session_ok s -> active s -> VideoCallSession.ParticipantAccountIDs s ≡ₚ ids ++ [id] ->
  exists s', leaveAll clock now (ids ++ [id]) s = (repeat (Ok false) (length ids) ++ [Ok true], s') /\
    ended s' /\ VideoCallSession.ParticipantAccountIDs s' = [] /\
    VideoCallSession.EndedByAccountID s' = id.
Proof.
  revert s. induction ids as [|x ids IH]; intros s Hok Ha Hp; cbn [app leaveAll] in *.
  - destruct (ok_named _ Hok id) as [Ht Hne]; [rewrite Hp; by left|]. unfold trimmed in Ht.
    pose proof (ok_distinct _ Hok) as Hd. rewrite Hp in Hd.
    pose proof (filter_others _ _ _ Hd Hp) as Hf. apply Permutation_nil_r in Hf.
    rewrite Leave_run; rewrite ?Ht; [|done|done|rewrite Hp; by left]. rewrite decide_True by done.
    eexists. split; [done|]. cbn. rewrite Hf. repeat split; cbn; [by eexists|done].
  - destruct (ok_named _ Hok x) as [Ht Hne]; [rewrite Hp; by left|]. unfold trimmed in Ht.
    pose proof (ok_distinct _ Hok) as Hd. rewrite Hp in Hd.
    pose proof (filter_others _ _ _ Hd Hp) as Hf.
    pose proof (Leave_ok clock x now s Hok) as Hok'.
    assert (x ∈ VideoCallSession.ParticipantAccountIDs s) as Hin by (rewrite Hp; by left).
    pose proof (Leave_run clock x now s Ha) as Hrun. rewrite !Ht in Hrun. specialize (Hrun Hne Hin).
    cbv zeta in Hrun. rewrite decide_False in Hrun.
    2: { intros He. rewrite He in Hf. apply Permutation_nil_l in Hf. by destruct ids. }
    rewrite Hrun in Hok' |- *. cbn [snd] in Hok'.
    destruct (IH _ Hok' Ha Hf) as (s' & -> & Hs'). by exists s'.
Qed.

(** ** One Redis for locks and sessions *)

Section service.
Context `{UC : UnicodeCase} {W DB : Type} `{RedisLaws W} `{SQL : RoomSQL DB} `{SJ : JSON VideoCallSession}.
Context (formatRFC3339 : Time -> string).

(** The lock of a room has the key of its session. *)
Lemma lock_key_is_session_key roomID :
  TrimSpace roomID <> "" ->
  normalizeKeys [TrimSpace roomID] (MultiLockOptions.KeyPrefix DefaultVideoCallLockOptions)
  = [videoCallSessionCacheKey roomID].
Proof. intros Hr. unfold normalizeKeys. cbn. by rewrite decide_False. Qed.

(** While the key of the session holds a value that is no session, no call
    starts. *)
Lemma startCall_blocked id now roomID actorID (w : W) (db : DB) value :
  rdb w !! videoCallSessionCacheKey roomID = Some value ->
  is_ok (Unmarshal "VideoCallSession" value) = false ->
  is_ok (startCall formatRFC3339 id now roomID actorID (w, db)).1 = false.
Proof.
  intros Hk Hbad. unfold startCall. rewrite bind_run. unfold onSecond.
  destruct (requireRoomMember roomID actorID db) as [[m|e|why] db1]; [|done..].
  rewrite bind_run. unfold onFirst, SessionGet, CacheGet, wrap_err.
  pose proof (redisGet_replies _ _ _ Hk) as Hg. unfold replies in Hg.
  destruct (redisGet _ w) as [[data|e|why] w1]; [|destruct Hg as [Hf _]|done].
  - destruct Hg as [-> _]. cbn [map_err].
    by destruct (Unmarshal "VideoCallSession" value) as [session|e|why].
  - cbn [map_err]. cbn. by rewrite (Hf "redis.Nil").
Qed.

Lemma startCall_no_room id now roomID actorID (st : W * DB) :
  TrimSpace roomID = "" -> is_ok (startCall formatRFC3339 id now roomID actorID st).1 = false.
Proof.
  intros Hr. unfold startCall. rewrite bind_run.
  destruct (onSecond _ st) as [[m|e|why] st1]; [|done..].
  rewrite bind_run. destruct (onFirst _ st1) as [[s|e|why] st2]; [|done..].
  destruct (from_option IsActive false s); [done|]. rewrite lift_bind_run.
  unfold NewVideoCallSession. cbv zeta. case_decide; [done|]. rewrite Hr. by rewrite decide_True.
Qed.

Lemma startCall_acquired opts lockValue roomID {A} (fn : method (W * DB) A) (st : W * DB) :
  (forall st1 : W * DB, rdb st1.1 !! videoCallSessionCacheKey roomID = Some lockValue -> is_ok (fn st1).1 = false) ->
  is_ok (holdingKeys (lockFirst NewLock) opts lockValue [videoCallSessionCacheKey roomID] fn st).1 = false.
Proof.
  intros Hfn. unfold holdingKeys. rewrite bind_run. cbn [acquireKeys].
  pose proof (acquire_spec (locker := lockFirst (V := DB) NewLock) (videoCallSessionCacheKey roomID)
    lockValue (MultiLockOptions.Expiration opts)
    (MultiLockOptions.RetryDelay opts) (MultiLockOptions.Timeout opts) st) as Ha.
  destruct (AcquireLock (lockFirst NewLock) _ _ _ _ _ st) as [[[]|e|why] st1]; [|done..].
  destruct Ha as [_ Ha]. cbn [acquireKeys mret method_ret]. unfold defer.
  specialize (Hfn st1). destruct (fn st1) as [r st2].
  assert (is_ok r = false) as Hr by (apply Hfn; cbn in Ha; rewrite Ha; apply lookup_insert_eq).
  by destruct (releaseKeys _ _ _ st2) as [[[]|e|why] st3].
Qed.
End service.

(** No video call can be started while the locks and the cache are the same
    Redis, as the application wires them: the lock of a room and the session of
    its call have the same key, so that under its own lock [StartCall] reads
    the value of the lock as the session, fails to decode it, and returns the
    error. *)
Theorem video_call_never_starts `{UC : UnicodeCase} {W DB : Type} `{RedisLaws W} `{SQL : RoomSQL DB}
    `{SJ : JSON VideoCallSession} format lockValue id now roomID actorID (w : W) (db : DB) :
  is_ok (Unmarshal "VideoCallSession" lockValue) = false ->
  is_ok (StartCall (Some NewLock) format lockValue id now roomID actorID (w, db)).1 = false.
Proof.
  intros Hbad. unfold StartCall, withVideoCallRoomLock, WithLocks. cbn [fmap option_fmap option_map].
  rewrite decide_False by done. destruct (decide (TrimSpace roomID = "")) as [He|Hne].
  - rewrite He. cbn. by apply startCall_no_room.
  - rewrite lock_key_is_session_key by done. rewrite decide_False by done.
    apply startCall_acquired. intros [w1 db1] Hk. by eapply startCall_blocked.
Qed.

(** ** Witnesses *)

Section witnesses.
#[local] Existing Instance caseless_unicode.

Definition callOfAlice : VideoCallSession :=
  VideoCallSession.mk "s1" "r1" VideoCallStatusActive "alice" ["alice"] 5 5 None "".

Lemma session_well_formed_witness :
  session_ok (Join 5 " bob " 6 callOfAlice).2 /\
  VideoCallSession.ParticipantAccountIDs (Join 5 " bob " 6 callOfAlice).2 = ["alice"; "bob"].
Proof.
  split; [|by vm_compute].
  apply (session_well_formed 5 "s1" "r1" "alice" 5 callOfAlice); [by vm_compute|].
  apply rtc_once. exists (CallJoin " bob "), 6. cbn [runCall]. rewrite bind_run.
  by destruct (Join 5 " bob " 6 callOfAlice) as [[[]|e|w] s].
Defined.

Definition callOfThree : VideoCallSession :=
  VideoCallSession.mk "s1" "r1" VideoCallStatusActive "alice" ["alice"; "bob"; "eve"] 5 5 None "".

Lemma everyone_leaves_witness :
  exists s', leaveAll 5 7 ["eve"; "alice"; "bob"] callOfThree
    = ([Ok false; Ok false; Ok true], s') /\ ended s' /\
    VideoCallSession.EndedByAccountID s' = "bob".
Proof.
  destruct (everyone_leaves 5 7 "bob" ["eve"; "alice"] callOfThree) as (s' & H & He & _ & Hb).
  - split; cbn.
    + by apply (bool_decide_unpack _); vm_compute.
    + intros id Hid. repeat (apply elem_of_cons in Hid as [->|Hid]; [by split; vm_compute|]).
      by apply not_elem_of_nil in Hid.
    + left. by split.
  - by split.
  - apply (bool_decide_unpack _). by vm_compute.
  - exists s'. split; [exact H|by split].
Defined.

(** A session is encoded as its id; a fresh id is the encoding of none. *)
#[local] Instance sessionNames : JSON VideoCallSession := {|
  Marshal s := Ok "{}";
  Unmarshal _ s := if decide (s = "{}") then Ok callOfAlice else Err (Errorf "invalid character" [])
|}.
#[local] Instance noMentions : JSON (list MessageMention.t) := {|
  Marshal _ := Ok "[]"; Unmarshal _ _ := Ok []
|}.

(** A group of Alice. *)
Definition aliceRoom : RoomView :=
  (mkRoomTables {["r1" := Room.mk "r1" "Team" "" "alice" RoomTypeGroup "" "" 7 7]}
     {[("r1", "alice") := RoomMember.mk "a1" "r1" "alice" "" "" "" RoomRoleOwner None None 7 7]} ∅ [], ∅).

Definition started (locker : option (Lock MemoryRedis)) : result VideoCallSessionResult.t :=
  (StartCall locker (fun _ => "") "3f-a" "s1" 5 "r1" "alice" (mkMemoryRedis 0 ∅, aliceRoom)).1.

Lemma video_call_never_starts_witness :
  is_ok (started None) = true /\ is_ok (started (Some NewLock)) = false.
Proof.
  split; [by vm_compute|].
  apply (video_call_never_starts (W := MemoryRedis) (fun _ => "") "3f-a" "s1" 5 "r1" "alice"
    (mkMemoryRedis 0 ∅) aliceRoom). by vm_compute.
Defined.
End witnesses.
