(* ===== verification/AccountEntity.v ===== *)
(** * Entities of accounts (modules/account/domain: rules, value_object, entity, aggregate)

    The value objects of an email address and of a password, the account, and
    the two entities with an aggregate of their own that is no event-sourced
    one: the device and the session. [net/mail.ParseAddress] is a parameter. *)

From stdpp Require Import prelude strings gmap.
From S2P Require Import Prelude GoStrings.

(** ** Errors *)

Module AccountError.
Definition ErrAccountIDRequired := Sentinel "ErrAccountIDRequired".
Definition ErrAccountDisplayNameRequired := Sentinel "ErrAccountDisplayNameRequired".
Definition ErrAccountStatusInvalid := Sentinel "ErrAccountStatusInvalid".
Definition ErrAccountAlreadyVerified := Sentinel "ErrAccountAlreadyVerified".
Definition ErrAccountEmailMismatch := Sentinel "ErrAccountEmailMismatch".
Definition ErrAccountPasswordSameAsOldOne := Sentinel "ErrAccountPasswordSameAsOldOne".
Definition ErrAccountAlreadyRegistered := Sentinel "ErrAccountAlreadyRegistered".
Definition ErrAccountNotRegistered := Sentinel "ErrAccountNotRegistered".
Definition ErrAccountNotFound := Sentinel "rules.ErrAccountNotFound".
Definition ErrPasswordRequired := Sentinel "ErrPasswordRequired".
Definition ErrInvalidSession := Sentinel "ErrInvalidSession".
Definition ErrSessionRevoked := Sentinel "ErrSessionRevoked".
Definition ErrSessionExpired := Sentinel "ErrSessionExpired".
Definition ErrInvalidDevice := Sentinel "ErrInvalidDevice".
Definition ErrSessionAggregateNotInitialized := Sentinel "ErrSessionAggregateNotInitialized".
Definition ErrDeviceAggregateNotInitialized := Sentinel "ErrDeviceAggregateNotInitialized".
End AccountError.
Import AccountError.

(** ** Value objects *)

(** [mail.ParseAddress]: the field [Address] of what it parses, or none. *)
Class MailAddress := { ParseAddress : string -> option string }.

Module Email.
Record t := mk { Value : string }.
End Email.
Notation Email := Email.t.

Module HashedPassword.
Record t := mk { Value : string }.
End HashedPassword.
Notation HashedPassword := HashedPassword.t.

Module PlainPassword.
Record t := mk { Value : string }.
End PlainPassword.
Notation PlainPassword := PlainPassword.t.

#[export] Instance Email_eq_dec : EqDecision Email.
Proof. solve_decision. Defined.
#[export] Instance HashedPassword_eq_dec : EqDecision HashedPassword.
Proof. solve_decision. Defined.

Definition NewEmail `{UC : UnicodeCase} `{MA : MailAddress} (value : string) : result Email :=
  let value := TrimSpace value in
  if decide (value = "") then Err (Errorf "email is required" []) else
  match ParseAddress value with
  | None => Err (Errorf "invalid email format" [])
  | Some address =>
      let normalized := ToLower address in
      if decide (254 < Z.of_nat (String.length normalized)) then Err (Errorf "email is too long" [])
      else Ok (Email.mk normalized)
  end.

(** A password is only required not to be blank: it is kept as it is. *)
Definition normalizePasswordValue (value : string) : result string :=
  if decide (TrimSpace value = "") then Err ErrPasswordRequired else Ok value.

Definition NewHashedPassword (value : string) : result HashedPassword :=
  normalized ← normalizePasswordValue value; Ok (HashedPassword.mk normalized).

Definition NewPlainPassword (value : string) : result PlainPassword :=
  normalized ← normalizePasswordValue value; Ok (PlainPassword.mk normalized).

(** ** Rules *)

Definition NormalizeAccountID (id : string) : result string :=
  let normalized := TrimSpace id in
  if decide (normalized = "") then Err ErrAccountIDRequired else Ok normalized.

Definition NormalizeDisplayName (displayName : string) : result string :=
  let normalized := TrimSpace displayName in
  if decide (normalized = "") then Err ErrAccountDisplayNameRequired else Ok normalized.

Definition AccountStatusActive : string := "active".
Definition AccountStatusInactive : string := "inactive".

Definition ParseAccountStatus `{UC : UnicodeCase} (value : string) : result string :=
  let normalized := LowerTrim value in
  if decide (normalized = AccountStatusActive \/ normalized = AccountStatusInactive) then Ok normalized
  else Err (Errorf "status is invalid" []).

Definition NormalizeStatus `{UC : UnicodeCase} (status : string) : result string :=
  match ParseAccountStatus status with
  | Ok parsed => Ok parsed
  | _ => Err ErrAccountStatusInvalid
  end.

Definition NormalizeOptionalString (value : string) : option string :=
  let normalized := TrimSpace value in
  if decide (normalized = "") then None else Some normalized.

Definition EqualOptionalString (left right : option string) : bool :=
  match left, right with
  | None, None => true
  | Some l, Some r => bool_decide (l = r)
  | _, _ => false
  end.

(** ** The account *)

Module Account.
Record t := mk {
  ID : string;
  Email : Email;
  PasswordHash : HashedPassword;
  DisplayName : string;
  Username : option string;
  AvatarObjectKey : option string;
  Status : string;
  EmailVerifiedAt : option Time;
  LastLoginAt : option Time;
  PasswordChangedAt : option Time;
  CreatedAt : Time;
  UpdatedAt : Time;
  BannedReason : string;
  BannedUntil : option Time
}.
End Account.
Notation Account := Account.t.

#[export] Instance Account_eq_dec : EqDecision Account.
Proof. solve_decision. Defined.

Definition NewAccount `{UC : UnicodeCase} (id : string) (email : Email) (passwordHash : HashedPassword)
    (displayName status : string) (now : Time) : result Account :=
  normalizedID ← NormalizeAccountID id;
  normalizedDisplayName ← NormalizeDisplayName displayName;
  normalizedStatus ← NormalizeStatus status;
  Ok (Account.mk normalizedID email passwordHash normalizedDisplayName None None normalizedStatus
        None None None now now "" None).

(** ** Sessions *)

Definition SessionStatusActive : string := "active".
Definition SessionStatusRevoked : string := "revoked".
Definition SessionStatusExpired : string := "expired".

Module Session.
Record t := mk {
  ID : string;
  AccountID : string;
  DeviceID : string;
  RefreshTokenHash : string;
  Status : string;
  IPAddress : option string;
  UserAgent : option string;
  LastActivityAt : option Time;
  ExpiresAt : Time;
  RevokedAt : option Time;
  RevokedReason : option string;
  CreatedAt : Time;
  UpdatedAt : Time
}.
End Session.
Notation Session := Session.t.

#[export] Instance Session_eq_dec : EqDecision Session.
Proof. solve_decision. Defined.

(** [utils.NullableString], and the merge of an optional string with an
    incoming one that replaces it unless it is empty. *)
Definition Nullable (value : string) : option string :=
  if decide (value = "") then None else Some value.
Definition mergeOptionalString (current : option string) (incoming : string) : option string :=
  match Nullable incoming with Some next => Some next | None => current end.

Definition SessionTouch (ipAddress userAgent : string) (now : Time) (s : Session) : Session :=
  Session.mk (Session.ID s) (Session.AccountID s) (Session.DeviceID s) (Session.RefreshTokenHash s)
    (Session.Status s) (mergeOptionalString (Session.IPAddress s) ipAddress)
    (mergeOptionalString (Session.UserAgent s) userAgent) (Some (UTC now)) (Session.ExpiresAt s)
    (Session.RevokedAt s) (Session.RevokedReason s)
    (if IsZero (Session.CreatedAt s) then UTC now else Session.CreatedAt s) (UTC now).

Definition NewSession (id accountID deviceID refreshTokenHash : string) (expiresAt now : Time)
    (ipAddress userAgent : string) : result Session :=
  let id := TrimSpace id in
  let accountID := TrimSpace accountID in
  let deviceID := TrimSpace deviceID in
  let refreshTokenHash := TrimSpace refreshTokenHash in
  if decide (id = "" \/ accountID = "" \/ deviceID = "" \/ refreshTokenHash = "" \/
             IsZero expiresAt = true) then Err ErrInvalidSession
  else
  let normalizedNow := UTC now in
  Ok (SessionTouch ipAddress userAgent normalizedNow
        (Session.mk id accountID deviceID refreshTokenHash SessionStatusActive None None None
           (UTC expiresAt) None None normalizedNow normalizedNow)).

Definition EnsureRefreshAllowed (now : Time) (s : Session) : result unit :=
  if decide (Session.Status s = SessionStatusRevoked) then Err ErrSessionRevoked
  else if decide (Session.Status s = SessionStatusExpired) then Err ErrSessionExpired
  else if decide (Session.ExpiresAt s <= UTC now) then Err ErrSessionExpired
  else Ok tt.

Definition Rotate (refreshTokenHash : string) (expiresAt now : Time) (ipAddress userAgent : string) :
    method Session unit := fun s =>
  let refreshTokenHash := TrimSpace refreshTokenHash in
  if decide (refreshTokenHash = "" \/ IsZero expiresAt = true) then (Err ErrInvalidSession, s)
  else (Ok tt, SessionTouch ipAddress userAgent now
          (Session.mk (Session.ID s) (Session.AccountID s) (Session.DeviceID s) refreshTokenHash
             SessionStatusActive (Session.IPAddress s) (Session.UserAgent s)
             (Session.LastActivityAt s) (UTC expiresAt) None None (Session.CreatedAt s)
             (Session.UpdatedAt s))).

(** [MarkExpired] and [Revoke] tell whether they changed the session. *)
Definition MarkExpired (now : Time) (s : Session) : bool * Session :=
  if decide (Session.Status s = SessionStatusRevoked \/ Session.Status s = SessionStatusExpired) then
    (false, s)
  else if decide (UTC now < Session.ExpiresAt s) then (false, s)
  else (true, Session.mk (Session.ID s) (Session.AccountID s) (Session.DeviceID s)
          (Session.RefreshTokenHash s) SessionStatusExpired (Session.IPAddress s)
          (Session.UserAgent s) (Session.LastActivityAt s) (Session.ExpiresAt s)
          (Session.RevokedAt s) (Session.RevokedReason s) (Session.CreatedAt s) (UTC now)).

Definition Revoke (reason : string) (now : Time) (s : Session) : bool * Session :=
  if decide (Session.Status s = SessionStatusRevoked) then (false, s)
  else (true, Session.mk (Session.ID s) (Session.AccountID s) (Session.DeviceID s)
          (Session.RefreshTokenHash s) SessionStatusRevoked (Session.IPAddress s)
          (Session.UserAgent s) (Session.LastActivityAt s) (Session.ExpiresAt s)
          (Some (UTC now)) (Nullable reason) (Session.CreatedAt s) (UTC now)).

(** ** Devices *)

Definition DeviceTypeWeb : string := "web".
Definition DeviceTypes : list string := [DeviceTypeWeb; "ios"; "android"; "desktop"; "other"].

Module DeviceRegistration.
Record t := mk {
  DeviceUID : string;
  DeviceName : string;
  DeviceType : string;
  OSName : string;
  OSVersion : string;
  AppVersion : string;
  UserAgent : string;
  IPAddress : string
}.
End DeviceRegistration.
Notation DeviceRegistration := DeviceRegistration.t.

Module Device.
Record t := mk {
  ID : string;
  AccountID : string;
  DeviceUID : string;
  DeviceName : option string;
  DeviceType : string;
  OSName : option string;
  OSVersion : option string;
  AppVersion : option string;
  UserAgent : option string;
  LastIPAddress : option string;
  LastSeenAt : option Time;
  IsTrusted : bool;
  CreatedAt : Time;
  UpdatedAt : Time
}.
End Device.
Notation Device := Device.t.

#[export] Instance Device_eq_dec : EqDecision Device.
Proof. solve_decision. Defined.

Section device.
Context `{UC : UnicodeCase}.

Definition normalizeDeviceType (value : string) : result string :=
  let value := LowerTrim value in
  if decide (value = "" \/ value = DeviceTypeWeb) then Ok DeviceTypeWeb
  else if decide (value ∈ DeviceTypes) then Ok value
  else Err ErrInvalidDevice.

Definition currentOrIncomingDeviceType (current incoming : string) : result string :=
  if decide (TrimSpace incoming = "" /\ current <> "") then Ok current
  else normalizeDeviceType incoming.

Definition DeviceTouch (userAgent ipAddress : string) (now : Time) (d : Device) : Device :=
  Device.mk (Device.ID d) (Device.AccountID d) (Device.DeviceUID d) (Device.DeviceName d)
    (Device.DeviceType d) (Device.OSName d) (Device.OSVersion d) (Device.AppVersion d)
    (mergeOptionalString (Device.UserAgent d) userAgent)
    (mergeOptionalString (Device.LastIPAddress d) ipAddress) (Some (UTC now)) (Device.IsTrusted d)
    (if IsZero (Device.CreatedAt d) then UTC now else Device.CreatedAt d) (UTC now).

Definition RefreshRegistration (registration : DeviceRegistration) (now : Time) :
    method Device unit := fun d =>
  let deviceUID := TrimSpace (DeviceRegistration.DeviceUID registration) in
  if decide (deviceUID = "") then (Err ErrInvalidDevice, d)
  else if decide (Device.DeviceUID d <> "" /\ Device.DeviceUID d <> deviceUID) then
    (Err ErrInvalidDevice, d)
  else match currentOrIncomingDeviceType (Device.DeviceType d)
               (DeviceRegistration.DeviceType registration) with
  | Ok deviceType =>
      (Ok tt, DeviceTouch (DeviceRegistration.UserAgent registration)
         (DeviceRegistration.IPAddress registration) now
         (Device.mk (Device.ID d) (Device.AccountID d) deviceUID
            (mergeOptionalString (Device.DeviceName d) (DeviceRegistration.DeviceName registration))
            deviceType
            (mergeOptionalString (Device.OSName d) (DeviceRegistration.OSName registration))
            (mergeOptionalString (Device.OSVersion d) (DeviceRegistration.OSVersion registration))
            (mergeOptionalString (Device.AppVersion d) (DeviceRegistration.AppVersion registration))
            (Device.UserAgent d) (Device.LastIPAddress d) (Device.LastSeenAt d) (Device.IsTrusted d)
            (Device.CreatedAt d) (Device.UpdatedAt d)))
  | Err e => (Err e, d)
  | Panic w => (Panic w, d)
  end.

Definition NewDevice (id accountID : string) (registration : DeviceRegistration) (now : Time) :
    result Device :=
  let id := TrimSpace id in
  let accountID := TrimSpace accountID in
  if decide (id = "" \/ accountID = "") then Err ErrInvalidDevice else
  deviceType ← normalizeDeviceType (DeviceRegistration.DeviceType registration);
  let deviceUID := TrimSpace (DeviceRegistration.DeviceUID registration) in
  if decide (deviceUID = "") then Err ErrInvalidDevice else
  let normalizedNow := UTC now in
  match RefreshRegistration registration normalizedNow
          (Device.mk id accountID deviceUID None deviceType None None None None None None false
             normalizedNow normalizedNow) with
  | (Ok _, device) => Ok device
  | (Err e, _) => Err e
  | (Panic w, _) => Panic w
  end.
End device.

(** ** The aggregates of sessions and devices

    An aggregate holds a pointer to its entity, nil in its zero value. *)

Definition SessionAggregate : Type := option Session.
Definition DeviceAggregate : Type := option Device.

Definition NewSessionAggregate (sessionID : string) : result SessionAggregate :=
  let sessionID := TrimSpace sessionID in
  if decide (sessionID = "") then Err ErrSessionAggregateNotInitialized
  else Ok (Some (Session.mk sessionID "" "" "" "" None None None 0 None None 0 0)).

Definition SessionRestore (snapshot : option Session) : method SessionAggregate unit :=
  match snapshot with
  | None => raise ErrSessionAggregateNotInitialized
  | Some s => put (Some s)
  end.

Definition SessionCreate (accountID deviceID refreshTokenHash : string) (expiresAt now : Time)
    (ipAddress userAgent : string) : method SessionAggregate unit := fun a =>
  match a with
  | None => (Err ErrSessionAggregateNotInitialized, a)
  | Some s =>
      if decide (TrimSpace (Session.ID s) = "") then (Err ErrSessionAggregateNotInitialized, a)
      else match NewSession (Session.ID s) accountID deviceID refreshTokenHash expiresAt now
                   ipAddress userAgent with
      | Ok session => (Ok tt, Some session)
      | Err e => (Err e, a)
      | Panic w => (Panic w, a)
      end
  end.

(** The methods that are those of the session, where there is one. *)
Definition SessionEnsureRefreshAllowed (now : Time) (a : SessionAggregate) : result unit :=
  match a with
  | None => Err ErrSessionAggregateNotInitialized
  | Some s => EnsureRefreshAllowed now s
  end.

Definition SessionRotate (refreshTokenHash : string) (expiresAt now : Time)
    (ipAddress userAgent : string) : method SessionAggregate unit := fun a =>
  match a with
  | None => (Err ErrSessionAggregateNotInitialized, a)
  | Some s => let '(r, s) := Rotate refreshTokenHash expiresAt now ipAddress userAgent s in (r, Some s)
  end.

Definition SessionRevoke (reason : string) (now : Time) : method SessionAggregate bool := fun a =>
  match a with
  | None => (Err ErrSessionAggregateNotInitialized, a)
  | Some s => let '(changed, s) := Revoke reason now s in (Ok changed, Some s)
  end.

Definition SessionMarkExpired (now : Time) (a : SessionAggregate) : bool * SessionAggregate :=
  match a with
  | None => (false, a)
  | Some s => let '(changed, s) := MarkExpired now s in (changed, Some s)
  end.

Definition SessionSnapshot (a : SessionAggregate) : result Session :=
  match a with
  | None => Err ErrSessionAggregateNotInitialized
  | Some s => Ok s
  end.

Definition SessionID (a : SessionAggregate) : string := from_option Session.ID "" a.
Definition SessionDeviceID (a : SessionAggregate) : string := from_option Session.DeviceID "" a.

Definition NewDeviceAggregate (deviceID : string) : result DeviceAggregate :=
  let deviceID := TrimSpace deviceID in
  if decide (deviceID = "") then Err ErrDeviceAggregateNotInitialized
  else Ok (Some (Device.mk deviceID "" "" None "" None None None None None None false 0 0)).

Definition DeviceRestore (snapshot : option Device) : method DeviceAggregate unit :=
  match snapshot with
  | None => raise ErrDeviceAggregateNotInitialized
  | Some d => put (Some d)
  end.

Definition DeviceRegister `{UC : UnicodeCase} (accountID : string) (registration : DeviceRegistration)
    (now : Time) : method DeviceAggregate unit := fun a =>
  match a with
  | None => (Err ErrDeviceAggregateNotInitialized, a)
  | Some d =>
      if decide (TrimSpace (Device.ID d) = "") then (Err ErrDeviceAggregateNotInitialized, a)
      else match NewDevice (Device.ID d) accountID registration now with
      | Ok device => (Ok tt, Some device)
      | Err e => (Err e, a)
      | Panic w => (Panic w, a)
      end
  end.

Definition DeviceRefreshRegistration `{UC : UnicodeCase} (registration : DeviceRegistration)
    (now : Time) : method DeviceAggregate unit := fun a =>
  match a with
  | None => (Err ErrDeviceAggregateNotInitialized, a)
  | Some d => let '(r, d) := RefreshRegistration registration now d in (r, Some d)
  end.

Definition DeviceAggregateTouch (userAgent ipAddress : string) (now : Time) :
    method DeviceAggregate unit := fun a =>
  match a with
  | None => (Err ErrDeviceAggregateNotInitialized, a)
  | Some d => (Ok tt, Some (DeviceTouch userAgent ipAddress now d))
  end.

Definition DeviceSnapshot (a : DeviceAggregate) : result Device :=
  match a with
  | None => Err ErrDeviceAggregateNotInitialized
  | Some d => Ok d
  end.

Definition DeviceID (a : DeviceAggregate) : string := from_option Device.ID "" a.
