(* ===== verification/AccountAggregate.v ===== *)
(** * The account aggregate (modules/account/domain/aggregate)

    The event-sourced aggregate of an account: its state, what each event does
    to it, the commands, and the passage to and from the stored account
    ([Snapshot], [RestoreFromProjection], [MergeProjection]). The fields of the
    struct next to the embedded root are [AccountState]. *)

From stdpp Require Import prelude strings gmap.
From S2P Require Import Prelude GoStrings Event AccountEntity.
Import AccountError.

Definition ErrAccountOccurredAtRequired := Sentinel "ErrAccountOccurredAtRequired".
Definition ErrAccountVerificationTokenRequired := Sentinel "ErrAccountVerificationTokenRequired".

(** ** Events

    Every event also carries the id of the account, which is the id of the
    aggregate that records it. *)

Inductive AccountEventData : Type :=
  | EventAccountCreated (accountID email passwordHash displayName status : string) (createdAt : Time)
  | EventAccountUpdated (accountID email : string) (updatedAt : Time)
  | EventAccountProfileUpdated (accountID displayName : string)
      (username avatarObjectKey : option string) (updatedAt : Time)
  | EventAccountEmailVerificationRequested (accountID email verificationToken : string)
      (requestedAt : Time)
  | EventAccountEmailVerified (accountID : string) (emailVerifiedAt : Time)
  | EventAccountPasswordChanged (accountID passwordHash : string) (passwordChangedAt : Time)
  | EventAccountBanned (accountID banReason : string) (banUntil : option Time)
  | OtherAccountEvent (typeName : string).

Definition accountEventName (d : AccountEventData) : string :=
  match d with
  | EventAccountCreated _ _ _ _ _ _ => "EventAccountCreated"
  | EventAccountUpdated _ _ _ => "EventAccountUpdated"
  | EventAccountProfileUpdated _ _ _ _ _ => "EventAccountProfileUpdated"
  | EventAccountEmailVerificationRequested _ _ _ _ => "EventAccountEmailVerificationRequested"
  | EventAccountEmailVerified _ _ => "EventAccountEmailVerified"
  | EventAccountPasswordChanged _ _ _ => "EventAccountPasswordChanged"
  | EventAccountBanned _ _ _ => "EventAccountBanned"
  | OtherAccountEvent n => n
  end.

#[export] Instance AccountPayload : EventPayload AccountEventData := {|
  payload_nil _ := false;
  event_name := accountEventName
|}.

(** The types that [RegisterEvents] registers. *)
Definition accountEventNames : list string :=
  ["EventAccountCreated"; "EventAccountUpdated"; "EventAccountProfileUpdated";
   "EventAccountEmailVerificationRequested"; "EventAccountEmailVerified";
   "EventAccountPasswordChanged"; "EventAccountBanned"].

(** ** State *)

Module AccountState.
Record t := mk {
  AccountID : string;
  Email : string;
  DisplayName : string;
  Username : option string;
  AvatarObjectKey : option string;
  Status : string;
  PasswordHash : string;
  EmailVerifiedAt : option Time;
  LastEmailVerificationRequested : option Time;
  LastLoginAt : option Time;
  PasswordChangedAt : option Time;
  CreatedAt : Time;
  UpdatedAt : Time;
  BannedReason : string;
  BannedUntil : option Time
}.

Definition zero : t := mk "" "" "" None None "" "" None None None None 0 0 "" None.
End AccountState.
Notation AccountState := AccountState.t.

#[export] Instance AccountState_eq_dec : EqDecision AccountState.
Proof. solve_decision. Defined.

Module AccountAggregate.
Record t := mk { root : AggregateRoot AccountEventData; state : AccountState }.
End AccountAggregate.
Notation AccountAggregate := AccountAggregate.t.

(** ** Transitions *)

Section transitions.
Implicit Types (s : AccountState).

Definition applyAccountCreated (aggregateID email passwordHash displayName status : string)
    (createdAt : Time) s : AccountState :=
  AccountState.mk aggregateID email displayName (AccountState.Username s)
    (AccountState.AvatarObjectKey s) status passwordHash (AccountState.EmailVerifiedAt s)
    (AccountState.LastEmailVerificationRequested s) (AccountState.LastLoginAt s)
    (AccountState.PasswordChangedAt s) createdAt createdAt (AccountState.BannedReason s)
    (AccountState.BannedUntil s).

Definition applyAccountUpdated (email : string) (updatedAt : Time) s : AccountState :=
  AccountState.mk (AccountState.AccountID s) email (AccountState.DisplayName s)
    (AccountState.Username s) (AccountState.AvatarObjectKey s) (AccountState.Status s)
    (AccountState.PasswordHash s) (AccountState.EmailVerifiedAt s)
    (AccountState.LastEmailVerificationRequested s) (AccountState.LastLoginAt s)
    (AccountState.PasswordChangedAt s) (AccountState.CreatedAt s) updatedAt
    (AccountState.BannedReason s) (AccountState.BannedUntil s).

Definition applyAccountProfileUpdated (displayName : string) (username avatarObjectKey : option string)
    (updatedAt : Time) s : AccountState :=
  AccountState.mk (AccountState.AccountID s) (AccountState.Email s) displayName username
    avatarObjectKey (AccountState.Status s) (AccountState.PasswordHash s)
    (AccountState.EmailVerifiedAt s) (AccountState.LastEmailVerificationRequested s)
    (AccountState.LastLoginAt s) (AccountState.PasswordChangedAt s) (AccountState.CreatedAt s)
    updatedAt (AccountState.BannedReason s) (AccountState.BannedUntil s).

Definition applyAccountEmailVerificationRequested (requestedAt : Time) s : AccountState :=
  AccountState.mk (AccountState.AccountID s) (AccountState.Email s) (AccountState.DisplayName s)
    (AccountState.Username s) (AccountState.AvatarObjectKey s) (AccountState.Status s)
    (AccountState.PasswordHash s) (AccountState.EmailVerifiedAt s) (Some requestedAt)
    (AccountState.LastLoginAt s) (AccountState.PasswordChangedAt s) (AccountState.CreatedAt s)
    requestedAt (AccountState.BannedReason s) (AccountState.BannedUntil s).

Definition applyAccountEmailVerified (verifiedAt : Time) s : AccountState :=
  AccountState.mk (AccountState.AccountID s) (AccountState.Email s) (AccountState.DisplayName s)
    (AccountState.Username s) (AccountState.AvatarObjectKey s) (AccountState.Status s)
    (AccountState.PasswordHash s) (Some verifiedAt) (AccountState.LastEmailVerificationRequested s)
    (AccountState.LastLoginAt s) (AccountState.PasswordChangedAt s) (AccountState.CreatedAt s)
    verifiedAt (AccountState.BannedReason s) (AccountState.BannedUntil s).

Definition applyAccountPasswordChanged (passwordHash : string) (changedAt : Time) s : AccountState :=
  AccountState.mk (AccountState.AccountID s) (AccountState.Email s) (AccountState.DisplayName s)
    (AccountState.Username s) (AccountState.AvatarObjectKey s) (AccountState.Status s)
    passwordHash (AccountState.EmailVerifiedAt s) (AccountState.LastEmailVerificationRequested s)
    (AccountState.LastLoginAt s) (Some changedAt) (AccountState.CreatedAt s)
    changedAt (AccountState.BannedReason s) (AccountState.BannedUntil s).

Definition applyAccountBanned (banReason : string) (banUntil : option Time) s : AccountState :=
  AccountState.mk (AccountState.AccountID s) (AccountState.Email s) (AccountState.DisplayName s)
    (AccountState.Username s) (AccountState.AvatarObjectKey s) (AccountState.Status s)
    (AccountState.PasswordHash s) (AccountState.EmailVerifiedAt s)
    (AccountState.LastEmailVerificationRequested s) (AccountState.LastLoginAt s)
    (AccountState.PasswordChangedAt s) (AccountState.CreatedAt s) (AccountState.UpdatedAt s)
    banReason banUntil.

Definition accountTransition (e : Event AccountEventData) : method AccountState unit :=
  match EventData e with
  | EventAccountCreated _ email passwordHash displayName status createdAt =>
      modify (applyAccountCreated (AggregateID e) email passwordHash displayName status createdAt)
  | EventAccountUpdated _ email updatedAt => modify (applyAccountUpdated email updatedAt)
  | EventAccountProfileUpdated _ displayName username avatarObjectKey updatedAt =>
      modify (applyAccountProfileUpdated displayName username avatarObjectKey updatedAt)
  | EventAccountEmailVerificationRequested _ _ _ requestedAt =>
      modify (applyAccountEmailVerificationRequested requestedAt)
  | EventAccountEmailVerified _ verifiedAt => modify (applyAccountEmailVerified verifiedAt)
  | EventAccountPasswordChanged _ passwordHash changedAt =>
      modify (applyAccountPasswordChanged passwordHash changedAt)
  | EventAccountBanned _ banReason banUntil => modify (applyAccountBanned banReason banUntil)
  | OtherAccountEvent _ => raise ErrUnsupportedEventType
  end.
End transitions.

#[export] Program Instance Account_Aggregate : Aggregate AccountAggregate AccountEventData := {|
  Root := AccountAggregate.root;
  setRoot r a := AccountAggregate.mk r (AccountAggregate.state a);
  Transition e a :=
    let '(res, s) := accountTransition e (AccountAggregate.state a) in
    (res, AccountAggregate.mk (AccountAggregate.root a) s)
|}.
Next Obligation. done. Qed.
Next Obligation. by intros []. Qed.
Next Obligation. done. Qed.

#[export] Instance Account_RootFree : RootFree AccountAggregate AccountEventData.
Proof. split. intros e r [r0 s]. cbn. by destruct (accountTransition e s). Qed.

Definition accountAggregateType : string := "AccountAggregate".

Definition NewAccountAggregate (accountID : string) : result AccountAggregate :=
  match InitAggregate accountAggregateType accountID zeroRoot with
  | (Ok _, root) => Ok (AccountAggregate.mk root AccountState.zero)
  | (Err e, _) => Err e
  | (Panic w, _) => Panic w
  end.

(** ** Commands *)

Section commands.
Implicit Types (a : AccountAggregate).

Definition normalizeAccountOccurredAt (value : Time) : result Time :=
  if IsZero value then Err ErrAccountOccurredAtRequired else Ok (UTC value).

Definition IsRegistered a : bool :=
  let s := AccountAggregate.state a in
  bool_decide (AccountState.AccountID s <> "") && negb (IsZero (AccountState.CreatedAt s)).

Definition IsEmailVerified a : bool :=
  bool_decide (AccountState.EmailVerifiedAt (AccountAggregate.state a) <> None).

Definition HasChangePassword a : bool :=
  bool_decide (AccountState.PasswordChangedAt (AccountAggregate.state a) <> None).

Definition AggregateIDOf a : string := aggregateID (Root a).

Definition AccountRegister (email : Email) (passwordHash : HashedPassword) (displayName : string)
    (now : Time) : method AccountAggregate unit :=
  now ← lift (normalizeAccountOccurredAt now);
  a ← get;
  if IsRegistered a then raise ErrAccountAlreadyRegistered else
  normalizedDisplayName ← lift (NormalizeDisplayName displayName);
  ApplyChange (EventAccountCreated (AggregateIDOf a) (Email.Value email)
    (HashedPassword.Value passwordHash) normalizedDisplayName AccountStatusActive now).

(** [uuid] is what [uuid.NewString()] gives for the password hash. *)
Definition OpenRegister (uuid email displayName avatarObjectKey : string) (now : Time) :
    method AccountAggregate unit :=
  now ← lift (normalizeAccountOccurredAt now);
  a ← get;
  if IsRegistered a then raise ErrAccountAlreadyRegistered else
  normalizedDisplayName ← lift (NormalizeDisplayName displayName);
  ApplyChange (EventAccountCreated (AggregateIDOf a) email uuid normalizedDisplayName
    AccountStatusActive now);;
  ApplyChange (EventAccountProfileUpdated (AggregateIDOf a) normalizedDisplayName None
    (Some avatarObjectKey) now);;
  a ← get;
  if IsEmailVerified a then mret tt
  else ApplyChange (EventAccountEmailVerified (AggregateIDOf a) now).

(** A field that is not named in the request keeps its value. *)
Definition incomingOr (current incoming : option string) : option string :=
  match incoming with Some value => NormalizeOptionalString value | None => current end.

Definition UpdateProfile (displayName : string) (username avatarObjectKey : option string)
    (updatedAt : Time) : method AccountAggregate bool :=
  updatedAt ← lift (normalizeAccountOccurredAt updatedAt);
  a ← get;
  if negb (IsRegistered a) then raise ErrAccountNotRegistered else
  normalizedDisplayName ← lift (NormalizeDisplayName displayName);
  let s := AccountAggregate.state a in
  let normalizedUsername := incomingOr (AccountState.Username s) username in
  let normalizedAvatarObjectKey := incomingOr (AccountState.AvatarObjectKey s) avatarObjectKey in
  if bool_decide (AccountState.DisplayName s = normalizedDisplayName) &&
     EqualOptionalString (AccountState.Username s) normalizedUsername &&
     EqualOptionalString (AccountState.AvatarObjectKey s) normalizedAvatarObjectKey
  then mret false else
  ApplyChange (EventAccountProfileUpdated (AggregateIDOf a) normalizedDisplayName
    normalizedUsername normalizedAvatarObjectKey updatedAt);;
  mret true.

Definition EnsureEmailVerificationAllowed a : result unit :=
  if negb (IsRegistered a) then Err ErrAccountNotRegistered
  else if IsEmailVerified a then Err ErrAccountAlreadyVerified
  else Ok tt.

Definition RequestEmailVerification (token : string) (requestedAt : Time) :
    method AccountAggregate unit :=
  requestedAt ← lift (normalizeAccountOccurredAt requestedAt);
  let token := TrimSpace token in
  if decide (token = "") then raise ErrAccountVerificationTokenRequired else
  a ← get;
  lift (EnsureEmailVerificationAllowed a);;
  ApplyChange (EventAccountEmailVerificationRequested (AggregateIDOf a)
    (AccountState.Email (AccountAggregate.state a)) token requestedAt).

Definition ConfirmEmailVerified (email : Email) (verifiedAt : Time) : method AccountAggregate unit :=
  verifiedAt ← lift (normalizeAccountOccurredAt verifiedAt);
  a ← get;
  if negb (IsRegistered a) then raise ErrAccountNotRegistered
  else if IsEmailVerified a then raise ErrAccountAlreadyVerified
  else if decide (AccountState.Email (AccountAggregate.state a) <> Email.Value email) then
    raise ErrAccountEmailMismatch
  else ApplyChange (EventAccountEmailVerified (AggregateIDOf a) verifiedAt).

Definition ChangePassword (passwordHash : HashedPassword) (now : Time) :
    method AccountAggregate bool :=
  now ← lift (normalizeAccountOccurredAt now);
  a ← get;
  if negb (IsRegistered a) then raise ErrAccountNotRegistered
  else if HasChangePassword a &&
          bool_decide (AccountState.PasswordHash (AccountAggregate.state a) =
                       HashedPassword.Value passwordHash) then
    raise ErrAccountPasswordSameAsOldOne
  else
  ApplyChange (EventAccountPasswordChanged (AggregateIDOf a) (HashedPassword.Value passwordHash) now);;
  mret true.
End commands.

(** ** Snapshots *)

Section snapshots.
Context `{UC : UnicodeCase} `{MA : MailAddress}.
Implicit Types (a : AccountAggregate).

Definition Snapshot a : result Account :=
  let s := AccountAggregate.state a in
  email ← NewEmail (AccountState.Email s);
  passwordHash ← NewHashedPassword (AccountState.PasswordHash s);
  status ← NormalizeStatus (AccountState.Status s);
  Ok (Account.mk (AccountState.AccountID s) email passwordHash (AccountState.DisplayName s)
        (AccountState.Username s) (AccountState.AvatarObjectKey s) status
        (AccountState.EmailVerifiedAt s) (AccountState.LastLoginAt s)
        (AccountState.PasswordChangedAt s) (AccountState.CreatedAt s) (AccountState.UpdatedAt s)
        (AccountState.BannedReason s) (AccountState.BannedUntil s)).

(** The time of the last request for a verification is in no snapshot: it
    keeps the value it has. *)
Definition RestoreFromProjection (snapshot : option Account) (version : Z) a : AccountAggregate :=
  match snapshot with
  | None => a
  | Some x =>
      updRoot (SetInternal (Account.ID x) version version)
        (AccountAggregate.mk (AccountAggregate.root a)
           (AccountState.mk (Account.ID x) (Email.Value (Account.Email x)) (Account.DisplayName x)
              (Account.Username x) (Account.AvatarObjectKey x) (Account.Status x)
              (HashedPassword.Value (Account.PasswordHash x)) (Account.EmailVerifiedAt x)
              (AccountState.LastEmailVerificationRequested (AccountAggregate.state a))
              (Account.LastLoginAt x) (Account.PasswordChangedAt x) (Account.CreatedAt x)
              (Account.UpdatedAt x) (Account.BannedReason x) (Account.BannedUntil x)))
  end.

Definition orString (x y : string) : string := if decide (x = "") then y else x.
Definition orTime (x y : Time) : Time := if IsZero x then y else x.
Definition orPtr {A} (x y : option A) : option A := match x with Some v => Some v | None => y end.

(** What the events leave unset is taken from the snapshot; [LastLoginAt],
    which no event sets, always is. *)
Definition MergeProjection (snapshot : option Account) a : AccountAggregate :=
  match snapshot with
  | None => a
  | Some x =>
      let s := AccountAggregate.state a in
      AccountAggregate.mk (AccountAggregate.root a)
        (AccountState.mk (orString (AccountState.AccountID s) (Account.ID x))
           (orString (AccountState.Email s) (Email.Value (Account.Email x)))
           (orString (AccountState.DisplayName s) (Account.DisplayName x))
           (orPtr (AccountState.Username s) (Account.Username x))
           (orPtr (AccountState.AvatarObjectKey s) (Account.AvatarObjectKey x))
           (orString (AccountState.Status s) (Account.Status x))
           (orString (AccountState.PasswordHash s) (HashedPassword.Value (Account.PasswordHash x)))
           (orPtr (AccountState.EmailVerifiedAt s) (Account.EmailVerifiedAt x))
           (AccountState.LastEmailVerificationRequested s)
           (Account.LastLoginAt x)
           (orPtr (AccountState.PasswordChangedAt s) (Account.PasswordChangedAt x))
           (orTime (AccountState.CreatedAt s) (Account.CreatedAt x))
           (orTime (AccountState.UpdatedAt s) (Account.UpdatedAt x))
           (orString (AccountState.BannedReason s) (Account.BannedReason x))
           (orPtr (AccountState.BannedUntil s) (Account.BannedUntil x)))
  end.

Definition CurrentPasswordHash a : result HashedPassword :=
  NewHashedPassword (AccountState.PasswordHash (AccountAggregate.state a)).
End snapshots.
