(* ===== verification/AccountAuth.v ===== *)
(** * Passwords and tokens (core/shared/pkg/hasher, core/shared/infra/xpaseto)

    The hasher, which keeps the salt next to the hash, and the service that
    issues access and refresh tokens. [argon2.IDKey], base64 and the signatures
    of PASETO are parameters, with what the code relies on of them. *)

From stdpp Require Import prelude strings gmap.
From Stdlib Require Import Ascii.
From S2P Require Import Prelude GoStrings Redis AccountEntity.

(** ** Hashing *)

(** [strings.Split] by one byte. *)
Fixpoint Split (sep : ascii) (s : string) : list string :=
  match s with
  | EmptyString => [""]
  | String a rest =>
      if decide (a = sep) then "" :: Split sep rest
      else match Split sep rest with
           | [] => [String a ""]
           | part :: parts => String a part :: parts
           end
  end.

Definition has_byte (c : ascii) (s : string) : bool :=
  existsb (Ascii.eqb c) (String.list_ascii_of_string s).

Class Crypto := {
  (** [argon2.IDKey] of a value and a salt, with time, memory, threads and the
      length of the key. *)
  IDKey : string -> string -> Z -> Z -> Z -> Z -> string;
  (** [base64.RawStdEncoding]. *)
  EncodeToString : string -> string;
  DecodeString : string -> option string
}.

(** The alphabet of base64, and what PASETO adds to it: the one of URLs, and
    the dots between the parts of a token. *)
Definition alnum (c : ascii) : bool := byte_in 48 57 c || byte_in 65 90 c || byte_in 97 122 c.
Definition base64_byte (c : ascii) : bool := alnum c || byte_is 43 c || byte_is 47 c.
Definition token_byte (c : ascii) : bool := alnum c || byte_is 45 c || byte_is 46 c || byte_is 95 c.
Definition all_bytes (f : ascii -> bool) (s : string) : bool :=
  forallb f (String.list_ascii_of_string s).

Class CryptoLaws `{Crypto} := {
  DecodeString_Encode s : DecodeString (EncodeToString s) = Some s;
  EncodeToString_alphabet s : all_bytes base64_byte (EncodeToString s) = true
}.

Module Hasher.
Record t := mk { Salt : string; Time : Z; Memory : Z; Threads : Z; KeyLen : Z }.
End Hasher.
Notation Hasher := Hasher.t.

Section hasher.
Context `{CR : Crypto}.
Implicit Types (h : Hasher).

(** [salt] is what [genSalt] draws when the process starts. *)
Definition newHasher (salt : string) : Hasher := Hasher.mk salt 1 (64 * 1024) 4 32.

Definition keyOf h (value salt : string) : string :=
  IDKey value salt (Hasher.Time h) (Hasher.Memory h) (Hasher.Threads h) (Hasher.KeyLen h).

Definition Hash h (value : string) : result string :=
  Ok (EncodeToString (Hasher.Salt h) +:+ "$" +:+ EncodeToString (keyOf h value (Hasher.Salt h))).

Definition Verify h (val hash : string) : result bool :=
  match Split "$" hash with
  | [encodedSalt; encodedHash] =>
      match DecodeString encodedSalt with
      | None => Err (Errorf "failed to decode salt: %w" [])
      | Some salt =>
          match DecodeString encodedHash with
          | None => Err (Errorf "failed to decode hash: %w" [])
          | Some expectedHash =>
              let computedHash := keyOf h val salt in
              if decide (String.length computedHash <> String.length expectedHash) then Ok false
              else Ok (bool_decide (computedHash = expectedHash))
          end
      end
  | _ => Err (Errorf "invalid stored hash format" [])
  end.
End hasher.

(** ** Tokens *)

Module JSONToken.
Record t := mk {
  Issuer : string;
  Subject : string;
  IssuedAt : Time;
  Expiration : Time;
  claims : gmap string string
}.
Definition Get (key : string) (tok : t) : string := default "" (claims tok !! key).
Definition Set_ (key value : string) (tok : t) : t :=
  mk (Issuer tok) (Subject tok) (IssuedAt tok) (Expiration tok) (<[key := value]> (claims tok)).
End JSONToken.
Notation JSONToken := JSONToken.t.

(** [paseto.V2]: [Sign] with a private key, [Verify] with a public key.
    [KeyPair] tells which keys belong together. *)
Class PasetoV2 := {
  Sign : string -> JSONToken -> result string;
  VerifyToken : string -> string -> result JSONToken;
  KeyPair : string -> string -> Prop
}.

(** Times are written with a precision of a second. *)
Definition wholeSeconds (t : Time) : Time := t - t `mod` Second.
Definition writtenToken (tok : JSONToken) : JSONToken :=
  JSONToken.mk (JSONToken.Issuer tok) (JSONToken.Subject tok) (wholeSeconds (JSONToken.IssuedAt tok))
    (wholeSeconds (JSONToken.Expiration tok)) (JSONToken.claims tok).

(** A token that was signed verifies with the public key of the pair; a token
    is written in the base64 of URLs after the prefix [v2.public.]. *)
Class PasetoLaws `{PasetoV2} := {
  VerifyToken_Sign priv pub tok s :
    KeyPair priv pub -> Sign priv tok = Ok s -> VerifyToken s pub = Ok (writtenToken tok);
  Sign_alphabet priv tok s : Sign priv tok = Ok s -> all_bytes token_byte s = true
}.

Inductive TokenType : Type := TokenTypeAccess | TokenTypeRefresh.
Definition tokenUse (t : TokenType) : string :=
  match t with TokenTypeAccess => "access" | TokenTypeRefresh => "refresh" end.

Module PasetoPayload.
Record t := mk {
  AccountID : string;
  Email : string;
  SessionID : string;
  DeviceID : string;
  Type_ : TokenType;
  ExpiresAt : Time;
  IssuedAt : Time
}.
End PasetoPayload.
Notation PasetoPayload := PasetoPayload.t.

Module RefreshTokenSubject.
Record t := mk { SessionID : string; DeviceID : string }.
End RefreshTokenSubject.
Notation RefreshTokenSubject := RefreshTokenSubject.t.

Module AuthConfig.
Record t := mk {
  TokenIssuer : string;
  AccessPrivateKey : string;
  AccessPublicKey : string;
  RefreshPrivateKey : string;
  RefreshPublicKey : string;
  AccessTokenTTLSeconds : Z;
  RefreshTokenTTLSeconds : Z
}.
End AuthConfig.

Module PasetoService.
Record t := mk {
  issuer : string;
  accessPublicKey : string;
  accessPrivateKey : string;
  accessTTL : Z;
  refreshPublicKey : string;
  refreshPrivateKey : string;
  refreshTTL : Z
}.
End PasetoService.
Notation PasetoService := PasetoService.t.

Module issuedTokenPair.
Record t := mk {
  accessToken : string;
  accessExpiresAt : Time;
  refreshToken : string;
  refreshExpiresAt : Time
}.
End issuedTokenPair.

(** [ed25519.PrivateKeySize] and [ed25519.PublicKeySize]. *)
Definition PrivateKeySize : nat := 64.
Definition PublicKeySize : nat := 32.

Section tokens.
Context `{PV : PasetoV2}.
(** [base64.StdEncoding.DecodeString], for the keys of the configuration. *)
Context (stdDecode : string -> result string).

Definition NewPaseto (cfg : AuthConfig.t) : result PasetoService :=
  accessPrivateKey ← stdDecode (AuthConfig.AccessPrivateKey cfg);
  accessPublicKey ← stdDecode (AuthConfig.AccessPublicKey cfg);
  refreshPrivateKey ← stdDecode (AuthConfig.RefreshPrivateKey cfg);
  refreshPublicKey ← stdDecode (AuthConfig.RefreshPublicKey cfg);
  if decide (String.length accessPrivateKey <> PrivateKeySize \/
             String.length accessPublicKey <> PublicKeySize \/
             String.length refreshPrivateKey <> PrivateKeySize \/
             String.length refreshPublicKey <> PublicKeySize) then
    Err (Errorf "invalid private key size" [])
  else if decide (AuthConfig.AccessTokenTTLSeconds cfg <= 0) then
    Err (Errorf "access token ttl must be positive" [])
  else if decide (AuthConfig.RefreshTokenTTLSeconds cfg <= 0) then
    Err (Errorf "refresh token ttl must be positive" [])
  else Ok (PasetoService.mk (AuthConfig.TokenIssuer cfg) accessPublicKey accessPrivateKey
             (mul64 (AuthConfig.AccessTokenTTLSeconds cfg) Second) refreshPublicKey refreshPrivateKey
             (mul64 (AuthConfig.RefreshTokenTTLSeconds cfg) Second)).

Section service.
Context (p : PasetoService).

(** [now] is the clock when the token is made, or read. *)
Definition generateToken (now : Time) (account : Account) (tokenType : TokenType)
    (subject : RefreshTokenSubject) : result (string * Time) :=
  let '(exp, privateKey) :=
    match tokenType with
    | TokenTypeAccess => (now + PasetoService.accessTTL p, PasetoService.accessPrivateKey p)
    | TokenTypeRefresh => (now + PasetoService.refreshTTL p, PasetoService.refreshPrivateKey p)
    end in
  let payload :=
    JSONToken.Set_ "token_use" (tokenUse tokenType)
      (JSONToken.Set_ "email" (Email.Value (Account.Email account))
         (JSONToken.mk (PasetoService.issuer p) (Account.ID account) now exp ∅)) in
  payload ← match tokenType with
            | TokenTypeAccess => Ok payload
            | TokenTypeRefresh =>
                if decide (RefreshTokenSubject.SessionID subject = "" \/
                           RefreshTokenSubject.DeviceID subject = "") then
                  Err (Errorf "refresh token subject is incomplete" [])
                else Ok (JSONToken.Set_ "device_id" (RefreshTokenSubject.DeviceID subject)
                           (JSONToken.Set_ "session_id" (RefreshTokenSubject.SessionID subject) payload))
            end;
  token ← Sign privateKey payload;
  Ok (token, exp).

Definition GenerateAccessToken (now : Time) (account : Account) : result (string * Time) :=
  generateToken now account TokenTypeAccess (RefreshTokenSubject.mk "" "").

Definition GenerateRefreshToken (now : Time) (account : Account) (subject : RefreshTokenSubject) :
    result (string * Time) :=
  generateToken now account TokenTypeRefresh subject.

Definition parseToken (now : Time) (token : string) (expectedType : TokenType) :
    result PasetoPayload :=
  let publicKey := match expectedType with
                   | TokenTypeAccess => PasetoService.accessPublicKey p
                   | TokenTypeRefresh => PasetoService.refreshPublicKey p
                   end in
  tok ← VerifyToken token publicKey;
  if decide (JSONToken.Issuer tok <> PasetoService.issuer p) then Err (Errorf "invalid token issuer" [])
  else if decide (JSONToken.Subject tok = "") then Err (Errorf "invalid token subject" [])
  else if decide (IsZero (JSONToken.Expiration tok) = false /\ JSONToken.Expiration tok < now) then
    Err (Errorf "token expired" [])
  else
  let use := JSONToken.Get "token_use" tok in
  if decide (use = "") then Err (Errorf "missing token_use" [])
  else if decide (use <> tokenUse expectedType) then Err (Errorf "invalid token type" [])
  else
  let sessionID := JSONToken.Get "session_id" tok in
  let deviceID := JSONToken.Get "device_id" tok in
  match expectedType with
  | TokenTypeRefresh =>
      if decide (sessionID = "" \/ deviceID = "") then Err (Errorf "missing refresh token subject" [])
      else Ok tt
  | TokenTypeAccess => Ok tt
  end;;
  Ok (PasetoPayload.mk (JSONToken.Subject tok) (JSONToken.Get "email" tok) sessionID deviceID
        expectedType (JSONToken.Expiration tok) (JSONToken.IssuedAt tok)).

Definition ParseAccessToken (now : Time) (token : string) : result PasetoPayload :=
  parseToken now token TokenTypeAccess.
Definition ParseRefreshToken (now : Time) (token : string) : result PasetoPayload :=
  parseToken now token TokenTypeRefresh.
End service.

(** ** The pair of tokens (application/command/token_pair.go)

    The two tokens are made in goroutines of their own, at the time [now]; the
    error is that of the one that fails first, here the access token where
    both do. *)

Definition issueAccountTokenPair (p : PasetoService) (now : Time) (account : Account)
    (subject : RefreshTokenSubject) : result issuedTokenPair.t :=
  if decide (Account.ID account = "") then Err (Errorf "account snapshot is required" []) else
  '(accessToken, accessExpiresAt) ←
     map_err (fun e => Errorf "generate access token failed: %w" [e]) (GenerateAccessToken p now account);
  '(refreshToken, refreshExpiresAt) ←
     map_err (fun e => Errorf "generate refresh token failed: %w" [e])
       (GenerateRefreshToken p now account subject);
  Ok (issuedTokenPair.mk accessToken accessExpiresAt refreshToken refreshExpiresAt).
End tokens.

(** ** What the hasher and the tokens promise *)

Lemma has_byte_cons c a s : has_byte c (String a s) = false -> a <> c /\ has_byte c s = false.
Proof.
  unfold has_byte. cbn. intros [Ha Hs]%orb_false_iff. split; [|done].
  intros ->. by rewrite Ascii.eqb_refl in Ha.
Qed.

Lemma Split_no_sep c s : has_byte c s = false -> Split c s = [s].
Proof.
  induction s as [|a s IH]; [done|]. intros [Ha Hs]%has_byte_cons. cbn [Split].
  by rewrite decide_False, IH.
Qed.

Lemma Split_app c s t : has_byte c s = false -> Split c (s +:+ String c t) = s :: Split c t.
Proof.
  induction s as [|a s IH]; intros H.
  - change ("" +:+ String c t) with (String c t). cbn [Split]. by rewrite decide_True.
  - apply has_byte_cons in H as [Ha Hs]. change (String a s +:+ String c t) with (String a (s +:+ String c t)).
    cbn [Split]. by rewrite decide_False, IH.
Qed.

(** A string of visible ASCII is trimmed; neither alphabet has a dollar sign. *)
Definition visible (s : string) : bool := all_bytes (byte_in 33 126) s.

Lemma visible_narrow c : byte_in 33 126 c = true ->
  space1 c = false /\ (forall a, space2 c a = false /\ space2 a c = false) /\
  (forall a b, space3 c a b = false /\ space3 a b c = false).
Proof.
  intros H. destruct c as [[] [] [] [] [] [] [] []]; try discriminate H; cbn;
    (split; [done|]); split; intros; split; unfold space2, space3; cbn; by rewrite ?andb_false_r.
Qed.

Lemma visible_width (sp2 : ascii -> ascii -> bool) sp3 l :
  (forall a b, byte_in 33 126 a = true -> sp2 a b = false) ->
  (forall a b c, byte_in 33 126 a = true -> sp3 a b c = false) ->
  forallb (byte_in 33 126) l = true -> space_width space1 sp2 sp3 l = 0%nat.
Proof.
  intros H2 H3 Hl. destruct l as [|a l]; [done|]. cbn in Hl. apply andb_true_iff in Hl as [Ha _].
  cbn [space_width]. destruct (visible_narrow a Ha) as (-> & _).
  destruct l as [|b l]; [done|]. rewrite H2 by done. destruct l; [done|]. by rewrite H3.
Qed.

Lemma visible_trimmed s : visible s = true -> trimmed s.
Proof.
  unfold visible, all_bytes. intros H. apply trimmed_width. split.
  - apply visible_width; [intros a b Ha|intros a b c Ha|done]; apply (visible_narrow a Ha).
  - apply visible_width; [intros a b Ha|intros a b c Ha|]; try apply (visible_narrow a Ha).
    rewrite forallb_forall in *. intros x Hx. apply H. by apply in_rev in Hx.
Qed.

Lemma all_bytes_app f s t : all_bytes f (s +:+ t) = all_bytes f s && all_bytes f t.
Proof. unfold all_bytes. by rewrite list_ascii_app, forallb_app. Qed.

Lemma all_bytes_weaken (f g : ascii -> bool) s :
  (forall c, f c = true -> g c = true) -> all_bytes f s = true -> all_bytes g s = true.
Proof. unfold all_bytes. rewrite !forallb_forall. auto. Qed.

Lemma base64_visible c : base64_byte c = true -> byte_in 33 126 c = true.
Proof. by destruct c as [[] [] [] [] [] [] [] []]. Qed.
Lemma token_visible c : token_byte c = true -> byte_in 33 126 c = true.
Proof. by destruct c as [[] [] [] [] [] [] [] []]. Qed.

Lemma all_bytes_dollar (f : ascii -> bool) s :
  f "$"%char = false -> all_bytes f s = true -> has_byte "$" s = false.
Proof.
  unfold all_bytes, has_byte. intros Hf. induction (String.list_ascii_of_string s) as [|c l IH]; [done|].
  cbn [forallb existsb]. intros [Hc Hl]%andb_true_iff. rewrite (IH Hl), orb_false_r.
  apply Ascii.eqb_neq. intros <-. congruence.
Qed.

Section laws.
Context `{CR : Crypto} `{CL : !CryptoLaws} `{PV : PasetoV2} `{PL : !PasetoLaws}.
Implicit Types (h : Hasher).

(** A value verifies against a hash exactly when it has the same key: any
    hasher checks the hashes of any other. *)
Lemma Verify_Hash h h' value val hash :
  Hash h value = Ok hash -> Hasher.Time h' = Hasher.Time h -> Hasher.Memory h' = Hasher.Memory h ->
  Hasher.Threads h' = Hasher.Threads h -> Hasher.KeyLen h' = Hasher.KeyLen h ->
  Verify h' val hash = Ok (bool_decide (keyOf h val (Hasher.Salt h) = keyOf h value (Hasher.Salt h))).
Proof using CL.
  intros [= <-] H1 H2 H3 H4. unfold Verify.
  change ("$" +:+ ?t) with (String "$" t).
  assert (forall s, has_byte "$" (EncodeToString s) = false) as Hd
    by (intros s; by apply (all_bytes_dollar base64_byte), EncodeToString_alphabet).
  rewrite Split_app, Split_no_sep by done. rewrite !DecodeString_Encode.
  assert (forall s, keyOf h' val s = keyOf h val s) as Hk by (intros s; unfold keyOf; congruence).
  rewrite Hk. case_decide as Hl; [|done]. rewrite bool_decide_false; [done|].
  intros Hq. apply Hl. by rewrite Hq.
Qed.

Lemma Verify_refl h value hash : Hash h value = Ok hash -> Verify h value hash = Ok true.
Proof using CL. intros H. rewrite (Verify_Hash h h value value hash) by done. by rewrite bool_decide_true. Qed.

Lemma Hash_trimmed h value hash : Hash h value = Ok hash -> TrimSpace hash = hash /\ hash <> "".
Proof using CL.
  intros [= <-]. split.
  - apply visible_trimmed. unfold visible. rewrite !all_bytes_app.
    assert (forall s, all_bytes (byte_in 33 126) (EncodeToString s) = true) as H
      by (intros s; apply (all_bytes_weaken base64_byte); [apply base64_visible|apply EncodeToString_alphabet]).
    by rewrite !H.
  - intros H. apply (f_equal String.length) in H. by destruct (EncodeToString (Hasher.Salt h)).
Qed.

Lemma Sign_token priv tok s : Sign priv tok = Ok s -> TrimSpace s = s /\ has_byte "$" s = false.
Proof using PL.
  intros H%Sign_alphabet. split; [|by apply (all_bytes_dollar token_byte)].
  apply visible_trimmed. apply (all_bytes_weaken token_byte); [apply token_visible|done].
Qed.

(** What has no dollar sign is no hash. *)
Lemma Verify_no_dollar h val hash : has_byte "$" hash = false ->
  Verify h val hash = Err (Errorf "invalid stored hash format" []).
Proof. intros H. unfold Verify. by rewrite Split_no_sep. Qed.

(** A refresh token is read back until it expires. *)
Lemma ParseRefreshToken_Generate (p : PasetoService) now later account subject token exp :
  KeyPair (PasetoService.refreshPrivateKey p) (PasetoService.refreshPublicKey p) ->
  Account.ID account <> "" ->
  GenerateRefreshToken p now account subject = Ok (token, exp) -> later <= wholeSeconds exp ->
  ParseRefreshToken p later token =
    Ok (PasetoPayload.mk (Account.ID account) (Email.Value (Account.Email account))
          (RefreshTokenSubject.SessionID subject) (RefreshTokenSubject.DeviceID subject)
          TokenTypeRefresh (wholeSeconds exp) (wholeSeconds now)) /\
  exp = now + PasetoService.refreshTTL p.
Proof using PL.
  intros Hk Hid Hg Hl. unfold GenerateRefreshToken, generateToken in Hg. cbv beta iota zeta in Hg.
  case_decide as Hs; [discriminate Hg|]. cbn [mbind result_bind] in Hg.
  destruct (Sign _ _) as [tok|e|w] eqn:HS; [|discriminate Hg..]. injection Hg as <- <-.
  split; [|done]. unfold ParseRefreshToken, parseToken.
  rewrite (VerifyToken_Sign _ _ _ _ Hk HS). cbn [mbind result_bind].
  cbn -[wholeSeconds Z.add].
  rewrite decide_False by (intros H; by apply H). rewrite decide_False by done.
  rewrite decide_False by (intros [_ ?]; lia).
  unfold JSONToken.Get. cbn. rewrite !lookup_insert_eq.
  repeat first [rewrite lookup_insert_eq | rewrite lookup_insert_ne by done].
  cbn. string_decide. rewrite decide_False by (intros H; by apply H).
  rewrite decide_False by done. done.
Qed.
End laws.
