(* ===== verification/AccountStore.v ===== *)
(** * The repositories of accounts (modules/account/infra: persistent/repository, cache)

    The account, device and session repositories, and the transaction that they
    share ([repoImpl]): what is to be written to the cache waits for the commit.
    The state is that of the database ([AccountSQL], the statements) and of
    Redis. A repository runs on this state with the list [afterCommit] of its
    [repoImpl]; [inTransaction] is the flag of the same name. *)

From stdpp Require Import prelude strings gmap sorting.
From S2P Require Import Prelude GoStrings Database Event Redis Locks AccountEntity AccountAggregate.

(** ** Rows

    A row of [sessions] has the fields of the entity. *)

Module AccountModel.
Record t := mk {
  ID : string;
  Email : string;
  Password : string;
  DisplayName : string;
  Username : option string;
  AvatarObjectKey : option string;
  Status : string;
  EmailVerifiedAt : option Time;
  LastLoginAt : option Time;
  PasswordChangedAt : option Time;
  BannedReason : string;
  BannedUntil : option Time;
  CreatedAt : Time;
  UpdatedAt : Time
}.
End AccountModel.
Notation AccountModel := AccountModel.t.

Module AccountOutboxRow.
Record t := mk {
  AggregateID : string;
  AggregateType : string;
  Version : Z;
  EventName : string;
  EventData : string;
  CreatedAt : Z
}.
End AccountOutboxRow.
Notation AccountOutboxRow := AccountOutboxRow.t.

Module DeviceModel.
Record t := mk {
  ID : string;
  AccountID : string;
  DeviceUID : string;
  DeviceName : option string;
  DeviceType : string;
  OSName : option string;
  OSVersion : option string;
  AppVersion : option string;
  UserAgent : option string;
  LastIPAddress : option string;
  LastSeenAt : option Time;
  IsTrusted : Z;
  CreatedAt : Time;
  UpdatedAt : Time
}.
End DeviceModel.
Notation DeviceModel := DeviceModel.t.

(** ** Statements *)

Class AccountSQL (W : Type) := {
  (** SELECT FROM account_outbox_events WHERE aggregate_id ORDER BY version, id. *)
  selectAccountEvents : string -> method W (list AccountOutboxRow);
  insertAccountOutbox : AccountOutboxRow -> method W unit;
  selectAccountRow : string -> method W (option AccountModel);
  selectAccountRowByEmail : string -> method W (option AccountModel);
  (** INSERT INTO accounts ON CONFLICT (id) DO UPDATE: all the columns but the
      time of creation. The same for devices and sessions. *)
  upsertAccount : AccountModel -> method W unit;
  (** SELECT FROM devices WHERE account_id AND id. *)
  selectDeviceRow : string -> string -> method W (option DeviceModel);
  upsertDevice : DeviceModel -> method W unit;
  selectSessionRow : string -> method W (option Session);
  upsertSession : Session -> method W unit;
  selectSessionsOf : string -> method W (list Session);
  (** The active accounts that match a query in lower case, by rank; their
      number, and a page of them. *)
  countMatchingAccounts : string -> method W Z;
  selectMatchingAccounts : string -> Z -> Z -> method W (list AccountModel);
  (** [err.Error()]. *)
  accountErrorText : error -> string;
  accountBeginError : W -> option error;
  accountCommitError : W -> option error;
  (** The state when a transaction that began in the first state and reached
      the second is rolled back. *)
  accountRollback : W -> W -> W
}.

Definition ErrAccountEmailAlreadyExists := Sentinel "ErrAccountEmailAlreadyExists".
Definition ErrAccountUsernameAlreadyExists := Sentinel "ErrAccountUsernameAlreadyExists".

(** The registry that [newAccountAggregateSerializer] builds. *)
Definition accountRegister : eventRegister :=
  (RegisterAggregate accountAggregateType accountEventNames NewSerializer).2.

Section models.
Context `{UC : UnicodeCase} `{MA : MailAddress}.

Definition projectionModelToAccount (m : AccountModel) : result Account :=
  email ← NewEmail (AccountModel.Email m);
  passwordHash ← NewHashedPassword (AccountModel.Password m);
  status ← ParseAccountStatus (AccountModel.Status m);
  Ok (Account.mk (AccountModel.ID m) email passwordHash (AccountModel.DisplayName m)
        (AccountModel.Username m) (AccountModel.AvatarObjectKey m) status
        (AccountModel.EmailVerifiedAt m) (AccountModel.LastLoginAt m)
        (AccountModel.PasswordChangedAt m) (AccountModel.CreatedAt m) (AccountModel.UpdatedAt m)
        (AccountModel.BannedReason m) (AccountModel.BannedUntil m)).

Definition accountToProjectionModel (e : Account) : AccountModel :=
  AccountModel.mk (Account.ID e) (Email.Value (Account.Email e))
    (HashedPassword.Value (Account.PasswordHash e)) (Account.DisplayName e) (Account.Username e)
    (Account.AvatarObjectKey e) (Account.Status e) (Account.EmailVerifiedAt e)
    (Account.LastLoginAt e) (Account.PasswordChangedAt e) (Account.BannedReason e)
    (Account.BannedUntil e) (Account.CreatedAt e) (Account.UpdatedAt e).

(** [toEntity] and [toModel] of devices. *)
Definition deviceOfModel (m : DeviceModel) : Device :=
  Device.mk (DeviceModel.ID m) (DeviceModel.AccountID m) (DeviceModel.DeviceUID m)
    (DeviceModel.DeviceName m) (DeviceModel.DeviceType m) (DeviceModel.OSName m)
    (DeviceModel.OSVersion m) (DeviceModel.AppVersion m) (DeviceModel.UserAgent m)
    (DeviceModel.LastIPAddress m) (DeviceModel.LastSeenAt m)
    (bool_decide (DeviceModel.IsTrusted m = 1)) (DeviceModel.CreatedAt m) (DeviceModel.UpdatedAt m).

Definition modelOfDevice (d : Device) : DeviceModel :=
  DeviceModel.mk (Device.ID d) (Device.AccountID d) (Device.DeviceUID d) (Device.DeviceName d)
    (Device.DeviceType d) (Device.OSName d) (Device.OSVersion d) (Device.AppVersion d)
    (Device.UserAgent d) (Device.LastIPAddress d) (Device.LastSeenAt d)
    (if Device.IsTrusted d then 1 else 0) (Device.CreatedAt d) (Device.UpdatedAt d).

(** [toAggregate] of devices and sessions. *)
Definition deviceAggregateOf (d : Device) : result DeviceAggregate :=
  agg ← NewDeviceAggregate (Device.ID d); (DeviceRestore (Some d) agg).1;; Ok (Some d).
Definition sessionAggregateOf (s : Session) : result SessionAggregate :=
  agg ← NewSessionAggregate (Session.ID s); (SessionRestore (Some s) agg).1;; Ok (Some s).

Definition mapAccountUniqueConstraintError (errText : string) : error :=
  let errMsg := ToLower errText in
  if Contains errMsg "username" then ErrAccountUsernameAlreadyExists
  else if Contains errMsg "email" then ErrAccountEmailAlreadyExists
  else ErrAccountEmailAlreadyExists.
End models.

(** ** Caches *)

Section caches.
Context {W : Type} `{Redis W} `{AJ : JSON Account} `{SJ : JSON Session}.
(** How long an entry lives. *)
Context (cacheTime : Z).

Definition accountCacheKey (id : string) : string := "account:" +:+ id.
Definition accountEmailCacheKey (email : string) : string := "account:email:" +:+ email.
Definition sessionCacheKey (sessionID : string) : string := "account:session:" +:+ sessionID.

(** The three reads: an entry that is not there is no error. *)
Definition cacheGetObject {A} `{JSON A} (typeName key : string) : method W (option A) := fun w =>
  match CacheGet key w with
  | (Ok data, w) => (map_err (fun e => Errorf "unmarshal cache failed: %w" [e])
                       (x ← Unmarshal typeName data; Ok (Some x)), w)
  | (Err e, w) => if errors_Is e "redis.Nil" then (Ok None, w) else (Err e, w)
  | (Panic why, w) => (Panic why, w)
  end.

Definition cacheSetObject {A} `{JSON A} (key : string) (x : A) : method W unit :=
  data ← lift (map_err (fun e => Errorf "marshal cache failed: %w" [e]) (Marshal x));
  SetWithDuration key data cacheTime.

Definition AccountCacheGet (id : string) : method W (option Account) :=
  cacheGetObject "Account" (accountCacheKey id).
Definition AccountCacheGetByEmail (email : string) : method W (option Account) :=
  cacheGetObject "Account" (accountEmailCacheKey email).
Definition AccountCacheSet (m : Account) : method W unit :=
  cacheSetObject (accountCacheKey (Account.ID m)) m.
Definition AccountCacheSetByEmail (m : Account) : method W unit :=
  cacheSetObject (accountEmailCacheKey (Email.Value (Account.Email m))) m.
Definition AccountCacheDelete (id : string) : method W unit := CacheDelete (accountCacheKey id).
Definition AccountCacheDeleteByEmail (email : string) : method W unit :=
  CacheDelete (accountEmailCacheKey email).

Definition SessionCacheGet (sessionID : string) : method W (option Session) :=
  cacheGetObject "Session" (sessionCacheKey sessionID).
Definition SessionCacheSet (session : Session) : method W unit :=
  cacheSetObject (sessionCacheKey (Session.ID session)) session.
Definition SessionCacheDelete (sessionID : string) : method W unit :=
  CacheDelete (sessionCacheKey sessionID).
End caches.

(** ** Repositories *)

Section repositories.
Context `{UC : UnicodeCase} `{MA : MailAddress} {W : Type}.
Context `{RT : Runtime W} `{RD : Redis W} `{SQL : AccountSQL W}.
Context `{EJ : JSON AccountEventData} `{AJ : JSON Account} `{SJ : JSON Session}.
Context (cacheTime : Z).

(** The hooks of the transaction. *)
Notation hooks := (list (method W unit)).
Notation repo := (method (W * hooks)).

Definition clock : method W Time := fun w => (Ok (now w), w).

Definition runAfterCommit (inTransaction : bool) (fn : method W unit) : repo unit :=
  if inTransaction then fun '(w, hs) => (Ok tt, (w, hs ++ [fn])) else onFirst fn.

Definition flushAfterCommit (hs : hooks) : method W unit := range hs id.

Definition rolledBack {A} (before : W) (res : result A * W) : result A * W :=
  let '(r, w) := res in (r, accountRollback before w).

(** [repoImpl.WithTransaction]: a panic goes on after the rollback. *)
Definition WithAccountTransaction {A} (fn : repo A) : method W A := fun w =>
  match accountBeginError w with
  | Some e => (Err e, w)
  | None =>
      match fn (w, []) with
      | (Ok a, (w', hs)) =>
          match accountCommitError w' with
          | Some e => rolledBack w (Err e, w')
          | None => (flushAfterCommit hs;; mret a) w'
          end
      | (Err e, (w', _)) => rolledBack w (Err e, w')
      | (Panic why, (w', _)) => rolledBack w (Panic why, w')
      end
  end.

(** A call of the repository outside of a transaction: it leaves no hooks. *)
Definition outsideTransaction {A} (m : repo A) : method W A := fun w =>
  let '(r, (w, _)) := m (w, []) in (r, w).

(** *** Accounts *)

Definition accountToDomainEvent (row : AccountOutboxRow) : result (Event AccountEventData) :=
  match TypeOf accountRegister (AccountOutboxRow.AggregateType row) (AccountOutboxRow.EventName row) with
  | None => Err (Errorf "unsupported account event: aggregate_type=%s event_name=%s" [])
  | Some prototype =>
      payload ← Unmarshal prototype (AccountOutboxRow.EventData row);
      Ok (mkEvent 0 (AccountOutboxRow.AggregateID row) (AccountOutboxRow.AggregateType row)
            (AccountOutboxRow.Version row) (AccountOutboxRow.EventName row) payload
            (AccountOutboxRow.CreatedAt row))
  end.

Fixpoint accountToDomainEvents (rows : list AccountOutboxRow) :
    result (list (Event AccountEventData)) :=
  match rows with
  | [] => Ok []
  | row :: rest =>
      evt ← accountToDomainEvent row; evts ← accountToDomainEvents rest; Ok (evt :: evts)
  end.

(** The rows of the outbox, replayed on the aggregate. *)
Definition replayAccount (rows : list AccountOutboxRow) (agg : AccountAggregate) :
    result AccountAggregate :=
  if decide (0 < Z.of_nat (length rows)) then
    evts ← accountToDomainEvents rows;
    match LoadFromHistory evts agg with
    | (Ok _, agg) => Ok agg
    | (Err e, _) => Err e
    | (Panic why, _) => Panic why
    end
  else Ok agg.

Definition loadProjection (accountID : string) : method W Account :=
  m ← First (selectAccountRow accountID); lift (projectionModelToAccount m).

Definition loadProjectionByEmail (email : string) : method W Account :=
  m ← First (selectAccountRowByEmail email); lift (projectionModelToAccount m).

Definition loadAccount (accountID : string) (accountProjection : option Account) :
    method W AccountAggregate :=
  agg ← lift (NewAccountAggregate accountID);
  rows ← selectAccountEvents accountID;
  agg ← lift (replayAccount rows agg);
  accountProjection ← (match accountProjection with
                       | Some p => mret (Some p)
                       | None => nilIfNotFound (loadProjection accountID)
                       end);
  match accountProjection with
  | Some p =>
      mret (if decide (length rows = 0%nat) then RestoreFromProjection (Some p) 0 agg
            else MergeProjection (Some p) agg)
  | None => if decide (length rows = 0%nat) then raise ErrRecordNotFound else mret agg
  end.

Definition LoadAccount (accountID : string) : method W AccountAggregate := loadAccount accountID None.

Definition LoadAccountByEmail (email : string) : method W AccountAggregate :=
  accountProjection ← loadProjectionByEmail email;
  loadAccount (Account.ID accountProjection) (Some accountProjection).

Definition saveProjection (snapshot : Account) : method W unit :=
  wrap_err (fun err =>
    if IsUniqueConstraintError (accountErrorText err) then
      mapAccountUniqueConstraintError (accountErrorText err)
    else Errorf "save account projection failed: %w" [err])
    (upsertAccount (accountToProjectionModel snapshot)).

(** [Append] of the outbox, for an event that the publisher has stamped. *)
Definition AppendAccountOutbox (ev : Event AccountEventData) : method W unit :=
  data ← lift (map_err (fun e => Errorf "marshal account event data failed: %w" [e])
                 (Marshal (EventData ev)));
  at_ ← clock;
  insertAccountOutbox (AccountOutboxRow.mk (AggregateID ev) (AggregateType ev) (Version ev)
    (EventName ev) data (if decide (0 < CreatedAt ev) then CreatedAt ev else Unix at_)).

Definition publishAccountEvents (agg : AccountAggregate) : method W AccountAggregate := fun w =>
  if decide (length (events (Root agg)) = 0%nat) then (Ok agg, w) else
  match PublishAggregate (Some AppendAccountOutbox) (now w) (w, agg) with
  | (Ok _, (w, agg)) => (Ok agg, w)
  | (Err e, (w, _)) => (Err e, w)
  | (Panic why, (w, _)) => (Panic why, w)
  end.

(** [gorm.DB.Transaction], where the repository owns its transaction. *)
Definition ownTransaction {A} (owns : bool) (save : method W A) : method W A := fun w =>
  if negb owns then save w else
  match accountBeginError w with
  | Some e => (Err e, w)
  | None =>
      match save w with
      | (Ok a, w') => match accountCommitError w' with
                      | Some e => rolledBack w (Err e, w')
                      | None => (Ok a, w')
                      end
      | (r, w') => rolledBack w (r, w')
      end
  end.

Definition SaveAccount (inTransaction : bool) (agg : AccountAggregate) : repo AccountAggregate :=
  snapshot ← lift (Snapshot agg);
  agg ← onFirst (ownTransaction (negb inTransaction)
                   (saveProjection snapshot;; publishAccountEvents agg));
  runAfterCommit inTransaction
    (ignoreError (AccountCacheSet cacheTime snapshot);;
     ignoreError (AccountCacheSetByEmail cacheTime snapshot));;
  mret agg.

(** *** Devices *)

Definition GetByAccountAndID (accountID deviceID : string) : method W DeviceAggregate :=
  m ← First (selectDeviceRow accountID deviceID);
  lift (deviceAggregateOf (deviceOfModel m)).

Definition SaveDevice (device : DeviceAggregate) : method W unit :=
  snapshot ← lift (DeviceSnapshot device);
  upsertDevice (modelOfDevice snapshot).

(** *** Sessions *)

Definition LoadSession (inTransaction : bool) (sessionID : string) : repo SessionAggregate :=
  let readFromCache := negb inTransaction in
  cached ← onFirst (if readFromCache then fun w =>
                      match SessionCacheGet sessionID w with
                      | (Err _, w) => (Ok None, w)
                      | r => r
                      end
                    else mret None);
  match cached with
  | Some s => lift (sessionAggregateOf s)
  | None =>
      session ← onFirst (First (selectSessionRow sessionID));
      (if readFromCache then
         runAfterCommit inTransaction (ignoreError (SessionCacheSet cacheTime session))
       else mret tt);;
      lift (sessionAggregateOf session)
  end.

Definition SaveSession (inTransaction : bool) (session : SessionAggregate) : repo unit :=
  snapshot ← lift (SessionSnapshot session);
  onFirst (upsertSession snapshot);;
  runAfterCommit inTransaction (ignoreError (SessionCacheSet cacheTime snapshot)).

Fixpoint sessionAggregatesOf (l : list Session) : result (list SessionAggregate) :=
  match l with
  | [] => Ok []
  | s :: rest => agg ← sessionAggregateOf s; aggs ← sessionAggregatesOf rest; Ok (agg :: aggs)
  end.

Definition ListSessionsByAccountID (accountID : string) : method W (list SessionAggregate) :=
  models ← selectSessionsOf accountID; lift (sessionAggregatesOf models).

(** *** Reading accounts *)

(** A read through the cache; what is read from the database is written to the
    cache. *)
Definition readThrough (cached : method W (option Account)) (select : method W (option AccountModel))
    (warm : Account -> method W unit) (readFromCache inTransaction : bool) : repo Account :=
  c ← onFirst (if readFromCache then fun w =>
                 match cached w with (Err _, w) => (Ok None, w) | r => r end
               else mret None);
  match c with
  | Some account => mret account
  | None =>
      m ← onFirst (First select);
      account ← lift (projectionModelToAccount m);
      (if readFromCache then runAfterCommit inTransaction (ignoreError (warm account)) else mret tt);;
      mret account
  end.

Definition GetAccountByID (readFromCache inTransaction : bool) (id : string) : repo Account :=
  readThrough (AccountCacheGet id) (selectAccountRow id) (AccountCacheSet cacheTime)
    readFromCache inTransaction.

Definition GetAccountByEmail (readFromCache inTransaction : bool) (email : string) : repo Account :=
  readThrough (AccountCacheGetByEmail email) (selectAccountRowByEmail email)
    (AccountCacheSetByEmail cacheTime) readFromCache inTransaction.

Fixpoint accountsOfModels (l : list AccountModel) : result (list Account) :=
  match l with
  | [] => Ok []
  | m :: rest => a ← projectionModelToAccount m; rest ← accountsOfModels rest; Ok (a :: rest)
  end.

(** The page of a search: 20 accounts unless the request asks for up to 50. *)
Definition searchLimit (limit : Z) : Z :=
  let limit := if decide (limit <= 0) then 20 else limit in
  if decide (50 < limit) then 50 else limit.
Definition searchOffset (offset : Z) : Z := if decide (offset < 0) then 0 else offset.

(** [searchRepository], the index, where there is one. *)
Definition SearchUsers (searchRepository : option (string -> Z -> Z -> method W (list Account * Z)))
    (q : string) (limit offset : Z) : method W (list Account * Z) :=
  let q := TrimSpace q in
  match searchRepository with
  | Some search => search q limit offset
  | None =>
      let q := ToLower q in
      if decide (q = "") then mret ([], 0) else
      total ← countMatchingAccounts q;
      if decide (total = 0) then mret ([], 0) else
      models ← selectMatchingAccounts q (searchOffset offset) (searchLimit limit);
      accounts ← lift (accountsOfModels models);
      mret (accounts, total)
  end.
End repositories.

(** * The tables of accounts

    What the repositories of accounts rely on of the database
    ([AccountSQLLaws], over the contents [AccountTables]): the keys and the
    unique constraints of the migrations, the foreign keys of sessions and
    devices, and the triggers that stamp [updated_at]. Redis keeps apart from
    the tables. *)

(** ** Contents *)

Record AccountTables := mkAccountTables {
  accountRows : gmap string AccountModel;
  deviceRows : gmap string DeviceModel;
  sessionRows : gmap string Session;
  accountOutbox : list AccountOutboxRow
}.

Definition setAccountRow (m : AccountModel) (t : AccountTables) : AccountTables :=
  mkAccountTables (<[AccountModel.ID m := m]> (accountRows t)) (deviceRows t) (sessionRows t)
    (accountOutbox t).
Definition setDeviceRow (m : DeviceModel) (t : AccountTables) : AccountTables :=
  mkAccountTables (accountRows t) (<[DeviceModel.ID m := m]> (deviceRows t)) (sessionRows t)
    (accountOutbox t).
Definition setSessionRow (s : Session) (t : AccountTables) : AccountTables :=
  mkAccountTables (accountRows t) (deviceRows t) (<[Session.ID s := s]> (sessionRows t))
    (accountOutbox t).
Definition addAccountOutbox (row : AccountOutboxRow) (t : AccountTables) : AccountTables :=
  mkAccountTables (accountRows t) (deviceRows t) (sessionRows t) (accountOutbox t ++ [row]).

Definition outboxOf (id : string) (t : AccountTables) : list AccountOutboxRow :=
  filter (fun row => AccountOutboxRow.AggregateID row = id) (accountOutbox t).

(** [updated_at], which a trigger sets when a row is updated. *)
Definition stampAccount (createdAt updatedAt : Time) (m : AccountModel) : AccountModel :=
  AccountModel.mk (AccountModel.ID m) (AccountModel.Email m) (AccountModel.Password m)
    (AccountModel.DisplayName m) (AccountModel.Username m) (AccountModel.AvatarObjectKey m)
    (AccountModel.Status m) (AccountModel.EmailVerifiedAt m) (AccountModel.LastLoginAt m)
    (AccountModel.PasswordChangedAt m) (AccountModel.BannedReason m) (AccountModel.BannedUntil m)
    createdAt updatedAt.
Definition stampDevice (createdAt updatedAt : Time) (m : DeviceModel) : DeviceModel :=
  DeviceModel.mk (DeviceModel.ID m) (DeviceModel.AccountID m) (DeviceModel.DeviceUID m)
    (DeviceModel.DeviceName m) (DeviceModel.DeviceType m) (DeviceModel.OSName m)
    (DeviceModel.OSVersion m) (DeviceModel.AppVersion m) (DeviceModel.UserAgent m)
    (DeviceModel.LastIPAddress m) (DeviceModel.LastSeenAt m) (DeviceModel.IsTrusted m)
    createdAt updatedAt.
Definition stampSession (createdAt updatedAt : Time) (s : Session) : Session :=
  Session.mk (Session.ID s) (Session.AccountID s) (Session.DeviceID s) (Session.RefreshTokenHash s)
    (Session.Status s) (Session.IPAddress s) (Session.UserAgent s) (Session.LastActivityAt s)
    (Session.ExpiresAt s) (Session.RevokedAt s) (Session.RevokedReason s) createdAt updatedAt.

(** The row that an upsert leaves: a new row keeps its times, unless they are
    zero; an old one its time of creation. *)
Definition upserted {A} (stamp : Time -> Time -> A -> A) (created updated : A -> Time)
    (old : option A) (x x' : A) : Prop :=
  match old with
  | None => (created x <> 0 -> updated x <> 0 -> x' = x) /\ exists c u, x' = stamp c u x
  | Some o => exists u, x' = stamp (created o) u x
  end.

(** ** What the repositories rely on *)

Class AccountSQLLaws (W : Type) `{RT : Runtime W} `{RD : Redis W} `{SQL : AccountSQL W} := {
  accountTables : W -> AccountTables;
  selectAccountEvents_law id w : effect accountTables (selectAccountEvents id) w (fun rows w' =>
    accountTables w' = accountTables w /\ rows ≡ₚ outboxOf id (accountTables w) /\
    Sorted (fun r r' => AccountOutboxRow.Version r <= AccountOutboxRow.Version r') rows);
  (** The index on (aggregate_id, version) is unique. *)
  insertAccountOutbox_law row w : effect accountTables (insertAccountOutbox row) w (fun _ w' =>
    (forall r, r ∈ outboxOf (AccountOutboxRow.AggregateID row) (accountTables w) ->
       AccountOutboxRow.Version r <> AccountOutboxRow.Version row) /\
    accountTables w' = addAccountOutbox row (accountTables w));
  selectAccountRow_law id w : effect accountTables (selectAccountRow id) w (fun o w' =>
    accountTables w' = accountTables w /\ o = accountRows (accountTables w) !! id);
  selectAccountRowByEmail_law email w :
    effect accountTables (selectAccountRowByEmail email) w (fun o w' =>
      accountTables w' = accountTables w /\
      match o with
      | Some m => accountRows (accountTables w) !! AccountModel.ID m = Some m /\
                  AccountModel.Email m = email
      | None => forall id m, accountRows (accountTables w) !! id = Some m ->
                  AccountModel.Email m <> email
      end);
  upsertAccount_law m w : effect accountTables (upsertAccount m) w (fun _ w' =>
    (forall id m', accountRows (accountTables w) !! id = Some m' -> id <> AccountModel.ID m ->
       AccountModel.Email m' <> AccountModel.Email m) /\
    exists m', upserted stampAccount AccountModel.CreatedAt AccountModel.UpdatedAt
                 (accountRows (accountTables w) !! AccountModel.ID m) m m' /\
      accountTables w' = setAccountRow m' (accountTables w));
  selectDeviceRow_law acc id w : effect accountTables (selectDeviceRow acc id) w (fun o w' =>
    accountTables w' = accountTables w /\
    match o with
    | Some d => deviceRows (accountTables w) !! id = Some d /\ DeviceModel.ID d = id /\
                DeviceModel.AccountID d = acc
    | None => forall d, deviceRows (accountTables w) !! id = Some d -> DeviceModel.AccountID d <> acc
    end);
  (** An account has one device with a UID. *)
  upsertDevice_law d w : effect accountTables (upsertDevice d) w (fun _ w' =>
    (forall id d', deviceRows (accountTables w) !! id = Some d' -> id <> DeviceModel.ID d ->
       DeviceModel.AccountID d' = DeviceModel.AccountID d ->
       DeviceModel.DeviceUID d' <> DeviceModel.DeviceUID d) /\
    exists d', upserted stampDevice DeviceModel.CreatedAt DeviceModel.UpdatedAt
                 (deviceRows (accountTables w) !! DeviceModel.ID d) d d' /\
      accountTables w' = setDeviceRow d' (accountTables w));
  selectSessionRow_law id w : effect accountTables (selectSessionRow id) w (fun o w' =>
    accountTables w' = accountTables w /\ o = sessionRows (accountTables w) !! id);
  (** The hashes are unique, and a session is one of a device of its account. *)
  upsertSession_law s w : effect accountTables (upsertSession s) w (fun _ w' =>
    (forall id s', sessionRows (accountTables w) !! id = Some s' -> id <> Session.ID s ->
       Session.RefreshTokenHash s' <> Session.RefreshTokenHash s) /\
    (exists d, deviceRows (accountTables w) !! Session.DeviceID s = Some d /\
       DeviceModel.AccountID d = Session.AccountID s) /\
    exists s', upserted stampSession Session.CreatedAt Session.UpdatedAt
                 (sessionRows (accountTables w) !! Session.ID s) s s' /\
      accountTables w' = setSessionRow s' (accountTables w));
  selectSessionsOf_law acc w : effect accountTables (selectSessionsOf acc) w (fun l w' =>
    accountTables w' = accountTables w /\
    l ≡ₚ (map_to_list (filter (fun x => Session.AccountID x.2 = acc)
                         (sessionRows (accountTables w)))).*2);
  accountRollback_law before after :
    accountTables (accountRollback before after) = accountTables before;
  (** The commands of Redis do not touch the tables. *)
  redisSet_tables k v ttl w : accountTables (redisSet k v ttl w).2 = accountTables w;
  redisGet_tables k w : accountTables (redisGet k w).2 = accountTables w;
  redisDel_tables k w : accountTables (redisDel k w).2 = accountTables w;
  redisExists_tables k w : accountTables (redisExists k w).2 = accountTables w
}.

(** The rows are under their keys. *)
Definition accounts_keyed (t : AccountTables) : Prop :=
  (forall id m, accountRows t !! id = Some m -> AccountModel.ID m = id) /\
  (forall id d, deviceRows t !! id = Some d -> DeviceModel.ID d = id) /\
  (forall id s, sessionRows t !! id = Some s -> Session.ID s = id).
