(* ===== verification/AccountHandlers.v ===== *)
(** * The account handlers (modules/account/application/command)

    Registration, login with a password and with Google, refresh and logout,
    the password, the profile, and the verification of the email address. The
    ids that [uuid.NewString()] makes are arguments; the clock is that of the
    state. The mailer, the provider of Google and the building of a link are
    parameters. *)

From stdpp Require Import prelude strings gmap.
From S2P Require Import Prelude GoStrings Database Event ActorContext Redis Locks.
From S2P Require Import AccountEntity AccountAggregate AccountAuth AccountStore.

(** ** Errors (errors.go) *)

Module AccountCommand.
Definition ErrInvalidCredentials := Sentinel "ErrInvalidCredentials".
Definition ErrUsernameExists := Sentinel "ErrUsernameExists".
Definition ErrAccountNotFound := Sentinel "command.ErrAccountNotFound".
Definition ErrInvalidCurrentPassword := Sentinel "ErrInvalidCurrentPassword".
Definition ErrInvalidVerificationToken := Sentinel "ErrInvalidVerificationToken".
Definition ErrVerificationTokenInvalid := Sentinel "ErrVerificationTokenInvalid".
Definition ErrRegistrationAccountExists := Sentinel "ErrRegistrationAccountExists".
Definition ErrRefreshTokenInvalid := Sentinel "ErrRefreshTokenInvalid".
Definition ErrRefreshSessionExpired := Sentinel "ErrRefreshSessionExpired".
Definition ErrRefreshSessionRevoked := Sentinel "ErrRefreshSessionRevoked".
End AccountCommand.
Import AccountCommand.

(** ** Requests and responses

    The fields of a device are those of the registration made of them. *)

Module RegisterRequest.
Record t := mk { DisplayName : string; Email : string; Password : string; Device : DeviceRegistration }.
End RegisterRequest.
Module LoginRequest.
Record t := mk { Email : string; Password : string; Device : DeviceRegistration }.
End LoginRequest.
Module RefreshRequest.
Record t := mk { RefreshToken : string; UserAgent : string; IpAddress : string }.
End RefreshRequest.
Module CallbackGoogleRequest.
Record t := mk { Code : string; Device : DeviceRegistration }.
End CallbackGoogleRequest.

(** The responses that carry tokens; times in milliseconds. *)
Module TokenResponse.
Record t := mk {
  AccessToken : string;
  AccessExpiresAt : Z;
  RefreshToken : string;
  RefreshExpiresAt : Z
}.
End TokenResponse.

Definition UnixMilli (t : Time) : Z := t `div` 1000000 - unix_epoch_seconds * 1000.

Definition tokenResponse (pair : issuedTokenPair.t) : TokenResponse.t :=
  TokenResponse.mk (issuedTokenPair.accessToken pair) (UnixMilli (issuedTokenPair.accessExpiresAt pair))
    (issuedTokenPair.refreshToken pair) (UnixMilli (issuedTokenPair.refreshExpiresAt pair)).

(** What a provider tells of a user. *)
Module UserInfo.
Record t := mk { Email : string; Name : string; Picture : string }.
End UserInfo.

(** [provider.AuthProvider]: the exchange of a code for an access token, and
    the user it belongs to. *)
Record AuthProvider (W : Type) := mkAuthProvider {
  Callback : string -> method W string;
  GetUserInfo : string -> method W UserInfo.t
}.
Arguments mkAuthProvider {W} _ _.
Arguments Callback {W} _ _.
Arguments GetUserInfo {W} _ _.

Module EmailVerificationTokenPayload.
Record t := mk { AccountID : string; Email : string; ExpiresAt : Time }.
End EmailVerificationTokenPayload.

(** The data of the template of the email, without what is derived from it. *)
Module VerifyEmailTemplateData.
Record t := mk {
  DisplayName : string;
  Email : string;
  Token : string;
  ExpiresAt : Time;
  VerificationURL : string;
  ExpiresInMinutes : Z
}.
End VerifyEmailTemplateData.

Definition emailVerificationTTL : Z := 15 * 60 * Second.
Definition emailVerificationCacheKey (token : string) : string := "account:verify_email:" +:+ token.

(** What the handlers take of the application context. *)
Module AccountDeps.
Record t (W : Type) := mk {
  hasher : Hasher;
  paseto : PasetoService;
  cacheTime : Z;
  (** [SendTemplate] to an address. *)
  sendTemplate : string -> VerifyEmailTemplateData.t -> method W unit;
  verifyEmailURL : string;
  (** The base with the token as a parameter of its query, where it parses. *)
  setToken : string -> string -> option string;
  googleProvider : option (AuthProvider W)
}.
Arguments mk {W}.
Arguments hasher {W} _.
Arguments paseto {W} _.
Arguments cacheTime {W} _.
Arguments sendTemplate {W} _.
Arguments verifyEmailURL {W} _.
Arguments setToken {W} _.
Arguments googleProvider {W} _.
End AccountDeps.

(** The error [e] where a row is not found, and others wrapped. *)
Definition notFoundAs {S A} (e : error) (format : string) (m : method S A) : method S A :=
  wrap_err (fun err => if errors_Is err "gorm.ErrRecordNotFound" then e else Errorf format [err]) m.

Definition mapRefreshSessionErr (err : error) : error :=
  if errors_Is err "ErrSessionExpired" then ErrRefreshSessionExpired
  else if errors_Is err "ErrSessionRevoked" then ErrRefreshSessionRevoked
  else ErrRefreshTokenInvalid.

(** [EnsurePasswordIsNew] of the domain service. *)
Definition EnsurePasswordIsNew `{CR : Crypto} (h : Hasher) (newPassword : PlainPassword)
    (currentHash : HashedPassword) : result unit :=
  isSame ← Verify h (PlainPassword.Value newPassword) (HashedPassword.Value currentHash);
  if isSame : bool then Err AccountError.ErrAccountPasswordSameAsOldOne else Ok tt.

Section handlers.
Context `{UC : UnicodeCase} `{MA : MailAddress} `{CR : Crypto} `{PV : PasetoV2} {W : Type}.
Context `{RT : Runtime W} `{RD : Redis W} `{SQL : AccountSQL W}.
Context `{EJ : JSON AccountEventData} `{AJ : JSON Account} `{SJ : JSON Session}.
Context `{TJ : JSON EmailVerificationTokenPayload.t}.
Context (deps : AccountDeps.t W).

Notation repo := (method (W * list (method W unit))).
Notation h := (AccountDeps.hasher deps).
Notation saveAccount agg := (SaveAccount (AccountDeps.cacheTime deps) true agg).
Notation saveSession agg := (SaveSession (AccountDeps.cacheTime deps) true agg).

Definition issueTokens (account : Account) (sessionID deviceID : string) : repo issuedTokenPair.t :=
  t ← onFirst clock;
  lift (issueAccountTokenPair (AccountDeps.paseto deps) t account
          (RefreshTokenSubject.mk sessionID deviceID)).

(** ** Registration *)

Definition registerBody (deviceID sessionID : string) (t : Time) (email : Email)
    (passwordHash : HashedPassword) (req : RegisterRequest.t) (accountAgg : AccountAggregate) :
    repo TokenResponse.t :=
  let reg := RegisterRequest.Device req in
  '(_, accountAgg) ← lift (after (AccountRegister email passwordHash (RegisterRequest.DisplayName req) t)
                             accountAgg);
  accountAgg ← wrap_err (fun e => Errorf "save account: %w" [e]) (saveAccount accountAgg);
  deviceAgg ← lift (NewDeviceAggregate deviceID);
  '(_, deviceAgg) ← lift (after (DeviceRegister (AggregateIDOf accountAgg) reg t) deviceAgg);
  wrap_err (fun e => Errorf "save device: %w" [e]) (onFirst (SaveDevice deviceAgg));;
  snapshot ← lift (match Snapshot accountAgg with Ok s => Ok s | _ => Panic "nil pointer dereference" end);
  pair ← issueTokens snapshot sessionID (DeviceID deviceAgg);
  refreshTokenHash ← lift (Hash h (issuedTokenPair.refreshToken pair));
  sessionAgg ← lift (NewSessionAggregate sessionID);
  '(_, sessionAgg) ← lift (after (SessionCreate (AggregateIDOf accountAgg) (DeviceID deviceAgg)
      refreshTokenHash (issuedTokenPair.refreshExpiresAt pair) t (DeviceRegistration.IPAddress reg)
      (DeviceRegistration.UserAgent reg)) sessionAgg);
  wrap_err (fun e => Errorf "save session: %w" [e]) (saveSession sessionAgg);;
  mret (tokenResponse pair).

Definition RegisterHandle (accountID deviceID sessionID : string) (req : RegisterRequest.t) :
    method W TokenResponse.t :=
  t ← clock;
  email ← lift (NewEmail (RegisterRequest.Email req));
  password ← lift (NewPlainPassword (RegisterRequest.Password req));
  hashedPassword ← lift (Hash h (PlainPassword.Value password));
  hashedPasswordVO ← lift (NewHashedPassword hashedPassword);
  accountAgg ← lift (NewAccountAggregate accountID);
  wrap_err (fun e => if errors_Is e "ErrAccountEmailAlreadyExists" then ErrRegistrationAccountExists else e)
    (WithAccountTransaction (registerBody deviceID sessionID t email hashedPasswordVO req accountAgg)).

(** ** Login *)

(** What both logins do with the device: it is looked up with the UID of the
    client for an id. *)
Definition loginDevice (deviceID : string) (t : Time) (snapshot : Account) (reg : DeviceRegistration) :
    repo DeviceAggregate :=
  found ← wrap_err (fun e => Errorf "load device: %w" [e])
            (onFirst (nilIfNotFound
               (GetByAccountAndID (Account.ID snapshot) (DeviceRegistration.DeviceUID reg))));
  '(_, deviceAgg) ←
    match found with
    | None =>
        deviceAgg ← lift (NewDeviceAggregate deviceID);
        lift (after (DeviceRegister (Account.ID snapshot) reg t) deviceAgg)
    | Some deviceAgg => lift (after (DeviceRefreshRegistration reg t) deviceAgg)
    end;
  wrap_err (fun e => Errorf "save device: %w" [e]) (onFirst (SaveDevice deviceAgg));;
  mret deviceAgg.

Definition loginBody (deviceID sessionID : string) (t : Time) (snapshot : Account)
    (reg : DeviceRegistration) : repo TokenResponse.t :=
  deviceAgg ← loginDevice deviceID t snapshot reg;
  pair ← issueTokens snapshot sessionID (DeviceID deviceAgg);
  refreshTokenHash ← lift (Hash h (issuedTokenPair.refreshToken pair));
  sessionAgg ← lift (NewSessionAggregate sessionID);
  '(_, sessionAgg) ← lift (after (SessionCreate (Account.ID snapshot) (DeviceID deviceAgg)
      refreshTokenHash (issuedTokenPair.refreshExpiresAt pair) t (DeviceRegistration.IPAddress reg)
      (DeviceRegistration.UserAgent reg)) sessionAgg);
  wrap_err (fun e => Errorf "save session: %w" [e]) (saveSession sessionAgg);;
  mret (tokenResponse pair).

Definition LoginHandle (deviceID sessionID : string) (req : LoginRequest.t) :
    method W TokenResponse.t :=
  t ← clock;
  email ← lift (NewEmail (LoginRequest.Email req));
  password ← lift (NewPlainPassword (LoginRequest.Password req));
  accountAgg ← notFoundAs ErrAccountNotFound "load account aggregate by email failed: %w"
                 (LoadAccountByEmail (Email.Value email));
  currentHash ← lift (CurrentPasswordHash accountAgg);
  valid ← lift (Verify h (PlainPassword.Value password) (HashedPassword.Value currentHash));
  if negb valid then raise ErrInvalidCredentials else
  snapshot ← lift (Snapshot accountAgg);
  WithAccountTransaction (loginBody deviceID sessionID t snapshot (LoginRequest.Device req)).

(** *** Login with Google *)

Definition googleAccount (accountID passwordUUID : string) (t : Time) (email : Email)
    (userInfo : UserInfo.t) : repo AccountAggregate :=
  found ← wrap_err (fun e => Errorf "load account aggregate by email: %w" [e])
            (onFirst (nilIfNotFound (LoadAccountByEmail (Email.Value email))));
  match found with
  | None =>
      accountAgg ← lift (NewAccountAggregate accountID);
      let displayName := if decide (UserInfo.Name userInfo = "") then UserInfo.Email userInfo
                         else UserInfo.Name userInfo in
      '(_, accountAgg) ← lift (after (OpenRegister passwordUUID (Email.Value email) displayName
                                        (UserInfo.Picture userInfo) t) accountAgg);
      wrap_err (fun e => Errorf "save account: %w" [e]) (saveAccount accountAgg)
  | Some accountAgg =>
      if IsEmailVerified accountAgg then mret accountAgg
      else
        '(_, accountAgg) ← lift (after (ConfirmEmailVerified email t) accountAgg);
        wrap_err (fun e => Errorf "save account: %w" [e]) (saveAccount accountAgg)
  end.

(** The session holds the token itself. *)
Definition callbackGoogleBody (accountID passwordUUID deviceID sessionID : string) (t : Time)
    (email : Email) (userInfo : UserInfo.t) (reg : DeviceRegistration) : repo TokenResponse.t :=
  accountAgg ← googleAccount accountID passwordUUID t email userInfo;
  snapshot ← lift (Snapshot accountAgg);
  deviceAgg ← loginDevice deviceID t snapshot reg;
  pair ← issueTokens snapshot sessionID (DeviceID deviceAgg);
  sessionAgg ← lift (NewSessionAggregate sessionID);
  '(_, sessionAgg) ← lift (after (SessionCreate (Account.ID snapshot) (DeviceID deviceAgg)
      (issuedTokenPair.refreshToken pair) (issuedTokenPair.refreshExpiresAt pair) t
      (DeviceRegistration.IPAddress reg) (DeviceRegistration.UserAgent reg)) sessionAgg);
  wrap_err (fun e => Errorf "save session: %w" [e]) (saveSession sessionAgg);;
  mret (tokenResponse pair).

Definition CallbackGoogleHandle (accountID passwordUUID deviceID sessionID : string)
    (req : CallbackGoogleRequest.t) : method W TokenResponse.t :=
  match AccountDeps.googleProvider deps with
  | None => raise (Errorf "%v: %s" [])
  | Some provider =>
      accessToken ← Callback provider (CallbackGoogleRequest.Code req);
      userInfo ← GetUserInfo provider accessToken;
      email ← lift (NewEmail (UserInfo.Email userInfo));
      t ← clock;
      WithAccountTransaction (callbackGoogleBody accountID passwordUUID deviceID sessionID t email
        userInfo (CallbackGoogleRequest.Device req))
  end.

(** ** Refresh *)

Definition refreshBody (t : Time) (claims : PasetoPayload) (req : RefreshRequest.t) :
    repo TokenResponse.t :=
  sessionAgg ← notFoundAs ErrRefreshTokenInvalid "load session: %w"
                 (LoadSession (AccountDeps.cacheTime deps) true (PasetoPayload.SessionID claims));
  session ← lift (SessionSnapshot sessionAgg);
  if decide (Session.AccountID session <> PasetoPayload.AccountID claims \/
             Session.DeviceID session <> PasetoPayload.DeviceID claims) then
    raise ErrRefreshTokenInvalid
  else
  valid ← lift (map_err (fun e => Errorf "verify refresh token: %w" [e])
                  (Verify h (RefreshRequest.RefreshToken req) (Session.RefreshTokenHash session)));
  if negb valid then raise ErrRefreshTokenInvalid else
  match SessionEnsureRefreshAllowed t sessionAgg with
  | Err err =>
      let '(changed, sessionAgg) :=
        if errors_Is err "ErrSessionExpired" then SessionMarkExpired t sessionAgg
        else (false, sessionAgg) in
      (if changed : bool then
         wrap_err (fun e => Errorf "mark session expired: %w" [e]) (saveSession sessionAgg)
       else mret tt);;
      raise (mapRefreshSessionErr err)
  | Panic why => lift (Panic why)
  | Ok _ =>
      accountAgg ← wrap_err (fun e => Errorf "load account aggregate: %w" [e])
                     (onFirst (LoadAccount (PasetoPayload.AccountID claims)));
      accountSnapshot ← lift (Snapshot accountAgg);
      deviceAgg ← notFoundAs ErrRefreshTokenInvalid "load device: %w"
                    (onFirst (GetByAccountAndID (PasetoPayload.AccountID claims) (Session.DeviceID session)));
      '(_, deviceAgg) ← lift (after (DeviceAggregateTouch (RefreshRequest.UserAgent req)
                                       (RefreshRequest.IpAddress req) t) deviceAgg);
      wrap_err (fun e => Errorf "save device: %w" [e]) (onFirst (SaveDevice deviceAgg));;
      pair ← issueTokens accountSnapshot (SessionID sessionAgg) (SessionDeviceID sessionAgg);
      refreshTokenHash ← lift (Hash h (issuedTokenPair.refreshToken pair));
      '(_, sessionAgg) ← lift (after (SessionRotate refreshTokenHash
          (issuedTokenPair.refreshExpiresAt pair) t (RefreshRequest.IpAddress req)
          (RefreshRequest.UserAgent req)) sessionAgg);
      wrap_err (fun e => Errorf "save session: %w" [e]) (saveSession sessionAgg);;
      mret (tokenResponse pair)
  end.

Definition RefreshHandle (req : RefreshRequest.t) : method W TokenResponse.t :=
  t0 ← clock;
  claims ← lift (map_err (fun e => Errorf "%v: %w" [e])
                   (ParseRefreshToken (AccountDeps.paseto deps) t0 (RefreshRequest.RefreshToken req)));
  t ← clock;
  WithAccountTransaction (refreshBody t claims req).

(** ** Logout *)

(** The sessions of an account are revoked; those that already were are not
    saved again. *)
Definition revokeSessions (reason : string) (t : Time) (accountID : string) : repo unit :=
  sessionAggs ← onFirst (ListSessionsByAccountID accountID);
  range sessionAggs (fun sessionAgg =>
    '(changed, sessionAgg) ← lift (after (SessionRevoke reason t) sessionAgg);
    if negb changed then mret tt else saveSession sessionAgg).

Definition logoutBody (t : Time) (accountID : string) (claims : PasetoPayload) : repo unit :=
  found ← wrap_err (fun e => Errorf "load session: %w" [e])
            (nilIfNotFound
               (LoadSession (AccountDeps.cacheTime deps) true (PasetoPayload.SessionID claims)));
  match found with
  | None => mret tt
  | Some sessionAgg =>
      session ← lift (SessionSnapshot sessionAgg);
      if decide (Session.AccountID session <> accountID \/
                 Session.DeviceID session <> PasetoPayload.DeviceID claims) then
        raise ErrRefreshTokenInvalid
      else
      '(changed, sessionAgg) ← lift (after (SessionRevoke "logout" t) sessionAgg);
      if negb changed then mret tt else saveSession sessionAgg
  end.

Definition LogoutHandle (ctx : option Actor) (token : string) : method W string :=
  accountID ← lift (AccountIDFromCtx ctx);
  if decide (accountID = "") then raise ErrRefreshTokenInvalid else
  t ← clock;
  if decide (token = "") then
    WithAccountTransaction (revokeSessions "logout_all" t accountID);;
    mret "Logout successful"
  else
  claims ← lift (ParseRefreshToken (AccountDeps.paseto deps) t token);
  if decide (PasetoPayload.AccountID claims <> accountID) then raise ErrRefreshTokenInvalid else
  WithAccountTransaction (logoutBody t accountID claims);;
  mret "Logout successful".

(** ** The password *)

Definition changePasswordBody (t : Time) (accountID : string) (accountAgg : AccountAggregate) :
    repo unit :=
  saveAccount accountAgg;;
  revokeSessions "password_changed" t accountID.

Definition ChangePasswordHandle (ctx : option Actor) (currentPassword newPassword : string) :
    method W string :=
  accountID ← lift (AccountIDFromCtx ctx);
  accountAgg ← LoadAccount accountID;
  currentHash ← lift (CurrentPasswordHash accountAgg);
  valid ← lift (Verify h currentPassword (HashedPassword.Value currentHash));
  if negb valid then raise ErrInvalidCurrentPassword else
  newPassword ← lift (NewPlainPassword newPassword);
  lift (EnsurePasswordIsNew h newPassword currentHash);;
  hashedPassword ← lift (Hash h (PlainPassword.Value newPassword));
  hashedPasswordVO ← lift (NewHashedPassword hashedPassword);
  t ← clock;
  '(changed, accountAgg) ← lift (after (ChangePassword hashedPasswordVO t) accountAgg);
  if negb changed then mret "Password is unchanged" else
  WithAccountTransaction (changePasswordBody t accountID accountAgg);;
  mret "Password changed successfully".

(** ** The profile *)

Definition UpdateProfileHandle (ctx : option Actor) (displayName : string)
    (username avatarObjectKey : option string) : method W Account :=
  accountID ← lift (AccountIDFromCtx ctx);
  accountAgg ← LoadAccount accountID;
  t ← clock;
  '(updated, accountAgg) ← lift (after (UpdateProfile displayName username avatarObjectKey t) accountAgg);
  if negb updated then lift (Snapshot accountAgg) else
  accountAgg ← wrap_err (fun e => if errors_Is e "ErrAccountUsernameAlreadyExists" then ErrUsernameExists else e)
                 (WithAccountTransaction (saveAccount accountAgg));
  lift (Snapshot accountAgg).

(** ** The email address *)

Definition buildVerificationURL (baseURL token : string) : string :=
  let baseURL := TrimSpace baseURL in
  let token := TrimSpace token in
  if decide (baseURL = "" \/ token = "") then ""
  else default "" (AccountDeps.setToken deps baseURL token).

(** [token] is a fresh id. *)
Definition SendVerificationEmail (token : string) (account : Account) : method W (string * Time) :=
  requestedAt ← clock;
  let expiresAt := requestedAt + emailVerificationTTL in
  let email := Email.Value (Account.Email account) in
  SetObject (emailVerificationCacheKey token)
    (EmailVerificationTokenPayload.mk (Account.ID account) email expiresAt) emailVerificationTTL;;
  AccountDeps.sendTemplate deps email
    (VerifyEmailTemplateData.mk (Account.DisplayName account) email token expiresAt
       (buildVerificationURL (TrimSpace (AccountDeps.verifyEmailURL deps)) token) 15);;
  mret (token, expiresAt).

Definition ConsumeVerificationToken (token : string) : method W EmailVerificationTokenPayload.t :=
  let token := TrimSpace token in
  if decide (token = "") then raise ErrVerificationTokenInvalid else
  let key := emailVerificationCacheKey token in
  n ← CacheExists key;
  if decide (n = 0) then raise ErrVerificationTokenInvalid else
  data ← CacheGet key;
  payload ← lift (Unmarshal "EmailVerificationTokenPayload" data);
  CacheDelete key;;
  t ← clock;
  if decide (EmailVerificationTokenPayload.AccountID payload = "" \/
             EmailVerificationTokenPayload.Email payload = "" \/
             IsZero (EmailVerificationTokenPayload.ExpiresAt payload) = true \/
             EmailVerificationTokenPayload.ExpiresAt payload < t) then
    raise ErrVerificationTokenInvalid
  else mret payload.

Definition loadKnownAccount (accountID : string) : method W AccountAggregate :=
  wrap_err (fun e => if errors_Is e "gorm.ErrRecordNotFound" then AccountError.ErrAccountNotFound else e)
    (LoadAccount accountID).

Definition VerifyEmailHandle (token : string) (ctx : option Actor) : method W string :=
  accountID ← lift (AccountIDFromCtx ctx);
  accountAgg ← loadKnownAccount accountID;
  lift (EnsureEmailVerificationAllowed accountAgg);;
  accountEntity ← lift (Snapshot accountAgg);
  '(token, _) ← SendVerificationEmail token accountEntity;
  t ← clock;
  '(_, accountAgg) ← lift (after (RequestEmailVerification token t) accountAgg);
  WithAccountTransaction (saveAccount accountAgg);;
  mret "Verification email queued".

(** Gives the time of the verification. *)
Definition ConfirmVerifyEmailHandle (token : string) : method W (option Time) :=
  payload ← wrap_err (fun _ => ErrInvalidVerificationToken) (ConsumeVerificationToken token);
  accountAgg ← loadKnownAccount (EmailVerificationTokenPayload.AccountID payload);
  tokenEmail ← lift (match NewEmail (EmailVerificationTokenPayload.Email payload) with
                     | Err _ => Err ErrInvalidVerificationToken
                     | r => r
                     end);
  t ← clock;
  '(_, accountAgg) ← lift (map_err (fun e =>
      if errors_Is e "ErrAccountEmailMismatch" then ErrInvalidVerificationToken else e)
      (after (ConfirmEmailVerified tokenEmail t) accountAgg));
  accountAgg ← WithAccountTransaction (saveAccount accountAgg);
  accountEntity ← lift (Snapshot accountAgg);
  mret (Account.EmailVerifiedAt accountEntity).
End handlers.
