(* ===== verification/AccountSpec.v ===== *)
(** * What the account aggregate promises

    The events of an account tell its whole state ([account_history]): the
    first one creates it, no other one does, at most one verifies its address,
    and the state is what they make of nothing. What is loaded from the events
    and completed from the stored account agrees with what was saved
    ([covers]). *)

From stdpp Require Import prelude strings gmap.
From S2P Require Import Prelude GoStrings Event AccountEntity AccountAggregate.

(** ** Commands *)

Inductive AccountCommandOf : Type :=
  | CmdRegister (email : Email) (passwordHash : HashedPassword) (displayName : string)
  | CmdOpenRegister (uuid email displayName avatarObjectKey : string)
  | CmdUpdateProfile (displayName : string) (username avatarObjectKey : option string)
  | CmdRequestVerification (token : string)
  | CmdConfirmVerified (email : Email)
  | CmdChangePassword (passwordHash : HashedPassword).

Definition ignoreResult {S A} (m : method S A) : method S unit := m ≫= fun _ => mret tt.

Definition runAccountCommand (c : AccountCommandOf) (at_ : Time) : method AccountAggregate unit :=
  match c with
  | CmdRegister email hash name => AccountRegister email hash name at_
  | CmdOpenRegister uuid email name avatar => OpenRegister uuid email name avatar at_
  | CmdUpdateProfile name username avatar => ignoreResult (UpdateProfile name username avatar at_)
  | CmdRequestVerification token => RequestEmailVerification token at_
  | CmdConfirmVerified email => ConfirmEmailVerified email at_
  | CmdChangePassword hash => ignoreResult (ChangePassword hash at_)
  end.

(** ** Events and the state *)

(** What the data of an event of the aggregate [id] does to the state. *)
Definition evolve (id : string) (s : AccountState) (d : AccountEventData) : AccountState :=
  (accountTransition (mkEvent 0 id accountAggregateType 0 "" d 0) s).2.

(** Whether the data is of one of the registered types. *)
Definition knownEvent (d : AccountEventData) : bool :=
  match d with OtherAccountEvent _ => false | _ => true end.

Lemma accountTransition_run e s :
  accountTransition e s =
    (if knownEvent (EventData e) then Ok tt else Err ErrUnsupportedEventType,
     evolve (AggregateID e) s (EventData e)).
Proof. unfold evolve. by destruct e as [? ? ? ? ? [] ?]. Qed.

Definition isCreated (d : AccountEventData) : bool :=
  match d with EventAccountCreated _ _ _ _ _ _ => true | _ => false end.
Definition isVerified (d : AccountEventData) : bool :=
  match d with EventAccountEmailVerified _ _ => true | _ => false end.

(** The time that an event gives the state; none where it leaves the times. *)
Definition eventTime (d : AccountEventData) : option Time :=
  match d with
  | EventAccountCreated _ _ _ _ _ t | EventAccountUpdated _ _ t
  | EventAccountProfileUpdated _ _ _ _ t | EventAccountEmailVerificationRequested _ _ _ t
  | EventAccountEmailVerified _ t | EventAccountPasswordChanged _ _ t => Some t
  | EventAccountBanned _ _ _ | OtherAccountEvent _ => None
  end.

(** The data that a command at the time [t] records. *)
Definition recordedAt (t : Time) (d : AccountEventData) : Prop := eventTime d = Some t /\ t <> 0.

Lemma ApplyChange_account d (a a' : AccountAggregate) :
  ApplyChange d a = (Ok tt, a') ->
  aggregateID (Root a) <> "" /\ knownEvent d = true /\
  AccountAggregate.state a' = evolve (aggregateID (Root a)) (AccountAggregate.state a) d /\
  exists e, Root a' = appendEvent e (Root a) /\ EventData e = d /\ AggregateID e = aggregateID (Root a).
Proof.
  intros H. apply ApplyChange_Ok in H as (e & -> & Hid & Hok & ->).
  cbn in Hok |- *. rewrite accountTransition_run in Hok |- *. cbn in Hok |- *.
  destruct (knownEvent d); [|discriminate Hok].
  split_and!; try done. eexists. by split_and!.
Qed.

(** Recording several events. *)
Lemma range_account ds (a a' : AccountAggregate) :
  range ds ApplyChange a = (Ok tt, a') ->
  AccountAggregate.state a' = foldl (evolve (aggregateID (Root a))) (AccountAggregate.state a) ds /\
  aggregateID (Root a') = aggregateID (Root a) /\
  exists es, events (Root a') = events (Root a) ++ es /\ EventData <$> es = ds.
Proof.
  revert a. induction ds as [|d ds IH]; intros a H; cbn in H.
  - go_inv. split_and!; [done..|]. exists []. by rewrite app_nil_r.
  - apply method_bind_Ok in H as ([] & a1 & H1 & H2).
    apply ApplyChange_account in H1 as (_ & _ & Hs & e & He & <- & _).
    destruct (IH _ H2) as (Hs2 & Hid & es & Hes & Hd). rewrite He in *. cbn in *.
    rewrite Hs in Hs2. split_and!; [done..|]. exists (e :: es).
    rewrite Hes, <- app_assoc. cbn. by rewrite Hd.
Qed.

(** ** What a command records *)

Definition idOf (a : AccountAggregate) : string := aggregateID (Root a).

(** The events of a command that succeeds. *)
Definition commandEvents (c : AccountCommandOf) (t : Time) (a : AccountAggregate) :
    list AccountEventData :=
  let s := AccountAggregate.state a in
  match c with
  | CmdRegister email hash name =>
      [EventAccountCreated (idOf a) (Email.Value email) (HashedPassword.Value hash) (TrimSpace name)
         AccountStatusActive t]
  | CmdOpenRegister uuid email name avatar =>
      EventAccountCreated (idOf a) email uuid (TrimSpace name) AccountStatusActive t ::
      EventAccountProfileUpdated (idOf a) (TrimSpace name) None (Some avatar) t ::
      (if IsEmailVerified a then [] else [EventAccountEmailVerified (idOf a) t])
  | CmdUpdateProfile name username avatar =>
      let username := incomingOr (AccountState.Username s) username in
      let avatar := incomingOr (AccountState.AvatarObjectKey s) avatar in
      if bool_decide (AccountState.DisplayName s = TrimSpace name) &&
         EqualOptionalString (AccountState.Username s) username &&
         EqualOptionalString (AccountState.AvatarObjectKey s) avatar then []
      else [EventAccountProfileUpdated (idOf a) (TrimSpace name) username avatar t]
  | CmdRequestVerification token =>
      [EventAccountEmailVerificationRequested (idOf a) (AccountState.Email s) (TrimSpace token) t]
  | CmdConfirmVerified _ => [EventAccountEmailVerified (idOf a) t]
  | CmdChangePassword hash => [EventAccountPasswordChanged (idOf a) (HashedPassword.Value hash) t]
  end.

(** What a command asks of the aggregate. *)
Definition commandAllowed (c : AccountCommandOf) (a : AccountAggregate) : Prop :=
  let s := AccountAggregate.state a in
  match c with
  | CmdRegister _ _ name | CmdOpenRegister _ _ name _ =>
      IsRegistered a = false /\ TrimSpace name <> ""
  | CmdUpdateProfile name _ _ => IsRegistered a = true /\ TrimSpace name <> ""
  | CmdRequestVerification token =>
      IsRegistered a = true /\ IsEmailVerified a = false /\ TrimSpace token <> ""
  | CmdConfirmVerified email =>
      IsRegistered a = true /\ IsEmailVerified a = false /\ AccountState.Email s = Email.Value email
  | CmdChangePassword hash =>
      IsRegistered a = true /\
      ~ (HasChangePassword a = true /\ AccountState.PasswordHash s = HashedPassword.Value hash)
  end.

Lemma IsEmailVerified_evolve id d (a : AccountAggregate) r s :
  isVerified d = false -> s = evolve id (AccountAggregate.state a) d ->
  IsEmailVerified (AccountAggregate.mk r s) = IsEmailVerified a.
Proof. intros Hd ->. by destruct d. Qed.

(** Recording a known event succeeds. *)
Lemma ApplyChange_known d (a : AccountAggregate) :
  idOf a <> "" -> knownEvent d = true -> exists a', ApplyChange d a = (Ok tt, a').
Proof.
  intros Hid Hk. unfold ApplyChange. rewrite decide_False by done. cbn [payload_nil AccountPayload].
  rewrite decide_False by (by destruct d). cbn. rewrite accountTransition_run. cbn [EventData].
  rewrite Hk. by eexists.
Qed.

Lemma range_known ds (a : AccountAggregate) :
  idOf a <> "" -> forallb knownEvent ds = true -> exists a', range ds ApplyChange a = (Ok tt, a').
Proof.
  revert a. induction ds as [|d ds IH]; intros a Hid Hk; cbn [range]; [by eexists|].
  cbn in Hk. apply andb_true_iff in Hk as [Hd Hk].
  destruct (ApplyChange_known d a Hid Hd) as [a1 H1]. rewrite bind_run, H1. apply IH; [|done].
  apply ApplyChange_account in H1 as (_ & _ & _ & e & He & _). unfold idOf. by rewrite He.
Qed.

Lemma range_one d (a : AccountAggregate) : range [d] ApplyChange a = ApplyChange d a.
Proof. cbn [range]. rewrite bind_run. by destruct (ApplyChange d a) as [[[]|e|w] a1]. Qed.

(** The guards that the commands begin with. *)
Lemma occurredAt_bind_run {A} (k : Time -> method AccountAggregate A) t (a : AccountAggregate) :
  (lift (normalizeAccountOccurredAt t) ≫= k) a =
  if decide (t = 0) then (Err ErrAccountOccurredAtRequired, a) else k t a.
Proof.
  unfold normalizeAccountOccurredAt, IsZero. rewrite lift_bind_run.
  by destruct (decide (t = 0)); [rewrite bool_decide_true by done|rewrite bool_decide_false by done].
Qed.

Lemma displayName_bind_run {A} (k : string -> method AccountAggregate A) name (a : AccountAggregate) :
  (lift (NormalizeDisplayName name) ≫= k) a =
  if decide (TrimSpace name = "") then (Err AccountError.ErrAccountDisplayNameRequired, a)
  else k (TrimSpace name) a.
Proof. unfold NormalizeDisplayName. rewrite lift_bind_run. by case_decide. Qed.

Lemma OpenRegister_events uuid email name avatar t (a : AccountAggregate) :
  idOf a <> "" -> t <> 0 -> IsRegistered a = false -> TrimSpace name <> "" ->
  OpenRegister uuid email name avatar t a =
    range (commandEvents (CmdOpenRegister uuid email name avatar) t a) ApplyChange a.
Proof.
  intros Hid Ht Hr Hn. unfold OpenRegister. rewrite occurredAt_bind_run, decide_False by done.
  rewrite get_bind_run, Hr, displayName_bind_run, decide_False by done.
  cbn [commandEvents range]. rewrite !bind_run. unfold AggregateIDOf.
  destruct (ApplyChange_known (EventAccountCreated (idOf a) email uuid (TrimSpace name)
              AccountStatusActive t) a) as [a1 H1]; [done..|].
  unfold idOf in *. rewrite H1, !bind_run.
  apply ApplyChange_account in H1 as (_ & _ & Hs1 & e1 & He1 & _ & _).
  destruct (ApplyChange_known (EventAccountProfileUpdated (aggregateID (Root a)) (TrimSpace name) None
              (Some avatar) t) a1) as [a2 H2]; [by (unfold idOf; rewrite He1)|done|].
  rewrite H2. apply ApplyChange_account in H2 as (_ & _ & Hs2 & e2 & He2 & _ & _).
  rewrite get_bind_run.
  replace (IsEmailVerified a2) with (IsEmailVerified a)
    by (unfold IsEmailVerified; rewrite Hs2, Hs1; done).
  destruct (IsEmailVerified a); [done|]. rewrite range_one. by rewrite He2, He1.
Qed.

(** A command succeeds exactly as it records its events, and fails as it was. *)
Definition command_ok (c : AccountCommandOf) (t : Time) (a a' : AccountAggregate) (r : result unit) : Prop :=
  (r = Ok tt /\ t <> 0 /\ commandAllowed c a /\
   range (commandEvents c t a) ApplyChange a = (Ok tt, a')) \/
  (is_ok r = false /\ a' = a /\ (t = 0 \/ ~ commandAllowed c a)).

(** Closes the case of a command that a guard refuses. *)
Ltac refused :=
  match goal with
  | H : _ = (?r, _) |- command_ok _ _ _ _ ?r =>
      injection H as <- <-; right; split_and!; [done..|right; cbn [commandAllowed]; intuition congruence]
  end.

(** Closes the case of a command that records one event. *)
Ltac recorded :=
  match goal with
  | Hid : idOf ?a <> "", H : _ = (?r, ?a') |- _ =>
      cbv beta zeta in H; rewrite ?bind_run in H;
      match type of H with
      | context [ApplyChange ?d a] =>
          let a1 := fresh in let H1 := fresh in
          left; cbn [commandEvents commandAllowed]; rewrite range_one;
          destruct (ApplyChange_known d a Hid eq_refl) as [a1 H1];
          rewrite H1 in H; unfold idOf; unfold AggregateIDOf in H1; rewrite H1;
          injection H as <- <-; split_and!; try done
      end
  end.

Section commands.
Context (t : Time) (a a' : AccountAggregate) (r : result unit).
Hypothesis Hid : idOf a <> "".
Hypothesis Ht : t <> 0.

Lemma Register_ok email hash name :
  AccountRegister email hash name t a = (r, a') -> command_ok (CmdRegister email hash name) t a a' r.
Proof using Hid Ht.
  unfold AccountRegister. rewrite occurredAt_bind_run, decide_False, get_bind_run by done.
  destruct (IsRegistered a) eqn:Hr; intros Hrun; [refused|].
  rewrite displayName_bind_run in Hrun. case_decide; [refused|recorded].
Qed.

Lemma OpenRegister_ok uuid email name avatar :
  OpenRegister uuid email name avatar t a = (r, a') ->
  command_ok (CmdOpenRegister uuid email name avatar) t a a' r.
Proof using Hid Ht.
  intros Hrun. destruct (IsRegistered a) eqn:Hr.
  { unfold OpenRegister in Hrun.
    rewrite occurredAt_bind_run, decide_False, get_bind_run, Hr in Hrun by done. refused. }
  destruct (decide (TrimSpace name = "")) as [Hn|Hn].
  { unfold OpenRegister in Hrun.
    rewrite occurredAt_bind_run, decide_False, get_bind_run, Hr, displayName_bind_run, decide_True in Hrun by done.
    refused. }
  rewrite OpenRegister_events in Hrun by done. left.
  destruct (range_known (commandEvents (CmdOpenRegister uuid email name avatar) t a) a Hid) as [a1 H1];
    [cbn; by destruct (IsEmailVerified a)|].
  rewrite H1 in Hrun |- *. by injection Hrun as <- <-.
Qed.

Lemma UpdateProfile_ok name username avatar :
  ignoreResult (UpdateProfile name username avatar t) a = (r, a') ->
  command_ok (CmdUpdateProfile name username avatar) t a a' r.
Proof using Hid Ht.
  unfold UpdateProfile, ignoreResult. rewrite bind_run, occurredAt_bind_run, decide_False, get_bind_run by done.
  destruct (IsRegistered a) eqn:Hr; cbn [negb]; intros Hrun; [|refused].
  rewrite displayName_bind_run in Hrun. case_decide; [refused|]. cbv zeta in Hrun.
  destruct (bool_decide _ && _ && _) eqn:Hsame.
  - left. cbn [commandEvents]. cbv zeta. rewrite Hsame. by injection Hrun as <- <-.
  - unfold command_ok. cbn [commandEvents]. cbv zeta. rewrite Hsame. recorded.
Qed.

Lemma RequestEmailVerification_ok token :
  RequestEmailVerification token t a = (r, a') -> command_ok (CmdRequestVerification token) t a a' r.
Proof using Hid Ht.
  unfold RequestEmailVerification. rewrite occurredAt_bind_run, decide_False by done.
  cbv zeta. case_decide; intros Hrun; [refused|]. rewrite get_bind_run in Hrun.
  unfold EnsureEmailVerificationAllowed in Hrun.
  destruct (IsRegistered a) eqn:Hr; cbn [negb] in Hrun; [|refused].
  destruct (IsEmailVerified a) eqn:Hv; [refused|]. rewrite lift_bind_run in Hrun. recorded.
Qed.

Lemma ConfirmEmailVerified_ok email :
  ConfirmEmailVerified email t a = (r, a') -> command_ok (CmdConfirmVerified email) t a a' r.
Proof using Hid Ht.
  unfold ConfirmEmailVerified. rewrite occurredAt_bind_run, decide_False, get_bind_run by done.
  destruct (IsRegistered a) eqn:Hr; cbn [negb]; intros Hrun; [|refused].
  destruct (IsEmailVerified a) eqn:Hv; [refused|].
  case_decide as He; [refused|recorded].
Qed.

Lemma ChangePassword_ok hash :
  ignoreResult (ChangePassword hash t) a = (r, a') -> command_ok (CmdChangePassword hash) t a a' r.
Proof using Hid Ht.
  unfold ChangePassword, ignoreResult. rewrite bind_run, occurredAt_bind_run, decide_False, get_bind_run by done.
  destruct (IsRegistered a) eqn:Hr; cbn [negb]; intros Hrun; [|refused].
  destruct (HasChangePassword a && _) eqn:Hsame.
  - apply andb_true_iff in Hsame as [? ?%bool_decide_eq_true]. refused.
  - recorded. intros [Hc Hp]. apply andb_false_iff in Hsame as [?|?%bool_decide_eq_false]; congruence.
Qed.
End commands.

Lemma runAccountCommand_spec c t (a a' : AccountAggregate) r :
  idOf a <> "" -> runAccountCommand c t a = (r, a') -> command_ok c t a a' r.
Proof.
  intros Hid Hrun. destruct (decide (t = 0)) as [->|Ht].
  { right. destruct c; cbn in Hrun; injection Hrun as <- <-; auto. }
  destruct c; cbn [runAccountCommand] in Hrun;
    eauto using Register_ok, OpenRegister_ok, UpdateProfile_ok, RequestEmailVerification_ok,
      ConfirmEmailVerified_ok, ChangePassword_ok.
Qed.

(** ** The history of an account *)

(** A new aggregate, after commands, at any times, and saves; with the data of
    all the events that it ever recorded. *)
Inductive account_history (id : string) : AccountAggregate -> list AccountEventData -> Prop :=
  | history_new a : NewAccountAggregate id = Ok a -> account_history id a []
  | history_command c t a a' r log :
      account_history id a log -> runAccountCommand c t a = (r, a') ->
      account_history id a'
        (log ++ (EventData <$> drop (length (events (Root a))) (events (Root a'))))
  | history_saved a log :
      account_history id a log -> account_history id (updRoot MarkPersisted a) log.

(** What the events after the first one keep: [email] and [t] are those of the
    first event. *)
Definition told (id email : string) (t : Time) (rest : list AccountEventData) (s : AccountState) : Prop :=
  AccountState.AccountID s = id /\ AccountState.Email s = email /\ AccountState.CreatedAt s = t /\
  AccountState.Status s = AccountStatusActive /\ forallb (fun d => negb (isCreated d)) rest = true /\
  length (List.filter isVerified rest) =
    (if bool_decide (AccountState.EmailVerifiedAt s <> None) then 1 else 0)%nat.

Definition history_told (id : string) (a : AccountAggregate) (log : list AccountEventData) : Prop :=
  match log with
  | [] => AccountAggregate.state a = AccountState.zero
  | d :: rest =>
      exists email hash name t,
        d = EventAccountCreated id email hash name AccountStatusActive t /\ t <> 0 /\
        told id email t rest (AccountAggregate.state a)
  end.

Lemma NewAccountAggregate_Ok id a :
  NewAccountAggregate id = Ok a ->
  TrimSpace id <> "" /\
  a = AccountAggregate.mk (mkRoot (TrimSpace id) accountAggregateType 0 0 []) AccountState.zero.
Proof.
  unfold NewAccountAggregate, InitAggregate. string_decide. rewrite modify_bind_run.
  unfold SetID. cbn [SetAggregateType zeroRoot aggregateID aggregateType version baseVersion events].
  destruct (decide (TrimSpace id = "")); [done|].
  rewrite decide_False by (intros [H _]; by apply H). by intros [= <-].
Qed.

(** One more event of a registered account. *)
Lemma told_snoc id email t rest s d :
  told id email t rest s -> isCreated d = false ->
  match d with EventAccountUpdated _ _ _ => False | _ => True end ->
  (isVerified d = true -> AccountState.EmailVerifiedAt s = None) ->
  told id email t (rest ++ [d]) (evolve id s d).
Proof.
  intros (H1 & H2 & H3 & H4 & H5 & H6) Hc Hu Hv. unfold told.
  rewrite forallb_app, H5, List.filter_app, length_app. cbn [forallb List.filter]. rewrite Hc.
  destruct d; cbn in *; try done; (split_and!; [done..|]); rewrite ?Nat.add_0_r; try exact H6.
  rewrite H6, (Hv eq_refl). reflexivity.
Qed.

Lemma told_registered id email t rest a :
  id <> "" -> t <> 0 -> told id email t rest (AccountAggregate.state a) -> IsRegistered a = true.
Proof.
  intros Hid Ht (H1 & _ & H3 & _). unfold IsRegistered, IsZero. rewrite H1, H3.
  by rewrite bool_decide_true, bool_decide_false.
Qed.

(** What a command that succeeds adds to the history. *)
Lemma history_told_command id c t a a' log :
  id <> "" -> idOf a = id -> t <> 0 -> history_told id a log -> commandAllowed c a ->
  AccountAggregate.state a' = foldl (evolve id) (AccountAggregate.state a) (commandEvents c t a) ->
  history_told id a' (log ++ commandEvents c t a).
Proof.
  intros Hid Ha Ht Hlog Hallow Hs. destruct log as [|d rest]; cbn [history_told] in Hlog.
  - assert (IsRegistered a = false) as Hr by (unfold IsRegistered; by rewrite Hlog).
    destruct c; cbn [commandAllowed] in Hallow; try (destruct Hallow; congruence);
      cbn [commandEvents] in *; unfold IsEmailVerified in *; rewrite Ha, Hlog in *; cbn in *;
      rewrite Hs; by repeat eexists.
  - destruct Hlog as (email & hash & name & t0 & -> & Ht0 & Htold).
    assert (IsRegistered a = true) as Hr by eauto using told_registered.
    cbn [app history_told]. exists email, hash, name, t0. split_and!; [done..|]. rewrite Hs.
    destruct c; cbn [commandAllowed] in Hallow; try (destruct Hallow; congruence); cbn [commandEvents].
    + destruct (_ && _ && _); [by rewrite app_nil_r|]. by apply told_snoc.
    + by apply told_snoc.
    + apply told_snoc; [done..|]. intros _. destruct Hallow as (_ & Hv & _).
      by apply bool_decide_eq_false, dec_stable in Hv.
    + by apply told_snoc.
Qed.

Definition history_inv (id : string) (a : AccountAggregate) (log : list AccountEventData) : Prop :=
  id <> "" /\ idOf a = id /\ AccountAggregate.state a = foldl (evolve id) AccountState.zero log /\
  history_told id a log.

Lemma account_history_inv id a log : account_history id a log -> history_inv (TrimSpace id) a log.
Proof.
  induction 1 as [a Hnew|c t a a' r log _ (Hid & Ha & Hs & Ht) Hrun|a log _ (Hid & Ha & Hs & Ht)].
  - apply NewAccountAggregate_Ok in Hnew as [Hid ->]. by split_and!.
  - destruct (runAccountCommand_spec c t a a' r) as [(_ & Hz & Hallow & Hev)|(_ & -> & _)];
      [congruence|done| |].
    + apply range_account in Hev as (Hs' & Hid' & es & Hes & Hd).
      rewrite Hes, drop_app_length, Hd. fold (idOf a) in Hs', Hid'. fold (idOf a') in Hid'.
      rewrite Ha in *. split_and!; [done..| |by eapply history_told_command].
      by rewrite foldl_app, <- Hs.
    + by rewrite drop_all, app_nil_r.
  - split_and!; [done| |done|done]. unfold idOf, updRoot. rewrite Root_setRoot.
    unfold MarkPersisted. by destruct (last _).
Qed.

(** The events of an account tell its whole state. Whatever commands and
    saves an aggregate goes through, its state is what its events make of the
    empty one; the first event creates the account under its id and no later
    one does; the address, the time of creation and the status stay those of
    the first event; and the address is verified by at most one event, which
    there is exactly when it is verified. *)
Theorem account_history_tells id a log :
  account_history id a log ->
  AccountAggregate.state a = foldl (evolve (TrimSpace id)) AccountState.zero log /\
  match log with
  | [] => IsRegistered a = false
  | d :: rest =>
      IsRegistered a = true /\
      exists email hash name t,
        d = EventAccountCreated (TrimSpace id) email hash name AccountStatusActive t /\
        forallb (fun e => negb (isCreated e)) rest = true /\
        AccountState.Email (AccountAggregate.state a) = email /\
        AccountState.CreatedAt (AccountAggregate.state a) = t /\
        AccountState.Status (AccountAggregate.state a) = AccountStatusActive /\
        length (List.filter isVerified rest) = (if IsEmailVerified a then 1 else 0)%nat
  end.
Proof.
  intros (Hid & _ & Hs & Ht)%account_history_inv. split; [done|]. destruct log as [|d rest].
  - unfold IsRegistered. by rewrite Ht.
  - destruct Ht as (email & hash & name & t & -> & Hz & Htold).
    split; [by eapply told_registered|]. destruct Htold as (_ & H2 & H3 & H4 & H5 & H6).
    exists email, hash, name, t. by split_and!.
Qed.

(** ** Completing the replayed state from the stored account *)

(** What [MergeProjection] makes of the state [r] with the fields of [s]. *)
Definition fill (r s : AccountState) : AccountState :=
  AccountState.mk (orString (AccountState.AccountID r) (AccountState.AccountID s))
    (orString (AccountState.Email r) (AccountState.Email s))
    (orString (AccountState.DisplayName r) (AccountState.DisplayName s))
    (orPtr (AccountState.Username r) (AccountState.Username s))
    (orPtr (AccountState.AvatarObjectKey r) (AccountState.AvatarObjectKey s))
    (orString (AccountState.Status r) (AccountState.Status s))
    (orString (AccountState.PasswordHash r) (AccountState.PasswordHash s))
    (orPtr (AccountState.EmailVerifiedAt r) (AccountState.EmailVerifiedAt s))
    (AccountState.LastEmailVerificationRequested r) (AccountState.LastLoginAt s)
    (orPtr (AccountState.PasswordChangedAt r) (AccountState.PasswordChangedAt s))
    (orTime (AccountState.CreatedAt r) (AccountState.CreatedAt s))
    (orTime (AccountState.UpdatedAt r) (AccountState.UpdatedAt s))
    (orString (AccountState.BannedReason r) (AccountState.BannedReason s))
    (orPtr (AccountState.BannedUntil r) (AccountState.BannedUntil s)).

(** Completed with [s], [r] is [s]: it lacks fields of [s], and has no others. *)
Definition covers (r s : AccountState) : Prop := fill r s = s.

Lemma orString_same x : orString x x = x.
Proof. unfold orString. by case_decide. Qed.
Lemma orTime_same x : orTime x x = x.
Proof. unfold orTime. by destruct (IsZero x). Qed.
Lemma orPtr_same {A} (x : option A) : orPtr x x = x.
Proof. by destruct x. Qed.
Lemma orString_or x y : orString x (orString x y) = orString x y.
Proof. unfold orString. by case_decide. Qed.
Lemma orTime_or x y : orTime x (orTime x y) = orTime x y.
Proof. unfold orTime. by destruct (IsZero x). Qed.
Lemma orPtr_or {A} (x y : option A) : orPtr x (orPtr x y) = orPtr x y.
Proof. by destruct x. Qed.

Create HintDb account discriminated.
#[export] Hint Rewrite orString_same orTime_same @orPtr_same orString_or orTime_or @orPtr_or : account.

Lemma covers_fill r s : covers r (fill r s).
Proof. unfold covers, fill. cbn. by autorewrite with account. Qed.

Lemma covers_zero s : AccountState.LastEmailVerificationRequested s = None -> covers AccountState.zero s.
Proof. intros H. unfold covers, fill. cbn. rewrite <- H. by destruct s. Qed.

(** The same event on both keeps them so. *)
Lemma covers_evolve id d r s : covers r s -> covers (evolve id r d) (evolve id s d).
Proof.
  unfold covers, fill. intros H. destruct r, s. cbn in H. injection H as H1 H2 H3 H4 H5 H6 H7 H8 H9 H10 H11 H12 H13 H14.
  destruct d; cbn; unfold applyAccountCreated, applyAccountUpdated, applyAccountProfileUpdated,
    applyAccountEmailVerificationRequested, applyAccountEmailVerified, applyAccountPasswordChanged,
    applyAccountBanned; cbn; f_equal;
    first [assumption | apply orString_same | apply orTime_same | apply orPtr_same].
Qed.

Lemma covers_foldl id ds r s : covers r s -> covers (foldl (evolve id) r ds) (foldl (evolve id) s ds).
Proof. revert r s. induction ds as [|d ds IH]; intros r s H; [done|]. by apply IH, covers_evolve. Qed.

(** The account that is stored for a state, but for the times of its creation
    and of its last update, which the database keeps and sets. *)
Definition storedFor (x : Account) (s : AccountState) : Prop :=
  Account.ID x = AccountState.AccountID s /\ Email.Value (Account.Email x) = AccountState.Email s /\
  HashedPassword.Value (Account.PasswordHash x) = AccountState.PasswordHash s /\
  Account.DisplayName x = AccountState.DisplayName s /\ Account.Username x = AccountState.Username s /\
  Account.AvatarObjectKey x = AccountState.AvatarObjectKey s /\
  Account.Status x = AccountState.Status s /\
  Account.EmailVerifiedAt x = AccountState.EmailVerifiedAt s /\
  Account.LastLoginAt x = AccountState.LastLoginAt s /\
  Account.PasswordChangedAt x = AccountState.PasswordChangedAt s /\
  Account.BannedReason x = AccountState.BannedReason s /\
  Account.BannedUntil x = AccountState.BannedUntil s.

(** Merging what is stored for a state into a replay that lacks some of it
    gives the state. *)
Lemma MergeProjection_covers root r s x :
  covers r s -> storedFor x s -> AccountState.UpdatedAt r <> 0 ->
  (AccountState.CreatedAt r <> 0 \/ Account.CreatedAt x = AccountState.CreatedAt s) ->
  MergeProjection (Some x) (AccountAggregate.mk root r) = AccountAggregate.mk root s.
Proof.
  intros Hc (H1 & H2 & H3 & H4 & H5 & H6 & H7 & H8 & H9 & H10 & H11 & H12) Hu Hcr.
  unfold MergeProjection. cbn [AccountAggregate.root AccountAggregate.state]. f_equal.
  transitivity (fill r s); [|exact Hc]. unfold fill.
  rewrite H1, H2, H3, H4, H5, H6, H7, H8, H9, H10, H11, H12. unfold orTime, IsZero.
  rewrite (bool_decide_false (AccountState.UpdatedAt r = 0)) by done. f_equal.
  destruct Hcr as [Hcr| ->]; [by rewrite bool_decide_false|done].
Qed.

Lemma LoadFromHistory_state es a a' :
  LoadFromHistory es a = (Ok tt, a') ->
  AccountAggregate.state a' =
    foldl (fun s e => evolve (AggregateID e) s (EventData e)) (AccountAggregate.state a) es.
Proof.
  revert a. induction es as [|e es IH]; intros a H; [by injection H as <-|].
  apply range_cons_Ok in H as (a1 & H1 & H). apply IH in H. rewrite H. cbn [foldl]. f_equal.
  unfold LoadEvent in H1. apply method_bind_Ok in H1 as ([] & a2 & H1 & H2). injection H2 as <-.
  cbn in H1. rewrite accountTransition_run in H1. by injection H1 as _ <-.
Qed.

(** ** An example *)

Section witnesses.
#[local] Existing Instance caseless_unicode.

Definition annNew : AccountAggregate :=
  AccountAggregate.mk (mkRoot "a1" accountAggregateType 0 0 []) AccountState.zero.
Definition annRegister : AccountCommandOf :=
  CmdRegister (Email.mk "ann@mail.org") (HashedPassword.mk "hash") "Ann".
Definition annBorn : AccountAggregate := (runAccountCommand annRegister 5 annNew).2.

Lemma account_history_tells_witness :
  account_history "a1" annBorn [EventAccountCreated "a1" "ann@mail.org" "hash" "Ann" AccountStatusActive 5] /\
  IsRegistered annBorn = true.
Proof.
  assert (account_history "a1" annBorn
    [EventAccountCreated "a1" "ann@mail.org" "hash" "Ann" AccountStatusActive 5]) as H.
  { apply (history_command "a1" annRegister 5 annNew annBorn (Ok tt) []); [|reflexivity].
    apply history_new. reflexivity. }
  split; [exact H|]. exact (proj1 (proj2 (account_history_tells "a1" _ _ H))).
Defined.
End witnesses.
