(* ===== verification/AccountStoreSpec.v ===== *)
(** * What the repositories of accounts do

    Over the tables ([AccountTables]): reading changes nothing, a transaction
    that fails leaves the tables as they were, and an account that was saved is
    loaded as it was. *)

From stdpp Require Import prelude strings gmap sorting.
From S2P Require Import Prelude GoStrings Database Event Redis Locks.
From S2P Require Import AccountEntity AccountAggregate AccountStore AccountSpec.

(** Encoding does not panic. *)
Class JSONTotal (E : Type) `{JSON E} := Marshal_no_panic (d : E) why : Marshal d <> Panic why.

(** The prototype of an event. *)
Definition accountPrototype (d : AccountEventData) : option string :=
  if knownEvent d then Some (accountEventName d) else None.

Section spec.
Context `{UC : UnicodeCase} `{MA : MailAddress} {W : Type}.
Context `{RT : Runtime W} `{RD : Redis W} `{RL : !RedisLaws W}.
Context `{SQL : AccountSQL W} `{Laws : !AccountSQLLaws W}.
Context `{EJ : JSON AccountEventData} `{EL : !JSONLaws AccountEventData accountPrototype}.
Context `{AJ : JSON Account} `{AT : !JSONTotal Account} `{SJ : JSON Session} `{ST : !JSONTotal Session}.
Context (cacheTime : Z).

Notation hooks := (list (method W unit)).
Notation repo := (method (W * hooks)).

(** ** Reading *)

Definition sameTables (w w' : W) : Prop := accountTables w' = accountTables w.

#[export] Instance sameTables_preorder : PreOrder sameTables.
Proof using Type. split; unfold sameTables; [by intros w|]. intros w1 w2 w3 H1 H2. congruence. Qed.

Lemma effect_keeps {A} (m : method W A) (P : A -> W -> Prop) :
  (forall w, effect accountTables m w (fun a w' => accountTables w' = accountTables w /\ P a w)) ->
  keeps sameTables m.
Proof using Type.
  intros H w. specialize (H w). unfold effect, sameTables in *.
  destruct (m w) as [[a|e|why] w']; cbn; tauto.
Qed.

Lemma clock_keeps : keeps sameTables clock.
Proof using Type. by intros w. Qed.
Lemma selectAccountEvents_keeps id : keeps sameTables (selectAccountEvents id).
Proof using Laws. eapply (effect_keeps _ (fun rows w => _)). apply selectAccountEvents_law. Qed.
Lemma selectAccountRow_keeps id : keeps sameTables (selectAccountRow id).
Proof using Laws. eapply (effect_keeps _ (fun rows w => _)). apply selectAccountRow_law. Qed.
Lemma selectAccountRowByEmail_keeps e : keeps sameTables (selectAccountRowByEmail e).
Proof using Laws. eapply (effect_keeps _ (fun rows w => _)). apply selectAccountRowByEmail_law. Qed.
Lemma selectDeviceRow_keeps a id : keeps sameTables (selectDeviceRow a id).
Proof using Laws. eapply (effect_keeps _ (fun rows w => _)). apply selectDeviceRow_law. Qed.
Lemma selectSessionRow_keeps id : keeps sameTables (selectSessionRow id).
Proof using Laws. eapply (effect_keeps _ (fun rows w => _)). apply selectSessionRow_law. Qed.
Lemma selectSessionsOf_keeps a : keeps sameTables (selectSessionsOf a).
Proof using Laws. eapply (effect_keeps _ (fun rows w => _)). apply selectSessionsOf_law. Qed.
Lemma redisSet_keeps k v ttl : keeps sameTables (redisSet k v ttl).
Proof using Laws. intros w. apply redisSet_tables. Qed.
Lemma redisGet_keeps k : keeps sameTables (redisGet k).
Proof using Laws. intros w. apply redisGet_tables. Qed.
Lemma redisDel_keeps k : keeps sameTables (redisDel k).
Proof using Laws. intros w. apply redisDel_tables. Qed.

Hint Resolve clock_keeps selectAccountEvents_keeps selectAccountRow_keeps selectAccountRowByEmail_keeps
  selectDeviceRow_keeps selectSessionRow_keeps selectSessionsOf_keeps redisSet_keeps redisGet_keeps
  redisDel_keeps : keeps.

Lemma loadAccount_keeps id p : keeps sameTables (loadAccount id p).
Proof using Laws. unfold loadAccount, loadProjection. go_keeps. Qed.
Lemma LoadAccount_keeps id : keeps sameTables (LoadAccount id).
Proof using Laws. apply loadAccount_keeps. Qed.
Lemma LoadAccountByEmail_keeps email : keeps sameTables (LoadAccountByEmail email).
Proof using Laws. unfold LoadAccountByEmail, loadProjectionByEmail. go_keeps. Qed.
Lemma GetByAccountAndID_keeps acc id : keeps sameTables (GetByAccountAndID acc id).
Proof using Laws. unfold GetByAccountAndID. go_keeps. Qed.

(** ** Hooks and transactions *)

(** A hook returns, and leaves the tables as they are. *)
Definition hookOK (fn : method W unit) : Prop := forall w, (fn w).1 = Ok tt /\ sameTables w (fn w).2.

Lemma ignoreError_hook (m : method W unit) :
  (forall w why, (m w).1 <> Panic why) -> keeps sameTables m -> hookOK (ignoreError m).
Proof using Type.
  intros Hp Hk w. specialize (Hk w). specialize (Hp w). unfold ignoreError.
  destruct (m w) as [[a|e|why] w']; cbn in *; [done..|]. by destruct (Hp why).
Qed.

Lemma cacheSetObject_hook {A} `{JA : JSON A} `{JT : !JSONTotal A} key (x : A) :
  hookOK (ignoreError (cacheSetObject cacheTime key x)).
Proof using Laws RL.
  apply ignoreError_hook; [|unfold cacheSetObject, SetWithDuration; go_keeps].
  intros w why. unfold cacheSetObject. rewrite lift_bind_run.
  destruct (Marshal x) as [data|e|why'] eqn:Hm; cbn [map_err]; [|done|by apply Marshal_no_panic in Hm].
  unfold SetWithDuration, wrap_err. pose proof (redisSet_replies key data cacheTime w) as Hr.
  unfold replies in Hr. rewrite bind_run.
  destruct (redisSet key data cacheTime w) as [[s|e|why'] w']; by try destruct Hr.
Qed.

Lemma bind_hook (m1 m2 : method W unit) : hookOK m1 -> hookOK m2 -> hookOK (m1;; m2).
Proof using Type.
  intros H1 H2 w. rewrite bind_run. specialize (H1 w) as [Hr Hs].
  destruct (m1 w) as [r w1]. cbn in *. subst r. specialize (H2 w1) as [Hr2 Hs2].
  split; [done|]. by etrans.
Qed.

Lemma flush_hooks (hs : hooks) w : Forall hookOK hs ->
  exists w', flushAfterCommit hs w = (Ok tt, w') /\ sameTables w w'.
Proof using Type.
  unfold flushAfterCommit. intros H. revert w. induction H as [|fn hs Hfn _ IH]; intros w; cbn [range].
  - by exists w.
  - rewrite bind_run. specialize (Hfn w) as [Hr Hs]. unfold id at 1.
    destruct (fn w) as [r w1]. cbn in *. subst r. destruct (IH w1) as (w' & -> & Hw).
    exists w'. split; [done|]. by etrans.
Qed.

(** The hooks that a method of the repositories leaves. *)
Definition goodHooks (s s' : W * hooks) : Prop := Forall hookOK s.2 -> Forall hookOK s'.2.

#[export] Instance goodHooks_preorder : PreOrder goodHooks.
Proof using Type. split; unfold goodHooks; [by intros s|]. auto. Qed.

Lemma onFirst_hooks {A} (m : method W A) : keeps goodHooks (onFirst m).
Proof using Type. intros [w hs]. unfold onFirst, goodHooks. by destruct (m w). Qed.

Lemma runAfterCommit_hooks (fn : method W unit) : hookOK fn -> keeps goodHooks (runAfterCommit true fn).
Proof using Type. intros Hfn [w hs]. unfold goodHooks. cbn. intros H. apply Forall_app. auto. Qed.

(** A transaction commits what its body did, or changes nothing. *)
Lemma accountTransaction_cases {A} (fn : repo A) w r w' :
  keeps goodHooks fn -> WithAccountTransaction fn w = (r, w') ->
  (exists a w1 hs, r = Ok a /\ fn (w, []) = (Ok a, (w1, hs)) /\ accountTables w' = accountTables w1) \/
  (is_ok r = false /\ accountTables w' = accountTables w).
Proof using Laws.
  intros Hk. unfold WithAccountTransaction, rolledBack. destruct (accountBeginError w) as [e|].
  { intros [= <- <-]. by right. }
  specialize (Hk (w, [])). unfold goodHooks in Hk. cbn in Hk.
  destruct (fn (w, [])) as [[a|e|why] [w1 hs]] eqn:Hfn.
  - destruct (accountCommitError w1) as [e|].
    { intros [= <- <-]. right. by rewrite accountRollback_law. }
    destruct (flush_hooks hs w1) as (w2 & Hf & Hs); [by apply Hk|].
    rewrite bind_run, Hf. intros [= <- <-]. left. by exists a, w1, hs.
  - intros [= <- <-]. right. by rewrite accountRollback_law.
  - intros [= <- <-]. right. by rewrite accountRollback_law.
Qed.

Hint Resolve onFirst_hooks runAfterCommit_hooks bind_hook cacheSetObject_hook : keeps.

Lemma SaveAccount_hooks agg : keeps goodHooks (SaveAccount cacheTime true agg).
Proof using Laws RL AT.
  unfold SaveAccount, AccountCacheSet, AccountCacheSetByEmail. go_keeps.
Qed.

Lemma SaveSession_hooks s : keeps goodHooks (SaveSession cacheTime true s).
Proof using Laws RL ST. unfold SaveSession, SessionCacheSet. go_keeps. Qed.

Lemma LoadSession_hooks id : keeps goodHooks (LoadSession cacheTime true id).
Proof using Type. unfold LoadSession. cbn [negb]. go_keeps. Qed.

(** ** What the repositories read and write *)

Lemma onFirst_Ok {A} (m : method W A) w hs a (s' : W * hooks) :
  onFirst m (w, hs) = (Ok a, s') -> exists w', m w = (Ok a, w') /\ s' = (w', hs).
Proof using Type. unfold onFirst. destruct (m w) as [r w'] eqn:E. intros [= -> <-]. by exists w'. Qed.

Lemma runAfterCommit_Ok fn w hs u (s' : W * hooks) :
  runAfterCommit true fn (w, hs) = (Ok u, s') -> s' = (w, hs ++ [fn]).
Proof using Type. by intros [= _ <-]. Qed.

Lemma keeps_tables {A} (m : method W A) w r w' :
  keeps sameTables m -> m w = (r, w') -> accountTables w' = accountTables w.
Proof using Type. intros H Hm. specialize (H w). by rewrite Hm in H. Qed.

Lemma sessionAggregateOf_Ok s a : sessionAggregateOf s = Ok a -> a = Some s.
Proof using Type. unfold sessionAggregateOf. intros H. by go_inv. Qed.

Lemma deviceAggregateOf_Ok d a : deviceAggregateOf d = Ok a -> a = Some d.
Proof using Type. unfold deviceAggregateOf. intros H. by go_inv. Qed.

Lemma LoadSession_Ok id w hs a s' :
  LoadSession cacheTime true id (w, hs) = (Ok a, s') ->
  exists w' s, s' = (w', hs) /\ accountTables w' = accountTables w /\
    sessionRows (accountTables w) !! id = Some s /\ a = Some s.
Proof using Laws.
  unfold LoadSession. cbn [negb]. rewrite bind_run. cbn. intros H.
  apply method_bind_Ok in H as (s & [w1 hs1] & H1 & H).
  apply onFirst_Ok in H1 as (w2 & H1 & [= -> ->]).
  apply (First_Ok accountTables _ _ _ _ _ (selectSessionRow_law id w)) in H1 as [Ht Hs].
  apply method_bind_Ok in H as ([] & s1 & [= <-] & H). unfold lift in H.
  injection H as H <-. apply sessionAggregateOf_Ok in H as ->. by exists w2, s.
Qed.

Lemma SaveSession_Ok a w hs u s' :
  SaveSession cacheTime true a (w, hs) = (Ok u, s') ->
  exists w' hs' s x, s' = (w', hs') /\ a = Some s /\
    upserted stampSession Session.CreatedAt Session.UpdatedAt
      (sessionRows (accountTables w) !! Session.ID s) s x /\
    accountTables w' = setSessionRow x (accountTables w).
Proof using Laws.
  unfold SaveSession. rewrite lift_bind_run. destruct a as [s|]; [|done]. cbn [SessionSnapshot].
  intros H. apply method_bind_Ok in H as ([] & [w1 hs1] & H1 & H).
  apply onFirst_Ok in H1 as (w2 & H1 & [= -> ->]).
  apply (effect_Ok accountTables _ _ _ _ _ (upsertSession_law s w)) in H1 as (_ & _ & x & Hx & Ht).
  apply runAfterCommit_Ok in H as ->. by repeat eexists.
Qed.

Lemma GetByAccountAndID_Ok acc id w a w' :
  GetByAccountAndID acc id w = (Ok a, w') ->
  exists m, accountTables w' = accountTables w /\ deviceRows (accountTables w) !! id = Some m /\
    DeviceModel.ID m = id /\ DeviceModel.AccountID m = acc /\ a = Some (deviceOfModel m).
Proof using Laws.
  unfold GetByAccountAndID. intros H. apply method_bind_Ok in H as (m & w1 & H1 & H).
  apply (First_Ok accountTables _ _ _ _ _ (selectDeviceRow_law acc id w)) in H1 as [Ht (H2 & H3 & H4)].
  unfold lift in H. injection H as H <-. apply deviceAggregateOf_Ok in H as ->. by exists m.
Qed.

Lemma SaveDevice_Ok a w u w' :
  SaveDevice a w = (Ok u, w') ->
  exists d x, a = Some d /\
    (forall id d', deviceRows (accountTables w) !! id = Some d' -> id <> Device.ID d ->
       DeviceModel.AccountID d' = Device.AccountID d -> DeviceModel.DeviceUID d' <> Device.DeviceUID d) /\
    upserted stampDevice DeviceModel.CreatedAt DeviceModel.UpdatedAt
      (deviceRows (accountTables w) !! Device.ID d) (modelOfDevice d) x /\
    accountTables w' = setDeviceRow x (accountTables w).
Proof using Laws.
  unfold SaveDevice. rewrite lift_bind_run. destruct a as [d|]; [|done]. cbn [DeviceSnapshot].
  intros H. apply (effect_Ok accountTables _ _ _ _ _ (upsertDevice_law (modelOfDevice d) w)) in H
    as (Hu & x & Hx & Ht). by exists d, x.
Qed.

(** The rows of the events that an aggregate has pending. *)
Definition rowOf (e : Event AccountEventData) (row : AccountOutboxRow) : Prop :=
  AccountOutboxRow.AggregateID row = AggregateID e /\
    AccountOutboxRow.AggregateType row = AggregateType e /\
    AccountOutboxRow.Version row = Version e /\ AccountOutboxRow.EventName row = EventName e /\
    Marshal (EventData e) = Ok (AccountOutboxRow.EventData row).

Definition addRows (rows : list AccountOutboxRow) (t : AccountTables) : AccountTables :=
  mkAccountTables (accountRows t) (deviceRows t) (sessionRows t) (accountOutbox t ++ rows).

Lemma publishOne_Ok at_ e w w' :
  publishOne AppendAccountOutbox at_ e w = (Ok tt, w') ->
  exists row, rowOf e row /\ accountTables w' = addRows [row] (accountTables w).
Proof using Laws.
  unfold publishOne. intros Hrun. case_decide; [done|]. case_decide; [done|].
  apply wrap_err_Ok in Hrun.
  set (ev := if decide (CreatedAt e <= 0) then _ else e) in Hrun.
  unfold AppendAccountOutbox in Hrun. apply lift_bind_Ok in Hrun as (data & Hm & Hrun).
  apply map_err_Ok in Hm. apply method_bind_Ok in Hrun as (t & w1 & [= <- <-] & Hrun).
  apply (effect_Ok accountTables _ _ _ _ _ (insertAccountOutbox_law _ w)) in Hrun as [_ Ht].
  eexists. split; [|exact Ht]. unfold rowOf. cbn.
  assert (AggregateID ev = AggregateID e /\ AggregateType ev = AggregateType e /\
          Version ev = Version e /\ EventName ev = EventName e /\ EventData ev = EventData e)
    as (-> & -> & -> & -> & <-) by (unfold ev; destruct (decide (CreatedAt e <= 0)); by split_and!).
  by split_and!.
Qed.

Lemma publish_Ok_rows at_ es w w' :
  range es (publishOne AppendAccountOutbox at_) w = (Ok tt, w') ->
  exists rows, Forall2 rowOf es rows /\ accountTables w' = addRows rows (accountTables w).
Proof using Laws.
  revert w. induction es as [|e es IH]; intros w H.
  - injection H as <-. exists []. split; [constructor|]. unfold addRows. rewrite app_nil_r.
    by destruct (accountTables w).
  - apply range_cons_Ok in H as (w1 & H1 & H). apply publishOne_Ok in H1 as (row & Hr & H1).
    apply IH in H as (rows & Hrs & H). exists (row :: rows). split; [by constructor|].
    rewrite H, H1. unfold addRows. cbn. by rewrite <- app_assoc.
Qed.

Lemma publishAccountEvents_Ok agg w agg' w' :
  publishAccountEvents agg w = (Ok agg', w') ->
  agg' = updRoot MarkPersisted agg /\
  exists rows, Forall2 rowOf (events (Root agg)) rows /\
    accountTables w' = addRows rows (accountTables w).
Proof using Laws.
  unfold publishAccountEvents. case_decide as Hn.
  - apply nil_length_inv in Hn. intros [= <- <-]. split; [by rewrite updRoot_MarkPersisted_nil|].
    exists []. rewrite Hn. split; [constructor|]. unfold addRows. rewrite app_nil_r.
    by destruct (accountTables w).
  - unfold PublishAggregate, CloneEvents. destruct (events (Root agg)) as [|e es] eqn:He; [done|].
    unfold Publish. destruct (range (e :: es) _ w) as [[[]|err|why] w1] eqn:Hr; [|done..].
    intros [= <- <-]. split; [done|]. by apply publish_Ok_rows in Hr.
Qed.

Lemma SaveAccount_Ok agg w hs agg' s' :
  SaveAccount cacheTime true agg (w, hs) = (Ok agg', s') ->
  exists x m rows w' hs', s' = (w', hs') /\ Snapshot agg = Ok x /\ agg' = updRoot MarkPersisted agg /\
    (forall id m', accountRows (accountTables w) !! id = Some m' -> id <> Account.ID x ->
       AccountModel.Email m' <> Email.Value (Account.Email x)) /\
    upserted stampAccount AccountModel.CreatedAt AccountModel.UpdatedAt
      (accountRows (accountTables w) !! Account.ID x) (accountToProjectionModel x) m /\
    Forall2 rowOf (events (Root agg)) rows /\
    accountTables w' = addRows rows (setAccountRow m (accountTables w)).
Proof using Laws.
  unfold SaveAccount. rewrite lift_bind_run. destruct (Snapshot agg) as [x|e|why]; [|done..].
  intros H. apply method_bind_Ok in H as (a1 & [w1 hs1] & H1 & H).
  apply onFirst_Ok in H1 as (w2 & H1 & [= -> ->]). unfold ownTransaction in H1. cbn [negb] in H1.
  apply method_bind_Ok in H1 as ([] & w3 & H1 & H2). apply wrap_err_Ok in H1.
  apply (effect_Ok accountTables _ _ _ _ _ (upsertAccount_law _ w)) in H1 as (Hu & m & Hm & Ht).
  apply publishAccountEvents_Ok in H2 as (-> & rows & Hrows & Ht2).
  apply method_bind_Ok in H as ([] & s1 & H1 & H). apply runAfterCommit_Ok in H1 as ->.
  injection H as <- <-. exists x, m, rows. repeat eexists; try done. by rewrite Ht2, Ht.
Qed.

(** *** Loading accounts *)

(** The events of rows. *)
Definition domainOf (row : AccountOutboxRow) (e : Event AccountEventData) : Prop :=
  AggregateID e = AccountOutboxRow.AggregateID row /\ Version e = AccountOutboxRow.Version row /\
  accountToDomainEvent row = Ok e.

Lemma accountToDomainEvents_Ok rows es :
  accountToDomainEvents rows = Ok es <-> Forall2 domainOf rows es.
Proof using Type.
  revert es. induction rows as [|row rows IH]; intros es; cbn [accountToDomainEvents].
  - split; [by intros [= <-]|]. by inversion 1.
  - split.
    + intros H. apply result_bind_Ok in H as (e & He & H). apply result_bind_Ok in H as (es' & Hes & H).
      injection H as <-. constructor; [|by apply IH]. unfold domainOf. split_and!; [| |done];
        unfold accountToDomainEvent in He; destruct (TypeOf _ _ _); try discriminate He;
        apply result_bind_Ok in He as (d & _ & He); by injection He as <-.
    + inversion 1 as [|? e ? es' (_ & _ & He) Hes]; subst. apply IH in Hes. rewrite He.
      cbn [mbind result_bind]. by rewrite Hes.
Qed.

Lemma replayAccount_Ok rows a a' :
  replayAccount rows a = Ok a' <->
  exists es, Forall2 domainOf rows es /\ LoadFromHistory es a = (Ok tt, a').
Proof using Type.
  unfold replayAccount. destruct rows as [|row rows].
  - rewrite decide_False by (cbn; lia). split.
    + intros [= <-]. exists []. by split; [constructor|].
    + intros (es & Hes & H). inversion Hes; subst. by injection H as <-.
  - rewrite decide_True by (cbn; lia). setoid_rewrite <- accountToDomainEvents_Ok. split.
    + intros H. apply result_bind_Ok in H as (es & Hes & H). exists es. split; [done|].
      destruct (LoadFromHistory es a) as [[[]|e|why] a1]; [by injection H as <-|done..].
    + intros (es & -> & H). cbn [mbind result_bind]. by rewrite H.
Qed.

(** What a load makes of the replay and of the stored account. *)
Definition completed (rows : list AccountOutboxRow) (o : option Account) (r agg : AccountAggregate) : Prop :=
  match o with
  | Some x => agg = if decide (length rows = 0%nat) then RestoreFromProjection (Some x) 0 r
                    else MergeProjection (Some x) r
  | None => rows <> [] /\ agg = r
  end.

Definition sortedRows (id : string) (t : AccountTables) (rows : list AccountOutboxRow) : Prop :=
  rows ≡ₚ outboxOf id t /\
  Sorted (fun r r' => AccountOutboxRow.Version r <= AccountOutboxRow.Version r') rows.

Lemma projectionModelToAccount_ID m x : projectionModelToAccount m = Ok x -> Account.ID x = AccountModel.ID m.
Proof using Type. unfold projectionModelToAccount. intros H. by go_inv. Qed.

Lemma projectionModelToAccount_Err m e :
  projectionModelToAccount m = Err e -> errors_Is e "gorm.ErrRecordNotFound" = false.
Proof using Type.
  unfold projectionModelToAccount, NewEmail, NewHashedPassword, normalizePasswordValue, ParseAccountStatus.
  cbv zeta. intros H.
  repeat first [case_decide | destruct (ParseAddress _)]; cbn [mbind result_bind] in H;
    try discriminate H; by injection H as <-.
Qed.

Lemma loadProjection_nil id w o w' :
  nilIfNotFound (loadProjection id) w = (Ok o, w') ->
  accountTables w' = accountTables w /\
  match accountRows (accountTables w) !! id with
  | Some m => exists x, o = Some x /\ projectionModelToAccount m = Ok x
  | None => o = None
  end.
Proof using Laws.
  unfold nilIfNotFound, loadProjection, First. rewrite !bind_run.
  pose proof (selectAccountRow_law id w) as Hl. unfold effect in Hl.
  destruct (selectAccountRow id w) as [[[m|]|e|why] w1]; cbn; [| | |done].
  - destruct Hl as [Ht <-]. destruct (projectionModelToAccount m) as [x|e|why] eqn:Hp; cbn; [| |done].
    + intros [= <- <-]. split; [done|]. by exists x.
    + by rewrite (projectionModelToAccount_Err _ _ Hp).
  - destruct Hl as [Ht <-]. by intros [= <- <-].
  - destruct Hl as [Hf _]. by rewrite (Hf "gorm.ErrRecordNotFound").
Qed.

Lemma loadAccount_Ok id pr w agg w' :
  loadAccount id pr w = (Ok agg, w') ->
  accountTables w' = accountTables w /\
  exists base rows r o,
    NewAccountAggregate id = Ok base /\ sortedRows id (accountTables w) rows /\
    replayAccount rows base = Ok r /\ completed rows o r agg /\
    match pr with
    | Some x => o = Some x
    | None => match accountRows (accountTables w) !! id with
              | Some m => exists x, o = Some x /\ projectionModelToAccount m = Ok x
              | None => o = None
              end
    end.
Proof using Laws.
  unfold loadAccount. intros H. apply lift_bind_Ok in H as (base & Hb & H).
  apply method_bind_Ok in H as (rows & w1 & H1 & H).
  apply (effect_Ok accountTables _ _ _ _ _ (selectAccountEvents_law id w)) in H1 as (Ht & Hrows & Hsort).
  apply lift_bind_Ok in H as (r & Hr & H). apply method_bind_Ok in H as (o & w2 & H2 & H).
  assert (accountTables w2 = accountTables w /\
    match pr with
    | Some x => o = Some x
    | None => match accountRows (accountTables w) !! id with
              | Some m => exists x, o = Some x /\ projectionModelToAccount m = Ok x
              | None => o = None
              end
    end) as [Ht2 Ho].
  { destruct pr as [x|]; [by injection H2 as <- <-|]. apply loadProjection_nil in H2.
    by rewrite Ht in H2. }
  split; [|exists base, rows, r, o; split_and!; try done].
  - destruct o; [by injection H as _ <-|]. case_decide; [done|by injection H as _ <-].
  - destruct o; [by injection H as <- _|]. case_decide; [done|]. injection H as <- _.
    split; [|done]. by intros ->.
Qed.

(** Loading, where the rows replay and the stored account is one. *)
Lemma LoadAccount_effect id w base m x agg :
  NewAccountAggregate id = Ok base ->
  (forall rows, sortedRows id (accountTables w) rows ->
     exists r, replayAccount rows base = Ok r /\ completed rows (Some x) r agg) ->
  accountRows (accountTables w) !! id = Some m -> projectionModelToAccount m = Ok x ->
  effect accountTables (LoadAccount id) w (fun a w' => accountTables w' = accountTables w /\ a = agg).
Proof using Laws.
  intros Hb Hrows Hm Hx. unfold effect, LoadAccount, loadAccount. rewrite Hb, lift_bind_run, bind_run.
  pose proof (selectAccountEvents_law id w) as Hl. unfold effect in Hl.
  destruct (selectAccountEvents id w) as [[rows|e|why] w1]; [|done..].
  destruct Hl as (Ht & Hr). destruct (Hrows rows Hr) as (r & Hrep & Hc).
  rewrite lift_bind_run, Hrep, bind_run. unfold nilIfNotFound, loadProjection, First. rewrite !bind_run.
  pose proof (selectAccountRow_law id w1) as Hl. unfold effect in Hl. rewrite Ht, Hm in Hl.
  destruct (selectAccountRow id w1) as [[o|e|why] w2]; cbn.
  - destruct Hl as [Ht2 ->]. cbn. rewrite Hx. cbn. split; [congruence|]. cbn in Hc. by rewrite Hc.
  - destruct Hl as [Hf Ht2]. rewrite (Hf "gorm.ErrRecordNotFound"). split; [done|congruence].
  - congruence.
Qed.

(** The id of an account that was loaded. *)
Lemma replay_id id es a a' :
  Forall (fun e => AggregateID e = id) es ->
  AccountState.AccountID (AccountAggregate.state a) = "" \/
  AccountState.AccountID (AccountAggregate.state a) = id ->
  LoadFromHistory es a = (Ok tt, a') ->
  AccountState.AccountID (AccountAggregate.state a') = "" \/
  AccountState.AccountID (AccountAggregate.state a') = id.
Proof using Type.
  intros Hes Ha H. apply LoadFromHistory_state in H as ->. revert Ha.
  generalize (AccountAggregate.state a) as s. induction Hes as [|e es He _ IH]; intros s Hs; [done|].
  cbn [foldl]. apply IH. rewrite He. destruct (EventData e); cbn; auto.
Qed.

Lemma loadAccount_id id pr w agg w' :
  accounts_keyed (accountTables w) -> loadAccount id pr w = (Ok agg, w') ->
  match pr with Some x => Account.ID x = id | None => True end ->
  AccountState.AccountID (AccountAggregate.state agg) = "" \/
  AccountState.AccountID (AccountAggregate.state agg) = id.
Proof using Laws.
  intros (Hkey & _) H Hpr. apply loadAccount_Ok in H as (_ & base & rows & r & o & Hb & [Hp _] & Hr & Hc & Ho).
  apply replayAccount_Ok in Hr as (es & Hes & Hr). apply NewAccountAggregate_Ok in Hb as [_ ->].
  apply (replay_id id) in Hr; [| |by left].
  2:{ apply Forall_forall. intros e He. apply list_elem_of_lookup in He as [i Hi].
      destruct (Forall2_lookup_r _ _ _ _ _ Hes Hi) as (row & Hrow & (-> & _)).
      apply list_elem_of_lookup_2 in Hrow. rewrite Hp in Hrow. by apply list_elem_of_filter in Hrow as [? _]. }
  assert (match o with Some x => Account.ID x = id | None => True end) as Hid.
  { destruct pr as [x|]; [by subst|]. destruct (accountRows _ !! id) as [m|] eqn:Hm; [|by subst].
    destruct Ho as (x & -> & Hx). rewrite (projectionModelToAccount_ID _ _ Hx). by apply Hkey. }
  destruct o as [x|]; cbn in Hc; [|by destruct Hc as [_ ->]]. rewrite Hc. case_decide; cbn.
  - by right.
  - unfold orString. case_decide; auto.
Qed.
End spec.

#[export] Hint Resolve onFirst_hooks runAfterCommit_hooks SaveAccount_hooks SaveSession_hooks
  LoadSession_hooks : keeps.

(** What a stamped row shares with the one that was written. *)
Lemma upserted_session old s x :
  upserted stampSession Session.CreatedAt Session.UpdatedAt old s x ->
  Session.ID x = Session.ID s /\ Session.AccountID x = Session.AccountID s /\
  Session.DeviceID x = Session.DeviceID s /\ Session.RefreshTokenHash x = Session.RefreshTokenHash s /\
  Session.Status x = Session.Status s /\ Session.ExpiresAt x = Session.ExpiresAt s.
Proof. destruct old; cbn; [intros [u ->]|intros [_ (c & u & ->)]]; by split_and!. Qed.

Lemma upserted_device old d x :
  upserted stampDevice DeviceModel.CreatedAt DeviceModel.UpdatedAt old d x ->
  DeviceModel.ID x = DeviceModel.ID d /\ DeviceModel.AccountID x = DeviceModel.AccountID d /\
  DeviceModel.DeviceUID x = DeviceModel.DeviceUID d.
Proof. destruct old; cbn; [intros [u ->]|intros [_ (c & u & ->)]]; by split_and!. Qed.

Lemma upserted_account old m x :
  upserted stampAccount AccountModel.CreatedAt AccountModel.UpdatedAt old m x ->
  exists c u, x = stampAccount c u m /\
    match old with
    | Some o => c = AccountModel.CreatedAt o
    | None => AccountModel.CreatedAt m <> 0 -> AccountModel.UpdatedAt m <> 0 ->
              c = AccountModel.CreatedAt m
    end.
Proof.
  destruct old as [o|]; cbn.
  - intros [u ->]. by exists (AccountModel.CreatedAt o), u.
  - intros [H (c & u & ->)]. exists c, u. split; [done|]. intros H1 H2.
    specialize (H H1 H2). by apply (f_equal AccountModel.CreatedAt) in H.
Qed.
