(* ===== verification/AccountSessionSpec.v ===== *)
(** * What the handlers of accounts do to sessions

    Refresh, logout, the password, and the two logins, over the tables. *)

From Stdlib Require Import Ascii.
From stdpp Require Import prelude strings gmap.
From S2P Require Import Prelude GoStrings Database Event ActorContext Redis Locks.
From S2P Require Import AccountEntity AccountAggregate AccountAuth AccountStore.
From S2P Require Import AccountHandlers AccountSpec AccountStoreSpec.

Section sessions.
Context `{UC : UnicodeCase} `{MA : MailAddress} {W : Type}.
Context `{CR : Crypto} `{CL : !CryptoLaws} `{PV : PasetoV2} `{PL : !PasetoLaws}.
Context `{RT : Runtime W} `{RD : Redis W} `{RL : !RedisLaws W}.
Context `{SQL : AccountSQL W} `{Laws : !AccountSQLLaws W}.
Context `{EJ : JSON AccountEventData} `{AJ : JSON Account} `{AT : !JSONTotal Account}.
Context `{SJ : JSON Session} `{ST : !JSONTotal Session} `{TJ : JSON EmailVerificationTokenPayload.t}.
Context (deps : AccountDeps.t W).
Implicit Types (w : W).

Notation h := (AccountDeps.hasher deps).
Notation p := (AccountDeps.paseto deps).
Notation hooks := (list (method W unit)).

Lemma after_Ok {S A} (m : method S A) s a s' : after m s = Ok (a, s') <-> m s = (Ok a, s').
Proof using Type. unfold after. destruct (m s) as [[x|e|why] s1]; naive_solver. Qed.

Lemma issueTokens_Ok account sid did w hs pair s' :
  issueTokens deps account sid did (w, hs) = (Ok pair, s') ->
  s' = (w, hs) /\ issueAccountTokenPair p (now w) account (RefreshTokenSubject.mk sid did) = Ok pair.
Proof using Type. unfold issueTokens. intros H. by injection H as H <-. Qed.

Lemma issueTokens_hooks account sid did : keeps goodHooks (issueTokens deps account sid did).
Proof using Type. by intros [w hs]. Qed.

Hint Resolve issueTokens_hooks : keeps.

Lemma refreshBody_hooks t claims req : keeps goodHooks (refreshBody deps t claims req).
Proof using Laws RL ST. unfold refreshBody, notFoundAs. go_keeps. Qed.

Lemma loginDevice_hooks id t x reg : keeps goodHooks (loginDevice id t x reg).
Proof using Type. unfold loginDevice. go_keeps. Qed.
Hint Resolve loginDevice_hooks : keeps.
Lemma loginBody_hooks id sid t x reg : keeps goodHooks (loginBody deps id sid t x reg).
Proof using Laws RL ST. unfold loginBody. go_keeps. Qed.

Lemma revokeSessions_hooks reason t id : keeps goodHooks (revokeSessions deps reason t id).
Proof using Laws RL ST. unfold revokeSessions. go_keeps. apply (keeps_range goodHooks). intros ? ?. go_keeps. Qed.
Hint Resolve revokeSessions_hooks : keeps.
Lemma changePasswordBody_hooks t id a : keeps goodHooks (changePasswordBody deps t id a).
Proof using Laws RL ST AT. unfold changePasswordBody. go_keeps. Qed.

(** ** Refresh *)

(** The rows of sessions after [s] was rotated to the hash of [pair]. *)
Definition rotatedTo (s s' : Session) (pair : issuedTokenPair.t) : Prop :=
  Session.ID s' = Session.ID s /\ Session.AccountID s' = Session.AccountID s /\
  Session.DeviceID s' = Session.DeviceID s /\ Session.Status s' = SessionStatusActive /\
  Session.ExpiresAt s' = issuedTokenPair.refreshExpiresAt pair /\
  Hash h (issuedTokenPair.refreshToken pair) = Ok (Session.RefreshTokenHash s').

Lemma SessionRotate_Ok hash exp t ip ua s a :
  SessionRotate hash exp t ip ua (Some s) = (Ok tt, a) -> TrimSpace hash = hash ->
  exists s', a = Some s' /\ Session.ID s' = Session.ID s /\ Session.AccountID s' = Session.AccountID s /\
    Session.DeviceID s' = Session.DeviceID s /\ Session.Status s' = SessionStatusActive /\
    Session.ExpiresAt s' = exp /\ Session.RefreshTokenHash s' = hash.
Proof using Type.
  unfold SessionRotate, Rotate. cbv zeta. intros H Ht. rewrite Ht in H. case_decide; [done|].
  injection H as <-. eexists. by split_and!.
Qed.

Lemma refreshBody_Ok t claims req w hs res s1 :
  refreshBody deps t claims req (w, hs) = (Ok res, s1) ->
  exists s s' pair,
    sessionRows (accountTables w) !! PasetoPayload.SessionID claims = Some s /\
    Session.AccountID s = PasetoPayload.AccountID claims /\
    Session.DeviceID s = PasetoPayload.DeviceID claims /\
    Verify h (RefreshRequest.RefreshToken req) (Session.RefreshTokenHash s) = Ok true /\
    EnsureRefreshAllowed t s = Ok tt /\ res = tokenResponse pair /\ rotatedTo s s' pair /\
    sessionRows (accountTables s1.1) = <[Session.ID s := s']> (sessionRows (accountTables w)) /\
    accountRows (accountTables s1.1) = accountRows (accountTables w) /\
    accountOutbox (accountTables s1.1) = accountOutbox (accountTables w).
Proof using Laws CL.
  unfold refreshBody, notFoundAs. intros H.
  apply method_bind_Ok in H as (a & s2 & H1 & H). apply wrap_err_Ok in H1.
  apply LoadSession_Ok in H1 as (w2 & s & -> & Ht2 & Hs & ->).
  rewrite lift_bind_run in H. cbn [SessionSnapshot] in H. case_decide as Hids; [done|].
  apply lift_bind_Ok in H as (valid & Hv & H). apply map_err_Ok in Hv. destruct valid; [|done].
  cbn [negb SessionEnsureRefreshAllowed] in H. destruct (EnsureRefreshAllowed t s) as [[]|e|why] eqn:Ha.
  2:{ cbv zeta in H. destruct (if errors_Is _ _ then _ else _) as [changed agg]. apply method_bind_Ok in H as (? & ? & _ & H). discriminate H. }
  2:{ discriminate H. }
  apply method_bind_Ok in H as (acct & s3 & H1 & H). apply wrap_err_Ok, onFirst_Ok in H1 as (w3 & H1 & ->).
  pose proof (keeps_tables _ _ _ _ (LoadAccount_keeps _) H1) as Ht3.
  apply lift_bind_Ok in H as (x & _ & H).
  apply method_bind_Ok in H as (d & s4 & H2 & H). apply wrap_err_Ok, onFirst_Ok in H2 as (w4 & H2 & ->).
  pose proof (keeps_tables _ _ _ _ (GetByAccountAndID_keeps _ _) H2) as Ht4.
  apply lift_bind_Ok in H as ([[] d'] & _ & H).
  apply method_bind_Ok in H as ([] & s5 & H3 & H). apply wrap_err_Ok, onFirst_Ok in H3 as (w5 & H3 & ->).
  apply SaveDevice_Ok in H3 as (d1 & d2 & _ & _ & _ & Ht5).
  apply method_bind_Ok in H as (pair & s6 & H4 & H). apply issueTokens_Ok in H4 as [-> _].
  apply lift_bind_Ok in H as (hash & Hh & H). apply lift_bind_Ok in H as ([[] agg] & Hr & H).
  destruct (Hash_trimmed _ _ _ Hh) as [Htrim _].
  apply after_Ok, SessionRotate_Ok in Hr as (s' & -> & R1 & R2 & R3 & R4 & R5 & R6); [|done].
  apply method_bind_Ok in H as ([] & s7 & H5 & H). apply wrap_err_Ok in H5.
  apply SaveSession_Ok in H5 as (w7 & hs7 & s'' & y & -> & [= <-] & Hy & Ht7).
  apply upserted_session in Hy as (Y1 & Y2 & Y3 & Y4 & Y5 & Y6). injection H as <- <-.
  exists s, y, pair. cbn [fst]. rewrite Ht7, Ht5, Ht4, Ht3, Ht2. unfold rotatedTo. cbn.
  assert (Session.AccountID s = PasetoPayload.AccountID claims /\
          Session.DeviceID s = PasetoPayload.DeviceID claims) as [Hid1 Hid2]
    by (split; apply dec_stable; tauto).
  split_and!; try congruence.
Qed.

(** The times of a token only decide whether it is accepted. *)
Lemma ParseRefreshToken_stable t1 t2 token c1 c2 :
  ParseRefreshToken p t1 token = Ok c1 -> ParseRefreshToken p t2 token = Ok c2 -> c1 = c2.
Proof using Type.
  unfold ParseRefreshToken, parseToken. destruct (VerifyToken _ _) as [tok|e|why]; [|done..].
  cbn [mbind result_bind]. do 2 (case_decide; [done|]). intros H1 H2.
  destruct (decide (IsZero (JSONToken.Expiration tok) = false /\ JSONToken.Expiration tok < t1)); [done|].
  destruct (decide (IsZero (JSONToken.Expiration tok) = false /\ JSONToken.Expiration tok < t2)); [done|].
  congruence.
Qed.

Lemma RefreshHandle_cases req w r w' :
  RefreshHandle deps req w = (r, w') ->
  (exists claims s s' pair,
     r = Ok (tokenResponse pair) /\
     ParseRefreshToken p (now w) (RefreshRequest.RefreshToken req) = Ok claims /\
     sessionRows (accountTables w) !! PasetoPayload.SessionID claims = Some s /\
     Session.AccountID s = PasetoPayload.AccountID claims /\
     Session.DeviceID s = PasetoPayload.DeviceID claims /\
     Verify h (RefreshRequest.RefreshToken req) (Session.RefreshTokenHash s) = Ok true /\
     EnsureRefreshAllowed (now w) s = Ok tt /\ rotatedTo s s' pair /\
     sessionRows (accountTables w') = <[Session.ID s := s']> (sessionRows (accountTables w)) /\
     accountRows (accountTables w') = accountRows (accountTables w) /\
     accountOutbox (accountTables w') = accountOutbox (accountTables w)) \/
  (is_ok r = false /\ accountTables w' = accountTables w).
Proof using Laws CL RL ST.
  unfold RefreshHandle. rewrite bind_run. cbn [clock]. rewrite lift_bind_run.
  destruct (ParseRefreshToken _ _ _) as [claims|e|why] eqn:Hp; cbn [map_err];
    [|intros [= <- <-]; by right..].
  rewrite bind_run. cbn [clock]. intros H.
  apply accountTransaction_cases in H as [(res & w1 & hs & -> & Hb & Ht)|?]; [|by right|apply refreshBody_hooks].
  left. apply refreshBody_Ok in Hb as (s & s' & pair & Hs & H1 & H2 & H3 & H4 & -> & H5 & H6 & H7 & H8).
  cbn in H6, H7, H8. exists claims, s, s', pair. rewrite Ht. by split_and!.
Qed.

(** ** Revoking the sessions of an account *)

Definition revoked (s s' : Session) : Prop :=
  Session.ID s' = Session.ID s /\ Session.AccountID s' = Session.AccountID s /\
  Session.Status s' = SessionStatusRevoked.

Lemma Revoke_revoked reason t s : revoked s (Revoke reason t s).2.
Proof using Type. unfold Revoke, revoked. case_decide; by split_and!. Qed.

(** One turn of the loop. *)
Lemma revokeOne_Ok reason t s w hs u s1 :
  sessionRows (accountTables w) !! Session.ID s = Some s ->
  ('(changed, sessionAgg) ← lift (after (SessionRevoke reason t) (Some s));
   if negb changed then mret tt
   else SaveSession (AccountDeps.cacheTime deps) true sessionAgg) (w, hs) = (Ok u, s1) ->
  exists s', revoked s s' /\
    accountTables s1.1 = mkAccountTables (accountRows (accountTables w)) (deviceRows (accountTables w))
      (<[Session.ID s := s']> (sessionRows (accountTables w))) (accountOutbox (accountTables w)).
Proof using Laws.
  intros Hrow H. apply lift_bind_Ok in H as ([changed agg] & Hr & H). apply after_Ok in Hr.
  unfold SessionRevoke in Hr. pose proof (Revoke_revoked reason t s) as Hrev.
  unfold Revoke in Hr, Hrev. case_decide as Hst.
  - injection Hr as <- <-. injection H as <- <-. exists s. split; [exact Hrev|].
    cbn. rewrite insert_id by done. by destruct (accountTables w).
  - injection Hr as <- <-. cbn [negb] in H.
    apply SaveSession_Ok in H as (w1 & hs1 & x & y & -> & [= <-] & Hy & Ht).
    apply upserted_session in Hy as (Y1 & Y2 & _ & _ & Y5 & _). exists y. cbn in *.
    split; [by unfold revoked; rewrite Y1, Y2, Y5|]. rewrite Ht. unfold setSessionRow. by rewrite Y1.
Qed.

Lemma revokeRange_Ok reason t (l : list Session) w hs u s1 :
  NoDup (Session.ID <$> l) ->
  (forall s, s ∈ l -> sessionRows (accountTables w) !! Session.ID s = Some s) ->
  range (Some <$> l) (fun sessionAgg =>
    '(changed, sessionAgg) ← lift (after (SessionRevoke reason t) sessionAgg);
    if negb changed then mret tt
    else SaveSession (AccountDeps.cacheTime deps) true sessionAgg) (w, hs) = (Ok u, s1) ->
  accountRows (accountTables s1.1) = accountRows (accountTables w) /\
  (forall s, s ∈ l -> exists s', revoked s s' /\ sessionRows (accountTables s1.1) !! Session.ID s = Some s') /\
  (forall id, id ∉ Session.ID <$> l ->
     sessionRows (accountTables s1.1) !! id = sessionRows (accountTables w) !! id).
Proof using Laws.
  destruct u. revert w hs. induction l as [|s l IH]; intros w hs Hnd Hrows H.
  - injection H as <-. split_and!; [done| |done]. by intros s ?%not_elem_of_nil.
  - rewrite fmap_cons in H. rewrite fmap_cons in Hnd. apply NoDup_cons in Hnd as [Hs Hnd].
    apply range_cons_Ok in H as ([w1 hs1] & H1 & H).
    apply revokeOne_Ok in H1 as (s' & Hrev & Ht); [|apply Hrows; by left]. cbn [fst] in Ht.
    apply IH in H as (Ha & Hl & Ho); [|done|].
    2:{ intros x Hx. rewrite Ht. cbn. rewrite lookup_insert_ne; [apply Hrows; by right|].
        intros Heq. apply Hs. rewrite Heq. by apply list_elem_of_fmap_2. }
    rewrite Ht in Ha, Ho. cbn in Ha, Ho. split_and!; [done| |].
    + intros x [->|Hx]%elem_of_cons; [|by apply Hl]. exists s'. split; [done|].
      rewrite Ho by done. apply lookup_insert_eq.
    + intros id Hid. rewrite fmap_cons in Hid. apply not_elem_of_cons in Hid as [Hne Hid].
      rewrite Ho by done. by apply lookup_insert_ne.
Qed.

Lemma sessionAggregatesOf_Ok l aggs : sessionAggregatesOf l = Ok aggs -> aggs = Some <$> l.
Proof using Type.
  revert aggs. induction l as [|s l IH]; intros aggs H; cbn in H; [by injection H as <-|].
  apply result_bind_Ok in H as (a & Ha & H). apply sessionAggregateOf_Ok in Ha as ->.
  apply result_bind_Ok in H as (rest & Hr & H). injection H as <-. by rewrite (IH _ Hr).
Qed.

(** The sessions of [acc] are revoked, others stay, and none is added. *)
Definition allRevoked (acc : string) (before after_ : gmap string Session) : Prop :=
  forall id, match before !! id with
             | Some s => if decide (Session.AccountID s = acc)
                         then exists s', revoked s s' /\ after_ !! id = Some s'
                         else after_ !! id = Some s
             | None => after_ !! id = None
             end.

Lemma revokeSessions_Ok reason t acc w hs u s1 :
  accounts_keyed (accountTables w) ->
  revokeSessions deps reason t acc (w, hs) = (Ok u, s1) ->
  accountRows (accountTables s1.1) = accountRows (accountTables w) /\
  allRevoked acc (sessionRows (accountTables w)) (sessionRows (accountTables s1.1)).
Proof using Laws.
  intros (_ & _ & Hkey). unfold revokeSessions, ListSessionsByAccountID. intros H.
  apply method_bind_Ok in H as (aggs & s2 & H1 & H). apply onFirst_Ok in H1 as (w2 & H1 & ->).
  apply method_bind_Ok in H1 as (l & w3 & H1 & H2). unfold lift in H2. injection H2 as H2 <-.
  apply sessionAggregatesOf_Ok in H2 as ->.
  apply (effect_Ok accountTables _ _ _ _ _ (selectSessionsOf_law acc w)) in H1 as [Ht Hl].
  set (m := sessionRows (accountTables w)) in *.
  set (ml := map_to_list (filter (fun x => Session.AccountID x.2 = acc) m)) in *.
  assert (Hin : forall id s, (id, s) ∈ ml <-> m !! id = Some s /\ Session.AccountID s = acc)
    by (intros id s; unfold ml; by rewrite elem_of_map_to_list, map_lookup_filter_Some).
  assert (Hids : Session.ID <$> ml.*2 = ml.*1).
  { rewrite <- list_fmap_compose. apply list_fmap_ext. intros i [id s] Hi. cbn.
    apply (Hkey id). by apply Hin, (list_elem_of_lookup_2 _ i). }
  assert (Hmem : forall s, s ∈ l <-> m !! Session.ID s = Some s /\ Session.AccountID s = acc).
  { intros s. rewrite Hl, list_elem_of_fmap. split.
    - intros ([id x] & -> & Hx). apply Hin in Hx as [Hx Hx2]. cbn. by rewrite (Hkey id x).
    - intros Hs. exists (Session.ID s, s). split; [done|]. by apply Hin. }
  apply revokeRange_Ok in H as (Ha & Hr & Ho).
  2:{ rewrite Hl, Hids. apply NoDup_fst_map_to_list. }
  2:{ intros s Hs. rewrite Ht. by apply Hmem. }
  rewrite Ht in Ha, Ho. split; [done|]. intros id. destruct (m !! id) as [s|] eqn:Hid.
  - pose proof (Hkey id s Hid) as Hk. subst id. case_decide as Hacc.
    + apply Hr. by apply Hmem.
    + rewrite Ho; [done|]. intros (x & Hx & Hxl)%list_elem_of_fmap. apply Hmem in Hxl as [Hx1 Hx2].
      rewrite <- Hx, Hid in Hx1. congruence.
  - rewrite Ho; [done|]. intros (x & -> & Hxl)%list_elem_of_fmap. apply Hmem in Hxl as [Hx1 _]. congruence.
Qed.

(** ** Logins *)

Lemma NewDevice_Ok id acc reg t d :
  NewDevice id acc reg t = Ok d ->
  Device.ID d = TrimSpace id /\ Device.AccountID d = TrimSpace acc /\
  Device.DeviceUID d = TrimSpace (DeviceRegistration.DeviceUID reg).
Proof using Type.
  unfold NewDevice, RefreshRegistration. cbv zeta. intros H. case_decide; [done|].
  apply result_bind_Ok in H as (ty & _ & H). case_decide; [done|]. cbn [Device.DeviceUID] in H.
  rewrite decide_False in H by tauto.
  destruct (currentOrIncomingDeviceType _ _); [|done..]. by injection H as <-.
Qed.

Lemma DeviceRegister_Ok id acc reg t a d :
  NewDeviceAggregate id = Ok a -> DeviceRegister acc reg t a = (Ok tt, d) ->
  exists x, d = Some x /\ Device.ID x = TrimSpace id /\ Device.AccountID x = TrimSpace acc /\
    Device.DeviceUID x = TrimSpace (DeviceRegistration.DeviceUID reg).
Proof using Type.
  unfold NewDeviceAggregate. cbv zeta. case_decide; [done|]. intros [= <-]. unfold DeviceRegister.
  cbn [Device.ID]. case_decide; [done|].
  destruct (NewDevice _ _ _ _) as [x|e|why] eqn:Hx; [|done..]. intros [= <-].
  apply NewDevice_Ok in Hx as (H1 & H2 & H3). exists x. by rewrite H1, TrimSpace_idem.
Qed.

Lemma DeviceRefreshRegistration_Ok reg t x d :
  DeviceRefreshRegistration reg t (Some x) = (Ok tt, d) ->
  exists y, d = Some y /\ Device.ID y = Device.ID x /\ Device.AccountID y = Device.AccountID x /\
    Device.DeviceUID y = TrimSpace (DeviceRegistration.DeviceUID reg).
Proof using Type.
  unfold DeviceRefreshRegistration, RefreshRegistration. cbv zeta.
  case_decide; [done|]. case_decide; [done|].
  destruct (currentOrIncomingDeviceType _ _); [|done..]. intros [= <-]. eexists. by split_and!.
Qed.

(** The device of a login is saved under the UID of the client, as a new one or
    as the one whose id is that UID. *)
Lemma loginDevice_Ok deviceID t x reg w hs a s1 :
  loginDevice deviceID t x reg (w, hs) = (Ok a, s1) ->
  exists d, a = Some d /\
    (Device.ID d = TrimSpace deviceID /\ Device.AccountID d = TrimSpace (Account.ID x) \/
     Device.ID d = DeviceRegistration.DeviceUID reg /\ Device.AccountID d = Account.ID x) /\
    (forall id d', deviceRows (accountTables w) !! id = Some d' -> id <> Device.ID d ->
       DeviceModel.AccountID d' = Device.AccountID d ->
       DeviceModel.DeviceUID d' <> TrimSpace (DeviceRegistration.DeviceUID reg)).
Proof using Laws.
  unfold loginDevice. intros H. apply method_bind_Ok in H as (found & s2 & H1 & H).
  apply wrap_err_Ok, onFirst_Ok in H1 as (w2 & H1 & ->).
  assert (accountTables w2 = accountTables w) as Ht2.
  { eapply keeps_tables; [|exact H1]. apply keeps_nilIfNotFound, GetByAccountAndID_keeps. }
  apply method_bind_Ok in H as ([[] d] & s3 & H2 & H).
  assert (s3 = (w2, hs) /\ exists y, d = Some y /\
    (Device.ID y = TrimSpace deviceID /\ Device.AccountID y = TrimSpace (Account.ID x) \/
     Device.ID y = DeviceRegistration.DeviceUID reg /\ Device.AccountID y = Account.ID x) /\
    Device.DeviceUID y = TrimSpace (DeviceRegistration.DeviceUID reg)) as (-> & y & -> & Hy & Huid).
  { destruct found as [b|].
    - unfold lift in H2. injection H2 as H2 <-. apply after_Ok in H2. split; [done|].
      unfold nilIfNotFound in H1. destruct (GetByAccountAndID _ _ w) as [[b'|e|why] w3] eqn:Hg; [| |done].
      2:{ destruct (errors_Is e _); discriminate H1. }
      injection H1 as -> ->. apply GetByAccountAndID_Ok in Hg as (m & _ & _ & Hid & Hacc & ->).
      apply DeviceRefreshRegistration_Ok in H2 as (y & -> & Y1 & Y2 & Y3).
      exists y. split_and!; [done| |done]. right. rewrite Y1, Y2. by split.
    - apply lift_bind_Ok in H2 as (b & Hb & H2). unfold lift in H2. injection H2 as H2 <-.
      split; [done|]. apply after_Ok in H2. eapply DeviceRegister_Ok in H2 as (y & -> & Y1 & Y2 & Y3); [|done].
      exists y. split_and!; [done| |done]. left. by split. }
  apply method_bind_Ok in H as ([] & s4 & H3 & H). apply wrap_err_Ok, onFirst_Ok in H3 as (w3 & H3 & ->).
  apply SaveDevice_Ok in H3 as (d0 & d1 & [= <-] & Hu & _). injection H as <- _.
  exists y. split_and!; [done..|]. rewrite Ht2, Huid in Hu. exact Hu.
Qed.

(** A login that found its account, and runs its transaction. *)
Lemma LoginHandle_Ok deviceID sessionID req w res w' :
  accounts_keyed (accountTables w) ->
  LoginHandle deps deviceID sessionID req w = (Ok res, w') ->
  exists email m w1 w2 hs t x,
    NewEmail (LoginRequest.Email req) = Ok email /\
    accountRows (accountTables w) !! AccountModel.ID m = Some m /\
    AccountModel.Email m = Email.Value email /\
    (Account.ID x = "" \/ Account.ID x = AccountModel.ID m) /\
    accountTables w1 = accountTables w /\
    loginBody deps deviceID sessionID t x (LoginRequest.Device req) (w1, []) = (Ok res, (w2, hs)) /\
    accountTables w' = accountTables w2.
Proof using Laws RL ST.
  intros Hkey. unfold LoginHandle, notFoundAs. rewrite bind_run. cbn [clock]. intros H.
  apply lift_bind_Ok in H as (email & He & H). apply lift_bind_Ok in H as (pw & _ & H).
  apply method_bind_Ok in H as (agg & w1 & H1 & H). apply wrap_err_Ok in H1.
  pose proof (keeps_tables _ _ _ _ (LoadAccountByEmail_keeps _) H1) as Ht1.
  unfold LoadAccountByEmail, loadProjectionByEmail in H1.
  apply method_bind_Ok in H1 as (p0 & w0 & H0 & H1). apply method_bind_Ok in H0 as (m & w00 & H00 & H0).
  apply (First_Ok accountTables _ _ _ _ _ (selectAccountRowByEmail_law _ w)) in H00 as [Ht0 [Hm Hmail]].
  unfold lift in H0. injection H0 as H0 <-. apply projectionModelToAccount_ID in H0.
  apply loadAccount_id in H1; [|by rewrite Ht0|done]. rewrite H0 in H1.
  apply lift_bind_Ok in H as (cur & _ & H). apply lift_bind_Ok in H as (valid & _ & H).
  destruct valid; [|done]. cbn [negb] in H. apply lift_bind_Ok in H as (x & Hx & H).
  apply accountTransaction_cases in H as [(r & w2 & hs & [= <-] & Hb & Ht)|[? _]]; [|done|apply loginBody_hooks].
  exists email, m, w1, w2, hs, (now w), x. split_and!; try done.
  unfold Snapshot in Hx. go_inv. cbn. exact H1.
Qed.

Lemma SessionCreate_Ok sid acc did hash exp t ip ua a s :
  NewSessionAggregate sid = Ok a -> SessionCreate acc did hash exp t ip ua a = (Ok tt, s) ->
  exists x, s = Some x /\ Session.ID x = TrimSpace sid /\ Session.AccountID x = TrimSpace acc /\
    Session.RefreshTokenHash x = TrimSpace hash /\ Session.Status x = SessionStatusActive.
Proof using Type.
  unfold NewSessionAggregate. cbv zeta. case_decide; [done|]. intros [= <-]. unfold SessionCreate.
  cbn [Session.ID]. case_decide; [done|]. unfold NewSession. cbv zeta. case_decide; [done|].
  intros [= <-]. eexists. cbn. by rewrite TrimSpace_idem.
Qed.

Lemma googleAccount_hooks id pw t email info : keeps goodHooks (googleAccount deps id pw t email info).
Proof using Laws RL AT. unfold googleAccount. go_keeps. Qed.
Hint Resolve googleAccount_hooks : keeps.
Lemma callbackGoogleBody_hooks id pw did sid t email info reg :
  keeps goodHooks (callbackGoogleBody deps id pw did sid t email info reg).
Proof using Laws RL AT ST. unfold callbackGoogleBody. go_keeps. Qed.

(** The session of a login with Google holds no hash. *)
Lemma callbackGoogleBody_Ok id pw did sid t email info reg w hs res s1 :
  callbackGoogleBody deps id pw did sid t email info reg (w, hs) = (Ok res, s1) ->
  exists s, sessionRows (accountTables s1.1) !! TrimSpace sid = Some s /\
    Session.RefreshTokenHash s = TokenResponse.RefreshToken res /\
    has_byte "$"%char (Session.RefreshTokenHash s) = false /\
    exists t x device exp, Account.ID x <> "" /\
      GenerateRefreshToken p t x (RefreshTokenSubject.mk sid device) =
        Ok (TokenResponse.RefreshToken res, exp).
Proof using Laws PL.
  unfold callbackGoogleBody. intros H. apply method_bind_Ok in H as (agg & [w1 hs1] & _ & H).
  apply lift_bind_Ok in H as (x & _ & H). apply method_bind_Ok in H as (d & [w2 hs2] & _ & H).
  apply method_bind_Ok in H as (pair & s3 & H3 & H). apply issueTokens_Ok in H3 as [-> Hpair].
  apply lift_bind_Ok in H as (a & Ha & H). apply lift_bind_Ok in H as ([[] sess] & Hs & H).
  apply after_Ok in Hs. eapply SessionCreate_Ok in Hs as (s & -> & S1 & _ & S2 & _); [|done].
  apply method_bind_Ok in H as ([] & s4 & H4 & H). apply wrap_err_Ok in H4.
  apply SaveSession_Ok in H4 as (w4 & hs4 & y & z & -> & [= <-] & Hz & Ht4).
  apply upserted_session in Hz as (Z1 & _ & _ & Z4 & _). injection H as <- <-. cbn [fst].
  unfold issueAccountTokenPair in Hpair. case_decide as Hid; [done|].
  apply result_bind_Ok in Hpair as ([at_ ae] & _ & Hpair).
  apply result_bind_Ok in Hpair as ([rt re] & Hr & Hpair). injection Hpair as <-.
  apply map_err_Ok in Hr. pose proof Hr as Hgen.
  unfold GenerateRefreshToken, generateToken in Hr. cbv beta iota zeta in Hr.
  apply result_bind_Ok in Hr as (tok & _ & Hr). apply result_bind_Ok in Hr as (str & Hsign & Hr).
  injection Hr as <- <-. apply Sign_token in Hsign as [Htrim Hd]. cbn in *. rewrite Htrim in S2.
  exists z. rewrite Ht4. unfold setSessionRow. cbn. rewrite Z1, S1, lookup_insert_eq.
  split_and!; [done|congruence|by rewrite Z4, S2|]. by repeat eexists.
Qed.
End sessions.
