(* ===== verification/AccountMemory.v ===== *)
(** * Accounts in memory

    Instances of what the model of accounts takes from outside, each with its
    laws: the tables next to a server of Redis in memory, a sum of bytes for
    a hash, tokens that are written as they are, and an encoding of the events.
    They show that the laws can hold; the witnesses are evaluated on them. *)

From Stdlib Require Import Ascii.
From stdpp Require Import prelude strings gmap countable sorting.
From S2P Require Import Prelude GoStrings Database Event BitsEncoding ActorContext Redis Locks.
From S2P Require Import AccountEntity AccountAggregate AccountAuth AccountStore AccountHandlers.
From S2P Require Import AccountStoreSpec.

(** ** The events *)

#[export] Instance AccountEventData_eq_dec : EqDecision AccountEventData.
Proof. solve_decision. Defined.

(** An event as its tag, its strings, its options and its time. *)
Definition eventFields (d : AccountEventData) :
    nat * list string * list (option string) * list (option Time) :=
  match d with
  | EventAccountCreated a e p n s t => (1%nat, [a; e; p; n; s], [], [Some t])
  | EventAccountUpdated a e t => (2%nat, [a; e], [], [Some t])
  | EventAccountProfileUpdated a n u k t => (3%nat, [a; n], [u; k], [Some t])
  | EventAccountEmailVerificationRequested a e k t => (4%nat, [a; e; k], [], [Some t])
  | EventAccountEmailVerified a t => (5%nat, [a], [], [Some t])
  | EventAccountPasswordChanged a p t => (6%nat, [a; p], [], [Some t])
  | EventAccountBanned a r t => (7%nat, [a; r], [], [t])
  | OtherAccountEvent n => (8%nat, [n], [], [])
  end.
Definition eventOfFields (x : nat * list string * list (option string) * list (option Time)) :
    AccountEventData :=
  match x with
  | (1%nat, [a; e; p; n; s], _, [Some t]) => EventAccountCreated a e p n s t
  | (2%nat, [a; e], _, [Some t]) => EventAccountUpdated a e t
  | (3%nat, [a; n], [u; k], [Some t]) => EventAccountProfileUpdated a n u k t
  | (4%nat, [a; e; k], _, [Some t]) => EventAccountEmailVerificationRequested a e k t
  | (5%nat, [a], _, [Some t]) => EventAccountEmailVerified a t
  | (6%nat, [a; p], _, [Some t]) => EventAccountPasswordChanged a p t
  | (7%nat, [a; r], _, [t]) => EventAccountBanned a r t
  | (_, [n], _, _) => OtherAccountEvent n
  | _ => OtherAccountEvent ""
  end.

#[export] Instance AccountEventData_countable : Countable AccountEventData.
Proof. apply (inj_countable' eventFields eventOfFields). by intros []. Defined.

#[export] Instance AccountEventBits : JSON AccountEventData := BitsJSON accountPrototype.
#[export] Instance AccountEventBitsLaws : JSONLaws AccountEventData accountPrototype :=
  BitsJSONLaws accountPrototype.

(** ** Hashes and tokens *)

(** The key of a value is a sum of its bytes, as a number of 61 bits. *)
Definition sumKey (value : string) : Z :=
  foldl (fun acc c => (31 * acc + Z.of_nat (nat_of_ascii c)) `mod` 2 ^ 61) 0
    (String.list_ascii_of_string value).

#[export] Instance PlainCrypto : Crypto := {|
  IDKey value salt _ _ _ _ := bits (Z.to_pos (sumKey value));
  EncodeToString s := bits (encode s);
  DecodeString s := decode (unbits s)
|}.

Lemma bits_alphabet (f : ascii -> bool) p : f "0"%char = true -> f "1"%char = true -> all_bytes f (bits p) = true.
Proof. intros H0 H1. unfold all_bytes. induction p as [p IH|p IH|]; cbn; by rewrite ?IH, ?H0, ?H1. Qed.

#[export] Instance PlainCryptoLaws : CryptoLaws.
Proof.
  split; cbn.
  - intros s. by rewrite unbits_bits, decode_encode.
  - intros s. by apply bits_alphabet.
Qed.

#[export] Instance JSONToken_eq_dec : EqDecision JSONToken.
Proof. solve_decision. Defined.
#[export] Program Instance JSONToken_countable : Countable JSONToken :=
  inj_countable' (fun k => (JSONToken.Issuer k, JSONToken.Subject k, JSONToken.IssuedAt k,
                            JSONToken.Expiration k, JSONToken.claims k))
    (fun '(i, s, a, e, c) => JSONToken.mk i s a e c) _.
Next Obligation. by intros []. Qed.

#[export] Instance PlainPaseto : PasetoV2 := {|
  Sign priv tok := Ok (bits (encode (writtenToken tok)));
  VerifyToken token pub :=
    match decode (unbits token) with
    | Some tok => Ok tok
    | None => Err (Errorf "invalid token" [])
    end;
  KeyPair priv pub := True
|}.

Lemma keys_pair priv pub : KeyPair priv pub.
Proof. exact I. Qed.

#[export] Instance PlainPasetoLaws : PasetoLaws.
Proof.
  split; cbn.
  - intros priv pub tok s _ [= <-]. by rewrite unbits_bits, decode_encode.
  - intros priv tok s [= <-]. by apply bits_alphabet.
Qed.

(** ** The cache

    What is written to it is not read back by what is evaluated. *)

#[export] Instance AccountNames : JSON Account := {|
  Marshal x := Ok (Account.ID x);
  Unmarshal _ _ := Err (Errorf "json: not read" [])
|}.
#[export] Instance AccountNamesTotal : JSONTotal Account.
Proof. done. Qed.
#[export] Instance SessionNames : JSON Session := {|
  Marshal x := Ok (Session.ID x);
  Unmarshal _ _ := Err (Errorf "json: not read" [])
|}.
#[export] Instance SessionNamesTotal : JSONTotal Session.
Proof. done. Qed.

(** ** Redis next to the tables *)

Section first.
Context {W X : Type} `{RD : Redis W} `{RT : Runtime W} `{RL : !RedisLaws W}.

#[export] Instance first_runtime : Runtime (W * X) := {|
  now s := now s.1;
  elapse d s := (elapse d s.1, s.2);
  Int63n_draw n s := Int63n_draw n s.1
|}.

#[export] Instance first_redis : Redis (W * X) := {|
  rdb s := rdb s.1;
  redisSet k v ttl := onFirst (redisSet k v ttl);
  redisSetNX k v ttl := onFirst (redisSetNX k v ttl);
  redisGet k := onFirst (redisGet k);
  redisDel k := onFirst (redisDel k);
  redisExists k := onFirst (redisExists k);
  redisRun f := onFirst (redisRun f)
|}.

Lemma onFirst_replies {A} (m : method W A) w x (Q : A -> W -> Prop) :
  replies m w Q -> replies (onFirst m) (w, x) (fun a s => Q a s.1).
Proof using Type. unfold replies, onFirst. cbn. by destruct (m w) as [[a|e|why] w']. Qed.

Lemma onFirst_replies_nil {A} (m : method W A) w x : replies_nil m w -> replies_nil (onFirst m) (w, x).
Proof using Type. unfold replies_nil, onFirst. cbn. by destruct (m w) as [[a|e|why] w']. Qed.

#[export] Instance first_redis_laws : RedisLaws (W * X).
Proof using RL.
  split.
  - intros k v ttl [w x]. apply (onFirst_replies _ _ _ _ (redisSet_replies k v ttl w)).
  - intros k v ttl [w x] H. apply (onFirst_replies _ _ _ _ (redisSetNX_replies k v ttl w H)).
  - intros k v ttl [w x] H. apply onFirst_replies_nil, redisSetNX_busy, H.
  - intros k v [w x] H. apply (onFirst_replies _ _ _ _ (redisGet_replies k v w H)).
  - intros k [w x] H. apply onFirst_replies_nil, redisGet_missing, H.
  - intros k [w x]. apply (onFirst_replies _ _ _ _ (redisDel_replies k w)).
  - intros k [w x]. apply (onFirst_replies _ _ _ _ (redisExists_replies k w)).
  - intros f [w x]. apply (onFirst_replies _ _ _ _ (redisRun_replies f w)).
  - intros k v ttl [w x]. cbn. unfold onFirst. pose proof (redisSetNX_now k v ttl w) as H.
    by destruct (redisSetNX k v ttl w).
Qed.
End first.

(** ** The statements *)

Notation MemoryAccounts := (MemoryRedis * AccountTables)%type.

Definition uniqueViolation (column : string) : error :=
  Errorf ("duplicate key value violates unique constraint " +:+ column) [].
(** No row is under another key than its own where the tables began empty. *)
Definition misplacedRow : error := Errorf "row under another key" [].
Definition missingReference : error := Errorf "violates foreign key constraint" [].

(** Whether a row under another key satisfies [f]. *)
Definition elsewhere {A} (f : A -> bool) (k : string) (m : gmap string A) : bool :=
  existsb (fun x => bool_decide (x.1 <> k) && f x.2) (map_to_list m).

Lemma elsewhere_false {A} (f : A -> bool) k (m : gmap string A) :
  elsewhere f k m = false -> forall k' x, m !! k' = Some x -> k' <> k -> f x = false.
Proof.
  unfold elsewhere. intros H k' x Hx Hne. destruct (f x) eqn:Hf; [|done]. exfalso.
  apply Bool.not_true_iff_false in H. apply H, existsb_exists. exists (k', x). cbn.
  split; [by apply list_elem_of_In, elem_of_map_to_list|]. by rewrite bool_decide_true, Hf.
Qed.

(** The row that an upsert leaves: the old one keeps its time of creation. *)
Definition upsertRow {A} (stamp : Time -> Time -> A -> A) (created updated : A -> Time)
    (old : option A) (x : A) : A :=
  match old with
  | Some o => stamp (created o) (updated x) x
  | None => x
  end.

Definition rowWith {A} (f : A -> bool) (m : gmap string A) : option A :=
  snd <$> List.find (fun x => f x.2) (map_to_list m).

Lemma rowWith_spec {A} (f : A -> bool) (m : gmap string A) :
  match rowWith f m with
  | Some x => f x = true /\ exists k, m !! k = Some x
  | None => forall k x, m !! k = Some x -> f x = false
  end.
Proof.
  unfold rowWith. destruct (List.find _ _) as [[k x]|] eqn:E; cbn.
  - apply List.find_some in E as [Hin Hf]. split; [done|]. exists k.
    by apply elem_of_map_to_list, list_elem_of_In.
  - intros k x Hx. apply (List.find_none _ _ E (k, x)). by apply list_elem_of_In, elem_of_map_to_list.
Qed.

(** The rows in the order of their versions. *)
#[local] Instance version_dec : RelDecision (fun r r' : AccountOutboxRow =>
  AccountOutboxRow.Version r <= AccountOutboxRow.Version r').
Proof. intros r r'. apply _. Defined.
Definition byVersion (rows : list AccountOutboxRow) : list AccountOutboxRow :=
  merge_sort (fun r r' => AccountOutboxRow.Version r <= AccountOutboxRow.Version r') rows.

#[local] Instance AccountModel_eq_dec : EqDecision AccountModel.
Proof. solve_decision. Defined.

#[export] Instance MemoryAccountSQL : AccountSQL MemoryAccounts := {|
  selectAccountEvents id s := (Ok (byVersion (outboxOf id s.2)), s);
  insertAccountOutbox row s :=
    if existsb (fun r => bool_decide (AccountOutboxRow.Version r = AccountOutboxRow.Version row))
         (outboxOf (AccountOutboxRow.AggregateID row) s.2)
    then (Err (uniqueViolation "version"), s) else (Ok tt, (s.1, addAccountOutbox row s.2));
  selectAccountRow id s := (Ok (accountRows s.2 !! id), s);
  selectAccountRowByEmail email s :=
    (match rowWith (fun m => bool_decide (AccountModel.Email m = email)) (accountRows s.2) with
     | Some m => if decide (accountRows s.2 !! AccountModel.ID m = Some m) then Ok (Some m)
                 else Err misplacedRow
     | None => Ok None
     end, s);
  upsertAccount m s :=
    if elsewhere (fun m' => bool_decide (AccountModel.Email m' = AccountModel.Email m))
         (AccountModel.ID m) (accountRows s.2)
    then (Err (uniqueViolation "email"), s)
    else (Ok tt, (s.1, mkAccountTables
      (<[AccountModel.ID m := upsertRow stampAccount AccountModel.CreatedAt AccountModel.UpdatedAt
           (accountRows s.2 !! AccountModel.ID m) m]> (accountRows s.2))
      (deviceRows s.2) (sessionRows s.2) (accountOutbox s.2)));
  selectDeviceRow acc id s :=
    (match deviceRows s.2 !! id with
     | Some d =>
         if decide (DeviceModel.AccountID d <> acc) then Ok None
         else if decide (DeviceModel.ID d = id) then Ok (Some d) else Err misplacedRow
     | None => Ok None
     end, s);
  upsertDevice d s :=
    if elsewhere (fun d' => bool_decide (DeviceModel.AccountID d' = DeviceModel.AccountID d) &&
                            bool_decide (DeviceModel.DeviceUID d' = DeviceModel.DeviceUID d))
         (DeviceModel.ID d) (deviceRows s.2)
    then (Err (uniqueViolation "uk_dev_acc_uid"), s)
    else (Ok tt, (s.1, mkAccountTables (accountRows s.2)
      (<[DeviceModel.ID d := upsertRow stampDevice DeviceModel.CreatedAt DeviceModel.UpdatedAt
           (deviceRows s.2 !! DeviceModel.ID d) d]> (deviceRows s.2))
      (sessionRows s.2) (accountOutbox s.2)));
  selectSessionRow id s := (Ok (sessionRows s.2 !! id), s);
  upsertSession x s :=
    if elsewhere (fun x' => bool_decide (Session.RefreshTokenHash x' = Session.RefreshTokenHash x))
         (Session.ID x) (sessionRows s.2)
    then (Err (uniqueViolation "refresh_token_hash"), s)
    else match deviceRows s.2 !! Session.DeviceID x with
    | Some d =>
        if decide (DeviceModel.AccountID d = Session.AccountID x) then
          (Ok tt, (s.1, mkAccountTables (accountRows s.2) (deviceRows s.2)
            (<[Session.ID x := upsertRow stampSession Session.CreatedAt Session.UpdatedAt
                 (sessionRows s.2 !! Session.ID x) x]> (sessionRows s.2)) (accountOutbox s.2)))
        else (Err missingReference, s)
    | None => (Err missingReference, s)
    end;
  selectSessionsOf acc s :=
    (Ok (map_to_list (filter (fun x => Session.AccountID x.2 = acc) (sessionRows s.2))).*2, s);
  countMatchingAccounts q s := (Ok 0, s);
  selectMatchingAccounts q offset limit s := (Ok [], s);
  accountErrorText e := match e with Sentinel n => n | Errorf f _ => f end;
  accountBeginError _ := None;
  accountCommitError _ := None;
  accountRollback before after := (after.1, before.2)
|}.

Lemma upsertRow_upserted {A} (stamp : Time -> Time -> A -> A) created updated old (x : A) :
  (forall y, stamp (created y) (updated y) y = y) ->
  upserted stamp created updated old x (upsertRow stamp created updated old x).
Proof.
  intros H. destruct old as [o|]; cbn; [by eexists|]. split; [done|]. by exists (created x), (updated x).
Qed.

Lemma stampAccount_same m : stampAccount (AccountModel.CreatedAt m) (AccountModel.UpdatedAt m) m = m.
Proof. by destruct m. Qed.
Lemma stampDevice_same m : stampDevice (DeviceModel.CreatedAt m) (DeviceModel.UpdatedAt m) m = m.
Proof. by destruct m. Qed.
Lemma stampSession_same m : stampSession (Session.CreatedAt m) (Session.UpdatedAt m) m = m.
Proof. by destruct m. Qed.

Lemma upsertRow_id {A} (key : A -> string) stamp created updated old (x : A) :
  (forall c u y, key (stamp c u y) = key y) -> key (upsertRow stamp created updated old x) = key x.
Proof. intros H. destruct old; cbn; [apply H|done]. Qed.

#[export] Instance MemoryAccountSQLLaws : AccountSQLLaws MemoryAccounts.
Proof.
  refine {| accountTables := snd |}; unfold effect.
  - intros id [r t]. cbn. split_and!; [done|apply merge_sort_Permutation|].
    apply Sorted_merge_sort. intros x y. lia.
  - intros row [r t]. cbn. destruct (existsb _ _) eqn:He; [by split; [intros n|]|]. split; [|done].
    intros x Hx Hv. apply Bool.not_true_iff_false in He. apply He, existsb_exists. exists x.
    split; [by apply list_elem_of_In|]. by apply bool_decide_eq_true.
  - done.
  - intros email [r t]. cbn. pose proof (rowWith_spec (fun m => bool_decide (AccountModel.Email m = email)) (accountRows t)) as H.
    destruct (rowWith _ _) as [m|].
    + destruct H as [H%bool_decide_eq_true _]. case_decide; [done|by split; [intros n|]].
    + split; [done|]. intros id m Hm. by apply H, bool_decide_eq_false in Hm.
  - intros m [r t]. cbn. destruct (elsewhere _ _ _) eqn:He; [by split; [intros n|]|]. split.
    + intros id m' Hm Hne. by eapply elsewhere_false, bool_decide_eq_false in He.
    + eexists. split; [apply upsertRow_upserted, stampAccount_same|]. unfold setAccountRow.
      by rewrite (upsertRow_id AccountModel.ID).
  - intros acc id [r t]. cbn. destruct (deviceRows t !! id) as [d|] eqn:Hd; [|by split].
    case_decide as Hacc; [split; [done|]; by intros d' [= <-]|].
    case_decide; [by split_and!|by split; [intros n|]].
  - intros d [r t]. cbn. destruct (elsewhere _ _ _) eqn:He; [by split; [intros n|]|]. split.
    + intros id d' Hd Hne Hacc Huid. eapply elsewhere_false in He; [|exact Hd|done].
      by rewrite Hacc, Huid, !bool_decide_true in He.
    + eexists. split; [apply upsertRow_upserted, stampDevice_same|]. unfold setDeviceRow.
      by rewrite (upsertRow_id DeviceModel.ID).
  - done.
  - intros x [r t]. cbn. destruct (elsewhere _ _ _) eqn:He; [by split; [intros n|]|].
    destruct (deviceRows t !! Session.DeviceID x) as [d|] eqn:Hd; [|by split; [intros n|]].
    case_decide as Hacc; [|by split; [intros n|]]. split_and!.
    + intros id x' Hx Hne. by eapply elsewhere_false, bool_decide_eq_false in He.
    + by exists d.
    + eexists. split; [apply upsertRow_upserted, stampSession_same|]. unfold setSessionRow.
      by rewrite (upsertRow_id Session.ID).
  - done.
  - done.
  - by intros k v ttl [w t].
  - intros k [w t]. cbn. unfold onFirst. cbn. by destruct (memoryKeys w !! k) as [[]|].
  - by intros k [w t].
  - by intros k [w t].
Defined.

(** ** An account, from its registration *)

Definition plainMail : MailAddress := {| ParseAddress s := Some s |}.
Definition payloadNames : JSON EmailVerificationTokenPayload.t := {|
  Marshal x := Ok (EmailVerificationTokenPayload.AccountID x);
  Unmarshal _ _ := Err (Errorf "json: not read" [])
|}.

Section examples.
#[local] Existing Instance caseless_unicode.
#[local] Existing Instance plainMail.
#[local] Existing Instance payloadNames.

(** A provider that knows one user. *)
Definition google : AuthProvider MemoryAccounts :=
  mkAuthProvider (fun code => mret code) (fun _ => mret (UserInfo.mk "ann@mail.org" "Ann" "")).
Definition plainDeps : AccountDeps.t MemoryAccounts :=
  AccountDeps.mk (newHasher "salt")
    (PasetoService.mk "chat" "" "" (15 * 60 * Second) "" "" (24 * Hour))
    Hour (fun _ _ => mret tt) "" (fun _ _ => None) (Some google).

Definition noAccounts : MemoryAccounts :=
  (mkMemoryRedis (100 * Second) ∅, mkAccountTables ∅ ∅ ∅ []).
(** The same contents at another time. *)
Definition atTime (t : Time) (s : MemoryAccounts) : MemoryAccounts :=
  (mkMemoryRedis t (memoryKeys s.1), s.2).
Definition refreshOf (r : result TokenResponse.t) : string :=
  match r with Ok x => TokenResponse.RefreshToken x | _ => "" end.

Definition phone : DeviceRegistration :=
  DeviceRegistration.mk "uid-1" "phone" "ios" "ios" "1" "2" "ua" "10.0.0.1".
Definition registered : result TokenResponse.t * MemoryAccounts :=
  RegisterHandle plainDeps "a1" "d1" "s1" (RegisterRequest.mk "Ann" "ann@mail.org" "secret" phone)
    noAccounts.
Definition later : MemoryAccounts := atTime (200 * Second) registered.2.
Definition refreshReq : RefreshRequest.t := RefreshRequest.mk (refreshOf registered.1) "ua" "10.0.0.1".
Definition asAnn : option Actor := Some (WithActor (mkActor "a1" "ann@mail.org" "")).

Lemma later_keyed : accounts_keyed (accountTables later).
Proof.
  split_and!.
  - refine (bool_decide_unpack (map_Forall (fun id m => AccountModel.ID m = id) (accountRows (accountTables later))) _).
    vm_compute. exact I.
  - refine (bool_decide_unpack (map_Forall (fun id m => DeviceModel.ID m = id) (deviceRows (accountTables later))) _).
    vm_compute. exact I.
  - refine (bool_decide_unpack (map_Forall (fun id m => Session.ID m = id) (sessionRows (accountTables later))) _).
    vm_compute. exact I.
Qed.
End examples.
