(* ===== verification/AccountRoundtrip.v ===== *)
(** * An account that was saved is loaded as it was

    An account is kept twice: its events are in the outbox, and a row holds its
    state. Loading replays the events and completes what they make from the row
    ([loadAccount]). [onRecord] relates an aggregate to the tables it is kept
    in: what holds before a command is saved and after it. *)

From stdpp Require Import prelude strings gmap sorting.
From S2P Require Import Prelude GoStrings Database Event Redis Locks.
From S2P Require Import AccountEntity AccountAggregate AccountStore AccountSpec.
From S2P Require Import AccountStoreSpec AccountMemory.

(** ** Replaying *)

(** The state that events make of an empty one. *)
Definition replayed (es : list (Event AccountEventData)) : AccountState :=
  foldl (fun s e => evolve (AggregateID e) s (EventData e)) AccountState.zero es.

Lemma LoadFromHistory_run es (a : AccountAggregate) :
  forallb (fun e => knownEvent (EventData e)) es = true ->
  LoadFromHistory es a =
    (Ok tt, AccountAggregate.mk (foldl (fun r e => loadedEvent e r) (Root a) es)
              (foldl (fun s e => evolve (AggregateID e) s (EventData e)) (AccountAggregate.state a) es)).
Proof.
  revert a. induction es as [|e es IH]; intros a; cbn [forallb]; [by destruct a|].
  intros [He Hes]%andb_true_iff. unfold LoadFromHistory in *. cbn [range].
  rewrite bind_run. unfold LoadEvent at 1. rewrite bind_run. cbn [Transition Account_Aggregate].
  rewrite accountTransition_run, He. cbn [modify]. rewrite IH by done. by destruct a.
Qed.

Lemma loadedEvents_root id typ n es :
  Forall (fun e => AggregateID e = id) es -> consecutive n es ->
  foldl (fun r e => loadedEvent e r) (mkRoot (E := AccountEventData) id typ n n []) es =
    mkRoot id typ (n + Z.of_nat (length es)) (n + Z.of_nat (length es)) [].
Proof.
  intros Hid. revert n. induction Hid as [|e es He _ IH]; intros n Hc; cbn [foldl].
  - cbn. by rewrite Z.add_0_r.
  - unfold loadedEvent at 2. cbn. rewrite He, (Hc 0%nat e eq_refl). rewrite IH.
    + cbn [length]. f_equal; lia.
    + intros i e' Hi. rewrite (Hc (S i) e' Hi). lia.
Qed.

(** The events of a command, with what the outbox writes of them. *)
Lemma range_account_wf ds (a a' : AccountAggregate) :
  range ds ApplyChange a = (Ok tt, a') -> root_wf (Root a) -> version_room (length ds) (Root a) ->
  root_wf (Root a') /\ aggregateType (Root a') = aggregateType (Root a) /\
  baseVersion (Root a') = baseVersion (Root a) /\
  exists es, events (Root a') = events (Root a) ++ es /\ EventData <$> es = ds /\
    Forall (fun e => AggregateID e = idOf a /\ AggregateType e = aggregateType (Root a) /\
                     EventName e = event_name (EventData e) /\ knownEvent (EventData e) = true) es.
Proof.
  revert a. induction ds as [|d ds IH]; intros a H Hw Hr; cbn in H.
  - go_inv. split_and!; [done..|]. exists []. by rewrite app_nil_r.
  - apply method_bind_Ok in H as ([] & a1 & H1 & H2).
    pose proof (ApplyChange_wf d a Hw) as Hw1. rewrite H1 in Hw1.
    apply ApplyChange_account in H1 as Hk. destruct Hk as (_ & Hk & _).
    apply ApplyChange_Ok in H1 as (e & He & _ & _ & ->).
    assert (version_room 1 (Root a)) as Hr1 by (unfold version_room in *; cbn [length] in Hr; lia).
    destruct (IH _ H2 (Hw1 Hr1)) as (Hw' & Hty & Hbase & es & Hes & Hd & Hf).
    { rewrite Root_setRoot. by apply version_room_append. }
    rewrite Root_setRoot in Hty, Hbase, Hes, Hf. unfold idOf in Hf. rewrite Root_setRoot in Hf.
    cbn [appendEvent aggregateID aggregateType baseVersion events] in Hty, Hbase, Hes, Hf. split_and!; [done..|]. exists (e :: es).
    rewrite Hes, <- app_assoc. split_and!; [done|by rewrite <- Hd, He|].
    constructor; [by rewrite He|done].
Qed.

(** ** What is stored for a state *)

(** The account that [Snapshot] makes of a state with a canonical address and
    status. *)
Definition canonical `{UC : UnicodeCase} `{MA : MailAddress} (s : AccountState) : Prop :=
  NewEmail (AccountState.Email s) = Ok (Email.mk (AccountState.Email s)) /\
  ParseAccountStatus (AccountState.Status s) = Ok (AccountState.Status s) /\
  TrimSpace (AccountState.PasswordHash s) <> "".

Definition rowOfState (c u : Time) (s : AccountState) : AccountModel :=
  AccountModel.mk (AccountState.AccountID s) (AccountState.Email s) (AccountState.PasswordHash s)
    (AccountState.DisplayName s) (AccountState.Username s) (AccountState.AvatarObjectKey s)
    (AccountState.Status s) (AccountState.EmailVerifiedAt s) (AccountState.LastLoginAt s)
    (AccountState.PasswordChangedAt s) (AccountState.BannedReason s) (AccountState.BannedUntil s) c u.

Section stored.
Context `{UC : UnicodeCase} `{MA : MailAddress}.
Implicit Types (s : AccountState).

Lemma rowOfState_account c u s : canonical s -> exists x,
  projectionModelToAccount (rowOfState c u s) = Ok x /\ storedFor x s /\
  Account.CreatedAt x = c /\ Account.UpdatedAt x = u.
Proof using Type.
  intros (He & Hs & Hp). unfold projectionModelToAccount, rowOfState. cbn.
  rewrite He. unfold NewHashedPassword, normalizePasswordValue. rewrite decide_False by done. cbn.
  rewrite Hs. cbn. eexists. split; [done|]. by split_and!.
Qed.

Lemma Snapshot_row agg x :
  Snapshot agg = Ok x -> let s := AccountAggregate.state agg in
  NewEmail (AccountState.Email s) = Ok (Email.mk (AccountState.Email s)) ->
  ParseAccountStatus (AccountState.Status s) = Ok (AccountState.Status s) ->
  canonical s /\ Account.ID x = AccountState.AccountID s /\
  Account.CreatedAt x = AccountState.CreatedAt s /\ Account.UpdatedAt x = AccountState.UpdatedAt s /\
  forall c u, stampAccount c u (accountToProjectionModel x) = rowOfState c u s.
Proof using Type.
  unfold Snapshot, canonical. cbv zeta. intros H He Hs. rewrite He in H. cbn in H.
  unfold NewHashedPassword, normalizePasswordValue in H. case_decide; [done|]. cbn in H.
  unfold NormalizeStatus in H. rewrite Hs in H. injection H as <-. by split_and!.
Qed.
End stored.

(** ** Aggregates on record *)

(** The aggregate [a] has no pending events, its events are the rows of the
    outbox, with the versions from 1, and its state is what they make of an
    empty one, completed from the row of the account. Before it is first saved
    there is neither; an account from before there were events has its row. *)
Definition onRecord `{UC : UnicodeCase} `{MA : MailAddress} `{EJ : JSON AccountEventData}
    (a : AccountAggregate) (t : AccountTables) : Prop :=
  let id := idOf a in
  let s := AccountAggregate.state a in
  exists rows es,
    TrimSpace id = id /\ id <> "" /\
    Root a = mkRoot id accountAggregateType (Z.of_nat (length es)) (Z.of_nat (length es)) [] /\
    rows ≡ₚ outboxOf id t /\ Forall2 domainOf rows es /\
    Forall (fun e => AggregateID e = id) es /\
    forallb (fun e => knownEvent (EventData e)) es = true /\ consecutive 0 es /\
    covers (replayed es) s /\
    match accountRows t !! id with
    | None => es = [] /\ s = AccountState.zero
    | Some m =>
        canonical s /\ AccountState.AccountID s = id /\
        exists c u, m = rowOfState c u s /\
          match es with
          | [] => c = AccountState.CreatedAt s /\ u = AccountState.UpdatedAt s
          | _ => AccountState.UpdatedAt (replayed es) <> 0 /\
                 (AccountState.CreatedAt (replayed es) <> 0 \/ c = AccountState.CreatedAt s)
          end
    end.

(** ** What a command adds *)

(** Every event of a command is of its time, and creates an active account. *)
Definition recordedBy (t : Time) (d : AccountEventData) : Prop :=
  eventTime d = Some t /\
  match d with EventAccountCreated _ _ _ _ status _ => status = AccountStatusActive | _ => True end.

Lemma commandEvents_recordedBy c t a : Forall (recordedBy t) (commandEvents c t a).
Proof.
  destruct c; cbn [commandEvents]; try (destruct (_ && _ && _)); try (destruct (IsEmailVerified a));
    repeat constructor.
Qed.

(** The fields that tell of the first event and of the last. *)
Lemma foldl_recordedBy id t ds s : Forall (recordedBy t) ds ->
  let s' := foldl (evolve id) s ds in
  AccountState.UpdatedAt s' = (if bool_decide (ds = []) then AccountState.UpdatedAt s else t) /\
  if existsb isCreated ds then
    AccountState.AccountID s' = id /\ AccountState.CreatedAt s' = t /\
    AccountState.Status s' = AccountStatusActive
  else
    AccountState.AccountID s' = AccountState.AccountID s /\
    AccountState.CreatedAt s' = AccountState.CreatedAt s /\
    AccountState.Status s' = AccountState.Status s.
Proof.
  intros H. revert s. induction H as [|d ds Hd _ IH]; intros s; [done|]. cbn [foldl existsb].
  destruct (IH (evolve id s d)) as [Hu He]. destruct Hd as [Ht Hst]. split.
  - rewrite Hu. rewrite (bool_decide_false (d :: ds = [])) by done. case_bool_decide; [|done].
    destruct d; cbn in Ht |- *; congruence.
  - destruct (existsb isCreated ds); [by rewrite orb_true_r|]. rewrite orb_false_r.
    destruct He as (-> & -> & ->). destruct d; cbn in *; by simplify_eq.
Qed.

Lemma commandAllowed_created c t a :
  commandAllowed c a -> AccountAggregate.state a = AccountState.zero ->
  existsb isCreated (commandEvents c t a) = true.
Proof.
  intros Ha Hz. assert (IsRegistered a = false) as Hr by (unfold IsRegistered; by rewrite Hz).
  destruct c; cbn [commandAllowed] in Ha; cbn; try done; destruct Ha; congruence.
Qed.

Lemma ParseAccountStatus_active `{UC : UnicodeCase} :
  ParseAccountStatus AccountStatusActive = Ok AccountStatusActive.
Proof. reflexivity. Qed.

(** The row of an event reads as the event. *)
Lemma rowOf_domainOf `{EJ : JSON AccountEventData} `{EL : !JSONLaws AccountEventData accountPrototype}
    id es rows :
  Forall2 rowOf es rows ->
  Forall (fun e => AggregateID e = id /\ AggregateType e = accountAggregateType /\
                   EventName e = event_name (EventData e) /\ knownEvent (EventData e) = true) es ->
  exists es', Forall2 domainOf rows es' /\ EventData <$> es' = EventData <$> es /\
    Version <$> es' = Version <$> es /\ Forall (fun e => AggregateID e = id) es' /\
    Forall (fun row => AccountOutboxRow.AggregateID row = id) rows.
Proof.
  intros H. induction H as [|e row es rows (R1 & R2 & R3 & R4 & R5) _ IH]; intros Hf.
  - exists []. by split_and!.
  - apply Forall_cons in Hf as [(F1 & F2 & F3 & F4) Hf]. destruct (IH Hf) as (es' & H1 & H2 & H3 & H4 & H5).
    exists (mkEvent 0 id accountAggregateType (Version e) (EventName e) (EventData e)
              (AccountOutboxRow.CreatedAt row) :: es').
    split_and!; try (cbn; f_equal; done); try (constructor; [by try rewrite R1|done]).
    constructor; [|done]. unfold domainOf. cbn. split_and!; [congruence|congruence|].
    unfold accountToDomainEvent. rewrite R1, R2, R3, R4, F1, F2, F3.
    assert (TypeOf accountRegister accountAggregateType (event_name (EventData e)) =
            Some (event_name (EventData e))) as ->.
    { destruct (EventData e); cbn in F4; try discriminate F4; by vm_compute. }
    assert (accountPrototype (EventData e) = Some (event_name (EventData e))) as Hp
      by (unfold accountPrototype; by rewrite F4).
    by rewrite (Unmarshal_Marshal _ _ _ Hp R5).
Qed.

Section roundtrip.
Context `{UC : UnicodeCase} `{MA : MailAddress} {W : Type}.
Context `{RT : Runtime W} `{RD : Redis W} `{RL : !RedisLaws W}.
Context `{SQL : AccountSQL W} `{Laws : !AccountSQLLaws W}.
Context `{EJ : JSON AccountEventData} `{EL : !JSONLaws AccountEventData accountPrototype}.
Context `{AJ : JSON Account} `{AT : !JSONTotal Account}.

(** Two readings of the outbox agree, since the versions differ. *)
Lemma sortedRows_unique id t rows rows' es :
  rows ≡ₚ outboxOf id t -> Forall2 domainOf rows es -> consecutive 0 es ->
  sortedRows id t rows' -> rows' = rows.
Proof using Type.
  intros Hp Hes Hc [Hp' Hs'].
  assert (Hv : forall i row, rows !! i = Some row -> AccountOutboxRow.Version row = Z.of_nat (S i)).
  { intros i row Hi. destruct (Forall2_lookup_l _ _ _ _ _ Hes Hi) as (e & He & (_ & Hve & _)).
    rewrite <- Hve. by rewrite (Hc i e He). }
  assert (Htrans : Transitive (fun r r' : AccountOutboxRow => AccountOutboxRow.Version r <= AccountOutboxRow.Version r'))
    by (intros x y z; lia).
  apply (Sorted_unique_strong (fun r r' => AccountOutboxRow.Version r <= AccountOutboxRow.Version r'));
    [|done| |by rewrite Hp', Hp].
  - intros x y Hx Hy H1 H2. rewrite Hp', <- Hp in Hx. apply list_elem_of_lookup in Hx as [i Hi], Hy as [j Hj].
    assert (i = j) as -> by (pose proof (Hv _ _ Hi); pose proof (Hv _ _ Hj); lia). congruence.
  - clear - Hv. apply StronglySorted_Sorted. revert Hv. assert (forall n,
      (forall i row, rows !! i = Some row -> AccountOutboxRow.Version row = n + Z.of_nat i) ->
      StronglySorted (fun r r' => AccountOutboxRow.Version r <= AccountOutboxRow.Version r') rows) as H.
    { induction rows as [|row rows IH]; intros n Hn; constructor.
      - apply (IH (n + 1)). intros i r Hi. specialize (Hn (S i) r Hi). lia.
      - apply Forall_lookup_2. intros i r Hi. pose proof (Hn 0%nat row eq_refl).
        specialize (Hn (S i) r Hi). lia. }
    intros Hv. apply (H 1). intros i r Hi. specialize (Hv _ _ Hi). lia.
Qed.

(** An aggregate on record is loaded as it is. *)
Lemma LoadAccount_onRecord a w m :
  onRecord a (accountTables w) -> accountRows (accountTables w) !! idOf a = Some m ->
  effect accountTables (LoadAccount (idOf a)) w (fun a' w' =>
    accountTables w' = accountTables w /\ a' = a).
Proof using Laws.
  intros (rows & es & Htrim & Hne & Hroot & Hp & Hes & Hids & Hk & Hc & Hcov & Hrow) Hm.
  rewrite Hm in Hrow. destruct Hrow as (Hcan & Hid & c & u & -> & Htimes).
  set (base := AccountAggregate.mk (mkRoot (idOf a) accountAggregateType 0 0 []) AccountState.zero).
  assert (NewAccountAggregate (idOf a) = Ok base) as Hb.
  { unfold NewAccountAggregate, InitAggregate. string_decide. rewrite modify_bind_run. unfold SetID.
    cbn [SetAggregateType zeroRoot aggregateID aggregateType version baseVersion events].
    rewrite Htrim. rewrite !decide_False by (try intros [? _]; done). done. }
  destruct (rowOfState_account c u _ Hcan) as (x & Hx & Hst & Hxc & Hxu).
  eapply (LoadAccount_effect (idOf a) w base (rowOfState c u (AccountAggregate.state a)) x); try done.
  intros rows' Hr. rewrite (sortedRows_unique _ _ _ _ _ Hp Hes Hc Hr).
  exists (AccountAggregate.mk (Root a) (replayed es)). split.
  - apply replayAccount_Ok. exists es. split; [done|]. rewrite LoadFromHistory_run by done.
    do 2 f_equal. cbn [Root Account_Aggregate AccountAggregate.root base].
    rewrite (loadedEvents_root (idOf a)) by done. rewrite Z.add_0_l. symmetry. exact Hroot.
  - cbn [completed]. destruct Hst as (S1 & S2 & S3 & S4 & S5 & S6 & S7 & S8 & S9 & S10 & S11 & S12).
    pose proof (Forall2_length _ _ _ Hes) as Hlen. destruct es as [|e es].
    + rewrite Hlen, decide_True by done. destruct Htimes as [-> ->].
      unfold RestoreFromProjection, updRoot. cbn. rewrite S1, S2, S3, S4, S5, S6, S7, S8, S9, S10, S11, S12.
      rewrite Hxc, Hxu. destruct a as [r s]. cbn in *. unfold SetInternal. rewrite Hroot. cbn.
      f_equal; [by rewrite Hid|]. unfold covers, fill in Hcov. cbn in Hcov.
      apply (f_equal AccountState.LastEmailVerificationRequested) in Hcov. cbn in Hcov. rewrite Hcov.
      by destruct s.
    + rewrite Hlen, decide_False by done. destruct Htimes as [Hu Hcr]. symmetry.
      rewrite (MergeProjection_covers _ _ (AccountAggregate.state a)); [by destruct a|done|done|done|].
      by rewrite Hxc.
Qed.

(** The tables after the rows of an account were added, as other accounts see
    them. *)
Lemma outboxOf_added id rows t : Forall (fun row => AccountOutboxRow.AggregateID row = id) rows ->
  outboxOf id (addRows rows t) = outboxOf id t ++ rows /\
  forall id', id' <> id -> outboxOf id' (addRows rows t) = outboxOf id' t.
Proof using Type.
  intros H. unfold outboxOf, addRows. cbn. split.
  - rewrite filter_app. f_equal. induction H as [|row rows Hrow _ IH]; [done|].
    by rewrite filter_cons_True, IH.
  - intros id' Hne. rewrite filter_app. rewrite <- (app_nil_r (filter _ (accountOutbox t))) at 2. f_equal.
    induction H as [|row rows Hrow _ IH]; [done|]. by rewrite filter_cons_False by congruence.
Qed.

Lemma onRecord_frame a id rows m t :
  Forall (fun row => AccountOutboxRow.AggregateID row = id) rows -> AccountModel.ID m = id ->
  idOf a <> id -> onRecord a t -> onRecord a (addRows rows (setAccountRow m t)).
Proof using Type.
  intros Hrows Hm Hne (rs & es & H). exists rs, es. cbv zeta in H |- *.
  rewrite (proj2 (outboxOf_added id rows _ Hrows)) by done. cbn.
  rewrite lookup_insert_ne by congruence. exact H.
Qed.

(** What a command makes of an aggregate on record, before it is saved. *)
Lemma command_onRecord a t c at_ a1 :
  onRecord a t -> runAccountCommand c at_ a = (Ok tt, a1) -> version_room 3 (Root a) ->
  idOf a1 = idOf a /\ at_ <> 0 /\
  (AccountAggregate.state a = AccountState.zero -> existsb isCreated (commandEvents c at_ a) = true) /\
  AccountAggregate.state a1 =
    foldl (evolve (idOf a)) (AccountAggregate.state a) (commandEvents c at_ a) /\
  EventData <$> events (Root a1) = commandEvents c at_ a /\ root_wf (Root a1) /\
  baseVersion (Root a1) = baseVersion (Root a) /\ aggregateType (Root a1) = accountAggregateType /\
  Forall (fun e => AggregateID e = idOf a /\ AggregateType e = accountAggregateType /\
                   EventName e = event_name (EventData e) /\ knownEvent (EventData e) = true)
    (events (Root a1)).
Proof using Type.
  intros (rows & es & _ & Hne & Hroot & _) Hrun Hroom.
  apply runAccountCommand_spec in Hrun as [(_ & Ht & Hallow & Hev)|[? _]]; [|done..].
  assert (length (commandEvents c at_ a) <= 3)%nat as Hlen.
  { destruct c; cbn; try destruct (_ && _ && _); try destruct (IsEmailVerified a); cbn; lia. }
  pose proof (range_account _ _ _ Hev) as (Hs & Hid & _).
  apply range_account_wf in Hev as (Hwf & Hty & Hb & es1 & Hes1 & Hd & Hf).
  - rewrite Hroot in Hes1, Hty, Hf |- *. cbn [events app aggregateType] in Hes1, Hty, Hf.
    rewrite <- Hes1 in Hd, Hf. rewrite Hroot in Hb. split_and!; try done.
    intros Hz. by eapply commandAllowed_created.
  - unfold root_wf. rewrite Hroot. cbn. split_and!; [done|lia|by intros ?|constructor].
  - by eapply version_room_le.
Qed.

Lemma consecutive_versions (base : Z) (es es' : list (Event AccountEventData)) :
  Version <$> es' = Version <$> es -> consecutive base es -> consecutive base es'.
Proof using Type.
  intros Hv H i e Hi. assert ((Version <$> es') !! i = Some (Version e)) as Hl by (by rewrite list_lookup_fmap, Hi).
  rewrite Hv, list_lookup_fmap in Hl. destruct (es !! i) as [e'|] eqn:He; [|done].
  injection Hl as <-. by apply H.
Qed.

Lemma replayed_app id es es' : Forall (fun e => AggregateID e = id) es' ->
  replayed (es ++ es') = foldl (evolve id) (replayed es) (EventData <$> es').
Proof using Type.
  intros H. unfold replayed. rewrite foldl_app. generalize (foldl (fun s e => evolve (AggregateID e) s (EventData e)) AccountState.zero es).
  induction H as [|e es' He _ IH]; intros s; [done|]. cbn. by rewrite IH, He.
Qed.

Lemma known_data (es : list (Event AccountEventData)) :
  forallb (fun e => knownEvent (EventData e)) es = forallb knownEvent (EventData <$> es).
Proof using Type. induction es as [|e es IH]; [done|]. cbn. by rewrite IH. Qed.

Lemma MarkPersisted_run (r : AggregateRoot AccountEventData) : root_wf r ->
  let v := baseVersion r + Z.of_nat (length (events r)) in
  MarkPersisted r = mkRoot (aggregateID r) (aggregateType r) v v [].
Proof using Type.
  intros (Hv & _ & Hc & _). unfold MarkPersisted. destruct (last (events r)) as [e|] eqn:Hl.
  - rewrite last_lookup in Hl. pose proof (Hc _ _ Hl) as He.
    destruct (events r) as [|e0 l]; [done|]. cbn [length pred] in He |- *. by rewrite He.
  - apply last_None in Hl. destruct r; cbn in *. subst. cbn. by rewrite Z.add_0_r.
Qed.

(** Saving what a command recorded. *)
Lemma SaveAccount_onRecord a c at_ a1 cacheTime a2 w hs w1 hs1 :
  onRecord a (accountTables w) -> runAccountCommand c at_ a = (Ok tt, a1) ->
  commandEvents c at_ a <> [] -> version_room 3 (Root a) ->
  let email := AccountState.Email (AccountAggregate.state a1) in NewEmail email = Ok (Email.mk email) ->
  SaveAccount cacheTime true a1 (w, hs) = (Ok a2, (w1, hs1)) ->
  idOf a2 = idOf a /\ AccountAggregate.state a2 = AccountAggregate.state a1 /\
  events (Root a2) = [] /\ onRecord a2 (accountTables w1) /\
  exists m rows, accountTables w1 = addRows rows (setAccountRow m (accountTables w)) /\
    AccountModel.ID m = idOf a /\ Forall (fun row => AccountOutboxRow.AggregateID row = idOf a) rows.
Proof using Laws EL.
  cbv zeta. intros Hrec Hrun Hds Hroom Hmail Hsave.
  destruct (command_onRecord _ _ _ _ _ Hrec Hrun Hroom)
    as (Hid1 & Hat & Hcr & Hs1 & Hd & Hwf & Hbase & Hty & Hf).
  destruct Hrec as (rows & es & Htrim & Hne & Hroot & Hp & Hes & Hids & Hk & Hc & Hcov & Hrow).
  set (ds := commandEvents c at_ a) in *. set (s := AccountAggregate.state a) in *.
  pose proof (commandEvents_recordedBy c at_ a) as Hby. fold ds in Hby.
  destruct (foldl_recordedBy (idOf a) at_ ds s Hby) as [_ Hss]. rewrite <- Hs1 in Hss.
  destruct (foldl_recordedBy (idOf a) at_ ds (replayed es) Hby) as [Hru Hrs].
  rewrite bool_decide_false in Hru by done.
  apply SaveAccount_Ok in Hsave as (x & m & rows1 & w2 & hs2 & [= <- <-] & Hx & -> & _ & Hm & Hrows1 & Ht).
  destruct (rowOf_domainOf (idOf a) _ _ Hrows1 Hf) as (es1 & He1 & Hd1 & Hv1 & Hi1 & Hr1).
  assert (Hstat : ParseAccountStatus (AccountState.Status (AccountAggregate.state a1)) =
                  Ok (AccountState.Status (AccountAggregate.state a1))).
  { destruct (existsb isCreated ds) eqn:Hex; destruct Hss as (_ & _ & Hst); rewrite Hst; [reflexivity|].
    destruct (accountRows (accountTables w) !! idOf a) as [m0|].
    - by destruct Hrow as ((_ & ? & _) & _).
    - destruct Hrow as [_ Hz]. by specialize (Hcr Hz). }
  destruct (Snapshot_row _ _ Hx Hmail Hstat) as (Hcan & Hxid & Hxc & Hxu & Hstamp).
  assert (HaccID : AccountState.AccountID (AccountAggregate.state a1) = idOf a).
  { destruct (existsb isCreated ds) eqn:Hex; destruct Hss as (Hi & _); [done|]. rewrite Hi.
    destruct (accountRows (accountTables w) !! idOf a) as [m0|]; [by destruct Hrow as (_ & ? & _)|].
    destruct Hrow as [_ Hz]. by specialize (Hcr Hz). }
  apply upserted_account in Hm as (cc & u & Hmu & Hcc). rewrite Hxid, HaccID in Hcc.
  rewrite Hstamp in Hmu. assert (Hmid : AccountModel.ID m = idOf a) by (by rewrite Hmu).
  assert (Hid2 : idOf (updRoot MarkPersisted a1) = idOf a).
  { rewrite <- Hid1. unfold idOf, updRoot. rewrite Root_setRoot. unfold MarkPersisted. by destruct (last _). }
  split_and!; [done|by unfold updRoot|unfold updRoot; rewrite Root_setRoot; unfold MarkPersisted;
    by destruct (last (events (Root a1))) eqn:Hl; [|apply last_None in Hl] |
    |by exists m, rows1].
  exists (rows ++ rows1), (es ++ es1). cbv zeta. rewrite Hid2. rewrite Ht.
  rewrite (proj1 (outboxOf_added (idOf a) rows1 _ Hr1)). cbn [accountRows addRows setAccountRow].
  rewrite Hmid, lookup_insert_eq.
  change (AccountAggregate.state (updRoot MarkPersisted a1)) with (AccountAggregate.state a1).
  assert (Hlen1 : length es1 = length (events (Root a1)))
    by (apply (f_equal length) in Hd1; by rewrite !length_fmap in Hd1).
  assert (Hlen : length (events (Root a1)) = length ds) by (rewrite <- Hd; by rewrite length_fmap).
  assert (Hroot2 : MarkPersisted (Root a1) =
    mkRoot (idOf a) accountAggregateType (Z.of_nat (length (es ++ es1))) (Z.of_nat (length (es ++ es1))) []).
  { rewrite MarkPersisted_run by done. rewrite Hbase, Hroot, Hty, length_app, Hlen1. cbn [baseVersion].
    unfold idOf in Hid1. rewrite Hid1. f_equal; lia. }
  rewrite (replayed_app (idOf a)) by done. rewrite Hd1, Hd.
  split_and!; try done.
  - by rewrite Hp.
  - by apply Forall2_app.
  - by apply Forall_app.
  - rewrite forallb_app, Hk, known_data, Hd1, <- known_data. cbn [andb].
    apply forallb_forall. intros e He%list_elem_of_In. rewrite Forall_forall in Hf. by apply Hf.
  - apply consecutive_app; [done|]. apply (consecutive_versions _ (events (Root a1))); [done|].
    destruct Hwf as (_ & _ & Hcons & _). by rewrite Hbase, Hroot in Hcons.
  - rewrite Hs1. fold s. by apply covers_foldl.
  - exists cc, u. split; [done|]. destruct (es ++ es1) as [|e0 es0] eqn:Happ.
    { exfalso. apply app_nil in Happ as [_ ->]. destruct ds; [done|]. cbn in *. lia. }
    rewrite Hru. split; [done|]. destruct (existsb isCreated ds) eqn:Hex.
    + left. by destruct Hrs as (_ & -> & _).
    + destruct Hrs as (_ & -> & _), Hss as (_ & -> & _).
      destruct (accountRows (accountTables w) !! idOf a) as [m0|].
      * destruct Hrow as (_ & _ & c0 & u0 & -> & Htimes). cbn in Hcc. subst cc.
        destruct es; [right; by destruct Htimes as [-> _]|by destruct Htimes].
      * destruct Hrow as [_ Hz]. by specialize (Hcr Hz).
Qed.

(** A new aggregate is on record where nothing is stored under its id. *)
Lemma onRecord_new id a t :
  NewAccountAggregate id = Ok a -> outboxOf (idOf a) t = [] -> accountRows t !! idOf a = None ->
  onRecord a t.
Proof using Type.
  intros [Hid ->]%NewAccountAggregate_Ok Hout Hrow. exists [], []. cbn in *. rewrite Hout, Hrow.
  rewrite TrimSpace_idem. split_and!; try done; by intros ?.
Qed.

(** C11: An account is loaded as it was saved. Take an aggregate that is on
    record, new or loaded, and a command that it accepts and that records
    something; once the save succeeds, a load from the same tables gives
    exactly the aggregate that was saved: its identity, its version and every
    field of its state. The accounts that were on record stay so. *)
Theorem account_saved_is_loaded a c at_ a1 cacheTime a2 w hs w1 hs1 :
  onRecord a (accountTables w) -> runAccountCommand c at_ a = (Ok tt, a1) ->
  commandEvents c at_ a <> [] -> version_room 3 (Root a) ->
  let email := AccountState.Email (AccountAggregate.state a1) in NewEmail email = Ok (Email.mk email) ->
  SaveAccount cacheTime true a1 (w, hs) = (Ok a2, (w1, hs1)) ->
  a2 = updRoot MarkPersisted a1 /\ onRecord a2 (accountTables w1) /\
  (forall w2, accountTables w2 = accountTables w1 ->
     effect accountTables (LoadAccount (idOf a)) w2 (fun a' w' =>
       accountTables w' = accountTables w2 /\ a' = a2)) /\
  (forall b, idOf b <> idOf a -> onRecord b (accountTables w) -> onRecord b (accountTables w1)).
Proof using Laws EL.
  cbv zeta. intros Hrec Hrun Hds Hroom Hmail Hsave.
  apply SaveAccount_Ok in Hsave as Heq. destruct Heq as (_ & _ & _ & _ & _ & _ & _ & Heq & _).
  eapply SaveAccount_onRecord in Hsave as (Hid & _ & _ & Hrec2 & m & rows & Ht & Hm & Hrows);
    [|done..]. split_and!; [done|done| |].
  - intros w2 Hw2. rewrite <- Hid. apply (LoadAccount_onRecord a2 w2 m); rewrite Hw2; [done|].
    rewrite Ht, Hid. cbn. by rewrite Hm, lookup_insert_eq.
  - intros b Hb Hbrec. rewrite Ht. by apply (onRecord_frame b (idOf a)).
Qed.
End roundtrip.

(** ** An example *)

Section witnesses.
#[local] Existing Instance caseless_unicode.
#[local] Existing Instance plainMail.
#[local] Existing Instance payloadNames.

(** Ann's account, saved where there was none. *)
Definition annSaved : result AccountAggregate * (MemoryAccounts * list (method MemoryAccounts unit)) :=
  SaveAccount 60 true annBorn (noAccounts, []).

Lemma account_saved_is_loaded_witness :
  is_ok annSaved.1 = true /\
  effect accountTables (LoadAccount "a1") annSaved.2.1 (fun a' w' =>
    accountTables w' = accountTables annSaved.2.1 /\ a' = updRoot MarkPersisted annBorn).
Proof.
  destruct annSaved as [r [w1 hs1]] eqn:Hsave. unfold annSaved in Hsave. cbn [fst snd].
  assert (exists a2, r = Ok a2) as [a2 ->].
  { change (exists a2, (r, (w1, hs1)).1 = Ok a2). rewrite <- Hsave. eexists. vm_compute. reflexivity. }
  split; [reflexivity|].
  assert (onRecord annNew (accountTables noAccounts)) as Hrec
    by (apply (onRecord_new "a1"); reflexivity).
  pose proof (account_saved_is_loaded annNew annRegister 5 annBorn 60 a2 noAccounts [] w1 hs1 Hrec eq_refl
    ltac:(discriminate) ltac:(by vm_compute) eq_refl Hsave) as (Ha & _ & Hload & _).
  rewrite <- Ha. exact (Hload w1 eq_refl).
Defined.
End witnesses.
