(* ===== verification/AccountTheorems.v ===== *)
(** * What logins, refreshes and passwords guarantee

    The properties of the sessions and of the devices of an account, over the
    tables: what a refresh needs and does, what ends a session, and the two
    logins that leave a client without one. *)

From Stdlib Require Import Ascii.
From stdpp Require Import prelude strings gmap sorting.
From S2P Require Import Prelude GoStrings Database Event ActorContext Redis Locks.
From S2P Require Import AccountEntity AccountAggregate AccountAuth AccountStore.
From S2P Require Import AccountHandlers AccountSpec AccountStoreSpec AccountSessionSpec AccountMemory.

Section theorems.
Context `{UC : UnicodeCase} `{MA : MailAddress} {W : Type}.
Context `{CR : Crypto} `{CL : !CryptoLaws} `{PV : PasetoV2} `{PL : !PasetoLaws}.
Context `{RT : Runtime W} `{RD : Redis W} `{RL : !RedisLaws W}.
Context `{SQL : AccountSQL W} `{Laws : !AccountSQLLaws W}.
Context `{EJ : JSON AccountEventData} `{AJ : JSON Account} `{AT : !JSONTotal Account}.
Context `{SJ : JSON Session} `{ST : !JSONTotal Session} `{TJ : JSON EmailVerificationTokenPayload.t}.
Context (deps : AccountDeps.t W).
Implicit Types (w : W).

Notation h := (AccountDeps.hasher deps).
Notation p := (AccountDeps.paseto deps).

(** ** Helpers *)

Lemma issued_account account sid did w hs pair s' :
  issueTokens deps account sid did (w, hs) = (Ok pair, s') -> Account.ID account <> "".
Proof using Type. intros [_ H]%issueTokens_Ok. unfold issueAccountTokenPair in H. by case_decide. Qed.

Lemma loginBody_Ok deviceID sessionID t x reg w hs res s1 :
  loginBody deps deviceID sessionID t x reg (w, hs) = (Ok res, s1) ->
  Account.ID x <> "" /\ exists a s2, loginDevice deviceID t x reg (w, hs) = (Ok a, s2).
Proof using Type.
  unfold loginBody. intros H. apply method_bind_Ok in H as (a & [w2 hs2] & H1 & H).
  apply method_bind_Ok in H as (pair & s3 & H2 & _). apply issued_account in H2. by eauto.
Qed.

(** A login that fails changes no table. *)
Lemma LoginHandle_failed deviceID sessionID req w r w' :
  LoginHandle deps deviceID sessionID req w = (r, w') -> is_ok r = false ->
  accountTables w' = accountTables w.
Proof using Laws RL ST.
  unfold LoginHandle, notFoundAs, wrap_err. rewrite bind_run. cbn [clock]. rewrite lift_bind_run.
  destruct (NewEmail _) as [email|e|why]; [|by intros [= <- <-]..]. rewrite lift_bind_run.
  destruct (NewPlainPassword _) as [pw|e|why]; [|by intros [= <- <-]..]. rewrite bind_run.
  pose proof (LoadAccountByEmail_keeps (Email.Value email) w) as Ht. unfold sameTables in Ht.
  destruct (LoadAccountByEmail _ w) as [[agg|e|why] w1]; cbn in Ht; cbn [map_err]; [|by intros [= <- <-]..].
  rewrite lift_bind_run. destruct (CurrentPasswordHash agg) as [cur|e|why]; [|by intros [= <- <-]..].
  rewrite lift_bind_run. destruct (Verify _ _ _) as [[]|e|why]; [|by intros [= <- <-]..]. cbn [negb].
  rewrite lift_bind_run. destruct (Snapshot agg) as [x|e|why]; [|by intros [= <- <-]..].
  intros H Hr. apply accountTransaction_cases in H as [(? & ? & ? & -> & _)|[_ H]]; [done|congruence|].
  apply loginBody_hooks.
Qed.

(** ** Devices *)

(** C15: A device that an account has keeps the account from logging in again
    with it. The login looks the device up with the UID of the client where its
    id is needed, so it does not find it and adds one with the same UID, which
    the unique constraint refuses: whatever the password, the login fails and
    nothing is stored. *)
Theorem known_device_cannot_log_in deviceID sessionID req email acc d w r w' :
  accounts_keyed (accountTables w) -> TrimSpace acc = acc ->
  NewEmail (LoginRequest.Email req) = Ok email ->
  (forall id m, accountRows (accountTables w) !! id = Some m ->
     AccountModel.Email m = Email.Value email -> id = acc) ->
  deviceRows (accountTables w) !! DeviceModel.ID d = Some d -> DeviceModel.AccountID d = acc ->
  DeviceModel.DeviceUID d = TrimSpace (DeviceRegistration.DeviceUID (LoginRequest.Device req)) ->
  DeviceModel.ID d <> DeviceRegistration.DeviceUID (LoginRequest.Device req) ->
  DeviceModel.ID d <> TrimSpace deviceID ->
  LoginHandle deps deviceID sessionID req w = (r, w') ->
  is_ok r = false /\ accountTables w' = accountTables w.
Proof using Laws RL ST.
  intros Hkey Htrim He Hone Hd Hacc Huid Hne1 Hne2 H.
  assert (is_ok r = false) as Hr.
  { destruct r as [res|e|why]; [exfalso|done..].
    apply LoginHandle_Ok in H
      as (email' & m & w1 & w2 & hs & t & x & He' & Hm & Hmail & Hid & Ht & Hb & _); [|done].
    assert (email' = email) as -> by congruence. apply Hone in Hm as Hm'; [|done].
    apply loginBody_Ok in Hb as (Hx & a & s2 & Hb). destruct Hid as [?|Hid]; [done|].
    apply loginDevice_Ok in Hb as (d' & _ & Hcases & Hu). rewrite Ht in Hu.
    refine (Hu _ _ Hd _ _ Huid).
    - by destruct Hcases as [[-> _]|[-> _]].
    - rewrite Hacc. destruct Hcases as [[_ ->]|[_ ->]]; by rewrite Hid, Hm', ?Htrim. }
  split; [done|]. by eapply LoginHandle_failed.
Qed.

(** ** Refreshing *)

(** C12: A refresh needs a session that is live, and only then does anything.
    Where it succeeds, the session that the token names was there, is of the
    account and of the device in the token, holds the hash of the token, was
    not revoked, and expires later; it is made active with the hash and the
    time of the new token, and no other row changes. Where it fails nothing is
    stored: a session that has expired is not marked so. *)
Theorem refresh_needs_live_session req w r w' :
  RefreshHandle deps req w = (r, w') ->
  match r with
  | Ok res =>
      exists claims s s',
        ParseRefreshToken p (now w) (RefreshRequest.RefreshToken req) = Ok claims /\
        sessionRows (accountTables w) !! PasetoPayload.SessionID claims = Some s /\
        Session.AccountID s = PasetoPayload.AccountID claims /\
        Session.DeviceID s = PasetoPayload.DeviceID claims /\
        Verify h (RefreshRequest.RefreshToken req) (Session.RefreshTokenHash s) = Ok true /\
        Session.Status s <> SessionStatusRevoked /\ Session.Status s <> SessionStatusExpired /\
        now w < Session.ExpiresAt s /\
        Session.Status s' = SessionStatusActive /\ Session.AccountID s' = Session.AccountID s /\
        UnixMilli (Session.ExpiresAt s') = TokenResponse.RefreshExpiresAt res /\
        Verify h (TokenResponse.RefreshToken res) (Session.RefreshTokenHash s') = Ok true /\
        sessionRows (accountTables w') = <[Session.ID s := s']> (sessionRows (accountTables w)) /\
        accountRows (accountTables w') = accountRows (accountTables w) /\
        accountOutbox (accountTables w') = accountOutbox (accountTables w)
  | _ => accountTables w' = accountTables w
  end.
Proof using Laws CL RL ST.
  intros [(claims & s & s' & pair & -> & H1 & H2 & H3 & H4 & H5 & H6 & H7 & H8)|[Hr Ht]]%RefreshHandle_cases.
  - destruct H7 as (_ & R2 & _ & R4 & R5 & R6). apply Verify_refl in R6.
    unfold EnsureRefreshAllowed, UTC in H6. repeat (case_decide; [done|]).
    exists claims, s, s'. unfold tokenResponse. cbn. rewrite R5. split_and!; first [done|lia|apply H8].
  - by destruct r.
Qed.


(** ** The password *)

Lemma accounts_keyed_saved m rows t :
  accounts_keyed t -> accounts_keyed (addRows rows (setAccountRow m t)).
Proof using Type.
  intros (H1 & H2 & H3). split_and!; [|done..]. intros id m'. cbn.
  rewrite lookup_insert_Some. intros [[<- <-]|[_ ?]]; auto.
Qed.

(** What the handler does where it changes the password. *)
Lemma ChangePasswordHandle_Ok ctx currentPassword newPassword w msg w' :
  ChangePasswordHandle deps ctx currentPassword newPassword w = (Ok msg, w') ->
  exists acc agg w1 cur new hash hash' agg' w2 hs s2,
    AccountIDFromCtx ctx = Ok acc /\ LoadAccount acc w = (Ok agg, w1) /\
    CurrentPasswordHash agg = Ok cur /\
    Verify h currentPassword (HashedPassword.Value cur) = Ok true /\
    NewPlainPassword newPassword = Ok new /\
    Verify h (PlainPassword.Value new) (HashedPassword.Value cur) = Ok false /\
    Hash h (PlainPassword.Value new) = Ok hash /\ NewHashedPassword hash = Ok hash' /\
    ChangePassword hash' (now w1) agg = (Ok true, agg') /\
    changePasswordBody deps (now w1) acc agg' (w1, []) = (Ok tt, (w2, hs)) /\
    s2 = accountTables w2 /\ accountTables w' = s2.
Proof using Laws RL AT ST.
  unfold ChangePasswordHandle. intros H.
  apply lift_bind_Ok in H as (acc & Hacc & H). apply method_bind_Ok in H as (agg & w1 & Hl & H).
  apply lift_bind_Ok in H as (cur & Hcur & H). apply lift_bind_Ok in H as (valid & Hv & H).
  destruct valid; [|done]. cbn [negb] in H. apply lift_bind_Ok in H as (new & Hnew & H).
  apply lift_bind_Ok in H as ([] & He & H). apply lift_bind_Ok in H as (hash & Hh & H).
  apply lift_bind_Ok in H as (hash' & Hh' & H). apply method_bind_Ok in H as (t & w2 & [= <- <-] & H).
  apply lift_bind_Ok in H as ([changed agg'] & Hc & H). apply after_Ok in Hc.
  assert (changed = true) as ->.
  { unfold ChangePassword in Hc. apply lift_bind_Ok in Hc as (t & _ & Hc). rewrite get_bind_run in Hc.
    destruct (negb _); [done|]. destruct (_ && _); [done|]. by apply method_bind_Ok in Hc as (? & ? & _ & [= <- _]). }
  cbn [negb] in H. apply method_bind_Ok in H as ([] & w2 & H & [= _ <-]).
  apply accountTransaction_cases in H as [(u & w3 & hs & [= <-] & Hb & Ht)|[? _]];
    [|done|apply changePasswordBody_hooks].
  unfold EnsurePasswordIsNew in He. apply result_bind_Ok in He as (same & Hs & He). destruct same; [done|].
  exists acc, agg, w1, cur, new, hash, hash', agg', w3, hs. eexists. by split_and!.
Qed.

(** The account that [ChangePassword] leaves. *)
Lemma ChangePassword_Ok hash t agg agg' :
  ChangePassword hash t agg = (Ok true, agg') ->
  IsRegistered agg = true /\
  AccountAggregate.state agg' =
    evolve (idOf agg) (AccountAggregate.state agg)
      (EventAccountPasswordChanged (AggregateIDOf agg) (HashedPassword.Value hash) t).
Proof using Type.
  unfold ChangePassword. intros H. apply lift_bind_Ok in H as (t' & Ht & H).
  unfold normalizeAccountOccurredAt in Ht. destruct (IsZero t); [done|]. injection Ht as <-.
  rewrite get_bind_run in H. destruct (IsRegistered agg); [|done]. destruct (_ && _); [done|].
  split; [done|]. apply method_bind_Ok in H as ([] & a2 & H & [= <-]).
  apply ApplyChange_account in H as (_ & _ & Hs & _). by rewrite Hs.
Qed.

(** C13: Changing the password ends every session of the account. Where it
    succeeds, the stored password is the new one, which is not the old one,
    the sessions of the account are revoked and those of others are as they
    were, no account but this one is touched; and from then on no token of the
    account refreshes a session, as long as no session is saved again. *)
Theorem changed_password_ends_sessions ctx current new acc w msg w' w2 req claims t :
  accounts_keyed (accountTables w) -> AccountIDFromCtx ctx = Ok acc ->
  ChangePasswordHandle deps ctx current new w = (Ok msg, w') ->
  sessionRows (accountTables w2) = sessionRows (accountTables w') ->
  ParseRefreshToken p t (RefreshRequest.RefreshToken req) = Ok claims ->
  PasetoPayload.AccountID claims = acc ->
  (exists m, accountRows (accountTables w') =
       <[acc := m]> (accountRows (accountTables w)) /\
     AccountModel.ID m = acc /\ Verify h new (AccountModel.Password m) = Ok true) /\
  allRevoked acc (sessionRows (accountTables w)) (sessionRows (accountTables w')) /\
  is_ok (RefreshHandle deps req w2).1 = false.
Proof using Laws CL RL AT ST.
  intros Hkey Hctx H Hrows Hp Hclaims.
  apply ChangePasswordHandle_Ok in H as (acc' & agg & w1 & cur & pw & hash & hash' & agg' & w3 & hs & s2 &
    Hacc & Hl & _ & _ & Hnew & _ & Hh & Hh' & Hc & Hb & -> & Ht).
  assert (acc' = acc) as -> by congruence.
  pose proof (keeps_tables _ _ _ _ (LoadAccount_keeps acc) Hl) as Hl1.
  apply ChangePassword_Ok in Hc as [Hr Hs]. apply loadAccount_id in Hl as Hid; [|done..].
  destruct Hid as [Hid|Hid]; [by unfold IsRegistered in Hr; rewrite Hid in Hr|].
  unfold changePasswordBody in Hb. apply method_bind_Ok in Hb as (agg2 & [w4 hs4] & H1 & H2).
  apply SaveAccount_Ok in H1 as (x & m & rows & w5 & hs5 & [= <- <-] & Hx & _ & _ & Hm & _ & Ht4).
  apply upserted_account in Hm as (c & u & Hmu & _).
  assert (Account.ID x = acc /\ HashedPassword.Value (Account.PasswordHash x) = HashedPassword.Value hash')
    as [Hxid Hxp].
  { unfold Snapshot in Hx. rewrite Hs in Hx. unfold NewHashedPassword, normalizePasswordValue in Hx.
    go_inv. by rewrite <- Hid. }
  apply revokeSessions_Ok in H2 as [Ha Hrev]; [|rewrite Ht4; by apply accounts_keyed_saved; rewrite ?Hl1].
  rewrite Ht4 in Ha, Hrev. cbn in Ha, Hrev. rewrite Hl1 in Ha, Hrev. rewrite Ht.
  assert (Hmid : AccountModel.ID m = acc) by (by rewrite Hmu).
  assert (HashedPassword.Value hash' = hash /\ PlainPassword.Value pw = new) as [Hv1 Hv2].
  { unfold NewHashedPassword, NewPlainPassword, normalizePasswordValue in *. by go_inv. }
  split_and!; [|done|].
  - exists m. rewrite Ha, Hmid. split_and!; [done..|]. rewrite Hmu. cbn. rewrite Hxp, Hv1, <- Hv2.
    by apply Verify_refl.
  - destruct (RefreshHandle deps req w2) as [r w2'] eqn:Hrun.
    apply RefreshHandle_cases in Hrun as [(claims2 & x' & ? & ? & _ & K1 & K2 & K3 & _ & _ & K6 & _)|[? _]]; [|done].
    rewrite (ParseRefreshToken_stable _ _ _ _ _ _ K1 Hp) in K2, K3. rewrite Hrows, Ht in K2.
    exfalso. specialize (Hrev (PasetoPayload.SessionID claims)).
    destruct (sessionRows (accountTables w) !! _) as [s|]; [|congruence].
    case_decide as Hsacc.
    + destruct Hrev as (s' & (_ & _ & Hst) & Hs'). rewrite Hs' in K2. injection K2 as <-.
      unfold EnsureRefreshAllowed in K6. by rewrite decide_True in K6.
    + rewrite Hrev in K2. injection K2 as <-. congruence.
Qed.

(** ** Login with Google *)

(** A login with Google gives a refresh token that refreshes nothing. The
    session holds the token itself and not its hash, so a refresh with it is
    refused at any time, as long as the session is not saved again. *)
Theorem google_session_cannot_refresh id pw did sid req w res w' w2 req2 :
  KeyPair (PasetoService.refreshPrivateKey p) (PasetoService.refreshPublicKey p) ->
  TrimSpace sid = sid ->
  CallbackGoogleHandle deps id pw did sid req w = (Ok res, w') ->
  sessionRows (accountTables w2) = sessionRows (accountTables w') ->
  RefreshRequest.RefreshToken req2 = TokenResponse.RefreshToken res ->
  is_ok (RefreshHandle deps req2 w2).1 = false /\
  accountTables (RefreshHandle deps req2 w2).2 = accountTables w2.
Proof using Laws PL CL RL AT ST.
  intros Hkey Hsid H Hrows Htok. unfold CallbackGoogleHandle in H.
  destruct (AccountDeps.googleProvider deps) as [provider|]; [|done].
  apply method_bind_Ok in H as (at_ & w1 & _ & H). apply method_bind_Ok in H as (info & w3 & _ & H).
  apply lift_bind_Ok in H as (email & _ & H). apply method_bind_Ok in H as (t & w4 & _ & H).
  apply accountTransaction_cases in H as [(r & w5 & hs & [= <-] & Hb & Ht)|[? _]];
    [|done|apply callbackGoogleBody_hooks].
  apply callbackGoogleBody_Ok in Hb as (s & Hs & _ & Hd & t' & x & device & exp & Hx & Hgen).
  destruct (RefreshHandle deps req2 w2) as [r w2'] eqn:Hrun.
  apply RefreshHandle_cases in Hrun as [(claims & x' & ? & ? & _ & K1 & K2 & _ & _ & K5 & _)|?]; [exfalso|done].
  rewrite Htok in K1. destruct (ParseRefreshToken_Generate p t' _ x _ _ _ Hkey Hx Hgen (Z.le_refl _)) as [K _].
  rewrite (ParseRefreshToken_stable _ _ _ _ _ _ K1 K) in K2. cbn in K2.
  rewrite Hsid in Hs. rewrite Hrows, Ht in K2. cbn in Hs. rewrite Hs in K2. injection K2 as <-.
  by rewrite Verify_no_dollar in K5.
Qed.
End theorems.

(** ** Examples *)

Section witnesses.
#[local] Existing Instance caseless_unicode.
#[local] Existing Instance plainMail.
#[local] Existing Instance payloadNames.

(** Ann logs in from the phone that she registered with. *)
Definition annLogin : LoginRequest.t := LoginRequest.mk "ann@mail.org" "secret" phone.

Lemma known_device_cannot_log_in_witness :
  is_ok (LoginHandle plainDeps "d2" "s2" annLogin later).1 = false /\
  accountTables (LoginHandle plainDeps "d2" "s2" annLogin later).2 = accountTables later.
Proof.
  assert (exists d, deviceRows (accountTables later) !! "d1" = Some d /\ DeviceModel.ID d = "d1" /\
    DeviceModel.AccountID d = "a1" /\ DeviceModel.DeviceUID d = "uid-1") as (d & Hd & Hid & Hacc & Huid)
    by (eexists; split; [vm_compute; reflexivity|by split_and!]).
  assert (forall id m, accountRows (accountTables later) !! id = Some m ->
    AccountModel.Email m = "ann@mail.org" -> id = "a1") as Hone.
  { refine (bool_decide_unpack (map_Forall (fun id m => AccountModel.Email m = "ann@mail.org" -> id = "a1")
      (accountRows (accountTables later))) _). vm_compute. exact I. }
  destruct (LoginHandle plainDeps "d2" "s2" annLogin later) as [r w'] eqn:Hrun.
  rewrite <- Hid in Hd.
  refine (known_device_cannot_log_in plainDeps "d2" "s2" annLogin (Email.mk "ann@mail.org") "a1" d later r w'
    later_keyed _ _ Hone Hd Hacc _ _ _ Hrun).
  - reflexivity.
  - vm_compute. reflexivity.
  - rewrite Huid. reflexivity.
  - rewrite Hid. by vm_compute.
  - rewrite Hid. by vm_compute.
Defined.

Lemma refresh_needs_live_session_witness :
  exists res w', RefreshHandle plainDeps refreshReq later = (Ok res, w') /\
    exists claims s, ParseRefreshToken (AccountDeps.paseto plainDeps) (now later)
                       (RefreshRequest.RefreshToken refreshReq) = Ok claims /\
      sessionRows (accountTables later) !! PasetoPayload.SessionID claims = Some s /\
      now later < Session.ExpiresAt s.
Proof.
  destruct (RefreshHandle plainDeps refreshReq later) as [r w'] eqn:Hrun.
  assert (is_ok r = true) as Hok.
  { change (is_ok (r, w').1 = true). rewrite <- Hrun. by vm_compute. }
  pose proof (refresh_needs_live_session plainDeps refreshReq later r w' Hrun) as H.
  destruct r as [res|e|why]; [|discriminate Hok..].
  destruct H as (claims & s & s' & H1 & H2 & _ & _ & _ & _ & _ & H3 & _).
  exists res, w'. split; [reflexivity|].
  exists claims, s. exact (conj H1 (conj H2 H3)).
Defined.

(** The token of the registration, after it was used. *)
Definition refreshedOnce : result TokenResponse.t * MemoryAccounts := RefreshHandle plainDeps refreshReq later.


(** Ann changes her password, and then tries the token of the registration. *)
Definition changedPassword : result string * MemoryAccounts :=
  ChangePasswordHandle plainDeps asAnn "secret" "secret2" later.

Lemma changed_password_ends_sessions_witness :
  is_ok changedPassword.1 = true /\
  allRevoked "a1" (sessionRows (accountTables later)) (sessionRows (accountTables changedPassword.2)) /\
  is_ok (RefreshHandle plainDeps refreshReq changedPassword.2).1 = false.
Proof.
  destruct changedPassword as [r w'] eqn:Hrun. unfold changedPassword in Hrun.
  assert (exists msg, r = Ok msg) as [msg ->].
  { change (exists msg, (r, w').1 = Ok msg). rewrite <- Hrun. eexists. vm_compute. reflexivity. }
  split; [reflexivity|].
  assert (exists claims, ParseRefreshToken (AccountDeps.paseto plainDeps) 0
    (RefreshRequest.RefreshToken refreshReq) = Ok claims /\ PasetoPayload.AccountID claims = "a1")
    as (claims & Hp & Hacc) by (eexists; split; [vm_compute; reflexivity|done]).
  apply (changed_password_ends_sessions plainDeps asAnn "secret" "secret2" "a1" later msg w' w' refreshReq
    claims 0 later_keyed eq_refl Hrun eq_refl Hp Hacc).
Defined.

(** Ann comes with Google. *)
Definition googleLogin : result TokenResponse.t * MemoryAccounts :=
  CallbackGoogleHandle plainDeps "a1" "5b1d" "d1" "s1" (CallbackGoogleRequest.mk "code" phone) noAccounts.

Lemma google_session_cannot_refresh_witness :
  is_ok googleLogin.1 = true /\
  is_ok (RefreshHandle plainDeps (RefreshRequest.mk (refreshOf googleLogin.1) "ua" "10.0.0.1")
           googleLogin.2).1 = false.
Proof.
  destruct googleLogin as [r w'] eqn:Hrun. unfold googleLogin in Hrun.
  assert (exists res, r = Ok res) as [res ->].
  { change (exists res, (r, w').1 = Ok res). rewrite <- Hrun. eexists. vm_compute. reflexivity. }
  split; [reflexivity|].
  apply (google_session_cannot_refresh plainDeps "a1" "5b1d" "d1" "s1" (CallbackGoogleRequest.mk "code" phone)
    noAccounts res w' w' (RefreshRequest.mk (refreshOf (Ok res)) "ua" "10.0.0.1") (keys_pair _ _) eq_refl Hrun eq_refl eq_refl).
Defined.
End witnesses.
