(* ===== verification/PaymentStore.v ===== *)
(** * The repository of payments (modules/payment/infra/persistent)

    [payment_intent_aggregate_repo_impl.go], the outbox
    ([payment_intent_event_store_impl.go]), the errors and the transaction
    ([repos_impl.go]). The statements are a parameter ([PaymentSQL]). [Save]
    returns the aggregate that it has marked persisted. *)

From stdpp Require Import prelude strings gmap.
From S2P Require Import Prelude GoStrings Database Event Redis LedgerEntity PaymentEvents.
From S2P Require Import PaymentIntent PaymentAggregate.

(** ** Rows *)

Module PaymentIntentModel.
Record t := mk {
  TransactionID : string;
  Workflow : string;
  Provider : string;
  ExternalRef : option string;
  DestinationAccountID : option string;
  Amount : Z;
  FeeAmount : Z;
  ProviderAmount : Z;
  Currency : string;
  ClearingAccountKey : string;
  DebitAccountID : option string;
  CreditAccountID : option string;
  Status : string;
  Version : Z;
  CreatedAt : Time;
  UpdatedAt : Time
}.
End PaymentIntentModel.
Notation PaymentIntentModel := PaymentIntentModel.t.
#[export] Instance PaymentIntentModel_eq_dec : EqDecision PaymentIntentModel.
Proof. solve_decision. Defined.

(** The columns that an update sets; gorm sets [updated_at] beside them. *)
Module PaymentIntentUpdates.
Record t := mk {
  Workflow : string;
  Provider : string;
  ExternalRef : option string;
  DestinationAccountID : option string;
  Amount : Z;
  FeeAmount : Z;
  ProviderAmount : Z;
  Currency : string;
  ClearingAccountKey : string;
  DebitAccountID : option string;
  CreditAccountID : option string;
  Status : string;
  Version : Z
}.
End PaymentIntentUpdates.
Notation PaymentIntentUpdates := PaymentIntentUpdates.t.

Module PaymentOutboxRow.
Record t := mk {
  AggregateID : string;
  AggregateType : string;
  Version : Z;
  EventName : string;
  EventData : string;
  CreatedAt : Z
}.
End PaymentOutboxRow.
Notation PaymentOutboxRow := PaymentOutboxRow.t.

(** ** Statements *)

Class PaymentSQL (W : Type) := {
  insertPaymentIntent : PaymentIntentModel -> method W unit;
  (** UPDATE payment_intents WHERE transaction_id: the number of rows. *)
  updatePaymentIntent : string -> PaymentIntentUpdates -> method W Z;
  selectPaymentIntent : string -> method W (option PaymentIntentModel);
  (** SELECT WHERE provider AND external_ref. *)
  selectPaymentIntentByRef : string -> string -> method W (option PaymentIntentModel);
  (** SELECT WHERE workflow AND status ORDER BY created_at LIMIT. *)
  selectPaymentIntents : string -> string -> Z -> method W (list PaymentIntentModel);
  insertProcessedPaymentEvent : ProcessedPaymentEvent -> method W unit;
  insertPaymentOutbox : PaymentOutboxRow -> method W unit;
  (** [err.Error()]. *)
  paymentErrorText : error -> string;
  paymentBeginError : W -> option error;
  paymentCommitError : W -> option error;
  (** The state when a transaction that began in the first state and reached
      the second is rolled back. *)
  paymentRollback : W -> W -> W
}.

(** ** Errors (errors.go) *)

Definition ErrPaymentIntentAggregateNotFound := Sentinel "ErrPaymentIntentAggregateNotFound".
Definition ErrPaymentIntentAggregateDuplicateIntent := Sentinel "ErrPaymentIntentAggregateDuplicateIntent".
Definition ErrPaymentIntentAggregateDuplicateProcessed := Sentinel "ErrPaymentIntentAggregateDuplicateProcessed".

(** [mapError], on the error that is not nil and its text. *)
Definition mapPaymentError `{UC : UnicodeCase} (errText : error -> string) (err : error) : error :=
  if errors_Is err "gorm.ErrRecordNotFound" then ErrPaymentIntentAggregateNotFound
  else if IsUniqueConstraintError (errText err) then ErrPaymentIntentAggregateDuplicateIntent
  else err.

(** ** Models *)

(** [strings.HasPrefix]. *)
Definition HasPrefix (s prefix : string) : bool := String.prefix prefix s.

Definition pendingExternalRefPrefix : string := "__pending__:".

Definition stringToDB (value : string) : option string :=
  let value := TrimSpace value in
  if decide (value = "") then None else Some value.

Definition stringFromDB (value : option string) : string :=
  match value with None => "" | Some value => TrimSpace value end.

Definition externalRefFromStorage (value : option string) : string :=
  match value with
  | None => ""
  | Some value =>
      let externalRef := TrimSpace value in
      if HasPrefix externalRef pendingExternalRefPrefix then "" else externalRef
  end.

Section models.
Context `{UC : UnicodeCase}.

Definition normalizeProvider (provider : string) : string := ToLower (TrimSpace provider).

Definition externalRefToStorage (provider transactionID externalRef : string) : option string :=
  let value := TrimSpace externalRef in
  if decide (value <> "") then Some value
  else Some (pendingExternalRefPrefix +:+ normalizeProvider provider +:+ ":" +:+ TrimSpace transactionID).

Definition normalizePaymentIntent (p : PaymentIntent) : PaymentIntent :=
  let workflow := NormalizePaymentWorkflow (PaymentIntent.Workflow p) in
  let workflow := if decide (workflow = "") then PaymentWorkflowTopUp else workflow in
  let providerAmount :=
    if decide (PaymentIntent.ProviderAmount p <= 0) then
      if decide (workflow = PaymentWorkflowWithdrawal) then PaymentIntent.Amount p
      else add64 (PaymentIntent.Amount p) (PaymentIntent.FeeAmount p)
    else PaymentIntent.ProviderAmount p in
  PaymentIntent.mk workflow (TrimSpace (PaymentIntent.TransactionID p))
    (normalizeProvider (PaymentIntent.Provider p)) (TrimSpace (PaymentIntent.ExternalRef p))
    (TrimSpace (PaymentIntent.DestinationAccountID p)) (PaymentIntent.Amount p)
    (PaymentIntent.FeeAmount p) providerAmount (ToUpper (TrimSpace (PaymentIntent.Currency p)))
    (TrimSpace (PaymentIntent.ClearingAccountKey p)) (TrimSpace (PaymentIntent.DebitAccountID p))
    (TrimSpace (PaymentIntent.CreditAccountID p))
    (NormalizePaymentStatusOrPending (PaymentIntent.Status p)) (UTC (PaymentIntent.CreatedAt p))
    (UTC (PaymentIntent.UpdatedAt p)).

Definition toPaymentIntentModel (p : PaymentIntent) (version : Z) : PaymentIntentModel :=
  PaymentIntentModel.mk (PaymentIntent.TransactionID p) (PaymentIntent.Workflow p)
    (PaymentIntent.Provider p)
    (externalRefToStorage (PaymentIntent.Provider p) (PaymentIntent.TransactionID p)
       (PaymentIntent.ExternalRef p))
    (stringToDB (PaymentIntent.DestinationAccountID p)) (PaymentIntent.Amount p)
    (PaymentIntent.FeeAmount p) (PaymentIntent.ProviderAmount p) (PaymentIntent.Currency p)
    (PaymentIntent.ClearingAccountKey p) (stringToDB (PaymentIntent.DebitAccountID p))
    (stringToDB (PaymentIntent.CreditAccountID p)) (PaymentIntent.Status p) version
    (PaymentIntent.CreatedAt p) (PaymentIntent.UpdatedAt p).

Definition paymentIntentUpdates (p : PaymentIntent) (version : Z) : PaymentIntentUpdates :=
  PaymentIntentUpdates.mk (PaymentIntent.Workflow p) (PaymentIntent.Provider p)
    (externalRefToStorage (PaymentIntent.Provider p) (PaymentIntent.TransactionID p)
       (PaymentIntent.ExternalRef p))
    (stringToDB (PaymentIntent.DestinationAccountID p)) (PaymentIntent.Amount p)
    (PaymentIntent.FeeAmount p) (PaymentIntent.ProviderAmount p) (PaymentIntent.Currency p)
    (PaymentIntent.ClearingAccountKey p) (stringToDB (PaymentIntent.DebitAccountID p))
    (stringToDB (PaymentIntent.CreditAccountID p)) (PaymentIntent.Status p) version.

Definition intentOfModel (m : PaymentIntentModel) : PaymentIntent :=
  PaymentIntent.mk (PaymentIntentModel.Workflow m) (PaymentIntentModel.TransactionID m)
    (PaymentIntentModel.Provider m) (externalRefFromStorage (PaymentIntentModel.ExternalRef m))
    (stringFromDB (PaymentIntentModel.DestinationAccountID m)) (PaymentIntentModel.Amount m)
    (PaymentIntentModel.FeeAmount m) (PaymentIntentModel.ProviderAmount m)
    (PaymentIntentModel.Currency m) (PaymentIntentModel.ClearingAccountKey m)
    (stringFromDB (PaymentIntentModel.DebitAccountID m))
    (stringFromDB (PaymentIntentModel.CreditAccountID m)) (PaymentIntentModel.Status m)
    (PaymentIntentModel.CreatedAt m) (PaymentIntentModel.UpdatedAt m).

Definition toPaymentIntentAggregate (now : Time) (m : PaymentIntentModel) :
    result PaymentIntentAggregate :=
  RestorePaymentIntentAggregateWithVersion now (Some (normalizePaymentIntent (intentOfModel m)))
    (PaymentIntentModel.Version m).

Fixpoint toPaymentIntentAggregates (now : Time) (models : list PaymentIntentModel) :
    result (list PaymentIntentAggregate) :=
  match models with
  | [] => Ok []
  | m :: models =>
      agg ← toPaymentIntentAggregate now m; aggs ← toPaymentIntentAggregates now models;
      Ok (agg :: aggs)
  end.
End models.

(** ** The repository *)

Section repository.
Context `{UC : UnicodeCase} {W : Type} `{RT : Runtime W} `{SQL : PaymentSQL W}.
Context `{EJ : JSON PaymentEventData}.

Definition paymentClock : method W Time := fun w => (Ok (now w), w).
Definition mapping {A} (m : method W A) : method W A := wrap_err (mapPaymentError paymentErrorText) m.

(** [Append], for an event that the publisher has stamped. *)
Definition AppendPaymentOutbox (evt : Event PaymentEventData) : method W unit :=
  data ← lift (map_err (fun err => Errorf "marshal payment outbox event data failed: %w" [err])
                 (Marshal (EventData evt)));
  at_ ← paymentClock;
  insertPaymentOutbox (PaymentOutboxRow.mk (AggregateID evt) (AggregateType evt) (Version evt)
    (EventName evt) data (if decide (0 < CreatedAt evt) then CreatedAt evt else Unix at_)).

Definition insertProcessedEvent (event : ProcessedPaymentEvent) : method W unit :=
  wrap_err (fun err =>
    if IsUniqueConstraintError (paymentErrorText err)
    then ErrPaymentIntentAggregateDuplicateProcessed
    else mapPaymentError paymentErrorText err)
  (insertProcessedPaymentEvent
     (ProcessedPaymentEvent.mk (normalizeProvider (ProcessedPaymentEvent.Provider event))
        (TrimSpace (ProcessedPaymentEvent.IdempotencyKey event))
        (TrimSpace (ProcessedPaymentEvent.TransactionID event))
        (UTC (ProcessedPaymentEvent.CreatedAt event)))).

(** The intent is inserted where the aggregate was never stored. *)
Definition writePaymentIntent (agg : PaymentIntentAggregate) (p : PaymentIntent) : method W unit :=
  let version := CurrentVersion (PaymentIntentAggregate.root agg) in
  if decide (baseVersion (PaymentIntentAggregate.root agg) = 0) then
    mapping (insertPaymentIntent (toPaymentIntentModel p version))
  else
    rowsAffected ← mapping (updatePaymentIntent (PaymentIntent.TransactionID p)
                              (paymentIntentUpdates p version));
    if decide (rowsAffected = 0) then raise ErrPaymentIntentAggregateNotFound else mret tt.

Definition publishPaymentEvents (agg : PaymentIntentAggregate) : method W unit := fun w =>
  let events := PendingOutboxEvents agg in
  if decide (0 < Z.of_nat (length events)) then Publish (Some AppendPaymentOutbox) (now w) events w
  else (Ok tt, w).

(** [Save] works on the clone of the intent that [Snapshot] makes. *)
Definition SavePayment (agg : PaymentIntentAggregate) : method W PaymentIntentAggregate :=
  match Snapshot agg with
  | None => raise ErrPaymentIntentAggregateNotFound
  | Some p =>
      let p := normalizePaymentIntent p in
      range (PendingProcessedEvents agg) insertProcessedEvent;;
      writePaymentIntent agg p;;
      publishPaymentEvents agg;;
      mret (MarkPaymentPersisted agg)
  end.

Definition loadPayment (select : method W (option PaymentIntentModel)) :
    method W PaymentIntentAggregate :=
  m ← mapping (First select);
  at_ ← paymentClock;
  lift (toPaymentIntentAggregate at_ m).

Definition GetByTransactionID (transactionID : string) : method W PaymentIntentAggregate :=
  loadPayment (selectPaymentIntent transactionID).

Definition GetByExternalRef (provider externalRef : string) : method W PaymentIntentAggregate :=
  loadPayment (selectPaymentIntentByRef (normalizeProvider provider) (TrimSpace externalRef)).

Definition ListPendingWithdrawals (limit : Z) : method W (list PaymentIntentAggregate) :=
  let limit := if decide (limit <= 0) then 20 else limit in
  models ← mapping (selectPaymentIntents PaymentWorkflowWithdrawal PaymentStatusCreating limit);
  at_ ← paymentClock;
  lift (toPaymentIntentAggregates at_ models).

(** [repoImpl.WithTransaction]: a panic goes on after the rollback. *)
Definition WithPaymentTransaction {A} (fn : method W A) : method W A := fun w =>
  match paymentBeginError w with
  | Some e => (Err e, w)
  | None =>
      match fn w with
      | (Ok a, w') =>
          match paymentCommitError w' with
          | Some e => (Err e, paymentRollback w w')
          | None => (Ok a, w')
          end
      | (r, w') => (r, paymentRollback w w')
      end
  end.
End repository.

(** * The tables of payments

    What the repository of payments relies on of the database
    ([PaymentSQLLaws], over the contents [PaymentTables]): the primary key, the
    unique constraint of processed events, and that an update sets the columns
    that it names. *)

(** ** Contents *)

Record PaymentTables := mkPaymentTables {
  intentRows : gmap string PaymentIntentModel;
  processedRows : list ProcessedPaymentEvent;
  paymentOutbox : list PaymentOutboxRow
}.

Definition setIntentRow (id : string) (m : PaymentIntentModel) (t : PaymentTables) : PaymentTables :=
  mkPaymentTables (<[id := m]> (intentRows t)) (processedRows t) (paymentOutbox t).
Definition addProcessed (es : list ProcessedPaymentEvent) (t : PaymentTables) : PaymentTables :=
  mkPaymentTables (intentRows t) (processedRows t ++ es) (paymentOutbox t).
Definition addPaymentOutbox (rows : list PaymentOutboxRow) (t : PaymentTables) : PaymentTables :=
  mkPaymentTables (intentRows t) (processedRows t) (paymentOutbox t ++ rows).

(** The unique key of a processed event. *)
Definition processedKey (e : ProcessedPaymentEvent) : string * string :=
  (ProcessedPaymentEvent.Provider e, ProcessedPaymentEvent.IdempotencyKey e).
Definition processedKeys (t : PaymentTables) : list (string * string) :=
  processedKey <$> processedRows t.

(** A row after an update at the time [at_]. *)
Definition updatedRow (u : PaymentIntentUpdates) (at_ : Time) (m : PaymentIntentModel) :
    PaymentIntentModel :=
  PaymentIntentModel.mk (PaymentIntentModel.TransactionID m) (PaymentIntentUpdates.Workflow u)
    (PaymentIntentUpdates.Provider u) (PaymentIntentUpdates.ExternalRef u)
    (PaymentIntentUpdates.DestinationAccountID u) (PaymentIntentUpdates.Amount u)
    (PaymentIntentUpdates.FeeAmount u) (PaymentIntentUpdates.ProviderAmount u)
    (PaymentIntentUpdates.Currency u) (PaymentIntentUpdates.ClearingAccountKey u)
    (PaymentIntentUpdates.DebitAccountID u) (PaymentIntentUpdates.CreditAccountID u)
    (PaymentIntentUpdates.Status u) (PaymentIntentUpdates.Version u)
    (PaymentIntentModel.CreatedAt m) at_.

Definition setModelTimes (created updated : Time) (m : PaymentIntentModel) : PaymentIntentModel :=
  PaymentIntentModel.mk (PaymentIntentModel.TransactionID m) (PaymentIntentModel.Workflow m)
    (PaymentIntentModel.Provider m) (PaymentIntentModel.ExternalRef m)
    (PaymentIntentModel.DestinationAccountID m) (PaymentIntentModel.Amount m)
    (PaymentIntentModel.FeeAmount m) (PaymentIntentModel.ProviderAmount m)
    (PaymentIntentModel.Currency m) (PaymentIntentModel.ClearingAccountKey m)
    (PaymentIntentModel.DebitAccountID m) (PaymentIntentModel.CreditAccountID m)
    (PaymentIntentModel.Status m) (PaymentIntentModel.Version m) created updated.

(** ** What the repository relies on *)

Class PaymentSQLLaws (W : Type) `{RT : Runtime W} `{SQL : PaymentSQL W} := {
  paymentTables : W -> PaymentTables;
  (** A new row keeps its times, unless they are zero. *)
  insertPaymentIntent_law m w : effect paymentTables (insertPaymentIntent m) w (fun _ w' =>
    intentRows (paymentTables w) !! PaymentIntentModel.TransactionID m = None /\
    exists m', (exists c u, m' = setModelTimes c u m) /\
      (PaymentIntentModel.CreatedAt m <> 0 -> PaymentIntentModel.UpdatedAt m <> 0 -> m' = m) /\
      paymentTables w' = setIntentRow (PaymentIntentModel.TransactionID m) m' (paymentTables w));
  updatePaymentIntent_law id u w : effect paymentTables (updatePaymentIntent id u) w (fun n w' =>
    match intentRows (paymentTables w) !! id with
    | None => n = 0 /\ paymentTables w' = paymentTables w
    | Some m => exists at_, at_ <> 0 /\
        paymentTables w' = setIntentRow id (updatedRow u at_ m) (paymentTables w)
    end);
  selectPaymentIntent_law id w : effect paymentTables (selectPaymentIntent id) w (fun o w' =>
    paymentTables w' = paymentTables w /\ o = intentRows (paymentTables w) !! id);
  selectPaymentIntentByRef_law provider ref w :
    effect paymentTables (selectPaymentIntentByRef provider ref) w (fun o w' =>
      paymentTables w' = paymentTables w /\
      match o with
      | Some m => exists id, intentRows (paymentTables w) !! id = Some m /\
          PaymentIntentModel.Provider m = provider /\ PaymentIntentModel.ExternalRef m = Some ref
      | None => forall id m, intentRows (paymentTables w) !! id = Some m ->
          PaymentIntentModel.Provider m = provider -> PaymentIntentModel.ExternalRef m <> Some ref
      end);
  selectPaymentIntents_law workflow status limit w : 0 < limit ->
    effect paymentTables (selectPaymentIntents workflow status limit) w (fun l w' =>
      paymentTables w' = paymentTables w /\
      Z.of_nat (length l) <= limit /\
      (forall m, m ∈ l -> exists id, intentRows (paymentTables w) !! id = Some m /\
         PaymentIntentModel.Workflow m = workflow /\ PaymentIntentModel.Status m = status) /\
      (forall id m, intentRows (paymentTables w) !! id = Some m ->
         PaymentIntentModel.Workflow m = workflow -> PaymentIntentModel.Status m = status ->
         m ∈ l \/ Z.of_nat (length l) = limit /\ forall m', m' ∈ l ->
           PaymentIntentModel.CreatedAt m' <= PaymentIntentModel.CreatedAt m));
  insertProcessedPaymentEvent_law e w :
    effect paymentTables (insertProcessedPaymentEvent e) w (fun _ w' =>
      processedKey e ∉ processedKeys (paymentTables w) /\
      paymentTables w' = addProcessed [e] (paymentTables w));
  insertPaymentOutbox_law row w : effect paymentTables (insertPaymentOutbox row) w (fun _ w' =>
    paymentTables w' = addPaymentOutbox [row] (paymentTables w));
  paymentRollback_law before after :
    paymentTables (paymentRollback before after) = paymentTables before;
  (** [time.Now()] is not the zero time. *)
  paymentNow_law w : now w <> 0
}.

(** The rows are under their keys. *)
Definition intents_keyed (t : PaymentTables) : Prop :=
  forall id m, intentRows t !! id = Some m -> PaymentIntentModel.TransactionID m = id.
