(* ===== verification/PaymentProviders.v ===== *)
(** * Payment providers (modules/payment/providers, infra/provider, domain/service)

    The interface of a provider, the registry, the adapter that the service
    uses, and the mock provider. A provider is a record of methods over a
    state [W]: a call of it takes time, in which other requests run. *)

From Stdlib Require Import Ascii.
From stdpp Require Import prelude strings gmap pretty.
From S2P Require Import Prelude GoStrings LedgerEntity PaymentEvents PaymentIntent.

(** ** The interface (provider.go) *)

Definition ErrProviderNotFound := Sentinel "ErrProviderNotFound".
Definition ErrInvalidWebhookSignature := Sentinel "ErrInvalidWebhookSignature".
Definition ErrWebhookEventIgnored := Sentinel "ErrWebhookEventIgnored".

Definition Metadata : Type := gmap string string.
(** [m[key]]. *)
Definition lookupString (m : Metadata) (key : string) : string := default "" (m !! key).

Module Providers.
Module CreatePaymentRequest.
Record t := mk { TransactionID : string; Amount : Z; Currency : string; Metadata : Metadata }.
End CreatePaymentRequest.
Module RefundPaymentRequest.
Record t := mk {
  TransactionID : string; ExternalRef : string; Amount : Z; Currency : string; Reason : string }.
End RefundPaymentRequest.
Module CreatePaymentResponse.
Record t := mk {
  Provider : string; TransactionID : string; ExternalRef : string; Status : string;
  CheckoutURL : string }.
End CreatePaymentResponse.
Module RefundPaymentResponse.
Record t := mk {
  Provider : string; TransactionID : string; ExternalRef : string; Status : string; Amount : Z;
  Currency : string }.
End RefundPaymentResponse.
Module WebhookEvent.
Record t := mk {
  Provider : string; EventID : string; EventType : string; Attributes : Metadata }.
End WebhookEvent.
(** [PaymentResult]. *)
Module PaymentResult.
Record t := mk {
  TransactionID : string; EventID : string; EventType : string; Status : string; Amount : Z;
  Currency : string; ExternalRef : string }.
End PaymentResult.

(** [PaymentProvider]. *)
Record provider (W : Type) := mkProvider {
  Name : string;
  CreatePayment : CreatePaymentRequest.t -> method W CreatePaymentResponse.t;
  CreateWithdrawal : PaymentIntent -> Metadata -> method W CreatePaymentResponse.t;
  RefundPayment : RefundPaymentRequest.t -> method W RefundPaymentResponse.t;
  VerifyWebhook : string -> string -> method W WebhookEvent.t;
  ParseEvent : WebhookEvent.t -> method W PaymentResult.t
}.
Arguments mkProvider {W}.
Arguments Name {W}.
Arguments CreatePayment {W}.
Arguments CreateWithdrawal {W}.
Arguments RefundPayment {W}.
Arguments VerifyWebhook {W}.
Arguments ParseEvent {W}.

(** *** The registry (registry.go) *)

Section registry.
Context `{UC : UnicodeCase} {W : Type}.

Definition ProviderRegistry : Type := gmap string (provider W).
Definition NewProviderRegistry : ProviderRegistry := ∅.
Definition Register (p : provider W) (r : ProviderRegistry) : ProviderRegistry :=
  <[ToLower (TrimSpace (Name p)) := p]> r.
(** The error does not wrap [ErrProviderNotFound]: its verb is [%v]. *)
Definition Get (name : string) (r : ProviderRegistry) : result (provider W) :=
  match r !! ToLower (TrimSpace name) with
  | Some p => Ok p
  | None => Err (Errorf "%v: %s" [])
  end.
End registry.
End Providers.

(** ** What the service uses (payment_provider.go) *)

Module PaymentCreation.
Record t := mk { Provider : string; Result : PaymentProviderResult; CheckoutURL : string }.
End PaymentCreation.
Notation PaymentCreation := PaymentCreation.t.
Module PaymentWebhook.
Record t := mk { Provider : string; Ignored : bool; Result : PaymentProviderResult }.
End PaymentWebhook.
Notation PaymentWebhook := PaymentWebhook.t.
Module PaymentRefund.
Record t := mk { Provider : string; Result : PaymentProviderResult }.
End PaymentRefund.
Notation PaymentRefund := PaymentRefund.t.

Record PaymentProvider (W : Type) := mkPaymentProvider {
  ProviderName : string;
  ProviderCreatePayment : PaymentIntent -> Metadata -> method W PaymentCreation;
  ProviderCreateWithdrawal : PaymentIntent -> Metadata -> method W PaymentCreation;
  ProviderRefundPayment : PaymentIntent -> string -> method W PaymentRefund;
  ParseWebhook : string -> string -> method W PaymentWebhook
}.
Arguments mkPaymentProvider {W}.
Arguments ProviderName {W}.
Arguments ProviderCreatePayment {W}.
Arguments ProviderCreateWithdrawal {W}.
Arguments ProviderRefundPayment {W}.
Arguments ParseWebhook {W}.

(** [PaymentProviderRegistry]: its [Get]. *)
Definition PaymentProviderRegistry (W : Type) : Type := string -> result (PaymentProvider W).

(** ** The adapter (provider_registry.go) *)

Fixpoint coalesceProviderValue (values : list string) : string :=
  match values with
  | [] => ""
  | value :: values =>
      let value := TrimSpace value in
      if decide (value <> "") then value else coalesceProviderValue values
  end.

Section adapter.
Context `{UC : UnicodeCase} {W : Type}.
Import Providers.

Definition adapterName (p : provider W) : string := ToLower (TrimSpace (Name p)).

Definition adapterCreatePayment (p : provider W) (intent : PaymentIntent) (metadata : Metadata) :
    method W PaymentCreation :=
  response ← CreatePayment p (CreatePaymentRequest.mk (PaymentIntent.TransactionID intent)
    (PaymentIntent.ProviderAmount intent) (PaymentIntent.Currency intent) metadata);
  mret (PaymentCreation.mk (adapterName p)
    (PaymentProviderResult.mk
       (coalesceProviderValue
          [CreatePaymentResponse.TransactionID response; PaymentIntent.TransactionID intent])
       "" "" (NormalizePaymentStatusOrPending (CreatePaymentResponse.Status response)) 0 ""
       (TrimSpace (CreatePaymentResponse.ExternalRef response)))
    (TrimSpace (CreatePaymentResponse.CheckoutURL response))).

Definition adapterCreateWithdrawal (p : provider W) (intent : PaymentIntent) (metadata : Metadata) :
    method W PaymentCreation :=
  response ← CreateWithdrawal p intent metadata;
  mret (PaymentCreation.mk (adapterName p)
    (PaymentProviderResult.mk
       (coalesceProviderValue
          [CreatePaymentResponse.TransactionID response; PaymentIntent.TransactionID intent])
       "" "" (NormalizePaymentStatusOrPending (CreatePaymentResponse.Status response))
       (PaymentIntent.ProviderAmount intent) (PaymentIntent.Currency intent)
       (TrimSpace (CreatePaymentResponse.ExternalRef response)))
    "").

Definition adapterRefundPayment (p : provider W) (intent : PaymentIntent) (reason : string) :
    method W PaymentRefund :=
  response ← RefundPayment p (RefundPaymentRequest.mk (PaymentIntent.TransactionID intent)
    (PaymentIntent.ExternalRef intent) (PaymentIntent.ProviderAmount intent)
    (PaymentIntent.Currency intent) reason);
  let transactionID := coalesceProviderValue
    [RefundPaymentResponse.TransactionID response; PaymentIntent.TransactionID intent] in
  mret (PaymentRefund.mk (adapterName p)
    (PaymentProviderResult.mk transactionID ("refund:" +:+ transactionID) "payment.refunded"
       (NormalizePaymentStatusOrPending (RefundPaymentResponse.Status response))
       (RefundPaymentResponse.Amount response)
       (coalesceProviderValue
          [RefundPaymentResponse.Currency response; PaymentIntent.Currency intent])
       (TrimSpace (RefundPaymentResponse.ExternalRef response)))).

(** The zero [PaymentProviderResult] of an ignored webhook. *)
Definition noProviderResult : PaymentProviderResult := PaymentProviderResult.mk "" "" "" "" 0 "" "".

Definition adapterParseWebhook (p : provider W) (payload signature : string) :
    method W PaymentWebhook :=
  event ← VerifyWebhook p payload signature;
  (fun w =>
    match ParseEvent p event w with
    | (Ok res, w) =>
        (Ok (PaymentWebhook.mk (adapterName p) false
           (PaymentProviderResult.mk (TrimSpace (PaymentResult.TransactionID res))
              (TrimSpace (PaymentResult.EventID res)) (TrimSpace (PaymentResult.EventType res))
              (NormalizePaymentStatusOrPending (PaymentResult.Status res))
              (PaymentResult.Amount res) (TrimSpace (PaymentResult.Currency res))
              (TrimSpace (PaymentResult.ExternalRef res)))), w)
    | (Err err, w) =>
        if errors_Is err "ErrWebhookEventIgnored"
        then (Ok (PaymentWebhook.mk (adapterName p) true noProviderResult), w)
        else (Err err, w)
    | (Panic why, w) => (Panic why, w)
    end) : method W PaymentWebhook.

Definition paymentProviderAdapter (p : provider W) : PaymentProvider W :=
  mkPaymentProvider (adapterName p) (adapterCreatePayment p) (adapterCreateWithdrawal p)
    (adapterRefundPayment p) (adapterParseWebhook p).

(** [NewPaymentProviderRegistry]. *)
Definition paymentProviderRegistry (r : ProviderRegistry) : PaymentProviderRegistry W :=
  fun name => p ← Get name r; Ok (paymentProviderAdapter p).
End adapter.

(** ** Numbers as text

    [strconv.ParseInt(s, 10, 64)]: an optional sign and digits. *)

Definition digitOf (c : Ascii.ascii) : option Z :=
  let n := Z.of_nat (Ascii.nat_of_ascii c) in
  if decide (48 <= n <= 57) then Some (n - 48) else None.

(** The value of the leading digits, after [acc], and what follows them. *)
Fixpoint scanDigits (acc : Z) (s : string) : Z * string :=
  match s with
  | String.String c rest =>
      match digitOf c with
      | Some d => scanDigits (10 * acc + d) rest
      | None => (acc, s)
      end
  | String.EmptyString => (acc, s)
  end.

(** A sign and the leading digits, where there are any and the number fits. *)
Definition scanNumber (s : string) : option (Z * string) :=
  let '(sign, s') :=
    match s with
    | String.String c rest =>
        if bool_decide (c = "-"%char) then (-1, rest)
        else if bool_decide (c = "+"%char) then (1, rest) else (1, s)
    | String.EmptyString => (1, s)
    end in
  let '(n, rest) := scanDigits 0 s' in
  if decide (rest = s') then None
  else if decide (int64_min <= sign * n <= int64_max) then Some (sign * n, rest) else None.

Definition ParseInt (s : string) : result Z :=
  match scanNumber s with
  | Some (n, rest) => if decide (rest = "") then Ok n else Err (Errorf "invalid syntax" [])
  | None => Err (Errorf "invalid syntax" [])
  end.

(** [fmt.Sscanf(s, "%d", &n)] leaves what follows the number. *)
Definition Sscanf_d (s : string) : result Z :=
  match scanNumber s with
  | Some (n, _) => Ok n
  | None => Err (Errorf "expected integer" [])
  end.

(** ** The mock provider (mock/provider.go) *)

Module MockProvider.
Definition ProviderName : string := "mock".

Module webhookPayload.
Record t := mk {
  EventID : string; EventType : string; TransactionID : string; ExternalRef : string;
  Status : string; Amount : Z; Currency : string }.
End webhookPayload.

(** [json.Unmarshal] into a [webhookPayload]. *)
Class MockJSON := { DecodeWebhookPayload : string -> result webhookPayload.t }.

Fixpoint firstNonEmpty (values : list string) : string :=
  match values with
  | [] => ""
  | value :: values =>
      let value := TrimSpace value in
      if decide (value <> "") then value else firstNonEmpty values
  end.

Section mock.
Context `{UC : UnicodeCase} `{MJ : MockJSON} {W : Type}.
Import Providers.

Definition CreatePayment (req : CreatePaymentRequest.t) : method W CreatePaymentResponse.t :=
  let status :=
    if EqualFold (lookupString (CreatePaymentRequest.Metadata req) "auto_capture") "true"
    then PaymentStatusSuccess else PaymentStatusPending in
  let externalRef := "mock_" +:+ CreatePaymentRequest.TransactionID req in
  mret (CreatePaymentResponse.mk ProviderName (CreatePaymentRequest.TransactionID req) externalRef
          status ("https://mock-payments.local/checkout/" +:+ externalRef)).

Definition RefundPayment (req : RefundPaymentRequest.t) : method W RefundPaymentResponse.t :=
  let transactionID := TrimSpace (RefundPaymentRequest.TransactionID req) in
  if decide (transactionID = "") then raise (Errorf "transaction_id is required" []) else
  let externalRef := "mock_refund_" +:+ transactionID in
  mret (RefundPaymentResponse.mk ProviderName transactionID
          (firstNonEmpty [RefundPaymentRequest.ExternalRef req; externalRef]) PaymentStatusRefunded
          (RefundPaymentRequest.Amount req) (RefundPaymentRequest.Currency req)).

Definition CreateWithdrawal (intent : PaymentIntent) (_ : Metadata) :
    method W CreatePaymentResponse.t :=
  if decide (TrimSpace (PaymentIntent.DestinationAccountID intent) = "")
  then raise (Errorf "destination account is required" []) else
  let externalRef := "mock_transfer_" +:+ PaymentIntent.TransactionID intent in
  mret (CreatePaymentResponse.mk ProviderName (PaymentIntent.TransactionID intent) externalRef
          PaymentStatusSuccess "").

Definition VerifyWebhook (webhookSecret payload signature : string) : method W WebhookEvent.t :=
  if decide (TrimSpace signature <> webhookSecret) then raise ErrInvalidWebhookSignature else
  body ← lift (map_err (fun err => Errorf "decode mock webhook payload: %w" [err])
                 (DecodeWebhookPayload payload));
  mret (WebhookEvent.mk ProviderName (webhookPayload.EventID body) (webhookPayload.EventType body)
    (list_to_map [("transaction_id", webhookPayload.TransactionID body);
                  ("external_ref", webhookPayload.ExternalRef body);
                  ("status", webhookPayload.Status body);
                  ("amount", pretty (webhookPayload.Amount body));
                  ("currency", webhookPayload.Currency body)])).

Definition ParseEvent (event : WebhookEvent.t) : method W PaymentResult.t :=
  let attr key := TrimSpace (lookupString (WebhookEvent.Attributes event) key) in
  let rawAmount := attr "amount" in
  amount ← lift (if decide (rawAmount <> "") then
                   map_err (fun err => Errorf "parse mock webhook amount: %w" [err])
                     (Sscanf_d rawAmount)
                 else Ok 0);
  mret (PaymentResult.mk (attr "transaction_id") (WebhookEvent.EventID event)
          (WebhookEvent.EventType event) (attr "status") amount (attr "currency")
          (attr "external_ref")).

Definition NewProvider (webhookSecret : string) : provider W :=
  mkProvider ProviderName CreatePayment CreateWithdrawal RefundPayment (VerifyWebhook webhookSecret)
    ParseEvent.
End mock.
End MockProvider.
