(* ===== verification/PaymentService.v ===== *)
(** * The payment commands (modules/payment/application)

    [service/payment_command_service.go]: creation of payments and withdrawals,
    the payout of withdrawals, webhooks and refunds; the consumer of the ledger
    outbox ([messaging/message_handler.go]), the task that pays out, and the
    gRPC server ([transport/grpc/server.go]). Fresh ids are arguments; the
    clock is that of the state. *)

From stdpp Require Import prelude strings gmap.
From S2P Require Import Prelude GoStrings Database Event ActorContext Redis Locks.
From S2P Require Import LedgerEntity LedgerService PaymentEvents PaymentIntent PaymentAggregate.
From S2P Require Import LedgerMessaging LedgerTransport PaymentStore PaymentProviders.

(** ** Requests and responses *)

Module CreatePaymentRequest.
Record t := mk { Provider : string; Amount : Z; Currency : string; Metadata : Metadata }.
End CreatePaymentRequest.
Module CreateWithdrawalRequest.
Record t := mk { Provider : string; Amount : Z; Currency : string; Metadata : Metadata }.
End CreateWithdrawalRequest.
Module ProcessWebhookRequest.
Record t := mk { Provider : string; Signature : string; Payload : string }.
End ProcessWebhookRequest.
Module RefundPaymentRequest.
Record t := mk { Provider : string; TransactionID : string; Reason : string }.

Definition Normalize (r : t) : t :=
  mk (TrimSpace (Provider r)) (TrimSpace (TransactionID r)) (TrimSpace (Reason r)).
(** The request that it validates is the normalized one. *)
Definition Validate (r : t) : result t :=
  let r := Normalize r in
  if decide (Provider r = "") then Err (Errorf "provider is required" [])
  else if decide (TransactionID r = "") then Err (Errorf "transaction_id is required" [])
  else Ok r.
End RefundPaymentRequest.

Module CreatePaymentResponse.
Record t := mk {
  Provider : string; Workflow : string; TransactionID : string; ExternalRef : string; Amount : Z;
  FeeAmount : Z; ProviderAmount : Z; Status : string; CheckoutURL : string }.
End CreatePaymentResponse.
Module CreateWithdrawalResponse.
Record t := mk {
  Provider : string; Workflow : string; TransactionID : string; ExternalRef : string; Amount : Z;
  FeeAmount : Z; ProviderAmount : Z; Status : string }.
End CreateWithdrawalResponse.
Module PaymentIntegrationEvent.
Record t := mk { Name : string; DataJson : string }.
End PaymentIntegrationEvent.
Module ProcessWebhookResponse.
Record t := mk {
  Provider : string; TransactionID : string; ExternalRef : string; Status : string;
  Duplicate : bool; LedgerPosted : bool; Events : list PaymentIntegrationEvent.t }.
End ProcessWebhookResponse.
Module RefundPaymentResponse.
Record t := mk {
  Provider : string; TransactionID : string; ExternalRef : string; Status : string;
  Duplicate : bool; Events : list PaymentIntegrationEvent.t }.
End RefundPaymentResponse.

(** ** The service *)

Module PaymentService.
Definition ErrValidation := Sentinel "payment.ErrValidation".
Definition ErrDuplicatePayment := Sentinel "payment.ErrDuplicatePayment".
Definition ErrPaymentIntentNotFound := Sentinel "payment.ErrPaymentIntentNotFound".
Definition ErrPaymentUnauthorized := Sentinel "payment.ErrPaymentUnauthorized".

(** [paymentCommandService]; the repository is the state. *)
Record paymentCommandService (W : Type) := mkPaymentCommandService {
  locker : Lock W;
  providerRegistry : PaymentProviderRegistry W;
  feePolicy : StripeFeePolicy;
  withdrawalBatchSize : Z
}.
Arguments mkPaymentCommandService {W}.
Arguments locker {W}.
Arguments providerRegistry {W}.
Arguments feePolicy {W}.
Arguments withdrawalBatchSize {W}.

Module paymentProviderOutcome.
Record t := mk { Duplicate : bool; Events : list PaymentIntegrationEvent.t }.
End paymentProviderOutcome.

Definition validationError (err : error) : error := Errorf "%w: %w" [ErrValidation; err].

Definition isPaymentValidationError (err : error) : bool :=
  existsb (errors_Is err)
    ["ErrPaymentWorkflowInvalid"; "ErrPaymentTransactionIDRequired"; "ErrPaymentAmountInvalid";
     "ErrPaymentFeeAmountInvalid"; "ErrPaymentProviderAmountInvalid"; "ErrPaymentCurrencyRequired";
     "ErrPaymentCreditAccountRequired"; "ErrPaymentStatusInvalid";
     "ErrPaymentProviderAmountMismatch"; "ErrPaymentProviderCurrencyMismatch";
     "ErrPaymentDestinationAccountRequired"; "ErrPaymentDebitAccountRequired";
     "ErrPaymentAccountsConflict"; "ErrPaymentIntentOccurredAtRequired"].

(** What a failed outcome is reported as. *)
Definition outcomeError (err : error) : error :=
  if isPaymentValidationError err then validationError err else err.

Definition cloneMetadata (metadata : Metadata) : Metadata := TrimSpace <$> metadata.

Definition paymentLockKey (transactionID : string) : string := "payment:" +:+ transactionID.

Section service.
Context `{UC : UnicodeCase} {W : Type} `{RT : Runtime W} `{SQL : PaymentSQL W}.
Context `{EJ : JSON PaymentEventData}.
Context (s : paymentCommandService W).

Definition computeStripeFee (amount : Z) : result Z := Compute_ (feePolicy s) amount.

Definition effectiveWithdrawalBatchSize : Z :=
  if decide (withdrawalBatchSize s <= 0) then 20 else withdrawalBatchSize s.

Definition actorAccountID (ctx : option Actor) : result string :=
  map_err (fun _ => ErrPaymentUnauthorized) (AccountIDFromCtx ctx).

(** The lock of a payment around [body]; [busy] where it is not acquired. *)
Definition holdingPayment {A} (key lockValue : string) (busy body : method W A) : method W A :=
  locked ← AcquireLock (locker s) key lockValue (30 * Second) (100 * Millisecond) (3 * Second);
  if locked : bool then
    defer (ignoreError (ReleaseLock (locker s) key lockValue)) body
  else busy.

Definition lockFailed {A} : method W A :=
  raise (Errorf "acquire payment lock failed: transaction_id=%s" []).

(** *** Outcomes *)

Fixpoint integrationEvents (events : list (Event PaymentEventData)) :
    result (list PaymentIntegrationEvent.t) :=
  match events with
  | [] => Ok []
  | evt :: events =>
      data ← map_err (fun err => Errorf "marshal payment integration event failed: %w" [err])
               (Marshal (EventData evt));
      items ← integrationEvents events;
      Ok (PaymentIntegrationEvent.mk (EventName evt) data :: items)
  end.

Definition saveInTransaction (agg : PaymentIntentAggregate) : method W PaymentIntentAggregate :=
  WithPaymentTransaction (SavePayment agg).

(** The outcome, and the aggregate as it leaves it. *)
Definition applyProviderOutcome (agg : PaymentIntentAggregate) (res : PaymentProviderResult)
    (checkoutURL : string) (emitCheckoutEvent : bool) :
    method W (paymentProviderOutcome.t * PaymentIntentAggregate) :=
  t ← paymentClock;
  '(mutation, agg) ← lift (after (ApplyProviderOutcome t res checkoutURL emitCheckoutEvent t) agg);
  if negb (PaymentIntentMutation.Persist mutation) then
    mret (paymentProviderOutcome.mk (PaymentIntentMutation.Duplicate mutation) [], agg)
  else
    events ← lift (integrationEvents (PendingOutboxEvents agg));
    agg ← saveInTransaction agg;
    mret (paymentProviderOutcome.mk (PaymentIntentMutation.Duplicate mutation) events, agg).

Definition markCreateFailed (agg : PaymentIntentAggregate) : method W unit :=
  t ← paymentClock;
  '(mutation, agg) ← lift (after (MarkCreateFailed t t) agg);
  if negb (PaymentIntentMutation.Persist mutation) then mret tt
  else saveInTransaction agg;; mret tt.

(** A call of the provider; where it fails, so has the payment. *)
Definition orMarkCreateFailed {A} (agg : PaymentIntentAggregate) (call : method W A) : method W A :=
  fun w =>
    match call w with
    | (Err err, w) => (ignoreError (markCreateFailed agg);; raise err) w
    | r => r
    end.

Definition paymentSnapshot (agg : PaymentIntentAggregate) : method W PaymentIntent :=
  match Snapshot agg with
  | Some p => mret p
  | None => lift (Panic "nil pointer dereference")
  end.

(** *** Creation *)

(** [CreatePayment] once the new payment is stored. *)
Definition chargePayment (provider : PaymentProvider W) (metadata : Metadata)
    (agg : PaymentIntentAggregate) : method W CreatePaymentResponse.t :=
  intentSnapshot ← paymentSnapshot agg;
  creation ← orMarkCreateFailed agg (ProviderCreatePayment provider intentSnapshot metadata);
  '(_, agg) ← applyProviderOutcome agg (PaymentCreation.Result creation)
    (PaymentCreation.CheckoutURL creation) true;
  mret (CreatePaymentResponse.mk (PaymentCreation.Provider creation) (Workflow agg)
    (TransactionID agg) (ExternalRef agg) (PaymentIntent.Amount intentSnapshot)
    (PaymentIntent.FeeAmount intentSnapshot) (PaymentIntent.ProviderAmount intentSnapshot)
    (Status agg) (PaymentCreation.CheckoutURL creation)).

Definition CreatePayment (ctx : option Actor) (transactionID : string)
    (req : CreatePaymentRequest.t) : method W CreatePaymentResponse.t :=
  creditAccountID ← lift (actorAccountID ctx);
  feeAmount ← lift (map_err validationError (computeStripeFee (CreatePaymentRequest.Amount req)));
  t ← paymentClock;
  agg ← lift (map_err validationError
    (NewProviderTopUpAggregate t transactionID (CreatePaymentRequest.Provider req)
       (CreatePaymentRequest.Amount req) feeAmount (CreatePaymentRequest.Currency req)
       creditAccountID (CreatePaymentRequest.Metadata req) t));
  provider ← lift (providerRegistry s (Provider agg));
  agg ← saveInTransaction agg;
  chargePayment provider (CreatePaymentRequest.Metadata req) agg.

Definition CreateWithdrawal (ctx : option Actor) (transactionID : string)
    (req : CreateWithdrawalRequest.t) : method W CreateWithdrawalResponse.t :=
  debitAccountID ← lift (actorAccountID ctx);
  feeAmount ← lift (map_err validationError
                      (computeStripeFee (CreateWithdrawalRequest.Amount req)));
  let metadata := cloneMetadata (CreateWithdrawalRequest.Metadata req) in
  let destination := lookupString metadata "destination_account" in
  if decide (TrimSpace destination = "") then
    raise (Errorf "%w: metadata.destination_account is required" [ErrValidation])
  else
  t ← paymentClock;
  agg ← lift (map_err validationError
    (NewProviderWithdrawalAggregate t transactionID (CreateWithdrawalRequest.Provider req)
       (CreateWithdrawalRequest.Amount req) feeAmount (CreateWithdrawalRequest.Currency req)
       destination debitAccountID metadata t));
  agg ← saveInTransaction agg;
  snapshot ← paymentSnapshot agg;
  mret (CreateWithdrawalResponse.mk (PaymentIntent.Provider snapshot)
    (PaymentIntent.Workflow snapshot) (PaymentIntent.TransactionID snapshot)
    (PaymentIntent.ExternalRef snapshot) (PaymentIntent.Amount snapshot)
    (PaymentIntent.FeeAmount snapshot) (PaymentIntent.ProviderAmount snapshot)
    (PaymentIntent.Status snapshot)).

(** *** The payout of withdrawals *)

Definition payoutBody (transactionID : string) : method W unit :=
  agg ← GetByTransactionID transactionID;
  if decide (Workflow agg <> PaymentWorkflowWithdrawal \/ Status agg <> PaymentStatusCreating)
  then mret tt
  else
  provider ← lift (providerRegistry s (Provider agg));
  intentSnapshot ← paymentSnapshot agg;
  creation ← orMarkCreateFailed agg (ProviderCreateWithdrawal provider intentSnapshot ∅);
  applyProviderOutcome agg (PaymentCreation.Result creation) "" false;;
  mret tt.

Definition processPendingWithdrawal (lockValue transactionID : string) : method W unit :=
  holdingPayment (paymentLockKey (TrimSpace transactionID)) lockValue (mret tt)
    (payoutBody transactionID).

(** A withdrawal that fails does not keep the others from their turn. *)
Definition ProcessPendingWithdrawals (lockValue : string -> string) : method W unit :=
  items ← ListPendingWithdrawals effectiveWithdrawalBatchSize;
  range items (fun agg =>
    if decide (Workflow agg <> PaymentWorkflowWithdrawal) then mret tt
    else ignoreError
           (processPendingWithdrawal (lockValue (TransactionID agg)) (TransactionID agg))).

(** *** Webhooks *)

(** A read whose error sends [findPaymentAggregate] on. *)
Definition attempt {A} (m : method W A) : method W (option A) := fun w =>
  match m w with
  | (Ok a, w) => (Ok (Some a), w)
  | (Err _, w) => (Ok None, w)
  | (Panic why, w) => (Panic why, w)
  end.

Definition findPaymentAggregate (provider : string) (res : PaymentProviderResult) :
    method W PaymentIntentAggregate :=
  byID ← (if decide (TrimSpace (PaymentProviderResult.TransactionID res) <> "")
          then attempt (GetByTransactionID (PaymentProviderResult.TransactionID res))
          else mret None);
  match byID with
  | Some agg => mret agg
  | None =>
      byRef ← (if decide (TrimSpace (PaymentProviderResult.ExternalRef res) <> "")
               then attempt (GetByExternalRef provider (PaymentProviderResult.ExternalRef res))
               else mret None);
      match byRef with
      | Some agg => mret agg
      (** The format has [%v] for [ErrPaymentIntentNotFound]. *)
      | None => raise (Errorf "%v: transaction_id=%s external_ref=%s" [])
      end
  end.

Definition webhookBody (transactionID : string) (res : PaymentProviderResult) :
    method W ProcessWebhookResponse.t :=
  agg ← GetByTransactionID transactionID;
  '(outcome, agg) ← wrap_err outcomeError (applyProviderOutcome agg res "" false);
  mret (ProcessWebhookResponse.mk (Provider agg) (TransactionID agg) (ExternalRef agg) (Status agg)
    (paymentProviderOutcome.Duplicate outcome) false (paymentProviderOutcome.Events outcome)).

Definition ProcessWebhook (lockValue : string) (req : ProcessWebhookRequest.t) :
    method W ProcessWebhookResponse.t :=
  provider ← lift (providerRegistry s (ProcessWebhookRequest.Provider req));
  webhook ← ParseWebhook provider (ProcessWebhookRequest.Payload req)
              (ProcessWebhookRequest.Signature req);
  if PaymentWebhook.Ignored webhook then
    mret (ProcessWebhookResponse.mk (PaymentWebhook.Provider webhook) "" "" "" false false [])
  else
  agg ← findPaymentAggregate (PaymentWebhook.Provider webhook) (PaymentWebhook.Result webhook);
  holdingPayment (paymentLockKey (TransactionID agg)) lockValue lockFailed
    (webhookBody (TransactionID agg) (PaymentWebhook.Result webhook)).

(** *** Refunds *)

Definition refundBody (req : RefundPaymentRequest.t) : method W RefundPaymentResponse.t :=
  agg ← GetByTransactionID (RefundPaymentRequest.TransactionID req);
  if negb (EqualFold (Provider agg) (RefundPaymentRequest.Provider req)) then
    raise (Errorf "%w: provider mismatch" [ErrValidation])
  else if decide (Status agg = PaymentStatusRefunded) then
    mret (RefundPaymentResponse.mk (Provider agg) (TransactionID agg) (ExternalRef agg) (Status agg)
            true [])
  else if decide (Status agg <> PaymentStatusSuccess) then
    raise (Errorf "%w: payment must be successful before refund" [ErrValidation])
  else
  provider ← lift (providerRegistry s (Provider agg));
  snapshot ← paymentSnapshot agg;
  refund ← ProviderRefundPayment provider snapshot (RefundPaymentRequest.Reason req);
  '(outcome, agg) ← wrap_err outcomeError
    (applyProviderOutcome agg (PaymentRefund.Result refund) "" false);
  mret (RefundPaymentResponse.mk (Provider agg) (TransactionID agg) (ExternalRef agg) (Status agg)
    (paymentProviderOutcome.Duplicate outcome) (paymentProviderOutcome.Events outcome)).

(** The request may be nil. *)
Definition RefundPayment (lockValue : string) (req : option RefundPaymentRequest.t) :
    method W RefundPaymentResponse.t :=
  match req with
  | None => raise (Errorf "%w: request is required" [ErrValidation])
  | Some req =>
      req ← lift (map_err validationError (RefundPaymentRequest.Validate req));
      holdingPayment (paymentLockKey (RefundPaymentRequest.TransactionID req)) lockValue lockFailed
        (refundBody req)
  end.

(** ** The consumer of the ledger outbox *)

Context `{Codec : PaymentJSON}.
(** [json.Unmarshal] into the payload of a failed reconciliation. *)
Context (decodeFailure : string -> result ReconciliationFailure).

Definition refundReason (payload : ReconciliationFailure) : string :=
  let reason := TrimSpace (ReconciliationFailure.Reason payload) in
  if decide (reason = "") then "ledger reconciliation failed" else reason.

Definition refundFailedLedgerReconciliation (lockValue : string) (payload : ReconciliationFailure) :
    method W unit :=
  let transactionID := TrimSpace (ReconciliationFailure.TransactionID payload) in
  let transactionID :=
    if decide (transactionID = "") then TrimSpace (ReconciliationFailure.PaymentID payload)
    else transactionID in
  if decide (transactionID = "") then
    raise (Errorf "ledger reconciliation failure missing transaction_id" [])
  else
  RefundPayment lockValue (Some (RefundPaymentRequest.mk
    (TrimSpace (ReconciliationFailure.Provider payload)) transactionID (refundReason payload)));;
  mret tt.

Definition unmarshalReconciliationFailure (data : string) : result ReconciliationFailure :=
  map_err (fun err =>
    Errorf "unmarshal ledger payment reconciliation failed payload failed: %w" [err])
    (UnmarshalEventData decodeFailure data).

Definition handleLedgerOutboxEvent (lockValue value : string) : method W unit :=
  event ← lift (map_err (fun err => Errorf "unmarshal ledger outbox event failed: %w" [err])
                  (UnmarshalOutboxMessage value));
  if decide (OutboxMessage.EventName event = "EventLedgerPaymentReconciliationFailed") then
    payload ← lift (unmarshalReconciliationFailure (OutboxMessage.EventData event));
    refundFailedLedgerReconciliation lockValue payload
  else mret tt.
End service.

(** ** The gRPC server *)

Inductive codes : Type := InvalidArgument | Unauthenticated | AlreadyExists | NotFound | Internal.

Definition mapGRPCError (err : error) : codes :=
  if errors_Is err "payment.ErrValidation" then InvalidArgument
  else if errors_Is err "payment.ErrPaymentUnauthorized" then Unauthenticated
  else if errors_Is err "payment.ErrDuplicatePayment" then AlreadyExists
  else if errors_Is err "payment.ErrPaymentIntentNotFound" then NotFound
  else Internal.

(** Incoming metadata: the values of a key. *)
Definition firstMetadata (md : gmap string (list string)) (key : string) : string :=
  match md !! key with Some (v :: _) => v | _ => "" end.

(** The context of the call, without an actor of its own. *)
Definition withActorFromMetadata (md : option (gmap string (list string))) : option Actor :=
  match md with
  | None => None
  | Some md =>
      let accountID := firstMetadata md "x-actor-account-id" in
      if decide (accountID = "") then None
      else Some (WithActor (mkActor accountID (firstMetadata md "x-actor-email")
                              (firstMetadata md "x-actor-role")))
  end.
End PaymentService.
