(* ===== verification/StripeProvider.v ===== *)
(** * The Stripe provider (modules/payment/providers/stripe/provider.go)

    What is sent to Stripe and how its webhooks are read. The client of Stripe
    is a parameter ([StripeAPI]): the calls of its API, the check of a
    signature and the decoding of its objects, of which the fields that the
    provider uses are kept. *)

From stdpp Require Import prelude strings gmap.
From S2P Require Import Prelude GoStrings LedgerEntity PaymentEvents PaymentIntent PaymentStore.
From S2P Require Import PaymentProviders.

Module Stripe.

(** ** Objects of the API *)

Module IntentObject.
Record t := mk {
  ID : string; Metadata : Metadata; Status : string; Amount : Z; Currency : string }.
End IntentObject.
Module CheckoutSession.
Record t := mk {
  ID : string; URL : string; ClientReferenceID : string; PaymentStatus : string; AmountTotal : Z;
  Currency : string; PaymentIntent : option IntentObject.t }.
End CheckoutSession.
Module Charge.
Record t := mk {
  ID : string; Metadata : Metadata; PaymentIntent : option IntentObject.t; Status : string;
  Paid : bool; Refunded : bool; Amount : Z; AmountRefunded : Z; Currency : string }.
End Charge.
Module Dispute.
Record t := mk {
  ID : string; Metadata : Metadata; Charge : option Charge.t;
  PaymentIntent : option IntentObject.t; Amount : Z; Currency : string }.
End Dispute.
Module Refund.
Record t := mk { ID : string; Charge : option Charge.t; Amount : Z; Currency : string }.
End Refund.
Module Transfer.
Record t := mk { ID : string }.
End Transfer.
(** A verified event: its data may be missing. *)
Module Event.
Record t := mk { ID : string; Type_ : string; APIVersion : string; Raw : option string }.
End Event.

(** *** Parameters of the calls *)

Module CheckoutSessionParams.
Record t := mk {
  Mode : string; SuccessURL : string; CancelURL : string; ClientReferenceID : string;
  Metadata : Metadata; Quantity : Z; Currency : string; UnitAmount : Z; ProductName : string;
  IntentMetadata : gmap string string; CustomerEmail : option string; TransferDestination : option string;
  OnBehalfOf : option string; ApplicationFeeAmount : option Z;
  StatementDescriptorSuffix : option string }.
End CheckoutSessionParams.
Module TransferParams.
Record t := mk {
  Amount : Z; Currency : string; Destination : string; Description : string; Metadata : Metadata;
  TransferGroup : string; IdempotencyKey : option string }.
End TransferParams.
Module RefundParams.
Record t := mk {
  Amount : Z; Metadata : Metadata; Charge : option string; PaymentIntent : option string;
  IdempotencyKey : option string }.
End RefundParams.

(** ** The client *)

Definition ErrInvalidHeader := Sentinel "webhook.ErrInvalidHeader".
Definition ErrNoValidSignature := Sentinel "webhook.ErrNoValidSignature".
Definition ErrNotSigned := Sentinel "webhook.ErrNotSigned".
Definition ErrTooOld := Sentinel "webhook.ErrTooOld".

Class StripeAPI (W : Type) := {
  CheckoutSessions_New : CheckoutSessionParams.t -> method W CheckoutSession.t;
  (** With the payment intent expanded. *)
  CheckoutSessions_Get : string -> method W (option CheckoutSession.t);
  Transfers_New : TransferParams.t -> method W (option Transfer.t);
  Refunds_New : RefundParams.t -> method W (option Refund.t);
  (** [ConstructEventWithOptions]: payload, signature, secret. *)
  ConstructEvent : string -> string -> string -> method W Event.t;
  DecodeSession : string -> result CheckoutSession.t;
  DecodeIntent : string -> result IntentObject.t;
  DecodeCharge : string -> result Charge.t;
  DecodeDispute : string -> result Dispute.t
}.

(** ** The provider *)

Definition ProviderName : string := "stripe".

Module Provider.
Record t := mk {
  secretKey : string; webhookSecret : string; successURL : string; cancelURL : string }.
End Provider.

Definition NewProvider (secretKey webhookSecret successURL cancelURL : string) : Provider.t :=
  Provider.mk (TrimSpace secretKey) (TrimSpace webhookSecret) (TrimSpace successURL)
    (TrimSpace cancelURL).

Definition Enabled (p : Provider.t) : bool := bool_decide (Provider.secretKey p <> "").

Fixpoint firstNonEmpty (values : list string) : string :=
  match values with
  | [] => ""
  | value :: values =>
      if decide (TrimSpace value <> "") then TrimSpace value else firstNonEmpty values
  end.

(** [Some] of a trimmed value that is not empty. *)
Definition optionalParam (value : string) : option string :=
  let value := TrimSpace value in if decide (value <> "") then Some value else None.

(** [refund.Charge.ID] and the like: a nil pointer panics. *)
Definition chargeID (c : option Charge.t) : result string :=
  match c with
  | Some c => Ok (Charge.ID c)
  | None => Panic "nil pointer dereference"
  end.

(** *** The status of an event *)

Section status.
Context `{UC : UnicodeCase}.

Definition stripeSessionStatus (eventType paymentStatus : string) : string :=
  if decide (eventType = "checkout.session.async_payment_failed") then PaymentStatusFailed
  else if decide (eventType = "checkout.session.expired") then PaymentStatusCancelled
  else if EqualFold (TrimSpace paymentStatus) "paid" then PaymentStatusSuccess
  else PaymentStatusPending.

Definition stripePaymentIntentStatus (eventType status : string) : string :=
  if decide (eventType = "payment_intent.succeeded") then PaymentStatusSuccess
  else if decide (eventType = "payment_intent.payment_failed") then PaymentStatusFailed
  else
  let status := ToLower (TrimSpace status) in
  if decide (status = "succeeded") then PaymentStatusSuccess
  else if decide (status = "requires_payment_method") then PaymentStatusFailed
  else if decide (status = "canceled") then PaymentStatusCancelled
  else PaymentStatusPending.

Definition stripeChargeStatus (eventType status : string) (paid refunded : bool) : string :=
  if decide (eventType = "charge.succeeded") then PaymentStatusSuccess
  else if decide (eventType = "charge.failed") then PaymentStatusFailed
  else if bool_decide (eventType = "charge.refunded") && refunded then PaymentStatusRefunded
  else
  let status := ToLower (TrimSpace status) in
  if decide (status = "succeeded") then PaymentStatusSuccess
  else if decide (status = "failed") then PaymentStatusFailed
  else if refunded then PaymentStatusRefunded
  else if paid then PaymentStatusSuccess
  else PaymentStatusPending.
End status.

(** *** What an event refers to *)

Definition metadataTransactionID (m : Metadata) : string :=
  TrimSpace (lookupString m "transaction_id").

Definition intentTransactionID (i : option IntentObject.t) : string :=
  match i with Some i => metadataTransactionID (IntentObject.Metadata i) | None => "" end.

Definition stripeChargeTransactionID (charge : Charge.t) : string :=
  let transactionID := metadataTransactionID (Charge.Metadata charge) in
  if decide (transactionID <> "") then transactionID
  else intentTransactionID (Charge.PaymentIntent charge).

Definition stripeChargeResultAmount (eventType : string) (charge : Charge.t) : Z :=
  if decide (eventType = "charge.refunded" /\ 0 < Charge.AmountRefunded charge)
  then Charge.AmountRefunded charge else Charge.Amount charge.

Definition stripeDisputeTransactionID (dispute : Dispute.t) : string :=
  let transactionID := metadataTransactionID (Dispute.Metadata dispute) in
  if decide (transactionID <> "") then transactionID else
  let ofCharge :=
    match Dispute.Charge dispute with Some c => stripeChargeTransactionID c | None => "" end in
  if decide (ofCharge <> "") then ofCharge
  else intentTransactionID (Dispute.PaymentIntent dispute).

Definition stripeDisputeExternalRef (dispute : Dispute.t) : string :=
  let ofCharge :=
    match Dispute.Charge dispute with Some c => TrimSpace (Charge.ID c) | None => "" end in
  if decide (ofCharge <> "") then ofCharge else
  let ofIntent :=
    match Dispute.PaymentIntent dispute with
    | Some i => TrimSpace (IntentObject.ID i)
    | None => ""
    end in
  if decide (ofIntent <> "") then ofIntent else TrimSpace (Dispute.ID dispute).

(** *** Calls *)

Section calls.
Context `{UC : UnicodeCase} {W : Type} `{API : StripeAPI W}.
Import Providers.
Implicit Types (p : Provider.t).

Definition notConfigured {A} : method W A := raise (Errorf "stripe provider is not configured" []).

(** The parameters of a session, of a request that names the two URLs. *)
Definition sessionParams (successURL cancelURL : string) (req : CreatePaymentRequest.t) :
    result CheckoutSessionParams.t :=
  let metadata := CreatePaymentRequest.Metadata req in
  let transactionID := CreatePaymentRequest.TransactionID req in
  applicationFee ← (match optionalParam (lookupString metadata "application_fee_amount") with
                    | None => Ok None
                    | Some applicationFee =>
                        feeAmount ← map_err (fun err => Errorf "invalid application_fee_amount: %w" [err])
                                      (ParseInt applicationFee);
                        Ok (Some feeAmount)
                    end);
  Ok (CheckoutSessionParams.mk "payment" successURL cancelURL transactionID
        {["transaction_id" := transactionID]} 1 (ToLower (CreatePaymentRequest.Currency req))
        (CreatePaymentRequest.Amount req)
        (firstNonEmpty [lookupString metadata "product_name"; "Wallet deposit"])
        {["transaction_id" := transactionID]}
        (optionalParam (lookupString metadata "customer_email"))
        (optionalParam (lookupString metadata "destination_account"))
        (optionalParam (lookupString metadata "on_behalf_of")) applicationFee
        (optionalParam (lookupString metadata "statement_descriptor"))).

Definition CreatePayment p (req : CreatePaymentRequest.t) : method W CreatePaymentResponse.t :=
  if negb (Enabled p) then notConfigured else
  let successURL := firstNonEmpty
    [lookupString (CreatePaymentRequest.Metadata req) "success_url"; Provider.successURL p] in
  let cancelURL := firstNonEmpty
    [lookupString (CreatePaymentRequest.Metadata req) "cancel_url"; Provider.cancelURL p] in
  if decide (successURL = "" \/ cancelURL = "") then
    raise (Errorf "stripe success_url and cancel_url are required" [])
  else
  params ← lift (sessionParams successURL cancelURL req);
  session ← CheckoutSessions_New params;
  if decide (CheckoutSession.ID session = "") then
    raise (Errorf "stripe checkout session response missing id" [])
  else
  mret (CreatePaymentResponse.mk ProviderName (CreatePaymentRequest.TransactionID req)
          (CheckoutSession.ID session) PaymentStatusPending (CheckoutSession.URL session)).

Definition CreateWithdrawal p (intent : PaymentIntent) (_ : Metadata) :
    method W CreatePaymentResponse.t :=
  if negb (Enabled p) then notConfigured else
  let destinationAccountID := TrimSpace (PaymentIntent.DestinationAccountID intent) in
  if decide (destinationAccountID = "") then
    raise (Errorf "stripe destination_account is required for withdrawal" [])
  else
  transfer ← Transfers_New (TransferParams.mk (PaymentIntent.ProviderAmount intent)
    (ToLower (PaymentIntent.Currency intent)) destinationAccountID "Wallet withdrawal"
    (list_to_map [("transaction_id", PaymentIntent.TransactionID intent);
                  ("workflow", PaymentIntent.Workflow intent)])
    (PaymentIntent.TransactionID intent) None);
  match transfer with
  | Some transfer =>
      if decide (TrimSpace (Transfer.ID transfer) = "") then
        raise (Errorf "stripe transfer response missing id" [])
      else
      mret (CreatePaymentResponse.mk ProviderName (PaymentIntent.TransactionID intent)
              (Transfer.ID transfer) PaymentStatusSuccess "")
  | None => raise (Errorf "stripe transfer response missing id" [])
  end.

(** The charge or payment intent to refund, for the reference of a session. *)
Definition refundReference (externalRef : string) : method W string :=
  let paymentRef := TrimSpace externalRef in
  if HasPrefix paymentRef "cs_" then
    session ← CheckoutSessions_Get paymentRef;
    match session ≫= CheckoutSession.PaymentIntent with
    | Some i =>
        if decide (TrimSpace (IntentObject.ID i) = "") then
          raise (Errorf "stripe checkout session payment_intent is required for refund" [])
        else mret (TrimSpace (IntentObject.ID i))
    | None => raise (Errorf "stripe checkout session payment_intent is required for refund" [])
    end
  else mret paymentRef.

Definition RefundPayment p (req : RefundPaymentRequest.t) : method W RefundPaymentResponse.t :=
  if negb (Enabled p) then notConfigured else
  let transactionID := TrimSpace (RefundPaymentRequest.TransactionID req) in
  if decide (transactionID = "") then raise (Errorf "transaction_id is required" [])
  else if decide (RefundPaymentRequest.Amount req <= 0) then
    raise (Errorf "refund amount must be positive" [])
  else
  paymentRef ← refundReference (RefundPaymentRequest.ExternalRef req);
  if decide (paymentRef = "") then
    raise (Errorf "provider payment reference is required for refund" [])
  else
  let ofCharge := HasPrefix paymentRef "ch_" in
  refund ← Refunds_New (RefundParams.mk (RefundPaymentRequest.Amount req)
    (list_to_map [("transaction_id", transactionID);
                  ("refund_reason", TrimSpace (RefundPaymentRequest.Reason req))])
    (if ofCharge then Some paymentRef else None) (if ofCharge then None else Some paymentRef)
    (Some ("payment-refund:" +:+ transactionID)));
  match refund with
  | Some refund =>
      if decide (TrimSpace (Refund.ID refund) = "") then
        raise (Errorf "stripe refund response missing id" [])
      else
      charge ← lift (chargeID (Refund.Charge refund));
      mret (RefundPaymentResponse.mk ProviderName transactionID
              (firstNonEmpty [charge; paymentRef; RefundPaymentRequest.ExternalRef req])
              PaymentStatusRefunded (Refund.Amount refund)
              (firstNonEmpty [Refund.Currency refund; RefundPaymentRequest.Currency req]))
  | None => raise (Errorf "stripe refund response missing id" [])
  end.

Definition VerifyWebhook p (payload signature : string) : method W WebhookEvent.t :=
  if decide (TrimSpace (Provider.webhookSecret p) = "") then
    raise (Errorf "stripe webhook secret is not configured" [])
  else
  event ← wrap_err (fun err =>
      if existsb (errors_Is err) ["webhook.ErrInvalidHeader"; "webhook.ErrNoValidSignature";
                                  "webhook.ErrNotSigned"; "webhook.ErrTooOld"]
      then ErrInvalidWebhookSignature else err)
    (ConstructEvent payload signature (Provider.webhookSecret p));
  mret (WebhookEvent.mk ProviderName (Event.ID event) (Event.Type_ event)
          (list_to_map [("api_version", Event.APIVersion event);
                        ("object", default "" (Event.Raw event))])).

(** The object of an event, and the result that it tells of. *)
Definition parsed {A} (format : string) (decoded : result A) (f : A -> PaymentResult.t) :
    method W PaymentResult.t :=
  obj ← lift (map_err (fun err => Errorf format [err]) decoded); mret (f obj).

Definition sessionEvents : list string :=
  ["checkout.session.completed"; "checkout.session.async_payment_succeeded";
   "checkout.session.async_payment_failed"; "checkout.session.expired"].
Definition intentEvents : list string :=
  ["payment_intent.succeeded"; "payment_intent.payment_failed"].
Definition chargeEvents : list string := ["charge.succeeded"; "charge.failed"; "charge.refunded"].

Definition ParseEvent (event : WebhookEvent.t) : method W PaymentResult.t :=
  let type := WebhookEvent.EventType event in
  let object := lookupString (WebhookEvent.Attributes event) "object" in
  if decide (type ∈ sessionEvents) then
    parsed "decode stripe checkout session event: %w" (DecodeSession object) (fun session =>
      PaymentResult.mk (TrimSpace (CheckoutSession.ClientReferenceID session))
        (WebhookEvent.EventID event) type
        (stripeSessionStatus type (CheckoutSession.PaymentStatus session))
        (CheckoutSession.AmountTotal session) (CheckoutSession.Currency session)
        (CheckoutSession.ID session))
  else if decide (type ∈ intentEvents) then
    parsed "decode stripe payment intent event: %w" (DecodeIntent object) (fun intent =>
      PaymentResult.mk (metadataTransactionID (IntentObject.Metadata intent))
        (WebhookEvent.EventID event) type
        (stripePaymentIntentStatus type (IntentObject.Status intent)) (IntentObject.Amount intent)
        (IntentObject.Currency intent) (IntentObject.ID intent))
  else if decide (type ∈ chargeEvents) then
    parsed "decode stripe charge event: %w" (DecodeCharge object) (fun charge =>
      PaymentResult.mk (stripeChargeTransactionID charge) (WebhookEvent.EventID event) type
        (stripeChargeStatus type (Charge.Status charge) (Charge.Paid charge) (Charge.Refunded charge))
        (stripeChargeResultAmount type charge) (Charge.Currency charge) (Charge.ID charge))
  else if decide (type = "charge.dispute.funds_withdrawn") then
    parsed "decode stripe dispute event: %w" (DecodeDispute object) (fun dispute =>
      PaymentResult.mk (stripeDisputeTransactionID dispute) (WebhookEvent.EventID event) type
        PaymentStatusChargeback (Dispute.Amount dispute) (Dispute.Currency dispute)
        (stripeDisputeExternalRef dispute))
  else raise ErrWebhookEventIgnored.

Definition stripeProvider p : provider W :=
  mkProvider ProviderName (CreatePayment p) (CreateWithdrawal p) (RefundPayment p) (VerifyWebhook p)
    ParseEvent.
End calls.
End Stripe.
