(* ===== verification/PaymentStoreSpec.v ===== *)
(** * What the repository of payments reads and writes

    A row is that of an intent ([rowOf]); saving an aggregate writes its intent,
    its processed events and its outbox rows ([stores]), or nothing; what is
    loaded is the intent of the row. *)

From Stdlib Require Import Ascii.
From stdpp Require Import prelude strings gmap.
From S2P Require Import Prelude GoStrings Database Event Redis.
From S2P Require Import LedgerEntity PaymentEvents PaymentIntent PaymentAggregate PaymentAggregateInv.
From S2P Require Import PaymentAggregateSpec PaymentStore.

(** ** Rows of intents *)

Section rows.
Context `{UC : UnicodeCase}.
Implicit Types (p q : PaymentIntent) (a : PaymentIntentAggregate).

(** What a stored payment needs. *)
Record intent_ok (p : PaymentIntent) : Prop := {
  ok_normal : intent_normal p;
  ok_transactionID : PaymentIntent.TransactionID p <> "";
  ok_provider : PaymentIntent.Provider p <> "";
  ok_providerAmount : 0 < PaymentIntent.ProviderAmount p;
  ok_createdAt : PaymentIntent.CreatedAt p <> 0;
  ok_updatedAt : PaymentIntent.UpdatedAt p <> 0
}.

Lemma payment_wf_ok a p : payment_wf a p -> intent_ok p.
Proof. intros H. constructor; apply H. Qed.

(** The row of an intent, whose times may be others. *)
Definition rowOf p (version : Z) (m : PaymentIntentModel) : Prop :=
  exists c u, c <> 0 /\ u <> 0 /\ m = setModelTimes c u (toPaymentIntentModel p version).

(** The reference that is read back: one that looks like a placeholder is
    none. *)
Definition storedRef (ref : string) : string :=
  if HasPrefix ref pendingExternalRefPrefix then "" else ref.

Lemma prefix_app (s t : string) : HasPrefix (s +:+ t) s = true.
Proof.
  unfold HasPrefix. induction s as [|c s IH]; [by destruct t|].
  change (String c s +:+ t) with (String c (s +:+ t)). cbn [String.prefix].
  destruct (ascii_dec c c) as [_|n]; [exact IH|by destruct n].
Qed.

Lemma externalRef_stored provider id ref :
  trimmed ref -> trimmed id ->
  externalRefFromStorage (externalRefToStorage provider id ref) = storedRef ref.
Proof.
  intros Hr Hi. unfold externalRefFromStorage, externalRefToStorage. rewrite Hr.
  case_decide as Hne; [by rewrite Hr|]. assert (ref = "") as -> by (destruct ref; [done|by destruct Hne]).
  rewrite Hi. change (storedRef "") with "".
  rewrite (trimmed_around pendingExternalRefPrefix (normalizeProvider provider) ":" id)
    by (done || reflexivity).
  by rewrite prefix_app.
Qed.

Lemma string_stored s : trimmed s -> stringFromDB (stringToDB s) = s.
Proof.
  intros Hs. unfold stringFromDB, stringToDB. rewrite Hs. case_decide as E; [by rewrite E|done].
Qed.

Lemma normal_clearing_trimmed p : intent_normal p -> trimmed (PaymentIntent.ClearingAccountKey p).
Proof.
  intros H. rewrite <- (normal_clearing p H). apply effectivePaymentClearingAccountKey_trimmed.
Qed.

Lemma normalizePaymentIntent_id p : intent_normal p -> normalizePaymentIntent p = p.
Proof.
  intros H. pose proof (normal_clearing_trimmed p H) as Hk. pose proof (ensureWorkflowDefaults_id p H) as E.
  destruct H as [Hw Ht Hp He Hd Hc _ Hdb Hcr Ha Hs].
  apply (f_equal PaymentIntent.Workflow) in E as Ew. apply (f_equal PaymentIntent.ProviderAmount) in E as Ea.
  cbn in Ew, Ea. destruct p; unfold normalizePaymentIntent; cbn in *.
  unfold LowerTrim in Hp. unfold UpperTrim in Hc. unfold trimmed, normalizeProvider in *.
  rewrite Ew in *. rewrite Hp, Hc, Hk, Ht, He, Hd, Hdb, Hcr, Ea.
  by rewrite NormalizePaymentStatusOrPending_id.
Qed.

(** The intent that is read back from its row. *)
Definition reread (c u : Time) p : PaymentIntent :=
  PaymentIntent.set_ExternalRef (storedRef (PaymentIntent.ExternalRef p)) (PaymentIntent.set_Times c u p).

Lemma intentOfModel_row c u p version :
  intent_normal p ->
  intentOfModel (setModelTimes c u (toPaymentIntentModel p version)) = reread c u p.
Proof.
  intros H. unfold intentOfModel. cbn.
  rewrite externalRef_stored, !string_stored by apply H. by destruct p.
Qed.

Lemma storedRef_trimmed ref : trimmed ref -> trimmed (storedRef ref).
Proof. unfold storedRef. by destruct (HasPrefix _ _). Qed.

Lemma reread_ok c u p : c <> 0 -> u <> 0 -> intent_ok p -> intent_ok (reread c u p).
Proof.
  intros Hc Hu [[] ? ? ? ? ?]. constructor; try done. constructor; try done. cbn.
  by apply storedRef_trimmed.
Qed.

(** An aggregate that was restored. *)
Definition restoredPayment p (version : Z) : PaymentIntentAggregate :=
  PaymentIntentAggregate.mk
    (SetInternal (PaymentIntent.TransactionID p) version version
       (SetAggregateType AggregateTypePaymentIntent zeroRoot)) (Some p) [].

Lemma restored_payment_wf p version : intent_ok p -> payment_wf (restoredPayment p version) p.
Proof. intros []. by constructor. Qed.

(** A version below zero is restored as zero. *)
Definition restoredVersion (version : Z) : Z := if decide (version < 0) then 0 else version.

Lemma Restore_run now p version :
  intent_ok p ->
  RestorePaymentIntentAggregateWithVersion now (Some p) version =
    Ok (restoredPayment p (restoredVersion version)).
Proof.
  intros H. unfold RestorePaymentIntentAggregateWithVersion.
  by rewrite (normalizePaymentIntentSnapshot_wf now (restoredPayment p version)) by by apply restored_payment_wf.
Qed.

Lemma toPaymentIntentAggregate_row now c u p version :
  intent_ok p -> c <> 0 -> u <> 0 ->
  toPaymentIntentAggregate now (setModelTimes c u (toPaymentIntentModel p version)) =
    Ok (restoredPayment (reread c u p) (restoredVersion version)).
Proof.
  intros H Hc Hu. pose proof (reread_ok c u p Hc Hu H) as Hr.
  unfold toPaymentIntentAggregate. rewrite intentOfModel_row by apply H.
  rewrite normalizePaymentIntent_id by apply Hr. by apply Restore_run.
Qed.
End rows.

(** ** Saving *)

Section save.
Context `{UC : UnicodeCase} {W : Type} `{RT : Runtime W} `{SQL : PaymentSQL W}.
Context `{EJ : JSON PaymentEventData} `{Laws : !PaymentSQLLaws W}.
Implicit Types (p : PaymentIntent) (a : PaymentIntentAggregate) (w : W) (t : PaymentTables).

Definition storedProcessed (e : ProcessedPaymentEvent) : ProcessedPaymentEvent :=
  ProcessedPaymentEvent.mk (normalizeProvider (ProcessedPaymentEvent.Provider e))
    (TrimSpace (ProcessedPaymentEvent.IdempotencyKey e))
    (TrimSpace (ProcessedPaymentEvent.TransactionID e)) (UTC (ProcessedPaymentEvent.CreatedAt e)).

Lemma insertProcessedEvents_run es w w' :
  range es insertProcessedEvent w = (Ok tt, w') ->
  paymentTables w' = addProcessed (storedProcessed <$> es) (paymentTables w) /\
  (NoDup (processedKeys (paymentTables w)) -> NoDup (processedKeys (paymentTables w'))).
Proof.
  revert w. induction es as [|e es IH]; intros w H.
  - injection H as <-. split; [|done]. unfold addProcessed. rewrite app_nil_r. by destruct (paymentTables w).
  - apply range_cons_Ok in H as (w1 & H1 & H). apply wrap_err_Ok in H1.
    apply (effect_Ok _ _ _ _ _ _ (insertProcessedPaymentEvent_law _ _)) in H1 as [Hn H1].
    destruct (IH w1 H) as [-> Hd]. rewrite H1. split; [by unfold addProcessed; cbn; rewrite <- app_assoc|].
    intros Hw. rewrite H1 in Hd. apply Hd. unfold processedKeys, addProcessed. cbn. rewrite fmap_app.
    apply NoDup_app. split_and!; [done| |apply NoDup_singleton].
    intros k Hk Hk'. apply list_elem_of_singleton in Hk' as ->. by apply Hn.
Qed.

(** The outbox row of an event. *)
Definition outboxRowOf (e : Event PaymentEventData) (row : PaymentOutboxRow) : Prop :=
  PaymentOutboxRow.AggregateID row = AggregateID e /\
  PaymentOutboxRow.AggregateType row = AggregateType e /\
  PaymentOutboxRow.Version row = Version e /\
  PaymentOutboxRow.EventName row = EventName e /\
  Marshal (EventData e) = Ok (PaymentOutboxRow.EventData row).

Lemma AppendPaymentOutbox_run e w w' :
  AppendPaymentOutbox e w = (Ok tt, w') ->
  exists row, outboxRowOf e row /\ paymentTables w' = addPaymentOutbox [row] (paymentTables w).
Proof.
  unfold AppendPaymentOutbox. intros H. apply lift_bind_Ok in H as (data & Hd & H).
  apply map_err_Ok in Hd. apply method_bind_Ok in H as (at_ & w1 & [= _ <-] & H).
  apply (effect_Ok _ _ _ _ _ _ (insertPaymentOutbox_law _ _)) in H. eexists. split; [|exact H].
  by split_and!.
Qed.

Lemma addPaymentOutbox_app r s t :
  addPaymentOutbox s (addPaymentOutbox r t) = addPaymentOutbox (r ++ s) t.
Proof. unfold addPaymentOutbox. cbn. by rewrite <- app_assoc. Qed.

Lemma Publish_run at_ es w w' :
  Publish (Some AppendPaymentOutbox) at_ es w = (Ok tt, w') ->
  exists rows, Forall2 outboxRowOf es rows /\
    paymentTables w' = addPaymentOutbox rows (paymentTables w).
Proof.
  revert w. unfold Publish. induction es as [|e es IH]; intros w H.
  - injection H as <-. exists []. split; [done|]. unfold addPaymentOutbox. rewrite app_nil_r.
    by destruct (paymentTables w).
  - apply range_cons_Ok in H as (w1 & H1 & H). destruct (IH w1 H) as (rows & Hrows & ->).
    unfold publishOne in H1. do 2 (case_decide; [done|]). apply wrap_err_Ok in H1.
    apply AppendPaymentOutbox_run in H1 as (row & Hrow & ->).
    exists (row :: rows). rewrite addPaymentOutbox_app. split; [|done]. constructor; [|done].
    by destruct (decide (CreatedAt e <= 0)).
Qed.

(** What saving [a] makes of the tables. *)
Definition stores a p t t' : Prop :=
  exists m rows,
    Forall2 outboxRowOf (PendingOutboxEvents a) rows /\
    (NoDup (processedKeys t) -> NoDup (processedKeys t')) /\
    (exists c u, u <> 0 /\
       m = setModelTimes c u
             (toPaymentIntentModel p (CurrentVersion (PaymentIntentAggregate.root a))) /\
       if decide (baseVersion (PaymentIntentAggregate.root a) = 0)
       then intentRows t !! PaymentIntent.TransactionID p = None /\
            c = PaymentIntent.CreatedAt p /\ u = PaymentIntent.UpdatedAt p
       else exists m0, intentRows t !! PaymentIntent.TransactionID p = Some m0 /\
            c = PaymentIntentModel.CreatedAt m0) /\
    t' = addPaymentOutbox rows (setIntentRow (PaymentIntent.TransactionID p) m
           (addProcessed (storedProcessed <$> PendingProcessedEvents a) t)).

Lemma writePaymentIntent_run a p w w' :
  payment_wf a p -> intents_keyed (paymentTables w) ->
  writePaymentIntent a p w = (Ok tt, w') ->
  exists m c u, u <> 0 /\
    m = setModelTimes c u (toPaymentIntentModel p (CurrentVersion (PaymentIntentAggregate.root a))) /\
    (if decide (baseVersion (PaymentIntentAggregate.root a) = 0)
     then intentRows (paymentTables w) !! PaymentIntent.TransactionID p = None /\
          c = PaymentIntent.CreatedAt p /\ u = PaymentIntent.UpdatedAt p
     else exists m0, intentRows (paymentTables w) !! PaymentIntent.TransactionID p = Some m0 /\
          c = PaymentIntentModel.CreatedAt m0) /\
    paymentTables w' = setIntentRow (PaymentIntent.TransactionID p) m (paymentTables w).
Proof.
  intros Hwf Hk. unfold writePaymentIntent, mapping.
  destruct (decide (baseVersion (PaymentIntentAggregate.root a) = 0)) as [Hb|Hb]; intros H.
  - apply wrap_err_Ok in H. apply (effect_Ok _ _ _ _ _ _ (insertPaymentIntent_law _ _)) in H.
    destruct H as (Hn & m & _ & Hm & ->). cbn in Hn.
    rewrite Hm by apply Hwf. eexists _, _, _. split_and!; [apply (pwf_updatedAt _ _ Hwf)| |done..|].
    { reflexivity. }
    reflexivity.
  - go_step. apply wrap_err_Ok in H0.
    apply (effect_Ok _ _ _ _ _ _ (updatePaymentIntent_law _ _ _)) in H0.
    destruct (intentRows (paymentTables w) !! _) as [m0|] eqn:Hm0.
    + case_decide; [done|]. injection H as <-. destruct H0 as (at_ & Hat & ->).
      eexists _, (PaymentIntentModel.CreatedAt m0), at_. split_and!; [done| |by exists m0|].
      { reflexivity. }
      unfold setIntentRow, updatedRow. cbn. by rewrite (Hk _ _ Hm0).
    + destruct H0 as [-> _]. by rewrite decide_True in H.
Qed.

Lemma SavePayment_run a p w a' w' :
  payment_wf a p -> intents_keyed (paymentTables w) ->
  SavePayment a w = (Ok a', w') ->
  a' = MarkPaymentPersisted a /\ stores a p (paymentTables w) (paymentTables w').
Proof.
  intros Hwf Hk. unfold SavePayment, Snapshot. rewrite (pwf_intent _ _ Hwf).
  rewrite normalizePaymentIntent_id by apply Hwf. intros H.
  apply method_bind_Ok in H as ([] & w1 & H0 & H). apply method_bind_Ok in H as ([] & w2 & H1 & H).
  apply method_bind_Ok in H as ([] & w3 & H2 & H). apply method_ret_Ok in H as [<- <-].
  split; [done|].
  apply insertProcessedEvents_run in H0 as [Hp Hd].
  apply (writePaymentIntent_run a p) in H1 as (m & c & u & Hu & Hm & Hb & Hw); [|done|].
  2: { rewrite Hp. exact Hk. }
  assert (exists rows, Forall2 outboxRowOf (PendingOutboxEvents a) rows /\
            paymentTables w3 = addPaymentOutbox rows (paymentTables w2)) as (rows & Hr & Hrows).
  { unfold publishPaymentEvents in H2. case_decide as Hl; [by eapply Publish_run|].
    injection H2 as <-. destruct (PendingOutboxEvents a); [|cbn in Hl; lia]. exists [].
    split; [done|]. unfold addPaymentOutbox. rewrite app_nil_r. by destruct (paymentTables w2). }
  exists m, rows. split_and!; [done| | |].
  - rewrite Hrows, Hw. exact Hd.
  - exists c, u. rewrite Hp in Hb. by split_and!.
  - by rewrite Hrows, Hw, Hp.
Qed.

(** ** Loading *)

(** Every row is that of a payment. *)
Definition intents_ok t : Prop :=
  forall id m, intentRows t !! id = Some m ->
    exists p version, rowOf p version m /\ intent_ok p /\ PaymentIntent.TransactionID p = id.

Lemma intents_ok_keyed t : intents_ok t -> intents_keyed t.
Proof. intros H id m Hm. by destruct (H id m Hm) as (p & v & (c & u & _ & _ & ->) & _ & <-). Qed.

(** What is loaded for the row [m]. *)
Definition loads (m : PaymentIntentModel) a : Prop :=
  exists p c u version, c <> 0 /\ u <> 0 /\ intent_ok p /\
    m = setModelTimes c u (toPaymentIntentModel p version) /\
    a = restoredPayment (reread c u p) (restoredVersion version).

Lemma loads_row t id m at_ :
  intents_ok t -> intentRows t !! id = Some m ->
  exists a, toPaymentIntentAggregate at_ m = Ok a /\ loads m a.
Proof.
  intros H Hm. destruct (H id m Hm) as (p & v & (c & u & Hc & Hu & ->) & Hp & _).
  rewrite toPaymentIntentAggregate_row by done. eexists. split; [done|]. by exists p, c, u, v.
Qed.

Lemma loads_wf m a : loads m a -> exists q, payment_wf a q /\
  PaymentIntent.Status q = PaymentIntentModel.Status m /\
  PaymentIntent.TransactionID q = PaymentIntentModel.TransactionID m /\
  PaymentIntent.Provider q = PaymentIntentModel.Provider m /\
  PaymentIntent.Workflow q = PaymentIntentModel.Workflow m.
Proof.
  intros (p & c & u & v & Hc & Hu & Hp & -> & ->). exists (reread c u p).
  split; [by apply restored_payment_wf, reread_ok|done].
Qed.

#[local] Arguments toPaymentIntentAggregate {UC} _ _ : simpl never.

(** A load: the aggregate of a row, and nothing changes. *)
Lemma loadPayment_run select (Q : PaymentIntentModel -> Prop) w :
  intents_ok (paymentTables w) ->
  effect paymentTables select w (fun o w' => paymentTables w' = paymentTables w /\
    forall m, o = Some m -> Q m /\ exists id, intentRows (paymentTables w) !! id = Some m) ->
  paymentTables (loadPayment select w).2 = paymentTables w /\
  match (loadPayment select w).1 with
  | Ok a => exists m, Q m /\ (exists id, intentRows (paymentTables w) !! id = Some m) /\ loads m a
  | Err _ => True
  | Panic _ => exists why w', select w = (Panic why, w')
  end.
Proof.
  intros Hok. unfold effect, loadPayment, mapping, wrap_err, First, mbind, method_bind.
  destruct (select w) as [[[m|]|e|why] w1] eqn:Hs; cbn.
  - intros (Hw & Hm). destruct (Hm m eq_refl) as (HQ & id & Hid).
    destruct (loads_row _ id m (now w1) Hok Hid) as (a & -> & Ha). cbn. split; [done|].
    exists m. split_and!; [done|by exists id|done].
  - by intros [-> _].
  - by intros [_ ->].
  - intros ->. split; [done|]. by exists why, w1.
Qed.

Lemma GetByTransactionID_run id w :
  intents_ok (paymentTables w) ->
  paymentTables (GetByTransactionID id w).2 = paymentTables w /\
  match (GetByTransactionID id w).1 with
  | Ok a => exists m, intentRows (paymentTables w) !! id = Some m /\ loads m a
  | _ => True
  end.
Proof.
  intros Hok. destruct (loadPayment_run (selectPaymentIntent id)
    (fun m => intentRows (paymentTables w) !! id = Some m) w Hok) as [Hw Hr].
  { pose proof (selectPaymentIntent_law id w) as H. unfold effect in *.
    destruct (selectPaymentIntent id w) as [[o|e|why] w1]; try done.
    destruct H as [-> ->]. split; [done|]. intros m Hm. eauto. }
  split; [exact Hw|]. unfold GetByTransactionID. destruct (loadPayment _ w).1; [|done..].
  destruct Hr as (m & Hm & _ & Ha). by exists m.
Qed.

Lemma GetByExternalRef_run provider ref w :
  intents_ok (paymentTables w) ->
  paymentTables (GetByExternalRef provider ref w).2 = paymentTables w /\
  match (GetByExternalRef provider ref w).1 with
  | Ok a => exists id m, intentRows (paymentTables w) !! id = Some m /\ loads m a
  | _ => True
  end.
Proof.
  intros Hok. destruct (loadPayment_run
    (selectPaymentIntentByRef (normalizeProvider provider) (TrimSpace ref)) (fun _ => True) w Hok)
    as [Hw Hr].
  { pose proof (selectPaymentIntentByRef_law (normalizeProvider provider) (TrimSpace ref) w) as H.
    unfold effect in *. destruct (selectPaymentIntentByRef _ _ w) as [[o|e|why] w1]; try done.
    destruct H as [-> Ho]. split; [done|]. intros m ->. destruct Ho as (id & Hid & _). eauto. }
  split; [exact Hw|]. unfold GetByExternalRef. destruct (loadPayment _ w).1; [|done..].
  destruct Hr as (m & _ & (id & Hid) & Ha). by exists id, m.
Qed.

(** A transaction that does not succeed leaves the tables. *)
Lemma WithPaymentTransaction_run {A} (fn : method W A) w :
  match WithPaymentTransaction fn w with
  | (Ok x, w') => fn w = (Ok x, w')
  | (_, w') => paymentTables w' = paymentTables w
  end.
Proof.
  unfold WithPaymentTransaction. destruct (paymentBeginError w); [done|].
  destruct (fn w) as [[x|e|why] w1]; [|apply paymentRollback_law..].
  destruct (paymentCommitError w1); [apply paymentRollback_law|done].
Qed.
End save.
