(* ===== verification/PaymentSystem.v ===== *)
(** * Payments while requests interleave

    A state is the database and the aggregates that requests hold in memory,
    which may be stale. A step is a load, a creation, an outcome on an
    aggregate, or a save, in a transaction of its own ([payment_step_]); no lock
    is taken. The invariant ([payments_ok]) ties the outbox to the processed
    events: what makes a settlement unique is their unique key. *)

From stdpp Require Import prelude strings gmap.
From S2P Require Import Prelude GoStrings Database Event ActorContext Redis Locks LedgerEntity.
From S2P Require Import LedgerService PaymentEvents PaymentIntent PaymentAggregate.
From S2P Require Import PaymentAggregateInv PaymentAggregateSpec PaymentAggregateTheorems.
From S2P Require Import LedgerMessaging LedgerTransport PaymentStore PaymentProviders.
From S2P Require Import PaymentService PaymentStoreSpec.

(** ** Settlements *)

Definition settlementEvents : list string :=
  [EventPaymentSucceeded; EventPaymentRefunded; EventPaymentChargeback].

(** The key of the processed event of a settlement. *)
Definition settlementKey (provider name transactionID : string) : string * string :=
  (provider, name +:+ ":" +:+ transactionID).

Definition eventKeys p (names : list string) : list (string * string) :=
  (fun name => settlementKey (PaymentIntent.Provider p) name (PaymentIntent.TransactionID p)) <$>
    filter (fun name => name ∈ settlementEvents) names.

Lemma eventKeys_app p l k : eventKeys p (l ++ k) = eventKeys p l ++ eventKeys p k.
Proof. unfold eventKeys. by rewrite filter_app, fmap_app. Qed.

Lemma eventKeys_same p q names :
  PaymentIntent.Provider q = PaymentIntent.Provider p ->
  PaymentIntent.TransactionID q = PaymentIntent.TransactionID p -> eventKeys q names = eventKeys p names.
Proof. unfold eventKeys. by intros -> ->. Qed.

Section keys.
Context `{UC : UnicodeCase} (now : Time).
Implicit Types (p q : PaymentIntent) (a : PaymentIntentAggregate).

Lemma processedKey_record p name at_ :
  intent_normal p -> name ∈ settlementEvents ->
  processedKey (storedProcessed (processedRecord p name at_)) =
    settlementKey (PaymentIntent.Provider p) name (PaymentIntent.TransactionID p).
Proof.
  intros Hn Hm. unfold processedKey, storedProcessed, settlementKey. cbn.
  unfold normalizeProvider. change (ToLower (TrimSpace ?x)) with (LowerTrim x).
  rewrite (normal_provider p Hn). f_equal. rewrite <- string_app_assoc.
  assert (is_ascii (name +:+ ":") = true /\ name +:+ ":" <> "" /\ trimmed (name +:+ ":")) as (H1 & H2 & H3)
    by (unfold settlementEvents in Hm; string_cases; split_and!; (reflexivity || discriminate)).
  by apply trimmed_prefix; [..|apply Hn].
Qed.

Lemma eventKeys_checkout p q url emit at_ : eventKeys p (event_name <$> checkoutData q url emit at_) = [].
Proof. unfold checkoutData. by case_decide. Qed.

(** The processed events of an outcome are those of its settlements. *)
Lemma outcome_keys p res url emit at_ :
  intent_normal p ->
  processedKey ∘ storedProcessed <$> outcomeProcessed p res at_ =
    eventKeys p (event_name <$> outcomeEvents now p res url emit at_).
Proof.
  intros Hn. unfold outcomeProcessed, outcomeEvents.
  set (q := outcomeIntent now p res at_). pose proof (eventKeys_checkout p q url emit at_) as Hc.
  assert (Hcons : forall d ds, eventKeys p (event_name <$> d :: ds) =
    eventKeys p [event_name d] ++ eventKeys p (event_name <$> ds))
    by (intros d ds; rewrite <- eventKeys_app; done).
  assert (Hsc : forall t, eventKeys p (event_name <$> stateChangedData t q res at_ ::
    checkoutData q url emit at_) = []) by (intros t; by rewrite Hcons, Hc).
  destruct (decide (outcomeNext res = PaymentStatusSuccess)) as [E|_].
  { destruct (PaymentTransition.StateChanged _).
    - rewrite Hcons, Hc. cbn [fmap list_fmap compose]. rewrite processedKey_record; [done|done|by left].
    - destruct (PaymentTransition.ExternalRefChanged _); [by rewrite Hsc|done]. }
  destruct (decide (outcomeNext res = PaymentStatusRefunded)) as [E|_].
  { destruct (PaymentTransition.StateChanged _); [|done]. rewrite Hcons, Hc.
    cbn [fmap list_fmap compose]. rewrite processedKey_record; [done|done|by right; left]. }
  destruct (decide (outcomeNext res = PaymentStatusChargeback)) as [E|_].
  { destruct (PaymentTransition.StateChanged _); [|done]. rewrite Hcons, Hc.
    cbn [fmap list_fmap compose]. rewrite processedKey_record; [done|done|by right; right; left]. }
  assert (Hf : eventKeys p (event_name <$> (if decide (PaymentTransition.StateChanged (outcomeTransition p res) = true /\
    outcomeNext res = PaymentStatusFailed) then [failedData q res at_] else [])) = []) by by case_decide.
  destruct (PaymentTransition.StateChanged (outcomeTransition p res));
    (destruct (PaymentTransition.Ignored _ || _); [done|]);
    rewrite app_comm_cons, fmap_app, eventKeys_app, Hsc, Hf; done.
Qed.
End keys.

(** ** The invariant *)

Section invariant.
Context `{UC : UnicodeCase} {W : Type} `{RT : Runtime W} `{SQL : PaymentSQL W}.
Context `{EJ : JSON PaymentEventData} `{Laws : !PaymentSQLLaws W}.
Implicit Types (p q : PaymentIntent) (a : PaymentIntentAggregate) (w : W) (t : PaymentTables).

Definition pendingNames a : list string := EventName <$> PendingOutboxEvents a.

(** An aggregate in memory: its processed events are those of the settlements
    that it has recorded, and if it was stored, its row has its provider. *)
Record live_ok t a : Prop := {
  live_intent : exists p, payment_wf a p /\
    Forall (fun e => AggregateID e = PaymentIntent.TransactionID p) (PendingOutboxEvents a) /\
    processedKey ∘ storedProcessed <$> PendingProcessedEvents a = eventKeys p (pendingNames a) /\
    (baseVersion (PaymentIntentAggregate.root a) <> 0 ->
       exists m, intentRows t !! PaymentIntent.TransactionID p = Some m /\
         PaymentIntentModel.Provider m = PaymentIntent.Provider p)
}.

(** The settlement rows of the outbox, and the processed event that each of
    them needs. *)
Definition isSettlement (row : PaymentOutboxRow) : Prop :=
  PaymentOutboxRow.EventName row ∈ settlementEvents.
#[local] Instance isSettlement_dec row : Decision (isSettlement row).
Proof. unfold isSettlement. apply _. Defined.

Definition rowKey t (row : PaymentOutboxRow) : string * string :=
  settlementKey (default "" (PaymentIntentModel.Provider <$> intentRows t !! PaymentOutboxRow.AggregateID row))
    (PaymentOutboxRow.EventName row) (PaymentOutboxRow.AggregateID row).

Record tables_ok t : Prop := {
  tables_intents : intents_ok t;
  tables_processed : NoDup (processedKeys t);
  tables_keys : rowKey t <$> filter isSettlement (paymentOutbox t) = processedKeys t;
  tables_outbox : Forall (fun row => is_Some (intentRows t !! PaymentOutboxRow.AggregateID row))
                    (paymentOutbox t)
}.

Definition payments_ok t (live : list PaymentIntentAggregate) : Prop :=
  tables_ok t /\ Forall (live_ok t) live.

(** A row keeps its provider. *)
Definition keepsProviders t t' : Prop := forall id m, intentRows t !! id = Some m ->
  exists m', intentRows t' !! id = Some m' /\ PaymentIntentModel.Provider m' = PaymentIntentModel.Provider m.

Lemma live_ok_keeps t t' a : keepsProviders t t' -> live_ok t a -> live_ok t' a.
Proof.
  intros Hk [(p & Hwf & He & Hp & Hb)]. constructor. exists p. split_and!; [done..|].
  intros H. destruct (Hb H) as (m & Hm & <-). apply (Hk _ _ Hm).
Qed.

Lemma rowKey_keeps t t' rows :
  keepsProviders t t' -> Forall (fun row => is_Some (intentRows t !! PaymentOutboxRow.AggregateID row)) rows ->
  rowKey t' <$> filter isSettlement rows = rowKey t <$> filter isSettlement rows.
Proof.
  intros Hk Hr. apply list_fmap_ext. intros i row Hi. unfold rowKey. f_equal.
  rewrite Forall_forall in Hr.
  apply list_elem_of_lookup_2, list_elem_of_filter in Hi as [_ Hi].
  destruct (Hr row Hi) as [m Hm]. destruct (Hk _ _ Hm) as (m' & -> & Hp). by rewrite Hm; cbn.
Qed.

(** The rows that a save adds have the keys of the events. *)
Lemma new_rows_keys t p m es rows :
  Forall2 outboxRowOf es rows ->
  Forall (fun e => AggregateID e = PaymentIntent.TransactionID p) es ->
  intentRows t !! PaymentIntent.TransactionID p = Some m ->
  PaymentIntentModel.Provider m = PaymentIntent.Provider p ->
  rowKey t <$> filter isSettlement rows = eventKeys p (EventName <$> es) /\
  Forall (fun row => is_Some (intentRows t !! PaymentOutboxRow.AggregateID row)) rows.
Proof.
  intros Hr He Hm Hp. induction Hr as [|e row es rows (Hid & _ & _ & Hn & _) _ IH]; [done|].
  apply Forall_cons in He as [Hide He]. destruct (IH He) as [IHk IHs].
  rewrite Hide in Hid. split; [|constructor; [rewrite Hid; by exists m|done]].
  change (EventName <$> e :: es) with ([EventName e] ++ (EventName <$> es)).
  rewrite eventKeys_app, <- IHk. unfold eventKeys. rewrite !filter_cons, filter_nil.
  destruct (decide (isSettlement row)) as [Hs|Hs]; unfold isSettlement in Hs; rewrite Hn in Hs;
    simplify_decide; [|done].
  cbn [fmap list_fmap app]. f_equal. unfold rowKey. by rewrite Hn, Hid, Hm; cbn; rewrite Hp.
Qed.

Lemma stores_ok t t' a p :
  payment_wf a p -> live_ok t a -> tables_ok t -> stores a p t t' ->
  tables_ok t' /\ keepsProviders t t' /\ live_ok t' (MarkPaymentPersisted a).
Proof.
  intros Hwf [(p' & Hwf' & He & Hpk & Hb)] [Hi Hd Hk Ho] (m & rows & Hr & Hd' & Hm & ->).
  assert (p' = p) as -> by (pose proof (pwf_intent _ _ Hwf); pose proof (pwf_intent _ _ Hwf'); congruence).
  clear Hwf'. destruct Hm as (c & u & Hu & -> & Hm).
  set (id := PaymentIntent.TransactionID p) in *.
  set (m := setModelTimes c u (toPaymentIntentModel p _)) in *.
  assert (Hc : c <> 0).
  { case_decide as Hbase; destruct Hm as [Hn Hc]; [destruct Hc as [-> _]; apply Hwf|].
    destruct Hc as [Hm0 ->]. destruct (Hi _ _ Hm0) as (p0 & v0 & (c0 & u0 & Hc0 & _ & ->) & _). done. }
  assert (Hkeep : keepsProviders t (addPaymentOutbox rows (setIntentRow id m
    (addProcessed (storedProcessed <$> PendingProcessedEvents a) t)))).
  { intros k x Hx. cbn. destruct (decide (k = id)) as [->|Hne].
    - exists m. rewrite lookup_insert_eq. split; [done|]. change (PaymentIntent.Provider p = PaymentIntentModel.Provider x).
      case_decide as Hbase; [by destruct Hm as [Hn _]; rewrite Hn in Hx|].
      destruct (Hb Hbase) as (m1 & Hm1 & <-). congruence.
    - exists x. by rewrite lookup_insert_ne. }
  set (t' := addPaymentOutbox rows _) in *.
  assert (Hid : intentRows t' !! id = Some m) by apply lookup_insert_eq.
  destruct (new_rows_keys t' p m (PendingOutboxEvents a) rows Hr He Hid eq_refl) as [Hrk Hrs].
  split_and!; [constructor| |].
  - intros k x Hx. cbn in Hx. destruct (decide (k = id)) as [->|Hne].
    + rewrite lookup_insert_eq in Hx. injection Hx as <-. eexists p, _.
      split_and!; [by exists c, u|by apply (payment_wf_ok a)|done].
    + rewrite lookup_insert_ne in Hx by done. by apply Hi.
  - by apply Hd'.
  - cbn [paymentOutbox t' addPaymentOutbox setIntentRow addProcessed].
    rewrite filter_app, fmap_app. rewrite (rowKey_keeps t t') by done. rewrite Hk, Hrk.
    unfold processedKeys. cbn. rewrite fmap_app, <- list_fmap_compose. by rewrite Hpk.
  - apply Forall_app. split; [|done]. eapply Forall_impl; [exact Ho|].
    intros row [x Hx]. destruct (Hkeep _ _ Hx) as (x' & Hx' & _). by exists x'.
  - exact Hkeep.
  - constructor. exists p. unfold MarkPaymentPersisted.
    assert (He' : PendingOutboxEvents (PaymentIntentAggregate.mk (MarkPersisted (PaymentIntentAggregate.root a))
      (intentOf a) []) = []).
    { unfold PendingOutboxEvents, CloneEvents. cbn. unfold MarkPersisted.
      destruct (last _) eqn:Hl; [done|]. by apply last_None. }
    unfold pendingNames. rewrite He'. split_and!; [|done|done|by exists m].
    destruct Hwf. constructor; try done. cbn. unfold MarkPersisted. by destruct (last _).
Qed.

(** *** Loads and creations *)

Lemma live_of_row t id m a :
  tables_ok t -> intentRows t !! id = Some m -> loads m a -> live_ok t a.
Proof.
  intros Ht Hm (p & c & u & v & Hc & Hu & Hp & -> & ->).
  pose proof (intents_ok_keyed _ (tables_intents _ Ht) _ _ Hm) as Hid. cbn in Hid.
  constructor. exists (reread c u p). split_and!; [by apply restored_payment_wf, reread_ok|done|done|].
  intros _. eexists. change (PaymentIntent.TransactionID (reread c u p)) with (PaymentIntent.TransactionID p).
  rewrite Hid. by split.
Qed.

Lemma live_started now t a p ds :
  starts_payment now a p ds -> eventKeys p (event_name <$> ds) = [] -> live_ok t a.
Proof.
  intros (Hwf & _ & Hds & Hpe & Hb & He & _) Hk. constructor. exists p. split_and!; [done| | |done].
  - eapply Forall_impl; [exact He|]. by intros e [].
  - rewrite Hpe. unfold pendingNames. rewrite <- Hds, <- list_fmap_compose in Hk. cbn.
    rewrite <- Hk. f_equal. apply list_fmap_ext. intros i e Hi.
    rewrite Forall_forall in He. symmetry. by apply He, list_elem_of_lookup_2 with i.
Qed.

Lemma live_topUp now t id provider amount fee currency credit metadata at_ a :
  NewProviderTopUpAggregate now id provider amount fee currency credit metadata at_ = Ok a ->
  live_ok t a.
Proof.
  intros H. apply NewProviderTopUpAggregate_starts in H as (p & _ & H). by apply (live_started _ _ _ _ _ H).
Qed.

Lemma live_withdrawal now t id provider amount fee currency destination debit metadata at_ a :
  NewProviderWithdrawalAggregate now id provider amount fee currency destination debit metadata at_ = Ok a ->
  live_ok t a.
Proof.
  intros H. apply NewProviderWithdrawalAggregate_starts in H as (p & _ & H).
  by apply (live_started _ _ _ _ _ H).
Qed.

(** *** Outcomes *)

Lemma baseVersion_recordAll at_ ds a :
  baseVersion (PaymentIntentAggregate.root (recordAll at_ ds a)) =
  baseVersion (PaymentIntentAggregate.root a).
Proof. revert a. induction ds as [|d ds IH]; intros a; [done|]. apply (IH (recorded at_ a d)). Qed.

(** Recording events with their processed events. *)
Lemma live_recorded t a p q at_ ds es :
  live_ok t a -> payment_wf a p ->
  PaymentIntent.Provider q = PaymentIntent.Provider p ->
  PaymentIntent.TransactionID q = PaymentIntent.TransactionID p ->
  (forall root, PaymentIntentAggregate.root root = PaymentIntentAggregate.root a ->
     intentOf root = Some q -> payment_wf root q) ->
  processedKey ∘ storedProcessed <$> es = eventKeys p (event_name <$> ds) ->
  live_ok t (recordAll at_ ds (PaymentIntentAggregate.mk (PaymentIntentAggregate.root a) (Some q)
    (PaymentIntentAggregate.processedEvents a ++ es))).
Proof.
  intros [(p' & Hwf' & He & Hpk & Hb)] Hwf Hpr Hid Hq Hes.
  assert (p' = p) as -> by (pose proof (pwf_intent _ _ Hwf); pose proof (pwf_intent _ _ Hwf'); congruence).
  set (b := PaymentIntentAggregate.mk _ _ _). destruct (events_recordAll at_ ds b) as (evs & Hev & Hds & Hf).
  constructor. exists q. unfold pendingNames, PendingOutboxEvents, PendingProcessedEvents, CloneEvents in *.
  rewrite Hev, processed_recordAll. rewrite Hid. split_and!.
  - apply payment_wf_recordAll. by apply Hq.
  - apply Forall_app. split; [done|]. eapply Forall_impl; [exact Hf|]. intros e (_ & -> & _).
    apply (pwf_id _ _ Hwf).
  - cbn [PaymentIntentAggregate.processedEvents b].
    rewrite fmap_app, Hpk, Hes, (eventKeys_same p q), fmap_app, eventKeys_app by done.
    do 2 f_equal. rewrite <- Hds, <- list_fmap_compose. apply list_fmap_ext. intros i e Hi.
    rewrite Forall_forall in Hf. symmetry. by apply Hf, list_elem_of_lookup_2 with i.
  - intros Hbase. rewrite Hpr. apply Hb. by rewrite baseVersion_recordAll in Hbase.
Qed.

Lemma wf_outcome_root now a b p res at_ :
  payment_wf a p -> at_ <> 0 -> PaymentIntentAggregate.root b = PaymentIntentAggregate.root a ->
  intentOf b = Some (outcomeIntent now p res at_) -> payment_wf b (outcomeIntent now p res at_).
Proof.
  intros H Ht Hr Hi. by apply (payment_wf_same_root _ _ _ (payment_wf_outcome now a p res at_ H Ht)).
Qed.

Lemma live_outcome now t a res url emit at_ :
  live_ok t a -> at_ <> 0 -> live_ok t (ApplyProviderOutcome now res url emit at_ a).2.
Proof.
  intros Hl Ht. pose proof Hl as [(p & Hwf & _)].
  rewrite (ApplyProviderOutcome_run now a p) by done. unfold outcomeSpec.
  destruct (ValidateProviderResultForStatus _ _ _ _); cbn [snd]; [|done..].
  destruct (afterProvider_terms now p (outcomeNext res) (PaymentProviderResult.ExternalRef res) at_)
    as (Hid & Hpr & _).
  unfold outcomeState. apply (live_recorded t a p); try done.
  - intros b. by apply wf_outcome_root.
  - apply outcome_keys, Hwf.
Qed.

Lemma live_failed now t a at_ : live_ok t a -> at_ <> 0 -> live_ok t (MarkCreateFailed now at_ a).2.
Proof.
  intros Hl Ht. pose proof Hl as [(p & Hwf & _)].
  rewrite (MarkCreateFailed_run now a p) by done. case_decide; cbn [snd]; [|done].
  destruct (afterProvider_terms now p (outcomeNext createFailedResult) "" at_) as (Hid & Hpr & _).
  set (q := outcomeIntent now p createFailedResult at_).
  replace (PaymentIntentAggregate.set_intent (Some q) a) with
    (PaymentIntentAggregate.mk (PaymentIntentAggregate.root a) (Some q)
       (PaymentIntentAggregate.processedEvents a ++ [])) by by rewrite app_nil_r.
  apply (live_recorded t a p); try done. intros b. by apply wf_outcome_root.
Qed.

(** *** Saves *)

Lemma save_ok a w :
  tables_ok (paymentTables w) -> live_ok (paymentTables w) a ->
  match WithPaymentTransaction (SavePayment a) w with
  | (Ok a', w') => a' = MarkPaymentPersisted a /\ tables_ok (paymentTables w') /\
      keepsProviders (paymentTables w) (paymentTables w') /\ live_ok (paymentTables w') a'
  | (_, w') => paymentTables w' = paymentTables w
  end.
Proof.
  intros Ht Hl. pose proof (WithPaymentTransaction_run (SavePayment a) w) as H.
  destruct (WithPaymentTransaction (SavePayment a) w) as [[a'|e|why] w']; [|done..].
  pose proof Hl as [(p & Hwf & _)].
  destruct (SavePayment_run a p w a' w' Hwf (intents_ok_keyed _ (tables_intents _ Ht)) H) as [-> Hs].
  split; [done|]. by apply (stores_ok _ _ a p).
Qed.

(** ** Steps *)

Notation state := (W * list PaymentIntentAggregate)%type.

Inductive payment_step_ : state -> state -> Prop :=
  (** Whatever leaves the tables as they are. *)
  | step_other w w' live : paymentTables w' = paymentTables w -> payment_step_ (w, live) (w', live)
  | step_load id w a w' live :
      GetByTransactionID id w = (Ok a, w') -> payment_step_ (w, live) (w', a :: live)
  | step_loadByRef provider ref w a w' live :
      GetByExternalRef provider ref w = (Ok a, w') -> payment_step_ (w, live) (w', a :: live)
  | step_topUp now id provider amount fee currency credit metadata at_ a w live :
      NewProviderTopUpAggregate now id provider amount fee currency credit metadata at_ = Ok a ->
      payment_step_ (w, live) (w, a :: live)
  | step_withdrawal now id provider amount fee currency destination debit metadata at_ a w live :
      NewProviderWithdrawalAggregate now id provider amount fee currency destination debit metadata at_
        = Ok a ->
      payment_step_ (w, live) (w, a :: live)
  | step_outcome now res url emit at_ a l l' w : at_ <> 0 ->
      payment_step_ (w, l ++ a :: l') (w, l ++ (ApplyProviderOutcome now res url emit at_ a).2 :: l')
  | step_createFailed now at_ a l l' w : at_ <> 0 ->
      payment_step_ (w, l ++ a :: l') (w, l ++ (MarkCreateFailed now at_ a).2 :: l')
  | step_save a a' l l' w w' : WithPaymentTransaction (SavePayment a) w = (Ok a', w') ->
      payment_step_ (w, l ++ a :: l') (w', l ++ a' :: l')
  | step_drop a l l' w : payment_step_ (w, l ++ a :: l') (w, l ++ l').

Lemma payments_ok_other t t' live : t' = t -> payments_ok t live -> payments_ok t' live.
Proof. by intros ->. Qed.

Lemma Forall_middle {A} (P : A -> Prop) l x y l' :
  Forall P (l ++ x :: l') -> (P x -> P y) -> Forall P (l ++ y :: l').
Proof.
  rewrite !Forall_app, !Forall_cons. intros (Hl & Hx & Hl') H. auto.
Qed.

Lemma payments_ok_step s s' :
  payment_step_ s s' -> payments_ok (paymentTables s.1) s.2 -> payments_ok (paymentTables s'.1) s'.2.
Proof.
  intros Hs [Ht Hl].
  destruct Hs as [w w' live Hw|id w a w' live H|provider ref w a w' live H|
    now id provider amount fee currency credit metadata at_ a w live H|
    now id provider amount fee currency destination debit metadata at_ a w live H|
    now res url emit at_ a l l' w Hat|now at_ a l l' w Hat|a a' l l' w w' H|a l l' w]; cbn in *.
  - by rewrite Hw.
  - destruct (GetByTransactionID_run id w (tables_intents _ Ht)) as [Hw Hm].
    rewrite H in Hw, Hm. cbn in Hw, Hm. rewrite Hw. destruct Hm as (m & Hm & Ha).
    split; [done|]. constructor; [|done]. by apply (live_of_row _ id m).
  - destruct (GetByExternalRef_run provider ref w (tables_intents _ Ht)) as [Hw Hm].
    rewrite H in Hw, Hm. cbn in Hw, Hm. rewrite Hw. destruct Hm as (id & m & Hm & Ha).
    split; [done|]. constructor; [|done]. by apply (live_of_row _ id m).
  - split; [done|]. constructor; [|done]. by apply (live_topUp _ _ _ _ _ _ _ _ _ _ _ H).
  - split; [done|]. constructor; [|done]. by apply (live_withdrawal _ _ _ _ _ _ _ _ _ _ _ _ H).
  - split; [done|]. apply (Forall_middle _ _ _ _ _ Hl). intros Ha. by apply live_outcome.
  - split; [done|]. apply (Forall_middle _ _ _ _ _ Hl). intros Ha. by apply live_failed.
  - assert (Ha : live_ok (paymentTables w) a) by by apply Forall_app in Hl as [_ [? _]%Forall_cons].
    pose proof (save_ok a w Ht Ha) as Hsave. rewrite H in Hsave.
    destruct Hsave as (_ & Ht' & Hk & Ha'). split; [done|].
    apply (Forall_middle _ _ a); [|done]. eapply Forall_impl; [exact Hl|].
    intros b. by apply live_ok_keeps.
  - split; [done|]. apply Forall_app in Hl as [? [_ ?]%Forall_cons]. by apply Forall_app.
Qed.

Lemma payments_ok_steps s s' :
  rtc payment_step_ s s' -> payments_ok (paymentTables s.1) s.2 -> payments_ok (paymentTables s'.1) s'.2.
Proof. induction 1; [done|]. intros Hs. by eapply IHrtc, payments_ok_step. Qed.

(** ** Settled once *)

Definition settledBy (id name : string) (row : PaymentOutboxRow) : Prop :=
  PaymentOutboxRow.AggregateID row = id /\ PaymentOutboxRow.EventName row = name.
#[export] Instance settledBy_dec id name row : Decision (settledBy id name row).
Proof. unfold settledBy. apply _. Defined.

(** The rows that announce the settlement [name] of the payment [id]. *)
Definition announcements t (id name : string) : list PaymentOutboxRow :=
  filter (settledBy id name) (paymentOutbox t).

Lemma NoDup_same_key {A B} (f : A -> B) (l : list A) (P : A -> Prop) `{!forall x, Decision (P x)} k :
  NoDup (f <$> l) -> (forall x, x ∈ l -> P x -> f x = k) -> (length (filter P l) <= 1)%nat.
Proof.
  induction l as [|x l IH]; intros Hd Hk; [cbn; lia|].
  rewrite fmap_cons, NoDup_cons in Hd. destruct Hd as [Hx Hd]. rewrite filter_cons.
  assert (IH' : (length (filter P l) <= 1)%nat) by (apply IH; [done|]; intros y Hy; apply Hk; by right).
  case_decide as Hp; [|done].
  destruct (filter P l) as [|y r] eqn:E; [done|]. exfalso. apply Hx.
  assert (Hy : y ∈ filter P l) by (rewrite E; by left). apply list_elem_of_filter in Hy as [HPy Hy].
  apply list_elem_of_fmap. exists y. split; [|done]. rewrite (Hk x), (Hk y); [done|by right|done|by left|done].
Qed.

Lemma filter_weaker {A} (P Q : A -> Prop) `{!forall x, Decision (P x)} `{!forall x, Decision (Q x)} (l : list A) :
  (forall x, P x -> Q x) -> filter P (filter Q l) = filter P l.
Proof.
  intros HPQ. induction l as [|x l IH]; [done|]. rewrite !filter_cons.
  destruct (decide (Q x)) as [HQ|HQ].
  - rewrite filter_cons. by rewrite IH.
  - rewrite decide_False by auto. done.
Qed.

Lemma settled_once t live id name :
  payments_ok t live -> name ∈ settlementEvents -> (length (announcements t id name) <= 1)%nat.
Proof.
  intros [Ht _] Hn. unfold announcements.
  assert (Hw : forall row, settledBy id name row -> isSettlement row)
    by (intros row [_ Hr]; unfold isSettlement; by rewrite Hr).
  rewrite <- (filter_weaker (settledBy id name) isSettlement _ Hw).
  apply (NoDup_same_key (rowKey t) _ _
    (settlementKey (default "" (PaymentIntentModel.Provider <$> intentRows t !! id)) name id)).
  - rewrite (tables_keys _ Ht). apply Ht.
  - intros row _ [<- <-]. done.
Qed.
End invariant.

(** * The payment commands as runs of the system

    Every command of the service is a run of the steps of [PaymentSystem],
    where the calls of the provider and of the lock are runs too: other
    requests may work while they last. [runs held m result] says so of a
    method that begins with the aggregates [held] and ends with those of its
    result; where it fails it holds none. *)
Import PaymentService.

(** ** Runs *)

Section runs.
Context `{UC : UnicodeCase} {W : Type} `{RT : Runtime W} `{SQL : PaymentSQL W}.
Context `{EJ : JSON PaymentEventData} `{Laws : !PaymentSQLLaws W}.
Implicit Types (a : PaymentIntentAggregate) (w : W) (live held : list PaymentIntentAggregate).

Definition runs {A} held (m : method W A) (result : A -> list PaymentIntentAggregate) : Prop :=
  forall w live,
    match m w with
    | (Ok x, w') => rtc payment_step_ (w, held ++ live) (w', result x ++ live)
    | (_, w') => rtc payment_step_ (w, held ++ live) (w', live)
    end.

(** A method that holds no aggregates. *)
Notation plain m := (runs [] m (fun _ => [])).

Lemma drop_held held live w : rtc payment_step_ (w, held ++ live) (w, live).
Proof.
  induction held as [|a held IH]; [done|]. eapply rtc_l; [|exact IH]. apply (step_drop a []).
Qed.

Lemma runs_ret {A} held (x : A) result : held = result x -> runs held (mret x) result.
Proof. intros -> w live. apply rtc_refl. Qed.

Lemma runs_raise {A} held e (result : A -> _) : runs held (raise e) result.
Proof. intros w live. apply drop_held. Qed.

Lemma runs_bind {A B} held (m : method W A) (f : A -> method W B) mid result :
  runs held m mid -> (forall x, runs (mid x) (f x) result) -> runs held (m ≫= f) result.
Proof.
  intros Hm Hf w live. specialize (Hm w live). unfold mbind, method_bind.
  destruct (m w) as [[x|e|why] w1]; [|done..]. specialize (Hf x w1 live).
  destruct (f x w1) as [[y|e|why] w2]; by etrans.
Qed.

(** Aggregates that a method does not use are held beside it. *)
Lemma runs_beside {A} held (m : method W A) : plain m -> runs held m (fun _ => held).
Proof.
  intros Hm w live. specialize (Hm w (held ++ live)). cbn in Hm.
  destruct (m w) as [[x|e|why] w1]; [done|..]; (etrans; [exact Hm|apply drop_held]).
Qed.

Lemma runs_dropping {A} held (m : method W A) result : runs [] m result -> runs held m result.
Proof.
  intros Hm w live. specialize (Hm w live). cbn in Hm.
  destruct (m w) as [[x|e|why] w1]; (etrans; [apply drop_held|exact Hm]).
Qed.

(** What leaves the tables as they are. *)
Lemma plain_tables {A} (m : method W A) :
  (forall w, paymentTables (m w).2 = paymentTables w) -> plain m.
Proof.
  intros H w live. specialize (H w). destruct (m w) as [[x|e|why] w1]; by apply rtc_once, step_other.
Qed.

Lemma plain_lift {A} (r : result A) : plain (lift r).
Proof. by apply plain_tables. Qed.

Lemma plain_range {A} (l : list A) (body : A -> method W unit) :
  (forall x, plain (body x)) -> plain (range l body).
Proof.
  intros H. induction l as [|x l IH]; [by apply runs_ret|].
  apply runs_bind with (fun _ => []); [apply H|done].
Qed.

Lemma plain_ignoreError {A} (m : method W A) : plain m -> plain (ignoreError m).
Proof.
  intros H w live. specialize (H w live). unfold ignoreError. by destruct (m w) as [[x|e|why] w1].
Qed.

Lemma runs_wrap_err {A} held f (m : method W A) result : runs held m result -> runs held (wrap_err f m) result.
Proof. intros H w live. specialize (H w live). unfold wrap_err. by destruct (m w) as [[x|e|why] w1]. Qed.

Lemma plain_defer {A} (d : method W unit) (m : method W A) : plain d -> plain m -> plain (defer d m).
Proof.
  intros Hd Hm w live. specialize (Hm w live). unfold defer. destruct (m w) as [r w1]. specialize (Hd w1 live).
  destruct (d w1) as [[x|e|why] w2], r; cbn in *; by etrans.
Qed.

(** *** The repository *)

Lemma loadPayment_tables select w :
  (forall w, paymentTables (select w).2 = paymentTables w) ->
  paymentTables (loadPayment select w).2 = paymentTables w.
Proof.
  intros H. specialize (H w). unfold loadPayment, mapping, wrap_err, First, mbind, method_bind.
  by destruct (select w) as [[[m|]|e|why] w1].
Qed.

Lemma payment_effect_same {A} (m : method W A) w (Q : A -> W -> Prop) :
  effect paymentTables m w Q -> (forall x w', Q x w' -> paymentTables w' = paymentTables w) ->
  paymentTables (m w).2 = paymentTables w.
Proof. unfold effect. intros H HQ. destruct (m w) as [[x|e|why] w1]; [eauto|by destruct H|done]. Qed.

Lemma selectPaymentIntent_tables id w : paymentTables (selectPaymentIntent id w).2 = paymentTables w.
Proof. eapply payment_effect_same; [apply selectPaymentIntent_law|]. by intros o w' [-> _]. Qed.
Lemma selectPaymentIntentByRef_tables provider ref w :
  paymentTables (selectPaymentIntentByRef provider ref w).2 = paymentTables w.
Proof. eapply payment_effect_same; [apply selectPaymentIntentByRef_law|]. by intros o w' [-> _]. Qed.

Lemma runs_GetByTransactionID id : runs [] (GetByTransactionID id) (fun a => [a]).
Proof.
  intros w live. pose proof (loadPayment_tables _ w (selectPaymentIntent_tables id)) as H.
  change (loadPayment (selectPaymentIntent id)) with (GetByTransactionID id) in H.
  destruct (GetByTransactionID id w) as [[a|e|why] w1] eqn:E; apply rtc_once;
    [by apply (step_load id)|by apply step_other..].
Qed.

Lemma runs_GetByExternalRef provider ref : runs [] (GetByExternalRef provider ref) (fun a => [a]).
Proof.
  intros w live.
  pose proof (loadPayment_tables _ w
    (selectPaymentIntentByRef_tables (normalizeProvider provider) (TrimSpace ref))) as H.
  change (loadPayment _) with (GetByExternalRef provider ref) in H.
  destruct (GetByExternalRef provider ref w) as [[a|e|why] w1] eqn:E; apply rtc_once;
    [by apply (step_loadByRef provider ref)|by apply step_other..].
Qed.

Lemma plain_ListPendingWithdrawals limit : plain (ListPendingWithdrawals limit).
Proof.
  apply plain_tables. intros w. unfold ListPendingWithdrawals, mapping, wrap_err, mbind, method_bind.
  set (n := if decide (limit <= 0) then 20 else limit).
  assert (H : paymentTables (selectPaymentIntents PaymentWorkflowWithdrawal PaymentStatusCreating n w).2
    = paymentTables w)
    by (eapply payment_effect_same; [apply selectPaymentIntents_law; unfold n; case_decide; lia|];
        by intros o w' [-> _]).
  by destruct (selectPaymentIntents _ _ n w) as [[l|e|why] w1].
Qed.

Lemma runs_save a : runs [a] (saveInTransaction a) (fun a' => [a']).
Proof.
  intros w live. pose proof (WithPaymentTransaction_run (SavePayment a) w) as H.
  unfold saveInTransaction.
  destruct (WithPaymentTransaction (SavePayment a) w) as [[a'|e|why] w1] eqn:E.
  - by apply rtc_once, (step_save a a' []).
  - eapply rtc_l; [apply (step_drop a [])|]. by apply rtc_once, step_other.
  - eapply rtc_l; [apply (step_drop a [])|]. by apply rtc_once, step_other.
Qed.

(** *** Outcomes *)

Lemma runs_ApplyProviderOutcome now res url emit at_ a : at_ <> 0 ->
  runs [a] (lift (after (ApplyProviderOutcome now res url emit at_) a)) (fun '(_, a') => [a']).
Proof.
  intros Ht w live. unfold lift, after. pose proof (step_outcome now res url emit at_ a [] live w Ht) as Hs.
  destruct (ApplyProviderOutcome now res url emit at_ a) as [[m|e|why] a'];
    [by apply rtc_once|apply (drop_held [a])..].
Qed.

Lemma runs_MarkCreateFailed now at_ a : at_ <> 0 ->
  runs [a] (lift (after (MarkCreateFailed now at_) a)) (fun '(_, a') => [a']).
Proof.
  intros Ht w live. unfold lift, after. pose proof (step_createFailed now at_ a [] live w Ht) as Hs.
  destruct (MarkCreateFailed now at_ a) as [[m|e|why] a'];
    [by apply rtc_once|apply (drop_held [a])..].
Qed.

(** The clock is not the zero time. *)
Lemma runs_clock {A} held (f : Time -> method W A) result :
  (forall t, t <> 0 -> runs held (f t) result) -> runs held (paymentClock ≫= f) result.
Proof. intros H w live. apply (H (now w) (paymentNow_law w)). Qed.

Lemma runs_applyProviderOutcome a res url emit :
  runs [a] (applyProviderOutcome a res url emit) (fun '(_, a') => [a']).
Proof.
  unfold applyProviderOutcome. apply runs_clock. intros t Ht.
  eapply runs_bind; [by apply runs_ApplyProviderOutcome|]. intros [mutation a'].
  destruct (negb _); [by apply runs_ret|].
  eapply runs_bind; [apply runs_beside, plain_lift|]. intros events.
  eapply runs_bind; [apply runs_save|]. intros a2. by apply runs_ret.
Qed.

(** A failed creation is marked on the aggregate that is held. *)
Lemma runs_markCreateFailed a : runs [a] (ignoreError (markCreateFailed a)) (fun _ => []).
Proof.
  assert (H : runs [a] (markCreateFailed a) (fun _ => [])).
  { unfold markCreateFailed. apply runs_clock. intros t Ht.
    eapply runs_bind; [by apply runs_MarkCreateFailed|]. intros [mutation a'].
    destruct (negb _); [by apply runs_dropping, runs_ret|].
    eapply runs_bind; [apply runs_save|]. intros a2. by apply runs_dropping, runs_ret. }
  intros w live. specialize (H w live). unfold ignoreError.
  by destruct (markCreateFailed a w) as [[x|e|why] w1].
Qed.

Lemma runs_orMarkCreateFailed {A} a (call : method W A) :
  plain call -> runs [a] (orMarkCreateFailed a call) (fun _ => [a]).
Proof.
  intros H w live. pose proof (H w (a :: live)) as Hc. unfold orMarkCreateFailed. cbn in Hc.
  destruct (call w) as [[x|e|why] w1]; [done| |etrans; [exact Hc|apply (drop_held [a])]].
  pose proof (runs_markCreateFailed a w1 live) as Hm. unfold mbind, method_bind.
  destruct (ignoreError (markCreateFailed a) w1) as [[u|e'|why] w2]; cbn in *; by etrans.
Qed.

Lemma runs_paymentSnapshot a : runs [a] (paymentSnapshot a) (fun _ => [a]).
Proof.
  unfold paymentSnapshot. destruct (Snapshot a); [by apply runs_ret|apply runs_beside, plain_lift].
Qed.
End runs.

Lemma plain_webhookBody {W : Type} `{UC : UnicodeCase} `{RT : Runtime W} `{SQL : PaymentSQL W}
    `{EJ : JSON PaymentEventData} `{Laws : !PaymentSQLLaws W} id res :
  runs [] (webhookBody (W := W) id res) (fun _ => []).
Proof.
  unfold webhookBody. eapply runs_bind; [apply runs_GetByTransactionID|]. intros a.
  eapply runs_bind; [apply runs_wrap_err, runs_applyProviderOutcome|]. intros [o a'].
  by apply runs_dropping, runs_ret.
Qed.

(** ** The commands *)

Section commands.
Context `{UC : UnicodeCase} {W : Type} `{RT : Runtime W} `{SQL : PaymentSQL W}.
Context `{EJ : JSON PaymentEventData} `{Laws : !PaymentSQLLaws W}.
Context (s : paymentCommandService W).

Notation plain m := (runs [] m (fun _ => [])).

(** The calls of a provider, and those of the lock, are runs. *)
Definition provider_runs (p : PaymentProvider W) : Prop :=
  (forall i m, plain (ProviderCreatePayment p i m)) /\
  (forall i m, plain (ProviderCreateWithdrawal p i m)) /\
  (forall i r, plain (ProviderRefundPayment p i r)) /\
  (forall payload signature, plain (ParseWebhook p payload signature)).
Definition lock_runs (l : Lock W) : Prop :=
  (forall k v x d t, plain (AcquireLock l k v x d t)) /\ (forall k v, plain (ReleaseLock l k v)).
Definition service_runs : Prop :=
  lock_runs (locker s) /\ forall name p, providerRegistry s name = Ok p -> provider_runs p.

Context (Hs : service_runs).

Lemma plain_holdingPayment {A} key lockValue (busy body : method W A) :
  plain busy -> plain body -> plain (holdingPayment s key lockValue busy body).
Proof.
  destruct Hs as [[Ha Hr] _]. intros Hb Hm. unfold holdingPayment.
  eapply runs_bind; [apply Ha|]. intros []; [|done].
  apply plain_defer; [|done]. apply plain_ignoreError, Hr.
Qed.

(** A provider that the registry knows. *)
Lemma runs_lookup {A} held name (f : PaymentProvider W -> method W A) result :
  (forall p, provider_runs p -> runs held (f p) result) ->
  runs held (lift (providerRegistry s name) ≫= f) result.
Proof.
  destruct Hs as [_ Hp]. intros Hf w live. unfold mbind, method_bind, lift.
  destruct (providerRegistry s name) as [p|e|why] eqn:E; [|apply drop_held..].
  by apply (Hf p (Hp _ _ E)).
Qed.

(** A computation that makes an aggregate, which the first step creates. *)
Lemma runs_created {A} (r : result PaymentIntentAggregate) (f : PaymentIntentAggregate -> method W A) result :
  (forall a, r = Ok a -> forall w live, payment_step_ (w, live) (w, a :: live)) ->
  (forall a, runs [a] (f a) result) -> runs [] (lift r ≫= f) result.
Proof.
  intros Hr Hf w live. unfold mbind, method_bind, lift. destruct r as [a|e|why]; [|done..].
  specialize (Hf a w live). specialize (Hr a eq_refl w live).
  destruct (f a w) as [[x|e|why] w1]; by eapply rtc_l.
Qed.

Lemma plain_CreatePayment ctx transactionID req : plain (CreatePayment s ctx transactionID req).
Proof.
  unfold CreatePayment. eapply runs_bind; [apply plain_lift|]. intros credit.
  eapply runs_bind; [apply plain_lift|]. intros fee. apply runs_clock. intros t Ht.
  apply runs_created.
  { intros a [=Ha%map_err_Ok] w live. by eapply step_topUp. }
  intros a. apply runs_lookup. intros p (Hp & _).
  eapply runs_bind; [apply runs_save|]. intros a1. unfold chargePayment.
  eapply runs_bind; [apply runs_paymentSnapshot|]. intros i.
  eapply runs_bind; [apply runs_orMarkCreateFailed, Hp|]. intros creation.
  eapply runs_bind; [apply runs_applyProviderOutcome|]. intros [o a2].
  by apply runs_dropping, runs_ret.
Qed.

Lemma plain_CreateWithdrawal ctx transactionID req : plain (CreateWithdrawal s ctx transactionID req).
Proof.
  unfold CreateWithdrawal. eapply runs_bind; [apply plain_lift|]. intros debit.
  eapply runs_bind; [apply plain_lift|]. intros fee. cbv zeta. case_decide; [apply runs_raise|].
  apply runs_clock. intros t Ht. apply runs_created.
  { intros a Ha%map_err_Ok w live. by eapply step_withdrawal. }
  intros a. eapply runs_bind; [apply runs_save|]. intros a1.
  eapply runs_bind; [apply runs_paymentSnapshot|]. intros i. by apply runs_dropping, runs_ret.
Qed.

Lemma plain_payoutBody transactionID : plain (payoutBody s transactionID).
Proof.
  unfold payoutBody. eapply runs_bind; [apply runs_GetByTransactionID|]. intros a.
  case_decide; [by apply runs_dropping, runs_ret|].
  apply runs_lookup. intros p (_ & Hp & _).
  eapply runs_bind; [apply runs_paymentSnapshot|]. intros i.
  eapply runs_bind; [apply runs_orMarkCreateFailed, Hp|]. intros creation.
  eapply runs_bind; [apply runs_applyProviderOutcome|]. intros [o a2].
  by apply runs_dropping, runs_ret.
Qed.

Lemma plain_ProcessPendingWithdrawals lockValue : plain (ProcessPendingWithdrawals s lockValue).
Proof.
  unfold ProcessPendingWithdrawals.
  eapply runs_bind; [apply plain_ListPendingWithdrawals|]. intros items.
  apply plain_range. intros a. case_decide; [by apply runs_ret|].
  apply plain_ignoreError, plain_holdingPayment; [by apply runs_ret|apply plain_payoutBody].
Qed.

Lemma runs_attempt (m : method W PaymentIntentAggregate) :
  runs [] m (fun a => [a]) -> runs [] (attempt m) (fun o => option_list o).
Proof.
  intros H w live. specialize (H w live). unfold attempt. by destruct (m w) as [[a|e|why] w1].
Qed.

Lemma runs_findPaymentAggregate provider res :
  runs [] (findPaymentAggregate provider res) (fun a => [a]).
Proof.
  unfold findPaymentAggregate. eapply runs_bind with (mid := fun o => option_list o).
  { case_decide; [apply runs_attempt, runs_GetByTransactionID|by apply runs_ret]. }
  intros [a|]; [by apply runs_ret|]. eapply runs_bind with (mid := fun o => option_list o).
  { case_decide; [apply runs_attempt, runs_GetByExternalRef|by apply runs_ret]. }
  intros [a|]; [by apply runs_ret|apply runs_raise].
Qed.

Lemma plain_ProcessWebhook lockValue req : plain (ProcessWebhook s lockValue req).
Proof.
  unfold ProcessWebhook. apply runs_lookup. intros p (_ & _ & _ & Hp).
  eapply runs_bind; [apply Hp|]. intros webhook. destruct (PaymentWebhook.Ignored webhook); [by apply runs_ret|].
  eapply runs_bind; [apply runs_findPaymentAggregate|]. intros a. apply runs_dropping.
  apply plain_holdingPayment; [apply runs_raise|apply plain_webhookBody].
Qed.

Lemma plain_refundBody req : plain (refundBody s req).
Proof.
  unfold refundBody. eapply runs_bind; [apply runs_GetByTransactionID|]. intros a.
  destruct (negb _); [apply runs_raise|]. case_decide; [by apply runs_dropping, runs_ret|].
  case_decide; [apply runs_raise|]. apply runs_lookup. intros p (_ & _ & Hp & _).
  eapply runs_bind; [apply runs_paymentSnapshot|]. intros i.
  eapply runs_bind; [apply runs_beside, Hp|]. intros refund.
  eapply runs_bind; [apply runs_wrap_err, runs_applyProviderOutcome|]. intros [o a2].
  by apply runs_dropping, runs_ret.
Qed.

Lemma plain_RefundPayment lockValue req : plain (RefundPayment s lockValue req).
Proof.
  unfold RefundPayment. destruct req as [req|]; [|apply runs_raise].
  eapply runs_bind; [apply plain_lift|]. intros req'.
  apply plain_holdingPayment; [apply runs_raise|apply plain_refundBody].
Qed.
End commands.
