(* ===== verification/PaymentMemory.v ===== *)
(** * Payments in memory

    An instance of what the model of payments takes from outside: tables, a
    clock and locks in one value. It shows that the laws can hold; the witnesses
    are evaluated on it, with the mock provider. *)

From stdpp Require Import prelude strings gmap sorting.
From S2P Require Import Prelude GoStrings Database Event ActorContext Redis Locks.
From S2P Require Import LedgerEntity LedgerService PaymentEvents PaymentIntent PaymentAggregate.
From S2P Require Import LedgerMessaging LedgerTransport PaymentStore PaymentProviders.
From S2P Require Import PaymentService.
Import PaymentService.

(** ** The state *)

Record MemoryPayments := mkMemoryPayments {
  clockNanos : positive;
  heldLocks : gmap string string;
  contents : PaymentTables
}.
Definition setContents (t : PaymentTables) (s : MemoryPayments) : MemoryPayments :=
  mkMemoryPayments (clockNanos s) (heldLocks s) t.
Definition setLocks (l : gmap string string) (s : MemoryPayments) : MemoryPayments :=
  mkMemoryPayments (clockNanos s) l (contents s).

#[export] Instance MemoryPaymentsRuntime : Runtime MemoryPayments := {|
  now s := Zpos (clockNanos s);
  elapse d s := mkMemoryPayments (clockNanos s + Z.to_pos d) (heldLocks s) (contents s);
  Int63n_draw _ _ := 0
|}.

(** An event is written as its name. *)
#[export] Instance PaymentEventNames : JSON PaymentEventData := {|
  Marshal d := Ok (event_name d);
  Unmarshal _ _ := Err (Errorf "json: not read" [])
|}.

Definition memoryLock : Lock MemoryPayments := mkLock
  (fun key value _ _ _ s =>
     match heldLocks s !! key with
     | Some _ => (Err redisNil, s)
     | None => (Ok true, setLocks (<[key := value]> (heldLocks s)) s)
     end)
  (fun key value s =>
     if decide (heldLocks s !! key = Some value) then (Ok true, setLocks (delete key (heldLocks s)) s)
     else (Ok false, s)).

(** ** The statements *)

Definition duplicateKey : error :=
  Errorf "ERROR: duplicate key value violates unique constraint (SQLSTATE 23505)" [].

#[local] Instance created_dec : RelDecision (fun m m' : PaymentIntentModel =>
  PaymentIntentModel.CreatedAt m <= PaymentIntentModel.CreatedAt m').
Proof. intros m m'. apply _. Defined.
Definition oldestFirst (l : list PaymentIntentModel) : list PaymentIntentModel :=
  merge_sort (fun m m' => PaymentIntentModel.CreatedAt m <= PaymentIntentModel.CreatedAt m') l.

Definition rowsWhere (f : PaymentIntentModel -> bool) (t : PaymentTables) : list PaymentIntentModel :=
  (filter (fun x => f x.2 = true) (map_to_list (intentRows t))).*2.

Lemma rowsWhere_spec f t m : m ∈ rowsWhere f t <-> exists id, intentRows t !! id = Some m /\ f m = true.
Proof.
  unfold rowsWhere. rewrite list_elem_of_fmap. split.
  - intros ([id x] & -> & [Hf Hx]%list_elem_of_filter). exists id.
    split; [by apply elem_of_map_to_list|done].
  - intros (id & Hm & Hf). exists (id, m). split; [done|]. apply list_elem_of_filter.
    split; [done|by apply elem_of_map_to_list].
Qed.

Definition hasRef (provider ref : string) (m : PaymentIntentModel) : bool :=
  bool_decide (PaymentIntentModel.Provider m = provider /\ PaymentIntentModel.ExternalRef m = Some ref).
Definition inStatus (workflow status : string) (m : PaymentIntentModel) : bool :=
  bool_decide (PaymentIntentModel.Workflow m = workflow /\ PaymentIntentModel.Status m = status).

#[export] Instance MemoryPaymentSQL : PaymentSQL MemoryPayments := {|
  insertPaymentIntent m s :=
    match intentRows (contents s) !! PaymentIntentModel.TransactionID m with
    | Some _ => (Err duplicateKey, s)
    | None => (Ok tt, setContents (setIntentRow (PaymentIntentModel.TransactionID m) m (contents s)) s)
    end;
  updatePaymentIntent id u s :=
    match intentRows (contents s) !! id with
    | Some m => (Ok 1, setContents (setIntentRow id (updatedRow u (Zpos (clockNanos s)) m) (contents s)) s)
    | None => (Ok 0, s)
    end;
  selectPaymentIntent id s := (Ok (intentRows (contents s) !! id), s);
  selectPaymentIntentByRef provider ref s :=
    (Ok (head (rowsWhere (hasRef provider ref) (contents s))), s);
  selectPaymentIntents workflow status limit s :=
    (Ok (take (Z.to_nat limit) (oldestFirst (rowsWhere (inStatus workflow status) (contents s)))), s);
  insertProcessedPaymentEvent e s :=
    if decide (processedKey e ∈ processedKeys (contents s)) then (Err duplicateKey, s)
    else (Ok tt, setContents (addProcessed [e] (contents s)) s);
  insertPaymentOutbox row s := (Ok tt, setContents (addPaymentOutbox [row] (contents s)) s);
  paymentErrorText e := match e with Sentinel n => n | Errorf f _ => f end;
  paymentBeginError _ := None;
  paymentCommitError _ := None;
  paymentRollback before after := setContents (contents before) after
|}.

(** What a limit leaves out is no older. *)
Lemma take_oldest n l m :
  (0 < n)%nat -> m ∈ l ->
  m ∈ take n (oldestFirst l) \/ length (take n (oldestFirst l)) = n /\
    forall m', m' ∈ take n (oldestFirst l) -> PaymentIntentModel.CreatedAt m' <= PaymentIntentModel.CreatedAt m.
Proof.
  intros Hn Hm. assert (Hin : m ∈ oldestFirst l) by (unfold oldestFirst; by rewrite merge_sort_Permutation).
  rewrite <- (take_drop n (oldestFirst l)) in Hin. apply elem_of_app in Hin as [Hin|Hin]; [by left|]. right.
  split.
  - rewrite length_take. destruct (decide (length (oldestFirst l) <= n)%nat) as [Hle|]; [|lia].
    rewrite drop_ge in Hin by done. by apply not_elem_of_nil in Hin.
  - intros m' Hm'.
    assert (Hs : StronglySorted (fun m m' => PaymentIntentModel.CreatedAt m <= PaymentIntentModel.CreatedAt m')
      (oldestFirst l)).
    { apply Sorted_StronglySorted; [intros x y z; lia|]. apply Sorted_merge_sort. intros x y. lia. }
    rewrite <- (take_drop n (oldestFirst l)) in Hs. by eapply StronglySorted_app_1_elem_of in Hs.
Qed.

#[export] Instance MemoryPaymentSQLLaws : PaymentSQLLaws MemoryPayments.
Proof.
  refine {| paymentTables := contents |}; unfold effect.
  - intros m s. cbn. destruct (intentRows _ !! _) eqn:E; [by split; [intros n|]|]. split; [done|].
    exists m. split_and!; [|done|done].
    exists (PaymentIntentModel.CreatedAt m), (PaymentIntentModel.UpdatedAt m). by destruct m.
  - intros id u s. cbn. destruct (intentRows (contents s) !! id) as [m|] eqn:E; [|done]. by exists (Zpos (clockNanos s)).
  - done.
  - intros provider ref s. cbn. split; [done|].
    destruct (rowsWhere (hasRef provider ref) (contents s)) as [|m l] eqn:E; cbn.
    + intros id m Hm Hp Hr. assert (Hin : m ∈ rowsWhere (hasRef provider ref) (contents s)).
      { apply rowsWhere_spec. exists id. split; [done|]. by apply bool_decide_eq_true. }
      rewrite E in Hin. by apply not_elem_of_nil in Hin.
    + assert (Hin : m ∈ rowsWhere (hasRef provider ref) (contents s)) by (rewrite E; by left).
      apply rowsWhere_spec in Hin as (id & Hm & Hf%bool_decide_eq_true). by exists id.
  - intros workflow status limit s Hl. cbn. split_and!; [done| | |].
    + rewrite length_take. lia.
    + intros m Hm%elem_of_take. destruct Hm as (i & Hm%list_elem_of_lookup_2 & _).
      unfold oldestFirst in Hm. rewrite merge_sort_Permutation in Hm.
      apply rowsWhere_spec in Hm as (id & Hm & Hf%bool_decide_eq_true). by exists id.
    + intros id m Hm Hw Hst.
      assert (Hin : m ∈ rowsWhere (inStatus workflow status) (contents s)).
      { apply rowsWhere_spec. exists id. split; [done|]. by apply bool_decide_eq_true. }
      destruct (take_oldest (Z.to_nat limit) _ m ltac:(lia) Hin) as [?|[Hlen Hold]]; [by left|].
      right. split; [lia|done].
  - intros e s. cbn. case_decide; [by split; [intros n|]|done].
  - done.
  - done.
  - done.
Defined.

(** ** A service with the mock provider *)

Module PaymentSample.
#[local] Existing Instance caseless_unicode.

(** A webhook of the mock provider: its payload is the id of the payment. *)
#[export] Instance MockPayloads : MockProvider.MockJSON := {|
  MockProvider.DecodeWebhookPayload payload :=
    Ok (MockProvider.webhookPayload.mk ("evt:" +:+ payload) "payment.succeeded" payload ""
          PaymentStatusSuccess 0 "")
|}.

Definition mock : PaymentProvider MemoryPayments :=
  paymentProviderAdapter (MockProvider.NewProvider "secret").
Definition registry : PaymentProviderRegistry MemoryPayments :=
  paymentProviderRegistry
    (Providers.Register (MockProvider.NewProvider "secret") Providers.NewProviderRegistry).
Definition service : paymentCommandService MemoryPayments :=
  mkPaymentCommandService memoryLock registry (StripeFeePolicy.mk 290 30) 1.

Definition emptyTables : PaymentTables := mkPaymentTables ∅ [] [].
Definition empty : MemoryPayments := mkMemoryPayments 5 ∅ emptyTables.
Definition actor : option Actor := Some (WithActor (mkActor "acc-1" "a@b.c" "user")).

Definition topUp : CreatePaymentRequest.t := CreatePaymentRequest.mk "mock" 1000 "usd" ∅.
Definition payout (provider : string) : CreateWithdrawalRequest.t :=
  CreateWithdrawalRequest.mk provider 1000 "usd" {["destination_account" := "bank-1"]}.
Definition webhook (id : string) : ProcessWebhookRequest.t :=
  ProcessWebhookRequest.mk "mock" "secret" id.

Definition created : MemoryPayments := (CreatePayment service actor "tx-1" topUp empty).2.
Definition settled : MemoryPayments := (ProcessWebhook service "lock-1" (webhook "tx-1") created).2.

(** While the call of this provider lasts, a webhook settles the payment. *)
Definition racing : PaymentProvider MemoryPayments :=
  mkPaymentProvider "mock"
    (fun i m => ProcessWebhook service "lock-1" (webhook (PaymentIntent.TransactionID i));;
       ProviderCreatePayment mock i m)
    (ProviderCreateWithdrawal mock) (ProviderRefundPayment mock) (ParseWebhook mock).
Definition raced : paymentCommandService MemoryPayments :=
  mkPaymentCommandService memoryLock (fun _ => Ok racing) (StripeFeePolicy.mk 290 30) 1.
Definition lost : MemoryPayments := (CreatePayment raced actor "tx-1" topUp empty).2.

(** A withdrawal for a provider that is not registered, then another. *)
Definition stuckFirst : MemoryPayments := (CreateWithdrawal service actor "wd-1" (payout "nobody") empty).2.
Definition waiting : MemoryPayments :=
  (CreateWithdrawal service actor "wd-2" (payout "mock") (elapse 10 stuckFirst)).2.

(** The payment as it is created, and once it is stored. *)
Definition newPayment : PaymentIntentAggregate := Eval vm_compute in
  match NewProviderTopUpAggregate 5 "tx-1" "mock" 1000 59 "usd" "acc-1" ∅ 5 with
  | Ok a => a
  | _ => PaymentIntentAggregate.mk zeroRoot None []
  end.
Definition newIntent : PaymentIntent :=
  PaymentIntent.mk PaymentWorkflowTopUp "tx-1" "mock" "" "" 1000 59 1059 "USD" "provider:mock"
    "" "acc-1" PaymentStatusCreating 5 5.
Definition storedPayment : PaymentIntentAggregate := Eval vm_compute in
  match saveInTransaction newPayment empty with (Ok a, _) => a | _ => newPayment end.
Definition stored : MemoryPayments := (saveInTransaction newPayment empty).2.
End PaymentSample.
