(* ===== verification/PaymentServiceTheorems.v ===== *)
(** * The payment commands: results

    Settlements are unique however requests interleave; what a save and a
    webhook do; that refunds need a payment that succeeded; and that the
    creation of a payment overwrites what a webhook stored meanwhile. *)

From stdpp Require Import prelude strings gmap.
From S2P Require Import Prelude GoStrings Database Event ActorContext Redis Locks.
From S2P Require Import LedgerEntity LedgerService PaymentEvents PaymentIntent PaymentAggregate.
From S2P Require Import PaymentAggregateInv PaymentAggregateSpec PaymentAggregateTheorems.
From S2P Require Import LedgerMessaging LedgerTransport PaymentStore PaymentStoreSpec.
From S2P Require Import PaymentProviders PaymentService PaymentSystem PaymentMemory.
Import PaymentService.

Section theorems.
Context `{UC : UnicodeCase} {W : Type} `{RT : Runtime W} `{SQL : PaymentSQL W}.
Context `{EJ : JSON PaymentEventData} `{Laws : !PaymentSQLLaws W}.
Implicit Types (a b : PaymentIntentAggregate) (p q : PaymentIntent) (w : W).
Implicit Types (s : paymentCommandService W).

(** ** Interleavings *)

(** C1: However loads, creations, outcomes and saves of requests interleave,
    with no lock and on aggregates that may be stale, a payment has at most one
    announcement of each settlement in the outbox: a success, a refund and a
    chargeback are each told to the ledger at most once. *)
Theorem payments_settled_once w w' live id name :
  tables_ok (paymentTables w) -> rtc payment_step_ (w, []) (w', live) ->
  name ∈ settlementEvents ->
  (length (announcements (paymentTables w') id name) <= 1)%nat.
Proof.
  intros Ht Hs. apply (settled_once (paymentTables w') live).
  by apply (payments_ok_steps _ _ Hs).
Qed.

Inductive payment_command : Type :=
  | CmdCreatePayment (ctx : option Actor) (id : string) (req : CreatePaymentRequest.t)
  | CmdCreateWithdrawal (ctx : option Actor) (id : string) (req : CreateWithdrawalRequest.t)
  | CmdProcessWebhook (lockValue : string) (req : ProcessWebhookRequest.t)
  | CmdRefundPayment (lockValue : string) (req : option RefundPaymentRequest.t)
  | CmdProcessPendingWithdrawals (lockValue : string -> string).

(** A command, without its response. *)
Definition runCommand s (c : payment_command) : method W unit :=
  match c with
  | CmdCreatePayment ctx id req => CreatePayment s ctx id req;; mret tt
  | CmdCreateWithdrawal ctx id req => CreateWithdrawal s ctx id req;; mret tt
  | CmdProcessWebhook lockValue req => ProcessWebhook s lockValue req;; mret tt
  | CmdRefundPayment lockValue req => RefundPayment s lockValue req;; mret tt
  | CmdProcessPendingWithdrawals lockValue => ProcessPendingWithdrawals s lockValue
  end.

(** C2: Every command of the service is a run of the steps of the system,
    whatever aggregates other requests hold, whatever it returns; so the
    invariant holds after it and the uniqueness of settlements covers it. *)
Theorem payment_commands_are_runs s c w live :
  service_runs s ->
  rtc payment_step_ (w, live) ((runCommand s c w).2, live) /\
  (payments_ok (paymentTables w) live -> payments_ok (paymentTables (runCommand s c w).2) live).
Proof.
  intros Hs. assert (H : runs [] (runCommand s c) (fun _ => [])).
  { destruct c; [..|by apply plain_ProcessPendingWithdrawals];
      (apply runs_bind with (fun _ => []); [|by intros _; apply runs_ret]).
    - by apply plain_CreatePayment.
    - by apply plain_CreateWithdrawal.
    - by apply plain_ProcessWebhook.
    - by apply plain_RefundPayment. }
  specialize (H w live). cbn in H.
  assert (Hr : rtc payment_step_ (w, live) ((runCommand s c w).2, live))
    by by destruct (runCommand s c w) as [[u|e|why] w'].
  split; [done|]. by apply (payments_ok_steps _ _ Hr).
Qed.

(** ** Saving and loading *)

(** C3: A payment that was saved is the one that is loaded: when the
    transaction of a save succeeds and the row can be read, the load returns the
    intent that was saved - with the times of its row, which for a new payment
    are its own - at the version of the aggregate, with nothing pending. *)
Theorem payment_saved_is_loaded a p w a' w' o w'' :
  payment_wf a p -> root_wf (PaymentIntentAggregate.root a) -> intents_ok (paymentTables w) ->
  storedRef (PaymentIntent.ExternalRef p) = PaymentIntent.ExternalRef p ->
  saveInTransaction a w = (Ok a', w') ->
  selectPaymentIntent (PaymentIntent.TransactionID p) w' = (Ok o, w'') ->
  exists b c u,
    GetByTransactionID (PaymentIntent.TransactionID p) w' = (Ok b, w'') /\
    intentOf b = Some (PaymentIntent.set_Times c u p) /\
    (baseVersion (PaymentIntentAggregate.root a) = 0 -> PaymentIntent.set_Times c u p = p) /\
    CurrentVersion (PaymentIntentAggregate.root b) = CurrentVersion (PaymentIntentAggregate.root a) /\
    PendingOutboxEvents b = [].
Proof.
  intros Hwf Hroot Hok Href Hsave Hsel. unfold saveInTransaction in Hsave.
  pose proof (WithPaymentTransaction_run (SavePayment a) w) as H. rewrite Hsave in H.
  destruct (SavePayment_run a p w a' w' Hwf (intents_ok_keyed _ Hok) H) as [-> Hst].
  destruct Hst as (m & rows & _ & _ & (c & u & Hu & -> & Hb) & Ht).
  assert (Hc : c <> 0).
  { case_decide; destruct Hb as [Hn Hc]; [destruct Hc as [-> _]; apply Hwf|].
    destruct Hc as [Hm0 ->]. by destruct (Hok _ _ Hm0) as (p0 & v0 & (c0 & u0 & Hc0 & _ & ->) & _). }
  pose proof (selectPaymentIntent_law (PaymentIntent.TransactionID p) w') as Hl. unfold effect in Hl.
  rewrite Hsel, Ht in Hl. cbn [intentRows addPaymentOutbox setIntentRow addProcessed] in Hl.
  rewrite lookup_insert_eq in Hl. destruct Hl as [_ ->].
  set (v := CurrentVersion (PaymentIntentAggregate.root a)) in *.
  exists (restoredPayment (reread c u p) (restoredVersion v)), c, u.
  assert (Hv : restoredVersion v = v).
  { unfold restoredVersion. rewrite decide_False; [done|]. unfold v.
    rewrite CurrentVersion_wf by done. destruct Hroot as (_ & Hb0 & _). lia. }
  split_and!.
  - unfold GetByTransactionID, loadPayment, mapping, wrap_err, First, mbind, method_bind. rewrite Hsel.
    cbn -[toPaymentIntentAggregate]. unfold lift.
    by rewrite (toPaymentIntentAggregate_row _ c u p) by (done || by apply (payment_wf_ok a)).
  - unfold restoredPayment, reread. cbn. rewrite Href. by destruct p.
  - intros Hb0. rewrite decide_True in Hb by done. destruct Hb as (_ & -> & ->). by destruct p.
  - cbn. exact Hv.
  - done.
Qed.

(** ** Webhooks *)

Lemma applyProviderOutcome_run a p res url emit w r w' :
  payment_wf a p -> intents_keyed (paymentTables w) ->
  applyProviderOutcome a res url emit w = (r, w') ->
  match r with
  | Ok (out, a') => exists t mut b,
      t <> 0 /\ outcomeSpec t a p res url emit t = (Ok mut, b) /\
      paymentProviderOutcome.Duplicate out = PaymentIntentMutation.Duplicate mut /\
      intentOf a' = intentOf b /\
      if PaymentIntentMutation.Persist mut
      then stores b (outcomeIntent t p res t) (paymentTables w) (paymentTables w')
      else paymentTables w' = paymentTables w
  | _ => paymentTables w' = paymentTables w
  end.
Proof.
  intros Hwf Hk Hrun. unfold applyProviderOutcome, mbind, method_bind, lift, after in Hrun. cbn in Hrun.
  pose proof (paymentNow_law w) as Ht. rewrite (ApplyProviderOutcome_run _ a p) in Hrun by done.
  destruct (outcomeSpec (now w) a p res url emit (now w)) as [[mut|e|why] b] eqn:Hs; cbn in Hrun;
    [|by injection Hrun as <- <-..].
  destruct (PaymentIntentMutation.Persist mut) eqn:Hp; cbn in Hrun.
  2: { injection Hrun as <- <-. exists (now w), mut, b. by rewrite Hp. }
  destruct (integrationEvents _) as [evs|e|why]; cbn in Hrun; [|by injection Hrun as <- <-..].
  unfold saveInTransaction in Hrun. pose proof (WithPaymentTransaction_run (SavePayment b) w) as H.
  destruct (WithPaymentTransaction (SavePayment b) w) as [[a'|e|why] w1]; cbn in Hrun;
    [|by injection Hrun as <- <-..].
  injection Hrun as <- <-. exists (now w), mut, b. rewrite Hp. split_and!; [done..| |].
  - apply outcomeSpec_Ok in Hs as (_ & _ & ->).
    destruct (SavePayment_run (outcomeState (now w) a p res url emit (now w))
      (outcomeIntent (now w) p res (now w)) w a' w1) as [-> _]; try done.
    apply payment_wf_recordAll.
    by apply (payment_wf_same_root _ _ _ (payment_wf_outcome _ a p res _ Hwf Ht)).
  - apply outcomeSpec_Ok in Hs as (_ & _ & ->).
    apply (SavePayment_run (outcomeState (now w) a p res url emit (now w))
      (outcomeIntent (now w) p res (now w)) w a' w1); try done.
    apply payment_wf_recordAll.
    by apply (payment_wf_same_root _ _ _ (payment_wf_outcome _ a p res _ Hwf Ht)).
Qed.

(** What a webhook does under its lock. *)
Lemma webhookBody_run id res w r w' :
  intents_ok (paymentTables w) -> webhookBody id res w = (r, w') ->
  match r with
  | Ok resp => exists m a p t mut b,
      intentRows (paymentTables w) !! id = Some m /\ loads m a /\ payment_wf a p /\
      outcomeSpec t a p res "" false t = (Ok mut, b) /\
      ProcessWebhookResponse.Duplicate resp = PaymentIntentMutation.Duplicate mut /\
      ProcessWebhookResponse.Status resp = PaymentIntent.Status (outcomeIntent t p res t) /\
      if PaymentIntentMutation.Persist mut
      then stores b (outcomeIntent t p res t) (paymentTables w) (paymentTables w')
      else paymentTables w' = paymentTables w
  | _ => paymentTables w' = paymentTables w
  end.
Proof.
  intros Hok. unfold webhookBody, mbind, method_bind, wrap_err.
  destruct (GetByTransactionID_run id w Hok) as [Hw Hm].
  destruct (GetByTransactionID id w) as [[a|e|why] w1]; cbn in Hw, Hm;
    [|by intros [= <- <-]..].
  destruct Hm as (m & Hm & Ha). destruct (loads_wf m a Ha) as (p & Hwf & _).
  assert (Hk : intents_keyed (paymentTables w1)) by (rewrite Hw; by apply intents_ok_keyed).
  destruct (applyProviderOutcome a res "" false w1) as [[[out a']|e|why] w2] eqn:Hrun;
    apply (applyProviderOutcome_run a p) in Hrun; try done; cbn; intros [= <- <-];
    rewrite Hw in Hrun; [|done..].
  destruct Hrun as (t & mut & b & Ht & Hs & Hd & Hi & Hst).
  exists m, a, p, t, mut, b. split_and!; try done. cbn. unfold Status. rewrite Hi.
  apply outcomeSpec_Ok in Hs as (_ & _ & ->). by rewrite outcomeState_intent.
Qed.

(** C4: Under its lock, a webhook does to the stored payment what
    [outcomeSpec] says of the result that the provider reports, in one
    transaction - the intent, its outbox rows and its processed events - and
    tells what it did; when it fails, and when there is nothing to store, the
    tables are as they were. *)
Theorem webhook_applies_outcome id res w r w' :
  intents_ok (paymentTables w) -> webhookBody id res w = (r, w') ->
  match r with
  | Ok resp => exists m a p t mut b,
      intentRows (paymentTables w) !! id = Some m /\ loads m a /\ payment_wf a p /\
      outcomeSpec t a p res "" false t = (Ok mut, b) /\
      ProcessWebhookResponse.Duplicate resp = PaymentIntentMutation.Duplicate mut /\
      ProcessWebhookResponse.Status resp = PaymentIntent.Status (outcomeIntent t p res t) /\
      if PaymentIntentMutation.Persist mut
      then stores b (outcomeIntent t p res t) (paymentTables w) (paymentTables w')
      else paymentTables w' = paymentTables w
  | _ => paymentTables w' = paymentTables w
  end.
Proof. apply webhookBody_run. Qed.


(** ** Refunds *)

(** The service with another registry of providers. *)
Definition withRegistry (r : PaymentProviderRegistry W) s : paymentCommandService W :=
  mkPaymentCommandService (locker s) r (feePolicy s) (withdrawalBatchSize s).

(** C5: A refund asks no provider for money unless the stored payment has
    succeeded: in every other status, and where there is no such payment, what
    the refund does is the same whatever the providers would do, and the tables
    stay as they are. *)
Theorem refund_needs_success s registry req w :
  intents_ok (paymentTables w) ->
  (forall m, intentRows (paymentTables w) !! RefundPaymentRequest.TransactionID req = Some m ->
     PaymentIntentModel.Status m <> PaymentStatusSuccess) ->
  refundBody (withRegistry registry s) req w = refundBody s req w /\
  paymentTables (refundBody s req w).2 = paymentTables w.
Proof.
  intros Hok Hst. unfold refundBody, mbind, method_bind.
  destruct (GetByTransactionID_run (RefundPaymentRequest.TransactionID req) w Hok) as [Hw Hm].
  destruct (GetByTransactionID _ w) as [[a|e|why] w1]; cbn in Hw, Hm; [|done..].
  destruct Hm as (m & Hm & Ha). destruct (loads_wf m a Ha) as (p & Hwf & Hs & _).
  assert (Hne : Status a <> PaymentStatusSuccess).
  { unfold Status. rewrite (pwf_intent _ _ Hwf). cbn. rewrite Hs. by apply Hst. }
  destruct (negb _); [done|]. case_decide; [done|]. rewrite !decide_True by done. by split.
Qed.

(** ** A payment that is overwritten *)

(** A payment that is not stored as succeeded, while the ledger was told that
    it has. *)
Definition overwritten (id : string) t : Prop :=
  exists m, intentRows t !! id = Some m /\ PaymentIntentModel.Status m = PaymentStatusPending /\
    settlementKey (PaymentIntentModel.Provider m) EventPaymentSucceeded id ∈ processedKeys t.

Lemma stores_fresh a p t t' e :
  NoDup (processedKeys t) -> stores a p t t' -> e ∈ PendingProcessedEvents a ->
  processedKey (storedProcessed e) ∉ processedKeys t.
Proof.
  intros Hn (m & rows & _ & Hd & _ & ->) He Hk. specialize (Hd Hn). unfold processedKeys in Hd. cbn in Hd.
  rewrite fmap_app in Hd. apply NoDup_app in Hd as (_ & Hd & _). apply (Hd _ Hk).
  apply list_elem_of_fmap. exists (storedProcessed e). split; [done|]. by apply list_elem_of_fmap_2.
Qed.

(** A success moves a pending payment, with a processed event. *)
Lemma pending_succeeds t a p res url emit mut b :
  PaymentIntent.Status p = PaymentStatusPending -> outcomeNext res = PaymentStatusSuccess ->
  outcomeSpec t a p res url emit t = (Ok mut, b) ->
  PaymentIntentMutation.Persist mut = true /\
  processedRecord p EventPaymentSucceeded t ∈ PendingProcessedEvents b.
Proof.
  intros Hst Hres (_ & -> & ->)%outcomeSpec_Ok.
  assert (Hsc : PaymentTransition.StateChanged (outcomeTransition p res) = true)
    by (unfold outcomeTransition, providerTransition; cbn; rewrite Hst, Hres; by vm_compute).
  unfold outcomeMutation, outcomeState, PendingProcessedEvents. rewrite processed_recordAll.
  unfold outcomeProcessed. rewrite Hres, Hsc. split; [done|]. cbn. apply elem_of_app. right. by left.
Qed.

(** C6: The creation of a payment stores what the provider's answer says over
    what is stored by then, without a lock and without a look at the version:
    when a webhook settles the payment while the call of the provider lasts, and
    the answer is the usual one that the payment is pending, the creation
    reports success and leaves the payment overwritten. *)
Theorem create_overwrites_settlement provider metadata a p w c w2 resp w' :
  payment_wf a p -> PaymentIntent.Status p = PaymentStatusCreating ->
  ProviderCreatePayment provider p metadata w = (Ok c, w2) ->
  outcomeNext (PaymentCreation.Result c) = PaymentStatusPending ->
  intents_keyed (paymentTables w2) ->
  settlementKey (PaymentIntent.Provider p) EventPaymentSucceeded (PaymentIntent.TransactionID p)
    ∈ processedKeys (paymentTables w2) ->
  chargePayment provider metadata a w = (Ok resp, w') ->
  overwritten (PaymentIntent.TransactionID p) (paymentTables w') /\
  CreatePaymentResponse.Status resp = PaymentStatusPending.
Proof.
  intros Hwf Hst Hcall Hres Hkeyed Hk. unfold chargePayment, paymentSnapshot, Snapshot, orMarkCreateFailed.
  rewrite (pwf_intent _ _ Hwf). unfold mbind, method_bind. cbn [mret method_ret]. rewrite Hcall.
  destruct (applyProviderOutcome a (PaymentCreation.Result c) (PaymentCreation.CheckoutURL c) true w2)
    as [[[out a']|e|why] w3] eqn:Hrun; apply (applyProviderOutcome_run a p) in Hrun; try done.
  intros [= <- <-]. destruct Hrun as (t & mut & b & Ht & Hs & _ & Hi & Hsave).
  assert (Hsc : PaymentTransition.StateChanged (outcomeTransition p (PaymentCreation.Result c)) = true)
    by (unfold outcomeTransition, providerTransition; cbn; rewrite Hst, Hres; by vm_compute).
  pose proof (outcome_status t p _ t Hsc) as Hq. rewrite Hres in Hq.
  apply outcomeSpec_Ok in Hs as (_ & -> & ->).
  destruct (afterProvider_terms t p (outcomeNext (PaymentCreation.Result c))
    (PaymentProviderResult.ExternalRef (PaymentCreation.Result c)) t) as (Hid & Hpr & _).
  assert (Hp : PaymentIntentMutation.Persist (outcomeMutation p (PaymentCreation.Result c)) = true).
  { unfold outcomeMutation, transitionChanges. rewrite Hres, Hsc. cbn.
    unfold outcomeTransition, providerTransition in *. cbn in *. rewrite Hres in *.
    apply bool_decide_eq_true in Hsc. by rewrite bool_decide_false by tauto. }
  rewrite Hp in Hsave. destruct Hsave as (m & rows & _ & _ & (u1 & u2 & _ & -> & _) & Htab).
  split; [|cbn; unfold Status; by rewrite Hi, outcomeState_intent; cbn].
  rewrite Htab. eexists. cbn. change (PaymentIntent.TransactionID (outcomeIntent t p _ t))
    with (PaymentIntent.TransactionID p). rewrite lookup_insert_eq. split; [done|]. cbn.
  split; [exact Hq|]. unfold processedKeys. cbn. rewrite fmap_app. apply elem_of_app. by left.
Qed.

(** C7: An overwritten payment stays as it is: whatever success a webhook
    reports for it is refused, because the processed event of the settlement is
    there, and the tables stay as they are; nor is it refunded. *)
Theorem overwritten_payment_is_stuck s id res req w :
  tables_ok (paymentTables w) -> overwritten id (paymentTables w) ->
  outcomeNext res = PaymentStatusSuccess -> RefundPaymentRequest.TransactionID req = id ->
  (is_ok (webhookBody id res w).1 = false /\ paymentTables (webhookBody id res w).2 = paymentTables w) /\
  (is_ok (refundBody s req w).1 = false /\ paymentTables (refundBody s req w).2 = paymentTables w).
Proof.
  intros Ht (m & Hm & Hst & Hk) Hres Hreq. pose proof (tables_intents _ Ht) as Hok.
  assert (Hload : forall a, loads m a -> exists p, payment_wf a p /\
    PaymentIntent.Status p = PaymentStatusPending /\
    PaymentIntent.TransactionID p = id /\ PaymentIntent.Provider p = PaymentIntentModel.Provider m).
  { intros a Ha. destruct (loads_wf m a Ha) as (p & Hwf & Hsp & Hid & Hpr & _). exists p.
    rewrite Hsp, Hid. split_and!; [done|done|by apply (intents_ok_keyed _ Hok)|done]. }
  split.
  - destruct (webhookBody id res w) as [r w'] eqn:Hrun. apply webhookBody_run in Hrun; [|done]. cbn.
    destruct r as [resp|e|why]; [|done..]. exfalso.
    destruct Hrun as (m' & a & p & t & mut & b & Hm' & Ha & Hwf & Hs & _ & _ & Hsave).
    assert (m' = m) as -> by congruence. destruct (Hload a Ha) as (p' & Hwf' & Hsp & Hid & Hpr).
    assert (p' = p) as -> by (pose proof (pwf_intent _ _ Hwf); pose proof (pwf_intent _ _ Hwf'); congruence).
    apply pending_succeeds in Hs as [Hp Hin]; [|done..]. rewrite Hp in Hsave.
    apply (stores_fresh _ _ _ _ _ (tables_processed _ Ht) Hsave) in Hin. apply Hin.
    rewrite processedKey_record; [|apply Hwf|by left]. by rewrite Hpr, Hid.
  - unfold refundBody, mbind, method_bind. rewrite Hreq.
    destruct (GetByTransactionID_run id w Hok) as [Hw Hm'].
    destruct (GetByTransactionID _ w) as [[a|e|why] w1]; cbn in Hw, Hm'; [|done..].
    destruct Hm' as (m' & Hm' & Ha). assert (m' = m) as -> by congruence.
    destruct (Hload a Ha) as (p & Hwf & Hsp & _).
    assert (Hsa : Status a = PaymentStatusPending) by (unfold Status; by rewrite (pwf_intent _ _ Hwf)).
    destruct (negb _); [done|]. rewrite Hsa. done.
Qed.

(** ** Withdrawals that starve *)

(** A pending withdrawal in the row [id]. *)
Definition pendingWithdrawal t (id : string) (m : PaymentIntentModel) : Prop :=
  intentRows t !! id = Some m /\ PaymentIntentModel.Workflow m = PaymentWorkflowWithdrawal /\
  PaymentIntentModel.Status m = PaymentStatusCreating.

Definition unknownProvider s (m : PaymentIntentModel) : Prop :=
  exists e, providerRegistry s (PaymentIntentModel.Provider m) = Err e.

(** The lock leaves the tables alone. *)
Definition lock_beside s : Prop :=
  (forall k v x d t w, paymentTables (AcquireLock (locker s) k v x d t w).2 = paymentTables w) /\
  (forall k v w, paymentTables (ReleaseLock (locker s) k v w).2 = paymentTables w).

Lemma payout_unknown s id m w :
  intents_ok (paymentTables w) -> intentRows (paymentTables w) !! id = Some m -> unknownProvider s m ->
  paymentTables (payoutBody s id w).2 = paymentTables w.
Proof.
  intros Hok Hm [e He]. unfold payoutBody, mbind, method_bind.
  destruct (GetByTransactionID_run id w Hok) as [Hw Ha].
  destruct (GetByTransactionID id w) as [[a|e'|why] w1]; cbn in Hw, Ha; [|done..].
  destruct Ha as (m' & Hm' & Ha). assert (m' = m) as -> by congruence.
  destruct (loads_wf m a Ha) as (p & Hwf & _ & _ & Hpr & _).
  case_decide; [done|]. unfold lift, Provider. rewrite (pwf_intent _ _ Hwf). cbn. by rewrite Hpr, He.
Qed.

Lemma held_tables {A} s key v (busy body : method W A) w t :
  lock_beside s -> (forall w, paymentTables w = t -> paymentTables (busy w).2 = t) ->
  (forall w, paymentTables w = t -> paymentTables (body w).2 = t) ->
  paymentTables w = t -> paymentTables (holdingPayment s key v busy body w).2 = t.
Proof.
  intros [Ha Hr] Hb Hm Hw. unfold holdingPayment, mbind, method_bind.
  specialize (Ha key v (30 * Second) (100 * Millisecond) (3 * Second) w).
  destruct (AcquireLock _ _ _ _ _ _ w) as [[[]|e|why] w1]; cbn in Ha; rewrite Hw in Ha; [|by apply Hb|done..].
  unfold defer. specialize (Hm w1 Ha). destruct (body w1) as [r w2]. cbn in Hm.
  specialize (Hr key v w2). unfold ignoreError.
  destruct (ReleaseLock _ _ _ w2) as [[u|e|why] w3]; cbn in *; congruence.
Qed.

Lemma range_tables {A} (l : list A) (body : A -> method W unit) t w :
  (forall x w, x ∈ l -> paymentTables w = t -> paymentTables (body x w).2 = t) ->
  paymentTables w = t -> paymentTables (range l body w).2 = t.
Proof.
  revert w. induction l as [|x l IH]; intros w Hb Hw; [done|]. cbn. unfold mbind, method_bind.
  pose proof (Hb x w ltac:(by left) Hw) as Hx. destruct (body x w) as [[u|e|why] w1]; [|done..].
  apply IH; [|done]. intros y w2 Hy. apply Hb. by right.
Qed.

Lemma toPaymentIntentAggregates_loads t at_ l items :
  intents_ok t -> (forall m, m ∈ l -> exists id, intentRows t !! id = Some m) ->
  toPaymentIntentAggregates at_ l = Ok items -> Forall2 loads l items.
Proof.
  intros Hok. revert items. induction l as [|m l IH]; intros items Hl; [by intros [= <-]|].
  cbn [toPaymentIntentAggregates].
  destruct (Hl m ltac:(by left)) as (id & Hm). destruct (loads_row t id m at_ Hok Hm) as (a & -> & Ha). cbn.
  destruct (toPaymentIntentAggregates at_ l) as [rest|e|why]; [|done..]. intros [= <-].
  constructor; [done|]. apply IH; [|done]. intros x Hx. apply Hl. by right.
Qed.

(** A list as long as its limit, with an element that is younger. *)
Lemma full_of_older (S l : list PaymentIntentModel) m limit :
  NoDup S -> limit <= Z.of_nat (length S) -> Z.of_nat (length l) <= limit -> m ∈ l -> m ∉ S ->
  (forall x, x ∈ S -> x ∈ l) -> False.
Proof.
  intros Hd Hs Hl Hm Hn Hin. assert (Hle : (length (m :: S) <= length l)%nat).
  { apply submseteq_length, NoDup_submseteq; [by constructor|].
    intros x [->|Hx]%elem_of_cons; [done|by apply Hin]. }
  cbn in Hle. lia.
Qed.

(** C8: The job that pays out withdrawals takes the oldest of them, and a
    withdrawal for a provider that is not registered - which its creation does
    not check - is never taken off: once there are as many as the batch has
    room for, and older than every other, the job changes nothing any more and
    no withdrawal is paid out. *)
Theorem unknown_providers_starve_withdrawals s lockValue w (stuck : list PaymentIntentModel) :
  intents_ok (paymentTables w) -> lock_beside s -> NoDup stuck ->
  effectiveWithdrawalBatchSize s <= Z.of_nat (length stuck) ->
  (forall m, m ∈ stuck -> unknownProvider s m /\ exists id, pendingWithdrawal (paymentTables w) id m) ->
  (forall id m x, pendingWithdrawal (paymentTables w) id m -> m ∉ stuck -> x ∈ stuck ->
     PaymentIntentModel.CreatedAt x < PaymentIntentModel.CreatedAt m) ->
  paymentTables (ProcessPendingWithdrawals s lockValue w).2 = paymentTables w.
Proof.
  intros Hok Hlock Hd Hlen Hstuck Hold.
  assert (Hpos : 0 < effectiveWithdrawalBatchSize s)
    by (unfold effectiveWithdrawalBatchSize; case_decide; lia).
  unfold ProcessPendingWithdrawals, ListPendingWithdrawals. rewrite decide_False by lia.
  set (n := effectiveWithdrawalBatchSize s) in *. unfold mapping, wrap_err, mbind, method_bind.
  pose proof (selectPaymentIntents_law PaymentWorkflowWithdrawal PaymentStatusCreating n w Hpos) as Hl.
  unfold effect in Hl. destruct (selectPaymentIntents _ _ n w) as [[l|e|why] w1]; cbn;
    [|by destruct Hl|done]. destruct Hl as (Hw & Hn & Hrows & Hrest). unfold lift.
  assert (Hall : forall m, m ∈ l -> m ∈ stuck).
  { intros m Hm. destruct (decide (m ∈ stuck)) as [Hin|Hnin]; [done|].
    destruct (Hrows m Hm) as (id & Hid & Hwf & Hst). exfalso.
    apply (full_of_older stuck l m n); try done. intros x Hx.
    destruct (Hstuck x Hx) as (_ & idx & Hix & Hwx & Hsx).
    destruct (Hrest idx x Hix Hwx Hsx) as [?|[_ Hyoung]]; [done|].
    specialize (Hyoung m Hm). specialize (Hold id m x (conj Hid (conj Hwf Hst)) Hnin Hx). lia. }
  destruct (toPaymentIntentAggregates (now w1) l) as [items|e|why] eqn:Hitems; cbn; [|done..].
  apply (toPaymentIntentAggregates_loads (paymentTables w)) in Hitems; [|done|].
  2: { intros m Hm. destruct (Hrows m Hm) as (id & Hid & _). by exists id. }
  apply range_tables; [|done]. intros a w2 Ha Hw2. case_decide; [done|].
  apply list_elem_of_lookup_1 in Ha as (i & Ha).
  destruct (Forall2_lookup_r _ _ _ _ _ Hitems Ha) as (m & Hm & Hload).
  apply list_elem_of_lookup_2 in Hm. destruct (Hstuck m (Hall m Hm)) as (Hun & id & Hid & _).
  destruct (loads_wf m a Hload) as (p & Hwf & _ & Hpid & _).
  assert (Hida : TransactionID a = id).
  { unfold TransactionID. rewrite (pwf_intent _ _ Hwf). cbn. rewrite Hpid.
    by apply (intents_ok_keyed _ Hok). }
  assert (Hp : forall w3, paymentTables w3 = paymentTables w ->
    paymentTables (processPendingWithdrawal s (lockValue (TransactionID a)) (TransactionID a) w3).2
      = paymentTables w).
  { intros w3 Hw3. unfold processPendingWithdrawal. apply held_tables; [done|done| |done].
    intros w4 Hw4. rewrite Hida. rewrite (payout_unknown s id m w4); by rewrite ?Hw4. }
  specialize (Hp w2 Hw2). unfold ignoreError.
  by destruct (processPendingWithdrawal _ _ _ w2) as [[u|e|why] w3].
Qed.

(** ** Errors *)

(** What the gRPC server answers for a webhook of a payment that is not
    stored: the sentinel is formatted with [%v], and not found again. *)
Lemma unknown_payment_is_internal provider res w e w' :
  findPaymentAggregate provider res w = (Err e, w') -> mapGRPCError e = Internal.
Proof.
  unfold findPaymentAggregate, attempt, mbind, method_bind.
  repeat first [case_decide | match goal with |- context [GetByTransactionID ?i ?w1] =>
    destruct (GetByTransactionID i w1) as [[a|e'|why] w2] end
    | match goal with |- context [GetByExternalRef ?p ?i ?w1] =>
    destruct (GetByExternalRef p i w1) as [[a|e'|why] w2] end]; cbn; try done;
    repeat first [case_decide | match goal with |- context [GetByExternalRef ?p ?i ?w1] =>
      destruct (GetByExternalRef p i w1) as [[a'|e''|why'] w3] end]; cbn; try done;
    by intros [= <- _].
Qed.
End theorems.

(** ** Witnesses *)

Module WithMock.
#[local] Existing Instance caseless_unicode.
Import PaymentSample.

Lemma empty_ok : tables_ok emptyTables.
Proof. constructor; try constructor. intros id m H. discriminate H. Qed.

Lemma plain_rtc {A} (m : method MemoryPayments A) w live :
  runs [] m (fun _ => []) -> rtc payment_step_ (w, live) ((m w).2, live).
Proof. intros H. specialize (H w live). by destruct (m w) as [[x|e|why] w']. Qed.

(** A provider whose calls leave the state alone. *)
Lemma pure_provider (p : PaymentProvider MemoryPayments) :
  (forall i m w, (ProviderCreatePayment p i m w).2 = w) ->
  (forall i m w, (ProviderCreateWithdrawal p i m w).2 = w) ->
  (forall i r w, (ProviderRefundPayment p i r w).2 = w) ->
  (forall payload signature w, (ParseWebhook p payload signature w).2 = w) -> provider_runs p.
Proof. intros H1 H2 H3 H4. split_and!; intros ? ?; apply plain_tables; intros w; congruence. Qed.

Lemma memory_lock_runs : lock_runs memoryLock.
Proof.
  split; intros; apply plain_tables; intros w; cbn; [by destruct (heldLocks w !! k)|by case_decide].
Qed.

Lemma mock_runs : provider_runs mock.
Proof.
  apply pure_provider.
  - done.
  - intros i m w. cbn. unfold adapterCreateWithdrawal, mbind, method_bind. cbn.
    unfold MockProvider.CreateWithdrawal. by case_decide.
  - intros i r w. cbn. unfold adapterRefundPayment, mbind, method_bind. cbn.
    unfold MockProvider.RefundPayment. cbv zeta. by case_decide.
  - intros payload signature w. cbn. unfold adapterParseWebhook, mbind, method_bind. cbn.
    unfold MockProvider.VerifyWebhook. case_decide; [done|]. unfold mbind, method_bind. cbn.
    unfold MockProvider.ParseEvent, mbind, method_bind, lift. cbn.
    case_decide; [|done]. destruct (map_err _ _) as [n|e|why]; [done| |done]. by destruct (errors_Is _ _).
Qed.

Lemma sample_runs : service_runs service.
Proof.
  split; [exact memory_lock_runs|]. intros name p. cbn. unfold registry, paymentProviderRegistry.
  unfold Providers.Get, Providers.Register, Providers.NewProviderRegistry. cbn [Providers.Name].
  destruct (_ !! _) as [q|] eqn:E; cbn; [|done]. intros [= <-].
  apply (lookup_insert_Some (M := gmap string)) in E as [[_ <-]|[_ E]]; [exact mock_runs|discriminate E].
Qed.

Lemma racing_runs : service_runs raced.
Proof.
  split; [exact memory_lock_runs|]. intros name p [= <-]. destruct mock_runs as (H1 & H2 & H3 & H4).
  split_and!; [|done..]. intros i m. cbn.
  apply runs_bind with (fun _ => []); [apply plain_ProcessWebhook, sample_runs|intros _; apply H1].
Qed.

Lemma created_then_settled : rtc payment_step_ (empty, []) (settled, []).
Proof.
  transitivity (created, [] : list PaymentIntentAggregate); apply plain_rtc.
  - apply plain_CreatePayment, sample_runs.
  - apply plain_ProcessWebhook, sample_runs.
Qed.

Lemma reached_ok w : rtc payment_step_ (empty, []) (w, []) -> tables_ok (contents w).
Proof.
  intros Hr. refine (proj1 (payments_ok_steps _ _ Hr _)). split; [exact empty_ok|constructor].
Qed.

Lemma created_ok : tables_ok (contents created).
Proof. apply reached_ok, plain_rtc, plain_CreatePayment, sample_runs. Qed.

Lemma lost_ok : tables_ok (contents lost).
Proof. apply reached_ok, plain_rtc, plain_CreatePayment, racing_runs. Qed.

Lemma newIntent_ok : intent_ok newIntent.
Proof.
  constructor; try (by vm_compute).
  constructor; try (by vm_compute); apply (bool_decide_unpack _); by vm_compute.
Qed.
Lemma newPayment_wf : payment_wf newPayment newIntent.
Proof. destruct newIntent_ok. by constructor. Qed.
Lemma storedPayment_wf : payment_wf storedPayment newIntent.
Proof. destruct newIntent_ok. by constructor. Qed.

Lemma newPayment_root : root_wf (PaymentIntentAggregate.root newPayment).
Proof.
  split; [reflexivity|]. split; [discriminate|]. split; [by intros [|i] e [= <-]|].
  apply Forall_cons. split; [reflexivity|apply Forall_nil_2].
Qed.

Lemma payments_settled_once_witness :
  (exists w, rtc payment_step_ (empty, []) (w, []) /\
     length (announcements (paymentTables w) "tx-1" EventPaymentSucceeded) = 1%nat) /\
  (length (announcements (paymentTables settled) "tx-1" EventPaymentSucceeded) <= 1)%nat.
Proof.
  split; [exists settled; split; [exact created_then_settled|vm_compute; reflexivity]|].
  apply (payments_settled_once (Laws := MemoryPaymentSQLLaws) empty settled [] "tx-1" EventPaymentSucceeded empty_ok
    created_then_settled). left.
Defined.

Lemma payment_commands_are_runs_witness :
  service_runs service /\
  rtc payment_step_ (empty, [])
    ((runCommand service (CmdCreatePayment actor "tx-1" topUp) empty).2, []) /\
  PaymentIntentModel.Status <$>
    intentRows (contents (runCommand service (CmdCreatePayment actor "tx-1" topUp) empty).2) !! "tx-1"
    = Some PaymentStatusPending.
Proof.
  split; [exact sample_runs|]. split; [|vm_compute; reflexivity].
  exact (proj1 (payment_commands_are_runs (Laws := MemoryPaymentSQLLaws) service _ empty [] sample_runs)).
Defined.

Lemma payment_saved_is_loaded_witness :
  exists b c u,
    GetByTransactionID "tx-1" stored = (Ok b, stored) /\
    intentOf b = Some (PaymentIntent.set_Times c u newIntent) /\ PendingOutboxEvents b = [].
Proof.
  assert (Hroot : root_wf (PaymentIntentAggregate.root newPayment)) by exact newPayment_root.
  assert (Hsave : saveInTransaction newPayment empty = (Ok storedPayment, stored)) by (vm_compute; reflexivity).
  destruct (payment_saved_is_loaded (Laws := MemoryPaymentSQLLaws) newPayment newIntent empty storedPayment stored
    (intentRows (contents stored) !! "tx-1") stored newPayment_wf Hroot (tables_intents _ empty_ok) eq_refl
    Hsave eq_refl) as (b & c & u & Hb & Hi & _ & _ & Hp).
  exists b, c, u. exact (conj Hb (conj Hi Hp)).
Defined.

Definition paid : PaymentProviderResult :=
  PaymentProviderResult.mk "tx-1" "evt:tx-1" "payment.succeeded" PaymentStatusSuccess 0 "" "".

Lemma webhook_applies_outcome_witness :
  exists resp w' m,
    webhookBody "tx-1" paid created = (Ok resp, w') /\
    ProcessWebhookResponse.Status resp = PaymentStatusSuccess /\
    intentRows (paymentTables created) !! "tx-1" = Some m.
Proof.
  assert (Hok : intents_ok (contents created)) by exact (tables_intents _ created_ok).
  destruct (webhookBody "tx-1" paid created) as [r w'] eqn:Hrun.
  pose proof (webhook_applies_outcome (Laws := MemoryPaymentSQLLaws) "tx-1" paid created r w' Hok Hrun) as H.
  assert (Hst : match r with Ok resp => ProcessWebhookResponse.Status resp | _ => EmptyString end = PaymentStatusSuccess).
  { change r with (r, w').1. rewrite <- Hrun. vm_compute. reflexivity. }
  destruct r as [resp|e|why]; [|discriminate..]. 
  destruct H as (m & _ & _ & _ & _ & _ & Hm & _). exists resp, w', m. exact (conj eq_refl (conj Hst Hm)).
Defined.

Definition refund : RefundPaymentRequest.t := RefundPaymentRequest.mk "mock" "tx-1" "by mistake".

Lemma refund_needs_success_witness :
  refundBody (withRegistry (fun _ => Ok racing) service) refund created = refundBody service refund created /\
  is_ok (refundBody service refund created).1 = false.
Proof.
  split; [|vm_compute; reflexivity].
  assert (Hst : forall m, intentRows (paymentTables created) !! "tx-1" = Some m ->
    PaymentIntentModel.Status m <> PaymentStatusSuccess).
  { assert (H : PaymentIntentModel.Status <$> intentRows (contents created) !! "tx-1" = Some PaymentStatusPending)
      by (vm_compute; reflexivity).
    intros m Hm Hs. change (paymentTables created) with (contents created) in Hm. rewrite Hm in H.
    cbn in H. rewrite Hs in H. discriminate H. }
  exact (proj1 (refund_needs_success (Laws := MemoryPaymentSQLLaws) service (fun _ => Ok racing) refund created
    (tables_intents _ created_ok) Hst)).
Defined.

(** The state in which the call of the racing provider ends. *)
Definition settledMeanwhile : MemoryPayments :=
  (ProviderCreatePayment racing newIntent ∅ stored).2.

Lemma create_overwrites_settlement_witness :
  overwritten "tx-1" (contents lost) /\
  exists resp, CreatePayment raced actor "tx-1" topUp empty = (Ok resp, lost) /\
    CreatePaymentResponse.Status resp = PaymentStatusPending.
Proof.
  destruct (ProviderCreatePayment racing newIntent ∅ stored) as [[c|e|why] w2] eqn:Hcall;
    [|vm_compute in Hcall; discriminate Hcall..].
  assert (Hw2 : w2 = settledMeanwhile) by (unfold settledMeanwhile; rewrite Hcall; reflexivity).
  assert (Hc : outcomeNext (PaymentCreation.Result c) = PaymentStatusPending).
  { assert (H : match (ProviderCreatePayment racing newIntent ∅ stored).1 with
                | Ok c => outcomeNext (PaymentCreation.Result c) = PaymentStatusPending
                | _ => False
                end) by (vm_compute; reflexivity).
    rewrite Hcall in H. exact H. }
  destruct (CreatePayment raced actor "tx-1" topUp empty) as [[resp|e|why] w'] eqn:Hcreate;
    [|vm_compute in Hcreate; discriminate Hcreate..].
  assert (Hlost : w' = lost) by (unfold lost; rewrite Hcreate; reflexivity).
  assert (Hcharge : chargePayment racing ∅ storedPayment stored = (Ok resp, w')).
  { rewrite <- Hcreate. vm_compute. reflexivity. }
  assert (Hkeyed : intents_keyed (paymentTables w2)).
  { rewrite Hw2. intros id m. apply (map_Forall_lookup_1 (fun id m => PaymentIntentModel.TransactionID m = id)).
    apply (bool_decide_unpack _). vm_compute. exact I. }
  assert (Hk : settlementKey "mock" EventPaymentSucceeded "tx-1" ∈ processedKeys (paymentTables w2)).
  { rewrite Hw2. apply (bool_decide_unpack _). vm_compute. exact I. }
  destruct (create_overwrites_settlement (Laws := MemoryPaymentSQLLaws) racing ∅ storedPayment newIntent stored
    c w2 resp w' storedPayment_wf eq_refl Hcall Hc Hkeyed Hk Hcharge) as [Ho Hs].
  rewrite <- Hlost. split; [exact Ho|]. exists resp. exact (conj eq_refl Hs).
Defined.

Lemma lost_overwritten : overwritten "tx-1" (contents lost).
Proof.
  assert (H : PaymentIntentModel.Provider <$> intentRows (contents lost) !! "tx-1" = Some "mock" /\
              PaymentIntentModel.Status <$> intentRows (contents lost) !! "tx-1" = Some PaymentStatusPending)
    by (split; vm_compute; reflexivity).
  destruct (intentRows (contents lost) !! "tx-1") as [m|] eqn:Hm; [|by destruct H].
  destruct H as [[= Hp] [= Hs]]. exists m. split; [done|]. split; [done|]. rewrite Hp.
  apply (bool_decide_unpack _). vm_compute. exact I.
Qed.

Lemma overwritten_payment_is_stuck_witness :
  overwritten "tx-1" (contents lost) /\
  is_ok (webhookBody "tx-1" paid lost).1 = false /\ is_ok (refundBody service refund lost).1 = false.
Proof.
  split; [exact lost_overwritten|].
  destruct (overwritten_payment_is_stuck (Laws := MemoryPaymentSQLLaws) service "tx-1" paid refund lost
    lost_ok lost_overwritten eq_refl eq_refl) as [[Hw _] [Hr _]].
  split; [exact Hw|exact Hr].
Defined.

Lemma later_runs w : rtc payment_step_ (w, []) (elapse 10 w, []).
Proof. by apply rtc_once, step_other. Qed.

Lemma waiting_ok : intents_ok (contents waiting).
Proof.
  apply tables_intents, reached_ok. unfold waiting. etrans; [|by apply plain_rtc, plain_CreateWithdrawal].
  etrans; [|apply later_runs]. unfold stuckFirst. apply plain_rtc, plain_CreateWithdrawal.
Qed.

Lemma memory_lock_beside : lock_beside service.
Proof.
  split; intros; cbn; [by destruct (heldLocks w !! k)|by case_decide].
Qed.

(** The row of the withdrawal that nobody can pay out. *)
Definition stuckRow : PaymentIntentModel := Eval vm_compute in
  match intentRows (contents waiting) !! "wd-1" with
  | Some m => m
  | None => PaymentIntentModel.mk "" "" "" None None 0 0 0 "" "" None None "" 0 0 0
  end.

Lemma unknown_providers_starve_withdrawals_witness :
  (exists m, pendingWithdrawal (contents waiting) "wd-2" m /\ m <> stuckRow) /\
  paymentTables (ProcessPendingWithdrawals service (fun id => id) waiting).2 = paymentTables waiting.
Proof.
  assert (Hrow : forall id m, intentRows (contents waiting) !! id = Some m ->
    m = stuckRow \/ PaymentIntentModel.CreatedAt stuckRow < PaymentIntentModel.CreatedAt m).
  { intros id m. apply (map_Forall_lookup_1 (fun _ m => m = stuckRow \/
      PaymentIntentModel.CreatedAt stuckRow < PaymentIntentModel.CreatedAt m)).
    apply (bool_decide_unpack _). vm_compute. exact I. }
  split.
  { eexists. split; [split; [vm_compute; reflexivity|split; reflexivity]|discriminate]. }
  assert (Hlen : effectiveWithdrawalBatchSize service <= Z.of_nat (length [stuckRow])) by discriminate.
  assert (Hstuck : forall m, m ∈ [stuckRow] -> unknownProvider service m /\
    exists id, pendingWithdrawal (contents waiting) id m).
  { intros m ->%list_elem_of_singleton. split; [eexists; vm_compute; reflexivity|].
    exists "wd-1". split; [vm_compute; reflexivity|split; reflexivity]. }
  assert (Hold : forall id m x, pendingWithdrawal (contents waiting) id m -> m ∉ [stuckRow] ->
    x ∈ [stuckRow] -> PaymentIntentModel.CreatedAt x < PaymentIntentModel.CreatedAt m).
  { intros id m x (Hm & _ & _) Hn ->%list_elem_of_singleton.
    destruct (Hrow id m Hm) as [->|?]; [exfalso; apply Hn; by left|assumption]. }
  exact (unknown_providers_starve_withdrawals (UC := caseless_unicode) (Laws := MemoryPaymentSQLLaws)
    service (fun id => id) waiting [stuckRow] waiting_ok memory_lock_beside (NoDup_singleton _) Hlen Hstuck Hold).
Defined.
End WithMock.
