(* ===== verification/StripeTheorems.v ===== *)
(** * Webhooks of Stripe: results

    What two sequences of webhooks do to a payment, from the signed payload to
    the tables: an attempt that is declined before another one pays, and a
    refund of a part of the charge. *)

From stdpp Require Import prelude strings gmap.
From S2P Require Import Prelude GoStrings Database Event ActorContext Redis Locks.
From S2P Require Import LedgerEntity LedgerService PaymentEvents PaymentIntent PaymentAggregate.
From S2P Require Import PaymentAggregateInv PaymentAggregateSpec PaymentAggregateTheorems.
From S2P Require Import LedgerMessaging LedgerTransport PaymentStore PaymentStoreSpec.
From S2P Require Import PaymentProviders StripeProvider PaymentService PaymentSystem.
From S2P Require Import PaymentMemory PaymentServiceTheorems.
Import PaymentService.

(** A closed decidable proposition. *)
Ltac decided := apply (bool_decide_unpack _); vm_compute; exact I.

(** ** From a payload to a result *)

Section payloads.
Context `{UC : UnicodeCase} {W : Type} `{API : Stripe.StripeAPI W}.
Implicit Types (pr : Stripe.Provider.t) (w : W).

(** The payload is signed, and read as the webhook [wh]; [event] is what it
    holds. *)
Definition stripeTells pr (payload signature : string) (event : Stripe.Event.t) w wh w' : Prop :=
  Stripe.ConstructEvent payload signature (Stripe.Provider.webhookSecret pr) w = (Ok event, w') /\
  adapterParseWebhook (Stripe.stripeProvider pr) payload signature w = (Ok wh, w').

Definition eventObject (event : Stripe.Event.t) : string := default "" (Stripe.Event.Raw event).

Lemma stripeTells_parsed pr payload signature event w wh w' :
  stripeTells pr payload signature event w wh w' ->
  exists w0, let ev := Providers.WebhookEvent.mk Stripe.ProviderName (Stripe.Event.ID event)
    (Stripe.Event.Type_ event) (list_to_map [("api_version", Stripe.Event.APIVersion event);
                                             ("object", eventObject event)]) in
  match Stripe.ParseEvent ev w0 with
  | (Ok res, w1) => w1 = w' /\ PaymentWebhook.Ignored wh = false /\
      outcomeNext (PaymentWebhook.Result wh) =
        NormalizePaymentStatusOrPending
          (NormalizePaymentStatusOrPending (Providers.PaymentResult.Status res)) /\
      PaymentProviderResult.Amount (PaymentWebhook.Result wh) = Providers.PaymentResult.Amount res
  | (Err e, w1) => errors_Is e "ErrWebhookEventIgnored" = true
  | (Panic _, _) => False
  end.
Proof.
  intros [Hc Hw]. unfold adapterParseWebhook, Stripe.stripeProvider in Hw. cbn in Hw.
  unfold Stripe.VerifyWebhook, wrap_err, mbind, method_bind, raise in Hw.
  case_decide; [done|]. rewrite Hc in Hw. cbn in Hw. exists w'. cbv zeta. unfold eventObject.
  destruct (Stripe.ParseEvent _ w') as [[res|e|why] w1]; [|by destruct (errors_Is e _)|done].
  by injection Hw as <- <-.
Qed.

Lemma object_lookup (v o : string) :
  lookupString (list_to_map [("api_version", v); ("object", o)]) "object" = o.
Proof. reflexivity. Qed.

Ltac open_event H :=
  unfold Stripe.ParseEvent in H;
  cbn [Providers.WebhookEvent.EventType Providers.WebhookEvent.Attributes Providers.WebhookEvent.EventID] in H.
Ltac open_object H :=
  unfold Stripe.parsed, mbind, method_bind, lift in H; rewrite object_lookup in H.

(** A declined attempt is told as a failure of the payment. *)
Lemma declined_fails pr payload signature event attempt w wh w' :
  Stripe.Event.Type_ event = "payment_intent.payment_failed" ->
  Stripe.DecodeIntent (eventObject event) = Ok attempt ->
  stripeTells pr payload signature event w wh w' ->
  outcomeNext (PaymentWebhook.Result wh) = PaymentStatusFailed.
Proof.
  intros Ht Hd (w0 & H)%stripeTells_parsed. cbv zeta in H. open_event H. rewrite Ht in H. rewrite decide_False in H by decided.
  rewrite decide_True in H by (right; left). open_object H.
  rewrite Hd in H. cbn in H. destruct H as (_ & _ & -> & _). reflexivity.
Qed.

Lemma paid_session_succeeds pr payload signature event session w wh w' :
  Stripe.Event.Type_ event = "checkout.session.completed" ->
  Stripe.DecodeSession (eventObject event) = Ok session ->
  EqualFold (TrimSpace (Stripe.CheckoutSession.PaymentStatus session)) "paid" = true ->
  stripeTells pr payload signature event w wh w' ->
  outcomeNext (PaymentWebhook.Result wh) = PaymentStatusSuccess.
Proof.
  intros Ht Hd Hp (w0 & H)%stripeTells_parsed. cbv zeta in H. open_event H. rewrite Ht in H. rewrite decide_True in H by left. open_object H.
  rewrite Hd in H. cbn in H. destruct H as (_ & _ & -> & _).
  unfold Stripe.stripeSessionStatus. rewrite !decide_False by discriminate. by rewrite Hp.
Qed.

(** A charge of which a part was refunded is told as a success, with the part
    as its amount. *)
Lemma partial_refund_succeeds pr payload signature event charge w wh w' :
  Stripe.Event.Type_ event = "charge.refunded" ->
  Stripe.DecodeCharge (eventObject event) = Ok charge ->
  Stripe.Charge.Status charge = "succeeded" -> Stripe.Charge.Refunded charge = false ->
  0 < Stripe.Charge.AmountRefunded charge -> stripeTells pr payload signature event w wh w' ->
  outcomeNext (PaymentWebhook.Result wh) = PaymentStatusSuccess /\
  PaymentProviderResult.Amount (PaymentWebhook.Result wh) = Stripe.Charge.AmountRefunded charge.
Proof.
  intros Ht Hd Hs Hr Ha (w0 & H)%stripeTells_parsed. cbv zeta in H. open_event H. rewrite Ht in H.
  rewrite decide_False in H by decided.
  rewrite decide_False in H by decided.
  rewrite decide_True in H by (right; right; left). open_object H.
  rewrite Hd in H. cbn in H. destruct H as (_ & _ & -> & ->).
  unfold Stripe.stripeChargeStatus, Stripe.stripeChargeResultAmount. rewrite Hs, Hr.
  split; [reflexivity|]. by rewrite decide_True.
Qed.
End payloads.

(** ** What the webhooks do to a payment *)

Section webhooks.
Context `{UC : UnicodeCase} {W : Type} `{RT : Runtime W} `{SQL : PaymentSQL W}.
Context `{EJ : JSON PaymentEventData} `{Laws : !PaymentSQLLaws W} `{API : Stripe.StripeAPI W}.
Implicit Types (pr : Stripe.Provider.t) (w : W).

(** What a webhook stores, where it stores anything, and what it answers. *)
Lemma webhook_moves id res w resp w' m :
  intents_ok (paymentTables w) -> webhookBody id res w = (Ok resp, w') ->
  intentRows (paymentTables w) !! id = Some m ->
  exists q mut, PaymentIntent.Status q = PaymentIntentModel.Status m /\
    ProcessWebhookResponse.Duplicate resp = PaymentIntentMutation.Duplicate mut /\
    mut = outcomeMutation q res /\
    ProcessWebhookResponse.Status resp = PaymentTransition.CurrentStatus (outcomeTransition q res) /\
    exists m', intentRows (paymentTables w') !! id = Some m' /\
      PaymentIntentModel.Status m' =
        if PaymentIntentMutation.Persist mut then ProcessWebhookResponse.Status resp
        else PaymentIntentModel.Status m.
Proof.
  intros Hok Hrun Hm. apply webhookBody_run in Hrun; [|done].
  destruct Hrun as (m0 & a & p & t & mut & b & Hm0 & Ha & Hwf & Hs & Hd & Hst & Hsave).
  assert (m0 = m) as -> by congruence. destruct (loads_wf m a Ha) as (p' & Hwf' & Hsp & Hid & _).
  assert (p' = p) as -> by (pose proof (pwf_intent _ _ Hwf); pose proof (pwf_intent _ _ Hwf'); congruence).
  apply outcomeSpec_Ok in Hs as (_ & -> & _).
  destruct (afterProvider_terms t p (outcomeNext res) (PaymentProviderResult.ExternalRef res) t)
    as (_ & _ & _ & _ & Hq).
  exists p, (outcomeMutation p res). split_and!; [done..|by rewrite Hst|].
  destruct (PaymentIntentMutation.Persist _).
  - destruct Hsave as (m' & rows & _ & _ & (c & u & _ & -> & _) & ->). eexists. cbn.
    change (PaymentIntent.TransactionID (outcomeIntent t p res t)) with (PaymentIntent.TransactionID p).
    rewrite Hid, (intents_ok_keyed _ Hok _ _ Hm), lookup_insert_eq. split; [done|]. cbn.
    rewrite Hst. reflexivity.
  - rewrite Hsave. by exists m.
Qed.

Lemma webhook_keeps_tables id res w :
  tables_ok (paymentTables w) -> tables_ok (paymentTables (webhookBody id res w).2).
Proof.
  intros Ht. pose proof (plain_webhookBody id res w []) as H.
  assert (Hr : rtc payment_step_ (w, []) ((webhookBody id res w).2, []))
    by by destruct (webhookBody id res w) as [[x|e|why] w'].
  refine (proj1 (payments_ok_steps _ _ Hr _)). by split.
Qed.

(** An attempt to pay that is declined; a checkout that is paid. *)
Definition declinedAttempt (event : Stripe.Event.t) : Prop :=
  Stripe.Event.Type_ event = "payment_intent.payment_failed" /\
  exists attempt, Stripe.DecodeIntent (eventObject event) = Ok attempt.
Definition paidCheckout (event : Stripe.Event.t) : Prop :=
  Stripe.Event.Type_ event = "checkout.session.completed" /\
  exists session, Stripe.DecodeSession (eventObject event) = Ok session /\
    EqualFold (TrimSpace (Stripe.CheckoutSession.PaymentStatus session)) "paid" = true.

(** A failure moves a pending payment; a success does not move a failed one. *)
Lemma pending_fails q res :
  PaymentIntent.Status q = PaymentStatusPending -> outcomeNext res = PaymentStatusFailed ->
  PaymentIntentMutation.Persist (outcomeMutation q res) = true /\
  PaymentTransition.CurrentStatus (outcomeTransition q res) = PaymentStatusFailed.
Proof.
  intros Hq Hn. unfold outcomeMutation, outcomeTransition, providerTransition. rewrite Hn, Hq.
  rewrite (bool_decide_true (payment_step _ _)) by decided. cbn.
  rewrite bool_decide_false by (intros [H _]; apply H; decided). split; reflexivity.
Qed.

Lemma failed_ignores_success q res :
  PaymentIntent.Status q = PaymentStatusFailed -> outcomeNext res = PaymentStatusSuccess ->
  PaymentIntentMutation.Duplicate (outcomeMutation q res) = true /\
  PaymentTransition.CurrentStatus (outcomeTransition q res) = PaymentStatusFailed.
Proof.
  intros Hq Hn. unfold outcomeMutation, outcomeTransition, providerTransition. rewrite Hn, Hq.
  rewrite (bool_decide_false (payment_step _ _)) by decided. cbn. rewrite decide_True by done.
  split; [|reflexivity]. by case_bool_decide.
Qed.

(** C9: A declined attempt to pay is final for the payment, though the
    customer can try again in the same checkout: when Stripe tells of the
    attempt and then that the checkout was paid, the second webhook is answered
    as a duplicate, and the payment stays failed. *)
Theorem declined_payment_is_lost pr id m payload1 signature1 declined w0 wh1 w r1 w1
    payload2 signature2 completed wh2 w2 r2 w3 :
  tables_ok (paymentTables w) -> intentRows (paymentTables w) !! id = Some m ->
  PaymentIntentModel.Status m = PaymentStatusPending ->
  declinedAttempt declined -> stripeTells pr payload1 signature1 declined w0 wh1 w ->
  webhookBody id (PaymentWebhook.Result wh1) w = (Ok r1, w1) ->
  paidCheckout completed -> stripeTells pr payload2 signature2 completed w1 wh2 w2 ->
  paymentTables w2 = paymentTables w1 ->
  webhookBody id (PaymentWebhook.Result wh2) w2 = (Ok r2, w3) ->
  ProcessWebhookResponse.Status r1 = PaymentStatusFailed /\
  ProcessWebhookResponse.Duplicate r2 = true /\
  exists m', intentRows (paymentTables w3) !! id = Some m' /\
    PaymentIntentModel.Status m' = PaymentStatusFailed.
Proof.
  intros Ht Hm Hst [Htd [attempt Hd]] Htell1 Hrun1 [Htp (session & Hsd & Hp)] Htell2 Hw2 Hrun2.
  pose proof (declined_fails _ _ _ _ _ _ _ _ Htd Hd Htell1) as Hn1.
  pose proof (paid_session_succeeds _ _ _ _ _ _ _ _ Htp Hsd Hp Htell2) as Hn2.
  pose proof (webhook_keeps_tables id (PaymentWebhook.Result wh1) w Ht) as Ht1.
  rewrite Hrun1 in Ht1. cbn [snd] in Ht1. rewrite <- Hw2 in Ht1.
  destruct (webhook_moves _ _ _ _ _ _ (tables_intents _ Ht) Hrun1 Hm)
    as (q1 & mut1 & Hq1 & _ & -> & Hr1 & m1 & Hm1 & Hs1).
  rewrite Hst in Hq1. destruct (pending_fails q1 _ Hq1 Hn1) as [Hp1 Hc1].
  rewrite Hp1 in Hs1. rewrite Hc1 in Hr1. split; [done|]. rewrite Hr1 in Hs1. rewrite <- Hw2 in Hm1.
  destruct (webhook_moves _ _ _ _ _ _ (tables_intents _ Ht1) Hrun2 Hm1)
    as (q2 & mut2 & Hq2 & Hdup & -> & Hr2 & m2 & Hm2 & Hs2).
  rewrite Hs1 in Hq2, Hs2. destruct (failed_ignores_success q2 _ Hq2 Hn2) as [Hd2 Hc2].
  rewrite Hd2 in Hdup. rewrite Hc2 in Hr2. split; [done|]. exists m2. split; [done|].
  rewrite Hs2, Hr2. clear. by destruct (PaymentIntentMutation.Persist _).
Qed.

(** A success is of the amount of the payment, or of none. *)
Lemma success_amount p amount currency :
  ValidateProviderResultForStatus p PaymentStatusSuccess amount currency = Ok tt ->
  amount = 0 \/ amount = PaymentIntent.ProviderAmount p.
Proof.
  unfold ValidateProviderResultForStatus. cbv zeta.
  assert (Hn : NormalizePaymentStatus PaymentStatusSuccess = PaymentStatusSuccess) by (vm_compute; reflexivity).
  rewrite Hn. rewrite (decide_False (P := PaymentStatusSuccess = "")) by discriminate.
  rewrite decide_False by (intros [H|H]; discriminate H). case_bool_decide; [done|]. intros _. lia.
Qed.

(** C10: A refund of a part of a charge, which Stripe tells as a refund of a
    charge that is not refunded in full, is read as a success of that part, and
    rejected as one with the wrong amount: the webhook fails, and the tables do
    not tell of the refund. *)
Theorem partial_refund_is_rejected pr id m payload signature event charge w0 wh w :
  tables_ok (paymentTables w) -> intentRows (paymentTables w) !! id = Some m ->
  Stripe.Event.Type_ event = "charge.refunded" ->
  Stripe.DecodeCharge (eventObject event) = Ok charge ->
  Stripe.Charge.Status charge = "succeeded" -> Stripe.Charge.Refunded charge = false ->
  0 < Stripe.Charge.AmountRefunded charge < PaymentIntentModel.ProviderAmount m ->
  stripeTells pr payload signature event w0 wh w ->
  is_ok (webhookBody id (PaymentWebhook.Result wh) w).1 = false /\
  paymentTables (webhookBody id (PaymentWebhook.Result wh) w).2 = paymentTables w.
Proof.
  intros Ht Hm Htype Hd Hs Hr [Ha Hlt] Htell.
  destruct (partial_refund_succeeds _ _ _ _ _ _ _ _ Htype Hd Hs Hr Ha Htell) as [Hn Hamount].
  destruct (webhookBody id (PaymentWebhook.Result wh) w) as [r w'] eqn:Hrun.
  pose proof (tables_intents _ Ht) as Hok. apply webhookBody_run in Hrun; [|done].
  destruct r as [resp|e|why]; [|done..]. exfalso.
  destruct Hrun as (m0 & a & p & t & mut & b & Hm0 & Hload & Hwf & Hspec & _).
  assert (m0 = m) as -> by congruence.
  apply outcomeSpec_Ok in Hspec as (Hv & _). rewrite Hn, Hamount in Hv.
  assert (Hpa : PaymentIntent.ProviderAmount p = PaymentIntentModel.ProviderAmount m).
  { destruct Hload as (p0 & c & u & v & _ & _ & _ & -> & ->).
    pose proof (pwf_intent _ _ Hwf) as Hi. cbn in Hi. injection Hi as <-. done. }
  apply success_amount in Hv. lia.
Qed.
End webhooks.

(** ** Witnesses *)

Module WithStripe.
#[local] Existing Instance caseless_unicode.
Import PaymentSample.

(** A client whose events are named by their payloads. *)
#[local] Instance SampleStripe : Stripe.StripeAPI MemoryPayments := {|
  Stripe.CheckoutSessions_New _ w :=
    (Ok (Stripe.CheckoutSession.mk "cs_1" "" "tx-1" "unpaid" 1059 "usd" None), w);
  Stripe.CheckoutSessions_Get _ w := (Ok None, w);
  Stripe.Transfers_New _ w := (Ok (Some (Stripe.Transfer.mk "tr_1")), w);
  Stripe.Refunds_New _ w := (Ok None, w);
  Stripe.ConstructEvent payload _ _ w :=
    (Ok (Stripe.Event.mk ("evt:" +:+ payload) payload "v1" (Some payload)), w);
  Stripe.DecodeSession _ := Ok (Stripe.CheckoutSession.mk "cs_1" "" "tx-1" "paid" 1059 "usd" None);
  Stripe.DecodeIntent _ := Ok (Stripe.IntentObject.mk "pi_1" {["transaction_id" := "tx-1"]}
    "requires_payment_method" 1059 "usd");
  Stripe.DecodeCharge _ := Ok (Stripe.Charge.mk "ch_1" {["transaction_id" := "tx-1"]} None "succeeded"
    true false 1059 500 "usd");
  Stripe.DecodeDispute _ := Ok (Stripe.Dispute.mk "dp_1" ∅ None None 0 "usd")
|}.

Definition stripeAccount : Stripe.Provider.t := Stripe.NewProvider "sk" "whsec" "https://ok" "https://no".

(** A payment by Stripe that waits for its checkout. *)
Definition anyProvider : paymentCommandService MemoryPayments := withRegistry (fun _ => Ok mock) service.
Definition checkout : MemoryPayments :=
  (CreatePayment anyProvider actor "tx-1" (CreatePaymentRequest.mk "stripe" 1000 "usd" ∅) empty).2.
Definition checkoutRow : PaymentIntentModel := Eval vm_compute in
  match intentRows (contents checkout) !! "tx-1" with Some m => m | None => WithMock.stuckRow end.

Lemma checkout_ok : tables_ok (contents checkout).
Proof.
  apply WithMock.reached_ok, WithMock.plain_rtc, plain_CreatePayment.
  split; [exact WithMock.memory_lock_runs|]. intros name p [= <-]. exact WithMock.mock_runs.
Qed.

(** What a payload tells. *)
Definition told (payload : string) : PaymentWebhook :=
  match (adapterParseWebhook (Stripe.stripeProvider stripeAccount) payload "sig" checkout).1 with
  | Ok wh => wh
  | _ => PaymentWebhook.mk "" true noProviderResult
  end.
Definition eventOf (payload : string) : Stripe.Event.t :=
  Stripe.Event.mk ("evt:" +:+ payload) payload "v1" (Some payload).

Definition afterDecline : MemoryPayments :=
  (webhookBody "tx-1" (PaymentWebhook.Result (told "payment_intent.payment_failed")) checkout).2.

Lemma declined_payment_is_lost_witness :
  PaymentIntentModel.Provider checkoutRow = "stripe" /\
  exists r1 r2 w3,
    webhookBody "tx-1" (PaymentWebhook.Result (told "payment_intent.payment_failed")) checkout
      = (Ok r1, afterDecline) /\
    webhookBody "tx-1" (PaymentWebhook.Result (told "checkout.session.completed")) afterDecline
      = (Ok r2, w3) /\
    ProcessWebhookResponse.Status r1 = PaymentStatusFailed /\
    ProcessWebhookResponse.Duplicate r2 = true.
Proof.
  split; [reflexivity|].
  destruct (webhookBody "tx-1" (PaymentWebhook.Result (told "payment_intent.payment_failed")) checkout)
    as [[r1|e|why] w1] eqn:Hrun1; [|vm_compute in Hrun1; discriminate Hrun1..].
  assert (Hw1 : w1 = afterDecline) by (unfold afterDecline; rewrite Hrun1; reflexivity).
  destruct (webhookBody "tx-1" (PaymentWebhook.Result (told "checkout.session.completed")) afterDecline)
    as [[r2|e|why] w3] eqn:Hrun2; [|vm_compute in Hrun2; discriminate Hrun2..].
  rewrite Hw1 in Hrun1.
  assert (Hm : intentRows (contents checkout) !! "tx-1" = Some checkoutRow) by (vm_compute; reflexivity).
  assert (Ht1 : stripeTells stripeAccount "payment_intent.payment_failed" "sig"
    (eventOf "payment_intent.payment_failed") checkout (told "payment_intent.payment_failed") checkout)
    by (split; vm_compute; reflexivity).
  assert (Ht2 : stripeTells stripeAccount "checkout.session.completed" "sig"
    (eventOf "checkout.session.completed") afterDecline (told "checkout.session.completed") afterDecline)
    by (split; vm_compute; reflexivity).
  assert (Hd : declinedAttempt (eventOf "payment_intent.payment_failed"))
    by (split; [reflexivity|eexists; reflexivity]).
  assert (Hp : paidCheckout (eventOf "checkout.session.completed"))
    by (split; [reflexivity|eexists; split; reflexivity]).
  destruct (declined_payment_is_lost (UC := caseless_unicode) (Laws := MemoryPaymentSQLLaws) stripeAccount "tx-1"
    checkoutRow "payment_intent.payment_failed" "sig" (eventOf "payment_intent.payment_failed") checkout
    (told "payment_intent.payment_failed") checkout r1 afterDecline "checkout.session.completed" "sig"
    (eventOf "checkout.session.completed") (told "checkout.session.completed") afterDecline r2 w3
    checkout_ok Hm eq_refl Hd Ht1 Hrun1 Hp Ht2 eq_refl Hrun2) as (Hr1 & Hr2 & _).
  exists r1, r2, w3. rewrite Hw1. exact (conj eq_refl (conj eq_refl (conj Hr1 Hr2))).
Defined.

(** The payment once the checkout is paid. *)
Definition paidUp : MemoryPayments :=
  (webhookBody "tx-1" (PaymentWebhook.Result (told "checkout.session.completed")) checkout).2.
Definition paidRow : PaymentIntentModel := Eval vm_compute in
  match intentRows (contents paidUp) !! "tx-1" with Some m => m | None => WithMock.stuckRow end.

Lemma partial_refund_is_rejected_witness :
  PaymentIntentModel.Status paidRow = PaymentStatusSuccess /\
  is_ok (webhookBody "tx-1" (PaymentWebhook.Result (told "charge.refunded")) paidUp).1 = false.
Proof.
  split; [reflexivity|].
  pose proof (webhook_keeps_tables (UC := caseless_unicode) (Laws := MemoryPaymentSQLLaws) "tx-1"
    (PaymentWebhook.Result (told "checkout.session.completed")) checkout checkout_ok) as Hok.
  change (tables_ok (paymentTables paidUp)) in Hok.
  assert (Hm : intentRows (contents paidUp) !! "tx-1" = Some paidRow) by (vm_compute; reflexivity).
  assert (Ht : stripeTells stripeAccount "charge.refunded" "sig" (eventOf "charge.refunded") paidUp
    (told "charge.refunded") paidUp) by (split; vm_compute; reflexivity).
  assert (Ha : 0 < 500 < PaymentIntentModel.ProviderAmount paidRow) by (split; reflexivity).
  exact (proj1 (partial_refund_is_rejected (UC := caseless_unicode) (Laws := MemoryPaymentSQLLaws) stripeAccount "tx-1"
    paidRow "charge.refunded" "sig" (eventOf "charge.refunded") _ paidUp (told "charge.refunded") paidUp Hok Hm
    eq_refl eq_refl eq_refl eq_refl Ha Ht)).
Defined.
End WithStripe.
